(* ===== verification/_CoqProject ===== *)
-Q . S2P
Prelude.v
CStr.v
McuTx.v
McuRx.v
Json.v
JsonParse.v
Cloud.v
Flashwork.v
RadioQueue.v
Led.v
Agile.v
AgileSpec.v
AgilePlay.v
World.v
WifiApi.v
WifiSpec.v
Safe.v
Register.v
Decoder.v
Heart.v
Link.v
Button.v
Debounce.v
Storage.v
EfEnv.v
EfFlash.v
EfLayout.v
EfRead.v
EfCrc.v
EfChip.v
EfStore.v
EfCache.v
EfFind.v
EfOps.v
EfAlloc.v
EfCreate.v
EfMove.v
EfLog.v
EfTorn.v
EfGc.v
EfState.v
EfCollect.v
EfGather.v
EfIdle.v
EfSet.v
EfUse.v
EfApi.v
EfBoot.v
EfRecover.v
EfStart.v
EfFresh.v
EfSession.v
EfSafe.v
Saved.v
Ota.v
Ymodem.v
YmodemSpec.v
YmodemRecv.v
YmodemTotal.v
Console.v
Protocol.v
ProtoSpec.v
Update.v
ProtoSafe.v
Ax5043.v
RadioChip.v
Radio433.v
RadioStart.v
Syswatch.v
SyswatchSpec.v
SyswatchRun.v
SyswatchPlay.v
System.v
