(* ===== verification/Prelude.v ===== *)
(** * GW_F411: a verified model of the gateway firmware

    The program is the firmware of a radio gateway.  Motor valves (main units), door
    units and water sensors talk to it by 433 MHz radio; a WiFi module on a serial line
    connects it to a cloud; two buttons, leds and a buzzer are its panel.  It
    runs on RT-Thread on an STM32F411.  This development models the firmware's own
    code ([src/applications], [src/radio], [src/wifi], [src/storage], [src/ota], and
    of the packages the partition layer [fal], the key-value store [EasyFlash],
    [button], [agile_led] and the thread watch [syswatch], and of RT-Thread the ymodem
    receiver); the operating system, the HAL and the chips are seen through what they
    document.

    ** How code becomes definitions

    C code that changes state is a function in the monad [M S A] of Prelude
    ([S -> option (A * S)]): [None] is an access outside an object, a null pointer
    or fuel that ran out, so [f s = Some _] says that [f] ends and does nothing
    undefined.  Integers are [Z] and wrap where the C type does ([u8], [u16],
    [u32], [s8], [s16], [s32]).  Arrays are lists, read and written by [aget] and
    [aset], [None] out of range.  Global variables are records.  [wp m Q s] says
    that [m] from [s] ends with [Q]; its rules are in the hint database of
    Prelude and every proof about a handler goes through them.  Loops that are
    not structural have fuel: [PARSE_FUEL], [SERVICE_FUEL], [ISSUED_FUEL] are
    bounds on the bytes of a buffer each iteration consumes, [SECTOR_FUEL] the bytes
    of a sector of the store, [SECTORS_FUEL] its two sectors, [WALK_FUEL] more than
    the steps of a turn over six leds, [FIRST_FUEL] a read that fills the
    first packet or outlasts its 100 ms; the theorems state
    that a result is produced, so that the fuel was enough.  Where the bound
    depends on the environment (the chip, the other threads) the fuel is a
    variable and the theorem says how much is needed.

    ** The parts

    - Prelude, CStr: arithmetic, the monad, the rules; [my_memcpy] and the other
      helpers of [mcu_api.c], [sprintf], [atol], [sscanf] as the code uses them.
    - McuTx, McuRx: the serial line ([system.c], [mcu_api.c]).  Frames and data
      point uploads out; the receive ring, filled by the interrupt and read by
      the thread, and the scanner [wifi_uart_service].  [parse] is the grammar of
      the line; [service_interleaving] refines it for every interleaving, in terms of
      the bytes the ring keeps; [service_total] says which calls return.
    - Json, JsonParse, Cloud: [cJSON.c] and the messages made with it.
    - Flashwork: [flashwork.c], the device table and its copy in the store (the
      class [Env]).  [bindings] abstracts the table to a finite map from ids to
      the device each is bound to; [table_ok] is its well-formedness, [synced]
      says that the store holds the same.
    - RadioQueue: [Radio_Encoder.c], the queue of packets and the thread that
      sends them.
    - Led: [led.c] as the calls it makes.  Agile: [agile_led.c], the objects of the
      leds, the list of those that run, the turn of the thread that plays patterns;
      AgileSpec: a turn as a sequence of [beat]s; AgilePlay: what a pin shows.
    - Syswatch: [syswatch.c], the hook of the scheduler and the state machine that runs
      once a second, over the objects of the threads.  SyswatchSpec: the invariant;
      SyswatchRun: the phases of a run; SyswatchPlay: [watch_safe], [healthy_untouched],
      [hog_stopped], [stopped_restarted].
    - World: the state the threads share, as one record with a lens ([Lens]) for
      each part, so that a part's operation is used in the whole by [on].
    - WifiApi, WifiSpec, Register: [wifi-api.c], its effect on the map and the
      messages it sends.
    - Decoder: [Radio_Decoder.c], the packets of the devices.
    - Heart: [heart.c], polling the main units.
    - Link: resetting the module, the state of the connection, the factory test.
    - Button, Debounce: [device.c] and [key.c], presses, gestures and their effects;
      the button package, from the levels of the pins to presses.
    - Storage: [fal_partition.c] and the two ports, over chips that are a class.
    - EfEnv: the store EasyFlash, [ef_env.c] with both caches, the check sum of
      [ef_utils.c], [easyflash.c].  Its theory goes from the bytes up: EfFlash (the
      class [FlashDoc]: a chip with the contents it goes through on the way; EfChip is
      one), EfLayout (a sector as a list of records), EfRead, EfStore, EfCache,
      EfFind (reading follows the list), EfOps, EfAlloc, EfCreate, EfMove (changing
      it), EfTorn (records cut off by a loss of power), EfLog, EfState (the map a log
      stands for; [recoverable] layouts), EfGc, EfGather, EfCollect (the
      collection), EfIdle, EfSet, EfUse, EfApi (the calls on a store at rest), EfRecover,
      EfBoot, EfStart, EfFresh (starting), EfSession (the specification over
      finite maps), EfSafe (its theorems), EfCrc.  Saved: the device table on it.
    - Ota: [wifi_ota.c] and the callbacks of [ymodem_ota.c], the download of new firmware.
    - Ymodem: the receiving half of [ymodem.c] on a line whose bytes arrive in time;
      YmodemSpec: reading from it; YmodemRecv: a whole transfer; YmodemTotal: any
      line.  Console: the command [ymodem_ota].
    - Protocol, ProtoSpec, Update, ProtoSafe: the dispatcher [data_handle], the
      handlers of [protocol.c], what each command does, a whole update session,
      and which commands are safe.
    - Safe: [world_ok], the invariant of [World], and that each operation keeps
      it; [safe] is the predicate used by Decoder, Heart, Link, ProtoSafe, System.
    - Ax5043, RadioChip, Radio433, RadioStart: the driver of the radio chip
      ([Radio_Drv.c], [Radio_Common.c]), the thread that serves its interrupts and
      its start ([Radio_433.c]).  The chip is the class [ChipDoc]: registers that
      hold what is written, power modes, a FIFO in each direction; RadioChip is
      a concrete chip that satisfies it.
    - System: [main.c]; the threads, timers and interrupts as events of one
      transition system, [reachable] states, [gateway_ok], the invariant.

    ** What is shown

    - Of the whole program: every reachable state is good, and from it every
      admissible event ends ([gateway_invariant]); a power failure or a removal
      from the account leads back to a start with the right devices
      ([power_cycle_restores], [account_removal_restarts]).
    - Messages in: bytes to frames ([service_interleaving], [service_total],
      [frame_loopback], [ring_is_fifo]), frames to effects ([command_safe],
      [control_issued], [device_list_recorded], [heart_query_answered],
      [delete_command], [module_update]), packets to effects ([packet_safe],
      [foreign_packet_ignored], [device_registered], [warning_reported]).
    - The store: its calls, starts and returns to the defaults are those of a finite
      map ([session_refines]); a loss of power after any byte of a write or any
      block of an erasure leaves the variables of before or behind some call, and the
      next start ends ([power_cut_safe]); the collection of deleted records loses
      nothing ([collection_keeps]); the check sum is CRC-32 ([crc32_bitwise_eq]); the
      device table comes back ([table_survives]).
    - The panel: whatever is asked of the leds, every call and turn of their
      driver ends ([panel_safe]), the leds are in the state asked for last
      ([calls_shown]), a led shows its pattern and no more loops than asked for
      ([led_plays]), and all of them when turns come ([led_ends]).
    - The thread watch: it fails no assertion and reads no freed object but the type
      of a thread it stopped ([watch_safe]), leaves a system alone
      whose idle thread runs within a minute ([healthy_untouched]), stops a thread that
      keeps the processor ([hog_stopped]) and starts it anew ([stopped_restarted]).
    - The table: lookups, insertion, removal refine operations on the map
      ([lookups_refine], [add_device_refines], [main_unbind_removes],
      [set_heart_reports], [restart_restores]).
    - The radio: what is queued is sent in order ([radio_queue_fifo],
      [radio_queue_drains]), what is sent is framed and understood ([radio_link],
      [radio_send_understood]), whatever is heard is survived ([reception_safe]),
      and the chip ends up listening after a start ([radio_starts]) and after each
      transmission ([sending_ends]).
    - The flash: partitions do not disturb each other ([partition_isolates],
      [download_isolated]), erasing covers its range but for what an unaligned start
      leaves ([sector_erase_covers]), the
      downloads assemble the image ([download_assembles],
      [console_download_assembles]); an update from the console, from the bytes on
      the line to the image ([console_update]); the ymodem receiver ends on any
      line ([receiver_total]).
    - Timing: silent units, retries, gestures ([silent_unit_goes_offline],
      [heart_cycle_ends], [reset_retries], [button_reports],
      [gestures_recognised], [holding_makes_gesture]).
    - JSON: [parse_printed].
    - Where the code goes wrong, a lemma next to the component shows it
      ([length_field_overrun], [ring_overrun_loses_all], [open_brace_overruns],
      [other_points], [issued_length_hangs], [long_list_overruns],
      [oversized_chunk_overruns], [last_row_unwritten], [repeated_block_doubles],
      [unterminated_header_overruns], ...); the hypotheses of
      the safety theorems ([acceptable], [admissible], [short_packet], [lone_feed]) leave out
      these inputs and no others that were found.

    ** Not modelled

    - Preemption inside a handler: an event of System is atomic.  McuRx is the
      exception, where bytes arrive between calls, and [preempted_reset_loses]
      shows the one place where it was found to matter.
    - Of EasyFlash: [ef_print_env], which only prints, [ef_log.c], [ef_iap.c], the two
      legacy stores, and other write granularities, which are not configured.  The
      theorems ask that names and values are text, that no name is taken for another
      by the cache ([clash_free]), and that what is set fits with the bytes torn
      records have cost ([J]).  [power_cut_safe] cuts a run of calls that begins at rest;
      a second loss of power during the start that follows is not covered.
    - Of [agile_led]: [agile_led_toggle], which is not called.  [led_plays] is about
      a led whose pin no other running led has ([alone]); the buzzer's two handles
      share theirs.
    - The sending half of [ymodem.c], which is not called.  [console_update] and
      [receiver_total] are about lines that end before the tick counter wraps.
    - Of [syswatch]: the modes 0 and 1, which are not configured.  The kernel under it is
      the threads' objects with their type, state and priority; [watch_safe] leaves out a
      static thread that ends by itself while it is the suspect
      ([ended_suspect_asserts]).  The watch reads the type word of threads it stopped,
      be they freed or not; the reads are recorded ([freed_reads]), [watch_safe] says
      that there are no others, and assumes that such a word does not read as static.
    - HAL and the rest of RT-Thread: third-party code.  A semaphore is its count, a timer is
      whether it runs, a delay is the end of an event.
    - Log output, except where an argument of a log macro has an effect
      ([heart.c], [device.c]); the configured build evaluates it.
    - The watchdog, the power pin and the setup of buses, pins and threads.
    - The start into the factory test and, in System, the gesture of the factory
      reset: after it the store and the table in memory differ until the module
      answers, which the invariant excludes on purpose.
    - System and Radio433 meet in [rf433_rx_callback]: a packet is an event of
      System with the arguments [received_packet] passes. *)

From stdpp Require Export base tactics numbers list list_numbers option gmap.
From Stdlib Require Export ZArith Lia.


Declare Scope gw_scope.
Delimit Scope gw_scope with gw.
#[global] Open Scope Z_scope.
#[global] Open Scope gw_scope.

(** ** Machine integers

    A value of a C integer type is a [Z]; the conversions below are what an
    assignment to a variable of that type does. *)

Definition u8 (x : Z) : Z := x mod 2 ^ 8.
Definition u16 (x : Z) : Z := x mod 2 ^ 16.
Definition u32 (x : Z) : Z := x mod 2 ^ 32.
Definition s8 (x : Z) : Z := (x + 2 ^ 7) mod 2 ^ 8 - 2 ^ 7.
Definition s16 (x : Z) : Z := (x + 2 ^ 15) mod 2 ^ 16 - 2 ^ 15.
Definition s32 (x : Z) : Z := (x + 2 ^ 31) mod 2 ^ 32 - 2 ^ 31.

(** A byte, a list of bytes. *)
Definition is_byte (b : Z) : Prop := 0 <= b < 256.
Abbreviation bytes_ok := (Forall is_byte).

#[export] Instance is_byte_dec b : Decision (is_byte b).
Proof. unfold is_byte; apply _. Defined.

(** The length of a list as a C quantity. *)
Definition zlen {A} (l : list A) : Z := Z.of_nat (length l).

Lemma zlen_nil {A} : zlen (@nil A) = 0.
Proof. done. Qed.

Lemma zlen_cons {A} (x : A) l : zlen (x :: l) = 1 + zlen l.
Proof. unfold zlen; simpl; lia. Qed.

Lemma zlen_app {A} (l1 l2 : list A) : zlen (l1 ++ l2) = zlen l1 + zlen l2.
Proof. unfold zlen; rewrite length_app; lia. Qed.

Lemma zlen_nonneg {A} (l : list A) : 0 <= zlen l.
Proof. unfold zlen; lia. Qed.

Lemma land_255 b : is_byte b -> Z.land 255 b = b.
Proof.
  intros Hb. rewrite Z.land_comm. change 255 with (Z.ones 8). rewrite Z.land_ones by lia.
  apply Z.mod_small. exact Hb.
Qed.

Lemma u8_byte x : is_byte (u8 x).
Proof. unfold is_byte, u8; apply Z.mod_pos_bound; lia. Qed.

Lemma u8_small x : is_byte x -> u8 x = x.
Proof. unfold is_byte, u8; intros; apply Z.mod_small; lia. Qed.

Lemma u16_small x : 0 <= x < 65536 -> u16 x = x.
Proof. unfold u16; intros; apply Z.mod_small; lia. Qed.

Lemma u32_small x : 0 <= x < 4294967296 -> u32 x = x.
Proof. unfold u32; intros; apply Z.mod_small; lia. Qed.

Lemma u8_range x : 0 <= u8 x < 256.
Proof. apply u8_byte. Qed.

Lemma u16_range x : 0 <= u16 x < 65536.
Proof. unfold u16; apply Z.mod_pos_bound; lia. Qed.

Lemma u32_range x : 0 <= u32 x < 4294967296.
Proof. unfold u32; apply Z.mod_pos_bound; lia. Qed.

Lemma s32_small x : - 2 ^ 31 <= x < 2 ^ 31 -> s32 x = x.
Proof. intros; unfold s32; rewrite Z.mod_small; lia. Qed.

Lemma u32_s32 x : u32 (s32 x) = u32 x.
Proof.
  unfold u32, s32.
  rewrite Zminus_mod_idemp_l. f_equal. lia.
Qed.

Lemma u8_idemp x : u8 (u8 x) = u8 x.
Proof. apply u8_small, u8_byte. Qed.

(** ** Arrays with bounds

    Reading or writing outside an object is undefined in C: it is [None]. *)

Definition aget {A} (l : list A) (i : Z) : option A :=
  if 0 <=? i then l !! Z.to_nat i else None.

Definition aset {A} (l : list A) (i : Z) (v : A) : option (list A) :=
  if (0 <=? i) && (i <? zlen l) then Some (<[Z.to_nat i := v]> l) else None.

Lemma aget_lookup {A} (l : list A) i : 0 <= i -> aget l i = l !! Z.to_nat i.
Proof. intros; unfold aget. destruct (Z.leb_spec 0 i); [done | lia]. Qed.

Lemma aget_Some {A} (l : list A) i x :
  aget l i = Some x <-> 0 <= i /\ l !! Z.to_nat i = Some x.
Proof.
  unfold aget. destruct (Z.leb_spec 0 i); split; [by auto | by intros [_ ?] | done | lia].
Qed.

Lemma aget_is_Some {A} (l : list A) i : 0 <= i < zlen l -> is_Some (aget l i).
Proof.
  unfold zlen; intros. rewrite aget_lookup by lia. apply lookup_lt_is_Some. lia.
Qed.

Lemma aget_None {A} (l : list A) i : i < 0 \/ zlen l <= i -> aget l i = None.
Proof.
  unfold aget, zlen. destruct (Z.leb_spec 0 i); [|done].
  intros. apply lookup_ge_None. lia.
Qed.

Lemma aget_bound {A} (l : list A) i x : aget l i = Some x -> 0 <= i < zlen l.
Proof.
  rewrite aget_Some; intros [? H]. apply lookup_lt_Some in H. unfold zlen; lia.
Qed.

Lemma aset_ok {A} (l : list A) i v :
  0 <= i < zlen l -> aset l i v = Some (<[Z.to_nat i := v]> l).
Proof.
  intros. unfold aset.
  destruct (Z.leb_spec 0 i), (Z.ltb_spec i (zlen l)); simpl; (done || lia).
Qed.

Lemma aset_Some {A} (l l' : list A) i v :
  aset l i v = Some l' -> 0 <= i < zlen l /\ l' = <[Z.to_nat i := v]> l.
Proof.
  unfold aset.
  destruct (Z.leb_spec 0 i), (Z.ltb_spec i (zlen l)); simpl; intros; simplify_eq; (done || lia).
Qed.

Lemma aset_None {A} (l : list A) i v : i < 0 \/ zlen l <= i -> aset l i v = None.
Proof.
  unfold aset. destruct (Z.leb_spec 0 i), (Z.ltb_spec i (zlen l)); simpl; (done || lia).
Qed.

Lemma zlen_insert {A} (l : list A) i v : zlen (<[i := v]> l) = zlen l.
Proof. unfold zlen; by rewrite length_insert. Qed.

Lemma aget_insert_eq {A} (l : list A) i v :
  0 <= i < zlen l -> aget (<[Z.to_nat i := v]> l) i = Some v.
Proof.
  unfold zlen; intros. rewrite aget_lookup by lia. apply list_lookup_insert_eq. lia.
Qed.

Lemma aget_insert_ne {A} (l : list A) i j v :
  0 <= i -> i <> j -> aget (<[Z.to_nat i := v]> l) j = aget l j.
Proof.
  intros. unfold aget. destruct (Z.leb_spec 0 j); [|done].
  apply list_lookup_insert_ne. lia.
Qed.

(** The [n] elements from index [i] on. *)
Definition slice {A} (l : list A) (i n : Z) : list A :=
  take (Z.to_nat n) (drop (Z.to_nat i) l).

Lemma slice_app_exact {A} (a b c : list A) :
  slice (a ++ b ++ c) (zlen a) (zlen b) = b.
Proof.
  unfold slice, zlen. rewrite !Nat2Z.id, drop_app_length, take_app_length. done.
Qed.

(** ** Programs: state passing with undefined behaviour

    [M S A] is a C function with side effects on [S] and result [A]; [None] is
    an access outside an object, a null dereference or the like. *)

Definition M (S A : Type) : Type := S -> option (A * S).

Section Monad.
Context {S : Type}.

Definition ret {A} (a : A) : M S A := fun s => Some (a, s).

Definition bind {A B} (m : M S A) (k : A -> M S B) : M S B :=
  fun s => match m s with
           | Some (a, s') => k a s'
           | None => None
           end.

Definition fault {A} : M S A := fun _ => None.

Definition get : M S S := fun s => Some (s, s).

Definition gets {A} (f : S -> A) : M S A := fun s => Some (f s, s).

Definition modify (f : S -> S) : M S unit := fun s => Some (tt, f s).

Definition lift_opt {A} (o : option A) : M S A :=
  fun s => match o with Some a => Some (a, s) | None => None end.

(** An array element of the state. *)
Definition rd {A} (f : S -> list A) (i : Z) : M S A :=
  fun s => lift_opt (aget (f s) i) s.

Definition wr {A} (f : S -> list A) (upd : list A -> S -> S) (i : Z) (v : A) : M S unit :=
  fun s => match aset (f s) i v with
           | Some l => Some (tt, upd l s)
           | None => None
           end.

End Monad.

Notation "'do' x <- m ; k" := (bind m (fun x => k))
  (at level 10, x binder, m at level 100, k at level 200) : gw_scope.
Notation "'run' m ; k" := (bind m (fun _ => k))
  (at level 10, m at level 100, k at level 200) : gw_scope.

(** A computation on a part [S] of a larger state [W]. *)
Definition zoom {W S A} (g : W -> S) (p : S -> W -> W) (m : M S A) : M W A :=
  fun w => match m (g w) with
           | Some (a, s') => Some (a, p s' w)
           | None => None
           end.

(** [iter_up n i body] is the loop [for (; n > 0; n--, i++) body(i)]. *)
Fixpoint iter_up {S} (n : nat) (i : Z) (body : Z -> M S unit) : M S unit :=
  match n with
  | O => ret tt
  | Datatypes.S n' => run body i; iter_up n' (i + 1) body
  end.

Section MonadLemmas.
Context {S : Type}.

Lemma bind_Some {A B} (m : M S A) (k : A -> M S B) s a s' :
  m s = Some (a, s') -> bind m k s = k a s'.
Proof. intros H; unfold bind; by rewrite H. Qed.

Lemma bind_inv {A B} (m : M S A) (k : A -> M S B) s r :
  bind m k s = Some r -> exists a s', m s = Some (a, s') /\ k a s' = Some r.
Proof. unfold bind; destruct (m s) as [[a s']|] eqn:E; [eauto | done]. Qed.

Lemma bind_ret_l {A B} (a : A) (k : A -> M S B) s : bind (ret a) k s = k a s.
Proof. done. Qed.

Lemma bind_assoc {A B C} (m : M S A) (k : A -> M S B) (h : B -> M S C) s :
  bind (bind m k) h s = bind m (fun a => bind (k a) h) s.
Proof. unfold bind; by destruct (m s) as [[a s']|]. Qed.

Lemma bind_ext {A B} (m : M S A) (k k' : A -> M S B) s :
  (forall a s', k a s' = k' a s') -> bind m k s = bind m k' s.
Proof. intros Hk. unfold bind. by destruct (m s) as [[a s']|]. Qed.

Lemma rd_Some {A} (f : S -> list A) i s x :
  aget (f s) i = Some x -> rd f i s = Some (x, s).
Proof. intros H; unfold rd; by rewrite H. Qed.

Lemma wr_ok {A} (f : S -> list A) upd i v s :
  0 <= i < zlen (f s) ->
  wr f upd i v s = Some (tt, upd (<[Z.to_nat i := v]> (f s)) s).
Proof. intros; unfold wr; by rewrite aset_ok. Qed.

End MonadLemmas.

(** ** Tactics *)

(** Split the comparisons a condition is made of. *)
Ltac cases_Z :=
  repeat match goal with
  | H : context [Z.eqb ?a ?b] |- _ => destruct (Z.eqb_spec a b)
  | H : context [Z.ltb ?a ?b] |- _ => destruct (Z.ltb_spec a b)
  | H : context [Z.leb ?a ?b] |- _ => destruct (Z.leb_spec a b)
  | |- context [Z.eqb ?a ?b] => destruct (Z.eqb_spec a b)
  | |- context [Z.ltb ?a ?b] => destruct (Z.ltb_spec a b)
  | |- context [Z.leb ?a ?b] => destruct (Z.leb_spec a b)
  end.

(** Decompose a successful run into the runs of its steps. *)
Ltac inv_run :=
  repeat match goal with
  | H : bind _ _ _ = Some _ |- _ =>
      apply bind_inv in H; destruct H as (? & ? & ? & ?)
  end.

Create HintDb gw.
Create Rewrite HintDb gw.
#[export] Hint Rewrite @zlen_nil @zlen_cons @zlen_app @zlen_insert : gw.
#[export] Hint Resolve u8_byte zlen_nonneg : gw.

(** ** Total correctness

    [wp m Q s]: run from [s], [m] does not go wrong and ends in a result and a
    state that satisfy [Q]. *)

Definition wp {S A} (m : M S A) (Q : A -> S -> Prop) (s : S) : Prop :=
  match m s with Some (a, s') => Q a s' | None => False end.

Section WP.
Context {S : Type}.

Lemma wp_ret {A} (a : A) (Q : A -> S -> Prop) s : Q a s -> wp (ret a) Q s.
Proof. done. Qed.

Lemma wp_bind {A B} (m : M S A) (k : A -> M S B) Q s :
  wp m (fun a s' => wp (k a) Q s') s -> wp (bind m k) Q s.
Proof. unfold wp, bind. by destruct (m s) as [[a s']|]. Qed.

Lemma wp_conseq {A} (m : M S A) (P Q : A -> S -> Prop) s :
  wp m P s -> (forall a s', P a s' -> Q a s') -> wp m Q s.
Proof. unfold wp. destruct (m s) as [[a s']|]; [by eauto | done]. Qed.

Lemma wp_gets {A} (f : S -> A) (Q : A -> S -> Prop) s : Q (f s) s -> wp (gets f) Q s.
Proof. done. Qed.

Lemma wp_modify f (Q : unit -> S -> Prop) s : Q tt (f s) -> wp (modify f) Q s.
Proof. done. Qed.

Lemma wp_lift_opt {A} (o : option A) x (Q : A -> S -> Prop) s :
  o = Some x -> Q x s -> wp (lift_opt o) Q s.
Proof. by intros ->. Qed.

Lemma wp_rd {A} (f : S -> list A) i (Q : A -> S -> Prop) s :
  0 <= i < zlen (f s) -> (forall x, aget (f s) i = Some x -> Q x s) -> wp (rd f i) Q s.
Proof.
  intros Hi HQ. destruct (aget_is_Some (f s) i Hi) as [x Hx].
  unfold wp. rewrite (rd_Some f i s x Hx). by apply HQ.
Qed.

Lemma wp_wr {A} (f : S -> list A) upd i v (Q : unit -> S -> Prop) s :
  0 <= i < zlen (f s) -> Q tt (upd (<[Z.to_nat i := v]> (f s)) s) -> wp (wr f upd i v) Q s.
Proof. intros Hi HQ. unfold wp. by rewrite wr_ok. Qed.

Lemma wp_Some {A} (m : M S A) Q s :
  wp m Q s <-> exists a s', m s = Some (a, s') /\ Q a s'.
Proof.
  unfold wp. destruct (m s) as [[a s']|]; split; try done; [by eauto| |by intros (?&?&?&?)].
  intros (? & ? & [= <- <-] & ?); done.
Qed.

Lemma wp_zoom {W A} (g : W -> S) (p : S -> W -> W) (m : M S A) (Q : A -> W -> Prop) w :
  wp m (fun a s' => Q a (p s' w)) (g w) -> wp (zoom g p m) Q w.
Proof. unfold wp, zoom. by destruct (m (g w)) as [[a s']|]. Qed.
End WP.
