(* ===== verification/CStr.v ===== *)
(** * C strings and byte buffers

    The helper functions of [src/wifi/mcu_api.c] on bytes and strings
    ([my_memcpy], [my_strcmp], [int_to_byte], ...) and the conversions of the C
    library the firmware uses: [sprintf] with [%ld], [%0Nld], and [atol] and
    the integer directives of [sscanf].  Bytes are integers in [0, 256). *)

From Stdlib Require Import Ascii String.
From S2P Require Import Prelude.

(** The bytes of a string literal, without the terminating zero. *)
Definition str (s : string) : list Z :=
  map (fun a => Z.of_N (N_of_ascii a)) (list_ascii_of_string s).

(** ** Byte and word conversions ([mcu_api.c]) *)

Definition hex_nibble_high (v : Z) : Z :=
  if (48 <=? v) && (v <=? 57) then u8 (v - 48)
  else if (65 <=? v) && (v <=? 70) then u8 (v - 65 + 10)
  else if (97 <=? v) && (v <=? 102) then u8 (v - 97 + 10)
  else v.

Definition hex_nibble_low (v : Z) : Z :=
  if (48 <=? v) && (v <=? 57) then u8 (v - 48)
  else if (65 <=? v) && (v <=? 70) then u8 (v - 97 + 10)
  else if (97 <=? v) && (v <=? 102) then u8 (v - 97 + 10)
  else v.

Definition hex_to_bcd (Value_H Value_L : Z) : Z :=
  let bcd_value := Z.land (hex_nibble_high Value_H) 15 in
  let bcd_value := u8 (Z.shiftl bcd_value 4) in
  Z.lor bcd_value (Z.land (hex_nibble_low Value_L) 15).

Definition int_to_byte (number : Z) : list Z :=
  [u8 (Z.shiftr number 24); u8 (Z.shiftr number 16);
   u8 (Z.shiftr number 8); u8 (Z.land number 255)].

Definition byte_to_int (value : list Z) : option Z :=
  match value with
  | v0 :: v1 :: v2 :: v3 :: _ =>
      let n := v0 in
      let n := Z.lor (u32 (Z.shiftl n 8)) v1 in
      let n := Z.lor (u32 (Z.shiftl n 8)) v2 in
      Some (Z.lor (u32 (Z.shiftl n 8)) v3)
  | _ => None
  end.

(** ** Memory functions

    Memory is one byte array, a pointer into it an index; [None] is the null
    pointer. *)

Fixpoint strlen_loop (mem : list Z) (len : Z) : option Z :=
  match mem with
  | [] => None
  | b :: r => if b =? 0 then Some len else strlen_loop r (u32 (len + 1))
  end.

Definition my_strlen (s : option (list Z)) : option Z :=
  match s with
  | None => Some 0
  | Some mem => strlen_loop mem 0
  end.

Fixpoint memset_loop (mem : list Z) (tmp ch : Z) (count : nat) : option (list Z) :=
  match count with
  | O => Some mem
  | S n => match aset mem tmp ch with
           | Some mem' => memset_loop mem' (tmp + 1) ch n
           | None => None
           end
  end.

Definition my_memset (mem : list Z) (src : option Z) (ch count : Z) : option (list Z) :=
  match src with
  | None => Some mem
  | Some p => memset_loop mem p ch (Z.to_nat count)
  end.

(** One element of a copy: [pdest[i] = psrc[i]]. *)
Definition copy_byte (mem : list Z) (pdest psrc i : Z) : option (list Z) :=
  match aget mem (psrc + i) with
  | Some b => aset mem (pdest + i) b
  | None => None
  end.

Fixpoint copy_up (n : nat) (mem : list Z) (pdest psrc i : Z) : option (list Z) :=
  match n with
  | O => Some mem
  | S n' => match copy_byte mem pdest psrc i with
            | Some mem' => copy_up n' mem' pdest psrc (i + 1)
            | None => None
            end
  end.

Fixpoint copy_down (n : nat) (mem : list Z) (pdest psrc : Z) : option (list Z) :=
  match n with
  | O => Some mem
  | S n' => match copy_byte mem pdest psrc (Z.of_nat n') with
            | Some mem' => copy_down n' mem' pdest psrc
            | None => None
            end
  end.

Definition my_memcpy (mem : list Z) (dest src : option Z) (count : Z) : option (list Z) :=
  match dest, src with
  | Some pdest, Some psrc =>
      if (pdest <=? psrc) || (psrc + count <? pdest)
      then copy_up (Z.to_nat count) mem pdest psrc 0
      else copy_down (Z.to_nat count) mem pdest psrc
  | _, _ => Some mem
  end.

(** [my_memcpy] between two different objects: both directions of the copy give
    the same result, [len] bytes of [src] at [dest]. *)
Definition blit (mem : list Z) (dest : Z) (src : list Z) (count : Z) : option (list Z) :=
  if (0 <=? count) && (count <=? zlen src) && (0 <=? dest) && (dest + count <=? zlen mem)
  then Some (take (Z.to_nat dest) mem ++ take (Z.to_nat count) src
             ++ drop (Z.to_nat (dest + count)) mem)
  else None.

Fixpoint my_strcmp (s1 s2 : list Z) : option Z :=
  match s1, s2 with
  | a :: r1, b :: r2 =>
      if negb (a =? 0) && negb (b =? 0) && (a =? b) then my_strcmp r1 r2
      else Some (a - b)
  | _, _ => None
  end.

(** ** Decimal output *)

Fixpoint dec_fuel (fuel : nat) (n : Z) : list Z :=
  match fuel with
  | O => []
  | S f => if n <? 10 then [48 + n] else dec_fuel f (n / 10) ++ [48 + n mod 10]
  end.

(** The digits of a natural number; the fuel is at least their number. *)
Definition dec (n : Z) : list Z := dec_fuel (S (Z.to_nat (Z.log2 n))) n.

Definition zpad (w : Z) (l : list Z) : list Z :=
  replicate (Z.to_nat (w - zlen l)) 48 ++ l.

(** [%d] and [%ld]; [%0wd] and [%0wld]. *)
Definition fmt_d (v : Z) : list Z :=
  if v <? 0 then 45 :: dec (- v) else dec v.

Definition fmt_0d (w v : Z) : list Z :=
  if v <? 0 then 45 :: zpad (w - 1) (dec (- v)) else zpad w (dec v).

(** [sprintf(buf, "%ld", x)] for an [uint32_t x]: the argument is read as a
    [long], which has 32 bits. *)
Definition fmt_ld (x : Z) : list Z := fmt_d (s32 x).

(** ** Decimal input *)

Definition is_space (c : Z) : bool := (c =? 32) || ((9 <=? c) && (c <=? 13)).
Definition is_digit (c : Z) : bool := (48 <=? c) && (c <=? 57).

Fixpoint skip_spaces (l : list Z) : list Z :=
  match l with
  | c :: r => if is_space c then skip_spaces r else l
  | [] => []
  end.

Fixpoint scan_digits (l : list Z) (acc : Z) : Z * list Z :=
  match l with
  | c :: r => if is_digit c then scan_digits r (acc * 10 + (c - 48)) else (acc, l)
  | [] => (acc, [])
  end.

(** [LONG_MIN] and [LONG_MAX] bound the result of a conversion. *)
Definition clamp32 (v : Z) : Z := Z.max (- 2 ^ 31) (Z.min v (2 ^ 31 - 1)).

(** An optional sign and at least one digit. *)
Definition scan_number (l : list Z) : option (Z * list Z) :=
  let '(neg, l1) := match l with
                    | c :: r => if c =? 45 then (true, r)
                                else if c =? 43 then (false, r) else (false, l)
                    | [] => (false, [])
                    end in
  match l1 with
  | c :: _ => if is_digit c
              then let '(v, r) := scan_digits l1 0 in
                   Some (clamp32 (if neg : bool then - v else v), r)
              else None
  | [] => None
  end.

Definition scan_int (l : list Z) : option (Z * list Z) := scan_number (skip_spaces l).

(** [atol] on a string given by its characters. *)
Definition atol (l : list Z) : Z :=
  match scan_int l with Some (v, _) => v | None => 0 end.

(** The characters of a string, which must end inside its array. *)
Fixpoint c_string (mem : list Z) : option (list Z) :=
  match mem with
  | [] => None
  | c :: r => if c =? 0 then Some [] else option_map (cons c) (c_string r)
  end.

(** ** Lemmas *)

Lemma c_string_ends l j : l !! j = Some 0 -> is_Some (c_string l).
Proof.
  revert j. induction l as [|c l IH]; intros [|j] Hj; try done; cbn [c_string].
  - injection Hj as ->. by eexists.
  - destruct (c =? 0); [by eexists|]. destruct (IH j Hj) as [s ->]. by eexists.
Qed.

Lemma c_string_drop l j n : l !! j = Some 0 -> (n <= j)%nat -> is_Some (c_string (drop n l)).
Proof.
  intros Hj Hn. apply (c_string_ends _ (j - n)). rewrite lookup_drop. by replace (n + (j - n))%nat with j by lia.
Qed.

Lemma c_string_text t r : Forall (fun b => b <> 0) t -> c_string (t ++ 0 :: r) = Some t.
Proof.
  induction t as [|c t IH]; intros Ht; [done|]. apply Forall_cons_1 in Ht as [Hc Ht].
  cbn [app c_string]. rewrite (proj2 (Z.eqb_neq c 0)) by done. by rewrite IH.
Qed.

Lemma digit_48 d : 0 <= d < 10 -> is_digit (48 + d) = true.
Proof. intros; unfold is_digit; cases_Z; simpl; lia. Qed.

Definition digits_value (l : list Z) (a : Z) : Z :=
  fold_left (fun a d => a * 10 + (d - 48)) l a.

Lemma scan_digits_app l r a :
  Forall (fun d => is_digit d = true) l ->
  scan_digits (l ++ r) a = scan_digits r (digits_value l a).
Proof.
  intros H; revert a; induction H as [|d l Hd _ IH]; intros a; [done|].
  simpl; rewrite Hd; apply IH.
Qed.

Lemma dec_fuel_digits f n : 0 <= n -> Forall (fun d => is_digit d = true) (dec_fuel f n).
Proof.
  revert n; induction f as [|f IH]; intros n Hn; simpl; [done|].
  destruct (Z.ltb_spec n 10).
  - repeat constructor. apply digit_48; lia.
  - apply Forall_app; split; [apply IH; apply Z.div_pos; lia|].
    repeat constructor. apply digit_48. apply Z.mod_pos_bound; lia.
Qed.

Lemma dec_fuel_value f n :
  0 <= n < 2 ^ Z.of_nat f -> digits_value (dec_fuel f n) 0 = n.
Proof.
  revert n; induction f as [|f IH]; intros n Hn; [simpl in *; lia|].
  rewrite Nat2Z.inj_succ, Z.pow_succ_r in Hn by lia.
  cbn [dec_fuel]. destruct (Z.ltb_spec n 10); [cbn; lia|].
  unfold digits_value; rewrite fold_left_app; cbn [fold_left].
  fold (digits_value (dec_fuel f (n / 10)) 0). rewrite IH.
  - pose proof (Z.div_mod n 10); lia.
  - split; [apply Z.div_pos; lia|]. apply Z.div_lt_upper_bound; lia.
Qed.

Lemma dec_fuel_enough n : 0 <= n -> n < 2 ^ Z.of_nat (S (Z.to_nat (Z.log2 n))).
Proof.
  intros. rewrite Nat2Z.inj_succ, Z2Nat.id by apply Z.log2_nonneg.
  destruct (Z.eq_dec n 0) as [-> | ]; [cbn; lia|].
  apply Z.log2_spec; lia.
Qed.

Lemma dec_digits n : 0 <= n -> Forall (fun d => is_digit d = true) (dec n).
Proof. apply dec_fuel_digits. Qed.

Lemma dec_value n : 0 <= n -> digits_value (dec n) 0 = n.
Proof. intros; apply dec_fuel_value; split; [done|]; by apply dec_fuel_enough. Qed.

Lemma dec_nonempty n : dec n <> [].
Proof.
  unfold dec; cbn [dec_fuel]; destruct (n <? 10); [done|]. by intros [_ ?]%app_eq_nil.
Qed.

Lemma is_digit_range c : is_digit c = true -> 48 <= c <= 57.
Proof. unfold is_digit; intros; cases_Z; simpl in *; (done || lia). Qed.

Lemma digit_not_sign c : is_digit c = true -> c <> 45 /\ c <> 43 /\ is_space c = false.
Proof. unfold is_digit, is_space; intros; cases_Z; simpl in *; (done || lia). Qed.

(** A number's text followed by a character that ends it is read back. *)
Definition no_digit_head (r : list Z) : Prop :=
  match r with c :: _ => is_digit c = false | [] => True end.

Lemma scan_digits_stop r a : no_digit_head r -> scan_digits r a = (a, r).
Proof. destruct r as [|c r]; simpl; [done|]. by intros ->. Qed.

Lemma scan_number_digits l r :
  l <> [] -> Forall (fun d => is_digit d = true) l -> no_digit_head r ->
  scan_number (l ++ r) = Some (clamp32 (digits_value l 0), r).
Proof.
  intros Hne Hd Hr. destruct l as [|d l]; [done|].
  pose proof (proj1 (Forall_cons_1 _ _ _ Hd)) as Hd0.
  unfold scan_number; cbn [app].
  destruct (digit_not_sign d Hd0) as (H1 & H2 & _).
  destruct (Z.eqb_spec d 45), (Z.eqb_spec d 43); try done.
  cbn [app]. rewrite Hd0. change (d :: l ++ r) with ((d :: l) ++ r).
  by rewrite scan_digits_app, scan_digits_stop.
Qed.

Lemma scan_number_neg l r :
  l <> [] -> Forall (fun d => is_digit d = true) l -> no_digit_head r ->
  scan_number (45 :: l ++ r) = Some (clamp32 (- digits_value l 0), r).
Proof.
  intros Hne Hd Hr. destruct l as [|d l]; [done|].
  pose proof (proj1 (Forall_cons_1 _ _ _ Hd)) as Hd0.
  unfold scan_number. rewrite Z.eqb_refl. cbn [app]. rewrite Hd0.
  change (d :: l ++ r) with ((d :: l) ++ r).
  by rewrite scan_digits_app, scan_digits_stop.
Qed.

Lemma clamp32_small v : - 2 ^ 31 <= v < 2 ^ 31 -> clamp32 v = v.
Proof. unfold clamp32; lia. Qed.

Lemma skip_spaces_digit c r : is_space c = false -> skip_spaces (c :: r) = c :: r.
Proof. intros H; simpl; by rewrite H. Qed.

Lemma scan_int_digits l r :
  l <> [] -> Forall (fun d => is_digit d = true) l -> no_digit_head r ->
  scan_int (l ++ r) = Some (clamp32 (digits_value l 0), r).
Proof.
  intros Hne Hd Hr. unfold scan_int.
  destruct l as [|d l]; [done|].
  rewrite <- app_comm_cons, skip_spaces_digit, app_comm_cons.
  - by apply scan_number_digits.
  - apply Forall_cons_1 in Hd as [Hd _]. apply (digit_not_sign d Hd).
Qed.

Lemma zpad_value w l : digits_value (zpad w l) 0 = digits_value l 0.
Proof.
  unfold zpad, digits_value. rewrite fold_left_app. f_equal.
  generalize (Z.to_nat (w - zlen l)) as n; intros n; induction n as [|n IH]; [done | exact IH].
Qed.

Lemma zpad_digits w l :
  Forall (fun d => is_digit d = true) l -> Forall (fun d => is_digit d = true) (zpad w l).
Proof. intros. apply Forall_app; split; [by apply Forall_replicate | done]. Qed.

Lemma zpad_nonempty w l : l <> [] -> zpad w l <> [].
Proof. intros ? [_ ?]%app_eq_nil; done. Qed.

(** Reading back what [%0wd] wrote, for every width (0 gives [%d]). *)
Lemma scan_int_fmt_0d w v r :
  - 2 ^ 31 <= v < 2 ^ 31 -> no_digit_head r ->
  scan_int (fmt_0d w v ++ r) = Some (v, r).
Proof.
  intros Hv Hr. unfold fmt_0d. destruct (Z.ltb_spec v 0).
  - unfold scan_int. cbn [app]. rewrite skip_spaces_digit by done.
    rewrite scan_number_neg.
    + rewrite zpad_value, dec_value, Z.opp_involutive, clamp32_small by lia. done.
    + apply zpad_nonempty, dec_nonempty.
    + apply zpad_digits, dec_digits; lia.
    + done.
  - rewrite scan_int_digits.
    + rewrite zpad_value, dec_value, clamp32_small by lia. done.
    + apply zpad_nonempty, dec_nonempty.
    + apply zpad_digits, dec_digits; lia.
    + done.
Qed.

Lemma zpad_0 l : zpad 0 l = l.
Proof.
  unfold zpad. pose proof (zlen_nonneg l).
  replace (Z.to_nat (0 - zlen l)) with 0%nat by lia. done.
Qed.

Lemma zpad_neg w l : w <= 0 -> zpad w l = l.
Proof.
  intros; unfold zpad. pose proof (zlen_nonneg l).
  replace (Z.to_nat (w - zlen l)) with 0%nat by lia. done.
Qed.

Lemma fmt_d_0d v : fmt_d v = fmt_0d 0 v.
Proof. unfold fmt_d, fmt_0d. destruct (v <? 0); by rewrite zpad_neg by lia. Qed.

Lemma scan_int_fmt_d v r :
  - 2 ^ 31 <= v < 2 ^ 31 -> no_digit_head r -> scan_int (fmt_d v ++ r) = Some (v, r).
Proof. rewrite fmt_d_0d; apply scan_int_fmt_0d. Qed.

Lemma s32_range x : - 2 ^ 31 <= s32 x < 2 ^ 31.
Proof. unfold s32. pose proof (Z.mod_pos_bound (x + 2 ^ 31) (2 ^ 32)). lia. Qed.

Lemma atol_fmt_ld_app x r : no_digit_head r -> atol (fmt_ld x ++ r) = s32 x.
Proof.
  intros. unfold atol, fmt_ld. rewrite scan_int_fmt_d; [done | apply s32_range | done].
Qed.

Lemma u32_atol_fmt_ld x : 0 <= x < 2 ^ 32 -> u32 (atol (fmt_ld x)) = x.
Proof.
  intros. rewrite <- (app_nil_r (fmt_ld x)), atol_fmt_ld_app by done.
  rewrite u32_s32. by apply u32_small.
Qed.

(** Two numbers written by [%ld] differ when the numbers do. *)
Lemma fmt_ld_inj x y :
  0 <= x < 2 ^ 32 -> 0 <= y < 2 ^ 32 -> fmt_ld x = fmt_ld y -> x = y.
Proof.
  intros Hx Hy E. rewrite <- (u32_atol_fmt_ld x Hx), <- (u32_atol_fmt_ld y Hy). by rewrite E.
Qed.

Lemma fmt_0d_bytes w v : bytes_ok (fmt_0d w v).
Proof.
  assert (Hd : forall n, 0 <= n -> bytes_ok (zpad w (dec n)) /\ bytes_ok (zpad (w - 1) (dec n))).
  { intros n Hn; split; (eapply Forall_impl; [by apply zpad_digits, dec_digits|]);
      intros c Hc%is_digit_range; unfold is_byte; lia. }
  unfold fmt_0d. destruct (Z.ltb_spec v 0).
  - constructor; [unfold is_byte; lia | apply Hd; lia].
  - apply Hd; lia.
Qed.

Lemma fmt_ld_bytes x : bytes_ok (fmt_ld x).
Proof. unfold fmt_ld; rewrite fmt_d_0d; apply fmt_0d_bytes. Qed.

(** Numbers are printed without a zero byte. *)
Lemma fmt_0d_nonzero w v : Forall (fun b => b <> 0) (fmt_0d w v).
Proof.
  assert (Hd : forall n, 0 <= n -> Forall (fun b => b <> 0) (zpad w (dec n))
                                   /\ Forall (fun b => b <> 0) (zpad (w - 1) (dec n))).
  { intros n Hn; split; (eapply Forall_impl; [by apply zpad_digits, dec_digits|]);
      intros c Hc%is_digit_range; lia. }
  unfold fmt_0d. destruct (Z.ltb_spec v 0).
  - constructor; [done | apply Hd; lia].
  - apply Hd; lia.
Qed.

Lemma dec_fuel_length f n k :
  0 <= n < 10 ^ k -> 1 <= k -> zlen (dec_fuel f n) <= k.
Proof.
  revert n k; induction f as [|f IH]; intros n k Hn Hk; [unfold zlen; simpl; lia|].
  cbn [dec_fuel]. destruct (Z.ltb_spec n 10); [unfold zlen; simpl; lia|].
  rewrite zlen_app. change (zlen [48 + n mod 10]) with 1.
  assert (1 < k) by (destruct (Z.eq_dec k 1) as [-> | ]; lia).
  assert (Hp : 10 ^ k = 10 * 10 ^ (k - 1))
    by (rewrite <- Z.pow_succ_r by lia; f_equal; lia).
  specialize (IH (n / 10) (k - 1)).
  assert (0 <= n / 10 < 10 ^ (k - 1))
    by (split; [apply Z.div_pos | apply Z.div_lt_upper_bound]; lia).
  specialize (IH ltac:(done) ltac:(lia)). lia.
Qed.

Lemma dec_length n k : 0 <= n < 10 ^ k -> 1 <= k -> zlen (dec n) <= k.
Proof. apply dec_fuel_length. Qed.

Lemma zpad_length w l : zlen l <= w -> zlen (zpad w l) = w.
Proof.
  intros. unfold zpad. rewrite zlen_app.
  assert (E : zlen (replicate (Z.to_nat (w - zlen l)) 48) = w - zlen l)
    by (unfold zlen at 1; rewrite length_replicate, Z2Nat.id; lia).
  lia.
Qed.

Lemma fmt_0d_length w v : 0 <= v < 10 ^ w -> 1 <= w -> zlen (fmt_0d w v) = w.
Proof.
  intros. unfold fmt_0d. destruct (Z.ltb_spec v 0); [lia|].
  apply zpad_length, dec_length; done.
Qed.

Lemma fmt_d_shape v :
  - 2 ^ 31 <= v < 2 ^ 31 ->
  fmt_d v <> [] /\ zlen (fmt_d v) <= 11 /\ Forall (fun c => 44 < c < 58) (fmt_d v).
Proof.
  intros Hv. assert (Hd : forall n, 0 <= n -> Forall (fun c => 44 < c < 58) (dec n)).
  { intros n Hn. eapply Forall_impl; [by apply dec_digits|].
    intros c Hc%is_digit_range. lia. }
  unfold fmt_d. destruct (Z.ltb_spec v 0).
  - split; [done|]. split.
    + pose proof (dec_length (- v) 10 ltac:(lia) ltac:(lia)). rewrite zlen_cons. lia.
    + constructor; [lia | apply Hd; lia].
  - split; [apply dec_nonempty|]. split; [|apply Hd; lia].
    pose proof (dec_length v 10 ltac:(lia) ltac:(lia)). lia.
Qed.

Lemma fmt_ld_shape x :
  fmt_ld x <> [] /\ zlen (fmt_ld x) <= 11 /\ Forall (fun c => 44 < c < 58) (fmt_ld x).
Proof. apply fmt_d_shape, s32_range. Qed.

Lemma zlen_replicate {A} n (x : A) : zlen (replicate n x) = Z.of_nat n.
Proof. unfold zlen. by rewrite length_replicate. Qed.

Lemma zpad_ge w l : w <= zlen (zpad w l) /\ zlen l <= zlen (zpad w l).
Proof.
  unfold zpad. rewrite zlen_app, zlen_replicate. pose proof (zlen_nonneg l). lia.
Qed.

Lemma zpad_le w l k : zlen l <= k -> w <= k -> zlen (zpad w l) <= k.
Proof.
  intros. unfold zpad. rewrite zlen_app, zlen_replicate. pose proof (zlen_nonneg l). lia.
Qed.

Lemma fmt_0d_bounds w v :
  - 2 ^ 31 <= v < 2 ^ 31 -> w <= 11 -> w <= zlen (fmt_0d w v) <= 11.
Proof.
  intros Hv Hw. unfold fmt_0d. destruct (Z.ltb_spec v 0).
  - rewrite zlen_cons. destruct (zpad_ge (w - 1) (dec (- v))).
    pose proof (dec_length (- v) 10 ltac:(lia) ltac:(lia)).
    pose proof (zpad_le (w - 1) (dec (- v)) 10 ltac:(lia) ltac:(lia)). lia.
  - destruct (zpad_ge w (dec v)). pose proof (dec_length v 10 ltac:(lia) ltac:(lia)).
    pose proof (zpad_le w (dec v) 11 ltac:(lia) ltac:(lia)). lia.
Qed.

Lemma fmt_0d_byte_bounds w v : is_byte v -> w <= 3 -> w <= zlen (fmt_0d w v) <= 3.
Proof.
  intros Hv Hw. unfold is_byte in Hv. unfold fmt_0d. destruct (Z.ltb_spec v 0); [lia|].
  destruct (zpad_ge w (dec v)). pose proof (dec_length v 3 ltac:(lia) ltac:(lia)).
  pose proof (zpad_le w (dec v) 3 ltac:(lia) ltac:(lia)). lia.
Qed.

Lemma fmt_d_byte_bounds v : is_byte v -> 1 <= zlen (fmt_d v) <= 3.
Proof.
  intros Hv. unfold is_byte in Hv. destruct (fmt_d_shape v ltac:(lia)) as (Hne & _).
  assert (1 <= zlen (fmt_d v)).
  { destruct (fmt_d v); [done|]. rewrite zlen_cons. pose proof (zlen_nonneg l). lia. }
  unfold fmt_d in *. destruct (Z.ltb_spec v 0); [lia|].
  pose proof (dec_length v 3 ltac:(lia) ltac:(lia)). lia.
Qed.

(** *** Memory *)

Lemma copy_byte_zlen mem mem' d s i :
  copy_byte mem d s i = Some mem' -> zlen mem' = zlen mem.
Proof.
  unfold copy_byte. destruct (aget mem (s + i)); [|done].
  intros [_ ->]%aset_Some. apply zlen_insert.
Qed.

Lemma blit_ok mem dest src count :
  0 <= count <= zlen src -> 0 <= dest -> dest + count <= zlen mem ->
  blit mem dest src count =
    Some (take (Z.to_nat dest) mem ++ take (Z.to_nat count) src
          ++ drop (Z.to_nat (dest + count)) mem).
Proof. intros. unfold blit. cases_Z; simpl; (done || lia). Qed.

Lemma blit_zlen mem dest src count mem' :
  blit mem dest src count = Some mem' -> zlen mem' = zlen mem.
Proof.
  unfold blit. intros; cases_Z; simpl in *; simplify_eq.
  unfold zlen in *. rewrite !length_app, !length_take, length_drop. lia.
Qed.

(** ** [my_memcpy] is [memmove] *)

Lemma aget_ext {A} (l l' : list A) :
  (forall j, 0 <= j -> aget l j = aget l' j) -> l = l'.
Proof.
  intros H. apply list_eq; intros i. specialize (H (Z.of_nat i) ltac:(lia)).
  rewrite !aget_lookup, Nat2Z.id in H by lia. done.
Qed.

(** The element a copy of [n] bytes from [s] to [d] leaves at [j]. *)
Definition moved (mem : list Z) (d s lo n j : Z) : option Z :=
  if (d + lo <=? j) && (j <? d + n) then aget mem (s + j - d) else aget mem j.

Lemma copy_byte_ok mem d s i :
  0 <= s + i < zlen mem -> 0 <= d + i < zlen mem ->
  exists x, aget mem (s + i) = Some x
            /\ copy_byte mem d s i = Some (<[Z.to_nat (d + i) := x]> mem).
Proof.
  intros Hs Hd. destruct (aget_is_Some mem (s + i) Hs) as [x Hx].
  exists x; split; [done|]. unfold copy_byte. by rewrite Hx, aset_ok.
Qed.

Lemma copy_up_spec k : forall mem d s i,
  0 <= i -> 0 <= d -> 0 <= s ->
  d + i + Z.of_nat k <= zlen mem -> s + i + Z.of_nat k <= zlen mem ->
  d <= s \/ s + i + Z.of_nat k <= d ->
  exists mem', copy_up k mem d s i = Some mem' /\ zlen mem' = zlen mem /\
    forall j, aget mem' j = moved mem d s i (i + Z.of_nat k) j.
Proof.
  induction k as [|k IH]; intros mem d s i ? ? ? Hd Hs Ho; simpl.
  - exists mem; split; [done|]; split; [done|]. intros j. unfold moved.
    cases_Z; simpl; try done; lia.
  - destruct (copy_byte_ok mem d s i) as (x & Hx & ->); [lia..|].
    destruct (IH (<[Z.to_nat (d + i) := x]> mem) d s (i + 1)) as (m & -> & Hl & Hm);
      rewrite ?zlen_insert; [lia..|].
    exists m; split; [done|]; split; [by rewrite Hl, zlen_insert|].
    intros j. rewrite Hm. unfold moved.
    destruct (Z.eq_dec j (d + i)) as [->|].
    + rewrite (aget_insert_eq mem (d + i) x) by lia.
      replace (s + (d + i) - d) with (s + i) by lia. cases_Z; simpl; try done; lia.
    + rewrite (aget_insert_ne mem (d + i) j) by lia.
      cases_Z; simpl; try done; try lia; apply aget_insert_ne; lia.
Qed.

Lemma copy_down_spec k : forall mem d s,
  0 <= s < d -> d + Z.of_nat k <= zlen mem ->
  exists mem', copy_down k mem d s = Some mem' /\ zlen mem' = zlen mem /\
    forall j, aget mem' j = moved mem d s 0 (Z.of_nat k) j.
Proof.
  induction k as [|k IH]; intros mem d s ? Hd; simpl.
  - exists mem; split; [done|]; split; [done|]. intros j. unfold moved.
    cases_Z; simpl; try done; lia.
  - destruct (copy_byte_ok mem d s (Z.of_nat k)) as (x & Hx & ->); [lia..|].
    destruct (IH (<[Z.to_nat (d + Z.of_nat k) := x]> mem) d s) as (m & -> & Hl & Hm);
      rewrite ?zlen_insert; [lia..|].
    exists m; split; [done|]; split; [by rewrite Hl, zlen_insert|].
    intros j. rewrite Hm. unfold moved.
    destruct (Z.eq_dec j (d + Z.of_nat k)) as [->|].
    + rewrite (aget_insert_eq mem (d + Z.of_nat k) x) by lia.
      replace (s + (d + Z.of_nat k) - d) with (s + Z.of_nat k) by lia.
      cases_Z; simpl; try done; lia.
    + rewrite (aget_insert_ne mem (d + Z.of_nat k) j) by lia.
      cases_Z; simpl; try done; try lia; apply aget_insert_ne; lia.
Qed.

Lemma my_memcpy_moves mem d s n :
  0 <= d -> 0 <= s -> 0 <= n -> d + n <= zlen mem -> s + n <= zlen mem ->
  exists mem', my_memcpy mem (Some d) (Some s) n = Some mem' /\ zlen mem' = zlen mem /\
    forall j, aget mem' j = moved mem d s 0 n j.
Proof.
  intros. unfold my_memcpy.
  destruct ((d <=? s) || (s + n <? d)) eqn:E.
  - destruct (copy_up_spec (Z.to_nat n) mem d s 0) as (m & ? & ? & Hm); [lia..| |].
    { apply orb_true_iff in E. rewrite Z.leb_le, Z.ltb_lt in E. lia. }
    exists m. rewrite Z.add_0_l, Z2Nat.id in Hm by lia. done.
  - apply orb_false_iff in E. rewrite Z.leb_gt, Z.ltb_ge in E.
    destruct (copy_down_spec (Z.to_nat n) mem d s) as (m & ? & ? & Hm); [lia..|].
    exists m. rewrite Z2Nat.id in Hm by lia. done.
Qed.

Lemma aget_slice {A} (l : list A) i n j :
  0 <= i -> 0 <= j < n -> aget (slice l i n) j = aget l (i + j).
Proof.
  intros. rewrite !aget_lookup by lia. unfold slice.
  rewrite lookup_take_lt, lookup_drop by lia. f_equal; lia.
Qed.

Lemma zlen_slice {A} (l : list A) i n :
  0 <= i -> 0 <= n -> i + n <= zlen l -> zlen (slice l i n) = n.
Proof. intros. unfold slice, zlen in *. rewrite length_take, length_drop. lia. Qed.

Lemma my_memcpy_slice mem d s n :
  0 <= d -> 0 <= s -> 0 <= n -> d + n <= zlen mem -> s + n <= zlen mem ->
  exists mem', my_memcpy mem (Some d) (Some s) n = Some mem' /\ zlen mem' = zlen mem /\
    slice mem' d n = slice mem s n.
Proof.
  intros. destruct (my_memcpy_moves mem d s n) as (m & E & Hl & Hm); [done..|].
  exists m; split; [done|]; split; [done|]. apply aget_ext; intros j Hj.
  destruct (Z.lt_ge_cases j n).
  - rewrite !aget_slice, Hm by lia. unfold moved. cases_Z; simpl; try lia. f_equal; lia.
  - rewrite !aget_None; [done | right | right]; rewrite zlen_slice; lia.
Qed.
