(* ===== verification/McuTx.v ===== *)
(** * The serial link to the WiFi module: sending

    [src/wifi/system.c] ([set_wifi_uart_byte], [set_wifi_uart_buffer],
    [get_check_sum], [wifi_uart_write_data], [wifi_uart_write_frame]) and the
    data point uploads [mcu_dp_*_update] of [src/wifi/mcu_api.c]. *)

From S2P Require Import Prelude CStr.

(** ** Protocol constants ([system.h], [wifi.h]) *)

Definition HEAD_FIRST := 0.
Definition HEAD_SECOND := 1.
Definition PROTOCOL_VERSION := 2.
Definition FRAME_TYPE := 3.
Definition LENGTH_HIGH := 4.
Definition LENGTH_LOW := 5.
Definition DATA_START := 6.
Definition PROTOCOL_HEAD := 7.
Definition FRAME_FIRST := 85.
Definition FRAME_SECOND := 170.
Definition MCU_TX_VER := 0.

Definition STATE_UPLOAD_CMD := 13.

Definition DP_TYPE_RAW := 0.
Definition DP_TYPE_BOOL := 1.
Definition DP_TYPE_VALUE := 2.
Definition DP_TYPE_STRING := 3.
Definition DP_TYPE_ENUM := 4.
Definition DP_TYPE_FAULT := 5.

(** [PROTOCOL_HEAD + 4096]: the size of each of the three buffers. *)
Definition BUFSZ := 4103.

(** ** State *)

Record Tx := mkTx {
  tx_buf : list Z;            (** [wifi_uart_tx_buf] *)
  uart_out : list Z;          (** the bytes sent on the serial line, oldest first *)
  stop_update_flag : Z
}.

Definition set_tx_buf (b : list Z) (s : Tx) : Tx := mkTx b (uart_out s) (stop_update_flag s).
Definition set_uart_out (o : list Z) (s : Tx) : Tx := mkTx (tx_buf s) o (stop_update_flag s).
Definition set_stop_update_flag (f : Z) (s : Tx) : Tx := mkTx (tx_buf s) (uart_out s) f.

(** ** Operations *)

Definition set_wifi_uart_byte (dest byte : Z) : M Tx Z :=
  run wr tx_buf set_tx_buf (DATA_START + dest) (u8 byte);
  ret (u16 (dest + 1)).

Definition set_wifi_uart_buffer (dest : Z) (src : option (list Z)) (len : Z) : M Tx Z :=
  match src with
  | None => ret dest
  | Some src =>
      do buf <- gets tx_buf;
      do buf' <- lift_opt (blit buf (DATA_START + dest) src (u16 len));
      run modify (set_tx_buf buf');
      ret (u16 (dest + len))
  end.

Fixpoint check_sum_loop (pack : list Z) (n : nat) (check_sum : Z) {struct n} : option Z :=
  match n with
  | O => Some check_sum
  | S n' => match pack with
            | b :: pack' => check_sum_loop pack' n' (u8 (check_sum + b))
            | [] => None
            end
  end.

Definition get_check_sum (pack : list Z) (pack_len : Z) : option Z :=
  check_sum_loop pack (Z.to_nat (u16 pack_len)) 0.

(** [uart_transmit_output] hands one byte to the serial driver. *)
Definition uart_transmit_output (value : Z) : M Tx unit :=
  modify (fun s => set_uart_out (uart_out s ++ [value]) s).

Fixpoint write_data_loop (inb : list Z) (len : nat) {struct len} : M Tx unit :=
  match len with
  | O => ret tt
  | S n => match inb with
           | b :: inb' => run uart_transmit_output b; write_data_loop inb' n
           | [] => fault
           end
  end.

Definition wifi_uart_write_data (inb : option (list Z)) (len : Z) : M Tx unit :=
  match inb with
  | None => ret tt
  | Some inb => if len =? 0 then ret tt else write_data_loop inb (Z.to_nat len)
  end.

Definition wifi_uart_write_frame (fr_type fr_ver len : Z) : M Tx unit :=
  let put := wr tx_buf set_tx_buf in
  run put HEAD_FIRST 85;
  run put HEAD_SECOND 170;
  run put PROTOCOL_VERSION (u8 fr_ver);
  run put FRAME_TYPE (u8 fr_type);
  run put LENGTH_HIGH (u8 (Z.shiftr len 8));
  run put LENGTH_LOW (u8 (Z.land len 255));
  let len := u16 (len + PROTOCOL_HEAD) in
  do buf <- gets tx_buf;
  do check_sum <- lift_opt (get_check_sum buf (len - 1));
  run put (len - 1) check_sum;
  do buf <- gets tx_buf;
  wifi_uart_write_data (Some buf) len.

(** *** Data points *)

Definition mcu_dp_raw_update (dpid : Z) (value : list Z) (len : Z)
    (sub_id_buf : option (list Z)) (sub_id_len : Z) : M Tx Z :=
  let sub_id_len := u8 sub_id_len in
  do stop <- gets stop_update_flag;
  if stop =? 1 then ret 1 else
  do n <- set_wifi_uart_byte 0 sub_id_len;
  do n <- set_wifi_uart_buffer n sub_id_buf sub_id_len;
  do n <- set_wifi_uart_byte n dpid;
  do n <- set_wifi_uart_byte n DP_TYPE_RAW;
  do n <- set_wifi_uart_byte n (len / 256);
  do n <- set_wifi_uart_byte n (len mod 256);
  do n <- set_wifi_uart_buffer n (Some value) len;
  run wifi_uart_write_frame STATE_UPLOAD_CMD MCU_TX_VER n;
  ret 1.

Definition mcu_dp_bool_update (dpid value : Z)
    (sub_id_buf : option (list Z)) (sub_id_len : Z) : M Tx Z :=
  let sub_id_len := u8 sub_id_len in
  do stop <- gets stop_update_flag;
  if stop =? 1 then ret 1 else
  do n <- set_wifi_uart_byte 0 sub_id_len;
  do n <- set_wifi_uart_buffer n sub_id_buf sub_id_len;
  do n <- set_wifi_uart_byte n dpid;
  do n <- set_wifi_uart_byte n DP_TYPE_BOOL;
  do n <- set_wifi_uart_byte n 0;
  do n <- set_wifi_uart_byte n 1;
  do n <- (if u8 value =? 0 then set_wifi_uart_byte n 0 else set_wifi_uart_byte n 1);
  run wifi_uart_write_frame STATE_UPLOAD_CMD MCU_TX_VER n;
  ret 1.

Definition mcu_dp_value_update (dpid value : Z)
    (sub_id_buf : option (list Z)) (sub_id_len : Z) : M Tx Z :=
  let sub_id_len := u8 sub_id_len in
  do stop <- gets stop_update_flag;
  if stop =? 1 then ret 1 else
  do n <- set_wifi_uart_byte 0 sub_id_len;
  do n <- set_wifi_uart_buffer n sub_id_buf sub_id_len;
  do n <- set_wifi_uart_byte n dpid;
  do n <- set_wifi_uart_byte n DP_TYPE_VALUE;
  do n <- set_wifi_uart_byte n 0;
  do n <- set_wifi_uart_byte n 4;
  do n <- set_wifi_uart_byte n (Z.shiftr value 24);
  do n <- set_wifi_uart_byte n (Z.shiftr value 16);
  do n <- set_wifi_uart_byte n (Z.shiftr value 8);
  do n <- set_wifi_uart_byte n (Z.land value 255);
  run wifi_uart_write_frame STATE_UPLOAD_CMD MCU_TX_VER n;
  ret 1.

Definition mcu_dp_string_update (dpid : Z) (value : list Z) (len : Z)
    (sub_id_buf : option (list Z)) (sub_id_len : Z) : M Tx Z :=
  let sub_id_len := u8 sub_id_len in
  do stop <- gets stop_update_flag;
  if stop =? 1 then ret 1 else
  do n <- set_wifi_uart_byte 0 sub_id_len;
  do n <- set_wifi_uart_buffer n sub_id_buf sub_id_len;
  do n <- set_wifi_uart_byte n dpid;
  do n <- set_wifi_uart_byte n DP_TYPE_STRING;
  do n <- set_wifi_uart_byte n (len / 256);
  do n <- set_wifi_uart_byte n (len mod 256);
  do n <- set_wifi_uart_buffer n (Some value) len;
  run wifi_uart_write_frame STATE_UPLOAD_CMD MCU_TX_VER n;
  ret 1.

Definition mcu_dp_enum_update (dpid value : Z)
    (sub_id_buf : option (list Z)) (sub_id_len : Z) : M Tx Z :=
  let sub_id_len := u8 sub_id_len in
  do stop <- gets stop_update_flag;
  if stop =? 1 then ret 1 else
  do n <- set_wifi_uart_byte 0 sub_id_len;
  do n <- set_wifi_uart_buffer n sub_id_buf sub_id_len;
  do n <- set_wifi_uart_byte n dpid;
  do n <- set_wifi_uart_byte n DP_TYPE_ENUM;
  do n <- set_wifi_uart_byte n 0;
  do n <- set_wifi_uart_byte n 1;
  do n <- set_wifi_uart_byte n value;
  run wifi_uart_write_frame STATE_UPLOAD_CMD MCU_TX_VER n;
  ret 1.

Definition mcu_dp_fault_update (dpid value : Z)
    (sub_id_buf : option (list Z)) (sub_id_len : Z) : M Tx Z :=
  let sub_id_len := u8 sub_id_len in
  do stop <- gets stop_update_flag;
  if stop =? 1 then ret 1 else
  do n <- set_wifi_uart_byte 0 sub_id_len;
  do n <- set_wifi_uart_buffer n sub_id_buf sub_id_len;
  do n <- set_wifi_uart_byte n dpid;
  do n <- set_wifi_uart_byte n DP_TYPE_FAULT;
  do n <- set_wifi_uart_byte n 0;
  let value := u32 value in
  do n <- (if Z.lor value 255 =? 255 then
             do n <- set_wifi_uart_byte n 1;
             set_wifi_uart_byte n value
           else if Z.lor value 65535 =? 65535 then
             do n <- set_wifi_uart_byte n 2;
             do n <- set_wifi_uart_byte n (Z.shiftr value 8);
             set_wifi_uart_byte n (Z.land value 255)
           else
             do n <- set_wifi_uart_byte n 4;
             do n <- set_wifi_uart_byte n (Z.shiftr value 24);
             do n <- set_wifi_uart_byte n (Z.shiftr value 16);
             do n <- set_wifi_uart_byte n (Z.shiftr value 8);
             set_wifi_uart_byte n (Z.land value 255));
  run wifi_uart_write_frame STATE_UPLOAD_CMD MCU_TX_VER n;
  ret 1.

(** ** Frames as byte strings *)

Definition sum8 (l : list Z) : Z := fold_left (fun a b => u8 (a + b)) l 0.

(** A frame without its check sum. *)
Definition frame_body (ty ver : Z) (payload : list Z) : list Z :=
  [FRAME_FIRST; FRAME_SECOND; ver; ty; zlen payload / 256; zlen payload mod 256] ++ payload.

Definition frame (ty ver : Z) (payload : list Z) : list Z :=
  frame_body ty ver payload ++ [sum8 (frame_body ty ver payload)].

Lemma zlen_frame_body ty ver p : zlen (frame_body ty ver p) = 6 + zlen p.
Proof. unfold frame_body; rewrite zlen_app. reflexivity. Qed.

Lemma zlen_frame ty ver p : zlen (frame ty ver p) = 7 + zlen p.
Proof. unfold frame; rewrite zlen_app, zlen_frame_body, zlen_cons, zlen_nil. lia. Qed.

(** The buffer is in place and holds [p] as the data of the frame being built. *)
Definition filled (p : list Z) (s : Tx) : Prop :=
  zlen (tx_buf s) = BUFSZ /\ slice (tx_buf s) DATA_START (zlen p) = p.

(** [s'] is [s] after [bs] was sent. *)
Definition sent (bs : list Z) (s s' : Tx) : Prop :=
  zlen (tx_buf s') = BUFSZ /\ uart_out s' = uart_out s ++ bs
  /\ stop_update_flag s' = stop_update_flag s.

Definition tx_ok (s : Tx) : Prop := zlen (tx_buf s) = BUFSZ.

Lemma filled_nil s : tx_ok s -> filled [] s.
Proof. done. Qed.

(** *** Building the data *)

Lemma slice_insert_app {A} (l p : list A) (i : Z) x :
  0 <= i -> i + zlen p < zlen l -> slice l i (zlen p) = p ->
  slice (<[Z.to_nat (i + zlen p) := x]> l) i (zlen (p ++ [x])) = p ++ [x].
Proof.
  intros Hi Hl Hp. unfold slice in *. unfold zlen in *. rewrite Nat2Z.id in *.
  rewrite length_app; simpl.
  rewrite drop_insert_ge by lia.
  replace (Z.to_nat (i + Z.of_nat (length p)) - Z.to_nat i)%nat with (length p) by lia.
  rewrite Nat.add_1_r.
  set (d := drop (Z.to_nat i) l) in *.
  assert (Hd : (length p < length d)%nat) by (unfold d; rewrite length_drop; lia).
  rewrite (take_S_r _ _ x) by (by apply list_lookup_insert_eq).
  rewrite take_insert_ge by lia. by rewrite Hp.
Qed.

Lemma wp_set_byte p b (Q : Z -> Tx -> Prop) s :
  filled p s -> zlen p < 4096 ->
  (forall s', filled (p ++ [u8 b]) s' -> uart_out s' = uart_out s ->
     stop_update_flag s' = stop_update_flag s -> Q (zlen (p ++ [u8 b])) s') ->
  wp (set_wifi_uart_byte (zlen p) b) Q s.
Proof.
  intros [Hl Hp] Hn HQ. pose proof (zlen_nonneg p). unfold set_wifi_uart_byte.
  apply wp_bind, wp_wr; [rewrite Hl; unfold DATA_START, BUFSZ; lia|].
  apply wp_ret. rewrite u16_small by lia.
  replace (zlen p + 1) with (zlen (p ++ [u8 b])) by (rewrite zlen_app; done).
  apply HQ; [|done|done]. split; simpl; [by rewrite zlen_insert|].
  apply slice_insert_app; [done | rewrite Hl; unfold DATA_START, BUFSZ; lia | done].
Qed.

Lemma slice_blit_app (l p q : list Z) (i : Z) l' :
  0 <= i -> i + zlen p + zlen q <= zlen l -> slice l i (zlen p) = p ->
  blit l (i + zlen p) q (zlen q) = Some l' ->
  slice l' i (zlen (p ++ q)) = p ++ q.
Proof.
  intros Hi Hl Hp Hb. pose proof (zlen_nonneg p). pose proof (zlen_nonneg q).
  rewrite blit_ok in Hb by lia. injection Hb as <-.
  unfold slice, zlen in *. rewrite !Nat2Z.id in *.
  set (d := drop (Z.to_nat i) l) in *.
  assert (E : take (Z.to_nat (i + Z.of_nat (length p))) l = take (Z.to_nat i) l ++ p).
  { rewrite <- Hp at 2. unfold d. rewrite take_take_drop. f_equal. lia. }
  rewrite E, (take_ge q) by lia.
  rewrite <- app_assoc, drop_app_length'.
  2: { rewrite length_take. lia. }
  rewrite app_assoc. by rewrite take_app_length.
Qed.

Lemma wp_set_buffer p q n (Q : Z -> Tx -> Prop) s :
  filled p s -> n = zlen q -> zlen p + zlen q <= 4096 ->
  (forall s', filled (p ++ q) s' -> uart_out s' = uart_out s ->
     stop_update_flag s' = stop_update_flag s -> Q (zlen (p ++ q)) s') ->
  wp (set_wifi_uart_buffer (zlen p) (Some q) n) Q s.
Proof.
  intros [Hl Hp] -> Hn HQ. pose proof (zlen_nonneg p). pose proof (zlen_nonneg q).
  unfold set_wifi_uart_buffer. apply wp_bind, wp_gets, wp_bind.
  rewrite u16_small by lia.
  assert (Hb := blit_ok (tx_buf s) (DATA_START + zlen p) q (zlen q)
                  ltac:(lia) ltac:(unfold DATA_START; lia)
                  ltac:(rewrite Hl; unfold DATA_START, BUFSZ; lia)).
  unfold wp, lift_opt. destruct (blit _ _ _ _) as [l'|] eqn:E; [|done]. clear Hb.
  cbn. rewrite u16_small by lia. rewrite <- zlen_app. apply HQ; [|done|done].
  split; simpl; [by rewrite (blit_zlen _ _ _ _ _ E)|].
  eapply slice_blit_app; [done | | exact Hp | exact E].
  rewrite Hl; unfold DATA_START, BUFSZ; lia.
Qed.

(** *** Sending *)

Lemma check_sum_loop_spec l r a :
  check_sum_loop (l ++ r) (length l) a = Some (fold_left (fun a b => u8 (a + b)) l a).
Proof. revert a; induction l as [|b l IH]; intros a; [done | apply IH]. Qed.

Lemma get_check_sum_spec l r :
  zlen l < 65536 -> get_check_sum (l ++ r) (zlen l) = Some (sum8 l).
Proof.
  intros. unfold get_check_sum. rewrite u16_small by (pose proof (zlen_nonneg l); lia).
  unfold zlen; rewrite Nat2Z.id. apply check_sum_loop_spec.
Qed.

Lemma write_data_loop_spec l r s :
  write_data_loop (l ++ r) (length l) s = Some (tt, set_uart_out (uart_out s ++ l) s).
Proof.
  revert s; induction l as [|b l IH]; intros s; simpl.
  - rewrite app_nil_r. by destruct s.
  - unfold bind, uart_transmit_output, modify. rewrite IH. simpl. by rewrite <- app_assoc.
Qed.

Lemma write_data_spec l r s :
  wifi_uart_write_data (Some (l ++ r)) (zlen l) s = Some (tt, set_uart_out (uart_out s ++ l) s).
Proof.
  unfold wifi_uart_write_data. destruct (Z.eqb_spec (zlen l) 0) as [E|].
  - assert (l = []) as -> by (destruct l; [done | unfold zlen in E; simpl in E; lia]).
    rewrite app_nil_r. by destruct s.
  - unfold zlen; rewrite Nat2Z.id. apply write_data_loop_spec.
Qed.

Lemma sum8_byte l : is_byte (sum8 l).
Proof.
  unfold sum8. induction l as [|x l IH] using rev_ind; [done|].
  rewrite fold_left_app; cbn. apply u8_byte.
Qed.

Lemma buffer_split (l p : list Z) :
  zlen l = BUFSZ -> zlen p <= 4096 -> slice l DATA_START (zlen p) = p ->
  exists h0 h1 h2 h3 h4 h5 c r, l = [h0; h1; h2; h3; h4; h5] ++ p ++ c :: r.
Proof.
  intros Hl Hn Hp. unfold slice, DATA_START in Hp. unfold zlen, BUFSZ in *.
  rewrite Nat2Z.id in Hp. change (Z.to_nat 6) with 6%nat in Hp.
  do 6 (destruct l as [|? l]; [simpl in Hl; lia|]).
  cbn [drop] in Hp. rewrite drop_0 in Hp. cbn [length] in Hl.
  destruct (drop (length p) l) as [|c r] eqn:E.
  { apply (f_equal length) in E. rewrite length_drop in E. simpl in E. lia. }
  rewrite <- (take_drop (length p) l), Hp, E. do 8 eexists. reflexivity.
Qed.

Lemma shiftr8_div n : Z.shiftr n 8 = n / 256.
Proof. apply Z.shiftr_div_pow2; lia. Qed.

Lemma land255_mod n : Z.land n 255 = n mod 256.
Proof. apply (Z.land_ones n 8); lia. Qed.

(** The main lemma on sending: the bytes written in place are one frame. *)
Lemma write_frame_spec ty ver p s :
  filled p s -> zlen p <= 4096 -> is_byte ty -> is_byte ver ->
  exists s', wifi_uart_write_frame ty ver (zlen p) s = Some (tt, s')
             /\ sent (frame ty ver p) s s'.
Proof.
  intros [Hl Hp] Hn Ht Hv. pose proof (zlen_nonneg p).
  destruct (buffer_split _ _ Hl Hn Hp) as (h0&h1&h2&h3&h4&h5&c&r&E).
  destruct s as [b o f]; cbn in *. subst b.
  eexists; split.
  - unfold wifi_uart_write_frame.
    do 6 (erewrite bind_Some
            by (apply wr_ok; cbn [tx_buf set_tx_buf]; rewrite ?zlen_insert, Hl; done);
          unfold set_tx_buf at 1; cbn [tx_buf stop_update_flag uart_out]).
    rewrite (u16_small (zlen p + PROTOCOL_HEAD)) by (unfold PROTOCOL_HEAD; lia).
    rewrite (u8_small ty Ht), (u8_small ver Hv), shiftr8_div, land255_mod.
    rewrite (u8_small (zlen p / 256)), (u8_small (zlen p mod 256)).
    2: { pose proof (Z.mod_pos_bound (zlen p) 256); unfold is_byte; lia. }
    2: { split; [apply Z.div_pos | apply Z.div_lt_upper_bound]; lia. }
    erewrite bind_Some by reflexivity. cbn [tx_buf].
    change (<[Z.to_nat LENGTH_LOW := _]> _)
      with (frame_body ty ver p ++ c :: r).
    replace (zlen p + PROTOCOL_HEAD - 1) with (zlen (frame_body ty ver p))
      by (rewrite zlen_frame_body; unfold PROTOCOL_HEAD; lia).
    erewrite bind_Some.
    2: { unfold lift_opt. rewrite get_check_sum_spec; [reflexivity|].
         rewrite zlen_frame_body. lia. }
    erewrite bind_Some.
    2: { apply wr_ok. cbn [tx_buf]. rewrite zlen_app, zlen_cons.
         pose proof (zlen_nonneg (frame_body ty ver p)). pose proof (zlen_nonneg r). lia. }
    unfold set_tx_buf at 1; cbn [tx_buf stop_update_flag uart_out].
    erewrite bind_Some by reflexivity. cbn [tx_buf].
    unfold zlen at 1. rewrite Nat2Z.id, insert_app_r_alt, Nat.sub_diag by done.
    cbn [insert list_insert]. rewrite cons_middle, app_assoc.
    fold (frame ty ver p).
    replace (zlen p + PROTOCOL_HEAD) with (zlen (frame ty ver p))
      by (rewrite zlen_frame; unfold PROTOCOL_HEAD; lia).
    apply write_data_spec.
  - split; [|split; reflexivity]. unfold set_uart_out; cbn [tx_buf].
    rewrite zlen_insert, zlen_app, zlen_frame_body, zlen_cons.
    rewrite !zlen_cons, zlen_app, zlen_cons in Hl. lia.
Qed.

Lemma wp_write_frame ty ver p (Q : unit -> Tx -> Prop) s :
  filled p s -> zlen p <= 4096 -> is_byte ty -> is_byte ver ->
  (forall s', sent (frame ty ver p) s s' -> Q tt s') ->
  wp (wifi_uart_write_frame ty ver (zlen p)) Q s.
Proof.
  intros Hf Hn Ht Hv HQ.
  destruct (write_frame_spec ty ver p s Hf Hn Ht Hv) as (s' & E & Hs).
  unfold wp. rewrite E. by apply HQ.
Qed.

(** ** Data points: what the messages mean *)

Inductive dp : Type :=
| DpRaw (value : list Z)
| DpBool (b : bool)
| DpValue (v : Z)
| DpString (value : list Z)
| DpEnum (v : Z)
| DpFault (v : Z).

#[export] Instance dp_eq_dec : EqDecision dp.
Proof. solve_decision. Defined.

Definition dp_type (d : dp) : Z :=
  match d with
  | DpRaw _ => DP_TYPE_RAW | DpBool _ => DP_TYPE_BOOL | DpValue _ => DP_TYPE_VALUE
  | DpString _ => DP_TYPE_STRING | DpEnum _ => DP_TYPE_ENUM | DpFault _ => DP_TYPE_FAULT
  end.

Definition dp_data (d : dp) : list Z :=
  match d with
  | DpRaw v | DpString v => v
  | DpBool b => [if b then 1 else 0]
  | DpValue v => int_to_byte v
  | DpEnum v => [u8 v]
  | DpFault v => if v <? 2 ^ 8 then [u8 v]
                 else if v <? 2 ^ 16 then [u8 (v / 2 ^ 8); u8 v]
                 else int_to_byte v
  end.

(** The data of a [STATE_UPLOAD_CMD] frame: the sub device's id, preceded by its
    length, and one data point. *)
Definition dp_payload (sub : list Z) (dpid : Z) (d : dp) : list Z :=
  [zlen sub] ++ sub ++ [dpid; dp_type d; zlen (dp_data d) / 256; zlen (dp_data d) mod 256]
  ++ dp_data d.

Definition dp_frame (sub : list Z) (dpid : Z) (d : dp) : list Z :=
  frame STATE_UPLOAD_CMD MCU_TX_VER (dp_payload sub dpid d).

(** What an upload does: nothing while uploads are stopped, one frame otherwise. *)
Definition uploads (bs : list Z) (s s' : Tx) : Prop :=
  if stop_update_flag s =? 1 then s' = s else sent bs s s'.

Ltac tx_pre :=
  match goal with
  | |- filled [] _ => apply filled_nil; assumption
  | |- filled _ _ => assumption
  | |- is_byte _ => unfold is_byte, STATE_UPLOAD_CMD, MCU_TX_VER in *; lia
  | |- _ => rewrite ?zlen_app, ?zlen_cons, ?zlen_nil in *; cbn -[zlen] in *; lia
  end.

(** One step of building a frame. *)
Ltac tx_step :=
  apply wp_bind;
  match goal with
  | |- wp (set_wifi_uart_byte 0 _) _ _ => change 0 with (zlen (@nil Z)) at 1; apply wp_set_byte
  | |- wp (set_wifi_uart_byte _ _) _ _ => apply wp_set_byte
  | |- wp (set_wifi_uart_buffer _ (Some _) _) _ _ => apply wp_set_buffer
  | |- wp (wifi_uart_write_frame _ _ _) _ _ => apply wp_write_frame
  end; [tx_pre ..|].

Lemma sent_trans_eq s0 s s' bs :
  uart_out s = uart_out s0 -> stop_update_flag s = stop_update_flag s0 ->
  sent bs s s' -> sent bs s0 s'.
Proof. intros E1 E2 (? & ? & ?). unfold sent. by rewrite <- E1, <- E2. Qed.

Ltac tx_steps := repeat (tx_step; intros ? ? ? ?).

(** Finish an upload: the frame is sent and has the expected bytes. *)
Ltac tx_finish :=
  tx_step; intros ? ?; apply wp_ret; split; [reflexivity|];
  match goal with
  | H : sent ?b ?x _ |- sent ?b' _ _ =>
      apply (sent_trans_eq _ x); [congruence | congruence |];
      replace b' with b; [exact H|]
  end;
  unfold dp_frame, dp_payload; f_equal;
  cbn [app dp_type dp_data]; rewrite <- ?app_assoc; cbn [app];
  rewrite ?(u8_small (zlen _)) by (unfold is_byte; lia).

Ltac tx_start :=
  intros; unfold mcu_dp_bool_update, mcu_dp_value_update, mcu_dp_enum_update,
    mcu_dp_fault_update, mcu_dp_raw_update, mcu_dp_string_update, uploads;
  subst; rewrite ?(u8_small (zlen _)) by (unfold is_byte; lia);
  apply wp_bind, wp_gets;
  match goal with |- context [stop_update_flag ?s =? 1] => destruct (stop_update_flag s =? 1) end;
  [by apply wp_ret|].

(** The test [(value | 0xff) == 0xff] is [value < 0x100]. *)
Lemma lor_ones_eqb n v :
  0 < n -> 0 <= v -> (Z.lor v (Z.ones n) =? Z.ones n) = (v <? 2 ^ n).
Proof.
  intros Hn Hv. destruct (Z.ltb_spec v (2 ^ n)) as [H|H].
  - apply Z.eqb_eq, Z.lor_ones_low; [done|].
    destruct (Z.eq_dec v 0) as [->|]; [done | apply Z.log2_lt_pow2; lia].
  - apply Z.eqb_neq. intros E. apply (f_equal Z.log2) in E.
    assert (0 <= Z.ones n) by (rewrite Z.ones_equiv; lia).
    assert (Z.log2 (Z.ones n) = n - 1) by (rewrite Z.ones_equiv; apply Z.log2_pred_pow2; lia).
    rewrite Z.log2_lor in E by lia.
    assert (n <= Z.log2 v) by (apply Z.log2_le_pow2; lia). lia.
Qed.

Section DpUpdates.
Context (s : Tx) (sub : list Z) (dpid : Z).
Context (Hs : tx_ok s) (Hsub : zlen sub < 256) (Hdpid : is_byte dpid).

Let Hsub0 : 0 <= zlen sub := zlen_nonneg sub.

Lemma bool_update_spec value n :
  n = zlen sub ->
  wp (mcu_dp_bool_update dpid value (Some sub) n)
     (fun r s' => r = 1 /\ uploads (dp_frame sub dpid (DpBool (negb (u8 value =? 0)))) s s') s.
Proof using Hs Hsub Hdpid Hsub0.
  tx_start. do 6 (tx_step; intros ? ? ? ?).
  apply wp_bind. destruct (u8 value =? 0).
  - apply wp_set_byte; [tx_pre..|]; intros ? ? ? ?.
    tx_finish. rewrite (u8_small dpid Hdpid). reflexivity.
  - apply wp_set_byte; [tx_pre..|]; intros ? ? ? ?.
    tx_finish. rewrite (u8_small dpid Hdpid). reflexivity.
Qed.

Lemma value_update_spec value n :
  n = zlen sub ->
  wp (mcu_dp_value_update dpid value (Some sub) n)
     (fun r s' => r = 1 /\ uploads (dp_frame sub dpid (DpValue value)) s s') s.
Proof using Hs Hsub Hdpid Hsub0.
  tx_start. tx_steps. tx_finish. rewrite (u8_small dpid Hdpid). reflexivity.
Qed.

Lemma enum_update_spec value n :
  n = zlen sub ->
  wp (mcu_dp_enum_update dpid value (Some sub) n)
     (fun r s' => r = 1 /\ uploads (dp_frame sub dpid (DpEnum value)) s s') s.
Proof using Hs Hsub Hdpid Hsub0.
  tx_start. tx_steps. tx_finish. rewrite (u8_small dpid Hdpid). reflexivity.
Qed.

Lemma bytes_of_len (l : list Z) :
  zlen l < 65536 -> u8 (zlen l / 256) = zlen l / 256 /\ u8 (zlen l mod 256) = zlen l mod 256.
Proof using.
  pose proof (zlen_nonneg l). pose proof (Z.mod_pos_bound (zlen l) 256).
  split; apply u8_small; unfold is_byte; [|lia].
  split; [apply Z.div_pos | apply Z.div_lt_upper_bound]; lia.
Qed.

Lemma raw_update_spec value len n :
  n = zlen sub -> len = zlen value -> zlen sub + zlen value + 5 <= 4096 ->
  wp (mcu_dp_raw_update dpid value len (Some sub) n)
     (fun r s' => r = 1 /\ uploads (dp_frame sub dpid (DpRaw value)) s s') s.
Proof using Hs Hsub Hdpid Hsub0.
  intros -> -> Hlen. destruct (bytes_of_len value ltac:(lia)) as [E1 E2].
  tx_start. tx_steps. tx_finish. rewrite (u8_small dpid Hdpid), E1, E2. reflexivity.
Qed.

Lemma string_update_spec value len n :
  n = zlen sub -> len = zlen value -> zlen sub + zlen value + 5 <= 4096 ->
  wp (mcu_dp_string_update dpid value len (Some sub) n)
     (fun r s' => r = 1 /\ uploads (dp_frame sub dpid (DpString value)) s s') s.
Proof using Hs Hsub Hdpid Hsub0.
  intros -> -> Hlen. destruct (bytes_of_len value ltac:(lia)) as [E1 E2].
  tx_start. tx_steps. tx_finish. rewrite (u8_small dpid Hdpid), E1, E2. reflexivity.
Qed.

Lemma fault_update_spec value n :
  n = zlen sub -> 0 <= value < 2 ^ 32 ->
  wp (mcu_dp_fault_update dpid value (Some sub) n)
     (fun r s' => r = 1 /\ uploads (dp_frame sub dpid (DpFault value)) s s') s.
Proof using Hs Hsub Hdpid Hsub0.
  intros -> Hv. tx_start. tx_steps.
  rewrite (u32_small value) by lia.
  change 255 with (Z.ones 8) at 1 2. change 65535 with (Z.ones 16).
  rewrite !lor_ones_eqb by lia.
  apply wp_bind. destruct (Z.ltb_spec value (2 ^ 8)); [|destruct (Z.ltb_spec value (2 ^ 16))].
  - tx_step; intros ? ? ? ?. apply wp_set_byte; [tx_pre..|]; intros ? ? ? ?.
    tx_finish. rewrite (u8_small dpid Hdpid), (proj2 (Z.ltb_lt value _)) by lia. reflexivity.
  - do 2 (tx_step; intros ? ? ? ?). apply wp_set_byte; [tx_pre..|]; intros ? ? ? ?.
    tx_finish. rewrite (u8_small dpid Hdpid), (proj2 (Z.ltb_ge value (2 ^ 8))),
      (proj2 (Z.ltb_lt value _)), shiftr8_div, land255_mod by lia.
    rewrite (u8_idemp value : u8 (value mod 256) = u8 value). reflexivity.
  - do 4 (tx_step; intros ? ? ? ?). apply wp_set_byte; [tx_pre..|]; intros ? ? ? ?.
    tx_finish. rewrite (u8_small dpid Hdpid), (proj2 (Z.ltb_ge value (2 ^ 8))),
      (proj2 (Z.ltb_ge value (2 ^ 16))) by lia. reflexivity.
Qed.

End DpUpdates.
