(* ===== verification/McuRx.v ===== *)
(** * The serial link to the WiFi module: receiving

    The receive ring ([uart_receive_input] of [src/wifi/mcu_api.c],
    [get_queue_total_data] and [Queue_Read_Byte] of [src/wifi/system.c]) and the
    frame scanner [wifi_uart_service].  [wifi_protocol_init] sets them up. *)

From S2P Require Import Prelude CStr McuTx.

(** ** State

    The pointers [queue_in] and [queue_out] are indices into
    [wifi_uart_rx_buf]; they may point one past its end. *)

Record Rx := mkRx {
  wifi_uart_rx_buf : list Z;
  queue_in : Z;
  queue_out : Z;
  wifi_data_process_buf : list Z;
  rx_in : Z                     (** the static variable of [wifi_uart_service] *)
}.

Definition set_rx_buf (b : list Z) (r : Rx) : Rx :=
  mkRx b (queue_in r) (queue_out r) (wifi_data_process_buf r) (rx_in r).
Definition set_queue_in (i : Z) (r : Rx) : Rx :=
  mkRx (wifi_uart_rx_buf r) i (queue_out r) (wifi_data_process_buf r) (rx_in r).
Definition set_queue_out (i : Z) (r : Rx) : Rx :=
  mkRx (wifi_uart_rx_buf r) (queue_in r) i (wifi_data_process_buf r) (rx_in r).
Definition set_process_buf (b : list Z) (r : Rx) : Rx :=
  mkRx (wifi_uart_rx_buf r) (queue_in r) (queue_out r) b (rx_in r).
Definition set_rx_in (i : Z) (r : Rx) : Rx :=
  mkRx (wifi_uart_rx_buf r) (queue_in r) (queue_out r) (wifi_data_process_buf r) i.

(** ** The ring *)

Definition queue_full (r : Rx) : bool :=
  (1 =? queue_out r - queue_in r)
  || ((queue_out r <? queue_in r) && (BUFSZ <=? queue_in r - queue_out r)).

Definition uart_receive_input (value : Z) : M Rx unit :=
  do r <- get;
  if queue_full r then ret tt else
  run (if BUFSZ <=? queue_in r then modify (set_queue_in 0) else ret tt);
  do i <- gets queue_in;
  run wr wifi_uart_rx_buf set_rx_buf i value;
  modify (set_queue_in (i + 1)).

Definition get_queue_total_data : M Rx Z :=
  gets (fun r => if queue_in r =? queue_out r then 0 else 1).

(** On an empty queue the C function returns an uninitialised variable. *)
Definition Queue_Read_Byte : M Rx Z :=
  do r <- get;
  if queue_out r =? queue_in r then fault else
  run (if BUFSZ <=? queue_out r then modify (set_queue_out 0) else ret tt);
  do o <- gets queue_out;
  do value <- rd wifi_uart_rx_buf o;
  run modify (set_queue_out (o + 1));
  ret value.

(** ** The frame scanner

    [data_handle] is handed the process buffer from the frame's first byte on;
    it acts on the rest [W] of the program's state. *)

Section Service.
Context {W : Type} (data_handle : list Z -> M W unit).

Definition on_rx {A} (m : M Rx A) : M (Rx * W) A :=
  zoom fst (fun r w => (r, snd w)) m.
Definition on_world {A} (m : M W A) : M (Rx * W) A :=
  zoom snd (fun w' w => (fst w, w')) m.

(** [while ((rx_in < sizeof(wifi_data_process_buf)) && get_queue_total_data() > 0)] *)
Fixpoint fill_loop (fuel : nat) : M Rx unit :=
  match fuel with
  | O => fault
  | S n =>
      do i <- gets rx_in;
      do d <- get_queue_total_data;
      if (i <? BUFSZ) && (0 <? d) then
        do b <- Queue_Read_Byte;
        run wr wifi_data_process_buf set_process_buf i b;
        run modify (set_rx_in (u16 (i + 1)));
        fill_loop n
      else ret tt
  end.

(** The loop over the frames of the buffer; the result is the final [offset]. *)
Fixpoint frame_loop (fuel : nat) (offset : Z) : M (Rx * W) Z :=
  match fuel with
  | O => fault
  | S n =>
      do rx_in <- on_rx (gets rx_in);
      let at_ k := on_rx (rd wifi_data_process_buf (offset + k)) in
      if PROTOCOL_HEAD <=? rx_in - offset then
        do h1 <- at_ HEAD_FIRST;
        if negb (h1 =? FRAME_FIRST) then frame_loop n (u16 (offset + 1)) else
        do h2 <- at_ HEAD_SECOND;
        if negb (h2 =? FRAME_SECOND) then frame_loop n (u16 (offset + 1)) else
        do lh <- at_ LENGTH_HIGH;
        do ll <- at_ LENGTH_LOW;
        let rx_value_len := u16 (lh * 256) in
        let rx_value_len := u16 (rx_value_len + (ll + PROTOCOL_HEAD)) in
        if BUFSZ <? rx_value_len then frame_loop n (u16 (offset + 3)) else
        if rx_in - offset <? rx_value_len then ret offset else
        do buf <- on_rx (gets wifi_data_process_buf);
        do sum <- on_rx (lift_opt (get_check_sum (drop (Z.to_nat offset) buf) (rx_value_len - 1)));
        do last <- on_rx (rd wifi_data_process_buf (offset + rx_value_len - 1));
        if negb (sum =? last) then frame_loop n (u16 (offset + 3)) else
        run on_world (data_handle (drop (Z.to_nat offset) buf));
        frame_loop n (u16 (offset + rx_value_len))
      else ret offset
  end.

(** Iterations of the loops: the buffer's size, one more to see the end. *)
Definition SERVICE_FUEL : nat := Z.to_nat (BUFSZ + 1).

Definition wifi_uart_service : M (Rx * W) unit :=
  run on_rx (fill_loop SERVICE_FUEL);
  do i <- on_rx (gets rx_in);
  if i <? PROTOCOL_HEAD then ret tt else
  do offset <- frame_loop SERVICE_FUEL 0;
  let i := u16 (i - offset) in
  run on_rx (modify (set_rx_in i));
  if 0 <? i then
    do buf <- on_rx (gets wifi_data_process_buf);
    do buf' <- on_rx (lift_opt (my_memcpy buf (Some 0) (Some offset) i));
    on_rx (modify (set_process_buf buf'))
  else ret tt.
End Service.

(** ** Specification of the ring: a queue of bytes *)

Definition ring_ok (r : Rx) : Prop :=
  zlen (wifi_uart_rx_buf r) = BUFSZ /\ 0 <= queue_in r <= BUFSZ /\ 0 <= queue_out r <= BUFSZ
  /\ (queue_in r = 0 -> queue_out r = 0).

(** The bytes waiting in the ring, oldest first. *)
Definition queue (r : Rx) : list Z :=
  if queue_out r <=? queue_in r
  then slice (wifi_uart_rx_buf r) (queue_out r) (queue_in r - queue_out r)
  else drop (Z.to_nat (queue_out r)) (wifi_uart_rx_buf r)
       ++ take (Z.to_nat (queue_in r)) (wifi_uart_rx_buf r).

(** The one state in which the test for a full ring lets a byte in although the
    write then makes the two pointers equal. *)
Definition ring_wraps_onto_out (r : Rx) : Prop := queue_in r = BUFSZ /\ queue_out r = 1.

Lemma queue_zlen r :
  ring_ok r ->
  zlen (queue r) = if queue_out r <=? queue_in r then queue_in r - queue_out r
                   else BUFSZ - queue_out r + queue_in r.
Proof.
  intros (Hl & Hi & Ho & _). unfold queue. destruct (Z.leb_spec (queue_out r) (queue_in r)).
  - rewrite zlen_slice; lia.
  - rewrite zlen_app. unfold zlen in *. rewrite length_drop, length_take. lia.
Qed.

Lemma slice_snoc (l : list Z) o n x :
  0 <= o -> 0 <= n -> o + n < zlen l ->
  slice (<[Z.to_nat (o + n) := x]> l) o (n + 1) = slice l o n ++ [x].
Proof.
  intros. assert (E : zlen (slice l o n) = n) by (apply zlen_slice; lia).
  rewrite <- E at 1 2.
  replace (zlen (slice l o n) + 1) with (zlen (slice l o n ++ [x])) by (by rewrite zlen_app).
  apply slice_insert_app; rewrite ?E; try done; lia.
Qed.

Lemma take_snoc (l : list Z) n x :
  (n < length l)%nat -> take (S n) (<[n := x]> l) = take n l ++ [x].
Proof.
  intros. rewrite (take_S_r _ _ x) by (by apply list_lookup_insert_eq).
  by rewrite take_insert_ge by lia.
Qed.

Lemma slice_to_end (l : list Z) o : 0 <= o <= zlen l -> slice l o (zlen l - o) = drop (Z.to_nat o) l.
Proof.
  intros. unfold slice, zlen in *. apply take_ge. rewrite length_drop. lia.
Qed.

Lemma slice_cons (l : list Z) o n x :
  0 <= o -> 0 < n -> aget l o = Some x -> slice l o n = x :: slice l (o + 1) (n - 1).
Proof.
  intros ? ? Hx. unfold slice. apply aget_Some in Hx as [_ Hx].
  apply drop_S in Hx. rewrite Hx.
  replace (Z.to_nat n) with (S (Z.to_nat (n - 1))) by lia.
  replace (Z.to_nat (o + 1)) with (S (Z.to_nat o)) by lia. done.
Qed.

(** Everything of the receive side but the ring. *)
Definition same_process (r r' : Rx) : Prop :=
  wifi_data_process_buf r' = wifi_data_process_buf r /\ rx_in r' = rx_in r.

#[export] Instance same_process_preorder : PreOrder same_process.
Proof.
  split; [by intros r | intros a b c [E1 E2] [E3 E4]; split; congruence].
Qed.

Definition received (r : Rx) (v : Z) : list Z :=
  if queue_full r then queue r
  else if (queue_in r =? BUFSZ) && (queue_out r =? 1) then []
  else queue r ++ [v].

Lemma queue_full_spec r :
  queue_full r = true <->
  queue_out r = queue_in r + 1 \/ (queue_out r < queue_in r /\ BUFSZ <= queue_in r - queue_out r).
Proof.
  unfold queue_full.
  rewrite orb_true_iff, andb_true_iff, Z.eqb_eq, Z.ltb_lt, Z.leb_le. lia.
Qed.

(** Storing a byte at index [i] with [queue_in] at [i], or at the end for [i = 0]. *)
Lemma queue_store r i v :
  ring_ok r -> queue_full r = false ->
  (i = queue_in r /\ i < BUFSZ \/ i = 0 /\ queue_in r = BUFSZ) ->
  let r' := set_queue_in (i + 1) (set_rx_buf (<[Z.to_nat i := v]> (wifi_uart_rx_buf r)) r) in
  ring_ok r' /\ queue r' = received r v.
Proof.
  intros (Hl & Hi & Ho & H0) Hf Hcase. unfold received; rewrite Hf.
  apply not_true_iff_false in Hf. rewrite queue_full_spec in Hf.
  destruct r as [b qi qo pb pi]; cbn in *.
  unfold ring_ok, queue; cbn.
  assert (Hlen : length b = Z.to_nat BUFSZ) by (unfold zlen in Hl; lia).
  split; [rewrite zlen_insert; unfold BUFSZ in *; lia|].
  destruct Hcase as [[-> Hlt]|[-> ->]].
  - replace (qi =? BUFSZ) with false by (symmetry; apply Z.eqb_neq; lia). cbn [andb].
    destruct (Z.leb_spec qo qi).
    + rewrite (proj2 (Z.leb_le qo (qi + 1))) by lia.
      replace (qi + 1 - qo) with ((qi - qo) + 1) by lia.
      replace (Z.to_nat qi) with (Z.to_nat (qo + (qi - qo))) by lia.
      apply slice_snoc; lia.
    + rewrite (proj2 (Z.leb_gt qo (qi + 1))) by lia.
      rewrite drop_insert_lt by lia.
      replace (Z.to_nat (qi + 1)) with (S (Z.to_nat qi)) by lia.
      rewrite take_snoc by lia. by rewrite app_assoc.
  - rewrite Z.eqb_refl; cbn [andb].
    destruct (Z.eqb_spec qo 1) as [->|].
    + done.
    + assert (2 <= qo) by (unfold BUFSZ in *; lia).
      assert (0 < length b)%nat by (rewrite Hlen; unfold BUFSZ; lia).
      rewrite (proj2 (Z.leb_gt qo (0 + 1))), (proj2 (Z.leb_le qo BUFSZ)) by lia.
      rewrite drop_insert_lt by lia.
      change (Z.to_nat (0 + 1)) with 1%nat. change (Z.to_nat 0) with 0%nat.
      rewrite take_snoc by lia.
      rewrite <- Hl, slice_to_end by lia. done.
Qed.

Lemma wp_receive r v (Q : unit -> Rx -> Prop) :
  ring_ok r ->
  (forall r', ring_ok r' -> same_process r r' -> queue r' = received r v -> Q tt r') ->
  wp (uart_receive_input v) Q r.
Proof.
  intros Hok HQ. unfold uart_receive_input, wp, bind, get. cbn.
  destruct (queue_full r) eqn:Hf.
  { apply HQ; [done | reflexivity | by unfold received; rewrite Hf]. }
  pose proof Hok as (Hl & Hi & Ho & H0).
  destruct (Z.leb_spec BUFSZ (queue_in r)) as [Hw|Hw]; cbn.
  - destruct (queue_store r 0 v Hok Hf) as [? ?]; [lia|].
    unfold gets; cbn. rewrite wr_ok by (cbn; rewrite Hl; unfold BUFSZ; lia).
    apply HQ; [done | done | done].
  - destruct (queue_store r (queue_in r) v Hok Hf) as [? ?]; [lia|].
    unfold gets; cbn. rewrite wr_ok by lia. apply HQ; [done | done | done].
Qed.

Lemma queue_nonempty r : ring_ok r -> (queue r = [] <-> queue_in r = queue_out r).
Proof.
  intros Hok. pose proof (queue_zlen r Hok) as Hq. destruct Hok as (_ & Hi & Ho & H0).
  split.
  - intros E. rewrite E, zlen_nil in Hq. revert Hq. cases_Z; intros; lia.
  - intros E. rewrite E in Hq. revert Hq. cases_Z; intros; [|lia].
    destruct (queue r); [done|]. rewrite zlen_cons in Hq. pose proof (zlen_nonneg l). lia.
Qed.

Lemma wp_read_byte r x q (Q : Z -> Rx -> Prop) :
  ring_ok r -> queue r = x :: q ->
  (forall r', ring_ok r' -> same_process r r' -> queue r' = q -> Q x r') ->
  wp Queue_Read_Byte Q r.
Proof.
  intros Hok Hq HQ.
  assert (Hne : queue_out r <> queue_in r).
  { intros E. symmetry in E. rewrite <- queue_nonempty in E by done. congruence. }
  destruct r as [b qi qo pb pi]. destruct Hok as (Hl & Hi & Ho & H0). cbn in *.
  unfold Queue_Read_Byte, wp, bind, get, gets. cbn.
  rewrite (proj2 (Z.eqb_neq qo qi)) by done. unfold queue in Hq. cbn in Hq.
  assert (Hlen : length b = Z.to_nat BUFSZ) by (unfold zlen in Hl; lia).
  destruct (Z.leb_spec BUFSZ qo) as [Hw|Hw]; cbn.
  - assert (qo = BUFSZ) as -> by lia.
    rewrite (proj2 (Z.leb_gt BUFSZ qi)), drop_ge in Hq by lia. cbn [app] in Hq.
    destruct b as [|y b]; [cbn in Hlen; unfold BUFSZ in Hlen; lia|].
    replace (Z.to_nat qi) with (S (Z.to_nat (qi - 1))) in Hq by lia.
    cbn in Hq. injection Hq as -> Hq. cbn.
    apply HQ; [unfold ring_ok; cbn; lia | done |].
    unfold queue; cbn [set_queue_out queue_in queue_out wifi_uart_rx_buf].
    rewrite (proj2 (Z.leb_le _ qi)) by lia. unfold slice.
    replace (qi - (0 + 1)) with (qi - 1) by lia. done.
  - destruct (aget_is_Some b qo ltac:(lia)) as [y Hy].
    unfold rd; cbn. rewrite Hy; cbn.
    destruct (Z.leb_spec qo qi).
    + rewrite (slice_cons b qo _ y) in Hq by (done || lia). injection Hq as -> Hq.
      apply HQ; [unfold ring_ok; cbn; lia | done |].
      unfold queue; cbn [set_queue_out queue_in queue_out wifi_uart_rx_buf]. rewrite (proj2 (Z.leb_le _ qi)) by lia.
      rewrite <- Hq. f_equal; lia.
    + apply aget_Some in Hy as [_ Hy]. apply drop_S in Hy. rewrite Hy in Hq.
      injection Hq as -> Hq.
      apply HQ; [unfold ring_ok; cbn; lia | done |].
      unfold queue; cbn [set_queue_out queue_in queue_out wifi_uart_rx_buf]. rewrite (proj2 (Z.leb_gt _ qi)) by lia.
      rewrite <- Hq. f_equal. f_equal. lia.
Qed.

(** ** Specification of the scanner *)

(** What the scanner does at the head of the bytes not yet consumed: wait for
    more, drop some, dispatch a frame of [n] bytes, or read past the buffer (a
    length field of [0xFFF9], whose frame length wraps to zero). *)
Inductive scan_result : Type :=
| NeedMore
| Skip (n : nat)
| Frame (n : nat)
| Overrun.

Definition scan (l : list Z) : scan_result :=
  match l with
  | h1 :: h2 :: _ :: _ :: lh :: ll :: _ :: _ =>
      if negb (h1 =? FRAME_FIRST) then Skip 1
      else if negb (h2 =? FRAME_SECOND) then Skip 1
      else
        let n := u16 (u16 (lh * 256) + (ll + PROTOCOL_HEAD)) in
        if BUFSZ <? n then Skip 3
        else if zlen l <? n then NeedMore
        else if n =? 0 then Overrun
        else match aget l (n - 1) with
             | Some c => if sum8 (take (Z.to_nat (n - 1)) l) =? c
                         then Frame (Z.to_nat n) else Skip 3
             | None => Overrun
             end
  | _ => NeedMore
  end.

(** [parses l fs r]: from [l] the scanner dispatches the frames [fs] and keeps [r]. *)
Inductive parses : list Z -> list (list Z) -> list Z -> Prop :=
| parses_more l : scan l = NeedMore -> parses l [] l
| parses_skip l n fs r : scan l = Skip n -> parses (drop n l) fs r -> parses l fs r
| parses_frame l n fs r :
    scan l = Frame n -> parses (drop n l) fs r -> parses l (take n l :: fs) r.

(** The same as a function. *)
Fixpoint parse_fuel (fuel : nat) (l : list Z) : option (list (list Z) * list Z) :=
  match fuel with
  | O => None
  | S k => match scan l with
           | NeedMore => Some ([], l)
           | Skip n => parse_fuel k (drop n l)
           | Frame n => match parse_fuel k (drop n l) with
                        | Some (fs, r) => Some (take n l :: fs, r)
                        | None => None
                        end
           | Overrun => None
           end
  end.

Definition parse (l : list Z) : option (list (list Z) * list Z) :=
  parse_fuel (S (length l)) l.

(** The facts about [scan] the rest needs: it consumes at least one byte and
    never more than there are, and its answer is final. *)
Lemma scan_bounds l n :
  scan l = Skip n \/ scan l = Frame n -> (0 < n <= length l)%nat.
Proof.
  unfold scan. do 7 (destruct l as [|? l]; [by intros [?|?]|]).
  set (L := z :: _). assert (7 <= length L)%nat by (unfold L; simpl; lia).
  cbv zeta. set (m := u16 _). pose proof (u16_range (u16 (z3 * 256) + (z4 + PROTOCOL_HEAD))) as Hm.
  fold m in Hm. unfold zlen. cases_Z; simpl negb; cbv iota; intros Hs;
    try (destruct Hs as [Hs|Hs]; simplify_eq; lia).
  destruct (aget L (m - 1)); cases_Z; destruct Hs; simplify_eq; lia.
Qed.

Lemma scan_app l r : scan l <> NeedMore -> scan (l ++ r) = scan l.
Proof.
  unfold scan. do 7 (destruct l as [|? l]; [done|]).
  change ((z :: _) ++ r) with (z :: z0 :: z1 :: z2 :: z3 :: z4 :: z5 :: l ++ r).
  cbv iota beta zeta.
  change (z :: z0 :: z1 :: z2 :: z3 :: z4 :: z5 :: l ++ r)
    with ((z :: z0 :: z1 :: z2 :: z3 :: z4 :: z5 :: l) ++ r).
  set (L := z :: _). set (m := u16 _).
  pose proof (u16_range (u16 (z3 * 256) + (z4 + PROTOCOL_HEAD))) as Hm. fold m in Hm.
  pose proof (zlen_nonneg r). rewrite zlen_app. intros Hne.
  destruct (negb (z =? FRAME_FIRST)); [done|]. destruct (negb (z0 =? FRAME_SECOND)); [done|].
  destruct (BUFSZ <? m); [done|].
  destruct (Z.ltb_spec (zlen L) m); [done|]. destruct (Z.ltb_spec (zlen L + zlen r) m); [lia|].
  destruct (Z.eqb_spec m 0); [done|]. unfold zlen in *.
  rewrite !aget_lookup, lookup_app_l, take_app_le by lia. done.
Qed.

Lemma parse_fuel_spec k l fs r :
  parse_fuel k l = Some (fs, r) -> parses l fs r.
Proof.
  revert l fs r. induction k as [|k IH]; intros l fs r; simpl; [done|].
  destruct (scan l) eqn:E; intros; simplify_eq.
  - by apply parses_more.
  - eapply parses_skip; eauto.
  - destruct (parse_fuel k (drop n l)) as [[fs' r']|] eqn:E'; simplify_eq.
    eapply parses_frame; eauto.
Qed.

Lemma parses_fuel k l fs r :
  parses l fs r -> (length l < k)%nat -> parse_fuel k l = Some (fs, r).
Proof.
  intros H; revert k; induction H as [l E|l n fs r E _ IH|l n fs r E _ IH];
    intros [|k] Hk; try lia; simpl; rewrite E; [done|..];
    pose proof (scan_bounds l n ltac:(tauto)); rewrite IH by (rewrite length_drop; lia); done.
Qed.

Lemma parses_iff l fs r : parse l = Some (fs, r) <-> parses l fs r.
Proof.
  split; [apply parse_fuel_spec | intros; apply parses_fuel; [done | lia]].
Qed.

(** Bytes that arrive later change nothing in what was dispatched. *)
Lemma parses_app l fs r m fs' r' :
  parses l fs r -> parses (r ++ m) fs' r' -> parses (l ++ m) (fs ++ fs') r'.
Proof.
  intros H Hm; induction H as [l E|l n fs r E _ IH|l n fs r E _ IH]; [done|..];
    pose proof (scan_bounds l n ltac:(tauto)).
  - apply parses_skip with n; [by rewrite scan_app; congruence|].
    rewrite drop_app_le by lia. auto.
  - rewrite <- app_comm_cons, <- (take_app_le l m n) by lia.
    apply parses_frame; [by rewrite scan_app; congruence|].
    rewrite drop_app_le by lia. auto.
Qed.

(** ** The service implements the specification *)

Definition rx_ok (r : Rx) : Prop :=
  ring_ok r /\ zlen (wifi_data_process_buf r) = BUFSZ /\ 0 <= rx_in r <= BUFSZ.

(** The bytes taken from the ring and not yet consumed. *)
Definition pending (r : Rx) : list Z := take (Z.to_nat (rx_in r)) (wifi_data_process_buf r).

Lemma pending_length r : rx_ok r -> length (pending r) = Z.to_nat (rx_in r).
Proof. intros (_ & Hl & ?). unfold pending, zlen in *. rewrite length_take. lia. Qed.

Lemma pending_step r r1 b :
  rx_ok r -> same_process r r1 -> ring_ok r1 -> rx_in r < BUFSZ ->
  let r' := set_rx_in (u16 (rx_in r + 1))
              (set_process_buf (<[Z.to_nat (rx_in r) := b]> (wifi_data_process_buf r1)) r1) in
  rx_ok r' /\ pending r' = pending r ++ [b] /\ queue r' = queue r1 /\ rx_in r' = rx_in r + 1.
Proof.
  intros (_ & Hl & Hi) [E1 E2] Hr1 Hlt. cbv zeta. rewrite E1, u16_small by (unfold BUFSZ in *; lia).
  repeat split; try apply Hr1; cbn [set_rx_in set_process_buf wifi_data_process_buf rx_in];
    rewrite ?zlen_insert; try lia.
  unfold pending; cbn [set_rx_in set_process_buf wifi_data_process_buf rx_in].
  replace (Z.to_nat (rx_in r + 1)) with (S (Z.to_nat (rx_in r))) by lia.
  apply take_snoc. unfold zlen in Hl. lia.
Qed.

Lemma fill_loop_spec n r :
  rx_ok r -> (Z.to_nat (BUFSZ - rx_in r) < n)%nat ->
  exists r', fill_loop n r = Some (tt, r') /\ rx_ok r' /\
    pending r' = take (Z.to_nat BUFSZ) (pending r ++ queue r) /\
    queue r' = drop (Z.to_nat BUFSZ) (pending r ++ queue r).
Proof.
  revert r; induction n as [|n IH]; intros r Hr Hn; [lia|]. simpl.
  pose proof Hr as (Hring & Hl & Hi). pose proof (pending_length r Hr) as Hpl.
  unfold bind at 1 2, gets at 1, get_queue_total_data, gets.
  destruct (Z.ltb_spec (rx_in r) BUFSZ) as [Hlt|Hge]; simpl.
  2: { exists r; split; [done|]; split; [done|].
       rewrite take_app_le, drop_app_le, take_ge, drop_ge by lia. done. }
  destruct (Z.eqb_spec (queue_in r) (queue_out r)) as [Ee|Ee]; simpl.
  { exists r; split; [done|]; split; [done|].
    apply queue_nonempty in Ee as ->; [|done].
    rewrite app_nil_r, take_ge, drop_ge by lia. done. }
  destruct (queue r) as [|x q] eqn:Eq.
  { exfalso. by apply Ee, queue_nonempty. }
  assert (Hrd := wp_read_byte r x q (fun b r1 => b = x /\ ring_ok r1 /\ same_process r r1 /\ queue r1 = q)
                   Hring Eq (fun r1 H1 H2 H3 => conj eq_refl (conj H1 (conj H2 H3)))).
  apply wp_Some in Hrd as (b & r1 & E & -> & Hr1 & Hsame & Hq1).
  unfold bind at 1. rewrite E.
  destruct (pending_step r r1 x Hr Hsame Hr1 Hlt) as (Hok & Hp & Hq & Hin).
  erewrite bind_Some.
  2: { apply wr_ok. destruct Hsame as [-> _]. lia. }
  erewrite bind_Some by reflexivity.
  destruct (IH _ Hok) as (r' & E' & Hok' & Hp' & Hq'); [rewrite Hin; lia|].
  exists r'. rewrite Hp, Hq, Hq1, <- app_assoc in Hp', Hq'. done.
Qed.

Lemma check_sum_loop_short pack k a :
  (length pack < k)%nat -> check_sum_loop pack k a = None.
Proof.
  revert pack a; induction k as [|k IH]; intros [|b pack] a; simpl; intros; try done; try lia.
  apply IH. lia.
Qed.

Lemma get_check_sum_prefix pack n :
  0 <= n <= zlen pack -> n < 65536 ->
  get_check_sum pack n = Some (sum8 (take (Z.to_nat n) pack)).
Proof.
  intros Hn ?. assert (E : zlen (take (Z.to_nat n) pack) = n).
  { unfold zlen in *. rewrite length_take. lia. }
  rewrite <- (take_drop (Z.to_nat n) pack) at 1. rewrite <- E at 3.
  apply get_check_sum_spec. lia.
Qed.

Section ServiceSpec.
Context {W : Type} (data_handle : list Z -> M W unit).

(** Handing a list of buffers to [data_handle], in order. *)
Fixpoint handle_all (bufs : list (list Z)) (w : W) : option W :=
  match bufs with
  | [] => Some w
  | b :: bufs' => match data_handle b w with
                  | Some (_, w') => handle_all bufs' w'
                  | None => None
                  end
  end.

Lemma on_rx_gets {A} (f : Rx -> A) (r : Rx) (w : W) :
  on_rx (gets f) (r, w) = Some (f r, (r, w)).
Proof. done. Qed.

Lemma on_rx_rd (r : Rx) (w : W) i x :
  aget (wifi_data_process_buf r) i = Some x ->
  on_rx (rd wifi_data_process_buf i) (r, w) = Some (x, (r, w)).
Proof. intros H. unfold on_rx, zoom; simpl. by rewrite (rd_Some _ _ _ x H). Qed.

(** The bytes of the process buffer from [offset] on: the unconsumed ones first. *)
Lemma suffix_split r offset :
  rx_ok r -> 0 <= offset <= rx_in r ->
  drop (Z.to_nat offset) (wifi_data_process_buf r)
  = drop (Z.to_nat offset) (pending r) ++ drop (Z.to_nat (rx_in r)) (wifi_data_process_buf r).
Proof.
  intros Hr Ho. rewrite <- (take_drop (Z.to_nat (rx_in r)) (wifi_data_process_buf r)) at 1.
  apply drop_app_le. fold (pending r). rewrite pending_length by done. lia.
Qed.

Lemma read_at r offset k x :
  rx_ok r -> 0 <= offset <= rx_in r -> 0 <= k ->
  aget (drop (Z.to_nat offset) (pending r)) k = Some x ->
  aget (wifi_data_process_buf r) (offset + k) = Some x.
Proof.
  intros Hr Ho Hk Hx. rewrite aget_lookup in * by lia.
  replace (Z.to_nat (offset + k)) with (Z.to_nat offset + Z.to_nat k)%nat by lia.
  rewrite <- lookup_drop, suffix_split by done.
  by apply lookup_app_l_Some.
Qed.

Lemma suffix_length r offset :
  rx_ok r -> (length (drop (Z.to_nat offset) (wifi_data_process_buf r)) <= Z.to_nat BUFSZ)%nat.
Proof. intros (_ & Hl & _). rewrite length_drop. unfold zlen in Hl. lia. Qed.

(** The checksum of a frame that has arrived whole is that of its bytes. *)
Lemma suffix_sum l tl m :
  zlen (l ++ tl) <= BUFSZ -> 1 <= m <= zlen l ->
  get_check_sum (l ++ tl) (m - 1) = Some (sum8 (take (Z.to_nat (m - 1)) l)).
Proof.
  intros Hmax Hm. pose proof (zlen_nonneg tl). rewrite zlen_app in Hmax. unfold BUFSZ in *.
  rewrite get_check_sum_prefix; [|rewrite zlen_app; lia | lia].
  rewrite take_app_le by (unfold zlen in *; lia). done.
Qed.

(** A length that wraps to zero sums the whole of memory. *)
Lemma suffix_sum_overrun buf :
  (length buf <= Z.to_nat BUFSZ)%nat -> get_check_sum buf (0 - 1) = None.
Proof.
  intros Hl. unfold get_check_sum. apply check_sum_loop_short.
  change (u16 (0 - 1)) with 65535. unfold BUFSZ in *. lia.
Qed.

(** One iteration of the loop over the frames. *)
Lemma frame_step n offset r w :
  rx_ok r -> 0 <= offset <= rx_in r ->
  let l := drop (Z.to_nat offset) (pending r) in
  let sfx := drop (Z.to_nat offset) (wifi_data_process_buf r) in
  frame_loop data_handle (S n) offset (r, w) =
    match scan l with
    | NeedMore => Some (offset, (r, w))
    | Skip k => frame_loop data_handle n (offset + Z.of_nat k) (r, w)
    | Frame k => bind (on_world (data_handle sfx))
                   (fun _ => frame_loop data_handle n (offset + Z.of_nat k)) (r, w)
    | Overrun => None
    end.
Proof.
  intros Hr Ho l sfx. pose proof (scan_bounds l) as Hb.
  assert (Hl : zlen l = rx_in r - offset).
  { unfold l, zlen. rewrite length_drop, pending_length by done. lia. }
  assert (Hsfx : sfx = l ++ drop (Z.to_nat (rx_in r)) (wifi_data_process_buf r))
    by (by apply suffix_split).
  assert (Hmax : rx_in r <= BUFSZ) by apply Hr.
  assert (Hin : forall k, (0 < k <= length l)%nat -> u16 (offset + Z.of_nat k) = offset + Z.of_nat k).
  { intros k Hk. apply u16_small. unfold zlen, BUFSZ in *. lia. }
  assert (Hrd : forall k x, 0 <= k -> aget l k = Some x ->
                  on_rx (rd wifi_data_process_buf (offset + k)) (r, w) = Some (x, (r, w))).
  { intros k x Hk Hx. by apply on_rx_rd, read_at. }
  clearbody l.
  cbn [frame_loop]. rewrite (bind_Some _ _ _ _ _ (on_rx_gets rx_in r w)), <- Hl. cbv zeta.
  unfold scan in *.
  do 7 (destruct l as [|? l];
        [rewrite (proj2 (Z.leb_gt PROTOCOL_HEAD _)) by (unfold zlen, PROTOCOL_HEAD; simpl; lia); done|]).
  set (L := z :: _) in *. cbv zeta in *.
  assert (HL : 7 <= zlen L) by (unfold L, zlen; simpl; lia).
  rewrite (proj2 (Z.leb_le PROTOCOL_HEAD _)) by done.
  rewrite (bind_Some _ _ _ _ _ (Hrd HEAD_FIRST z ltac:(done) eq_refl)).
  destruct (negb (z =? FRAME_FIRST)); [rewrite <- Hin by (apply Hb; auto); done|].
  rewrite (bind_Some _ _ _ _ _ (Hrd HEAD_SECOND z0 ltac:(done) eq_refl)).
  destruct (negb (z0 =? FRAME_SECOND)); [rewrite <- Hin by (apply Hb; auto); done|].
  rewrite (bind_Some _ _ _ _ _ (Hrd LENGTH_HIGH z3 ltac:(done) eq_refl)).
  rewrite (bind_Some _ _ _ _ _ (Hrd LENGTH_LOW z4 ltac:(done) eq_refl)).
  pose proof (u16_range (u16 (z3 * 256) + (z4 + PROTOCOL_HEAD))) as Hm.
  set (m := u16 (u16 _ + _)) in *.
  destruct (BUFSZ <? m); [rewrite <- Hin by (apply Hb; auto); done|].
  destruct (Z.ltb_spec (zlen L) m); [done|].
  rewrite (bind_Some _ _ _ _ _ (on_rx_gets wifi_data_process_buf r w)).
  fold sfx.
  pose proof (suffix_length r offset Hr) as Hsl. fold sfx in Hsl.
  destruct (Z.eqb_spec m 0) as [E0|E0].
  { unfold bind, on_rx, zoom, lift_opt. simpl fst. by rewrite E0, suffix_sum_overrun. }
  destruct (aget_is_Some L (m - 1)) as [c Hc]; [lia|]. rewrite Hc in *.
  assert (Hsum : get_check_sum sfx (m - 1) = Some (sum8 (take (Z.to_nat (m - 1)) L))).
  { rewrite Hsfx in *. apply suffix_sum; [unfold zlen, BUFSZ in *; lia | lia]. }
  erewrite bind_Some by (unfold on_rx, zoom, lift_opt; rewrite Hsum; reflexivity).
  replace (offset + m - 1) with (offset + (m - 1)) by lia.
  rewrite (bind_Some _ _ _ _ _ (Hrd (m - 1) c ltac:(lia) Hc)).
  destruct (sum8 _ =? c); cbn [negb fst]; rewrite <- Hin by (apply Hb; auto); [|done].
  rewrite Z2Nat.id by lia. done.
Qed.

Lemma frame_loop_spec r l fs rest :
  parses l fs rest -> rx_ok r ->
  forall n offset, 0 <= offset <= rx_in r -> l = drop (Z.to_nat offset) (pending r) ->
  (length l < n)%nat ->
  exists bufs offset', Forall2 prefix fs bufs
    /\ 0 <= offset' <= rx_in r /\ drop (Z.to_nat offset') (pending r) = rest
    /\ forall w w', handle_all bufs w = Some w' ->
         frame_loop data_handle n offset (r, w) = Some (offset', (r, w')).
Proof.
  intros Hp Hr; induction Hp as [l E|l k fs rest E Hp IH|l k fs rest E Hp IH];
    intros [|n] offset Ho El Hn; try lia;
    assert (Hstep := fun w => frame_step n offset r w Hr Ho); cbv zeta in Hstep;
    rewrite <- El, E in Hstep.
  - exists [], offset. repeat split; [constructor | lia | lia | done |].
    intros w w' [= ->]. by rewrite Hstep.
  - pose proof (scan_bounds l k ltac:(auto)).
    assert (Hlen : length l = Z.to_nat (rx_in r - offset)).
    { rewrite El, length_drop, pending_length by done. lia. }
    destruct (IH n (offset + Z.of_nat k)) as (bufs & o' & ? & ? & ? & H'); [lia | | |].
    { rewrite El, drop_drop. f_equal. lia. }
    { rewrite length_drop. lia. }
    exists bufs, o'. repeat split; try done; try lia.
    intros w w' Hw. rewrite Hstep. by apply H'.
  - pose proof (scan_bounds l k ltac:(auto)).
    assert (Hlen : length l = Z.to_nat (rx_in r - offset)).
    { rewrite El, length_drop, pending_length by done. lia. }
    destruct (IH n (offset + Z.of_nat k)) as (bufs & o' & ? & ? & ? & H'); [lia | | |].
    { rewrite El, drop_drop. f_equal. lia. }
    { rewrite length_drop. lia. }
    exists (drop (Z.to_nat offset) (wifi_data_process_buf r) :: bufs), o'.
    repeat split; try done; try lia.
    + constructor; [|done]. rewrite suffix_split, <- El by done.
      apply prefix_app_r, prefix_take.
    + intros w w' Hw. simpl in Hw. rewrite Hstep.
      destruct (data_handle _ w) as [[[] w1]|] eqn:Ew; [|done].
      unfold bind, on_world, zoom; simpl. rewrite Ew. by apply H'.
Qed.

(** A frame whose length wraps: the loop ends outside the buffer. *)
Lemma frame_loop_overrun r : rx_ok r -> forall m l,
  parse_fuel m l = None -> (length l < m)%nat ->
  forall n offset w, 0 <= offset <= rx_in r -> l = drop (Z.to_nat offset) (pending r) -> (length l < n)%nat ->
  frame_loop data_handle n offset (r, w) = None.
Proof.
  intros Hr. induction m as [|m IH]; intros l Hp Hm [|n] offset w Ho El Hn; try lia.
  pose proof (frame_step n offset r w Hr Ho) as Hstep. cbv zeta in Hstep. rewrite <- El in Hstep. cbn [parse_fuel] in Hp.
  assert (Hlen : length l = Z.to_nat (rx_in r - offset)) by (rewrite El, length_drop, pending_length by done; lia).
  assert (Hnext : forall k w, (0 < k <= length l)%nat -> parse_fuel m (drop k l) = None -> frame_loop data_handle n (offset + Z.of_nat k) (r, w) = None).
  { intros k w' Hk E. apply (IH (drop k l) E); rewrite ?length_drop; try lia. rewrite El, drop_drop. f_equal. lia. }
  pose proof (scan_bounds l) as Hb. destruct (scan l) as [|k|k|]; try done; rewrite Hstep.
  - apply Hnext; [apply Hb; auto | done].
  - assert (E : parse_fuel m (drop k l) = None) by (destruct (parse_fuel m (drop k l)) as [[? ?]|]; done).
    unfold bind, on_world, zoom. cbn [fst snd]. destruct (data_handle _ w) as [[[] w1]|]; [|done]. apply Hnext; [apply Hb; auto | done].
Qed.

Lemma scan_short l : (length l < 7)%nat -> scan l = NeedMore.
Proof. intros. unfold scan. do 7 (destruct l as [|? l]; [done|]). simpl in *; lia. Qed.

(** The end of the service: what is left moves to the front of the buffer. *)
Definition compact (offset i : Z) : M (Rx * W) unit :=
  let i := u16 (i - offset) in
  run on_rx (modify (set_rx_in i));
  if 0 <? i then
    do buf <- on_rx (gets wifi_data_process_buf);
    do buf' <- on_rx (lift_opt (my_memcpy buf (Some 0) (Some offset) i));
    on_rx (modify (set_process_buf buf'))
  else ret tt.

Lemma compact_spec r o :
  rx_ok r -> 0 <= o <= rx_in r ->
  exists r', rx_ok r' /\ pending r' = drop (Z.to_nat o) (pending r) /\ queue r' = queue r
    /\ forall w, compact o (rx_in r) (r, w) = Some (tt, (r', w)).
Proof.
  intros (Hring & Hl & Hi) Ho. unfold compact.
  rewrite u16_small by (unfold BUFSZ in *; lia). cbv zeta.
  assert (Hdrop : drop (Z.to_nat o) (pending r)
                  = slice (wifi_data_process_buf r) o (rx_in r - o)).
  { unfold pending, slice. rewrite skipn_firstn_comm. f_equal. lia. }
  destruct (Z.ltb_spec 0 (rx_in r - o)) as [Hpos|Hz].
  - destruct (my_memcpy_slice (wifi_data_process_buf r) 0 o (rx_in r - o))
      as (buf & E & Hbl & Hsl); [lia..|].
    exists (set_process_buf buf (set_rx_in (rx_in r - o) r)).
    split; [|split; [|split]].
    + split; [apply Hring|]; cbn; lia.
    + rewrite Hdrop, <- Hsl. done.
    + done.
    + intros w. unfold bind, on_rx, zoom, modify, gets, lift_opt; simpl fst; simpl snd.
      cbn [set_rx_in wifi_data_process_buf]. rewrite E. done.
  - exists (set_rx_in (rx_in r - o) r). split; [|split; [|split]].
    + split; [apply Hring|]; cbn; lia.
    + rewrite Hdrop. unfold pending, slice; cbn [set_rx_in wifi_data_process_buf rx_in].
      replace (Z.to_nat (rx_in r - o)) with 0%nat by lia. done.
    + done.
    + done.
Qed.

(** The scanner, run on what is pending and in the ring, hands to [data_handle]
    exactly the frames of the specification and keeps the rest. *)
Lemma service_spec r fs rest :
  rx_ok r -> parses (take (Z.to_nat BUFSZ) (pending r ++ queue r)) fs rest ->
  exists bufs r', Forall2 prefix fs bufs /\ rx_ok r' /\ pending r' = rest
    /\ queue r' = drop (Z.to_nat BUFSZ) (pending r ++ queue r)
    /\ forall w w', handle_all bufs w = Some w' ->
         wifi_uart_service data_handle (r, w) = Some (tt, (r', w')).
Proof.
  intros Hr Hp.
  destruct (fill_loop_spec SERVICE_FUEL r Hr) as (r1 & E1 & Hr1 & Hp1 & Hq1).
  { destruct Hr as (_ & _ & ?). unfold SERVICE_FUEL, BUFSZ in *. lia. }
  rewrite <- Hp1 in Hp. pose proof (pending_length r1 Hr1) as Hl1.
  assert (Hrun0 : forall w, wifi_uart_service data_handle (r, w) =
    (if rx_in r1 <? PROTOCOL_HEAD then ret tt else
     do offset <- frame_loop data_handle SERVICE_FUEL 0; compact offset (rx_in r1)) (r1, w)).
  { intros w. unfold wifi_uart_service. erewrite bind_Some.
    2: { unfold on_rx, zoom; simpl fst. rewrite E1. reflexivity. }
    done. }
  destruct (Z.ltb_spec (rx_in r1) PROTOCOL_HEAD) as [Hlt|Hge].
  - (* fewer than seven bytes: the loop does not run *)
    assert (En : scan (pending r1) = NeedMore)
      by (apply scan_short; unfold PROTOCOL_HEAD in Hlt; lia).
    inversion Hp; subst; try congruence.
    exists [], r1. split; [constructor|]. do 3 (split; [done|]).
    intros w w' [= <-]. by rewrite Hrun0.
  - destruct (frame_loop_spec r1 _ _ _ Hp Hr1 SERVICE_FUEL 0) as (bufs & o & Hf & Ho & Hrest & Hrun).
    { destruct Hr1 as (_ & _ & ?). lia. }
    { done. }
    { destruct Hr1 as (_ & _ & ?). unfold SERVICE_FUEL, BUFSZ in *. lia. }
    destruct (compact_spec r1 o Hr1 Ho) as (r' & Hr' & Hp' & Hq' & Hc).
    exists bufs, r'. split; [done|]. split; [done|]. split; [congruence|].
    split; [congruence|]. intros w w' Hw.
    rewrite Hrun0. erewrite bind_Some by (by apply Hrun). apply Hc.
Qed.

Lemma service_overrun r w :
  rx_ok r -> parse (take (Z.to_nat BUFSZ) (pending r ++ queue r)) = None -> wifi_uart_service data_handle (r, w) = None.
Proof.
  intros Hr Hp. destruct (fill_loop_spec SERVICE_FUEL r Hr) as (r1 & E1 & Hr1 & Hp1 & Hq1).
  { destruct Hr as (_ & _ & ?). unfold SERVICE_FUEL, BUFSZ in *. lia. }
  rewrite <- Hp1 in Hp. pose proof (pending_length r1 Hr1) as Hl1.
  unfold wifi_uart_service. erewrite bind_Some.
  2: { unfold on_rx, zoom; simpl fst. rewrite E1. reflexivity. }
  rewrite (bind_Some _ _ _ _ _ (on_rx_gets rx_in r1 w)). destruct (Z.ltb_spec (rx_in r1) PROTOCOL_HEAD) as [Hlt|Hge].
  - exfalso. unfold parse in Hp. cbn [parse_fuel] in Hp. rewrite scan_short in Hp; [done|]. unfold PROTOCOL_HEAD in Hlt. lia.
  - unfold bind. rewrite (frame_loop_overrun r1 Hr1 _ _ Hp) by (rewrite ?Hl1; destruct Hr1 as (_ & _ & ?); unfold SERVICE_FUEL, BUFSZ in *; lia || done). done.
Qed.

End ServiceSpec.

(** ** Consequences *)

(** What is kept never fills the buffer, so every call makes progress. *)
Lemma parses_rest_short l fs r : parses l fs r -> zlen l <= BUFSZ -> zlen r < BUFSZ.
Proof.
  intros H Hl; induction H as [l E|l n fs r E _ IH|l n fs r E _ IH].
  - destruct (Z.lt_ge_cases (zlen l) 7) as [|Hge]; [unfold BUFSZ; lia|]. revert E. unfold scan.
    do 7 (destruct l as [|? l]; [unfold zlen in *; simpl in *; lia|]).
    cbv zeta. set (m := u16 (u16 _ + _)). set (L := z :: _) in *.
    cases_Z; simpl negb; cbv iota; intros; try done; try lia.
    destruct (aget L (m - 1)); cases_Z; done.
  - apply IH. unfold zlen in *. rewrite length_drop. lia.
  - apply IH. unfold zlen in *. rewrite length_drop. lia.
Qed.

(** A frame the protocol builds is recognised where it stands. *)
Lemma scan_frame ty ver p m :
  zlen p <= 4096 -> scan (frame ty ver p ++ m) = Frame (length (frame ty ver p)).
Proof.
  intros Hp. pose proof (zlen_nonneg p). pose proof (zlen_nonneg m).
  set (F := frame ty ver p).
  assert (HF : zlen F = 7 + zlen p) by apply zlen_frame.
  assert (Hlen : u16 (u16 (zlen p / 256 * 256) + (zlen p mod 256 + PROTOCOL_HEAD)) = 7 + zlen p).
  { assert (0 <= zlen p / 256 <= 16) by (split; [apply Z.div_pos | apply Z.div_le_upper_bound]; lia).
    rewrite (u16_small (_ * 256)) by lia.
    pose proof (Z.div_mod (zlen p) 256 ltac:(lia)). unfold PROTOCOL_HEAD.
    rewrite u16_small; lia. }
  unfold scan.
  assert (E : exists c t, F ++ m = FRAME_FIRST :: FRAME_SECOND :: ver :: ty
                :: zlen p / 256 :: zlen p mod 256 :: c :: t).
  { unfold F, frame, frame_body. destruct p; eexists _, _; reflexivity. }
  destruct E as (c & t & E). rewrite E. cbv iota beta zeta. rewrite !Z.eqb_refl. cbn [negb].
  rewrite Hlen, <- E, zlen_app, HF.
  rewrite (proj2 (Z.ltb_ge BUFSZ _)), (proj2 (Z.ltb_ge (7 + zlen p + zlen m) _)),
    (proj2 (Z.eqb_neq _ 0)) by (unfold BUFSZ; lia).
  assert (Hb : Z.to_nat (7 + zlen p - 1) = length (frame_body ty ver p)).
  { pose proof (zlen_frame_body ty ver p) as Hfb. unfold zlen in Hfb at 1. lia. }
  rewrite aget_lookup, Hb by lia. unfold F, frame.
  rewrite <- app_assoc. cbn [app].
  rewrite list_lookup_middle, take_app_length, Z.eqb_refl by done.
  f_equal. rewrite length_app. cbn [length]. lia.
Qed.

Lemma parses_written ty ver p m fs rest :
  zlen p <= 4096 -> parses m fs rest ->
  parses (frame ty ver p ++ m) (frame ty ver p :: fs) rest.
Proof.
  intros Hp Hm. rewrite <- (take_app_length (frame ty ver p) m) at 2.
  apply parses_frame; [by apply scan_frame | by rewrite drop_app_length].
Qed.

(** Noise without a first header byte is skipped. *)
Lemma parses_noise g l fs rest :
  Forall (fun b => b <> FRAME_FIRST) g -> 7 <= zlen l ->
  parses l fs rest -> parses (g ++ l) fs rest.
Proof.
  intros Hg Hl Hp; induction Hg as [|b g Hb Hg IH]; [done|].
  apply parses_skip with 1%nat; [|done].
  assert (Hlen : (7 <= length (g ++ l))%nat) by (rewrite length_app; unfold zlen in Hl; lia).
  simpl. unfold scan. destruct (g ++ l) as [|? t]; [simpl in *; lia|].
  do 5 (destruct t as [|? t]; [simpl in *; lia|]).
  by rewrite (proj2 (Z.eqb_neq b FRAME_FIRST)) by done.
Qed.

(** ** Byte arrivals and service calls in any order *)

(** A [data_handle] that keeps what it is given. *)
Definition log_handle (b : list Z) : M (list (list Z)) unit := modify (fun l => l ++ [b]).

Lemma handle_all_log bufs l : handle_all log_handle bufs l = Some (l ++ bufs).
Proof.
  revert l; induction bufs as [|b bufs IH]; intros l; simpl; [by rewrite app_nil_r|].
  by rewrite IH, <- app_assoc.
Qed.

(** The receive side; the bytes the line has delivered, those of them the ring has
    kept, and whether it always had room; the frames handed on. *)
Record rx_world := RW { rw_rx : Rx; rw_line : list Z; rw_kept : list Z; rw_room : bool; rw_log : list (list Z) }.

Definition has_room (r : Rx) : bool := zlen (queue r) <=? BUFSZ - 2.

(** What is kept when a byte arrives: all that was taken out of the ring, and what
    [received] leaves in it, which is everything and the byte while there is room, not
    the byte when the ring is full, and nothing when its end meets its beginning. *)
Definition keeps (r : Rx) (kept : list Z) (b : Z) : list Z := take (length kept - length (queue r)) kept ++ received r b.

Inductive rx_step : rx_world -> rx_world -> Prop :=
| rx_byte r s kept room log b r' :
    uart_receive_input b r = Some (tt, r') ->
    rx_step (RW r s kept room log) (RW r' (s ++ [b]) (keeps r kept b) (room && has_room r) log)
| rx_service r s kept room log r' log' :
    wifi_uart_service log_handle (r, log) = Some (tt, (r', log')) ->
    rx_step (RW r s kept room log) (RW r' s kept room log').

Definition rx_inv (x : rx_world) : Prop :=
  rx_ok (rw_rx x) /\ zlen (pending (rw_rx x)) < BUFSZ /\
  (exists taken fs, rw_kept x = taken ++ queue (rw_rx x)
    /\ parses taken fs (pending (rw_rx x)) /\ Forall2 prefix fs (rw_log x)) /\
  (rw_room x = true -> rw_kept x = rw_line x).

Lemma received_room r v :
  ring_ok r -> zlen (queue r) <= BUFSZ - 2 -> received r v = queue r ++ [v].
Proof.
  intros Hok Hq. rewrite queue_zlen in Hq by done. unfold received.
  destruct (queue_full r) eqn:E.
  - rewrite queue_full_spec in E. revert Hq. cases_Z; unfold BUFSZ in *; lia.
  - destruct (Z.eqb_spec (queue_in r) BUFSZ), (Z.eqb_spec (queue_out r) 1); try done.
    exfalso. revert Hq. cases_Z; unfold BUFSZ in *; lia.
Qed.

Lemma keeps_taken taken r b : keeps r (taken ++ queue r) b = taken ++ received r b.
Proof. unfold keeps. rewrite length_app, Nat.add_sub, take_app_length. done. Qed.

Lemma rx_step_inv x y : rx_step x y -> rx_inv x -> rx_inv y.
Proof.
  intros [r s kept room log b r' E | r s kept room log r' log' E]
    (Hok & Hshort & (taken & fs & Hline & Hp & Hlog) & Hroom); cbn [rw_rx rw_line rw_kept rw_room rw_log] in *.
  - assert (Hw := wp_receive r b (fun _ r' => ring_ok r' /\ same_process r r' /\ queue r' = received r b)
                    (proj1 Hok) (fun _ H1 H2 H3 => conj H1 (conj H2 H3))).
    unfold wp in Hw; rewrite E in Hw. destruct Hw as (Hr & [E1 E2] & Hq).
    unfold rx_inv, rx_ok, pending in *; cbn. rewrite E1, E2.
    split; [split; [done | apply Hok]|]. split; [done|]. rewrite Hline, keeps_taken. split.
    + exists taken, fs. by rewrite Hq.
    + intros [-> H]%andb_prop. unfold has_room in H. apply Z.leb_le in H.
      rewrite received_room, app_assoc, <- Hline by (done || apply Hok). by rewrite Hroom.
  - destruct (parse (take (Z.to_nat BUFSZ) (pending r ++ queue r))) as [[fs' rest]|] eqn:Ep.
    2:{ by rewrite service_overrun in E. }
    apply parses_iff in Ep.
    destruct (service_spec log_handle r fs' rest Hok Ep) as (bufs & r1 & Hf & Hok1 & Hp1 & Hq1 & Hrun).
    rewrite (Hrun log _ (handle_all_log bufs log)) in E. injection E as <- <-.
    split; [done|]. cbn [rw_rx rw_line rw_kept rw_room rw_log]. rewrite Hp1. split.
    { eapply parses_rest_short; [exact Ep|]. unfold zlen. rewrite length_take. unfold BUFSZ. lia. }
    split; [|done].
    set (q := pending r ++ queue r) in *.
    destruct (Z.le_gt_cases (zlen q) BUFSZ) as [Hle|Hgt].
    + rewrite take_ge in Ep by (unfold zlen in Hle; lia).
      exists (taken ++ queue r), (fs ++ fs'). rewrite Hq1, drop_ge, app_nil_r by (unfold zlen in Hle; lia).
      split; [done|]. split; [by apply parses_app with (pending r)|by apply Forall2_app].
    + set (k := (Z.to_nat BUFSZ - length (pending r))%nat).
      assert (Hk : (length (pending r) <= Z.to_nat BUFSZ)%nat) by (unfold zlen in Hshort; lia).
      exists (taken ++ take k (queue r)), (fs ++ fs'). rewrite Hq1. unfold q in *.
      rewrite drop_app_ge, take_app_ge in * by done. fold k in Ep |- *.
      split; [by rewrite <- app_assoc, take_drop|].
      split; [by apply parses_app with (pending r)|by apply Forall2_app].
Qed.

(** ** Properties *)

(** The receive side as [wifi_protocol_init] leaves it: [wifi_uart_service] has
    consumed nothing, the two buffers hold anything. *)
Definition rx_start (r : Rx) : Prop :=
  zlen (wifi_uart_rx_buf r) = BUFSZ /\ zlen (wifi_data_process_buf r) = BUFSZ
  /\ queue_in r = 0 /\ queue_out r = 0 /\ rx_in r = 0.

Definition rx0 : Rx :=
  mkRx (replicate 4103 0) 0 0 (replicate 4103 0) 0.

Lemma rx_start_inv r : rx_start r -> rx_inv (RW r [] [] true []).
Proof.
  intros (Hb & Hp & Hi & Ho & Hr).
  assert (Hq : queue r = []) by (unfold queue; rewrite Hi, Ho; done).
  assert (Hpe : pending r = []) by (unfold pending; rewrite Hr; done).
  unfold rx_inv, rx_ok, ring_ok; cbn [rw_rx rw_line rw_kept rw_room rw_log]. rewrite Hpe, Hq.
  split; [unfold BUFSZ in *; lia|]. split; [done|]. split; [|done].
  exists [], []. split; [done|]. split; [by apply parses_more | constructor].
Qed.

Inductive ring_op := In (v : Z) | Out.

(** What the interrupt handler and the service do to the ring, one operation at
    a time; the result lists the bytes read. *)
Fixpoint run_ring (ops : list ring_op) : M Rx (list Z) :=
  match ops with
  | [] => ret []
  | In v :: ops' => run uart_receive_input v; run_ring ops'
  | Out :: ops' =>
      do d <- get_queue_total_data;
      if 0 <? d
      then do b <- Queue_Read_Byte; do bs <- run_ring ops'; ret (b :: bs)
      else run_ring ops'
  end.

(** The same on a plain queue that may hold [BUFSZ - 1] bytes. *)
Fixpoint run_fifo (ops : list ring_op) (q : list Z) : option (list Z * list Z) :=
  match ops with
  | [] => Some ([], q)
  | In v :: ops' => if zlen q <=? BUFSZ - 2 then run_fifo ops' (q ++ [v]) else None
  | Out :: ops' =>
      match q with
      | [] => run_fifo ops' []
      | b :: q' => match run_fifo ops' q' with
                   | Some (bs, q'') => Some (b :: bs, q'')
                   | None => None
                   end
      end
  end.

Lemma run_ring_fifo ops : forall r bs q,
  ring_ok r -> run_fifo ops (queue r) = Some (bs, q) ->
  exists r', run_ring ops r = Some (bs, r') /\ ring_ok r' /\ queue r' = q.
Proof.
  induction ops as [|[v|] ops IH]; intros r bs q Hok; cbn [run_fifo run_ring].
  - intros [= <- <-]. by exists r.
  - destruct (Z.leb_spec (zlen (queue r)) (BUFSZ - 2)) as [Hroom|]; [|done]. intros Hrun.
    assert (Hw := wp_receive r v (fun _ r' => ring_ok r' /\ queue r' = received r v)
                    Hok (fun _ H1 _ H3 => conj H1 H3)).
    apply wp_Some in Hw as ([] & r1 & E & Hr1 & Hq1). rewrite received_room in Hq1 by done.
    rewrite (bind_Some _ _ _ _ _ E). apply IH; [done|]. by rewrite Hq1.
  - intros Hrun. unfold bind at 1, get_queue_total_data, gets.
    destruct (queue r) as [|b q0] eqn:Eq.
    + apply queue_nonempty in Eq as Ee; [|done]. rewrite Ee, Z.eqb_refl. simpl.
      apply IH; [done|]. by rewrite Eq.
    + assert (Hne : queue_in r <> queue_out r).
      { intros E. apply queue_nonempty in E; [congruence | done]. }
      rewrite (proj2 (Z.eqb_neq _ _)) by done. simpl.
      assert (Hw := wp_read_byte r b q0 (fun x r' => x = b /\ ring_ok r' /\ queue r' = q0)
                      Hok Eq (fun _ H1 _ H3 => conj eq_refl (conj H1 H3))).
      apply wp_Some in Hw as (x & r1 & E & -> & Hr1 & Hq1).
      rewrite (bind_Some _ _ _ _ _ E).
      destruct (run_fifo ops q0) as [[bs' q']|] eqn:Ef; [|done]. simplify_eq.
      destruct (IH r1 bs' q Hr1 Ef) as (r' & E' & ? & ?).
      exists r'. by rewrite (bind_Some _ _ _ _ _ E').
Qed.

Fixpoint feed (vs : list Z) : M Rx unit :=
  match vs with
  | [] => ret tt
  | v :: vs' => run uart_receive_input v; feed vs'
  end.

(** A run that leads to [ring_wraps_onto_out]: the consumer takes one byte and
    stalls for 4102 more. *)
Definition stall : M Rx unit :=
  run feed [0]; run Queue_Read_Byte; feed (replicate 4102 7).

Lemma stall_reaches : exists r, stall rx0 = Some (tt, r) /\ ring_wraps_onto_out r /\ zlen (queue r) = 4102.
Proof.
  assert (H : match stall rx0 with
              | Some (_, r) => (queue_in r =? 4103) && (queue_out r =? 1) && (zlen (queue r) =? 4102)
              | None => false
              end = true) by (vm_compute; reflexivity).
  destruct (stall rx0) as [[[] r]|]; [|done]. exists r. split; [done|].
  apply andb_true_iff in H as [H ?]. apply andb_true_iff in H as [? ?].
  unfold ring_wraps_onto_out, BUFSZ. rewrite !Z.eqb_eq in *. done.
Qed.

(** C4: however byte arrivals and calls of [wifi_uart_service] that return interleave
    ([service_total] says which do), the frames handed to [data_handle] are, in order,
    the frames the specification finds in the bytes the ring kept; what is pending or in
    the ring is the rest.  The ring keeps every byte the line delivered as long as none
    arrives with fewer than two places free; else what it keeps is [keeps]: a full ring
    loses the byte, and one whose end meets its beginning all it holds. *)
Theorem service_interleaving r x :
  rx_start r -> rtc rx_step (RW r [] [] true []) x ->
  exists taken fs, rw_kept x = taken ++ queue (rw_rx x)
    /\ parse taken = Some (fs, pending (rw_rx x)) /\ Forall2 prefix fs (rw_log x)
    /\ (rw_room x = true -> rw_kept x = rw_line x).
Proof.
  intros Hr Hx. assert (Hinv : rx_inv x).
  { apply rx_start_inv in Hr. induction Hx as [|? ? ? Hst _ IH]; [done|].
    apply IH. by eapply rx_step_inv. }
  destruct Hinv as (_ & _ & (taken & fs & ? & Hp & ?) & ?). exists taken, fs.
  by rewrite parses_iff.
Qed.

Lemma service_interleaving_witness :
  exists r1 r2 taken fs,
    rtc rx_step (RW rx0 [] [] true []) (RW r2 [85] [85] true [])
    /\ uart_receive_input 85 rx0 = Some (tt, r1)
    /\ [85] = taken ++ queue r2 /\ parse taken = Some (fs, pending r2).
Proof.
  destruct (uart_receive_input 85 rx0) as [[[] r1]|] eqn:E1;
    [|vm_compute in E1; discriminate E1].
  assert (E2 : exists r2, wifi_uart_service log_handle (r1, []) = Some (tt, (r2, []))).
  { vm_compute in E1. injection E1 as <-. eexists. vm_compute. reflexivity. }
  destruct E2 as [r2 E2].
  assert (Hsteps : rtc rx_step (RW rx0 [] [] true []) (RW r2 [85] [85] true [])).
  { eapply rtc_l; [exact (rx_byte rx0 [] [] true [] 85 r1 E1)|]. apply rtc_once. exact (rx_service r1 _ _ _ [] r2 [] E2). }
  destruct (service_interleaving rx0 (RW r2 [85] [85] true [])) as (taken & fs & Hl & Hp & _);
    [repeat split; vm_compute; reflexivity | exact Hsteps |].
  exists r1, r2, taken, fs. split; [exact Hsteps|]. split; [reflexivity|].
  split; [exact Hl | exact Hp].
Defined.

(** C10: one call of [wifi_uart_service] returns exactly when no header among the
    frames of the pending bytes and the ring has the length that wraps to zero
    ([parse] is [None] for these).  It then hands exactly the frames the specification
    finds in them to [data_handle] (in order, each buffer starting with its frame), keeps
    the rest, and leaves room in its buffer, so that the next call takes a byte if there
    is one; else it reads outside the buffer, whatever the handlers do. *)
Theorem service_total {W} (data_handle : list Z -> M W unit) r :
  rx_ok r ->
  match parse (take (Z.to_nat BUFSZ) (pending r ++ queue r)) with
  | Some (fs, rest) =>
      exists bufs r', Forall2 prefix fs bufs /\ rx_ok r' /\ pending r' = rest /\ zlen rest < BUFSZ
        /\ queue r' = drop (Z.to_nat BUFSZ) (pending r ++ queue r)
        /\ forall w w', handle_all data_handle bufs w = Some w' ->
             wifi_uart_service data_handle (r, w) = Some (tt, (r', w'))
  | None => forall w, wifi_uart_service data_handle (r, w) = None
  end.
Proof.
  intros Hr. destruct (parse _) as [[fs rest]|] eqn:Hp; [|intros w; by apply service_overrun]. apply parses_iff in Hp.
  destruct (service_spec data_handle r fs rest Hr Hp) as (bufs & r' & ? & ? & ? & ? & ?).
  exists bufs, r'. do 3 (split; [done|]). split; [|done].
  eapply parses_rest_short; [exact Hp|]. unfold zlen. rewrite length_take. unfold BUFSZ. lia.
Qed.

Lemma service_total_witness :
  let r := mkRx (frame 8 0 [1; 2] ++ 85 :: replicate 4093 0) 10 0 (replicate 4103 0) 0 in
  match parse (take (Z.to_nat BUFSZ) (pending r ++ queue r)) with
  | Some (fs, rest) => fs = [frame 8 0 [1; 2]] /\ rest = [85] /\ exists bufs r', Forall2 prefix fs bufs /\ pending r' = rest /\
      forall w w' : list (list Z), handle_all log_handle bufs w = Some w' -> wifi_uart_service log_handle (r, w) = Some (tt, (r', w'))
  | None => False
  end.
Proof.
  intros r. assert (Hr : rx_ok r) by (repeat split; try (vm_compute; reflexivity); vm_compute; discriminate).
  pose proof (service_total log_handle r Hr) as H.
  assert (E : parse (take (Z.to_nat BUFSZ) (pending r ++ queue r)) = Some ([frame 8 0 [1; 2]], [85])) by (vm_compute; reflexivity).
  rewrite E in H |- *. destruct H as (bufs & r' & Hb & _ & Hp & _ & _ & Hrun).
  split; [reflexivity|]. split; [reflexivity|]. exists bufs, r'. split; [exact Hb|]. split; [exact Hp | exact Hrun].
Defined.

(** C11: a frame sent with [wifi_uart_write_frame] and delivered to the receiver,
    with noise before it that holds no first header byte, is handed to
    [data_handle] whole, and nothing else is. *)
Theorem frame_loopback {W} (data_handle : list Z -> M W unit) ty ver p g s r :
  filled p s -> zlen p <= 4096 -> is_byte ty -> is_byte ver ->
  Forall (fun b => b <> FRAME_FIRST) g -> zlen g + zlen p + 7 <= BUFSZ ->
  rx_ok r -> pending r = [] ->
  exists s' f, wifi_uart_write_frame ty ver (zlen p) s = Some (tt, s')
    /\ uart_out s' = uart_out s ++ f
    /\ (queue r = g ++ f -> exists b r', prefix f b
        /\ rx_ok r' /\ pending r' = [] /\ queue r' = []
        /\ forall w w', data_handle b w = Some (tt, w') ->
             wifi_uart_service data_handle (r, w) = Some (tt, (r', w'))).
Proof.
  intros Hf Hp Hty Hver Hg Hlen Hr Hpend.
  destruct (write_frame_spec ty ver p s Hf Hp Hty Hver) as (s' & E & _ & Hout & _).
  exists s', (frame ty ver p). do 2 (split; [done|]). intros Hq.
  pose proof (zlen_frame ty ver p) as HF. pose proof (zlen_nonneg p).
  assert (Hparse : parses (take (Z.to_nat BUFSZ) (pending r ++ queue r)) [frame ty ver p] []).
  { rewrite Hpend, Hq, app_nil_l, take_ge.
    2: { rewrite length_app. unfold zlen in *. lia. }
    apply parses_noise; [done | lia|].
    rewrite <- (app_nil_r (frame ty ver p)) at 1.
    apply parses_written; [done | by apply parses_more]. }
  destruct (service_spec data_handle r _ _ Hr Hparse) as (bufs & r' & Hb & ? & ? & Hq' & Hrun).
  inversion Hb as [|? b ? ? Hpre Hnil]; subst. inversion Hnil; subst.
  exists b, r'. do 3 (split; [done|]). split.
  - rewrite Hq', Hpend, Hq, app_nil_l. apply drop_ge.
    rewrite length_app. unfold zlen in *. lia.
  - intros w w' Hw. apply Hrun. simpl. by rewrite Hw.
Qed.

Lemma frame_loopback_witness :
  exists s' f,
    wifi_uart_write_frame 8 0 0 (mkTx (replicate 4103 0) [] 0) = Some (tt, s')
    /\ uart_out s' = f
    /\ (queue (mkRx ([1; 2] ++ frame 8 0 [] ++ replicate 4094 0) 9 0 (replicate 4103 0) 0)
          = [1; 2] ++ f ->
        exists b r', prefix f b /\ pending r' = [] /\
          wifi_uart_service log_handle
            (mkRx ([1; 2] ++ frame 8 0 [] ++ replicate 4094 0) 9 0 (replicate 4103 0) 0, [])
          = Some (tt, (r', [b]))).
Proof.
  destruct (frame_loopback log_handle 8 0 [] [1; 2] (mkTx (replicate 4103 0) [] 0)
              (mkRx ([1; 2] ++ frame 8 0 [] ++ replicate 4094 0) 9 0 (replicate 4103 0) 0))
    as (s' & f & E & Ho & H);
    [split; vm_compute; reflexivity | vm_compute; discriminate | split; done | split; done
    | repeat constructor; discriminate | vm_compute; discriminate
    | repeat split; vm_compute; (reflexivity || discriminate) | reflexivity |].
  exists s', f. split; [exact E|]. split; [exact Ho|]. intros Hq.
  destruct (H Hq) as (b & r' & Hb & _ & Hp & _ & Hrun). exists b, r'.
  split; [exact Hb|]. split; [exact Hp|]. apply Hrun. reflexivity.
Defined.

(** Under any interleaving of arrivals and reads, as long as the ring holds
    at most [BUFSZ - 1] bytes, it is a first-in first-out queue: it loses,
    duplicates and reorders nothing. *)
Theorem ring_is_fifo ops r bs q :
  ring_ok r -> run_fifo ops (queue r) = Some (bs, q) ->
  exists r', run_ring ops r = Some (bs, r') /\ ring_ok r' /\ queue r' = q.
Proof. apply run_ring_fifo. Qed.

Lemma ring_is_fifo_witness :
  exists r', run_ring [In 1; In 2; Out; In 3; Out; Out; Out] rx0 = Some ([1; 2; 3], r')
             /\ queue r' = [].
Proof.
  destruct (ring_is_fifo [In 1; In 2; Out; In 3; Out; Out; Out] rx0 [1; 2; 3] [])
    as (r' & E & _ & Hq).
  - repeat split; vm_compute; (reflexivity || discriminate).
  - vm_compute. reflexivity.
  - exists r'. split; [exact E | exact Hq].
Defined.

(** The test for a full ring misses one state, and the state is reached
    when the reader takes one byte and stalls: the next byte makes the pointers
    equal and the 4102 waiting bytes, and the new one, are gone. *)
Theorem ring_overrun_loses_all v :
  exists r r', stall rx0 = Some (tt, r) /\ zlen (queue r) = 4102
    /\ uart_receive_input v r = Some (tt, r') /\ queue r' = [].
Proof.
  destruct stall_reaches as (r & E & (Hi & Ho) & Hq).
  assert (Hok : ring_ok r).
  { assert (H : match stall rx0 with
                | Some (_, r) => bool_decide (zlen (wifi_uart_rx_buf r) = BUFSZ)
                | None => false
                end = true) by (vm_compute; reflexivity).
    rewrite E in H. apply bool_decide_eq_true in H.
    repeat split; rewrite ?Hi, ?Ho; try done; unfold BUFSZ; lia. }
  assert (Hw := wp_receive r v (fun _ r' => queue r' = received r v) Hok (fun _ _ _ H => H)).
  apply wp_Some in Hw as ([] & r' & E' & Hq'). exists r, r'. do 3 (split; [done|]).
  rewrite Hq'. unfold received. destruct (queue_full r) eqn:Hf.
  - apply queue_full_spec in Hf. rewrite Hi, Ho in Hf. unfold BUFSZ in Hf. lia.
  - by rewrite Hi, Ho.
Qed.

Lemma scan_overrun v ty c t : scan ([85; 170; v; ty; 255; 249; c] ++ t) = Overrun.
Proof.
  unfold scan. cbn [app]. cbv zeta.
  change (u16 (u16 (255 * 256) + (249 + PROTOCOL_HEAD))) with 0.
  change (BUFSZ <? 0) with false.
  destruct (Z.ltb_spec (zlen (85 :: 170 :: v :: ty :: 255 :: 249 :: c :: t)) 0) as [H|]; [|done].
  pose proof (zlen_nonneg (85 :: 170 :: v :: ty :: 255 :: 249 :: c :: t)). lia.
Qed.

(** C40: a header whose length field is [0xFFF9] makes the 16 bit frame length
    wrap to zero; the check sum then runs over 65535 bytes, past the buffer. *)
Theorem length_field_overrun {W} (data_handle : list Z -> M W unit) r w v ty l :
  rx_ok r -> pending r ++ queue r = [85; 170; v; ty; 255; 249] ++ l -> 0 < zlen l ->
  wifi_uart_service data_handle (r, w) = None.
Proof.
  intros Hr Hq Hl.
  destruct (fill_loop_spec SERVICE_FUEL r Hr) as (r1 & E1 & Hr1 & Hp1 & Hq1).
  { destruct Hr as (_ & _ & ?). unfold SERVICE_FUEL, BUFSZ in *. lia. }
  destruct l as [|c l]; [done|]. pose proof (zlen_nonneg l).
  assert (Hp : exists t, pending r1 = [85; 170; v; ty; 255; 249; c] ++ t).
  { exists (take (Z.to_nat (BUFSZ - 7)) l). rewrite Hp1, Hq. done. }
  destruct Hp as [t Hp].
  assert (Hin : 7 <= rx_in r1).
  { pose proof (pending_length r1 Hr1) as E. rewrite Hp in E. simpl in E. lia. }
  unfold wifi_uart_service. erewrite bind_Some.
  2: { unfold on_rx, zoom; simpl fst. rewrite E1. reflexivity. }
  rewrite (bind_Some _ _ _ _ _ (on_rx_gets rx_in r1 w)).
  rewrite (proj2 (Z.ltb_ge _ _)) by done.
  assert (Hs : scan (drop (Z.to_nat 0) (pending r1)) = Overrun)
    by (rewrite Hp; apply scan_overrun).
  pose proof (frame_step data_handle 4103 0 r1 w Hr1 ltac:(lia)) as Hstep.
  cbv zeta in Hstep. rewrite Hs in Hstep.
  unfold bind at 1. change SERVICE_FUEL with (S 4103). by rewrite Hstep.
Qed.

Lemma length_field_overrun_witness :
  wifi_uart_service log_handle
    (mkRx ([85; 170; 0; 6; 255; 249; 0] ++ replicate 4096 0) 7 0 (replicate 4103 0) 0, []) = None.
Proof.
  apply (length_field_overrun log_handle _ [] 0 6 [0]).
  - repeat split; vm_compute; (reflexivity || discriminate).
  - vm_compute. reflexivity.
  - vm_compute. reflexivity.
Defined.
