(* ===== verification/Json.v ===== *)
(** * JSON trees and their printing

    [src/wifi/cJSON.c]: the item type, the constructors, adding and looking up
    items, and [cJSON_PrintUnformatted].  Allocation succeeds; a write past an
    allocated block is a fault ([None]), so that the printers' size computations
    are part of what is verified.  C strings are lists of bytes without the
    terminating zero.  [double] is IEEE binary64 ([SpecFloat]). *)

From Stdlib Require Import Floats.SpecFloat String.
From S2P Require Import Prelude CStr.
Open Scope list_scope.

Definition cJSON_False := 0.
Definition cJSON_True := 1.
Definition cJSON_NULL := 2.
Definition cJSON_Number := 3.
Definition cJSON_String := 4.
Definition cJSON_Array := 5.
Definition cJSON_Object := 6.

(** ** Doubles *)

Definition double := spec_float.
Definition d_of_int (z : Z) : double := binary_normalize 53 1024 z 0 false.
Definition d_add (x y : double) : double := SFadd 53 1024 x y.
Definition d_sub (x y : double) : double := SFsub 53 1024 x y.
Definition d_mul (x y : double) : double := SFmul 53 1024 x y.
Definition d_leb (x y : double) : bool := SFleb x y.
Definition d_eqb (x y : double) : bool := SFeqb x y.
Definition d_abs (x : double) : double := SFabs x.

(** [DBL_EPSILON] is [2 ^ -52]. *)
Definition DBL_EPSILON : double := S754_finite false (2 ^ 52) (- 104).

(** Conversion to [int]; a value out of range has no defined conversion. *)
Definition d_to_int (x : double) : option Z :=
  let range v := if (- 2 ^ 31 <=? v) && (v <? 2 ^ 31) then Some v else None in
  match x with
  | S754_zero _ => Some 0
  | S754_finite s m e =>
      let a := if 0 <=? e then Z.pos m * 2 ^ e else Z.pos m / 2 ^ (- e) in
      range (if s then - a else a)
  | _ => None
  end.

(** ** Items *)

Unset Elimination Schemes.
Inductive cJSON : Type := Item {
  type : Z;
  valuestring : option (list Z);
  valueint : Z;
  valuedouble : double;
  key : option (list Z);          (** the member [string] *)
  child : list cJSON
}.
Set Elimination Schemes.

Definition cJSON_New_Item (ty : Z) : cJSON := Item ty None 0 (S754_zero false) None [].

Definition cJSON_CreateObject : cJSON := cJSON_New_Item cJSON_Object.
Definition cJSON_CreateArray : cJSON := cJSON_New_Item cJSON_Array.
Definition cJSON_CreateString (s : list Z) : cJSON :=
  Item cJSON_String (Some s) 0 (S754_zero false) None [].
(** [num] is an integer wherever the firmware calls it. *)
Definition cJSON_CreateNumber (num : Z) : option cJSON :=
  match d_to_int (d_of_int num) with
  | Some i => Some (Item cJSON_Number None i (d_of_int num) None [])
  | None => None
  end.

Definition cJSON_AddItemToArray (array item : cJSON) : cJSON :=
  Item (type array) (valuestring array) (valueint array) (valuedouble array) (key array)
    (child array ++ [item]).

Definition with_key (name : list Z) (item : cJSON) : cJSON :=
  Item (type item) (valuestring item) (valueint item) (valuedouble item) (Some name) (child item).

Definition cJSON_AddItemToObject (object : cJSON) (name : list Z) (item : cJSON) : cJSON :=
  cJSON_AddItemToArray object (with_key name item).

Definition cJSON_AddStringToObject (object : cJSON) (name s : list Z) : cJSON :=
  cJSON_AddItemToObject object name (cJSON_CreateString s).

Definition cJSON_AddNumberToObject (object : cJSON) (name : list Z) (n : Z) : option cJSON :=
  match cJSON_CreateNumber n with
  | Some item => Some (cJSON_AddItemToObject object name item)
  | None => None
  end.

Definition tolower (c : Z) : Z := if (65 <=? c) && (c <=? 90) then c + 32 else c.

(** Zero when the strings are equal but for the case of letters. *)
Fixpoint strcasecmp_loop (s1 s2 : list Z) : Z :=
  match s1, s2 with
  | [], [] => 0
  | a :: s1', b :: s2' =>
      if tolower a =? tolower b then strcasecmp_loop s1' s2' else tolower a - tolower b
  | a :: _, [] => tolower a
  | [], b :: _ => - tolower b
  end.

Definition cJSON_strcasecmp (s1 s2 : option (list Z)) : Z :=
  match s1, s2 with
  | None, None => 0
  | None, Some _ => 1
  | Some _, None => 1
  | Some a, Some b => strcasecmp_loop a b
  end.

Definition cJSON_GetArraySize (array : cJSON) : Z := zlen (child array).

Fixpoint nth_child (c : list cJSON) (item : nat) : option cJSON :=
  match c, item with
  | x :: _, O => Some x
  | _ :: c', S n => nth_child c' n
  | [], _ => None
  end.

Definition cJSON_GetArrayItem (array : cJSON) (item : Z) : option cJSON :=
  nth_child (child array) (Z.to_nat item).

Fixpoint find_child (c : list cJSON) (name : list Z) : option cJSON :=
  match c with
  | [] => None
  | x :: c' => if cJSON_strcasecmp (key x) (Some name) =? 0 then Some x else find_child c' name
  end.

Definition cJSON_GetObjectItem (object : cJSON) (name : list Z) : option cJSON :=
  find_child (child object) name.

(** ** [sprintf] of doubles: ["%.0f"], ["%f"], ["%e"] *)

(** [n / d], rounded to nearest, ties to even. *)
Definition div_rne (n d : Z) : Z :=
  let q := n / d in
  let r := 2 * (n mod d) in
  if r <? d then q else if d <? r then q + 1 else if Z.even q then q else q + 1.

(** [m * 2 ^ e * 10 ^ k], rounded to an integer. *)
Definition scaled (m e k : Z) : Z :=
  div_rne (m * (if 0 <=? e then 2 ^ e else 1) * (if 0 <=? k then 10 ^ k else 1))
          ((if 0 <=? e then 1 else 2 ^ (- e)) * (if 0 <=? k then 1 else 10 ^ (- k))).

Definition sign_of (s : bool) : list Z := if s then [45] else [].

(** A decimal numeral with [prec] digits after the point. *)
Definition point (prec : Z) (q : Z) : list Z :=
  let ds := zpad (prec + 1) (dec q) in
  let n := (length ds - Z.to_nat prec)%nat in
  if prec =? 0 then ds else take n ds ++ [46] ++ drop n ds.

Definition fmt_f (prec : Z) (x : double) : list Z :=
  match x with
  | S754_zero s => sign_of s ++ point prec 0
  | S754_finite s m e => sign_of s ++ point prec (scaled (Z.pos m) e prec)
  | S754_infinity s => sign_of s ++ str "inf"
  | S754_nan => str "nan"
  end.

(** The decimal exponent of [m * 2 ^ e], searched downwards. *)
Fixpoint exponent_from (fuel : nat) (m e k : Z) : Z :=
  match fuel with
  | O => k
  | S n =>
      if (if 0 <=? k then 10 ^ k else 1) * (if 0 <=? e then 1 else 2 ^ (- e))
         <=? m * (if 0 <=? e then 2 ^ e else 1) * (if 0 <=? k then 1 else 10 ^ (- k))
      then k else exponent_from n m e (k - 1)
  end.

Definition fmt_e (x : double) : list Z :=
  let render s q k :=
    sign_of s ++ point 6 q ++ [101; if k <? 0 then 45 else 43] ++ zpad 2 (dec (Z.abs k)) in
  match x with
  | S754_zero s => render s 0 0
  | S754_finite s m e =>
      let k := exponent_from 700 (Z.pos m) e 309 in
      let q := scaled (Z.pos m) e (6 - k) in
      if q =? 10 ^ 7 then render s (10 ^ 6) (k + 1) else render s q k
  | S754_infinity s => sign_of s ++ str "inf"
  | S754_nan => str "nan"
  end.

Definition d_floor (x : double) : double :=
  match x with
  | S754_finite s m e =>
      if 0 <=? e then x
      else d_of_int (if s then - (- (- Z.pos m / 2 ^ (- e))) else Z.pos m / 2 ^ (- e))
  | _ => x
  end.

Example fmt_f_half : fmt_f 6 (d_add (d_of_int 2) (SFdiv 53 1024 (d_of_int 1) (d_of_int 8))) = str "2.125000".
Proof. vm_compute. reflexivity. Qed.
Example fmt_e_big : fmt_e (d_mul (d_of_int 12345678901) (d_of_int 1000)) = str "1.234568e+13".
Proof. vm_compute. reflexivity. Qed.
Example fmt_e_small : fmt_e (SFdiv 53 1024 (d_of_int (-1)) (d_of_int 3000000000)) = str "-3.333333e-10".
Proof. vm_compute. reflexivity. Qed.
Example floor_neg : d_floor (SFdiv 53 1024 (d_of_int (-5)) (d_of_int 2)) = d_of_int (-3).
Proof. vm_compute. reflexivity. Qed.

(** ** Printing, unformatted and without a print buffer *)

(** A string of these characters and a zero, in a block of [len] bytes. *)
Definition fill (len : Z) (s : list Z) : option (list Z) :=
  if zlen s + 1 <=? len then Some s else None.

Definition print_number (item : cJSON) : option (list Z) :=
  let d := valuedouble item in
  if d_eqb d (d_of_int 0) then fill 2 (str "0")
  else if d_leb (d_abs (d_sub (d_of_int (valueint item)) d)) DBL_EPSILON
          && d_leb d (d_of_int (2 ^ 31 - 1)) && d_leb (d_of_int (- 2 ^ 31)) d
  then fill 21 (fmt_d (valueint item))
  else fill 64
    (if d_leb (d_abs (d_sub (d_floor d) d)) DBL_EPSILON
        && SFltb (d_abs d) (d_of_int (10 ^ 60)) then fmt_f 0 d
     else if SFltb (d_abs d) (SFdiv 53 1024 (d_of_int 1) (d_of_int (10 ^ 6)))
             || SFltb (d_of_int (10 ^ 9)) (d_abs d) then fmt_e d
     else fmt_f 6 d).

Definition needs_escape (c : Z) : bool := ((0 <? c) && (c <? 32)) || (c =? 34) || (c =? 92).

(** Quote, backslash and the control characters with a one-letter escape. *)
Definition short_escape (c : Z) : bool :=
  existsb (Z.eqb c) [34; 92; 8; 12; 10; 13; 9].

Definition escaped_len (c : Z) : Z :=
  if short_escape c then 2 else if c <? 32 then 6 else 1.

Definition hex_digit (v : Z) : Z := if v <? 10 then 48 + v else 87 + v.

Definition escape_char (c : Z) : list Z :=
  if (31 <? c) && negb (c =? 34) && negb (c =? 92) then [c]
  else 92 :: (if c =? 92 then [92] else if c =? 34 then [34] else if c =? 8 then [98]
              else if c =? 12 then [102] else if c =? 10 then [110] else if c =? 13 then [114]
              else if c =? 9 then [116]
              else [117; 48; 48; hex_digit (c / 16); hex_digit (c mod 16)]).

(** A null string is dereferenced before the test for null: a fault. *)
Definition print_string_ptr (s : option (list Z)) : option (list Z) :=
  match s with
  | None => None
  | Some s =>
      if existsb needs_escape s
      then fill (fold_left (fun n c => n + escaped_len c) s 0 + 3)
             ([34] ++ concat (map escape_char s) ++ [34])
      else fill (zlen s + 3) ([34] ++ s ++ [34])
  end.

(** The results of the entries of an array; [Some None] when one is null. *)
Fixpoint collect_entries (es : list (option (option (list Z)))) : option (option (list (list Z))) :=
  match es with
  | [] => Some (Some [])
  | None :: _ => None
  | Some None :: _ => Some None
  | Some (Some e) :: es' =>
      match collect_entries es' with
      | Some (Some l) => Some (Some (e :: l))
      | r => r
      end
  end.

(** Those of an object: a null entry does not stop the loop. *)
Fixpoint collect_members (es : list (option (list Z) * option (option (list Z))))
  : option (option (list (list Z * list Z))) :=
  match es with
  | [] => Some (Some [])
  | (None, _) :: _ | (_, None) :: _ => None
  | (Some n, Some e) :: es' =>
      match collect_members es', e with
      | Some (Some l), Some e => Some (Some ((n, e) :: l))
      | Some _, _ => Some None
      | None, _ => None
      end
  end.

Fixpoint join (sep : list Z) (l : list (list Z)) : list Z :=
  match l with
  | [] => []
  | [x] => x
  | x :: l' => x ++ sep ++ join sep l'
  end.

Definition print_array (entries : list (option (option (list Z)))) : option (option (list Z)) :=
  match entries with
  | [] => Some <$> fill 3 (str "[]")
  | _ =>
      match collect_entries entries with
      | Some (Some l) =>
          Some <$> fill (fold_left (fun n e => n + (zlen e + 2)) l 5) ([91] ++ join [44] l ++ [93])
      | Some None => Some None
      | None => None
      end
  end.

Definition print_object (members : list (option (list Z) * option (option (list Z))))
  : option (option (list Z)) :=
  match members with
  | [] => Some <$> fill 3 (str "{}")
  | _ =>
      match collect_members members with
      | Some (Some l) =>
          Some <$> fill (fold_left (fun n m => n + (zlen (snd m) + zlen (fst m) + 2)) l 7)
                     ([123] ++ join [44] (map (fun m => fst m ++ [58] ++ snd m) l) ++ [125])
      | Some None => Some None
      | None => None
      end
  end.

Fixpoint print_value (item : cJSON) : option (option (list Z)) :=
  let ty := Z.land (type item) 255 in
  if ty =? cJSON_NULL then Some (Some (str "null"))
  else if ty =? cJSON_False then Some (Some (str "false"))
  else if ty =? cJSON_True then Some (Some (str "true"))
  else if ty =? cJSON_Number then Some <$> print_number item
  else if ty =? cJSON_String then Some <$> print_string_ptr (valuestring item)
  else if ty =? cJSON_Array then print_array (map print_value (child item))
  else if ty =? cJSON_Object then
    print_object (map (fun c => (print_string_ptr (key c), print_value c)) (child item))
  else Some None.

Definition cJSON_PrintUnformatted (item : cJSON) : option (option (list Z)) := print_value item.

(** ** The text of a JSON value *)

Unset Elimination Schemes.
Inductive jv : Type :=
| JNum (n : Z)
| JStr (s : list Z)
| JArr (l : list jv)
| JObj (l : list (list Z * jv)).
Set Elimination Schemes.

Section JvInd.
Context (P : jv -> Prop)
  (Hnum : forall n, P (JNum n)) (Hstr : forall s, P (JStr s))
  (Harr : forall l, Forall P l -> P (JArr l))
  (Hobj : forall l, Forall (fun m => P (snd m)) l -> P (JObj l)).

Fixpoint jv_ind (v : jv) : P v :=
  match v with
  | JNum n => Hnum n
  | JStr s => Hstr s
  | JArr l => Harr l ((fix go l := match l return Forall P l with
                                   | [] => Forall_nil_2 _
                                   | x :: r => Forall_cons_2 _ _ _ (jv_ind x) (go r)
                                   end) l)
  | JObj l => Hobj l ((fix go l := match l return Forall (fun m => P (snd m)) l with
                                   | [] => Forall_nil_2 _
                                   | x :: r => Forall_cons_2 _ _ _ (jv_ind (snd x)) (go r)
                                   end) l)
  end.
End JvInd.

Definition quoted (s : list Z) : list Z := [34] ++ concat (map escape_char s) ++ [34].

Fixpoint render (v : jv) : list Z :=
  match v with
  | JNum n => fmt_d n
  | JStr s => quoted s
  | JArr l => [91] ++ join [44] (map render l) ++ [93]
  | JObj l => [123] ++ join [44] (map (fun m => quoted (fst m) ++ [58] ++ render (snd m)) l) ++ [125]
  end.

(** The item the constructors build for it. *)
Fixpoint item_of (v : jv) : cJSON :=
  match v with
  | JNum n => Item cJSON_Number None n (d_of_int n) None []
  | JStr s => cJSON_CreateString s
  | JArr l => Item cJSON_Array None 0 (S754_zero false) None (map item_of l)
  | JObj l => Item cJSON_Object None 0 (S754_zero false) None
                (map (fun m => with_key (fst m) (item_of (snd m))) l)
  end.

Definition char_ok (c : Z) : Prop := 0 < c < 256.

(** Strings hold no zero; the numbers the firmware prints are bytes. *)
Fixpoint jv_ok (v : jv) : Prop :=
  match v with
  | JNum n => is_byte n
  | JStr s => Forall char_ok s
  | JArr l => fold_right (fun x p => jv_ok x /\ p) True l
  | JObj l => fold_right (fun m p => (Forall char_ok (fst m) /\ jv_ok (snd m)) /\ p) True l
  end.

(** *** Printing meets it *)

(** A decidable fact about all bytes, checked one by one. *)
Definition all_bytes (P : Z -> Prop) `{forall c, Decision (P c)} : bool :=
  forallb (fun c => bool_decide (P c)) (seqZ 0 256).

Lemma all_bytes_spec (P : Z -> Prop) `{forall c, Decision (P c)} :
  all_bytes P = true -> forall c, is_byte c -> P c.
Proof.
  unfold all_bytes. rewrite forallb_forall. intros Ha c Hc.
  apply (bool_decide_eq_true_1 _), Ha, list_elem_of_In, elem_of_seqZ. unfold is_byte in Hc. lia.
Qed.

Lemma print_number_byte n :
  is_byte n -> print_number (Item cJSON_Number None n (d_of_int n) None []) = Some (fmt_d n).
Proof.
  revert n. apply (all_bytes_spec (fun n =>
    print_number (Item cJSON_Number None n (d_of_int n) None []) = Some (fmt_d n))).
  vm_compute. reflexivity.
Qed.

Lemma CreateNumber_byte n :
  is_byte n -> cJSON_CreateNumber n = Some (item_of (JNum n)).
Proof.
  intros Hn. unfold cJSON_CreateNumber.
  assert (E : d_to_int (d_of_int n) = Some n); [|by rewrite E].
  revert n Hn. apply (all_bytes_spec (fun n => d_to_int (d_of_int n) = Some n)).
  vm_compute. reflexivity.
Qed.

Lemma escape_char_spec c :
  char_ok c -> zlen (escape_char c) = escaped_len c
               /\ (needs_escape c = false -> escape_char c = [c]) /\ bytes_ok (escape_char c)
               /\ Forall (fun b => 32 <= b) (escape_char c).
Proof.
  intros Hc. assert (H : is_byte c) by (unfold char_ok, is_byte in *; lia).
  revert c H Hc. apply (all_bytes_spec (fun c => 0 < c < 256 ->
    zlen (escape_char c) = escaped_len c
    /\ (needs_escape c = false -> escape_char c = [c]) /\ bytes_ok (escape_char c)
    /\ Forall (fun b => 32 <= b) (escape_char c))).
  vm_compute. reflexivity.
Qed.

Lemma escaped_plain s :
  Forall char_ok s -> existsb needs_escape s = false -> concat (map escape_char s) = s.
Proof.
  induction 1 as [|c s Hc _ IH]; simpl; [done|]. intros H. apply orb_false_iff in H as [H1 H2].
  rewrite IH by done. by rewrite (proj1 (proj2 (escape_char_spec c Hc)) H1).
Qed.

Lemma escaped_length s n :
  Forall char_ok s ->
  fold_left (fun n c => n + escaped_len c) s n = n + zlen (concat (map escape_char s)).
Proof.
  intros H; revert n; induction H as [|c s Hc _ IH]; intros n; simpl.
  - rewrite zlen_nil. lia.
  - rewrite IH, zlen_app, (proj1 (escape_char_spec c Hc)). lia.
Qed.

(** The printed string fits the block computed for it. *)
Lemma print_string_spec s : Forall char_ok s -> print_string_ptr (Some s) = Some (quoted s).
Proof.
  intros H. unfold print_string_ptr, quoted, fill. destruct (existsb needs_escape s) eqn:E.
  - rewrite escaped_length by done. rewrite !zlen_app, !zlen_cons, zlen_nil.
    rewrite (proj2 (Z.leb_le _ _)) by lia. done.
  - rewrite (escaped_plain s H E), !zlen_app, !zlen_cons, zlen_nil.
    rewrite (proj2 (Z.leb_le _ _)) by lia. done.
Qed.

Lemma collect_entries_ok l : collect_entries (map (fun e => Some (Some e)) l) = Some (Some l).
Proof. induction l as [|e l IH]; simpl; [done|]. by rewrite IH. Qed.

Lemma collect_members_ok l :
  collect_members (map (fun m => (Some (fst m), Some (Some (snd m)))) l) = Some (Some l).
Proof. induction l as [|[n e] l IH]; simpl; [done|]. by rewrite IH. Qed.

Lemma join_length l :
  zlen (join [44] l) <= fold_right (fun e n => zlen e + 1 + n) 0 l.
Proof.
  induction l as [|e [|e' l] IH]; [done | simpl; lia |].
  change (join [44] (e :: e' :: l)) with (e ++ [44] ++ join [44] (e' :: l)).
  rewrite !zlen_app, zlen_cons, zlen_nil. simpl in *. lia.
Qed.

Lemma fold_left_sum {A} (f : A -> Z) l n :
  fold_left (fun n e => n + f e) l n = n + fold_right (fun e n => f e + n) 0 l.
Proof. revert n; induction l as [|x l IH]; intros n; simpl; [lia|]. rewrite IH. lia. Qed.

Lemma fold_right_le {A} (f g : A -> Z) l :
  (forall x, f x <= g x) ->
  fold_right (fun e n => f e + n) 0 l <= fold_right (fun e n => g e + n) 0 l.
Proof. intros H; induction l as [|x l IH]; simpl; [lia|]. specialize (H x). lia. Qed.

Lemma print_array_spec l :
  print_array (map (fun e => Some (Some e)) l) = Some (Some ([91] ++ join [44] l ++ [93])).
Proof.
  destruct l as [|e l]; [done|]. unfold print_array. rewrite collect_entries_ok.
  cbn [map]. rewrite fold_left_sum. unfold fill.
  rewrite !zlen_app, !zlen_cons, zlen_nil. pose proof (join_length (e :: l)).
  pose proof (fold_right_le (fun e : list Z => zlen e + 1) (fun e => zlen e + 2) (e :: l) ltac:(intros; cbv beta; lia)).
  cbv beta in *. rewrite (proj2 (Z.leb_le _ _)) by lia. done.
Qed.

Lemma print_object_spec l :
  print_object (map (fun m => (Some (fst m), Some (Some (snd m)))) l)
  = Some (Some ([123] ++ join [44] (map (fun m => fst m ++ [58] ++ snd m) l) ++ [125])).
Proof.
  destruct l as [|m l]; [done|]. unfold print_object. rewrite collect_members_ok.
  cbn [map]. rewrite fold_left_sum. unfold fill.
  rewrite !zlen_app, !zlen_cons, zlen_nil.
  pose proof (join_length (map (fun m => fst m ++ [58] ++ snd m) (m :: l))) as Hj.
  assert (E : fold_right (fun e n => zlen e + 1 + n) 0 (map (fun m => fst m ++ [58] ++ snd m) (m :: l))
              = fold_right (fun m n => zlen (snd m) + zlen (fst m) + 2 + n) 0 (m :: l)).
  { clear. induction (m :: l) as [|x r IH]; [done|]. cbn [map fold_right].
    rewrite IH, !zlen_app, zlen_cons, zlen_nil. lia. }
  rewrite E in Hj. cbn [map] in Hj. cbv beta in *.
  rewrite (proj2 (Z.leb_le _ _)) by lia. done.
Qed.

Lemma print_with_key n c : print_value (with_key n c) = print_value c.
Proof. by destruct c. Qed.

(** Printing the item of a value gives its text: no block is overrun, no
    pointer is null. *)
Lemma print_value_spec v : jv_ok v -> print_value (item_of v) = Some (Some (render v)).
Proof.
  induction v as [n|s|l IH|l IH] using jv_ind; intros Hv.
  - cbn -[print_number]. by rewrite print_number_byte.
  - cbn -[print_string_ptr]. by rewrite print_string_spec.
  - change (print_array (map print_value (map item_of l)) = Some (Some (render (JArr l)))).
    assert (E : map print_value (map item_of l) = map (fun e => Some (Some e)) (map render l)).
    { induction IH as [|x r Hx _ IHr]; [done|]. destruct Hv as [Hv1 Hv2]. cbn [map].
      rewrite Hx, IHr by done. done. }
    rewrite E, print_array_spec. done.
  - change (print_object (map (fun c => (print_string_ptr (key c), print_value c))
              (map (fun m => with_key (fst m) (item_of (snd m))) l)) = Some (Some (render (JObj l)))).
    assert (E : map (fun c => (print_string_ptr (key c), print_value c))
                  (map (fun m => with_key (fst m) (item_of (snd m))) l)
                = map (fun m => (Some (fst m), Some (Some (snd m))))
                    (map (fun m => (quoted (fst m), render (snd m))) l)).
    { induction IH as [|[n x] r Hx _ IHr]; [done|]. destruct Hv as [[Hn Hv1] Hv2]. cbn [map fst snd].
      cbn [snd] in Hx. rewrite print_with_key, Hx, IHr by done. cbn [with_key key].
      rewrite print_string_spec by done. done. }
    rewrite E, print_object_spec, map_map. done.
Qed.
