(* ===== verification/JsonParse.v ===== *)
(** * Parsing JSON

    [cJSON_Parse] of [src/wifi/cJSON.c], with the modification of this copy that
    lets a string go on past a quote inside braces ([str_nest]).  A pointer into
    the text is what is left of the array from it on; reading behind the array,
    writing behind the block [parse_string] allocates, or converting a number
    that does not fit an [int] is a fault. *)

From Stdlib Require Import Floats.SpecFloat String.
From S2P Require Import Prelude CStr Json.
Open Scope list_scope.

(** A fault, the null pointer, or a result. *)
Inductive outcome (A : Type) := Fault | Null | Got (a : A).
Arguments Fault {A}. Arguments Null {A}. Arguments Got {A}.

Definition obind {A B} (m : outcome A) (k : A -> outcome B) : outcome B :=
  match m with Fault => Fault | Null => Null | Got a => k a end.

Notation "'let?' x := m 'in' k" := (obind m (fun x => k))
  (at level 10, x pattern, m at level 100, k at level 200) : gw_scope.

Definition deref (p : list Z) : outcome Z := match p with c :: _ => Got c | [] => Fault end.
Definition deref_at (p : list Z) (i : nat) : outcome Z := deref (drop i p).

Fixpoint skip (p : list Z) : outcome (list Z) :=
  match p with
  | [] => Fault
  | c :: r => if negb (c =? 0) && (c <=? 32) then skip r else Got p
  end.

(** [!strncmp(p, s, strlen(s))]. *)
Fixpoint starts (s p : list Z) : outcome bool :=
  match s, p with
  | [], _ => Got true
  | _ :: _, [] => Fault
  | c :: s', x :: p' => if x =? c then starts s' p' else Got false
  end.

(** ** Numbers *)

Section Numbers.
(** [pow(10.0, _)] of the mathematical library. *)
Context (pow10 : double -> double).

Fixpoint number_digits (p : list Z) (n : double) (k : Z) : outcome (double * Z * list Z) :=
  match p with
  | [] => Fault
  | c :: r =>
      if is_digit c then number_digits r (d_add (d_mul n (d_of_int 10)) (d_of_int (c - 48))) (k + 1)
      else Got (n, k, p)
  end.

(** An exponent that overflows its [int] is a fault. *)
Fixpoint exponent_digits (p : list Z) (e : Z) : outcome (Z * list Z) :=
  match p with
  | [] => Fault
  | c :: r =>
      if is_digit c then
        let e' := e * 10 + (c - 48) in
        if e' <? 2 ^ 31 then exponent_digits r e' else Fault
      else Got (e, p)
  end.

Definition parse_number (num : list Z) : outcome (cJSON * list Z) :=
  let? c := deref num in
  let '(sign, num) := if c =? 45 then (d_of_int (-1), tail num) else (d_of_int 1, num) in
  let? c := deref num in
  let num := if c =? 48 then tail num else num in
  let? c := deref num in
  let? (n, _, num) := (if (49 <=? c) && (c <=? 57) then number_digits num (d_of_int 0) 0
                       else Got (d_of_int 0, 0, num)) in
  let? c := deref num in
  let? (n, scale, num) :=
    (if c =? 46 then
       let? c1 := deref_at num 1 in
       if is_digit c1 then
         let? (n, k, num) := number_digits (tail num) n 0 in
         Got (n, d_of_int (- k), num)
       else Got (n, d_of_int 0, num)
     else Got (n, d_of_int 0, num)) in
  let? c := deref num in
  let? (subscale, signsubscale, num) :=
    (if (c =? 101) || (c =? 69) then
       let num := tail num in
       let? c := deref num in
       let '(sg, num) := if c =? 43 then (1, tail num) else if c =? 45 then (-1, tail num) else (1, num) in
       let? (e, num) := exponent_digits num 0 in
       Got (e, sg, num)
     else Got (0, 1, num)) in
  let n := d_mul (d_mul sign n) (pow10 (d_add scale (d_of_int (subscale * signsubscale)))) in
  match d_to_int n with
  | Some i => Got (Item cJSON_Number None i n None [], num)
  | None => Fault
  end.
End Numbers.

(** ** Strings *)

Definition hex_value (c : Z) : option Z :=
  if (48 <=? c) && (c <=? 57) then Some (c - 48)
  else if (65 <=? c) && (c <=? 70) then Some (10 + (c - 65))
  else if (97 <=? c) && (c <=? 102) then Some (10 + (c - 97))
  else None.

Fixpoint parse_hex (n : nat) (str : list Z) (h : Z) : outcome Z :=
  match n with
  | O => Got h
  | S k =>
      let? c := deref str in
      match hex_value c with
      | Some v => parse_hex k (tail str) (h * 16 + v)
      | None => Got 0
      end
  end.
Definition parse_hex4 (str : list Z) : outcome Z := parse_hex 4 str 0.

(** The first loop: the size of the block. *)
Fixpoint string_len (p : list Z) (len : Z) : outcome Z :=
  match p with
  | [] => Fault
  | c :: r =>
      if (c =? 34) || (c =? 0) then Got len
      else if c =? 92 then match r with [] => Fault | _ :: r' => string_len r' (len + 1) end
      else string_len r (len + 1)
  end.

Definition utf8 (uc : Z) : list Z :=
  let low x := Z.land (Z.lor x 128) 191 in
  if uc <? 128 then [u8 uc]
  else if uc <? 2048 then [u8 (Z.lor (Z.shiftr uc 6) 192); low uc]
  else if uc <? 65536 then [u8 (Z.lor (Z.shiftr uc 12) 224); low (Z.shiftr uc 6); low uc]
  else [u8 (Z.lor (Z.shiftr uc 18) 240); low (Z.shiftr uc 12); low (Z.shiftr uc 6); low uc].

(** [\uXXXX], the pointer at the [u]: the bytes, and the pointer at the last
    character of the escape. *)
Definition unicode (p : list Z) : outcome (list Z * list Z) :=
  let? uc := parse_hex4 (tail p) in
  let p := drop 4 p in
  if ((56320 <=? uc) && (uc <=? 57343)) || (uc =? 0) then Got ([], p)
  else if (55296 <=? uc) && (uc <=? 56319) then
    let? c1 := deref_at p 1 in
    if negb (c1 =? 92) then Got ([], p) else
    let? c2 := deref_at p 2 in
    if negb (c2 =? 117) then Got ([], p) else
    let? uc2 := parse_hex4 (drop 3 p) in
    let p := drop 6 p in
    if (uc2 <? 56320) || (57343 <? uc2) then Got ([], p)
    else Got (utf8 (65536 + Z.lor (Z.shiftl (Z.land uc 1023) 10) (Z.land uc2 1023)), p)
  else Got (utf8 uc, p).

Definition unescape (p : list Z) : outcome (list Z * list Z) :=
  let? c := deref p in
  if c =? 98 then Got ([8], p)
  else if c =? 102 then Got ([12], p)
  else if c =? 110 then Got ([10], p)
  else if c =? 114 then Got ([13], p)
  else if c =? 116 then Got ([9], p)
  else if c =? 117 then unicode p
  else Got ([c], p).

(** The second loop: what is written to the block, and the pointer where it
    stops; every iteration advances the pointer. *)
Fixpoint string_copy (fuel : nat) (p : list Z) (str_nest : Z) (out : list Z) : outcome (list Z * list Z) :=
  match fuel with
  | O => Fault
  | S k =>
      let? c := deref p in
      if (negb (c =? 34) || negb (str_nest =? 0)) && negb (c =? 0) then
        let nest := if c =? 123 then str_nest + 1 else if c =? 125 then str_nest - 1 else str_nest in
        if negb (c =? 92) then string_copy k (tail p) nest (out ++ [c])
        else
          let? (bytes, p) := unescape (tail p) in
          string_copy k (tail p) nest (out ++ bytes)
      else Got (out, p)
  end.

Fixpoint until_zero (l : list Z) : list Z :=
  match l with
  | [] => []
  | c :: r => if c =? 0 then [] else c :: until_zero r
  end.

(** The string, in a block of [len + 1] bytes. *)
Definition parse_string (str : list Z) : outcome (list Z * list Z) :=
  let? c := deref str in
  if negb (c =? 34) then Null else
  let? len := string_len (tail str) 0 in
  let? (out, p) := string_copy (length str) (tail str) 0 [] in
  if zlen out + 1 <=? len + 1 then
    let? c := deref p in
    Got (until_zero out, if c =? 34 then tail p else p)
  else Fault.

(** ** Values *)

Section Values.
Context (pow10 : double -> double).

Fixpoint parse_value (fuel : nat) (value : list Z) : outcome (cJSON * list Z) :=
  match fuel with
  | O => Fault
  | S k =>
      let? b := starts (str "null") value in
      if b : bool then Got (cJSON_New_Item cJSON_NULL, drop 4 value) else
      let? b := starts (str "false") value in
      if b : bool then Got (cJSON_New_Item cJSON_False, drop 5 value) else
      let? b := starts (str "true") value in
      if b : bool then Got (Item cJSON_True None 1 (S754_zero false) None [], drop 4 value) else
      let? c := deref value in
      if c =? 34 then let? (s, p) := parse_string value in Got (cJSON_CreateString s, p)
      else if (c =? 45) || is_digit c then parse_number pow10 value
      else if c =? 91 then parse_array k value
      else if c =? 123 then parse_object k value
      else Null
  end
with parse_array (fuel : nat) (value : list Z) : outcome (cJSON * list Z) :=
  match fuel with
  | O => Fault
  | S k =>
      let? value := skip (tail value) in
      let? c := deref value in
      if c =? 93 then Got (cJSON_CreateArray, tail value) else
      let? (x, p) := parse_value k value in
      let? p := skip p in
      let? (l, p) := parse_elements k p in
      let? c := deref p in
      if c =? 93 then Got (Item cJSON_Array None 0 (S754_zero false) None (x :: l), tail p) else Null
  end
with parse_elements (fuel : nat) (value : list Z) : outcome (list cJSON * list Z) :=
  match fuel with
  | O => Fault
  | S k =>
      let? c := deref value in
      if c =? 44 then
        let? p := skip (tail value) in
        let? (x, p) := parse_value k p in
        let? p := skip p in
        let? (l, p) := parse_elements k p in
        Got (x :: l, p)
      else Got ([], value)
  end
with parse_object (fuel : nat) (value : list Z) : outcome (cJSON * list Z) :=
  match fuel with
  | O => Fault
  | S k =>
      let? value := skip (tail value) in
      let? c := deref value in
      if c =? 125 then Got (cJSON_CreateObject, tail value) else
      let? (x, p) := parse_member k value in
      let? (l, p) := parse_members k p in
      let? c := deref p in
      if c =? 125 then Got (Item cJSON_Object None 0 (S754_zero false) None (x :: l), tail p) else Null
  end
with parse_member (fuel : nat) (value : list Z) : outcome (cJSON * list Z) :=
  match fuel with
  | O => Fault
  | S k =>
      let? p := skip value in
      let? (name, p) := parse_string p in
      let? p := skip p in
      let? c := deref p in
      if negb (c =? 58) then Null else
      let? p := skip (tail p) in
      let? (x, p) := parse_value k p in
      let? p := skip p in
      Got (with_key name x, p)
  end
with parse_members (fuel : nat) (value : list Z) : outcome (list cJSON * list Z) :=
  match fuel with
  | O => Fault
  | S k =>
      let? c := deref value in
      if c =? 44 then
        let? (x, p) := parse_member k (tail value) in
        let? (l, p) := parse_members k p in
        Got (x :: l, p)
      else Got ([], value)
  end.

(** Every second call at least consumes a character. *)
Definition PARSE_FUEL (value : list Z) : nat := 4 * length value + 4.

Definition cJSON_Parse (value : list Z) : outcome cJSON :=
  let? p := skip value in
  let? (c, _) := parse_value (PARSE_FUEL p) p in
  Got c.
End Values.

(** ** Reading back what was printed *)

(** No braces, no zero; a byte may be anything else. *)
Definition text_char (c : Z) : Prop := char_ok c /\ c <> 123 /\ c <> 125.

Fixpoint jv_plain (v : jv) : Prop :=
  match v with
  | JNum n => is_byte n
  | JStr s => Forall text_char s
  | JArr l => fold_right (fun x p => jv_plain x /\ p) True l
  | JObj l => fold_right (fun m p => (Forall text_char (fst m) /\ jv_plain (snd m)) /\ p) True l
  end.

(** The control characters, for a proof that goes through them. *)
Definition controls : list Z := Eval vm_compute in seqZ 1 31.

Lemma control_cases (P : Z -> Prop) : Forall P controls -> forall c, 1 <= c < 32 -> P c.
Proof.
  intros H c Hc. eapply Forall_forall; [exact H|].
  change controls with (seqZ 1 31). apply elem_of_seqZ. lia.
Qed.

Lemma string_len_char c q n :
  text_char c -> exists j, 1 <= j /\ string_len (escape_char c ++ q) n = string_len q (n + j).
Proof.
  intros [Hc _]. assert (Hcases : 1 <= c < 32 \/ c = 34 \/ c = 92 \/ (31 < c /\ c <> 34 /\ c <> 92))
    by (unfold char_ok in Hc; lia).
  destruct Hcases as [Hctl|[->|[->|(Hp & H1 & H2)]]].
  - clear Hc. revert c Hctl. apply (control_cases (fun c =>
      exists j, 1 <= j /\ string_len (escape_char c ++ q) n = string_len q (n + j))).
    repeat (constructor; [first
      [exists 1; split; [lia | reflexivity]
      |exists 5; split; [lia | cbn; by replace (n + 1 + 1 + 1 + 1 + 1) with (n + 5) by lia]]|]).
    constructor.
  - exists 1. split; [lia | done].
  - exists 1. split; [lia | done].
  - exists 1. split; [lia|]. unfold escape_char. rewrite (proj2 (Z.ltb_lt 31 c)) by lia.
    rewrite (proj2 (Z.eqb_neq c 34)), (proj2 (Z.eqb_neq c 92)) by done. cbn [andb negb app string_len].
    rewrite (proj2 (Z.eqb_neq c 34)), (proj2 (Z.eqb_neq c 0)), (proj2 (Z.eqb_neq c 92)) by lia. done.
Qed.

Lemma string_len_spec s q n :
  Forall text_char s ->
  exists k, n + zlen s <= k /\ string_len (concat (map escape_char s) ++ 34 :: q) n = Got k.
Proof.
  revert n. induction s as [|c s IH]; intros n Hs.
  - exists n. split; [rewrite zlen_nil; lia | done].
  - apply Forall_cons_1 in Hs as [Hc Hs]. cbn [map concat]. rewrite <- app_assoc.
    destruct (string_len_char c (concat (map escape_char s) ++ 34 :: q) n Hc) as (j & Hj & ->).
    destruct (IH (n + j) Hs) as (k & Hk & ->). exists k. split; [rewrite zlen_cons; lia | done].
Qed.

Lemma string_copy_char c q f out :
  text_char c -> string_copy (S f) (escape_char c ++ q) 0 out = string_copy f q 0 (out ++ [c]).
Proof.
  intros (Hc & H123 & H125).
  assert (Hcases : 1 <= c < 32 \/ c = 34 \/ c = 92 \/ (31 < c /\ c <> 34 /\ c <> 92))
    by (unfold char_ok in Hc; lia).
  destruct Hcases as [Hctl|[->|[->|(Hp & H1 & H2)]]]; [|done|done|].
  - clear Hc H123 H125. revert c Hctl. apply (control_cases (fun c =>
      string_copy (S f) (escape_char c ++ q) 0 out = string_copy f q 0 (out ++ [c]))).
    repeat (constructor; [reflexivity|]). constructor.
  - unfold escape_char. rewrite (proj2 (Z.ltb_lt 31 c)) by lia.
    rewrite (proj2 (Z.eqb_neq c 34)), (proj2 (Z.eqb_neq c 92)) by done. cbn [andb negb app].
    cbn [string_copy obind deref tail]. rewrite (proj2 (Z.eqb_neq c 34)), (proj2 (Z.eqb_neq c 0)) by lia.
    rewrite (proj2 (Z.eqb_neq c 123)), (proj2 (Z.eqb_neq c 125)), (proj2 (Z.eqb_neq c 92)) by lia. done.
Qed.

Lemma string_copy_spec s q f out :
  Forall text_char s -> (length s < f)%nat ->
  string_copy f (concat (map escape_char s) ++ 34 :: q) 0 out = Got (out ++ s, 34 :: q).
Proof.
  revert f out. induction s as [|c s IH]; intros f out Hs Hf.
  - destruct f; [lia|]. cbn. by rewrite app_nil_r.
  - destruct f as [|f]; [lia|]. apply Forall_cons_1 in Hs as [Hc Hs].
    cbn [map concat]. rewrite <- app_assoc, string_copy_char by done.
    rewrite IH by (done || (cbn in Hf; lia)). by rewrite <- app_assoc.
Qed.

Lemma until_zero_text s : Forall text_char s -> until_zero s = s.
Proof.
  induction 1 as [|c s (Hc & _) _ IH]; [done|]. cbn [until_zero]. unfold char_ok in Hc.
  rewrite (proj2 (Z.eqb_neq c 0)) by lia. by rewrite IH.
Qed.

Lemma escaped_longer s : Forall text_char s -> (length s <= length (concat (map escape_char s)))%nat.
Proof.
  induction 1 as [|c s Hc _ IH]; [done|]. cbn [map concat length]. rewrite length_app.
  destruct (escape_char c) eqn:E; [|cbn; lia]. exfalso. unfold escape_char in E. by destruct (_ && _ && _).
Qed.

(** A printed string is read back, and its block is large enough. *)
Lemma parse_quoted s q : Forall text_char s -> parse_string (quoted s ++ q) = Got (s, q).
Proof.
  intros Hs. unfold parse_string, quoted. rewrite <- !app_assoc. cbn [app deref obind tail].
  cbn [Z.eqb Pos.eqb negb].
  destruct (string_len_spec s q 0 Hs) as (k & Hk & ->). cbn [obind].
  rewrite string_copy_spec; [|done|].
  - cbn [obind app]. rewrite (proj2 (Z.leb_le _ _)) by lia. cbn [deref obind].
    by rewrite until_zero_text.
  - cbn [length]. rewrite length_app. pose proof (escaped_longer s Hs). cbn. lia.
Qed.

(** ** Numbers *)

Definition decimal_value (ds : list Z) : double :=
  fold_left (fun n c => d_add (d_mul n (d_of_int 10)) (d_of_int (c - 48))) ds (d_of_int 0).

#[export] Instance double_eq_dec : EqDecision double.
Proof. solve_decision. Defined.

(** The digits of a byte, and what multiplying by the sign and by [10 ^ 0]
    makes of their value. *)
Definition digits_of (n : Z) (ds : list Z) : Prop :=
  Forall (fun c => is_digit c = true) ds
  /\ ((ds = [48] /\ n = 0)
      \/ (49 <= hd 0 ds <= 57
          /\ d_mul (d_mul (d_of_int 1) (decimal_value ds)) (d_of_int 1) = d_of_int n
          /\ d_to_int (d_of_int n) = Some n)).

#[export] Instance digits_of_dec n ds : Decision (digits_of n ds).
Proof. unfold digits_of. apply _. Defined.

Lemma byte_digits n : is_byte n -> digits_of n (fmt_d n).
Proof.
  revert n. apply (all_bytes_spec (fun n => digits_of n (fmt_d n))). vm_compute. reflexivity.
Qed.

Lemma number_digits_spec ds c q n k :
  Forall (fun c => is_digit c = true) ds -> is_digit c = false ->
  number_digits (ds ++ c :: q) n k
  = Got (fold_left (fun n c => d_add (d_mul n (d_of_int 10)) (d_of_int (c - 48))) ds n, k + zlen ds, c :: q).
Proof.
  intros Hd Hc. revert n k. induction Hd as [|d ds Hd _ IH]; intros n k.
  - cbn [app number_digits fold_left]. by rewrite Hc, zlen_nil, Z.add_0_r.
  - cbn [app number_digits fold_left]. by rewrite Hd, IH, zlen_cons, Z.add_assoc.
Qed.

(** What may follow a value. *)
Definition ends (c : Z) : Prop := c = 44 \/ c = 93 \/ c = 125 \/ c = 0.

Section Numerals.
Context (pow10 : double -> double) (pow10_0 : pow10 (d_of_int 0) = d_of_int 1).

Lemma parse_byte n c q :
  is_byte n -> ends c ->
  parse_number pow10 (fmt_d n ++ c :: q) = Got (item_of (JNum n), c :: q).
Proof using pow10_0.
  intros Hn Hc. destruct (byte_digits n Hn) as [Hd Hf].
  assert (Ec : is_digit c = false /\ (c =? 46) = false /\ ((c =? 101) || (c =? 69)) = false
               /\ ((49 <=? c) && (c <=? 57)) = false)
    by (by destruct Hc as [->|[->|[->| ->]]]).
  destruct Ec as (E1 & E2 & E3 & E4).
  unfold parse_number. destruct Hf as [[E ->]|(Hr & Hv & Hi)]; [rewrite E|].
  - cbn [app deref obind tail Z.eqb Pos.eqb]. rewrite E4. cbn [obind deref]. rewrite E2.
    cbn [obind deref]. rewrite E3. cbn [obind].
    replace (d_add (d_of_int 0) (d_of_int (0 * 1))) with (d_of_int 0) by reflexivity.
    rewrite pow10_0. reflexivity.
  - destruct (fmt_d n) as [|d ds]; cbn [hd] in Hr; [lia|].
    cbn [app deref obind]. rewrite (proj2 (Z.eqb_neq d 45)) by lia. cbn [deref obind].
    rewrite (proj2 (Z.eqb_neq d 48)) by lia. cbn [deref obind].
    rewrite (proj2 (Z.leb_le 49 d)), (proj2 (Z.leb_le d 57)) by lia. cbn [andb].
    change (d :: ds ++ c :: q) with ((d :: ds) ++ c :: q).
    rewrite number_digits_spec by done. fold (decimal_value (d :: ds)).
    cbn [obind deref]. rewrite E2. cbn [obind deref]. rewrite E3. cbn [obind].
    replace (d_add (d_of_int 0) (d_of_int (0 * 1))) with (d_of_int 0) by reflexivity.
    rewrite pow10_0, Hv, Hi. done.
Qed.
End Numerals.

(** ** Values *)

(** The calls a value costs. *)
Fixpoint cost (v : jv) : nat :=
  match v with
  | JNum _ | JStr _ => 1
  | JArr l => fold_right (fun x n => cost x + 1 + n)%nat 3%nat l
  | JObj l => fold_right (fun m n => cost (snd m) + 2 + n)%nat 4%nat l
  end.

(** The first character of a value. *)
Definition opens (h : Z) : Prop := h = 34 \/ h = 91 \/ h = 123 \/ is_digit h = true.

Lemma render_opens v : jv_plain v -> exists h t, render v = h :: t /\ opens h.
Proof.
  destruct v as [n|s|l|l]; intros Hv; [|by eexists _, _; split; [done|unfold opens; auto]..].
  destruct (byte_digits n Hv) as [Hd Hf]. cbn [render]. destruct (fmt_d n) as [|h t].
  - destruct Hf as [[? _]|[? _]]; [done | cbn in *; lia].
  - exists h, t. split; [done|]. right; right; right. by apply Forall_cons_1 in Hd as [? _].
Qed.

Lemma opens_skip h t : opens h -> skip (h :: t) = Got (h :: t).
Proof.
  intros H. unfold skip. rewrite (proj2 (Z.leb_gt h 32)); [by rewrite andb_false_r|].
  destruct H as [->|[->|[->|H]]]; [lia..|]. unfold is_digit in H. cases_Z; cbn in H; (lia || done).
Qed.

Lemma ends_skip c q : ends c -> skip (c :: q) = Got (c :: q).
Proof. by intros [->|[->|[->| ->]]]. Qed.

Lemma opens_literal h t :
  opens h ->
  starts (str "null") (h :: t) = Got false /\ starts (str "false") (h :: t) = Got false
  /\ starts (str "true") (h :: t) = Got false.
Proof.
  intros H.
  assert (Hh : h <> 110 /\ h <> 102 /\ h <> 116).
  { destruct H as [->|[->|[->|H]]]; [lia..|]. unfold is_digit in H. cases_Z; cbn in H; (lia || done). }
  destruct Hh as (H1 & H2 & H3). change (str "null") with [110; 117; 108; 108].
  change (str "false") with [102; 97; 108; 115; 101]. change (str "true") with [116; 114; 117; 101].
  cbn [starts].
  by rewrite (proj2 (Z.eqb_neq _ _) H1), (proj2 (Z.eqb_neq _ _) H2), (proj2 (Z.eqb_neq _ _) H3).
Qed.

Lemma join_cons x l : join [44] (x :: l) = x ++ concat (map (cons 44) l).
Proof.
  revert x. induction l as [|y l IH]; intros x; [by cbn; rewrite app_nil_r|].
  change (join [44] (x :: y :: l)) with (x ++ [44] ++ join [44] (y :: l)). by rewrite IH.
Qed.

Lemma cost_array l : (3 <= cost (JArr l))%nat.
Proof. induction l as [|x l IH]; cbn [cost fold_right] in *; lia. Qed.

Lemma cost_object l : (4 <= cost (JObj l))%nat.
Proof. induction l as [|x l IH]; cbn [cost fold_right] in *; lia. Qed.

Lemma tail_ends {A} (f : A -> list Z) l e q :
  ends e -> exists c q', concat (map (cons 44) (map f l)) ++ e :: q = c :: q' /\ ends c.
Proof. intros He. destruct l; cbn; eexists _, _; (split; [done|]); [done | unfold ends; auto]. Qed.

Section Roundtrip.
Context (pow10 : double -> double) (pow10_0 : pow10 (d_of_int 0) = d_of_int 1).

Definition reads (v : jv) : Prop :=
  jv_plain v -> forall f c q, ends c -> (cost v <= f)%nat ->
  parse_value pow10 f (render v ++ c :: q) = Got (item_of v, c :: q).

Lemma parse_tail l :
  Forall reads l -> jv_plain (JArr l) -> forall f q, (cost (JArr l) <= f + 2)%nat ->
  parse_elements pow10 f (concat (map (cons 44) (map render l)) ++ 93 :: q)
  = Got (map item_of l, 93 :: q).
Proof using pow10_0.
  induction 1 as [|x l Hx _ IH]; intros Hl f q Hf.
  - destruct f as [|f]; [cbn in Hf; lia | done].
  - pose proof (cost_array l) as Hl0. cbn [cost fold_right] in Hf, Hl0.
    destruct f as [|f]; [lia|]. destruct Hl as [Hp Hl]. cbn [map concat]. rewrite <- !app_assoc. cbn [app].
    cbn [parse_elements deref obind tail Z.eqb Pos.eqb].
    destruct (render_opens x Hp) as (h & t & E & Ho). rewrite E. cbn [app].
    rewrite opens_skip by done. cbn [obind]. rewrite app_comm_cons, <- E.
    destruct (tail_ends render l 93 q) as (c & q' & E' & Hc); [unfold ends; auto|].
    rewrite E', Hx by (done || lia). cbn [obind].
    rewrite ends_skip by done. cbn [obind]. rewrite <- E', IH; [done..|]. cbn [cost]. lia.
Qed.

Lemma parse_key s v f c q :
  Forall text_char s -> jv_plain v -> reads v -> ends c -> (cost v < f)%nat ->
  parse_member pow10 f (quoted s ++ [58] ++ render v ++ c :: q)
  = Got (with_key s (item_of v), c :: q).
Proof using pow10_0.
  intros Hs Hv Hr Hc Hf. destruct f as [|f]; [lia|]. cbn [parse_member].
  assert (Hq : forall r, skip (quoted s ++ r) = Got (quoted s ++ r))
    by (intros r; apply opens_skip; unfold opens; auto).
  rewrite Hq. cbn [obind]. rewrite parse_quoted by done. cbn [obind app].
  cbn [skip Z.eqb Z.leb Z.compare Pos.compare Pos.compare_cont negb andb obind deref Pos.eqb tail].
  destruct (render_opens v Hv) as (h & t & E & Ho). rewrite E. cbn [app].
  rewrite opens_skip by done. cbn [obind]. rewrite app_comm_cons, <- E, Hr by (done || lia).
  cbn [obind]. by rewrite ends_skip.
Qed.
Definition member_text (m : list Z * jv) : list Z := quoted (fst m) ++ [58] ++ render (snd m).
Definition member_item (m : list Z * jv) : cJSON := with_key (fst m) (item_of (snd m)).

Lemma parse_member_tail l :
  Forall (fun m => reads (snd m)) l -> jv_plain (JObj l) -> forall f q, (cost (JObj l) <= f + 2)%nat ->
  parse_members pow10 f (concat (map (cons 44) (map member_text l)) ++ 125 :: q)
  = Got (map member_item l, 125 :: q).
Proof using pow10_0.
  induction 1 as [|[s x] l Hx _ IH]; intros Hl f q Hf.
  - destruct f as [|f]; [cbn in Hf; lia | done].
  - pose proof (cost_object l) as Hl0. cbn [cost fold_right fst snd] in Hf, Hl0, Hx.
    destruct f as [|f]; [lia|]. destruct Hl as [[Hs Hp] Hl]. cbn [fst snd] in Hs, Hp.
    cbn [map concat]. rewrite <- app_assoc. unfold member_text at 1. cbn [fst snd app].
    cbn [parse_members deref obind tail Z.eqb Pos.eqb].
    destruct (tail_ends member_text l 125 q) as (c & q' & E' & Hc); [unfold ends; auto|].
    rewrite E', <- app_assoc.
    change ((58 :: render x) ++ c :: q') with ([58] ++ render x ++ c :: q').
    rewrite parse_key by (done || lia). cbn [obind].
    rewrite <- E', IH; [done..|]. cbn [cost]. lia.
Qed.

Lemma parse_value_opens k h t :
  opens h ->
  parse_value pow10 (S k) (h :: t)
  = if h =? 34 then let? (s, p) := parse_string (h :: t) in Got (cJSON_CreateString s, p)
    else if (h =? 45) || is_digit h then parse_number pow10 (h :: t)
    else if h =? 91 then parse_array pow10 k (h :: t)
    else if h =? 123 then parse_object pow10 k (h :: t)
    else Null.
Proof using.
  intros Ho. cbn [parse_value]. destruct (opens_literal h t Ho) as (-> & -> & ->). done.
Qed.

Lemma parse_array_text l k q :
  Forall reads l -> jv_plain (JArr l) -> (cost (JArr l) <= S k)%nat ->
  parse_array pow10 k (91 :: join [44] (map render l) ++ 93 :: q) = Got (item_of (JArr l), q).
Proof using pow10_0.
  intros IH Hv Hk. pose proof (cost_array l) as Hl0. destruct k as [|k]; [lia|].
  cbn [parse_array tail]. destruct l as [|x l]; [done|].
  apply Forall_cons_1 in IH as [Hx IH]. pose proof (cost_array l) as Hl1.
  cbn [cost fold_right] in Hk, Hl1. destruct Hv as [Hp Hv].
  destruct (render_opens x Hp) as (h & t & E & Ho).
  cbn [map]. rewrite join_cons, E, <- app_assoc. cbn [app]. rewrite opens_skip by done. cbn [obind deref].
  rewrite (proj2 (Z.eqb_neq h 93)) by (intros ->; by destruct Ho as [|[|[|]]]).
  rewrite app_comm_cons, <- E.
  destruct (tail_ends render l 93 q) as (c & q' & E2 & Hc); [unfold ends; auto|].
  rewrite E2, Hx by (done || lia). cbn [obind]. rewrite ends_skip by done. cbn [obind].
  rewrite <- E2, parse_tail by (done || (cbn [cost]; lia)). done.
Qed.

Lemma parse_object_text l k q :
  Forall (fun m => reads (snd m)) l -> jv_plain (JObj l) -> (cost (JObj l) <= S k)%nat ->
  parse_object pow10 k (123 :: join [44] (map member_text l) ++ 125 :: q) = Got (item_of (JObj l), q).
Proof using pow10_0.
  intros IH Hv Hk. pose proof (cost_object l) as Hl0. destruct k as [|k]; [lia|].
  cbn [parse_object tail]. destruct l as [|[s x] l]; [done|].
  apply Forall_cons_1 in IH as [Hx IH]. pose proof (cost_object l) as Hl1. cbn [snd] in Hx.
  cbn [cost fold_right fst snd] in Hk, Hl1. destruct Hv as [[Hs Hp] Hv]. cbn [fst snd] in Hs, Hp.
  cbn [map]. rewrite join_cons. unfold member_text at 1. cbn [fst snd]. rewrite <- !app_assoc.
  destruct (tail_ends member_text l 125 q) as (c & q' & E2 & Hc); [unfold ends; auto|].
  assert (Hq : forall r, exists r', quoted s ++ r = 34 :: r')
    by (intros r; unfold quoted; rewrite <- app_assoc; cbn [app]; eauto).
  rewrite E2. destruct (Hq ([58] ++ render x ++ c :: q')) as [r E]. rewrite E.
  rewrite opens_skip by (unfold opens; auto). cbn [obind deref Z.eqb Pos.eqb].
  rewrite <- E, parse_key by (done || lia). cbn [obind].
  rewrite <- E2, parse_member_tail by (done || (cbn [cost]; lia)). done.
Qed.

Lemma parse_text v : reads v.
Proof using pow10_0.
  induction v as [n|s|l IH|l IH] using jv_ind; intros Hv f c q Hc Hf.
  - destruct f as [|f]; [cbn [cost] in Hf; lia|].
    destruct (render_opens (JNum n) Hv) as (h & t & E & Ho).
    assert (Hd : is_digit h = true)
      by (destruct (byte_digits n Hv) as [Hd _]; cbn [render] in E; rewrite E in Hd; by apply Forall_cons_1 in Hd as [? _]).
    rewrite E. cbn [app]. rewrite parse_value_opens, Hd, orb_true_r by done.
    rewrite (proj2 (Z.eqb_neq h 34)) by (intros ->; done).
    rewrite app_comm_cons, <- E. cbn [render]. by apply parse_byte.
  - destruct f as [|f]; [cbn [cost] in Hf; lia|]. cbn [render].
    assert (E : quoted s ++ c :: q = 34 :: concat (map escape_char s) ++ 34 :: c :: q)
      by (unfold quoted; by rewrite <- !app_assoc).
    rewrite E, parse_value_opens by (unfold opens; auto). cbn [Z.eqb Pos.eqb].
    by rewrite <- E, parse_quoted by done.
  - pose proof (cost_array l). destruct f as [|f]; [lia|]. cbn [render].
    rewrite <- !app_assoc. cbn [app]. rewrite parse_value_opens by (unfold opens; auto).
    by apply parse_array_text.
  - pose proof (cost_object l). destruct f as [|f]; [lia|]. cbn [render].
    rewrite <- !app_assoc. cbn [app]. rewrite parse_value_opens by (unfold opens; auto).
    by apply parse_object_text.
Qed.
End Roundtrip.

Lemma jv_plain_ok v : jv_plain v -> jv_ok v.
Proof.
  induction v as [n|s|l IH|l IH] using jv_ind; cbn [jv_plain jv_ok]; intros Hv; [done|..].
  - eapply Forall_impl; [exact Hv | by intros c [? _]].
  - induction IH as [|x r Hx _ IHr]; [done|]. destruct Hv as [H1 H2]. split; auto.
  - induction IH as [|x r Hx _ IHr]; [done|]. destruct Hv as [[H0 H1] H2].
    split; [split; [|auto] | auto]. eapply Forall_impl; [exact H0 | by intros c [? _]].
Qed.

(** The fuel of [cJSON_Parse] is enough for a printed value. *)
Lemma cost_length v : jv_plain v -> (cost v <= 4 * length (render v))%nat.
Proof.
  induction v as [n|s|l IH|l IH] using jv_ind; intros Hv.
  - destruct (render_opens (JNum n) Hv) as (h & t & E & _). rewrite E. cbn. lia.
  - cbn. lia.
  - cbn [render]. destruct l as [|x l]; [cbn; lia|]. cbn [map]. rewrite join_cons, !length_app.
    assert (Ht : (cost (JArr l) <= 4 * length (concat (map (cons 44%Z) (map render l))) + 3)%nat).
    { apply Forall_cons_1 in IH as [_ IH]. destruct Hv as [_ Hv].
      induction IH as [|y r Hy _ IHr]; [cbn; lia|]. destruct Hv as [H1 H2].
      cbn [cost fold_right map concat] in *. rewrite length_app. cbn [length]. specialize (IHr H2). specialize (Hy H1). lia. }
    apply Forall_cons_1 in IH as [Hx _]. specialize (Hx (proj1 Hv)). cbn [cost fold_right length] in *. lia.
  - cbn [render]. fold member_text. destruct l as [|x l]; [cbn; lia|]. cbn [map]. rewrite join_cons, !length_app.
    assert (Ht : (cost (JObj l) <= 4 * length (concat (map (cons 44%Z) (map member_text l))) + 4)%nat).
    { apply Forall_cons_1 in IH as [_ IH]. destruct Hv as [_ Hv].
      induction IH as [|y r Hy _ IHr]; [cbn; lia|]. destruct Hv as [[H0 H1] H2].
      cbn [cost fold_right map concat] in *. unfold member_text at 1. rewrite !length_app. cbn [length].
      specialize (IHr H2). specialize (Hy H1). rewrite !length_app. lia. }
    apply Forall_cons_1 in IH as [Hx _]. specialize (Hx (proj2 (proj1 Hv))).
    unfold member_text at 1. rewrite !length_app. cbn [cost fold_right length] in *. lia.
Qed.

Lemma parse_rendered pow10 v :
  pow10 (d_of_int 0) = d_of_int 1 -> jv_plain v -> cJSON_Parse pow10 (render v ++ [0]) = Got (item_of v).
Proof.
  intros H0 Hv. unfold cJSON_Parse. destruct (render_opens v Hv) as (h & t & E & Ho).
  rewrite E. cbn [app]. rewrite opens_skip by done. cbn [obind]. rewrite app_comm_cons, <- E.
  pose proof (cost_length v Hv). unfold PARSE_FUEL.
  rewrite (parse_text pow10 H0 v Hv _ 0 []); [done | unfold ends; auto|].
  rewrite length_app. cbn [length]. lia.
Qed.

(** C37: what the printer writes for a value of bytes, strings, arrays and objects
    (strings without braces), the parser reads back to the same items, and no
    block or pointer goes wrong on the way. *)
Theorem parse_printed pow10 v :
  pow10 (d_of_int 0) = d_of_int 1 -> jv_plain v ->
  exists text, cJSON_PrintUnformatted (item_of v) = Some (Some text)
    /\ cJSON_Parse pow10 (text ++ [0]) = Got (item_of v).
Proof.
  intros H0 Hv. exists (render v). split; [by apply print_value_spec, jv_plain_ok | by apply parse_rendered].
Qed.

(** ten to the power of zero. *)
Definition pow_one (x : double) : double := d_of_int 1.

Lemma parse_printed_witness :
  let v := JObj [(str "cap", JNum 4); (str "sub_id", JStr (str "10000001")); (str "l", JArr [JNum 0; JNum 250])] in
  exists text, cJSON_PrintUnformatted (item_of v) = Some (Some text)
    /\ cJSON_Parse pow_one (text ++ [0]) = Got (item_of v).
Proof.
  intros v. apply (parse_printed pow_one v); [reflexivity|].
  cbn. repeat split; try (apply Forall_forall; intros c Hc; vm_compute in Hc);
    try (unfold is_byte; lia).
  all: repeat (apply elem_of_cons in Hc as [->|Hc]; [unfold text_char, char_ok; lia|]); by apply elem_of_nil in Hc.
Defined.

(** ** Where the string reader goes wrong *)

(** A character that means nothing to the reader. *)
Definition letter (c : Z) : Prop := text_char c /\ c <> 34 /\ c <> 92.

Lemma letters_len s q n : Forall letter s -> string_len (s ++ q) n = string_len q (n + zlen s).
Proof.
  intros Hs. revert n. induction Hs as [|c s ((Hc & _) & H34 & H92) _ IH]; intros n.
  - by rewrite zlen_nil, Z.add_0_r.
  - cbn [app string_len]. unfold char_ok in Hc.
    rewrite (proj2 (Z.eqb_neq c 34)), (proj2 (Z.eqb_neq c 0)), (proj2 (Z.eqb_neq c 92)) by lia.
    cbn [orb]. by rewrite IH, zlen_cons, Z.add_assoc.
Qed.

Lemma letters_copy s q f nest out :
  Forall letter s -> string_copy (length s + f) (s ++ q) nest out = string_copy f q nest (out ++ s).
Proof.
  intros Hs. revert out. induction Hs as [|c s ((Hc & H123 & H125) & H34 & H92) _ IH]; intros out.
  - by rewrite app_nil_r.
  - cbn [length Nat.add app string_copy deref obind tail]. unfold char_ok in Hc.
    rewrite (proj2 (Z.eqb_neq c 34)), (proj2 (Z.eqb_neq c 0)), (proj2 (Z.eqb_neq c 92)),
      (proj2 (Z.eqb_neq c 123)), (proj2 (Z.eqb_neq c 125)) by lia.
    cbn [orb negb andb]. by rewrite IH, <- app_assoc.
Qed.

(** A string whose brace is still open at its closing quote (the case
    [str_nest] is there for) is copied on past that quote into a block measured
    up to it: the block is overrun whatever follows. *)
Theorem open_brace_overruns s t :
  Forall letter s -> Forall letter t -> parse_string (34 :: s ++ 123 :: 34 :: t ++ [0]) = Fault.
Proof.
  intros Hs Ht. unfold parse_string. cbn [deref obind tail Z.eqb Pos.eqb negb].
  rewrite letters_len by done. cbn [string_len Z.eqb Pos.eqb orb obind].
  replace (length (34 :: s ++ 123 :: 34 :: t ++ [0]))
    with (length s + S (S (length t + 2)))%nat
    by (cbn [length]; rewrite length_app; cbn [length]; rewrite length_app; cbn [length]; lia).
  rewrite letters_copy by done.
  cbn [string_copy deref obind tail Z.eqb Pos.eqb negb andb orb Z.add app].
  rewrite letters_copy by done. change (0 + 1 =? 0) with false.
  cbn [string_copy Nat.add deref obind Z.eqb Pos.eqb negb andb orb].
  rewrite !zlen_app, !zlen_cons, !zlen_nil. pose proof (zlen_nonneg t).
  rewrite (proj2 (Z.leb_gt _ _)) by lia. done.
Qed.

Lemma open_brace_overruns_witness :
  parse_string (34 :: [97] ++ 123 :: 34 :: [125 - 1] ++ [0]) = Fault.
Proof.
  apply open_brace_overruns; (constructor; [|constructor]); unfold letter, text_char, char_ok; lia.
Defined.
