(* ===== verification/Cloud.v ===== *)
(** * Commands to the WiFi module

    The commands of [src/wifi/mcu_api.c] that carry JSON ([gateway_subdevice_add],
    [heart_beat_report], [local_subdev_del_cmd], the online state updates) or a
    few bytes, and the messages they are in the abstract. *)

From Stdlib Require Import String.
From S2P Require Import Prelude CStr McuTx Json.
Open Scope list_scope.

Definition WIFI_RESET_CMD := 4.
Definition WIFI_MODE_CMD := 5.
Definition SUBDEVICE_ADD_CMD := 8.
Definition SUBDEVICE_DELETTE_CMD := 9.
Definition HEART_CHECK_CMD := 10.
Definition WIFI_TEST_CMD := 21.
Definition GET_WIFI_STATUS_CMD := 22.
Definition FACTORY_SET_CMD := 23.
Definition LOCAL_SUBDEV_DEL_CMD := 25.
Definition LOCAL_ADD_SUBDEV_LIMIT_CMD := 26.
Definition QUR_SUBDEV_LIST_CMD := 28.
Definition UPDATA_SUBDEV_ONLINE_STATE_CMD := 42.

(** ** Operations *)

(** A JSON member; [None] is a failed conversion of the number. *)
Definition AddNumber (name : list Z) (n : Z) (object : cJSON) : M Tx cJSON :=
  lift_opt (cJSON_AddNumberToObject object name n).
Definition AddString (name s : list Z) (object : cJSON) : M Tx cJSON :=
  ret (cJSON_AddStringToObject object name s).

(** [out = cJSON_PrintUnformatted(root)], and the end of the command when it is
    not null: [length] is [uint8_t] or [uint16_t], as [width] says. *)
Definition send_json (width : Z -> Z) (cmd : Z) (root : cJSON) : M Tx unit :=
  do out <- lift_opt (cJSON_PrintUnformatted root);
  match out with
  | None => ret tt
  | Some out =>
      do length <- set_wifi_uart_buffer 0 (Some out) (zlen out);
      wifi_uart_write_frame cmd MCU_TX_VER (width length)
  end.

Definition gateway_subdevice_add (mcu_ver pid : list Z) (pk_type : Z) (sub_id_buf : list Z)
    (channel ota : Z) : M Tx unit :=
  let root := cJSON_CreateObject in
  do root <- (if negb (pk_type =? 0) then AddNumber (str "pk_type") pk_type root else ret root);
  do root <- AddString (str "sub_id") sub_id_buf root;
  do root <- AddString (str "pid") pid root;
  do root <- AddString (str "ver") mcu_ver root;
  do root <- AddNumber (str "channel") channel root;
  do root <- AddNumber (str "ota") ota root;
  send_json u8 SUBDEVICE_ADD_CMD root.

Definition heart_beat_report (sub_id_buf : list Z) (lowpower_flag : Z) : M Tx unit :=
  let root := cJSON_CreateObject in
  do root <- AddString (str "sub_id") sub_id_buf root;
  do root <- AddNumber (str "lp") lowpower_flag root;
  send_json u8 HEART_CHECK_CMD root.

Definition local_subdev_del_cmd (sub_id : list Z) : M Tx unit :=
  let root := cJSON_CreateObject in
  do root <- AddString (str "sub_id") sub_id root;
  send_json u16 LOCAL_SUBDEV_DEL_CMD root.

Definition local_add_subdev_limit (if_permit addtime_high addtime_low : Z) : M Tx unit :=
  do length <- set_wifi_uart_byte 0 if_permit;
  do length <- set_wifi_uart_byte (u8 length) addtime_high;
  do length <- set_wifi_uart_byte (u8 length) addtime_low;
  wifi_uart_write_frame LOCAL_ADD_SUBDEV_LIMIT_CMD MCU_TX_VER (u8 length).

Definition mcu_start_wifitest : M Tx unit := wifi_uart_write_frame WIFI_TEST_CMD MCU_TX_VER 0.
Definition get_wifi_st : M Tx unit := wifi_uart_write_frame GET_WIFI_STATUS_CMD MCU_TX_VER 0.
Definition reset_factory_setting : M Tx unit := wifi_uart_write_frame FACTORY_SET_CMD MCU_TX_VER 0.
Definition qur_subdev_list : M Tx unit := wifi_uart_write_frame QUR_SUBDEV_LIST_CMD MCU_TX_VER 0.

(** [dev_id] is the one element of the list of ids; [send_cids_arr_sz] is not used. *)
Definition user_updata_subden_online_state (all : Z) (dev_id : list Z) (send_cids_arr_sz state : Z)
  : M Tx unit :=
  let send_root := cJSON_CreateObject in
  do send_root <- AddNumber (str "all") all send_root;
  do send_root <-
    (if 0 =? all then
       let send_arr_cids_item := cJSON_AddItemToArray cJSON_CreateArray (cJSON_CreateString dev_id) in
       ret (cJSON_AddItemToObject send_root (str "cids") send_arr_cids_item)
     else ret send_root);
  do send_root <- AddNumber (str "state") state send_root;
  send_json u16 UPDATA_SUBDEV_ONLINE_STATE_CMD send_root.

(** [cJSON_Delete] of a tree that was deleted before: undefined behaviour. *)
Definition cJSON_Delete_again : M Tx unit := fault.

Definition add_cids (cids : list (list Z)) (array : cJSON) : cJSON :=
  fold_left (fun a c => cJSON_AddItemToArray a (cJSON_CreateString c)) cids array.

(** The tree is deleted once after it is printed and again at the label [EXIT]. *)
Definition updata_subden_online_state (all : Z) (cids : list (list Z)) (send_cids_arr_sz state : Z)
  : M Tx unit :=
  let send_root := cJSON_CreateObject in
  do send_root <- AddNumber (str "all") all send_root;
  do send_root <-
    (if 0 =? all then
       if zlen cids <? send_cids_arr_sz then fault else
       let send_arr_cids_item := add_cids (take (Z.to_nat send_cids_arr_sz) cids) cJSON_CreateArray in
       ret (cJSON_AddItemToObject send_root (str "cids") send_arr_cids_item)
     else ret send_root);
  do send_root <- AddNumber (str "state") state send_root;
  run send_json u16 UPDATA_SUBDEV_ONLINE_STATE_CMD send_root;
  cJSON_Delete_again.

(** ** Messages *)

(** What the gateway says to the cloud: a data point of a device, or a command. *)
Inductive msg : Type :=
| MDp (sub : list Z) (dpid : Z) (d : dp)
| MCmd (cmd : Z) (payload : list Z).

Definition MJson (cmd : Z) (v : jv) : msg := MCmd cmd (render v).

(** Data points are not sent while uploads are stopped. *)
Definition msg_bytes (stop : Z) (m : msg) : list Z :=
  match m with
  | MDp sub dpid d => if stop =? 1 then [] else dp_frame sub dpid d
  | MCmd cmd p => frame cmd MCU_TX_VER p
  end.

(** [s'] is [s] after the messages [ms] were sent, in order. *)
Definition emits (ms : list msg) (s s' : Tx) : Prop :=
  tx_ok s' /\ stop_update_flag s' = stop_update_flag s
  /\ uart_out s' = uart_out s ++ concat (map (msg_bytes (stop_update_flag s)) ms).

Lemma emits_nil s : tx_ok s -> emits [] s s.
Proof. intros; split; [done|]. by rewrite app_nil_r. Qed.

Lemma emits_app ms ms' s s1 s2 : emits ms s s1 -> emits ms' s1 s2 -> emits (ms ++ ms') s s2.
Proof.
  intros (_ & E1 & O1) (H2 & E2 & O2). split; [done|]. split; [congruence|].
  by rewrite O2, O1, E1, map_app, concat_app, app_assoc.
Qed.

Lemma emits_sent cmd p s s' : sent (frame cmd MCU_TX_VER p) s s' -> emits [MCmd cmd p] s s'.
Proof. intros (? & ? & ?). split; [done|]. split; [done|]. simpl. by rewrite app_nil_r. Qed.

Lemma emits_uploads sub dpid d s s' :
  tx_ok s -> uploads (dp_frame sub dpid d) s s' -> emits [MDp sub dpid d] s s'.
Proof.
  intros Hs. unfold uploads. destruct (stop_update_flag s =? 1) eqn:E.
  - intros ->. split; [done|]. split; [done|]. simpl. by rewrite E, !app_nil_r.
  - intros (? & ? & ?). split; [done|]. split; [done|]. simpl. by rewrite E, app_nil_r.
Qed.

(** ** The commands send their messages *)

Definition add_msg (ver pid sub : list Z) (pk_type channel ota : Z) : msg :=
  MJson SUBDEVICE_ADD_CMD
    (JObj ((if pk_type =? 0 then [] else [(str "pk_type", JNum pk_type)]) ++
           [(str "sub_id", JStr sub); (str "pid", JStr pid); (str "ver", JStr ver);
            (str "channel", JNum channel); (str "ota", JNum ota)])).
Definition heart_msg (sub : list Z) (lp : Z) : msg :=
  MJson HEART_CHECK_CMD (JObj [(str "sub_id", JStr sub); (str "lp", JNum lp)]).
Definition del_msg (sub : list Z) : msg :=
  MJson LOCAL_SUBDEV_DEL_CMD (JObj [(str "sub_id", JStr sub)]).
Definition online_msg (all : Z) (sub : list Z) (state : Z) : msg :=
  MJson UPDATA_SUBDEV_ONLINE_STATE_CMD
    (JObj ([(str "all", JNum all)]
           ++ (if 0 =? all then [(str "cids", JArr [JStr sub])] else [])
           ++ [(str "state", JNum state)])).

Lemma wp_send_json width cmd v (Q : unit -> Tx -> Prop) s :
  tx_ok s -> jv_ok v -> zlen (render v) <= 4096 -> width (zlen (render v)) = zlen (render v) ->
  is_byte cmd -> (forall s', emits [MJson cmd v] s s' -> Q tt s') ->
  wp (send_json width cmd (item_of v)) Q s.
Proof.
  intros Hs Hv Hlen Hw Hc HQ. unfold send_json, cJSON_PrintUnformatted.
  apply wp_bind. unfold wp at 1, lift_opt. rewrite print_value_spec by done.
  apply wp_bind. change 0 with (zlen (@nil Z)) at 1.
  apply wp_set_buffer; [by apply filled_nil | done | rewrite zlen_nil; lia |].
  intros s1 Hf Ho Hst. rewrite app_nil_l in *. rewrite Hw.
  apply wp_write_frame; [done | done | done | done|].
  intros s2 Hsent. apply HQ, emits_sent. by eapply sent_trans_eq.
Qed.

(** The ids of the firmware: short strings of decimal digits. *)
Definition id_text (s : list Z) : Prop := zlen s <= 20 /\ Forall (fun c => 44 < c < 58) s.

Lemma fmt_ld_id x : id_text (fmt_ld x).
Proof. destruct (fmt_ld_shape x) as (_ & ? & ?). split; [lia | done]. Qed.

Lemma id_text_chars s : id_text s -> Forall char_ok s.
Proof. intros [_ H]. eapply Forall_impl; [exact H|]. unfold char_ok. intros; lia. Qed.

Lemma id_text_quoted s : id_text s -> quoted s = [34] ++ s ++ [34].
Proof.
  intros [_ H]. unfold quoted. rewrite escaped_plain; [done | |].
  - eapply Forall_impl; [exact H|]. unfold char_ok. intros; lia.
  - induction H as [|c s Hc _ IH]; [done|]. simpl. rewrite IH.
    unfold needs_escape. cases_Z; simpl; try done; lia.
Qed.

Lemma fmt_byte_length n : is_byte n -> zlen (fmt_d n) <= 3.
Proof. revert n. apply (all_bytes_spec (fun n => zlen (fmt_d n) <= 3)). vm_compute. reflexivity. Qed.

Lemma char_ok_str s : forallb (fun c => (0 <? c) && (c <? 256)) (str s) = true -> Forall char_ok (str s).
Proof.
  rewrite forallb_forall. intros H. apply Forall_forall. intros c Hc.
  apply list_elem_of_In, H in Hc. apply andb_true_iff in Hc as [?%Z.ltb_lt ?%Z.ltb_lt]. done.
Qed.

Ltac jv_ok_tac :=
  cbn [jv_ok fold_right fst snd app]; repeat split; try done;
  first [by apply char_ok_str; vm_compute | by apply id_text_chars | assumption | unfold is_byte in *; lia].

Section Commands.
Context (s : Tx) (Hs : tx_ok s) (sub : list Z) (Hsub : id_text sub).

Lemma wp_heart_beat_report lp (Q : unit -> Tx -> Prop) :
  is_byte lp -> (forall s', emits [heart_msg sub lp] s s' -> Q tt s') ->
  wp (heart_beat_report sub lp) Q s.
Proof using Hs Hsub.
  intros Hlp HQ. unfold heart_beat_report, AddString, AddNumber, cJSON_AddNumberToObject.
  rewrite (CreateNumber_byte lp Hlp).
  set (v := JObj [(str "sub_id", JStr sub); (str "lp", JNum lp)]).
  assert (Hv : jv_ok v) by (unfold v; jv_ok_tac).
  assert (Hlen : zlen (render v) <= 255).
  { unfold v. cbn [render map join fst snd]. rewrite (id_text_quoted sub Hsub).
    rewrite !zlen_app. pose proof (fmt_byte_length lp Hlp). destruct Hsub.
    assert (E : zlen (quoted (str "sub_id")) = 8 /\ zlen (quoted (str "lp")) = 4) by done.
    rewrite (proj1 E), (proj2 E), !zlen_cons, !zlen_nil. lia. }
  change (wp (send_json u8 HEART_CHECK_CMD (item_of v)) Q s).
  apply wp_send_json; [done | done | lia | | done | done].
  apply u8_small. unfold is_byte. pose proof (zlen_nonneg (render v)). lia.
Qed.

Lemma wp_local_subdev_del (Q : unit -> Tx -> Prop) :
  (forall s', emits [del_msg sub] s s' -> Q tt s') -> wp (local_subdev_del_cmd sub) Q s.
Proof using Hs Hsub.
  intros HQ. unfold local_subdev_del_cmd, AddString.
  set (v := JObj [(str "sub_id", JStr sub)]).
  assert (Hv : jv_ok v) by (unfold v; jv_ok_tac).
  assert (Hlen : zlen (render v) <= 255).
  { unfold v. cbn [render map join fst snd]. rewrite (id_text_quoted sub Hsub).
    rewrite !zlen_app. destruct Hsub. assert (E : zlen (quoted (str "sub_id")) = 8) by done.
    rewrite E, !zlen_cons, !zlen_nil. lia. }
  change (wp (send_json u16 LOCAL_SUBDEV_DEL_CMD (item_of v)) Q s).
  apply wp_send_json; [done | done | lia | | done | done].
  apply u16_small. pose proof (zlen_nonneg (render v)). lia.
Qed.

Lemma wp_online_state all sz state (Q : unit -> Tx -> Prop) :
  is_byte all -> is_byte state ->
  (forall s', emits [online_msg all sub state] s s' -> Q tt s') ->
  wp (user_updata_subden_online_state all sub sz state) Q s.
Proof using Hs Hsub.
  intros Hall Hst HQ. unfold user_updata_subden_online_state, AddNumber, cJSON_AddNumberToObject.
  rewrite (CreateNumber_byte all Hall), (CreateNumber_byte state Hst).
  set (v := JObj ([(str "all", JNum all)]
         ++ (if 0 =? all then [(str "cids", JArr [JStr sub])] else [])
         ++ [(str "state", JNum state)])).
  assert (Hv : jv_ok v) by (unfold v; destruct (0 =? all); jv_ok_tac).
  assert (Hlen : zlen (render v) <= 255).
  { assert (E : zlen (quoted (str "all")) = 5 /\ zlen (quoted (str "cids")) = 6
                /\ zlen (quoted (str "state")) = 7) by done.
    destruct E as (E1 & E2 & E3). pose proof (fmt_byte_length all Hall).
    pose proof (fmt_byte_length state Hst). destruct (Hsub) as [Hl _].
    unfold v. destruct (0 =? all); cbn [render map join fst snd app];
      rewrite ?(id_text_quoted sub Hsub); autorewrite with gw; rewrite ?E1, ?E2, ?E3; lia. }
  assert (HE : wp (send_json u16 UPDATA_SUBDEV_ONLINE_STATE_CMD (item_of v)) Q s).
  { apply wp_send_json; [done | done | lia | | done | done].
    apply u16_small. pose proof (zlen_nonneg (render v)). lia. }
  unfold v in HE. destruct (0 =? all); exact HE.
Qed.

Lemma wp_gateway_add ver pid channel ota (Q : unit -> Tx -> Prop) :
  Forall char_ok ver -> Forall char_ok pid -> zlen (quoted ver) + zlen (quoted pid) <= 100 ->
  is_byte channel -> is_byte ota ->
  (forall s', emits [add_msg ver pid sub 0 channel ota] s s' -> Q tt s') ->
  wp (gateway_subdevice_add ver pid 0 sub channel ota) Q s.
Proof using Hs Hsub.
  intros Hver Hpid Hvp Hch Hota HQ.
  unfold gateway_subdevice_add, AddString, AddNumber, cJSON_AddNumberToObject.
  rewrite (CreateNumber_byte channel Hch), (CreateNumber_byte ota Hota).
  set (v := JObj ([] ++ [(str "sub_id", JStr sub); (str "pid", JStr pid); (str "ver", JStr ver);
          (str "channel", JNum channel); (str "ota", JNum ota)])).
  assert (Hv : jv_ok v) by (unfold v; jv_ok_tac).
  assert (Hlen : zlen (render v) <= 255).
  { assert (E : zlen (quoted (str "sub_id")) = 8 /\ zlen (quoted (str "pid")) = 5
                /\ zlen (quoted (str "ver")) = 5 /\ zlen (quoted (str "channel")) = 9
                /\ zlen (quoted (str "ota")) = 5) by done.
    destruct E as (E1 & E2 & E3 & E4 & E5). pose proof (fmt_byte_length channel Hch).
    pose proof (fmt_byte_length ota Hota). destruct (Hsub) as [Hl _].
    unfold v. cbn [render map join fst snd app].
    rewrite (id_text_quoted sub Hsub). autorewrite with gw.
    rewrite E1, E2, E3, E4, E5. lia. }
  change (wp (send_json u8 SUBDEVICE_ADD_CMD (item_of v)) Q s).
  apply wp_send_json; [done | done | lia | | done | done].
  apply u8_small. unfold is_byte. pose proof (zlen_nonneg (render v)). lia.
Qed.
End Commands.

Lemma wp_add_limit a b c (Q : unit -> Tx -> Prop) s :
  tx_ok s -> (forall s', emits [MCmd LOCAL_ADD_SUBDEV_LIMIT_CMD [u8 a; u8 b; u8 c]] s s' -> Q tt s') ->
  wp (local_add_subdev_limit a b c) Q s.
Proof.
  intros Hs HQ. unfold local_add_subdev_limit.
  assert (Hz : forall l : list Z, zlen l < 256 -> u8 (zlen l) = zlen l).
  { intros l Hl. apply u8_small. unfold is_byte. pose proof (zlen_nonneg l). lia. }
  tx_step; intros ? ? ? ?. rewrite Hz by done.
  tx_step; intros ? ? ? ?. rewrite Hz by done.
  tx_step; intros ? ? ? ?. rewrite Hz by done.
  apply wp_write_frame; [assumption | done | done | done|].
  intros t Hsent. apply HQ, emits_sent. eapply sent_trans_eq; [..|exact Hsent]; congruence.
Qed.

Lemma wp_empty_cmd cmd (Q : unit -> Tx -> Prop) s :
  tx_ok s -> is_byte cmd -> (forall s', emits [MCmd cmd []] s s' -> Q tt s') ->
  wp (wifi_uart_write_frame cmd MCU_TX_VER 0) Q s.
Proof.
  intros Hs Hc HQ. change 0 with (zlen (@nil Z)).
  apply wp_write_frame; [by apply filled_nil | done | done | done|].
  intros s' Hsent. by apply HQ, emits_sent.
Qed.

(** Data point uploads as messages; the id is given with its length. *)
Section Uploads.
Context (s : Tx) (Hs : tx_ok s) (sub : list Z) (Hsub : id_text sub) (dpid : Z)
  (Hdpid : is_byte dpid).

Lemma wp_bool value (Q : Z -> Tx -> Prop) :
  (forall r s', emits [MDp sub dpid (DpBool (negb (u8 value =? 0)))] s s' -> Q r s') ->
  wp (mcu_dp_bool_update dpid value (Some sub) (zlen sub)) Q s.
Proof using Hs Hsub Hdpid.
  intros HQ. destruct Hsub as [Hl _]. eapply wp_conseq.
  - apply bool_update_spec; [done | lia | done | done].
  - intros r s' [_ Hu]. by apply HQ, emits_uploads.
Qed.

Lemma wp_value value (Q : Z -> Tx -> Prop) :
  (forall r s', emits [MDp sub dpid (DpValue value)] s s' -> Q r s') ->
  wp (mcu_dp_value_update dpid value (Some sub) (zlen sub)) Q s.
Proof using Hs Hsub Hdpid.
  intros HQ. destruct Hsub as [Hl _]. eapply wp_conseq.
  - apply value_update_spec; [done | lia | done | done].
  - intros r s' [_ Hu]. by apply HQ, emits_uploads.
Qed.

Lemma wp_enum value (Q : Z -> Tx -> Prop) :
  (forall r s', emits [MDp sub dpid (DpEnum value)] s s' -> Q r s') ->
  wp (mcu_dp_enum_update dpid value (Some sub) (zlen sub)) Q s.
Proof using Hs Hsub Hdpid.
  intros HQ. destruct Hsub as [Hl _]. eapply wp_conseq.
  - apply enum_update_spec; [done | lia | done | done].
  - intros r s' [_ Hu]. by apply HQ, emits_uploads.
Qed.
End Uploads.
