(* ===== verification/Flashwork.v ===== *)
(** * The device table and its copy in flash

    [src/applications/flashwork.c]: [Global_Device], the table of known devices,
    and the key-value store it is saved in.  The store ([ef_get_env_blob],
    [ef_set_env] of [src/packages/EasyFlash]) is seen through the class [Env].
    The functions that also talk to the cloud or the radio ([Del_Device],
    [Del_MainBind], [Flash_Set_Heart]) are in [WifiApi]. *)

From Stdlib Require Import String.
From S2P Require Import Prelude CStr.
Open Scope list_scope.

(** ** The key-value store *)

Class Env (E : Type) := {
  env_get : E -> list Z -> option (list Z);
  env_set : E -> list Z -> list Z -> E;
  env_get_set_eq e k v : env_get (env_set e k v) k = Some v;
  env_get_set_ne e k k' v : k <> k' -> env_get (env_set e k v) k' = env_get e k'
}.

#[export] Instance gmap_env : Env (gmap (list Z) (list Z)).
Proof.
  refine {| env_get e k := e !! k; env_set e k v := <[k := v]> e |}.
  - intros. apply lookup_insert_eq.
  - intros. by apply lookup_insert_ne.
Defined.

(** ** State *)

Definition MaxSupport := 50.
Definition MainSupport := 3.
Definition RT_EOK := 0.
Definition RT_ERROR := 1.

(** The arrays of [Device_Info] hold one value per device; [Slot] is the values
    at one index. *)
Record Slot := mkSlot {
  Rssi : Z; Moto : Z; Heart : Z; HeartRetry : Z; HeartCount : Z; HeartRecv : Z;
  UploadFlag : Z; SyncRetry : Z; ID : Z; Bind_ID : Z
}.

Record Device_Info := mkDev { Num : Z; MainNum : Z; slots : list Slot }.

Definition slot0 : Slot := mkSlot 0 0 0 0 0 0 0 0 0 0.
Definition dev0 : Device_Info := mkDev 0 0 (replicate 50 slot0).

Definition set_Rssi v s := mkSlot v (Moto s) (Heart s) (HeartRetry s) (HeartCount s) (HeartRecv s) (UploadFlag s) (SyncRetry s) (ID s) (Bind_ID s).
Definition set_Moto v s := mkSlot (Rssi s) v (Heart s) (HeartRetry s) (HeartCount s) (HeartRecv s) (UploadFlag s) (SyncRetry s) (ID s) (Bind_ID s).
Definition set_Heart v s := mkSlot (Rssi s) (Moto s) v (HeartRetry s) (HeartCount s) (HeartRecv s) (UploadFlag s) (SyncRetry s) (ID s) (Bind_ID s).
Definition set_HeartRetry v s := mkSlot (Rssi s) (Moto s) (Heart s) v (HeartCount s) (HeartRecv s) (UploadFlag s) (SyncRetry s) (ID s) (Bind_ID s).
Definition set_HeartCount v s := mkSlot (Rssi s) (Moto s) (Heart s) (HeartRetry s) v (HeartRecv s) (UploadFlag s) (SyncRetry s) (ID s) (Bind_ID s).
Definition set_HeartRecv v s := mkSlot (Rssi s) (Moto s) (Heart s) (HeartRetry s) (HeartCount s) v (UploadFlag s) (SyncRetry s) (ID s) (Bind_ID s).
Definition set_UploadFlag v s := mkSlot (Rssi s) (Moto s) (Heart s) (HeartRetry s) (HeartCount s) (HeartRecv s) v (SyncRetry s) (ID s) (Bind_ID s).
Definition set_SyncRetry v s := mkSlot (Rssi s) (Moto s) (Heart s) (HeartRetry s) (HeartCount s) (HeartRecv s) (UploadFlag s) v (ID s) (Bind_ID s).
Definition set_ID v s := mkSlot (Rssi s) (Moto s) (Heart s) (HeartRetry s) (HeartCount s) (HeartRecv s) (UploadFlag s) (SyncRetry s) v (Bind_ID s).
Definition set_Bind_ID v s := mkSlot (Rssi s) (Moto s) (Heart s) (HeartRetry s) (HeartCount s) (HeartRecv s) (UploadFlag s) (SyncRetry s) (ID s) v.

(** [memory] and [flash]: [Global_Device] and the stored variables. *)
Record Flash (E : Type) := mkFlash { Global_Device : Device_Info; env : E }.
Arguments mkFlash {E}.
Arguments Global_Device {E}.
Arguments env {E}.

Definition set_Num v d := mkDev v (MainNum d) (slots d).
Definition set_MainNum v d := mkDev (Num d) v (slots d).
Definition set_slots l d := mkDev (Num d) (MainNum d) l.

(** The loop [while(num) { if(p) return num; num--; } return 0;] over the table
    from index [n] down to 1. *)
Fixpoint search (p : Slot -> bool) (l : list Slot) (n : nat) : option Z :=
  match n with
  | O => Some 0
  | S k => match l !! n with
           | Some s => if p s then Some (Z.of_nat n) else search p l k
           | None => None
           end
  end.

Section Operations.
Context {E : Type} `{Env E}.

Abbreviation FM := (M (Flash E)).

Definition on_dev {A} (m : M Device_Info A) : FM A :=
  zoom Global_Device (fun d f => mkFlash d (env f)) m.

(** [Global_Device.<field>[i]] and its assignment. *)
Definition slot_at (i : Z) : FM Slot := on_dev (rd slots i).
Definition set_slot (i : Z) (f : Slot -> Slot) : FM unit :=
  do s <- slot_at i; on_dev (wr slots set_slots i (f s)).
Definition find (p : Slot -> bool) : FM Z :=
  do d <- gets Global_Device; lift_opt (search p (slots d) (Z.to_nat (Num d))).

Definition ef_set_env (k v : list Z) : FM unit :=
  modify (fun f => mkFlash (Global_Device f) (env_set (env f) k v)).

(** [ef_get_env_blob] into the 64 byte buffer, then [atol]. *)
Definition read_value (e : E) (keybuf : list Z) : Z :=
  match env_get e keybuf with
  | Some v => if 0 <? u8 (Z.min 64 (zlen v)) then u32 (atol (take 64 v)) else 0
  | None => 0
  end.

Definition key_num (key : Z) : list Z := fmt_ld key.
Definition key_of (prefix : string) (key : Z) : list Z := str prefix ++ fmt_ld key.

Definition Flash_Get_Learn_Nums : FM Z := gets (fun f => read_value (env f) (str "Learn_Nums")).
Definition Flash_Get_Main_Nums : FM Z := gets (fun f => read_value (env f) (str "Main_Nums")).

Definition Flash_LearnNums_Change (value : Z) : FM unit :=
  ef_set_env (str "Learn_Nums") (fmt_ld value).
Definition Flash_MainNums_Change (value : Z) : FM unit :=
  ef_set_env (str "Main_Nums") (fmt_ld value).

Fixpoint first_free (l : list Slot) (n : nat) (num : nat) : option Z :=
  match n with
  | O => Some 0
  | S k => match l !! num with
           | Some s => if ID s =? 0 then Some (Z.of_nat num) else first_free l k (S num)
           | None => None
           end
  end.

Definition Get_LearnNums_Valid : FM Z :=
  do d <- gets Global_Device;
  do num <- lift_opt (first_free (slots d) (Z.to_nat (MaxSupport - 1)) 1);
  if num =? 0 then ret 0 else
  run (if Num d <? num
       then run on_dev (modify (set_Num num)); Flash_LearnNums_Change num
       else ret tt);
  ret num.

Definition Add_MainNums : FM Z :=
  do d <- gets Global_Device;
  if MainNum d <? MainSupport then
    let num := MainNum d + 1 in
    run on_dev (modify (set_MainNum num));
    run Flash_MainNums_Change num;
    ret num
  else ret 0.

Definition Del_MainNums : FM Z :=
  do d <- gets Global_Device;
  if 0 <? MainNum d then
    let num := MainNum d - 1 in
    run on_dev (modify (set_MainNum num));
    run Flash_MainNums_Change num;
    ret num
  else ret 0.

Definition Get_MainNums : FM Z :=
  do d <- gets Global_Device;
  ret (if MainNum d <? MainSupport then RT_EOK else RT_ERROR).

Definition Flash_ID_Change (key value : Z) : FM unit :=
  ef_set_env (key_num key) (fmt_ld value).
Definition Flash_Type_Change (Device_ID value : Z) : FM unit :=
  ef_set_env (key_of "type:" Device_ID) (fmt_ld value).
Definition Flash_Bind_Change (Device_ID value : Z) : FM unit :=
  ef_set_env (key_of "bind:" Device_ID) (fmt_ld value).
Definition Flash_Heart_Change (Device_ID value : Z) : FM unit :=
  ef_set_env (key_of "heart:" Device_ID) (fmt_ld value).
Definition Flash_UploadFlag_Change (Device_ID value : Z) : FM unit :=
  ef_set_env (key_of "upload:" Device_ID) (fmt_ld value).

Definition MainAdd_Flash (Device_ID : Z) : FM Z :=
  do num <- Get_LearnNums_Valid;
  if num =? 0 then ret RT_ERROR else
  run set_slot num (set_ID Device_ID);
  run set_slot num (set_Bind_ID 0);
  run set_slot num (set_Heart 1);
  run Flash_ID_Change num Device_ID;
  run Flash_Bind_Change Device_ID 0;
  run Flash_Heart_Change Device_ID 1;
  run Add_MainNums;
  ret RT_EOK.

Definition SlaveAdd_Flash (Device_ID Bind : Z) : FM Z :=
  do num <- Get_LearnNums_Valid;
  if num =? 0 then ret RT_ERROR else
  run set_slot num (set_ID Device_ID);
  run set_slot num (set_Bind_ID Bind);
  run set_slot num (set_Heart 1);
  run Flash_ID_Change num Device_ID;
  run Flash_Bind_Change Device_ID Bind;
  run Flash_Heart_Change Device_ID 1;
  ret RT_EOK.

Definition DoorAdd_Flash (Device_ID Bind : Z) : FM Z :=
  do num <- Get_LearnNums_Valid;
  if num =? 0 then ret RT_ERROR else
  run set_slot num (set_ID Device_ID);
  run set_slot num (set_Bind_ID Bind);
  run set_slot num (set_Heart 1);
  run Flash_ID_Change num Device_ID;
  run Flash_Bind_Change Device_ID Bind;
  run Flash_Heart_Change Device_ID 1;
  ret RT_EOK.

Definition GetBindID (Device_ID : Z) : FM Z :=
  do num <- find (fun s => ID s =? Device_ID);
  if num =? 0 then ret 0 else do s <- slot_at num; ret (Bind_ID s).

Definition GetDoorID (Main_ID : Z) : FM Z :=
  do num <- find (fun s => (Bind_ID s =? Main_ID) && (30000000 <=? ID s));
  if num =? 0 then ret 0 else do s <- slot_at num; ret (ID s).

Definition Flash_Get_Key_Valid (Device_ID : Z) : FM Z :=
  do num <- find (fun s => ID s =? Device_ID);
  ret (if num =? 0 then RT_ERROR else RT_EOK).

(** For a [type] above 4 the key buffer is not initialised. *)
Definition Flash_Get_Key_Value (type key : Z) : FM Z :=
  let value k := gets (fun f => read_value (env f) k) in
  if type =? 0 then value (key_num key)
  else if type =? 1 then value (key_of "type:" key)
  else if type =? 2 then value (key_of "bind:" key)
  else if type =? 3 then value (key_of "heart:" key)
  else if type =? 4 then value (key_of "upload:" key)
  else fault.

Fixpoint load_loop (n : nat) (i : Z) : FM unit :=
  match n with
  | O => ret tt
  | S k =>
      do id <- Flash_Get_Key_Value 0 i;
      run set_slot i (set_ID id);
      run (if id =? 0 then ret tt else
           do b <- Flash_Get_Key_Value 2 id;
           run set_slot i (set_Bind_ID b);
           do h <- Flash_Get_Key_Value 3 id;
           run set_slot i (set_Heart (u8 h));
           do u <- Flash_Get_Key_Value 4 id;
           set_slot i (set_UploadFlag (u8 u)));
      load_loop k (i + 1)
  end.

(** A stored count of 255 would make the 8 bit loop variable wrap; the index
    is out of the table long before. *)
Definition LoadDevice2Memory : FM unit :=
  run on_dev (modify (fun _ => dev0));
  do n <- Flash_Get_Learn_Nums;
  run on_dev (modify (set_Num (u8 n)));
  do m <- Flash_Get_Main_Nums;
  run on_dev (modify (set_MainNum (u8 m)));
  load_loop (Z.to_nat (u8 n)) 1.

(** The getters and setters of one field, found by the device's id. *)
Definition get_field (field : Slot -> Z) (Device_ID : Z) : FM Z :=
  do num <- find (fun s => ID s =? Device_ID);
  if num =? 0 then ret 0 else do s <- slot_at num; ret (field s).

Definition Flash_Get_Heart (Device_ID : Z) : FM Z := get_field Heart Device_ID.
Definition Flash_Get_UploadFlag (Device_ID : Z) : FM Z := get_field UploadFlag Device_ID.
Definition Flash_Get_Moto (Device_ID : Z) : FM Z := get_field Moto Device_ID.
Definition Flash_Get_Rssi (Device_ID : Z) : FM Z := get_field Rssi Device_ID.

Definition Flash_Set_UploadFlag (Device_ID Flag : Z) : FM Z :=
  do num <- find (fun s => ID s =? Device_ID);
  if num =? 0 then ret RT_ERROR else
  run set_slot num (set_UploadFlag (u8 Flag));
  run Flash_UploadFlag_Change Device_ID (u8 Flag);
  ret RT_EOK.

Definition Flash_Set_Moto (Device_ID Flag : Z) : FM Z :=
  do num <- find (fun s => ID s =? Device_ID);
  if num =? 0 then ret RT_ERROR else
  run set_slot num (set_Moto (u8 Flag));
  ret RT_EOK.

Definition Flash_Set_Rssi (Device_ID Flag : Z) : FM Z :=
  do num <- find (fun s => ID s =? Device_ID);
  if num =? 0 then ret RT_ERROR else
  run set_slot num (set_Rssi (u8 Flag));
  ret RT_EOK.

End Operations.

(** ** The table *)

(** Every used index is between 1 and [Num]; no id is used twice. *)
Record table_ok (d : Device_Info) : Prop := {
  table_length : length (slots d) = 50%nat;
  table_num : 0 <= Num d < MaxSupport;
  table_main : 0 <= MainNum d <= MainSupport;
  table_used i s : slots d !! i = Some s -> ID s <> 0 -> 1 <= Z.of_nat i <= Num d;
  table_unique i j s t :
    slots d !! i = Some s -> slots d !! j = Some t -> ID s = ID t -> ID s <> 0 -> i = j;
  table_range i s : slots d !! i = Some s -> 0 <= ID s < 2 ^ 32 /\ 0 <= Bind_ID s < 2 ^ 32;
  table_empty i s : slots d !! i = Some s -> ID s = 0 -> Bind_ID s = 0
}.

Lemma table_ok_dev0 : table_ok dev0.
Proof.
  assert (Hs : forall i s, slots dev0 !! i = Some s -> s = slot0).
  { intros i s H. by apply lookup_replicate in H as [-> _]. }
  split; cbn [Num MainNum dev0]; unfold MaxSupport, MainSupport; try done; try lia.
  - intros i s H Hne. apply Hs in H as ->. by destruct Hne.
  - intros i j s t H _ _ Hne. apply Hs in H as ->. by destruct Hne.
  - intros i s H. apply Hs in H as ->. cbn. lia.
  - intros i s H. by apply Hs in H as ->.
Qed.

(** The devices of a table, each with the device it is bound to. *)
Definition pair_of (s : Slot) : option (Z * Z) :=
  if ID s =? 0 then None else Some (ID s, Bind_ID s).
Definition pairs (l : list Slot) : list (Z * Z) := omap pair_of l.
Definition bindings (d : Device_Info) : gmap Z Z := list_to_map (pairs (slots d)).

Lemma pairs_split l n s :
  l !! n = Some s ->
  pairs l ≡ₚ (match pair_of s with Some p => [p] | None => [] end) ++ pairs (take n l ++ drop (S n) l).
Proof.
  intros H. rewrite <- (take_drop_middle l n s H) at 1. unfold pairs.
  rewrite !omap_app. simpl. destruct (pair_of s); simpl; [|done].
  by rewrite Permutation_middle.
Qed.

Lemma pairs_elem l id b :
  (id, b) ∈ pairs l <-> exists i s, l !! i = Some s /\ ID s = id /\ id <> 0 /\ Bind_ID s = b.
Proof.
  unfold pairs. rewrite list_elem_of_omap. split.
  - intros (s & Hs & Hp). apply list_elem_of_lookup in Hs as [i Hi]. exists i, s.
    unfold pair_of in Hp. destruct (Z.eqb_spec (ID s) 0); [done|]. by simplify_eq.
  - intros (i & s & Hi & <- & Hne & <-). exists s.
    split; [by eapply list_elem_of_lookup_2|].
    unfold pair_of. by rewrite (proj2 (Z.eqb_neq _ _)) by done.
Qed.

Lemma pairs_NoDup d : table_ok d -> NoDup (pairs (slots d)).*1.
Proof.
  intros Ht. pose proof (table_unique d Ht) as Hu. clear Ht.
  induction (slots d) as [|s l IH]; [constructor|].
  assert (Hl : NoDup (pairs l).*1).
  { apply IH. intros i j a b Ha Hb He Hne.
    assert (S i = S j) by (apply (Hu (S i) (S j) a b); done). lia. }
  unfold pairs. simpl. unfold pair_of at 1. destruct (Z.eqb_spec (ID s) 0); [done|].
  simpl. constructor; [|done]. intros Hin. apply list_elem_of_fmap in Hin as ([id b] & Heq & Hin).
  apply pairs_elem in Hin as (i & t & Hi & Hid & Hne & _). simpl in Heq.
  assert (0%nat = S i) by (apply (Hu 0%nat (S i) s t); [done | done | congruence | done]). lia.
Qed.

Lemma bindings_lookup d id b :
  table_ok d ->
  (bindings d !! id = Some b <->
   exists i s, slots d !! i = Some s /\ ID s = id /\ id <> 0 /\ Bind_ID s = b).
Proof.
  intros Ht. rewrite <- pairs_elem. unfold bindings.
  symmetry. apply elem_of_list_to_map, pairs_NoDup, Ht.
Qed.

Lemma search_spec p l n :
  (n < length l)%nat ->
  exists k, search p l n = Some (Z.of_nat k) /\ (k <= n)%nat
    /\ (forall i s, (k < i <= n)%nat -> l !! i = Some s -> p s = false)
    /\ (k <> 0%nat -> exists s, l !! k = Some s /\ p s = true).
Proof.
  induction n as [|n IH]; intros Hn.
  - exists 0%nat. repeat split; [lia | intros; lia | done].
  - cbn [search]. destruct (lookup_lt_is_Some_2 l (S n) Hn) as [s Hs]. rewrite Hs.
    destruct (p s) eqn:Ep.
    + exists (S n). repeat split; [lia | intros; lia | by exists s].
    + destruct IH as (k & Hk & Hle & Hno & Hyes); [lia|]. exists k. repeat split; try done; [lia|].
      intros i t Hi Ht. destruct (decide (i = S n)) as [->|]; [congruence|].
      apply (Hno i t); [lia | done].
Qed.

(** Where a device is. *)
Definition index_of (d : Device_Info) (id : Z) (k : nat) (s : Slot) : Prop :=
  slots d !! k = Some s /\ ID s = id /\ 1 <= Z.of_nat k <= Num d.

Section TableSpecs.
Context {E : Type} `{Env E}.
Implicit Types (f : Flash E) (d : Device_Info).

(** Looking a device up by its id: index 0 means that there is none. *)
Lemma wp_find_id id (Q : Z -> Flash E -> Prop) f :
  table_ok (Global_Device f) -> id <> 0 ->
  (bindings (Global_Device f) !! id = None -> Q 0 f) ->
  (forall k s, index_of (Global_Device f) id k s ->
     bindings (Global_Device f) !! id = Some (Bind_ID s) -> Q (Z.of_nat k) f) ->
  wp (find (fun s => ID s =? id)) Q f.
Proof.
  intros Ht Hid Hnone Hsome. unfold find, wp, bind, gets, lift_opt.
  set (d := Global_Device f) in *.
  assert (Hlt : (Z.to_nat (Num d) < length (slots d))%nat).
  { pose proof (table_num d Ht). rewrite (table_length d Ht). unfold MaxSupport in *. lia. }
  destruct (search_spec (fun s => ID s =? id) _ _ Hlt) as (k & -> & Hle & Hno & Hyes).
  destruct (decide (k = 0%nat)) as [->|Hk].
  - apply Hnone. apply eq_None_not_Some. intros [b Hb].
    apply bindings_lookup in Hb as (i & s & Hi & Hs & _ & _); [|done].
    assert (Hu : 1 <= Z.of_nat i <= Num d) by (apply (table_used d Ht i s); [done | congruence]).
    specialize (Hno i s ltac:(lia) Hi). by rewrite Hs, Z.eqb_refl in Hno.
  - destruct (Hyes Hk) as (s & Hs & Heq). apply Z.eqb_eq in Heq.
    apply (Hsome k s).
    + split; [done|]. split; [done|]. lia.
    + apply bindings_lookup; [done|]. by exists k, s.
Qed.

Lemma wp_slot_at i s (Q : Slot -> Flash E -> Prop) f :
  slots (Global_Device f) !! i = Some s -> Q s f -> wp (slot_at (Z.of_nat i)) Q f.
Proof.
  intros Hs HQ. apply wp_zoom. unfold wp.
  rewrite (rd_Some _ _ _ s). { by destruct f. }
  rewrite aget_lookup, Nat2Z.id by lia. done.
Qed.

Lemma wp_set_slot i s g (Q : unit -> Flash E -> Prop) f :
  slots (Global_Device f) !! i = Some s ->
  Q tt (mkFlash (set_slots (<[i := g s]> (slots (Global_Device f))) (Global_Device f)) (env f)) ->
  wp (set_slot (Z.of_nat i) g) Q f.
Proof.
  intros Hs HQ. apply wp_bind, (wp_slot_at i s); [done|]. apply wp_zoom, wp_wr.
  { apply lookup_lt_Some in Hs. unfold zlen. lia. }
  rewrite Nat2Z.id. done.
Qed.
End TableSpecs.

(** ** The stored copy *)

Section Store.
Context {E : Type} `{Env E}.
Implicit Types (e : E) (f : Flash E).

Lemma read_set_eq e k v : 0 <= v < 2 ^ 32 -> read_value (env_set e k (fmt_ld v)) k = v.
Proof.
  intros Hv. unfold read_value. rewrite env_get_set_eq.
  destruct (fmt_ld_shape v) as (Hne & Hlen & _).
  assert (Hpos : 0 < zlen (fmt_ld v)).
  { destruct (fmt_ld v); [done|]. rewrite zlen_cons. pose proof (zlen_nonneg l). lia. }
  rewrite u8_small by (unfold is_byte; lia).
  rewrite (proj2 (Z.ltb_lt _ _)) by lia.
  rewrite take_ge by (unfold zlen in Hlen; lia). by apply u32_atol_fmt_ld.
Qed.

Lemma read_set_ne e k k' v : k <> k' -> read_value (env_set e k v) k' = read_value e k'.
Proof. intros. unfold read_value. by rewrite env_get_set_ne. Qed.

(** What the store has to say for the table to survive a restart. *)
Record synced (d : Device_Info) (e : E) : Prop := {
  synced_num : read_value e (str "Learn_Nums") = Num d;
  synced_main : read_value e (str "Main_Nums") = MainNum d;
  synced_id i s : 1 <= Z.of_nat i <= Num d -> slots d !! i = Some s ->
    read_value e (key_num (Z.of_nat i)) = ID s;
  synced_bind i s : slots d !! i = Some s -> ID s <> 0 ->
    read_value e (key_of "bind:" (ID s)) = Bind_ID s;
  synced_heart i s : slots d !! i = Some s -> ID s <> 0 ->
    u8 (read_value e (key_of "heart:" (ID s))) = u8 (Heart s)
}.

Definition flash_ok f : Prop :=
  table_ok (Global_Device f) /\ synced (Global_Device f) (env f).
End Store.

(** The keys are pairwise distinct: they start differently, or their numbers
    differ. *)
Inductive var : Type :=
| VLearn | VMain | VId (i : Z) | VType (id : Z) | VBind (id : Z) | VHeart (id : Z) | VUpload (id : Z).

Definition var_key (v : var) : list Z :=
  match v with
  | VLearn => str "Learn_Nums" | VMain => str "Main_Nums"
  | VId i => key_num i | VType id => key_of "type:" id | VBind id => key_of "bind:" id
  | VHeart id => key_of "heart:" id | VUpload id => key_of "upload:" id
  end.

Definition var_ok (v : var) : Prop :=
  match v with
  | VLearn | VMain => True
  | VId i | VType i | VBind i | VHeart i | VUpload i => 0 <= i < 2 ^ 32
  end.

Lemma key_num_head x : exists c r, key_num x = c :: r /\ c < 58.
Proof.
  destruct (fmt_ld_shape x) as (Hne & _ & Hall). unfold key_num.
  destruct (fmt_ld x) as [|c r]; [done|]. exists c, r.
  apply Forall_cons_1 in Hall as [? _]. split; [done | lia].
Qed.

Lemma var_key_inj v w : var_ok v -> var_ok w -> var_key v = var_key w -> v = w.
Proof.
  intros Hv Hw E. destruct v as [| |i|i|i|i|i], w as [| |j|j|j|j|j]; cbn in E, Hv, Hw;
    try reflexivity; try discriminate E.
  all: try (destruct (key_num_head i) as (c & r & E' & Hc); rewrite E' in E;
            injection E as E1 _; vm_compute in E1; lia).
  all: try (destruct (key_num_head j) as (c & r & E' & Hc); rewrite E' in E;
            injection E as E1 _; vm_compute in E1; lia).
  all: f_equal; unfold key_num, key_of in E; simplify_list_eq; by apply fmt_ld_inj.
Qed.

(** ** Adding a device *)

Lemma first_free_spec l n num :
  (0 < num)%nat -> (num + n <= length l)%nat ->
  (first_free l n num = Some 0
   /\ forall i s, (num <= i < num + n)%nat -> l !! i = Some s -> ID s <> 0)
  \/ exists k s, first_free l n num = Some (Z.of_nat k) /\ (num <= k < num + n)%nat
       /\ l !! k = Some s /\ ID s = 0
       /\ forall i t, (num <= i < k)%nat -> l !! i = Some t -> ID t <> 0.
Proof.
  revert num; induction n as [|n IH]; intros num Hpos Hn; simpl.
  - left. split; [done|]. intros; lia.
  - destruct (lookup_lt_is_Some_2 l num ltac:(lia)) as [s Hs]. rewrite Hs.
    destruct (Z.eqb_spec (ID s) 0) as [E|E].
    { right. exists num, s. repeat split; try done; try lia; intros; lia. }
    destruct (IH (S num)) as [[-> Hall]|(k & t & -> & Hk & Ht & H0 & Hall)]; [lia|lia| |].
    + left. split; [done|]. intros i t Hi Ht.
      destruct (decide (i = num)) as [->|]; [congruence|]. apply (Hall i t); [lia | done].
    + right. exists k, t. repeat split; try done; try lia. intros i u Hi Hu.
      destruct (decide (i = num)) as [->|]; [congruence|]. apply (Hall i u); [lia | done].
Qed.

(** The fields an added device has in a slot that held [s]. *)
Definition added (id b : Z) (s : Slot) : Slot := set_Heart 1 (set_Bind_ID b (set_ID id s)).

(** The table with a device added at index [k]. *)
Definition add_at (k : nat) (id b : Z) (d : Device_Info) : Device_Info :=
  mkDev (Z.max (Num d) (Z.of_nat k)) (MainNum d) (alter (added id b) k (slots d)).

(** Index [k] is the first free one. *)
Definition free_at (d : Device_Info) (k : nat) (s : Slot) : Prop :=
  slots d !! k = Some s /\ ID s = 0 /\ 1 <= Z.of_nat k <= Num d + 1 /\ Z.of_nat k < MaxSupport.

Lemma add_at_lookup k id b d i t s :
  slots d !! k = Some s -> slots (add_at k id b d) !! i = Some t ->
  (i = k /\ t = added id b s) \/ (i <> k /\ slots d !! i = Some t).
Proof.
  intros Hs. cbn [add_at slots]. destruct (decide (i = k)) as [->|].
  - rewrite list_lookup_alter_eq, Hs. simpl. intros [= <-]. by left.
  - rewrite list_lookup_alter_ne by done. by right.
Qed.

Lemma add_at_ok d k s id b :
  table_ok d -> free_at d k s -> 0 < id < 2 ^ 32 -> 0 <= b < 2 ^ 32 ->
  bindings d !! id = None -> table_ok (add_at k id b d).
Proof.
  intros Ht (Hs & H0 & Hk & Hmax) Hid Hb Hnew.
  assert (Hfresh : forall i t, slots d !! i = Some t -> ID t <> id).
  { intros i t Hi E. assert (Hx : bindings d !! id = Some (Bind_ID t)).
    { apply bindings_lookup; [done|]. exists i, t. repeat split; try done; lia. }
    congruence. }
  pose proof (table_num d Ht) as Hnum.
  split.
  - cbn [add_at slots]. rewrite length_alter. apply Ht.
  - cbn [add_at Num]. lia.
  - apply Ht.
  - intros i t Hi Hne. cbn [add_at Num].
    destruct (add_at_lookup _ _ _ _ _ _ _ Hs Hi) as [[-> _]|[_ Ho]]; [lia|].
    pose proof (table_used d Ht i t Ho Hne). lia.
  - intros i j t u Hi Hj He Hne.
    destruct (add_at_lookup _ _ _ _ _ _ _ Hs Hi) as [[-> ->]|[? Ho]],
      (add_at_lookup _ _ _ _ _ _ _ Hs Hj) as [[-> ->]|[? Ho']]; cbn in He; try done.
    + by destruct (Hfresh _ _ Ho').
    + by destruct (Hfresh _ _ Ho).
    + by apply (table_unique d Ht i j t u).
  - intros i t Hi.
    destruct (add_at_lookup _ _ _ _ _ _ _ Hs Hi) as [[-> ->]|[? Ho]]; [cbn; lia|].
    by apply (table_range d Ht i).
  - intros i t Hi E0.
    destruct (add_at_lookup _ _ _ _ _ _ _ Hs Hi) as [[-> ->]|[? Ho]]; [cbn in E0; lia|].
    by apply (table_empty d Ht i).
Qed.

Lemma add_at_bindings d k s id b :
  table_ok d -> free_at d k s -> 0 < id < 2 ^ 32 -> 0 <= b < 2 ^ 32 ->
  bindings d !! id = None -> bindings (add_at k id b d) = <[id := b]> (bindings d).
Proof.
  intros Ht Hf Hid Hb Hnew. pose proof (add_at_ok d k s id b Ht Hf Hid Hb Hnew) as Ht'.
  destruct Hf as (Hs & H0 & _). apply map_eq. intros x.
  apply option_eq. intros y. rewrite lookup_insert_Some, (bindings_lookup _ _ _ Ht').
  rewrite (bindings_lookup _ _ _ Ht). split.
  - intros (i & t & Hi & Hx & Hne & Hy).
    destruct (add_at_lookup _ _ _ _ _ _ _ Hs Hi) as [[-> ->]|[? Ho]].
    + left. cbn in *. by subst.
    + right. split; [|by exists i, t]. intros ->.
      assert (Hsome : bindings d !! x = Some (Bind_ID t)); [|congruence].
      apply bindings_lookup; [done|]. by exists i, t.
  - intros [[<- <-]|[Hne (i & t & Hi & Hx & Hx0 & Hy)]].
    + exists k, (added id b s). cbn [add_at slots]. rewrite list_lookup_alter_eq, Hs.
      cbn. repeat split; lia.
    + exists i, t. cbn [add_at slots]. rewrite list_lookup_alter_ne; [done|].
      intros <-. rewrite Hs in Hi. injection Hi as <-. congruence.
Qed.

Section Adding.
Context {E : Type} `{Env E}.
Implicit Types (e : E) (f : Flash E) (d : Device_Info).

(** The table is full: all 49 usable indices are taken. *)
Definition table_full d : Prop :=
  forall i s, 1 <= Z.of_nat i < MaxSupport -> slots d !! i = Some s -> ID s <> 0.

Lemma wp_set_env k v (Q : unit -> Flash E -> Prop) f :
  Q tt (mkFlash (Global_Device f) (env_set (env f) k v)) -> wp (ef_set_env k v) Q f.
Proof. done. Qed.

Lemma wp_on_dev_modify g (Q : unit -> Flash E -> Prop) f :
  Q tt (mkFlash (g (Global_Device f)) (env f)) -> wp (on_dev (modify g)) Q f.
Proof. done. Qed.

(** [stored e v]: the number a variable has in the store. *)
Definition stored e (v : var) : Z := read_value e (var_key v).

Lemma stored_eq e v x :
  0 <= x < 2 ^ 32 -> stored (env_set e (var_key v) (fmt_ld x)) v = x.
Proof. apply read_set_eq. Qed.

Lemma stored_ne e v w x :
  var_ok v -> var_ok w -> v <> w -> stored (env_set e (var_key v) x) w = stored e w.
Proof. intros Hv Hw Hne. apply read_set_ne. intros E1. by apply Hne, var_key_inj. Qed.

Lemma wp_get_learn (Q : Z -> Flash E -> Prop) f :
  table_ok (Global_Device f) ->
  (table_full (Global_Device f) -> Q 0 f) ->
  (forall k s, free_at (Global_Device f) k s ->
     Q (Z.of_nat k)
       (mkFlash (set_Num (Z.max (Num (Global_Device f)) (Z.of_nat k)) (Global_Device f))
          (if Num (Global_Device f) <? Z.of_nat k
           then env_set (env f) (var_key VLearn) (fmt_ld (Z.of_nat k)) else env f))) ->
  wp Get_LearnNums_Valid Q f.
Proof.
  intros Ht Hfull Hfree. unfold Get_LearnNums_Valid. apply wp_bind, wp_gets, wp_bind.
  set (d := Global_Device f) in *. pose proof (table_num d Ht) as Hnum.
  pose proof (table_length d Ht) as Hlen.
  destruct (first_free_spec (slots d) (Z.to_nat (MaxSupport - 1)) 1) as
    [[E1 Hall]|(k & s & E1 & Hk & Hs & H0 & Hall)].
  { lia. }
  { rewrite Hlen. unfold MaxSupport. lia. }
  - unfold wp, lift_opt. rewrite E1. cbn. apply Hfull.
    intros i s Hi. apply Hall. unfold MaxSupport in *. lia.
  - unfold wp, lift_opt. rewrite E1. rewrite (proj2 (Z.eqb_neq _ 0)) by lia.
    assert (Hf : free_at d k s).
    { unfold free_at, MaxSupport in *. split; [done|]. split; [done|].
      split; [split; [lia|]|lia].
      destruct (Z.le_gt_cases (Z.of_nat k) (Num d + 1)) as [|Hgt]; [done|].
      assert (Hm : (Z.to_nat (Num d + 1) < length (slots d))%nat) by lia.
      destruct (lookup_lt_is_Some_2 _ _ Hm) as [t Hti].
      pose proof (table_used d Ht _ t Hti (Hall (Z.to_nat (Num d + 1)) t ltac:(lia) Hti)). lia. }
    specialize (Hfree k s Hf). unfold bind.
    destruct (Z.ltb_spec (Num d) (Z.of_nat k)).
    + rewrite Z.max_r in Hfree by lia. exact Hfree.
    + rewrite Z.max_l in Hfree by lia. cbn. unfold set_Num in Hfree.
      destruct f as [d' e']. cbn in *. subst d. by destruct d'.
Qed.

(** The store after the three writes of an addition, in any order with others
    to different variables. *)
Lemma synced_add d e k s id b :
  table_ok d -> synced d e -> free_at d k s -> 0 < id < 2 ^ 32 -> 0 <= b < 2 ^ 32 ->
  bindings d !! id = None ->
  let e1 := if Num d <? Z.of_nat k
            then env_set e (var_key VLearn) (fmt_ld (Z.of_nat k)) else e in
  let e2 := env_set e1 (var_key (VId (Z.of_nat k))) (fmt_ld id) in
  let e3 := env_set e2 (var_key (VBind id)) (fmt_ld b) in
  synced (add_at k id b d) (env_set e3 (var_key (VHeart id)) (fmt_ld 1)).
Proof.
  intros Ht Hsy (Hs & H0 & Hk & Hmax) Hid Hb Hnew e1 e2 e3.
  set (e4 := env_set e3 _ _). pose proof (table_num d Ht) as Hnum. unfold MaxSupport in *.
  assert (Hold : forall w, var_ok w -> w <> VLearn -> w <> VId (Z.of_nat k) -> w <> VBind id ->
                   w <> VHeart id -> stored e4 w = stored e w).
  { intros w Hw ? ? ? ?. unfold e4, e3, e2.
    rewrite !stored_ne by (done || cbn; lia). unfold e1.
    destruct (Num d <? Z.of_nat k); [by apply stored_ne | done]. }
  assert (Hfresh : forall i t, slots d !! i = Some t -> ID t <> id).
  { intros i t Hi E1. assert (Hx : bindings d !! id = Some (Bind_ID t)); [|congruence].
    apply bindings_lookup; [done|]. exists i, t. repeat split; try done; lia. }
  assert (Hr : forall i t, slots d !! i = Some t -> 0 <= ID t < 2 ^ 32)
    by (intros i t Hi; by apply (table_range d Ht i t)).
  split; cbn [add_at Num MainNum].
  - change (stored e4 VLearn = Z.max (Num d) (Z.of_nat k)). unfold e4, e3, e2.
    rewrite !stored_ne by (done || cbn; lia). unfold e1.
    destruct (Z.ltb_spec (Num d) (Z.of_nat k)).
    + rewrite stored_eq; lia.
    + apply (eq_trans (synced_num d e Hsy)). lia.
  - change (stored e4 VMain = MainNum d). rewrite Hold by done. apply Hsy.
  - intros i t Hi Hit. change (stored e4 (VId (Z.of_nat i)) = ID t).
    destruct (add_at_lookup _ _ _ _ _ _ _ Hs Hit) as [[-> ->]|[Hne Ho]].
    + unfold e4, e3, e2. rewrite 2!stored_ne by (done || cbn; lia).
      by rewrite stored_eq by lia.
    + rewrite Hold; try done; [|cbn; lia|intros [= ?]; lia].
      apply (synced_id d e Hsy i t); [|done].
      destruct (Z.le_gt_cases (Z.of_nat i) (Num d)); lia.
  - intros i t Hit Hne. change (stored e4 (VBind (ID t)) = Bind_ID t).
    destruct (add_at_lookup _ _ _ _ _ _ _ Hs Hit) as [[-> ->]|[_ Ho]].
    + cbn [added set_Heart set_Bind_ID set_ID ID Bind_ID]. unfold e4.
      rewrite (stored_ne _ _ (VBind _)) by (done || cbn; lia). by apply stored_eq.
    + rewrite Hold; try done; [|by apply (Hr i)|intros [= ?]; by apply (Hfresh _ _ Ho)].
      by apply (synced_bind d e Hsy i t).
  - intros i t Hit Hne. change (u8 (stored e4 (VHeart (ID t))) = u8 (Heart t)).
    destruct (add_at_lookup _ _ _ _ _ _ _ Hs Hit) as [[-> ->]|[_ Ho]].
    + cbn [added set_Heart set_Bind_ID set_ID ID Heart]. unfold e4. f_equal. by apply stored_eq.
    + rewrite Hold; try done; [|by apply (Hr i)|intros [= ?]; by apply (Hfresh _ _ Ho)].
      by apply (synced_heart d e Hsy i t).
Qed.
End Adding.

Section AddOps.
Context {E : Type} `{Env E}.
Implicit Types (f : Flash E).

Lemma alter_insert {A} (g : A -> A) (l : list A) k s :
  l !! k = Some s -> <[k := g s]> l = alter g k l.
Proof.
  intros Hs. apply list_eq. intros i. pose proof (lookup_lt_Some _ _ _ Hs).
  destruct (decide (i = k)) as [->|].
  - by rewrite list_lookup_insert_eq, list_lookup_alter_eq, Hs by done.
  - by rewrite list_lookup_insert_ne, list_lookup_alter_ne by done.
Qed.

(** The common part of the three additions: the new slot and its variables. *)
Lemma wp_add_writes {A} k id b d (e : E) s (K : M (Flash E) A) Q :
  slots d !! k = Some s ->
  wp K Q (mkFlash (add_at k id b d)
      (env_set (env_set (env_set e (var_key (VId (Z.of_nat k))) (fmt_ld id))
                 (var_key (VBind id)) (fmt_ld b)) (var_key (VHeart id)) (fmt_ld 1))) ->
  wp (run set_slot (Z.of_nat k) (set_ID id);
      run set_slot (Z.of_nat k) (set_Bind_ID b);
      run set_slot (Z.of_nat k) (set_Heart 1);
      run Flash_ID_Change (Z.of_nat k) id;
      run Flash_Bind_Change id b;
      run Flash_Heart_Change id 1; K)
    Q (mkFlash (set_Num (Z.max (Num d) (Z.of_nat k)) d) e).
Proof.
  intros Hs HQ. pose proof (lookup_lt_Some _ _ _ Hs) as Hlt.
  apply wp_bind, (wp_set_slot k s); [done|].
  apply wp_bind, (wp_set_slot k (set_ID id s)); [by apply list_lookup_insert_eq|].
  apply wp_bind, (wp_set_slot k (set_Bind_ID b (set_ID id s))).
  { apply list_lookup_insert_eq. cbn. by rewrite length_insert. }
  do 3 apply wp_bind, wp_set_env.
  cbn [Global_Device set_slots set_Num slots Num MainNum env].
  rewrite !list_insert_insert_eq.
  change (set_Heart 1 (set_Bind_ID b (set_ID id s))) with (added id b s).
  rewrite (alter_insert (added id b) _ _ s Hs). exact HQ.
Qed.

(** What an addition promises: an error and no change when the table is full,
    else the device is in the table, in memory and in the store. *)
Definition add_post (id b : Z) (main : bool) f (r : Z) f' : Prop :=
  (table_full (Global_Device f) /\ r = RT_ERROR /\ f' = f)
  \/ (r = RT_EOK /\ flash_ok f'
      /\ bindings (Global_Device f') = <[id := b]> (bindings (Global_Device f))
      /\ MainNum (Global_Device f')
         = (if main then Z.min MainSupport (MainNum (Global_Device f) + 1)
            else MainNum (Global_Device f))).

(** Changing the count of main units, in memory and in the store. *)
Lemma main_count_ok f n :
  flash_ok f -> 0 <= n <= MainSupport ->
  flash_ok (mkFlash (set_MainNum n (Global_Device f))
              (env_set (env f) (var_key VMain) (fmt_ld n))).
Proof.
  intros [Ht1 Hs1] Hn. set (d1 := Global_Device f) in *. split.
  - split; cbn [Global_Device set_MainNum Num MainNum slots]; try apply Ht1. done.
  - cbn [Global_Device env].
    assert (Hkeep : forall w, var_ok w -> w <> VMain ->
      stored (env_set (env f) (var_key VMain) (fmt_ld n)) w = stored (env f) w).
    { intros w Hw Hne. apply stored_ne; [done | done | congruence]. }
    unfold MainSupport in *. split; cbn [set_MainNum Num MainNum slots].
    + etransitivity; [apply (Hkeep VLearn); done | apply Hs1].
    + apply (stored_eq (env f) VMain). lia.
    + intros i s Hi Hs. pose proof (table_num d1 Ht1). unfold MaxSupport in *.
      etransitivity; [apply (Hkeep (VId (Z.of_nat i))); [cbn; lia | done]|].
      by apply (synced_id d1 _ Hs1).
    + intros i s Hs Hne. pose proof (table_range d1 Ht1 i s Hs).
      etransitivity; [apply (Hkeep (VBind (ID s))); [cbn; lia | done]|].
      by apply (synced_bind d1 _ Hs1 i).
    + intros i s Hs Hne. pose proof (table_range d1 Ht1 i s Hs).
      etransitivity; [apply (f_equal u8), (Hkeep (VHeart (ID s))); [cbn; lia | done]|].
      by apply (synced_heart d1 _ Hs1 i).
Qed.

Section Post.
Context (f : Flash E) (id b : Z).
Context (Hok : flash_ok f) (Hid : 0 < id < 2 ^ 32) (Hb : 0 <= b < 2 ^ 32).
Context (Hnew : bindings (Global_Device f) !! id = None).

Lemma wp_add_main_nums (Q : Z -> Flash E -> Prop) f1 :
  flash_ok f1 ->
  (forall r f2, flash_ok f2 -> bindings (Global_Device f2) = bindings (Global_Device f1) ->
     MainNum (Global_Device f2) = Z.min MainSupport (MainNum (Global_Device f1) + 1) ->
     Q r f2) ->
  wp Add_MainNums Q f1.
Proof.
  intros [Ht1 Hs1] HQ. unfold Add_MainNums. apply wp_bind, wp_gets.
  set (d1 := Global_Device f1) in *. pose proof (table_main d1 Ht1) as Hm.
  destruct (Z.ltb_spec (MainNum d1) MainSupport) as [Hlt|Hge].
  - apply wp_bind, wp_on_dev_modify, wp_bind, wp_set_env, wp_ret.
    unfold MainSupport in *. apply HQ; [|done | cbn; fold d1; lia].
    apply (main_count_ok f1 (MainNum d1 + 1)); [by split | unfold MainSupport; lia].
  - apply wp_ret, HQ; [done | done |]. unfold MainSupport in *. fold d1. lia.
Qed.

Lemma add_slave_spec : wp (SlaveAdd_Flash id b) (add_post id b false f) f.
Proof using Hok Hid Hb Hnew.
  destruct Hok as [Ht Hsy]. unfold SlaveAdd_Flash.
  apply wp_bind, wp_get_learn; [done | intros Hfull | intros k s Hf].
  { apply wp_ret. by left. }
  rewrite (proj2 (Z.eqb_neq _ 0)) by (destruct Hf; lia).
  eapply wp_add_writes; [apply Hf|]. apply wp_ret. right.
  split; [done|]. split; [|split].
  - split; [by eapply add_at_ok | by eapply synced_add].
  - by eapply add_at_bindings.
  - done.
Qed.

Lemma add_door_spec : wp (DoorAdd_Flash id b) (add_post id b false f) f.
Proof using Hok Hid Hb Hnew. exact add_slave_spec. Qed.

Lemma add_main_spec : b = 0 -> wp (MainAdd_Flash id) (add_post id 0 true f) f.
Proof using Hok Hid Hb Hnew.
  intros ->. destruct Hok as [Ht Hsy]. unfold MainAdd_Flash.
  apply wp_bind, wp_get_learn; [done | intros Hfull | intros k s Hf].
  { apply wp_ret. by left. }
  rewrite (proj2 (Z.eqb_neq _ 0)) by (destruct Hf; lia).
  eapply wp_add_writes; [apply Hf|]. apply wp_bind, wp_add_main_nums.
  { split; [by eapply add_at_ok | by eapply synced_add]. }
  intros r f2 Hok2 Hb2 Hm2. apply wp_ret. right.
  split; [done|]. split; [done|]. split.
  - rewrite Hb2. by eapply add_at_bindings.
  - by rewrite Hm2.
Qed.
End Post.
End AddOps.

(** ** Removing a device *)

Definition removed (s : Slot) : Slot := set_UploadFlag 0 (set_Bind_ID 0 (set_ID 0 s)).

Definition del_at (k : nat) (d : Device_Info) : Device_Info :=
  mkDev (Num d) (MainNum d) (alter removed k (slots d)).

Lemma del_at_lookup k d i t s :
  slots d !! k = Some s -> slots (del_at k d) !! i = Some t ->
  (i = k /\ t = removed s) \/ (i <> k /\ slots d !! i = Some t).
Proof.
  intros Hs. cbn [del_at slots]. destruct (decide (i = k)) as [->|].
  - rewrite list_lookup_alter_eq, Hs. simpl. intros [= <-]. by left.
  - rewrite list_lookup_alter_ne by done. by right.
Qed.

Lemma del_at_ok d k s : table_ok d -> slots d !! k = Some s -> table_ok (del_at k d).
Proof.
  intros Ht Hs. split; try apply Ht.
  - cbn [del_at slots]. rewrite length_alter. apply Ht.
  - intros i t Hi Hne. destruct (del_at_lookup _ _ _ _ _ Hs Hi) as [[-> ->]|[_ Ho]]; [done|].
    by apply (table_used d Ht i t).
  - intros i j t u Hi Hj He Hne.
    destruct (del_at_lookup _ _ _ _ _ Hs Hi) as [[-> ->]|[_ Ho]]; [done|].
    destruct (del_at_lookup _ _ _ _ _ Hs Hj) as [[-> ->]|[_ Ho']]; [done|].
    by apply (table_unique d Ht i j t u).
  - intros i t Hi. destruct (del_at_lookup _ _ _ _ _ Hs Hi) as [[-> ->]|[_ Ho]]; [cbn; lia|].
    by apply (table_range d Ht i).
  - intros i t Hi. destruct (del_at_lookup _ _ _ _ _ Hs Hi) as [[-> ->]|[_ Ho]]; [done|].
    by apply (table_empty d Ht i).
Qed.

Lemma del_at_bindings d k s :
  table_ok d -> slots d !! k = Some s -> bindings (del_at k d) = delete (ID s) (bindings d).
Proof.
  intros Ht Hs. pose proof (del_at_ok d k s Ht Hs) as Ht'. apply map_eq. intros x.
  apply option_eq. intros y. rewrite lookup_delete_Some, !bindings_lookup by done. split.
  - intros (i & t & Hi & Hx & Hne & Hy).
    destruct (del_at_lookup _ _ _ _ _ Hs Hi) as [[-> ->]|[Hik Ho]]; [cbn in Hx; congruence|].
    split; [|by exists i, t]. intros E1. apply Hik. apply (table_unique d Ht i k t s); congruence.
  - intros (Hne & i & t & Hi & Hx & Hx0 & Hy). exists i, t. split; [|done].
    cbn [del_at slots]. rewrite list_lookup_alter_ne; [done|]. intros <-.
    rewrite Hs in Hi. injection Hi as <-. congruence.
Qed.

Section Removing.
Context {E : Type} `{Env E}.
Implicit Types (e : E) (f : Flash E) (d : Device_Info).

Lemma wp_del_main_nums (Q : Z -> Flash E -> Prop) f :
  flash_ok f ->
  (forall r e, let d := set_MainNum (Z.max 0 (MainNum (Global_Device f) - 1)) (Global_Device f) in
     flash_ok (mkFlash d e) -> Q r (mkFlash d e)) ->
  wp Del_MainNums Q f.
Proof.
  intros [Ht Hs] HQ. unfold Del_MainNums. apply wp_bind, wp_gets.
  pose proof (table_main _ Ht) as Hm. unfold MainSupport in *.
  destruct (Z.ltb_spec 0 (MainNum (Global_Device f))) as [Hlt|Hge].
  - apply wp_bind, wp_on_dev_modify, wp_bind, wp_set_env, wp_ret.
    cbn [Global_Device env]. rewrite <- (Z.max_r 0 (MainNum (Global_Device f) - 1)) by lia.
    apply HQ. apply (main_count_ok f); [by split | unfold MainSupport; lia].
  - apply wp_ret. assert (E0 : f = mkFlash (set_MainNum (Z.max 0 (MainNum (Global_Device f) - 1))
                                   (Global_Device f)) (env f)).
    { rewrite Z.max_l by lia. destruct f as [[n m l] e]. cbn in *. by assert (m = 0) as -> by lia. }
    rewrite E0 at 1. apply HQ. rewrite <- E0. by split.
Qed.

Lemma synced_del d e k s x :
  table_ok d -> synced d e -> slots d !! k = Some s -> 1 <= Z.of_nat k <= Num d ->
  0 <= x < 2 ^ 32 ->
  (forall i t, i <> k -> slots d !! i = Some t -> ID t = x -> Bind_ID t = 0) ->
  synced (del_at k d)
    (env_set (env_set (env_set e (var_key (VId (Z.of_nat k))) (fmt_ld 0))
       (var_key (VBind x)) (fmt_ld 0)) (var_key (VUpload x)) (fmt_ld 0)).
Proof.
  intros Ht Hsy Hs Hk Hx Hother. set (e' := env_set _ _ _).
  pose proof (table_num d Ht) as Hn. unfold MaxSupport in *.
  assert (Hold : forall w, var_ok w -> w <> VId (Z.of_nat k) -> w <> VBind x -> w <> VUpload x ->
                   stored e' w = stored e w).
  { intros w Hw ? ? ?. unfold e'. rewrite !stored_ne by (done || (cbn; lia)). done. }
  assert (Hr : forall i t, slots d !! i = Some t -> 0 <= ID t < 2 ^ 32)
    by (intros i t Hi; by apply (table_range d Ht i t)).
  split; cbn [del_at Num MainNum].
  - etransitivity; [apply (Hold VLearn); done | apply Hsy].
  - etransitivity; [apply (Hold VMain); done | apply Hsy].
  - intros i t Hi Hit. change (stored e' (VId (Z.of_nat i)) = ID t).
    destruct (del_at_lookup _ _ _ _ _ Hs Hit) as [[-> ->]|[Hik Ho]].
    + unfold e'. rewrite 2!stored_ne by (done || (cbn; lia)). by apply stored_eq.
    + rewrite Hold; try done; [|cbn; lia|intros [= ?]; lia]. by apply (synced_id d e Hsy i t).
  - intros i t Hit Hne. change (stored e' (VBind (ID t)) = Bind_ID t).
    destruct (del_at_lookup _ _ _ _ _ Hs Hit) as [[-> ->]|[Hik Ho]]; [done|].
    destruct (Z.eq_dec (ID t) x) as [Ex|Ex].
    + rewrite (Hother i t Hik Ho Ex), Ex. unfold e'. rewrite stored_ne by (done || (cbn; lia)).
      by apply stored_eq.
    + rewrite Hold; try done; [|by apply (Hr i)|congruence]. by apply (synced_bind d e Hsy i t).
  - intros i t Hit Hne. change (u8 (stored e' (VHeart (ID t))) = u8 (Heart t)).
    destruct (del_at_lookup _ _ _ _ _ Hs Hit) as [[-> ->]|[Hik Ho]]; [done|].
    rewrite Hold; try done; [|by apply (Hr i)]. by apply (synced_heart d e Hsy i t).
Qed.

(** The writes of a removal, in the order of the code. *)
Lemma wp_del_writes {A} k x s (K : M (Flash E) A) Q f :
  slots (Global_Device f) !! k = Some s ->
  wp K Q (mkFlash (del_at k (Global_Device f))
    (env_set (env_set (env_set (env f) (var_key (VId (Z.of_nat k))) (fmt_ld 0))
       (var_key (VBind x)) (fmt_ld 0)) (var_key (VUpload x)) (fmt_ld 0))) ->
  wp (run Flash_ID_Change (Z.of_nat k) 0;
      run set_slot (Z.of_nat k) (set_ID 0);
      run Flash_Bind_Change x 0;
      run set_slot (Z.of_nat k) (set_Bind_ID 0);
      run Flash_UploadFlag_Change x 0;
      run set_slot (Z.of_nat k) (set_UploadFlag 0); K) Q f.
Proof.
  intros Hs HQ. pose proof (lookup_lt_Some _ _ _ Hs) as Hlt.
  apply wp_bind, wp_set_env, wp_bind, (wp_set_slot k s); [done|].
  apply wp_bind, wp_set_env, wp_bind, (wp_set_slot k (set_ID 0 s)); [by apply list_lookup_insert_eq|].
  apply wp_bind, wp_set_env, wp_bind, (wp_set_slot k (set_Bind_ID 0 (set_ID 0 s))).
  { cbn. rewrite list_insert_insert_eq. by apply list_lookup_insert_eq. }
  cbn [Global_Device set_slots slots Num MainNum env].
  rewrite !list_insert_insert_eq.
  change (set_UploadFlag 0 (set_Bind_ID 0 (set_ID 0 s))) with (removed s).
  rewrite (alter_insert removed _ _ s Hs). exact HQ.
Qed.
End Removing.

(** ** Changing other fields of a slot *)

Section Updating.
Context {E : Type} `{Env E} (d : Device_Info) (k : nat) (s s' : Slot).
Context (Ht : table_ok d) (Hs : slots d !! k = Some s) (Hid : ID s' = ID s)
  (Hbind : Bind_ID s' = Bind_ID s).

Let d' := set_slots (<[k := s']> (slots d)) d.

Lemma update_lookup i t :
  slots d' !! i = Some t ->
  exists u, slots d !! i = Some u /\ ID t = ID u /\ Bind_ID t = Bind_ID u
            /\ (i <> k -> t = u).
Proof using Hs Hid Hbind.
  cbn [d' set_slots slots]. destruct (decide (i = k)) as [->|Hne].
  - rewrite list_lookup_insert_eq by by eapply lookup_lt_Some. intros [= <-]. by exists s.
  - rewrite list_lookup_insert_ne by done. intros Hi. by exists t.
Qed.

Lemma update_ok : table_ok d'.
Proof using Ht Hs Hid Hbind.
  split; try apply Ht.
  - cbn. rewrite length_insert. apply Ht.
  - intros i t Hi Hne. destruct (update_lookup i t Hi) as (u & Hu & E1 & _).
    apply (table_used d Ht i u); congruence.
  - intros i j t u Hi Hj He Hne.
    destruct (update_lookup i t Hi) as (t' & Ht' & E1 & _).
    destruct (update_lookup j u Hj) as (u' & Hu' & E2 & _).
    apply (table_unique d Ht i j t' u'); congruence.
  - intros i t Hi. destruct (update_lookup i t Hi) as (u & Hu & -> & -> & _).
    by apply (table_range d Ht i).
  - intros i t Hi. destruct (update_lookup i t Hi) as (u & Hu & -> & -> & _).
    by apply (table_empty d Ht i).
Qed.

Lemma update_bindings : bindings d' = bindings d.
Proof using Ht Hs Hid Hbind.
  apply map_eq. intros x. apply option_eq. intros y.
  rewrite !bindings_lookup by (done || apply update_ok). split.
  - intros (i & t & Hi & <- & Hne & <-).
    destruct (update_lookup i t Hi) as (u & Hu & E1 & E2 & _). exists i, u. by rewrite <- E1.
  - intros (i & u & Hi & <- & Hne & <-). cbn [d' set_slots slots].
    destruct (decide (i = k)) as [->|Hk].
    + exists k, s'. rewrite list_lookup_insert_eq by by eapply lookup_lt_Some.
      rewrite Hs in Hi. injection Hi as <-. by rewrite Hid.
    + exists i, u. by rewrite list_lookup_insert_ne by done.
Qed.

(** The store keeps up when the heart state is written, or is the same. *)
Lemma update_synced (e e' : E) :
  synced d e ->
  (forall w, var_ok w -> w <> VHeart (ID s) -> stored e' w = stored e w) ->
  (ID s <> 0 -> u8 (stored e' (VHeart (ID s))) = u8 (Heart s')) ->
  synced d' e'.
Proof using Ht Hs Hid Hbind.
  intros Hsy Hold Hnew. pose proof (table_num d Ht) as Hn. unfold MaxSupport in *.
  assert (Hr : forall i t, slots d !! i = Some t -> 0 <= ID t < 2 ^ 32)
    by (intros i t Hi; by apply (table_range d Ht i t)).
  split; cbn [d' set_slots Num MainNum].
  - etransitivity; [apply (Hold VLearn); done | apply Hsy].
  - etransitivity; [apply (Hold VMain); done | apply Hsy].
  - intros i t Hi Hit. destruct (update_lookup i t Hit) as (u & Hu & -> & _).
    etransitivity; [apply (Hold (VId (Z.of_nat i))); [cbn; lia | done]|].
    by apply (synced_id d e Hsy i u).
  - intros i t Hit Hne. destruct (update_lookup i t Hit) as (u & Hu & E1 & -> & _).
    rewrite E1 in *. etransitivity; [apply (Hold (VBind (ID u))); [by apply (Hr i) | done]|].
    by apply (synced_bind d e Hsy i u).
  - intros i t Hit Hne. destruct (update_lookup i t Hit) as (u & Hu & E1 & _ & Hu').
    destruct (decide (i = k)) as [->|Hk].
    + cbn [d' set_slots slots] in Hit.
      rewrite list_lookup_insert_eq in Hit by by eapply lookup_lt_Some.
      injection Hit as <-. rewrite Hid in *. by apply Hnew.
    + rewrite (Hu' Hk) in *.
      etransitivity; [apply (f_equal u8), (Hold (VHeart (ID u))); [by apply (Hr i) |]|].
      * intros [= E2]. apply Hk. by apply (table_unique d Ht i k u s).
      * by apply (synced_heart d e Hsy i u).
Qed.
End Updating.

(** ** Restart *)

Section Restart.
Context {E : Type} `{Env E}.
Implicit Types (f : Flash E) (e : E).

(** The slot [LoadDevice2Memory] reads for index [i]. *)
Definition loaded e (i : Z) : Slot :=
  let id := stored e (VId i) in
  if id =? 0 then slot0
  else set_UploadFlag (u8 (stored e (VUpload id)))
         (set_Heart (u8 (stored e (VHeart id)))
            (set_Bind_ID (stored e (VBind id)) (set_ID id slot0))).

Lemma wp_key_value n v key (Q : Z -> Flash E -> Prop) f :
  (n, v) ∈ [(0, VId key); (1, VType key); (2, VBind key); (3, VHeart key); (4, VUpload key)] ->
  Q (stored (env f) v) f -> wp (Flash_Get_Key_Value n key) Q f.
Proof. intros Hin HQ. set_unfold in Hin. destruct_or!; simplify_eq; exact HQ. Qed.

(** One iteration of the loop. *)
Lemma wp_load_step {A} i (K : M (Flash E) A) Q d e :
  slots d !! i = Some slot0 ->
  wp K Q (mkFlash (set_slots (<[i := loaded e (Z.of_nat i)]> (slots d)) d) e) ->
  wp (do id <- Flash_Get_Key_Value 0 (Z.of_nat i);
      run set_slot (Z.of_nat i) (set_ID id);
      run (if id =? 0 then ret tt else
           do b <- Flash_Get_Key_Value 2 id;
           run set_slot (Z.of_nat i) (set_Bind_ID b);
           do h <- Flash_Get_Key_Value 3 id;
           run set_slot (Z.of_nat i) (set_Heart (u8 h));
           do u <- Flash_Get_Key_Value 4 id;
           set_slot (Z.of_nat i) (set_UploadFlag (u8 u)));
      K) Q (mkFlash d e).
Proof.
  intros Hs HQ. pose proof (lookup_lt_Some _ _ _ Hs) as Hlt.
  apply wp_bind, (wp_key_value _ (VId (Z.of_nat i))); [set_solver|].
  apply wp_bind, (wp_set_slot i slot0); [done|]. apply wp_bind.
  unfold loaded in HQ. cbn [env Global_Device]. cbv zeta in HQ.
  destruct (Z.eqb_spec (stored e (VId (Z.of_nat i))) 0) as [E1|E1].
  - apply wp_ret. rewrite E1. exact HQ.
  - set (id := stored e (VId (Z.of_nat i))) in *.
    apply wp_bind, (wp_key_value _ (VBind id)); [set_solver|].
    apply wp_bind, (wp_set_slot i (set_ID id slot0)); [by apply list_lookup_insert_eq|].
    apply wp_bind, (wp_key_value _ (VHeart id)); [set_solver|]. cbn [env Global_Device set_slots slots].
    rewrite list_insert_insert_eq. set (b := stored e (VBind id)) in *.
    apply wp_bind, (wp_set_slot i (set_Bind_ID b (set_ID id slot0)));
      [by apply list_lookup_insert_eq|].
    apply wp_bind, (wp_key_value _ (VUpload id)); [set_solver|]. cbn [env Global_Device set_slots slots].
    rewrite list_insert_insert_eq. set (h := stored e (VHeart id)) in *.
    apply (wp_set_slot i (set_Heart (u8 h) (set_Bind_ID b (set_ID id slot0))));
      [by apply list_lookup_insert_eq|].
    cbn [env Global_Device set_slots slots]. rewrite list_insert_insert_eq. exact HQ.
Qed.

Lemma load_loop_spec n : forall i d e,
  (forall j, (i <= j < i + n)%nat -> slots d !! j = Some slot0) ->
  exists l, load_loop n (Z.of_nat i) (mkFlash d e) = Some (tt, mkFlash (set_slots l d) e)
    /\ length l = length (slots d)
    /\ forall j, l !! j = if decide (i <= j < i + n)%nat then Some (loaded e (Z.of_nat j))
                          else slots d !! j.
Proof.
  induction n as [|n IH]; intros i d e Hz.
  - exists (slots d). split; [by destruct d|]. split; [done|]. intros j.
    by rewrite decide_False by lia.
  - assert (Hw : wp (load_loop (S n) (Z.of_nat i))
      (fun _ f => exists l, f = mkFlash (set_slots l d) e /\ length l = length (slots d)
        /\ forall j, l !! j = if decide (i <= j < i + S n)%nat then Some (loaded e (Z.of_nat j))
                              else slots d !! j) (mkFlash d e)).
    { cbn [load_loop]. apply wp_load_step; [apply Hz; lia|].
      destruct (IH (S i) (set_slots (<[i:=loaded e (Z.of_nat i)]> (slots d)) d) e)
        as (l & Hrun & Hlen & Hl).
      { intros j Hj. cbn. rewrite list_lookup_insert_ne by lia. apply Hz. lia. }
      unfold wp. replace (Z.of_nat i + 1) with (Z.of_nat (S i)) by lia. rewrite Hrun.
      exists l. split; [done|]. split; [rewrite Hlen; cbn; by rewrite length_insert|].
      intros j. rewrite Hl. cbn [set_slots slots].
      destruct (decide (j = i)) as [->|].
      - rewrite decide_False, decide_True by lia. apply list_lookup_insert_eq.
        eapply lookup_lt_Some, Hz. lia.
      - rewrite list_lookup_insert_ne by done.
        destruct (decide (S i <= j < S i + n)%nat), (decide (i <= j < i + S n)%nat); done || lia. }
    apply wp_Some in Hw as ([] & f & Hrun & l & -> & Hlen & Hl). by exists l.
Qed.

Lemma load_spec f d e :
  table_ok d -> synced d e -> env f = e ->
  exists l, LoadDevice2Memory f = Some (tt, mkFlash (mkDev (Num d) (MainNum d) l) e)
    /\ length l = 50%nat
    /\ (forall j, l !! j = if decide (1 <= Z.of_nat j <= Num d)
                           then Some (loaded e (Z.of_nat j)) else replicate 50 slot0 !! j).
Proof.
  intros Ht Hs <-. pose proof (table_num d Ht) as Hn. pose proof (table_main d Ht) as Hm.
  unfold MaxSupport, MainSupport in *.
  assert (E1 : u8 (read_value (env f) (str "Learn_Nums")) = Num d).
  { rewrite (synced_num d _ Hs). apply u8_small. unfold is_byte. lia. }
  assert (E2 : u8 (read_value (env f) (str "Main_Nums")) = MainNum d).
  { rewrite (synced_main d _ Hs). apply u8_small. unfold is_byte. lia. }
  assert (Hz : forall j, (1 <= j < 1 + Z.to_nat (Num d))%nat ->
                 slots (mkDev (Num d) (MainNum d) (replicate 50 slot0)) !! j = Some slot0).
  { intros j Hj. cbn [slots]. apply lookup_replicate_2. lia. }
  destruct (load_loop_spec (Z.to_nat (Num d)) 1 _ (env f) Hz) as (l & Hrun & Hlen & Hl).
  exists l. split; [|split].
  - unfold LoadDevice2Memory, Flash_Get_Learn_Nums, Flash_Get_Main_Nums.
    unfold bind, gets, on_dev, zoom, modify. cbn [Global_Device env].
    rewrite E1, E2. exact Hrun.
  - done.
  - intros j. rewrite Hl. cbn [slots].
    destruct (decide (1 <= j < 1 + Z.to_nat (Num d))%nat), (decide (1 <= Z.of_nat j <= Num d));
      done || lia.
Qed.

Lemma loaded_slot d e j s :
  table_ok d -> synced d e -> 1 <= Z.of_nat j <= Num d -> slots d !! j = Some s ->
  ID (loaded e (Z.of_nat j)) = ID s
  /\ (ID s <> 0 -> Bind_ID (loaded e (Z.of_nat j)) = Bind_ID s
                   /\ Heart (loaded e (Z.of_nat j)) = u8 (Heart s))
  /\ (ID s = 0 -> loaded e (Z.of_nat j) = slot0).
Proof.
  intros Ht Hs Hj Hsj. unfold loaded.
  assert (E1 : stored e (VId (Z.of_nat j)) = ID s) by (by apply (synced_id d e Hs)).
  rewrite E1. destruct (Z.eqb_spec (ID s) 0) as [E0|E0]; [by rewrite E0|].
  split; [done|]. split; [|done]. intros _. cbn. split.
  - by apply (synced_bind d e Hs j).
  - by apply (synced_heart d e Hs j).
Qed.

Lemma restart_slots d e l :
  table_ok d -> synced d e -> length l = 50%nat ->
  (forall j, l !! j = if decide (1 <= Z.of_nat j <= Num d)
                      then Some (loaded e (Z.of_nat j)) else replicate 50 slot0 !! j) ->
  forall j t, l !! j = Some t -> ID t <> 0 ->
    exists s, slots d !! j = Some s /\ 1 <= Z.of_nat j <= Num d /\ ID t = ID s
              /\ Bind_ID t = Bind_ID s /\ Heart t = u8 (Heart s).
Proof.
  intros Ht Hs Hlen Hl j t Hj Hne. rewrite Hl in Hj.
  destruct (decide (1 <= Z.of_nat j <= Num d)) as [Hr|Hr].
  - injection Hj as <-. pose proof (table_num d Ht). unfold MaxSupport in *.
    destruct (lookup_lt_is_Some_2 (slots d) j) as [s Hsj]; [rewrite (table_length d Ht); lia|].
    destruct (loaded_slot d e j s Ht Hs Hr Hsj) as (E1 & E2 & _). exists s.
    rewrite E1 in Hne. destruct (E2 Hne). done.
  - apply lookup_replicate in Hj as [-> _]. done.
Qed.

Lemma restart_bindings d e l :
  table_ok d -> synced d e -> length l = 50%nat ->
  (forall j, l !! j = if decide (1 <= Z.of_nat j <= Num d)
                      then Some (loaded e (Z.of_nat j)) else replicate 50 slot0 !! j) ->
  table_ok (mkDev (Num d) (MainNum d) l)
  /\ bindings (mkDev (Num d) (MainNum d) l) = bindings d.
Proof.
  intros Ht Hs Hlen Hl. pose proof (restart_slots d e l Ht Hs Hlen Hl) as Hback.
  assert (Ht' : table_ok (mkDev (Num d) (MainNum d) l)).
  { split; cbn [Num MainNum slots]; try apply Ht; [done|..].
    - intros i s Hi Hne. by destruct (Hback i s Hi Hne) as (? & ? & ? & _).
    - intros i j s t Hi Hj He Hne.
      destruct (Hback i s Hi Hne) as (s' & Hs' & _ & Es & _).
      destruct (Hback j t Hj ltac:(congruence)) as (t' & Ht0 & _ & Et & _).
      apply (table_unique d Ht i j s' t'); congruence.
    - intros i s Hi. destruct (decide (ID s = 0)) as [E0|E0].
      + rewrite Hl in Hi. destruct (decide (1 <= Z.of_nat i <= Num d)) as [Hr|].
        * injection Hi as <-. revert E0. unfold loaded.
          destruct (Z.eqb_spec (stored e (VId (Z.of_nat i))) 0); [cbn; lia|]. done.
        * apply lookup_replicate in Hi as [-> _]. cbn. lia.
      + destruct (Hback i s Hi E0) as (s' & Hs' & _ & -> & -> & _).
        by apply (table_range d Ht i s').
    - intros i s Hi E0. rewrite Hl in Hi. destruct (decide (1 <= Z.of_nat i <= Num d)) as [Hr|].
      + injection Hi as <-. revert E0. unfold loaded.
        by destruct (Z.eqb_spec (stored e (VId (Z.of_nat i))) 0).
      + by apply lookup_replicate in Hi as [-> _]. }
  split; [done|]. apply map_eq. intros x. apply option_eq. intros b.
  rewrite !bindings_lookup by done. cbn [slots]. split.
  - intros (i & t & Hi & <- & Hne & <-).
    destruct (Hback i t Hi Hne) as (s & Hsi & _ & Es & Eb & _). exists i, s. by rewrite Es, Eb in *.
  - intros (i & s & Hi & <- & Hne & <-). pose proof (table_used d Ht i s Hi Hne) as Hr.
    destruct (loaded_slot d e i s Ht Hs Hr Hi) as (E1 & E2 & _).
    exists i, (loaded e (Z.of_nat i)). rewrite Hl, decide_True by done.
    destruct (E2 Hne) as [-> _]. rewrite E1. done.
Qed.

(** The table that is loaded is again the one of the store. *)
Lemma reload_ok d e f :
  table_ok d -> synced d e -> env f = e ->
  wp LoadDevice2Memory (fun _ f' => flash_ok f' /\ env f' = e
    /\ bindings (Global_Device f') = bindings d) f.
Proof.
  intros Ht Hs He. destruct (load_spec f d e Ht Hs He) as (l & Hrun & Hlen & Hl).
  destruct (restart_bindings d e l Ht Hs Hlen Hl) as [Ht' Hb]. unfold wp. rewrite Hrun.
  split; [|done]. split; [done|]. pose proof (restart_slots d e l Ht Hs Hlen Hl) as Hback.
  split; cbn [Global_Device env Num MainNum slots]; try apply Hs.
  - intros i t Hi Hit. change (stored e (VId (Z.of_nat i)) = ID t).
    rewrite Hl, decide_True in Hit by done. injection Hit as <-. unfold loaded.
    by destruct (Z.eqb_spec (stored e (VId (Z.of_nat i))) 0).
  - intros i t Hit Hne. destruct (Hback i t Hit Hne) as (s & Hsi & _ & E1 & -> & _).
    rewrite E1 in *. by apply (synced_bind d e Hs i).
  - intros i t Hit Hne. destruct (Hback i t Hit Hne) as (s & Hsi & _ & E1 & _ & ->).
    rewrite E1, u8_idemp in *. by apply (synced_heart d e Hs i).
Qed.
End Restart.

(** ** Properties *)

Definition flash0 : Flash (gmap (list Z) (list Z)) := mkFlash dev0 ∅.

Lemma flash0_ok : flash_ok flash0.
Proof.
  split; [apply table_ok_dev0|]. split; try reflexivity.
  - intros i s Hi. cbn in Hi. lia.
  - intros i s Hs Hne. apply lookup_replicate in Hs as [-> _]. done.
  - intros i s Hs Hne. apply lookup_replicate in Hs as [-> _]. done.
Qed.

(** C9: a restart restores the table: from the store alone, whatever the memory
    holds, [LoadDevice2Memory] rebuilds the counts, the devices, the device each
    is bound to and the online state of each. *)
Theorem restart_restores {E} `{Env E} (f g : Flash E) :
  flash_ok f -> env g = env f ->
  exists d', LoadDevice2Memory g = Some (tt, mkFlash d' (env f))
    /\ table_ok d' /\ Num d' = Num (Global_Device f) /\ MainNum d' = MainNum (Global_Device f)
    /\ bindings d' = bindings (Global_Device f)
    /\ forall k s, slots (Global_Device f) !! k = Some s -> ID s <> 0 ->
         exists t, slots d' !! k = Some t /\ ID t = ID s /\ Heart t = u8 (Heart s).
Proof.
  intros [Ht Hs] Hg.
  destruct (load_spec g (Global_Device f) (env f) Ht Hs Hg) as (l & Hrun & Hlen & Hl).
  destruct (restart_bindings _ _ l Ht Hs Hlen Hl) as [Ht' Hb].
  eexists. split; [exact Hrun|]. do 4 (split; [done|]).
  intros k s Hk Hne. cbn [slots]. pose proof (table_used _ Ht k s Hk Hne) as Hr.
  exists (loaded (env f) (Z.of_nat k)). rewrite Hl, decide_True by done.
  destruct (loaded_slot _ _ k s Ht Hs Hr Hk) as (-> & E2 & _). by destruct (E2 Hne).
Qed.

Lemma restart_restores_witness :
  exists d', LoadDevice2Memory (mkFlash (set_Num 9 dev0) ∅)
             = Some (tt, mkFlash d' (env flash0)) /\ Num d' = 0.
Proof.
  destruct (restart_restores flash0 (mkFlash (set_Num 9 dev0) ∅) flash0_ok eq_refl)
    as (d' & Hrun & _ & Hn & _).
  exists d'. split; [exact Hrun | exact Hn].
Defined.

(** The three ways a device comes into the table. *)
Inductive new_device := NewMain (id : Z) | NewSlave (id bind : Z) | NewDoor (id bind : Z).

Definition add_device {E} `{Env E} (n : new_device) : M (Flash E) Z :=
  match n with
  | NewMain id => MainAdd_Flash id
  | NewSlave id b => SlaveAdd_Flash id b
  | NewDoor id b => DoorAdd_Flash id b
  end.

Definition new_id (n : new_device) : Z :=
  match n with NewMain id | NewSlave id _ | NewDoor id _ => id end.
Definition new_bind (n : new_device) : Z :=
  match n with NewMain _ => 0 | NewSlave _ b | NewDoor _ b => b end.
Definition is_main (n : new_device) : bool :=
  match n with NewMain _ => true | _ => false end.

Lemma pairs_full l :
  (forall i s, l !! i = Some s -> ID s <> 0) -> length (pairs l) = length l.
Proof.
  induction l as [|s l IH]; intros Hall; [done|]. unfold pairs; simpl.
  unfold pair_of at 1. rewrite (proj2 (Z.eqb_neq _ _)) by (by apply (Hall 0%nat)).
  simpl. f_equal. apply IH. intros i t Hi. by apply (Hall (S i)).
Qed.

Lemma full_size d : table_ok d -> table_full d -> size (bindings d) = 49%nat.
Proof.
  intros Ht Hf. unfold bindings. rewrite map_size_list_to_map by by apply pairs_NoDup.
  pose proof (table_length d Ht) as Hlen.
  destruct (slots d) as [|s l] eqn:El; [done|]. injection Hlen as Hlen.
  assert (H0 : ID s = 0).
  { destruct (Z.eq_dec (ID s) 0) as [|Hne]; [done|].
    pose proof (table_used d Ht 0 s ltac:(by rewrite El) Hne). lia. }
  unfold pairs; simpl. unfold pair_of at 1. rewrite H0. simpl. change (omap pair_of l) with (pairs l).
  rewrite pairs_full; [done|]. intros i t Hi.
  apply (Hf (S i) t); [|by rewrite El]. pose proof (lookup_lt_Some _ _ _ Hi). unfold MaxSupport. lia.
Qed.

(** C12: adding a device that is not in the table inserts it, with the device it
    is bound to, into the map the table stands for, keeps the stored copy in
    step and counts a main unit; it fails, and then changes nothing, exactly
    when the table holds 49 devices. *)
Theorem add_device_refines {E} `{Env E} n (f : Flash E) :
  flash_ok f -> 0 < new_id n < 2 ^ 32 -> 0 <= new_bind n < 2 ^ 32 ->
  bindings (Global_Device f) !! new_id n = None ->
  exists r f', add_device n f = Some (r, f') /\
    ((r = RT_ERROR /\ f' = f /\ size (bindings (Global_Device f)) = 49%nat)
     \/ (r = RT_EOK /\ flash_ok f'
         /\ bindings (Global_Device f') = <[new_id n := new_bind n]> (bindings (Global_Device f))
         /\ MainNum (Global_Device f') = (if is_main n then Z.min MainSupport (MainNum (Global_Device f) + 1)
                                          else MainNum (Global_Device f)))).
Proof.
  intros Hok Hid Hb Hnew.
  assert (Hw : wp (add_device n) (add_post (new_id n) (new_bind n) (is_main n) f) f).
  { destruct n; [by apply (add_main_spec f _ 0) | by apply add_slave_spec | by apply add_door_spec]. }
  apply wp_Some in Hw as (r & f' & Hrun & Hpost). exists r, f'. split; [done|].
  destruct Hpost as [(Hfull & -> & ->)|Hpost]; [left | by right].
  do 2 (split; [done|]). by apply full_size; [apply Hok|].
Qed.

Lemma add_device_refines_witness :
  exists r f', add_device (NewSlave 20000001 10000001) flash0 = Some (r, f')
    /\ ((r = RT_ERROR /\ f' = flash0 /\ size (bindings dev0) = 49%nat)
        \/ bindings (Global_Device f') = <[20000001 := 10000001]> (bindings dev0)).
Proof.
  destruct (add_device_refines (NewSlave 20000001 10000001) flash0 flash0_ok) as (r & f' & Hrun & Hp).
  - split; reflexivity.
  - split; [intros Hc; discriminate Hc | reflexivity].
  - reflexivity.
  - exists r, f'. split; [exact Hrun|].
    destruct Hp as [Hp|(_ & _ & Hp & _)]; [left; exact Hp | right; exact Hp].
Defined.

(** The lookups by id are lookups in the map the table stands for: a device
    is valid when it is in the map, [GetBindID] is the device it is bound to, 0
    when there is none; a field is read from the device's own slot. *)
Theorem lookups_refine {E} `{Env E} (f : Flash E) id :
  flash_ok f -> id <> 0 ->
  Flash_Get_Key_Valid id f
    = Some (match bindings (Global_Device f) !! id with Some _ => RT_EOK | None => RT_ERROR end, f)
  /\ GetBindID id f = Some (default 0 (bindings (Global_Device f) !! id), f)
  /\ forall field, exists v, get_field field id f = Some (v, f)
       /\ match bindings (Global_Device f) !! id with
          | None => v = 0
          | Some b => exists k s, index_of (Global_Device f) id k s /\ Bind_ID s = b /\ v = field s
          end.
Proof.
  intros [Ht Hs] Hid. set (m := bindings (Global_Device f)).
  split; [|split].
  - assert (Hw : wp (Flash_Get_Key_Valid id)
      (fun r f' => r = (match m !! id with Some _ => RT_EOK | None => RT_ERROR end) /\ f' = f) f).
    { unfold Flash_Get_Key_Valid. apply wp_bind, wp_find_id; [done..| |].
      - intros Hn. apply wp_ret. fold m in Hn. by rewrite Hn.
      - intros k s (Hk & _ & Hr) Hb. apply wp_ret. fold m in Hb. rewrite Hb.
        by rewrite (proj2 (Z.eqb_neq _ _)) by lia. }
    by apply wp_Some in Hw as (r & f' & -> & -> & ->).
  - assert (Hw : wp (GetBindID id) (fun r f' => r = default 0 (m !! id) /\ f' = f) f).
    { unfold GetBindID. apply wp_bind, wp_find_id; [done..| |].
      - intros Hn. fold m in Hn. by rewrite Hn.
      - intros k s (Hk & _ & Hr) Hb. fold m in Hb. rewrite Hb, (proj2 (Z.eqb_neq _ _)) by lia.
        by apply wp_bind, (wp_slot_at k s), wp_ret. }
    by apply wp_Some in Hw as (r & f' & -> & -> & ->).
  - intros field.
    assert (Hw : wp (get_field field id) (fun v f' => f' = f /\
      match m !! id with
      | None => v = 0
      | Some b => exists k s, index_of (Global_Device f) id k s /\ Bind_ID s = b /\ v = field s
      end) f).
    { unfold get_field. apply wp_bind, wp_find_id; [done..| |].
      - intros Hn. fold m in Hn. by rewrite Hn.
      - intros k s Hi Hb. pose proof Hi as (Hk & _ & Hr). fold m in Hb.
        rewrite Hb, (proj2 (Z.eqb_neq _ _)) by lia.
        apply wp_bind, (wp_slot_at k s), wp_ret; [done|]. split; [done|]. by exists k, s. }
    apply wp_Some in Hw as (v & f' & Hrun & -> & Hv). by exists v.
Qed.

Lemma lookups_refine_witness :
  Flash_Get_Key_Valid 20000001 flash0 = Some (RT_ERROR, flash0)
  /\ GetBindID 20000001 flash0 = Some (0, flash0).
Proof.
  destruct (lookups_refine flash0 20000001 flash0_ok) as (H1 & H2 & _);
    [discriminate|]. split; [exact H1 | exact H2].
Defined.

(** The validity check accepts the id 0 as soon as a deleted device has
    left a hole below [Num], so a packet from device 0 passes for a known one. *)
Theorem zero_id_accepted {E} `{Env E} (f : Flash E) k s :
  table_ok (Global_Device f) -> slots (Global_Device f) !! k = Some s -> ID s = 0 ->
  1 <= Z.of_nat k <= Num (Global_Device f) ->
  Flash_Get_Key_Valid 0 f = Some (RT_EOK, f).
Proof.
  intros Ht Hk H0 Hr. unfold Flash_Get_Key_Valid, find, bind, gets, lift_opt.
  set (d := Global_Device f) in *.
  assert (Hlt : (Z.to_nat (Num d) < length (slots d))%nat).
  { pose proof (table_num d Ht). rewrite (table_length d Ht). unfold MaxSupport in *. lia. }
  destruct (search_spec (fun s => ID s =? 0) _ _ Hlt) as (j & -> & Hle & Hno & Hyes).
  destruct (decide (j = 0%nat)) as [->|Hj].
  - specialize (Hno k s ltac:(lia) Hk). by rewrite H0 in Hno.
  - by rewrite (proj2 (Z.eqb_neq _ _)) by lia.
Qed.

Lemma zero_id_accepted_witness :
  Flash_Get_Key_Valid 0 (mkFlash (set_Num 1 dev0) (∅ : gmap (list Z) (list Z)))
  = Some (RT_EOK, mkFlash (set_Num 1 dev0) ∅).
Proof.
  apply (zero_id_accepted (mkFlash (set_Num 1 dev0) ∅) 1 slot0).
  - destruct table_ok_dev0 as [H1 H2 H3 H4 H5 H6 H7].
    split; [exact H1 | split; [intros Hc; discriminate Hc | reflexivity] | exact H3
           | | exact H5 | exact H6 | exact H7].
    intros i s Hi Hne. destruct (H4 i s Hi Hne) as [Ha Hb]. exfalso.
    apply lookup_replicate in Hi as [E1 _]. rewrite E1 in Hne. apply Hne. reflexivity.
  - reflexivity.
  - reflexivity.
  - split; intros Hc; discriminate Hc.
Defined.
