(* ===== verification/RadioQueue.v ===== *)
(** * The radio send queue

    [src/radio/Radio_Encoder.c]: the queue [Queue_433] that the rest of the
    program fills and the thread [RadioDequeue] drains, and the two text
    formats.  What is handed to [Normal_send] is recorded in [air]. *)

From Stdlib Require Import String.
From S2P Require Import Prelude CStr.
Open Scope list_scope.

(** The values at one index of the arrays of [Radio_Queue]. *)
Record Entry := mkEntry {
  Type_ : Z; Taget_Id : Z; Device_Id : Z; Counter : Z; Command : Z; Data : Z
}.

Record Radio := mkRadio {
  NowNum : Z;
  TargetNum : Z;
  entries : list Entry;
  Self_Id : Z;
  air : list (list Z);
  power_now : Z            (** [rf_433.axradio_power_now] *)
}.

Definition entry0 : Entry := mkEntry 0 0 0 0 0 0.
Definition Self_Default_Id : Z := 40000000.

Definition set_NowNum v r := mkRadio v (TargetNum r) (entries r) (Self_Id r) (air r) (power_now r).
Definition set_TargetNum v r := mkRadio (NowNum r) v (entries r) (Self_Id r) (air r) (power_now r).
Definition set_entries l r := mkRadio (NowNum r) (TargetNum r) l (Self_Id r) (air r) (power_now r).
Definition set_Self_Id v r := mkRadio (NowNum r) (TargetNum r) (entries r) v (air r) (power_now r).
Definition set_air a r := mkRadio (NowNum r) (TargetNum r) (entries r) (Self_Id r) a (power_now r).
Definition set_power v r := mkRadio (NowNum r) (TargetNum r) (entries r) (Self_Id r) (air r) v.


(** ** Sending *)

(** [Normal_send(&rf_433, buf, len)]: the first [len] bytes of [buf]. *)
Definition Normal_send (buf : list Z) (len : Z) : M Radio unit :=
  if zlen buf <? len then fault
  else modify (fun r => set_air (air r ++ [take (Z.to_nat len) buf]) r).

(** [ChangeMaxPower(&rf_433)] and [BackNormalPower(&rf_433)], as the program sees
    them; the registers they write are in Ax5043. *)
Definition max_power : M Radio unit := modify (fun r => if power_now r =? 0 then set_power 1 r else r).
Definition normal_power : M Radio unit := modify (fun r => if negb (power_now r =? 0) then set_power 0 r else r).

(** A block of 64 bytes that holds a text; the bytes after the text's zero are
    never read. *)
Definition text_block (text : list Z) : option (list Z) :=
  if zlen text + 1 <=? 64 then Some (text ++ replicate (64 - length text) 0) else None.

Definition hex_upper (v : Z) : Z := if v <? 10 then v + 48 else v - 10 + 65.

Definition radio_text (target self counter command data : Z) : list Z :=
  str "{" ++ fmt_0d 8 (s32 target) ++ str "," ++ fmt_0d 8 (s32 self) ++ str ","
  ++ fmt_0d 3 counter ++ str "," ++ fmt_0d 2 command ++ str "," ++ fmt_d data ++ str "}".

Definition sum28 (buf : list Z) : Z := fold_left (fun c b => u8 (c + b)) (take 28 buf) 0.

Definition RadioSend (target counter command data : Z) : M Radio unit :=
  let counter := if counter <? 255 then counter + 1 else 0 in
  do self <- gets Self_Id;
  do buf <- lift_opt (text_block (radio_text target self counter command data));
  let check := sum28 buf in
  do buf <- lift_opt (aset buf 28 (hex_upper (Z.shiftr check 4)));
  do buf <- lift_opt (aset buf 29 (hex_upper (Z.land check 15)));
  do buf <- lift_opt (aset buf 30 13);
  do buf <- lift_opt (aset buf 31 10);
  Normal_send buf 32.

Definition gateway_text (target self device rssi control value : Z) : list Z :=
  str "G{" ++ fmt_0d 8 (s32 target) ++ str "," ++ fmt_0d 8 (s32 self) ++ str ","
  ++ fmt_0d 8 (s32 device) ++ str "," ++ fmt_0d 3 rssi ++ str "," ++ fmt_0d 3 control ++ str ","
  ++ fmt_0d 2 value ++ str "}G".

Definition GatewayDataSend (target device rssi control value : Z) : M Radio unit :=
  do self <- gets Self_Id;
  do buf <- lift_opt (text_block (gateway_text target self device rssi control value));
  Normal_send buf 41.

Definition Start_Learn : M Radio unit := RadioSend 99999999 1 3 1.

(** ** The queue *)

Definition enqueue (e : Entry) : M Radio unit :=
  do r <- get;
  let NumTemp := TargetNum r in
  if NumTemp <? 30 then
    let NumTemp := NumTemp + 1 in
    run wr entries set_entries NumTemp e;
    modify (fun r => set_TargetNum (u8 (TargetNum r + 1)) r)
  else ret tt.

Definition GatewayDataEnqueue (target device rssi control value : Z) : M Radio unit :=
  enqueue (mkEntry 1 (u32 target) (u32 device) (u8 rssi) (u8 control) (u8 value)).

(** The entry's [Device_Id] keeps the value it had. *)
Definition RadioEnqueue (target counter command data : Z) : M Radio unit :=
  do r <- get;
  do old <- lift_opt (if TargetNum r <? 30 then aget (entries r) (TargetNum r + 1) else Some entry0);
  enqueue (mkEntry 0 (u32 target) (Device_Id old) (u8 counter) (u8 command) (u8 data)).

Definition send_entry (e : Entry) : M Radio unit :=
  if Type_ e =? 0 then RadioSend (Taget_Id e) (Counter e) (Command e) (Data e)
  else if Type_ e =? 1 then
    GatewayDataSend (Taget_Id e) (Device_Id e) (Counter e) (Command e) (Data e)
  else ret tt.

(** One turn of the loop of [RadioDequeue]; the delays are not modelled. *)
Definition RadioDequeue_step : M Radio unit :=
  do r <- get;
  if NowNum r =? TargetNum r then
    run modify (set_NowNum 0);
    modify (set_TargetNum 0)
  else if (0 <? TargetNum r) && (NowNum r <? TargetNum r) then
    let n := u8 (NowNum r + 1) in
    run modify (set_NowNum n);
    do e <- rd entries n;
    send_entry e
  else ret tt.

(** [RadioDequeueTaskInit]: the id is read from flash. *)
Definition load_Self_Id (word : Z) : M Radio unit :=
  let id := u32 word in
  modify (set_Self_Id (if (id =? 4294967295) || (id =? 0) then Self_Default_Id else id)).

(** ** The queue as a list *)

Definition queue_ok (r : Radio) : Prop :=
  length (entries r) = 50%nat /\ 0 <= NowNum r <= TargetNum r /\ TargetNum r <= 30.

Definition entry_ok (e : Entry) : Prop :=
  (Type_ e = 0 \/ Type_ e = 1) /\ 0 <= Taget_Id e < 2 ^ 32 /\ 0 <= Device_Id e < 2 ^ 32
  /\ is_byte (Counter e) /\ is_byte (Command e) /\ is_byte (Data e).

Definition waiting (r : Radio) : list Entry :=
  slice (entries r) (NowNum r + 1) (TargetNum r - NowNum r).

(** What [send_entry] transmits for an entry. *)
Definition radio_packet (self : Z) (e : Entry) : list Z :=
  if Type_ e =? 0 then
    let c := if Counter e <? 255 then Counter e + 1 else 0 in
    let t := take 28 (radio_text (Taget_Id e) self c (Command e) (Data e)) in
    let check := fold_left (fun c b => u8 (c + b)) t 0 in
    t ++ [hex_upper (Z.shiftr check 4); hex_upper (Z.land check 15); 13; 10]
  else take 41 (gateway_text (Taget_Id e) self (Device_Id e) (Counter e) (Command e) (Data e)).

Lemma slice_extend {A} (l : list A) i n x :
  0 <= i -> 0 <= n -> i + n < zlen l ->
  slice (<[Z.to_nat (i + n) := x]> l) i (n + 1) = slice l i n ++ [x].
Proof.
  intros. unfold slice, zlen in *. rewrite drop_insert_ge by lia.
  replace (Z.to_nat (i + n) - Z.to_nat i)%nat with (Z.to_nat n) by lia.
  replace (Z.to_nat (n + 1)) with (S (Z.to_nat n)) by lia.
  rewrite (take_S_r _ _ x).
  - by rewrite take_insert_ge by lia.
  - apply list_lookup_insert_eq. rewrite length_drop. lia.
Qed.

(** Enqueueing appends, unless [TargetNum] has reached 30. *)
Lemma wp_enqueue_at e (Q : unit -> Radio -> Prop) r :
  queue_ok r ->
  (30 <= TargetNum r -> Q tt r) ->
  (TargetNum r < 30 -> forall r', queue_ok r' ->
     entries r' = <[Z.to_nat (TargetNum r + 1) := e]> (entries r) -> waiting r' = waiting r ++ [e] ->
     air r' = air r -> Self_Id r' = Self_Id r -> NowNum r' = NowNum r ->
     TargetNum r' = TargetNum r + 1 -> Q tt r') ->
  wp (enqueue e) Q r.
Proof.
  intros (Hlen & Hn & Ht) Hfull Hroom. unfold enqueue, wp, bind, get.
  destruct (Z.ltb_spec (TargetNum r) 30) as [Hlt|Hge]; [|by apply Hfull].
  rewrite wr_ok by (unfold zlen; lia). cbn.
  specialize (Hroom Hlt). apply Hroom; try done.
  - unfold queue_ok; cbn. rewrite length_insert, u8_small by (unfold is_byte; lia). lia.
  - unfold waiting; cbn [set_TargetNum set_entries entries NowNum TargetNum].
    rewrite u8_small by (unfold is_byte; lia).
    replace (TargetNum r + 1) with (NowNum r + 1 + (TargetNum r - NowNum r)) at 1 by lia.
    replace (TargetNum r + 1 - NowNum r) with (TargetNum r - NowNum r + 1) by lia.
    apply slice_extend; unfold zlen; lia.
  - cbn. apply u8_small. unfold is_byte; lia.
Qed.

Lemma wp_enqueue e (Q : unit -> Radio -> Prop) r :
  queue_ok r ->
  (30 <= TargetNum r -> Q tt r) ->
  (TargetNum r < 30 -> forall r', queue_ok r' -> waiting r' = waiting r ++ [e] ->
     air r' = air r -> Self_Id r' = Self_Id r -> NowNum r' = NowNum r ->
     TargetNum r' = TargetNum r + 1 -> Q tt r') ->
  wp (enqueue e) Q r.
Proof.
  intros Hr Hfull Hroom. apply wp_enqueue_at; [done | done |]. intros Hlt r' Hr' _. by apply Hroom.
Qed.

(** The invariant of the queue in the running program: what is in its places can
    be sent. *)
Definition radio_ok (r : Radio) : Prop := queue_ok r /\ Forall entry_ok (entries r).

Lemma entry_ok_gateway t d r c v :
  entry_ok (mkEntry 1 (u32 t) (u32 d) (u8 r) (u8 c) (u8 v)).
Proof. split; [by right|]. split_and!; first [apply u32_range | apply u8_byte]. Qed.

Lemma wp_enqueue_ok e (Q : unit -> Radio -> Prop) r :
  radio_ok r -> entry_ok e ->
  (30 <= TargetNum r -> Q tt r) ->
  (TargetNum r < 30 -> forall r', radio_ok r' -> waiting r' = waiting r ++ [e] ->
     air r' = air r -> Self_Id r' = Self_Id r -> NowNum r' = NowNum r ->
     TargetNum r' = TargetNum r + 1 -> Q tt r') ->
  wp (enqueue e) Q r.
Proof.
  intros [Hr He] Hok Hfull Hroom. apply wp_enqueue_at; [done | done |].
  intros Hlt r' Hr' Hat. apply Hroom; [done|]. split; [done|]. rewrite Hat. by apply Forall_insert.
Qed.

(** ** Sending what was enqueued *)

Lemma radio_text_length target self c command data :
  is_byte c -> is_byte command -> is_byte data ->
  28 <= zlen (radio_text target self c command data) <= 37.
Proof.
  intros Hc Hco Hd. unfold radio_text.
  pose proof (fmt_0d_bounds 8 (s32 target) (s32_range _) ltac:(lia)).
  pose proof (fmt_0d_bounds 8 (s32 self) (s32_range _) ltac:(lia)).
  pose proof (fmt_0d_byte_bounds 3 c Hc ltac:(lia)).
  pose proof (fmt_0d_byte_bounds 2 command Hco ltac:(lia)).
  pose proof (fmt_d_byte_bounds data Hd).
  change (str "{") with [123]. change (str ",") with [44]. change (str "}") with [125].
  autorewrite with gw. lia.
Qed.

Lemma gateway_text_length target self device rssi control value :
  is_byte rssi -> is_byte control -> is_byte value ->
  41 <= zlen (gateway_text target self device rssi control value) <= 51.
Proof.
  intros Hr Hc Hv. unfold gateway_text.
  pose proof (fmt_0d_bounds 8 (s32 target) (s32_range _) ltac:(lia)).
  pose proof (fmt_0d_bounds 8 (s32 self) (s32_range _) ltac:(lia)).
  pose proof (fmt_0d_bounds 8 (s32 device) (s32_range _) ltac:(lia)).
  pose proof (fmt_0d_byte_bounds 3 rssi Hr ltac:(lia)).
  pose proof (fmt_0d_byte_bounds 3 control Hc ltac:(lia)).
  pose proof (fmt_0d_byte_bounds 2 value Hv ltac:(lia)).
  change (str "G{") with [71; 123]. change (str ",") with [44]. change (str "}G") with [125; 71].
  autorewrite with gw. lia.
Qed.

Lemma text_block_ok t : zlen t <= 63 ->
  text_block t = Some (t ++ replicate (64 - length t) 0)
  /\ zlen (t ++ replicate (64 - length t) 0) = 64.
Proof.
  intros Ht. unfold text_block. rewrite (proj2 (Z.leb_le _ _)) by lia. split; [done|].
  rewrite zlen_app. unfold zlen in *. rewrite length_replicate. lia.
Qed.

(** Overwriting four bytes from index 28 on. *)
Lemma tail_bytes (t : list Z) a b c d :
  (32 <= length t)%nat ->
  take 32 (<[31%nat := d]> (<[30%nat := c]> (<[29%nat := b]> (<[28%nat := a]> t))))
  = take 28 t ++ [a; b; c; d].
Proof.
  intros Ht. rewrite (take_S_r _ 31 d).
  2: { apply list_lookup_insert_eq. rewrite !length_insert. lia. }
  rewrite take_insert_ge by lia. rewrite (take_S_r _ 30 c).
  2: { apply list_lookup_insert_eq. rewrite !length_insert. lia. }
  rewrite take_insert_ge by lia. rewrite (take_S_r _ 29 b).
  2: { apply list_lookup_insert_eq. rewrite !length_insert. lia. }
  rewrite take_insert_ge by lia. rewrite (take_S_r _ 28 a).
  2: { apply list_lookup_insert_eq. lia. }
  rewrite take_insert_ge by lia. by rewrite <- !app_assoc.
Qed.

Lemma send_entry_spec e r :
  entry_ok e ->
  send_entry e r = Some (tt, set_air (air r ++ [radio_packet (Self_Id r) e]) r).
Proof.
  intros (Hty & Htg & Hdv & Hc & Hco & Hd). unfold send_entry, radio_packet.
  destruct Hty as [-> | ->]; cbn [Z.eqb Pos.eqb].
  - set (c := if Counter e <? 255 then Counter e + 1 else 0).
    assert (Hcb : is_byte c).
    { unfold c, is_byte in *. destruct (Z.ltb_spec (Counter e) 255); lia. }
    pose proof (radio_text_length (Taget_Id e) (Self_Id r) c (Command e) (Data e) Hcb Hco Hd) as Hl.
    unfold RadioSend. fold c. set (t := radio_text _ _ _ _ _) in *.
    destruct (text_block_ok t ltac:(lia)) as [Hb Hb64].
    unfold bind, gets, lift_opt. fold t. rewrite Hb.
    set (u := t ++ replicate (64 - length t) 0) in *.
    rewrite !aset_ok by (rewrite ?zlen_insert; lia).
    unfold Normal_send. rewrite !zlen_insert, Hb64. cbn [Z.ltb Z.compare Pos.compare Pos.compare_cont].
    unfold modify. change (Z.to_nat 28) with 28%nat. change (Z.to_nat 29) with 29%nat.
    change (Z.to_nat 30) with 30%nat. change (Z.to_nat 31) with 31%nat.
    change (Z.to_nat 32) with 32%nat.
    rewrite tail_bytes by (unfold zlen in Hb64; lia).
    assert (E : take 28 u = take 28 t) by (apply take_app_le; unfold zlen in Hl; lia).
    unfold sum28. rewrite E. done.
  - pose proof (gateway_text_length (Taget_Id e) (Self_Id r) (Device_Id e) (Counter e) (Command e)
                  (Data e) Hc Hco Hd) as Hl.
    unfold GatewayDataSend, bind, gets, lift_opt. set (t := gateway_text _ _ _ _ _ _) in *.
    destruct (text_block_ok t ltac:(lia)) as [Hb Hb64]. rewrite Hb.
    unfold Normal_send. rewrite Hb64. cbn [Z.ltb Z.compare Pos.compare Pos.compare_cont].
    unfold modify. change (Z.to_nat 41) with 41%nat.
    rewrite take_app_le by (unfold zlen in Hl; lia). done.
Qed.

(** ** One turn of the sending thread *)

Lemma waiting_nil r : queue_ok r -> NowNum r = TargetNum r -> waiting r = [].
Proof. intros _ E. unfold waiting. rewrite E, Z.sub_diag. done. Qed.

Lemma dequeue_spec r :
  queue_ok r -> Forall entry_ok (waiting r) ->
  exists r', RadioDequeue_step r = Some (tt, r') /\ queue_ok r' /\ Self_Id r' = Self_Id r
    /\ waiting r' = tail (waiting r)
    /\ air r' = air r ++ map (radio_packet (Self_Id r)) (take 1 (waiting r))
    /\ (waiting r = [] -> TargetNum r' = 0)
    /\ (waiting r <> [] -> TargetNum r' = TargetNum r).
Proof.
  intros Hok Hw. pose proof Hok as (Hlen & Hn & Ht). unfold RadioDequeue_step, bind, get.
  destruct (Z.eqb_spec (NowNum r) (TargetNum r)) as [E|E].
  - eexists. split; [reflexivity|]. rewrite (waiting_nil r Hok E). cbn.
    rewrite app_nil_r. repeat split; try done; cbn; lia.
  - rewrite (proj2 (Z.ltb_lt 0 _)), (proj2 (Z.ltb_lt (NowNum r) _)) by lia. cbn [andb].
    rewrite u8_small by (unfold is_byte; lia).
    destruct (aget_is_Some (entries r) (NowNum r + 1)) as [e He]; [unfold zlen; lia|].
    assert (Hwe : waiting r = e :: slice (entries r) (NowNum r + 2) (TargetNum r - NowNum r - 1)).
    { unfold waiting, slice. apply aget_Some in He as [_ He]. apply drop_S in He. rewrite He.
      replace (Z.to_nat (TargetNum r - NowNum r)) with (S (Z.to_nat (TargetNum r - NowNum r - 1))) by lia.
      cbn [take]. f_equal. f_equal. f_equal. lia. }
    rewrite Hwe in *. apply Forall_cons_1 in Hw as [He_ok Hw].
    cbn [modify]. unfold rd. cbn [set_NowNum entries]. rewrite He. cbn [lift_opt].
    rewrite send_entry_spec by done. eexists. split; [reflexivity|].
    cbn [set_NowNum set_air NowNum TargetNum entries Self_Id air waiting tail take map].
    split; [unfold queue_ok; cbn; lia|]. split; [done|]. split; [|done].
    unfold waiting; cbn. f_equal; lia.
Qed.

Lemma dequeue_ok r : radio_ok r -> wp RadioDequeue_step (fun _ r' => radio_ok r') r.
Proof.
  intros [(Hl & Hn & Ht) He]. unfold RadioDequeue_step. apply wp_bind. unfold wp at 1, get.
  destruct (Z.eqb_spec (NowNum r) (TargetNum r)) as [E|E].
  { apply wp_bind, wp_modify, wp_modify. split; [|done]. split_and!; cbn; [done | lia..]. }
  rewrite (proj2 (Z.ltb_lt 0 _)), (proj2 (Z.ltb_lt (NowNum r) _)) by lia. cbn [andb].
  rewrite u8_small by (unfold is_byte; lia). apply wp_bind, wp_modify.
  destruct (aget_is_Some (entries r) (NowNum r + 1)) as [e Hat]; [unfold zlen; lia|].
  pose proof Hat as Hat'. apply aget_Some in Hat' as [_ Hat'].
  apply wp_bind. unfold wp at 1, rd. cbn [set_NowNum entries]. rewrite Hat. cbn [lift_opt].
  unfold wp. rewrite send_entry_spec by (by apply (Forall_lookup_1 _ _ _ _ He Hat')).
  split; [|done]. split_and!; cbn; [done | lia..].
Qed.

(** ** Properties *)

Inductive radio_op := Enq (e : Entry) | Turn.

(** Producers and the sending thread, one call or one turn at a time. *)
Fixpoint run_radio (ops : list radio_op) : M Radio unit :=
  match ops with
  | [] => ret tt
  | Enq e :: ops' => run enqueue e; run_radio ops'
  | Turn :: ops' => run RadioDequeue_step; run_radio ops'
  end.

(** The specification: a queue, the number of entries accepted since it was last
    found empty, and what was sent. *)
Fixpoint run_spec (ops : list radio_op) (q : list Entry) (used : Z) (sent : list Entry)
  : list Entry * Z * list Entry :=
  match ops with
  | [] => (q, used, sent)
  | Enq e :: ops' => if used <? 30 then run_spec ops' (q ++ [e]) (used + 1) sent
                     else run_spec ops' q used sent
  | Turn :: ops' => match q with
                    | [] => run_spec ops' [] 0 sent
                    | e :: q' => run_spec ops' q' used (sent ++ [e])
                    end
  end.

Definition op_ok (o : radio_op) : Prop := match o with Enq e => entry_ok e | Turn => True end.

Lemma waiting_length r : queue_ok r -> zlen (waiting r) = TargetNum r - NowNum r.
Proof.
  intros (Hl & Hn & Ht). unfold waiting, slice, zlen in *. rewrite length_take, length_drop. lia.
Qed.

Lemma enqueue_cases e r :
  queue_ok r -> Forall entry_ok (waiting r) -> entry_ok e ->
  exists r1, enqueue e r = Some (tt, r1) /\ queue_ok r1 /\ Forall entry_ok (waiting r1)
    /\ Self_Id r1 = Self_Id r /\ air r1 = air r
    /\ ((TargetNum r <? 30) = true /\ waiting r1 = waiting r ++ [e] /\ TargetNum r1 = TargetNum r + 1
        \/ (TargetNum r <? 30) = false /\ r1 = r).
Proof.
  intros Hok Hw Ho.
  assert (Hwp : wp (enqueue e) (fun _ r1 => queue_ok r1 /\ Forall entry_ok (waiting r1)
    /\ Self_Id r1 = Self_Id r /\ air r1 = air r
    /\ ((TargetNum r <? 30) = true /\ waiting r1 = waiting r ++ [e] /\ TargetNum r1 = TargetNum r + 1
        \/ (TargetNum r <? 30) = false /\ r1 = r)) r).
  { apply wp_enqueue; [done | intros Hge | intros Hlt r1 H1 H2 H3 H4 _ H6].
    - do 4 (split; [done|]). right. by rewrite (proj2 (Z.ltb_ge _ _)).
    - split; [done|]. rewrite H2. split; [by apply Forall_app_2; [|constructor]|].
      do 2 (split; [done|]). left. by rewrite (proj2 (Z.ltb_lt _ _)). }
  apply wp_Some in Hwp as ([] & r1 & ? & ?). by exists r1.
Qed.

Lemma run_radio_refines ops : forall r sent,
  queue_ok r -> Forall entry_ok (waiting r) -> Forall op_ok ops ->
  exists r', run_radio ops r = Some (tt, r') /\ queue_ok r' /\ Forall entry_ok (waiting r')
    /\ Self_Id r' = Self_Id r
    /\ (let '(q, used, sent') := run_spec ops (waiting r) (TargetNum r) sent in
        waiting r' = q /\ TargetNum r' = used /\
        exists new, sent' = sent ++ new /\ air r' = air r ++ map (radio_packet (Self_Id r)) new).
Proof.
  induction ops as [|o ops IH]; intros r sent Hok Hw Hops; cbn [run_radio run_spec].
  { exists r. do 4 (split; [done|]). do 2 (split; [done|]). exists []. by rewrite !app_nil_r. }
  apply Forall_cons_1 in Hops as [Ho Hops]. destruct o as [e|].
  - pose proof (enqueue_cases e r Hok Hw Ho) as He.
    destruct He as (r1 & E1 & Hok1 & Hw1 & Hs1 & Ha1 & Hcase).
    destruct (IH r1 sent Hok1 Hw1 Hops) as (r' & E' & ? & ? & Hs' & Hspec).
    exists r'. rewrite (bind_Some _ _ _ _ _ E1). do 3 (split; [done|]). split; [congruence|].
    rewrite Hs1, Ha1 in Hspec.
    destruct Hcase as [(-> & Hw2 & Ht2)|[-> ->]]; [by rewrite Hw2, Ht2 in Hspec | done].
  - destruct (dequeue_spec r Hok Hw) as (r1 & E1 & Hok1 & Hs1 & Hw1 & Ha1 & Hz & Ht1).
    assert (Hwok : Forall entry_ok (waiting r1)).
    { rewrite Hw1. destruct (waiting r); [done|]. by apply Forall_cons_1 in Hw as [_ ?]. }
    destruct (waiting r) as [|e q] eqn:Eq.
    + destruct (IH r1 sent Hok1 Hwok Hops) as (r' & E' & ? & ? & Hs' & Hspec).
      exists r'. rewrite (bind_Some _ _ _ _ _ E1). do 3 (split; [done|]). split; [congruence|].
      rewrite Hw1, (Hz eq_refl), Hs1, Ha1 in Hspec. cbn [tail take map] in Hspec.
      by rewrite app_nil_r in Hspec.
    + destruct (IH r1 (sent ++ [e]) Hok1 Hwok Hops) as (r' & E' & ? & ? & Hs' & Hspec).
      exists r'. rewrite (bind_Some _ _ _ _ _ E1). do 3 (split; [done|]). split; [congruence|].
      rewrite Hw1, (Ht1 ltac:(done)), Hs1, Ha1 in Hspec. cbn [tail take map] in Hspec.
      destruct (run_spec ops q (TargetNum r) (sent ++ [e])) as [[q' used] sent'].
      destruct Hspec as (? & ? & new & -> & ->). do 2 (split; [done|]).
      exists (e :: new). by rewrite <- !app_assoc.
Qed.

Lemma max_power_ok r : radio_ok r -> wp max_power (fun _ r' => radio_ok r') r.
Proof. intros Hr. apply wp_modify. by destruct (power_now r =? 0). Qed.

Lemma normal_power_ok r : radio_ok r -> wp normal_power (fun _ r' => radio_ok r') r.
Proof. intros Hr. apply wp_modify. by destruct (power_now r =? 0). Qed.

Definition radio0 : Radio := mkRadio 0 0 (replicate 50 entry0) 40000000 [] 0.

Lemma radio0_ok : queue_ok radio0.
Proof. repeat split; done. Qed.

Lemma radio0_empty : radio_ok radio0.
Proof.
  split; [apply radio0_ok|]. apply Forall_replicate.
  split; [by left|]. by split_and!.
Qed.

(** C32: with any interleaving of producers and turns of the sending thread, the
    send queue is first-in first-out: every entry accepted is sent exactly once,
    as its text, in the order of acceptance; an entry is refused only when 30
    were accepted since the queue was last found empty. *)
Theorem radio_queue_fifo ops r :
  queue_ok r -> waiting r = [] -> TargetNum r = 0 -> Forall op_ok ops ->
  exists r' q used sent, run_radio ops r = Some (tt, r')
    /\ run_spec ops [] 0 [] = (q, used, sent)
    /\ waiting r' = q /\ air r' = air r ++ map (radio_packet (Self_Id r)) sent.
Proof.
  intros Hok Hw Ht Hops.
  destruct (run_radio_refines ops r [] Hok) as (r' & E & _ & _ & _ & Hspec); [by rewrite Hw | done|].
  rewrite Hw, Ht in Hspec. destruct (run_spec ops [] 0 []) as [[q used] sent].
  destruct Hspec as (? & _ & new & -> & ?). by exists r', q, used, new.
Qed.

Lemma radio_queue_fifo_witness :
  exists r' q used sent,
    run_radio [Enq (mkEntry 1 10000001 0 0 2 1); Turn; Turn] radio0 = Some (tt, r')
    /\ run_spec [Enq (mkEntry 1 10000001 0 0 2 1); Turn; Turn] [] 0 [] = (q, used, sent)
    /\ waiting r' = q /\ air r' = map (radio_packet 40000000) sent.
Proof.
  apply (radio_queue_fifo [Enq (mkEntry 1 10000001 0 0 2 1); Turn; Turn] radio0 radio0_ok).
  - reflexivity.
  - reflexivity.
  - repeat constructor; vm_compute; (reflexivity || (intros Hc; discriminate Hc) || (right; reflexivity)).
Defined.

(** Left alone, the sending thread empties the queue: after as many turns
    as entries wait, and one more, everything was sent and the queue accepts 30
    entries again. *)
Theorem radio_queue_drains r :
  queue_ok r -> Forall entry_ok (waiting r) ->
  exists r', run_radio (replicate (S (length (waiting r))) Turn) r = Some (tt, r')
    /\ waiting r' = [] /\ TargetNum r' = 0
    /\ air r' = air r ++ map (radio_packet (Self_Id r)) (waiting r).
Proof.
  intros Hok Hw.
  destruct (run_radio_refines (replicate (S (length (waiting r))) Turn) r [] Hok Hw)
    as (r' & E & _ & _ & _ & Hspec); [by apply Forall_replicate|].
  assert (Hs : forall q used sent, run_spec (replicate (S (length q)) Turn) q used sent = ([], 0, sent ++ q)).
  { induction q as [|e q IH]; intros used sent; [by rewrite app_nil_r|].
    change (run_spec (replicate (S (length (e :: q))) Turn) (e :: q) used sent)
      with (run_spec (replicate (S (length q)) Turn) q used (sent ++ [e])).
    rewrite IH. by rewrite <- app_assoc. }
  rewrite Hs in Hspec. destruct Hspec as (? & ? & new & Hnew & ?). simpl in Hnew. subst new.
  by exists r'.
Qed.

Lemma radio_queue_drains_witness :
  exists r', run_radio (replicate 1 Turn) radio0 = Some (tt, r') /\ TargetNum r' = 0.
Proof.
  destruct (radio_queue_drains radio0 radio0_ok ltac:(constructor)) as (r' & E & _ & Ht & _).
  exists r'. split; [exact E | exact Ht].
Defined.

(** The turn that finds the queue empty, cut where another thread can run: the
    comparison, then the two assignments. *)
Definition turn_compare : M Radio bool := gets (fun r => NowNum r =? TargetNum r).
Definition turn_reset : M Radio unit := run modify (set_NowNum 0); modify (set_TargetNum 0).

Lemma turn_of_parts r :
  NowNum r = TargetNum r ->
  RadioDequeue_step r = bind turn_compare (fun b => if b then turn_reset else ret tt) r.
Proof.
  intros E. unfold RadioDequeue_step, turn_compare, turn_reset, bind, get, gets.
  by rewrite E, Z.eqb_refl.
Qed.

(** The reset of the two counters is not protected: an entry that a thread
    of higher priority enqueues between the comparison and the assignments is
    accepted and never sent. *)
Theorem preempted_reset_loses e r :
  queue_ok r -> NowNum r = TargetNum r -> TargetNum r < 30 ->
  exists r1 r2, turn_compare r = Some (true, r)
    /\ enqueue e r = Some (tt, r1) /\ waiting r1 = [e]
    /\ turn_reset r1 = Some (tt, r2) /\ waiting r2 = [] /\ air r2 = air r.
Proof.
  intros Hok E Hlt.
  assert (Hwp : wp (enqueue e) (fun _ r1 => waiting r1 = waiting r ++ [e] /\ air r1 = air r) r).
  { apply wp_enqueue; [done | lia | done]. }
  apply wp_Some in Hwp as ([] & r1 & E1 & Hw1 & Ha1).
  exists r1, (set_TargetNum 0 (set_NowNum 0 r1)).
  split; [unfold turn_compare, gets; by rewrite E, Z.eqb_refl|].
  split; [done|]. split; [by rewrite Hw1, waiting_nil|]. done.
Qed.

Lemma preempted_reset_loses_witness :
  exists r1 r2, enqueue entry0 radio0 = Some (tt, r1) /\ waiting r1 = [entry0]
    /\ turn_reset r1 = Some (tt, r2) /\ waiting r2 = [].
Proof.
  destruct (preempted_reset_loses entry0 radio0 radio0_ok eq_refl ltac:(reflexivity))
    as (r1 & r2 & _ & E1 & Hw1 & E2 & Hw2 & _).
  exists r1, r2. split; [exact E1|]. split; [exact Hw1|]. split; [exact E2 | exact Hw2].
Defined.
