(* ===== verification/Led.v ===== *)
(** * The indicators

    [src/applications/led.c].  What it asks of the driver [agile_led] is a list of
    calls; [led_after] is what the indicators then show.  The driver itself is in
    Agile. *)

From Stdlib Require Import String.
From S2P Require Import Prelude.
Open Scope list_scope.

Inductive led := RF_G | RF_R | WIFI_R | WIFI_B | beep | beep_k.

#[export] Instance led_eq_dec : EqDecision led.
Proof. solve_decision. Defined.

(** The calls to [agile_led_stop], [agile_led_set_light_mode],
    [agile_led_start] and [agile_led_set_compelete_callback]; the one callback
    the program installs is [rf_led_resume]. *)
Inductive led_call :=
| Stop (l : led)
| Light (l : led) (mode : string) (loops : Z)
| Start (l : led)
| Callback (l : led) (resume : bool).

Definition Leds := list led_call.

Definition led_do (c : led_call) : M Leds unit := modify (fun l => l ++ [c]).

Fixpoint led_all (cs : list led_call) : M Leds unit :=
  match cs with
  | [] => ret tt
  | c :: cs' => run led_do c; led_all cs'
  end.

(** [led_Init]: the modes the leds are created with. *)
Definition led_Init : M Leds unit :=
  led_all [Light RF_G "200,200" (-1); Light RF_R "200,200" (-1); Light WIFI_R "200,200" (-1);
           Light WIFI_B "200,200" (-1); Light beep "200,200" (-1); Light beep_k "100,100" 1].

Definition beep_start (count : Z) : M Leds unit :=
  led_all [Stop beep; Light beep "200,200" (u8 count); Start beep].
Definition beep_power (count : Z) : M Leds unit :=
  led_all [Stop beep; Light beep "400,400" (u8 count); Start beep].
Definition beep_kick : M Leds unit := led_do (Start beep_k).

Definition wifi_led (type : Z) : M Leds unit :=
  if type =? 0 then led_all [Stop WIFI_R; Stop WIFI_B]
  else if type =? 1 then led_all [Stop WIFI_B; Light WIFI_R "1000,1000" (-1); Start WIFI_R]
  else if type =? 2 then led_all [Stop WIFI_B; Light WIFI_R "150,150" (-1); Start WIFI_R]
  else if type =? 3 then led_all [Stop WIFI_R; Light WIFI_B "150,150" (-1); Start WIFI_B]
  else if type =? 4 then led_all [Stop WIFI_R; Light WIFI_B "200,0" (-1); Start WIFI_B]
  else ret tt.

Definition wifi_led_factory (type : Z) : M Leds unit :=
  if type =? 0 then led_all [Stop WIFI_R; Stop WIFI_B]
  else if type =? 1 then led_all [Stop WIFI_B; Light WIFI_R "200,0" (-1); Start WIFI_R]
  else if type =? 2 then
    led_all [Light WIFI_B "200,200,0,200" (-1); Start WIFI_B;
             Light WIFI_R "0,200,200,200" (-1); Start WIFI_R]
  else if type =? 3 then led_all [Stop WIFI_R; Light WIFI_B "200,0" (-1); Start WIFI_B]
  else ret tt.

Definition resume_calls : list led_call := [Callback RF_G false; Light RF_G "200,0" (-1); Start RF_G].
Definition rf_led_resume : M Leds unit := led_all resume_calls.

Definition rf_blink : list led_call :=
  [Stop RF_R; Light RF_G "10,100" 1; Callback RF_G true; Start RF_G].

Definition rf_led (type : Z) : M Leds unit :=
  if type =? 0 then led_all [Stop RF_G; Light RF_R "200,0" (-1); Start RF_R]
  else if type =? 1 then led_all [Stop RF_R; Light RF_G "200,0" (-1); Start RF_G]
  else if type =? 2 then led_all rf_blink
  else if type =? 3 then led_all rf_blink
  else ret tt.

Definition rf_led_factory (type : Z) : M Leds unit :=
  if type =? 0 then led_all [Stop RF_G; Light RF_R "200,0" (-1); Start RF_R]
  else if type =? 1 then led_all [Stop RF_R; Light RF_G "200,0" (-1); Start RF_G]
  else if type =? 2 then led_all rf_blink
  else ret tt.

Definition learn_success : M Leds unit := led_all [Light beep "200,200" 5; Start beep].
Definition learn_fail : M Leds unit := led_all [Light beep "50,50,200,200" 3; Start beep].

Definition led_test : M Leds unit :=
  led_all [Light RF_R "0,600,1200,600" 1; Light RF_G "600,600,600,600" 1;
           Light WIFI_R "0,600,1200,600" 1; Light WIFI_B "600,600,600,600" 1;
           Start RF_R; Start RF_G; Start WIFI_R; Start WIFI_B].
Definition beep_test : M Leds unit := led_all [Light beep "200,400" 4; Start beep].

(** ** What an indicator shows *)

(** The mode and the number of loops set last, and whether the led runs. *)
Definition led_step (l : led) (s : option (string * Z) * bool) (c : led_call) : option (string * Z) * bool :=
  match c with
  | Stop k => if decide (k = l) then (fst s, false) else s
  | Light k mode n => if decide (k = l) then (Some (mode, n), snd s) else s
  | Start k => if decide (k = l) then (fst s, true) else s
  | Callback _ _ => s
  end.

Definition led_after (calls : Leds) (l : led) : option (string * Z) * bool :=
  fold_left (led_step l) calls (None, false).

Lemma led_all_spec cs l : led_all cs l = Some (tt, l ++ cs).
Proof.
  revert l; induction cs as [|c cs IH]; intros l; cbn [led_all]; [by rewrite app_nil_r|].
  unfold bind, led_do, modify. by rewrite IH, <- app_assoc.
Qed.

Lemma led_after_app cs l calls :
  led_after (calls ++ cs) l = fold_left (led_step l) cs (led_after calls l).
Proof. unfold led_after. by rewrite fold_left_app. Qed.

(** Any call to the indicators succeeds and appends. *)
Definition led_appends (m : M Leds unit) : Prop := forall l, exists cs, m l = Some (tt, l ++ cs).

Lemma led_all_appends cs : led_appends (led_all cs).
Proof. intros l. exists cs. apply led_all_spec. Qed.

Lemma led_ret_appends : led_appends (ret tt).
Proof. intros l. exists []. by rewrite app_nil_r. Qed.

#[export] Hint Resolve led_all_appends led_ret_appends : gw.

Lemma rf_led_appends n : led_appends (rf_led n).
Proof. unfold rf_led. repeat case_match; auto with gw. Qed.
Lemma rf_led_factory_appends n : led_appends (rf_led_factory n).
Proof. unfold rf_led_factory. repeat case_match; auto with gw. Qed.
Lemma wifi_led_appends n : led_appends (wifi_led n).
Proof. unfold wifi_led. repeat case_match; auto with gw. Qed.
#[export] Hint Resolve rf_led_appends rf_led_factory_appends wifi_led_appends : gw.

(** In the four states of the network link exactly one of the two network
    leds runs, each state with its own led and rhythm, whatever was shown
    before. *)
Theorem wifi_led_shows n calls :
  1 <= n <= 4 ->
  exists calls', wifi_led n calls = Some (tt, calls')
    /\ let on := if n <? 3 then WIFI_R else WIFI_B in
       let off := if n <? 3 then WIFI_B else WIFI_R in
       snd (led_after calls' on) = true /\ snd (led_after calls' off) = false
       /\ fst (led_after calls' on) =
          Some (if n =? 1 then "1000,1000"%string else if n =? 4 then "200,0"%string
                else "150,150"%string, -1).
Proof.
  intros Hn. assert (n = 1 \/ n = 2 \/ n = 3 \/ n = 4) as [-> | [-> | [-> | ->]]] by lia;
    (eexists; split; [apply led_all_spec|]); cbv zeta; rewrite !led_after_app;
    cbn [Z.ltb Z.compare Pos.compare Pos.compare_cont Z.eqb Pos.eqb fold_left led_step];
    repeat (rewrite decide_True by done || rewrite decide_False by done); done.
Qed.

Lemma wifi_led_shows_witness :
  exists calls', wifi_led 4 [] = Some (tt, calls') /\ snd (led_after calls' WIFI_B) = true.
Proof.
  destruct (wifi_led_shows 4 []) as (c & E & H & _); [split; discriminate|].
  exists c. split; [exact E | exact H].
Defined.
