(* ===== verification/Agile.v ===== *)
(** * The driver of the indicators

    [src/packages/agile_led-latest/src/agile_led.c]: the objects of the leds, the list
    of those that run, and the turn of the thread that plays their patterns.  An
    object is known by the handle of [led.c] that points to it; the pins are outputs,
    each write kept with its tick.  The lock is a recursive mutex: a function is one
    step.  The tick does not change within a turn. *)

From Stdlib Require Import String.
From S2P Require Import Prelude CStr Led.
Open Scope list_scope.

Definition RT_TICK_MAX : Z := 4294967295.
Definition RT_TICK_PER_SECOND : Z := 1000.

Definition rt_tick_from_millisecond (ms : Z) : Z :=
  if ms <? 0 then 4294967295
  else u32 (u32 (RT_TICK_PER_SECOND * (ms / 1000)) + u32 ((RT_TICK_PER_SECOND * (ms mod 1000) + 999) / 1000)).

(** ** State *)

(** The functions [compelete] points to in this program. *)
Inductive callback := default_compelete | resume_compelete.

Record agile_led_t := mkAgile {
  active : bool; pin : Z; active_logic : Z; now_logic : Z; save_logic : Z;
  light_arr : option (list Z); arr_num : Z; arr_index : Z; loop_init : Z; loop_cnt : Z;
  tick_timeout : Z; compelete : option callback; pin_backup : Z
}.

Record pin_write := mkWrite { at_tick : Z; at_pin : Z; level : Z }.

Record Panel := mkPanel {
  is_initialized : bool; objs : led -> option agile_led_t; agile_led_list : list led;
  rt_tick : Z; writes : list pin_write
}.

Definition put_active v o := mkAgile v (pin o) (active_logic o) (now_logic o) (save_logic o) (light_arr o) (arr_num o) (arr_index o) (loop_init o) (loop_cnt o) (tick_timeout o) (compelete o) (pin_backup o).
Definition put_pin v o := mkAgile (active o) v (active_logic o) (now_logic o) (save_logic o) (light_arr o) (arr_num o) (arr_index o) (loop_init o) (loop_cnt o) (tick_timeout o) (compelete o) (pin_backup o).
Definition put_now_logic v o := mkAgile (active o) (pin o) (active_logic o) v (save_logic o) (light_arr o) (arr_num o) (arr_index o) (loop_init o) (loop_cnt o) (tick_timeout o) (compelete o) (pin_backup o).
Definition put_save_logic v o := mkAgile (active o) (pin o) (active_logic o) (now_logic o) v (light_arr o) (arr_num o) (arr_index o) (loop_init o) (loop_cnt o) (tick_timeout o) (compelete o) (pin_backup o).
Definition put_light v n o := mkAgile (active o) (pin o) (active_logic o) (now_logic o) (save_logic o) v n (arr_index o) (loop_init o) (loop_cnt o) (tick_timeout o) (compelete o) (pin_backup o).
Definition put_arr_index v o := mkAgile (active o) (pin o) (active_logic o) (now_logic o) (save_logic o) (light_arr o) (arr_num o) v (loop_init o) (loop_cnt o) (tick_timeout o) (compelete o) (pin_backup o).
Definition put_loop_init v o := mkAgile (active o) (pin o) (active_logic o) (now_logic o) (save_logic o) (light_arr o) (arr_num o) (arr_index o) v (loop_cnt o) (tick_timeout o) (compelete o) (pin_backup o).
Definition put_loop_cnt v o := mkAgile (active o) (pin o) (active_logic o) (now_logic o) (save_logic o) (light_arr o) (arr_num o) (arr_index o) (loop_init o) v (tick_timeout o) (compelete o) (pin_backup o).
Definition put_tick_timeout v o := mkAgile (active o) (pin o) (active_logic o) (now_logic o) (save_logic o) (light_arr o) (arr_num o) (arr_index o) (loop_init o) (loop_cnt o) v (compelete o) (pin_backup o).
Definition put_compelete v o := mkAgile (active o) (pin o) (active_logic o) (now_logic o) (save_logic o) (light_arr o) (arr_num o) (arr_index o) (loop_init o) (loop_cnt o) (tick_timeout o) v (pin_backup o).
Definition put_pin_backup v o := mkAgile (active o) (pin o) (active_logic o) (now_logic o) (save_logic o) (light_arr o) (arr_num o) (arr_index o) (loop_init o) (loop_cnt o) (tick_timeout o) (compelete o) v.

(** Back to the first entry, now. *)
Definition rewind (t : Z) (o : agile_led_t) : agile_led_t := put_tick_timeout t (put_loop_cnt (loop_init o) (put_arr_index 0 o)).

Definition put_obj (l : led) (o : option agile_led_t) (p : Panel) : Panel :=
  mkPanel (is_initialized p) (fun k => if decide (k = l) then o else objs p k) (agile_led_list p) (rt_tick p) (writes p).
Definition put_list (v : list led) (p : Panel) : Panel := mkPanel (is_initialized p) (objs p) v (rt_tick p) (writes p).
Definition put_tick (v : Z) (p : Panel) : Panel := mkPanel (is_initialized p) (objs p) (agile_led_list p) v (writes p).
Definition put_writes (v : list pin_write) (p : Panel) : Panel := mkPanel (is_initialized p) (objs p) (agile_led_list p) (rt_tick p) v.

Abbreviation PM := (M Panel).

Definition led_obj (l : led) : PM agile_led_t := do p <- get; lift_opt (objs p l).
Definition led_set (l : led) (f : agile_led_t -> agile_led_t) : PM unit :=
  do o <- led_obj l; modify (put_obj l (Some (f o))).
Definition rt_tick_get : PM Z := gets rt_tick.
Definition rt_pin_write (p v : Z) : PM unit := modify (fun s => put_writes (writes s ++ [mkWrite (rt_tick s) p v]) s).

(** [!logic] of C. *)
Definition lnot (v : Z) : Z := if v =? 0 then 1 else 0.

(** [rt_slist_append] and [rt_slist_remove] on the list of the leds that run. *)
Definition rt_slist_append (l : led) : PM unit := modify (fun p => put_list (agile_led_list p ++ [l]) p).
Fixpoint remove_first (l : led) (ls : list led) : list led :=
  match ls with [] => [] | k :: ls' => if decide (k = l) then ls' else k :: remove_first l ls' end.
Definition rt_slist_remove (l : led) : PM unit := modify (fun p => put_list (remove_first l (agile_led_list p)) p).

(** ** Patterns *)

Definition commas (s : list Z) : Z := zlen (filter (fun c => c = 44) s).

(** [strchr(ptr, ',')], one further. *)
Fixpoint next_field (s : list Z) : option (list Z) :=
  match s with [] => None | c :: s' => if c =? 44 then Some s' else next_field s' end.

Fixpoint fields (n : nat) (ptr : option (list Z)) : option (list Z) :=
  match n with
  | O => Some []
  | S k => match ptr with
           | Some s => option_map (cons (u32 (atol s))) (fields k (next_field s))
           | None => None
           end
  end.

Section Agile.
Context (rt_malloc : Z -> bool).

(** The result and the object; reading before an empty string is a fault, as is a
    failed assertion. *)
Definition agile_led_get_light_arr (light_mode : list Z) (o : agile_led_t) : option (bool * agile_led_t) :=
  match light_arr o with Some _ => None | None =>
    if negb (arr_num o =? 0) then None else
    match last light_mode with
    | None => None
    | Some c =>
        let n := if c =? 44 then commas light_mode else commas light_mode + 1 in
        let o := put_light None n o in
        if n =? 0 then Some (false, o) else
        if negb (rt_malloc (n * 4)) then Some (false, o) else
        match fields (Z.to_nat n) (Some light_mode) with
        | Some arr => Some (true, put_light (Some arr) n o)
        | None => None
        end
    end
  end.

(** ** Operations *)

Definition agile_led_on (l : led) : PM unit :=
  run led_set l (fun o => put_now_logic (active_logic o) o);
  do o <- led_obj l; rt_pin_write (pin o) (active_logic o).

Definition agile_led_off (l : led) : PM unit :=
  run led_set l (fun o => put_now_logic (lnot (active_logic o)) o);
  do o <- led_obj l; rt_pin_write (pin o) (lnot (active_logic o)).

(** Whether an object was made; fields the code leaves unset are 0. *)
Definition agile_led_create (l : led) (p active_logic : Z) (light_mode : option (list Z)) (loop_cnt : Z) : PM bool :=
  do ok <- gets is_initialized;
  if negb ok then ret false else
  if negb (rt_malloc 56) then ret false else
  let o := mkAgile false p active_logic 0 0 None 0 0 0 0 0 None 0 in
  do r <- lift_opt (match light_mode with
                    | Some s => agile_led_get_light_arr s o
                    | None => Some (true, o)
                    end);
  let '(ok, o) := r in
  if negb ok then ret false else
  do t <- rt_tick_get;
  run modify (put_obj l (Some (put_compelete (Some default_compelete) (put_tick_timeout t (put_loop_cnt loop_cnt (put_loop_init loop_cnt o))))));
  run rt_pin_write p (lnot active_logic);
  ret true.

Definition agile_led_delete (l : led) : PM unit :=
  run rt_slist_remove l;
  modify (put_obj l None).

Definition agile_led_start (l : led) : PM bool :=
  do o <- led_obj l;
  if active o then ret false else
  if match light_arr o with None => true | Some _ => arr_num o =? 0 end then ret false else
  do t <- rt_tick_get;
  run led_set l (rewind t);
  run rt_slist_append l;
  run led_set l (put_active true);
  ret true.

Definition agile_led_stop (l : led) : PM unit :=
  do o <- led_obj l;
  if negb (active o) then ret tt else
  run rt_slist_remove l;
  run led_set l (put_active false);
  rt_pin_write (pin o) (lnot (active_logic o)).

Definition agile_led_pause (l : led) : PM unit :=
  led_set l (fun o => put_save_logic (now_logic o) (put_pin 0 (put_pin_backup (pin o) o))).

Definition agile_led_resume (l : led) : PM unit :=
  run led_set l (fun o => put_pin (pin_backup o) o);
  do o <- led_obj l;
  if save_logic o =? active_logic o then agile_led_on l else agile_led_off l.

Definition agile_led_set_light_mode (l : led) (light_mode : option (list Z)) (loop_cnt : Z) : PM bool :=
  do o <- led_obj l;
  do ok <- match light_mode with
           | Some s =>
               do r <- lift_opt (agile_led_get_light_arr s (put_light None 0 o));
               run led_set l (fun _ => snd r); ret (fst r)
           | None => ret true
           end;
  if negb ok then run agile_led_stop l; ret false else
  do t <- rt_tick_get;
  run led_set l (fun o => rewind t (put_loop_init loop_cnt o));
  ret true.

Definition agile_led_set_compelete_callback (l : led) (cb : option callback) : PM unit :=
  led_set l (put_compelete cb).

(** ** The calls of [led.c] *)

Definition do_call (c : led_call) : PM unit :=
  match c with
  | Stop l => agile_led_stop l
  | Light l mode loops => run agile_led_set_light_mode l (Some (str mode)) loops; ret tt
  | Start l => run agile_led_start l; ret tt
  | Callback l resume => agile_led_set_compelete_callback l (if resume : bool then Some resume_compelete else None)
  end.

Fixpoint do_calls (cs : list led_call) : PM unit :=
  match cs with [] => ret tt | c :: cs' => run do_call c; do_calls cs' end.

Definition run_callback (cb : option callback) : PM unit :=
  match cb with Some resume_compelete => do_calls resume_calls | _ => ret tt end.

(** ** The thread *)

(** What one led does in a turn, from [__repeat] on; an entry of 0 is passed over. *)
Fixpoint play (n : nat) (l : led) : PM unit :=
  do o <- led_obj l;
  do t <- rt_tick_get;
  if u32 (t - tick_timeout o) <? RT_TICK_MAX / 2 then
    if arr_index o <? arr_num o then
      do a <- lift_opt (match light_arr o with Some arr => aget arr (arr_index o) | None => None end);
      if a =? 0 then
        match n with
        | O => fault
        | S k => run led_set l (put_arr_index (u32 (arr_index o + 1))); play k l
        end
      else
        run (if arr_index o mod 2 =? 0 then agile_led_on l else agile_led_off l);
        led_set l (fun o => put_arr_index (u32 (arr_index o + 1)) (put_tick_timeout (u32 (t + rt_tick_from_millisecond (s32 a))) o))
    else
      led_set l (fun o => put_arr_index 0 (if 0 <? loop_cnt o then put_loop_cnt (loop_cnt o - 1) o else o))
  else ret tt.

(** The walk along the list; it begins again when a led was stopped. *)
Fixpoint walk (fuel : nat) (todo : list led) : PM unit :=
  match todo with
  | [] => ret tt
  | l :: rest =>
      match fuel with
      | O => fault
      | S k =>
          do o <- led_obj l;
          if loop_cnt o =? 0 then
            run agile_led_stop l;
            run run_callback (compelete o);
            do todo <- gets agile_led_list; walk k todo
          else run play (Z.to_nat (arr_num o)) l; walk k rest
      end
  end.

(** A turn: six leds, and each begins the walk again at most once. *)
Definition WALK_FUEL : nat := 64.
Definition led_process_turn : PM unit := do todo <- gets agile_led_list; walk WALK_FUEL todo.
End Agile.

(** ** Start *)

Definition agile_led_init (mutex_made thread_made : bool) : PM bool :=
  if negb mutex_made then ret false else
  if negb thread_made then ret false else
  run modify (fun p => mkPanel true (objs p) (agile_led_list p) (rt_tick p) (writes p)); ret true.

Definition PIN_LOW : Z := 0.
Definition PIN_HIGH : Z := 1.

(** [led_Init] of [led.c]; the pins are board settings. *)
Section Init.
Context (rt_malloc : Z -> bool) (LED1_PIN LED2_PIN LED3_PIN LED4_PIN BUZZER_PIN : Z).

Definition unless_made (l : led) (m : PM unit) : PM unit :=
  do o <- gets (fun p => objs p l); match o with None => m | Some _ => ret tt end.
Definition make (l : led) (p logic : Z) (mode : string) (loops : Z) : PM unit :=
  run agile_led_create rt_malloc l p logic (Some (str mode)) loops; ret tt.

Definition led_objects : PM unit :=
  run unless_made RF_G (make RF_G LED1_PIN PIN_LOW "200,200" (-1));
  run unless_made RF_R (make RF_R LED2_PIN PIN_LOW "200,200" (-1));
  run unless_made WIFI_R (make WIFI_R LED3_PIN PIN_LOW "200,200" (-1));
  run unless_made WIFI_B (make WIFI_B LED4_PIN PIN_LOW "200,200" (-1));
  unless_made beep (run make beep BUZZER_PIN PIN_HIGH "200,200" (-1); make beep_k BUZZER_PIN PIN_HIGH "100,100" 1).
End Init.

(** Nothing made yet. *)
Definition no_leds (t : Z) : Panel := mkPanel false (fun _ => None) [] t [].

(** The led part of the start, then what the program does. *)
Inductive panel_act := Calls (cs : list led_call) | Turn (t : Z).

Definition panel_do (rt_malloc : Z -> bool) (a : panel_act) : PM unit :=
  match a with
  | Calls cs => do_calls rt_malloc cs
  | Turn t => run modify (put_tick t); led_process_turn rt_malloc
  end.

Fixpoint panel_run (rt_malloc : Z -> bool) (acts : list panel_act) : PM unit :=
  match acts with [] => ret tt | a :: acts' => run panel_do rt_malloc a; panel_run rt_malloc acts' end.
