(* ===== verification/AgileSpec.v ===== *)
(** * The indicators play their patterns

    Every call and every turn of the thread of the driver ends and keeps the list of
    the running leds and the objects in step ([panel_ok]); what runs after the calls
    of [led.c] is what [led_after] says; and a led shows its pattern, entry by entry,
    the number of times it was asked for. *)

From Stdlib Require Import String.
From S2P Require Import Prelude CStr Led Agile.
Open Scope list_scope.

(** ** Effects on one led *)

(** The step from [p] to [p'] makes the object of [l] to [o], writes [w] and leaves the
    list [ls]. *)
Record becomes (l : led) (o : agile_led_t) (w : list pin_write) (ls : list led) (p p' : Panel) : Prop := {
  bc_init : is_initialized p' = is_initialized p;
  bc_obj : objs p' l = Some o;
  bc_other k : k <> l -> objs p' k = objs p k;
  bc_list : agile_led_list p' = ls;
  bc_tick : rt_tick p' = rt_tick p;
  bc_writes : writes p' = writes p ++ w
}.

Lemma becomes_same l o p : objs p l = Some o -> becomes l o [] (agile_led_list p) p p.
Proof. split; try done. by rewrite app_nil_r. Qed.

(** The rules extend an effect. *)
Section Rules.
Context (l : led) (p0 : Panel).
Implicit Types (o : agile_led_t) (w : list pin_write) (ls : list led).

Lemma wp_led_obj o w ls (Q : agile_led_t -> Panel -> Prop) p : becomes l o w ls p0 p -> Q o p -> wp (led_obj l) Q p.
Proof. intros B HQ. unfold led_obj, wp, bind, get, lift_opt. by rewrite (bc_obj _ _ _ _ _ _ B). Qed.

Lemma wp_tick o w ls (Q : Z -> Panel -> Prop) p : becomes l o w ls p0 p -> Q (rt_tick p0) p -> wp rt_tick_get Q p.
Proof. intros B HQ. apply wp_gets. by rewrite (bc_tick _ _ _ _ _ _ B). Qed.

Lemma wp_led_set f o w ls (Q : unit -> Panel -> Prop) p :
  becomes l o w ls p0 p -> (forall p', becomes l (f o) w ls p0 p' -> Q tt p') -> wp (led_set l f) Q p.
Proof.
  intros B HQ. apply wp_bind, (wp_led_obj o w ls); [done|]. apply wp_modify, HQ. destruct B as [B1 B2 B3 B4 B5 B6].
  split; try done; cbn.
  - by rewrite decide_True.
  - intros k Hk. rewrite decide_False by done. by apply B3.
Qed.

Lemma wp_pin_write n v o w ls (Q : unit -> Panel -> Prop) p :
  becomes l o w ls p0 p -> (forall p', becomes l o (w ++ [mkWrite (rt_tick p0) n v]) ls p0 p' -> Q tt p') -> wp (rt_pin_write n v) Q p.
Proof.
  intros [B1 B2 B3 B4 B5 B6] HQ. apply wp_modify, HQ. split; try done. cbn. by rewrite B6, B5, app_assoc.
Qed.

Lemma wp_list (f : list led -> list led) o w ls (Q : unit -> Panel -> Prop) p :
  becomes l o w ls p0 p -> (forall p', becomes l o w (f ls) p0 p' -> Q tt p') ->
  wp (modify (fun p => put_list (f (agile_led_list p)) p)) Q p.
Proof. intros [B1 B2 B3 B4 B5 B6] HQ. apply wp_modify, HQ. split; try done. cbn. by rewrite B4. Qed.

(** *** Switching *)

Definition show (on : bool) (o : agile_led_t) : Z := if on then active_logic o else lnot (active_logic o).

Lemma wp_show on o w ls (Q : unit -> Panel -> Prop) p :
  becomes l o w ls p0 p ->
  (forall p', becomes l (put_now_logic (show on o) o) (w ++ [mkWrite (rt_tick p0) (pin o) (show on o)]) ls p0 p' -> Q tt p') ->
  wp (if on then agile_led_on l else agile_led_off l) Q p.
Proof.
  intros B HQ. destruct on; apply wp_bind, (wp_led_set _ o w ls); try done; intros p1 B1;
    (apply wp_bind; eapply wp_led_obj; [exact B1|]); (eapply wp_pin_write; [exact B1 | exact HQ]).
Qed.

(** *** Starting and stopping *)

Definition stopped_list (o : agile_led_t) (ls : list led) : list led := if active o then remove_first l ls else ls.
Definition stop_writes (o : agile_led_t) : list pin_write := if active o then [mkWrite (rt_tick p0) (pin o) (lnot (active_logic o))] else [].

Lemma wp_led_stop o w ls (Q : unit -> Panel -> Prop) p :
  becomes l o w ls p0 p ->
  (forall p', becomes l (put_active false o) (w ++ stop_writes o) (stopped_list o ls) p0 p' -> Q tt p') -> wp (agile_led_stop l) Q p.
Proof.
  intros B HQ. unfold stopped_list, stop_writes in HQ. apply wp_bind, (wp_led_obj o w ls); [done|]. destruct (active o) eqn:Ea; cbn [negb].
  - apply wp_bind. eapply (wp_list (remove_first l)); [exact B|]. intros p1 B1.
    apply wp_bind, (wp_led_set _ o w (remove_first l ls)); [done|]. intros p2 B2. eapply wp_pin_write; [exact B2 | exact HQ].
  - apply wp_ret, HQ. rewrite app_nil_r. replace (put_active false o) with o; [done|]. destruct o; cbn in *. by subst.
Qed.

Definition startable (o : agile_led_t) : bool :=
  negb (active o) && match light_arr o with None => false | Some _ => negb (arr_num o =? 0) end.

Lemma wp_led_start o w ls (Q : bool -> Panel -> Prop) p :
  becomes l o w ls p0 p ->
  (startable o = true -> forall p', becomes l (put_active true (rewind (rt_tick p0) o)) w (ls ++ [l]) p0 p' -> Q true p') ->
  (startable o = false -> Q false p) -> wp (agile_led_start l) Q p.
Proof.
  intros B HQ1 HQ2. unfold startable in *. apply wp_bind, (wp_led_obj o w ls); [done|].
  destruct (active o); cbn [negb andb] in *; [by apply wp_ret, HQ2|].
  destruct (light_arr o) as [arr|]; [|by apply wp_ret, HQ2]. destruct (arr_num o =? 0); cbn [negb] in *; [by apply wp_ret, HQ2|].
  apply wp_bind, (wp_tick o w ls); [done|]. apply wp_bind, (wp_led_set _ o w ls); [done|]. intros p1 B1.
  apply wp_bind. eapply (wp_list (fun ls => ls ++ [l])); [exact B1|]. intros p2 B2.
  apply wp_bind. eapply wp_led_set; [exact B2|]. intros p3 B3. apply wp_ret, HQ1; [done | exact B3].
Qed.
End Rules.

(** ** Patterns *)

Lemma commas_cons c s : commas (c :: s) = (if c =? 44 then 1 else 0) + commas s.
Proof.
  unfold commas. rewrite filter_cons. destruct (Z.eqb_spec c 44); [rewrite decide_True by done; by rewrite zlen_cons|].
  by rewrite decide_False.
Qed.

Lemma commas_bounds s : 0 <= commas s <= zlen s.
Proof. induction s as [|c s IH]; [done|]. rewrite commas_cons, zlen_cons. destruct (c =? 44); lia. Qed.

Lemma next_field_some s : 0 < commas s -> exists s', next_field s = Some s' /\ commas s = commas s' + 1.
Proof.
  induction s as [|c s IH]; [done|]. rewrite commas_cons. cbn [next_field]. destruct (c =? 44); [intros _; exists s; split; [done | lia]|].
  intros Hc. destruct IH as (s' & E1 & E2); [lia|]. exists s'. split; [done | lia].
Qed.

Lemma fields_total n : forall s, Z.of_nat n <= commas s + 1 -> exists arr, fields n (Some s) = Some arr /\ length arr = n.
Proof.
  induction n as [|n IH]; intros s Hn; [by exists []|]. cbn [fields]. destruct n as [|n].
  - by exists [u32 (atol s)].
  - destruct (next_field_some s) as (s' & -> & E); [lia|]. destruct (IH s') as (arr & -> & Hl); [lia|].
    exists (u32 (atol s) :: arr). split; [done|]. cbn [length]. by rewrite Hl.
Qed.

(** The number of entries, and the entries. *)
Definition entries (s : list Z) : Z := match last s with Some c => if c =? 44 then commas s else commas s + 1 | None => 0 end.
Definition pattern (s : list Z) : option (list Z) := fields (Z.to_nat (entries s)) (Some s).

Definition mode_ok (s : list Z) : Prop := s <> [] /\ zlen s < 2 ^ 31.

Lemma entries_bounds s : mode_ok s -> 0 < entries s < 2 ^ 32 /\ entries s <= commas s + 1.
Proof.
  intros [Hne Hl]. unfold entries. destruct (last s) as [c|] eqn:E; [|by apply last_None in E].
  pose proof (commas_bounds s). destruct (Z.eqb_spec c 44) as [->|]; [|lia].
  apply last_Some in E as [s' ->].
  assert (Hc : forall x, commas (x ++ [44]) = commas x + 1).
  { induction x as [|d x IH]; [done|]. cbn [app]. rewrite !commas_cons, IH. lia. }
  rewrite Hc in *. pose proof (commas_bounds s'). lia.
Qed.

Lemma pattern_some s : mode_ok s -> exists arr, pattern s = Some arr /\ zlen arr = entries s.
Proof.
  intros Hm. destruct (entries_bounds s Hm) as [Hb Hc]. destruct (fields_total (Z.to_nat (entries s)) s) as (arr & E & Hl); [lia|].
  exists arr. split; [done|]. unfold zlen. rewrite Hl. lia.
Qed.

(** ** Objects *)

Record obj_ok (o : agile_led_t) : Prop := {
  ok_arr arr : light_arr o = Some arr -> arr_num o = zlen arr /\ 0 < zlen arr < 2 ^ 32;
  ok_index : 0 <= arr_index o;
  ok_active : active o = true -> is_Some (light_arr o)
}.

Section Malloc.
Context (rt_malloc : Z -> bool).

Lemma light_arr_spec s o :
  light_arr o = None -> arr_num o = 0 -> mode_ok s ->
  (exists arr, agile_led_get_light_arr rt_malloc s o = Some (true, put_light (Some arr) (zlen arr) o) /\ pattern s = Some arr /\ 0 < zlen arr < 2 ^ 32)
  \/ (exists n, agile_led_get_light_arr rt_malloc s o = Some (false, put_light None n o) /\ rt_malloc (n * 4) = false).
Proof.
  intros Hl Hn Hm. destruct (entries_bounds s Hm) as [Hb _]. destruct (pattern_some s Hm) as (arr & Hp & Ha). pose proof Hp as Hp0.
  unfold agile_led_get_light_arr. rewrite Hl, Hn. change (negb (0 =? 0)) with false. cbv iota.
  unfold pattern, entries in Hp. unfold entries in Hb, Ha. destruct (last s) as [c|]; [|lia]. cbv zeta.
  set (n := if c =? 44 then commas s else commas s + 1) in *. rewrite (proj2 (Z.eqb_neq n 0)) by lia.
  destruct (rt_malloc (n * 4)) eqn:Em; cbn [negb]; [|right; by exists n].
  left. exists arr. rewrite Ha. split; [by rewrite Hp|]. split; [exact Hp0 | exact Hb].
Qed.

(** *** The effect of setting a pattern *)
Section Set_mode.
Context (l : led) (p0 : Panel).

Lemma wp_set_light s c o w ls (Q : bool -> Panel -> Prop) p :
  becomes l o w ls p0 p -> mode_ok s ->
  (forall arr p', pattern s = Some arr -> 0 < zlen arr < 2 ^ 32 ->
     becomes l (rewind (rt_tick p0) (put_loop_init c (put_light (Some arr) (zlen arr) o))) w ls p0 p' -> Q true p') ->
  (forall n p', rt_malloc (n * 4) = false ->
     becomes l (put_active false (put_light None n o)) (w ++ stop_writes p0 o) (stopped_list l o ls) p0 p' -> Q false p') ->
  wp (agile_led_set_light_mode rt_malloc l (Some s) c) Q p.
Proof.
  intros B Hm HQ1 HQ2. apply wp_bind. eapply wp_led_obj; [exact B|]. apply wp_bind, wp_bind.
  destruct (light_arr_spec s (put_light None 0 o) eq_refl eq_refl Hm) as [(arr & E & Hp & Ha)|(n & E & Hf)];
    (eapply wp_lift_opt; [exact E|]); apply wp_bind; (eapply wp_led_set; [exact B|]); intros p1 B1; apply wp_ret; cbn [fst snd negb] in *.
  - apply wp_bind. eapply wp_tick; [exact B1|]. apply wp_bind. eapply wp_led_set; [exact B1|]. intros p2 B2. apply wp_ret.
    by apply (HQ1 arr).
  - apply wp_bind. eapply wp_led_stop; [exact B1|]. intros p2 B2. apply wp_ret. by apply (HQ2 n).
Qed.
End Set_mode.
End Malloc.

(** ** A turn of one led *)

(** The first entry at or behind index [i] that is not 0; [arr] is what is left there. *)
Fixpoint next_entry (arr : list Z) (i : Z) : option (Z * Z) :=
  match arr with [] => None | a :: arr' => if a =? 0 then next_entry arr' (i + 1) else Some (i, a) end.

Definition due (t : Z) (o : agile_led_t) : bool := u32 (t - tick_timeout o) <? RT_TICK_MAX / 2.

(** The object after a turn, and the level it shows. *)
Definition turned (t : Z) (arr : list Z) (o : agile_led_t) : agile_led_t * option bool :=
  if due t o then
    match next_entry (drop (Z.to_nat (arr_index o)) arr) (arr_index o) with
    | Some (j, a) =>
        let on := j mod 2 =? 0 in
        (put_arr_index (j + 1) (put_tick_timeout (u32 (t + rt_tick_from_millisecond (s32 a))) (put_now_logic (show on o) o)), Some on)
    | None => (put_arr_index 0 (if 0 <? loop_cnt o then put_loop_cnt (loop_cnt o - 1) o else o), None)
    end
  else (o, None).

Definition turn_writes (t : Z) (o : agile_led_t) (r : option bool) : list pin_write :=
  match r with Some on => [mkWrite t (pin o) (show on o)] | None => [] end.

Lemma wp_play l p0 arr n : forall o w ls (Q : unit -> Panel -> Prop) p,
  becomes l o w ls p0 p -> light_arr o = Some arr -> arr_num o = zlen arr -> zlen arr < 2 ^ 32 -> 0 <= arr_index o ->
  zlen arr - arr_index o <= Z.of_nat n ->
  (forall p', becomes l (fst (turned (rt_tick p0) arr o)) (w ++ turn_writes (rt_tick p0) o (snd (turned (rt_tick p0) arr o))) ls p0 p' -> Q tt p') ->
  wp (play n l) Q p.
Proof.
  induction n as [|n IH]; intros o w ls Q p B Hl Hn Hz Hi Hf HQ; cbn [play];
    apply wp_bind; (eapply wp_led_obj; [exact B|]); apply wp_bind; (eapply wp_tick; [exact B|]);
    unfold turned, due in HQ; (destruct (u32 (rt_tick p0 - tick_timeout o) <? RT_TICK_MAX / 2) eqn:Ed; [|apply wp_ret, HQ; by rewrite app_nil_r]);
    rewrite Hn; destruct (Z.ltb_spec (arr_index o) (zlen arr)) as [Hlt|Hge]; try lia.
  - rewrite drop_ge in HQ by (unfold zlen in *; lia). eapply wp_led_set; [exact B|]. intros p1 B1. apply HQ. by rewrite app_nil_r.
  - destruct (aget_is_Some arr (arr_index o)) as [a Ha]; [lia|]. rewrite Hl. apply wp_bind. eapply wp_lift_opt; [exact Ha|].
    rewrite aget_lookup in Ha by lia. rewrite (drop_S _ _ _ Ha) in HQ. cbn [next_entry] in HQ. destruct (a =? 0) eqn:Ea.
    + apply wp_bind. eapply wp_led_set; [exact B|]. intros p1 B1. rewrite u32_small in B1 by lia.
      apply (IH _ w ls Q p1 B1); try done; cbn [arr_index put_arr_index tick_timeout]; try lia.
      unfold turned, due, turn_writes, show. cbn [arr_index put_arr_index tick_timeout loop_cnt active_logic].
      intros p' B'. apply HQ. replace (Z.to_nat (arr_index o + 1)) with (S (Z.to_nat (arr_index o))) in B' by lia.
      rewrite Ed in B'. destruct (next_entry _ _) as [[j b]|]; [exact B' | by destruct (0 <? loop_cnt o)].
    + apply wp_bind. eapply (wp_show l p0 (arr_index o mod 2 =? 0)); [exact B|]. intros p1 B1.
      eapply wp_led_set; [exact B1|]. intros p2 B2. apply HQ.
      cbn [arr_index put_now_logic] in B2. rewrite (u32_small (arr_index o + 1)) in B2 by lia. exact B2.
  - rewrite drop_ge in HQ by (unfold zlen in *; lia). eapply wp_led_set; [exact B|]. intros p1 B1. apply HQ. by rewrite app_nil_r.
Qed.

(** ** The panel *)

(** Each led has an object, and the list holds those that run. *)
Record panel_ok (p : Panel) : Prop := {
  pn_nodup : NoDup (agile_led_list p);
  pn_obj l : exists o, objs p l = Some o /\ obj_ok o /\ (active o = true <-> l ∈ agile_led_list p)
}.

Lemma remove_first_elem l k ls : NoDup ls -> (k ∈ remove_first l ls <-> k ∈ ls /\ k <> l).
Proof.
  induction ls as [|j ls IH]; intros Hd; cbn [remove_first]; [set_solver|]. apply NoDup_cons in Hd as [Hj Hd].
  destruct (decide (j = l)) as [->|Hjl]; [set_solver|]. rewrite !elem_of_cons, IH by done. naive_solver.
Qed.

Lemma remove_first_nodup l ls : NoDup ls -> NoDup (remove_first l ls).
Proof.
  induction ls as [|j ls IH]; intros Hd; cbn [remove_first]; [done|]. apply NoDup_cons in Hd as [Hj Hd].
  case_decide; [done|]. apply NoDup_cons. rewrite remove_first_elem by done. naive_solver.
Qed.

(** [o] and [ls] belong to a panel that differs from [p] in the led [l] alone. *)
Record fits (p : Panel) (l : led) (o : agile_led_t) (ls : list led) : Prop := {
  ft_obj : obj_ok o; ft_nodup : NoDup ls; ft_active : active o = true <-> l ∈ ls;
  ft_other k : k <> l -> (k ∈ ls <-> k ∈ agile_led_list p)
}.

Lemma fits_start_of p l : panel_ok p -> exists o, objs p l = Some o /\ fits p l o (agile_led_list p).
Proof. intros [Hd Ho]. destruct (Ho l) as (o & E & Hok & Ha). by exists o. Qed.

Lemma fits_ok p l o ls w p' : panel_ok p -> fits p l o ls -> becomes l o w ls p p' -> panel_ok p'.
Proof.
  intros [Hd Ho] [F1 F2 F3 F4] [B1 B2 B3 B4 B5 B6]. split; rewrite B4; [done|]. intros k.
  destruct (decide (k = l)) as [->|Hk]; [by exists o|].
  destruct (Ho k) as (ok & E & Hok & Ha). exists ok. by rewrite B3, F4 by done.
Qed.

Section Fits.
Context (p : Panel) (l : led).
Implicit Types (o : agile_led_t) (ls : list led).

(** Fields that are no part of the invariant. *)
Definition alike o o' : Prop := active o' = active o /\ light_arr o' = light_arr o /\ arr_num o' = arr_num o /\ 0 <= arr_index o'.

Lemma fits_alike o o' ls : alike o o' -> fits p l o ls -> fits p l o' ls.
Proof.
  intros (E1 & E2 & E3 & E4) [[A1 A2 A3] F2 F3 F4]. split; [|done|by rewrite E1|done].
  split; [rewrite E2, E3; exact A1 | done | rewrite E1, E2; exact A3].
Qed.

Lemma fits_stopped o o' ls :
  (forall arr, light_arr o' = Some arr -> arr_num o' = zlen arr /\ 0 < zlen arr < 2 ^ 32) -> 0 <= arr_index o' ->
  fits p l o ls -> fits p l (put_active false o') (stopped_list l o ls).
Proof.
  intros Ha Hi [F1 F2 F3 F4]. unfold stopped_list. destruct (active o) eqn:E.
  - split; [by split | by apply remove_first_nodup | |].
    + cbn. rewrite remove_first_elem by done. split; [done | tauto].
    + intros k Hk. rewrite remove_first_elem, F4 by done. tauto.
  - split; [by split | done | |done]. cbn. by rewrite <- F3.
Qed.

Lemma fits_stop o ls : fits p l o ls -> fits p l (put_active false o) (stopped_list l o ls).
Proof. intros F. apply fits_stopped; [apply (ft_obj _ _ _ _ F) .. | done]. Qed.

Lemma fits_started o ls t : startable o = true -> fits p l o ls -> fits p l (put_active true (rewind t o)) (ls ++ [l]).
Proof.
  unfold startable. intros [Hn Hl]%andb_true_iff [[A1 A2 A3] F2 F3 F4]. destruct (active o); [done|].
  destruct (light_arr o) as [arr|] eqn:El; [|done]. split.
  - split; [cbn; rewrite El; exact A1 | done | cbn; by rewrite El].
  - apply NoDup_app. split; [done|]. split; [|apply NoDup_singleton]. intros x Hx ->%list_elem_of_singleton. by apply F3 in Hx.
  - cbn. split; [intros _; set_solver | done].
  - intros k Hk. rewrite <- F4, elem_of_app, list_elem_of_singleton by done. tauto.
Qed.

Lemma fits_lit o ls arr c t : 0 < zlen arr < 2 ^ 32 -> fits p l o ls ->
  fits p l (rewind t (put_loop_init c (put_light (Some arr) (zlen arr) o))) ls.
Proof.
  intros Ha [F1 F2 F3 F4]. split; try done. split; cbn; [by intros ? [= <-] | done | done].
Qed.
End Fits.

(** ** Calls *)

Definition call_led (c : led_call) : led := match c with Stop l | Light l _ _ | Start l | Callback l _ => l end.
Definition call_ok (c : led_call) : Prop := match c with Light _ mode _ => mode_ok (str mode) | _ => True end.

Section Calls.
Context (rt_malloc : Z -> bool).

(** A call on [l] makes of [o] and [ls] one of these. *)
Definition called (t : Z) (c : led_call) (o : agile_led_t) (ls : list led) (o' : agile_led_t) (ls' : list led) : Prop :=
  match c with
  | Stop l => o' = put_active false o /\ ls' = stopped_list l o ls
  | Light l mode n =>
      (exists arr, pattern (str mode) = Some arr /\ o' = rewind t (put_loop_init n (put_light (Some arr) (zlen arr) o)) /\ ls' = ls)
      \/ (exists k, rt_malloc (k * 4) = false /\ o' = put_active false (put_light None k o) /\ ls' = stopped_list l o ls)
  | Start l => if startable o then o' = put_active true (rewind t o) /\ ls' = ls ++ [l] else o' = o /\ ls' = ls
  | Callback l resume => o' = put_compelete (if resume : bool then Some resume_compelete else None) o /\ ls' = ls
  end.

Lemma wp_call c o w ls p0 (Q : unit -> Panel -> Prop) p :
  call_ok c -> becomes (call_led c) o w ls p0 p -> fits p0 (call_led c) o ls ->
  (forall o' w' ls' p', becomes (call_led c) o' (w ++ w') ls' p0 p' -> fits p0 (call_led c) o' ls' -> called (rt_tick p0) c o ls o' ls' ->
     Forall (fun x => at_pin x = pin o) w' -> Q tt p') ->
  wp (do_call rt_malloc c) Q p.
Proof.
  intros Hc B F HQ. destruct c as [l|l mode n|l|l r]; cbn [call_led do_call call_ok called] in *.
  - eapply wp_led_stop; [exact B|]. intros p' B'. apply (HQ _ _ _ _ B'); [by apply fits_stop | done|].
    unfold stop_writes. destruct (active o); [by apply Forall_singleton | done].
  - apply wp_bind. eapply wp_set_light; [exact B | done |..].
    + intros arr p' Hp Ha B'. apply wp_ret, (HQ _ [] _ p' ltac:(rewrite app_nil_r; exact B')); [by apply fits_lit | left; by exists arr | done].
    + intros k p' Hm B'. apply wp_ret, (HQ _ _ _ _ B'); [|right; by exists k|].
      * apply fits_stopped; [done | apply (ft_obj _ _ _ _ F) | exact F].
      * unfold stop_writes. destruct (active o); [by apply Forall_singleton | done].
  - apply wp_bind. eapply wp_led_start; [exact B |..].
    + intros Hs p' B'. apply wp_ret, (HQ _ [] _ p' ltac:(rewrite app_nil_r; exact B')); [by apply fits_started | by rewrite Hs | done].
    + intros Hs. apply wp_ret, (HQ _ [] _ p ltac:(rewrite app_nil_r; exact B)); [done | by rewrite Hs | done].
  - eapply wp_led_set; [exact B|]. intros p' B'. apply (HQ _ [] _ p' ltac:(rewrite app_nil_r; exact B')); [|done..].
    eapply fits_alike; [|exact F]. repeat split; try done. apply (ft_obj _ _ _ _ F).
Qed.

(** A panel takes any call. *)
Lemma wp_call_ok c (Q : unit -> Panel -> Prop) p :
  call_ok c -> panel_ok p -> (forall p', panel_ok p' -> Q tt p') -> wp (do_call rt_malloc c) Q p.
Proof.
  intros Hc Hp HQ. destruct (fits_start_of p (call_led c) Hp) as (o & Ho & F).
  eapply wp_call; [done | by apply becomes_same | done |]. intros o' w' ls' p' B' F' _ _. apply HQ. by eapply fits_ok.
Qed.

Lemma wp_calls_ok cs : forall (Q : unit -> Panel -> Prop) p,
  Forall call_ok cs -> panel_ok p -> (forall p', panel_ok p' -> Q tt p') -> wp (do_calls rt_malloc cs) Q p.
Proof.
  induction cs as [|c cs IH]; intros Q p Hc Hp HQ; [by apply wp_ret, HQ|]. apply Forall_cons in Hc as [Hc Hcs].
  apply wp_bind, wp_call_ok; [done..|]. intros p' Hp'. by apply IH.
Qed.

(** The callback that shows the radio's rest again. *)
Lemma wp_resume o w ls p0 (Q : unit -> Panel -> Prop) p :
  becomes RF_G o w ls p0 p -> fits p0 RF_G o ls ->
  (forall o' w' ls' p', becomes RF_G o' (w ++ w') ls' p0 p' -> fits p0 RF_G o' ls' -> (RF_G ∈ ls' -> loop_cnt o' = -1) ->
     compelete o' = None -> pin o' = pin o -> Forall (fun x => at_pin x = pin o) w' -> Q tt p') ->
  wp (do_calls rt_malloc resume_calls) Q p.
Proof.
  intros B F HQ. unfold resume_calls, do_calls.
  apply wp_bind. eapply (wp_call (Callback RF_G false)); [done | exact B | exact F |]. cbn [call_led called]. intros o1 w1 ls1 p1 B1 F1 [-> ->] W1.
  apply wp_bind. eapply (wp_call (Light RF_G "200,0" (-1))); [by split | exact B1 | exact F1 |]. cbn [call_led called]. intros o2 w2 ls2 p2 B2 F2 C2 W2.
  apply wp_bind. eapply (wp_call (Start RF_G)); [done | exact B2 | exact F2 |]. cbn [call_led called]. intros o3 w3 ls3 p3 B3 F3 C3 W3.
  rewrite <- !app_assoc in B3. apply wp_ret.
  destruct C2 as [(arr & _ & -> & ->)|(k & _ & -> & ->)]; cbn in C3.
  - refine (HQ _ _ _ _ B3 F3 _ _ _ _).
    all: destruct (startable _) in C3; destruct C3 as [-> ->]; try done.
    all: repeat (apply Forall_app; split; [done|]); done.
  - destruct C3 as [-> ->]. refine (HQ _ _ _ _ B3 F3 _ eq_refl eq_refl _).
    + intros Hin%F3. done.
    + repeat (apply Forall_app; split; [done|]); done.
Qed.
End Calls.

(** ** Turns of the thread *)

(** The callback of a led that was stopped. *)
Definition completed (cb : option callback) (p p' : Panel) : Prop :=
  match cb with
  | Some resume_compelete =>
      exists o o' w ls, objs p RF_G = Some o /\ becomes RF_G o' w ls p p' /\ fits p RF_G o' ls
        /\ (RF_G ∈ ls -> loop_cnt o' = -1) /\ pin o' = pin o /\ Forall (fun x => at_pin x = pin o) w
  | _ => p' = p
  end.

(** What the thread does with one led: it plays it, or stops it after its last loop. *)
Inductive beat (l : led) (p p' : Panel) : Prop :=
| beat_play o arr :
    objs p l = Some o -> l ∈ agile_led_list p -> loop_cnt o <> 0 -> light_arr o = Some arr ->
    becomes l (fst (turned (rt_tick p) arr o)) (turn_writes (rt_tick p) o (snd (turned (rt_tick p) arr o))) (agile_led_list p) p p' -> beat l p p'
| beat_stop o p1 :
    objs p l = Some o -> l ∈ agile_led_list p -> loop_cnt o = 0 ->
    becomes l (put_active false o) [mkWrite (rt_tick p) (pin o) (lnot (active_logic o))] (remove_first l (agile_led_list p)) p p1 ->
    completed (compelete o) p1 p' -> beat l p p'.

Definition beats : Panel -> Panel -> Prop := rtc (fun p p' => exists l, beat l p p').

Lemma turned_fields t arr o :
  let o' := fst (turned t arr o) in
  active o' = active o /\ light_arr o' = light_arr o /\ arr_num o' = arr_num o /\ pin o' = pin o /\ active_logic o' = active_logic o
  /\ compelete o' = compelete o /\ loop_init o' = loop_init o.
Proof. unfold turned. repeat case_match; done. Qed.

Lemma next_entry_behind arr : forall i j a, next_entry arr i = Some (j, a) -> i <= j.
Proof.
  induction arr as [|x arr IH]; intros i j a E; [done|]. cbn [next_entry] in E. destruct (x =? 0); [|by injection E as <- <-].
  apply IH in E. lia.
Qed.

Lemma fits_turned p l o ls t arr : fits p l o ls -> fits p l (fst (turned t arr o)) ls.
Proof.
  intros F. apply (fits_alike p l o); [|done]. pose proof (ok_index _ (ft_obj _ _ _ _ F)) as Hi.
  destruct (turned_fields t arr o) as (E1 & E2 & E3 & _). repeat split; try done. unfold turned.
  destruct (due t o); [|done]. destruct (next_entry _ _) as [[j a]|] eqn:E; [|done]. apply next_entry_behind in E. cbn. lia.
Qed.

Lemma completed_ok cb p p' : panel_ok p -> completed cb p p' -> panel_ok p'.
Proof. destruct cb as [[]|]; cbn; [by intros ? -> | intros Hp (o & o' & w & ls & _ & B & F & _); by eapply fits_ok | by intros ? ->]. Qed.

Lemma completed_tick cb p p' : completed cb p p' -> rt_tick p' = rt_tick p.
Proof. destruct cb as [[]|]; cbn; [by intros -> | intros (o & o' & w & ls & _ & B & _); apply B | by intros ->]. Qed.

Lemma stopped_active p l o : panel_ok p -> objs p l = Some o -> l ∈ agile_led_list p ->
  active o = true /\ fits p l o (agile_led_list p).
Proof.
  intros Hp Ho Hl. destruct (fits_start_of p l Hp) as (o' & Ho' & F). rewrite Ho in Ho'. injection Ho' as <-.
  split; [by apply F | done].
Qed.

Lemma beat_ok l p p' : panel_ok p -> beat l p p' -> panel_ok p'.
Proof.
  intros Hp [o arr Ho Hl Hc Ha B | o p1 Ho Hl Hc B C]; destruct (stopped_active p l o Hp Ho Hl) as [Hact F].
  - eapply fits_ok; [exact Hp | | exact B]. by apply fits_turned.
  - eapply completed_ok; [|exact C]. eapply fits_ok; [exact Hp | | exact B].
    apply fits_stop in F. unfold stopped_list in F. by rewrite Hact in F.
Qed.

Lemma beat_tick l p p' : beat l p p' -> rt_tick p' = rt_tick p.
Proof. intros [o arr Ho Hl Hc Ha B | o p1 Ho Hl Hc B C]; [apply B | rewrite (completed_tick _ _ _ C); apply B]. Qed.

(** *** Fewer and fewer leds can stop *)

Definition loops (p : Panel) (l : led) : Z := match objs p l with Some o => loop_cnt o | None => -1 end.
Definition mortal (p : Panel) : list led := filter (fun l => 0 <= loops p l) (agile_led_list p).

Definition calmer (p p' : Panel) : Prop := forall l, l ∈ mortal p' -> l ∈ mortal p.

Lemma mortal_elem p l : l ∈ mortal p <-> 0 <= loops p l /\ l ∈ agile_led_list p.
Proof. unfold mortal. by rewrite list_elem_of_filter. Qed.

Lemma mortal_nodup p : panel_ok p -> NoDup (mortal p).
Proof. intros Hp. apply NoDup_filter, Hp. Qed.

Lemma calmer_length p p' : panel_ok p' -> calmer p p' -> (length (mortal p') <= length (mortal p))%nat.
Proof. intros Hp Hc. apply submseteq_length, NoDup_submseteq; [by apply mortal_nodup | exact Hc]. Qed.

Lemma calmer_less p p' l : panel_ok p' -> calmer p p' -> l ∈ mortal p -> l ∉ mortal p' ->
  (length (mortal p') < length (mortal p))%nat.
Proof.
  intros Hp Hc Hl Hl'. change (length (l :: mortal p') <= length (mortal p))%nat.
  apply submseteq_length, NoDup_submseteq; [apply NoDup_cons; by split; [|apply mortal_nodup]|].
  intros x [->|Hx]%elem_of_cons; [done | by apply Hc].
Qed.

Definition all_leds : list led := [RF_G; RF_R; WIFI_R; WIFI_B; beep; beep_k].
Lemma led_list_short (ls : list led) : NoDup ls -> (length ls <= 6)%nat.
Proof.
  intros Hd. change 6%nat with (length all_leds). apply submseteq_length, NoDup_submseteq; [done|].
  intros x _. unfold all_leds. destruct x; set_solver.
Qed.

Lemma becomes_loops l o w ls p p' k : becomes l o w ls p p' -> loops p' k = if decide (k = l) then loop_cnt o else loops p k.
Proof. intros B. unfold loops. case_decide as E; [by rewrite E, (bc_obj _ _ _ _ _ _ B) | by rewrite (bc_other _ _ _ _ _ _ B)]. Qed.

Lemma completed_calmer cb p p' : completed cb p p' -> calmer p p'.
Proof.
  destruct cb as [[]|]; cbn; [by intros -> ? | | by intros -> ?].
  intros (o & o' & w & ls & _ & B & F & Hi & _) l. rewrite !mortal_elem, (becomes_loops _ _ _ _ _ _ l B), (bc_list _ _ _ _ _ _ B).
  case_decide as E; [subst l; intros [Hge Hin]; specialize (Hi Hin); lia | by rewrite (ft_other _ _ _ _ F l E)].
Qed.

Lemma beat_calmer l p p' : panel_ok p -> beat l p p' -> calmer p p'.
Proof.
  intros Hp [o arr Ho Hl Hc Ha B | o p1 Ho Hl Hc B C] k.
  - rewrite !mortal_elem, (becomes_loops _ _ _ _ _ _ k B), (bc_list _ _ _ _ _ _ B). case_decide as E; [subst k | done].
    intros [Hge Hk]. split; [|done]. unfold loops. rewrite Ho. revert Hge. unfold turned.
    destruct (due _ _); [|done]. destruct (next_entry _ _) as [[j a]|]; [done|]. destruct (Z.ltb_spec 0 (loop_cnt o)); cbn; lia.
  - intros Hk%(completed_calmer _ _ _ C). revert Hk.
    rewrite !mortal_elem, (becomes_loops _ _ _ _ _ _ k B), (bc_list _ _ _ _ _ _ B), remove_first_elem by apply Hp.
    case_decide; tauto.
Qed.

(** A beat of one led leaves the others alone, but for the one the callback shows. *)
Lemma beat_keeps l k p p' : panel_ok p -> beat l p p' -> k <> l -> k <> RF_G ->
  objs p' k = objs p k /\ (k ∈ agile_led_list p' <-> k ∈ agile_led_list p).
Proof.
  intros Hp [o arr Ho Hl Hc Ha B | o p1 Ho Hl Hc B C] Hk Hg.
  - by rewrite (bc_list _ _ _ _ _ _ B), (bc_other _ _ _ _ _ _ B).
  - assert (H1 : objs p1 k = objs p k /\ (k ∈ agile_led_list p1 <-> k ∈ agile_led_list p)).
    { rewrite (bc_list _ _ _ _ _ _ B), (bc_other _ _ _ _ _ _ B), remove_first_elem by first [done | apply Hp]. tauto. }
    destruct (compelete o) as [[]|]; cbn in C; [by subst | | by subst].
    destruct C as (g & g' & w & ls & _ & BG & F & _). by rewrite (bc_list _ _ _ _ _ _ BG), (bc_other _ _ _ _ _ _ BG), (ft_other _ _ _ _ F).
Qed.

(** The led [l] has its beat on the way from [p] to [p']. *)
Definition beaten (l : led) (p p' : Panel) : Prop := exists p1 p2, beats p p1 /\ beat l p1 p2 /\ beats p2 p'.

Lemma beaten_now l p p1 p' : beat l p p1 -> beats p1 p' -> beaten l p p'.
Proof. intros B H. exists p, p1. by split; [apply rtc_refl|]. Qed.

Lemma beaten_later k l p p1 p' : beat k p p1 -> beaten l p1 p' -> beaten l p p'.
Proof. intros B (q1 & q2 & H1 & H2 & H3). exists q1, q2. split; [|done]. by eapply rtc_l; [exists k|]. Qed.

Section Turn.
Context (rt_malloc : Z -> bool).

Lemma wp_beat_play l o p (Q : unit -> Panel -> Prop) :
  panel_ok p -> objs p l = Some o -> l ∈ agile_led_list p -> loop_cnt o <> 0 ->
  (forall p', beat l p p' -> agile_led_list p' = agile_led_list p -> Q tt p') -> wp (play (Z.to_nat (arr_num o)) l) Q p.
Proof.
  intros Hp Ho Hl Hc HQ. destruct (stopped_active p l o Hp Ho Hl) as [Ha [[A1 A2 A3] _ _ _]].
  destruct (A3 Ha) as [arr Harr]. destruct (A1 arr Harr) as [En Hz].
  eapply (wp_play l p arr); [by apply becomes_same | done | done | lia | done | unfold zlen in *; lia |].
  intros p' B. apply HQ; [by eapply beat_play | apply B].
Qed.

Lemma wp_beat_stop l o p (k : PM unit) (Q : unit -> Panel -> Prop) :
  panel_ok p -> objs p l = Some o -> l ∈ agile_led_list p -> loop_cnt o = 0 ->
  (forall p', beat l p p' -> l ∉ mortal p' -> wp k Q p') -> wp (run agile_led_stop l; run run_callback rt_malloc (compelete o); k) Q p.
Proof.
  intros Hp Ho Hl Hc HQ. destruct (stopped_active p l o Hp Ho Hl) as [Ha F].
  apply wp_bind. eapply wp_led_stop; [by apply becomes_same|]. unfold stop_writes, stopped_list. rewrite Ha. intros p1 B.
  assert (Hp1 : panel_ok p1) by (eapply fits_ok; [exact Hp | | exact B]; apply fits_stop in F; unfold stopped_list in F; by rewrite Ha in F).
  assert (Hl1 : l ∉ mortal p1) by (rewrite mortal_elem, (bc_list _ _ _ _ _ _ B), remove_first_elem by apply Hp; tauto).
  assert (Hend : forall p', completed (compelete o) p1 p' -> wp k Q p').
  { intros p' C. apply HQ; [by eapply beat_stop | by intros ?%(completed_calmer _ _ _ C)]. }
  clear HQ. apply wp_bind. destruct (compelete o) as [[]|]; cbn [run_callback]; [by apply wp_ret, Hend | | by apply wp_ret, Hend].
  destruct (fits_start_of p1 RF_G Hp1) as (g & Hg & FG). eapply wp_resume; [by apply becomes_same | exact FG |].
  intros g' w' ls' p' B' F' Hi _ Hpin Hw. apply Hend. by exists g, g', w', ls'.
Qed.

Lemma wp_walk fuel : forall todo p (Q : unit -> Panel -> Prop),
  panel_ok p -> (forall l, l ∈ todo -> l ∈ agile_led_list p) -> (length todo + 7 * length (mortal p) <= fuel)%nat ->
  (forall p', beats p p' -> (forall l, l ∈ todo -> l <> RF_G -> beaten l p p') -> Q tt p') -> wp (walk rt_malloc fuel todo) Q p.
Proof.
  induction fuel as [|fuel IH]; intros [|l rest] p Q Hp Hin Hf HQ; cbn [walk length] in *; try lia;
    try (apply wp_ret, HQ; [apply rtc_refl | set_solver]).
  assert (Hl : l ∈ agile_led_list p) by (apply Hin; left).
  destruct (fits_start_of p l Hp) as (o & Ho & _). apply wp_bind. eapply wp_led_obj; [by apply becomes_same|].
  destruct (Z.eqb_spec (loop_cnt o) 0) as [Hc|Hc].
  - apply (wp_beat_stop l o p); [done..|]. intros p1 B1 Hl1.
    pose proof (beat_ok _ _ _ Hp B1) as Hp1. apply wp_bind, wp_gets, IH; [done | done | |].
    + pose proof (led_list_short _ (pn_nodup _ Hp1)).
      assert (length (mortal p1) < length (mortal p))%nat; [|lia].
      apply (calmer_less p p1 l); [done | by eapply beat_calmer | | done]. apply mortal_elem. unfold loops. rewrite Ho. by split; [lia|].
    + intros p' Hb Hrest. apply HQ; [by eapply rtc_l; [exists l|]|]. intros k Hk Hg.
      destruct (decide (k = l)) as [->|Hkl]; [by eapply beaten_now|]. eapply beaten_later; [exact B1|].
      apply Hrest; [|done]. apply (beat_keeps l k p p1); [done..|]. by apply Hin.
  - apply wp_bind, (wp_beat_play l o p); [done..|]. intros p1 B1 El. pose proof (beat_ok _ _ _ Hp B1) as Hp1.
    apply IH; [done | intros k Hk; rewrite El; apply Hin; by right | |].
    + pose proof (calmer_length _ _ Hp1 (beat_calmer _ _ _ Hp B1)). lia.
    + intros p' Hb Hrest. apply HQ; [by eapply rtc_l; [exists l|]|]. intros k [->|Hk]%elem_of_cons Hg.
      * by eapply beaten_now.
      * eapply beaten_later; [exact B1|]. by apply Hrest.
Qed.

(** A turn ends: it is a number of beats, and each led that ran has one. *)
Lemma wp_turn p (Q : unit -> Panel -> Prop) :
  panel_ok p ->
  (forall p', beats p p' -> (forall l, l ∈ agile_led_list p -> l <> RF_G -> beaten l p p') -> Q tt p') -> wp (led_process_turn rt_malloc) Q p.
Proof.
  intros Hp HQ. apply wp_bind, wp_gets, wp_walk; [done | done | | exact HQ].
  pose proof (led_list_short _ (pn_nodup _ Hp)). pose proof (submseteq_length _ _ (NoDup_submseteq _ _ (mortal_nodup _ Hp) (fun l Hl => proj2 (proj1 (mortal_elem p l) Hl)))).
  unfold WALK_FUEL. lia.
Qed.
End Turn.
