(* ===== verification/AgilePlay.v ===== *)
(** * What an indicator shows

    The levels the driver writes to the pin of a running led are whole loops of its
    pattern and a part of one, and after the last loop the led is off; with turns
    that are spaced out it gets there.  The calls of [led.c] leave a led with the
    pattern and in the state of [led_after]. *)

From Stdlib Require Import String.
From S2P Require Import Prelude CStr Led Agile AgileSpec.
Open Scope list_scope.

(** ** Levels *)

(** A loop of a pattern: on for the entries at an even index, off for the others, and
    nothing for an entry of 0. *)
Fixpoint entry_levels (arr : list Z) (i : Z) : list bool :=
  match arr with
  | [] => []
  | a :: arr' => if a =? 0 then entry_levels arr' (i + 1) else (i mod 2 =? 0) :: entry_levels arr' (i + 1)
  end.
Definition loop_levels (arr : list Z) : list bool := entry_levels arr 0.

Definition levels_on (n : Z) (ws : list pin_write) : list Z := map level (filter (fun w => at_pin w = n) ws).

Lemma levels_on_app n v w : levels_on n (v ++ w) = levels_on n v ++ levels_on n w.
Proof. unfold levels_on. by rewrite filter_app, map_app. Qed.

Lemma levels_on_other n w : Forall (fun x => at_pin x <> n) w -> levels_on n w = [].
Proof.
  unfold levels_on. induction 1 as [|x w Hx _ IH]; [done|]. rewrite filter_cons_False by done. exact IH.
Qed.

Lemma entry_levels_app v w i : entry_levels (v ++ w) i = entry_levels v i ++ entry_levels w (i + zlen v).
Proof.
  revert i. induction v as [|a v IH]; intros i; cbn [entry_levels app]; [by rewrite zlen_nil, Z.add_0_r|].
  rewrite IH, zlen_cons. replace (i + 1 + zlen v) with (i + (1 + zlen v)) by lia. by destruct (a =? 0).
Qed.

(** The entries passed over show nothing. *)
Lemma next_entry_some arr : forall i j a, next_entry arr i = Some (j, a) ->
  exists v w, arr = v ++ a :: w /\ j = i + zlen v /\ a <> 0 /\ entry_levels v i = [].
Proof.
  induction arr as [|x arr IH]; intros i j a E; [done|]. cbn [next_entry] in E. destruct (Z.eqb_spec x 0) as [->|Hx].
  - destruct (IH _ _ _ E) as (v & w & -> & -> & Ha & Hv). exists (0 :: v), w. rewrite zlen_cons. repeat split; [lia | done | done].
  - injection E as <- <-. exists [], arr. rewrite zlen_nil. by repeat split; [lia|].
Qed.

Lemma next_entry_none arr : forall i, next_entry arr i = None -> entry_levels arr i = [].
Proof.
  induction arr as [|x arr IH]; intros i E; [done|]. cbn [next_entry entry_levels] in *. destruct (x =? 0); [by apply IH | done].
Qed.

(** ** A led that plays [n] loops of [arr], endlessly when [n] is negative *)

Section Plays.
Context (n : Z) (arr : list Z) (lg : Z).

Definition of_level (on : bool) : Z := if on then lg else lnot lg.
Definition shown_loops (k : nat) : list Z := concat (replicate k (map of_level (loop_levels arr))).
Definition shown_part (i : Z) : list Z := map of_level (loop_levels (take (Z.to_nat i) arr)).

(** The object, and the levels so far. *)
Inductive shown (o : agile_led_t) : list Z -> Prop :=
| shown_running (k : nat) :
    active o = true -> 0 <= arr_index o <= zlen arr ->
    (if n <? 0 then loop_cnt o = n else loop_cnt o = n - Z.of_nat k /\ 0 <= loop_cnt o /\ (loop_cnt o = 0 -> arr_index o = 0)) ->
    shown o (shown_loops k ++ shown_part (arr_index o))
| shown_ended : active o = false -> 0 <= n -> shown o (shown_loops (Z.to_nat n) ++ [lnot lg]).

Lemma shown_is o k ls : ls = shown_loops k ++ shown_part (arr_index o) -> active o = true -> 0 <= arr_index o <= zlen arr ->
  (if n <? 0 then loop_cnt o = n else loop_cnt o = n - Z.of_nat k /\ 0 <= loop_cnt o /\ (loop_cnt o = 0 -> arr_index o = 0)) -> shown o ls.
Proof. intros -> ? ? ?. by apply shown_running. Qed.

Record same_led (o : agile_led_t) (m : Z) : Prop := {
  sl_arr : light_arr o = Some arr; sl_pin : pin o = m; sl_logic : active_logic o = lg
}.

Lemma shown_loops_S k : shown_loops k ++ map of_level (loop_levels arr) = shown_loops (S k).
Proof.
  unfold shown_loops. rewrite replicate_S_end, concat_app. cbn [concat]. by rewrite app_nil_r.
Qed.

Lemma part_step i j a v w :
  0 <= i -> drop (Z.to_nat i) arr = v ++ a :: w -> j = i + zlen v -> a <> 0 -> entry_levels v i = [] ->
  j + 1 <= zlen arr /\ shown_part (j + 1) = shown_part i ++ [of_level (j mod 2 =? 0)].
Proof.
  intros Hi Hd -> Ha Hv. assert (Hsplit : arr = take (Z.to_nat i) arr ++ v ++ a :: w) by (rewrite <- Hd; by rewrite take_drop).
  assert (Hlen : (Z.to_nat i <= length arr)%nat).
  { destruct (Nat.le_gt_cases (Z.to_nat i) (length arr)) as [H|H]; [done|]. rewrite drop_ge in Hd by lia. by destruct v. }
  assert (Hl : zlen (take (Z.to_nat i) arr) = i) by (unfold zlen; rewrite length_take; lia).
  split.
  - rewrite Hsplit, !zlen_app, zlen_cons, Hl. pose proof (zlen_nonneg w). lia.
  - unfold shown_part. replace (take (Z.to_nat (i + zlen v + 1)) arr) with (take (Z.to_nat i) arr ++ v ++ [a]).
    + unfold loop_levels. rewrite !entry_levels_app, Z.add_0_l, Hl, Hv, !map_app. cbn [entry_levels map app]. by rewrite (proj2 (Z.eqb_neq a 0) Ha).
    + assert (Hs : arr = (take (Z.to_nat i) arr ++ v ++ [a]) ++ w) by (by rewrite <- !app_assoc). rewrite Hs at 2.
      rewrite take_app_length'; [done|]. unfold zlen in *. rewrite !length_app. cbn [length]. lia.
Qed.

Lemma part_all i : 0 <= i -> entry_levels (drop (Z.to_nat i) arr) i = [] -> i <= zlen arr -> shown_part i = map of_level (loop_levels arr).
Proof.
  intros Hi Hd Hle. unfold shown_part. f_equal. rewrite <- (take_drop (Z.to_nat i) arr) at 2. unfold loop_levels. rewrite entry_levels_app.
  replace (0 + zlen _) with i; [by rewrite Hd, app_nil_r|]. unfold zlen in *. rewrite length_take. lia.
Qed.

Lemma shown_turned t o ls m :
  same_led o m -> active o = true -> loop_cnt o <> 0 -> shown o ls ->
  let r := turned t arr o in shown (fst r) (ls ++ levels_on m (turn_writes t o (snd r))) /\ same_led (fst r) m.
Proof.
  intros [S1 S2 S3] Ha Hc Hs. inversion Hs as [k _ Hi Hn E|Ha']; [|congruence]. subst ls. cbv zeta. unfold turned.
  destruct (due t o); [|rewrite app_nil_r; by split; [apply shown_running|]].
  destruct (next_entry _ _) as [[j a]|] eqn:E; cbn [fst snd turn_writes].
  - split; [|done]. apply next_entry_some in E as (v & w & Hd & -> & Hz & Hv).
    destruct (part_step (arr_index o) (arr_index o + zlen v) a v w) as [Hj Hp]; [lia | done..|].
    unfold levels_on. rewrite filter_cons_True by exact S2. cbn [filter map level]. unfold show. rewrite S3.
    pose proof (zlen_nonneg v). eapply (shown_is _ k); [cbn; rewrite Hp; by rewrite <- app_assoc | exact Ha | cbn; lia |]. cbn. destruct (n <? 0); [done|]. lia.
  - apply next_entry_none in E. rewrite app_nil_r, part_all, shown_loops_S by (done || lia).
    assert (Hp0 : shown_part 0 = []) by done. split; [|by destruct (0 <? loop_cnt o)].
    rewrite <- (app_nil_r (shown_loops (S k))), <- Hp0.
    eapply (shown_is _ (S k)); [done|..]; cbn; [by destruct (0 <? loop_cnt o) | pose proof (zlen_nonneg arr); lia |].
    destruct (Z.ltb_spec n 0); [|destruct (Z.ltb_spec 0 (loop_cnt o)); cbn; lia].
    destruct (Z.ltb_spec 0 (loop_cnt o)); cbn; lia.
Qed.
End Plays.

(** ** Among the other leds *)

(** Since [since] was written, the pin [m] belongs to [l] and shows its pattern. *)
Record plays (l : led) (m n : Z) (arr : list Z) (lg : Z) (since : list pin_write) (p : Panel) : Prop := {
  pl_ok : panel_ok p;
  pl_shown : exists o w, objs p l = Some o /\ same_led arr lg o m /\ writes p = since ++ w /\ shown n arr lg o (levels_on m w);
  pl_alone k o : k <> l -> k ∈ agile_led_list p \/ k = RF_G -> objs p k = Some o -> pin o <> m
}.

Arguments pl_ok {l m n arr lg since p}.
Arguments pl_shown {l m n arr lg since p}.
Arguments pl_alone {l m n arr lg since p}.

Section Beats.
Context (l : led) (m n : Z) (arr : list Z) (lg : Z) (since : list pin_write) (Hl : l <> RF_G).
Abbreviation plays := (plays l m n arr lg since).

(** Writes to other pins. *)
Lemma plays_other k o w ls p p' :
  plays p -> panel_ok p' -> k <> l -> becomes k o w ls p p' -> pin o <> m -> Forall (fun x => at_pin x = pin o) w ->
  (forall j, j ∈ ls -> j <> k -> j ∈ agile_led_list p) -> plays p'.
Proof.
  intros [_ (ol & v & Ho & Hs & Hw & Hsh) Hal] Hp' Hk [B1 B2 B3 B4 B5 B6] Hpin Hall Hsub. split; [done | |].
  - exists ol, (v ++ w). rewrite B3 by congruence. split; [done|]. split; [done|].
    split; [by rewrite B6, Hw, app_assoc|]. rewrite levels_on_app, (levels_on_other m w), app_nil_r; [done|].
    eapply Forall_impl; [exact Hall|]. cbn. congruence.
  - intros j oj Hj Hin Hoj. destruct (decide (j = k)) as [->|Hjk]; [congruence|]. rewrite B3 in Hoj by done.
    apply (Hal j oj); [done | | done]. destruct Hin as [Hin|]; [left; apply Hsub; [by rewrite <- B4 | done] | by right].
Qed.

(** A beat of the led itself. *)
Lemma plays_play o p p' :
  plays p -> panel_ok p' -> objs p l = Some o -> l ∈ agile_led_list p -> loop_cnt o <> 0 ->
  becomes l (fst (turned (rt_tick p) arr o)) (turn_writes (rt_tick p) o (snd (turned (rt_tick p) arr o))) (agile_led_list p) p p' -> plays p'.
Proof.
  intros [Hp (ol & v & Ho & Hs & Hw & Hsh) Hal] Hp' Ho' Hin Hc [B1 B2 B3 B4 B5 B6]. rewrite Ho in Ho'. injection Ho' as <-.
  destruct (stopped_active p l ol Hp Ho Hin) as [Ha _]. destruct (shown_turned n arr lg (rt_tick p) ol _ m Hs Ha Hc Hsh) as [Hsh' Hs'].
  split; [done | |].
  - eexists _, (v ++ _). rewrite levels_on_app. split; [exact B2|]. split; [done|]. split; [by rewrite B6, Hw, <- app_assoc | exact Hsh'].
  - intros j oj Hj Hji Hoj. rewrite B3 in Hoj by done. apply (Hal j oj); [done | by rewrite <- B4 | done].
Qed.

Lemma plays_stop o p p' :
  plays p -> panel_ok p' -> objs p l = Some o -> l ∈ agile_led_list p -> loop_cnt o = 0 ->
  becomes l (put_active false o) [mkWrite (rt_tick p) (pin o) (lnot (active_logic o))] (remove_first l (agile_led_list p)) p p' -> plays p'.
Proof.
  intros [Hp (ol & v & Ho & [S1 S2 S3] & Hw & Hsh) Hal] Hp' Ho' Hin Hc [B1 B2 B3 B4 B5 B6]. rewrite Ho in Ho'. injection Ho' as <-.
  destruct (stopped_active p l ol Hp Ho Hin) as [Ha _]. split; [done | |].
  - eexists _, (v ++ _). rewrite levels_on_app. split; [exact B2|]. split; [done|]. split; [by rewrite B6, Hw, <- app_assoc|].
    unfold levels_on at 2. rewrite filter_cons_True by exact S2. cbn [filter map level]. rewrite S3.
    inversion Hsh as [k _ Hi Hn E|]; [|congruence]. destruct (Z.ltb_spec n 0); [lia|]. destruct Hn as (Hk & _ & Hz).
    rewrite (Hz Hc). change (shown_part arr lg 0) with (@nil Z). rewrite app_nil_r. replace k with (Z.to_nat n) by lia. by apply shown_ended.
  - intros j oj Hj Hji Hoj. rewrite B3 in Hoj by done. apply (Hal j oj); [done | | done].
    rewrite B4, remove_first_elem in Hji by apply Hp. tauto.
Qed.

Lemma plays_beat k p p' : plays p -> beat k p p' -> plays p'.
Proof.
  intros Hpl Hb. pose proof (beat_ok _ _ _ (pl_ok Hpl) Hb) as Hp'. pose proof (pl_ok Hpl) as Hp.
  pose proof (pl_alone Hpl) as Hal.
  destruct Hb as [o a Ho Hin Hc Ha B | o p1 Ho Hin Hc B C].
  - destruct (decide (k = l)) as [->|Hk].
    + destruct (pl_shown Hpl) as (ol & v & Ho' & [S1 _ _] & _). rewrite Ho in Ho'. injection Ho' as <-.
      rewrite S1 in Ha. injection Ha as <-. by eapply plays_play.
    + destruct (turned_fields (rt_tick p) a o) as (_ & _ & _ & Ep & _). eapply plays_other; [done..| exact B | | | done].
      * rewrite Ep. apply (Hal k o); [done | by left | done].
      * rewrite Ep. unfold turn_writes. destruct (snd _); [by apply Forall_singleton | done].
  - assert (Hp1 : panel_ok p1).
    { destruct (stopped_active p k o Hp Ho Hin) as [Ha F]. eapply fits_ok; [exact Hp | | exact B].
      apply fits_stop in F. unfold stopped_list in F. by rewrite Ha in F. }
    assert (H1 : plays p1).
    { destruct (decide (k = l)) as [->|Hk]; [by eapply plays_stop|]. eapply plays_other; [done..| exact B | | |].
      - apply (Hal k o); [done | by left | done].
      - by apply Forall_singleton.
      - intros j Hj _. apply remove_first_elem in Hj; [tauto | apply Hp]. }
    destruct (compelete o) as [[]|]; cbn in C; [by subst | | by subst].
    destruct C as (g & g' & w & ls & Hg & BG & F & _ & Epin & Hw).
    eapply (plays_other RF_G); [exact H1 | done | congruence | exact BG | | |].
    + rewrite Epin. apply (pl_alone H1 RF_G g); [congruence | by right | done].
    + by rewrite Epin.
    + intros j Hj Hjk. by apply (ft_other _ _ _ _ F).
Qed.

Lemma plays_beats p p' : plays p -> beats p p' -> plays p'.
Proof. intros Hp Hb. induction Hb as [|p p1 p' [k Hk] _ IH]; [done|]. apply IH. by eapply plays_beat. Qed.

Lemma plays_tick t p : plays p -> plays (put_tick t p).
Proof. intros [[Hd Ho] H2 H3]. by split; [split|..]. Qed.
End Beats.

(** Turns of the thread, each at its tick. *)
Fixpoint turns (rt_malloc : Z -> bool) (ts : list Z) : PM unit :=
  match ts with [] => ret tt | t :: ts' => run modify (put_tick t); run led_process_turn rt_malloc; turns rt_malloc ts' end.

Lemma wp_turns_plays l m n arr lg since (Hl : l <> RF_G) rt_malloc ts : forall p,
  plays l m n arr lg since p -> wp (turns rt_malloc ts) (fun _ p' => plays l m n arr lg since p') p.
Proof.
  induction ts as [|t ts IH]; intros p Hp; [done|]. apply wp_bind, wp_modify, wp_bind.
  apply wp_turn; [apply (pl_ok (plays_tick _ _ _ _ _ _ t p Hp))|]. intros p' Hb _. apply IH.
  eapply plays_beats; [done | | exact Hb]. by apply plays_tick.
Qed.

Definition alone (p : Panel) (l : led) : Prop :=
  forall o k o', objs p l = Some o -> k <> l -> k ∈ agile_led_list p \/ k = RF_G -> objs p k = Some o' -> pin o' <> pin o.

(** The start of a pattern. *)
Definition begins (n : Z) (arr : list Z) (o : agile_led_t) : Prop :=
  active o = true /\ light_arr o = Some arr /\ arr_index o = 0 /\ loop_cnt o = n.

Lemma begins_plays p l o n arr : panel_ok p -> objs p l = Some o -> begins n arr o -> alone p l ->
  plays l (pin o) n arr (active_logic o) (writes p) p.
Proof.
  intros Hp Ho (Ha & Harr & Hi & Hc) Hal. split; [done | |].
  - exists o, []. rewrite app_nil_r. split; [done|]. split; [done|]. split; [done|].
    apply (shown_is _ _ _ _ 0); [by rewrite Hi | done | rewrite Hi; pose proof (zlen_nonneg arr); lia |].
    destruct (Z.ltb_spec n 0); lia.
  - intros k o' Hk Hin Ho'. by apply (Hal o k o').
Qed.

(** ** The last loop comes

    The turns are [d] ticks apart, no less than the longest entry. *)

Section Ends.
Context (l : led) (m n : Z) (arr : list Z) (lg : Z) (since : list pin_write) (Hl : l <> RF_G) (Hn : 0 <= n).
Context (d : Z) (Hd : 0 < d /\ 2 * d < 2147483647).
Context (Hshort : forall a, a ∈ arr -> 0 <= rt_tick_from_millisecond (s32 a) <= d) (Hne : loop_levels arr <> []).
Abbreviation plays := (plays l m n arr lg since).

(** The beats that are left. *)
Definition left (o : agile_led_t) : Z :=
  if active o then 1 + loop_cnt o * (1 + zlen (loop_levels arr)) - zlen (loop_levels (take (Z.to_nat (arr_index o)) arr)) else 0.

(** The time since the entry shown ran out: after a beat of the tick [t], before one. *)
Definition rested (t : Z) (o : agile_led_t) : Prop :=
  exists s, tick_timeout o = u32 (t - s) /\ - d <= s /\ (s <= 0 \/ (s <= d /\ arr_index o = 0)).
Definition ready (t : Z) (o : agile_led_t) : Prop :=
  exists s, tick_timeout o = u32 (t - s) /\ 0 <= s /\ (s <= d \/ (s <= 2 * d /\ arr_index o = 0)).

Lemma u32_sub a b : u32 (a - u32 b) = u32 (a - b).
Proof. unfold u32. by rewrite Zminus_mod_idemp_r. Qed.

Lemma rested_ready t o : rested t o -> ready (u32 (t + d)) o.
Proof.
  intros (s & E & Hs & Hc). exists (s + d). split; [|lia]. rewrite E. unfold u32. rewrite Zminus_mod_idemp_l. f_equal. lia.
Qed.

Lemma due_age t s o : tick_timeout o = u32 (t - s) -> - d <= s <= 2 * d -> due t o = (0 <=? s).
Proof.
  intros E Hs. unfold due. rewrite E, u32_sub. replace (t - (t - s)) with s by lia. unfold u32. change (RT_TICK_MAX / 2) with 2147483647.
  destruct (Z.leb_spec 0 s).
  - rewrite Z.mod_small by lia. by apply Z.ltb_lt; lia.
  - replace (s mod 2 ^ 32) with (s + 2 ^ 32) by (rewrite <- (Z.mod_add s 1) by lia; rewrite Z.mod_small; lia).
    apply Z.ltb_ge. lia.
Qed.

Lemma left_part o j a v w :
  0 <= arr_index o -> drop (Z.to_nat (arr_index o)) arr = v ++ a :: w -> j = arr_index o + zlen v -> a <> 0 -> entry_levels v (arr_index o) = [] ->
  zlen (loop_levels (take (Z.to_nat (j + 1)) arr)) = zlen (loop_levels (take (Z.to_nat (arr_index o)) arr)) + 1.
Proof.
  intros Hi Hdr Hj Ha Hv. destruct (part_step arr 0 (arr_index o) j a v w) as [_ E]; [done..|].
  apply (f_equal zlen) in E. unfold shown_part in E. rewrite zlen_app in E. unfold zlen in *. rewrite !length_map in E. exact E.
Qed.

Lemma left_pos o : active o = true -> 0 < loop_cnt o -> 0 < left o.
Proof.
  intros Ha Hc. unfold left. rewrite Ha.
  pose proof (f_equal zlen (entry_levels_app (take (Z.to_nat (arr_index o)) arr) (drop (Z.to_nat (arr_index o)) arr) 0)) as Hz.
  rewrite take_drop, zlen_app in Hz. unfold loop_levels.
  pose proof (zlen_nonneg (entry_levels (drop (Z.to_nat (arr_index o)) arr) (0 + zlen (take (Z.to_nat (arr_index o)) arr)))).
  pose proof (zlen_nonneg (entry_levels arr 0)). nia.
Qed.

(** A beat that is due. *)
Lemma turned_due t o s :
  tick_timeout o = u32 (t - s) -> 0 <= s <= 2 * d -> s <= d \/ arr_index o = 0 ->
  active o = true -> 0 < loop_cnt o -> 0 <= arr_index o <= zlen arr ->
  rested t (fst (turned t arr o)) /\ left (fst (turned t arr o)) = left o - 1.
Proof.
  intros E Hs Hc Ha Hlc Hi. unfold turned. rewrite (due_age t s o E) by lia. rewrite (proj2 (Z.leb_le 0 s)) by lia.
  destruct (next_entry _ _) as [[j a]|] eqn:En; cbn [fst].
  - apply next_entry_some in En as (v & w & Hdr & Hj & Hz & Hv).
    assert (Hin : a ∈ arr).
    { rewrite <- (take_drop (Z.to_nat (arr_index o)) arr), Hdr, !elem_of_app, elem_of_cons. tauto. }
    pose proof (Hshort a Hin). split.
    + exists (- rt_tick_from_millisecond (s32 a)). cbn [tick_timeout arr_index put_arr_index put_tick_timeout]. split; [f_equal; lia | lia].
    + unfold left. cbn. rewrite Ha. rewrite (left_part o j a v w) by done || lia. lia.
  - apply next_entry_none in En. rewrite (proj2 (Z.ltb_lt _ _) Hlc).
    assert (Hall : loop_levels (take (Z.to_nat (arr_index o)) arr) = loop_levels arr).
    { unfold loop_levels. rewrite <- (take_drop (Z.to_nat (arr_index o)) arr) at 2. rewrite entry_levels_app.
      replace (0 + zlen _) with (arr_index o); [by rewrite En, app_nil_r|]. unfold zlen in *. rewrite length_take. lia. }
    split.
    + exists s. cbn. split; [done|]. split; [lia|]. right. split; [|done].
      destruct Hc as [|Hz]; [done|]. exfalso. apply Hne. rewrite <- Hall, Hz. done.
    + unfold left. cbn [active loop_cnt arr_index put_arr_index put_loop_cnt]. rewrite Ha, Hall. change (zlen (loop_levels (take (Z.to_nat 0) arr))) with 0. lia.
Qed.

Lemma turned_rested t o :
  rested t o -> active o = true -> 0 < loop_cnt o -> 0 <= arr_index o <= zlen arr ->
  rested t (fst (turned t arr o)) /\ left (fst (turned t arr o)) <= left o.
Proof.
  intros Hr Ha Hlc Hi. pose proof Hr as (s & E & Hs & Hc). destruct (Z.leb_spec 0 s).
  - destruct (turned_due t o s) as [H1 H2]; [done | lia | lia | done..|]. split; [done | lia].
  - unfold turned. rewrite (due_age t s o E) by lia. rewrite (proj2 (Z.leb_gt 0 s)) by lia. cbn [fst]. split; [done | lia].
Qed.

(** On the way through a turn that began with [k] beats left. *)
Definition before (k : Z) (p : Panel) : Prop := forall o, objs p l = Some o -> left o <= Z.max 0 k /\ (active o = true -> ready (rt_tick p) o).
Definition after (k : Z) (p : Panel) : Prop :=
  forall o, objs p l = Some o -> left o <= Z.max 0 k /\ (active o = true -> rested (rt_tick p) o).

Lemma own_beat p p' o : plays p -> objs p l = Some o -> beat l p p' ->
  active o = true /\
  (exists o', objs p' l = Some o' /\ left o' = 0 /\ active o' = false /\ left o = 1
   \/ objs p' l = Some o' /\ o' = fst (turned (rt_tick p) arr o) /\ 0 < loop_cnt o /\ 0 <= arr_index o <= zlen arr).
Proof.
  intros Hpl Ho [o1 a Ho1 Hin Hc Ha B | o1 p1 Ho1 Hin Hc B C]; rewrite Ho in Ho1; injection Ho1 as <-;
    destruct (stopped_active p l o (pl_ok Hpl) Ho Hin) as [Hact _]; (split; [done|]);
    destruct (pl_shown Hpl) as (ol & v & Ho' & [S1 _ _] & _ & Hsh); rewrite Ho in Ho'; injection Ho' as <-;
    (inversion Hsh as [k _ Hi Hk E|]; [|congruence]); rewrite (proj2 (Z.ltb_ge n 0) Hn) in Hk; destruct Hk as (Hk1 & Hk2 & Hk3).
  - exists (fst (turned (rt_tick p) arr o)). right. rewrite S1 in Ha. injection Ha as <-. split; [apply B|]. split; [done|]. lia.
  - exists (put_active false o). left. split.
    + rewrite <- (bc_obj _ _ _ _ _ _ B). destruct (compelete o) as [[]|]; cbn in C; [by subst | | by subst].
      destruct C as (g & g' & w & ls & Hg & BG & _). by apply (bc_other _ _ _ _ _ _ BG).
    + unfold left. cbn. rewrite Hact, Hc, (Hk3 Hc). done.
Qed.

Lemma after_beat k j p p' : plays p -> after k p -> beat j p p' -> after k p'.
Proof.
  intros Hpl Haf Hb o' Ho'. rewrite (beat_tick _ _ _ Hb). destruct (decide (j = l)) as [->|Hj].
  - destruct (pl_shown Hpl) as (o & v & Ho & _). destruct (Haf o Ho) as [H1 H2].
    destruct (own_beat p p' o Hpl Ho Hb) as [Ha (o1 & [(E & H3 & H4 & H5)|(E & -> & H3 & H4)])]; rewrite E in Ho'; injection Ho' as <-.
    + split; [lia | congruence].
    + destruct (turned_rested _ o (H2 Ha) Ha H3 H4) as [H5 H6]. split; [lia | done].
  - destruct (beat_keeps j l p p' (pl_ok Hpl) Hb) as [E _]; [done..|]. apply Haf. by rewrite <- E.
Qed.

Lemma after_beats k p p' : plays p -> after k p -> beats p p' -> after k p'.
Proof.
  intros Hpl Haf Hb. induction Hb as [|p p1 p' [j Hj] _ IH]; [done|].
  apply IH; [by eapply plays_beat | by eapply after_beat].
Qed.

Lemma before_beat k j p p' : plays p -> before k p -> beat j p p' -> if decide (j = l) then after (k - 1) p' else before k p'.
Proof.
  intros Hpl Hbf Hb. case_decide as Hj; intros o' Ho'; rewrite (beat_tick _ _ _ Hb).
  - subst j. destruct (pl_shown Hpl) as (o & v & Ho & _). destruct (Hbf o Ho) as [H1 H2].
    destruct (own_beat p p' o Hpl Ho Hb) as [Ha (o1 & [(E & H3 & H4 & H5)|(E & -> & H3 & H4)])]; rewrite E in Ho'; injection Ho' as <-.
    + split; [lia | congruence].
    + destruct (H2 Ha) as (s & Es & Hs & Hc). destruct (turned_due (rt_tick p) o s) as [H5 H6]; [done | lia | lia | done..|].
      pose proof (left_pos o Ha H3). split; [lia | done].
  - destruct (beat_keeps j l p p' (pl_ok Hpl) Hb) as [E _]; [done..|]. apply Hbf. by rewrite <- E.
Qed.

Lemma before_beats k p p' : plays p -> before k p -> beats p p' -> before k p' \/ after (k - 1) p'.
Proof.
  intros Hpl Hbf Hb. induction Hb as [|p p1 p' [j Hj] Hb IH]; [by left|].
  pose proof (before_beat _ _ _ _ Hpl Hbf Hj) as H. pose proof (plays_beat _ _ _ _ _ _ Hl _ _ _ Hpl Hj) as Hp1.
  case_decide; [right; by eapply after_beats | by apply IH].
Qed.

Lemma turn_progress k p p' : plays p -> before k p -> beats p p' -> (l ∈ agile_led_list p -> beaten l p p') -> after (k - 1) p'.
Proof.
  intros Hpl Hbf Hb Hbeat. destruct (decide (l ∈ agile_led_list p)) as [Hin|Hin].
  - destruct (Hbeat Hin) as (p1 & p2 & B1 & B2 & B3).
    pose proof (plays_beats _ _ _ _ _ _ Hl _ _ Hpl B1) as Hp1. pose proof (plays_beat _ _ _ _ _ _ Hl _ _ _ Hp1 B2) as Hp2.
    eapply after_beats; [exact Hp2 | | exact B3]. destruct (before_beats _ _ _ Hpl Hbf B1) as [H|H].
    + pose proof (before_beat _ _ _ _ Hp1 H B2) as H'. by rewrite decide_True in H'.
    + exact (after_beat _ _ _ _ Hp1 H B2).
  - eapply after_beats; [exact Hpl | | exact Hb]. intros o Ho.
    destruct (pn_obj _ (pl_ok Hpl) l) as (o1 & Ho1 & _ & Ha). rewrite Ho in Ho1. injection Ho1 as <-.
    unfold left. destruct (active o); [by apply Ha in Hin || tauto |]. split; [lia | done].
Qed.

Fixpoint spaced (t : Z) (k : nat) : list Z := match k with O => [] | S k' => u32 (t + d) :: spaced (u32 (t + d)) k' end.

Lemma wp_turns_ends rt_malloc i : forall k p, plays p -> after k p ->
  wp (turns rt_malloc (spaced (rt_tick p) i)) (fun _ p' => plays p' /\ after (k - Z.of_nat i) p') p.
Proof.
  induction i as [|i IH]; intros k p Hpl Haf; cbn [spaced turns]; [by apply wp_ret; rewrite Z.sub_0_r|].
  apply wp_bind, wp_modify, wp_bind. pose proof (plays_tick _ _ _ _ _ _ (u32 (rt_tick p + d)) _ Hpl) as Hpt.
  apply wp_turn; [apply (pl_ok Hpt)|]. intros p' Hb Hbeat.
  assert (Hbf : before k (put_tick (u32 (rt_tick p + d)) p)).
  { intros o Ho. destruct (Haf o Ho) as [H1 H2]. split; [done|]. intros Ha. by apply rested_ready, H2. }
  assert (Ht : rt_tick p' = u32 (rt_tick p + d)).
  { clear -Hb. remember (put_tick (u32 (rt_tick p + d)) p) as q eqn:Eq. rewrite <- (f_equal rt_tick Eq : rt_tick q = u32 (rt_tick p + d)).
    clear Eq. induction Hb as [|q q1 q' [j Hj] _ IH]; [done|]. by rewrite IH, (beat_tick _ _ _ Hj). }
  pose proof (plays_beats _ _ _ _ _ _ Hl _ _ Hpt Hb) as Hp'. rewrite <- Ht.
  eapply wp_conseq; [apply (IH (k - 1) p' Hp')|].
  - eapply turn_progress; [exact Hpt | exact Hbf | exact Hb |]. intros Hin. by apply Hbeat.
  - intros _ p2 [H1 H2]. split; [done|]. by replace (k - Z.of_nat (S i)) with (k - 1 - Z.of_nat i) by lia.
Qed.
End Ends.

(** ** The panel from its start *)

(** The program's own calls. *)
Definition leds_call (m : M Leds unit) : list led_call := match m [] with Some (_, cs) => cs | None => [] end.

Inductive panel_request : list led_call -> Prop :=
| pr_beep_start n : panel_request (leds_call (beep_start n))
| pr_beep_power n : panel_request (leds_call (beep_power n))
| pr_beep_kick : panel_request (leds_call beep_kick)
| pr_wifi n : panel_request (leds_call (wifi_led n))
| pr_wifi_factory n : panel_request (leds_call (wifi_led_factory n))
| pr_rf n : panel_request (leds_call (rf_led n))
| pr_rf_factory n : panel_request (leds_call (rf_led_factory n))
| pr_learn_success : panel_request (leds_call learn_success)
| pr_learn_fail : panel_request (leds_call learn_fail)
| pr_led_test : panel_request (leds_call led_test)
| pr_beep_test : panel_request (leds_call beep_test).

Lemma mode_is_ok mode : bool_decide (str mode <> [] /\ zlen (str mode) < 1000) = true -> mode_ok (str mode).
Proof. intros H%bool_decide_eq_true. destruct H as [H1 H2]. split; [done | lia]. Qed.

Lemma leds_call_all cs : leds_call (led_all cs) = cs.
Proof. unfold leds_call. by rewrite led_all_spec. Qed.

Lemma request_ok cs : panel_request cs -> Forall call_ok cs.
Proof.
  intros []; unfold beep_start, beep_power, beep_kick, wifi_led, wifi_led_factory, rf_led, rf_led_factory, learn_success, learn_fail, led_test, beep_test;
    repeat case_match; rewrite ?leds_call_all; try done;
    repeat (apply Forall_cons; split; [first [exact I | by apply mode_is_ok]|]); by apply Forall_nil.
Qed.

Definition act_ok (a : panel_act) : Prop := match a with Calls cs => panel_request cs | Turn _ => True end.

Lemma beats_ok p p' : panel_ok p -> beats p p' -> panel_ok p'.
Proof. intros Hp Hb. induction Hb as [|p p1 p' [l Hl] _ IH]; [done|]. apply IH. by eapply beat_ok. Qed.

Lemma wp_panel_run rt_malloc acts : forall p, Forall act_ok acts -> panel_ok p -> wp (panel_run rt_malloc acts) (fun _ p' => panel_ok p') p.
Proof.
  induction acts as [|a acts IH]; intros p Ha Hp; [done|]. apply Forall_cons in Ha as [Ha Hacts]. apply wp_bind.
  destruct a as [cs|t]; cbn [panel_do act_ok] in *.
  - apply wp_calls_ok; [by apply request_ok | done |]. intros p' Hp'. by apply IH.
  - apply wp_bind, wp_modify. assert (Hpt : panel_ok (put_tick t p)) by (destruct Hp; by split).
    apply wp_turn; [done|]. intros p' Hb _. apply IH; [done|]. by eapply beats_ok.
Qed.

(** All objects made, none runs. *)
Definition resting_led (p : Panel) (l : led) : Prop :=
  exists o, objs p l = Some o /\ obj_ok o /\ active o = false /\ is_Some (light_arr o).

Lemma objects_made p1 p2 p3 p4 p5 t (Q : unit -> Panel -> Prop) :
  (forall p, panel_ok p -> (forall l, resting_led p l) -> Q tt p) ->
  wp (run agile_led_init true true; led_objects (fun _ => true) p1 p2 p3 p4 p5) Q (no_leds t).
Proof.
  intros HQ.
  match goal with |- wp ?m Q ?s => let r := eval vm_compute in (match m s with Some (_, p) => Some p | None => None end) in
    lazymatch r with Some ?p => assert (E : m s = Some (tt, p)) by (vm_compute; reflexivity) end end.
  unfold wp. rewrite E. match type of E with _ = Some (tt, ?p) => assert (Hr : forall l, resting_led p l) end.
  { intros l. destruct l; (eexists; split; [reflexivity|]; split; [|split; [reflexivity | eexists; reflexivity]]);
      (split; cbn; [intros arr [= <-]; split; [reflexivity | split; [reflexivity | reflexivity]] | discriminate | discriminate]). }
  apply HQ; [|done]. split; [by apply NoDup_nil|]. intros l. destruct (Hr l) as (o & Ho & Hok & Ha & _). exists o. split; [done|]. split; [done|].
  rewrite Ha. cbn. split; [done|]. intros Hin. by apply not_elem_of_nil in Hin.
Qed.

(** ** The leds show what [led_after] says *)

Definition agrees (p : Panel) (l : led) (s : option (string * Z) * bool) : Prop :=
  exists o, objs p l = Some o /\ is_Some (light_arr o) /\ active o = snd s
    /\ match fst s with Some (mode, n) => light_arr o = pattern (str mode) /\ loop_init o = n | None => True end.

Lemma agrees_call c l s p (Q : unit -> Panel -> Prop) :
  call_ok c -> panel_ok p -> agrees p l s -> (forall p', panel_ok p' -> agrees p' l (led_step l s c) -> Q tt p') ->
  wp (do_call (fun _ => true) c) Q p.
Proof.
  intros Hc Hp (ol & Hol & Hl & Ha & Hm) HQ. destruct (fits_start_of p (call_led c) Hp) as (o & Ho & F).
  eapply wp_call; [done | by apply becomes_same | done |]. intros o' w' ls' p' B' F' C _.
  apply HQ; [by eapply fits_ok|]. destruct (decide (call_led c = l)) as [E|E].
  - rewrite E in *. rewrite Ho in Hol. injection Hol as ->. exists o'. split; [apply B'|].
    destruct c as [k|k mode n|k|k r]; cbn [call_led] in E; subst k; cbn [called led_step call_led] in *; rewrite ?decide_True by done.
    + by destruct C as [-> _].
    + destruct C as [(arr & Earr & -> & _)|(k & Hk & _)]; [|done]. cbn [fst snd]. rewrite Earr. by repeat split; [eexists | ..].
    + destruct Hl as [arr Harr]. destruct (ok_arr _ (ft_obj _ _ _ _ F) _ Harr) as [En Hz].
      unfold startable in C. rewrite Harr, En, (proj2 (Z.eqb_neq (zlen arr) 0)) in C by lia.
      destruct (active ol) eqn:Eact; cbn in C; destruct C as [-> _]; cbn; rewrite Harr in *; by repeat split; [eexists | ..].
    + by destruct C as [-> _].
  - exists ol. rewrite (bc_other _ _ _ _ _ _ B') by congruence. split; [done|]. split; [done|].
    destruct c as [k|k mode n|k|k r]; cbn [call_led] in E; cbn [led_step]; rewrite ?decide_False by done; done.
Qed.

Lemma agrees_calls cs l : forall s p (Q : unit -> Panel -> Prop),
  Forall call_ok cs -> panel_ok p -> agrees p l s -> (forall p', panel_ok p' -> agrees p' l (fold_left (led_step l) cs s) -> Q tt p') ->
  wp (do_calls (fun _ => true) cs) Q p.
Proof.
  induction cs as [|c cs IH]; intros s p Q Hc Hp Hs HQ; [by apply wp_ret, HQ|]. apply Forall_cons in Hc as [Hc Hcs].
  apply wp_bind. eapply agrees_call; [done..|]. intros p' Hp' Hs'. by eapply IH.
Qed.

Lemma resting_agrees p l : resting_led p l -> agrees p l (None, false).
Proof. intros (o & Ho & _ & Ha & Hl). by exists o. Qed.

(** ** Properties *)

Lemma wp_start_then {A} (a : PM bool) (b : PM unit) (k : PM A) (Q : A -> Panel -> Prop) p :
  wp (run a; b) (fun _ p' => wp k Q p') p -> wp (run a; run b; k) Q p.
Proof.
  unfold wp, bind. destruct (a p) as [[x q]|]; [|done]. by destruct (b q) as [[y r]|].
Qed.


(** After the calls the program makes from its start on, each led has the pattern
    and the number of loops that were set last, and runs when it was started and not
    stopped since: the state [led_after] says. *)
Theorem calls_shown p1 p2 p3 p4 p5 t css l :
  Forall panel_request css ->
  wp (run agile_led_init true true; run led_objects (fun _ => true) p1 p2 p3 p4 p5; do_calls (fun _ => true) (concat css))
     (fun _ p => agrees p l (led_after (concat css) l)) (no_leds t).
Proof.
  intros Hc. apply wp_start_then, objects_made. intros p Hp Hr.
  eapply agrees_calls; [apply Forall_concat; eapply Forall_impl; [exact Hc | exact request_ok] | done | by apply resting_agrees |]. done.
Qed.



(** *** Witnesses *)

(** The buzzer was asked for two beeps. *)
Definition beeping : Panel :=
  match (run agile_led_init true true; run led_objects (fun _ => true) 1 2 3 4 5; do_calls (fun _ => true) (leds_call (beep_start 2))) (no_leds 0) with
  | Some (_, p) => p
  | None => no_leds 0
  end.
Definition beeper : agile_led_t := mkAgile true 5 1 0 0 (Some [200; 200]) 2 0 2 2 0 (Some default_compelete) 0.

Lemma wp_ended (m : PM unit) (Q : Panel -> Prop) p d : wp m (fun _ p' => Q p') p -> Q (match m p with Some (_, p') => p' | None => d end).
Proof. unfold wp. by destruct (m p) as [[[] p']|]. Qed.

Lemma beeping_ok : panel_ok beeping.
Proof.
  apply (wp_ended _ panel_ok), wp_start_then, objects_made. intros p Hp _. apply wp_calls_ok; [|exact Hp | by intros].
  apply request_ok, pr_beep_start.
Qed.

Lemma beeping_alone : alone beeping beep.
Proof.
  intros o k o' Ho Hk Hin Ho'. vm_compute in Ho. injection Ho as <-. destruct k; try congruence;
    try (destruct Hin as [Hin|Hin]; [vm_compute in Hin; apply list_elem_of_singleton in Hin; congruence | congruence]).
  vm_compute in Ho'. injection Ho' as <-. done.
Qed.


Lemma calls_shown_witness :
  wp (run agile_led_init true true; run led_objects (fun _ => true) 1 2 3 4 5; do_calls (fun _ => true) (concat [leds_call (wifi_led 1); leds_call (wifi_led 4)]))
     (fun _ p => agrees p WIFI_B (Some ("200,0"%string, -1), true)) (no_leds 0).
Proof.
  apply (calls_shown 1 2 3 4 5 0 [leds_call (wifi_led 1); leds_call (wifi_led 4)] WIFI_B).
  repeat (apply Forall_cons; split; [constructor|]). by apply Forall_nil.
Defined.


