(* ===== verification/World.v ===== *)
(** * The state of the program

    One record of the components' states; [Lens] is what a component promises to
    the code that uses it: its part of the state can be read and replaced without
    touching the others. *)

From S2P Require Import Prelude CStr McuTx Flashwork RadioQueue Led.

Class Lens (W S : Type) := {
  view : W -> S;
  over : S -> W -> W;
  view_over s w : view (over s w) = s;
  over_view w : over (view w) w = w;
  over_over s t w : over s (over t w) = over s w
}.

(** A component's operation, in the whole program. *)
Definition on {W S A} `{Lens W S} (m : M S A) : M W A := zoom view over m.

Lemma wp_on {W S A} `{Lens W S} (m : M S A) (Q : A -> W -> Prop) w :
  wp m (fun a s' => Q a (over s' w)) (view w) -> wp (on m) Q w.
Proof. apply wp_zoom. Qed.

Lemma on_bind {W S A B} `{Lens W S} (m : M S A) (k : A -> M S B) w :
  on (bind m k) w = bind (on m) (fun a => on (k a)) w.
Proof.
  unfold on, zoom, bind. destruct (m (view w)) as [[a s']|]; [|done].
  rewrite view_over. destruct (k a s') as [[b s'']|]; [|done]. by rewrite over_over.
Qed.

(** ** The components that have no file of their own *)

(** [Remote_Device] of [src/wifi/wifi-api.c]: the devices the cloud knows. *)
Record Remote_Info := mkRemote { remote_Num : Z; remote_ID : list Z }.

(** The synchronisation of [src/wifi/wifi-api.c]: its variables, whether the
    timer [Sync_Timeout_t] runs, and the count of [Sync_Once_Sem]. *)
Record Sync := mkSync {
  Sync_Counter : Z; Sync_Recv : Z; Sync_Start : Z; Sync_timer : bool; Sync_sem : Z
}.

(** The state of the link to the WiFi module: [src/wifi/mcu_api.c],
    [src/wifi/protocol.c], [src/wifi/wifi-uart.c], [src/wifi/wifi-service.c],
    [src/applications/factory.c]; whether the two timers run. *)
Record Wifi := mkWifi {
  reset_wifi_flag : Z; set_wifimode_flag : Z; wifi_work_state : Z; if_subdev_net_in : Z;
  wifi_status : Z; wifi_connected : Z; WiFi_FactoryFlag : Z; rf_factoryflag : Z;
  Reset_WiFi_Counter : Z; wifi_rst_timer : bool; wifi_test_timer : bool; wifi_power : bool
}.

Definition remote0 : Remote_Info := mkRemote 0 (replicate 50 0).
Definition sync0 : Sync := mkSync 1 0 0 false 0.
Definition wifi0 : Wifi := mkWifi 0 0 0 0 255 0 0 0 0 false false false.
Definition tx0 : Tx := mkTx (replicate 4103 0) [] 0.

Record World (E : Type) := mkWorld {
  w_tx : Tx; w_flash : Flash E; w_radio : Radio; w_leds : Leds;
  w_remote : Remote_Info; w_sync : Sync; w_wifi : Wifi
}.
Arguments mkWorld {E}.
Arguments w_tx {E}. Arguments w_flash {E}. Arguments w_radio {E}. Arguments w_leds {E}.
Arguments w_remote {E}. Arguments w_sync {E}. Arguments w_wifi {E}.

Section Lenses.
Context {E : Type}.

Definition set_tx (s : Tx) (w : World E) :=
  mkWorld s (w_flash w) (w_radio w) (w_leds w) (w_remote w) (w_sync w) (w_wifi w).
Definition set_flash (s : Flash E) (w : World E) :=
  mkWorld (w_tx w) s (w_radio w) (w_leds w) (w_remote w) (w_sync w) (w_wifi w).
Definition set_radio (s : Radio) (w : World E) :=
  mkWorld (w_tx w) (w_flash w) s (w_leds w) (w_remote w) (w_sync w) (w_wifi w).
Definition set_leds (s : Leds) (w : World E) :=
  mkWorld (w_tx w) (w_flash w) (w_radio w) s (w_remote w) (w_sync w) (w_wifi w).
Definition set_remote (s : Remote_Info) (w : World E) :=
  mkWorld (w_tx w) (w_flash w) (w_radio w) (w_leds w) s (w_sync w) (w_wifi w).
Definition set_sync (s : Sync) (w : World E) :=
  mkWorld (w_tx w) (w_flash w) (w_radio w) (w_leds w) (w_remote w) s (w_wifi w).
Definition set_wifi (s : Wifi) (w : World E) :=
  mkWorld (w_tx w) (w_flash w) (w_radio w) (w_leds w) (w_remote w) (w_sync w) s.

#[global] Instance lens_tx : Lens (World E) Tx.
Proof. refine {| view := w_tx; over := set_tx |}; by (intros; repeat match goal with w : World _ |- _ => destruct w end). Defined.
#[global] Instance lens_flash : Lens (World E) (Flash E).
Proof. refine {| view := w_flash; over := set_flash |}; by (intros; repeat match goal with w : World _ |- _ => destruct w end). Defined.
#[global] Instance lens_radio : Lens (World E) Radio.
Proof. refine {| view := w_radio; over := set_radio |}; by (intros; repeat match goal with w : World _ |- _ => destruct w end). Defined.
#[global] Instance lens_leds : Lens (World E) Leds.
Proof. refine {| view := w_leds; over := set_leds |}; by (intros; repeat match goal with w : World _ |- _ => destruct w end). Defined.
#[global] Instance lens_remote : Lens (World E) Remote_Info.
Proof. refine {| view := w_remote; over := set_remote |}; by (intros; repeat match goal with w : World _ |- _ => destruct w end). Defined.
#[global] Instance lens_sync : Lens (World E) Sync.
Proof. refine {| view := w_sync; over := set_sync |}; by (intros; repeat match goal with w : World _ |- _ => destruct w end). Defined.
#[global] Instance lens_wifi : Lens (World E) Wifi.
Proof. refine {| view := w_wifi; over := set_wifi |}; by (intros; repeat match goal with w : World _ |- _ => destruct w end). Defined.
End Lenses.

Definition world0 : World (gmap (list Z) (list Z)) :=
  mkWorld tx0 flash0 radio0 [] remote0 sync0 wifi0.
