(* ===== verification/WifiApi.v ===== *)
(** * What the program tells the cloud

    [src/wifi/wifi-api.c], and the functions of [src/applications/flashwork.c]
    that call it ([Del_Device], [Del_MainBind], [Flash_Set_Heart]). *)

From Stdlib Require Import String.
From S2P Require Import Prelude CStr McuTx Json Cloud Flashwork RadioQueue Led World.
Open Scope list_scope.

Definition DPID_SELF_ID := 112.
Definition DPID_DEVICE_STATE := 101.
Definition DPID_VALVE1_CHECK_FAIL := 102.
Definition DPID_DEVICE_ALARM := 103.
Definition DPID_CONTROL_STATE := 104.
Definition DPID_SIGN_STATE := 105.
Definition DPID_DELAY_STATE := 106.
Definition DPID_TEMP_STATE := 107.
Definition DPID_DOOR_ID := 108.
Definition DPID_LINE_STATE := 109.
Definition DPID_VALVE2_CHECK_FAIL := 113.
Definition DPID_VALVE1_CHECK_SUCCESS := 114.
Definition DPID_VALVE2_CHECK_SUCCESS := 115.

Definition door_pid : list Z := str "emnzq3qxwfplx7db".
Definition slave_pid : list Z := str "lnbkva6cip8dw7vy".
Definition main_pid : list Z := str "q3xnn9yqt55ifaxm".

Definition is_main_id (id : Z) : bool := (10000000 <=? id) && (id <? 20000000).
Definition is_slave_id (id : Z) : bool := (20000000 <=? id) && (id <? 30000000).
Definition is_door_id (id : Z) : bool := (30000000 <=? id) && (id <? 40000000).

(** [while(num) { body(num); num--; }] *)
Fixpoint loop_down {S} (n : nat) (body : Z -> M S unit) : M S unit :=
  match n with
  | O => ret tt
  | Datatypes.S k => run body (Z.of_nat n); loop_down k body
  end.

Section Operations.
Context {E : Type} `{Env E}.

Abbreviation WM := (M (World E)).

Definition void {A} (m : WM A) : WM unit := run m; ret tt.

(** [sprintf(buf, "%ld", id)] and the upload with [my_strlen(buf)]. *)
Definition dp_bool (dpid value id : Z) : WM unit :=
  void (on (mcu_dp_bool_update dpid value (Some (fmt_ld id)) (zlen (fmt_ld id)))).
Definition dp_value (dpid value id : Z) : WM unit :=
  void (on (mcu_dp_value_update dpid value (Some (fmt_ld id)) (zlen (fmt_ld id)))).
Definition dp_enum (dpid value id : Z) : WM unit :=
  void (on (mcu_dp_enum_update dpid value (Some (fmt_ld id)) (zlen (fmt_ld id)))).

Definition dev_slot (i : Z) : WM Slot := on (slot_at i).
Definition dev_num : WM Z := gets (fun w => Num (Global_Device (w_flash w))).

(** *** Uploads *)

Definition WariningUpload (from_id device_id type value : Z) : WM unit :=
  let type := u8 type in
  let value := u8 value in
  if 0 <? device_id then
    if type =? 0 then dp_bool 103 value device_id
    else if type =? 1 then
      run (if negb (value =? 0) then dp_bool 104 0 device_id else ret tt);
      dp_enum 1 value device_id
    else if type =? 2 then dp_enum 102 value device_id
    else if type =? 3 then dp_bool 104 value device_id
    else ret tt
  else
    if type =? 0 then
      if value =? 0 then
        run dp_bool DPID_VALVE1_CHECK_FAIL 0 from_id;
        dp_bool DPID_VALVE1_CHECK_SUCCESS 1 from_id
      else if value =? 1 then
        run dp_bool DPID_VALVE2_CHECK_FAIL 0 from_id;
        dp_bool DPID_VALVE2_CHECK_SUCCESS 1 from_id
      else if value =? 2 then
        run dp_bool DPID_TEMP_STATE 0 from_id;
        run dp_bool DPID_LINE_STATE 0 from_id;
        dp_bool DPID_VALVE1_CHECK_FAIL 1 from_id
      else if value =? 3 then
        run dp_bool DPID_TEMP_STATE 0 from_id;
        run dp_bool DPID_LINE_STATE 0 from_id;
        dp_bool DPID_VALVE2_CHECK_FAIL 1 from_id
      else ret tt
    else if type =? 1 then
      run (if negb (value =? 0) then
             run dp_bool DPID_VALVE1_CHECK_FAIL 0 from_id;
             run dp_bool DPID_VALVE2_CHECK_FAIL 0 from_id;
             run dp_bool DPID_TEMP_STATE 0 from_id;
             dp_bool DPID_LINE_STATE 0 from_id
           else ret tt);
      dp_bool DPID_DEVICE_ALARM value from_id
    else if type =? 2 then dp_bool DPID_LINE_STATE value from_id
    else if type =? 3 then
      run (if negb (value =? 0) then dp_bool DPID_LINE_STATE 0 from_id else ret tt);
      dp_bool DPID_TEMP_STATE value from_id
    else ret tt.

Definition CloseWarn_Main (device_id : Z) : WM unit :=
  run dp_bool DPID_DEVICE_ALARM 0 device_id;
  dp_bool DPID_DELAY_STATE 0 device_id.

(** The id is sent as a boolean: [mcu_dp_bool_update] takes its low byte. *)
Definition InitWarn_Main (device_id : Z) : WM unit :=
  run dp_bool DPID_SELF_ID device_id device_id;
  run dp_bool DPID_DEVICE_ALARM 0 device_id;
  run dp_bool DPID_VALVE1_CHECK_FAIL 0 device_id;
  run dp_bool DPID_VALVE2_CHECK_FAIL 0 device_id;
  run dp_bool DPID_TEMP_STATE 0 device_id;
  dp_bool DPID_LINE_STATE 0 device_id.

Definition CloseWarn_Slave (device_id : Z) : WM unit := dp_enum 1 0 device_id.

Definition Slave_Heart (device_id rssi : Z) : WM unit :=
  let rssi := u8 rssi in
  run on (Flash_Set_Rssi device_id rssi);
  dp_enum 101 rssi device_id.

Definition Remote_Delay_WiFi (device_id state : Z) : WM unit := dp_bool 106 (u8 state) device_id.

Definition MotoUpload (device_id state : Z) : WM unit :=
  let state := u8 state in
  run Remote_Delay_WiFi device_id 0;
  run on (Flash_Set_Moto device_id state);
  dp_bool DPID_DEVICE_STATE state device_id.

Definition DoorUpload (device_id state : Z) : WM unit := dp_bool 104 (u8 state) device_id.

Definition Door_Delay_WiFi (main_id device_id state : Z) : WM unit :=
  run dp_bool 105 (u8 state) device_id;
  dp_bool 106 (u8 state) main_id.

Definition Warning_WiFi (device_id state : Z) : WM unit := InitWarn_Main device_id.

Definition Upload_Main_ID (device_id : Z) : WM unit :=
  run dp_value DPID_SELF_ID device_id device_id;
  do moto <- on (Flash_Get_Moto device_id);
  dp_bool DPID_DEVICE_STATE moto device_id.

Definition Reset_Main_Warn (device_id : Z) : WM unit :=
  run dp_bool DPID_DEVICE_ALARM 0 device_id;
  run dp_bool DPID_LINE_STATE 0 device_id;
  dp_bool DPID_TEMP_STATE 0 device_id.

Definition Upload_Slave_ID (device_id from_id : Z) : WM unit :=
  run dp_value 107 from_id device_id;
  do rssi <- on (Flash_Get_Rssi device_id);
  dp_enum 101 rssi device_id.

Definition Reset_Slave_Warn (device_id : Z) : WM unit :=
  run dp_enum 1 0 device_id;
  dp_bool 104 0 device_id.

Definition Upload_Door_ID (device_id from_id : Z) : WM unit :=
  run dp_value 107 from_id device_id;
  run dp_value 108 device_id from_id;
  do rssi <- on (Flash_Get_Rssi device_id);
  dp_enum 101 rssi device_id.

Definition Main_Rssi_Report (device_id rssi : Z) : WM unit :=
  if rssi <? -94 then dp_enum DPID_SIGN_STATE 0 device_id
  else if (-94 <=? rssi) && (rssi <? -78) then dp_enum DPID_SIGN_STATE 1 device_id
  else dp_enum DPID_SIGN_STATE 2 device_id.

(** *** Requests to the devices *)

Definition Moto_CloseRemote (device_id : Z) : WM unit := on (GatewayDataEnqueue device_id 0 0 2 0).
Definition Moto_OpenRemote (device_id : Z) : WM unit := on (GatewayDataEnqueue device_id 0 0 2 1).
Definition Delay_CloseRemote (device_id : Z) : WM unit := on (GatewayDataEnqueue device_id 0 0 1 0).
Definition Delay_OpenRemote (device_id : Z) : WM unit := on (GatewayDataEnqueue device_id 0 0 1 1).
Definition Ack_Report (device_id : Z) : WM unit := on (GatewayDataEnqueue device_id 0 0 5 1).

(** *** The devices the cloud knows *)

(** A write past the 50th id runs into whatever follows the structure. *)
Definition Remote_Device_Add (device_id : Z) : WM unit :=
  on (do r <- get;
      let n := u8 (remote_Num r + 1) in
      do ids <- lift_opt (aset (remote_ID r) n device_id);
      modify (fun _ => mkRemote n ids)).

Definition Remote_Device_Clear : WM unit := on (modify (fun _ : Remote_Info => remote0)).

Fixpoint search_id (id : Z) (l : list Z) (n : nat) : option Z :=
  match n with
  | O => Some 0
  | S k => match l !! n with
           | Some x => if x =? id then Some (Z.of_nat n) else search_id id l k
           | None => None
           end
  end.

Definition remote_find (id : Z) : M Remote_Info Z :=
  do r <- get; lift_opt (search_id id (remote_ID r) (Z.to_nat (remote_Num r))).

Definition Remote_Get_Key_Valid (Device_ID : Z) : WM Z :=
  do num <- on (remote_find Device_ID);
  ret (if num =? 0 then RT_ERROR else RT_EOK).

Definition Remote_Device_Delete (Device_ID : Z) : WM Z :=
  do num <- on (remote_find Device_ID);
  if num =? 0 then ret RT_ERROR else
  run on (do r <- get;
          do ids <- lift_opt (aset (remote_ID r) num 0);
          modify (fun _ => mkRemote (remote_Num r) ids));
  ret RT_EOK.

(** *** Deleting *)

Definition Local_Delete (device_id : Z) : WM unit :=
  do main <- on (GetBindID device_id);
  run on (local_subdev_del_cmd (fmt_ld device_id));
  if 30000000 <=? device_id then dp_value 108 0 main else ret tt.

Definition Del_Device (Device_ID : Z) : WM Z :=
  do num <- on (find (fun s => ID s =? Device_ID));
  if num =? 0 then ret RT_ERROR else
  run (if is_main_id Device_ID then void (on Del_MainNums) else ret tt);
  run Remote_Device_Delete Device_ID;
  run on (Flash_ID_Change num 0);
  run on (set_slot num (set_ID 0));
  run on (Flash_Bind_Change Device_ID 0);
  run on (set_slot num (set_Bind_ID 0));
  run on (Flash_UploadFlag_Change Device_ID 0);
  run on (set_slot num (set_UploadFlag 0));
  ret RT_ERROR.

Definition Del_MainBind_body (Device_ID num : Z) : WM unit :=
  do s <- dev_slot num;
  if (Bind_ID s =? Device_ID) || (ID s =? Device_ID) then
    run (if is_main_id Device_ID then void (on Del_MainNums) else ret tt);
    run Local_Delete (ID s);
    run on (Flash_ID_Change num 0);
    run on (set_slot num (set_ID 0));
    run on (Flash_Bind_Change Device_ID 0);
    run on (set_slot num (set_Bind_ID 0));
    run on (Flash_UploadFlag_Change Device_ID 0);
    on (set_slot num (set_UploadFlag 0))
  else ret tt.

Definition Del_MainBind (Device_ID : Z) : WM Z :=
  do n <- dev_num;
  run loop_down (Z.to_nat n) (Del_MainBind_body Device_ID);
  ret RT_ERROR.

Definition Remote_Delete (device_id : Z) : WM unit :=
  do main <- on (GetBindID device_id);
  run on (GatewayDataEnqueue main device_id 0 6 0);
  run Del_Device device_id;
  if 30000000 <=? device_id then dp_value DPID_DOOR_ID 0 main else ret tt.

(** *** Online and offline *)

Definition Device_Up (device_id : Z) : WM unit :=
  run on (heart_beat_report (fmt_ld device_id) 0);
  on (user_updata_subden_online_state 0 (fmt_ld device_id) 1 1).

Definition Device_Down (device_id : Z) : WM unit :=
  on (user_updata_subden_online_state 0 (fmt_ld device_id) 1 0).

Definition Set_Slave_Heart_body (Device_ID heart num : Z) : WM unit :=
  do s <- dev_slot num;
  if Bind_ID s =? Device_ID then
    if negb (heart =? 0) then
      if negb (Heart s =? 0) then Device_Up (ID s) else ret tt
    else Device_Down (ID s)
  else ret tt.

Definition Set_Slave_Heart (Device_ID heart : Z) : WM Z :=
  do n <- dev_num;
  run loop_down (Z.to_nat n) (Set_Slave_Heart_body Device_ID heart);
  ret 0.

Definition Flash_Set_Heart (Device_ID heart : Z) : WM Z :=
  let heart := u8 heart in
  do num <- on (find (fun s => ID s =? Device_ID));
  if num =? 0 then ret RT_ERROR else
  run (if negb (heart =? 0) then
         run on (set_slot num (set_HeartRecv 1));
         do s <- dev_slot num;
         if Heart s =? 0 then
           run Set_Slave_Heart Device_ID 1;
           run on (Flash_Heart_Change Device_ID 1);
           on (set_slot num (set_Heart 1))
         else ret tt
       else
         do s <- dev_slot num;
         if negb (Heart s =? 0) then
           run Set_Slave_Heart Device_ID 0;
           run on (Flash_Heart_Change Device_ID 0);
           on (set_slot num (set_Heart 0))
         else ret tt);
  ret RT_EOK.

Definition DeviceCheck (device_id from_id : Z) : WM unit := void (Flash_Set_Heart device_id 1).

Definition Heart_Upload (device_id heart : Z) : WM unit :=
  run on (heart_beat_report (fmt_ld device_id) 0);
  void (Flash_Set_Heart device_id heart).

(** *** Adding *)

Definition Main_Add_WiFi (device_id : Z) : WM unit :=
  run on (local_add_subdev_limit 1 0 1);
  on (gateway_subdevice_add (str "1.0") main_pid 0 (fmt_ld device_id) 10 0).
Definition Slave_Add_WiFi (device_id : Z) : WM unit :=
  run on (local_add_subdev_limit 1 0 1);
  on (gateway_subdevice_add (str "1.0") slave_pid 0 (fmt_ld device_id) 10 0).
Definition Door_Add_WiFi (device_id : Z) : WM unit :=
  run on (local_add_subdev_limit 1 0 1);
  on (gateway_subdevice_add (str "1.0") door_pid 0 (fmt_ld device_id) 10 0).

(** The part common to the three kinds of device. *)
Definition add_and_announce (add : M (Flash E) Z) (announce : Z -> WM unit) (device_id : Z) : WM unit :=
  do known <- on (Flash_Get_Key_Valid device_id);
  run (if known =? RT_ERROR then void (on add) else ret tt);
  do remote <- Remote_Get_Key_Valid device_id;
  if remote =? RT_ERROR then
    run on (Flash_Set_UploadFlag device_id 0);
    announce device_id
  else ret tt.

Definition Device_Add2Flash_Wifi (device_id from_id : Z) : WM unit :=
  run (if is_main_id device_id
       then add_and_announce (MainAdd_Flash device_id) Main_Add_WiFi device_id else ret tt);
  if is_slave_id device_id
  then add_and_announce (SlaveAdd_Flash device_id from_id) Slave_Add_WiFi device_id
  else if is_door_id device_id
  then add_and_announce (DoorAdd_Flash device_id from_id) Door_Add_WiFi device_id
  else ret tt.

Definition Self_Bind_Upload (device_id : Z) : WM unit :=
  do flag <- on (Flash_Get_UploadFlag device_id);
  if flag =? 0 then
    run on (Flash_Set_UploadFlag device_id 1);
    if is_main_id device_id then
      run Upload_Main_ID device_id;
      do door <- on (GetDoorID device_id);
      run Upload_Door_ID door device_id;
      Reset_Main_Warn device_id
    else if is_slave_id device_id then
      run Reset_Slave_Warn device_id;
      do b <- on (GetBindID device_id);
      Upload_Slave_ID device_id b
    else if is_door_id device_id then
      do b <- on (GetBindID device_id);
      Upload_Door_ID device_id b
    else ret tt
  else ret tt.

(** Reported up when it was last heard, a sub device only when its main unit
    was too. *)
Definition Heart_Request (id_buf : list Z) : WM unit :=
  let id := u32 (atol id_buf) in
  run Self_Bind_Upload id;
  if (20000000 <=? id) && (id <? 40000000) then
    do main <- on (GetBindID id);
    do hm <- on (Flash_Get_Heart main);
    if negb (hm =? 0) then
      do h <- on (Flash_Get_Heart id);
      if negb (h =? 0) then Device_Up id else Device_Down id
    else ret tt
  else
    do h <- on (Flash_Get_Heart id);
    if negb (h =? 0) then Device_Up id else Device_Down id.

(** *** Synchronisation *)

Definition Get_Main_Valid (device_id bind_id : Z) : Z :=
  if (0 <? device_id) && (device_id <? 20000000) && (bind_id =? 0) then RT_EOK else RT_ERROR.

(** [while(Num--)]: the indices below [Sync_Counter], downwards, 0 included. *)
Fixpoint next_main (n : nat) : WM Z :=
  match n with
  | O => ret RT_ERROR
  | S k =>
      do s <- dev_slot (Z.of_nat k);
      if Get_Main_Valid (ID s) (Bind_ID s) =? RT_EOK then
        run on (modify (fun y => mkSync (Z.of_nat k) (Sync_Recv y) (Sync_Start y) (Sync_timer y) (Sync_sem y)));
        ret RT_EOK
      else next_main k
  end.

Definition Get_Next_Main : WM Z :=
  do y <- gets w_sync; next_main (Z.to_nat (Sync_Counter y)).

Definition sync_set (f : Sync -> Sync) : WM unit := on (modify f).
Definition rt_sem_release_Sync : WM unit :=
  sync_set (fun y => mkSync (Sync_Counter y) (Sync_Recv y) (Sync_Start y) (Sync_timer y) (Sync_sem y + 1)).
Definition Sync_timer_set (b : bool) : WM unit :=
  sync_set (fun y => mkSync (Sync_Counter y) (Sync_Recv y) (Sync_Start y) b (Sync_sem y)).

(** The one-shot timer has expired. *)
Definition Sync_Timeout_Callback : WM unit :=
  run Sync_timer_set false;
  do r <- Get_Next_Main;
  if r =? RT_EOK then rt_sem_release_Sync
  else sync_set (fun y => mkSync (Sync_Counter y) (Sync_Recv y) 0 (Sync_timer y) (Sync_sem y)).

(** The body of [Sync_t_Callback] between its waits: after the semaphore was
    taken; after the first delay, with [true] when it goes on to the second;
    after the second delay. *)
Definition Sync_taken : WM unit :=
  sync_set (fun y => mkSync (Sync_Counter y) (Sync_Recv y) 1 (Sync_timer y) (Sync_sem y - 1)).

Definition Sync_send : WM bool :=
  do y <- gets w_sync;
  do s <- dev_slot (Sync_Counter y);
  if ID s =? 0 then ret false else
  run Device_Add2Flash_Wifi (ID s) 0;
  do y <- gets w_sync;
  do s <- dev_slot (Sync_Counter y);
  if SyncRetry s <? 3 then
    run sync_set (fun y => mkSync (Sync_Counter y) 0 (Sync_Start y) (Sync_timer y) (Sync_sem y));
    run on (GatewayDataEnqueue (ID s) 0 0 4 0);
    ret true
  else
    run Sync_timer_set false;
    do r <- Get_Next_Main;
    if r =? RT_EOK then run rt_sem_release_Sync; ret false
    else
      do y <- gets w_sync;
      run on (set_slot (Sync_Counter y) (set_SyncRetry 0));
      ret false.

Definition Sync_check : WM unit :=
  do y <- gets w_sync;
  if Sync_Recv y =? 0 then
    do s <- dev_slot (Sync_Counter y);
    run on (set_slot (Sync_Counter y) (set_SyncRetry (u8 (SyncRetry s + 1))));
    rt_sem_release_Sync
  else ret tt.

Definition Sync_Request : WM unit :=
  run Sync_timer_set false;
  do n <- dev_num;
  run sync_set (fun y => mkSync n (Sync_Recv y) (Sync_Start y) (Sync_timer y) (Sync_sem y));
  run Get_Next_Main;
  rt_sem_release_Sync.

Definition Sync_Refresh : WM unit :=
  do y <- gets w_sync;
  if negb (Sync_Start y =? 0) then
    run sync_set (fun y => mkSync (Sync_Counter y) 1 (Sync_Start y) (Sync_timer y) (Sync_sem y));
    run on (set_slot (Sync_Counter y) (set_SyncRetry 0));
    Sync_timer_set true
  else ret tt.
End Operations.

(** ** Functions that only send messages *)

Section Says.
Context {E : Type} `{Env E}.
Implicit Types (w : World E).

(** [m] sends the messages [ms] and changes nothing else. *)
Definition says (ms : list msg) (m : M (World E) unit) : Prop :=
  forall w (Q : unit -> World E -> Prop), tx_ok (w_tx w) ->
    (forall t, emits ms (w_tx w) t -> Q tt (set_tx t w)) -> wp m Q w.

Lemma says_run ms m w :
  says ms m -> tx_ok (w_tx w) ->
  exists t, m w = Some (tt, set_tx t w) /\ emits ms (w_tx w) t.
Proof.
  intros Hm Hw.
  assert (Hwp : wp m (fun _ w' => exists t, w' = set_tx t w /\ emits ms (w_tx w) t) w).
  { apply Hm; [done|]. intros t Ht. by exists t. }
  apply wp_Some in Hwp as ([] & w' & -> & t & -> & Ht). by exists t.
Qed.

Lemma says_ret : says [] (ret tt).
Proof.
  intros w Q Hw HQ. apply wp_ret. destruct w. by apply HQ, emits_nil.
Qed.

Lemma says_bind ms ms' m m' : says ms m -> says ms' m' -> says (ms ++ ms') (run m; m').
Proof.
  intros Hm Hm' w Q Hw HQ. apply wp_bind, Hm; [done|]. intros t Ht. cbv beta.
  apply Hm'; [apply Ht|]. intros t' Ht'. apply (HQ t'). by eapply emits_app.
Qed.

Lemma says_eq ms ms' m : says ms m -> ms = ms' -> says ms' m.
Proof. by intros ? <-. Qed.

Lemma says_if (b : bool) ms ms' m m' :
  says ms m -> says ms' m' -> says (if b then ms else ms') (if b then m else m').
Proof. by destruct b. Qed.

Lemma says_void {A} (m : M (World E) A) ms :
  (forall w (Q : A -> World E -> Prop), tx_ok (w_tx w) ->
     (forall a t, emits ms (w_tx w) t -> Q a (set_tx t w)) -> wp m Q w) ->
  says ms (void m).
Proof. intros Hm w Q Hw HQ. apply wp_bind, Hm; [done|]. intros. by apply HQ. Qed.

Lemma says_tx (m : M Tx unit) ms :
  (forall s (Q : unit -> Tx -> Prop), tx_ok s -> (forall t, emits ms s t -> Q tt t) -> wp m Q s) ->
  says ms (on m).
Proof. intros Hm w Q Hw HQ. by apply wp_on, Hm. Qed.

Definition bool_msg (dpid value id : Z) : msg := MDp (fmt_ld id) dpid (DpBool (negb (u8 value =? 0))).
Definition value_msg (dpid value id : Z) : msg := MDp (fmt_ld id) dpid (DpValue value).
Definition enum_msg (dpid value id : Z) : msg := MDp (fmt_ld id) dpid (DpEnum value).

Lemma says_bool dpid value id : is_byte dpid -> says [bool_msg dpid value id] (dp_bool dpid value id).
Proof.
  intros Hd. apply says_void. intros w Q Hw HQ. apply wp_on, wp_bool;
    [done | apply fmt_ld_id | done | auto].
Qed.

Lemma says_value dpid value id : is_byte dpid -> says [value_msg dpid value id] (dp_value dpid value id).
Proof.
  intros Hd. apply says_void. intros w Q Hw HQ. apply wp_on, wp_value;
    [done | apply fmt_ld_id | done | auto].
Qed.

Lemma says_enum dpid value id : is_byte dpid -> says [enum_msg dpid value id] (dp_enum dpid value id).
Proof.
  intros Hd. apply says_void. intros w Q Hw HQ. apply wp_on, wp_enum;
    [done | apply fmt_ld_id | done | auto].
Qed.

Lemma says_up id :
  says [heart_msg (fmt_ld id) 0; online_msg 0 (fmt_ld id) 1] (Device_Up id).
Proof.
  apply (says_bind [_] [_]); apply says_tx; intros s Q Hs HQ.
  - by apply wp_heart_beat_report; [| apply fmt_ld_id | |].
  - by apply wp_online_state; [| apply fmt_ld_id | | |].
Qed.

Lemma says_down id : says [online_msg 0 (fmt_ld id) 0] (Device_Down id).
Proof.
  apply says_tx. intros s Q Hs HQ. by apply wp_online_state; [| apply fmt_ld_id | | |].
Qed.

Definition join_msgs (pid : list Z) (id : Z) : list msg :=
  [MCmd LOCAL_ADD_SUBDEV_LIMIT_CMD [1; 0; 1]; add_msg (str "1.0") pid (fmt_ld id) 0 10 0].

Lemma says_join pid id :
  pid = main_pid \/ pid = slave_pid \/ pid = door_pid ->
  says (join_msgs pid id)
    (run on (local_add_subdev_limit 1 0 1); on (gateway_subdevice_add (str "1.0") pid 0 (fmt_ld id) 10 0)).
Proof.
  intros Hp. apply (says_bind [_] [_]); apply says_tx; intros s Q Hs HQ.
  - by apply wp_add_limit.
  - apply wp_gateway_add; try done; [apply fmt_ld_id | by apply char_ok_str |..].
    + destruct Hp as [-> | [-> | ->]]; by apply char_ok_str.
    + destruct Hp as [-> | [-> | ->]]; vm_compute; discriminate.
Qed.
End Says.

#[export] Hint Resolve says_ret says_bool says_value says_enum says_up says_down : gw.

(** Splits a sequence of uploads. *)
Ltac says_tac :=
  repeat lazymatch goal with
  | |- says _ (ret tt) => apply says_ret
  | |- says _ (dp_bool _ _ _) => apply says_bool; done
  | |- says _ (dp_value _ _ _) => apply says_value; done
  | |- says _ (dp_enum _ _ _) => apply says_enum; done
  | |- says _ (Device_Up _) => apply says_up
  | |- says _ (Device_Down _) => apply says_down
  | |- says _ (bind _ _) => eapply says_bind
  end.

(** The messages of [WariningUpload]: an event of a device ([device] nonzero) or
    of the main unit [from] itself. *)
Definition warning_msgs (from device type value : Z) : list msg :=
  let on_device := [
    (* offline *) [bool_msg 103 value device];
    (* leak: the "fallen" state ends with it *)
    (if value =? 0 then [] else [bool_msg 104 0 device]) ++ [enum_msg 1 value device];
    (* battery *) [enum_msg 102 value device];
    (* fallen *) [bool_msg 104 value device]] in
  let self_check := [
    [bool_msg DPID_VALVE1_CHECK_FAIL 0 from; bool_msg DPID_VALVE1_CHECK_SUCCESS 1 from];
    [bool_msg DPID_VALVE2_CHECK_FAIL 0 from; bool_msg DPID_VALVE2_CHECK_SUCCESS 1 from];
    [bool_msg DPID_TEMP_STATE 0 from; bool_msg DPID_LINE_STATE 0 from; bool_msg DPID_VALVE1_CHECK_FAIL 1 from];
    [bool_msg DPID_TEMP_STATE 0 from; bool_msg DPID_LINE_STATE 0 from; bool_msg DPID_VALVE2_CHECK_FAIL 1 from]] in
  let on_main := [
    default [] (aget self_check value);
    (if value =? 0 then [] else map (fun d => bool_msg d 0 from)
       [DPID_VALVE1_CHECK_FAIL; DPID_VALVE2_CHECK_FAIL; DPID_TEMP_STATE; DPID_LINE_STATE])
    ++ [bool_msg DPID_DEVICE_ALARM value from];
    [bool_msg DPID_LINE_STATE value from];
    (if value =? 0 then [] else [bool_msg DPID_LINE_STATE 0 from]) ++ [bool_msg DPID_TEMP_STATE value from]] in
  default [] (aget (if 0 <? device then on_device else on_main) type).

Section Warnings.
Context {E : Type} `{Env E}.

Lemma aget_default_other (l : list (list msg)) i :
  is_byte i -> zlen l <= i -> default [] (aget l i) = [].
Proof. intros Hi Hl. by rewrite aget_None by lia. Qed.

Lemma says_warning from device type value :
  is_byte type -> is_byte value ->
  says (warning_msgs from device type value)
    (WariningUpload (E := E) from device type value).
Proof.
  intros Ht Hv. unfold WariningUpload, warning_msgs.
  rewrite (u8_small type Ht), (u8_small value Hv). cbv zeta.
  destruct (0 <? device).
  - destruct (Z.eqb_spec type 0) as [->|]; [says_tac|].
    destruct (Z.eqb_spec type 1) as [->|].
    { apply (says_bind (if value =? 0 then [] else [bool_msg 104 0 device]) [_]); [|says_tac].
      destruct (value =? 0); cbn [negb]; says_tac. }
    destruct (Z.eqb_spec type 2) as [->|]; [says_tac|].
    destruct (Z.eqb_spec type 3) as [->|]; [says_tac|].
    rewrite aget_default_other; [says_tac | done |].
    unfold is_byte, zlen in *; simpl; lia.
  - destruct (Z.eqb_spec type 0) as [->|].
    { change (aget ?l 0) with (head l). cbn [aget default].
      destruct (Z.eqb_spec value 0) as [->|]; [eapply says_eq; [says_tac | done]|].
      destruct (Z.eqb_spec value 1) as [->|]; [eapply says_eq; [says_tac | done]|].
      destruct (Z.eqb_spec value 2) as [->|]; [eapply says_eq; [says_tac | done]|].
      destruct (Z.eqb_spec value 3) as [->|]; [eapply says_eq; [says_tac | done]|].
      eapply says_eq; [says_tac|]. symmetry. apply aget_default_other; [done|].
      unfold is_byte, zlen in *; simpl; lia. }
    destruct (Z.eqb_spec type 1) as [->|].
    { apply (says_bind (if value =? 0 then [] else map (fun d => bool_msg d 0 from)
        [DPID_VALVE1_CHECK_FAIL; DPID_VALVE2_CHECK_FAIL; DPID_TEMP_STATE; DPID_LINE_STATE]) [_]);
        [|says_tac].
      destruct (value =? 0); cbn [negb]; [says_tac | eapply says_eq; [says_tac | done]]. }
    destruct (Z.eqb_spec type 2) as [->|]; [says_tac|].
    destruct (Z.eqb_spec type 3) as [->|].
    { apply (says_bind (if value =? 0 then [] else [bool_msg DPID_LINE_STATE 0 from]) [_]); [|says_tac].
      destruct (value =? 0); cbn [negb]; says_tac. }
    rewrite aget_default_other; [says_tac | done |].
    unfold is_byte, zlen in *; simpl; lia.
Qed.
End Warnings.

(** ** Removing devices *)

Definition remote_ok (r : Remote_Info) : Prop :=
  length (remote_ID r) = 50%nat /\ 0 <= remote_Num r < 50.

Record world_ok {E} `{Env E} (w : World E) : Prop := {
  world_tx : tx_ok (w_tx w);
  world_flash : flash_ok (w_flash w);
  world_radio : radio_ok (w_radio w);
  world_remote : remote_ok (w_remote w);
  world_sync : 0 <= Sync_Counter (w_sync w) < MaxSupport
}.

Section Removal.
Context {E : Type} `{Env E}.
Implicit Types (w : World E).

Lemma search_id_spec id l n :
  (n < length l)%nat ->
  exists k, search_id id l n = Some (Z.of_nat k) /\ (k <= n)%nat /\
    (k <> 0%nat -> l !! k = Some id) /\
    (k = 0%nat -> forall i, (1 <= i <= n)%nat -> l !! i <> Some id).
Proof.
  induction n as [|n IH]; intros Hn.
  { exists 0%nat. repeat split; try done. intros; lia. }
  cbn [search_id]. destruct (lookup_lt_is_Some_2 l (S n) Hn) as [x Hx]. rewrite Hx.
  destruct (Z.eqb_spec x id) as [->|Hne].
  - exists (S n). repeat split; try done. 
  - destruct IH as (k & -> & Hle & Hyes & Hno); [lia|]. exists k. split; [done|]. split; [lia|].
    split; [done|]. intros Hk i Hi. destruct (decide (i = S n)) as [->|]; [congruence|]. apply Hno; [done | lia].
Qed.

Lemma wp_remote_find id (Q : Z -> Remote_Info -> Prop) r :
  remote_ok r ->
  (forall k, (k <= Z.to_nat (remote_Num r))%nat ->
     (k <> 0%nat -> remote_ID r !! k = Some id) ->
     (k = 0%nat -> forall i, (1 <= i <= Z.to_nat (remote_Num r))%nat -> remote_ID r !! i <> Some id) ->
     Q (Z.of_nat k) r) -> wp (remote_find id) Q r.
Proof.
  intros (Hl & Hn) HQ. unfold remote_find, wp, bind, get, lift_opt.
  destruct (search_id_spec id (remote_ID r) (Z.to_nat (remote_Num r))) as (k & -> & ? & ? & ?);
    [lia|]. by apply HQ.
Qed.

Lemma wp_Remote_Device_Delete id (Q : Z -> World E -> Prop) w :
  remote_ok (w_remote w) ->
  (forall r rem, remote_ok rem -> Q r (set_remote rem w)) ->
  wp (Remote_Device_Delete id) Q w.
Proof.
  intros Hok HQ. unfold Remote_Device_Delete. apply wp_bind, wp_on, wp_remote_find; [done|].
  intros k Hk Hyes _. rewrite over_view. destruct (Z.eqb_spec (Z.of_nat k) 0) as [E0|E0].
  - apply wp_ret. destruct w. by apply HQ.
  - apply wp_bind, wp_on. destruct Hok as [Hl Hn]. unfold wp, bind, get, lift_opt.
    cbn [view lens_remote] in *. rewrite aset_ok by (unfold zlen; lia). apply HQ.
    split; cbn [remote_ID remote_Num]; [by rewrite length_insert | done].
Qed.

Lemma wp_find w id (Q : Z -> World E -> Prop) :
  flash_ok (w_flash w) -> id <> 0 ->
  (bindings (Global_Device (w_flash w)) !! id = None -> Q 0 w) ->
  (forall k s, index_of (Global_Device (w_flash w)) id k s ->
     bindings (Global_Device (w_flash w)) !! id = Some (Bind_ID s) -> Q (Z.of_nat k) w) ->
  wp (on (find (fun s => ID s =? id))) Q w.
Proof.
  intros [Ht _] Hid Hn Hs. apply wp_on, wp_find_id; [done | done | |].
  - intros Hb. rewrite over_view. by apply Hn.
  - intros k s Hi Hb. rewrite over_view. by eapply Hs.
Qed.

Lemma wp_removal {A} k x s (K : M (World E) A) Q w :
  slots (Global_Device (w_flash w)) !! k = Some s ->
  wp K Q (set_flash (mkFlash (del_at k (Global_Device (w_flash w)))
    (env_set (env_set (env_set (env (w_flash w)) (var_key (VId (Z.of_nat k))) (fmt_ld 0))
       (var_key (VBind x)) (fmt_ld 0)) (var_key (VUpload x)) (fmt_ld 0))) w) ->
  wp (run on (Flash_ID_Change (Z.of_nat k) 0);
      run on (set_slot (Z.of_nat k) (set_ID 0));
      run on (Flash_Bind_Change x 0);
      run on (set_slot (Z.of_nat k) (set_Bind_ID 0));
      run on (Flash_UploadFlag_Change x 0);
      run on (set_slot (Z.of_nat k) (set_UploadFlag 0)); K) Q w.
Proof.
  intros Hs HQ.
  pose proof (wp_del_writes k x s (ret tt) (fun _ f => wp K Q (set_flash f w)) (w_flash w) Hs
                (wp_ret tt _ _ HQ)) as Hw.
  destruct w as [tx f ra le re sy wi]. cbn [w_flash set_flash w_tx w_radio w_leds w_remote w_sync w_wifi] in *.
  revert Hw. unfold wp, on, zoom, bind. cbn [view over lens_flash w_flash].
  destruct (Flash_ID_Change (Z.of_nat k) 0 f) as [[[] f1]|]; [|done]. cbn [w_flash set_flash].
  destruct (set_slot (Z.of_nat k) (set_ID 0) f1) as [[[] f2]|]; [|done]. cbn [w_flash set_flash].
  destruct (Flash_Bind_Change x 0 f2) as [[[] f3]|]; [|done]. cbn [w_flash set_flash].
  destruct (set_slot (Z.of_nat k) (set_Bind_ID 0) f3) as [[[] f4]|]; [|done]. cbn [w_flash set_flash].
  destruct (Flash_UploadFlag_Change x 0 f4) as [[[] f5]|]; [|done]. cbn [w_flash set_flash].
  destruct (set_slot (Z.of_nat k) (set_UploadFlag 0) f5) as [[[] f6]|]; [|done]. done.
Qed.

Lemma wp_run_ret (m : M (World E) unit) (Q : unit -> World E -> Prop) w :
  wp (run m; ret tt) Q w -> wp m Q w.
Proof. unfold wp, bind. by destruct (m w) as [[[] w']|]. Qed.

Lemma wp_removal_last k x s (Q : unit -> World E -> Prop) w :
  slots (Global_Device (w_flash w)) !! k = Some s ->
  Q tt (set_flash (mkFlash (del_at k (Global_Device (w_flash w)))
    (env_set (env_set (env_set (env (w_flash w)) (var_key (VId (Z.of_nat k))) (fmt_ld 0))
       (var_key (VBind x)) (fmt_ld 0)) (var_key (VUpload x)) (fmt_ld 0))) w) ->
  wp (run on (Flash_ID_Change (Z.of_nat k) 0);
      run on (set_slot (Z.of_nat k) (set_ID 0));
      run on (Flash_Bind_Change x 0);
      run on (set_slot (Z.of_nat k) (set_Bind_ID 0));
      run on (Flash_UploadFlag_Change x 0);
      on (set_slot (Z.of_nat k) (set_UploadFlag 0))) Q w.
Proof.
  intros Hs HQ. pose proof (wp_removal k x s (ret tt) Q w Hs HQ) as Hw. revert Hw. unfold wp, bind.
  repeat (case_match; simplify_eq; try done).
  injection H0 as <- <-. by destruct u4.
Qed.

(** The table after a removal; the count of main units is lowered for an id in
    the range of main units. *)
Definition count_after (id n : Z) : Z := if is_main_id id then Z.max 0 (n - 1) else n.

Lemma wp_count id (Q : unit -> World E -> Prop) w :
  flash_ok (w_flash w) ->
  (forall e, let d := set_MainNum (count_after id (MainNum (Global_Device (w_flash w))))
                        (Global_Device (w_flash w)) in
     flash_ok (mkFlash d e) -> Q tt (set_flash (mkFlash d e) w)) ->
  wp (if is_main_id id then void (on Del_MainNums) else ret tt) Q w.
Proof.
  intros Hok HQ. unfold count_after in HQ. destruct (is_main_id id).
  - apply wp_bind, wp_on, wp_del_main_nums; [done|]. intros r e d Hf. by apply wp_ret, HQ.
  - apply wp_ret. destruct w as [tx [[n m l] e] ra le re sy wi]. by apply (HQ e).
Qed.

(** [Del_Device]: the answer is always [RT_ERROR]. *)
Lemma wp_Del_Device id (Q : Z -> World E -> Prop) w :
  world_ok w -> 0 < id < 2 ^ 32 ->
  (bindings (Global_Device (w_flash w)) !! id = None -> Q RT_ERROR w) ->
  (forall f rem, flash_ok f -> remote_ok rem ->
     bindings (Global_Device (w_flash w)) !! id <> None ->
     bindings (Global_Device f) = delete id (bindings (Global_Device (w_flash w))) ->
     MainNum (Global_Device f) = count_after id (MainNum (Global_Device (w_flash w))) ->
     Q RT_ERROR (set_remote rem (set_flash f w))) ->
  wp (Del_Device id) Q w.
Proof.
  intros [Htx Hf Hra Hre Hsc] Hid Hnone Hsome. unfold Del_Device.
  apply wp_bind, wp_find; [done | lia | |].
  { intros Hb. by apply wp_ret, Hnone. }
  intros k s (Hs & Hids & Hr) Hb. rewrite (proj2 (Z.eqb_neq _ 0)) by lia.
  apply wp_bind, wp_count; [done|]. intros e d0 Hf1.
  rename d0 into d1. apply wp_bind, wp_Remote_Device_Delete; [done|].
  intros _ rem Hrem. eapply (wp_removal k id s); [exact Hs|]. apply wp_ret.
  cbn [w_flash set_remote set_flash Global_Device env].
  destruct Hf1 as [Ht1 Hs1]. cbn [Global_Device env] in Ht1, Hs1.
  eapply (Hsome (mkFlash (del_at k d1) _) rem); [| done | by rewrite Hb | | done].
  - split; cbn [Global_Device env]; [by eapply del_at_ok|].
    apply (synced_del d1 e k s id); [done | done | done | done | lia |].
    intros i t Hik Hit Heq. destruct Hik. apply (table_unique d1 Ht1 i k t s); try done; congruence || lia.
  - cbn [Global_Device]. rewrite (del_at_bindings d1 k s) by done. by rewrite Hids.
Qed.
End Removal.

(** ** Removing a main unit with everything bound to it *)

Section MainBind.
Context {E : Type} `{Env E}.
Implicit Types (w : World E).

Definition local_delete_msgs (id main : Z) : list msg :=
  [del_msg (fmt_ld id)] ++ (if 30000000 <=? id then [value_msg 108 0 main] else []).

Lemma wp_Local_Delete id (Q : unit -> World E -> Prop) w :
  tx_ok (w_tx w) -> flash_ok (w_flash w) -> id <> 0 ->
  (forall t, emits (local_delete_msgs id (default 0 (bindings (Global_Device (w_flash w)) !! id)))
               (w_tx w) t -> Q tt (set_tx t w)) ->
  wp (Local_Delete id) Q w.
Proof.
  intros Htx Hf Hid HQ. unfold Local_Delete.
  assert (Hb : wp (on (GetBindID id))
    (fun b w' => b = default 0 (bindings (Global_Device (w_flash w)) !! id) /\ w' = w) w).
  { apply wp_on. unfold GetBindID. apply wp_bind, wp_find_id; [apply Hf | done | |].
    - cbn [view lens_flash]. intros ->. apply wp_ret. split; [done | by destruct w].
    - cbn [view lens_flash]. intros k s (Hs & _ & Hr) ->.
      rewrite (proj2 (Z.eqb_neq _ 0)) by lia.
      apply wp_bind, (wp_slot_at k s), wp_ret; [done|]. split; [done | by destruct w]. }
  apply wp_bind. eapply wp_conseq; [exact Hb|]. intros b w' [-> ->]. clear Hb.
  set (main := default 0 _) in *.
  apply wp_bind, wp_on, wp_local_subdev_del; [done | apply fmt_ld_id |]. intros t Ht.
  unfold local_delete_msgs in HQ. destruct (30000000 <=? id).
  - apply (says_value 108 0 main ltac:(done)); [apply Ht|]. intros t' Ht'.
    apply (HQ t'). by eapply emits_app.
  - apply wp_ret. apply HQ. by rewrite app_nil_r.
Qed.

(** A device that goes with the main unit [m]. *)
Definition goes (m : Z) (p : Z * Z) : Prop := p.1 = m \/ p.2 = m.
#[global] Instance goes_dec m p : Decision (goes m p).
Proof. unfold goes; apply _. Defined.

Definition kept (m : Z) (b : gmap Z Z) : gmap Z Z := filter (fun p => ~ goes m p) b.
Definition gone (m : Z) (b : gmap Z Z) : gmap Z Z := filter (goes m) b.

Lemma kept_delete m b id x :
  b !! id = Some x -> goes m (id, x) -> kept m (delete id b) = kept m b.
Proof.
  intros Hb Hg. apply map_eq. intros i. apply option_eq. intros y. unfold kept.
  rewrite !map_lookup_filter_Some, lookup_delete_Some. split; [tauto|].
  intros [Hi Hn]. split; [|done]. split; [|done]. intros <-.
  rewrite Hb in Hi. injection Hi as <-. done.
Qed.

Lemma gone_delete m b id x :
  b !! id = Some x -> goes m (id, x) ->
  size (gone m b) = S (size (gone m (delete id b))).
Proof.
  intros Hb Hg. unfold gone.
  assert (E1 : filter (goes m) b = <[id := x]> (filter (goes m) (delete id b))).
  { apply map_eq. intros i. apply option_eq. intros y.
    rewrite map_lookup_filter_Some, lookup_insert_Some, map_lookup_filter_Some, lookup_delete_Some.
    split.
    - intros [Hi Hn]. destruct (decide (id = i)) as [->|Hne]; [left; naive_solver | right; naive_solver].
    - intros [[<- <-]|[? [[? ?] ?]]]; done. }
  rewrite E1. apply map_size_insert_None.
  apply map_lookup_filter_None. left. apply lookup_delete_eq.
Qed.

Lemma none_goes m d :
  table_ok d -> m <> 0 ->
  (forall i s, slots d !! i = Some s -> (Bind_ID s =? m) || (ID s =? m) = false) ->
  kept m (bindings d) = bindings d /\ gone m (bindings d) = ∅.
Proof.
  intros Ht Hm Hno.
  assert (Hall : forall i x, bindings d !! i = Some x -> ~ goes m (i, x)).
  { intros i x Hb. apply bindings_lookup in Hb as (k & s & Hk & <- & _ & <-); [|done].
    specialize (Hno k s Hk). apply orb_false_iff in Hno as [?%Z.eqb_neq ?%Z.eqb_neq].
    unfold goes; cbn. tauto. }
  split.
  - by apply map_filter_id.
  - apply map_empty. intros i. apply map_lookup_filter_None. right.
    intros x Hb. by apply Hall.
Qed.

(** Where the downward loop of [Del_MainBind] stands: what it has passed is
    not to go, and the main unit itself has no main unit. *)
Record unbinding (m : Z) (n : nat) (f : Flash E) : Prop := {
  ub_ok : flash_ok f;
  ub_main : is_main_id m = true;
  ub_free : default 0 (bindings (Global_Device f) !! m) = 0;
  ub_le : Z.of_nat n <= Num (Global_Device f);
  ub_rest : forall i s, (n < i)%nat -> slots (Global_Device f) !! i = Some s ->
              (Bind_ID s =? m) || (ID s =? m) = false;
}.

(** What the rest of the loop does to [f]: the devices of [m] go, and [ms]
    tells the cloud of each. *)
Record unbound (m : Z) (f f' : Flash E) (ms : list msg) : Prop := {
  un_ok : flash_ok f';
  un_num : Num (Global_Device f') = Num (Global_Device f);
  un_kept : bindings (Global_Device f') = kept m (bindings (Global_Device f));
  un_count : MainNum (Global_Device f') =
             Z.max 0 (MainNum (Global_Device f) - Z.of_nat (size (gone m (bindings (Global_Device f)))));
  un_told : forall id, is_Some (gone m (bindings (Global_Device f)) !! id) -> del_msg (fmt_ld id) ∈ ms;
}.

Lemma main_id_range m : is_main_id m = true -> 0 < m < 2 ^ 32.
Proof. unfold is_main_id. intros [?%Z.leb_le ?%Z.ltb_lt]%andb_true_iff. lia. Qed.

(** A slot without a device is never matched. *)
Lemma empty_not_matched m d i s :
  table_ok d -> m <> 0 -> slots d !! i = Some s -> ID s = 0 -> (Bind_ID s =? m) || (ID s =? m) = false.
Proof.
  intros Ht Hm Hs E0. rewrite (table_empty _ Ht i s Hs E0), E0.
  by rewrite (proj2 (Z.eqb_neq 0 m)) by lia.
Qed.

Lemma unbound_nil m f : unbinding m 0 f -> unbound m f f [].
Proof.
  intros [Hf Hm%main_id_range _ _ Hrest]. destruct (none_goes m _ (proj1 Hf) ltac:(lia)) as [E1 E2].
  { intros [|i] s Hs; [|apply (Hrest (S i) s); [lia | done]].
    destruct (Z.eq_dec (ID s) 0) as [E0|E0].
    - apply (empty_not_matched m _ 0 s (proj1 Hf)); [lia | done | done].
    - pose proof (table_used _ (proj1 Hf) 0 s Hs E0). lia. }
  split; [done | done | by rewrite E1 | |].
  - pose proof (table_main _ (proj1 Hf)). rewrite E2, map_size_empty. lia.
  - rewrite E2. intros id Hid. by rewrite lookup_empty in Hid; destruct Hid.
Qed.

Lemma unbinding_skip m n f s :
  unbinding m (S n) f -> slots (Global_Device f) !! S n = Some s ->
  (Bind_ID s =? m) || (ID s =? m) = false -> unbinding m n f.
Proof.
  intros [Hf Hm Hb Hn Hrest] Hs Eg. split; [done | done | done | lia |].
  intros i t Hi Ht. destruct (decide (i = S n)) as [->|]; [congruence|].
  apply (Hrest i t); [lia | done].
Qed.

(** The device of a matched slot is one that goes. *)
Lemma unbinding_goes m n f s :
  unbinding m (S n) f -> slots (Global_Device f) !! S n = Some s ->
  (Bind_ID s =? m) || (ID s =? m) = true ->
  bindings (Global_Device f) !! ID s = Some (Bind_ID s) /\ goes m (ID s, Bind_ID s).
Proof.
  intros [Hf Hm%main_id_range _ _ _] Hs Eg. split.
  - apply bindings_lookup; [apply Hf|]. exists (S n), s. split; [done|]. split; [done|]. split; [|done].
    intros E0. by rewrite (empty_not_matched m _ _ s (proj1 Hf) ltac:(lia) Hs E0) in Eg.
  - unfold goes; cbn. apply orb_true_iff in Eg as [?%Z.eqb_eq|?%Z.eqb_eq]; tauto.
Qed.

Section Step.
Context (m : Z) (n : nat) (f f1 : Flash E) (s : Slot) (d1 : Device_Info).
Context (Hu : unbinding m (S n) f) (Hs : slots (Global_Device f) !! S n = Some s).
Context (Eg : (Bind_ID s =? m) || (ID s =? m) = true).
Context (Hd1 : d1 = set_MainNum (count_after m (MainNum (Global_Device f))) (Global_Device f)).
Context (Hf1 : flash_ok f1) (Hd : Global_Device f1 = del_at (S n) d1) (Ht1 : table_ok d1).

Lemma step_bindings : bindings (Global_Device f1) = delete (ID s) (bindings (Global_Device f)).
Proof.
  rewrite Hd, (del_at_bindings d1 (S n) s Ht1); [by rewrite Hd1 | by rewrite Hd1].
Qed.

Lemma unbinding_step : unbinding m n f1.
Proof.
  pose proof Hu as [Hf Hm Hb Hn Hrest]. pose proof (main_id_range m Hm).
  split; [done | done | | |].
  - rewrite step_bindings. destruct (decide (m = ID s)) as [->|Hne].
    + by rewrite lookup_delete_eq.
    + by rewrite lookup_delete_ne.
  - rewrite Hd, Hd1. cbn. lia.
  - rewrite Hd, Hd1. intros i u Hi Hiu.
    destruct (del_at_lookup (S n) _ i u s Hs Hiu) as [[-> ->]|[Hne Ho]].
    + cbn [removed set_UploadFlag set_Bind_ID set_ID ID Bind_ID].
      by rewrite (proj2 (Z.eqb_neq 0 m)) by lia.
    + apply (Hrest i u); [lia | exact Ho].
Qed.

Lemma unbound_step f' ms ms' :
  del_msg (fmt_ld (ID s)) ∈ ms -> unbound m f1 f' ms' -> unbound m f f' (ms ++ ms').
Proof.
  intros Hin [Hf' Hn' Hb' Hm' Hin'].
  destruct (unbinding_goes m n f s Hu Hs Eg) as [Hbs Hgo]. pose proof (ub_main _ _ _ Hu) as Hm.
  assert (Hgd := gone_delete m _ _ _ Hbs Hgo). rewrite step_bindings in *. split.
  - done.
  - by rewrite Hn', Hd, Hd1.
  - by rewrite Hb', (kept_delete m _ _ _ Hbs Hgo).
  - rewrite Hm', Hd, Hd1, Hgd. cbn. unfold count_after. rewrite Hm. lia.
  - intros id Hid. apply elem_of_app. destruct (decide (id = ID s)) as [->|Hne]; [by left | right].
    apply Hin'. destruct Hid as [x Hx]. exists x.
    unfold gone in *. rewrite map_lookup_filter_Some in *. by rewrite lookup_delete_ne.
Qed.

(** The store keeps up with the table when the slot is emptied. *)
Lemma unbinding_synced e : synced d1 e ->
  synced (del_at (S n) d1)
    (env_set (env_set (env_set e (var_key (VId (Z.of_nat (S n)))) (fmt_ld 0))
       (var_key (VBind m)) (fmt_ld 0)) (var_key (VUpload m)) (fmt_ld 0)).
Proof.
  intros He. pose proof Hu as [Hf Hm Hb Hn _]. pose proof (main_id_range m Hm).
  apply (synced_del d1 e (S n) s m); [done | done | by rewrite Hd1 | rewrite Hd1; cbn; lia | lia |].
  rewrite Hd1. intros i u Hik Hiu Hum.
  assert (Hbm : bindings (Global_Device f) !! m = Some (Bind_ID u)); [|by rewrite Hbm in Hb].
  apply bindings_lookup; [apply Hf|]. exists i, u. repeat split; try done. lia.
Qed.
End Step.

Lemma wp_main_bind m n : forall w (Q : unit -> World E -> Prop),
  tx_ok (w_tx w) -> unbinding m n (w_flash w) ->
  (forall t f ms, emits ms (w_tx w) t -> unbound m (w_flash w) f ms -> Q tt (set_tx t (set_flash f w))) ->
  wp (loop_down n (Del_MainBind_body m)) Q w.
Proof.
  induction n as [|n IH]; intros w Q Htx Hu HQ; pose proof (ub_ok _ _ _ Hu) as Hf.
  - apply wp_ret. assert (Ew : w = set_tx (w_tx w) (set_flash (w_flash w) w)) by by destruct w.
    rewrite Ew at 1. apply (HQ _ _ []); [by apply emits_nil | by apply unbound_nil].
  - cbn [loop_down]. apply wp_bind. unfold Del_MainBind_body at 1. apply wp_bind.
    pose proof (table_num _ (proj1 Hf)) as Hnum. pose proof (ub_le _ _ _ Hu) as Hn. unfold MaxSupport in *.
    destruct (lookup_lt_is_Some_2 (slots (Global_Device (w_flash w))) (S n)) as [s Hs].
    { rewrite (table_length _ (proj1 Hf)). lia. }
    unfold dev_slot. apply wp_on, (wp_slot_at (S n) s); [done|]. rewrite over_view.
    destruct ((Bind_ID s =? m) || (ID s =? m)) eqn:Eg.
    2: { apply wp_ret, IH; [done | by eapply unbinding_skip | done]. }
    apply wp_bind, wp_count; [done|]. intros e d1 Hf1.
    apply wp_bind, wp_Local_Delete; [done | exact Hf1 | |].
    { destruct (unbinding_goes m n _ s Hu Hs Eg) as [Hbs _].
      by apply bindings_lookup in Hbs as (i & t & _ & _ & ? & _); [|apply Hf]. }
    intros t Ht. cbn [w_flash set_flash Global_Device w_tx] in Ht.
    apply (wp_conseq _ (fun _ w' => exists f1, w' = set_tx t (set_flash f1 w) /\ flash_ok f1
      /\ Global_Device f1 = del_at (S n) d1)).
    2: { intros [] w' (f1 & -> & Hf2 & Hd2).
         apply IH; [apply Ht | by eapply (unbinding_step m n (w_flash w) f1 s d1); eauto; apply Hf1|].
         intros t' f' ms He Hun. eapply (HQ t' f'); [by eapply emits_app|].
         eapply (unbound_step m n (w_flash w) f1 s d1); eauto; [apply Hf1|].
         unfold local_delete_msgs. set_solver. }
    apply (wp_removal_last (S n) m s); [exact Hs|].
    eexists. split; [by destruct w|]. split; [|done].
    split; cbn [Global_Device env set_tx set_flash w_flash]; [by eapply del_at_ok, Hs; apply Hf1|].
    by eapply (unbinding_synced m n (w_flash w) s d1); eauto; apply Hf1.
Qed.

(** Whatever the id, [Del_MainBind] answers [RT_ERROR]. *)
Lemma wp_Del_MainBind m (Q : Z -> World E -> Prop) w :
  tx_ok (w_tx w) -> flash_ok (w_flash w) -> is_main_id m = true ->
  default 0 (bindings (Global_Device (w_flash w)) !! m) = 0 ->
  (forall t f ms, emits ms (w_tx w) t -> flash_ok f ->
     bindings (Global_Device f) = kept m (bindings (Global_Device (w_flash w))) ->
     MainNum (Global_Device f) = Z.max 0 (MainNum (Global_Device (w_flash w))
                                   - Z.of_nat (size (gone m (bindings (Global_Device (w_flash w)))))) ->
     (forall id, is_Some (gone m (bindings (Global_Device (w_flash w))) !! id) ->
        del_msg (fmt_ld id) ∈ ms) ->
     Q RT_ERROR (set_tx t (set_flash f w))) ->
  wp (Del_MainBind m) Q w.
Proof.
  intros Htx Hf Hm Hb HQ. unfold Del_MainBind, dev_num. apply wp_bind, wp_gets, wp_bind.
  pose proof (table_num _ (proj1 Hf)) as Hn. unfold MaxSupport in *.
  apply wp_main_bind; [done | |].
  - split; [done | done | done | lia |]. intros i s Hi Hs.
    pose proof (main_id_range m Hm).
    apply (empty_not_matched m _ i s (proj1 Hf)); [lia | done |].
    destruct (Z.eq_dec (ID s) 0) as [|Hne]; [done|].
    pose proof (table_used _ (proj1 Hf) i s Hs Hne). lia.
  - intros t f ms He [? ? ? ? ?]. apply wp_ret. by eapply HQ.
Qed.
End MainBind.

(** ** Online state *)

Section HeartState.
Context {E : Type} `{Env E}.
Implicit Types (w : World E).

(** What a change of a main unit's state says of the slot [s]. *)
Definition slave_msgs (main heart : Z) (s : Slot) : list msg :=
  if Bind_ID s =? main then
    if negb (heart =? 0) then
      if negb (Heart s =? 0) then [heart_msg (fmt_ld (ID s)) 0; online_msg 0 (fmt_ld (ID s)) 1] else []
    else [online_msg 0 (fmt_ld (ID s)) 0]
  else [].

(** Of the slots [n], [n - 1], ..., 1, in this order. *)
Fixpoint slaves_msgs (main heart : Z) (l : list Slot) (n : nat) : list msg :=
  match n with
  | O => []
  | S k => match l !! n with
           | Some s => slave_msgs main heart s ++ slaves_msgs main heart l k
           | None => []
           end
  end.

Lemma says_slave main heart n s w (Q : unit -> World E -> Prop) :
  slots (Global_Device (w_flash w)) !! n = Some s -> tx_ok (w_tx w) ->
  (forall t, emits (slave_msgs main heart s) (w_tx w) t -> Q tt (set_tx t w)) ->
  wp (Set_Slave_Heart_body main heart (Z.of_nat n)) Q w.
Proof.
  intros Hs Htx HQ. unfold Set_Slave_Heart_body. apply wp_bind.
  unfold dev_slot. apply wp_on, (wp_slot_at n s); [done|]. rewrite over_view.
  unfold slave_msgs in HQ. destruct (Bind_ID s =? main); [|by apply says_ret].
  destruct (negb (heart =? 0)); [|by apply says_down].
  destruct (negb (Heart s =? 0)); [by apply says_up | by apply says_ret].
Qed.

Lemma wp_slaves main heart n : forall w (Q : unit -> World E -> Prop),
  (n < length (slots (Global_Device (w_flash w))))%nat -> tx_ok (w_tx w) ->
  (forall t, emits (slaves_msgs main heart (slots (Global_Device (w_flash w))) n) (w_tx w) t ->
     Q tt (set_tx t w)) ->
  wp (loop_down n (Set_Slave_Heart_body main heart)) Q w.
Proof.
  induction n as [|n IH]; intros w Q Hn Htx HQ.
  - by apply says_ret.
  - cbn [loop_down slaves_msgs] in *.
    destruct (lookup_lt_is_Some_2 (slots (Global_Device (w_flash w))) (S n) ltac:(lia)) as [s Hs].
    rewrite Hs in HQ. apply wp_bind, (says_slave _ _ _ s); [done | done|]. intros t Ht.
    apply IH; [cbn; lia | apply Ht|]. intros t' Ht'. apply (HQ t'). by eapply emits_app.
Qed.

Lemma wp_Set_Slave_Heart main heart (Q : Z -> World E -> Prop) w :
  world_ok w ->
  (forall t, emits (slaves_msgs main heart (slots (Global_Device (w_flash w)))
                      (Z.to_nat (Num (Global_Device (w_flash w))))) (w_tx w) t ->
     Q 0 (set_tx t w)) ->
  wp (Set_Slave_Heart main heart) Q w.
Proof.
  intros [Htx [Ht _] _ _ _] HQ. unfold Set_Slave_Heart, dev_num.
  apply wp_bind, wp_gets, wp_bind, wp_slaves.
  - rewrite (table_length _ Ht). pose proof (table_num _ Ht). unfold MaxSupport in *. lia.
  - done.
  - intros t He. by apply wp_ret, HQ.
Qed.

(** The messages of [Flash_Set_Heart] for the device in slot [s]: none unless
    its state changes. *)
Definition heart_change_msgs (id heart : Z) (d : Device_Info) (s : Slot) : list msg :=
  if bool_decide ((heart = 0) <-> (Heart s = 0)) then []
  else slaves_msgs id (if heart =? 0 then 0 else 1) (slots d) (Z.to_nat (Num d)).

(** The slot afterwards: an online report is also noted in [HeartRecv]. *)
Definition heart_slot (heart : Z) (s : Slot) : Slot :=
  if heart =? 0 then (if Heart s =? 0 then s else set_Heart 0 s)
  else (if Heart s =? 0 then set_Heart 1 (set_HeartRecv 1 s) else set_HeartRecv 1 s).

Lemma slaves_msgs_ext main heart l l' n :
  (forall i s, l !! i = Some s -> exists s', l' !! i = Some s' /\ ID s' = ID s
                                  /\ Bind_ID s' = Bind_ID s /\ Heart s' = Heart s) ->
  (n < length l)%nat ->
  slaves_msgs main heart l' n = slaves_msgs main heart l n.
Proof.
  intros Hl. induction n as [|n IH]; intros Hn; [done|]. cbn [slaves_msgs].
  destruct (lookup_lt_is_Some_2 l (S n) Hn) as [s Hs]. rewrite Hs.
  destruct (Hl _ _ Hs) as (s' & -> & E1 & E2 & E3). rewrite IH by lia.
  unfold slave_msgs. by rewrite E1, E2, E3.
Qed.

Lemma wp_on_set_slot i s g (Q : unit -> World E -> Prop) w :
  slots (Global_Device (w_flash w)) !! i = Some s ->
  Q tt (set_flash (mkFlash (set_slots (<[i := g s]> (slots (Global_Device (w_flash w))))
                              (Global_Device (w_flash w))) (env (w_flash w))) w) ->
  wp (on (set_slot (Z.of_nat i) g)) Q w.
Proof. intros Hs HQ. by apply wp_on, (wp_set_slot i s). Qed.

Lemma wp_dev_slot i s (Q : Slot -> World E -> Prop) w :
  slots (Global_Device (w_flash w)) !! i = Some s -> Q s w -> wp (dev_slot (Z.of_nat i)) Q w.
Proof. intros Hs HQ. unfold dev_slot. apply wp_on, (wp_slot_at i s); [done|]. by rewrite over_view. Qed.

(** A slot that differs only in what is not stored keeps the memory good. *)
Lemma flash_ok_mark d (e : E) k s s' :
  flash_ok (mkFlash d e) -> slots d !! k = Some s ->
  ID s' = ID s -> Bind_ID s' = Bind_ID s -> Heart s' = Heart s ->
  flash_ok (mkFlash (set_slots (<[k := s']> (slots d)) d) e).
Proof.
  intros [Ht Hsy] Hs E1 E2 E3. cbn [Global_Device env] in *.
  split; cbn [Global_Device env]; [by apply (update_ok d k s)|].
  apply (update_synced d k s s' Ht Hs E1 E2 e); [done | done|].
  intros Hne. rewrite E3. by apply (synced_heart d _ Hsy k).
Qed.

(** So does a new state that is written to the store too. *)
Lemma flash_ok_state d (e : E) k s s' :
  flash_ok (mkFlash d e) -> slots d !! k = Some s ->
  ID s' = ID s -> Bind_ID s' = Bind_ID s -> 0 <= Heart s' < 2 ->
  flash_ok (mkFlash (set_slots (<[k := s']> (slots d)) d)
              (env_set e (var_key (VHeart (ID s))) (fmt_ld (Heart s')))).
Proof.
  intros [Ht Hsy] Hs E1 E2 Hh. cbn [Global_Device env] in *.
  assert (Hr : 0 <= ID s < 2 ^ 32) by by apply (table_range d Ht k).
  split; cbn [Global_Device env]; [by apply (update_ok d k s)|].
  apply (update_synced d k s s' Ht Hs E1 E2 e); [done | |].
  - intros v Hv Hne. apply stored_ne; [cbn; lia | done | congruence].
  - intros _. f_equal. apply stored_eq. lia.
Qed.

(** The slaves' messages do not depend on what [HeartRecv] holds. *)
Lemma slaves_msgs_recv main heart d k s n :
  slots d !! k = Some s -> (n < length (slots d))%nat ->
  slaves_msgs main heart (<[k := set_HeartRecv 1 s]> (slots d)) n = slaves_msgs main heart (slots d) n.
Proof.
  intros Hs Hn. apply slaves_msgs_ext; [|done]. pose proof (lookup_lt_Some _ _ _ Hs).
  intros i u Hu. destruct (decide (i = k)) as [->|Hne].
  - eexists. rewrite list_lookup_insert_eq by done. rewrite Hs in Hu. by injection Hu as <-.
  - exists u. by rewrite list_lookup_insert_ne.
Qed.

(** What the caller of [Flash_Set_Heart] sees once the device is found in the
    slot [k]. *)
Definition heart_seen (id heart : Z) (k : nat) (s : Slot) w (Q : Z -> World E -> Prop) : Prop :=
  forall t f, let d := Global_Device (w_flash w) in
    emits (heart_change_msgs id heart d s) (w_tx w) t -> flash_ok f ->
    Global_Device f = set_slots (<[k := heart_slot heart s]> (slots d)) d ->
    Q RT_EOK (set_tx t (set_flash f w)).

Section Found.
Context (id : Z) (k : nat) (s : Slot) (w : World E) (Q : Z -> World E -> Prop).
Context (Hok : world_ok w) (Hi : index_of (Global_Device (w_flash w)) id k s).

Lemma wp_heart_off :
  heart_seen id 0 k s w Q ->
  wp (run (do s <- dev_slot (Z.of_nat k);
           if negb (Heart s =? 0) then
             run Set_Slave_Heart id 0;
             run on (Flash_Heart_Change id 0);
             on (set_slot (Z.of_nat k) (set_Heart 0))
           else ret tt);
      ret RT_EOK) Q w.
Proof using Hok Hi.
  intros HQ. destruct Hi as (Hs & Hid & _). pose proof Hok as [Htx Hf _ _ _].
  unfold heart_seen, heart_change_msgs, heart_slot in HQ. change (0 =? 0) with true in HQ. cbv zeta iota in HQ.
  apply wp_bind, wp_bind, (wp_dev_slot k s); [done|].
  destruct (Z.eqb_spec (Heart s) 0) as [E0|E0]; cbn [negb].
  - apply wp_ret, wp_ret. rewrite bool_decide_eq_true_2 in HQ by tauto.
    assert (Ew : w = set_tx (w_tx w) (set_flash (w_flash w) w)) by by destruct w.
    rewrite Ew. apply HQ; [by apply emits_nil | done |].
    rewrite list_insert_id by done. by destruct (Global_Device (w_flash w)).
  - rewrite bool_decide_eq_false_2 in HQ by tauto.
    apply wp_bind, wp_Set_Slave_Heart; [done|]. intros t He.
    apply wp_bind, wp_on, wp_set_env. apply (wp_on_set_slot k s); [done|]. apply wp_ret.
    apply (HQ t (mkFlash _ _) He); [|done]. rewrite <- Hid.
    apply (flash_ok_state _ _ k s (set_Heart 0 s)); [exact Hf | done | done | done | cbn; lia].
Qed.

Lemma wp_heart_on heart :
  heart <> 0 -> heart_seen id heart k s w Q ->
  wp (run (run on (set_slot (Z.of_nat k) (set_HeartRecv 1));
           do s <- dev_slot (Z.of_nat k);
           if Heart s =? 0 then
             run Set_Slave_Heart id 1;
             run on (Flash_Heart_Change id 1);
             on (set_slot (Z.of_nat k) (set_Heart 1))
           else ret tt);
      ret RT_EOK) Q w.
Proof using Hok Hi.
  intros Hh0 HQ. destruct Hi as (Hs & Hid & _). pose proof Hok as [Htx Hf _ _ _].
  unfold heart_seen, heart_change_msgs, heart_slot in HQ.
  rewrite (proj2 (Z.eqb_neq _ _) Hh0) in HQ. cbv zeta in HQ.
  pose proof (lookup_lt_Some _ _ _ Hs) as Hlt.
  apply wp_bind, wp_bind, (wp_on_set_slot k s); [done|].
  set (d := Global_Device (w_flash w)) in *. set (l1 := <[k := set_HeartRecv 1 s]> (slots d)).
  assert (Hf1 : flash_ok (mkFlash (set_slots l1 d) (env (w_flash w)))).
  { by apply (flash_ok_mark d _ k s); [exact Hf | | | |]. }
  assert (Hl1 : l1 !! k = Some (set_HeartRecv 1 s)) by by apply list_lookup_insert_eq.
  apply wp_bind, (wp_dev_slot k (set_HeartRecv 1 s)); [exact Hl1|]. cbn [Heart set_HeartRecv].
  destruct (Z.eqb_spec (Heart s) 0) as [E0|E0].
  - rewrite bool_decide_eq_false_2 in HQ by tauto.
    apply wp_bind, wp_Set_Slave_Heart; [destruct Hok; by split|].
    intros t He. cbn [w_flash w_tx set_flash Global_Device set_slots slots Num] in He.
    unfold l1 in He. rewrite slaves_msgs_recv in He; [|done|].
    2: { rewrite (table_length d (proj1 Hf)). pose proof (table_num d (proj1 Hf)).
         unfold MaxSupport in *. lia. }
    apply wp_bind, wp_on, wp_set_env. apply (wp_on_set_slot k (set_HeartRecv 1 s)); [exact Hl1|].
    apply wp_ret. cbn [w_flash set_flash set_tx Global_Device set_slots slots env view over lens_flash].
    unfold l1. rewrite list_insert_insert_eq. apply (HQ t (mkFlash _ _) He); [|done]. rewrite <- Hid.
    apply (flash_ok_state d _ k s (set_Heart 1 (set_HeartRecv 1 s)));
      [exact Hf | done | done | done | cbn; lia].
  - rewrite bool_decide_eq_true_2 in HQ by tauto. apply wp_ret, wp_ret.
    pose proof (HQ (w_tx w) _ (emits_nil _ Htx) Hf1 eq_refl) as Hq. clear HQ. by destruct w.
Qed.
End Found.

Lemma wp_Flash_Set_Heart id heart (Q : Z -> World E -> Prop) w :
  world_ok w -> id <> 0 -> is_byte heart ->
  (bindings (Global_Device (w_flash w)) !! id = None -> Q RT_ERROR w) ->
  (forall k s t f, let d := Global_Device (w_flash w) in
     index_of d id k s -> emits (heart_change_msgs id heart d s) (w_tx w) t -> flash_ok f ->
     Global_Device f = set_slots (<[k := heart_slot heart s]> (slots d)) d ->
     Q RT_EOK (set_tx t (set_flash f w))) ->
  wp (Flash_Set_Heart id heart) Q w.
Proof.
  intros Hok Hid Hh Hnone Hsome. pose proof Hok as [_ Hf _ _ _].
  unfold Flash_Set_Heart. rewrite (u8_small heart Hh). cbv zeta.
  apply wp_bind, wp_find; [done | done | |].
  { intros Hb. by apply wp_ret, Hnone. }
  intros k s Hi Hb. pose proof Hi as (_ & _ & Hr). rewrite (proj2 (Z.eqb_neq _ 0)) by lia.
  assert (HQ : heart_seen id heart k s w Q) by (intros t f d; by apply Hsome).
  destruct (Z.eqb_spec heart 0) as [->|Hh0]; cbn [negb].
  - by apply (wp_heart_off id k s).
  - by apply (wp_heart_on id k s w Q Hok Hi heart).
Qed.
End HeartState.
