(* ===== verification/WifiSpec.v ===== *)
(** * What the cloud interface promises

    The theorems on [WifiApi], and a small world of two devices in which they are
    instantiated. *)

From Stdlib Require Import String.
From S2P Require Import Prelude CStr McuTx Json Cloud Flashwork RadioQueue Led World WifiApi.
Open Scope list_scope.

(** ** A world of a main unit and a sensor bound to it *)

Definition state_of {S A} (s : S) (r : option (A * S)) : S :=
  match r with Some (_, s') => s' | None => s end.

Lemma wp_state_of {S A} (m : M S A) (P : S -> Prop) s :
  wp m (fun _ => P) s -> P (state_of s (m s)).
Proof. unfold wp, state_of. by destruct (m s) as [[a s']|]. Qed.

Definition demo_flash : Flash (gmap (list Z) (list Z)) :=
  state_of flash0 ((run MainAdd_Flash 10000001; SlaveAdd_Flash 20000001 10000001) flash0).

Definition demo : World (gmap (list Z) (list Z)) := set_flash demo_flash world0.

Lemma demo_flash_ok : flash_ok demo_flash.
Proof.
  assert (Hw : wp (run MainAdd_Flash 10000001; SlaveAdd_Flash 20000001 10000001)
                 (fun _ => flash_ok) flash0).
  { apply wp_bind. eapply wp_conseq.
    - apply (add_main_spec flash0 10000001 0); try apply flash0_ok; try done; vm_compute; done.
    - intros r f [(Hfull & _)|(_ & Hok & Hb & _)].
      + exfalso. refine (Hfull 1%nat slot0 _ eq_refl eq_refl). unfold MaxSupport. lia.
      + eapply wp_conseq.
        * apply (add_slave_spec f 20000001 10000001); [done | lia | lia |]. by rewrite Hb.
        * intros r' f' [(_ & _ & ->)|(_ & Hok' & _)]; done. }
  exact (wp_state_of _ flash_ok _ Hw).
Qed.

Lemma demo_ok : world_ok demo.
Proof.
  split; [done | apply demo_flash_ok | apply radio0_empty | |]; vm_compute; repeat split; intros; discriminate.
Qed.

Lemma demo_main : bindings (Global_Device (w_flash demo)) !! 10000001 = Some 0.
Proof. by vm_compute. Qed.

Lemma demo_slave : bindings (Global_Device (w_flash demo)) !! 20000001 = Some 10000001.
Proof. by vm_compute. Qed.

Lemma tx_ok_world0 : tx_ok (w_tx world0).
Proof. done. Qed.

(** What the statements speak about: the device table, the number of devices the
    cloud is known to have, the messages sent from one state to another. *)
Definition table {E} (w : World E) : Device_Info := Global_Device (w_flash w).
Definition known {E} (w : World E) : Z := remote_Num (w_remote w).
Definition said {E} (ms : list msg) (w w' : World E) : Prop := emits ms (w_tx w) (w_tx w').

(** ** Uploads *)

(** A warning of a device or of a main unit becomes exactly the data point
    uploads [warning_msgs] lists for its type and value, each a whole frame on
    the line, in this order; types it does not know send nothing. *)
Theorem warning_reported {E} `{Env E} (w : World E) from device type value :
  tx_ok (w_tx w) -> is_byte type -> is_byte value ->
  exists t, WariningUpload from device type value w = Some (tt, set_tx t w)
    /\ said (warning_msgs from device type value) w (set_tx t w).
Proof.
   intros Hw Ht Hv. by apply says_run; [apply says_warning|]. Qed.

Lemma warning_reported_witness :
  exists t, WariningUpload 10000001 20000001 1 1 world0 = Some (tt, set_tx t world0)
    /\ emits [bool_msg 104 0 20000001; enum_msg 1 1 20000001] (w_tx world0) t.
Proof.
  apply (warning_reported world0 10000001 20000001 1 1 tx_ok_world0);
    split; vm_compute; (reflexivity || (intros Hc; discriminate Hc)).
Defined.

(** ** Removal *)

(** [Del_Device] takes exactly the device with this id out of the table and
    out of its stored copy, and counts a main unit less when the id is one of a
    main unit; the answer is [RT_ERROR] whether there was such a device or not. *)
Theorem del_device_deletes {E} `{Env E} (w : World E) id :
  world_ok w -> 0 < id < 2 ^ 32 ->
  let d := table w in
  exists w', Del_Device id w = Some (RT_ERROR, w')
    /\ flash_ok (w_flash w')
    /\ bindings (table w') = delete id (bindings d)
    /\ MainNum (table w')
       = (if bool_decide (is_Some (bindings d !! id)) then count_after id (MainNum d) else MainNum d)
    /\ w_tx w' = w_tx w /\ w_radio w' = w_radio w.
Proof.
  cbv beta delta [table].
  intros Hok Hid d.
  assert (Hw : wp (Del_Device id) (fun r w' => r = RT_ERROR
    /\ flash_ok (w_flash w')
    /\ bindings (Global_Device (w_flash w')) = delete id (bindings d)
    /\ MainNum (Global_Device (w_flash w'))
       = (if bool_decide (is_Some (bindings d !! id)) then count_after id (MainNum d) else MainNum d)
    /\ w_tx w' = w_tx w /\ w_radio w' = w_radio w) w).
  { apply wp_Del_Device; [done | done | |].
    - intros Hn. fold d in Hn. rewrite Hn. split; [done|]. split; [apply Hok|].
      by rewrite delete_id.
    - intros f rem Hf _ Hs Hb Hm. fold d in Hs, Hb, Hm. split; [done|]. split; [done|].
      split; [done|]. split; [|done]. cbn [w_flash set_remote set_flash]. rewrite Hm.
      rewrite bool_decide_eq_true_2; [done|]. by destruct (bindings d !! id); [eexists|]. }
  apply wp_Some in Hw as (r & w' & Hrun & -> & Hrest). by exists w'.
Qed.

Lemma del_device_deletes_witness :
  exists w', Del_Device 10000001 demo = Some (RT_ERROR, w')
    /\ bindings (table w') !! 10000001 = None
    /\ MainNum (table w') = 0.
Proof.
  destruct (del_device_deletes demo 10000001 demo_ok) as (w' & Hrun & _ & Hb & Hm & _).
  - split; reflexivity.
  - exists w'. split; [exact Hrun|]. rewrite Hb, Hm. split; [apply lookup_delete_eq | vm_compute; reflexivity].
Defined.

(** C13: unbinding a main unit removes it and every device bound to it, and no
    other, keeps the stored copy in step and tells the module of each removed
    device; the count of main units is lowered once for each of them. *)
Theorem main_unbind_removes {E} `{Env E} (w : World E) m :
  world_ok w -> is_main_id m = true ->
  let b := bindings (table w) in
  b !! m = Some 0 ->
  exists w' ms, Del_MainBind m w = Some (RT_ERROR, w')
    /\ flash_ok (w_flash w')
    /\ (forall id x, bindings (table w') !! id = Some x
          <-> b !! id = Some x /\ id <> m /\ x <> m)
    /\ emits ms (w_tx w) (w_tx w')
    /\ (forall id x, b !! id = Some x -> id = m \/ x = m -> del_msg (fmt_ld id) ∈ ms)
    /\ MainNum (table w')
       = Z.max 0 (MainNum (table w) - Z.of_nat (size (gone m b))).
Proof.
  cbv beta delta [table].
  intros [Htx Hf _ _ _] Hm b Hb.
  assert (Hw : wp (Del_MainBind m) (fun r w' => exists ms, r = RT_ERROR
    /\ flash_ok (w_flash w')
    /\ (forall id x, bindings (Global_Device (w_flash w')) !! id = Some x
          <-> b !! id = Some x /\ id <> m /\ x <> m)
    /\ emits ms (w_tx w) (w_tx w')
    /\ (forall id x, b !! id = Some x -> id = m \/ x = m -> del_msg (fmt_ld id) ∈ ms)
    /\ MainNum (Global_Device (w_flash w'))
       = Z.max 0 (MainNum (Global_Device (w_flash w)) - Z.of_nat (size (gone m b)))) w).
  { apply wp_Del_MainBind; [done | done | done | by fold b; rewrite Hb |].
    intros t f ms He Hok Hk Hn Hin. fold b in Hk, Hn, Hin. exists ms.
    split; [done|]. split; [done|]. cbn [w_flash w_tx set_tx set_flash].
    split; [|split; [done|split; [|done]]].
    - intros id x. rewrite Hk. unfold kept, goes. rewrite map_lookup_filter_Some. cbn. tauto.
    - intros id x Hx Hg. apply Hin. exists x. unfold gone. by rewrite map_lookup_filter_Some. }
  apply wp_Some in Hw as (r & w' & Hrun & ms & -> & Hrest). by exists w', ms.
Qed.

Lemma main_unbind_removes_witness :
  exists w' (ms : list msg), Del_MainBind 10000001 demo = Some (RT_ERROR, w')
    /\ bindings (table w') !! 20000001 = None
    /\ del_msg (fmt_ld 20000001) ∈ ms.
Proof.
  destruct (main_unbind_removes demo 10000001 demo_ok eq_refl demo_main)
    as (w' & ms & Hrun & _ & Hb & _ & Hin & _).
  exists w', ms. split; [exact Hrun|]. split.
  - destruct (bindings (table w') !! 20000001) as [x|] eqn:E; [|reflexivity].
    destruct (proj1 (Hb _ _) E) as (E1 & _ & Hx). unfold table in E1. rewrite demo_slave in E1. injection E1 as <-.
    destruct Hx. reflexivity.
  - apply (Hin 20000001 10000001); [exact demo_slave | right; reflexivity].
Defined.

(** ** Online state *)

(** A heart beat report about a device in the table is noted in its slot;
    only when it changes the device's state, the devices bound to it are
    reported: offline ones all go down, and those that were last heard go up;
    nothing else of the table changes. *)
Theorem set_heart_reports {E} `{Env E} (w : World E) id heart k s :
  world_ok w -> id <> 0 -> is_byte heart ->
  let d := table w in
  index_of d id k s ->
  exists t f, Flash_Set_Heart id heart w = Some (RT_EOK, set_tx t (set_flash f w))
    /\ flash_ok f
    /\ Global_Device f = set_slots (<[k := heart_slot heart s]> (slots d)) d
    /\ emits (heart_change_msgs id heart d s) (w_tx w) t.
Proof.
  cbv beta delta [table].
  intros Hok Hid Hh d Hi.
  assert (Hw : wp (Flash_Set_Heart id heart) (fun r w' => exists t f,
    r = RT_EOK /\ w' = set_tx t (set_flash f w) /\ flash_ok f
    /\ Global_Device f = set_slots (<[k := heart_slot heart s]> (slots d)) d
    /\ emits (heart_change_msgs id heart d s) (w_tx w) t) w).
  { apply wp_Flash_Set_Heart; [done | done | done | |].
    - intros Hb. exfalso. destruct Hi as (Hs & Hids & Hr). fold d in Hb.
      assert (Hb' : bindings d !! id = Some (Bind_ID s)).
      { apply bindings_lookup; [apply Hok|]. exists k, s. split; [done|]. split; [done|]. split; [congruence | done]. }
      congruence.
    - intros k' s' t f. cbv zeta. fold d. intros Hi' He Hf Hg.
      assert (k' = k /\ s' = s) as [-> ->].
      { destruct Hi as (Hs & Hids & Hr), Hi' as (Hs' & Hids' & Hr').
        assert (k' = k) as -> by (apply (table_unique d (proj1 (world_flash w Hok)) k' k s' s); congruence).
        split; congruence. }
      by exists t, f. }
  apply wp_Some in Hw as (r & w' & Hrun & t & f & -> & -> & Hrest). by exists t, f.
Qed.

Definition demo_main_slot : Slot := default slot0 (slots (Global_Device demo_flash) !! 1%nat).

Lemma set_heart_reports_witness :
  exists t f, Flash_Set_Heart 10000001 0 demo = Some (RT_EOK, set_tx t (set_flash f demo))
    /\ emits (heart_change_msgs 10000001 0 (Global_Device demo_flash) demo_main_slot) (w_tx demo) t.
Proof.
  destruct (set_heart_reports demo 10000001 0 1 demo_main_slot demo_ok) as (t & f & Hrun & _ & _ & He).
  - discriminate.
  - split; [intros Hc; discriminate Hc | reflexivity].
  - split; [vm_compute; reflexivity | split; [vm_compute; reflexivity | vm_compute; split; intros Hc; discriminate Hc]].
  - exists t, f. split; [exact Hrun | exact He].
Defined.

(** ** The devices the cloud knows *)

(** A device the module reports is appended to the list of the devices the
    cloud knows, and is found there from then on; there is no check of the
    bound, so the fiftieth report writes past the end of the array. *)
Theorem remote_add_bound {E} `{Env E} (w : World E) id :
  remote_ok (w_remote w) ->
  let n := known w in
  (n < 49 -> exists r, Remote_Device_Add id w = Some (tt, set_remote r w)
     /\ remote_ok r /\ remote_Num r = n + 1
     /\ Remote_Get_Key_Valid id (set_remote r w) = Some (RT_EOK, set_remote r w)
     /\ take (Z.to_nat n + 1) (remote_ID r) = take (Z.to_nat n + 1) (remote_ID (w_remote w)))
  /\ (n = 49 -> Remote_Device_Add id w = None).
Proof.
  cbv beta delta [known].
  intros [Hl Hn] n. subst n.
  assert (Hu : u8 (remote_Num (w_remote w) + 1) = remote_Num (w_remote w) + 1).
  { apply u8_small. unfold is_byte. lia. }
  unfold Remote_Device_Add, on, zoom, bind, get, modify, lift_opt. cbn [view over lens_remote].
  rewrite Hu. split.
  - intros Hlt. rewrite aset_ok by (unfold zlen; lia). eexists. split; [reflexivity|].
    split; [|split; [done|split]].
    + split; cbn; [by rewrite length_insert | lia].
    + set (r := mkRemote _ _).
      assert (Hr : r = mkRemote (remote_Num (w_remote w) + 1)
        (<[Z.to_nat (remote_Num (w_remote w) + 1) := id]> (remote_ID (w_remote w)))) by done.
      unfold Remote_Get_Key_Valid, bind, on, zoom, remote_find, get, lift_opt, bind.
      cbn [view over lens_remote w_remote set_remote]. rewrite Hr. cbn [remote_Num remote_ID].
      replace (Z.to_nat (remote_Num (w_remote w) + 1)) with (S (Z.to_nat (remote_Num (w_remote w)))) by lia.
      cbn [search_id]. rewrite list_lookup_insert_eq by lia. rewrite Z.eqb_refl.
      by rewrite (proj2 (Z.eqb_neq _ 0)) by lia.
    + cbn [remote_ID]. rewrite take_insert_ge; [done | lia].
  - intros E49. by rewrite aset_None by (unfold zlen; lia).
Qed.

Lemma remote_add_bound_witness :
  Remote_Device_Add 10000001 (set_remote (mkRemote 49 (replicate 50 0)) world0) = None.
Proof.
  refine (proj2 (remote_add_bound (set_remote (mkRemote 49 (replicate 50 0)) world0) 10000001 _) eq_refl).
  split; [reflexivity | split; [intros Hc; discriminate Hc | reflexivity]].
Defined.

(** ** The synchronisation *)

Definition main_at (l : list Slot) (i : nat) : bool :=
  match l !! i with Some s => Get_Main_Valid (ID s) (Bind_ID s) =? RT_EOK | None => false end.

(** The main units in the slots below [n], from the last to the first. *)
Fixpoint mains_below (l : list Slot) (n : nat) : list Z :=
  match n with
  | O => []
  | S k => (if main_at l k then [Z.of_nat k] else []) ++ mains_below l k
  end.

(** The slots a synchronisation asks: the one [Sync_Request] selects, and after
    each expiry of the timer the one [Get_Next_Main] goes on to. *)
Fixpoint polls {E} `{Env E} (fuel : nat) : M (World E) (list Z) :=
  do y <- gets w_sync;
  match fuel with
  | O => ret [Sync_Counter y]
  | S k =>
      do r <- Get_Next_Main;
      if r =? RT_EOK then do l <- polls k; ret (Sync_Counter y :: l) else ret [Sync_Counter y]
  end.

Definition sync_polls {E} `{Env E} : M (World E) (list Z) :=
  do n <- dev_num; run Sync_Request; polls (Z.to_nat n).

Section Walk.
Context {E : Type} `{Env E}.
Implicit Types (w : World E).

Definition at_counter (c : Z) w : World E :=
  set_sync (mkSync c (Sync_Recv (w_sync w)) (Sync_Start (w_sync w)) (Sync_timer (w_sync w))
              (Sync_sem (w_sync w))) w.

Lemma next_main_spec n w :
  (n <= length (slots (Global_Device (w_flash w))))%nat ->
  next_main n w = Some (match mains_below (slots (Global_Device (w_flash w))) n with
                        | [] => (RT_ERROR, w)
                        | c :: _ => (RT_EOK, at_counter c w)
                        end).
Proof.
  induction n as [|n IH]; intros Hn; [done|]. cbn [next_main mains_below].
  destruct (lookup_lt_is_Some_2 (slots (Global_Device (w_flash w))) n Hn) as [s Hs].
  assert (Hd : dev_slot (Z.of_nat n) w = Some (s, w)).
  { unfold dev_slot. assert (Hw : wp (on (slot_at (Z.of_nat n))) (fun s' w' => s' = s /\ w' = w) w).
    { apply wp_on, (wp_slot_at n s); [done|]. by rewrite over_view. }
    by apply wp_Some in Hw as (s' & w' & -> & -> & ->). }
  unfold bind at 1. rewrite Hd. unfold main_at. rewrite Hs.
  destruct (Get_Main_Valid (ID s) (Bind_ID s) =? RT_EOK); [done|]. rewrite IH by lia. done.
Qed.

Lemma mains_below_head l n c r :
  mains_below l n = c :: r -> exists k, c = Z.of_nat k /\ (k < n)%nat /\ r = mains_below l k.
Proof.
  induction n as [|n IH]; cbn; [done|]. destruct (main_at l n).
  - cbn. intros E'. injection E' as <- <-. exists n. split; [done|]. split; [lia | done].
  - cbn. intros E'. destruct (IH E') as (k & ? & ? & ?). exists k. split; [done|]. split; [lia | done].
Qed.

Lemma polls_spec fuel : forall w k,
  Sync_Counter (w_sync w) = Z.of_nat k -> (k <= fuel)%nat ->
  (k <= length (slots (Global_Device (w_flash w))))%nat ->
  exists w', polls fuel w
    = Some (Z.of_nat k :: mains_below (slots (Global_Device (w_flash w))) k, w').
Proof.
  induction fuel as [|fuel IH]; intros w k Hk Hf Hl.
  - assert (k = 0%nat) as -> by lia. exists w. cbn [polls]. unfold bind, gets, ret. by rewrite Hk.
  - cbn [polls]. unfold Get_Next_Main, bind, gets, ret. cbv beta iota.
    rewrite Hk, Nat2Z.id, next_main_spec by done.
    destruct (mains_below (slots (Global_Device (w_flash w))) k) as [|c r] eqn:Em; [by exists w|].
    destruct (mains_below_head _ _ _ _ Em) as (j & -> & Hj & ->). cbn [Z.eqb RT_EOK].
    destruct (IH (at_counter (Z.of_nat j) w) j) as (w' & Hp); [done | lia | cbn; lia |].
    unfold RT_EOK. cbn [Z.eqb]. rewrite Hp. by exists w'.
Qed.
End Walk.

(** A synchronisation asks the main units in the slots below [Num], from
    the last to the first; the unit in slot [Num], which is the newest one, is
    left out as soon as there is another, and when there is none the slot [Num]
    is asked whatever it holds. *)
Theorem sync_asks_mains_below {E} `{Env E} (w : World E) :
  table_ok (table w) ->
  let d := table w in
  exists w', sync_polls w
    = Some (match mains_below (slots d) (Z.to_nat (Num d)) with
            | [] => [Num d]
            | l => l
            end, w').
Proof.
  cbv beta delta [table].
  intros Ht d. pose proof (table_num d Ht) as Hn. pose proof (table_length d Ht) as Hl.
  unfold MaxSupport in *. cbv [sync_polls dev_num Sync_Request Sync_timer_set sync_set rt_sem_release_Sync
    bind gets on zoom modify Get_Next_Main get].
  cbn [view over lens_sync w_flash set_sync w_sync Sync_Counter]. fold d.
  rewrite next_main_spec by (cbn [w_flash set_sync]; fold d; lia). cbn [w_flash set_sync]. fold d.
  destruct (mains_below (slots d) (Z.to_nat (Num d))) as [|c r] eqn:Em.
  - edestruct (polls_spec (E := E) (Z.to_nat (Num d))) as (w' & Hp); [| done | |rewrite Hp].
    + cbn. fold d. lia.
    + cbn [w_flash set_sync]. fold d. lia.
    + cbn [w_flash set_sync]. fold d. rewrite Em, Z2Nat.id by lia. by exists w'.
  - destruct (mains_below_head _ _ _ _ Em) as (j & -> & Hj & ->).
    edestruct (polls_spec (E := E) (Z.to_nat (Num d))) as (w' & Hp);
      [| | |rewrite Hp; exists w'; reflexivity]; [done | lia | cbn [w_flash set_sync at_counter]; fold d; lia].
Qed.

(** Two main units, in the slots 1 and 2: only the first one is asked. *)
Definition demo_mains : Flash (gmap (list Z) (list Z)) :=
  state_of flash0 ((run MainAdd_Flash 10000001; MainAdd_Flash 10000002) flash0).

Lemma demo_mains_ok : table_ok (Global_Device demo_mains).
Proof.
  assert (Hw : wp (run MainAdd_Flash 10000001; MainAdd_Flash 10000002)
                 (fun _ f => flash_ok f) flash0).
  { apply wp_bind. eapply wp_conseq.
    - apply (add_main_spec flash0 10000001 0); try apply flash0_ok; try done; vm_compute; done.
    - intros r f [(Hfull & _)|(_ & Hok & Hb & _)].
      + exfalso. refine (Hfull 1%nat slot0 _ eq_refl eq_refl). unfold MaxSupport. lia.
      + eapply wp_conseq.
        * apply (add_main_spec f 10000002 0); [done | lia | lia | by rewrite Hb | done].
        * intros r' f' [(_ & _ & ->)|(_ & Hok' & _)]; done. }
  apply (wp_state_of _ flash_ok _ Hw).
Qed.

Lemma sync_asks_mains_below_witness :
  exists w', sync_polls (set_flash demo_mains world0) = Some ([1], w').
Proof. exact (sync_asks_mains_below (set_flash demo_mains world0) demo_mains_ok). Defined.
