(* ===== verification/Safe.v ===== *)
(** * No operation goes wrong

    [safe R m]: from every good state of the program, [m] accesses no memory
    outside its objects, ends in a good state and returns a result in [R].  The
    operations of [WifiApi] are safe for every device id a message can carry,
    known or not, 0 included; the code that receives messages builds on it. *)

From Stdlib Require Import String.
From S2P Require Import Prelude CStr McuTx Json Cloud Flashwork RadioQueue Led World WifiApi.
Open Scope list_scope.

Definition is_u32 (x : Z) : Prop := 0 <= x < 2 ^ 32.

Lemma u32_ok x : is_u32 (u32 x).
Proof. apply u32_range. Qed.

Section Safe.
Context {E : Type} `{Env E}.
Implicit Types (w : World E).

Definition safe {A} (R : A -> Prop) (m : M (World E) A) : Prop :=
  forall w, world_ok w -> wp m (fun a w' => world_ok w' /\ R a) w.

Definition any {A} (a : A) : Prop := True.

(** The same for the device table alone. *)
Definition fsafe {A} (R : A -> Prop) (m : M (Flash E) A) : Prop :=
  forall f, flash_ok f -> wp m (fun a f' => flash_ok f' /\ R a) f.

Lemma safe_ret {A} (R : A -> Prop) a : R a -> safe R (ret a).
Proof. intros Ha w Hw. by apply wp_ret. Qed.

Lemma safe_bind {A B} (R : A -> Prop) (R' : B -> Prop) m k :
  safe R m -> (forall a, R a -> safe R' (k a)) -> safe R' (bind m k).
Proof.
  intros Hm Hk w Hw. apply wp_bind. eapply wp_conseq; [by apply Hm|].
  intros a w' [Hw' Ha]. by apply Hk.
Qed.

Lemma safe_run {A} (R' : A -> Prop) {B} (m : M (World E) B) k :
  safe any m -> safe R' k -> safe R' (run m; k).
Proof. intros Hm Hk. by eapply safe_bind. Qed.

Lemma safe_weaken {A} (R R' : A -> Prop) m : safe R m -> (forall a, R a -> R' a) -> safe R' m.
Proof. intros Hm HR w Hw. eapply wp_conseq; [by apply Hm|]. intros a w' [? ?]; auto. Qed.

Lemma safe_any {A} (R : A -> Prop) m : safe R m -> safe any m.
Proof. intros Hm. by eapply safe_weaken. Qed.

Lemma safe_if {A} (R : A -> Prop) (b : bool) m m' :
  (b = true -> safe R m) -> (b = false -> safe R m') -> safe R (if b then m else m').
Proof. destruct b; auto. Qed.

Lemma safe_void {A} (m : M (World E) A) : safe any m -> safe any (void m).
Proof. intros Hm. apply safe_run; [done | by apply safe_ret]. Qed.

Lemma safe_gets {A} (R : A -> Prop) (f : World E -> A) : (forall w, world_ok w -> R (f w)) -> safe R (gets f).
Proof. intros Hf w Hw. apply wp_gets. auto. Qed.

Lemma world_ok_tx w t : world_ok w -> tx_ok t -> world_ok (set_tx t w).
Proof. intros [? ? ? ? ?] ?. by split. Qed.

Lemma world_ok_flash w f : world_ok w -> flash_ok f -> world_ok (set_flash f w).
Proof. intros [? ? ? ? ?] ?. by split. Qed.

Lemma safe_says ms m : says ms m -> safe any m.
Proof.
  intros Hm w Hw. apply Hm; [apply Hw|]. intros t Ht. split; [|done].
  apply world_ok_tx; [done | apply Ht].
Qed.

Lemma safe_flash {A} (R : A -> Prop) (m : M (Flash E) A) : fsafe R m -> safe R (on m).
Proof.
  intros Hm w Hw. apply wp_on. eapply wp_conseq; [apply Hm, Hw|].
  intros a f [Hf Ha]. split; [by apply world_ok_flash | done].
Qed.

Lemma safe_tx (m : M Tx unit) ms :
  (forall s (Q : unit -> Tx -> Prop), tx_ok s -> (forall t, emits ms s t -> Q tt t) -> wp m Q s) ->
  safe any (on m).
Proof. intros Hm. by eapply safe_says, says_tx. Qed.

Lemma safe_radio (m : M Radio unit) :
  (forall r, radio_ok r -> wp m (fun _ r' => radio_ok r') r) -> safe any (on m).
Proof.
  intros Hm w Hw. apply wp_on. eapply wp_conseq; [apply Hm, Hw|].
  intros a r Hr. split; [|done]. destruct Hw. by split.
Qed.

Lemma safe_leds {A} (m : M Leds A) : (forall l, wp m (fun _ _ => True) l) -> safe any (on m).
Proof.
  intros Hm w Hw. apply wp_on. eapply wp_conseq; [apply Hm|].
  intros a r _. split; [|done]. destruct Hw. by split.
Qed.

Lemma safe_sync (f : Sync -> Sync) :
  (forall y, 0 <= Sync_Counter y < MaxSupport -> 0 <= Sync_Counter (f y) < MaxSupport) ->
  safe any (sync_set f).
Proof.
  intros Hf w Hw. apply wp_on, wp_modify. split; [|done]. destruct Hw. split; try done. cbn. auto.
Qed.

Lemma safe_wifi (f : Wifi -> Wifi) : safe any (on (modify f)).
Proof. intros w Hw. apply wp_on, wp_modify. split; [|done]. destruct Hw. by split. Qed.

(** ** The queue and the indicators *)

Lemma safe_enqueue e : entry_ok e -> safe any (on (enqueue e)).
Proof. intros He. apply safe_radio. intros r Hr. by apply wp_enqueue_ok. Qed.

Lemma safe_gateway t d r c v : safe any (on (GatewayDataEnqueue t d r c v)).
Proof. apply safe_enqueue, entry_ok_gateway. Qed.

Lemma safe_radio_enqueue t c m d : safe any (on (RadioEnqueue t c m d)).
Proof.
  apply safe_radio. intros r Hr. unfold RadioEnqueue. apply wp_bind. unfold wp at 1, get.
  apply wp_bind. pose proof Hr as [(Hl & Hn & Ht) Hall].
  assert (exists e, (if TargetNum r <? 30 then aget (entries r) (TargetNum r + 1) else Some entry0) = Some e
    /\ is_u32 (Device_Id e)) as (e & He & Hd).
  { destruct (TargetNum r <? 30); [|by exists entry0].
    destruct (aget_is_Some (entries r) (TargetNum r + 1)) as [e He]; [unfold zlen; lia|].
    exists e. split; [done|]. apply aget_Some in He as [_ He].
    by apply (Forall_lookup_1 _ _ _ _ Hall He). }
  unfold wp at 1, lift_opt. rewrite He. apply wp_enqueue_ok; [done | | done | done].
  split; [by left|]. cbn [Taget_Id Device_Id Counter Command Data].
  split_and!; first [apply u32_range | apply u8_byte | apply Hd].
Qed.

Lemma wp_led_all cs (l : Leds) : wp (led_all cs) (fun _ _ => True) l.
Proof.
  revert l. induction cs as [|c cs IH]; intros l; [done|]. cbn [led_all].
  apply wp_bind. unfold led_do. apply wp_modify, IH.
Qed.

Lemma safe_led_all cs : safe any (on (led_all cs)).
Proof. apply safe_leds, wp_led_all. Qed.

Lemma safe_rf_led t : safe any (on (rf_led t)).
Proof. unfold rf_led. repeat case_match; first [apply safe_led_all | by apply safe_leds]. Qed.

Lemma safe_rf_led_factory t : safe any (on (rf_led_factory t)).
Proof. unfold rf_led_factory. repeat case_match; first [apply safe_led_all | by apply safe_leds]. Qed.

Lemma safe_wifi_led t : safe any (on (wifi_led t)).
Proof. unfold wifi_led. repeat case_match; first [apply safe_led_all | by apply safe_leds]. Qed.
End Safe.

(** ** The device table *)

Section SafeTable.
Context {E : Type} `{Env E}.
Implicit Types (f : Flash E) (w : World E).

Lemma fsafe_ret {A} (R : A -> Prop) a : R a -> fsafe R (ret a).
Proof. intros Ha f Hf. by apply wp_ret. Qed.

Lemma fsafe_bind {A B} (R : A -> Prop) (R' : B -> Prop) (m : M (Flash E) A) k :
  fsafe R m -> (forall a, R a -> fsafe R' (k a)) -> fsafe R' (bind m k).
Proof.
  intros Hm Hk f Hf. apply wp_bind. eapply wp_conseq; [by apply Hm|].
  intros a f' [Hf' Ha]. by apply Hk.
Qed.

(** An index of the table. *)
Definition index (k : Z) : Prop := 0 <= k < MaxSupport.

Definition slot_ok (s : Slot) : Prop := is_u32 (ID s) /\ is_u32 (Bind_ID s).

Lemma table_at d k : table_ok d -> index k -> exists s, slots d !! Z.to_nat k = Some s /\ slot_ok s.
Proof.
  intros Ht Hk. unfold index, MaxSupport in Hk.
  destruct (lookup_lt_is_Some_2 (slots d) (Z.to_nat k)) as [s Hs].
  { rewrite (table_length d Ht). lia. }
  exists s. split; [done|]. apply (table_range d Ht _ _ Hs).
Qed.

(** Looking for any slot: 0, or an index between 1 and [Num] where it is. *)
Lemma wp_find_any p (Q : Z -> Flash E -> Prop) f :
  table_ok (Global_Device f) -> Q 0 f ->
  (forall k s, slots (Global_Device f) !! k = Some s -> p s = true ->
     1 <= Z.of_nat k <= Num (Global_Device f) -> Q (Z.of_nat k) f) ->
  wp (find p) Q f.
Proof.
  intros Ht H0 Hs. unfold find, wp, bind, gets, lift_opt. set (d := Global_Device f) in *.
  assert (Hlt : (Z.to_nat (Num d) < length (slots d))%nat).
  { pose proof (table_num d Ht). rewrite (table_length d Ht). unfold MaxSupport in *. lia. }
  destruct (search_spec p _ _ Hlt) as (k & -> & Hle & _ & Hyes).
  destruct (decide (k = 0%nat)) as [->|Hk]; [done|].
  destruct (Hyes Hk) as (s & Hk' & Hp). apply (Hs k s); [done | done | lia].
Qed.

Lemma fsafe_find p : fsafe index (find (E := E) p).
Proof.
  intros f [Ht Hsy]. apply wp_find_any; [done | |].
  - by split; [split|].
  - intros k s _ _ Hk. split; [by split|]. pose proof (table_num _ Ht). unfold index. lia.
Qed.

Lemma fsafe_slot_at k : index k -> fsafe slot_ok (slot_at (E := E) k).
Proof.
  intros Hk f [Ht Hsy]. destruct (table_at _ k Ht Hk) as (s & Hs & Hok).
  rewrite <- (Z2Nat.id k) by (unfold index in Hk; lia).
  apply (wp_slot_at (Z.to_nat k) s); [done|]. by split; [split|].
Qed.

(** A setter of a field that is not stored. *)
Definition keeps_stored (g : Slot -> Slot) : Prop :=
  forall s, ID (g s) = ID s /\ Bind_ID (g s) = Bind_ID s /\ Heart (g s) = Heart s.

Lemma flash_ok_slot f k s g :
  keeps_stored g -> flash_ok f -> slots (Global_Device f) !! k = Some s ->
  flash_ok (mkFlash (set_slots (<[k := g s]> (slots (Global_Device f))) (Global_Device f)) (env f)).
Proof.
  intros Hg [Ht Hsy] Hs. destruct (Hg s) as (E1 & E2 & E3).
  split; cbn [Global_Device env]; [by apply (update_ok _ k s)|].
  apply (update_synced _ k s (g s) Ht Hs E1 E2 (env f)); [done | done |].
  intros Hne. rewrite E3. by apply (synced_heart _ _ Hsy k).
Qed.

Lemma fsafe_set_slot k g : index k -> keeps_stored g -> fsafe any (set_slot (E := E) k g).
Proof.
  intros Hk Hg f Hf. destruct (table_at _ k (proj1 Hf) Hk) as (s & Hs & _).
  rewrite <- (Z2Nat.id k) by (unfold index in Hk; lia).
  apply (wp_set_slot (Z.to_nat k) s); [done|]. split; [by apply flash_ok_slot | done].
Qed.

Lemma flash_ok_upload f id v :
  is_u32 id -> is_byte v -> flash_ok f ->
  flash_ok (mkFlash (Global_Device f) (env_set (env f) (var_key (VUpload id)) (fmt_ld v))).
Proof.
  intros Hid Hv [Ht Hsy]. split; [done|]. cbn [Global_Device env].
  assert (Hold : forall x, var_ok x -> x <> VUpload id ->
    stored (env_set (env f) (var_key (VUpload id)) (fmt_ld v)) x = stored (env f) x).
  { intros x Hx Hne. by apply stored_ne. }
  pose proof (table_num _ Ht). unfold MaxSupport in *.
  split.
  - etransitivity; [by apply (Hold VLearn)|]. apply Hsy.
  - etransitivity; [by apply (Hold VMain)|]. apply Hsy.
  - intros i s Hi Hs. etransitivity; [apply (Hold (VId (Z.of_nat i))); [cbn; lia | done]|].
    by apply (synced_id _ _ Hsy i s).
  - intros i s Hs Hne. etransitivity; [apply (Hold (VBind (ID s))); [|done]|].
    + by apply (table_range _ Ht i).
    + by apply (synced_bind _ _ Hsy i).
  - intros i s Hs Hne. etransitivity; [apply (f_equal u8), (Hold (VHeart (ID s))); [|done]|].
    + by apply (table_range _ Ht i).
    + by apply (synced_heart _ _ Hsy i).
Qed.

Lemma fsafe_upload_change id v :
  is_u32 id -> is_byte v -> fsafe any (Flash_UploadFlag_Change (E := E) id v).
Proof. intros Hid Hv f Hf. apply wp_set_env. split; [by apply flash_ok_upload | done]. Qed.

Lemma fsafe_get_field field (R : Z -> Prop) id :
  R 0 -> (forall s, slot_ok s -> R (field s)) -> fsafe R (get_field (E := E) field id).
Proof.
  intros H0 HR. eapply fsafe_bind; [apply fsafe_find|]. intros k Hk.
  destruct (k =? 0); [by apply fsafe_ret|].
  eapply fsafe_bind; [by apply fsafe_slot_at|]. intros s Hs. apply fsafe_ret. auto.
Qed.

Lemma fsafe_GetBindID id : fsafe is_u32 (GetBindID (E := E) id).
Proof. apply (fsafe_get_field Bind_ID); [by split | by intros s [_ ?]]. Qed.

Lemma fsafe_GetDoorID id : fsafe is_u32 (GetDoorID (E := E) id).
Proof.
  eapply fsafe_bind; [apply fsafe_find|]. intros k Hk. destruct (k =? 0); [by apply fsafe_ret; split|].
  eapply fsafe_bind; [by apply fsafe_slot_at|]. intros s [Hs _]. by apply fsafe_ret.
Qed.

Lemma fsafe_set_field (g : Slot -> Slot) id :
  keeps_stored g ->
  fsafe any (do num <- find (E := E) (fun s => ID s =? id);
             if num =? 0 then ret RT_ERROR else run set_slot num g; ret RT_EOK).
Proof.
  intros Hg. eapply fsafe_bind; [apply fsafe_find|]. intros k Hk.
  destruct (k =? 0); [by apply fsafe_ret|].
  eapply fsafe_bind; [by apply fsafe_set_slot|]. intros _ _. by apply fsafe_ret.
Qed.

Lemma fsafe_Set_UploadFlag id v : is_u32 id -> fsafe any (Flash_Set_UploadFlag (E := E) id v).
Proof.
  intros Hid. eapply fsafe_bind; [apply fsafe_find|]. intros k Hk.
  destruct (k =? 0); [by apply fsafe_ret|].
  eapply fsafe_bind; [by apply fsafe_set_slot|]. intros _ _.
  eapply fsafe_bind; [apply fsafe_upload_change; [done | apply u8_byte]|].
  intros _ _. by apply fsafe_ret.
Qed.

Lemma fsafe_Key_Valid id : fsafe any (Flash_Get_Key_Valid (E := E) id).
Proof. eapply fsafe_bind; [apply fsafe_find|]. intros k _. by apply fsafe_ret. Qed.

Lemma fsafe_Get_MainNums : fsafe any (Get_MainNums (E := E)).
Proof. intros f Hf. apply wp_bind, wp_gets, wp_ret. done. Qed.

Lemma safe_dev_num : safe (fun n => 0 <= n < MaxSupport) (dev_num (E := E)).
Proof. apply safe_gets. intros w Hw. apply (table_num _ (proj1 (world_flash w Hw))). Qed.

Lemma safe_dev_slot k : index k -> safe slot_ok (dev_slot (E := E) k).
Proof. intros Hk. apply safe_flash. by apply fsafe_slot_at. Qed.

Lemma safe_loop_down n (body : Z -> M (World E) unit) :
  (forall k, 1 <= k <= Z.of_nat n -> safe any (body k)) -> safe any (loop_down n body).
Proof.
  induction n as [|n IH]; intros Hb; [by apply safe_ret|]. cbn [loop_down].
  apply safe_run; [apply Hb; lia|]. apply IH. intros k Hk. apply Hb. lia.
Qed.
End SafeTable.

(** ** Removing devices *)

Section SafeRemoval.
Context {E : Type} `{Env E}.
Implicit Types (w : World E) (f : Flash E).

Lemma safe_Remote_Device_Delete id : safe (E := E) any (Remote_Device_Delete id).
Proof.
  intros w Hw. apply wp_Remote_Device_Delete; [apply Hw|].
  intros r rem Hr. split; [|done]. destruct Hw. by split.
Qed.

Lemma safe_Remote_Get_Key_Valid id : safe (E := E) any (Remote_Get_Key_Valid id).
Proof.
  intros w Hw. apply wp_bind, wp_on, wp_remote_find; [apply Hw|]. intros k _ _ _.
  rewrite over_view. by apply wp_ret.
Qed.

Lemma safe_count id : safe (E := E) any (if is_main_id id then void (on Del_MainNums) else ret tt).
Proof.
  intros w Hw. apply wp_count; [apply Hw|]. intros e d Hf. split; [|done]. by apply world_ok_flash.
Qed.

Lemma safe_Del_Device id : is_u32 id -> safe (E := E) any (Del_Device id).
Proof.
  intros Hid w Hw. unfold Del_Device. apply wp_bind, wp_on, wp_find_any; [apply Hw | |].
  { rewrite over_view. by apply wp_ret. }
  intros k s Hs Hids Hk. rewrite over_view. apply Z.eqb_eq in Hids. cbn [view lens_flash] in Hs, Hk.
  rewrite (proj2 (Z.eqb_neq _ 0)) by lia.
  apply wp_bind, wp_count; [apply Hw|]. intros e d Hf. cbv zeta in Hf. fold d in Hf.
  apply wp_bind, wp_Remote_Device_Delete; [apply Hw|]. intros _ rem Hrem.
  eapply (wp_removal k id s); [exact Hs|]. apply wp_ret. split; [|done].
  destruct Hw as [Htx [Ht _] Hra _ Hsc]. split; [done | | done | done | done].
  cbn [w_flash set_flash set_remote Global_Device env]. destruct Hf as [Ht1 Hs1]. cbn [Global_Device env] in *.
  split; cbn [Global_Device env]; [by eapply del_at_ok|].
  apply (synced_del d e k s id); [done | done | done | done | done |].
  intros i t Hik Hit Heq. destruct (Z.eq_dec id 0) as [E0|E0].
  - apply (table_empty d Ht1 i t); [done | congruence].
  - destruct Hik. apply (table_unique d Ht1 i k t s); [done | done | congruence | congruence].
Qed.

Lemma says_ok (m : M (World E) unit) ms w (Q : unit -> World E -> Prop) :
  says ms m -> tx_ok (w_tx w) -> (forall t, tx_ok t -> Q tt (set_tx t w)) -> wp m Q w.
Proof. intros Hm Hw HQ. apply Hm; [done|]. intros t [Ht _]. by apply HQ. Qed.

Lemma safe_del_cmd id : safe (E := E) any (on (local_subdev_del_cmd (fmt_ld id))).
Proof. eapply safe_tx. intros s Q Hs HQ. apply wp_local_subdev_del; [done | apply fmt_ld_id | apply HQ]. Qed.

Lemma safe_Local_Delete id : safe (E := E) any (Local_Delete id).
Proof.
  eapply safe_bind; [apply safe_flash, fsafe_GetBindID|]. intros main _.
  apply safe_run; [apply safe_del_cmd|].
  apply safe_if; intros _; [by eapply safe_says, says_value | by apply safe_ret].
Qed.

(** While the devices bound to [m] are removed, the stored copy is right but
    for the variable that says what [m] itself is bound to. *)
Record synced_but (m : Z) (d : Device_Info) (e : E) : Prop := {
  but_num : read_value e (str "Learn_Nums") = Num d;
  but_main : read_value e (str "Main_Nums") = MainNum d;
  but_id i s : 1 <= Z.of_nat i <= Num d -> slots d !! i = Some s ->
    read_value e (key_num (Z.of_nat i)) = ID s;
  but_bind i s : slots d !! i = Some s -> ID s <> 0 -> ID s <> m ->
    read_value e (key_of "bind:" (ID s)) = Bind_ID s;
  but_heart i s : slots d !! i = Some s -> ID s <> 0 ->
    u8 (read_value e (key_of "heart:" (ID s))) = u8 (Heart s)
}.

Lemma synced_but_of m d e : synced d e -> synced_but m d e.
Proof. intros [? ? ? ? ?]. split; eauto. Qed.

Lemma synced_of_but m d e :
  synced_but m d e -> (forall i s, slots d !! i = Some s -> ID s <> 0 -> ID s <> m) -> synced d e.
Proof.
  intros [? ? ? ? ?] Hno. split; eauto.
Qed.

Lemma but_del m d e k s :
  table_ok d -> synced_but m d e -> slots d !! k = Some s -> 1 <= Z.of_nat k <= Num d -> is_u32 m ->
  synced_but m (del_at k d)
    (env_set (env_set (env_set e (var_key (VId (Z.of_nat k))) (fmt_ld 0))
       (var_key (VBind m)) (fmt_ld 0)) (var_key (VUpload m)) (fmt_ld 0)).
Proof.
  intros Ht Hsy Hs Hk Hm. set (e' := env_set _ _ _).
  pose proof (table_num d Ht) as Hn. unfold MaxSupport in *.
  assert (Hold : forall x, var_ok x -> x <> VId (Z.of_nat k) -> x <> VBind m -> x <> VUpload m ->
                   stored e' x = stored e x).
  { intros x Hx ? ? ?. unfold e'. rewrite !stored_ne by (done || (cbn; unfold is_u32 in *; lia)). done. }
  assert (Hr : forall i t, slots d !! i = Some t -> is_u32 (ID t)).
  { intros i t Hi. by apply (table_range d Ht i t). }
  split; cbn [del_at Num MainNum].
  - etransitivity; [by apply (Hold VLearn)|]. apply Hsy.
  - etransitivity; [by apply (Hold VMain)|]. apply Hsy.
  - intros i t Hi Hit. destruct (del_at_lookup _ _ _ _ _ Hs Hit) as [[-> ->]|[Hne Ho]].
    + transitivity (stored e' (VId (Z.of_nat k))); [done|]. unfold e'.
      rewrite 2!stored_ne by (done || (cbn; unfold is_u32 in *; lia)). by rewrite stored_eq.
    + etransitivity; [apply (Hold (VId (Z.of_nat i))); [cbn; lia | intros [= ?]; lia | done | done]|].
      by apply (but_id m d e Hsy i t).
  - intros i t Hit Hne Hnm. destruct (del_at_lookup _ _ _ _ _ Hs Hit) as [[-> ->]|[Hik Ho]]; [done|].
    etransitivity; [apply (Hold (VBind (ID t))); [by apply (Hr i) | done | congruence | done]|].
    by apply (but_bind m d e Hsy i).
  - intros i t Hit Hne. destruct (del_at_lookup _ _ _ _ _ Hs Hit) as [[-> ->]|[Hik Ho]]; [done|].
    etransitivity; [apply (f_equal u8), (Hold (VHeart (ID t))); [by apply (Hr i) | done | done | done]|].
    by apply (but_heart m d e Hsy i).
Qed.

Lemma but_main_nums m d e v :
  table_ok d -> synced_but m d e -> 0 <= v < 2 ^ 32 ->
  synced_but m (set_MainNum v d) (env_set e (var_key VMain) (fmt_ld v)).
Proof.
  intros Ht Hsy Hv. set (e' := env_set _ _ _). pose proof (table_num d Ht). unfold MaxSupport in *.
  assert (Hold : forall x, var_ok x -> x <> VMain -> stored e' x = stored e x).
  { intros x Hx ?. unfold e'. by rewrite stored_ne. }
  assert (Hr : forall i t, slots d !! i = Some t -> is_u32 (ID t)).
  { intros i t Hi. by apply (table_range d Ht i t). }
  split; cbn [set_MainNum Num MainNum slots].
  - etransitivity; [by apply (Hold VLearn)|]. apply Hsy.
  - transitivity (stored e' VMain); [done|]. by apply stored_eq.
  - intros i t Hi Hit. etransitivity; [apply (Hold (VId (Z.of_nat i))); [cbn; lia | done]|].
    by apply (but_id m d e Hsy i t).
  - intros i t Hit Hne Hnm. etransitivity; [apply (Hold (VBind (ID t))); [by apply (Hr i) | done]|].
    by apply (but_bind m d e Hsy i).
  - intros i t Hit Hne. etransitivity; [apply (f_equal u8), (Hold (VHeart (ID t))); [by apply (Hr i) | done]|].
    by apply (but_heart m d e Hsy i).
Qed.

(** What [Del_MainBind_body] keeps; below [n] nothing is known yet. *)
Record world_but (m : Z) (n : nat) w : Prop := {
  bw_tx : tx_ok (w_tx w);
  bw_table : table_ok (Global_Device (w_flash w));
  bw_synced : synced_but m (Global_Device (w_flash w)) (env (w_flash w));
  bw_radio : radio_ok (w_radio w);
  bw_remote : remote_ok (w_remote w);
  bw_sync : 0 <= Sync_Counter (w_sync w) < MaxSupport;
  bw_num : Z.of_nat n <= Num (Global_Device (w_flash w));
  bw_done i s : (n < i)%nat -> slots (Global_Device (w_flash w)) !! i = Some s -> ID s <> 0 -> ID s <> m
}.

Lemma wp_but_count id m n (Q : unit -> World E -> Prop) w :
  world_but m n w ->
  (forall f, world_but m n (set_flash f w) ->
     slots (Global_Device f) = slots (Global_Device (w_flash w)) -> Q tt (set_flash f w)) ->
  wp (if is_main_id id then void (on Del_MainNums) else ret tt) Q w.
Proof.
  intros Hw HQ. pose proof Hw as [Htx Ht Hsy Hra Hre Hsc Hnum Hd].
  destruct (is_main_id id); [|apply wp_ret; specialize (HQ (w_flash w)); destruct w; by apply HQ].
  apply wp_bind, wp_on. cbn [view lens_flash]. unfold Del_MainNums. apply wp_bind, wp_gets.
  pose proof (table_main _ Ht) as Hm.
  destruct (0 <? MainNum (Global_Device (w_flash w))) eqn:E0.
  2: { apply wp_ret, wp_ret. specialize (HQ (w_flash w)). destruct w; by apply HQ. }
  apply Z.ltb_lt in E0.
  apply wp_bind, wp_on_dev_modify, wp_bind, wp_set_env, wp_ret, wp_ret.
  apply HQ; [|done]. split; try done.
  - cbn [w_flash set_flash over lens_flash Global_Device]. destruct Ht. split; try done.
    cbn. unfold MainSupport in *. lia.
  - apply but_main_nums; [done | done |]. unfold MainSupport in *. lia.
Qed.

Lemma wp_Local_Delete_any id (Q : unit -> World E -> Prop) w :
  tx_ok (w_tx w) -> table_ok (Global_Device (w_flash w)) ->
  (forall t, tx_ok t -> Q tt (set_tx t w)) -> wp (Local_Delete id) Q w.
Proof.
  intros Htx Ht HQ. unfold Local_Delete.
  assert (Hb : wp (on (GetBindID id)) (fun _ w' => w' = w) w).
  { apply wp_on. cbn [view lens_flash]. apply wp_bind, wp_find_any; [done | by apply wp_ret; destruct w |].
    intros k s Hs _ Hk. rewrite (proj2 (Z.eqb_neq _ 0)) by lia.
    apply wp_bind, (wp_slot_at k s), wp_ret; [done|]. by destruct w. }
  apply wp_bind. eapply wp_conseq; [exact Hb|]. intros main w' ->.
  apply wp_bind, wp_on, wp_local_subdev_del; [done | apply fmt_ld_id |]. intros t [Hok _].
  destruct (30000000 <=? id).
  - eapply says_ok; [by apply says_value | done |]. intros t' Ht'. by apply (HQ t').
  - by apply wp_ret, HQ.
Qed.

Lemma wp_bind_body m n (Q : unit -> World E -> Prop) w :
  is_u32 m -> world_but m (S n) w ->
  (forall w', world_but m n w' -> Q tt w') ->
  wp (Del_MainBind_body m (Z.of_nat (S n))) Q w.
Proof.
  intros Hm Hw HQ. pose proof Hw as [Htx Ht Hsy Hra Hre Hsc Hnum Hd].
  pose proof (table_num _ Ht) as Hn. unfold MaxSupport in *.
  destruct (lookup_lt_is_Some_2 (slots (Global_Device (w_flash w))) (S n)) as [s Hs].
  { rewrite (table_length _ Ht). lia. }
  unfold Del_MainBind_body. apply wp_bind, (wp_dev_slot (S n) s); [done|].
  destruct ((Bind_ID s =? m) || (ID s =? m)) eqn:Eg.
  2: { apply wp_ret, HQ. split; try done; [lia|]. intros i t Hi Hit Hne.
       destruct (decide (i = S n)) as [->|Hne']; [|apply (Hd i t); [lia | done | done]].
       rewrite Hs in Hit. injection Hit as <-. apply orb_false_iff in Eg as [_ ?%Z.eqb_neq]. done. }
  apply wp_bind, (wp_but_count m m (S n)); [done|]. intros f Hw1 Hsl.
  apply wp_bind, wp_Local_Delete_any; [done | apply Hw1 |]. intros t Htx'.
  pose proof Hw1 as [_ Ht1 Hsy1 _ _ _ Hnum1 Hd1]. cbn [w_flash set_flash] in *.
  apply (wp_removal_last (S n) m s).
  { cbn [w_flash set_flash set_tx]. by rewrite Hsl. }
  rewrite <- Hsl in Hs. apply HQ. cbn [w_flash set_flash set_tx].
  split; cbn [w_flash set_flash set_tx w_tx w_radio w_remote Global_Device env del_at Num]; try done.
  - by eapply del_at_ok.
  - apply (but_del m _ _ (S n) s); [done | done | done | lia | done].
  - lia.
  - intros i u Hi Hiu Hne. destruct (del_at_lookup _ _ _ _ _ Hs Hiu) as [[-> ->]|[Hik Ho]]; [done|].
    apply (Hd1 i u); [lia | done | done].
Qed.

Lemma safe_Del_MainBind m : is_u32 m -> safe (E := E) any (Del_MainBind m).
Proof.
  intros Hm w Hw. pose proof Hw as [Htx [Ht Hsy] Hra Hre Hsc]. unfold Del_MainBind, dev_num.
  apply wp_bind, wp_gets, wp_bind.
  assert (Hgo : forall n w', world_but m n w' ->
            wp (loop_down n (Del_MainBind_body m)) (fun _ w'' => world_but m 0 w'') w').
  { induction n as [|n IH]; intros w' Hw'; [done|]. cbn [loop_down].
    apply wp_bind, wp_bind_body; [done | done | exact IH]. }
  pose proof (table_num _ Ht) as Hn. eapply wp_conseq; [apply Hgo|].
  - split; try done; [by apply synced_but_of | lia |].
    intros i s Hi Hs Hne. pose proof (table_used _ Ht i s Hs Hne). lia.
  - intros _ w' [Htx' Ht' Hsy' Hra' Hre' Hsc' _ Hd]. apply wp_ret. split; [|done]. split; try done.
    split; [done|]. apply (synced_of_but m); [done|]. intros i s Hs Hne.
    apply (Hd i s); [|done|done]. pose proof (table_used _ Ht' i s Hs Hne). lia.
Qed.
End SafeRemoval.

(** ** Adding devices, their state, and uploads *)

#[export] Hint Resolve safe_gateway safe_radio_enqueue safe_rf_led safe_rf_led_factory
  safe_Remote_Get_Key_Valid safe_sync safe_dev_slot u32_ok : gw.

Section SafeApi.
Context {E : Type} `{Env E}.
Implicit Types (w : World E).

Lemma safe_dp_bool d v id : is_byte d -> safe (E := E) any (dp_bool d v id).
Proof. intros Hd. by eapply safe_says, says_bool. Qed.
Lemma safe_dp_value d v id : is_byte d -> safe (E := E) any (dp_value d v id).
Proof. intros Hd. by eapply safe_says, says_value. Qed.
Lemma safe_dp_enum d v id : is_byte d -> safe (E := E) any (dp_enum d v id).
Proof. intros Hd. by eapply safe_says, says_enum. Qed.
Lemma safe_Device_Up id : safe (E := E) any (Device_Up id).
Proof. eapply safe_says, says_up. Qed.
Lemma safe_Device_Down id : safe (E := E) any (Device_Down id).
Proof. eapply safe_says, says_down. Qed.
Lemma safe_WariningUpload f d t v : safe (E := E) any (WariningUpload f d t v).
Proof.
  assert (Hm : forall w, WariningUpload (E := E) f d t v w = WariningUpload f d (u8 t) (u8 v) w).
  { intros w. unfold WariningUpload. by rewrite !u8_idemp. }
  intros w Hw. unfold wp. rewrite Hm.
  refine (safe_says _ _ (says_warning f d (u8 t) (u8 v) _ _) w Hw); apply u8_byte.
Qed.

Lemma safe_set_field (m : M (Flash E) Z) : fsafe any m -> safe any (on m).
Proof. apply safe_flash. Qed.

Lemma safe_Set_Moto id v : safe (E := E) any (on (Flash_Set_Moto id v)).
Proof. by apply safe_flash, fsafe_set_field. Qed.
Lemma safe_Set_Rssi id v : safe (E := E) any (on (Flash_Set_Rssi id v)).
Proof. by apply safe_flash, fsafe_set_field. Qed.
Lemma safe_Set_UploadFlag id v : is_u32 id -> safe (E := E) any (on (Flash_Set_UploadFlag id v)).
Proof. intros Hid. by apply safe_flash, fsafe_Set_UploadFlag. Qed.
Lemma safe_Key_Valid id : safe (E := E) any (on (Flash_Get_Key_Valid id)).
Proof. by apply safe_flash, fsafe_Key_Valid. Qed.
Lemma safe_get_field (field : Slot -> Z) id : safe (E := E) any (on (get_field field id)).
Proof. by apply safe_flash, fsafe_get_field. Qed.
Lemma safe_GetBindID id : safe (E := E) is_u32 (on (GetBindID id)).
Proof. apply safe_flash, fsafe_GetBindID. Qed.
Lemma safe_GetDoorID id : safe (E := E) is_u32 (on (GetDoorID id)).
Proof. apply safe_flash, fsafe_GetDoorID. Qed.
End SafeApi.

#[export] Hint Resolve safe_dp_bool safe_dp_value safe_dp_enum safe_Device_Up safe_Device_Down
  safe_WariningUpload safe_Set_Moto safe_Set_Rssi safe_Set_UploadFlag safe_Key_Valid safe_get_field
  safe_GetBindID safe_GetDoorID safe_Del_Device safe_Del_MainBind safe_Local_Delete : gw.

#[export] Hint Extern 1 (is_byte _) => done : gw.

(** Goes through a sequence of safe operations. *)
Ltac safe_step :=
  lazymatch goal with
  | |- safe _ (ret _) => apply safe_ret; (exact I || done)
  | |- safe _ (bind (gets _) _) => apply (safe_bind any); [by apply safe_gets | intros ? _]
  | |- safe _ (bind (dev_slot _) _) =>
      eapply (safe_bind slot_ok); [apply safe_dev_slot | intros ? ?]
  | |- safe _ (bind (on (GetBindID _)) _) =>
      eapply (safe_bind is_u32); [apply safe_GetBindID | intros ? ?]
  | |- safe _ (bind (on (GetDoorID _)) _) =>
      eapply (safe_bind is_u32); [apply safe_GetDoorID | intros ? ?]
  | |- safe _ (bind _ _) => apply (safe_bind any); [ | intros ? _]
  | |- safe _ (void _) => apply safe_void
  | |- safe _ (if _ then _ else _) => apply safe_if; intros ?
  | |- safe _ (let _ := _ in _) => cbv zeta
  end.

Ltac safe_tac :=
  repeat (safe_step || (eauto 3 with gw; fail) || (eapply safe_any; eauto 3 with gw; fail)).

Section SafeUploads.
Context {E : Type} `{Env E}.
Implicit Types (w : World E).

Lemma safe_MotoUpload id v : safe (E := E) any (MotoUpload id v).
Proof. unfold MotoUpload, Remote_Delay_WiFi. safe_tac. Qed.
Lemma safe_DoorUpload id v : safe (E := E) any (DoorUpload id v).
Proof. unfold DoorUpload. safe_tac. Qed.
Lemma safe_Door_Delay m id v : safe (E := E) any (Door_Delay_WiFi m id v).
Proof. unfold Door_Delay_WiFi. safe_tac. Qed.
Lemma safe_CloseWarn_Main id : safe (E := E) any (CloseWarn_Main id).
Proof. unfold CloseWarn_Main. safe_tac. Qed.
Lemma safe_CloseWarn_Slave id : safe (E := E) any (CloseWarn_Slave id).
Proof. unfold CloseWarn_Slave. safe_tac. Qed.
Lemma safe_InitWarn_Main id : safe (E := E) any (InitWarn_Main id).
Proof. unfold InitWarn_Main. safe_tac. Qed.
Lemma safe_Slave_Heart id v : safe (E := E) any (Slave_Heart id v).
Proof. unfold Slave_Heart. safe_tac. Qed.
Lemma safe_Main_Rssi_Report id v : safe (E := E) any (Main_Rssi_Report id v).
Proof. unfold Main_Rssi_Report. safe_tac. Qed.
Lemma safe_Upload_Main_ID id : safe (E := E) any (Upload_Main_ID id).
Proof. unfold Upload_Main_ID, Flash_Get_Moto. safe_tac. Qed.
Lemma safe_Reset_Main_Warn id : safe (E := E) any (Reset_Main_Warn id).
Proof. unfold Reset_Main_Warn. safe_tac. Qed.
Lemma safe_Upload_Slave_ID id b : safe (E := E) any (Upload_Slave_ID id b).
Proof. unfold Upload_Slave_ID, Flash_Get_Rssi. safe_tac. Qed.
Lemma safe_Reset_Slave_Warn id : safe (E := E) any (Reset_Slave_Warn id).
Proof. unfold Reset_Slave_Warn. safe_tac. Qed.
Lemma safe_Upload_Door_ID id b : safe (E := E) any (Upload_Door_ID id b).
Proof. unfold Upload_Door_ID, Flash_Get_Rssi. safe_tac. Qed.

Lemma safe_Self_Bind_Upload id : is_u32 id -> safe (E := E) any (Self_Bind_Upload id).
Proof.
  intros Hid. unfold Self_Bind_Upload, Flash_Get_UploadFlag.
  pose proof safe_Upload_Main_ID. pose proof safe_Upload_Slave_ID. pose proof safe_Upload_Door_ID.
  pose proof safe_Reset_Main_Warn. pose proof safe_Reset_Slave_Warn. safe_tac.
Qed.

Lemma safe_Heart_Request buf : safe (E := E) any (Heart_Request buf).
Proof.
  unfold Heart_Request, Flash_Get_Heart. cbv zeta. pose proof safe_Self_Bind_Upload. safe_tac.
Qed.

Lemma safe_Remote_Delete id : is_u32 id -> safe (E := E) any (Remote_Delete id).
Proof. intros Hid. unfold Remote_Delete. safe_tac. Qed.

(** *** Heart beats *)

Lemma safe_Set_Slave_Heart id h : safe (E := E) any (Set_Slave_Heart id h).
Proof.
  unfold Set_Slave_Heart. eapply safe_bind; [apply safe_dev_num|]. intros n Hn. cbv beta in Hn.
  apply safe_run; [|by apply safe_ret]. apply safe_loop_down. intros k Hk.
  unfold Set_Slave_Heart_body. eapply safe_bind; [apply safe_dev_slot; unfold index; lia|].
  intros s Hs. safe_tac.
Qed.

Lemma flash_ok_heart f k s g h :
  flash_ok (E := E) f -> slots (Global_Device f) !! k = Some s ->
  ID (g s) = ID s -> Bind_ID (g s) = Bind_ID s -> Heart (g s) = h -> 0 <= h < 2 ->
  flash_ok (mkFlash (set_slots (<[k := g s]> (slots (Global_Device f))) (Global_Device f))
              (env_set (env f) (var_key (VHeart (ID s))) (fmt_ld h))).
Proof.
  intros [Ht Hsy] Hs E1 E2 E3 Hh. pose proof (table_range _ Ht k s Hs) as [Hr _].
  split; cbn [Global_Device env]; [by apply (update_ok _ k s)|].
  apply (update_synced _ k s (g s) Ht Hs E1 E2 (env f)); [done | |].
  - intros v Hv Hne. by apply stored_ne.
  - intros _. rewrite E3. f_equal. apply stored_eq. lia.
Qed.

Lemma safe_Flash_Set_Heart id h : safe (E := E) any (Flash_Set_Heart id h).
Proof.
  unfold Flash_Set_Heart. cbv zeta. intros w Hw. apply wp_bind, wp_on.
  apply wp_find_any; [apply Hw | rewrite over_view; by apply wp_ret |].
  intros k s Hs Hid Hk. rewrite over_view. apply Z.eqb_eq in Hid. cbn [view lens_flash] in Hs, Hk.
  rewrite (proj2 (Z.eqb_neq _ 0)) by lia. pose proof (world_flash w Hw) as Hf.
  assert (Hgo : forall (m : M (World E) unit),
    wp m (fun _ w' => world_ok w') w -> wp (run m; ret RT_EOK) (fun a w' => world_ok w' /\ any a) w).
  { intros m Hm. apply wp_bind. eapply wp_conseq; [exact Hm|]. intros a w' Hw'. by apply wp_ret. }
  apply Hgo. clear Hgo.
  (* writing the state of the slot that holds [u] *)
  assert (Hset : forall w' u h', world_ok w' -> 0 <= h' < 2 ->
    slots (Global_Device (w_flash w')) !! k = Some u -> ID u = id ->
    wp (run on (Flash_Heart_Change id h'); on (set_slot (Z.of_nat k) (set_Heart h')))
      (fun _ w'' => world_ok w'') w').
  { intros w' u h' Hw' Hh' Hu Hidu. apply wp_bind, wp_on, wp_set_env, (wp_on_set_slot k u); [done|].
    cbn [w_flash set_flash over lens_flash view Global_Device env]. rewrite <- Hidu.
    pose proof (flash_ok_heart (w_flash w') k u (set_Heart h') h' (world_flash w' Hw') Hu
                  eq_refl eq_refl eq_refl Hh') as Hok.
    split; try apply Hw'. exact Hok. }
  (* the sensors' reports leave the table alone *)
  assert (Hsl : forall w' h', world_ok w' ->
    wp (Set_Slave_Heart id h') (fun _ w'' => world_ok w'' /\ w_flash w'' = w_flash w') w').
  { intros w' h' Hw'. apply wp_Set_Slave_Heart; [done|]. intros t [Ht _]. split; [|done].
    by apply world_ok_tx. }
  destruct (negb (u8 h =? 0)).
  - apply wp_bind, (wp_on_set_slot k s); [done|].
    set (s1 := set_HeartRecv 1 s). set (w1 := set_flash _ w).
    assert (Hw1 : world_ok w1).
    { apply world_ok_flash; [done|]. by apply (flash_ok_slot _ k s (set_HeartRecv 1)). }
    assert (Hs1 : slots (Global_Device (w_flash w1)) !! k = Some s1).
    { apply list_lookup_insert_eq. by eapply lookup_lt_Some. }
    apply wp_bind, (wp_dev_slot k s1); [done|]. destruct (Heart s1 =? 0); [|by apply wp_ret].
    apply wp_bind. eapply wp_conseq; [by apply Hsl|]. intros _ w2 [Hw2 Ef].
    apply (Hset w2 s1); [done | done | by rewrite Ef | done].
  - apply wp_bind, (wp_dev_slot k s); [done|]. destruct (negb (Heart s =? 0)); [|by apply wp_ret].
    apply wp_bind. eapply wp_conseq; [by apply Hsl|]. intros _ w2 [Hw2 Ef].
    apply (Hset w2 s); [done | done | by rewrite Ef | done].
Qed.
End SafeUploads.

#[export] Hint Resolve safe_MotoUpload safe_DoorUpload safe_Door_Delay safe_CloseWarn_Main
  safe_CloseWarn_Slave safe_InitWarn_Main safe_Slave_Heart safe_Main_Rssi_Report safe_Upload_Main_ID
  safe_Reset_Main_Warn safe_Upload_Slave_ID safe_Reset_Slave_Warn safe_Upload_Door_ID
  safe_Self_Bind_Upload safe_Heart_Request safe_Flash_Set_Heart safe_Remote_Delete : gw.

Section SafeAdding.
Context {E : Type} `{Env E}.
Implicit Types (w : World E).

Lemma safe_heart_report id : safe (E := E) any (on (heart_beat_report (fmt_ld id) 0)).
Proof. eapply safe_tx. intros s Q Hs HQ. by apply wp_heart_beat_report; [| apply fmt_ld_id | |]. Qed.

Lemma safe_Heart_Upload id h : safe (E := E) any (Heart_Upload id h).
Proof. unfold Heart_Upload. pose proof safe_heart_report. safe_tac. Qed.

Lemma safe_DeviceCheck id from : safe (E := E) any (DeviceCheck id from).
Proof. unfold DeviceCheck. safe_tac. Qed.

Lemma on_ret {A} (a : A) w : on (ret a : M (Flash E) A) w = Some (a, w).
Proof. unfold on, zoom, ret. by rewrite over_view. Qed.

(** A device is added only after the lookup has failed. *)
Definition add_if_unknown (add : M (Flash E) Z) (id : Z) : M (Flash E) unit :=
  do known <- Flash_Get_Key_Valid id;
  if known =? RT_ERROR then run add; ret tt else ret tt.

Lemma fsafe_add_if_unknown add id b main :
  0 < id < 2 ^ 32 ->
  (forall f, flash_ok f -> bindings (Global_Device f) !! id = None -> wp add (add_post id b main f) f) ->
  fsafe any (add_if_unknown add id).
Proof.
  intros Hid Hadd f Hf. unfold add_if_unknown, Flash_Get_Key_Valid.
  apply wp_bind, wp_bind, wp_find_id; [apply Hf | lia | |].
  - intros Hn. apply wp_ret. cbv beta. cbn [Z.eqb RT_ERROR]. apply wp_bind.
    eapply wp_conseq; [by apply Hadd|]. intros r f' Hp. apply wp_ret. split; [|done].
    destruct Hp as [(_ & _ & ->)|(_ & Hok & _)]; done.
  - intros k s (_ & _ & Hk) _. apply wp_ret. rewrite (proj2 (Z.eqb_neq _ 0)) by lia. by apply wp_ret.
Qed.

Lemma safe_add_and_announce add announce id b main :
  0 < id < 2 ^ 32 ->
  (forall f, flash_ok f -> bindings (Global_Device f) !! id = None -> wp add (add_post id b main f) f) ->
  (forall x, safe any (announce x)) ->
  safe (E := E) any (add_and_announce add announce id).
Proof.
  intros Hid Hadd Hann w Hw.
  assert (Hm : wp (on (add_if_unknown add id)) (fun _ w' => world_ok w') w).
  { apply wp_on. eapply wp_conseq; [apply (fsafe_add_if_unknown add id b main); [done | done | apply Hw]|].
    intros a f [Hf _]. by apply world_ok_flash. }
  assert (Hrest : safe any (do remote <- Remote_Get_Key_Valid id;
            if remote =? RT_ERROR then run on (Flash_Set_UploadFlag id 0); announce id else ret tt)).
  { assert (is_u32 id) by (unfold is_u32; lia). safe_tac. }
  unfold add_and_announce. apply wp_bind. revert Hm. unfold add_if_unknown, void.
  unfold wp at 1. rewrite on_bind. unfold bind at 1, wp at 1.
  destruct (on (Flash_Get_Key_Valid id) w) as [[known w1]|]; [|done].
  destruct (known =? RT_ERROR).
  - rewrite on_bind. intros Hm. apply wp_bind, wp_bind. revert Hm. unfold bind, wp at 1.
    destruct (on add w1) as [[r w2]|] eqn:E2; [|done]. rewrite on_ret. intros Hw2. by apply Hrest.
  - rewrite on_ret. intros Hw1. by apply wp_bind, wp_ret, Hrest.
Qed.

Lemma safe_Add2Flash id from : is_u32 id -> is_u32 from -> safe (E := E) any (Device_Add2Flash_Wifi id from).
Proof.
  intros Hid Hfrom. unfold Device_Add2Flash_Wifi.
  assert (Hj : forall pid, pid = main_pid \/ pid = slave_pid \/ pid = door_pid -> forall x,
    safe (E := E) any (run on (local_add_subdev_limit 1 0 1);
                       on (gateway_subdevice_add (str "1.0") pid 0 (fmt_ld x) 10 0))).
  { intros pid Hp x. by eapply safe_says, says_join. }
  apply safe_run; [|apply safe_if; intros Hi; [|apply safe_if; intros Hi']]; try by apply safe_ret.
  - apply safe_if; intros Hi; [|by apply safe_ret].
    unfold is_main_id in Hi. apply andb_true_iff in Hi as [?%Z.leb_le ?%Z.ltb_lt].
    apply (safe_add_and_announce _ _ id 0 true); [lia | |intros x; apply Hj; tauto].
    intros f Hf Hb. apply (add_main_spec f id 0); (done || lia).
  - unfold is_slave_id in Hi. apply andb_true_iff in Hi as [?%Z.leb_le ?%Z.ltb_lt].
    apply (safe_add_and_announce _ _ id from false); [lia | |intros x; apply Hj; tauto].
    intros f Hf Hb. apply add_slave_spec; (done || lia).
  - unfold is_door_id in Hi'. apply andb_true_iff in Hi' as [?%Z.leb_le ?%Z.ltb_lt].
    apply (safe_add_and_announce _ _ id from false); [lia | |intros x; apply Hj; tauto].
    intros f Hf Hb. apply add_door_spec; (done || lia).
Qed.
End SafeAdding.

#[export] Hint Resolve safe_Heart_Upload safe_DeviceCheck safe_Add2Flash safe_heart_report : gw.

(** ** The synchronisation *)

Section SafeSync.
Context {E : Type} `{Env E}.
Implicit Types (w : World E).

Lemma safe_counter : safe index (do y <- gets (w_sync (E := E)); ret (Sync_Counter y)).
Proof. intros w Hw. apply wp_bind, wp_gets, wp_ret. split; [done | apply Hw]. Qed.

(** Reading the counter, as the code does before each use of it. *)
Lemma safe_at_counter {A} (R : A -> Prop) (k : Sync -> M (World E) A) :
  (forall y, index (Sync_Counter y) -> safe R (k y)) -> safe R (do y <- gets w_sync; k y).
Proof. intros Hk w Hw. apply wp_bind, wp_gets. apply Hk; [apply Hw | done]. Qed.

Lemma safe_timer b : safe (E := E) any (Sync_timer_set b).
Proof. by apply safe_sync. Qed.

Lemma safe_release : safe (E := E) any rt_sem_release_Sync.
Proof. by apply safe_sync. Qed.

Lemma safe_set_slot k g : index k -> keeps_stored g -> safe (E := E) any (on (set_slot k g)).
Proof. intros Hk Hg. by apply safe_flash, fsafe_set_slot. Qed.

Lemma safe_Sync_Refresh : safe (E := E) any Sync_Refresh.
Proof.
  unfold Sync_Refresh. apply safe_at_counter. intros y Hy. pose proof safe_timer.
  apply safe_if; intros _; [|by apply safe_ret].
  apply safe_run; [by apply safe_sync|]. apply safe_run; [by apply safe_set_slot | done].
Qed.

Lemma safe_next_main n : Z.of_nat n <= MaxSupport -> safe (E := E) any (next_main n).
Proof.
  unfold MaxSupport. induction n as [|n IH]; intros Hn; [by apply safe_ret|]. cbn [next_main].
  eapply safe_bind; [apply safe_dev_slot; unfold index, MaxSupport; lia|]. intros s Hs.
  apply safe_if; intros _; [|apply IH; lia].
  apply safe_run; [|by apply safe_ret]. apply safe_sync. intros y Hy. cbn. unfold MaxSupport. lia.
Qed.

Lemma safe_Get_Next_Main : safe (E := E) any Get_Next_Main.
Proof.
  apply safe_at_counter. intros y Hy. apply safe_next_main. unfold index in Hy. lia.
Qed.

Lemma safe_Sync_Request : safe (E := E) any Sync_Request.
Proof.
  unfold Sync_Request. apply safe_run; [apply safe_timer|].
  eapply safe_bind; [apply safe_dev_num|]. intros n Hn. cbv beta in Hn.
  apply safe_run; [by apply safe_sync|]. apply safe_run; [apply safe_Get_Next_Main | apply safe_release].
Qed.

Lemma safe_Sync_Timeout : safe (E := E) any Sync_Timeout_Callback.
Proof.
  unfold Sync_Timeout_Callback. apply safe_run; [apply safe_timer|].
  eapply safe_bind; [apply safe_Get_Next_Main|]. intros r _.
  apply safe_if; intros _; [apply safe_release | by apply safe_sync].
Qed.

Lemma safe_Sync_send : safe (E := E) any Sync_send.
Proof.
  unfold Sync_send. pose proof safe_release. pose proof safe_timer.
  apply safe_at_counter. intros y Hy.
  eapply safe_bind; [by apply safe_dev_slot|]. intros s [Hs _].
  apply safe_if; intros _; [by apply safe_ret|].
  apply safe_run; [apply safe_Add2Flash; [done | by split]|].
  apply safe_at_counter. intros y' Hy'. eapply safe_bind; [by apply safe_dev_slot|]. intros s' _.
  apply safe_if; intros _.
  - apply safe_run; [by apply safe_sync|]. safe_tac.
  - apply safe_run; [done|]. eapply safe_bind; [apply safe_Get_Next_Main|]. intros r _.
    apply safe_if; intros _; [by apply safe_run; [|apply safe_ret]|].
    apply safe_at_counter. intros y2 Hy2. apply safe_run; [by apply safe_set_slot | by apply safe_ret].
Qed.

Lemma safe_Sync_check : safe (E := E) any Sync_check.
Proof.
  unfold Sync_check. apply safe_at_counter. intros y Hy.
  apply safe_if; intros _; [|by apply safe_ret].
  eapply safe_bind; [by apply safe_dev_slot|]. intros s _.
  apply safe_run; [by apply safe_set_slot | apply safe_release].
Qed.
End SafeSync.

#[export] Hint Resolve safe_Sync_Refresh safe_Sync_Request safe_Sync_Timeout safe_Sync_send safe_Sync_check : gw.
