(* ===== verification/Register.v ===== *)
(** * Registering a device

    What [Device_Add2Flash_Wifi] of [src/wifi/wifi-api.c] does to the device
    table and tells the cloud. *)

From Stdlib Require Import String.
From S2P Require Import Prelude CStr McuTx Json Cloud Flashwork RadioQueue Led World WifiApi WifiSpec Safe.
Open Scope list_scope.

Definition remote_knows (r : Remote_Info) (id : Z) : Prop :=
  exists i, (1 <= i <= Z.to_nat (remote_Num r))%nat /\ remote_ID r !! i = Some id.

Definition pid_of (id : Z) : list Z :=
  if is_main_id id then main_pid else if is_slave_id id then slave_pid else door_pid.

(** The device is in the table, bound to its main unit, or the table was full. *)
Definition registered {E} `{Env E} (id from : Z) (w w' : World E) : Prop :=
  let b := bindings (Global_Device (w_flash w)) in
  bindings (Global_Device (w_flash w')) = <[id := if is_main_id id then 0 else from]> b
  \/ (size b = 49%nat /\ bindings (Global_Device (w_flash w')) = b).

Definition announced {E} `{Env E} (id : Z) (w w' : World E) : Prop :=
  (remote_knows (w_remote w) id /\ emits [] (w_tx w) (w_tx w'))
  \/ (~ remote_knows (w_remote w) id /\ emits (join_msgs (pid_of id) id) (w_tx w) (w_tx w')).

Section Registering.
Context {E : Type} `{Env E}.
Implicit Types (w : World E).

Lemma wp_Remote_Get_Key_Valid id (Q : Z -> World E -> Prop) w :
  remote_ok (w_remote w) ->
  (remote_knows (w_remote w) id -> Q RT_EOK w) ->
  (~ remote_knows (w_remote w) id -> Q RT_ERROR w) ->
  wp (Remote_Get_Key_Valid id) Q w.
Proof.
  intros Hr Hyes Hno. apply wp_bind, wp_on, wp_remote_find; [done|].
  intros k Hk Hy Hn. rewrite over_view. apply wp_ret. cbn [view lens_remote] in *.
  destruct (Z.eqb_spec (Z.of_nat k) 0) as [E0|E0].
  - apply Hno. intros (i & Hi & Hid). assert (k = 0%nat) as -> by lia. by apply (Hn eq_refl i).
  - apply Hyes. exists k. split; [lia|]. apply Hy. lia.
Qed.

Lemma wp_Set_UploadFlag id v (Q : Z -> World E -> Prop) w :
  world_ok w -> is_u32 id ->
  (forall r f, flash_ok f -> bindings (Global_Device f) = bindings (Global_Device (w_flash w)) ->
     Q r (set_flash f w)) ->
  wp (on (Flash_Set_UploadFlag id v)) Q w.
Proof.
  intros Hw Hid HQ. pose proof (world_flash w Hw) as Hf. apply wp_on. unfold Flash_Set_UploadFlag.
  apply wp_bind, wp_find_any; [apply Hf | apply wp_ret; by apply HQ |].
  intros k s Hs _ Hk. rewrite (proj2 (Z.eqb_neq _ 0)) by lia. cbn [view lens_flash] in *.
  apply wp_bind, (wp_set_slot k s); [done|]. apply wp_bind, wp_set_env, wp_ret, HQ.
  - apply (flash_ok_upload (mkFlash _ (env (w_flash w))) id (u8 v)); [done | apply u8_byte |].
    by apply flash_ok_slot.
  - by apply (update_bindings _ k s); [apply Hf|..].
Qed.

(** The three kinds of devices alike. *)
Lemma wp_add_and_announce add pid id b main (Q : unit -> World E -> Prop) w :
  world_ok w -> 0 < id < 2 ^ 32 -> bindings (Global_Device (w_flash w)) !! id = None ->
  pid = main_pid \/ pid = slave_pid \/ pid = door_pid ->
  wp add (add_post id b main (w_flash w)) (w_flash w) ->
  (forall w', world_ok w' ->
     (bindings (Global_Device (w_flash w')) = <[id := b]> (bindings (Global_Device (w_flash w)))
      \/ (size (bindings (Global_Device (w_flash w))) = 49%nat
          /\ bindings (Global_Device (w_flash w')) = bindings (Global_Device (w_flash w)))) ->
     (remote_knows (w_remote w) id /\ emits [] (w_tx w) (w_tx w')
      \/ ~ remote_knows (w_remote w) id /\ emits (join_msgs pid id) (w_tx w) (w_tx w')) -> Q tt w') ->
  wp (add_and_announce add
        (fun x => run on (local_add_subdev_limit 1 0 1);
                  on (gateway_subdevice_add (str "1.0") pid 0 (fmt_ld x) 10 0)) id) Q w.
Proof.
  intros Hw Hid Hnew Hpid Hadd HQ. pose proof (world_flash w Hw) as Hf. unfold add_and_announce.
  apply wp_bind. assert (Hk : wp (on (Flash_Get_Key_Valid id)) (fun r w' => r = RT_ERROR /\ w' = w) w).
  { apply wp_on, wp_bind. cbn [view lens_flash].
    apply wp_find_id; [apply Hf | lia | intros _; apply wp_ret; by destruct w|].
    intros k s _ Hb. by rewrite Hnew in Hb. }
  eapply wp_conseq; [exact Hk|]. intros r w0 [-> ->]. cbn [Z.eqb RT_ERROR].
  apply wp_bind, wp_bind, wp_on. cbn [view lens_flash]. eapply wp_conseq; [exact Hadd|].
  intros r f1 Hpost. apply wp_ret.
  assert (Hf1 : flash_ok f1 /\ (bindings (Global_Device f1) = <[id := b]> (bindings (Global_Device (w_flash w)))
      \/ (size (bindings (Global_Device (w_flash w))) = 49%nat
          /\ bindings (Global_Device f1) = bindings (Global_Device (w_flash w))))).
  { destruct Hpost as [(Hfull & _ & ->)|(_ & Hok & Hb & _)]; [|tauto].
    split; [done|]. right. split; [|done]. by apply full_size; [apply Hf|]. }
  destruct Hf1 as [Hf1 Hb1]. assert (Hw1 : world_ok (set_flash f1 w)) by by apply world_ok_flash.
  apply wp_bind, wp_Remote_Get_Key_Valid; [apply Hw | |]; cbn [over lens_flash w_remote set_flash]; intros Hkn.
  - apply wp_ret, HQ; [done | exact Hb1 |]. left. split; [done|]. by apply emits_nil, Hw.
  - apply wp_bind, wp_Set_UploadFlag; [done | unfold is_u32; lia |]. intros r' f2 Hf2 Hb2.
    cbn [w_flash set_flash] in Hb2. apply (says_join pid id Hpid); [apply Hw|]. intros t Ht.
    apply HQ; [by apply world_ok_tx; [apply world_ok_flash|apply Ht] | |right; by split].
    cbn [w_flash set_flash set_tx]. by rewrite Hb2.
Qed.

Lemma wp_Device_Add2Flash id from (Q : unit -> World E -> Prop) w :
  world_ok w -> 10000000 <= id < 40000000 -> is_u32 from ->
  bindings (Global_Device (w_flash w)) !! id = None ->
  (forall w', world_ok w' -> registered id from w w' -> announced id w w' -> Q tt w') ->
  wp (Device_Add2Flash_Wifi id from) Q w.
Proof.
  intros Hw Hid Hfrom Hnew HQ. pose proof (world_flash w Hw) as Hf.
  unfold registered, announced, pid_of in HQ. cbv zeta in HQ. unfold Device_Add2Flash_Wifi.
  apply wp_bind. unfold is_main_id, is_slave_id, is_door_id in *.
  rewrite (proj2 (Z.leb_le 10000000 id)) in * by lia. cbn [andb] in *.
  destruct (Z.ltb_spec id 20000000) as [Hm|Hm].
  - rewrite (proj2 (Z.leb_gt 20000000 id)), (proj2 (Z.leb_gt 30000000 id)) in * by lia. cbn [andb].
    apply (wp_add_and_announce _ _ id 0 true); [done | lia | done | tauto | |].
    + apply (add_main_spec (w_flash w) id 0); (done || lia).
    + intros w' Hw' Hb Ha. apply wp_ret. by apply HQ.
  - apply wp_ret. rewrite (proj2 (Z.leb_le 20000000 id)) in * by lia. cbn [andb] in *.
    destruct (Z.ltb_spec id 30000000) as [Hs|Hs].
    + apply (wp_add_and_announce _ _ id from false); [done | lia | done | tauto | |done].
      apply add_slave_spec; (done || lia).
    + rewrite (proj2 (Z.leb_le 30000000 id)), (proj2 (Z.ltb_lt id 40000000)) by lia. cbn [andb].
      apply (wp_add_and_announce _ _ id from false); [done | lia | done | tauto | |done].
      apply add_door_spec; (done || lia).
Qed.
End Registering.

(** A new device is put into the table, bound to the main unit it came
    through (a main unit to none), unless the table is full, and is announced to
    the cloud under its kind's product id exactly when the cloud does not know
    it already. *)
Theorem device_registered {E} `{Env E} (w : World E) id from :
  world_ok w -> 10000000 <= id < 40000000 -> is_u32 from ->
  bindings (Global_Device (w_flash w)) !! id = None ->
  exists w', Device_Add2Flash_Wifi id from w = Some (tt, w') /\ world_ok w'
    /\ registered id from w w' /\ announced id w w'.
Proof.
  intros Hw Hid Hfrom Hnew.
  assert (Hr : wp (Device_Add2Flash_Wifi id from)
     (fun _ w' => world_ok w' /\ registered id from w w' /\ announced id w w') w)
    by by apply wp_Device_Add2Flash.
  apply wp_Some in Hr as ([] & w' & Hrun & Hrest). by exists w'.
Qed.

Lemma device_registered_witness :
  exists w', Device_Add2Flash_Wifi 30000001 10000001 demo = Some (tt, w')
    /\ registered 30000001 10000001 demo w'.
Proof.
  destruct (device_registered demo 30000001 10000001 demo_ok) as (w' & H1 & _ & H2 & _).
  - split; [intros Hc; discriminate Hc | reflexivity].
  - split; [intros Hc; discriminate Hc | reflexivity].
  - vm_compute. reflexivity.
  - exists w'. split; [exact H1 | exact H2].
Defined.
