(* ===== verification/Decoder.v ===== *)
(** * What the radio hears

    [src/radio/Radio_Decoder.c]: the packets of the main units, parsed with
    [sscanf], and what the gateway does about them. *)

From Stdlib Require Import String.
From S2P Require Import Prelude CStr McuTx Json Cloud Flashwork RadioQueue Led World WifiApi WifiSpec Safe.
Open Scope list_scope.

(** ** [sscanf] *)

Inductive directive := Lit (c : Z) | Int.

(** The values of the conversions that succeed. *)
Fixpoint sscanf (fmt : list directive) (l : list Z) : list Z :=
  match fmt with
  | [] => []
  | Lit c :: fmt' =>
      match l with
      | x :: r => if x =? c then sscanf fmt' r else []
      | [] => []
      end
  | Int :: fmt' =>
      match scan_int l with
      | Some (v, r) => v :: sscanf fmt' r
      | None => []
      end
  end.

Definition comma : directive := Lit 44.
Definition fmt_open : directive := Lit 123.
Definition fmt_close : directive := Lit 125.

(** ["{%ld,%ld,%d,%d,%d}"] and the two formats with seven conversions. *)
Definition normal_format : list directive :=
  [fmt_open; Int; comma; Int; comma; Int; comma; Int; comma; Int; fmt_close].
Definition gateway_format : list directive :=
  [fmt_open; Int; comma; Int; comma; Int; comma; Int; comma; Int; comma; Int; comma; Int; fmt_close].

Record Message := mkMessage {
  m_ack : Z; m_type : Z; m_Target_ID : Z; m_From_ID : Z; m_Device_ID : Z;
  m_Counter : Z; m_Command : Z; m_Data : Z; m_Rssi : Z
}.

Definition put_ack v m := mkMessage v (m_type m) (m_Target_ID m) (m_From_ID m) (m_Device_ID m) (m_Counter m) (m_Command m) (m_Data m) (m_Rssi m).
Definition put_type v m := mkMessage (m_ack m) v (m_Target_ID m) (m_From_ID m) (m_Device_ID m) (m_Counter m) (m_Command m) (m_Data m) (m_Rssi m).
Definition put_Target v m := mkMessage (m_ack m) (m_type m) v (m_From_ID m) (m_Device_ID m) (m_Counter m) (m_Command m) (m_Data m) (m_Rssi m).
Definition put_From v m := mkMessage (m_ack m) (m_type m) (m_Target_ID m) v (m_Device_ID m) (m_Counter m) (m_Command m) (m_Data m) (m_Rssi m).
Definition put_Device v m := mkMessage (m_ack m) (m_type m) (m_Target_ID m) (m_From_ID m) v (m_Counter m) (m_Command m) (m_Data m) (m_Rssi m).
Definition put_Counter v m := mkMessage (m_ack m) (m_type m) (m_Target_ID m) (m_From_ID m) (m_Device_ID m) v (m_Command m) (m_Data m) (m_Rssi m).
Definition put_Command v m := mkMessage (m_ack m) (m_type m) (m_Target_ID m) (m_From_ID m) (m_Device_ID m) (m_Counter m) v (m_Data m) (m_Rssi m).
Definition put_Data v m := mkMessage (m_ack m) (m_type m) (m_Target_ID m) (m_From_ID m) (m_Device_ID m) (m_Counter m) (m_Command m) v (m_Rssi m).
Definition put_Rssi v m := mkMessage (m_ack m) (m_type m) (m_Target_ID m) (m_From_ID m) (m_Device_ID m) (m_Counter m) (m_Command m) (m_Data m) v.

(** The conversions store their values from left to right; the other fields keep
    what the stack held. *)
Fixpoint store (fields : list (Z -> Message -> Message)) (vs : list Z) (m : Message) : Message :=
  match fields, vs with
  | f :: fields', v :: vs' => store fields' vs' (f v m)
  | _, _ => m
  end.

Definition normal_fields := [put_Target; put_From; put_Counter; put_Command; put_Data].
Definition sync_fields := [put_ack; put_type; put_Target; put_From; put_Device; put_Rssi; put_Data].
Definition warning_fields := [put_ack; put_Target; put_From; put_Device; put_Rssi; put_Command; put_Data].

Section Operations.
Context {E : Type} `{Env E}.

Abbreviation WM := (M (World E)).

(** The message in a buffer from index [i] on; [junk] is what the local
    variable holds before. *)
Definition scan_message (junk : Message) (fmt : list directive)
    (fields : list (Z -> Message -> Message)) (rx_buffer : list Z) (i : Z) : WM Message :=
  do s <- lift_opt (c_string (drop (Z.to_nat i) rx_buffer));
  ret (store fields (sscanf fmt s) junk).

Definition rx (rx_buffer : list Z) (i : Z) : WM Z := lift_opt (aget rx_buffer i).

Definition rf_refresh : WM unit :=
  on (modify (fun w => mkWifi (reset_wifi_flag w) (set_wifimode_flag w) (wifi_work_state w)
    (if_subdev_net_in w) (wifi_status w) (wifi_connected w) (WiFi_FactoryFlag w) 0
    (Reset_WiFi_Counter w) (wifi_rst_timer w) (wifi_test_timer w) (wifi_power w))).

Definition Check_Valid (From_id : Z) : WM Z := on (Flash_Get_Key_Valid (u32 From_id)).

Definition Device_Learn (buf : Message) : WM unit :=
  let learn :=
    if (10000000 <=? m_From_ID buf) && (m_From_ID buf <? 20000000) then
      if m_Data buf =? 1 then on (RadioEnqueue (u32 (m_From_ID buf)) (u8 (m_Counter buf)) 3 2)
      else if m_Data buf =? 2 then
        run Del_Device (u32 (m_From_ID buf));
        run Device_Add2Flash_Wifi (u32 (m_From_ID buf)) 0;
        on learn_success
      else ret tt
    else ret tt in
  do known <- on (Flash_Get_Key_Valid (u32 (m_From_ID buf)));
  if negb (known =? RT_EOK) then
    do room <- on Get_MainNums;
    if negb (room =? RT_EOK) then on learn_fail else learn
  else learn.

Definition NormalSolve (junk : Message) (rssi : Z) (rx_buffer : list Z) (rx_len : Z) : WM unit :=
  do c <- rx rx_buffer rx_len;
  if negb (c =? 10) then ret tt else
  do c <- rx rx_buffer (rx_len - 1);
  if negb (c =? 13) then ret tt else
  do m <- scan_message junk normal_format normal_fields rx_buffer 1;
  do self <- gets (fun w => Self_Id (w_radio w));
  if u32 (m_Target_ID m) =? self then
    if m_From_ID m =? 98989898 then
      run rf_refresh;
      if -70 <? rssi then on (rf_led_factory 2) else on (rf_led_factory 1)
    else
      run on (rf_led 3);
      run (if m_Command m =? 3 then Device_Learn m else ret tt);
      Heart_Upload (u32 (m_From_ID m)) 1
  else ret tt.

(** What the three gateway messages have in common before their commands. *)
Definition addressed (m : Message) : WM bool :=
  do self <- gets (fun w => Self_Id (w_radio w));
  if negb (u32 (m_Target_ID m) =? self) then ret false else
  do valid <- Check_Valid (m_From_ID m);
  ret (valid =? RT_EOK).

Definition acknowledge (m : Message) : WM unit :=
  run on (rf_led 3);
  if negb (m_ack m =? 0) then on (GatewayDataEnqueue (u32 (m_From_ID m)) 0 0 7 0) else ret tt.

Definition sync_command (m : Message) : WM unit :=
  let dev := u32 (m_Device_ID m) in
  let from := u32 (m_From_ID m) in
  if m_type m =? 1 then
    run DeviceCheck dev from;
    Slave_Heart dev (m_Rssi m)
  else if m_type m =? 2 then
    run Local_Delete dev;
    void (Del_Device dev)
  else if m_type m =? 3 then
    run Sync_Refresh;
    run Device_Add2Flash_Wifi dev from;
    run Flash_Set_Heart dev 1;
    run Device_Up dev;
    run Slave_Heart dev (m_Rssi m);
    WariningUpload from dev 2 (m_Data m)
  else if m_type m =? 4 then void (Del_MainBind from)
  else if m_type m =? 5 then
    run Sync_Refresh;
    run Device_Add2Flash_Wifi dev from;
    run Flash_Set_Heart dev 0;
    run Slave_Heart dev (m_Rssi m);
    WariningUpload from dev 2 (m_Data m)
  else if m_type m =? 6 then
    run Device_Add2Flash_Wifi dev from;
    run Flash_Set_Heart dev 1;
    run Device_Up dev;
    run Slave_Heart dev (m_Rssi m);
    WariningUpload from dev 2 (m_Data m)
  else ret tt.

Definition GatewaySyncSolve (junk : Message) (rssi : Z) (rx_buffer : list Z) (rx_len : Z) : WM unit :=
  do c <- rx rx_buffer rx_len;
  if negb (c =? 65) then ret tt else
  do m <- scan_message junk gateway_format sync_fields rx_buffer 2;
  do ok <- addressed m;
  if ok : bool then
    run acknowledge m;
    run Main_Rssi_Report (u32 (m_From_ID m)) rssi;
    run Heart_Upload (u32 (m_From_ID m)) 1;
    sync_command m
  else ret tt.

Definition warning_command (m : Message) : WM unit :=
  let dev := u32 (m_Device_ID m) in
  let from := u32 (m_From_ID m) in
  if m_Command m =? 1 then WariningUpload from dev 1 (m_Data m)
  else if m_Command m =? 2 then WariningUpload from dev 0 (m_Data m)
  else if m_Command m =? 3 then WariningUpload from dev 2 (m_Data m)
  else if m_Command m =? 4 then void (Flash_Set_Heart dev 0)
  else if m_Command m =? 5 then
    run DeviceCheck dev from;
    run Slave_Heart dev (m_Rssi m);
    run WariningUpload from dev 1 (m_Data m);
    MotoUpload from 0
  else if m_Command m =? 6 then
    run DeviceCheck dev from;
    run Slave_Heart dev (m_Rssi m);
    WariningUpload from dev 2 (m_Data m)
  else if m_Command m =? 7 then InitWarn_Main from
  else if m_Command m =? 8 then WariningUpload from dev 3 (m_Data m)
  else if m_Command m =? 9 then WariningUpload from dev 3 (m_Data m)
  else ret tt.

Definition GatewayWarningSolve (junk : Message) (rssi : Z) (rx_buffer : list Z) (rx_len : Z) : WM unit :=
  do c <- rx rx_buffer rx_len;
  if negb (c =? 66) then ret tt else
  do m <- scan_message junk gateway_format warning_fields rx_buffer 2;
  do ok <- addressed m;
  if ok : bool then
    run acknowledge m;
    run Heart_Upload (u32 (m_From_ID m)) 1;
    run Main_Rssi_Report (u32 (m_From_ID m)) rssi;
    warning_command m
  else ret tt.

Definition control_command (m : Message) : WM unit :=
  let dev := u32 (m_Device_ID m) in
  let from := u32 (m_From_ID m) in
  if m_Command m =? 1 then
    run MotoUpload from (m_Data m);
    if m_Data m =? 0 then CloseWarn_Main from else ret tt
  else if m_Command m =? 2 then
    run DeviceCheck dev from;
    run Slave_Heart dev (m_Rssi m);
    if (m_Data m =? 0) || (m_Data m =? 1) then
      run MotoUpload from (m_Data m);
      if m_Data m =? 0 then CloseWarn_Slave dev else ret tt
    else MotoUpload from 0
  else if m_Command m =? 3 then
    if negb (m_Device_ID m =? 0) then
      run Door_Delay_WiFi from dev (m_Data m);
      run DeviceCheck dev from;
      Slave_Heart dev (m_Rssi m)
    else ret tt
  else if m_Command m =? 4 then MotoUpload from (m_Data m)
  else if m_Command m =? 5 then
    run Sync_Refresh;
    run MotoUpload from (m_Data m);
    run Ack_Report from;
    InitWarn_Main from
  else if m_Command m =? 6 then
    run DoorUpload dev (m_Data m);
    run DeviceCheck dev from;
    run Slave_Heart dev (m_Rssi m);
    run MotoUpload from (m_Data m);
    if m_Data m =? 0 then CloseWarn_Slave dev else ret tt
  else ret tt.

Definition GatewayControlSolve (junk : Message) (rssi : Z) (rx_buffer : list Z) (rx_len : Z) : WM unit :=
  do c <- rx rx_buffer rx_len;
  if negb (c =? 67) then ret tt else
  do m <- scan_message junk gateway_format warning_fields rx_buffer 2;
  do ok <- addressed m;
  if ok : bool then
    run acknowledge m;
    run Main_Rssi_Report (u32 (m_From_ID m)) rssi;
    run Heart_Upload (u32 (m_From_ID m)) 1;
    control_command m
  else ret tt.

Definition rf433_rx_callback (junk : Message) (rssi : Z) (buffer : list Z) (len : Z) : WM unit :=
  do c <- rx buffer 1;
  if c =? 123 then NormalSolve junk rssi buffer len
  else if c =? 65 then GatewaySyncSolve junk rssi buffer len
  else if c =? 66 then GatewayWarningSolve junk rssi buffer len
  else if c =? 67 then GatewayControlSolve junk rssi buffer len
  else ret tt.
End Operations.

(** ** No packet brings the gateway down *)

Section SafeDecoder.
Context {E : Type} `{Env E} (junk : Message).
Implicit Types (w : World E).

Lemma safe_acknowledge m : safe (E := E) any (acknowledge m).
Proof. unfold acknowledge. safe_tac. Qed.

Lemma safe_addressed m : safe (E := E) any (addressed m).
Proof.
  unfold addressed, Check_Valid. apply (safe_bind any); [by apply safe_gets|]. intros self _. safe_tac.
Qed.

Lemma safe_rf_refresh : safe (E := E) any rf_refresh.
Proof. apply safe_wifi. Qed.

Lemma safe_sync_command m : safe (E := E) any (sync_command m).
Proof. unfold sync_command. cbv zeta. safe_tac. Qed.

Lemma safe_warning_command m : safe (E := E) any (warning_command m).
Proof. unfold warning_command. cbv zeta. safe_tac. Qed.

Lemma safe_control_command m : safe (E := E) any (control_command m).
Proof. unfold control_command, Ack_Report. cbv zeta. safe_tac. Qed.

Lemma safe_led cs : safe (E := E) any (on (led_all cs)).
Proof. apply safe_led_all. Qed.

Lemma safe_Get_MainNums : safe (E := E) any (on Get_MainNums).
Proof. by apply safe_flash, fsafe_Get_MainNums. Qed.

Lemma safe_Device_Learn m : safe (E := E) any (Device_Learn m).
Proof.
  unfold Device_Learn, learn_fail, learn_success. cbv zeta.
  pose proof safe_led. pose proof safe_Get_MainNums.
  assert (is_u32 0) by done. safe_tac.
Qed.

Context (rx_buffer : list Z) (j : nat).
Context (Hlen : zlen rx_buffer = 64) (Hzero : rx_buffer !! j = Some 0) (Hj : (2 <= j)%nat).

Lemma safe_rx i : 0 <= i < 64 -> safe (E := E) any (rx rx_buffer i).
Proof using Hlen.
  intros Hi w Hw. unfold rx, wp, lift_opt.
  destruct (aget_is_Some rx_buffer i) as [x ->]; [by rewrite Hlen | done].
Qed.

Lemma safe_scan fmt fields i :
  0 <= i <= 2 -> safe (E := E) any (scan_message junk fmt fields rx_buffer i).
Proof using Hzero Hj.
  intros Hi w Hw. unfold scan_message. apply wp_bind. unfold wp at 1, lift_opt.
  destruct (c_string_drop rx_buffer j (Z.to_nat i)) as [s ->]; [done | lia | by apply wp_ret].
Qed.

Context (rx_len : Z) (Hrx : 0 <= rx_len < 64).

Lemma safe_Normal rssi :
  (rx_len = 0 -> rx_buffer !! 0%nat <> Some 10) ->
  safe (E := E) any (NormalSolve junk rssi rx_buffer rx_len).
Proof using Hlen Hzero Hj Hrx.
  intros H0. unfold NormalSolve. intros w Hw. apply wp_bind. unfold wp at 1, rx, lift_opt.
  destruct (aget_is_Some rx_buffer rx_len) as [c Hc]; [lia|]. rewrite Hc.
  revert w Hw. change (safe (E := E) any (if negb (c =? 10) then ret tt else
    do c <- rx rx_buffer (rx_len - 1);
    if negb (c =? 13) then ret tt else
    do m <- scan_message junk normal_format normal_fields rx_buffer 1;
    do self <- gets (fun w => Self_Id (w_radio w));
    if u32 (m_Target_ID m) =? self then
      if m_From_ID m =? 98989898 then
        run rf_refresh;
        if -70 <? rssi then on (rf_led_factory 2) else on (rf_led_factory 1)
      else
        run on (rf_led 3);
        run (if m_Command m =? 3 then Device_Learn m else ret tt);
        Heart_Upload (u32 (m_From_ID m)) 1
    else ret tt)).
  apply safe_if; intros Hc10; [by apply safe_ret|].
  apply negb_false_iff, Z.eqb_eq in Hc10. subst c.
  assert (rx_len <> 0).
  { intros ->. rewrite aget_lookup in Hc by lia. by apply (H0 eq_refl). }
  apply (safe_bind any); [apply safe_rx; lia|]. intros c _.
  apply safe_if; intros _; [by apply safe_ret|].
  apply (safe_bind any); [apply safe_scan; lia|]. intros m _.
  apply (safe_bind any); [by apply safe_gets|]. intros self _.
  pose proof safe_rf_refresh. pose proof safe_Device_Learn. safe_tac.
Qed.

Lemma safe_gateway_solve c fields rssi (report : M (World E) unit) body :
  (forall m, safe any (body m)) ->
  safe (E := E) any
    (do x <- rx rx_buffer rx_len;
     if negb (x =? c) then ret tt else
     do m <- scan_message junk gateway_format fields rx_buffer 2;
     do ok <- addressed m;
     if ok : bool then
       run acknowledge m;
       run Main_Rssi_Report (u32 (m_From_ID m)) rssi;
       run Heart_Upload (u32 (m_From_ID m)) 1;
       body m
     else ret tt).
Proof using Hlen Hzero Hj Hrx.
  intros Hb. apply (safe_bind any); [by apply safe_rx|]. intros x _.
  apply safe_if; intros _; [by apply safe_ret|].
  apply (safe_bind any); [apply safe_scan; lia|]. intros m _.
  pose proof safe_addressed. pose proof safe_acknowledge. safe_tac.
Qed.

Lemma safe_Sync rssi : safe (E := E) any (GatewaySyncSolve junk rssi rx_buffer rx_len).
Proof using Hlen Hzero Hj Hrx. apply (safe_gateway_solve 65 _ _ (ret tt)), safe_sync_command. Qed.

Lemma safe_Control rssi : safe (E := E) any (GatewayControlSolve junk rssi rx_buffer rx_len).
Proof using Hlen Hzero Hj Hrx. apply (safe_gateway_solve 67 _ _ (ret tt)), safe_control_command. Qed.

Lemma safe_Warning rssi : safe (E := E) any (GatewayWarningSolve junk rssi rx_buffer rx_len).
Proof using Hlen Hzero Hj Hrx.
  unfold GatewayWarningSolve. apply (safe_bind any); [by apply safe_rx|]. intros x _.
  apply safe_if; intros _; [by apply safe_ret|].
  apply (safe_bind any); [apply safe_scan; lia|]. intros m _.
  pose proof safe_addressed. pose proof safe_acknowledge. pose proof safe_warning_command. safe_tac.
Qed.
End SafeDecoder.

(** A line feed alone, over the opening brace of what the buffer held before: its
    handler looks at the byte before the buffer. *)
Definition lone_feed (buffer : list Z) (len : Z) : bool :=
  (len =? 0) && match buffer with c0 :: c1 :: _ => (c0 =? 10) && (c1 =? 123) | _ => false end.

Lemma safe_packet {E} `{Env E} (junk : Message) rssi buffer len j :
  zlen buffer = 64 -> 0 <= len < 64 -> buffer !! j = Some 0 -> (2 <= j)%nat -> lone_feed buffer len = false ->
  safe (E := E) any (rf433_rx_callback junk rssi buffer len).
Proof.
  intros Hlen Hl Hz Hj H0 w Hw. destruct buffer as [|c0 [|c1 q]]; try discriminate Hlen. set (buffer := c0 :: c1 :: q) in *.
  unfold rf433_rx_callback. apply wp_bind. unfold wp at 1, rx, lift_opt. change (aget buffer 1) with (Some c1). revert w Hw.
  pose proof (safe_Sync junk buffer j Hlen Hz Hj len Hl rssi).
  pose proof (safe_Warning junk buffer j Hlen Hz Hj len Hl rssi).
  pose proof (safe_Control junk buffer j Hlen Hz Hj len Hl rssi).
  change (safe (E := E) any (if c1 =? 123 then NormalSolve junk rssi buffer len else if c1 =? 65 then GatewaySyncSolve junk rssi buffer len
    else if c1 =? 66 then GatewayWarningSolve junk rssi buffer len else if c1 =? 67 then GatewayControlSolve junk rssi buffer len else ret tt)).
  destruct (Z.eqb_spec c1 123) as [E1|E1]; [|safe_tac]. apply (safe_Normal junk buffer j Hlen Hz Hj len Hl rssi).
  intros -> [= ->]. unfold lone_feed, buffer in H0. by rewrite E1 in H0.
Qed.

(** C5: with a packet in a receive buffer of 64 bytes that holds a zero behind its
    first two, of any length that fits and whatever it says, the handler makes no access
    outside the buffers and tables, and leaves the program in a good state: the device
    table well formed and in step with its stored copy, the queue, the transmit buffer
    and the synchronisation within their bounds.  There is one exception, [lone_feed],
    for which it does read outside the buffer. *)
Theorem packet_safe {E} `{Env E} (junk : Message) (w : World E) rssi buffer len j :
  world_ok w -> zlen buffer = 64 -> 0 <= len < 64 -> buffer !! j = Some 0 -> (2 <= j)%nat ->
  if lone_feed buffer len then rf433_rx_callback junk rssi buffer len w = None
  else exists w', rf433_rx_callback junk rssi buffer len w = Some (tt, w') /\ world_ok w'.
Proof.
  intros Hw Hlen Hl Hz Hj. destruct (lone_feed buffer len) eqn:H0.
  - unfold lone_feed in H0. apply andb_prop in H0 as [->%Z.eqb_eq H0]. destruct buffer as [|c0 [|c1 q]]; try discriminate H0.
    by apply andb_prop in H0 as [->%Z.eqb_eq ->%Z.eqb_eq].
  - pose proof (safe_packet junk rssi buffer len j Hlen Hl Hz Hj H0 w Hw) as Hr.
    apply wp_Some in Hr as ([] & w' & Hrun & Hok & _). by exists w'.
Qed.

(** A received packet: its length with this byte, its text and the rest of the
    cleared buffer. *)
Definition packet (text : list Z) : list Z :=
  [1 + zlen text] ++ text ++ replicate (63 - length text) 0.

Definition no_message : Message := mkMessage 0 0 0 0 0 0 0 0 0.

(** The sensor 20000001 reports itself through the main unit 10000001. *)
Definition demo_packet : list Z := packet (str "A{1,1,00000000,10000001,20000001,80,1}A").

Lemma packet_safe_witness :
  exists w', rf433_rx_callback no_message (-60) demo_packet 38 demo = Some (tt, w') /\ world_ok w'.
Proof.
  apply (packet_safe no_message demo (-60) demo_packet 38 63 demo_ok).
  - vm_compute. reflexivity.
  - split; [intros Hc; discriminate Hc | reflexivity].
  - vm_compute. reflexivity.
  - apply Nat.leb_le. vm_compute. reflexivity.
Defined.

(** ** Who is listened to *)

(** The message in a packet of the kind [c]. *)
Definition decoded (junk : Message) (c : Z) (text : list Z) : Message :=
  store (if c =? 65 then sync_fields else warning_fields) (sscanf gateway_format text) junk.

(** A packet of a main unit that is addressed to another gateway, or that
    names a sender the table does not hold, changes nothing. *)
Theorem foreign_packet_ignored {E} `{Env E} junk (w : World E) rssi buffer len c text :
  table_ok (Global_Device (w_flash w)) -> 0 <= len < zlen buffer ->
  aget buffer 1 = Some c -> c ∈ [65; 66; 67] -> c_string (drop 2 buffer) = Some text ->
  (let m := decoded junk c text in
   u32 (m_Target_ID m) <> Self_Id (w_radio w)
   \/ (u32 (m_From_ID m) <> 0
       /\ bindings (Global_Device (w_flash w)) !! u32 (m_From_ID m) = None)) ->
  rf433_rx_callback junk rssi buffer len w = Some (tt, w).
Proof.
  intros Ht Hlen Hc Hk Htext Hm. set (m := decoded junk c text) in *. cbv zeta in Hm.
  assert (Ha : addressed m w = Some (false, w)).
  { unfold addressed, bind, gets, ret. destruct Hm as [Hm|[Hm0 Hm]].
    - by rewrite (proj2 (Z.eqb_neq _ _)).
    - destruct (negb (u32 (m_Target_ID m) =? Self_Id (w_radio w))); [done|].
      assert (Hw : wp (Check_Valid (E := E) (m_From_ID m)) (fun r w' => r = RT_ERROR /\ w' = w) w).
      { unfold Check_Valid, Flash_Get_Key_Valid. apply wp_on, wp_bind. cbn [view lens_flash].
        apply wp_find_id; [done | done | by intros _; apply wp_ret; destruct w|].
        intros k s _ Hb. by rewrite Hm in Hb. }
      by apply wp_Some in Hw as (r & w' & -> & -> & ->). }
  destruct (aget_is_Some buffer len Hlen) as [x Hx].
  assert (Hgo : forall fields fmt (body : Message -> M (World E) unit),
    store fields (sscanf fmt text) junk = m ->
    (do x <- rx buffer len;
     if negb (x =? c) then ret tt else
     do m <- scan_message junk fmt fields buffer 2;
     do ok <- addressed m;
     if ok : bool then body m else ret tt) w = Some (tt, w)).
  { intros fields fmt body Hst. unfold bind at 1, rx, lift_opt. rewrite Hx.
    destruct (negb (x =? c)); [done|]. unfold bind at 1, scan_message, bind at 1, lift_opt.
    change (Z.to_nat 2) with 2%nat. rewrite Htext. unfold ret at 1. rewrite Hst. unfold bind. by rewrite Ha. }
  unfold rf433_rx_callback, bind at 1, rx, lift_opt. rewrite Hc.
  rewrite !elem_of_cons in Hk. destruct Hk as [->|[->|[->|Hk]]]; [| | |by apply elem_of_nil in Hk].
  - apply (Hgo sync_fields gateway_format). done.
  - apply (Hgo warning_fields gateway_format). done.
  - apply (Hgo warning_fields gateway_format). done.
Qed.

Lemma foreign_packet_ignored_witness :
  rf433_rx_callback no_message (-60) (packet (str "A{1,4,40000009,10000001,0,80,1}A")) 31 demo
  = Some (tt, demo).
Proof.
  apply (foreign_packet_ignored no_message demo (-60) _ 31 65 (str "{1,4,40000009,10000001,0,80,1}A")).
  - apply demo_flash_ok.
  - vm_compute. split; [intros Hc; discriminate Hc | reflexivity].
  - vm_compute. reflexivity.
  - apply list_elem_of_here.
  - vm_compute. reflexivity.
  - left. vm_compute. intros Hc. discriminate Hc.
Defined.

(** ** What one gateway sends, another one understands *)

Lemma sscanf_int w v fmt r :
  - 2 ^ 31 <= v < 2 ^ 31 -> no_digit_head r ->
  sscanf (Int :: fmt) (fmt_0d w v ++ r) = v :: sscanf fmt r.
Proof. intros Hv Hr. cbn [sscanf]. by rewrite scan_int_fmt_0d. Qed.

Lemma sscanf_lit c fmt r : sscanf (Lit c :: fmt) (c :: r) = sscanf fmt r.
Proof. cbn [sscanf]. by rewrite Z.eqb_refl. Qed.

Lemma scan_radio_text t s c m d r :
  is_byte c -> is_byte m -> is_byte d ->
  sscanf normal_format (radio_text t s c m d ++ r) = [s32 t; s32 s; c; m; d].
Proof.
  unfold is_byte. intros Hc Hm Hd. unfold radio_text, normal_format, fmt_open, comma, fmt_close.
  rewrite fmt_d_0d. change (str "{") with [123]. change (str ",") with [44]. change (str "}") with [125].
  rewrite <- !app_assoc. cbn [app]. rewrite sscanf_lit.
  rewrite sscanf_int, sscanf_lit by (apply s32_range || done).
  rewrite sscanf_int, sscanf_lit by (apply s32_range || done).
  rewrite sscanf_int, sscanf_lit by (lia || done).
  rewrite sscanf_int, sscanf_lit by (lia || done).
  rewrite sscanf_int by (lia || done). by rewrite sscanf_lit.
Qed.

Lemma radio_text_nonzero t s c m d : Forall (fun b => b <> 0) (radio_text t s c m d).
Proof.
  unfold radio_text. rewrite fmt_d_0d.
  repeat (apply Forall_app; split); try apply fmt_0d_nonzero; by repeat constructor.
Qed.

Lemma hex_upper_nonzero v : 0 <= v -> hex_upper v <> 0.
Proof. unfold hex_upper. intros Hv. destruct (v <? 10); lia. Qed.

Lemma sum_byte l c : is_byte c -> is_byte (fold_left (fun c b => u8 (c + b)) l c).
Proof. revert c. induction l as [|b l IH]; intros c Hc; [done|]. apply IH, u8_byte. Qed.

(** C31: for ids of at most eight digits, a command of at most two and a value of one
    the packet [RadioSend] hands to the radio is 32 bytes long, ends in CR LF, and a
    gateway that receives it reads the same target, sender, command and value in it,
    and the counter that follows the one given: one higher, and zero after 255.  Longer
    fields would move the text under the checksum. *)
Theorem radio_send_understood {E} `{Env E} junk (r : Radio) (w : World E) target counter command data :
  0 <= target < 10 ^ 8 -> 0 <= Self_Id r < 10 ^ 8 -> 0 <= counter < 256 ->
  0 <= command < 100 -> 0 <= data < 10 ->
  exists pkt, RadioSend target counter command data r = Some (tt, set_air (air r ++ [pkt]) r)
    /\ zlen pkt = 32
    /\ aget (packet pkt) 31 = Some 13 /\ aget (packet pkt) 32 = Some 10
    /\ scan_message junk normal_format normal_fields (packet pkt) 1 w
       = Some (mkMessage (m_ack junk) (m_type junk) target (Self_Id r) (m_Device_ID junk)
                 (if counter <? 255 then counter + 1 else 0) command data (m_Rssi junk), w).
Proof.
  intros Ht Hs Hc Hm Hd. set (c1 := if counter <? 255 then counter + 1 else 0).
  assert (Hc1 : 0 <= c1 < 256) by (unfold c1; destruct (Z.ltb_spec counter 255); lia). set (t := radio_text target (Self_Id r) c1 command data).
  assert (Hl : zlen t = 28).
  { unfold t, radio_text. rewrite !s32_small by lia. rewrite fmt_d_0d.
    change (str "{") with [123]. change (str ",") with [44]. change (str "}") with [125].
    rewrite !zlen_app, !fmt_0d_length by lia. replace (zlen (fmt_0d 0 data)) with 1; [done|].
    assert (data = 0 \/ data = 1 \/ data = 2 \/ data = 3 \/ data = 4 \/ data = 5 \/ data = 6
            \/ data = 7 \/ data = 8 \/ data = 9) as Hcases by lia.
    repeat (destruct Hcases as [->|Hcases]; [done|]). by subst data. }
  pose proof (send_entry_spec (mkEntry 0 target 0 counter command data) r) as Hsend.
  unfold send_entry, radio_packet in Hsend. cbn [Type_ Taget_Id Counter Command Data] in Hsend.
  fold c1 in Hsend. fold t in Hsend. clearbody c1. cbn [Z.eqb] in Hsend.
  assert (Et : take 28 t = t) by (apply take_ge; unfold zlen in Hl; lia).
  rewrite Et in Hsend. set (h := fold_left (fun c b => u8 (c + b)) t 0) in *.
  eexists. split; [apply Hsend|].
  { unfold entry_ok, is_byte; cbn. lia. }
  set (pkt := t ++ _). assert (Hp : zlen pkt = 32) by (unfold pkt; by rewrite zlen_app, Hl).
  assert (Hh : 0 <= h < 256).
  { by apply (sum_byte t 0). }
  split; [done|]. assert (Hz : packet pkt = [33] ++ t ++ [hex_upper (Z.shiftr h 4); hex_upper (Z.land h 15); 13; 10]
                                 ++ replicate 31 0).
  { unfold packet. rewrite Hp. replace (63 - length pkt)%nat with 31%nat by (unfold zlen in Hp; lia).
    unfold pkt. by rewrite <- app_assoc. }
  split; [|split].
  - rewrite aget_lookup, Hz by lia. rewrite lookup_app_r by (change (length [33]) with 1%nat; lia).
    rewrite lookup_app_r by (unfold zlen in Hl; change (length [33]) with 1%nat; lia).
    replace (Z.to_nat 31 - length [33%Z] - length t)%nat with 2%nat;
      [done | unfold zlen in Hl; change (length [33]) with 1%nat; lia].
  - rewrite aget_lookup, Hz by lia. rewrite lookup_app_r by (change (length [33]) with 1%nat; lia).
    rewrite lookup_app_r by (unfold zlen in Hl; change (length [33]) with 1%nat; lia).
    replace (Z.to_nat 32 - length [33%Z] - length t)%nat with 3%nat;
      [done | unfold zlen in Hl; change (length [33]) with 1%nat; lia].
  - assert (Ed : drop (Z.to_nat 1) (packet pkt)
      = (t ++ [hex_upper (Z.shiftr h 4); hex_upper (Z.land h 15); 13; 10]) ++ 0 :: replicate 30 0).
    { rewrite Hz. change (Z.to_nat 1) with 1%nat. by rewrite <- app_assoc. }
    unfold scan_message, bind, lift_opt. rewrite Ed, c_string_text.
    + unfold ret. unfold t. rewrite scan_radio_text by (unfold is_byte; lia).
      rewrite !s32_small by lia. done.
    + apply Forall_app. split; [apply radio_text_nonzero|].
      assert (0 <= Z.shiftr h 4) by (apply Z.shiftr_nonneg; lia).
      assert (0 <= Z.land h 15) by (apply Z.land_nonneg; lia).
      repeat constructor; (by apply hex_upper_nonzero) || done.
Qed.

Lemma radio_send_understood_witness :
  exists pkt, RadioSend 10000001 7 3 1 radio0 = Some (tt, set_air [pkt] radio0)
    /\ scan_message no_message normal_format normal_fields (packet pkt) 1 world0
       = Some (mkMessage 0 0 10000001 40000000 0 8 3 1 0, world0).
Proof.
  destruct (radio_send_understood no_message radio0 world0 10000001 7 3 1) as (pkt & H1 & _ & _ & _ & H2).
  - split; [intros Hc; discriminate Hc | reflexivity].
  - split; [intros Hc; discriminate Hc | reflexivity].
  - split; [intros Hc; discriminate Hc | reflexivity].
  - split; [intros Hc; discriminate Hc | reflexivity].
  - split; [intros Hc; discriminate Hc | reflexivity].
  - exists pkt. split; [exact H1 | exact H2].
Defined.

(** ** The id 0 *)

(** Two main units were learned and the first one was removed again. *)
Definition hole_world : World (gmap (list Z) (list Z)) :=
  state_of (set_flash demo_mains world0) (Del_Device 10000001 (set_flash demo_mains world0)).

Definition wipe_packet : list Z := packet (str "A{0,4,40000000,0,0,0,0}A").

(** Once a slot has become free below [Num], a packet that gives 0 as its
    sender passes the check of the sender, and its "delete all" command then
    removes every main unit, since these are bound to device 0. *)
Theorem zero_sender_removes_mains :
  bindings (Global_Device (w_flash hole_world)) = {[ 10000002 := 0 ]}
  /\ match rf433_rx_callback no_message (-60) wipe_packet 24 hole_world with
     | Some (_, w') => bindings (Global_Device (w_flash w')) = ∅
                       /\ uart_out (w_tx w') <> uart_out (w_tx hole_world)
     | None => False
     end.
Proof.
  split; [by vm_compute|].
  assert (Hm : match rf433_rx_callback no_message (-60) wipe_packet 24 hole_world with
     | Some (_, w') => bool_decide (bindings (Global_Device (w_flash w')) = ∅)
                       && (zlen (uart_out (w_tx hole_world)) <? zlen (uart_out (w_tx w')))
     | None => false
     end = true) by by vm_compute.
  destruct (rf433_rx_callback no_message (-60) wipe_packet 24 hole_world) as [[u w']|]; [|done].
  apply andb_true_iff in Hm as [H1 H2]. apply bool_decide_eq_true in H1. apply Z.ltb_lt in H2.
  split; [done|]. intros E. rewrite E in H2. lia.
Qed.
