(* ===== verification/Heart.v ===== *)
(** * The heart beat supervisor

    [src/applications/heart.c]: every quarter of an hour each main unit is
    asked for a sign of life.  The seven polls of a unit that does not answer,
    and the six cycles until it is declared offline, are counted in the unit's
    slot.  The retry counter is incremented in the argument of a log macro, which
    the configured build ([RT_DEBUG], [DBG_LOG]) evaluates. *)

From Stdlib Require Import String.
From S2P Require Import Prelude CStr McuTx Json Cloud Flashwork RadioQueue Led World WifiApi WifiSpec Safe.
Open Scope list_scope.

Section Operations.
Context {E : Type} `{Env E}.

Abbreviation WM := (M (World E)).

(** The inner loop at the index [num], up to the sleep: a main unit is asked, with
    the transmit power raised. *)
Definition heart_ask (num : Z) : WM bool :=
  do s <- dev_slot num;
  if negb (ID s =? 0) && (Bind_ID s =? 0) then
    run on (set_slot num (set_HeartRecv 0));
    run on max_power;
    run on (GatewayDataEnqueue (ID s) 0 0 3 0);
    ret true
  else ret false.

(** After the sleep: what the answer, or its absence, means; the result is the
    next value of [num]. *)
Definition heart_judge (num : Z) : WM Z :=
  run on normal_power;
  do s <- dev_slot num;
  if negb (HeartRecv s =? 0) then
    run on (set_slot num (set_HeartCount 0));
    run on (set_slot num (set_HeartRetry 0));
    run Heart_Upload (ID s) 1;
    ret (u8 (num + 1))
  else if HeartRetry s <? 6 then
    run on (set_slot num (set_HeartRetry (u8 (HeartRetry s + 1))));
    ret num
  else
    run (if HeartCount s <? 5 then
           on (set_slot num (set_HeartCount (u8 (HeartCount s + 1))))
         else
           run on (set_slot num (set_HeartCount 0));
           void (Flash_Set_Heart (ID s) 0));
    run on (set_slot num (set_HeartRetry 0));
    ret (u8 (num + 1)).

(** One iteration; [wait] is what the other threads do while this one sleeps. *)
Definition heart_turn (wait : WM unit) (num : Z) : WM Z :=
  do asked <- heart_ask num;
  if asked : bool then run wait; heart_judge num else ret (u8 (num + 1)).

(** [while(num <= Global_Device.Num)]; the result says whether the loop came
    to its end within [fuel] iterations. *)
Fixpoint heart_loop (wait : WM unit) (fuel : nat) (num : Z) : WM bool :=
  do n <- dev_num;
  if num <=? n then
    match fuel with
    | O => ret false
    | S k => do num' <- heart_turn wait num; heart_loop wait k num'
    end
  else ret true.

(** One cycle of [heart_callback]. *)
Definition heart_cycle (wait : WM unit) (fuel : nat) : WM bool := heart_loop wait fuel 1.
End Operations.

(** ** The cycle ends *)

Definition retries {E} (w : World E) : list Z := map HeartRetry (slots (Global_Device (w_flash w))).

Section Ends.
Context {E : Type} `{Env E} (wait : M (World E) unit).
Implicit Types (w : World E).

(** What the other threads may do: anything that leaves the program in a good
    state and the retry counters alone, as no other code touches them. *)
Context (Hwait : safe any wait)
  (Hkeep : forall w, world_ok w -> wp wait (fun _ w' => retries w' = retries w) w).

Lemma wp_both {A} (m : M (World E) A) P Q w :
  wp m P w -> wp m Q w -> wp m (fun a w' => P a w' /\ Q a w') w.
Proof. unfold wp. by destruct (m w) as [[a w']|]. Qed.

Definition retry_at w (k : nat) : Z := default 0 (retries w !! k).

Lemma retry_at_slot w k s :
  slots (Global_Device (w_flash w)) !! k = Some s -> retry_at w k = HeartRetry s.
Proof. intros Hs. unfold retry_at, retries. by rewrite list_lookup_fmap, Hs. Qed.

Lemma safe_after A (m : M (World E) A) (x : Z) :
  safe any m -> safe (fun n => n = x) (run m; ret x).
Proof. intros Hm. apply safe_run; [done | by apply safe_ret]. Qed.

Lemma slot_setter k g w (Q : unit -> World E -> Prop) s :
  world_ok w -> keeps_stored g -> slots (Global_Device (w_flash w)) !! k = Some s ->
  (forall w', world_ok w' -> w' = set_flash (mkFlash (set_slots (<[k := g s]> (slots (Global_Device (w_flash w))))
      (Global_Device (w_flash w))) (env (w_flash w))) w -> Q tt w') ->
  wp (on (set_slot (Z.of_nat k) g)) Q w.
Proof.
  intros Hw Hg Hs HQ. apply (wp_on_set_slot k s); [done|]. apply HQ; [|done].
  apply world_ok_flash; [done|]. apply flash_ok_slot; [done | apply Hw | done].
Qed.

(** The power changes nothing else. *)
Lemma wp_power (m : M Radio unit) w (Q : unit -> World E -> Prop) :
  m = max_power \/ m = normal_power -> world_ok w ->
  (forall w', world_ok w' -> w_flash w' = w_flash w -> Q tt w') -> wp (on m) Q w.
Proof.
  intros Hm Hw HQ. apply wp_on. destruct Hm as [->| ->]; apply wp_modify, HQ; try done;
    destruct Hw; (split; try done); cbn; by destruct (power_now _ =? 0).
Qed.

(** How an iteration at the index [k] ends, the retry counter of [k] being [r]
    before it: on to the next index, or one more retry. *)
Definition turned (k : nat) (r : Z) (num : Z) w : Prop :=
  world_ok w /\
  (num = Z.of_nat k + 1 \/ (num = Z.of_nat k /\ r < 6 /\ retry_at w k = u8 (r + 1))).

Lemma turned_next k r (m : M (World E) Z) w :
  world_ok w -> safe (fun n => n = Z.of_nat k + 1) m -> wp m (turned k r) w.
Proof.
  intros Hw Hm. eapply wp_conseq; [by apply Hm|]. intros n w' [Hw' ->]. split; [done | by left].
Qed.

Lemma safe_next k (m : M (World E) unit) :
  (k < 50)%nat -> safe any m ->
  safe (fun n => n = Z.of_nat k + 1) (run m; ret (u8 (Z.of_nat k + 1))).
Proof. intros Hk Hm. rewrite u8_small by (unfold is_byte; lia). by apply safe_after. Qed.

(** Asking leaves the retry counters alone. *)
Lemma wp_heart_ask k w :
  world_ok w -> (k < 50)%nat ->
  wp (heart_ask (Z.of_nat k)) (fun _ w' => world_ok w' /\ retries w' = retries w) w.
Proof.
  intros Hw Hk. pose proof (world_flash w Hw) as [Ht _].
  destruct (lookup_lt_is_Some_2 (slots (Global_Device (w_flash w))) k) as [s Hs].
  { by rewrite (table_length _ Ht). }
  unfold heart_ask. apply wp_bind, (wp_dev_slot k s); [done|].
  destruct (negb (ID s =? 0) && (Bind_ID s =? 0)); [|by apply wp_ret].
  apply wp_bind, (slot_setter k _ _ _ s); [done | done | done|]. intros w0 Hw0 E1.
  apply wp_bind, wp_power; [by left | done|]. intros w1 Hw1 Ew1.
  assert (Hr1 : retries w1 = retries w).
  { unfold retries at 1. rewrite Ew1, E1. unfold retries. cbn [w_flash set_flash Global_Device set_slots slots].
    rewrite list_fmap_insert. cbn [HeartRetry set_HeartRecv]. apply list_insert_id.
    by rewrite list_lookup_fmap, Hs. }
  apply wp_bind, wp_on, wp_enqueue_ok;
    [apply Hw1 | apply entry_ok_gateway | by intros _; rewrite over_view |].
  intros _ r' Hr' _ _ _ _ _. apply wp_ret. split; [|done]. destruct Hw1. by split.
Qed.

(** An answer, an absence too many and a retry are told apart. *)
Lemma wp_heart_judge k w :
  world_ok w -> (k < 50)%nat -> wp (heart_judge (Z.of_nat k)) (turned k (retry_at w k)) w.
Proof.
  intros Hw0 Hk. unfold heart_judge. apply wp_bind, wp_power; [by right | done|].
  intros w' Hw Ew. assert (Er : retry_at w k = retry_at w' k) by (unfold retry_at, retries; by rewrite Ew).
  rewrite Er. clear w Hw0 Ew Er. rename w' into w.
  destruct (lookup_lt_is_Some_2 (slots (Global_Device (w_flash w))) k) as [s Hs].
  { by rewrite (table_length _ (proj1 (world_flash w Hw))). }
  rewrite (retry_at_slot w k s Hs).
  assert (Hix : index (Z.of_nat k)) by (unfold index, MaxSupport; lia).
  apply wp_bind, (wp_dev_slot k s); [done|]. pose proof (safe_set_slot (E := E)) as Hset.
  destruct (negb (HeartRecv s =? 0)).
  { apply turned_next; [done|]. apply safe_run; [by apply Hset|]. apply safe_run; [by apply Hset|].
    apply safe_next; [done | apply safe_Heart_Upload]. }
  destruct (Z.ltb_spec (HeartRetry s) 6) as [Hlt|Hge].
  - apply wp_bind, (slot_setter k _ _ _ s); [done | done | done|]. intros w1 Hw1 E1.
    apply wp_ret. split; [done|]. right. split; [done|]. split; [done|].
    rewrite (retry_at_slot w1 k (set_HeartRetry (u8 (HeartRetry s + 1)) s)); [done|].
    rewrite E1. cbn. apply list_lookup_insert_eq. by eapply lookup_lt_Some.
  - apply turned_next; [done|]. apply safe_run; [|apply safe_next; [done | by apply Hset]].
    apply safe_if; intros _; [by apply Hset|]. apply safe_run; [by apply Hset|].
    apply safe_void, safe_Flash_Set_Heart.
Qed.

(** An iteration goes on to the next index or counts a retry. *)
Lemma wp_heart_turn k w :
  world_ok w -> (k < 50)%nat ->
  wp (heart_turn wait (Z.of_nat k)) (turned k (retry_at w k)) w.
Proof using Hwait Hkeep.
  intros Hw Hk. unfold heart_turn. apply wp_bind.
  eapply wp_conseq; [by apply wp_heart_ask|]. intros asked w1 [Hw1 E1].
  unfold retry_at. rewrite <- E1. fold (retry_at w1 k). destruct asked.
  - apply wp_bind. eapply wp_conseq; [apply wp_both; [by apply Hwait | by apply Hkeep]|].
    intros u w2 [[Hw2 _] E2]. unfold retry_at. rewrite <- E2. by apply wp_heart_judge.
  - apply wp_ret. rewrite u8_small by (unfold is_byte; lia). split; [done | by left].
Qed.

(** The iterations the current index still takes. *)
Definition left_at w (k : nat) : nat :=
  let r := retry_at w k in if r <? 0 then 7 else Z.to_nat (6 - Z.min 6 r).

Lemma wp_heart_loop fuel : forall k w,
  world_ok w -> (1 <= k <= 50)%nat -> (8 * (50 - k) + left_at w k < fuel)%nat ->
  wp (heart_loop wait fuel (Z.of_nat k)) (fun b w' => b = true /\ world_ok w') w.
Proof using Hwait Hkeep.
  induction fuel as [|fuel IH]; intros k w Hw Hk Hf; [lia|]. cbn [heart_loop].
  unfold dev_num. apply wp_bind, wp_gets. pose proof (table_num _ (proj1 (world_flash w Hw))) as Hn.
  unfold MaxSupport in Hn. destruct (Z.leb_spec (Z.of_nat k) (Num (Global_Device (w_flash w)))) as [Hle|Hgt].
  2: { by apply wp_ret. }
  apply wp_bind. eapply wp_conseq; [apply wp_heart_turn; [done | lia]|].
  intros num w' (Hw' & Hnum). assert (Hl : (left_at w' (S k) <= 7)%nat).
  { unfold left_at. destruct (retry_at w' (S k) <? 0) eqn:E0; [done|]. apply Z.ltb_ge in E0. lia. }
  destruct Hnum as [->|(-> & Hr & Hr')].
  - replace (Z.of_nat k + 1) with (Z.of_nat (S k)) by lia. apply IH; [done | lia | lia].
  - apply IH; [done | lia |]. enough (left_at w' k < left_at w k)%nat by lia.
    unfold left_at. rewrite Hr'. pose proof (u8_range (retry_at w k + 1)) as Hb.
    rewrite (proj2 (Z.ltb_ge (u8 _) 0)) by lia. destruct (Z.ltb_spec (retry_at w k) 0) as [Hneg|Hpos]; [lia|].
    rewrite u8_small by (unfold is_byte; lia). lia.
Qed.
End Ends.

(** C30: whatever the other threads do while it waits for the answers, a cycle
    of the supervisor ends: at most eight iterations for each of the 49 places
    of the table. *)
Theorem heart_cycle_ends {E} `{Env E} (wait : M (World E) unit) (w : World E) :
  safe any wait -> (forall v, world_ok v -> wp wait (fun _ v' => retries v' = retries v) v) ->
  world_ok w ->
  exists w', heart_cycle wait 400 w = Some (true, w') /\ world_ok w'.
Proof.
  intros Hs Hk Hw.
  assert (Hr : wp (heart_cycle wait 400) (fun b w' => b = true /\ world_ok w') w).
  { unfold heart_cycle. change 1 with (Z.of_nat 1). apply (wp_heart_loop wait Hs Hk); [done | lia |].
    assert (left_at w 1 <= 7)%nat; [|lia].
    unfold left_at. destruct (retry_at w 1 <? 0) eqn:E0; [done|]. apply Z.ltb_ge in E0. lia. }
  apply wp_Some in Hr as (b & w' & Hrun & -> & Hok). by exists w'.
Qed.

Lemma heart_cycle_ends_witness :
  exists w', heart_cycle (ret tt) 400 demo = Some (true, w') /\ world_ok w'.
Proof.
  apply (heart_cycle_ends (ret tt) demo).
  - intros v Hv. split; [exact Hv | exact I].
  - intros v Hv. reflexivity.
  - exact demo_ok.
Defined.

(** ** A main unit that has fallen silent *)

(** State, retries and cycles of a unit that does not answer a poll. *)
Definition silence (x : Z * Z * Z) : Z * Z * Z :=
  let '(h, r, c) := x in
  if r <? 6 then (h, r + 1, c) else if c <? 5 then (h, 0, c + 1) else (0, 0, 0).

Definition counters (s : Slot) : Z * Z * Z := (Heart s, HeartRetry s, HeartCount s).

Fixpoint unanswered {E} `{Env E} (n : nat) (num : Z) : M (World E) unit :=
  match n with
  | O => ret tt
  | S k => run heart_turn (ret tt) num; unanswered k num
  end.

Section Silent.
Context {E : Type} `{Env E}.
Implicit Types (w : World E).

(** A main unit with the counters [x] is in slot [k]. *)
Definition unit_at (k : nat) (id : Z) (x : Z * Z * Z) w : Prop :=
  world_ok w /\ exists s, slots (Global_Device (w_flash w)) !! k = Some s
    /\ ID s = id /\ Bind_ID s = 0 /\ counters s = x.

(** One assignment to the slot. *)
Lemma wp_unit_set k id x y g w (Q : unit -> World E -> Prop) :
  unit_at k id x w -> keeps_stored g ->
  (forall s, counters s = x -> counters (g s) = y) ->
  (forall w', unit_at k id y w' -> Q tt w') ->
  wp (on (set_slot (Z.of_nat k) g)) Q w.
Proof.
  intros (Hw & s & Hs & Hid & Hb & Hx) Hg Hxy HQ. destruct (Hg s) as (E1 & E2 & _).
  apply (slot_setter k g w _ s); [done | done | done|]. intros w' Hw' ->. apply HQ. split; [done|].
  exists (g s). split; [by apply list_lookup_insert_eq; eapply lookup_lt_Some|].
  split; [congruence|]. split; [congruence | by apply Hxy].
Qed.

Lemma wp_unit_slot {A} k id x w (K : Slot -> M (World E) A) Q :
  unit_at k id x w ->
  (forall s, ID s = id -> Bind_ID s = 0 -> counters s = x ->
     slots (Global_Device (w_flash w)) !! k = Some s -> wp (K s) Q w) ->
  wp (do s <- dev_slot (Z.of_nat k); K s) Q w.
Proof.
  intros (Hw & s & Hs & Hid & Hb & Hx) HK. apply wp_bind, (wp_dev_slot k s); [done|]. by apply HK.
Qed.

Lemma wp_unit_offline k id r c w (Q : Z -> World E -> Prop) h :
  unit_at k id (h, r, c) w -> 0 < id ->
  (forall n w', unit_at k id (0, r, c) w' -> Q n w') -> wp (Flash_Set_Heart id 0) Q w.
Proof.
  intros (Hw & s & Hs & Hids & Hb & Hx) Hid HQ. pose proof (world_flash w Hw) as [Ht _].
  apply wp_Flash_Set_Heart; [done | lia | done | |].
  - intros Hn. exfalso. assert (Hb' : bindings (Global_Device (w_flash w)) !! id = Some (Bind_ID s)).
    { apply bindings_lookup; [done|]. exists k, s. split; [done|]. split; [done|]. split; [lia | done]. }
    congruence.
  - intros k' s' t f d (Hs' & Hid' & Hk') Ht' Hf Hd.
    assert (k' = k) as -> by (apply (table_unique _ Ht k' k s' s); [done | done | congruence | lia]).
    apply HQ. split; [apply world_ok_tx; [by apply world_ok_flash | apply Ht']|].
    exists (heart_slot 0 s'). cbn [w_flash set_tx set_flash]. rewrite Hd. cbn [slots set_slots].
    split; [by apply list_lookup_insert_eq; eapply lookup_lt_Some|].
    unfold d in Hs'. rewrite Hs in Hs'. injection Hs' as <-. unfold counters in Hx. injection Hx as <- <- <-.
    unfold heart_slot. cbn [Z.eqb]. destruct (Z.eqb_spec (Heart s) 0) as [E0|E0]; [|done].
    split; [done|]. split; [done|]. unfold counters. by rewrite E0.
Qed.

Lemma wp_silent_turn k id h r c w :
  unit_at k id (h, r, c) w -> 0 < id -> is_byte r -> is_byte c ->
  wp (heart_turn (ret tt) (Z.of_nat k)) (fun _ w' => unit_at k id (silence (h, r, c)) w') w.
Proof.
  intros Hu Hid Hr Hc. unfold heart_turn, heart_ask. apply wp_bind, (wp_unit_slot k id (h, r, c)); [done|].
  intros s Hs Hb Hx Hsl. rewrite Hs, Hb. rewrite (proj2 (Z.eqb_neq id 0)) by lia. cbn [negb andb Z.eqb].
  apply wp_bind, (slot_setter k _ _ _ s); [apply Hu | done | done|]. intros w0 Hw0 E1.
  apply wp_bind, wp_power; [by left | done|]. intros w1 Hw1 Ew1.
  assert (Hrecv : slots (Global_Device (w_flash w1)) !! k = Some (set_HeartRecv 0 s)).
  { rewrite Ew1, E1. apply list_lookup_insert_eq. by eapply lookup_lt_Some. }
  assert (Hq : wp (on (GatewayDataEnqueue id 0 0 3 0))
                 (fun _ w' => world_ok w' /\ w_flash w' = w_flash w1) w1).
  { apply wp_on, wp_enqueue_ok; [apply Hw1 | apply entry_ok_gateway | by intros _; rewrite over_view |].
    intros _ r' Hr' _ _ _ _ _. split; [|done]. destruct Hw1. by split. }
  apply wp_bind. eapply wp_conseq; [exact Hq|]. intros u w2 [Hw2 Ef]. clear Hq.
  assert (Hu2 : unit_at k id (h, r, c) w2).
  { split; [done|]. exists (set_HeartRecv 0 s). by rewrite Ef. }
  apply wp_ret, wp_bind, wp_ret. unfold heart_judge. apply wp_bind, wp_power; [by right | done|]. intros w3' Hw3' Ew3.
  assert (Hu3 : unit_at k id (h, r, c) w3') by (split; [done|]; exists (set_HeartRecv 0 s); by rewrite Ew3, Ef).
  apply wp_bind, (wp_dev_slot k (set_HeartRecv 0 s)); [by rewrite Ew3, Ef|].
  cbn [HeartRecv set_HeartRecv HeartRetry HeartCount ID negb Z.eqb].
  unfold counters in Hx. injection Hx as Hh Hr' Hc'. rewrite Hr', Hc', Hs.
  unfold silence, is_byte in *. destruct (Z.ltb_spec r 6).
  - apply wp_bind, (wp_unit_set k id (h, r, c) (h, r + 1, c)); [done | done | |].
    + intros s' Hx. unfold counters in *. injection Hx as <- <- <-. cbn.
      by rewrite u8_small by (unfold is_byte; lia).
    + intros w3 Hw3. by apply wp_ret.
  - apply wp_bind. destruct (Z.ltb_spec c 5).
    + apply (wp_unit_set k id (h, r, c) (h, r, c + 1)); [done | done | |].
      { intros s' Hx. unfold counters in *. injection Hx as <- <- <-. cbn.
        by rewrite u8_small by (unfold is_byte; lia). }
      intros w3 Hw3. apply wp_bind, (wp_unit_set k id (h, r, c + 1) (h, 0, c + 1)); [done | done | |].
      { intros s' Hx. unfold counters in *. by injection Hx as <- _ <-. }
      intros w4 Hw4. by apply wp_ret.
    + apply wp_bind, (wp_unit_set k id (h, r, c) (h, r, 0)); [done | done | |].
      { intros s' Hx. unfold counters in *. by injection Hx as <- <- _. }
      intros w3 Hw3. apply wp_bind, (wp_unit_offline k id r 0 _ _ h); [done | done|].
      intros n w4 Hw4. apply wp_ret, wp_bind, (wp_unit_set k id (0, r, 0) (0, 0, 0)); [done | done | |].
      { intros s' Hx. unfold counters in *. injection Hx as E1' _ E3'. cbn. by rewrite E1', E3'. }
      intros w5 Hw5. by apply wp_ret.
Qed.

Lemma wp_unanswered k id n : forall h r c w,
  unit_at k id (h, r, c) w -> 0 < id -> 0 <= r <= 6 -> 0 <= c <= 5 ->
  wp (unanswered n (Z.of_nat k)) (fun _ w' => unit_at k id (Nat.iter n silence (h, r, c)) w') w.
Proof.
  induction n as [|n IH]; intros h r c w Hu Hid Hr Hc; [done|]. cbn [unanswered].
  apply wp_bind. eapply wp_conseq; [apply (wp_silent_turn k id h r c); (done || unfold is_byte; lia)|].
  intros num w' Hw'. rewrite Nat.iter_succ_r.
  destruct (silence (h, r, c)) as [[h' r'] c'] eqn:Es.
  assert (0 <= r' <= 6 /\ 0 <= c' <= 5) as [? ?].
  { unfold silence in Es. destruct (Z.ltb_spec r 6); [by simplify_eq; lia|].
    destruct (Z.ltb_spec c 5); simplify_eq; lia. }
  by apply IH.
Qed.
End Silent.

(** C29: a main unit that does not answer stays what it was for 41 polls and is
    declared offline at the 42nd, six cycles of seven polls; its counters then
    start again. *)
Theorem silent_unit_goes_offline {E} `{Env E} (w : World E) k id s n :
  world_ok w -> slots (Global_Device (w_flash w)) !! k = Some s ->
  ID s = id -> 0 < id -> Bind_ID s = 0 -> HeartRetry s = 0 -> HeartCount s = 0 -> (n <= 42)%nat ->
  exists w' s', unanswered n (Z.of_nat k) w = Some (tt, w') /\ world_ok w'
    /\ slots (Global_Device (w_flash w')) !! k = Some s' /\ ID s' = id
    /\ Heart s' = (if bool_decide (n = 42%nat) then 0 else Heart s)
    /\ HeartRetry s' = Z.of_nat n mod 7
    /\ HeartCount s' = (Z.of_nat n / 7) mod 6.
Proof.
  intros Hw Hs Hid Hpos Hb Hr Hc Hn.
  assert (Hu : wp (unanswered n (Z.of_nat k))
                 (fun _ w' => unit_at k id (Nat.iter n silence (Heart s, 0, 0)) w') w).
  { apply wp_unanswered; [|done|lia|lia]. split; [done|]. exists s. unfold counters. by rewrite Hr, Hc. }
  apply wp_Some in Hu as ([] & w' & Hrun & Hw' & s' & Hs' & Hids & _ & Hx).
  exists w', s'. do 4 (split; [done|]).
  assert (Hcases : forall h, ((n < 42)%nat -> Nat.iter n silence (h, 0, 0) = (h, Z.of_nat n mod 7, (Z.of_nat n / 7) mod 6))
                             /\ Nat.iter 42 silence (h, 0, 0) = (0, 0, 0)).
  { intros h. split; [|done]. intros Hlt. do 42 (destruct n as [|n]; [done|]). lia. }
  destruct (decide (n = 42%nat)) as [->|Hne].
  - rewrite (proj2 (Hcases _)) in Hx. unfold counters in Hx. injection Hx as -> -> ->. done.
  - rewrite (proj1 (Hcases _)) in Hx by lia. unfold counters in Hx. injection Hx as -> -> ->. by rewrite bool_decide_eq_false_2.
Qed.

Lemma silent_unit_goes_offline_witness :
  exists w' s', unanswered 42 1 demo = Some (tt, w')
    /\ slots (Global_Device (w_flash w')) !! 1%nat = Some s' /\ Heart s' = 0.
Proof.
  destruct (silent_unit_goes_offline demo 1 10000001 demo_main_slot 42 demo_ok) as (w' & s' & H1 & _ & H2 & _ & H3 & _).
  - vm_compute. reflexivity.
  - vm_compute. reflexivity.
  - reflexivity.
  - vm_compute. reflexivity.
  - vm_compute. reflexivity.
  - vm_compute. reflexivity.
  - apply Nat.leb_le. reflexivity.
  - exists w', s'. split; [exact H1|]. split; [exact H2 | exact H3].
Defined.
