(* ===== verification/Link.v ===== *)
(** * The WiFi link

    The state of the connection and what drives it: resetting the module and
    retrying ([src/wifi/wifi-service.c], [src/wifi/mcu_api.c]), the reported
    connection state ([wifi_status_change] of [src/wifi/wifi-uart.c]), the factory
    test ([src/applications/factory.c]).  A timer is whether it runs; its callback
    is called by the environment while it does. *)

From Stdlib Require Import String.
From S2P Require Import Prelude CStr McuTx McuRx Json Cloud Flashwork RadioQueue Led World WifiApi WifiSpec Safe Decoder.
Open Scope list_scope.

Definition RESET_WIFI_ERROR := 0.
Definition RESET_WIFI_SUCCESS := 1.
Definition SET_WIFICONFIG_ERROR := 0.
Definition SET_WIFICONFIG_SUCCESS := 1.
Definition WIFI_SATE_UNKNOW := 255.

Section Setters.
Context (w : Wifi).
Definition put_reset_flag v := mkWifi v (set_wifimode_flag w) (wifi_work_state w) (if_subdev_net_in w) (wifi_status w) (wifi_connected w) (WiFi_FactoryFlag w) (rf_factoryflag w) (Reset_WiFi_Counter w) (wifi_rst_timer w) (wifi_test_timer w) (wifi_power w).
Definition put_mode_flag v := mkWifi (reset_wifi_flag w) v (wifi_work_state w) (if_subdev_net_in w) (wifi_status w) (wifi_connected w) (WiFi_FactoryFlag w) (rf_factoryflag w) (Reset_WiFi_Counter w) (wifi_rst_timer w) (wifi_test_timer w) (wifi_power w).
Definition put_work_state v := mkWifi (reset_wifi_flag w) (set_wifimode_flag w) v (if_subdev_net_in w) (wifi_status w) (wifi_connected w) (WiFi_FactoryFlag w) (rf_factoryflag w) (Reset_WiFi_Counter w) (wifi_rst_timer w) (wifi_test_timer w) (wifi_power w).
Definition put_net_in v := mkWifi (reset_wifi_flag w) (set_wifimode_flag w) (wifi_work_state w) v (wifi_status w) (wifi_connected w) (WiFi_FactoryFlag w) (rf_factoryflag w) (Reset_WiFi_Counter w) (wifi_rst_timer w) (wifi_test_timer w) (wifi_power w).
Definition put_status v := mkWifi (reset_wifi_flag w) (set_wifimode_flag w) (wifi_work_state w) (if_subdev_net_in w) v (wifi_connected w) (WiFi_FactoryFlag w) (rf_factoryflag w) (Reset_WiFi_Counter w) (wifi_rst_timer w) (wifi_test_timer w) (wifi_power w).
Definition put_connected v := mkWifi (reset_wifi_flag w) (set_wifimode_flag w) (wifi_work_state w) (if_subdev_net_in w) (wifi_status w) v (WiFi_FactoryFlag w) (rf_factoryflag w) (Reset_WiFi_Counter w) (wifi_rst_timer w) (wifi_test_timer w) (wifi_power w).
Definition put_factory v := mkWifi (reset_wifi_flag w) (set_wifimode_flag w) (wifi_work_state w) (if_subdev_net_in w) (wifi_status w) (wifi_connected w) v (rf_factoryflag w) (Reset_WiFi_Counter w) (wifi_rst_timer w) (wifi_test_timer w) (wifi_power w).
Definition put_rf_flag v := mkWifi (reset_wifi_flag w) (set_wifimode_flag w) (wifi_work_state w) (if_subdev_net_in w) (wifi_status w) (wifi_connected w) (WiFi_FactoryFlag w) v (Reset_WiFi_Counter w) (wifi_rst_timer w) (wifi_test_timer w) (wifi_power w).
Definition put_reset_counter v := mkWifi (reset_wifi_flag w) (set_wifimode_flag w) (wifi_work_state w) (if_subdev_net_in w) (wifi_status w) (wifi_connected w) (WiFi_FactoryFlag w) (rf_factoryflag w) v (wifi_rst_timer w) (wifi_test_timer w) (wifi_power w).
Definition put_rst_timer v := mkWifi (reset_wifi_flag w) (set_wifimode_flag w) (wifi_work_state w) (if_subdev_net_in w) (wifi_status w) (wifi_connected w) (WiFi_FactoryFlag w) (rf_factoryflag w) (Reset_WiFi_Counter w) v (wifi_test_timer w) (wifi_power w).
Definition put_test_timer v := mkWifi (reset_wifi_flag w) (set_wifimode_flag w) (wifi_work_state w) (if_subdev_net_in w) (wifi_status w) (wifi_connected w) (WiFi_FactoryFlag w) (rf_factoryflag w) (Reset_WiFi_Counter w) (wifi_rst_timer w) v (wifi_power w).
Definition put_power v := mkWifi (reset_wifi_flag w) (set_wifimode_flag w) (wifi_work_state w) (if_subdev_net_in w) (wifi_status w) (wifi_connected w) (WiFi_FactoryFlag w) (rf_factoryflag w) (Reset_WiFi_Counter w) (wifi_rst_timer w) (wifi_test_timer w) v.
End Setters.

(** ** Operations *)

Section Operations.
Context {E : Type} `{Env E}.
Abbreviation WM := (M (World E)).

Definition link {A} (f : Wifi -> A) : WM A := on (gets f).
Definition link_set (f : Wifi -> Wifi) : WM unit := on (modify f).

Definition mcu_get_reset_wifi_flag : WM Z := link reset_wifi_flag.
Definition mcu_get_wifimode_flag : WM Z := link set_wifimode_flag.
Definition mcu_get_wifi_work_state : WM Z := link wifi_work_state.
Definition mcu_get_permit_subdev_netin_state : WM Z := link if_subdev_net_in.

Definition mcu_reset_wifi : WM unit :=
  run link_set (fun w => put_reset_flag w RESET_WIFI_ERROR);
  on (wifi_uart_write_frame WIFI_RESET_CMD MCU_TX_VER 0).

Definition mcu_set_wifi_mode (mode : Z) : WM unit :=
  run link_set (fun w => put_mode_flag w SET_WIFICONFIG_ERROR);
  do length <- on (set_wifi_uart_byte 0 mode);
  on (wifi_uart_write_frame WIFI_MODE_CMD MCU_TX_VER length).

Definition Reset_WiFi : WM unit :=
  run mcu_reset_wifi;
  run link_set (fun w => put_reset_counter w 0);
  link_set (fun w => put_rst_timer w true).

Definition Reset_WiFi_Callback : WM unit :=
  do counter <- link Reset_WiFi_Counter;
  do flag <- mcu_get_reset_wifi_flag;
  if (counter <? 3) && negb (flag =? 1) then
    run link_set (fun w => put_reset_counter w (u8 (counter + 1)));
    mcu_reset_wifi
  else if (counter <? 3) && (flag =? 1) then
    run link_set (fun w => put_reset_counter w (u8 (counter + 1)));
    link_set (fun w => put_rst_timer w false)
  else if 3 <=? counter then link_set (fun w => put_rst_timer w false)
  else ret tt.

Definition wifi_power_on : WM unit := link_set (fun w => put_power w true).
Definition wifi_power_off : WM unit := link_set (fun w => put_power w false).

Definition wifi_status_change (result : Z) : WM unit :=
  do factory <- link WiFi_FactoryFlag;
  if negb (factory =? 0) then ret tt else
  do status <- link wifi_status;
  if negb (status =? result) then
    run on (wifi_led result);
    run link_set (fun w => put_status w result);
    if result =? 1 then link_set (fun w => put_connected w 0)
    else if result =? 2 then link_set (fun w => put_connected w 0)
    else if result =? 3 then ret tt
    else if result =? 4 then
      do connected <- link wifi_connected;
      if connected =? 0 then
        run link_set (fun w => put_connected w 1);
        run Remote_Device_Clear;
        on qur_subdev_list
      else ret tt
    else ret tt
  else ret tt.

(** *** Factory test *)

Definition rf_clear : WM unit := link_set (fun w => put_rf_flag w 1).

Definition factory_refresh : WM unit :=
  do f <- link rf_factoryflag;
  run (if f =? 1 then on (rf_led_factory 0) else ret tt);
  run on (RadioEnqueue 98989898 1 9 0);
  run link_set (fun w => put_rf_flag w 1);
  on mcu_start_wifitest.

Definition wifi_test : WM unit := link_set (fun w => put_test_timer w true).
Definition wifi_test_callback : WM unit := factory_refresh.

Definition wifi_test_result (result rssi : Z) : WM unit :=
  if result =? 0 then
    if rssi =? 0 then on (wifi_led_factory 1) else ret tt
  else if rssi <? 10 then on (wifi_led_factory 2) else on (wifi_led_factory 3).

(** *** Start *)

(** The ring's pointers and the state of the link. *)
Definition wifi_protocol_init : M (Rx * World E) unit :=
  run on_rx (modify (set_queue_in 0));
  run on_rx (modify (set_queue_out 0));
  run on_world (on (modify (set_stop_update_flag 0)));
  on_world (link_set (fun w => put_work_state w WIFI_SATE_UNKNOW)).

(** Without the serial device and the threads. *)
Definition wifi_service_init : M (Rx * World E) unit :=
  on_world (run link_set (fun w => put_rst_timer w false); link_set (fun w => put_test_timer w false)).

Definition WiFi_Init : M (Rx * World E) unit :=
  run on_world wifi_power_off;
  run wifi_protocol_init;
  wifi_service_init.

Definition WiFi_FactoryInit : M (Rx * World E) unit :=
  run on_world (link_set (fun w => put_factory w 1));
  run on_world wifi_power_off;
  run wifi_protocol_init;
  run wifi_service_init;
  on_world wifi_test.
End Operations.

(** ** Rules *)

Section Rules.
Context {E : Type} `{Env E}.
Implicit Types (w : World E).

Lemma wp_link {A} (f : Wifi -> A) (Q : A -> World E -> Prop) w : Q (f (w_wifi w)) w -> wp (link f) Q w.
Proof. intros HQ. apply wp_on, wp_gets. by rewrite over_view. Qed.

Lemma wp_link_set g (Q : unit -> World E -> Prop) w :
  Q tt (set_wifi (g (w_wifi w)) w) -> wp (link_set g) Q w.
Proof. intros HQ. by apply wp_on, wp_modify. Qed.

Lemma wp_leds (m : M Leds unit) (Q : unit -> World E -> Prop) w :
  led_appends m -> (forall l, Q tt (set_leds l w)) -> wp (on m) Q w.
Proof.
  intros Hm HQ. apply wp_on. destruct (Hm (w_leds w)) as [cs Ec]. unfold wp.
  cbn [view lens_leds]. rewrite Ec. apply HQ.
Qed.

Lemma wp_says ms m (Q : unit -> World E -> Prop) w :
  says ms m -> tx_ok (w_tx w) -> (forall t, emits ms (w_tx w) t -> Q tt (set_tx t w)) -> wp m Q w.
Proof. intros Hm. apply Hm. Qed.

Lemma says_empty cmd : is_byte cmd -> says [MCmd cmd []] (on (wifi_uart_write_frame cmd MCU_TX_VER 0) : M (World E) unit).
Proof. intros Hc. apply says_tx. intros s Q Hs HQ. by apply wp_empty_cmd. Qed.

Lemma wp_mcu_reset_wifi (Q : unit -> World E -> Prop) w :
  tx_ok (w_tx w) ->
  (forall t, emits [MCmd WIFI_RESET_CMD []] (w_tx w) t ->
     Q tt (set_tx t (set_wifi (put_reset_flag (w_wifi w) 0) w))) ->
  wp mcu_reset_wifi Q w.
Proof.
  intros Hw HQ. apply wp_bind, wp_link_set. eapply wp_says; [by apply says_empty | done|]. intros t Ht. by apply HQ.
Qed.
End Rules.

(** ** Resetting the module *)

Section Reset.
Context {E : Type} `{Env E}.
Implicit Types (w : World E).

(** Two seconds: whether the module's answer came in ([data_handle]), then the
    timer, if it runs. *)
Definition period (answered : bool) : M (World E) unit :=
  run (if answered then link_set (fun x => put_reset_flag x RESET_WIFI_SUCCESS) else ret tt);
  do r <- link wifi_rst_timer;
  if r : bool then Reset_WiFi_Callback else ret tt.

Fixpoint periods (l : list bool) : M (World E) unit :=
  match l with
  | [] => ret tt
  | a :: l' => run period a; periods l'
  end.

(** The periods without an answer before the first one with. *)
Fixpoint waiting (l : list bool) : nat :=
  match l with
  | [] => 0
  | a :: l' => if a : bool then 0 else S (waiting l')
  end.

Definition resets (n : nat) : list msg := replicate n (MCmd WIFI_RESET_CMD []).

Lemma stopped_stays l w (Q : unit -> World E -> Prop) :
  tx_ok (w_tx w) -> wifi_rst_timer (w_wifi w) = false ->
  (forall w', wifi_rst_timer (w_wifi w') = false -> w_tx w' = w_tx w -> Q tt w') ->
  wp (periods l) Q w.
Proof.
  revert w. induction l as [|a l IH]; intros w Hw Hs HQ; [by apply wp_ret, HQ|].
  cbn [periods]. apply wp_bind, wp_bind. destruct a.
  - apply wp_link_set, wp_bind, wp_link. cbn [w_wifi set_wifi put_reset_flag wifi_rst_timer]. rewrite Hs.
    apply wp_ret, IH; [done..|]. intros w' ? Ht. apply HQ; [done | by rewrite Ht].
  - apply wp_ret, wp_bind, wp_link. rewrite Hs. by apply wp_ret, IH.
Qed.

Lemma wp_period (a : bool) (k : nat) w (Q : unit -> World E -> Prop) :
  tx_ok (w_tx w) -> (k <= 3)%nat -> wifi_rst_timer (w_wifi w) = true ->
  Reset_WiFi_Counter (w_wifi w) = Z.of_nat k -> reset_wifi_flag (w_wifi w) = 0 ->
  (a = true \/ k = 3%nat ->
     forall w', wifi_rst_timer (w_wifi w') = false -> w_tx w' = w_tx w -> Q tt w') ->
  (a = false -> (k < 3)%nat -> forall w', wifi_rst_timer (w_wifi w') = true ->
     Reset_WiFi_Counter (w_wifi w') = Z.of_nat (S k) -> reset_wifi_flag (w_wifi w') = 0 ->
     emits (resets 1) (w_tx w) (w_tx w') -> Q tt w') ->
  wp (period a) Q w.
Proof.
  intros Hw Hk Hr Hc Hf Hstop Hgo. unfold period. apply wp_bind.
  destruct a; [apply wp_link_set | apply wp_ret]; apply wp_bind, wp_link;
    cbn [w_wifi set_wifi put_reset_flag wifi_rst_timer]; rewrite Hr; unfold Reset_WiFi_Callback;
    apply wp_bind, wp_link, wp_bind, wp_link;
    cbn [w_wifi set_wifi put_reset_flag Reset_WiFi_Counter reset_wifi_flag]; rewrite Hc, ?Hf;
    destruct (decide (k = 3)%nat) as [->|Hk3];
    [|rewrite (proj2 (Z.ltb_lt _ 3)) by lia| |rewrite (proj2 (Z.ltb_lt _ 3)) by lia];
    cbn -[Z.of_nat wp link_set mcu_reset_wifi u8 Z.add].
  - apply wp_link_set, Hstop; auto.
  - apply wp_bind, wp_link_set, wp_link_set, Hstop; auto.
  - apply wp_link_set, Hstop; auto.
  - apply wp_bind, wp_link_set, wp_mcu_reset_wifi; [done|]. intros t Ht.
    apply Hgo; [done | lia | done | | done | done].
    cbn. rewrite u8_small by (unfold is_byte; lia). lia.
Qed.

Lemma periods_spec l k w (Q : unit -> World E -> Prop) :
  tx_ok (w_tx w) -> (k <= 3)%nat -> wifi_rst_timer (w_wifi w) = true ->
  Reset_WiFi_Counter (w_wifi w) = Z.of_nat k -> reset_wifi_flag (w_wifi w) = 0 ->
  (forall w', emits (resets (min (3 - k) (waiting l))) (w_tx w) (w_tx w') ->
     ((4 - k <= length l)%nat -> wifi_rst_timer (w_wifi w') = false) -> Q tt w') ->
  wp (periods l) Q w.
Proof.
  revert k w Q. induction l as [|a l IH]; intros k w Q Hw Hk Hr Hc Hf HQ.
  { apply wp_ret, HQ; [rewrite Nat.min_0_r; by apply emits_nil | cbn; lia]. }
  cbn [periods]. apply wp_bind, (wp_period a k); [done..| |].
  - intros Ha w' Hs Ht. apply stopped_stays; [by rewrite Ht | done|]. intros w'' Hs' Ht'.
    apply HQ; [|by intros]. rewrite Ht', Ht.
    replace (min (3 - k) (waiting (a :: l))) with 0%nat by (destruct Ha as [-> | ->]; cbn; lia).
    by apply emits_nil.
  - intros -> Hk' w' Hr' Hc' Hf' He. apply (IH (S k)); [apply He | lia | done..|].
    intros w'' He' Hs. apply HQ; [|intros Hl; apply Hs; cbn in Hl; lia].
    replace (resets (min (3 - k) (waiting (false :: l)))) with (resets 1 ++ resets (min (3 - S k) (waiting l))).
    + by eapply emits_app.
    + unfold resets. rewrite <- replicate_add. f_equal. cbn [waiting]. lia.
Qed.
End Reset.

(** A reset of the module is asked for once, then once per period without an
    answer but three times at most, not after an answer; after four periods the
    timer has stopped, answered or not. *)
Theorem reset_retries {E} `{Env E} (w : World E) (l : list bool) :
  world_ok w ->
  exists w', (run Reset_WiFi; periods l) w = Some (tt, w')
    /\ emits (resets (1 + min 3 (waiting l))) (w_tx w) (w_tx w')
    /\ ((4 <= length l)%nat -> wifi_rst_timer (w_wifi w') = false).
Proof.
  intros Hw. pose proof (world_tx w Hw) as Ht.
  assert (Hwp : wp (run Reset_WiFi; periods l) (fun _ w' =>
    emits (resets (1 + min 3 (waiting l))) (w_tx w) (w_tx w')
    /\ ((4 <= length l)%nat -> wifi_rst_timer (w_wifi w') = false)) w).
  { apply wp_bind, wp_bind, wp_mcu_reset_wifi; [done|]. intros t He.
    apply wp_bind, wp_link_set, wp_link_set.
    apply (periods_spec l 0); [apply He | lia | done..|]. intros w' He' Hs. split; [|exact Hs].
    apply (emits_app (resets 1) (resets (min 3 (waiting l))) _ t); [done | exact He']. }
  apply wp_Some in Hwp as ([] & w' & E' & Hp). by exists w'.
Qed.

(** ** The reported state *)

(** The connections to the cloud in a list of reports: one begins with state 4
    and ends with state 1 or 2, the configuration modes and the lost router. *)
Fixpoint sessions (open : bool) (rs : list Z) : nat :=
  match rs with
  | [] => 0
  | r :: rs' =>
      if r =? 4 then (if open then 0 else 1) + sessions true rs'
      else sessions (open && negb (r =? 1) && negb (r =? 2)) rs'
  end.

Lemma last_cons (a d : Z) l : List.last (a :: l) d = List.last l a.
Proof. revert a d. induction l as [|b l IH]; intros a d; [done|]. change (List.last (a :: b :: l) d) with (List.last (b :: l) d). by rewrite !IH. Qed.

Section Status.
Context {E : Type} `{Env E}.
Implicit Types (w : World E).

Fixpoint reports (rs : list Z) : M (World E) unit :=
  match rs with
  | [] => ret tt
  | r :: rs' => run wifi_status_change r; reports rs'
  end.

Definition list_queries (n : nat) : list msg := replicate n (MCmd QUR_SUBDEV_LIST_CMD []).

(** [open]: the connection flag is set, and was while the state is 4. *)
Definition status_is (open : bool) (r : Z) (w : World E) : Prop :=
  tx_ok (w_tx w) /\ WiFi_FactoryFlag (w_wifi w) = 0 /\ wifi_status (w_wifi w) = r
  /\ wifi_connected (w_wifi w) = (if open then 1 else 0)
  /\ (r = 4 -> open = true) /\ (r = 1 \/ r = 2 -> open = false).

Lemma wp_status_change open r r' w (Q : unit -> World E -> Prop) :
  status_is open r w ->
  (forall w', status_is (if r' =? 4 then true else open && negb (r' =? 1) && negb (r' =? 2)) r' w' ->
     emits (list_queries (sessions open [r'])) (w_tx w) (w_tx w') ->
     w_flash w' = w_flash w -> w_radio w' = w_radio w ->
     w_remote w' = (if (r' =? 4) && negb open then remote0 else w_remote w) -> Q tt w') ->
  wp (wifi_status_change r') Q w.
Proof.
  intros (Ht & Hf & Hs & Hc & H4 & H12) HQ. unfold wifi_status_change.
  apply wp_bind, wp_link. rewrite Hf. cbn [Z.eqb negb]. apply wp_bind, wp_link. rewrite Hs.
  destruct (Z.eqb_spec r r') as [<-|Hne]; cbn [negb].
  - apply wp_ret. destruct (Z.eqb_spec r 4) as [->|].
    + specialize (H4 eq_refl) as ->. apply HQ; [done | by apply emits_nil | done..].
    + assert (Eo : open && negb (r =? 1) && negb (r =? 2) = open).
      { destruct (Z.eqb_spec r 1), (Z.eqb_spec r 2); rewrite ?H12 by auto; by rewrite ?andb_true_r. }
      rewrite Eo in HQ. apply HQ; [done | | done..]. cbn [sessions].
      rewrite (proj2 (Z.eqb_neq r 4)) by done. by apply emits_nil.
  - apply wp_bind, wp_leds; [auto with gw|]. intros l. apply wp_bind, wp_link_set.
    cbn [sessions] in HQ.
    destruct (Z.eqb_spec r' 1) as [->|H1].
    { apply wp_link_set, HQ; [|by apply emits_nil|done..]. cbn [Z.eqb Pos.eqb negb]. rewrite andb_false_r.
      by split_and!. }
    destruct (Z.eqb_spec r' 2) as [->|H2].
    { apply wp_link_set, HQ; [|by apply emits_nil|done..]. cbn [Z.eqb Pos.eqb negb]. rewrite andb_false_r.
      by split_and!. }
    destruct (Z.eqb_spec r' 3) as [->|H3].
    { apply wp_ret, HQ; [|by apply emits_nil|done..]. cbn [Z.eqb Pos.eqb negb]. rewrite !andb_true_r.
      split_and!; try done. by intros [|]. }
    cbn [negb] in HQ. rewrite !andb_true_r in HQ.
    destruct (Z.eqb_spec r' 4) as [->|H4'].
    + apply wp_bind, wp_link. cbn [w_wifi set_wifi set_leds put_status wifi_connected]. rewrite Hc.
      destruct open; cbn [Z.eqb Pos.eqb].
      * apply wp_ret, HQ; [|by apply emits_nil|done..]. split_and!; try done. by intros [|].
      * apply wp_bind, wp_link_set, wp_bind, wp_on, wp_modify.
        eapply wp_says; [by apply (says_empty QUR_SUBDEV_LIST_CMD) | done|]. intros t Hemit.
        apply HQ; [|done..]. split_and!; try done; [apply Hemit | by intros [|]].
    + apply wp_ret, HQ; [|by apply emits_nil|done..]. split_and!; try done. by intros [|].
Qed.

Lemma reports_spec open r rs w (Q : unit -> World E -> Prop) :
  status_is open r w ->
  (forall w', wifi_status (w_wifi w') = List.last rs r ->
     emits (list_queries (sessions open rs)) (w_tx w) (w_tx w') ->
     w_flash w' = w_flash w -> w_radio w' = w_radio w ->
     w_remote w' = match sessions open rs with O => w_remote w | S _ => remote0 end -> Q tt w') ->
  wp (reports rs) Q w.
Proof.
  revert open r w Q. induction rs as [|r' rs IH]; intros open r w Q Hw HQ.
  { apply wp_ret, HQ; try done; [apply Hw | by apply emits_nil, Hw]. }
  cbn [reports]. apply wp_bind, (wp_status_change open r); [done|].
  intros w1 Hw1 He1 Hf1 Hr1 Hm1. eapply IH; [exact Hw1|]. intros w2 Hs2 He2 Hf2 Hr2 Hm2.
  apply HQ; [| |congruence..|].
  - by rewrite Hs2, last_cons.
  - replace (sessions open (r' :: rs))
      with (Nat.add (sessions open [r']) (sessions (if r' =? 4 then true else open && negb (r' =? 1) && negb (r' =? 2)) rs))
      by (cbn [sessions]; destruct (r' =? 4); lia).
    unfold list_queries. rewrite replicate_add. by eapply emits_app.
  - rewrite Hm2, Hm1. cbn [sessions]. destruct (r' =? 4), open; cbn [negb andb Nat.add]; try done;
      by destruct (sessions _ rs).
Qed.
End Status.

(** Whatever states the module reports after the start, it is asked for its
    list of devices once per connection to the cloud, the old list having been
    dropped, and at no other time; the last report is the state kept. *)
Theorem status_queries {E} `{Env E} (w : World E) (rs : list Z) :
  world_ok w -> WiFi_FactoryFlag (w_wifi w) = 0 ->
  wifi_status (w_wifi w) = 255 -> wifi_connected (w_wifi w) = 0 ->
  exists w', reports rs w = Some (tt, w')
    /\ wifi_status (w_wifi w') = List.last rs 255
    /\ emits (list_queries (sessions false rs)) (w_tx w) (w_tx w')
    /\ w_flash w' = w_flash w /\ w_radio w' = w_radio w
    /\ w_remote w' = match sessions false rs with O => w_remote w | S _ => remote0 end.
Proof.
  intros Hw Hf Hs Hc.
  assert (Hwp : wp (reports rs) (fun _ w' =>
    wifi_status (w_wifi w') = List.last rs 255
    /\ emits (list_queries (sessions false rs)) (w_tx w) (w_tx w')
    /\ w_flash w' = w_flash w /\ w_radio w' = w_radio w
    /\ w_remote w' = match sessions false rs with O => w_remote w | S _ => remote0 end) w).
  { apply (reports_spec false 255); [|auto]. split_and!; try done. apply Hw. }
  apply wp_Some in Hwp as ([] & w' & E' & Hp). by exists w'.
Qed.


Lemma reset_retries_witness :
  exists w', (run Reset_WiFi; periods [false; true; false; false]) demo = Some (tt, w')
    /\ emits (resets 2) (w_tx demo) (w_tx w') /\ wifi_rst_timer (w_wifi w') = false.
Proof.
  destruct (reset_retries demo [false; true; false; false] demo_ok) as (w' & E & He & Hs).
  exists w'. split; [exact E|]. split; [exact He | apply Hs; cbn; lia].
Defined.

Lemma status_queries_witness :
  exists w', reports [1; 4; 3; 4; 2; 4] demo = Some (tt, w')
    /\ wifi_status (w_wifi w') = 4 /\ emits (list_queries 2) (w_tx demo) (w_tx w').
Proof.
  destruct (status_queries demo [1; 4; 3; 4; 2; 4] demo_ok) as (w' & E & Hs & He & _); try (vm_compute; reflexivity).
  exists w'. split; [exact E|]. split; [exact Hs | exact He].
Defined.
