(* ===== verification/Button.v ===== *)
(** * The two buttons

    [src/applications/device.c]: the callbacks the button package calls for K0 and
    K1 (clicked, a long press reported once more, released after a long press), which
    count and release semaphores; [src/applications/key.c]: the thread that takes
    them.  The package itself is in Debounce. *)

From Stdlib Require Import String.
From S2P Require Import Prelude CStr McuTx Json Cloud Flashwork RadioQueue Led World WifiApi WifiSpec Safe Decoder Link.
Open Scope list_scope.

(** The counters, the flags, and the counts of the semaphores. *)
Record Keys := mkKeys {
  K0_Long_Sem_Counter : Z; K1_Long_Sem_Counter : Z;
  K0_OnceFlag : Z; K1_OnceFlag : Z; K0_K1_OnceFlag : Z;
  K0_Sem : Z; K0_Long_Sem : Z; K1_Sem : Z; K1_Long_Sem : Z; K0_K1_Long_Sem : Z
}.

Definition keys0 : Keys := mkKeys 0 0 0 0 0 0 0 0 0 0.

Section Setters.
Context (k : Keys).
Definition put_counter0 v := mkKeys v (K1_Long_Sem_Counter k) (K0_OnceFlag k) (K1_OnceFlag k) (K0_K1_OnceFlag k) (K0_Sem k) (K0_Long_Sem k) (K1_Sem k) (K1_Long_Sem k) (K0_K1_Long_Sem k).
Definition put_counter1 v := mkKeys (K0_Long_Sem_Counter k) v (K0_OnceFlag k) (K1_OnceFlag k) (K0_K1_OnceFlag k) (K0_Sem k) (K0_Long_Sem k) (K1_Sem k) (K1_Long_Sem k) (K0_K1_Long_Sem k).
Definition put_once0 v := mkKeys (K0_Long_Sem_Counter k) (K1_Long_Sem_Counter k) v (K1_OnceFlag k) (K0_K1_OnceFlag k) (K0_Sem k) (K0_Long_Sem k) (K1_Sem k) (K1_Long_Sem k) (K0_K1_Long_Sem k).
Definition put_once1 v := mkKeys (K0_Long_Sem_Counter k) (K1_Long_Sem_Counter k) (K0_OnceFlag k) v (K0_K1_OnceFlag k) (K0_Sem k) (K0_Long_Sem k) (K1_Sem k) (K1_Long_Sem k) (K0_K1_Long_Sem k).
Definition put_once01 v := mkKeys (K0_Long_Sem_Counter k) (K1_Long_Sem_Counter k) (K0_OnceFlag k) (K1_OnceFlag k) v (K0_Sem k) (K0_Long_Sem k) (K1_Sem k) (K1_Long_Sem k) (K0_K1_Long_Sem k).
Definition put_sem0 v := mkKeys (K0_Long_Sem_Counter k) (K1_Long_Sem_Counter k) (K0_OnceFlag k) (K1_OnceFlag k) (K0_K1_OnceFlag k) v (K0_Long_Sem k) (K1_Sem k) (K1_Long_Sem k) (K0_K1_Long_Sem k).
Definition put_long0 v := mkKeys (K0_Long_Sem_Counter k) (K1_Long_Sem_Counter k) (K0_OnceFlag k) (K1_OnceFlag k) (K0_K1_OnceFlag k) (K0_Sem k) v (K1_Sem k) (K1_Long_Sem k) (K0_K1_Long_Sem k).
Definition put_sem1 v := mkKeys (K0_Long_Sem_Counter k) (K1_Long_Sem_Counter k) (K0_OnceFlag k) (K1_OnceFlag k) (K0_K1_OnceFlag k) (K0_Sem k) (K0_Long_Sem k) v (K1_Long_Sem k) (K0_K1_Long_Sem k).
Definition put_long1 v := mkKeys (K0_Long_Sem_Counter k) (K1_Long_Sem_Counter k) (K0_OnceFlag k) (K1_OnceFlag k) (K0_K1_OnceFlag k) (K0_Sem k) (K0_Long_Sem k) (K1_Sem k) v (K0_K1_Long_Sem k).
Definition put_long01 v := mkKeys (K0_Long_Sem_Counter k) (K1_Long_Sem_Counter k) (K0_OnceFlag k) (K1_OnceFlag k) (K0_K1_OnceFlag k) (K0_Sem k) (K0_Long_Sem k) (K1_Sem k) (K1_Long_Sem k) v.
End Setters.

(** [rt_sem_release]: the count is 16 bits wide and stays at its end. *)
Definition sem_release (v : Z) : Z := if v <? 65535 then v + 1 else v.
(** [rt_sem_take(_, 0)]: taken, and the count. *)
Definition sem_take (v : Z) : bool * Z := if 0 <? v then (true, v - 1) else (false, v).

(** ** The callbacks *)

Definition K0_Sem_Release (k : Keys) : Keys := put_sem0 k (sem_release (K0_Sem k)).
Definition K1_Sem_Release (k : Keys) : Keys := put_sem1 k (sem_release (K1_Sem k)).

Definition K0_Factory_Kick : M Leds unit := beep_kick.
Definition K1_Factory_Kick : M Leds unit := beep_kick.

(** The counters are incremented in the argument of [LOG_D], which this build
    evaluates. *)
Definition K0_LongSem_Release (k : Keys) : Keys :=
  if K0_OnceFlag k =? 0 then
    if 6 <? K0_Long_Sem_Counter k then
      if K1_Long_Sem_Counter k =? 0 then
        let k := put_once0 k 1 in put_long0 k (sem_release (K0_Long_Sem k))
      else k
    else put_counter0 k (u16 (K0_Long_Sem_Counter k + 1))
  else k.

Definition K1_LongSem_Release (k : Keys) : Keys :=
  if K1_OnceFlag k =? 0 then
    if 6 <? K1_Long_Sem_Counter k then
      let k := put_once1 k 1 in
      if 5 <? K0_Long_Sem_Counter k then put_long01 k (sem_release (K0_K1_Long_Sem k))
      else put_long1 k (sem_release (K1_Long_Sem k))
    else put_counter1 k (u16 (K1_Long_Sem_Counter k + 1))
  else k.

Definition k0_K1_LongSem_Release (k : Keys) : Keys :=
  if K0_K1_OnceFlag k =? 0 then
    let k := put_once01 k 1 in put_long01 k (sem_release (K0_K1_Long_Sem k))
  else k.

Definition K0_LongFree_Release (k : Keys) : Keys :=
  put_counter0 (put_once01 (put_once0 k 0) 0) 0.
Definition K1_LongFree_Release (k : Keys) : Keys := put_counter1 (put_once1 k 0) 0.

(** Not called by anything. *)
Definition Detect_KO_K1 (k : Keys) : Keys :=
  if (5 <? K1_Long_Sem_Counter k) && (5 <? K0_Long_Sem_Counter k) then
    k0_K1_LongSem_Release (put_once1 (put_once0 k 1) 1)
  else k.

(** The levels of the two pins; pressed is low. *)
Definition factory_button_detect (Key0_PIN Key1_PIN : Z) : Z :=
  if (Key0_PIN =? 0) && (Key1_PIN =? 0) then 1 else 0.

(** ** The thread *)

(** [ef_env_set_default] erases the store and writes the default entries of
    [src/storage/ef_fal_port.c]. *)
Definition default_env_set : list (list Z * list Z) := [(str "boot_times", str "0")].

Fixpoint default_value (l : list (list Z * list Z)) (k : list Z) : option (list Z) :=
  match l with
  | [] => None
  | (x, v) :: l' => if decide (x = k) then Some v else default_value l' k
  end.

Class EnvDefault (E : Type) `{Env E} := {
  env_default : E -> E;
  env_get_default e k : env_get (env_default e) k = default_value default_env_set k
}.

#[export] Instance gmap_env_default : EnvDefault (gmap (list Z) (list Z)).
Proof.
  refine {| env_default _ := {[str "boot_times" := str "0"]} |}.
  intros _ k. cbn [env_get gmap_env default_value default_env_set].
  destruct (decide (str "boot_times" = k)) as [<-|Hne]; [apply lookup_singleton_eq | by apply lookup_singleton_ne].
Defined.

Section Thread.
Context {E : Type} `{EnvDefault E}.

Definition ef_env_set_default : M (World E) unit :=
  on (modify (fun f : Flash E => mkFlash (Global_Device f) (env_default (env f)))).

Definition take_all (k : Keys) : (bool * bool * bool * bool * bool) * Keys :=
  let '(k0, k) := let '(b, v) := sem_take (K0_Sem k) in (b, put_sem0 k v) in
  let '(l0, k) := let '(b, v) := sem_take (K0_Long_Sem k) in (b, put_long0 k v) in
  let '(k1, k) := let '(b, v) := sem_take (K1_Sem k) in (b, put_sem1 k v) in
  let '(l1, k) := let '(b, v) := sem_take (K1_Long_Sem k) in (b, put_long1 k v) in
  let '(l01, k) := let '(b, v) := sem_take (K0_K1_Long_Sem k) in (b, put_long01 k v) in
  ((k0, l0, k1, l1, l01), k).

(** One turn of the loop: what it does with the semaphores it took. *)
Definition key_action (taken : bool * bool * bool * bool * bool) : M (World E) unit :=
  let '(k0, l0, k1, l1, l01) := taken in
  if k0 : bool then ret tt
  else if k1 : bool then ret tt
  else if l01 : bool then
    run on (beep_start 5);
    run ef_env_set_default;
    on reset_factory_setting
  else if l0 : bool then on Start_Learn
  else if l1 : bool then
    run Reset_WiFi;
    on (beep_start 3)
  else ret tt.

Definition Key_Reponse_turn : M (Keys * World E) unit :=
  do s <- get;
  let '(taken, k) := take_all (fst s) in
  run modify (fun s => (k, snd s));
  zoom snd (fun w s => (fst s, w)) (key_action taken).
End Thread.

(** ** Gestures *)

(** The calls of the button package. *)
Inductive press := Down0 | Down1 | Long0 | Long1 | Free0 | Free1.

Definition on_press (e : press) (k : Keys) : Keys :=
  match e with
  | Down0 => K0_Sem_Release k
  | Down1 => K1_Sem_Release k
  | Long0 => K0_LongSem_Release k
  | Long1 => K1_LongSem_Release k
  | Free0 => K0_LongFree_Release k
  | Free1 => K1_LongFree_Release k
  end.

(** The long presses reported of each button, and whether K0 has already had its effect. *)
Record hold := mkHold { held0 : nat; held1 : nat; fired : bool }.
Definition hold0 : hold := mkHold 0 0 false.

Inductive gesture := LearnGesture | WifiGesture | FactoryGesture.

(** Eight reports of K0 alone; eight of K1, without K0 or after six of it. *)
Definition gesture_of (e : press) (h : hold) : option gesture :=
  match e with
  | Long0 => if (7 <=? held0 h)%nat && (held1 h =? 0)%nat && negb (fired h) then Some LearnGesture else None
  | Long1 => if (held1 h =? 7)%nat then Some (if (6 <=? held0 h)%nat then FactoryGesture else WifiGesture) else None
  | _ => None
  end.

Definition hold_step (e : press) (h : hold) : hold :=
  match e with
  | Down0 | Down1 => h
  | Long0 => mkHold (S (held0 h)) (held1 h)
               (match gesture_of e h with Some _ => true | None => fired h end)
  | Long1 => mkHold (held0 h) (S (held1 h)) (fired h)
  | Free0 => mkHold 0 (held1 h) false
  | Free1 => mkHold (held0 h) 0 (fired h)
  end.

(** The semaphores of the gestures. *)
Definition gesture_sem (g : gesture) (k : Keys) : Z :=
  match g with
  | LearnGesture => K0_Long_Sem k
  | WifiGesture => K1_Long_Sem k
  | FactoryGesture => K0_K1_Long_Sem k
  end.

#[export] Instance gesture_eq_dec : EqDecision gesture.
Proof. solve_decision. Defined.

Definition represents (h : hold) (k : Keys) : Prop :=
  K0_Long_Sem_Counter k = Z.of_nat (min 7 (held0 h))
  /\ K1_Long_Sem_Counter k = Z.of_nat (min 7 (held1 h))
  /\ K0_OnceFlag k = (if fired h then 1 else 0)
  /\ K1_OnceFlag k = (if (8 <=? held1 h)%nat then 1 else 0)
  /\ (fired h = true -> (8 <= held0 h)%nat).

(** Arithmetic on the counters. *)
Ltac hold_lia :=
  cbn [K0_Long_Sem_Counter K1_Long_Sem_Counter K0_OnceFlag K1_OnceFlag put_counter0 put_counter1
       put_once0 put_once1 put_long0 put_long1 put_long01 held0 held1 fired] in *; lia.

Lemma press_simulates e h k :
  represents h k ->
  represents (hold_step e h) (on_press e k)
  /\ forall g, gesture_sem g (on_press e k)
     = (if decide (gesture_of e h = Some g) then sem_release (gesture_sem g k) else gesture_sem g k).
Proof.
  destruct h as [h0 h1 f], k as [c0 c1 o0 o1 o01 s0 l0 s1 l1 l01].
  unfold represents. cbn [held0 held1 fired K0_Long_Sem_Counter K1_Long_Sem_Counter K0_OnceFlag K1_OnceFlag].
  intros (-> & -> & -> & -> & Hf).
  destruct e; cbn [on_press hold_step gesture_of held0 held1 fired].
  - split; [by split_and!|]. intros []; by rewrite decide_False.
  - split; [by split_and!|]. intros []; by rewrite decide_False.
  - unfold K0_LongSem_Release. cbn [K0_OnceFlag K0_Long_Sem_Counter K1_Long_Sem_Counter].
    destruct f.
    { cbn [Z.eqb negb]. rewrite !andb_false_r. split; [|intros []; by rewrite decide_False].
      specialize (Hf eq_refl). split_and!; try done; hold_lia. }
    cbn [Z.eqb negb]. rewrite andb_true_r.
    destruct (Nat.leb_spec 7 h0) as [H7|H7].
    + rewrite (proj2 (Z.ltb_lt 6 _)) by lia.
      destruct (Nat.eqb_spec h1 0) as [->|H1]; cbn [andb].
      * change (Z.of_nat (7 `min` 0) =? 0) with true. cbv beta iota zeta.
        split; [split_and!; try done; hold_lia|]. intros []; [by rewrite decide_True | by rewrite decide_False..].
      * rewrite (proj2 (Z.eqb_neq _ 0)) by lia.
        split; [split_and!; try done; hold_lia|]. intros []; by rewrite decide_False.
    + rewrite (proj2 (Z.ltb_ge 6 _)) by lia. cbn [andb].
      split; [|intros []; by rewrite decide_False].
      split_and!; try done. cbn [K0_Long_Sem_Counter put_counter0 held0]. rewrite u16_small by lia. lia.
  - unfold K1_LongSem_Release. cbn [K1_OnceFlag K0_Long_Sem_Counter K1_Long_Sem_Counter].
    destruct (Nat.leb_spec 8 h1) as [H8|H8]; cbn [Z.eqb].
    { rewrite (proj2 (Nat.eqb_neq h1 7)) by lia. split; [|intros []; by rewrite decide_False].
      split_and!; try done; cbn [K1_Long_Sem_Counter K1_OnceFlag held1]; [lia|].
      by rewrite (proj2 (Nat.leb_le 8 (S h1))) by lia. }
    destruct (Nat.eqb_spec h1 7) as [->|H7].
    + change (6 <? Z.of_nat (7 `min` 7)) with true. cbn [put_once1 K0_Long_Sem_Counter].
      destruct (Nat.leb_spec 6 h0) as [H6|H6].
      * rewrite (proj2 (Z.ltb_lt 5 _)) by lia. split; [by split_and!|].
        intros []; [by rewrite decide_False..|by rewrite decide_True].
      * rewrite (proj2 (Z.ltb_ge 5 _)) by lia. split; [by split_and!|].
        intros []; [by rewrite decide_False|by rewrite decide_True|by rewrite decide_False].
    + rewrite (proj2 (Z.ltb_ge 6 _)) by lia. split; [|intros []; by rewrite decide_False].
      split_and!; try done; cbn [K1_Long_Sem_Counter K1_OnceFlag put_counter1 held1].
      * rewrite u16_small by lia. lia.
      * by rewrite (proj2 (Nat.leb_gt 8 (S h1))) by lia.
  - split; [by split_and!|]. intros []; by rewrite decide_False.
  - split; [by split_and!|]. intros []; by rewrite decide_False.
Qed.

Definition keys_after (tr : list press) : Keys := fold_left (fun k e => on_press e k) tr keys0.
Definition hold_after (tr : list press) : hold := fold_left (fun h e => hold_step e h) tr hold0.

Lemma keys_represent tr : represents (hold_after tr) (keys_after tr).
Proof.
  unfold hold_after, keys_after.
  assert (H : represents hold0 keys0) by (by split_and!). revert H. generalize hold0 keys0.
  induction tr as [|e tr IH]; intros h k Hr; [done|]. apply IH, press_simulates, Hr.
Qed.

(** After any history of the buttons, the next call releases the semaphore of
    a gesture exactly when the specification recognises that gesture: learning
    for K0 held alone, resetting the module for K1 held, the factory reset only
    when both are held, each once per hold. *)
Theorem gestures_recognised (tr : list press) (e : press) (g : gesture) :
  gesture_sem g (keys_after (tr ++ [e]))
  = (if decide (gesture_of e (hold_after tr) = Some g)
     then sem_release (gesture_sem g (keys_after tr)) else gesture_sem g (keys_after tr)).
Proof.
  unfold keys_after at 1. rewrite fold_left_app. cbn [fold_left]. fold (keys_after tr).
  apply press_simulates, keys_represent.
Qed.

(** ** What a turn of the thread does *)

Definition learn_entry : Entry := mkEntry 0 99999999 0 1 3 1.

Definition drained (k : Keys) : Keys :=
  let down v := snd (sem_take v) in
  mkKeys (K0_Long_Sem_Counter k) (K1_Long_Sem_Counter k) (K0_OnceFlag k) (K1_OnceFlag k) (K0_K1_OnceFlag k)
    (down (K0_Sem k)) (down (K0_Long_Sem k)) (down (K1_Sem k)) (down (K1_Long_Sem k)) (down (K0_K1_Long_Sem k)).

Section Turn.
Context {E : Type} `{EnvDefault E}.
Implicit Types (w : World E).

(** The effect of a gesture on the program. *)
Definition gesture_effect (g : option gesture) (w w' : World E) : Prop :=
  match g with
  | None => w' = w
  | Some FactoryGesture =>
      env (w_flash w') = env_default (env (w_flash w))
      /\ Global_Device (w_flash w') = Global_Device (w_flash w)
      /\ emits [MCmd FACTORY_SET_CMD []] (w_tx w) (w_tx w') /\ w_radio w' = w_radio w
  | Some LearnGesture =>
      w' = set_radio (set_air (air (w_radio w) ++ [radio_packet (Self_Id (w_radio w)) learn_entry]) (w_radio w)) w
  | Some WifiGesture =>
      emits (resets 1) (w_tx w) (w_tx w') /\ wifi_rst_timer (w_wifi w') = true
      /\ Reset_WiFi_Counter (w_wifi w') = 0 /\ w_flash w' = w_flash w /\ w_radio w' = w_radio w
  end.

(** A short press, or another gesture before it in the order, hides a gesture. *)
Definition acted (k : Keys) : option gesture :=
  if (0 <? K0_Sem k) || (0 <? K1_Sem k) then None
  else if 0 <? K0_K1_Long_Sem k then Some FactoryGesture
  else if 0 <? K0_Long_Sem k then Some LearnGesture
  else if 0 <? K1_Long_Sem k then Some WifiGesture
  else None.

Lemma take_all_spec k :
  take_all k = ((0 <? K0_Sem k, 0 <? K0_Long_Sem k, 0 <? K1_Sem k, 0 <? K1_Long_Sem k, 0 <? K0_K1_Long_Sem k),
                drained k).
Proof using.
  destruct k. unfold take_all, drained, sem_take. cbn.
  repeat (case_match; cbn in *; simplify_eq; try done).
Qed.

Lemma key_action_spec g taken w :
  world_ok w ->
  (let '(k0, l0, k1, l1, l01) := taken in
   g = if k0 || k1 : bool then None else if l01 : bool then Some FactoryGesture
       else if l0 : bool then Some LearnGesture else if l1 : bool then Some WifiGesture else None) ->
  wp (key_action taken) (fun _ w' => gesture_effect g w w') w.
Proof.
  intros Hw. pose proof (world_tx w Hw) as Ht.
  destruct taken as [[[[k0 l0] k1] l1] l01]. intros ->. cbn [key_action].
  destruct k0; [by apply wp_ret|]. destruct k1; [by apply wp_ret|]. cbn [orb].
  destruct l01; [|destruct l0; [|destruct l1]].
  - apply wp_bind, wp_leds; [apply led_all_appends|]. intros l.
    apply wp_bind, wp_on, wp_modify.
    eapply wp_says; [by apply (says_empty FACTORY_SET_CMD) | done|]. intros t He. by split_and!.
  - apply wp_on. unfold wp. cbn [view over lens_radio].
    change Start_Learn with (send_entry learn_entry). rewrite send_entry_spec; [done|].
    unfold entry_ok, learn_entry, is_byte; cbn; lia.
  - apply wp_bind, wp_bind, wp_mcu_reset_wifi; [done|]. intros t He.
    apply wp_bind, wp_link_set, wp_link_set, wp_leds; [apply led_all_appends|]. intros l. by split_and!.
  - by apply wp_ret.
Qed.
End Turn.

(** A turn of the key thread takes every semaphore that was released and does
    the one thing that comes first: nothing when a short press is among them,
    else the factory reset, else learning, else resetting the module; what else
    it took is lost. *)
Theorem key_turn_acts {E} `{EnvDefault E} (k : Keys) (w : World E) :
  world_ok w ->
  exists w', Key_Reponse_turn (k, w) = Some (tt, (drained k, w')) /\ gesture_effect (acted k) w w'.
Proof.
  intros Hw. unfold Key_Reponse_turn, bind, get, modify, zoom. cbn [fst snd]. rewrite take_all_spec.
  cbn [snd fst].
  pose proof (key_action_spec (acted k) (0 <? K0_Sem k, 0 <? K0_Long_Sem k, 0 <? K1_Sem k,
    0 <? K1_Long_Sem k, 0 <? K0_K1_Long_Sem k) w Hw eq_refl) as Hwp.
  apply wp_Some in Hwp as ([] & w' & -> & He). by exists w'.
Qed.

Definition held_both : Keys := keys_after (replicate 7 Long0 ++ replicate 8 Long1).

Lemma held_both_acts : acted held_both = Some FactoryGesture.
Proof. by vm_compute. Qed.

Lemma key_turn_acts_witness :
  exists w', Key_Reponse_turn (held_both, demo) = Some (tt, (drained held_both, w'))
    /\ gesture_effect (Some FactoryGesture) demo w'.
Proof.
  destruct (key_turn_acts held_both demo demo_ok) as (w' & Hrun & He). exists w'.
  split; [exact Hrun|]. rewrite held_both_acts in He. exact He.
Defined.
