(* ===== verification/Debounce.v ===== *)
(** * The button package

    [src/packages/button-v1.0.1/button.c] in the configuration of [rtconfig.h], and
    the thread of [src/applications/device.c] that runs it: every 10 ms the level
    of each pin is sampled, and clicks, long presses and their ends are reported
    to the callbacks of Button. *)

From Stdlib Require Import String.
From S2P Require Import Prelude Flashwork Button.
Open Scope list_scope.

Definition BUTTON_DEBOUNCE_TIME := 1.
Definition BUTTON_LONG_CYCLE := 25.
Definition BUTTON_DOUBLE_TIME := 15.
Definition BUTTON_LONG_TIME := 200.

Definition BUTTON_DOWM := 0.
Definition BUTTON_UP := 1.
Definition BUTTON_DOUBLE := 2.
Definition BUTTON_LONG := 3.
Definition BUTTON_LONG_FREE := 4.
Definition NONE_TRIGGER := 9.

Record Button_t := mkButton {
  Button_State : Z; Button_Last_State : Z; Button_Trigger_Level : Z; Button_Last_Level : Z;
  Button_Trigger_Event : Z; Button_Cycle : Z; Timer_Count : Z; Debounce_Time : Z;
  Long_Time : Z; Long_Flag : Z
}.

Definition put_State v b := mkButton v (Button_Last_State b) (Button_Trigger_Level b) (Button_Last_Level b) (Button_Trigger_Event b) (Button_Cycle b) (Timer_Count b) (Debounce_Time b) (Long_Time b) (Long_Flag b).
Definition put_Last_State v b := mkButton (Button_State b) v (Button_Trigger_Level b) (Button_Last_Level b) (Button_Trigger_Event b) (Button_Cycle b) (Timer_Count b) (Debounce_Time b) (Long_Time b) (Long_Flag b).
Definition put_Last_Level v b := mkButton (Button_State b) (Button_Last_State b) (Button_Trigger_Level b) v (Button_Trigger_Event b) (Button_Cycle b) (Timer_Count b) (Debounce_Time b) (Long_Time b) (Long_Flag b).
Definition put_Event v b := mkButton (Button_State b) (Button_Last_State b) (Button_Trigger_Level b) (Button_Last_Level b) v (Button_Cycle b) (Timer_Count b) (Debounce_Time b) (Long_Time b) (Long_Flag b).
Definition put_Cycle v b := mkButton (Button_State b) (Button_Last_State b) (Button_Trigger_Level b) (Button_Last_Level b) (Button_Trigger_Event b) v (Timer_Count b) (Debounce_Time b) (Long_Time b) (Long_Flag b).
Definition put_Timer v b := mkButton (Button_State b) (Button_Last_State b) (Button_Trigger_Level b) (Button_Last_Level b) (Button_Trigger_Event b) (Button_Cycle b) v (Debounce_Time b) (Long_Time b) (Long_Flag b).
Definition put_Debounce v b := mkButton (Button_State b) (Button_Last_State b) (Button_Trigger_Level b) (Button_Last_Level b) (Button_Trigger_Event b) (Button_Cycle b) (Timer_Count b) v (Long_Time b) (Long_Flag b).
Definition put_Long_Time v b := mkButton (Button_State b) (Button_Last_State b) (Button_Trigger_Level b) (Button_Last_Level b) (Button_Trigger_Event b) (Button_Cycle b) (Timer_Count b) (Debounce_Time b) v (Long_Flag b).
Definition put_Long_Flag v b := mkButton (Button_State b) (Button_Last_State b) (Button_Trigger_Level b) (Button_Last_Level b) (Button_Trigger_Event b) (Button_Cycle b) (Timer_Count b) (Debounce_Time b) (Long_Time b) v.

Definition Button_Create (btn_trigger_level : Z) : Button_t :=
  mkButton NONE_TRIGGER NONE_TRIGGER btn_trigger_level 1 NONE_TRIGGER 0 0 0 0 0.

Section Cycle.
(** [CallBack_Function]: what the callback of an event does; nothing when none is
    attached. *)
Context {K : Type} (CallBack_Function : Z -> K -> K).
Abbreviation BM := (M (Button_t * K)).

Definition btn {A} (f : Button_t -> A) : BM A := gets (fun s => f (fst s)).
Definition set_btn (f : Button_t -> Button_t) : BM unit := modify (fun s => (f (fst s), snd s)).
Definition TRIGGER_CB (event : Z) : BM unit := modify (fun s => (fst s, CallBack_Function event (snd s))).

(** The level has changed. *)
Definition level_changed (current_level : Z) : BM unit :=
  run set_btn (put_Last_Level current_level);
  run set_btn (put_Debounce 0);
  do st <- btn Button_State;
  if (st =? NONE_TRIGGER) || (st =? BUTTON_DOUBLE) then set_btn (put_State BUTTON_DOWM)
  else if st =? BUTTON_DOWM then set_btn (put_State BUTTON_UP)
  else ret tt.

Definition button_down : BM unit :=
  do l <- btn Button_Last_Level;
  do t <- btn Button_Trigger_Level;
  if l =? t then
    run set_btn (put_Event BUTTON_DOWM);
    do n <- btn Long_Time;
    let n := u8 (n + 1) in
    run set_btn (put_Long_Time n);
    if BUTTON_LONG_TIME <=? n then
      do c <- btn Button_Cycle;
      let c := u8 (c + 1) in
      run set_btn (put_Cycle c);
      run (if BUTTON_LONG_CYCLE <=? c then
             run set_btn (put_Cycle 0);
             run set_btn (put_Event BUTTON_LONG);
             run TRIGGER_CB BUTTON_LONG;
             set_btn (put_Long_Flag 1)
           else ret tt);
      do n <- btn Long_Time;
      if n =? 0xFF then set_btn (put_Long_Time BUTTON_LONG_TIME) else ret tt
    else ret tt
  else ret tt.

Definition button_up : BM unit :=
  do f <- btn Long_Flag;
  do e <- btn Button_Trigger_Event;
  if negb (f =? 0) then
    run set_btn (put_Long_Flag 0);
    run TRIGGER_CB BUTTON_LONG_FREE;
    run set_btn (put_Long_Time 0);
    run set_btn (put_State NONE_TRIGGER);
    set_btn (put_Last_State BUTTON_LONG)
  else if e =? BUTTON_DOWM then
    do t <- btn Timer_Count;
    do ls <- btn Button_Last_State;
    if (t <=? BUTTON_DOUBLE_TIME) && (ls =? BUTTON_DOUBLE) then
      run set_btn (put_Event BUTTON_DOUBLE);
      run TRIGGER_CB BUTTON_DOUBLE;
      run set_btn (put_State NONE_TRIGGER);
      set_btn (put_Last_State NONE_TRIGGER)
    else
      run set_btn (put_Timer 0);
      run set_btn (put_Long_Time 0);
      run TRIGGER_CB BUTTON_DOWM;
      run set_btn (put_State BUTTON_DOUBLE);
      set_btn (put_Last_State BUTTON_DOUBLE)
  else ret tt.

Definition button_double : BM unit :=
  do t <- btn Timer_Count;
  let t := u8 (t + 1) in
  run set_btn (put_Timer t);
  if BUTTON_DOUBLE_TIME <=? t then
    run set_btn (put_State NONE_TRIGGER);
    set_btn (put_Last_State NONE_TRIGGER)
  else ret tt.

(** [current_level] is what [Read_Button_Level] answers. *)
Definition Button_Cycle_Process (current_level : Z) : BM unit :=
  do l <- btn Button_Last_Level;
  run (if negb (current_level =? l) then
         do d <- btn Debounce_Time;
         let d := u8 (d + 1) in
         run set_btn (put_Debounce d);
         if BUTTON_DEBOUNCE_TIME <=? d then level_changed current_level else ret tt
       else ret tt);
  do st <- btn Button_State;
  if st =? BUTTON_DOWM then button_down
  else if st =? BUTTON_UP then button_up
  else if st =? BUTTON_DOUBLE then button_double
  else ret tt.

Fixpoint samples (ls : list Z) : BM unit :=
  match ls with
  | [] => ret tt
  | l :: ls => run Button_Cycle_Process l; samples ls
  end.
End Cycle.

(** ** The two buttons *)

(** The callbacks [button_Init] attaches. *)
Definition Key0_CallBack (event : Z) (k : Keys) : Keys :=
  if event =? BUTTON_DOWM then on_press Down0 k
  else if event =? BUTTON_LONG then on_press Long0 k
  else if event =? BUTTON_LONG_FREE then on_press Free0 k
  else k.
Definition Key1_CallBack (event : Z) (k : Keys) : Keys :=
  if event =? BUTTON_DOWM then on_press Down1 k
  else if event =? BUTTON_LONG then on_press Long1 k
  else if event =? BUTTON_LONG_FREE then on_press Free1 k
  else k.

Record Panel := mkPanel { Key0 : Button_t; Key1 : Button_t; panel_keys : Keys }.

Definition button_Init : Panel := mkPanel (Button_Create 0) (Button_Create 0) keys0.

(** The list of buttons begins with the one created last. *)
Definition Button_Process (level0 level1 : Z) : M Panel unit :=
  run zoom (fun p => (Key1 p, panel_keys p)) (fun s p => mkPanel (Key0 p) (fst s) (snd s))
        (Button_Cycle_Process Key1_CallBack level1);
  zoom (fun p => (Key0 p, panel_keys p)) (fun s p => mkPanel (fst s) (Key1 p) (snd s))
        (Button_Cycle_Process Key0_CallBack level0).

(** The thread, over so many periods. *)
Fixpoint button_task_entry (levels : list (Z * Z)) : M Panel unit :=
  match levels with
  | [] => ret tt
  | (l0, l1) :: levels => run Button_Process l0 l1; button_task_entry levels
  end.

Example click_and_hold :
  samples (fun e l => l ++ [e]) (repeat 0 10 ++ [1] ++ repeat 1 20 ++ repeat 0 249 ++ [1]) (Button_Create 0, [])
  = Some (tt, (put_Last_State BUTTON_LONG (put_Timer 15 (put_Event BUTTON_LONG (Button_Create 0))), [0; 3; 3; 4])).
Proof. vm_compute. reflexivity. Qed.

(** ** What a button reports *)

(** Up, with the periods since a click while another would make it a double click;
    down, as the second of a double click or not, after a report of a long press or
    not.  Both with the periods counted as held, which the end of a double click does not
    clear, and with those counted towards the next report of a long press, which only a
    report clears. *)
Inductive phase := Up (since : option nat) (held cycle : nat) | Down (second long : bool) (held cycle : nat).

Definition press (second long : bool) (held cycle : nat) : phase * list Z :=
  if (200 <=? held)%nat then
    if (24 <=? cycle)%nat then (Down second true held 0, [BUTTON_LONG]) else (Down second long held (S cycle), [])
  else (Down second long held cycle, []).

Definition phase_step (low : bool) (ph : phase) : phase * list Z :=
  match ph, low with
  | Up w n y, false => (Up (match w with Some t => if (14 <=? t)%nat then None else Some (S t) | None => None end) n y, [])
  | Up w n y, true => press (match w with Some _ => true | None => false end) false (S n) y
  | Down d f n y, true => press d f (S n) y
  | Down d f n y, false =>
      if f then (Up None 0 y, [BUTTON_LONG_FREE])
      else if d then (Up None n y, [BUTTON_DOUBLE]) else (Up (Some 0%nat) 0 y, [BUTTON_DOWM])
  end.

(** [Long_Time] counts to the time of a long press and then runs round above it. *)
Definition counts (n : nat) (v : Z) : Prop := if (200 <=? n)%nat then 200 <= v < 255 else v = Z.of_nat n.

Definition in_phase (ph : phase) (b : Button_t) : Prop :=
  Button_Trigger_Level b = 0 /\ Debounce_Time b = 0
  /\ match ph with
     | Up w n y =>
         Button_Last_Level b = 1 /\ Long_Flag b = 0 /\ counts n (Long_Time b) /\ Button_Cycle b = Z.of_nat y /\ (y < 25)%nat
         /\ match w with
            | Some t => Button_State b = BUTTON_DOUBLE /\ Button_Last_State b = BUTTON_DOUBLE
                        /\ Timer_Count b = Z.of_nat t /\ (t < 15)%nat
            | None => Button_State b = NONE_TRIGGER /\ Button_Last_State b <> BUTTON_DOUBLE
            end
     | Down d f n y =>
         Button_Last_Level b = 0 /\ Button_State b = BUTTON_DOWM /\ counts n (Long_Time b) /\ Button_Cycle b = Z.of_nat y /\ (y < 25)%nat
         /\ (if f : bool then Long_Flag b = 1 else Long_Flag b = 0 /\ Button_Trigger_Event b = BUTTON_DOWM)
         /\ (if d : bool then Button_Last_State b = BUTTON_DOUBLE /\ Timer_Count b <= 15
             else Button_Last_State b <> BUTTON_DOUBLE)
     end.

Lemma created_up : in_phase (Up None 0 0) (Button_Create 0).
Proof. repeat split; try lia. discriminate. Qed.

Ltac bsimpl := cbn [fst snd put_State put_Last_State put_Last_Level put_Event put_Cycle put_Timer put_Debounce
  put_Long_Time put_Long_Flag Button_State Button_Last_State Button_Trigger_Level Button_Last_Level
  Button_Trigger_Event Button_Cycle Timer_Count Debounce_Time Long_Time Long_Flag] in *.
Lemma counts_next n v : counts n v -> u8 (v + 1) = v + 1 /\ (if (200 <=? S n)%nat then 200 <= v + 1 <= 255 else v + 1 = Z.of_nat (S n)).
Proof.
  unfold counts. intros Hv. assert (Hb : is_byte (v + 1)) by (unfold is_byte; destruct (Nat.leb_spec 200 n); lia).
  split; [by apply u8_small|]. destruct (Nat.leb_spec 200 n), (Nat.leb_spec 200 (S n)); lia.
Qed.

(** Assignments, one after the other. *)
Ltac assigns := repeat (apply wp_bind, wp_modify; bsimpl).

Section Reports.
Context {K : Type} (cb : Z -> K -> K).
Implicit Types (b : Button_t) (k : K).

Definition reported (es : list Z) k : K := fold_left (fun k e => cb e k) es k.

Lemma wp_button_down d f n y b k (Q : unit -> Button_t * K -> Prop) :
  Button_Trigger_Level b = 0 -> Debounce_Time b = 0 -> Button_Last_Level b = 0 -> Button_State b = BUTTON_DOWM ->
  counts n (Long_Time b) -> Button_Cycle b = Z.of_nat y -> (y < 25)%nat -> Long_Flag b = (if f : bool then 1 else 0) ->
  (if d : bool then Button_Last_State b = BUTTON_DOUBLE /\ Timer_Count b <= 15
   else Button_Last_State b <> BUTTON_DOUBLE) ->
  (forall b', in_phase (fst (press d f (S n) y)) b' -> Q tt (b', reported (snd (press d f (S n) y)) k)) ->
  wp (button_down cb) Q (b, k).
Proof.
  destruct b as [st ls tl ll te cy tc dt lt lf]. bsimpl. intros -> -> -> -> Hlt -> Hy -> Hd HQ. unfold button_down.
  apply wp_bind, wp_gets, wp_bind, wp_gets. bsimpl. rewrite Z.eqb_refl. assigns. apply wp_bind, wp_gets. bsimpl. cbv zeta.
  destruct (counts_next n lt Hlt) as [Hu Hn]. rewrite Hu. assigns. unfold press in HQ.
  destruct (Nat.leb_spec 200 (S n)) as [Hge|Hlow].
  - assert (Hc : forall v, 200 <= v < 255 -> counts (S n) v) by (intros v Hv; unfold counts; by rewrite (proj2 (Nat.leb_le 200 (S n)))).
    rewrite (proj2 (Z.leb_le BUTTON_LONG_TIME _)) by (unfold BUTTON_LONG_TIME; lia).
    apply wp_bind, wp_gets. bsimpl. cbv zeta. rewrite (u8_small (Z.of_nat y + 1)) by (unfold is_byte; lia). assigns. apply wp_bind.
    destruct (Nat.leb_spec 24 y) as [H24|H24].
    + rewrite (proj2 (Z.leb_le BUTTON_LONG_CYCLE _)) by (unfold BUTTON_LONG_CYCLE; lia). assigns. apply wp_modify. bsimpl. apply wp_bind, wp_gets. bsimpl.
      destruct (Z.eqb_spec (lt + 1) 255); [apply wp_modify | apply wp_ret]; apply HQ; cbn [fst in_phase]; bsimpl; split_and!; bsimpl; try done; try lia; apply Hc; unfold BUTTON_LONG_TIME; lia.
    + rewrite (proj2 (Z.leb_gt BUTTON_LONG_CYCLE _)) by (unfold BUTTON_LONG_CYCLE; lia). apply wp_ret, wp_bind, wp_gets. bsimpl.
      destruct (Z.eqb_spec (lt + 1) 255); [apply wp_modify | apply wp_ret]; apply HQ; cbn [fst in_phase]; bsimpl; split_and!; bsimpl; try done; try lia; try (by destruct f); apply Hc; unfold BUTTON_LONG_TIME; lia.
  - rewrite (proj2 (Z.leb_gt BUTTON_LONG_TIME _)) by (unfold BUTTON_LONG_TIME; lia). apply wp_ret, HQ. cbn [fst in_phase]. bsimpl.
    split_and!; try done; [|by destruct f]. unfold counts. by rewrite (proj2 (Nat.leb_gt 200 (S n))).
Qed.

(** A level that differs is taken at once: [BUTTON_DEBOUNCE_TIME] is 1. *)
Lemma wp_changed level b k (Q : unit -> Button_t * K -> Prop) :
  Debounce_Time b = 0 -> level <> Button_Last_Level b ->
  (let st := Button_State b in
   let st' := if (st =? NONE_TRIGGER) || (st =? BUTTON_DOUBLE) then BUTTON_DOWM else if st =? BUTTON_DOWM then BUTTON_UP else st in
   let b' := put_State st' (put_Debounce 0 (put_Last_Level level b)) in
   wp (do st <- btn Button_State;
       if st =? BUTTON_DOWM then button_down cb
       else if st =? BUTTON_UP then button_up cb
       else if st =? BUTTON_DOUBLE then button_double else ret tt) Q (b', k)) ->
  wp (Button_Cycle_Process cb level) Q (b, k).
Proof.
  destruct b as [st ls tl ll te cy tc dt lt lf]. bsimpl. intros -> Hne HQ. unfold Button_Cycle_Process.
  apply wp_bind, wp_gets. bsimpl. rewrite (proj2 (Z.eqb_neq _ _) Hne). cbn [negb].
  apply wp_bind, wp_bind, wp_gets. bsimpl. cbv zeta. change (u8 (0 + 1)) with 1. assigns.
  change (BUTTON_DEBOUNCE_TIME <=? 1) with true. cbv iota. unfold level_changed. assigns.
  apply wp_bind, wp_gets. bsimpl. cbv zeta in HQ. destruct (_ || _); [by apply wp_modify|].
  destruct (st =? BUTTON_DOWM); [by apply wp_modify|]. by apply wp_ret.
Qed.

Lemma wp_unchanged b k (Q : unit -> Button_t * K -> Prop) :
  wp (if Button_State b =? BUTTON_DOWM then button_down cb
      else if Button_State b =? BUTTON_UP then button_up cb
      else if Button_State b =? BUTTON_DOUBLE then button_double else ret tt) Q (b, k) ->
  wp (Button_Cycle_Process cb (Button_Last_Level b)) Q (b, k).
Proof.
  intros HQ. unfold Button_Cycle_Process. apply wp_bind, wp_gets. bsimpl. rewrite Z.eqb_refl. cbn [negb].
  apply wp_bind, wp_ret, wp_bind, wp_gets, HQ.
Qed.

(** The end of a press. *)
Lemma wp_released d f n y b k (Q : unit -> Button_t * K -> Prop) :
  in_phase (Down d f n y) b ->
  (forall b', in_phase (fst (phase_step false (Down d f n y))) b' -> Q tt (b', reported (snd (phase_step false (Down d f n y))) k)) ->
  wp (Button_Cycle_Process cb 1) Q (b, k).
Proof.
  intros (Htl & Hdt & Hll & Hst & Hn & Hcy & Hy & Hf & Hd) HQ. apply wp_changed; [done | by rewrite Hll|].
  destruct b as [st ls tl ll te cy tc dt lt lf]. bsimpl. subst. cbv zeta. apply wp_bind, wp_gets. bsimpl. cbn [Z.eqb Pos.eqb orb BUTTON_DOWM
    NONE_TRIGGER BUTTON_DOUBLE BUTTON_UP]. unfold button_up. apply wp_bind, wp_gets, wp_bind, wp_gets. bsimpl.
  cbn [phase_step] in HQ. destruct f.
  - subst. cbn [Z.eqb negb]. assigns. apply wp_modify. bsimpl. apply HQ. cbn [fst in_phase]. bsimpl. by split_and!.
  - destruct Hf as (-> & ->). cbn [Z.eqb negb]. rewrite Z.eqb_refl. apply wp_bind, wp_gets, wp_bind, wp_gets. bsimpl. destruct d.
    + destruct Hd as [-> Ht]. unfold BUTTON_DOUBLE_TIME. rewrite (proj2 (Z.leb_le _ _) Ht), Z.eqb_refl. cbn [andb].
      assigns. apply wp_modify. bsimpl. apply HQ. cbn [fst in_phase]. bsimpl. by split_and!.
    + rewrite (proj2 (Z.eqb_neq _ _) Hd), andb_false_r. assigns. apply wp_modify. bsimpl. apply HQ. cbn [fst in_phase]. bsimpl.
      by split_and!; try lia.
Qed.

(** One period refines one step of the specification. *)
Lemma wp_cycle low ph b k (Q : unit -> Button_t * K -> Prop) :
  in_phase ph b ->
  (forall b', in_phase (fst (phase_step low ph)) b' -> Q tt (b', reported (snd (phase_step low ph)) k)) ->
  wp (Button_Cycle_Process cb (if low : bool then 0 else 1)) Q (b, k).
Proof.
  destruct ph as [w n y|d f n y], low; intros Hb HQ.
  - destruct Hb as (Htl & Hdt & Hll & Hf & Hlt & Hcy & Hy & Hw). apply wp_changed; [done | by rewrite Hll|]. cbv zeta.
    apply wp_bind, wp_gets. bsimpl.
    assert (Hst : (Button_State b =? NONE_TRIGGER) || (Button_State b =? BUTTON_DOUBLE) = true).
    { destruct w; [destruct Hw as (-> & _) | destruct Hw as (-> & _)]; done. }
    rewrite Hst, Z.eqb_refl.
    eapply (wp_button_down (match w with Some _ => true | None => false end) false n y); bsimpl; try done.
    destruct w as [t|]; [destruct Hw as (_ & -> & -> & ?); split; [done | lia] | apply Hw].
  - destruct Hb as (Htl & Hdt & Hll & Hf & Hlt & Hcy & Hy & Hw). rewrite <- Hll. apply wp_unchanged. cbn [phase_step] in HQ.
    destruct w as [t|]; [destruct Hw as (Hst & Hls & Ht & Ht15) | destruct Hw as (Hst & Hls)]; rewrite Hst.
    + cbn [Z.eqb Pos.eqb BUTTON_DOUBLE BUTTON_DOWM BUTTON_UP]. unfold button_double. apply wp_bind, wp_gets. bsimpl. rewrite Ht.
      cbv zeta. rewrite u8_small by (unfold is_byte; lia). assigns. unfold BUTTON_DOUBLE_TIME.
      destruct (Nat.leb_spec 14 t).
      * rewrite (proj2 (Z.leb_le _ _)) by lia. assigns. apply wp_modify. bsimpl. apply HQ. cbn [fst in_phase]. bsimpl. by split_and!.
      * rewrite (proj2 (Z.leb_gt _ _)) by lia. apply wp_ret, HQ. cbn [fst in_phase]. bsimpl. split_and!; try done; bsimpl; lia.
    + apply wp_ret, HQ. by split_and!.
  - pose proof Hb as (Htl & Hdt & Hll & Hst & Hlt & Hcy & Hy & Hf & Hd). rewrite <- Hll. apply wp_unchanged. rewrite Hst, Z.eqb_refl.
    apply (wp_button_down d f n y); try done. by destruct f; [|destruct Hf].
  - by apply (wp_released d f n y).
Qed.
End Reports.

(** The pin of a pressed button is low. *)
Definition level (low : bool) : Z := if low then 0 else 1.

Fixpoint phases (lows : list bool) (ph : phase) : phase * list Z :=
  match lows with
  | [] => (ph, [])
  | low :: lows =>
      let '(ph, es) := phase_step low ph in
      let '(ph', es') := phases lows ph in (ph', es ++ es')
  end.

Lemma samples_spec {K} (cb : Z -> K -> K) lows : forall ph b k,
  in_phase ph b ->
  exists b', samples cb (map level lows) (b, k) = Some (tt, (b', reported cb (snd (phases lows ph)) k))
    /\ in_phase (fst (phases lows ph)) b'.
Proof.
  induction lows as [|low lows IH]; intros ph b k Hb; [by exists b|]. cbn [map samples phases].
  assert (Hw : wp (Button_Cycle_Process cb (level low)) (fun _ s => in_phase (fst (phase_step low ph)) (fst s)
    /\ snd s = reported cb (snd (phase_step low ph)) k) (b, k)) by (apply (wp_cycle cb low ph); [done | by intros b']).
  apply wp_Some in Hw as ([] & [b1 k1] & Hrun & Hb1 & Hk1). cbn [fst snd] in *. rewrite (bind_Some _ _ _ _ _ Hrun).
  destruct (phase_step low ph) as [ph1 es1]. cbn [fst snd] in *.
  destruct (IH ph1 b1 k1 Hb1) as (b' & Hrun' & Hb'). exists b'. destruct (phases lows ph1) as [ph2 es2]. cbn [fst snd] in *.
  split; [|done]. rewrite Hrun', Hk1. unfold reported. by rewrite fold_left_app.
Qed.

(** C35: whatever the level of its pin is, period by period, a button created by
    [Button_Create] reports what the specification [phase_step] says: a click when it
    is released before a long press was reported, a double click when that was the
    second within 15 periods; after 200 periods a long press with every 25th further
    period it is held, and the end of a press in which one was reported. *)
Theorem button_reports {K} (cb : Z -> K -> K) (lows : list bool) (k : K) :
  exists b', samples cb (map level lows) (Button_Create 0, k)
    = Some (tt, (b', reported cb (snd (phases lows (Up None 0 0))) k)).
Proof. destruct (samples_spec cb lows (Up None 0 0) (Button_Create 0) k created_up) as (b' & Hrun & _). by exists b'. Qed.

Lemma phases_snoc lows low ph :
  phases (lows ++ [low]) ph = (fst (phase_step low (fst (phases lows ph))), snd (phases lows ph) ++ snd (phase_step low (fst (phases lows ph)))).
Proof.
  revert ph. induction lows as [|l lows IH]; intros ph; cbn [app phases fst snd].
  - destruct (phase_step low ph) as [ph' es]. cbn [fst snd app]. by rewrite app_nil_r.
  - destruct (phase_step l ph) as [ph1 es1]. rewrite IH. destruct (phases lows ph1) as [ph2 es2]. cbn [fst snd]. by rewrite app_assoc.
Qed.

(** Held from the start for [n] periods: the 224th reports a long press, and every
    25th after it. *)
Lemma held_reports n :
  phases (replicate (S n) true) (Up None 0 0) =
  (Down false (224 <=? S n)%nat (S n) ((S n - 199) mod 25), replicate ((S n - 199) / 25) BUTTON_LONG).
Proof.
  induction n as [|n IH]; [vm_compute; reflexivity|]. rewrite replicate_S_end, phases_snoc, IH. cbn [fst snd phase_step].
  unfold press. set (m := S n). assert (Hd : forall q r, (r < 25)%nat -> ((25 * q + r) / 25 = q /\ (25 * q + r) mod 25 = r)%nat).
  { intros q r Hr. pose proof (Nat.div_unique (25 * q + r) 25 q r Hr eq_refl). pose proof (Nat.mod_unique (25 * q + r) 25 q r Hr eq_refl). lia. }
  destruct (Nat.leb_spec 200 (S m)) as [H|H].
  - pose proof (Nat.mod_upper_bound (m - 199) 25 ltac:(lia)) as Hr. pose proof (Nat.div_mod (m - 199) 25 ltac:(lia)) as E.
    set (q := ((m - 199) / 25)%nat) in *. set (r := ((m - 199) mod 25)%nat) in *.
    destruct (Nat.leb_spec 24 r) as [H24|H24]; cbn [fst snd].
    + replace (S m - 199)%nat with (25 * S q + 0)%nat by lia. destruct (Hd (S q) 0%nat) as [-> ->]; [lia|].
      rewrite (proj2 (Nat.leb_le 224 (S m))) by lia. by rewrite replicate_S_end.
    + replace (S m - 199)%nat with (25 * q + S r)%nat by lia. destruct (Hd q (S r)) as [-> ->]; [lia|]. rewrite app_nil_r. do 2 f_equal.
      destruct (Nat.leb_spec 224 m), (Nat.leb_spec 224 (S m)); try done; lia.
  - replace (m - 199)%nat with 0%nat by lia. replace (S m - 199)%nat with 0%nat by lia.
    rewrite (proj2 (Nat.leb_gt 224 m)), (proj2 (Nat.leb_gt 224 (S m))) by lia. done.
Qed.

(** The second release of a double click leaves the time it was held: the next
    press needs that much less to become a long one. *)
Lemma double_click_carries :
  phases (replicate 5 true ++ [false] ++ replicate 190 true ++ replicate 20 false ++ replicate 34 true) (Up None 0 0)
  = (Down false true 224 0, [BUTTON_DOWM; BUTTON_DOUBLE; BUTTON_LONG]).
Proof. vm_compute. reflexivity. Qed.

(** A press of 200 to 223 periods is a click, and its periods beyond 199 count towards
    the long press that comes next. *)
Lemma cycle_carries :
  phases (replicate 210 true ++ replicate 20 false ++ replicate 213 true) (Up None 0 0)
  = (Down false true 213 0, [BUTTON_DOWM; BUTTON_LONG]).
Proof. vm_compute. reflexivity. Qed.

(** ** From the pins to the gestures *)

Definition panel_phases : Type := phase * phase * Keys.

(** One period of the two buttons. *)
Definition panel_step (s : panel_phases) (lows : bool * bool) : panel_phases :=
  let '(ph0, ph1, k) := s in
  let '(ph1, es1) := phase_step (snd lows) ph1 in
  let k := reported Key1_CallBack es1 k in
  let '(ph0, es0) := phase_step (fst lows) ph0 in
  (ph0, ph1, reported Key0_CallBack es0 k).

Definition panel_start : panel_phases := (Up None 0 0, Up None 0 0, keys0).

Definition panel_in (s : panel_phases) (p : Panel) : Prop :=
  let '(ph0, ph1, k) := s in in_phase ph0 (Key0 p) /\ in_phase ph1 (Key1 p) /\ panel_keys p = k.

Lemma wp_process lows s p :
  panel_in s p -> wp (Button_Process (level (fst lows)) (level (snd lows))) (fun _ p' => panel_in (panel_step s lows) p') p.
Proof.
  destruct s as [[ph0 ph1] k], p as [b0 b1 k']. intros (H0' & H1' & <-). cbn [Key0 Key1 panel_keys] in *. unfold Button_Process, panel_step.
  apply wp_bind, wp_zoom. cbn [Key1 panel_keys]. apply (wp_cycle Key1_CallBack (snd lows) ph1); [done|].
  destruct (phase_step (snd lows) ph1) as [ph1' es1]. cbn [fst snd]. intros b1' Hb1.
  apply wp_zoom. cbn [Key0 panel_keys]. apply (wp_cycle Key0_CallBack (fst lows) ph0); [done|].
  destruct (phase_step (fst lows) ph0) as [ph0' es0]. cbn [fst snd]. intros b0' Hb0. by split_and!.
Qed.

Definition pins (lows : bool * bool) : Z * Z := (level (fst lows), level (snd lows)).

Lemma task_spec lows : forall s p,
  panel_in s p -> wp (button_task_entry (map pins lows)) (fun _ p' => panel_in (fold_left panel_step lows s) p') p.
Proof.
  induction lows as [|l lows IH]; intros s p Hp; [done|]. cbn [map button_task_entry pins fold_left].
  apply wp_bind. eapply wp_conseq; [by apply (wp_process l s)|]. intros [] p' Hp'. by apply IH.
Qed.

Inductive holding := HoldK0 | HoldK1 | HoldBoth.
Definition held_pins (h : holding) : bool * bool :=
  match h with HoldK0 => (true, false) | HoldK1 => (false, true) | HoldBoth => (true, true) end.
Definition held_gesture (h : holding) : gesture :=
  match h with HoldK0 => LearnGesture | HoldK1 => WifiGesture | HoldBoth => FactoryGesture end.

(** After [n] periods of holding. *)
Definition held_for (h : holding) (n : nat) : panel_phases := fold_left panel_step (replicate n (held_pins h)) panel_start.

Lemma held_more h n : held_for h (S n) = panel_step (held_for h n) (held_pins h).
Proof. unfold held_for. rewrite replicate_S_end, fold_left_app. done. Qed.

(** Down with a long press reported, or never pressed. *)
Definition settled_phase (low : bool) (ph : phase) : Prop :=
  if low then exists n y, ph = Down false true n y else ph = Up None 0 0.

Lemma settled_step low ph :
  settled_phase low ph -> settled_phase low (fst (phase_step low ph)) /\ (snd (phase_step low ph) = [] \/ low = true /\ snd (phase_step low ph) = [BUTTON_LONG]).
Proof.
  destruct low; [intros (n & y & ->) | intros ->; by split; [|left]]. cbn [phase_step]. unfold press, settled_phase.
  destruct (200 <=? S n)%nat; [destruct (24 <=? y)%nat|]; cbn [fst snd]; (split; [by eexists _, _ | auto]).
Qed.

(** Nothing happens after the gesture. *)
Lemma held_settled h m :
  exists ph0 ph1, held_for h (399 + m) = (ph0, ph1, snd (held_for h 399)) /\ settled_phase (fst (held_pins h)) ph0 /\ settled_phase (snd (held_pins h)) ph1.
Proof.
  induction m as [|m (ph0 & ph1 & E & H0 & H1)].
  - exists (fst (fst (held_for h 399))), (snd (fst (held_for h 399))). destruct h; vm_compute; (split; [done|]); split; (done || by eexists _, _).
  - replace (399 + S m)%nat with (S (399 + m)) by lia. rewrite held_more, E. unfold panel_step.
    destruct (settled_step _ _ H1) as [H1' E1]. destruct (settled_step _ _ H0) as [H0' E0].
    destruct (phase_step (snd (held_pins h)) ph1) as [ph1' es1], (phase_step (fst (held_pins h)) ph0) as [ph0' es0]. cbn [fst snd] in *.
    exists ph0', ph1'. split; [|done]. f_equal. clear -E0 E1.
    destruct E0 as [->|[E0 ->]], E1 as [->|[E1 ->]]; destruct h; try discriminate; vm_compute; reflexivity.
Qed.

Lemma held_semaphores h n g :
  gesture_sem g (snd (held_for h n)) = if decide (g = held_gesture h /\ (399 <= n)%nat) then 1 else 0.
Proof.
  destruct (Nat.leb_spec 399 n) as [Hge|Hlt].
  - replace n with (399 + (n - 399))%nat by lia. destruct (held_settled h (n - 399)) as (ph0 & ph1 & -> & _). cbn [snd].
    destruct h, g; (rewrite decide_True by (split; [done | lia])) || (rewrite decide_False by (intros [? _]; discriminate));
      vm_compute; reflexivity.
  - rewrite decide_False by lia.
    assert (Hall : forallb (fun n => forallb (fun h => forallb (fun g => gesture_sem g (snd (held_for h n)) =? 0)
      [LearnGesture; WifiGesture; FactoryGesture]) [HoldK0; HoldK1; HoldBoth]) (seq 0 399) = true) by (vm_compute; reflexivity).
    rewrite forallb_forall in Hall. specialize (Hall n ltac:(apply in_seq; lia)).
    rewrite forallb_forall in Hall. specialize (Hall h ltac:(destruct h; cbn; tauto)).
    rewrite forallb_forall in Hall. specialize (Hall g ltac:(destruct g; cbn; tauto)). by apply Z.eqb_eq.
Qed.

(** C36: holding buttons down from the start on releases the semaphore of exactly
    one gesture, once, in the 399th period, with the eighth long press: learning for K0,
    resetting the module for K1, the factory reset for both; before, and however
    long it goes on, nothing else. *)
Theorem holding_makes_gesture (h : holding) (n : nat) :
  exists p, button_task_entry (replicate n (pins (held_pins h))) button_Init = Some (tt, p)
    /\ forall g, gesture_sem g (panel_keys p) = if decide (g = held_gesture h /\ (399 <= n)%nat) then 1 else 0.
Proof.
  assert (Hp : panel_in panel_start button_Init) by (split_and!; [apply created_up | apply created_up | done]).
  pose proof (task_spec (replicate n (held_pins h)) panel_start button_Init Hp) as Hw.
  apply wp_Some in Hw as ([] & p & Hrun & Hin). exists p. split.
  - rewrite <- Hrun. f_equal. clear. induction n as [|n IH]; [done|]. cbn. by rewrite IH.
  - intros g. rewrite <- held_semaphores. unfold panel_in in Hin. change (fold_left panel_step _ _) with (held_for h n) in Hin.
    destruct (held_for h n) as [[? ?] k]. destruct Hin as (_ & _ & ->). done.
Qed.
