(* ===== verification/Storage.v ===== *)
(** * Flash partitions

    The partition table and the operations of the flash layer ([fal_partition_find],
    [fal_partition_read], [fal_partition_write], [fal_partition_erase] of
    [src/packages/fal-v0.5.0/src/fal_partition.c], [fal_flash_device_find] of
    [fal_flash.c], the table of [src/storage/fal_cfg.h]), and the devices below
    it ([src/storage/fal_flash_sfud_port.c], [src/storage/fal_flash_stm32f4_port.c]).
    The chips are the class [Chips]; what they document is [ChipLaws]. *)

From Stdlib Require Import String.
From S2P Require Import Prelude.
Open Scope list_scope.

(** The first [n] bytes at a pointer, when there are so many. *)
Definition prefix (buf : list Z) (n : Z) : option (list Z) :=
  if (0 <=? n) && (n <=? zlen buf) then Some (take (Z.to_nat n) buf) else None.

Lemma prefix_all l : prefix l (zlen l) = Some l.
Proof.
  unfold prefix. rewrite (proj2 (Z.leb_le _ _)) by apply zlen_nonneg. rewrite Z.leb_refl. cbn [andb].
  unfold zlen. by rewrite Nat2Z.id, firstn_all.
Qed.

Lemma prefix_app l r : prefix (l ++ r) (zlen l) = Some l.
Proof.
  unfold prefix. pose proof (zlen_nonneg r). rewrite (proj2 (Z.leb_le _ _)) by apply zlen_nonneg.
  rewrite zlen_app, (proj2 (Z.leb_le _ _)) by lia. cbn [andb]. unfold zlen. by rewrite Nat2Z.id, take_app_length.
Qed.

Lemma prefix_zlen l n p : prefix l n = Some p -> zlen p = n.
Proof.
  unfold prefix. destruct (Z.leb_spec 0 n), (Z.leb_spec n (zlen l)); intros E; simplify_eq/=.
  unfold zlen in *. rewrite length_take. lia.
Qed.

(** ** The chips

    The serial flash behind [sfud_read], [sfud_write] and [sfud_erase] ([true] is
    [SFUD_SUCCESS]), and the controller's own flash behind the hardware library. *)

Class Chips (C : Type) := {
  sfud_read : C -> Z -> Z -> list Z;
  sfud_write : C -> Z -> list Z -> bool * C;
  sfud_erase : C -> Z -> Z -> bool * C;
  onchip_byte : C -> Z -> Z;
  HAL_FLASH_Program : C -> Z -> Z -> C;
  FLASH_Erase_Sector : C -> Z -> C
}.

Definition erase_gran : Z := 4096.

(** A write clears bits of the bytes it is given and of no other, an erase sets
    the bytes of whole sectors. *)
Class ChipLaws (C : Type) `{Chips C} := {
  nor : C -> Z -> Z;
  nor_byte c x : is_byte (nor c x);
  sfud_write_ok c a bs i b :
    fst (sfud_write c a bs) = true -> bs !! i = Some b ->
    nor (snd (sfud_write c a bs)) (a + Z.of_nat i) = Z.land (nor c (a + Z.of_nat i)) b;
  sfud_write_frame c a bs x :
    x < a \/ a + zlen bs <= x -> nor (snd (sfud_write c a bs)) x = nor c x;
  sfud_erase_ok c a n x :
    fst (sfud_erase c a n) = true -> a <= x < a + n -> nor (snd (sfud_erase c a n)) x = 255;
  sfud_erase_frame c a n x :
    x / erase_gran < a / erase_gran \/ (a + n - 1) / erase_gran < x / erase_gran ->
    nor (snd (sfud_erase c a n)) x = nor c x
}.

(** ** The partition table *)

Record fal_partition := mkPart {
  part_name : string; flash_name : string; offset : Z; len : Z
}.

Definition FAL_PART_TABLE : list fal_partition := [
  mkPart "boot" "stm32_onchip" 0 (64 * 1024);
  mkPart "app" "stm32_onchip" (64 * 1024) (448 * 1024);
  mkPart "easyflash" "norflash0" 0 (1024 * 1024);
  mkPart "factory" "norflash0" (1024 * 1024) (512 * 1024);
  mkPart "download" "norflash0" (1536 * 1024) (512 * 1024)
].

Fixpoint find_part (name : string) (table : list fal_partition) : option fal_partition :=
  match table with
  | [] => None
  | p :: table' => if String.eqb name (part_name p) then Some p else find_part name table'
  end.
Definition fal_partition_find (name : string) : option fal_partition := find_part name FAL_PART_TABLE.

Inductive flash_dev := stm32f4_onchip_flash | nor_flash0.

Definition dev_name (d : flash_dev) : string :=
  match d with stm32f4_onchip_flash => "stm32_onchip" | nor_flash0 => "norflash0" end.

Fixpoint find_dev (name : string) (table : list flash_dev) : option flash_dev :=
  match table with
  | [] => None
  | d :: table' => if String.eqb name (dev_name d) then Some d else find_dev name table'
  end.
Definition fal_flash_device_find (name : string) : option flash_dev :=
  find_dev name [stm32f4_onchip_flash; nor_flash0].

(** ** The controller's flash *)

Definition FLASH_BASE : Z := 134217728.

(** [stm32_get_sector]: the sectors are numbered from 0. *)
Definition stm32_get_sector (address : Z) : Z :=
  let a k := FLASH_BASE + k * 1024 in
  if (address <? a 16) && (a 0 <=? address) then 0
  else if (address <? a 32) && (a 16 <=? address) then 1
  else if (address <? a 48) && (a 32 <=? address) then 2
  else if (address <? a 64) && (a 48 <=? address) then 3
  else if (address <? a 128) && (a 64 <=? address) then 4
  else if (address <? a 256) && (a 128 <=? address) then 5
  else if (address <? a 384) && (a 256 <=? address) then 6
  else 7.

Definition stm32_get_sector_size (sector : Z) : Z :=
  if sector =? 0 then 16 * 1024
  else if sector =? 1 then 16 * 1024
  else if sector =? 2 then 16 * 1024
  else if sector =? 3 then 16 * 1024
  else if sector =? 4 then 64 * 1024
  else 128 * 1024.

Section Devices.
Context {C : Type} `{Chips C}.

Definition onchip_read (offset size : Z) (c : C) : list Z :=
  map (fun i => onchip_byte c (u32 (FLASH_BASE + offset + i))) (seqZ 0 size).

Fixpoint onchip_write_loop (buf : list Z) (addr : Z) (c : C) : bool * C :=
  match buf with
  | [] => (true, c)
  | b :: buf' =>
      let c := HAL_FLASH_Program c addr b in
      if negb (onchip_byte c addr =? b) then (false, c)
      else onchip_write_loop buf' (u32 (addr + 1)) c
  end.

Definition onchip_write (offset : Z) (buf : list Z) (size : Z) : M C Z :=
  do bs <- lift_opt (prefix buf size);
  fun c =>
    let '(ok, c) := onchip_write_loop bs (u32 (FLASH_BASE + offset)) c in
    Some (if ok : bool then size else -1, c).

(** Every iteration erases at least sixteen kilobytes. *)
Fixpoint onchip_erase_loop (fuel : nat) (addr erased_size size : Z) (c : C) : option C :=
  match fuel with
  | O => None
  | S k =>
      if erased_size <? size then
        let sector := stm32_get_sector (u32 (addr + erased_size)) in
        onchip_erase_loop k addr (u32 (erased_size + stm32_get_sector_size sector)) size
          (FLASH_Erase_Sector c sector)
      else Some c
  end.

Definition erase_fuel (size : Z) : nat := S (Z.to_nat (size / 16384 + 1)).

Definition onchip_erase (offset size : Z) : M C Z := fun c =>
  match onchip_erase_loop (erase_fuel size) (u32 (FLASH_BASE + offset)) 0 size c with
  | Some c => Some (size, c)
  | None => None
  end.

(** ** The serial flash *)

Definition nor_read (offset size : Z) (c : C) : list Z := sfud_read c (u32 offset) size.

Definition nor_write (offset : Z) (buf : list Z) (size : Z) : M C Z :=
  do bs <- lift_opt (prefix buf size);
  fun c =>
    let '(ok, c) := sfud_write c (u32 offset) bs in
    Some (if ok : bool then size else -1, c).

Definition nor_erase (offset size : Z) : M C Z := fun c =>
  let '(ok, c) := sfud_erase c (u32 offset) size in
  Some (if ok : bool then size else -1, c).

(** ** Partitions

    [addr + size] is computed in 32 bits.  The result is what the device returns. *)

Definition ops_read (d : flash_dev) (offset size : Z) (c : C) : list Z :=
  match d with stm32f4_onchip_flash => onchip_read offset size c | nor_flash0 => nor_read offset size c end.
Definition ops_write (d : flash_dev) (offset : Z) (buf : list Z) (size : Z) : M C Z :=
  match d with stm32f4_onchip_flash => onchip_write offset buf size | nor_flash0 => nor_write offset buf size end.
Definition ops_erase (d : flash_dev) (offset size : Z) : M C Z :=
  match d with stm32f4_onchip_flash => onchip_erase offset size | nor_flash0 => nor_erase offset size end.

(** A buffer is what lies at its pointer; the bytes read, when the result is not
    [-1]. *)
Definition fal_partition_read (part : option fal_partition) (addr size : Z) : M C (option (list Z)) :=
  match part with
  | None => fault
  | Some p =>
      if len p <? u32 (addr + size) then ret None else
      match fal_flash_device_find (flash_name p) with
      | None => ret None
      | Some d => gets (fun c => Some (ops_read d (u32 (offset p + addr)) size c))
      end
  end.

Definition fal_partition_write (part : option fal_partition) (addr : Z) (buf : list Z) (size : Z) : M C Z :=
  match part with
  | None => fault
  | Some p =>
      if len p <? u32 (addr + size) then ret (-1) else
      match fal_flash_device_find (flash_name p) with
      | None => ret (-1)
      | Some d => ops_write d (u32 (offset p + addr)) buf size
      end
  end.

Definition fal_partition_erase (part : option fal_partition) (addr size : Z) : M C Z :=
  match part with
  | None => fault
  | Some p =>
      if len p <? u32 (addr + size) then ret (-1) else
      match fal_flash_device_find (flash_name p) with
      | None => ret (-1)
      | Some d => ops_erase d (u32 (offset p + addr)) size
      end
  end.

Definition fal_partition_erase_all (part : option fal_partition) : M C Z :=
  match part with
  | None => fault
  | Some p => fal_partition_erase part 0 (len p)
  end.

(** *** The port of the key-value store: [src/storage/ef_fal_port.c]

    [true] is [EF_NO_ERR]; a failed read is not reported. *)

Definition ef_part : option fal_partition := fal_partition_find "easyflash".
Definition EF_ERASE_MIN_SIZE : Z := 131072.

Definition ef_port_read (addr size : Z) : M C (option (list Z)) := fal_partition_read ef_part addr size.

Definition ef_port_erase (addr size : Z) : M C bool :=
  if addr mod EF_ERASE_MIN_SIZE =? 0 then
    do r <- fal_partition_erase ef_part addr size;
    ret (negb (r <? 0))
  else fault.

Definition ef_port_write (addr : Z) (buf : list Z) (size : Z) : M C bool :=
  do r <- fal_partition_write ef_part addr buf size;
  ret (negb (r <? 0)).
End Devices.

(** ** Erasing the controller's flash *)

(** Where the sectors start, in bytes from the base; the last entry is the end. *)
Definition sector_base (s : Z) : Z :=
  default 0 (aget [0; 16; 32; 48; 64; 128; 256; 384; 512] s) * 1024.

Lemma sector_cases s : 0 <= s < 8 -> s = 0 \/ s = 1 \/ s = 2 \/ s = 3 \/ s = 4 \/ s = 5 \/ s = 6 \/ s = 7.
Proof. lia. Qed.

Lemma get_sector_base s x :
  0 <= s < 8 -> FLASH_BASE + sector_base s <= x < FLASH_BASE + sector_base (s + 1) -> stm32_get_sector x = s.
Proof.
  intros Hs Hx. unfold stm32_get_sector, FLASH_BASE in *.
  destruct (sector_cases s Hs) as [->|[->|[->|[->|[->|[->|[->| ->]]]]]]];
    match type of Hx with _ + ?a <= _ < _ + ?b =>
      let a' := eval vm_compute in a in let b' := eval vm_compute in b in
      change a with a' in Hx; change b with b' in Hx end; cbv zeta;
    repeat (match goal with |- (if ?b then _ else _) = _ => destruct b eqn:? end; try lia).
Qed.

Lemma sector_size_base s :
  0 <= s < 8 -> stm32_get_sector_size s = sector_base (s + 1) - sector_base s
                /\ 16384 <= stm32_get_sector_size s /\ 0 <= sector_base s /\ sector_base (s + 1) <= 524288.
Proof.
  intros Hs. destruct (sector_cases s Hs) as [->|[->|[->|[->|[->|[->|[->| ->]]]]]]]; vm_compute; repeat split; discriminate.
Qed.

Lemma sector_base_mono i j : 0 <= i <= j -> j <= 8 -> sector_base i <= sector_base j.
Proof.
  intros Hi. replace j with (i + Z.of_nat (Z.to_nat (j - i))) by lia.
  induction (Z.to_nat (j - i)) as [|n IH]; intros Hj; [by replace (i + Z.of_nat 0) with i by lia|].
  pose proof (sector_size_base (i + Z.of_nat n) ltac:(lia)) as (? & ? & _).
  replace (i + Z.of_nat (S n)) with (i + Z.of_nat n + 1) by lia. lia.
Qed.

(** The sector of an address lies between those of the ends. *)
Lemma sector_of_range s e x :
  0 <= s <= e -> e <= 8 -> sector_base s <= x < sector_base e -> s <= stm32_get_sector (FLASH_BASE + x) < e.
Proof.
  intros Hs He Hx.
  assert (Hk : exists k, s <= k < e /\ sector_base k <= x < sector_base (k + 1)).
  { revert He Hx. replace e with (s + Z.of_nat (Z.to_nat (e - s))) by lia.
    induction (Z.to_nat (e - s)) as [|n IH]; intros He Hx; [replace (s + Z.of_nat 0) with s in Hx by lia; lia|].
    destruct (Z.lt_ge_cases x (sector_base (s + Z.of_nat n))) as [Hlt|Hge].
    - destruct IH as (k & ? & ?); [lia..|]. exists k. lia.
    - exists (s + Z.of_nat n). split; [lia|]. replace (s + Z.of_nat n + 1) with (s + Z.of_nat (S n)) by lia. lia. }
  destruct Hk as (k & Hk & Hxk). rewrite (get_sector_base k); lia.
Qed.

Section Erase.
Context {C : Type} `{Chips C}.

Definition erase_all (ss : list Z) (c : C) : C := fold_left FLASH_Erase_Sector ss c.

Lemma sector_size_mono s : 0 <= s -> s + 1 < 8 -> stm32_get_sector_size s <= stm32_get_sector_size (s + 1).
Proof.
  intros H0 H1. destruct (sector_cases s ltac:(lia)) as [->|[->|[->|[->|[->|[->|[->| ->]]]]]]]; try lia; vm_compute; discriminate.
Qed.

(** The addresses the loop visits keep their distance [d] from the start of a sector. *)
Lemma erase_loop_spec fuel s d erased addr size (c : C) :
  0 <= s <= 8 -> 0 <= d -> (s < 8 -> d < stm32_get_sector_size s) -> 0 <= erased -> addr + erased = FLASH_BASE + sector_base s + d ->
  0 <= size -> addr + size <= FLASH_BASE + sector_base 8 -> FLASH_BASE <= addr ->
  size - erased <= 16384 * (Z.of_nat fuel - 1) -> (0 < fuel)%nat ->
  exists e, s <= e <= 8
    /\ onchip_erase_loop fuel addr erased size c = Some (erase_all (seqZ s (e - s)) c)
    /\ addr + size <= FLASH_BASE + Z.max (sector_base e + d) (addr + erased - FLASH_BASE)
    /\ (s < e -> FLASH_BASE + sector_base (e - 1) + d < addr + size).
Proof.
  revert s erased c. induction fuel as [|fuel IH]; intros s erased c Hs Hd0 Hd He Ha H0 Hend Hb Hf Hp; [lia|].
  cbn [onchip_erase_loop]. destruct (Z.ltb_spec erased size) as [Hlt|Hge].
  - assert (s <> 8) by (intros ->; lia).
    destruct (sector_size_base s ltac:(lia)) as (Esz & Hmin & Hlo & Hhi).
    assert (Hu : u32 (addr + erased) = addr + erased).
    { apply u32_small. change (sector_base 8) with 524288 in Hend. unfold FLASH_BASE in *. lia. }
    rewrite Hu, (get_sector_base s) by (rewrite ?Ha; lia).
    rewrite u32_small by (change (sector_base 8) with 524288 in Hend; unfold FLASH_BASE in *; lia).
    destruct (IH (s + 1) (erased + stm32_get_sector_size s) (FLASH_Erase_Sector c s)) as (e & He1 & He2 & He3 & He4); try lia.
    { intros Hs1. pose proof (sector_size_mono s ltac:(lia) Hs1). lia. }
    exists e. split; [lia|]. split; [|split].
    + rewrite He2. unfold erase_all. rewrite (seqZ_cons s (e - s)) by lia. cbn [fold_left].
      replace (Z.succ s) with (s + 1) by lia. by replace (Z.pred (e - s)) with (e - (s + 1)) by lia.
    + pose proof (sector_base_mono (s + 1) e ltac:(lia) ltac:(lia)). lia.
    + intros _. destruct (Z.eq_dec e (s + 1)) as [->|]; [|apply He4; lia].
      replace (s + 1 - 1) with s by lia. lia.
  - exists s. split; [lia|]. replace (s - s) with 0 by lia. split; [done|]. split; lia.
Qed.

(** C27: wherever in a sector [s] the range begins, erasing ends after erasing
    consecutive sectors from [s] on, each once, of which each meets the range and which
    hold every byte from its beginning to [size] bytes after the start of [s]; they are no
    more than these [size] bytes need.  So a range from the start of a sector is erased
    whole, and one that begins [d] bytes into it whole but for at most its last [d]
    bytes. *)
Theorem sector_erase_covers (offset size s : Z) (c : C) :
  0 <= s < 8 -> sector_base s <= offset < sector_base (s + 1) -> 0 < size -> offset + size <= 512 * 1024 ->
  exists e, onchip_erase offset size c = Some (size, erase_all (seqZ s (e - s)) c)
    /\ (forall x, offset <= x < sector_base s + size -> s <= stm32_get_sector (FLASH_BASE + x) < e)
    /\ (forall k, s <= k < e -> sector_base k < offset + size /\ offset < sector_base (k + 1))
    /\ sector_base (e - 1) < sector_base s + size <= sector_base e.
Proof.
  intros Hs Ho Hsz Hend. unfold onchip_erase.
  destruct (sector_size_base s Hs) as (Esz & _ & Hlo & _).
  rewrite u32_small by (unfold FLASH_BASE; lia).
  destruct (erase_loop_spec (erase_fuel size) s (offset - sector_base s) 0 (FLASH_BASE + offset) size c)
    as (e & He & Hrun & Hcov & Hlast); try (unfold FLASH_BASE; lia).
  { change (sector_base 8) with 524288. unfold FLASH_BASE. lia. }
  { unfold erase_fuel. pose proof (Z.div_mod size 16384). pose proof (Z.mod_pos_bound size 16384). lia. }
  { unfold erase_fuel. lia. }
  exists e. rewrite Hrun. split; [done|].
  assert (Hcov' : sector_base s + size <= sector_base e) by lia.
  assert (Hse : s < e) by (destruct (Z.lt_ge_cases s e); [done|]; replace e with s in Hcov' by lia; lia).
  split; [|split].
  - intros x Hx. apply sector_of_range; lia.
  - intros k Hk. pose proof (sector_base_mono k (e - 1)). pose proof (sector_base_mono (s + 1) (k + 1)). lia.
  - lia.
Qed.
End Erase.

(** ** A partition keeps its operations inside *)

Definition is_part (p : fal_partition) : Prop := p ∈ FAL_PART_TABLE.

(** The partitions of one device do not overlap, and those of the serial flash
    start and end at sector boundaries. *)
Lemma parts_disjoint :
  Forall (fun p => Forall (fun q => part_name p = part_name q \/ flash_name p <> flash_name q
    \/ offset p + len p <= offset q \/ offset q + len q <= offset p) FAL_PART_TABLE) FAL_PART_TABLE.
Proof.
  repeat (constructor; [repeat (constructor; [first [by left | by right; left
    | right; right; left; vm_compute; discriminate | right; right; right; vm_compute; discriminate]|]); constructor|]).
  constructor.
Qed.

Definition in_part (p : fal_partition) (x : Z) : Prop := offset p <= x < offset p + len p.

Section Frame.
Context {C : Type} `{ChipLaws C}.

Lemma nor_bounds p :
  is_part p -> 0 <= offset p /\ 0 < len p /\ offset p + len p < 2 ^ 32
               /\ offset p mod erase_gran = 0 /\ len p mod erase_gran = 0.
Proof using.
  revert p. apply Forall_forall.
  repeat (constructor; [vm_compute; repeat split; try done; discriminate|]). constructor.
Qed.

Lemma nor_device p : flash_name p = "norflash0"%string -> fal_flash_device_find (flash_name p) = Some nor_flash0.
Proof using. by intros ->. Qed.

Lemma part_write_spec p addr buf size c :
  is_part p -> flash_name p = "norflash0"%string -> 0 <= addr -> 0 <= size -> addr + size < 2 ^ 32 ->
  fal_partition_write (Some p) addr buf size c
  = if len p <? addr + size then Some (-1, c) else nor_write (offset p + addr) buf size c.
Proof using.
  intros Hp Hd Ha Hs Hw. destruct (nor_bounds p Hp) as (Ho & _ & Hl & _).
  unfold fal_partition_write. rewrite nor_device by done. rewrite (u32_small (addr + _)) by lia.
  destruct (Z.ltb_spec (len p) (addr + size)); [done|]. cbn [ops_write]. by rewrite u32_small by lia.
Qed.

Lemma part_erase_spec p addr size c :
  is_part p -> flash_name p = "norflash0"%string -> 0 <= addr -> 0 <= size -> addr + size < 2 ^ 32 ->
  fal_partition_erase (Some p) addr size c
  = if len p <? addr + size then Some (-1, c) else nor_erase (offset p + addr) size c.
Proof using.
  intros Hp Hd Ha Hs Hw. destruct (nor_bounds p Hp) as (Ho & _ & Hl & _).
  unfold fal_partition_erase. rewrite nor_device by done. rewrite (u32_small (addr + _)) by lia.
  destruct (Z.ltb_spec (len p) (addr + size)); [done|]. cbn [ops_erase]. by rewrite u32_small by lia.
Qed.

(** What an operation leaves of the other bytes of the serial flash. *)
Definition stays_in (p : fal_partition) (m : M C Z) : Prop :=
  forall c, wp m (fun _ c' => forall x, ~ in_part p x -> nor c' x = nor c x) c.

Lemma part_write_stays p addr buf size :
  is_part p -> flash_name p = "norflash0"%string -> 0 <= addr -> 0 <= size <= zlen buf -> addr + size < 2 ^ 32 ->
  stays_in p (fal_partition_write (Some p) addr buf size).
Proof.
  intros Hp Hd Ha [Hs Hsz] Hw c. unfold wp. rewrite part_write_spec by done.
  destruct (Z.ltb_spec (len p) (addr + size)) as [|Hin]; [done|].
  destruct (nor_bounds p Hp) as (Ho & _ & Hl & _).
  destruct (prefix buf size) as [bs|] eqn:Eb.
  2: { exfalso. unfold prefix in Eb. rewrite !(proj2 (Z.leb_le _ _)) in Eb by lia. done. }
  pose proof (prefix_zlen _ _ _ Eb).
  unfold nor_write, bind, lift_opt. rewrite Eb, u32_small by lia.
  pose proof (sfud_write_frame c (offset p + addr) bs) as Hf.
  destruct (sfud_write c (offset p + addr) bs) as [ok c']. intros x Hx. apply Hf. unfold in_part in Hx. lia.
Qed.

Lemma part_erase_stays p addr size :
  is_part p -> flash_name p = "norflash0"%string -> 0 <= addr -> 0 <= size -> addr + size < 2 ^ 32 ->
  stays_in p (fal_partition_erase (Some p) addr size).
Proof.
  intros Hp Hd Ha Hs Hw c. unfold wp. rewrite part_erase_spec by done.
  destruct (Z.ltb_spec (len p) (addr + size)) as [|Hin]; [done|].
  destruct (nor_bounds p Hp) as (Ho & Hl0 & Hl & Hmo & Hml).
  unfold nor_erase. rewrite u32_small by lia.
  pose proof (sfud_erase_frame c (offset p + addr) size) as Hf.
  destruct (sfud_erase c (offset p + addr) size) as [ok c']. intros x Hx. apply Hf. unfold in_part in Hx.
  unfold erase_gran in *.
  apply Z.div_exact in Hmo, Hml; try lia.
  assert (Hcase : x < offset p \/ offset p + len p <= x) by lia. destruct Hcase as [Hlt|Hge].
  - left. apply Z.div_lt_upper_bound; [lia|]. pose proof (Z.div_le_mono (offset p) (offset p + addr) 4096). lia.
  - right. apply Z.div_lt_upper_bound; [lia|].
    pose proof (Z.div_le_mono (offset p + len p) x 4096).
    replace (offset p + len p) with ((offset p / 4096 + len p / 4096) * 4096) in * by lia.
    rewrite Z.div_mul in * by lia. lia.
Qed.
End Frame.

(** Whatever it is asked, within 32 bits, an operation on a partition of the
    serial flash leaves every byte outside that partition as it was, erasing
    whole sectors included; so the stored settings survive a firmware download. *)
Theorem partition_isolates {C} `{ChipLaws C} (p : fal_partition) (addr size : Z) (buf : list Z) (c : C) :
  is_part p -> flash_name p = "norflash0"%string -> 0 <= addr -> 0 <= size <= zlen buf ->
  addr + size < 2 ^ 32 ->
  exists r c1 s c2, fal_partition_erase (Some p) addr size c = Some (r, c1)
    /\ fal_partition_write (Some p) addr buf size c1 = Some (s, c2)
    /\ forall x, ~ in_part p x -> nor c2 x = nor c x.
Proof.
  intros Hp Hd Ha Hs Hw.
  pose proof (part_erase_stays p addr size Hp Hd Ha (proj1 Hs) Hw c) as He. apply wp_Some in He as (r & c1 & E1 & F1).
  pose proof (part_write_stays p addr buf size Hp Hd Ha Hs Hw c1) as Hb. apply wp_Some in Hb as (s & c2 & E2 & F2).
  exists r, c1, s, c2. split_and!; [done|done|]. intros x Hx. by rewrite F2, F1.
Qed.

(** The bounds check wraps: a write that starts below 2 ^ 32 and ends above it
    passes, and lands before the partition. *)
Lemma partition_check_wraps {C} `{Chips C} (buf : list Z) (c : C) :
  fal_partition_write (fal_partition_find "download") (2 ^ 32 - 16) buf 32 c
  = nor_write (1536 * 1024 - 16) buf 32 c.
Proof. done. Qed.

(** ** A chip in memory *)

Record mem_chip := mkChip { nor_mem : Z -> Z; onchip_mem : Z -> Z; erased_log : list Z }.

Definition mem_write (a : Z) (bs : list Z) (m : Z -> Z) : Z -> Z :=
  fun x => match aget bs (x - a) with Some b => Z.land (u8 (m x)) b | None => m x end.
Definition mem_erase (a n : Z) (m : Z -> Z) : Z -> Z :=
  fun x => if (a / erase_gran <=? x / erase_gran) && (x / erase_gran <=? (a + n - 1) / erase_gran)
           then 255 else m x.

#[export] Instance mem_chips : Chips mem_chip := {|
  sfud_read c a n := map (fun x => u8 (nor_mem c x)) (seqZ a n);
  sfud_write c a bs := (true, mkChip (mem_write a bs (nor_mem c)) (onchip_mem c) (erased_log c));
  sfud_erase c a n := (true, mkChip (mem_erase a n (nor_mem c)) (onchip_mem c) (erased_log c));
  onchip_byte c x := onchip_mem c x;
  HAL_FLASH_Program c a b :=
    mkChip (nor_mem c) (fun x => if x =? a then Z.land (onchip_mem c x) b else onchip_mem c x) (erased_log c);
  FLASH_Erase_Sector c s :=
    mkChip (nor_mem c) (fun x => if stm32_get_sector x =? s then 255 else onchip_mem c x) (erased_log c ++ [s])
|}.

Lemma u8_land a b : u8 (Z.land (u8 a) b) = Z.land (u8 a) b.
Proof.
  apply u8_small. pose proof (u8_byte a) as Ha. unfold is_byte in *.
  split; [apply Z.land_nonneg; lia|].
  destruct (Z.eq_dec (Z.land (u8 a) b) 0) as [->|]; [lia|].
  assert (Hland : 0 <= Z.land (u8 a) b) by (apply Z.land_nonneg; lia).
  apply (Z.log2_lt_pow2 _ 8); [lia|].
  change (u8 a) with (a mod 2 ^ 8). rewrite <- Z.land_ones, <- Z.land_assoc, (Z.land_comm _ b), Z.land_assoc, Z.land_ones by lia.
  pose proof (Z.mod_pos_bound (Z.land a b) (2 ^ 8)).
  destruct (Z.eq_dec (Z.land a b mod 2 ^ 8) 0) as [->|]; [cbn; lia|].
  apply Z.log2_lt_pow2; lia.
Qed.

#[export] Instance mem_laws : ChipLaws mem_chip.
Proof.
  refine {| nor c x := u8 (nor_mem c x) |}.
  - intros. apply u8_byte.
  - intros c a bs i b _ Hb. cbn [sfud_write mem_chips fst snd nor_mem]. unfold mem_write.
    replace (a + Z.of_nat i - a) with (Z.of_nat i) by lia.
    rewrite aget_lookup, Nat2Z.id, Hb by lia. apply u8_land.
  - intros c a bs x Hx. cbn [sfud_write mem_chips fst snd nor_mem]. unfold mem_write. by rewrite aget_None by lia.
  - intros c a n x _ Hx. cbn [sfud_erase mem_chips fst snd nor_mem]. unfold mem_erase.
    rewrite !(proj2 (Z.leb_le _ _)); [done | |]; unfold erase_gran; apply Z.div_le_mono; lia.
  - intros c a n x Hx. cbn [sfud_erase mem_chips fst snd nor_mem]. unfold mem_erase.
    destruct Hx; [rewrite (proj2 (Z.leb_gt _ _)) by lia; done|].
    rewrite (proj2 (Z.leb_gt (x / erase_gran) _)), andb_false_r by lia. done.
Defined.

Definition chip0 : mem_chip := mkChip (fun _ => 0) (fun _ => 0) [].

Lemma sector_erase_covers_witness :
  exists e, onchip_erase (100 * 1024) (200 * 1024) chip0 = Some (200 * 1024, erase_all (seqZ 4 (e - 4)) chip0)
    /\ 4 <= stm32_get_sector (FLASH_BASE + 102400) < e /\ sector_base (e - 1) < 270336 <= sector_base e.
Proof.
  destruct (sector_erase_covers (100 * 1024) (200 * 1024) 4 chip0) as (e & Hrun & Hin & _ & He);
    [lia | vm_compute; split; [discriminate | reflexivity] | lia | lia |].
  change (sector_base 4) with 65536 in Hin, He. exists e. split; [exact Hrun|]. split; [apply Hin; lia | exact He].
Defined.

(** From inside a sector the loop's steps are out of line with the sectors: of
    the sixteen kilobytes from 8 K on, the half in the next sector is not erased. *)
Lemma unaligned_erase_misses {C} `{Chips C} (c : C) :
  onchip_erase 8192 16384 c = Some (16384, erase_all [0] c)
  /\ stm32_get_sector (FLASH_BASE + 16384) = 1.
Proof.
  split; [|reflexivity]. unfold onchip_erase. change (erase_fuel 16384) with 3%nat. cbn [onchip_erase_loop].
  change (0 <? 16384) with true. cbv iota.
  change (stm32_get_sector (u32 (u32 (FLASH_BASE + 8192) + 0))) with 0.
  change (u32 (0 + stm32_get_sector_size 0) <? 16384) with false. done.
Qed.

Definition download_part : fal_partition := mkPart "download" "norflash0" (1536 * 1024) (512 * 1024).

Lemma partition_isolates_witness :
  exists r c1 s c2, fal_partition_erase (Some download_part) 0 3 chip0 = Some (r, c1)
    /\ fal_partition_write (Some download_part) 0 [1; 2; 3] 3 c1 = Some (s, c2)
    /\ nor c2 0 = nor chip0 0.
Proof.
  destruct (partition_isolates download_part 0 3 [1; 2; 3] chip0) as (r & c1 & s & c2 & E1 & E2 & Hx).
  - unfold is_part, FAL_PART_TABLE, download_part. set_solver.
  - reflexivity.
  - lia.
  - vm_compute. split; discriminate.
  - lia.
  - exists r, c1, s, c2. split; [exact E1|]. split; [exact E2|]. apply Hx. unfold in_part, download_part. cbn. lia.
Defined.
