(* ===== verification/EfEnv.v ===== *)
(** * The key-value store

    [src/packages/EasyFlash-v4.1.0/src/ef_env.c], [ef_utils.c] and [easyflash.c] in the
    configuration of [src/rtconfig.h]: two sectors of 128 KB on the partition
    [easyflash], written byte by byte, with both caches.  The port to the
    partition layer is in Storage; the functions here run on any chip of the
    class [Chips].  A variable is a record of the log of a sector: a header with
    a status table, the name, the value.  Bytes of a status table are only ever
    cleared, one for each status a record goes through.

    An assertion of the code that fails ends in an endless loop; it is [fault].
    An uninitialised local structure is a value the definitions take as an
    argument, [junk_env] or [junk_sector]. *)

From Stdlib Require Import String.
From S2P Require Import Prelude CStr Storage.
Open Scope list_scope.

(** ** Configuration and layout *)

Definition EF_WRITE_GRAN : Z := 8.
Definition EF_START_ADDR : Z := 0.
Definition ENV_AREA_SIZE : Z := EF_ERASE_MIN_SIZE * 2.
Definition SECTOR_SIZE : Z := EF_ERASE_MIN_SIZE.
Definition SECTOR_NUM : Z := ENV_AREA_SIZE / EF_ERASE_MIN_SIZE.
Definition SECTOR_MAGIC_WORD : Z := 808732229.
Definition ENV_MAGIC_WORD : Z := 808736331.
Definition EF_STR_ENV_VALUE_MAX_SIZE : Z := 128.
Definition EF_GC_EMPTY_SEC_THRESHOLD : Z := 1.
Definition EF_ENV_CACHE_TABLE_SIZE : Z := 16.
Definition EF_SECTOR_CACHE_TABLE_SIZE : Z := 4.
Definition EF_ENV_NAME_MAX : Z := 32.
Definition SECTOR_NOT_COMBINED : Z := 4294967295.
Definition FAILED_ADDR : Z := 4294967295.

Definition EF_ALIGN (size align : Z) : Z := Z.land (u32 (size + align - 1)) (Z.lnot (align - 1)).
Definition EF_WG_ALIGN (size : Z) : Z := EF_ALIGN size ((EF_WRITE_GRAN + 7) / 8).
Definition EF_ALIGN_DOWN (size align : Z) : Z := Z.land size (Z.lnot (align - 1)).
Definition EF_WG_ALIGN_DOWN (size : Z) : Z := EF_ALIGN_DOWN size ((EF_WRITE_GRAN + 7) / 8).
Definition STATUS_TABLE_SIZE (status_number : Z) : Z := ((status_number - 1) * EF_WRITE_GRAN + 7) / 8.

(** [sector_store_status], [sector_dirty_status], [env_status]. *)
Definition SECTOR_STORE_UNUSED : Z := 0.
Definition SECTOR_STORE_EMPTY : Z := 1.
Definition SECTOR_STORE_USING : Z := 2.
Definition SECTOR_STORE_FULL : Z := 3.
Definition SECTOR_STORE_STATUS_NUM : Z := 4.

Definition SECTOR_DIRTY_UNUSED : Z := 0.
Definition SECTOR_DIRTY_FALSE : Z := 1.
Definition SECTOR_DIRTY_TRUE : Z := 2.
Definition SECTOR_DIRTY_GC : Z := 3.
Definition SECTOR_DIRTY_STATUS_NUM : Z := 4.

Definition ENV_UNUSED : Z := 0.
Definition ENV_PRE_WRITE : Z := 1.
Definition ENV_WRITE : Z := 2.
Definition ENV_PRE_DELETE : Z := 3.
Definition ENV_DELETED : Z := 4.
Definition ENV_ERR_HDR : Z := 5.
Definition ENV_STATUS_NUM : Z := 6.

(** The offsets of [struct sector_hdr_data] and [struct env_hdr_data]. *)
Definition SECTOR_DIRTY_OFFSET : Z := 3.
Definition SECTOR_HDR_DATA_SIZE : Z := 20.
Definition ENV_MAGIC_OFFSET : Z := 8.
Definition ENV_LEN_OFFSET : Z := 12.
Definition ENV_NAME_LEN_OFFSET : Z := 20.
Definition ENV_HDR_DATA_SIZE : Z := 28.
Definition EF_SEC_REMAIN_THRESHOLD : Z := ENV_HDR_DATA_SIZE + EF_ENV_NAME_MAX.

Inductive EfErrCode :=
| EF_NO_ERR | EF_ERASE_ERR | EF_READ_ERR | EF_WRITE_ERR
| EF_ENV_NAME_ERR | EF_ENV_NAME_EXIST | EF_ENV_FULL | EF_ENV_INIT_FAILED.

#[export] Instance EfErrCode_eq_dec : EqDecision EfErrCode.
Proof. solve_decision. Defined.

Definition no_err (e : EfErrCode) : bool := bool_decide (e = EF_NO_ERR).

(** *** Words in little endian order *)

Definition le32 (bs : list Z) (i : Z) : option Z :=
  match aget bs i, aget bs (i + 1), aget bs (i + 2), aget bs (i + 3) with
  | Some a, Some b, Some c, Some d => Some (u32 (a + b * 256 + c * 65536 + d * 16777216))
  | _, _, _, _ => None
  end.

Definition le_bytes (w : Z) : list Z :=
  [u8 w; u8 (w / 256); u8 (w / 65536); u8 (w / 16777216)].

(** ** The check sum: [ef_calc_crc32] *)

Definition crc32_table : list Z := [
  0; 1996959894; 3993919788; 2567524794; 124634137; 1886057615; 3915621685; 2657392035;
  249268274; 2044508324; 3772115230; 2547177864; 162941995; 2125561021; 3887607047; 2428444049;
  498536548; 1789927666; 4089016648; 2227061214; 450548861; 1843258603; 4107580753; 2211677639;
  325883990; 1684777152; 4251122042; 2321926636; 335633487; 1661365465; 4195302755; 2366115317;
  997073096; 1281953886; 3579855332; 2724688242; 1006888145; 1258607687; 3524101629; 2768942443;
  901097722; 1119000684; 3686517206; 2898065728; 853044451; 1172266101; 3705015759; 2882616665;
  651767980; 1373503546; 3369554304; 3218104598; 565507253; 1454621731; 3485111705; 3099436303;
  671266974; 1594198024; 3322730930; 2970347812; 795835527; 1483230225; 3244367275; 3060149565;
  1994146192; 31158534; 2563907772; 4023717930; 1907459465; 112637215; 2680153253; 3904427059;
  2013776290; 251722036; 2517215374; 3775830040; 2137656763; 141376813; 2439277719; 3865271297;
  1802195444; 476864866; 2238001368; 4066508878; 1812370925; 453092731; 2181625025; 4111451223;
  1706088902; 314042704; 2344532202; 4240017532; 1658658271; 366619977; 2362670323; 4224994405;
  1303535960; 984961486; 2747007092; 3569037538; 1256170817; 1037604311; 2765210733; 3554079995;
  1131014506; 879679996; 2909243462; 3663771856; 1141124467; 855842277; 2852801631; 3708648649;
  1342533948; 654459306; 3188396048; 3373015174; 1466479909; 544179635; 3110523913; 3462522015;
  1591671054; 702138776; 2966460450; 3352799412; 1504918807; 783551873; 3082640443; 3233442989;
  3988292384; 2596254646; 62317068; 1957810842; 3939845945; 2647816111; 81470997; 1943803523;
  3814918930; 2489596804; 225274430; 2053790376; 3826175755; 2466906013; 167816743; 2097651377;
  4027552580; 2265490386; 503444072; 1762050814; 4150417245; 2154129355; 426522225; 1852507879;
  4275313526; 2312317920; 282753626; 1742555852; 4189708143; 2394877945; 397917763; 1622183637;
  3604390888; 2714866558; 953729732; 1340076626; 3518719985; 2797360999; 1068828381; 1219638859;
  3624741850; 2936675148; 906185462; 1090812512; 3747672003; 2825379669; 829329135; 1181335161;
  3412177804; 3160834842; 628085408; 1382605366; 3423369109; 3138078467; 570562233; 1426400815;
  3317316542; 2998733608; 733239954; 1555261956; 3268935591; 3050360625; 752459403; 1541320221;
  2607071920; 3965973030; 1969922972; 40735498; 2617837225; 3943577151; 1913087877; 83908371;
  2512341634; 3803740692; 2075208622; 213261112; 2463272603; 3855990285; 2094854071; 198958881;
  2262029012; 4057260610; 1759359992; 534414190; 2176718541; 4139329115; 1873836001; 414664567;
  2282248934; 4279200368; 1711684554; 285281116; 2405801727; 4167216745; 1634467795; 376229701;
  2685067896; 3608007406; 1308918612; 956543938; 2808555105; 3495958263; 1231636301; 1047427035;
  2932959818; 3654703836; 1088359270; 936918000; 2847714899; 3736837829; 1202900863; 817233897;
  3183342108; 3401237130; 1404277552; 615818150; 3134207493; 3453421203; 1423857449; 601450431;
  3009837614; 3294710456; 1567103746; 711928724; 3020668471; 3272380065; 1510334235; 755167117
].

Definition crc_byte (crc p : Z) : Z :=
  Z.lxor (nth (Z.to_nat (Z.land (Z.lxor crc p) 255)) crc32_table 0) (Z.shiftr crc 8).

Definition ef_calc_crc32 (crc : Z) (buf : list Z) : Z :=
  Z.lxor (fold_left crc_byte buf (Z.lxor crc 4294967295)) 4294967295.

(** ** State *)

Record env_cache_node := mkEnvNode { name_crc : Z; active : Z; cache_addr : Z }.
Record sector_cache_node := mkSecNode { sec_addr : Z; empty_addr : Z }.

(** [struct sector_meta_data] and [struct env_node_obj]. *)
Record sector_meta_data := mkSector {
  check_ok : bool; status_store : Z; status_dirty : Z; s_addr : Z;
  combined : Z; remain : Z; empty_env : Z
}.
Record env_node_obj := mkEnv {
  env_status : Z; crc_is_ok : bool; name_len : Z; env_len : Z; value_len : Z;
  env_name : list Z; addr_start : Z; addr_value : Z
}.

Definition env0 : env_node_obj := mkEnv 0 false 0 0 0 (replicate 32 0) 0 0.
Definition sector0 : sector_meta_data := mkSector false 0 0 0 0 0 0.

Definition set_start (a : Z) (e : env_node_obj) : env_node_obj :=
  mkEnv (env_status e) (crc_is_ok e) (name_len e) (env_len e) (value_len e) (env_name e) a (addr_value e).
Definition set_s_addr (a : Z) (s : sector_meta_data) : sector_meta_data :=
  mkSector (check_ok s) (status_store s) (status_dirty s) a (combined s) (remain s) (empty_env s).
Definition set_room (r e : Z) (s : sector_meta_data) : sector_meta_data :=
  mkSector (check_ok s) (status_store s) (status_dirty s) (s_addr s) (combined s) r e.

(** An entry of a set of default variables: name, value, length of the value or 0. *)
Record ef_env := mkDefault { def_key : list Z; def_value : list Z; def_len : Z }.

(** The static variables; [set_env_obj] and [set_env_sector] are those of
    [set_env], [env_lock] is the count of the semaphore. *)
Record EfRam := mkRam {
  env_start_addr : Z; default_env_set : list ef_env; init_ok : bool; gc_request : bool;
  in_recovery_check : bool; last_is_complete_del : bool;
  env_cache_table : list env_cache_node; sector_cache_table : list sector_cache_node;
  set_env_obj : env_node_obj; set_env_sector : sector_meta_data; env_lock : Z
}.

Definition ram0 : EfRam :=
  mkRam 0 [] false false false false
    (replicate 16 (mkEnvNode 0 0 0)) (replicate 4 (mkSecNode 0 0)) env0 sector0 0.

Record Ef (C : Type) := mkEf { chip : C; ram : EfRam }.
Arguments mkEf {C}.
Arguments chip {C}.
Arguments ram {C}.

Definition put_start v r := mkRam v (default_env_set r) (init_ok r) (gc_request r) (in_recovery_check r) (last_is_complete_del r) (env_cache_table r) (sector_cache_table r) (set_env_obj r) (set_env_sector r) (env_lock r).
Definition put_defaults v r := mkRam (env_start_addr r) v (init_ok r) (gc_request r) (in_recovery_check r) (last_is_complete_del r) (env_cache_table r) (sector_cache_table r) (set_env_obj r) (set_env_sector r) (env_lock r).
Definition put_init_ok v r := mkRam (env_start_addr r) (default_env_set r) v (gc_request r) (in_recovery_check r) (last_is_complete_del r) (env_cache_table r) (sector_cache_table r) (set_env_obj r) (set_env_sector r) (env_lock r).
Definition put_gc_request v r := mkRam (env_start_addr r) (default_env_set r) (init_ok r) v (in_recovery_check r) (last_is_complete_del r) (env_cache_table r) (sector_cache_table r) (set_env_obj r) (set_env_sector r) (env_lock r).
Definition put_recovery v r := mkRam (env_start_addr r) (default_env_set r) (init_ok r) (gc_request r) v (last_is_complete_del r) (env_cache_table r) (sector_cache_table r) (set_env_obj r) (set_env_sector r) (env_lock r).
Definition put_last v r := mkRam (env_start_addr r) (default_env_set r) (init_ok r) (gc_request r) (in_recovery_check r) v (env_cache_table r) (sector_cache_table r) (set_env_obj r) (set_env_sector r) (env_lock r).
Definition put_env_cache v r := mkRam (env_start_addr r) (default_env_set r) (init_ok r) (gc_request r) (in_recovery_check r) (last_is_complete_del r) v (sector_cache_table r) (set_env_obj r) (set_env_sector r) (env_lock r).
Definition put_sec_cache v r := mkRam (env_start_addr r) (default_env_set r) (init_ok r) (gc_request r) (in_recovery_check r) (last_is_complete_del r) (env_cache_table r) v (set_env_obj r) (set_env_sector r) (env_lock r).
Definition put_obj v r := mkRam (env_start_addr r) (default_env_set r) (init_ok r) (gc_request r) (in_recovery_check r) (last_is_complete_del r) (env_cache_table r) (sector_cache_table r) v (set_env_sector r) (env_lock r).
Definition put_sector v r := mkRam (env_start_addr r) (default_env_set r) (init_ok r) (gc_request r) (in_recovery_check r) (last_is_complete_del r) (env_cache_table r) (sector_cache_table r) (set_env_obj r) v (env_lock r).
Definition put_lock v r := mkRam (env_start_addr r) (default_env_set r) (init_ok r) (gc_request r) (in_recovery_check r) (last_is_complete_del r) (env_cache_table r) (sector_cache_table r) (set_env_obj r) (set_env_sector r) v.

(** ** Status tables *)

(** The table and the index of its byte that is cleared, if one is. *)
Definition set_status (status_num status_index : Z) : list Z * option Z :=
  let table := replicate (Z.to_nat (STATUS_TABLE_SIZE status_num)) 255 in
  if 0 <? status_index then
    let byte_index := (status_index - 1) * (EF_WRITE_GRAN / 8) in
    (<[Z.to_nat byte_index := 0]> table, Some byte_index)
  else (table, None).

Fixpoint get_status_loop (status_table : list Z) (status_num : nat) (i : Z) : option Z :=
  match status_num with
  | O => Some i
  | S k =>
      match aget status_table (Z.of_nat k * EF_WRITE_GRAN / 8) with
      | Some b => if b =? 0 then Some i else get_status_loop status_table k (i + 1)
      | None => None
      end
  end.

Definition get_status (status_table : list Z) (status_num : Z) : option Z :=
  match get_status_loop status_table (Z.to_nat (status_num - 1)) 0 with
  | Some i => Some (status_num - 1 - i)
  | None => None
  end.

(** ** Caches *)

(** The loop of [update_sector_cache]: the table as it returns early, or the
    first free index. *)
Fixpoint sector_cache_loop (sec empty : Z) (l : list sector_cache_node)
    : list sector_cache_node + option nat :=
  match l with
  | [] => inr None
  | n :: l' =>
      let go := match sector_cache_loop sec empty l' with
                | inl t => inl (n :: t)
                | inr i => inr (option_map S i)
                end in
      if (sec <? empty) && (empty <? sec + SECTOR_SIZE) then
        if sec_addr n =? sec then inl (mkSecNode sec empty :: l')
        else if sec_addr n =? FAILED_ADDR
          then match go with inr _ => inr (Some O) | t => t end
          else go
      else if sec_addr n =? sec then inl (mkSecNode FAILED_ADDR (empty_addr n) :: l')
      else go
  end.

Definition update_sector_cache (sec empty : Z) (l : list sector_cache_node) : list sector_cache_node :=
  match sector_cache_loop sec empty l with
  | inl t => t
  | inr (Some i) => <[i := mkSecNode sec empty]> l
  | inr None => l
  end.

Fixpoint get_sector_from_cache (sec : Z) (l : list sector_cache_node) : option Z :=
  match l with
  | [] => None
  | n :: l' => if sec_addr n =? sec then Some (empty_addr n) else get_sector_from_cache sec l'
  end.

Definition name_crc16 (name : list Z) : Z := u16 (Z.shiftr (ef_calc_crc32 0 name) 16).

(** The loop of [update_env_cache] from index [i] on: the table, and unless it
    returns early the free index and the index of the least active entry. *)
Fixpoint env_cache_loop (crc addr : Z) (l : list env_cache_node) (i : nat)
    (empty_index min_index : option nat) (min_activity : Z)
    : list env_cache_node * option (option nat * option nat) :=
  match l with
  | [] => ([], Some (empty_index, min_index))
  | n :: l' =>
      let go n e m a := let '(t, r) := env_cache_loop crc addr l' (S i) e m a in (n :: t, r) in
      if negb (addr =? FAILED_ADDR) then
        if name_crc n =? crc then (mkEnvNode (name_crc n) (active n) addr :: l', None)
        else if (cache_addr n =? FAILED_ADDR) && bool_decide (empty_index = None)
          then go n (Some i) min_index min_activity
        else if negb (cache_addr n =? FAILED_ADDR) then
          let act := if 0 <? active n then active n - 1 else active n in
          let n := mkEnvNode (name_crc n) act (cache_addr n) in
          if act <? min_activity then go n empty_index (Some i) act
          else go n empty_index min_index min_activity
        else go n empty_index min_index min_activity
      else if name_crc n =? crc then (mkEnvNode (name_crc n) 0 FAILED_ADDR :: l', None)
      else go n empty_index min_index min_activity
  end.

Definition update_env_cache (name : list Z) (addr : Z) (l : list env_cache_node) : list env_cache_node :=
  let crc := name_crc16 name in
  match env_cache_loop crc addr l 0 None None 65535 with
  | (t, None) => t
  | (t, Some (Some i, _)) => <[i := mkEnvNode crc 0 addr]> t
  | (t, Some (None, Some i)) => <[i := mkEnvNode crc 0 addr]> t
  | (t, Some (None, None)) => t
  end.

(** [!strncmp(a, b, n)]; [None] when it reads outside an array. *)
Fixpoint strncmp_eq (a b : list Z) (n : nat) : option bool :=
  match n with
  | O => Some true
  | S k =>
      match a, b with
      | x :: a', y :: b' =>
          if negb (x =? y) then Some false
          else if x =? 0 then Some true else strncmp_eq a' b' k
      | _, _ => None
      end
  end.

(** ** The operations *)

Section Operations.
Context {C : Type} `{Chips C} (junk_env : env_node_obj) (junk_sector : sector_meta_data).

Abbreviation EM := (M (Ef C)).

Definition on_chip {A} (m : M C A) : EM A := zoom chip (fun c s => mkEf c (ram s)) m.
Definition ram_gets {A} (f : EfRam -> A) : EM A := gets (fun s => f (ram s)).
Definition ram_put (f : EfRam -> EfRam) : EM unit := modify (fun s => mkEf (chip s) (f (ram s))).

(** A read that the partition refuses leaves the buffer as it was; using it is
    undefined. *)
Definition port_read (addr size : Z) : EM (list Z) :=
  do r <- on_chip (ef_port_read addr size); lift_opt r.

Definition port_write (addr : Z) (buf : list Z) (size : Z) : EM EfErrCode :=
  do ok <- on_chip (ef_port_write addr buf size);
  ret (if ok : bool then EF_NO_ERR else EF_WRITE_ERR).

Definition port_erase (addr size : Z) : EM EfErrCode :=
  do ok <- on_chip (ef_port_erase addr size);
  ret (if ok : bool then EF_NO_ERR else EF_ERASE_ERR).

(** The semaphore; a second [ef_port_env_lock] would wait for ever. *)
Definition ef_port_env_lock : EM unit :=
  do n <- ram_gets env_lock;
  if 0 <? n then ram_put (put_lock (n - 1)) else fault.
Definition ef_port_env_unlock : EM unit :=
  do n <- ram_gets env_lock; ram_put (put_lock (n + 1)).

Definition write_status (addr status_num status_index : Z) : EM EfErrCode :=
  if negb (status_index <? status_num) then fault else
  match set_status status_num status_index with
  | (_, None) => ret EF_NO_ERR
  | (table, Some byte_index) =>
      port_write (u32 (addr + byte_index)) (drop (Z.to_nat byte_index) table) (EF_WRITE_GRAN / 8)
  end.

Definition read_status (addr total_num : Z) : EM Z :=
  do table <- port_read addr (STATUS_TABLE_SIZE total_num);
  lift_opt (get_status table total_num).

Definition cache_sector (sec empty : Z) : EM unit :=
  ram_put (fun r => put_sec_cache (update_sector_cache sec empty (sector_cache_table r)) r).
Definition cache_env (name : list Z) (addr : Z) : EM unit :=
  ram_put (fun r => put_env_cache (update_env_cache name addr (env_cache_table r)) r).

(** The loop of [get_env_from_cache] from index [i] on, over the entries [l]. *)
Fixpoint env_from_cache_loop (name : list Z) (i : nat) (l : list env_cache_node) : EM (option Z) :=
  match l with
  | [] => ret None
  | n :: l' =>
      if negb (cache_addr n =? FAILED_ADDR) && (name_crc n =? name_crc16 name) then
        do saved_name <- port_read (u32 (cache_addr n + ENV_HDR_DATA_SIZE)) EF_ENV_NAME_MAX;
        do same <- lift_opt (strncmp_eq (name ++ [0]) saved_name (length name));
        if same : bool then
          let act := if 65535 - EF_ENV_CACHE_TABLE_SIZE <=? active n then 65535
                     else active n + EF_ENV_CACHE_TABLE_SIZE in
          run ram_put (fun r => put_env_cache
                (<[i := mkEnvNode (name_crc n) act (cache_addr n)]> (env_cache_table r)) r);
          ret (Some (cache_addr n))
        else env_from_cache_loop name (S i) l'
      else env_from_cache_loop name (S i) l'
  end.

Definition get_env_from_cache (name : list Z) : EM (option Z) :=
  do l <- ram_gets env_cache_table; env_from_cache_loop name 0 l.

(** *** Searching the flash *)

Fixpoint ff_chunk (buf : list Z) (start last_data addr : Z) : Z * Z :=
  match buf with
  | [] => (addr, last_data)
  | b :: buf' =>
      ff_chunk buf' (u32 (start + 1)) b (if negb (last_data =? 255) && (b =? 255) then start else addr)
  end.

(** One iteration for each 32 bytes. *)
Fixpoint ff_loop (fuel : nat) (start end_ addr last_data : Z) : EM Z :=
  if start <? end_ then
    match fuel with
    | O => fault
    | S k =>
        let read_size := if u32 (start + 32) <? end_ then 32 else end_ - start in
        do buf <- port_read start read_size;
        let '(addr, last_data) := ff_chunk buf start last_data addr in
        ff_loop k (u32 (start + 32)) end_ addr last_data
    end
  else ret (if last_data =? 255 then EF_WG_ALIGN addr else end_).

Definition SECTOR_FUEL : nat := Z.to_nat 131072.

Definition continue_ff_addr (start end_ : Z) : EM Z := ff_loop SECTOR_FUEL start end_ start 0.

(** The loop over the 28 words that begin in the buffer; the word at [i] is the
    first four bytes of [buf]. *)
Fixpoint magic_chunk (n : nat) (buf : list Z) (at_ end_ start_bak : Z) : option (option Z) :=
  match n with
  | O => Some None
  | S k =>
      if at_ <? end_ then
        match le32 buf 0 with
        | Some magic =>
            if (magic =? ENV_MAGIC_WORD) && (start_bak <=? u32 (at_ - ENV_MAGIC_OFFSET))
            then Some (Some (u32 (at_ - ENV_MAGIC_OFFSET)))
            else magic_chunk k (tail buf) (u32 (at_ + 1)) end_ start_bak
        | None => None
        end
      else Some None
  end.

Fixpoint magic_loop (fuel : nat) (start end_ start_bak : Z) : EM Z :=
  if start <? end_ then
    match fuel with
    | O => fault
    | S k =>
        do buf <- port_read start 32;
        do hit <- lift_opt (magic_chunk 28 buf start end_ start_bak);
        match hit with
        | Some a => ret a
        | None => magic_loop k (u32 (start + 28)) end_ start_bak
        end
    end
  else ret FAILED_ADDR.

Definition find_next_env_addr (start end_ : Z) : EM Z :=
  do l <- ram_gets sector_cache_table;
  match get_sector_from_cache (EF_ALIGN_DOWN start SECTOR_SIZE) l with
  | Some empty => if start =? empty then ret FAILED_ADDR else magic_loop SECTOR_FUEL start end_ start
  | None => magic_loop SECTOR_FUEL start end_ start
  end.

Definition get_next_env_addr (sector : sector_meta_data) (pre_env : env_node_obj) : EM Z :=
  if status_store sector =? SECTOR_STORE_EMPTY then ret FAILED_ADDR else
  if addr_start pre_env =? FAILED_ADDR then ret (u32 (s_addr sector + SECTOR_HDR_DATA_SIZE)) else
  if addr_start pre_env <=? u32 (s_addr sector + SECTOR_SIZE) then
    let addr := if crc_is_ok pre_env then u32 (addr_start pre_env + env_len pre_env)
                else u32 (addr_start pre_env + EF_WG_ALIGN 1) in
    do addr <- find_next_env_addr addr (u32 (s_addr sector + SECTOR_SIZE - SECTOR_HDR_DATA_SIZE));
    if (u32 (s_addr sector + SECTOR_SIZE) <? addr) || (env_len pre_env =? 0) then ret FAILED_ADDR
    else ret addr
  else ret FAILED_ADDR.

(** *** Reading a record and a sector header *)

Fixpoint crc_loop (fuel : nat) (addr len crc_data_len calc_crc32 : Z) : EM Z :=
  if len <? crc_data_len then
    match fuel with
    | O => fault
    | S k =>
        let size := if u32 (len + 32) <? crc_data_len then 32 else crc_data_len - len in
        do buf <- port_read (u32 (addr + len)) (EF_WG_ALIGN size);
        do bs <- lift_opt (prefix buf size);
        crc_loop k addr (u32 (len + size)) crc_data_len (ef_calc_crc32 calc_crc32 bs)
    end
  else ret calc_crc32.

(** [name] is read into an array of [EF_ENV_NAME_MAX] characters. *)
Definition read_name (addr len : Z) (old : list Z) : EM (list Z) :=
  if EF_ENV_NAME_MAX <? len then fault else
  do bs <- port_read addr (EF_WG_ALIGN len);
  ret (bs ++ drop (length bs) old).

Definition read_env (env : env_node_obj) : EM (EfErrCode * env_node_obj) :=
  let start := addr_start env in
  do hdr <- port_read start ENV_HDR_DATA_SIZE;
  do status <- lift_opt (get_status hdr ENV_STATUS_NUM);
  do len <- lift_opt (le32 hdr ENV_LEN_OFFSET);
  do crc <- lift_opt (le32 hdr 16);
  do nlen <- lift_opt (aget hdr ENV_NAME_LEN_OFFSET);
  do vlen <- lift_opt (le32 hdr 24);
  if (len =? 4294967295) || (ENV_AREA_SIZE <? len) || (len <? ENV_NAME_LEN_OFFSET) then
    run (if negb (status =? ENV_ERR_HDR)
         then run write_status start ENV_STATUS_NUM ENV_ERR_HDR; ret tt else ret tt);
    ret (EF_READ_ERR, mkEnv ENV_ERR_HDR false (name_len env) ENV_HDR_DATA_SIZE (value_len env)
                        (env_name env) start (addr_value env))
  else if (SECTOR_SIZE - SECTOR_HDR_DATA_SIZE <? len) && (len <? ENV_AREA_SIZE) then fault
  else
    do calc <- crc_loop SECTOR_FUEL (u32 (start + ENV_NAME_LEN_OFFSET)) 0 (len - ENV_NAME_LEN_OFFSET) 0;
    if negb (calc =? crc) then
      ret (EF_READ_ERR, mkEnv status false (name_len env) len (value_len env)
                          (env_name env) start (addr_value env))
    else
      let env_name_addr := u32 (start + ENV_HDR_DATA_SIZE) in
      do name <- read_name env_name_addr nlen (env_name env);
      ret (EF_NO_ERR, mkEnv status true nlen len vlen name start (u32 (env_name_addr + EF_WG_ALIGN nlen))).

(** The traversal of a sector in use: where its records end, or its fault. *)
Fixpoint traverse (fuel : nat) (sector : sector_meta_data) (env : env_node_obj)
    : EM (EfErrCode * sector_meta_data) :=
  do a <- get_next_env_addr sector env;
  if a =? FAILED_ADDR then ret (EF_NO_ERR, sector) else
  match fuel with
  | O => fault
  | S k =>
      do r <- read_env (set_start a env);
      let env := snd r in
      if negb (crc_is_ok env) && negb (env_status env =? ENV_PRE_WRITE) && negb (env_status env =? ENV_ERR_HDR)
      then ret (EF_READ_ERR, set_room 0 (empty_env sector) sector)
      else traverse k (set_room (u32 (remain sector - env_len env)) (u32 (empty_env sector + env_len env)) sector) env
  end.

Definition read_sector_meta_data (addr : Z) (sector : sector_meta_data) (traversal : bool)
    : EM (EfErrCode * sector_meta_data) :=
  if negb (addr mod SECTOR_SIZE =? 0) then fault else
  do hdr <- port_read addr SECTOR_HDR_DATA_SIZE;
  do magic <- lift_opt (le32 hdr 8);
  if negb (magic =? SECTOR_MAGIC_WORD) then
    ret (EF_ENV_INIT_FAILED, mkSector false (status_store sector) (status_dirty sector) addr
           SECTOR_NOT_COMBINED (remain sector) (empty_env sector))
  else
    do comb <- lift_opt (le32 hdr 12);
    do store <- lift_opt (get_status hdr SECTOR_STORE_STATUS_NUM);
    do dirty <- lift_opt (get_status (drop (Z.to_nat SECTOR_DIRTY_OFFSET) hdr) SECTOR_DIRTY_STATUS_NUM);
    let sector := mkSector true store dirty addr comb (remain sector) (empty_env sector) in
    if negb traversal then ret (EF_NO_ERR, sector) else
    let first := u32 (addr + SECTOR_HDR_DATA_SIZE) in
    if store =? SECTOR_STORE_EMPTY then
      ret (EF_NO_ERR, set_room (SECTOR_SIZE - SECTOR_HDR_DATA_SIZE) first sector)
    else if store =? SECTOR_STORE_USING then
      do l <- ram_gets sector_cache_table;
      match get_sector_from_cache addr l with
      | Some empty => ret (EF_NO_ERR, set_room (u32 (SECTOR_SIZE - (empty - addr))) empty sector)
      | None =>
          do r <- traverse SECTOR_FUEL (set_room (SECTOR_SIZE - SECTOR_HDR_DATA_SIZE) first sector)
                    (set_start FAILED_ADDR junk_env);
          let '(result, sector) := r in
          do ff <- continue_ff_addr (empty_env sector) (u32 (addr + SECTOR_SIZE));
          let sector := if negb (empty_env sector =? ff)
                        then set_room (u32 (SECTOR_SIZE - (ff - addr))) ff sector else sector in
          run cache_sector addr (empty_env sector);
          ret (result, sector)
      end
    else ret (EF_NO_ERR, set_room 0 first sector).

Definition get_next_sector_addr (pre_sec : sector_meta_data) : EM Z :=
  do start <- ram_gets env_start_addr;
  if s_addr pre_sec =? FAILED_ADDR then ret start else
  let next := if combined pre_sec =? SECTOR_NOT_COMBINED then u32 (s_addr pre_sec + SECTOR_SIZE)
              else u32 (s_addr pre_sec + u32 (combined pre_sec * SECTOR_SIZE)) in
  if next <? u32 (start + ENV_AREA_SIZE) then ret next else ret FAILED_ADDR.

(** *** Iterators

    The call back gets the accumulated argument and answers whether to stop. *)

Definition SECTORS_FUEL : nat := Z.to_nat SECTOR_NUM.

Fixpoint records_loop {A} (fuel : nat) (sector : sector_meta_data) (env : env_node_obj) (acc : A)
    (callback : env_node_obj -> A -> EM (bool * A)) : EM (bool * env_node_obj * A) :=
  do a <- get_next_env_addr sector env;
  if a =? FAILED_ADDR then ret (false, set_start FAILED_ADDR env, acc) else
  match fuel with
  | O => fault
  | S k =>
      do r <- read_env (set_start a env);
      let env := snd r in
      do c <- callback env acc;
      let '(stop, acc) := c in
      if stop : bool then ret (true, env, acc) else records_loop k sector env acc callback
  end.

Fixpoint env_iterator_loop {A} (fuel : nat) (sector : sector_meta_data) (env : env_node_obj) (acc : A)
    (callback : env_node_obj -> A -> EM (bool * A)) : EM (env_node_obj * A) :=
  do sec <- get_next_sector_addr sector;
  if sec =? FAILED_ADDR then ret (env, acc) else
  match fuel with
  | O => fault
  | S k =>
      do r <- read_sector_meta_data sec sector false;
      let '(err, sector) := r in
      if negb (no_err err) then env_iterator_loop k sector env acc callback else
      if (status_store sector =? SECTOR_STORE_USING) || (status_store sector =? SECTOR_STORE_FULL) then
        do r <- records_loop SECTOR_FUEL sector (set_start FAILED_ADDR env) acc callback;
        let '(stop, env, acc) := r in
        if stop : bool then ret (env, acc) else env_iterator_loop k sector env acc callback
      else env_iterator_loop k sector env acc callback
  end.

Definition env_iterator {A} (env : env_node_obj) (acc : A)
    (callback : env_node_obj -> A -> EM (bool * A)) : EM (env_node_obj * A) :=
  env_iterator_loop SECTORS_FUEL (set_s_addr FAILED_ADDR junk_sector) env acc callback.

Fixpoint sector_iterator_loop {A} (fuel : nat) (sector : sector_meta_data) (status : Z) (acc : A)
    (callback : sector_meta_data -> A -> EM (bool * A)) (traversal_env : bool) : EM (sector_meta_data * A) :=
  do sec <- get_next_sector_addr sector;
  if sec =? FAILED_ADDR then ret (sector, acc) else
  match fuel with
  | O => fault
  | S k =>
      do r <- read_sector_meta_data sec sector false;
      let sector := snd r in
      if (status =? SECTOR_STORE_UNUSED) || (status =? status_store sector) then
        do sector <- (if traversal_env then
                        do r <- read_sector_meta_data sec sector traversal_env; ret (snd r)
                      else ret sector);
        do c <- callback sector acc;
        let '(stop, acc) := c in
        if stop : bool then ret (sector, acc)
        else sector_iterator_loop k sector status acc callback traversal_env
      else sector_iterator_loop k sector status acc callback traversal_env
  end.

Definition sector_iterator {A} (sector : sector_meta_data) (status : Z) (acc : A)
    (callback : sector_meta_data -> A -> EM (bool * A)) (traversal_env : bool) : EM (sector_meta_data * A) :=
  sector_iterator_loop SECTORS_FUEL (set_s_addr FAILED_ADDR sector) status acc callback traversal_env.

(** *** Finding a variable *)

Definition find_env_cb (key : list Z) (env : env_node_obj) (find_ok : bool) : EM (bool * bool) :=
  if negb (zlen key =? name_len env) then ret (false, find_ok) else
  if crc_is_ok env && (env_status env =? ENV_WRITE) then
    do same <- lift_opt (strncmp_eq (env_name env) (key ++ [0]) (length key));
    if same : bool then ret (true, true) else ret (false, find_ok)
  else ret (false, find_ok).

Definition find_env_no_cache (key : list Z) (env : env_node_obj) : EM (bool * env_node_obj) :=
  do r <- env_iterator env false (find_env_cb key);
  ret (snd r, fst r).

Definition find_env (key : list Z) (env : env_node_obj) : EM (bool * env_node_obj) :=
  do hit <- get_env_from_cache key;
  match hit with
  | Some a => do r <- read_env (set_start a env); ret (true, snd r)
  | None =>
      do r <- find_env_no_cache key env;
      let '(find_ok, env) := r in
      run (if find_ok : bool then cache_env key (addr_start env) else ret tt);
      ret (find_ok, env)
  end.

(** The bytes put in the buffer, [None] where it is left alone, and the length
    stored in [value_len]. *)
Definition get_env (key : list Z) (buf_len : Z) : EM (option (list Z * Z)) :=
  do r <- find_env key junk_env;
  let '(find_ok, env) := r in
  if find_ok : bool then
    let read_len := if value_len env <? buf_len then value_len env else buf_len in
    do bs <- port_read (addr_value env) read_len;
    ret (Some (bs, value_len env))
  else ret None.

Definition ef_get_env_obj (key : list Z) (env : env_node_obj) : EM (bool * env_node_obj) :=
  do ok <- ram_gets init_ok;
  if negb ok then ret (false, env) else
  run ef_port_env_lock;
  do r <- find_env key env;
  run ef_port_env_unlock;
  ret r.

Definition ef_get_env_blob (key : list Z) (buf_len : Z) : EM (option (list Z * Z)) :=
  do ok <- ram_gets init_ok;
  if negb ok then ret None else
  run ef_port_env_lock;
  do r <- get_env key buf_len;
  run ef_port_env_unlock;
  ret r.

Definition ef_is_str (value : list Z) : bool := forallb (fun ch => u32 (ch - 32) <? 127 - 32) value.

Definition ef_get_env (key : list Z) : EM (option (list Z)) :=
  do r <- ef_get_env_blob key EF_STR_ENV_VALUE_MAX_SIZE;
  match r with
  | Some (bs, _) => ret (if (0 <? zlen bs) && ef_is_str bs then Some bs else None)
  | None => ret None
  end.

Definition ef_read_env_value (env : env_node_obj) (buf_len : Z) : EM (option (list Z)) :=
  do ok <- ram_gets init_ok;
  if negb ok then ret None else
  if crc_is_ok env then
    run ef_port_env_lock;
    let read_len := if value_len env <? buf_len then value_len env else buf_len in
    do bs <- port_read (addr_value env) read_len;
    run ef_port_env_unlock;
    ret (Some bs)
  else ret None.

(** *** Changing the flash *)

(** The fields of a header behind its status table; the padding is not written
    by the code and stays [0xFF]. *)
Definition name_part (nlen vlen : Z) : list Z := [u8 nlen; 255; 255; 255] ++ le_bytes vlen.
Definition hdr_bytes (len crc nlen vlen : Z) : list Z :=
  le_bytes ENV_MAGIC_WORD ++ le_bytes len ++ le_bytes crc ++ name_part nlen vlen.

Definition write_env_hdr (addr : Z) (hdr : list Z) : EM EfErrCode :=
  do r <- write_status addr ENV_STATUS_NUM ENV_PRE_WRITE;
  if negb (no_err r) then ret r else
  port_write (u32 (addr + ENV_MAGIC_OFFSET)) hdr (ENV_HDR_DATA_SIZE - ENV_MAGIC_OFFSET).

Definition sector_hdr_bytes (combined_value : Z) : list Z :=
  fst (set_status SECTOR_STORE_STATUS_NUM SECTOR_STORE_EMPTY)
  ++ fst (set_status SECTOR_DIRTY_STATUS_NUM SECTOR_DIRTY_FALSE) ++ [255; 255]
  ++ le_bytes SECTOR_MAGIC_WORD ++ le_bytes combined_value ++ le_bytes 4294967295.

Definition format_sector (addr combined_value : Z) : EM EfErrCode :=
  if negb (addr mod SECTOR_SIZE =? 0) then fault else
  do r <- port_erase addr SECTOR_SIZE;
  if no_err r then
    do r <- port_write addr (sector_hdr_bytes combined_value) SECTOR_HDR_DATA_SIZE;
    run cache_sector addr (u32 (addr + SECTOR_SIZE));
    ret r
  else ret r.

(** The result and [is_full], which keeps its value [is_full0] when the sector
    was empty. *)
Definition update_sec_status (sector : sector_meta_data) (new_env_len : Z) (is_full0 : bool)
    : EM (EfErrCode * bool) :=
  if status_store sector =? SECTOR_STORE_EMPTY then
    do r <- write_status (s_addr sector) SECTOR_STORE_STATUS_NUM SECTOR_STORE_USING;
    ret (r, is_full0)
  else if status_store sector =? SECTOR_STORE_USING then
    if (remain sector <? EF_SEC_REMAIN_THRESHOLD)
       || (u32 (remain sector - new_env_len) <? EF_SEC_REMAIN_THRESHOLD) then
      do r <- write_status (s_addr sector) SECTOR_STORE_STATUS_NUM SECTOR_STORE_FULL;
      run cache_sector (s_addr sector) (u32 (s_addr sector + SECTOR_SIZE));
      ret (r, true)
    else ret (EF_NO_ERR, false)
  else ret (EF_NO_ERR, is_full0).

Definition sector_statistics_cb (sector : sector_meta_data) (acc : Z * Z) : EM (bool * (Z * Z)) :=
  let '(empty_sector, using_sector) := acc in
  if check_ok sector && (status_store sector =? SECTOR_STORE_EMPTY) then
    ret (false, (u32 (empty_sector + 1), using_sector))
  else if check_ok sector && (status_store sector =? SECTOR_STORE_USING) then
    ret (false, (empty_sector, u32 (using_sector + 1)))
  else ret (false, acc).

Definition alloc_env_cb (env_size : Z) (sector : sector_meta_data) (empty : Z) : EM (bool * Z) :=
  do gc <- ram_gets gc_request;
  if check_ok sector && (env_size <? remain sector)
     && ((status_dirty sector =? SECTOR_DIRTY_FALSE)
         || ((status_dirty sector =? SECTOR_DIRTY_TRUE) && negb gc))
  then ret (true, empty_env sector) else ret (false, empty).

Definition alloc_env (sector : sector_meta_data) (env_size : Z) : EM (Z * sector_meta_data) :=
  do r <- sector_iterator sector SECTOR_STORE_UNUSED (0, 0) sector_statistics_cb false;
  let '(sector, (empty_sector, using_sector)) := r in
  do r <- (if 0 <? using_sector
           then sector_iterator sector SECTOR_STORE_USING FAILED_ADDR (alloc_env_cb env_size) true
           else ret (sector, FAILED_ADDR));
  let '(sector, empty) := r in
  if (0 <? empty_sector) && (empty =? FAILED_ADDR) then
    do gc <- ram_gets gc_request;
    if (EF_GC_EMPTY_SEC_THRESHOLD <? empty_sector) || gc then
      do r <- sector_iterator sector SECTOR_STORE_EMPTY empty (alloc_env_cb env_size) true;
      ret (snd r, fst r)
    else run ram_put (put_gc_request true); ret (empty, sector)
  else ret (empty, sector).

(** The record is the one given, or the one of the key. *)
Definition del_target (key : option (list Z)) (old_env : option env_node_obj) : EM (option env_node_obj) :=
  match old_env with
  | Some env => ret (Some env)
  | None =>
      match key with
      | Some k => do r <- find_env k junk_env;
                  let '(ok, env) := r in ret (if ok : bool then Some env else None)
      | None => fault
      end
  end.

(** A null [key] stands for the name in the record. *)
Definition del_env (key : option (list Z)) (old_env : option env_node_obj) (complete_del : bool)
    : EM EfErrCode :=
  do target <- del_target key old_env;
  match target with
  | None => ret EF_ENV_NAME_ERR
  | Some old =>
      do result <- (
        if negb complete_del then
          do r <- write_status (addr_start old) ENV_STATUS_NUM ENV_PRE_DELETE;
          run ram_put (put_last true); ret r
        else
          do r <- write_status (addr_start old) ENV_STATUS_NUM ENV_DELETED;
          do last <- ram_gets last_is_complete_del;
          run (if negb last && no_err r then
                 match key with
                 | Some k => cache_env k FAILED_ADDR
                 | None => do name <- lift_opt (prefix (env_name old) (name_len old)); cache_env name FAILED_ADDR
                 end
               else ret tt);
          run ram_put (put_last false); ret r);
      let dirty_addr := u32 (EF_ALIGN_DOWN (addr_start old) SECTOR_SIZE + SECTOR_DIRTY_OFFSET) in
      if no_err result then
        do dirty <- read_status dirty_addr SECTOR_DIRTY_STATUS_NUM;
        if dirty =? SECTOR_DIRTY_FALSE
        then write_status dirty_addr SECTOR_DIRTY_STATUS_NUM SECTOR_DIRTY_TRUE
        else ret result
      else ret result
  end.

(** The copying loop of [move_env]; the result is that of the last write. *)
Fixpoint copy_loop (fuel : nat) (from to len env_len : Z) (result : EfErrCode) : EM EfErrCode :=
  if len <? env_len then
    match fuel with
    | O => fault
    | S k =>
        let size := if u32 (len + 32) <? env_len then 32 else env_len - len in
        do buf <- port_read (u32 (from + len)) (EF_WG_ALIGN size);
        do result <- port_write (u32 (to + len)) buf size;
        copy_loop k from to (u32 (len + size)) env_len result
    end
  else ret result.

(** [char name[EF_ENV_NAME_MAX + 1] = { 0 }; strncpy(name, env->name, env->name_len)]. *)
Definition name_of (env : env_node_obj) : option (list Z) :=
  match prefix (env_name env) (name_len env) with
  | Some bs => c_string (bs ++ [0])
  | None => None
  end.

Definition move_env (env : env_node_obj) : EM EfErrCode :=
  run (if env_status env =? ENV_WRITE
       then run del_env None (Some env) false; ret tt else ret tt);
  do r <- alloc_env junk_sector (env_len env);
  let '(env_addr, sector) := r in
  if env_addr =? FAILED_ADDR then ret EF_ENV_FULL else
  do recovery <- ram_gets in_recovery_check;
  do created <- (if recovery : bool then
                   do name <- lift_opt (name_of env);
                   do r <- find_env_no_cache name junk_env; ret (fst r)
                 else ret false);
  do result <- (if created : bool then ret EF_NO_ERR else
    run update_sec_status sector (env_len env) false;
    run write_status env_addr ENV_STATUS_NUM ENV_PRE_WRITE;
    do result <- copy_loop SECTOR_FUEL (u32 (addr_start env + ENV_MAGIC_OFFSET))
                   (u32 (env_addr + ENV_MAGIC_OFFSET)) 0 (u32 (env_len env - ENV_MAGIC_OFFSET)) EF_NO_ERR;
    run write_status env_addr ENV_STATUS_NUM ENV_WRITE;
    run cache_sector (EF_ALIGN_DOWN env_addr SECTOR_SIZE)
          (u32 (env_addr + ENV_HDR_DATA_SIZE + EF_WG_ALIGN (name_len env) + EF_WG_ALIGN (value_len env)));
    do name <- lift_opt (prefix (env_name env) (name_len env));
    run cache_env name env_addr;
    ret result);
  run del_env None (Some env) true;
  ret result.

(** *** Garbage collection *)

Definition gc_check_cb (sector : sector_meta_data) (empty_sec : Z) : EM (bool * Z) :=
  ret (false, if check_ok sector then u32 (empty_sec + 1) else empty_sec).

Fixpoint gc_records (fuel : nat) (sector : sector_meta_data) (env : env_node_obj) : EM unit :=
  do a <- get_next_env_addr sector env;
  if a =? FAILED_ADDR then ret tt else
  match fuel with
  | O => fault
  | S k =>
      do r <- read_env (set_start a env);
      let env := snd r in
      run (if crc_is_ok env && ((env_status env =? ENV_WRITE) || (env_status env =? ENV_PRE_DELETE))
           then run move_env env; ret tt else ret tt);
      gc_records k sector env
  end.

Definition do_gc (sector : sector_meta_data) (acc : unit) : EM (bool * unit) :=
  if check_ok sector
     && ((status_dirty sector =? SECTOR_DIRTY_TRUE) || (status_dirty sector =? SECTOR_DIRTY_GC)) then
    run write_status (u32 (s_addr sector + SECTOR_DIRTY_OFFSET)) SECTOR_DIRTY_STATUS_NUM SECTOR_DIRTY_GC;
    run gc_records SECTOR_FUEL sector (set_start FAILED_ADDR junk_env);
    run format_sector (s_addr sector) SECTOR_NOT_COMBINED;
    ret (false, tt)
  else ret (false, tt).

Definition gc_collect : EM unit :=
  do r <- sector_iterator junk_sector SECTOR_STORE_EMPTY 0 gc_check_cb false;
  let '(sector, empty_sec) := r in
  run (if empty_sec <=? EF_GC_EMPTY_SEC_THRESHOLD
       then run sector_iterator sector SECTOR_STORE_UNUSED tt do_gc false; ret tt else ret tt);
  ram_put (put_gc_request false).

(** *** Creating and setting *)

Definition new_env (sector : sector_meta_data) (env_size : Z) : EM (Z * sector_meta_data) :=
  do r <- alloc_env sector env_size;
  let '(empty, sector) := r in
  do gc <- ram_gets gc_request;
  if (empty =? FAILED_ADDR) && gc then run gc_collect; alloc_env sector env_size else ret (empty, sector).

Definition env_size (key_len buf_len : Z) : Z :=
  u32 (ENV_HDR_DATA_SIZE + EF_WG_ALIGN key_len + EF_WG_ALIGN buf_len).

Definition new_env_by_kv (sector : sector_meta_data) (key_len buf_len : Z) : EM (Z * sector_meta_data) :=
  new_env sector (env_size key_len buf_len).

Definition align_write (addr : Z) (buf : list Z) (size : Z) : EM EfErrCode :=
  do r <- port_write addr buf (EF_WG_ALIGN_DOWN size);
  let align_remain := size - EF_WG_ALIGN_DOWN size in
  if no_err r && negb (align_remain =? 0) then
    do bs <- lift_opt (prefix (drop (Z.to_nat (EF_WG_ALIGN_DOWN size)) buf) align_remain);
    port_write (u32 (addr + EF_WG_ALIGN_DOWN size)) (bs ++ drop (Z.to_nat align_remain) [255]) 1
  else ret r.

(** [while(align_remain--) crc32(&ff, 1)]. *)
Definition pad_crc (crc n : Z) : Z := ef_calc_crc32 crc (replicate (Z.to_nat n) 255).

Definition env_crc (key value : list Z) : Z :=
  let crc := ef_calc_crc32 0 (name_part (zlen key) (zlen value)) in
  let crc := pad_crc (ef_calc_crc32 crc key) (EF_WG_ALIGN (zlen key) - zlen key) in
  pad_crc (ef_calc_crc32 crc value) (EF_WG_ALIGN (zlen value) - zlen value).

Definition create_env_blob (sector : sector_meta_data) (key value : list Z) (len : Z)
    : EM (EfErrCode * sector_meta_data) :=
  let env_addr := empty_env sector in
  if EF_ENV_NAME_MAX <? zlen key then ret (EF_ENV_NAME_ERR, sector) else
  let size := env_size (zlen key) len in
  if SECTOR_SIZE - SECTOR_HDR_DATA_SIZE <? size then ret (EF_ENV_FULL, sector) else
  do value <- lift_opt (prefix value len);
  do r <- (if env_addr =? FAILED_ADDR then new_env sector size else ret (env_addr, sector));
  let '(env_addr, sector) := r in
  if env_addr =? FAILED_ADDR then ret (EF_ENV_FULL, sector) else
  do r <- update_sec_status sector size false;
  let '(r0, is_full) := r in
  do r1 <- (if no_err r0
            then write_env_hdr env_addr (hdr_bytes size (env_crc key value) (zlen key) len) else ret r0);
  let name_addr := u32 (env_addr + ENV_HDR_DATA_SIZE) in
  do r2 <- (if no_err r1 then
              do w <- align_write name_addr (key ++ [0]) (zlen key);
              run (if negb is_full then cache_sector (s_addr sector)
                     (u32 (name_addr + EF_WG_ALIGN (zlen key) + EF_WG_ALIGN len)) else ret tt);
              run cache_env key env_addr; ret w
            else ret r1);
  do r3 <- (if no_err r2 then align_write (u32 (name_addr + EF_WG_ALIGN (zlen key))) value len else ret r2);
  do r4 <- (if no_err r3 then write_status env_addr ENV_STATUS_NUM ENV_WRITE else ret r3);
  run (if no_err r4 && is_full then ram_put (put_gc_request true) else ret tt);
  ret (r4, sector).

Definition ef_del_env (key : list Z) : EM EfErrCode :=
  do ok <- ram_gets init_ok;
  if negb ok then ret EF_ENV_INIT_FAILED else
  run ef_port_env_lock;
  do r <- del_env (Some key) None true;
  run ef_port_env_unlock;
  ret r.

Definition ef_del_and_save_env (key : list Z) : EM EfErrCode := ef_del_env key.

(** [None] is the null pointer. *)
Definition set_env (key : list Z) (value_buf : option (list Z)) (buf_len : Z) : EM EfErrCode :=
  match value_buf with
  | None => del_env (Some key) None true
  | Some value =>
      do sector <- ram_gets set_env_sector;
      do r <- new_env_by_kv sector (zlen key) buf_len;
      let '(addr, sector) := r in
      run ram_put (put_sector sector);
      if addr =? FAILED_ADDR then ret EF_ENV_FULL else
      do env <- ram_gets set_env_obj;
      do r <- find_env key env;
      let '(env_is_found, env) := r in
      run ram_put (put_obj env);
      do result <- (if env_is_found : bool then del_env (Some key) (Some env) false else ret EF_NO_ERR);
      do result <- (if no_err result then
                      do r <- create_env_blob sector key value buf_len;
                      run ram_put (put_sector (snd r)); ret (fst r)
                    else ret result);
      do result <- (if env_is_found && no_err result then del_env (Some key) (Some env) true else ret result);
      do gc <- ram_gets gc_request;
      run (if gc : bool then gc_collect else ret tt);
      ret result
  end.

Definition ef_set_env_blob (key : list Z) (value_buf : option (list Z)) (buf_len : Z) : EM EfErrCode :=
  do ok <- ram_gets init_ok;
  if negb ok then ret EF_ENV_INIT_FAILED else
  run ef_port_env_lock;
  do r <- set_env key value_buf buf_len;
  run ef_port_env_unlock;
  ret r.

Definition ef_set_env (key value : list Z) : EM EfErrCode := ef_set_env_blob key (Some value) (zlen value).
Definition ef_set_and_save_env (key value : list Z) : EM EfErrCode := ef_set_env_blob key (Some value) (zlen value).
Definition ef_save_env : EM EfErrCode := ret EF_NO_ERR.

(** *** Defaults, recovery, start *)

Definition default_len (d : ef_env) : Z := if def_len d =? 0 then zlen (def_value d) else def_len d.

(** The result of [create_env_blob] is dropped. *)
Fixpoint create_defaults (l : list ef_env) (sector : sector_meta_data) : EM unit :=
  match l with
  | [] => ret tt
  | d :: l' =>
      do r <- create_env_blob (set_room (remain sector) FAILED_ADDR sector) (def_key d) (def_value d) (default_len d);
      create_defaults l' (snd r)
  end.

Fixpoint format_all (n : nat) (addr : Z) : EM EfErrCode :=
  do start <- ram_gets env_start_addr;
  if addr <? u32 (start + ENV_AREA_SIZE) then
    match n with
    | O => fault
    | S k =>
        do r <- format_sector addr SECTOR_NOT_COMBINED;
        if no_err r then format_all k (u32 (addr + SECTOR_SIZE)) else ret r
    end
  else ret EF_NO_ERR.

Definition ef_env_set_default : EM EfErrCode :=
  do l <- ram_gets default_env_set;
  match l with
  | [] => fault
  | _ =>
      run ef_port_env_lock;
      do start <- ram_gets env_start_addr;
      do r <- format_all SECTORS_FUEL start;
      run (if no_err r then create_defaults l junk_sector else ret tt);
      run ef_port_env_unlock;
      ret r
  end.

Definition check_sec_hdr_cb (sector : sector_meta_data) (failed_count : Z) : EM (bool * Z) :=
  if negb (check_ok sector) then
    run format_sector (s_addr sector) SECTOR_NOT_COMBINED;
    ret (false, u32 (failed_count + 1))
  else ret (false, failed_count).

Definition check_and_recovery_gc_cb (sector : sector_meta_data) (acc : unit) : EM (bool * unit) :=
  if check_ok sector && (status_dirty sector =? SECTOR_DIRTY_GC) then
    run ram_put (put_gc_request true);
    run gc_collect;
    ret (false, tt)
  else ret (false, tt).

Definition check_and_recovery_env_cb (env : env_node_obj) (acc : unit) : EM (bool * unit) :=
  if crc_is_ok env && (env_status env =? ENV_PRE_DELETE) then
    do r <- move_env env;
    ret (negb (no_err r), tt)
  else if env_status env =? ENV_PRE_WRITE then
    run write_status (addr_start env) ENV_STATUS_NUM ENV_ERR_HDR;
    ret (true, tt)
  else ret (false, tt).

(** The loop [__retry]. *)
Fixpoint recovery_loop (fuel : nat) (env : env_node_obj) : EM unit :=
  match fuel with
  | O => fault
  | S k =>
      do r <- env_iterator env tt check_and_recovery_env_cb;
      do gc <- ram_gets gc_request;
      if gc : bool then run gc_collect; recovery_loop k (fst r) else ret tt
  end.

Definition ef_load_env (fuel : nat) : EM EfErrCode :=
  run ram_put (put_recovery true);
  do r <- sector_iterator junk_sector SECTOR_STORE_UNUSED 0 check_sec_hdr_cb false;
  let '(sector, check_failed_count) := r in
  run (if check_failed_count =? SECTOR_NUM then run ef_env_set_default; ret tt else ret tt);
  run ef_port_env_lock;
  run sector_iterator sector SECTOR_STORE_UNUSED tt check_and_recovery_gc_cb false;
  run recovery_loop fuel junk_env;
  run ram_put (put_recovery false);
  run ef_port_env_unlock;
  ret EF_NO_ERR.

Definition invalid_caches (r : EfRam) : EfRam :=
  put_env_cache (map (fun n => mkEnvNode (name_crc n) (active n) FAILED_ADDR) (env_cache_table r))
    (put_sec_cache (map (fun n => mkSecNode FAILED_ADDR (empty_addr n)) (sector_cache_table r)) r).

Definition ef_env_init (fuel : nat) (default_env : list ef_env) : EM EfErrCode :=
  do ok <- ram_gets init_ok;
  if ok : bool then ret EF_NO_ERR else
  run ram_put invalid_caches;
  run ram_put (put_start EF_START_ADDR);
  run ram_put (put_defaults default_env);
  do result <- ef_load_env fuel;
  run (if no_err result then ram_put (put_init_ok true) else ret tt);
  ret result.

(** [src/storage/ef_fal_port.c]. *)
Definition port_default_set : list ef_env := [mkDefault (str "boot_times") (str "0") 0].

Definition ef_port_init : EM (EfErrCode * list ef_env) :=
  run ram_put (put_lock 1);
  match ef_part with
  | Some _ => ret (EF_NO_ERR, port_default_set)
  | None => fault
  end.

Definition easyflash_init (fuel : nat) : EM EfErrCode :=
  do r <- ef_port_init;
  let '(result, default_env) := r in
  if no_err result then ef_env_init fuel default_env else ret result.
End Operations.
