(* ===== verification/EfFlash.v ===== *)
(** * The flash under the key-value store

    What the store relies on of the serial flash ([FlashDoc]: reading, writing
    and erasing work, and the contents it goes through on the way are those of
    bytes programmed in order and of blocks erased in order), the rules for the
    port functions, and what the loops of [EfEnv] that read the flash piece by
    piece compute: the check sum of a range, the first magic word, the end of
    the data. *)

From Stdlib Require Import String.
From S2P Require Import Prelude CStr Storage EfEnv.
Open Scope list_scope.

(** ** Contents *)

(** The contents after programming [bs] at [a]: bits are only cleared. *)
Definition prog (mu : Z -> Z) (a : Z) (bs : list Z) : Z -> Z :=
  fun x => match aget bs (x - a) with Some b => Z.land (mu x) b | None => mu x end.

(** The contents after erasing from [a] up to [e]. *)
Definition wipe (mu : Z -> Z) (a e : Z) : Z -> Z :=
  fun x => if (a <=? x) && (x <? e) then 255 else mu x.

Definition bytes_at (mu : Z -> Z) (a n : Z) : list Z := map mu (seqZ a n).

Definition nor_capacity : Z := 2 * 1024 * 1024.

(** [passed c mu]: the flash has had the contents [mu]; they are what a loss of
    power at that moment leaves. *)
Class FlashDoc (C : Type) `{ChipLaws C} := {
  passed : C -> (Z -> Z) -> Prop;
  read_doc c a n : 0 <= n -> sfud_read c a n = bytes_at (nor c) a n;
  write_doc c a bs : 0 <= a -> a + zlen bs <= nor_capacity -> fst (sfud_write c a bs) = true;
  erase_doc c a n : 0 <= a -> 0 < n -> a + n <= nor_capacity -> fst (sfud_erase c a n) = true;
  passed_write c a bs mu :
    passed (snd (sfud_write c a bs)) mu ->
    passed c mu \/ exists n, (n <= length bs)%nat /\ forall x, mu x = prog (nor c) a (take n bs) x;
  passed_erase c a n mu :
    a mod erase_gran = 0 -> n mod erase_gran = 0 ->
    passed (snd (sfud_erase c a n)) mu ->
    passed c mu \/ exists e, a <= e <= a + n /\ e mod erase_gran = 0 /\ forall x, mu x = wipe (nor c) a e x;
  passed_during_write c a bs n : (n <= length bs)%nat -> passed (snd (sfud_write c a bs)) (prog (nor c) a (take n bs));
  passed_during_erase c a n e :
    a <= e <= a + n -> e mod erase_gran = 0 -> passed (snd (sfud_erase c a n)) (wipe (nor c) a e)
}.

Lemma bytes_at_zlen mu a n : 0 <= n -> zlen (bytes_at mu a n) = n.
Proof. intros. unfold zlen, bytes_at. rewrite length_map, length_seqZ. lia. Qed.

Lemma bytes_at_app mu a m n :
  0 <= m -> 0 <= n -> bytes_at mu a (m + n) = bytes_at mu a m ++ bytes_at mu (a + m) n.
Proof. intros. unfold bytes_at. by rewrite seqZ_app, map_app by lia. Qed.

Lemma bytes_at_cons mu a n : 0 < n -> bytes_at mu a n = mu a :: bytes_at mu (a + 1) (n - 1).
Proof. intros. unfold bytes_at. rewrite seqZ_cons by lia. cbn [map]. by replace (Z.succ a) with (a + 1) by lia. Qed.

Lemma bytes_at_nil mu a n : n <= 0 -> bytes_at mu a n = [].
Proof. intros. unfold bytes_at. by rewrite seqZ_nil by lia. Qed.

Lemma bytes_at_aget mu a n i : 0 <= i < n -> aget (bytes_at mu a n) i = Some (mu (a + i)).
Proof.
  intros. rewrite aget_lookup by lia. unfold bytes_at. rewrite list_lookup_fmap, lookup_seqZ_lt by lia.
  cbn. f_equal. f_equal. lia.
Qed.

Lemma bytes_at_lookup mu a n i : Z.of_nat i < n -> bytes_at mu a n !! i = Some (mu (a + Z.of_nat i)).
Proof.
  intros. pose proof (bytes_at_aget mu a n (Z.of_nat i) ltac:(lia)) as Hx.
  by rewrite aget_lookup, Nat2Z.id in Hx by lia.
Qed.

Lemma bytes_at_ext mu nu a n : (forall x, a <= x < a + n -> mu x = nu x) -> bytes_at mu a n = bytes_at nu a n.
Proof.
  intros Hx. unfold bytes_at. apply map_ext_in. intros x Hin. apply Hx.
  apply list_elem_of_In in Hin. apply elem_of_seqZ in Hin. lia.
Qed.

(** ** The rules

    [wpc P m Q s]: from [s], [m] ends with [Q], and every content the flash
    passes through meanwhile satisfies [P]. *)

Section Rules.
Context {C : Type} `{FlashDoc C} (P : (Z -> Z) -> Prop).

Definition mem (s : Ef C) : Z -> Z := nor (chip s).

Definition wpc {A} (m : M (Ef C) A) (Q : A -> Ef C -> Prop) (s : Ef C) : Prop :=
  wp m (fun a s' => (forall mu, passed (chip s') mu -> passed (chip s) mu \/ P mu) /\ Q a s') s.

Lemma wpc_ret {A} (a : A) (Q : A -> Ef C -> Prop) s : Q a s -> wpc (ret a) Q s.
Proof. intros HQ. apply wp_ret. auto. Qed.

Lemma wpc_bind {A B} (m : M (Ef C) A) (k : A -> M (Ef C) B) Q s :
  wpc m (fun a s' => wpc (k a) Q s') s -> wpc (bind m k) Q s.
Proof.
  intros Hm. apply wp_bind. eapply wp_conseq; [exact Hm|]. intros a s' [Hp Hk].
  eapply wp_conseq; [exact Hk|]. intros b s'' [Hp' HQ]. split; [|exact HQ].
  intros mu [Hmu|]%Hp'; auto.
Qed.

Lemma wpc_conseq {A} (m : M (Ef C) A) (Q R : A -> Ef C -> Prop) s :
  wpc m Q s -> (forall a s', Q a s' -> R a s') -> wpc m R s.
Proof. intros Hm HR. eapply wp_conseq; [exact Hm|]. intros a s' [? ?]. auto. Qed.

Lemma wpc_gets {A} (f : EfRam -> A) (Q : A -> Ef C -> Prop) s : Q (f (ram s)) s -> wpc (ram_gets f) Q s.
Proof. intros HQ. apply wp_gets. auto. Qed.

Lemma wpc_put f (Q : unit -> Ef C -> Prop) s : Q tt (mkEf (chip s) (f (ram s))) -> wpc (ram_put f) Q s.
Proof. intros HQ. apply wp_modify. auto. Qed.

Lemma wpc_lift_opt {A} (o : option A) x (Q : A -> Ef C -> Prop) s : o = Some x -> Q x s -> wpc (lift_opt o) Q s.
Proof. intros -> HQ. by apply wpc_ret. Qed.

(** *** The port *)

Lemma ef_part_easyflash : ef_part = Some (mkPart "easyflash" "norflash0" 0 1048576).
Proof. reflexivity. Qed.

Lemma nor_dev : fal_flash_device_find "norflash0" = Some nor_flash0.
Proof. reflexivity. Qed.

Lemma wpc_port_read a n (Q : list Z -> Ef C -> Prop) s :
  0 <= a -> 0 <= n -> a + n <= 1048576 -> Q (bytes_at (mem s) a n) s -> wpc (port_read a n) Q s.
Proof.
  intros Ha Hn Hr HQ. unfold port_read, on_chip, ef_port_read.
  rewrite ef_part_easyflash. cbn [fal_partition_read len offset flash_name].
  rewrite u32_small, (proj2 (Z.ltb_ge _ _)) by lia. rewrite nor_dev. cbn [ops_read].
  rewrite Z.add_0_l, (u32_small a) by lia. unfold nor_read. rewrite u32_small by lia.
  unfold wpc, wp, bind, zoom, gets. cbn. rewrite read_doc by done.
  split; [auto|]. by destruct s.
Qed.

Lemma sfud_write_prog c a bs x :
  0 <= a -> a + zlen bs <= nor_capacity -> nor (snd (sfud_write c a bs)) x = prog (nor c) a bs x.
Proof.
  intros Ha Hb. unfold prog. pose proof (write_doc c a bs Ha Hb) as Hok.
  destruct (aget bs (x - a)) as [b|] eqn:E.
  - apply aget_Some in E as [Hx E]. pose proof (sfud_write_ok c a bs _ b Hok E) as Hw.
    by replace (a + Z.of_nat (Z.to_nat (x - a))) with x in Hw by lia.
  - apply sfud_write_frame. destruct (Z.lt_ge_cases x a); [by left|]. right.
    destruct (Z.lt_ge_cases (x - a) (zlen bs)); [|lia].
    destruct (aget_is_Some bs (x - a)); [lia | congruence].
Qed.

Lemma wpc_port_write a buf bs n (Q : EfErrCode -> Ef C -> Prop) s :
  0 <= a -> prefix buf n = Some bs -> a + n <= 1048576 ->
  (forall mu k, (k <= length bs)%nat -> (forall x, mu x = prog (mem s) a (take k bs) x) -> P mu) ->
  (forall s', ram s' = ram s -> (forall x, mem s' x = prog (mem s) a bs x) -> Q EF_NO_ERR s') ->
  wpc (port_write a buf n) Q s.
Proof.
  intros Ha Hb Hr HP HQ. pose proof (prefix_zlen _ _ _ Hb) as Hn. pose proof (zlen_nonneg bs).
  unfold port_write, on_chip, ef_port_write.
  rewrite ef_part_easyflash. cbn [fal_partition_write len offset flash_name].
  rewrite u32_small, (proj2 (Z.ltb_ge _ _)) by lia. rewrite nor_dev. cbn [ops_write].
  rewrite Z.add_0_l, (u32_small a) by lia. unfold nor_write. rewrite Hb, u32_small by lia.
  unfold wpc, wp, bind, zoom, lift_opt, ret. cbn.
  destruct (sfud_write (chip s) a bs) as [ok c'] eqn:E.
  pose proof (write_doc (chip s) a bs Ha) as Hok. rewrite E in Hok. cbn in Hok.
  rewrite Hok by (unfold nor_capacity; lia). rewrite (proj2 (Z.ltb_ge n 0)) by lia. cbn. split.
  - intros mu Hmu. pose proof (passed_write (chip s) a bs mu) as Hp. rewrite E in Hp.
    destruct (Hp Hmu) as [|(k & Hk & Hx)]; [by left | right]. by apply (HP mu k).
  - apply HQ; [done|]. intros x. unfold mem. cbn.
    pose proof (sfud_write_prog (chip s) a bs x Ha) as Hx. rewrite E in Hx. apply Hx. unfold nor_capacity. lia.
Qed.

Lemma wpc_port_erase a (Q : EfErrCode -> Ef C -> Prop) s :
  0 <= a -> a mod EF_ERASE_MIN_SIZE = 0 -> a + SECTOR_SIZE <= 1048576 ->
  (forall mu e, a <= e <= a + SECTOR_SIZE -> e mod erase_gran = 0 ->
     (forall x, mu x = wipe (mem s) a e x) -> P mu) ->
  (forall s', ram s' = ram s -> (forall x, mem s' x = wipe (mem s) a (a + SECTOR_SIZE) x) -> Q EF_NO_ERR s') ->
  wpc (port_erase a SECTOR_SIZE) Q s.
Proof.
  intros Ha Hm Hr HP HQ. unfold SECTOR_SIZE, EF_ERASE_MIN_SIZE in *.
  unfold port_erase, on_chip, ef_port_erase, EF_ERASE_MIN_SIZE. rewrite Hm, Z.eqb_refl.
  rewrite ef_part_easyflash. cbn [fal_partition_erase len offset flash_name].
  rewrite u32_small, (proj2 (Z.ltb_ge _ _)) by lia. rewrite nor_dev. cbn [ops_erase].
  rewrite Z.add_0_l, (u32_small a) by lia. unfold nor_erase. rewrite u32_small by lia.
  unfold wpc, wp, bind, zoom, ret. cbn.
  assert (Ham : a mod erase_gran = 0).
  { apply Z.div_exact in Hm; [|lia]. unfold erase_gran. rewrite Hm.
    replace (131072 * (a / 131072)) with (a / 131072 * 32 * 4096) by lia. by apply Z.mod_mul. }
  destruct (sfud_erase (chip s) a 131072) as [ok c'] eqn:E.
  pose proof (erase_doc (chip s) a 131072 Ha) as Hok. rewrite E in Hok. cbn in Hok.
  rewrite Hok by (unfold nor_capacity; lia). cbn. split.
  - intros mu Hmu. pose proof (passed_erase (chip s) a 131072 mu Ham eq_refl) as Hp. rewrite E in Hp.
    destruct (Hp Hmu) as [|(e & He & Hem & Hx)]; [by left | right]. by apply (HP mu e).
  - apply HQ; [done|]. intros x. unfold mem, wipe. cbn.
    pose proof (sfud_erase_ok (chip s) a 131072 x) as Hin. pose proof (sfud_erase_frame (chip s) a 131072 x) as Hout.
    rewrite E in Hin, Hout. cbn in Hin, Hout.
    destruct (Z.leb_spec a x), (Z.ltb_spec x (a + 131072)); cbn [andb].
    + apply Hin; [apply Hok; unfold nor_capacity|]; lia.
    + apply Hout. right. unfold erase_gran in *. apply Z.div_exact in Ham; [|lia].
      apply Z.div_lt_upper_bound; [lia|]. pose proof (Z.div_le_mono (a + 131072) x 4096).
      replace (a + 131072) with ((a / 4096 + 32) * 4096) in * by lia. rewrite Z.div_mul in * by lia. lia.
    + apply Hout. left. unfold erase_gran in *. apply Z.div_exact in Ham; [|lia].
      apply Z.div_lt_upper_bound; lia.
    + lia.
Qed.
End Rules.

(** ** What the loops compute *)

Lemma EF_WG_ALIGN_id n : 0 <= n < 2 ^ 32 -> EF_WG_ALIGN n = n.
Proof.
  intros Hn. unfold EF_WG_ALIGN, EF_ALIGN, EF_WRITE_GRAN. change ((8 + 7) / 8) with 1.
  replace (n + 1 - 1) with n by lia. rewrite u32_small by lia. apply Z.land_m1_r.
Qed.

Lemma EF_WG_ALIGN_DOWN_id n : EF_WG_ALIGN_DOWN n = n.
Proof. apply Z.land_m1_r. Qed.

Lemma EF_ALIGN_DOWN_sector a : EF_ALIGN_DOWN a SECTOR_SIZE = a - a mod SECTOR_SIZE.
Proof.
  unfold EF_ALIGN_DOWN, SECTOR_SIZE, EF_ERASE_MIN_SIZE. change (131072 - 1) with (Z.ones 17).
  rewrite <- Z.ldiff_land, Z.ldiff_ones_r by lia. rewrite Z.shiftl_mul_pow2, Z.shiftr_div_pow2 by lia.
  change (2 ^ 17) with 131072. pose proof (Z.div_mod a 131072). lia.
Qed.

Lemma crc_app c l1 l2 : ef_calc_crc32 (ef_calc_crc32 c l1) l2 = ef_calc_crc32 c (l1 ++ l2).
Proof.
  unfold ef_calc_crc32. rewrite fold_left_app. f_equal. f_equal.
  by rewrite Z.lxor_assoc, Z.lxor_nilpotent, Z.lxor_0_r.
Qed.

Lemma crc_nil c : ef_calc_crc32 c [] = c.
Proof. unfold ef_calc_crc32. cbn. by rewrite Z.lxor_assoc, Z.lxor_nilpotent, Z.lxor_0_r. Qed.

(** The magic word of a record begins at [a]. *)
Definition magic_at (mu : Z -> Z) (a : Z) : Prop := bytes_at mu a 4 = le_bytes ENV_MAGIC_WORD.

#[export] Instance magic_at_dec mu a : Decision (magic_at mu a).
Proof. unfold magic_at; apply _. Defined.

(** Where the search from [start] with the limit [end_] ends: the first record
    whose magic word lies before the limit. *)
Definition first_magic (mu : Z -> Z) (start end_ a : Z) : Prop :=
  start <= a /\ a + ENV_MAGIC_OFFSET < end_ /\ magic_at mu (a + ENV_MAGIC_OFFSET)
  /\ forall b, start <= b < a -> ~ magic_at mu (b + ENV_MAGIC_OFFSET).
Definition no_magic (mu : Z -> Z) (start end_ : Z) : Prop :=
  forall b, start <= b -> b + ENV_MAGIC_OFFSET < end_ -> ~ magic_at mu (b + ENV_MAGIC_OFFSET).

(** Everything from [f] to [end_] is erased, and nothing before, from [start] on. *)
Definition ff_from (mu : Z -> Z) (start end_ f : Z) : Prop :=
  start <= f <= end_ /\ (forall x, f <= x < end_ -> mu x = 255) /\ (start < f -> mu (f - 1) <> 255).

Section Loops.
Context {C : Type} `{FlashDoc C} (P : (Z -> Z) -> Prop).
Implicit Types (s : Ef C).

Lemma mem_byte s x : is_byte (mem s x).
Proof. apply nor_byte. Qed.

Lemma wpc_crc_loop fuel : forall addr l total acc (Q : Z -> Ef C -> Prop) s,
  0 <= addr -> 0 <= l <= total -> addr + total <= 1048576 -> total - l <= 32 * Z.of_nat fuel ->
  Q (ef_calc_crc32 acc (bytes_at (mem s) (addr + l) (total - l))) s ->
  wpc P (crc_loop fuel addr l total acc) Q s.
Proof.
  induction fuel as [|fuel IH]; intros addr l total acc Q s Ha Hl Ht Hf HQ; cbn [crc_loop];
    (destruct (Z.ltb_spec l total) as [Hlt|]; [|apply wpc_ret; by rewrite bytes_at_nil, crc_nil in HQ by lia]);
    [lia|].
  set (size := if u32 (l + 32) <? total then 32 else total - l).
  assert (Hsz : size = Z.min 32 (total - l)).
  { unfold size. rewrite u32_small by lia. destruct (Z.ltb_spec (l + 32) total); lia. }
  clearbody size. cbv zeta. apply wpc_bind. rewrite EF_WG_ALIGN_id, (u32_small (addr + l)) by lia.
  apply wpc_port_read; [lia..|]. apply wpc_bind. eapply wpc_lift_opt.
  { rewrite <- (bytes_at_zlen (mem s) (addr + l) size) at 2 by lia. apply prefix_all. }
  rewrite (u32_small (l + size)) by lia. apply IH; [lia..|]. rewrite crc_app.
  replace (addr + (l + size)) with (addr + l + size) by lia.
  rewrite <- bytes_at_app by lia. by replace (size + (total - (l + size))) with (total - l) by lia.
Qed.

Lemma le32_bytes s a n i :
  0 <= i -> i + 4 <= n -> le32 (bytes_at (mem s) a n) i
  = Some (mem s (a + i) + mem s (a + i + 1) * 256 + mem s (a + i + 2) * 65536 + mem s (a + i + 3) * 16777216).
Proof.
  intros Hi Hn. unfold le32. rewrite !bytes_at_aget by lia. f_equal.
  rewrite !Z.add_assoc. apply u32_small.
  pose proof (mem_byte s (a + i)). pose proof (mem_byte s (a + i + 1)).
  pose proof (mem_byte s (a + i + 2)). pose proof (mem_byte s (a + i + 3)). unfold is_byte in *. lia.
Qed.

Lemma word_eq s a n i b0 b1 b2 b3 :
  0 <= i -> i + 4 <= n -> bytes_ok [b0; b1; b2; b3] ->
  exists w, le32 (bytes_at (mem s) a n) i = Some w
    /\ (w = b0 + b1 * 256 + b2 * 65536 + b3 * 16777216 <-> bytes_at (mem s) (a + i) 4 = [b0; b1; b2; b3]).
Proof.
  intros Hi Hn Hb. rewrite le32_bytes by lia. eexists. split; [done|].
  pose proof (mem_byte s (a + i)). pose proof (mem_byte s (a + i + 1)).
  pose proof (mem_byte s (a + i + 2)). pose proof (mem_byte s (a + i + 3)).
  rewrite !Forall_cons in Hb. destruct Hb as (? & ? & ? & ? & _). unfold is_byte in *.
  rewrite (bytes_at_cons _ _ 4), (bytes_at_cons _ _ (4 - 1)), (bytes_at_cons _ _ (4 - 1 - 1)),
    (bytes_at_cons _ _ (4 - 1 - 1 - 1)), (bytes_at_nil _ _ (4 - 1 - 1 - 1 - 1)) by lia.
  replace (a + i + 1 + 1) with (a + i + 2) by lia. replace (a + i + 2 + 1) with (a + i + 3) by lia. split.
  - intros E. assert (mem s (a + i) = b0 /\ mem s (a + i + 1) = b1 /\ mem s (a + i + 2) = b2
                      /\ mem s (a + i + 3) = b3) as (-> & -> & -> & ->) by lia. done.
  - intros [= -> -> -> ->]. lia.
Qed.

Lemma magic_word s a n i :
  0 <= i -> i + 4 <= n ->
  exists w, le32 (bytes_at (mem s) a n) i = Some w /\ (w = ENV_MAGIC_WORD <-> magic_at (mem s) (a + i)).
Proof. intros Hi Hn. apply (word_eq s a n i 75 86 52 48); [done | done | by repeat constructor]. Qed.

Lemma sector_word s a n i :
  0 <= i -> i + 4 <= n ->
  exists w, le32 (bytes_at (mem s) a n) i = Some w
    /\ (w = SECTOR_MAGIC_WORD <-> bytes_at (mem s) (a + i) 4 = le_bytes SECTOR_MAGIC_WORD).
Proof. intros Hi Hn. apply (word_eq s a n i 69 70 52 48); [done | done | by repeat constructor]. Qed.

Lemma magic_chunk_spec n : forall s at_ end_ bak,
  8 <= at_ -> at_ + Z.of_nat n + 4 < 2 ^ 32 ->
  exists r, magic_chunk n (bytes_at (mem s) at_ (Z.of_nat n + 4)) at_ end_ bak = Some r /\
    match r with
    | Some a => bak <= a /\ at_ <= a + 8 /\ a + 8 < end_ /\ magic_at (mem s) (a + 8)
                /\ forall b, bak <= b -> at_ <= b + 8 < a + 8 -> ~ magic_at (mem s) (b + 8)
    | None => forall b, bak <= b -> at_ <= b + 8 < at_ + Z.of_nat n -> b + 8 < end_ -> ~ magic_at (mem s) (b + 8)
    end.
Proof.
  induction n as [|n IH]; intros s at_ end_ bak Ha Hb; cbn [magic_chunk].
  { exists None. split; [done|]. lia. }
  destruct (Z.ltb_spec at_ end_) as [Hlt|]; [|exists None; split; [done | lia]].
  destruct (magic_word s at_ (Z.of_nat (S n) + 4) 0 ltac:(lia) ltac:(lia)) as (w & Ew & Hw).
  rewrite Ew. unfold ENV_MAGIC_OFFSET. rewrite (u32_small (at_ - 8)) by lia. rewrite Z.add_0_r in Hw.
  destruct (IH s (at_ + 1) end_ bak) as (r & Er & Hr); [lia | lia |].
  replace (bytes_at (mem s) at_ (Z.of_nat (S n) + 4)) with (mem s at_ :: bytes_at (mem s) (at_ + 1) (Z.of_nat n + 4)).
  2: { rewrite (bytes_at_cons _ at_) by lia. do 2 f_equal. lia. }
  cbn [tail]. rewrite (u32_small (at_ + 1)), Er by lia.
  destruct ((w =? ENV_MAGIC_WORD) && (bak <=? at_ - 8)) eqn:E.
  { apply andb_true_iff in E as [Hm%Z.eqb_eq Hk%Z.leb_le]. exists (Some (at_ - 8)).
    replace (at_ - 8 + 8) with at_ by lia. split; [done|]. rewrite <- Hw. repeat split; try lia. }
  assert (Hat : forall b, bak <= b -> b + 8 = at_ -> ~ magic_at (mem s) (b + 8)).
  { intros b Hb1 Hb2 Hm. rewrite Hb2, <- Hw in Hm. apply andb_false_iff in E as [?%Z.eqb_neq|?%Z.leb_gt]; lia. }
  exists r. split; [done|]. destruct r as [a|].
  - destruct Hr as (? & ? & ? & ? & Hno). repeat split; try done; try lia. intros b Hb1 Hb2.
    destruct (Z.eq_dec (b + 8) at_); [by apply Hat | apply Hno; lia].
  - intros b Hb1 Hb2 Hb3. destruct (Z.eq_dec (b + 8) at_); [by apply Hat | apply Hr; lia].
Qed.

Lemma wpc_magic_loop fuel : forall start end_ bak (Q : Z -> Ef C -> Prop) s,
  8 <= start -> end_ + 32 <= 1048576 -> 0 <= bak -> end_ - start <= 28 * Z.of_nat fuel ->
  (forall b, bak <= b -> b + 8 < start -> b + 8 < end_ -> ~ magic_at (mem s) (b + 8)) ->
  (forall a, first_magic (mem s) bak end_ a -> Q a s) ->
  (no_magic (mem s) bak end_ -> Q FAILED_ADDR s) ->
  wpc P (magic_loop fuel start end_ bak) Q s.
Proof.
  unfold first_magic, no_magic, ENV_MAGIC_OFFSET.
  induction fuel as [|fuel IH]; intros start end_ bak Q s Hs He Hb Hf Hold Hhit Hnone; cbn [magic_loop];
    (destruct (Z.ltb_spec start end_) as [Hlt|]; [|apply wpc_ret, Hnone; intros; apply Hold; try lia]); [lia|].
  apply wpc_bind, wpc_port_read; [lia..|]. apply wpc_bind.
  destruct (magic_chunk_spec 28 s start end_ bak ltac:(lia) ltac:(lia)) as (r & Er & Hr).
  change (Z.of_nat 28 + 4) with 32 in *. eapply wpc_lift_opt; [exact Er|]. destruct r as [a|].
  - destruct Hr as (? & ? & ? & ? & Hno). apply wpc_ret, Hhit. repeat split; try done.
    intros b Hb'. destruct (Z.lt_ge_cases (b + 8) start); [apply Hold | apply Hno]; lia.
  - rewrite u32_small by lia. apply IH; [lia..| |done|done].
    intros b Hb1 Hb2. destruct (Z.lt_ge_cases (b + 8) start); [apply Hold | apply Hr]; lia.
Qed.

Lemma sector_fuel : Z.of_nat SECTOR_FUEL = 131072.
Proof. unfold SECTOR_FUEL. lia. Qed.

(** The search of the next record: the cache answers when the log ends at [start]. *)
Lemma wpc_find_next start end_ (Q : Z -> Ef C -> Prop) s :
  let cached := get_sector_from_cache (start - start mod SECTOR_SIZE) (sector_cache_table (ram s)) in
  8 <= start -> end_ + 32 <= 1048576 -> end_ - start <= 131072 ->
  (cached = Some start -> Q FAILED_ADDR s) ->
  (forall a, first_magic (mem s) start end_ a -> Q a s) ->
  (no_magic (mem s) start end_ -> Q FAILED_ADDR s) ->
  wpc P (find_next_env_addr start end_) Q s.
Proof.
  intros cached Hs He Hf Hc Hhit Hnone. unfold find_next_env_addr. apply wpc_bind, wpc_gets.
  rewrite EF_ALIGN_DOWN_sector. fold cached.
  assert (Hloop : wpc P (magic_loop SECTOR_FUEL start end_ start) Q s).
  { apply wpc_magic_loop; try done; try lia. rewrite sector_fuel. lia. }
  destruct cached as [e|]; [|done].
  destruct (Z.eqb_spec start e) as [->|]; [by apply wpc_ret, Hc | done].
Qed.

(** Where the search for the end of the data stands at [pos]. *)
Definition ff_inv mu (st0 pos last addr : Z) : Prop :=
  (pos = st0 /\ last = 0 /\ addr = st0) \/
  (st0 < pos /\ last = mu (pos - 1)
   /\ (last = 255 -> st0 <= addr < pos /\ (forall x, addr <= x < pos -> mu x = 255)
                     /\ (st0 < addr -> mu (addr - 1) <> 255))).

Lemma ff_step mu st0 pos last addr :
  ff_inv mu st0 pos last addr ->
  ff_inv mu st0 (pos + 1) (mu pos) (if negb (last =? 255) && (mu pos =? 255) then pos else addr).
Proof.
  unfold ff_inv. replace (pos + 1 - 1) with pos by lia. intros Hi. right.
  split; [lia|]. split; [done|]. intros Hx. rewrite Hx, Z.eqb_refl, andb_true_r.
  destruct (Z.eqb_spec last 255) as [El|El]; cbn [negb].
  - destruct Hi as [(_ & ? & _)|(? & _ & Hi)]; [lia|]. destruct (Hi El) as (? & Hall & ?).
    split; [lia|]. split; [|done]. intros x Hxr. destruct (Z.eq_dec x pos) as [->|]; [done | apply Hall; lia].
  - split; [lia|]. split; [intros x Hxr; by replace x with pos by lia|].
    intros Hlt. destruct Hi as [(? & _)|(_ & <- & _)]; [lia | done].
Qed.

Lemma ff_chunk_spec n : forall mu st0 pos last addr,
  0 <= pos -> pos + Z.of_nat n < 2 ^ 32 -> ff_inv mu st0 pos last addr ->
  exists a l, ff_chunk (bytes_at mu pos (Z.of_nat n)) pos last addr = (a, l)
    /\ ff_inv mu st0 (pos + Z.of_nat n) l a.
Proof.
  induction n as [|n IH]; intros mu st0 pos last addr Hp Hb Hi.
  { exists addr, last. rewrite bytes_at_nil by lia. split; [done|]. by replace (pos + Z.of_nat 0) with pos by lia. }
  rewrite bytes_at_cons by lia. cbn [ff_chunk]. rewrite u32_small by lia.
  destruct (IH mu st0 (pos + 1) (mu pos) (if negb (last =? 255) && (mu pos =? 255) then pos else addr))
    as (a & l & Ef & Hi'); [lia | lia | by apply ff_step |].
  exists a, l. replace (Z.of_nat (S n) - 1) with (Z.of_nat n) by lia. split; [exact Ef|].
  by replace (pos + Z.of_nat (S n)) with (pos + 1 + Z.of_nat n) by lia.
Qed.

Lemma wpc_ff_end start end_ addr last st0 (Q : Z -> Ef C -> Prop) s :
  0 <= st0 <= end_ -> end_ <= 1048576 -> end_ <= start -> ff_inv (mem s) st0 (Z.min start end_) last addr ->
  (forall f, ff_from (mem s) st0 end_ f -> Q f s) ->
  wpc P (ret (if last =? 255 then EF_WG_ALIGN addr else end_)) Q s.
Proof.
  intros Hst He Hge Hi HQ. rewrite Z.min_r in Hi by lia. apply wpc_ret, HQ.
  unfold ff_from. destruct Hi as [(-> & -> & ->)|(Hlt & Hl & Hi)]; [cbn; repeat split; intros; lia|].
  destruct (Z.eqb_spec last 255) as [El|El].
  - destruct (Hi El) as (? & ? & ?). rewrite EF_WG_ALIGN_id by lia. repeat split; try done; lia.
  - repeat split; lia.
Qed.

Lemma wpc_ff_loop fuel : forall start end_ addr last st0 (Q : Z -> Ef C -> Prop) s,
  0 <= st0 <= end_ -> st0 <= start -> end_ <= 1048576 -> end_ - start <= 32 * Z.of_nat fuel ->
  ff_inv (mem s) st0 (Z.min start end_) last addr ->
  (forall f, ff_from (mem s) st0 end_ f -> Q f s) ->
  wpc P (ff_loop fuel start end_ addr last) Q s.
Proof.
  induction fuel as [|fuel IH]; intros start end_ addr last st0 Q s Hst Hs He Hf Hi HQ; cbn [ff_loop];
    (destruct (Z.ltb_spec start end_) as [Hlt|]; [|by eapply wpc_ff_end]); [lia|].
  set (size := if u32 (start + 32) <? end_ then 32 else end_ - start).
  assert (Hsz : size = Z.min 32 (end_ - start)).
  { unfold size. rewrite u32_small by lia. destruct (Z.ltb_spec (start + 32) end_); lia. }
  clearbody size. cbv zeta. apply wpc_bind, wpc_port_read; [lia..|].
  rewrite Z.min_l in Hi by lia. replace size with (Z.of_nat (Z.to_nat size)) by lia.
  destruct (ff_chunk_spec (Z.to_nat size) (mem s) st0 start last addr) as (a & l & Ef & Hi'); [lia | lia | done|].
  rewrite Ef, u32_small by lia. apply IH with (st0 := st0); [lia | lia | lia | lia | | done].
  by replace (Z.min (start + 32) end_) with (start + Z.of_nat (Z.to_nat size)) by lia.
Qed.

Lemma wpc_continue_ff start end_ (Q : Z -> Ef C -> Prop) s :
  0 <= start <= end_ -> end_ <= 1048576 -> end_ - start <= 131072 ->
  (forall f, ff_from (mem s) start end_ f -> Q f s) ->
  wpc P (continue_ff_addr start end_) Q s.
Proof.
  intros Hs He Hf HQ. apply wpc_ff_loop with (st0 := start); try done; try lia.
  - rewrite sector_fuel. lia.
  - rewrite Z.min_l by lia. by left.
Qed.
End Loops.
