(* ===== verification/EfLayout.v ===== *)
(** * The log of the key-value store

    What the two sectors hold, as data: a sector is [Blank] or has a header and
    a list of items, records and the remains of interrupted writes.  [lay] says
    which contents are those of a sector.  The functions of [EfEnv] that read a
    record, a header or step to the next record are shown to follow the list. *)

From S2P Require Import Prelude CStr Storage EfEnv EfFlash.
Open Scope list_scope.

(** ** Bytes at an address *)

Definition holds (mu : Z -> Z) (a : Z) (bs : list Z) : Prop := bytes_at mu a (zlen bs) = bs.

Lemma holds_nil mu a : holds mu a [].
Proof. unfold holds. by rewrite bytes_at_nil. Qed.

Lemma holds_cons mu a b bs : holds mu a (b :: bs) <-> mu a = b /\ holds mu (a + 1) bs.
Proof.
  pose proof (zlen_nonneg bs). unfold holds. rewrite bytes_at_cons, zlen_cons by (rewrite ?zlen_cons; lia).
  replace (1 + zlen bs - 1) with (zlen bs) by lia. split; [by intros [= -> ->] | by intros [-> ->]].
Qed.

Lemma holds_app mu a l1 l2 : holds mu a (l1 ++ l2) <-> holds mu a l1 /\ holds mu (a + zlen l1) l2.
Proof.
  revert a. induction l1 as [|b l1 IH]; intros a; cbn [app].
  - change (zlen (@nil Z)) with 0. rewrite Z.add_0_r. pose proof (holds_nil mu a). tauto.
  - rewrite !holds_cons, IH, zlen_cons. replace (a + (1 + zlen l1)) with (a + 1 + zlen l1) by lia. tauto.
Qed.

Lemma holds_lookup mu a bs i x : holds mu a bs -> bs !! i = Some x -> mu (a + Z.of_nat i) = x.
Proof.
  intros Hh Hx. pose proof (lookup_lt_Some _ _ _ Hx). rewrite <- Hh in Hx.
  rewrite bytes_at_lookup in Hx by (unfold zlen; lia). by injection Hx.
Qed.

Lemma holds_ext mu nu a bs :
  (forall x, a <= x < a + zlen bs -> nu x = mu x) -> holds mu a bs -> holds nu a bs.
Proof. intros Hx Hh. unfold holds. rewrite <- Hh at 2. by apply bytes_at_ext. Qed.

Lemma holds_bytes_at mu a n : 0 <= n -> holds mu a (bytes_at mu a n).
Proof. intros. unfold holds. by rewrite bytes_at_zlen. Qed.

Lemma holds_bytes_eq mu a n bs : holds mu a bs -> n = zlen bs -> bytes_at mu a n = bs.
Proof. by intros Hh ->. Qed.

Lemma holds_same mu a l1 l2 : zlen l1 = zlen l2 -> holds mu a l1 -> holds mu a l2 -> l1 = l2.
Proof. unfold holds. intros E H1 H2. rewrite <- H1, E. exact H2. Qed.

(** Programming erased bytes. *)
Lemma prog_out mu a bs x : x < a \/ a + zlen bs <= x -> prog mu a bs x = mu x.
Proof. intros Hx. unfold prog. by rewrite aget_None by lia. Qed.

Lemma prog_in mu a bs x b : aget bs (x - a) = Some b -> prog mu a bs x = Z.land (mu x) b.
Proof. intros E. unfold prog. by rewrite E. Qed.

Lemma prog_fresh mu nu a bs :
  (forall x, nu x = prog mu a bs x) -> (forall x, a <= x < a + zlen bs -> mu x = 255) -> bytes_ok bs ->
  holds nu a bs.
Proof.
  intros Hnu Hff Hb. apply list_eq. intros i.
  destruct (decide (i < length bs)%nat) as [Hi|Hi].
  - rewrite bytes_at_lookup by (unfold zlen; lia). rewrite Hnu.
    destruct (lookup_lt_is_Some_2 bs i Hi) as [b Eb]. rewrite (prog_in _ _ _ _ b).
    + rewrite Hff, land_255, Eb; [done | | unfold zlen; lia]. by eapply Forall_lookup_1 in Eb.
    + rewrite aget_lookup by lia. by replace (Z.to_nat (a + Z.of_nat i - a)) with i by lia.
  - rewrite !lookup_ge_None_2; [done | lia |]. unfold bytes_at. rewrite length_map, length_seqZ. unfold zlen. lia.
Qed.

(** ** Words *)

Lemma le_bytes_zlen w : zlen (le_bytes w) = 4.
Proof. done. Qed.

Lemma le_bytes_ok w : bytes_ok (le_bytes w).
Proof. repeat constructor; apply u8_range. Qed.

Lemma le_word w :
  0 <= w < 2 ^ 32 ->
  u32 (u8 w + u8 (w / 256) * 256 + u8 (w / 65536) * 65536 + u8 (w / 16777216) * 16777216) = w.
Proof.
  intros Hw. unfold u8. change (2 ^ 8) with 256.
  replace (w / 65536) with (w / 256 / 256) by (rewrite Z.div_div by lia; done).
  replace (w / 16777216) with (w / 256 / 256 / 256) by (rewrite !Z.div_div by lia; done).
  assert (Ha : 0 <= w / 256 / 256 / 256 < 256).
  { split; [repeat apply Z.div_pos; lia|]. repeat (apply Z.div_lt_upper_bound; [lia|]). lia. }
  rewrite (Z.mod_small (w / 256 / 256 / 256)) by done.
  pose proof (Z.div_mod w 256). pose proof (Z.div_mod (w / 256) 256). pose proof (Z.div_mod (w / 256 / 256) 256).
  rewrite u32_small; lia.
Qed.

(** ** Items *)

(** The status table of a record; 5 is one given up before it was complete, 6
    one deleted without the step before. *)
Definition env_tbl (st : Z) : list Z :=
  if st =? 1 then [0; 255; 255; 255; 255] else if st =? 2 then [0; 0; 255; 255; 255]
  else if st =? 3 then [0; 0; 0; 255; 255] else if st =? 4 then [0; 0; 0; 0; 255]
  else if st =? 5 then [0; 255; 255; 255; 0] else [0; 0; 255; 0; 255].
Definition stat (st : Z) : Z := if st =? 6 then ENV_DELETED else st.
Definition is_stat (st : Z) : Prop := st = 1 \/ st = 2 \/ st = 3 \/ st = 4 \/ st = 5 \/ st = 6.

Definition node_len (k v : list Z) : Z := 28 + zlen k + zlen v.
Definition rec_body (k v : list Z) : list Z :=
  hdr_bytes (node_len k v) (env_crc k v) (zlen k) (zlen v) ++ k ++ v.

(** [Gap] is a start of a record the search does not find; [Bad] one that it
    finds, of which [rest] follows the status table, and that fails its check. *)
Inductive item :=
| Rec (st : Z) (k v : list Z)
| Gap (bs : list Z)
| Bad (b0 : Z) (err : bool) (rest : list Z).

#[export] Instance item_eq_dec : EqDecision item.
Proof. solve_decision. Defined.

Definition item_bytes (it : item) : list Z :=
  match it with
  | Rec st k v => env_tbl st ++ [255; 255; 255] ++ rec_body k v
  | Gap bs => bs
  | Bad b0 err rest => [b0; 255; 255; 255; if err then 0 else 255; 255; 255; 255] ++ rest
  end.
Definition items_bytes (l : list item) : list Z := concat (map item_bytes l).
Definition item_len (it : item) : Z := zlen (item_bytes it).
Definition ilen (l : list item) : Z := zlen (items_bytes l).

Lemma env_tbl_zlen st : zlen (env_tbl st) = 5.
Proof. unfold env_tbl. by repeat case_match. Qed.

Lemma rec_body_zlen k v : zlen (rec_body k v) = node_len k v - 8.
Proof. unfold rec_body, node_len. rewrite !zlen_app. change (zlen (hdr_bytes _ _ _ _)) with 20. lia. Qed.

Lemma rec_len st k v : item_len (Rec st k v) = node_len k v.
Proof.
  unfold item_len. cbn [item_bytes]. rewrite !zlen_app, env_tbl_zlen, rec_body_zlen.
  change (zlen [255; 255; 255]) with 3. lia.
Qed.

Lemma bad_len b0 err rest : item_len (Bad b0 err rest) = 8 + zlen rest.
Proof. unfold item_len. cbn [item_bytes]. rewrite zlen_app. done. Qed.

Lemma items_bytes_app l1 l2 : items_bytes (l1 ++ l2) = items_bytes l1 ++ items_bytes l2.
Proof. unfold items_bytes. by rewrite map_app, concat_app. Qed.

Lemma items_bytes_cons it l : items_bytes (it :: l) = item_bytes it ++ items_bytes l.
Proof. done. Qed.

Lemma ilen_app l1 l2 : ilen (l1 ++ l2) = ilen l1 + ilen l2.
Proof. unfold ilen. by rewrite items_bytes_app, zlen_app. Qed.

Lemma ilen_cons it l : ilen (it :: l) = item_len it + ilen l.
Proof. unfold ilen, item_len. by rewrite items_bytes_cons, zlen_app. Qed.

Lemma ilen_nil : ilen [] = 0.
Proof. done. Qed.

Lemma ilen_nonneg l : 0 <= ilen l.
Proof. apply zlen_nonneg. Qed.

Lemma item_len_nonneg it : 0 <= item_len it.
Proof. apply zlen_nonneg. Qed.

(** Names and values are texts. *)
Definition text (l : list Z) : Prop := Forall (fun b => 0 < b < 128) l.
Record entry_ok (k v : list Z) : Prop := {
  key_text : text k; key_len : 1 <= zlen k <= 32; value_text : text v;
  entry_fits : node_len k v <= SECTOR_SIZE - SECTOR_HDR_DATA_SIZE
}.

#[export] Instance text_dec l : Decision (text l).
Proof. apply Forall_dec. intros b. apply _. Defined.

(** A word of [bs] from index 1 on is not the magic word, nor does one of its
    bytes end [bs]... the words that reach over the end are no concern: what
    follows an item is 0 or 255. *)
Definition magic_free (bs : list Z) : Prop :=
  forall j, 1 <= j -> j + 4 <= zlen bs -> slice bs j 4 <> le_bytes ENV_MAGIC_WORD.

Definition bad_short (rest : list Z) : Prop :=
  zlen rest = 20 /\ exists n, le32 rest 4 = Some n /\ (ENV_AREA_SIZE < n \/ n < ENV_NAME_LEN_OFFSET).
Definition bad_long (rest : list Z) : Prop :=
  28 < 8 + zlen rest <= SECTOR_SIZE - SECTOR_HDR_DATA_SIZE /\ le32 rest 4 = Some (8 + zlen rest)
  /\ le32 rest 8 <> Some (ef_calc_crc32 0 (drop 12 rest)).

Definition item_ok (it : item) : Prop :=
  match it with
  | Rec st k v => is_stat st /\ entry_ok k v
  | Gap bs => bytes_ok bs /\ (exists t, bs = 0 :: t) /\ zlen bs < 12
              /\ forall j, 0 <= j -> j + 4 <= zlen bs -> slice bs j 4 <> le_bytes ENV_MAGIC_WORD
  | Bad b0 err rest => bytes_ok rest /\ (b0 = 0 \/ b0 = 255) /\ magic_free rest
                       /\ (bad_short rest \/ (b0 = 0 /\ bad_long rest))
  end.

Definition is_gap (it : item) : bool := match it with Gap _ => true | _ => false end.

(** The magic word is there for the search to find; only the first item of a
    sector is read without it. *)
Definition found (it : item) : Prop :=
  match it with Bad _ _ rest => take 4 rest = le_bytes ENV_MAGIC_WORD | _ => True end.

Record items_ok (l : list item) : Prop := {
  all_ok : Forall item_ok l;
  head_read : forall it, head l = Some it -> is_gap it = false;
  tail_found : Forall found (tail l);
  bad_room : forall l1 it l2, l = l1 ++ it :: l2 -> is_gap it = false ->
    SECTOR_HDR_DATA_SIZE + ilen l1 + 29 <= SECTOR_SIZE
}.

(** ** Sectors *)

Inductive Sec := Blank | Fmt (store dirty : Z) (items : list item).

Definition tbl3 (n : Z) : list Z :=
  if n =? 1 then [0; 255; 255] else if n =? 2 then [0; 0; 255] else [0; 0; 0].
Definition is_level (n : Z) : Prop := n = 1 \/ n = 2 \/ n = 3.
Definition sec_hdr (store dirty : Z) : list Z :=
  tbl3 store ++ tbl3 dirty ++ [255; 255] ++ le_bytes SECTOR_MAGIC_WORD
  ++ le_bytes SECTOR_NOT_COMBINED ++ le_bytes 4294967295.

Lemma tbl3_zlen n : zlen (tbl3 n) = 3.
Proof. unfold tbl3. by repeat case_match. Qed.

Lemma sec_hdr_zlen st d : zlen (sec_hdr st d) = 20.
Proof. unfold sec_hdr. rewrite !zlen_app, !tbl3_zlen. done. Qed.

Definition ends (b : Z) (l : list item) : Z := b + SECTOR_HDR_DATA_SIZE + ilen l.

Record fmt_at (mu : Z -> Z) (b store dirty : Z) (items : list item) : Prop := {
  fmt_levels : is_level store /\ is_level dirty;
  fmt_hdr : holds mu b (sec_hdr store dirty);
  fmt_items : holds mu (b + SECTOR_HDR_DATA_SIZE) (items_bytes items);
  fmt_free : forall x, ends b items <= x < b + SECTOR_SIZE -> mu x = 255;
  fmt_fits : ends b items <= b + SECTOR_SIZE;
  fmt_ok : items_ok items
}.

Definition lay (mu : Z -> Z) (b : Z) (S : Sec) : Prop :=
  match S with
  | Blank => bytes_at mu (b + 8) 4 <> le_bytes SECTOR_MAGIC_WORD
  | Fmt store dirty items => fmt_at mu b store dirty items
  end.

(** The two sectors; the second one is [true]. *)
Definition base (i : bool) : Z := if i then SECTOR_SIZE else 0.
Definition sec (L : Sec * Sec) (i : bool) : Sec := if i then L.2 else L.1.
Definition upd (L : Sec * Sec) (i : bool) (S : Sec) : Sec * Sec := if i then (L.1, S) else (S, L.2).
Definition flash_is (mu : Z -> Z) (L : Sec * Sec) : Prop := forall i, lay mu (base i) (sec L i).

Lemma sec_upd_eq L i S : sec (upd L i S) i = S.
Proof. by destruct i. Qed.

Lemma sec_upd_ne L i S : sec (upd L i S) (negb i) = sec L (negb i).
Proof. by destruct i. Qed.

Lemma upd_same L i : upd L i (sec L i) = L.
Proof. by destruct i, L. Qed.

Lemma upd_upd L i S T : upd (upd L i S) i T = upd L i T.
Proof. by destruct i. Qed.

Lemma lay_ext mu nu b S : (forall x, b <= x < b + SECTOR_SIZE -> nu x = mu x) -> lay mu b S -> lay nu b S.
Proof.
  intros Hx. destruct S as [|st d its]; cbn [lay].
  - rewrite (bytes_at_ext nu mu); [done|]. intros x Hr. apply Hx. unfold SECTOR_SIZE, EF_ERASE_MIN_SIZE. lia.
  - intros [? ? ? ? ? ?]. unfold ends, SECTOR_HDR_DATA_SIZE in *. pose proof (ilen_nonneg its). split; try done.
    + eapply holds_ext; [|done]. intros x. rewrite sec_hdr_zlen. intros. apply Hx. lia.
    + eapply holds_ext; [|done]. intros x Hr. apply Hx. unfold ilen, SECTOR_HDR_DATA_SIZE in *. lia.
    + intros x Hr. unfold ends, SECTOR_HDR_DATA_SIZE in Hr. rewrite Hx by lia. auto.
Qed.

Lemma base_other i x : base i <= x < base i + SECTOR_SIZE -> ~ (base (negb i) <= x < base (negb i) + SECTOR_SIZE).
Proof. unfold base, SECTOR_SIZE, EF_ERASE_MIN_SIZE. destruct i; cbn; lia. Qed.

(** A change inside one sector. *)
Lemma flash_is_upd mu nu L i S :
  flash_is mu L -> (forall x, ~ (base i <= x < base i + SECTOR_SIZE) -> nu x = mu x) -> lay nu (base i) S ->
  flash_is nu (upd L i S).
Proof.
  intros HL Hx HS j. destruct (decide (j = i)) as [->|Hne]; [by rewrite sec_upd_eq|].
  replace j with (negb i) by (by destruct i, j). rewrite sec_upd_ne.
  apply (lay_ext mu); [|apply HL]. intros x Hr. apply Hx. intros Hi. by apply (base_other i x).
Qed.

Lemma flash_is_ext mu nu L : (forall x, nu x = mu x) -> flash_is mu L -> flash_is nu L.
Proof. intros Hx HL i. by apply (lay_ext mu), HL. Qed.

(** *** Up to marks

    Reading a torn record may mark it, so what is known of the flash is known
    up to that byte. *)

Definition unmark (it : item) : item := match it with Bad b0 _ rest => Bad b0 false rest | _ => it end.
Definition unmark_sec (S : Sec) : Sec :=
  match S with Fmt st d its => Fmt st d (map unmark its) | Blank => Blank end.
Definition like (L L' : Sec * Sec) : Prop := forall i, unmark_sec (sec L i) = unmark_sec (sec L' i).
Definition Flash (mu : Z -> Z) (L : Sec * Sec) : Prop := exists L0, like L0 L /\ flash_is mu L0.

Lemma unmark_len it : item_len (unmark it) = item_len it.
Proof. destruct it; cbn [unmark]; rewrite ?bad_len; done. Qed.

Lemma unmark_ilen l : ilen (map unmark l) = ilen l.
Proof. induction l as [|it l IH]; [done|]. cbn [map]. by rewrite !ilen_cons, unmark_len, IH. Qed.

Lemma like_ilen l l' : map unmark l = map unmark l' -> ilen l = ilen l'.
Proof. intros E. by rewrite <- unmark_ilen, E, unmark_ilen. Qed.

Lemma like_refl L : like L L.
Proof. by intros i. Qed.

Lemma like_upd L L' i S S' : like L L' -> unmark_sec S = unmark_sec S' -> like (upd L i S) (upd L' i S').
Proof. intros Hl HS j. specialize (Hl j). by destruct i, j. Qed.

Lemma like_fmt L L' i st d its :
  like L L' -> sec L' i = Fmt st d its -> exists its0, sec L i = Fmt st d its0 /\ map unmark its0 = map unmark its.
Proof.
  intros Hl E. specialize (Hl i). rewrite E in Hl. destruct (sec L i) as [|st0 d0 its0]; [done|].
  injection Hl as -> -> Hm. by exists its0.
Qed.

Lemma like_split l0 l1 it l2 :
  map unmark l0 = map unmark (l1 ++ it :: l2) ->
  exists m1 jt m2, l0 = m1 ++ jt :: m2 /\ map unmark m1 = map unmark l1 /\ unmark jt = unmark it
    /\ map unmark m2 = map unmark l2.
Proof.
  rewrite map_app. cbn [map]. intros E. apply map_eq_app in E as (m1 & r & -> & E1 & E2).
  apply map_eq_cons in E2 as (jt & m2 & -> & E2 & E3). by exists m1, jt, m2.
Qed.

Lemma unmark_not_bad it jt : unmark jt = unmark it -> (forall b e r, it <> Bad b e r) -> jt = it.
Proof. destruct it, jt; cbn; intros E Hn; congruence. Qed.

Lemma Flash_of mu L : flash_is mu L -> Flash mu L.
Proof. intros HL. exists L. split; [apply like_refl | done]. Qed.

Lemma Flash_like mu L L' : like L L' -> Flash mu L -> Flash mu L'.
Proof. intros Hl (L0 & H0 & HL). exists L0. split; [|done]. intros i. by rewrite H0. Qed.

Lemma Flash_ext mu nu L : (forall x, nu x = mu x) -> Flash mu L -> Flash nu L.
Proof. intros Hx (L0 & H0 & HL). exists L0. split; [done|]. by apply (flash_is_ext mu). Qed.
