(* ===== verification/EfRead.v ===== *)
(** * Reading the log

    [read_env], [read_sector_meta_data] and [get_next_env_addr] on a sector whose
    items are known, and the writes of status bytes as changes of the list. *)

From S2P Require Import Prelude CStr Storage EfEnv EfFlash EfLayout.
Open Scope list_scope.

(** ** Status bytes *)

Definition clr (mu : Z -> Z) (a : Z) : Z -> Z := fun x => if x =? a then 0 else mu x.

Lemma prog_clr mu a x : prog mu a [0] x = clr mu a x.
Proof.
  unfold prog, clr. destruct (Z.eqb_spec x a) as [->|Hne].
  - rewrite Z.sub_diag. cbn. apply Z.land_0_r.
  - destruct (aget [0] (x - a)) eqn:E; [|done]. apply aget_bound in E. change (zlen [0]) with 1 in E. lia.
Qed.

Lemma holds_clr mu nu a o bs :
  (forall x, nu x = clr mu (a + o) x) -> 0 <= o < zlen bs -> holds mu a bs ->
  holds nu a (<[Z.to_nat o := 0]> bs).
Proof.
  intros Hnu Ho Hh. unfold holds. rewrite zlen_insert. apply list_eq. intros j.
  destruct (decide (j < length bs)%nat) as [Hj|Hj].
  - rewrite bytes_at_lookup by (unfold zlen; lia). rewrite Hnu. unfold clr.
    destruct (Z.eqb_spec (a + Z.of_nat j) (a + o)) as [E|E].
    + replace (Z.to_nat o) with j by lia. by rewrite list_lookup_insert_eq by done.
    + rewrite list_lookup_insert_ne by lia. destruct (lookup_lt_is_Some_2 bs j Hj) as [b Eb].
      rewrite Eb. f_equal. by apply (holds_lookup mu a bs).
  - rewrite !lookup_ge_None_2; [done | rewrite length_insert; lia |].
    unfold bytes_at. rewrite length_map, length_seqZ. unfold zlen. lia.
Qed.

Lemma holds_clr_out mu nu a c bs :
  (forall x, nu x = clr mu c x) -> c < a \/ a + zlen bs <= c -> holds mu a bs -> holds nu a bs.
Proof.
  intros Hnu Hc. apply holds_ext. intros x Hx. rewrite Hnu. unfold clr. by rewrite (proj2 (Z.eqb_neq _ _)) by lia.
Qed.

Lemma drop_insert_head {A} (l : list A) i x : (i < length l)%nat -> drop i (<[i := x]> l) = x :: drop (S i) l.
Proof.
  intros Hi. rewrite (drop_S _ x) by (by apply list_lookup_insert_eq). by rewrite drop_insert_lt by lia.
Qed.

(** ** Changing one item, or the header *)

(** [it'] is [it] with the byte at [o] cleared. *)
Definition cleared (it : item) (o : Z) (it' : item) : Prop :=
  0 <= o < item_len it /\ item_bytes it' = <[Z.to_nat o := 0]> (item_bytes it).

Lemma cleared_len it o it' : cleared it o it' -> item_len it' = item_len it.
Proof. intros [_ E]. unfold item_len. by rewrite E, zlen_insert. Qed.

Lemma cleared_rec st st' k v o :
  (st = 1 /\ st' = 2 /\ o = 1) \/ (st = 2 /\ st' = 3 /\ o = 2) \/ (st = 3 /\ st' = 4 /\ o = 3)
  \/ (st = 2 /\ st' = 6 /\ o = 3) ->
  cleared (Rec st k v) o (Rec st' k v).
Proof.
  intros Ho. split.
  - rewrite rec_len. unfold node_len. pose proof (zlen_nonneg k). pose proof (zlen_nonneg v). lia.
  - by destruct Ho as [(-> & -> & ->)|[(-> & -> & ->)|[(-> & -> & ->)|(-> & -> & ->)]]].
Qed.

Lemma cleared_bad b0 rest : cleared (Bad b0 false rest) 4 (Bad b0 true rest).
Proof. split; [rewrite bad_len; pose proof (zlen_nonneg rest); lia | done]. Qed.

Lemma fmt_change mu nu b st d l1 it l2 o it' :
  fmt_at mu b st d (l1 ++ it :: l2) -> cleared it o it' -> items_ok (l1 ++ it' :: l2) ->
  (forall x, nu x = clr mu (b + SECTOR_HDR_DATA_SIZE + ilen l1 + o) x) ->
  fmt_at nu b st d (l1 ++ it' :: l2).
Proof.
  intros [Hl Hh Hi Hf Hs Hok] Hc Hok' Hnu. pose proof (cleared_len _ _ _ Hc) as El. destruct Hc as [Ho Eb].
  pose proof (ilen_nonneg l1). pose proof (ilen_nonneg l2). unfold ends, SECTOR_HDR_DATA_SIZE in *.
  assert (Hel : ilen (l1 ++ it' :: l2) = ilen (l1 ++ it :: l2)) by (rewrite !ilen_app, !ilen_cons; lia).
  rewrite ilen_app, ilen_cons in Hf, Hs. split.
  - done.
  - eapply holds_clr_out; [done | | done]. rewrite sec_hdr_zlen. lia.
  - unfold SECTOR_HDR_DATA_SIZE. rewrite items_bytes_app, items_bytes_cons, !holds_app in *.
    destruct Hi as (H1 & H2 & H3). fold (ilen l1) in *. fold (item_len it) in *. fold (item_len it') in *.
    repeat split.
    + eapply holds_clr_out; [done | | done]. fold (ilen l1). lia.
    + rewrite Eb. by eapply holds_clr.
    + rewrite El. eapply holds_clr_out; [done | | done]. lia.
  - unfold ends, SECTOR_HDR_DATA_SIZE. rewrite Hel, ilen_app, ilen_cons. intros x Hx. rewrite Hnu. unfold clr.
    rewrite (proj2 (Z.eqb_neq _ _)) by lia. apply Hf. lia.
  - unfold ends, SECTOR_HDR_DATA_SIZE. rewrite Hel, ilen_app, ilen_cons. lia.
  - done.
Qed.

Lemma fmt_rehead mu nu b st d its st' d' o :
  fmt_at mu b st d its -> is_level st' -> is_level d' -> 0 <= o < 20 ->
  sec_hdr st' d' = <[Z.to_nat o := 0]> (sec_hdr st d) ->
  (forall x, nu x = clr mu (b + o) x) -> fmt_at nu b st' d' its.
Proof.
  intros [Hl Hh Hi Hf Hs Hok] Hst Hd Ho Eb Hnu. pose proof (ilen_nonneg its).
  unfold ends, SECTOR_HDR_DATA_SIZE in *. split; try done.
  - rewrite Eb. eapply holds_clr; [done | | done]. by rewrite sec_hdr_zlen.
  - eapply holds_clr_out; [done | | done]. unfold SECTOR_HDR_DATA_SIZE. lia.
  - intros x Hx. unfold ends, SECTOR_HDR_DATA_SIZE in Hx. rewrite Hnu. unfold clr.
    rewrite (proj2 (Z.eqb_neq _ _)) by lia. apply Hf. lia.
Qed.

(** ** Fields of the headers *)

Lemma lxor_range a b n : 0 <= n -> 0 <= a < 2 ^ n -> 0 <= b < 2 ^ n -> 0 <= Z.lxor a b < 2 ^ n.
Proof.
  intros Hn Ha Hb. assert (H0 : 0 <= Z.lxor a b) by (apply Z.lxor_nonneg; lia). split; [done|].
  destruct (Z.eq_dec (Z.lxor a b) 0) as [->|]; [lia|].
  apply Z.log2_lt_pow2; [lia|]. pose proof (Z.log2_lxor a b ltac:(lia) ltac:(lia)) as Hl.
  assert (Hlog : forall c, 0 <= c < 2 ^ n -> Z.log2 c < n \/ (c = 0 /\ n = 0) \/ c = 0).
  { intros c Hc. destruct (Z.eq_dec c 0); [by right; right|]. left. apply Z.log2_lt_pow2; lia. }
  assert (n <> 0) by (intros ->; change (2 ^ 0) with 1 in *; replace a with 0 in * by lia; replace b with 0 in * by lia; done).
  destruct (Hlog a Ha) as [?|[?|E]], (Hlog b Hb) as [?|[?|E']]; try lia; rewrite ?E, ?E' in *; change (Z.log2 0) with 0 in *; lia.
Qed.

Lemma table_range : Forall (fun x => 0 <= x < 2 ^ 32) crc32_table.
Proof. apply (bool_decide_unpack _). vm_compute. exact I. Qed.

Lemma crc_range c l : 0 <= c < 2 ^ 32 -> bytes_ok l -> 0 <= ef_calc_crc32 c l < 2 ^ 32.
Proof.
  intros Hc Hl. unfold ef_calc_crc32. apply lxor_range; [lia | | lia].
  assert (H0 : 0 <= Z.lxor c 4294967295 < 2 ^ 32) by (apply lxor_range; lia).
  revert H0. generalize (Z.lxor c 4294967295). induction Hl as [|b l Hb _ IH]; intros a Ha; [done|].
  cbn [fold_left]. apply IH. unfold crc_byte. apply lxor_range; [lia | |].
  - destruct (nth_in_or_default (Z.to_nat (Z.land (Z.lxor a b) 255)) crc32_table 0) as [Hin| ->]; [|lia].
    pose proof table_range as Ht. rewrite Forall_forall in Ht. apply Ht. by apply list_elem_of_In.
  - rewrite Z.shiftr_div_pow2 by lia. split; [apply Z.div_pos; lia|]. apply Z.div_lt_upper_bound; lia.
Qed.

Lemma text_bytes l : text l -> bytes_ok l.
Proof. intros Ht. eapply Forall_impl; [exact Ht|]. unfold is_byte. cbn. lia. Qed.

Lemma entry_len_bound k v : entry_ok k v -> 29 <= node_len k v <= 131052.
Proof.
  intros [_ Hk _ Hf]. pose proof (zlen_nonneg v). unfold node_len, SECTOR_SIZE, EF_ERASE_MIN_SIZE, SECTOR_HDR_DATA_SIZE in *. lia.
Qed.

Lemma name_part_ok (k v : list Z) : bytes_ok (name_part (zlen k) (zlen v)).
Proof. repeat constructor; apply u8_range || done. Qed.

(** The check sum in the header is that of what follows it. *)
Lemma env_crc_eq (k v : list Z) : zlen k < 2 ^ 32 -> zlen v < 2 ^ 32 ->
  env_crc k v = ef_calc_crc32 0 (name_part (zlen k) (zlen v) ++ k ++ v).
Proof.
  intros Hk Hv. unfold env_crc. pose proof (zlen_nonneg k). pose proof (zlen_nonneg v).
  rewrite !EF_WG_ALIGN_id, !Z.sub_diag by lia. unfold pad_crc. cbn [Z.to_nat replicate].
  by rewrite !crc_nil, !crc_app, app_assoc.
Qed.

Lemma env_crc_range k v : entry_ok k v -> 0 <= env_crc k v < 2 ^ 32.
Proof.
  intros Hok. pose proof (entry_len_bound k v Hok). unfold node_len in *.
  pose proof (zlen_nonneg k). pose proof (zlen_nonneg v).
  rewrite env_crc_eq by lia. apply crc_range; [lia|]. apply Forall_app. split; [apply name_part_ok|].
  apply Forall_app. split; apply text_bytes, Hok.
Qed.

(** The header of a record, of 28 bytes. *)
Definition rec_hdr (st : Z) (k v : list Z) : list Z :=
  env_tbl st ++ [255; 255; 255] ++ hdr_bytes (node_len k v) (env_crc k v) (zlen k) (zlen v).

Lemma rec_bytes_split st k v : item_bytes (Rec st k v) = rec_hdr st k v ++ k ++ v.
Proof. cbn [item_bytes]. unfold rec_hdr, rec_body. by rewrite <- !app_assoc. Qed.

Lemma rec_hdr_zlen st k v : zlen (rec_hdr st k v) = 28.
Proof. unfold rec_hdr. by rewrite zlen_app, env_tbl_zlen. Qed.

Lemma rec_hdr_fields st k v :
  is_stat st -> entry_ok k v ->
  get_status (rec_hdr st k v) ENV_STATUS_NUM = Some (stat st)
  /\ le32 (rec_hdr st k v) ENV_LEN_OFFSET = Some (node_len k v)
  /\ le32 (rec_hdr st k v) 16 = Some (env_crc k v)
  /\ aget (rec_hdr st k v) ENV_NAME_LEN_OFFSET = Some (zlen k)
  /\ le32 (rec_hdr st k v) 24 = Some (zlen v).
Proof.
  intros Hst Hok. pose proof (entry_len_bound k v Hok). pose proof (env_crc_range k v Hok).
  pose proof (key_len _ _ Hok). pose proof (zlen_nonneg v).
  assert (Hv : zlen v < 2 ^ 32) by (unfold node_len in *; lia).
  rewrite <- (le_word (node_len k v)), <- (le_word (env_crc k v)), <- (le_word (zlen v)) by lia.
  rewrite <- (u8_small (zlen k)) by (unfold is_byte; lia).
  by destruct Hst as [->|[->|[->|[->|[->| ->]]]]].
Qed.

Lemma sec_hdr_fields st d :
  is_level st -> is_level d ->
  le32 (sec_hdr st d) 8 = Some SECTOR_MAGIC_WORD /\ le32 (sec_hdr st d) 12 = Some SECTOR_NOT_COMBINED
  /\ get_status (sec_hdr st d) SECTOR_STORE_STATUS_NUM = Some st
  /\ get_status (drop (Z.to_nat SECTOR_DIRTY_OFFSET) (sec_hdr st d)) SECTOR_DIRTY_STATUS_NUM = Some d.
Proof. intros [->|[->| ->]] [->|[->| ->]]; done. Qed.

(** ** Where the search goes on *)

(** No magic word begins at [r]. *)
Definition dead (mu : Z -> Z) (r : Z) : Prop := ~ magic_at mu r.

Lemma magic_bytes mu r : magic_at mu r -> mu r = 75 /\ mu (r + 1) = 86 /\ mu (r + 2) = 52 /\ mu (r + 3) = 48.
Proof.
  intros Hm. unfold magic_at in Hm. change (le_bytes ENV_MAGIC_WORD) with [75; 86; 52; 48] in Hm.
  assert (Hh : holds mu r [75; 86; 52; 48]) by exact Hm. rewrite !holds_cons in Hh.
  destruct Hh as (? & ? & ? & ? & _). replace (r + 1 + 1 + 1) with (r + 3) in * by lia.
  replace (r + 1 + 1) with (r + 2) in * by lia. done.
Qed.

Lemma dead_edge mu r j : r <= j < r + 4 -> mu j = 0 \/ mu j = 255 -> dead mu r.
Proof.
  intros Hj Hv Hm. apply magic_bytes in Hm as (? & ? & ? & ?).
  assert (j = r \/ j = r + 1 \/ j = r + 2 \/ j = r + 3) as [->|[->|[->| ->]]] by lia; lia.
Qed.

Lemma slice_bytes_at mu p bs j n :
  holds mu p bs -> 0 <= j -> 0 <= n -> j + n <= zlen bs -> slice bs j n = bytes_at mu (p + j) n.
Proof.
  intros Hh Hj Hn Hl. unfold holds in Hh. rewrite <- Hh.
  replace (zlen bs) with (j + (n + (zlen bs - (j + n)))) by lia. rewrite !bytes_at_app by lia.
  pose proof (slice_app_exact (bytes_at mu p j) (bytes_at mu (p + j) n) (bytes_at mu (p + j + n) (zlen bs - (j + n)))) as Hs.
  rewrite !bytes_at_zlen in Hs by lia. exact Hs.
Qed.

Lemma dead_inside mu p bs r :
  holds mu p bs -> p <= r -> r + 4 <= p + zlen bs -> slice bs (r - p) 4 <> le_bytes ENV_MAGIC_WORD -> dead mu r.
Proof.
  intros Hh Hp Hr Hs Hm. apply Hs. rewrite (slice_bytes_at mu p bs (r - p) 4 Hh); [|lia..].
  replace (p + (r - p)) with r by lia. exact Hm.
Qed.

(** The first byte of an item is 0 or 255. *)
Lemma item_head it : item_ok it -> exists t, item_bytes it = 0 :: t \/ item_bytes it = 255 :: t.
Proof.
  destruct it as [st k v|bs|b0 err rest]; cbn [item_ok].
  - intros [Hst _]. destruct Hst as [->|[->|[->|[->|[->| ->]]]]]; eexists; left; reflexivity.
  - intros (_ & (t & ->) & _). exists t. by left.
  - intros (_ & [->| ->] & _); eexists; [left | right]; reflexivity.
Qed.

Lemma item_len_pos it : item_ok it -> 0 < item_len it.
Proof.
  intros Ho. unfold item_len. destruct (item_head it Ho) as (t & [->| ->]); rewrite zlen_cons; pose proof (zlen_nonneg t); lia.
Qed.

(** The status table of a record that the search finds. *)
Lemma item_table it j x :
  item_ok it -> is_gap it = false -> (j < 8)%nat -> item_bytes it !! j = Some x -> x = 0 \/ x = 255.
Proof.
  destruct it as [st k v|bs|b0 err rest]; [|done|]; cbn [item_ok is_gap]; intros Hok _ Hj Hx.
  - destruct Hok as [Hst _].
    destruct Hst as [->|[->|[->|[->|[->| ->]]]]]; do 8 (destruct j as [|j]; [injection Hx as <-; tauto|]); lia.
  - destruct Hok as (_ & Hb & _).
    destruct err; do 8 (destruct j as [|j]; [injection Hx as <-; tauto|]); lia.
Qed.

Section Search.
Context (mu : Z -> Z) (b : Z).

(** What follows in the sector is 0 or 255 at its first byte. *)
Lemma edge_byte p l e :
  holds mu p (items_bytes l) -> Forall item_ok l -> (forall x, p + ilen l <= x < e -> mu x = 255) -> p < e ->
  mu p = 0 \/ mu p = 255.
Proof.
  intros Hh Hok Hff He. destruct l as [|it l].
  - right. apply Hff. rewrite ilen_nil. lia.
  - apply Forall_cons_1 in Hok as [Ho _]. destruct (item_head it Ho) as (t & [E|E]);
      rewrite items_bytes_cons, E in Hh; cbn [app] in Hh; apply holds_cons in Hh as [-> _]; tauto.
Qed.

(** The bytes of an item, from index [n] on, hide no magic word. *)
Definition hides (it : item) (n : Z) : Prop :=
  forall j, n <= j -> j + 4 <= item_len it -> slice (item_bytes it) j 4 <> le_bytes ENV_MAGIC_WORD.

Lemma dead_item p it l e n r :
  holds mu p (item_bytes it ++ items_bytes l) -> Forall item_ok l ->
  (forall x, p + item_len it + ilen l <= x < e -> mu x = 255) -> hides it n -> 0 <= n ->
  p + n <= r < p + item_len it -> r + 4 <= e -> dead mu r.
Proof.
  intros Hh Hok Hff Hn Hn0 Hr He. apply holds_app in Hh as [Hi Hl]. fold (item_len it) in *.
  destruct (Z.le_gt_cases (r + 4) (p + item_len it)) as [Hin|Hout].
  - apply (dead_inside mu p (item_bytes it) r Hi); [lia | exact Hin|]. apply Hn; lia.
  - apply (dead_edge mu r (p + item_len it)); [lia|].
    apply (edge_byte _ l e); [done | done | done | lia].
Qed.

Lemma gap_hides bs : item_ok (Gap bs) -> hides (Gap bs) 0.
Proof. intros (_ & _ & _ & Hm) j Hj Hl. by apply Hm. Qed.

Lemma bad_hides b0 err rest : item_ok (Bad b0 err rest) -> hides (Bad b0 err rest) 9.
Proof.
  intros (_ & _ & Hm & _) j Hj Hl. rewrite bad_len in Hl. unfold slice. cbn [item_bytes].
  rewrite skipn_app. rewrite skipn_all2 by (cbn; lia). cbn [app length].
  replace (Z.to_nat j - 8)%nat with (Z.to_nat (j - 8)) by lia. apply (Hm (j - 8)); lia.
Qed.

(** Behind gaps, the next magic word is that of the next record. *)
Lemma search_gaps g : forall p it l e,
  holds mu p (items_bytes (g ++ it :: l)) -> Forall item_ok (g ++ it :: l) ->
  (forall x, p + ilen (g ++ it :: l) <= x < e -> mu x = 255) -> forallb is_gap g = true -> is_gap it = false ->
  p + ilen g + 12 <= e ->
  forall r, p <= r < p + ilen g + 8 -> dead mu r.
Proof.
  induction g as [|x g IH]; intros p it l e Hh Hok Hff Hg Hit He r Hr.
  - rewrite ilen_nil in *. cbn [app] in *. rewrite items_bytes_cons in Hh. apply holds_app in Hh as [Hi _].
    apply Forall_cons_1 in Hok as [Hok _].
    destruct (lookup_lt_is_Some_2 (item_bytes it) (Z.to_nat (r - p))) as [y Hy].
    { destruct it as [st k v|bs|b0 err rest]; [|done|].
      - destruct Hok as [_ Hk]. pose proof (rec_len st k v) as El. pose proof (entry_len_bound k v Hk).
        unfold item_len, zlen in *. lia.
      - pose proof (bad_len b0 err rest) as El. unfold item_len, zlen in *. lia. }
    apply (dead_edge mu r r); [lia|]. pose proof (holds_lookup mu p _ _ y Hi Hy) as Ey.
    replace (p + Z.of_nat (Z.to_nat (r - p))) with r in Ey by lia. rewrite Ey.
    apply (item_table it (Z.to_nat (r - p))); [done | done | lia | done].
  - cbn [app forallb] in *. apply andb_true_iff in Hg as [Hx Hg]. apply Forall_cons_1 in Hok as [Hox Hok].
    rewrite ilen_cons in *. rewrite items_bytes_cons in Hh. pose proof (item_len_nonneg x). pose proof (ilen_nonneg g).
    destruct (Z.lt_ge_cases r (p + item_len x)) as [Hlt|Hge].
    + destruct x as [| bs |]; try done.
      apply (dead_item p (Gap bs) (g ++ it :: l) e 0); try done; try lia.
      * intros y Hy. apply Hff. lia.
      * by apply gap_hides.
    + apply holds_app in Hh as [_ Hh]. fold (item_len x) in Hh.
      apply (IH (p + item_len x) it l e); try done; try lia. intros y Hy. apply Hff. lia.
Qed.

(** Behind the last gaps there is none. *)
Lemma search_end g : forall p e,
  holds mu p (items_bytes g) -> Forall item_ok g ->
  (forall x, p + ilen g <= x < e -> mu x = 255) -> forallb is_gap g = true ->
  forall r, p <= r -> r + 4 <= e -> dead mu r.
Proof.
  induction g as [|x g IH]; intros p e Hh Hok Hff Hg r Hr He.
  - rewrite ilen_nil in *. apply (dead_edge mu r r); [lia|]. right. apply Hff. lia.
  - cbn [forallb] in *. apply andb_true_iff in Hg as [Hx Hg]. apply Forall_cons_1 in Hok as [Hox Hok].
    rewrite ilen_cons in *. rewrite items_bytes_cons in Hh.
    destruct (Z.lt_ge_cases r (p + item_len x)) as [Hlt|Hge].
    + destruct x as [| bs |]; try done.
      apply (dead_item p (Gap bs) g e 0); try done; try lia.
      * intros y Hy. apply Hff. lia.
      * by apply gap_hides.
    + apply holds_app in Hh as [_ Hh]. fold (item_len x) in Hh.
      apply (IH (p + item_len x) e); try done; try lia. intros y Hy. apply Hff. lia.
Qed.
End Search.

(** ** Reading *)

Lemma base_inj i j : base i = base j -> i = j.
Proof. destruct i, j; done. Qed.

Lemma base_cases i : base i = 0 \/ base i = 131072.
Proof. destruct i; [by right | by left]. Qed.

(** [e] is the record [it] at [a] as [read_env] left it. *)
Definition seen (it : item) (a : Z) (e : env_node_obj) : Prop :=
  addr_start e = a /\ env_len e = item_len it /\
  match it with
  | Rec st k v => crc_is_ok e = true /\ env_status e = stat st /\ name_len e = zlen k
                  /\ value_len e = zlen v /\ prefix (env_name e) (zlen k) = Some k
                  /\ addr_value e = a + 28 + zlen k
  | Bad _ _ _ => crc_is_ok e = false /\ (env_status e = ENV_ERR_HDR \/ env_status e = ENV_PRE_WRITE)
  | Gap _ => False
  end.

Lemma items_ok_change l1 it it' l2 :
  items_ok (l1 ++ it :: l2) -> item_ok it' -> item_len it' = item_len it -> is_gap it' = is_gap it ->
  (found it -> found it') -> items_ok (l1 ++ it' :: l2).
Proof.
  intros [Ho Hh Hf Hb] Hok El Eg Hfd. split.
  - apply Forall_app in Ho as [? Ho]. apply Forall_cons_1 in Ho as [_ ?]. apply Forall_app. by split; [|constructor].
  - destruct l1 as [|x l1]; [|exact Hh]. intros x [= <-]. rewrite Eg. by apply Hh.
  - destruct l1 as [|x l1]; [exact Hf|]. cbn [app tail] in *. apply Forall_app in Hf as [? Hf].
    apply Forall_cons_1 in Hf as [? ?]. apply Forall_app. split; [done|]. constructor; auto.
  - intros m1 y m2 E Hy. apply app_eq_app in E as (l & [[E1 E2]|[E1 E2]]).
    + destruct l as [|z l].
      * rewrite app_nil_r in E1. subst l1. injection E2 as -> ->. apply (Hb m1 it l2 eq_refl). congruence.
      * injection E2 as <- ->. subst l1. apply (Hb m1 y (l ++ it :: l2)); [|done]. by rewrite <- app_assoc.
    + destruct l as [|z l].
      * rewrite app_nil_r in E1. subst m1. injection E2 as <- <-. apply (Hb l1 it l2 eq_refl). congruence.
      * injection E2 as <- ->. subst m1. rewrite ilen_app, ilen_cons, El.
        rewrite <- ilen_cons, <- ilen_app. apply (Hb (l1 ++ it :: l) y m2); [|done]. by rewrite <- app_assoc.
Qed.

Section Reading.
Context {C : Type} `{FlashDoc C} (P : (Z -> Z) -> Prop) (junk_env : env_node_obj) (junk_sector : sector_meta_data).
Implicit Types (s : Ef C).

(** Contents with the layout [L] may be left by a loss of power. *)
Definition PL (L : Sec * Sec) : Prop := forall mu, Flash mu L -> P mu.

Lemma set_status_some n idx :
  0 < idx < n -> exists t, set_status n idx = (t, Some (idx - 1)) /\ prefix (drop (Z.to_nat (idx - 1)) t) 1 = Some [0].
Proof.
  intros Hi. unfold set_status, EF_WRITE_GRAN. rewrite (proj2 (Z.ltb_lt 0 idx)) by lia.
  replace ((idx - 1) * (8 / 8)) with (idx - 1) by (change (8 / 8) with 1; lia).
  eexists. split; [done|]. rewrite drop_insert_head.
  - unfold prefix. rewrite (proj2 (Z.leb_le 1 _)); [done|]. rewrite zlen_cons.
    match goal with |- 1 <= 1 + zlen ?l => pose proof (zlen_nonneg l) end. lia.
  - rewrite length_replicate. unfold STATUS_TABLE_SIZE, EF_WRITE_GRAN.
    replace (((n - 1) * 8 + 7) / 8) with (n - 1); [lia|]. apply Z.div_unique with 7; lia.
Qed.

Lemma wpc_write_status a n idx (Q : EfErrCode -> Ef C -> Prop) s :
  0 <= a -> 0 < idx < n -> a + idx <= 1048576 ->
  (forall mu, (forall x, mu x = mem s x) \/ (forall x, mu x = clr (mem s) (a + (idx - 1)) x) -> P mu) ->
  (forall s', ram s' = ram s -> (forall x, mem s' x = clr (mem s) (a + (idx - 1)) x) -> Q EF_NO_ERR s') ->
  wpc P (write_status a n idx) Q s.
Proof.
  intros Ha Hi Hr HP HQ. unfold write_status. rewrite (proj2 (Z.ltb_lt idx n)) by lia. cbn [negb].
  destruct (set_status_some n idx Hi) as (t & -> & Ht). rewrite u32_small by lia.
  change (EF_WRITE_GRAN / 8) with 1. eapply wpc_port_write; [lia | exact Ht | lia | |].
  - intros mu [|[|k]] Hk Hmu; [| |cbn in Hk; lia].
    + apply HP. left. intros x. rewrite Hmu. cbn [take]. by apply prog_out; change (zlen (@nil Z)) with 0; lia.
    + apply HP. right. intros x. rewrite Hmu. cbn [take]. apply prog_clr.
  - intros s' Hram Hm. apply HQ; [done|]. intros x. rewrite Hm. apply prog_clr.
Qed.

Lemma item_place mu L i st d l1 it l2 :
  flash_is mu L -> sec L i = Fmt st d (l1 ++ it :: l2) ->
  let a := base i + SECTOR_HDR_DATA_SIZE + ilen l1 in
  holds mu a (item_bytes it) /\ item_ok it /\ 20 <= a /\ a + item_len it <= base i + SECTOR_SIZE
  /\ a + item_len it <= 262144.
Proof.
  intros HL HS a. pose proof (HL i) as Hl. rewrite HS in Hl. destruct Hl as [_ _ Hi _ Hs [Ho _ _ _]].
  rewrite items_bytes_app, items_bytes_cons, !holds_app in Hi. destruct Hi as (_ & Hi & _).
  fold (ilen l1) in *. fold a in Hi. unfold ends in Hs. rewrite ilen_app, ilen_cons in Hs.
  pose proof (ilen_nonneg l1). pose proof (ilen_nonneg l2).
  apply Forall_app in Ho as [_ Ho]. apply Forall_cons_1 in Ho as [Ho _].
  unfold a, SECTOR_HDR_DATA_SIZE, SECTOR_SIZE, EF_ERASE_MIN_SIZE in *. destruct (base_cases i); repeat split; try done; lia.
Qed.

(** An item changes by a byte. *)
Lemma flash_is_change mu nu L i st d l1 it l2 o it' :
  flash_is mu L -> sec L i = Fmt st d (l1 ++ it :: l2) -> cleared it o it' -> items_ok (l1 ++ it' :: l2) ->
  (forall x, nu x = clr mu (base i + SECTOR_HDR_DATA_SIZE + ilen l1 + o) x) ->
  flash_is nu (upd L i (Fmt st d (l1 ++ it' :: l2))).
Proof.
  intros HL HS Hc Hok Hnu. destruct (item_place mu L i st d l1 it l2 HL HS) as (_ & _ & Ha & Hb & _).
  pose proof (ilen_nonneg l1). unfold SECTOR_HDR_DATA_SIZE in *.
  apply (flash_is_upd mu); [done | |].
  - intros x Hx. rewrite Hnu. unfold clr. destruct Hc as [? _].
    rewrite (proj2 (Z.eqb_neq x _)); [done|]. intros ->. apply Hx. destruct (base_cases i); lia.
  - pose proof (HL i) as Hl. rewrite HS in Hl. by eapply fmt_change.
Qed.

Lemma le32_app l1 l2 i : zlen l1 <= i -> le32 (l1 ++ l2) i = le32 l2 (i - zlen l1).
Proof.
  intros Hi. pose proof (zlen_nonneg l1).
  assert (Hg : forall j, zlen l1 <= j -> aget (l1 ++ l2) j = aget l2 (j - zlen l1)).
  { intros j Hj. unfold zlen in *. rewrite !aget_lookup by lia. rewrite lookup_app_r by lia. f_equal. lia. }
  unfold le32. rewrite !Hg by lia. replace (i + 1 - zlen l1) with (i - zlen l1 + 1) by lia.
  replace (i + 2 - zlen l1) with (i - zlen l1 + 2) by lia. by replace (i + 3 - zlen l1) with (i - zlen l1 + 3) by lia.
Qed.

Lemma bad_fields s a b0 err rest :
  holds (mem s) a (item_bytes (Bad b0 err rest)) -> b0 = 0 \/ b0 = 255 -> 20 <= zlen rest ->
  get_status (bytes_at (mem s) a 28) ENV_STATUS_NUM
  = Some (if err then ENV_ERR_HDR else if b0 =? 0 then ENV_PRE_WRITE else ENV_UNUSED)
  /\ le32 (bytes_at (mem s) a 28) ENV_LEN_OFFSET = le32 rest 4
  /\ le32 (bytes_at (mem s) a 28) 16 = le32 rest 8
  /\ bytes_at (mem s) (a + 20) (zlen rest - 12) = drop 12 rest.
Proof.
  intros Hh Hb Hl. cbn [item_bytes] in Hh. apply holds_app in Hh as [Ht Hr].
  set (t := [b0; 255; 255; 255; if err then 0 else 255; 255; 255; 255]) in *. change (zlen t) with 8 in Hr.
  assert (E28 : bytes_at (mem s) a 28 = t ++ bytes_at (mem s) (a + 8) 20).
  { change 28 with (8 + 20). rewrite bytes_at_app by lia. f_equal. exact Ht. }
  assert (Hle : forall i, 0 <= i -> i + 4 <= 20 -> le32 (bytes_at (mem s) (a + 8) 20) i = le32 rest i).
  { intros i Hi Hi4. unfold holds in Hr. rewrite <- Hr. rewrite !le32_bytes by lia. done. }
  rewrite E28. repeat split.
  - unfold t. by destruct err, Hb as [->| ->].
  - rewrite le32_app by done. change (zlen t) with 8. apply Hle; done.
  - rewrite le32_app by done. change (zlen t) with 8. apply Hle; done.
  - assert (Er : bytes_at (mem s) (a + 8) 12 ++ bytes_at (mem s) (a + 20) (zlen rest - 12) = rest).
    { replace (a + 20) with (a + 8 + 12) by lia. rewrite <- bytes_at_app by lia.
      rewrite <- Hr at 2. f_equal. lia. }
    rewrite <- Er at 2. rewrite drop_app_length'; [done|]. unfold bytes_at. by rewrite length_map, length_seqZ.
Qed.

Lemma wpc_read_env_rec st k v e (Q : EfErrCode * env_node_obj -> Ef C -> Prop) s :
  holds (mem s) (addr_start e) (item_bytes (Rec st k v)) -> item_ok (Rec st k v) ->
  20 <= addr_start e -> addr_start e + node_len k v <= 262144 ->
  (forall e', seen (Rec st k v) (addr_start e) e' -> Q (EF_NO_ERR, e') s) ->
  wpc P (read_env e) Q s.
Proof.
  intros Hh [Hst Hok] Ha Hend HQ. set (a := addr_start e) in *. unfold read_env. fold a.
  pose proof (entry_len_bound k v Hok) as Hlen. pose proof (key_len _ _ Hok) as Hk.
  pose proof (zlen_nonneg v). assert (Hn : node_len k v = 28 + zlen k + zlen v) by done.
  rewrite rec_bytes_split, !holds_app, rec_hdr_zlen in Hh. destruct Hh as (Hhdr & Hkey & Hval).
  assert (E28 : bytes_at (mem s) a ENV_HDR_DATA_SIZE = rec_hdr st k v).
  { apply holds_bytes_eq; [done|]. by rewrite rec_hdr_zlen. }
  destruct (rec_hdr_fields st k v Hst Hok) as (F1 & F2 & F3 & F4 & F5).
  apply wpc_bind, wpc_port_read; [lia | done | unfold ENV_HDR_DATA_SIZE; lia|]. rewrite E28.
  do 5 (apply wpc_bind; eapply wpc_lift_opt; [eassumption|]).
  unfold ENV_AREA_SIZE, EF_ERASE_MIN_SIZE, SECTOR_SIZE, EF_ERASE_MIN_SIZE, SECTOR_HDR_DATA_SIZE, ENV_NAME_LEN_OFFSET.
  rewrite (proj2 (Z.eqb_neq (node_len k v) _)), (proj2 (Z.ltb_ge (131072 * 2) _)), (proj2 (Z.ltb_ge _ 20)) by lia.
  cbn [orb]. rewrite (proj2 (Z.ltb_ge (131072 - 20) _)) by lia. cbn [andb].
  apply wpc_bind. rewrite u32_small by lia. apply wpc_crc_loop; [lia | lia | lia | rewrite sector_fuel; lia |].
  assert (Ecrc : ef_calc_crc32 0 (bytes_at (mem s) (a + 20 + 0) (node_len k v - 20 - 0)) = env_crc k v).
  { rewrite env_crc_eq by lia. f_equal. apply holds_bytes_eq.
    - rewrite !holds_app. change (zlen (name_part (zlen k) (zlen v))) with 8.
      replace (a + 20 + 0 + 8) with (a + 28) by lia. split; [|done].
      unfold rec_hdr, hdr_bytes in Hhdr. rewrite !holds_app, env_tbl_zlen in Hhdr.
      destruct Hhdr as (_ & _ & _ & _ & _ & Hnp). change (zlen [255; 255; 255]) with 3 in Hnp.
      rewrite !le_bytes_zlen in Hnp. by replace (a + 20 + 0) with (a + 5 + 3 + 4 + 4 + 4) by lia.
    - rewrite !zlen_app. change (zlen (name_part (zlen k) (zlen v))) with 8. lia. }
  rewrite Ecrc, Z.eqb_refl. cbn [negb]. apply wpc_bind. unfold read_name, EF_ENV_NAME_MAX.
  rewrite (proj2 (Z.ltb_ge 32 _)) by lia. apply wpc_bind. rewrite EF_WG_ALIGN_id by lia. unfold ENV_HDR_DATA_SIZE.
  rewrite (u32_small (a + 28)) by lia. apply wpc_port_read; [lia..|]. apply wpc_ret, wpc_ret.
  rewrite u32_small by lia. rewrite (holds_bytes_eq _ _ _ _ Hkey eq_refl).
  apply HQ. unfold seen. rewrite rec_len. cbn. repeat split. apply prefix_app.
Qed.

Lemma wpc_read_env_long b0 err rest e (Q : EfErrCode * env_node_obj -> Ef C -> Prop) s :
  holds (mem s) (addr_start e) (item_bytes (Bad b0 err rest)) -> b0 = 0 -> bad_long rest ->
  20 <= addr_start e -> addr_start e + (8 + zlen rest) <= 262144 ->
  (forall e', seen (Bad b0 err rest) (addr_start e) e' -> Q (EF_READ_ERR, e') s) ->
  wpc P (read_env e) Q s.
Proof.
  intros Hh Hb0 (Hlen & Hn & Hcrc) Ha Hend HQ. set (a := addr_start e) in *. unfold read_env. fold a.
  unfold SECTOR_SIZE, EF_ERASE_MIN_SIZE, SECTOR_HDR_DATA_SIZE in Hlen.
  destruct (bad_fields s a b0 err rest Hh) as (F1 & F2 & F3 & F4); [by left | lia |].
  rewrite Hn in F2. apply wpc_bind, wpc_port_read; [lia | done | unfold ENV_HDR_DATA_SIZE; lia|].
  change ENV_HDR_DATA_SIZE with 28.
  apply wpc_bind; eapply wpc_lift_opt; [exact F1|]. apply wpc_bind; eapply wpc_lift_opt; [exact F2|].
  rewrite <- F3 in Hcrc. rewrite le32_bytes in Hcrc by lia.
  apply wpc_bind; eapply wpc_lift_opt; [apply le32_bytes; lia|].
  apply wpc_bind; eapply wpc_lift_opt; [apply bytes_at_aget; unfold ENV_NAME_LEN_OFFSET; lia|].
  apply wpc_bind; eapply wpc_lift_opt; [apply le32_bytes; lia|].
  unfold ENV_AREA_SIZE, SECTOR_SIZE, EF_ERASE_MIN_SIZE, SECTOR_HDR_DATA_SIZE, ENV_NAME_LEN_OFFSET.
  rewrite (proj2 (Z.eqb_neq (8 + zlen rest) _)), (proj2 (Z.ltb_ge (131072 * 2) _)), (proj2 (Z.ltb_ge _ 20)) by lia.
  cbn [orb]. rewrite (proj2 (Z.ltb_ge (131072 - 20) _)) by lia. cbn [andb].
  apply wpc_bind. rewrite u32_small by lia. apply wpc_crc_loop; [lia | lia | lia | rewrite sector_fuel; lia |].
  replace (bytes_at (mem s) (a + 20 + 0) (8 + zlen rest - 20 - 0)) with (drop 12 rest).
  2: { rewrite <- F4. f_equal; lia. }
  rewrite (proj2 (Z.eqb_neq _ _)); [|intros E; apply Hcrc; by rewrite E].
  cbn [negb]. apply wpc_ret, HQ. unfold seen. rewrite bad_len. cbn. subst b0. split; [done|]. split; [done|].
  split; [done|]. destruct err; [by left | by right].
Qed.

(** A record whose length was not written is marked, once. *)
Lemma wpc_read_env_short b0 err rest e (Q : EfErrCode * env_node_obj -> Ef C -> Prop) s :
  holds (mem s) (addr_start e) (item_bytes (Bad b0 err rest)) -> b0 = 0 \/ b0 = 255 -> bad_short rest ->
  20 <= addr_start e -> addr_start e + 28 <= 262144 ->
  (err = false -> forall mu, (forall x, mu x = mem s x) \/ (forall x, mu x = clr (mem s) (addr_start e + 4) x) -> P mu) ->
  (forall e' s', seen (Bad b0 true rest) (addr_start e) e' -> ram s' = ram s ->
     (if err then s' = s else forall x, mem s' x = clr (mem s) (addr_start e + 4) x) -> Q (EF_READ_ERR, e') s') ->
  wpc P (read_env e) Q s.
Proof.
  intros Hh Hb0 (Hlen & n & Hn & Hbad) Ha Hend HP HQ. set (a := addr_start e) in *. unfold read_env. fold a.
  destruct (bad_fields s a b0 err rest Hh) as (F1 & F2 & F3 & F4); [done | lia |].
  rewrite Hn in F2. apply wpc_bind, wpc_port_read; [lia | done | unfold ENV_HDR_DATA_SIZE; lia|].
  change ENV_HDR_DATA_SIZE with 28.
  apply wpc_bind; eapply wpc_lift_opt; [exact F1|]. apply wpc_bind; eapply wpc_lift_opt; [exact F2|].
  apply wpc_bind; eapply wpc_lift_opt; [apply le32_bytes; lia|].
  apply wpc_bind; eapply wpc_lift_opt; [apply bytes_at_aget; unfold ENV_NAME_LEN_OFFSET; lia|].
  apply wpc_bind; eapply wpc_lift_opt; [apply le32_bytes; lia|].
  assert (Ec : (n =? 4294967295) || (ENV_AREA_SIZE <? n) || (n <? ENV_NAME_LEN_OFFSET) = true).
  { destruct Hbad; [rewrite (proj2 (Z.ltb_lt ENV_AREA_SIZE n)) by done | rewrite (proj2 (Z.ltb_lt n _)) by done];
      by rewrite ?orb_true_r. }
  rewrite Ec. apply wpc_bind. destruct err.
  - rewrite Z.eqb_refl. cbn [negb]. apply wpc_ret, wpc_ret, HQ; [|done|done]. unfold seen. rewrite bad_len. cbn.
    split; [done|]. split; [lia|]. split; [done | by left].
  - assert (Est : ((if b0 =? 0 then ENV_PRE_WRITE else ENV_UNUSED) =? ENV_ERR_HDR) = false) by (by destruct Hb0 as [->| ->]).
    rewrite Est. cbn [negb]. apply wpc_bind. apply wpc_write_status; [lia | done | unfold ENV_ERR_HDR; lia | by apply HP |].
    intros s' Hram Hm. apply wpc_ret, wpc_ret, HQ; [|done|exact Hm]. unfold seen. rewrite bad_len. cbn.
    split; [done|]. split; [lia|]. split; [done | by left].
Qed.

Lemma seen_like it jt a e : unmark jt = unmark it -> seen jt a e -> seen it a e.
Proof.
  intros E (Ha & Hl & Hs). split; [done|]. split; [by rewrite Hl, <- unmark_len, E, unmark_len|].
  by destruct it, jt; try done; injection E as -> -> ->.
Qed.

Lemma wpc_read_env_at L i st d l1 it l2 e (Q : EfErrCode * env_node_obj -> Ef C -> Prop) s :
  flash_is (mem s) L -> sec L i = Fmt st d (l1 ++ it :: l2) -> is_gap it = false ->
  addr_start e = base i + SECTOR_HDR_DATA_SIZE + ilen l1 -> PL L ->
  (forall r e' s', seen it (addr_start e) e' -> ram s' = ram s -> Flash (mem s') L -> Q (r, e') s') ->
  wpc P (read_env e) Q s.
Proof.
  intros HL HS Hg Ha HP HQ.
  destruct (item_place (mem s) L i st d l1 it l2 HL HS) as (Hh & Hok & Hlo & _ & Hhi). rewrite <- Ha in *.
  destruct it as [rst k v|bs|b0 err rest]; [|done|].
  - apply (wpc_read_env_rec rst k v); [done | done | done | by rewrite <- rec_len with (st := rst) |].
    intros e' He. apply HQ; [done | done | by apply Flash_of].
  - destruct Hok as (Hby & Hb0 & Hm & [Hbs|[-> Hbl]]); rewrite bad_len in Hhi.
    + pose proof (items_ok_change l1 (Bad b0 err rest) (Bad b0 true rest) l2) as Hch.
      pose proof (HL i) as Hlay. rewrite HS in Hlay.
      assert (Hnu : forall nu, err = false -> (forall x, nu x = clr (mem s) (addr_start e + 4) x) -> Flash nu L).
      { intros nu -> Hnu. exists (upd L i (Fmt st d (l1 ++ Bad b0 true rest :: l2))). split.
        - rewrite <- (upd_same L i) at 2. apply like_upd; [apply like_refl|].
          rewrite HS. cbn [unmark_sec]. by rewrite !map_app.
        - eapply flash_is_change; [done | done | apply cleared_bad | | by rewrite <- Ha].
          apply Hch; [apply Hlay | | by rewrite !bad_len | done | done]. by repeat split; [..|left]. }
      pose proof Hbs as [El _].
      apply (wpc_read_env_short b0 err rest); [done | done | done | done | lia | |].
      * intros Ee mu [Hmu|Hmu]; apply HP; [by eapply Flash_ext, Flash_of | by apply Hnu].
      * intros e' s' He Hram Hm'. apply HQ; [by apply (seen_like _ (Bad b0 true rest)) | done |].
        destruct err; [subst s'; by apply Flash_of | by apply Hnu].
    + apply (wpc_read_env_long 0 err rest); [done | done | done | done | done |].
      intros e' He. apply HQ; [done | done | by apply Flash_of].
Qed.
End Reading.
