(* ===== verification/EfCrc.v ===== *)
(** * The check sum and its polynomial

    The table of [ef_calc_crc32] against the bitwise definition: the remainder for
    the reflected polynomial 0xEDB88320. *)

From S2P Require Import Prelude CStr Storage EfEnv EfFlash EfLayout EfRead.
Open Scope list_scope.

Definition crc_poly : Z := 3988292384.
Definition crc_bit (x : Z) : Z := if Z.testbit x 0 then Z.lxor (Z.shiftr x 1) crc_poly else Z.shiftr x 1.
Definition crc_bits (x : Z) : Z := Nat.iter 8 crc_bit x.

(** The check sum byte by byte, each byte bit by bit. *)
Definition crc32_bitwise (crc : Z) (buf : list Z) : Z :=
  Z.lxor (fold_left (fun c p => crc_bits (Z.lxor c p)) buf (Z.lxor crc 4294967295)) 4294967295.

Lemma crc_bit_xor a b : crc_bit (Z.lxor a b) = Z.lxor (crc_bit a) (crc_bit b).
Proof.
  unfold crc_bit. rewrite Z.lxor_spec, Z.shiftr_lxor. apply Z.bits_inj'. intros n Hn.
  destruct (Z.testbit a 0), (Z.testbit b 0); cbn [xorb]; rewrite ?Z.lxor_spec;
    destruct (Z.testbit (Z.shiftr a 1) n), (Z.testbit (Z.shiftr b 1) n), (Z.testbit crc_poly n); done.
Qed.

Lemma crc_bits_xor a b : crc_bits (Z.lxor a b) = Z.lxor (crc_bits a) (crc_bits b).
Proof. unfold crc_bits. cbn [Nat.iter nat_rect]. by rewrite !crc_bit_xor. Qed.

Lemma crc_bit_even a : crc_bit (Z.shiftl a 1) = a.
Proof.
  unfold crc_bit. rewrite Z.shiftl_spec_low by lia. by rewrite Z.shiftr_shiftl_l by lia.
Qed.

Lemma crc_bits_high a : crc_bits (Z.shiftl a 8) = a.
Proof.
  unfold crc_bits. assert (E : Z.shiftl a 8 = Nat.iter 8 (fun x => Z.shiftl x 1) a).
  { cbn [Nat.iter nat_rect]. by rewrite !Z.shiftl_shiftl by lia. }
  rewrite E. cbn [Nat.iter nat_rect]. by rewrite !crc_bit_even.
Qed.

(** The entries of the table. *)
Lemma crc_table_entries : forallb (fun i => nth (Z.to_nat i) crc32_table 0 =? crc_bits i) (seqZ 0 256) = true.
Proof. vm_compute. reflexivity. Qed.

Lemma crc_table_entry i : 0 <= i < 256 -> nth (Z.to_nat i) crc32_table 0 = crc_bits i.
Proof.
  intros Hi. pose proof crc_table_entries as Hall. rewrite forallb_forall in Hall.
  apply Z.eqb_eq, Hall, list_elem_of_In, elem_of_seqZ. lia.
Qed.

Lemma low_high x : x = Z.lxor (Z.land x 255) (Z.shiftl (Z.shiftr x 8) 8).
Proof.
  apply Z.bits_inj'. intros n Hn. rewrite Z.lxor_spec, Z.land_spec. change 255 with (Z.ones 8).
  destruct (Z.lt_ge_cases n 8).
  - rewrite Z.ones_spec_low, Z.shiftl_spec_low by lia. by rewrite andb_true_r, xorb_false_r.
  - rewrite Z.ones_spec_high, Z.shiftl_spec, Z.shiftr_spec by lia. rewrite andb_false_r, xorb_false_l. f_equal. lia.
Qed.

Lemma crc_byte_bits c p : 0 <= c -> is_byte p -> crc_byte c p = crc_bits (Z.lxor c p).
Proof.
  intros Hc Hp. unfold crc_byte, is_byte in *. rewrite (low_high (Z.lxor c p)) at 2. rewrite crc_bits_xor, crc_bits_high.
  assert (Hl : 0 <= Z.land (Z.lxor c p) 255 < 256).
  { change 255 with (Z.ones 8). rewrite Z.land_ones by lia. apply Z.mod_pos_bound. lia. }
  rewrite crc_table_entry by done. f_equal. rewrite Z.shiftr_lxor.
  assert (E : Z.shiftr p 8 = 0) by (rewrite Z.shiftr_div_pow2 by lia; apply Z.div_small; lia). by rewrite E, Z.lxor_0_r.
Qed.

Lemma crc_bits_nonneg x : 0 <= x -> 0 <= crc_bits x.
Proof.
  assert (Hb : forall y, 0 <= y -> 0 <= crc_bit y).
  { intros y Hy. unfold crc_bit. pose proof (proj2 (Z.shiftr_nonneg y 1) Hy). destruct (Z.testbit y 0); [|done].
    by apply Z.lxor_nonneg. }
  intros Hx. unfold crc_bits. cbn [Nat.iter nat_rect]. by repeat apply Hb.
Qed.

(** C16: the table driven check sum is the CRC-32 of the polynomial, computed bit by
    bit, for every start value and every sequence of bytes. *)
Theorem crc32_bitwise_eq crc buf :
  0 <= crc < 2 ^ 32 -> bytes_ok buf -> ef_calc_crc32 crc buf = crc32_bitwise crc buf.
Proof.
  intros Hc Hb. unfold ef_calc_crc32, crc32_bitwise. f_equal.
  assert (Hn : 0 <= Z.lxor crc 4294967295) by (apply Z.lxor_nonneg; lia).
  revert Hn. generalize (Z.lxor crc 4294967295). induction Hb as [|p buf Hp _ IH]; intros c Hn; [done|].
  cbn [fold_left]. rewrite crc_byte_bits by done. apply IH, crc_bits_nonneg, Z.lxor_nonneg.
  split; intros _; [unfold is_byte in Hp; lia | done].
Qed.

(** The check sum of the digits 1 to 9, as published for this polynomial. *)
Lemma crc32_bitwise_eq_witness :
  ef_calc_crc32 0 [49; 50; 51; 52; 53; 54; 55; 56; 57] = 3421780262
  /\ ef_calc_crc32 0 [49; 50; 51; 52; 53; 54; 55; 56; 57] = crc32_bitwise 0 [49; 50; 51; 52; 53; 54; 55; 56; 57].
Proof. split; [vm_compute; reflexivity | apply crc32_bitwise_eq; [lia | by repeat constructor]]. Defined.
