(* ===== verification/EfChip.v ===== *)
(** * A serial flash that remembers

    The chip in memory of Storage with the contents it went through: an instance of
    [FlashDoc], at which the theorems of the store are applied. *)

From S2P Require Import Prelude CStr Storage EfEnv EfFlash EfLayout.
Open Scope list_scope.

Record log_chip := mkLog { now : mem_chip; past : (Z -> Z) -> Prop }.

Definition write_past (c : log_chip) (a : Z) (bs : list Z) (mu : Z -> Z) : Prop :=
  past c mu \/ exists n, (n <= length bs)%nat /\ forall x, mu x = prog (fun y => u8 (nor_mem (now c) y)) a (take n bs) x.
Definition erase_past (c : log_chip) (a n : Z) (mu : Z -> Z) : Prop :=
  past c mu \/ exists e, a <= e <= a + n /\ e mod erase_gran = 0 /\ forall x, mu x = wipe (fun y => u8 (nor_mem (now c) y)) a e x.

#[export] Instance log_chips : Chips log_chip := {|
  sfud_read c a n := sfud_read (now c) a n;
  sfud_write c a bs := (true, mkLog (snd (sfud_write (now c) a bs)) (write_past c a bs));
  sfud_erase c a n := (true, mkLog (snd (sfud_erase (now c) a n)) (erase_past c a n));
  onchip_byte c x := onchip_byte (now c) x;
  HAL_FLASH_Program c a b := mkLog (HAL_FLASH_Program (now c) a b) (past c);
  FLASH_Erase_Sector c s := mkLog (FLASH_Erase_Sector (now c) s) (past c)
|}.

#[export] Instance log_laws : ChipLaws log_chip.
Proof.
  refine {| nor c x := nor (now c) x |}.
  - intros c x. apply nor_byte.
  - intros c a bs i b _. by apply sfud_write_ok.
  - intros c a bs x. by apply sfud_write_frame.
  - intros c a n x _. by apply sfud_erase_ok.
  - intros c a n x. by apply sfud_erase_frame.
Defined.

#[export] Instance log_doc : FlashDoc log_chip.
Proof.
  refine {| passed := past |}.
  - intros c a n _. done.
  - done.
  - done.
  - intros c a bs mu [Hp|Hp]; [by left | by right].
  - intros c a n mu _ _ [Hp|Hp]; [by left | by right].
  - intros c a bs n Hn. right. by exists n.
  - intros c a n e He Hem. right. by exists e.
Defined.

(** A chip as it is delivered: all bytes erased. *)
Definition erased_chip : log_chip := mkLog (mkChip (fun _ => 255) (fun _ => 255) []) (fun _ => False).

Lemma erased_blank R : Flash (mem (mkEf erased_chip R)) (Blank, Blank).
Proof. apply Flash_of. intros []; cbn [sec lay fst snd]; vm_compute; discriminate. Qed.
