(* ===== verification/EfStore.v ===== *)
(** * The store and its caches

    [store L s]: the two sectors are as [L] says and the cache of their ends is
    right.  The steps that read, [get_next_env_addr], [read_env] and
    [read_sector_meta_data], follow [L] and keep [store L]. *)

From S2P Require Import Prelude CStr Storage EfEnv EfFlash EfLayout EfRead.
Open Scope list_scope.

(** What the cache of sectors says is right, and of a sector it says one thing. *)
Record sec_cache_ok (L : Sec * Sec) (t : list sector_cache_node) : Prop := {
  sec_cache_end n : n ∈ t -> sec_addr n <> FAILED_ADDR ->
    exists i st d its, sec_addr n = base i /\ sec L i = Fmt st d its /\ empty_addr n = ends (base i) its;
  sec_cache_one j k m n : t !! j = Some m -> t !! k = Some n -> sec_addr m = sec_addr n ->
    sec_addr m <> FAILED_ADDR -> j = k
}.

Record store {C} `{FlashDoc C} (L : Sec * Sec) (s : Ef C) : Prop := {
  store_flash : Flash (mem s) L;
  store_cache : sec_cache_ok L (sector_cache_table (ram s));
  store_start : env_start_addr (ram s) = 0
}.

Lemma base_not_failed i : base i <> FAILED_ADDR.
Proof. destruct i; done. Qed.

Lemma cache_get_in a e t : get_sector_from_cache a t = Some e -> mkSecNode a e ∈ t.
Proof.
  induction t as [|[na ne] t IH]; [done|]. cbn [get_sector_from_cache sec_addr empty_addr].
  destruct (Z.eqb_spec na a) as [->|]; [intros [= ->] | intros ?%IH]; set_solver.
Qed.

Lemma cached_end L t a e :
  sec_cache_ok L t -> get_sector_from_cache a t = Some e -> a <> FAILED_ADDR ->
  exists i st d its, a = base i /\ sec L i = Fmt st d its /\ e = ends (base i) its.
Proof. intros [Hin _] He%cache_get_in Ha. by apply (Hin _ He). Qed.

Lemma sec_cache_like L L' t : like L L' -> sec_cache_ok L t -> sec_cache_ok L' t.
Proof.
  intros Hl [He Ho]. split; [|exact Ho]. intros n Hn Ha.
  destruct (He n Hn Ha) as (i & st & d & its & E1 & E2 & E3).
  assert (Hl' : like L' L) by (intros j; symmetry; apply Hl).
  destruct (like_fmt L' L i st d its Hl' E2) as (its' & E4 & E5). exists i, st, d, its'.
  unfold ends in *. rewrite (like_ilen _ _ E5). done.
Qed.

(** ** The next record *)

Definition ready (l : list item) : Prop := match l with it :: _ => is_gap it = false | [] => True end.

(** [e] is at the record [it], whatever its status is. *)
Definition is_rec (it : item) : bool := match it with Rec _ _ _ => true | _ => false end.
Definition located (it : item) (a : Z) (e : env_node_obj) : Prop :=
  is_gap it = false /\ addr_start e = a /\ env_len e = item_len it /\ crc_is_ok e = is_rec it.

Lemma seen_located it a e : seen it a e -> located it a e.
Proof. intros (Ha & Hl & He). destruct it; [|done|]; repeat split; try done; apply He. Qed.

Lemma located_like it jt a e : unmark jt = unmark it -> located jt a e -> located it a e.
Proof.
  intros E (Hg & Ha & Hl & Hc).
  assert (El : item_len it = item_len jt) by (by rewrite <- unmark_len, <- E, unmark_len).
  unfold located. rewrite El. destruct it, jt; done.
Qed.

(** [e] is at the last record of [l1], when the search stands behind it. *)
Definition after (i : bool) (l1 : list item) (e : env_node_obj) : Prop :=
  (l1 = [] /\ addr_start e = FAILED_ADDR) \/
  exists m it g, l1 = m ++ it :: g /\ forallb is_gap g = true /\ located it (ends (base i) m) e.

Lemma found_magic mu a it : holds mu a (item_bytes it) -> is_gap it = false -> found it -> magic_at mu (a + 8).
Proof.
  intros Hh Hg Hf. unfold magic_at.
  assert (Hb : exists t rest, item_bytes it = t ++ le_bytes ENV_MAGIC_WORD ++ rest /\ zlen t = 8).
  { destruct it as [st k v| |b0 err rest]; [|done|]; cbn [item_bytes].
    - exists (env_tbl st ++ [255; 255; 255]). eexists. split; [|by rewrite zlen_app, env_tbl_zlen].
      unfold rec_body, hdr_bytes. by rewrite <- !app_assoc.
    - eexists _, (drop 4 rest). split; [|shelve]. cbn [found] in Hf. by rewrite <- Hf, take_drop. Unshelve. done. }
  destruct Hb as (t & rest & E & Et). rewrite E, !holds_app, Et in Hh. apply Hh.
Qed.

(** No magic word on the way to the next record. *)
Lemma after_dead mu b st d m it g l2 (r : Z) e :
  fmt_at mu b st d (m ++ it :: g ++ l2) -> forallb is_gap g = true -> ready l2 -> located it (ends b m) e ->
  ends b m + (if crc_is_ok e then env_len e else 1) + 8 <= r ->
  r + 4 <= b + SECTOR_SIZE ->
  (l2 <> [] -> r < ends b (m ++ it :: g) + 8) -> dead mu r.
Proof.
  intros [_ _ Hi Hff Hs [Ho _ _ Hroom]] Hgs Hl2 (Hg & Ha & Hl & Hc) Hlo Hhi Htop. unfold ends, SECTOR_HDR_DATA_SIZE in *.
  rewrite items_bytes_app, items_bytes_cons, !holds_app in Hi. destruct Hi as (_ & Hit & Hrest).
  fold (ilen m) in *. fold (item_len it) in *.
  apply Forall_app in Ho as [_ Ho]. apply Forall_cons_1 in Ho as [Hok Hokr].
  assert (Hff' : forall x, b + 20 + ilen m + item_len it + ilen (g ++ l2) <= x < b + SECTOR_SIZE -> mu x = 255).
  { intros x Hx. apply Hff. rewrite ilen_app, ilen_cons. lia. }
  destruct (Z.lt_ge_cases r (b + 20 + ilen m + item_len it)) as [Hin|Hout].
  - destruct it as [rst k v|bs|b0 err rest]; [|done|].
    + rewrite Hc, Hl in Hlo. cbn [is_rec] in Hlo. lia.
    + rewrite Hc in Hlo. cbn [is_rec] in Hlo.
      apply (dead_item mu (b + 20 + ilen m) (Bad b0 err rest) (g ++ l2) (b + SECTOR_SIZE) 9); try done; try lia.
      * apply holds_app. done.
      * by apply bad_hides.
  - destruct l2 as [|it2 l3].
    + rewrite app_nil_r in *. apply (search_end mu g (b + 20 + ilen m + item_len it) (b + SECTOR_SIZE)); done.
    + assert (Hroom2 : 20 + ilen (m ++ it :: g) + 29 <= SECTOR_SIZE).
      { apply (Hroom (m ++ it :: g) it2 l3); [|done]. by rewrite <- app_assoc. }
      specialize (Htop ltac:(done)). rewrite ilen_app, ilen_cons in *.
      apply (search_gaps mu g (b + 20 + ilen m + item_len it) it2 l3 (b + SECTOR_SIZE)); try done; try lia.
      intros x Hx. apply Hff'. rewrite ilen_app, ilen_cons in Hx. lia.
Qed.

Lemma tail_in {A} (m : list A) it g x l : x ∈ tail (m ++ it :: g ++ x :: l).
Proof. destruct m; cbn; set_solver. Qed.

(** What the search answers when [l1] has been read and [l2] is left. *)
Definition next_addr (i : bool) (l1 l2 : list item) : Z :=
  match l2 with [] => FAILED_ADDR | _ => ends (base i) l1 end.

Lemma cached_here L i st d its t a :
  sec_cache_ok L t -> sec L i = Fmt st d its -> base i < a <= base i + SECTOR_SIZE ->
  get_sector_from_cache (a - a mod SECTOR_SIZE) t = Some a -> a = ends (base i) its.
Proof.
  intros Hc HS Ha Hg. unfold SECTOR_SIZE, EF_ERASE_MIN_SIZE in *.
  destruct (cached_end L t _ _ Hc Hg) as (j & st' & d' & its' & E1 & E2 & E3).
  { unfold FAILED_ADDR. pose proof (Z.mod_pos_bound a 131072). destruct (base_cases i); lia. }
  pose proof (ilen_nonneg its'). unfold ends, SECTOR_HDR_DATA_SIZE in *.
  pose proof (Z.mod_pos_bound a 131072). pose proof (Z.div_mod a 131072).
  assert (j = i) as -> by (destruct i, j; unfold base, SECTOR_SIZE, EF_ERASE_MIN_SIZE in *; try done; lia).
  congruence.
Qed.

(** *** Up to marks *)

Lemma gap_like x y : unmark x = unmark y -> is_gap x = is_gap y.
Proof. destruct x, y; cbn; congruence. Qed.

Lemma gaps_like g h : map unmark h = map unmark g -> forallb is_gap g = true -> forallb is_gap h = true.
Proof.
  revert h. induction g as [|y g IH]; intros [|x h] E Hg; try done. injection E as Ex E. cbn [forallb] in *.
  apply andb_true_iff in Hg as [Hy Hg]. rewrite (gap_like x y Ex), Hy. by apply (IH h).
Qed.

Lemma after_like i l1 m1 e : map unmark m1 = map unmark l1 -> after i l1 e -> after i m1 e.
Proof.
  intros E [[-> Ha]|(m & it & g & -> & Hgs & Hsn)].
  - left. by apply map_eq_nil in E.
  - right. destruct (like_split _ _ _ _ E) as (n1 & jt & n2 & -> & E1 & E2 & E3).
    exists n1, jt, n2. split; [done|]. split; [by apply (gaps_like g)|].
    unfold ends. rewrite (like_ilen n1 m E1). by apply (located_like jt it).
Qed.

Lemma ready_like l m : map unmark m = map unmark l -> ready l -> ready m.
Proof. destruct l as [|[] l], m as [|[] m]; cbn; congruence. Qed.

Lemma next_addr_like i l1 l2 m1 m2 :
  map unmark m1 = map unmark l1 -> map unmark m2 = map unmark l2 -> next_addr i m1 m2 = next_addr i l1 l2.
Proof. intros E1 E2. destruct l2, m2; try done. cbn [next_addr]. unfold ends. by rewrite (like_ilen m1 l1). Qed.

Lemma like_sym L L' : like L L' -> like L' L.
Proof. intros Hl i. symmetry. apply Hl. Qed.

(** ** The end of the log *)

Definition no_gaps (l : list item) : Prop := forallb (fun it => negb (is_gap it)) l = true.

(** The search for the end of the data finds the end of the log. *)
Definition tidy (l : list item) : Prop :=
  no_gaps l \/ match last l with
               | Some (Rec _ _ _) => True
               | Some (Gap bs) => last bs <> Some 255
               | _ => False
               end.

(** The bytes of the items the traversal counts. *)
Definition counted (l : list item) : Z := ilen (filter (fun it => is_gap it = false) l).

Lemma counted_app l1 l2 : counted (l1 ++ l2) = counted l1 + counted l2.
Proof. unfold counted. by rewrite filter_app, ilen_app. Qed.

Lemma counted_cons it l : is_gap it = false -> counted (it :: l) = item_len it + counted l.
Proof. intros Hg. unfold counted. by rewrite filter_cons_True, ilen_cons. Qed.

Lemma counted_gaps g : forallb is_gap g = true -> counted g = 0.
Proof.
  induction g as [|x g IH]; [done|]. cbn [forallb]. intros [Hx Hg]%andb_true_iff.
  unfold counted. rewrite filter_cons_False by congruence. by apply IH.
Qed.

Lemma counted_le l : 0 <= counted l <= ilen l.
Proof.
  induction l as [|it l IH]; [done|]. pose proof (item_len_nonneg it). rewrite ilen_cons.
  unfold counted in *. rewrite filter_cons. destruct (decide (is_gap it = false)); rewrite ?ilen_cons; lia.
Qed.

Lemma counted_no_gaps l : no_gaps l -> counted l = ilen l.
Proof.
  induction l as [|it l IH]; [done|]. unfold no_gaps in *. cbn [forallb]. intros [Hx Hl]%andb_true_iff.
  rewrite counted_cons, ilen_cons by (by destruct (is_gap it)). by rewrite IH.
Qed.

Lemma gaps_split l : exists g r, l = g ++ r /\ forallb is_gap g = true /\ ready r.
Proof.
  induction l as [|it l (g & r & -> & Hg & Hr)]; [by exists [], []|].
  destruct (is_gap it) eqn:E.
  - exists (it :: g), r. cbn [forallb]. by rewrite E.
  - by exists [], (it :: g ++ r).
Qed.

(** The last byte of the log is not an erased one. *)
Lemma last_byte mu b st d its :
  fmt_at mu b st d its -> tidy its -> no_gaps its \/ mu (ends b its - 1) <> 255.
Proof.
  intros [_ _ Hi _ _ [Ho _ _ _]] [Hn|Ht]; [by left|]. right. destruct (last its) as [it|] eqn:El; [|done].
  apply last_Some in El as (l & ->). rewrite items_bytes_app, items_bytes_cons, !holds_app in Hi.
  destruct Hi as (_ & Hi & _). fold (ilen l) in *. apply Forall_app in Ho as [_ Ho]. apply Forall_cons_1 in Ho as [Hok _].
  assert (Hlb : exists bs x, item_bytes it = bs ++ [x] /\ x <> 255).
  { destruct it as [rst k v|bs|]; [| |done].
    - destruct Hok as [_ [Hk Hkl Hv _]]. rewrite rec_bytes_split.
      assert (Hkv : Forall (fun x => 0 < x < 128) (k ++ v)) by (by apply Forall_app).
      destruct (k ++ v) as [|y l' _] eqn:E using rev_ind.
      { apply app_nil in E as [-> ->]. change (zlen (@nil Z)) with 0 in Hkl. lia. }
      exists (rec_hdr rst k v ++ l'), y. rewrite <- app_assoc. split; [done|].
      apply Forall_app in Hkv as [_ Hy]. apply Forall_cons_1 in Hy as [Hy _]. lia.
    - cbn [item_bytes]. destruct bs as [|y l' _] using rev_ind.
      + destruct Hok as (_ & (t & ?) & _). done.
      + exists l', y. split; [done|]. rewrite last_snoc in Ht. congruence. }
  destruct Hlb as (bs & x & E & Hx). rewrite E, holds_app in Hi. destruct Hi as [_ Hi].
  apply holds_cons in Hi as [Hi _]. unfold ends. rewrite ilen_app, ilen_cons, ilen_nil. unfold item_len.
  rewrite E, zlen_app. change (zlen [x]) with 1.
  replace (b + SECTOR_HDR_DATA_SIZE + (ilen l + (zlen bs + 1 + 0)) - 1) with (b + SECTOR_HDR_DATA_SIZE + ilen l + zlen bs) by lia.
  congruence.
Qed.

Lemma ff_end mu b st d its f :
  fmt_at mu b st d its -> tidy its -> ff_from mu (b + SECTOR_HDR_DATA_SIZE + counted its) (b + SECTOR_SIZE) f ->
  f = ends b its.
Proof.
  intros Hf Ht (Hr & Hff & Hlast). pose proof (fmt_free _ _ _ _ _ Hf) as Hfree. pose proof (fmt_fits _ _ _ _ _ Hf).
  pose proof (counted_le its). unfold ends in *.
  assert (Hup : f <= b + SECTOR_HDR_DATA_SIZE + ilen its).
  { destruct (Z.le_gt_cases f (b + SECTOR_HDR_DATA_SIZE + ilen its)) as [?|Hgt]; [done|].
    destruct Hlast; [lia|]. apply Hfree. lia. }
  destruct (last_byte mu b st d its Hf Ht) as [Hn|Hb].
  - rewrite counted_no_gaps in * by done. lia.
  - destruct (Z.lt_ge_cases f (b + SECTOR_HDR_DATA_SIZE + ilen its)) as [Hlt|?]; [|lia].
    destruct Hb. apply Hff. unfold ends in *. lia.
Qed.

Lemma no_gaps_like l m : map unmark m = map unmark l -> no_gaps l -> no_gaps m.
Proof.
  unfold no_gaps. revert m. induction l as [|x l IH]; intros [|y m] E; try done.
  injection E as Ex E. cbn [forallb]. rewrite (gap_like y x Ex). intros [-> Hl]%andb_true_iff. by apply IH.
Qed.

Lemma counted_like l m : map unmark m = map unmark l -> counted m = counted l.
Proof.
  revert m. induction l as [|x l IH]; intros [|y m] E; try done. injection E as Ex E.
  unfold counted in *. rewrite !filter_cons. rewrite (gap_like y x Ex).
  assert (El : item_len y = item_len x) by (by rewrite <- unmark_len, Ex, unmark_len).
  destruct (decide (is_gap x = false)); rewrite ?ilen_cons, ?El, (IH m E); done.
Qed.

Lemma tidy_like l m : map unmark m = map unmark l -> tidy l -> tidy m.
Proof.
  intros E [Hn|Ht]; [left; by apply (no_gaps_like l)|]. right. destruct (last l) as [it|] eqn:El; [|done].
  apply last_Some in El as (l' & ->). destruct (like_split m l' it [] E) as (m1 & jt & m2 & -> & _ & E2 & E3).
  apply map_eq_nil in E3 as ->. rewrite last_snoc. destruct it; [| |done]; destruct jt; try done.
  by injection E2 as ->.
Qed.

(** ** The cache of the ends *)

Lemma sector_cache_loop_spec a e t :
  let inside := (a <? e) && (e <? a + SECTOR_SIZE) in
  match sector_cache_loop a e t with
  | inl t' => exists i n, t !! i = Some n /\ sec_addr n = a
                /\ t' = <[i := if inside then mkSecNode a e else mkSecNode FAILED_ADDR (empty_addr n)]> t
  | inr r => (forall n, n ∈ t -> sec_addr n <> a)
             /\ match r with Some i => inside = true /\ exists n, t !! i = Some n /\ sec_addr n = FAILED_ADDR
                           | None => True end
  end.
Proof.
  intros inside. induction t as [|n t IH]; [cbn; split; [set_solver | done]|].
  cbn [sector_cache_loop]. fold inside. destruct (Z.eqb_spec (sec_addr n) a) as [E|E].
  { destruct inside eqn:Ein; exists O, n; done. }
  assert (Hgo : match match sector_cache_loop a e t with inl t0 => inl (n :: t0) | inr i => inr (option_map S i) end with
                | inl t' => exists i m, (n :: t) !! i = Some m /\ sec_addr m = a
                    /\ t' = <[i := if inside then mkSecNode a e else mkSecNode FAILED_ADDR (empty_addr m)]> (n :: t)
                | inr r => (forall m, m ∈ n :: t -> sec_addr m <> a)
                    /\ match r with Some i => inside = true /\ exists m, (n :: t) !! i = Some m /\ sec_addr m = FAILED_ADDR
                                  | None => True end
                end).
  { destruct (sector_cache_loop a e t) as [t'|[i|]].
    - destruct IH as (i & m & E1 & E2 & ->). by exists (S i), m.
    - destruct IH as (Hn & Hin & m & E1 & E2). split; [by intros x [->|?]%elem_of_cons; auto|]. split; [done|]. by exists m.
    - destruct IH as (Hn & _). split; [by intros x [->|?]%elem_of_cons; auto | done]. }
  destruct inside eqn:Ein; [|exact Hgo]. destruct (Z.eqb_spec (sec_addr n) FAILED_ADDR) as [Ef|]; [|exact Hgo].
  destruct (sector_cache_loop a e t) as [t'|[i|]]; [exact Hgo| |];
    (split; [apply Hgo | split; [done | by exists n]]).
Qed.

Lemma insert_elem {A} (t : list A) i x n : n ∈ <[i := x]> t -> n = x \/ exists j, j <> i /\ t !! j = Some n.
Proof.
  intros (j & Hj)%list_elem_of_lookup. destruct (decide (j = i)) as [->|Hne].
  - left. pose proof (lookup_lt_Some _ _ _ Hj) as Hlt. rewrite length_insert in Hlt.
    rewrite list_lookup_insert_eq in Hj by done. congruence.
  - right. exists j. by rewrite list_lookup_insert_ne in Hj.
Qed.

(** Entries of one sector are one entry. *)
Definition one_each (t : list sector_cache_node) : Prop :=
  forall j k m n, t !! j = Some m -> t !! k = Some n -> sec_addr m = sec_addr n -> sec_addr m <> FAILED_ADDR -> j = k.

Lemma one_each_insert t i x :
  one_each t -> (forall j n, t !! j = Some n -> sec_addr n = sec_addr x -> sec_addr n <> FAILED_ADDR -> j = i) ->
  one_each (<[i := x]> t).
Proof.
  intros Ho Hx j k m n Hj Hk E Hf.
  destruct (decide (j = i)) as [->|Hji], (decide (k = i)) as [->|Hki]; [done|..].
  - rewrite list_lookup_insert_ne in Hk by done. pose proof (lookup_lt_Some _ _ _ Hj) as Hlt. rewrite length_insert in Hlt.
    rewrite list_lookup_insert_eq in Hj by done. injection Hj as <-. symmetry. apply (Hx k n); congruence.
  - rewrite list_lookup_insert_ne in Hj by done. pose proof (lookup_lt_Some _ _ _ Hk) as Hlt. rewrite length_insert in Hlt.
    rewrite list_lookup_insert_eq in Hk by done. injection Hk as <-. apply (Hx j m); congruence.
  - rewrite list_lookup_insert_ne in Hj, Hk by done. by apply (Ho j k m n).
Qed.

Lemma update_sector_cache_spec a e t :
  a <> FAILED_ADDR -> one_each t ->
  one_each (update_sector_cache a e t) /\
  forall n, n ∈ update_sector_cache a e t -> sec_addr n <> FAILED_ADDR ->
    (n ∈ t /\ sec_addr n <> a) \/ (n = mkSecNode a e /\ a < e < a + SECTOR_SIZE).
Proof.
  intros Ha Ho. unfold update_sector_cache. pose proof (sector_cache_loop_spec a e t) as Hl. cbv zeta in Hl.
  destruct (sector_cache_loop a e t) as [t'|[i|]].
  - destruct Hl as (i & n & En & Ea & ->). split.
    + apply one_each_insert; [done|]. intros j m Hj E Hf. destruct ((a <? e) && (e <? a + SECTOR_SIZE)) eqn:Ein;
        cbn [sec_addr] in E; [apply (Ho j i m n); congruence | congruence].
    + intros m Hm Hf. apply insert_elem in Hm as [->|(j & Hji & Hj)].
      * destruct ((a <? e) && (e <? a + SECTOR_SIZE)) eqn:Ein; cbn [sec_addr] in Hf; [|done].
        apply andb_true_iff in Ein as [?%Z.ltb_lt ?%Z.ltb_lt]. by right.
      * left. split; [by apply (list_elem_of_lookup_2 _ j)|]. intros E. apply Hji. apply (Ho j i m n); congruence.
  - destruct Hl as (Hno & Hin & n & En & Ef). apply andb_true_iff in Hin as [?%Z.ltb_lt ?%Z.ltb_lt]. split.
    + apply one_each_insert; [done|]. intros j m Hj E Hf. cbn [sec_addr] in E. destruct (Hno m); [|done].
      by apply (list_elem_of_lookup_2 _ j).
    + intros m Hm Hf. apply insert_elem in Hm as [->|(j & Hji & Hj)]; [by right|]. left.
      apply list_elem_of_lookup_2 in Hj. auto.
  - destruct Hl as (Hno & _). split; [done|]. intros m Hm Hf. left. auto.
Qed.

(** The cache after the sector [i] has changed to [L'] and the cache was told [e]. *)
Lemma cache_update_ok L L' i e t :
  sec_cache_ok L t ->
  (forall st d its, sec L (negb i) = Fmt st d its -> exists st' d' its',
     sec L' (negb i) = Fmt st' d' its' /\ ilen its' = ilen its) ->
  (base i < e < base i + SECTOR_SIZE -> exists st d its, sec L' i = Fmt st d its /\ e = ends (base i) its) ->
  sec_cache_ok L' (update_sector_cache (base i) e t).
Proof.
  intros [He Ho] Hother Hi.
  destruct (update_sector_cache_spec (base i) e t (base_not_failed i) Ho) as [Ho' Hin]. split; [|exact Ho'].
  intros n Hn Hf. destruct (Hin n Hn Hf) as [[Hnt Ha]|[-> Hr]].
  - destruct (He n Hnt Hf) as (j & st & d & its & E1 & E2 & E3).
    assert (j = negb i) as -> by (destruct i, j; try done; congruence).
    destruct (Hother st d its E2) as (st' & d' & its' & E4 & E5). exists (negb i), st', d', its'.
    unfold ends in *. by rewrite E5.
  - destruct (Hi Hr) as (st & d & its & E1 & E2). exists i, st, d, its. by cbn.
Qed.

Definition view (i : bool) (st d : Z) (sector : sector_meta_data) : Prop :=
  check_ok sector = true /\ status_store sector = st /\ status_dirty sector = d /\ s_addr sector = base i
  /\ combined sector = SECTOR_NOT_COMBINED.

Section Reads.
Context {C : Type} `{FlashDoc C} (P : (Z -> Z) -> Prop) (junk_env : env_node_obj) (junk_sector : sector_meta_data).
Implicit Types (s : Ef C).

(** The address at which the search starts. *)
Definition search_start (e : env_node_obj) : Z := addr_start e + (if crc_is_ok e then env_len e else 1).

Lemma next_magic L i st d l1 it2 l3 mu :
  flash_is mu L -> sec L i = Fmt st d (l1 ++ it2 :: l3) -> l1 <> [] -> is_gap it2 = false ->
  magic_at mu (ends (base i) l1 + 8) /\ ends (base i) l1 + 29 <= base i + SECTOR_SIZE.
Proof.
  intros HL HS Hne Hg. pose proof (HL i) as Hl. rewrite HS in Hl.
  pose proof (fmt_ok _ _ _ _ _ Hl) as [_ _ Hf Hr].
  destruct (item_place mu L i st d l1 it2 l3 HL HS) as (Hh2 & _). split.
  - apply (found_magic _ _ it2); [exact Hh2 | exact Hg|].
    rewrite Forall_forall in Hf. apply Hf. destruct l1; [done|]. cbn. set_solver.
  - specialize (Hr l1 it2 l3 eq_refl Hg). unfold ends, SECTOR_HDR_DATA_SIZE in Hr |- *. lia.
Qed.

Lemma next_start mu L i st d m it l e :
  flash_is mu L -> sec L i = Fmt st d (m ++ it :: l) -> located it (ends (base i) m) e ->
  base i + 20 <= ends (base i) m /\ ends (base i) m < search_start e <= ends (base i) (m ++ [it])
  /\ ends (base i) (m ++ [it]) + ilen l <= base i + SECTOR_SIZE /\ 0 < item_len it
  /\ (if crc_is_ok e then u32 (addr_start e + env_len e) else u32 (addr_start e + EF_WG_ALIGN 1)) = search_start e.
Proof.
  intros HL HS (Hg & Ha & Hlen & Hc). pose proof (HL i) as Hl. rewrite HS in Hl.
  destruct (item_place mu L i st d m it l HL HS) as (_ & Hok & _).
  pose proof (fmt_fits _ _ _ _ _ Hl) as Hfit. pose proof (item_len_pos it Hok) as Hpos.
  assert (Hbig : crc_is_ok e = false -> 2 <= item_len it).
  { rewrite Hc. destruct it as [| |b0 err rest]; [done | done |]. intros _. rewrite bad_len. pose proof (zlen_nonneg rest). lia. }
  pose proof (ilen_nonneg m). pose proof (ilen_nonneg l).
  unfold search_start, ends in *. rewrite ilen_app, ilen_cons in *. rewrite ilen_nil.
  rewrite Ha, Hlen, EF_WG_ALIGN_id in * by lia. unfold SECTOR_SIZE, EF_ERASE_MIN_SIZE, SECTOR_HDR_DATA_SIZE in *.
  destruct (base_cases i), (crc_is_ok e); (rewrite u32_small; [|lia]); lia.
Qed.

Lemma wpc_next_exact L i st d l1 l2 sector e (Q : Z -> Ef C -> Prop) s :
  flash_is (mem s) L -> sec_cache_ok L (sector_cache_table (ram s)) ->
  sec L i = Fmt st d (l1 ++ l2) -> l1 ++ l2 <> [] ->
  status_store sector <> SECTOR_STORE_EMPTY -> s_addr sector = base i -> after i l1 e -> ready l2 ->
  Q (next_addr i l1 l2) s ->
  wpc P (get_next_env_addr sector e) Q s.
Proof.
  intros HL Hc HS Hne Est Eb Ha Hl2 HQ. unfold get_next_env_addr. rewrite (proj2 (Z.eqb_neq _ _)) by done.
  rewrite Eb. pose proof (HL i) as Hl. rewrite HS in Hl.
  destruct Ha as [(-> & ->)|(m & it & g & -> & Hgs & Hsn)].
  { rewrite Z.eqb_refl. apply wpc_ret. destruct l2 as [|x l2]; [done|].
    replace (u32 (base i + SECTOR_HDR_DATA_SIZE)) with (next_addr i [] (x :: l2)); [done|].
    cbn. unfold ends. rewrite ilen_nil. by destruct i. }
  assert (HS' : sec L i = Fmt st d (m ++ it :: g ++ l2)) by (by rewrite <- app_assoc in HS).
  destruct (next_start (mem s) L i st d m it (g ++ l2) e HL HS' Hsn) as (Hlo & Hst & Hhi & Hpos & Estart).
  pose proof Hsn as (_ & Eaddr & Elen & _).
  assert (Hdead : forall r, search_start e + 8 <= r -> r + 4 <= base i + SECTOR_SIZE ->
                     (l2 <> [] -> r < ends (base i) (m ++ it :: g) + 8) -> dead (mem s) r).
  { rewrite <- app_assoc in Hl. intros r Hr. apply (after_dead (mem s) (base i) st d m it g l2 r e); try done.
    by rewrite <- Eaddr. }
  assert (Htarget : l2 <> [] -> magic_at (mem s) (ends (base i) (m ++ it :: g) + 8)
                     /\ ends (base i) (m ++ it :: g) + 29 <= base i + SECTOR_SIZE).
  { destruct l2 as [|it2 l3]; [done|]. intros _. by eapply next_magic; [..|destruct m|]. }
  rewrite ilen_app in Hhi. pose proof (ilen_nonneg g). pose proof (ilen_nonneg l2).
  assert (Eend : ends (base i) (m ++ it :: g) = ends (base i) (m ++ [it]) + ilen g).
  { unfold ends. rewrite !ilen_app, !ilen_cons, ilen_nil. lia. }
  assert (Hsmall : ends (base i) (m ++ it :: g) <= u32 (base i + SECTOR_SIZE)).
  { replace (u32 (base i + SECTOR_SIZE)) with (base i + SECTOR_SIZE) by (by destruct i). lia. }
  assert (Hgo : forall a, a = next_addr i (m ++ it :: g) l2 ->
            wpc P (if (u32 (base i + SECTOR_SIZE) <? a) || (env_len e =? 0) then ret FAILED_ADDR else ret a) Q s).
  { intros a ->. rewrite Elen, (proj2 (Z.eqb_neq (item_len it) 0)), orb_false_r by lia. unfold next_addr in *.
    destruct l2; [destruct i; by apply wpc_ret|]. by rewrite (proj2 (Z.ltb_ge _ _)) by lia; apply wpc_ret. }
  rewrite (proj2 (Z.eqb_neq (addr_start e) FAILED_ADDR)).
  2: { rewrite Eaddr. unfold FAILED_ADDR, SECTOR_SIZE, EF_ERASE_MIN_SIZE in *. destruct (base_cases i); lia. }
  rewrite (proj2 (Z.leb_le _ _)) by lia. rewrite Estart.
  replace (u32 (base i + SECTOR_SIZE - SECTOR_HDR_DATA_SIZE)) with (base i + SECTOR_SIZE - 20) by (by destruct i).
  apply wpc_bind. apply wpc_find_next.
  - destruct (base_cases i); lia.
  - unfold SECTOR_SIZE, EF_ERASE_MIN_SIZE. destruct (base_cases i); lia.
  - unfold SECTOR_SIZE, EF_ERASE_MIN_SIZE. lia.
  - intros Hget. apply Hgo. destruct l2 as [|it2 l3]; [done|]. exfalso.
    pose proof (cached_here L i st d _ _ (search_start e) Hc HS ltac:(lia) Hget) as E. unfold ends in E, Eend, Hst.
    rewrite ilen_app in E. destruct (item_place (mem s) L i st d _ it2 l3 HL HS) as (_ & Hok & _).
    pose proof (item_len_pos it2 Hok). rewrite ilen_cons in *. pose proof (ilen_nonneg l3). lia.
  - intros a (Ha1 & Ha2 & Ha3 & Ha4). unfold ENV_MAGIC_OFFSET in *. apply Hgo.
    destruct l2 as [|it2 l3].
    + exfalso. apply (Hdead (a + 8)); [lia | lia | done | done].
    + destruct (Htarget ltac:(done)) as [Hm Hr2]. cbn [next_addr].
      destruct (Z.lt_trichotomy a (ends (base i) (m ++ it :: g))) as [Hlt|[->|Hgt]]; [|done|].
      * exfalso. apply (Hdead (a + 8)); [lia | lia | intros _; lia | done].
      * exfalso. apply (Ha4 (ends (base i) (m ++ it :: g))); [lia | done].
  - intros Hno. apply Hgo. destruct l2 as [|it2 l3]; [done|]. exfalso.
    destruct (Htarget ltac:(done)) as [Hm Hr2]. apply (Hno (ends (base i) (m ++ it :: g))); [lia | | done].
    unfold ENV_MAGIC_OFFSET. lia.
Qed.

Lemma PL_like L L0 : like L0 L -> PL P L -> PL P L0.
Proof. intros Hl HP mu Hmu. apply HP. by apply (Flash_like mu L0). Qed.

Lemma wpc_next L i st d l1 l2 sector e (Q : Z -> Ef C -> Prop) s :
  store L s -> sec L i = Fmt st d (l1 ++ l2) -> l1 ++ l2 <> [] ->
  status_store sector <> SECTOR_STORE_EMPTY -> s_addr sector = base i -> after i l1 e -> ready l2 ->
  Q (next_addr i l1 l2) s ->
  wpc P (get_next_env_addr sector e) Q s.
Proof.
  intros [(L0 & Hl & HL) Hc _] HS Hne Est Eb Ha Hl2 HQ.
  destruct (like_fmt L0 L i st d _ Hl HS) as (its0 & HS0 & E).
  rewrite map_app in E. apply map_eq_app in E as (m1 & m2 & -> & E1 & E2).
  apply (wpc_next_exact L0 i st d m1 m2); try done.
  - apply (sec_cache_like L); [by apply like_sym | done].
  - intros En. apply Hne. apply app_nil in En as [-> ->]. by destruct l1, l2.
  - by apply (after_like i l1).
  - by apply (ready_like l2).
  - by rewrite (next_addr_like i l1 l2).
Qed.

Lemma wpc_read L i st d l1 it l2 e (Q : EfErrCode * env_node_obj -> Ef C -> Prop) s :
  store L s -> sec L i = Fmt st d (l1 ++ it :: l2) -> is_gap it = false ->
  addr_start e = ends (base i) l1 -> PL P L ->
  (forall r e' s', seen it (ends (base i) l1) e' -> ram s' = ram s -> store L s' -> Q (r, e') s') ->
  wpc P (read_env e) Q s.
Proof.
  intros [(L0 & Hl & HL) Hc Hs] HS Hg Ha HP HQ.
  destruct (like_fmt L0 L i st d _ Hl HS) as (its0 & HS0 & E).
  destruct (like_split _ _ _ _ E) as (m1 & jt & m2 & -> & E1 & E2 & E3).
  apply (wpc_read_env_at P L0 i st d m1 jt m2); [done | done | | | by apply (PL_like L) |].
  - destruct it, jt; done.
  - rewrite (like_ilen m1 l1) by done. exact Ha.
  - rewrite Ha. intros r e' s' Hsn Hr HF. apply HQ; [by apply (seen_like it jt) | done |].
    split; [by apply (Flash_like _ L0) | by rewrite Hr | by rewrite Hr].
Qed.

(** ** The header of a sector *)

Lemma base_aligned i : base i mod SECTOR_SIZE = 0.
Proof. by destruct i. Qed.

Lemma wpc_read_hdr L i st d its sector (Q : EfErrCode * sector_meta_data -> Ef C -> Prop) s :
  store L s -> sec L i = Fmt st d its ->
  (forall sector', view i st d sector' -> Q (EF_NO_ERR, sector') s) ->
  wpc P (read_sector_meta_data junk_env (base i) sector false) Q s.
Proof.
  intros [(L0 & Hl & HL) _ _] HS HQ. destruct (like_fmt L0 L i st d _ Hl HS) as (its0 & HS0 & _).
  pose proof (HL i) as Hlay. rewrite HS0 in Hlay. destruct Hlay as [[Hst Hd] Hh _ _ _ _].
  unfold read_sector_meta_data. rewrite base_aligned, Z.eqb_refl. cbn [negb].
  apply wpc_bind, wpc_port_read; [destruct (base_cases i); lia | done | by destruct i |].
  rewrite (holds_bytes_eq _ _ _ _ Hh) by (by rewrite sec_hdr_zlen).
  destruct (sec_hdr_fields st d Hst Hd) as (F1 & F2 & F3 & F4).
  apply wpc_bind. eapply wpc_lift_opt; [exact F1|]. rewrite Z.eqb_refl. cbn [negb].
  do 3 (apply wpc_bind; eapply wpc_lift_opt; [eassumption|]). apply wpc_ret, HQ. by repeat split.
Qed.

Lemma wpc_read_blank L i sector (Q : EfErrCode * sector_meta_data -> Ef C -> Prop) t s :
  store L s -> sec L i = Blank ->
  (forall sector', check_ok sector' = false -> s_addr sector' = base i -> combined sector' = SECTOR_NOT_COMBINED ->
     Q (EF_ENV_INIT_FAILED, sector') s) ->
  wpc P (read_sector_meta_data junk_env (base i) sector t) Q s.
Proof.
  intros [(L0 & Hl & HL) _ _] HS HQ. assert (HS0 : sec L0 i = Blank).
  { specialize (Hl i). rewrite HS in Hl. by destruct (sec L0 i). }
  pose proof (HL i) as Hlay. rewrite HS0 in Hlay. cbn [lay] in Hlay.
  unfold read_sector_meta_data. rewrite base_aligned, Z.eqb_refl. cbn [negb].
  apply wpc_bind, wpc_port_read; [destruct (base_cases i); lia | done | by destruct i |].
  destruct (sector_word s (base i) SECTOR_HDR_DATA_SIZE 8) as (w & Ew & Hw); [done | done|].
  apply wpc_bind. eapply wpc_lift_opt; [exact Ew|].
  rewrite (proj2 (Z.eqb_neq w _)) by tauto. apply wpc_ret. by apply HQ.
Qed.

Lemma store_fits L s i st d l1 l2 :
  store L s -> sec L i = Fmt st d (l1 ++ l2) ->
  base i + 20 <= ends (base i) l1 /\ ends (base i) l1 + ilen l2 <= base i + SECTOR_SIZE.
Proof.
  intros [(L0 & Hl & HL) _ _] HS. destruct (like_fmt L0 L i st d _ Hl HS) as (its0 & HS0 & E).
  pose proof (HL i) as Hlay. rewrite HS0 in Hlay. pose proof (fmt_fits _ _ _ _ _ Hlay) as Hf.
  unfold ends, SECTOR_HDR_DATA_SIZE in *. rewrite (like_ilen _ _ E), ilen_app in Hf. pose proof (ilen_nonneg l1). lia.
Qed.

Lemma store_item L s i st d l1 it l2 :
  store L s -> sec L i = Fmt st d (l1 ++ it :: l2) -> 0 < item_len it.
Proof.
  intros [(L0 & Hl & HL) _ _] HS. destruct (like_fmt L0 L i st d _ Hl HS) as (its0 & HS0 & E).
  destruct (like_split _ _ _ _ E) as (m1 & jt & m2 & -> & _ & E2 & _).
  destruct (item_place _ L0 i st d m1 jt m2 HL HS0) as (_ & Hok & _).
  rewrite <- unmark_len, <- E2, unmark_len. by apply item_len_pos.
Qed.

Lemma wpc_traverse n : forall L i st d l1 l2 sector e (Q : EfErrCode * sector_meta_data -> Ef C -> Prop) s,
  store L s -> sec L i = Fmt st d (l1 ++ l2) -> st <> SECTOR_STORE_EMPTY -> l1 ++ l2 <> [] ->
  after i l1 e -> ready l2 -> PL P L -> (length l2 <= n)%nat ->
  view i st d sector -> remain sector = SECTOR_SIZE - SECTOR_HDR_DATA_SIZE - counted l1 ->
  empty_env sector = base i + SECTOR_HDR_DATA_SIZE + counted l1 ->
  (forall sector' s', view i st d sector' -> remain sector' = SECTOR_SIZE - SECTOR_HDR_DATA_SIZE - counted (l1 ++ l2) ->
     empty_env sector' = base i + SECTOR_HDR_DATA_SIZE + counted (l1 ++ l2) ->
     ram s' = ram s -> store L s' -> Q (EF_NO_ERR, sector') s') ->
  wpc P (traverse n sector e) Q s.
Proof.
  induction n as [|n IH]; intros L i st d l1 l2 sector e Q s Hs HS Hst Hne Ha Hr HP Hn Hv Hrem Hemp HQ;
    cbn [traverse]; pose proof Hv as (Hck & Est & Ed & Eb & Ec);
    (apply wpc_bind; apply (wpc_next L i st d l1 l2); [done | done | done | congruence | done | done | done |]).
  all: destruct l2 as [|it l2]; [cbn [next_addr]; rewrite Z.eqb_refl; apply wpc_ret; rewrite app_nil_r in HQ; by apply HQ|].
  { cbn in Hn. lia. }
  cbn [next_addr]. rewrite (proj2 (Z.eqb_neq _ _)).
  2: { pose proof (store_fits L s i st d l1 _ Hs HS). pose proof (ilen_nonneg (it :: l2)). unfold FAILED_ADDR, SECTOR_SIZE, EF_ERASE_MIN_SIZE in *.
       destruct (base_cases i); lia. }
  apply wpc_bind. apply (wpc_read L i st d l1 it l2); [done..|].
  intros r e' s' Hsn Hram Hs'. cbn [snd].
  assert (Hgood : negb (crc_is_ok e') && negb (env_status e' =? ENV_PRE_WRITE) && negb (env_status e' =? ENV_ERR_HDR) = false).
  { destruct Hsn as (_ & _ & Hsn). destruct it; [by destruct Hsn as [-> _] | done |].
    destruct Hsn as (-> & [->| ->]); done. }
  rewrite Hgood. destruct (gaps_split l2) as (g & r2 & -> & Hg & Hr2).
  assert (Hlen : env_len e' = item_len it) by apply Hsn.
  assert (Hc : counted (l1 ++ it :: g) = counted l1 + item_len it).
  { rewrite counted_app, counted_cons by exact Hr. rewrite (counted_gaps g) by done. lia. }
  assert (Hfit : base i + SECTOR_HDR_DATA_SIZE + counted l1 + item_len it <= base i + SECTOR_SIZE).
  { pose proof (store_fits L s i st d l1 _ Hs HS) as [_ Hf]. rewrite ilen_cons in Hf. unfold ends in Hf.
    pose proof (counted_le l1). pose proof (ilen_nonneg (g ++ r2)). lia. }
  pose proof (counted_le l1). pose proof (item_len_nonneg it).
  replace (l1 ++ it :: g ++ r2) with ((l1 ++ it :: g) ++ r2) in * by (by rewrite <- app_assoc).
  apply (IH L i st d (l1 ++ it :: g) r2); try done.
  - right. exists l1, it, g. split; [done|]. split; [done|]. by apply seen_located.
  - cbn [length] in Hn. rewrite length_app in Hn. lia.
  - cbn [remain set_room]. rewrite Hrem, Hlen, Hc. unfold SECTOR_SIZE, EF_ERASE_MIN_SIZE, SECTOR_HDR_DATA_SIZE in *.
    rewrite u32_small; lia.
  - cbn [empty_env set_room]. rewrite Hemp, Hlen, Hc. unfold SECTOR_SIZE, EF_ERASE_MIN_SIZE, SECTOR_HDR_DATA_SIZE in *.
    destruct (base_cases i); rewrite u32_small; lia.
  - intros sector' s'' Hv' Hr' He' Hram' Hs''. apply HQ; [done..| by rewrite Hram' |done].
Qed.

(** A sector has fewer items than bytes. *)
Lemma ilen_length l : Forall item_ok l -> Z.of_nat (length l) <= ilen l.
Proof.
  induction 1 as [|it l Ho _ IH]; [done|]. rewrite ilen_cons. pose proof (item_len_pos it Ho). cbn [length]. lia.
Qed.

Lemma store_count L s i st d its :
  store L s -> sec L i = Fmt st d its -> Z.of_nat (length its) <= SECTOR_SIZE - 20.
Proof.
  intros [(L0 & Hl & HL) _ _] HS. destruct (like_fmt L0 L i st d _ Hl HS) as (its0 & HS0 & E).
  pose proof (HL i) as Hlay. rewrite HS0 in Hlay. destruct Hlay as [_ _ _ _ Hf [Ho _ _ _]].
  apply ilen_length in Ho. unfold ends, SECTOR_HDR_DATA_SIZE in Hf.
  rewrite <- (length_map unmark its), <- E, length_map. lia.
Qed.

Lemma wpc_cache_sector L L' i e (Q : unit -> Ef C -> Prop) s :
  Flash (mem s) L' -> env_start_addr (ram s) = 0 -> sec_cache_ok L (sector_cache_table (ram s)) ->
  (forall st d its, sec L (negb i) = Fmt st d its -> exists st' d' its',
     sec L' (negb i) = Fmt st' d' its' /\ ilen its' = ilen its) ->
  (base i < e < base i + SECTOR_SIZE -> exists st d its, sec L' i = Fmt st d its /\ e = ends (base i) its) ->
  (forall s' t, ram s' = put_sec_cache t (ram s) -> store L' s' -> Q tt s') ->
  wpc P (cache_sector (base i) e) Q s.
Proof.
  intros HF Hst Hc Ho He HQ. apply wpc_put. eapply HQ; [done|]. split; [exact HF | | exact Hst].
  cbn. by apply (cache_update_ok L).
Qed.

(** ** A sector with its room *)

(** The free bytes of a sector that is not full, and where they begin. *)
Definition room (i : bool) (st : Z) (its : list item) (sector : sector_meta_data) : Prop :=
  remain sector = (if st =? SECTOR_STORE_FULL then 0 else base i + SECTOR_SIZE - ends (base i) its)
  /\ (st <> SECTOR_STORE_FULL -> empty_env sector = ends (base i) its).

Definition put_cache (t : list sector_cache_node) {C} (s : Ef C) : Ef C := mkEf (chip s) (put_sec_cache t (ram s)).

(** The traversal of a sector that the cache does not know. *)
Lemma wpc_sector_miss L i d its sector (Q : EfErrCode * sector_meta_data -> Ef C -> Prop) s :
  store L s -> sec L i = Fmt SECTOR_STORE_USING d its -> its <> [] -> tidy its -> PL P L ->
  view i SECTOR_STORE_USING d sector ->
  (forall sector' s' t, view i SECTOR_STORE_USING d sector' -> room i SECTOR_STORE_USING its sector' ->
     ram s' = put_sec_cache t (ram s) -> store L s' -> Q (EF_NO_ERR, sector') s') ->
  wpc P (do r <- traverse SECTOR_FUEL
                   (set_room (SECTOR_SIZE - SECTOR_HDR_DATA_SIZE) (base i + SECTOR_HDR_DATA_SIZE) sector)
                   (set_start FAILED_ADDR junk_env);
         let '(result, sector) := r in
         do ff <- continue_ff_addr (empty_env sector) (u32 (base i + SECTOR_SIZE));
         let sector := if negb (empty_env sector =? ff)
                       then set_room (u32 (SECTOR_SIZE - (ff - base i))) ff sector else sector in
         run cache_sector (base i) (empty_env sector);
         ret (result, sector)) Q s.
Proof.
  intros Hs HS Hne Htidy HP Hv HQ. pose proof (store_fits L s i SECTOR_STORE_USING d its [] Hs) as Hfit.
  rewrite app_nil_r, ilen_nil in Hfit. specialize (Hfit HS).
  assert (Hready : ready its).
  { destruct Hs as [(L0 & Hl & HL) _ _]. destruct (like_fmt L0 L i SECTOR_STORE_USING d _ Hl HS) as (its0 & HS0 & E).
    pose proof (HL i) as Hlay. rewrite HS0 in Hlay. pose proof (fmt_ok _ _ _ _ _ Hlay) as [_ Hh _ _].
    apply (ready_like its0); [by symmetry|]. destruct its0; [done | by apply Hh]. }
  apply wpc_bind. apply (wpc_traverse _ L i SECTOR_STORE_USING d [] its); try done.
  { by left. } { pose proof (store_count L s i SECTOR_STORE_USING d its Hs HS). pose proof sector_fuel.
    unfold SECTOR_SIZE, EF_ERASE_MIN_SIZE in *. lia. }
  { cbn [empty_env set_room]. change (counted []) with 0. lia. }
  intros sector1 s1 Hv1 Hr1 He1 Hram1 Hs1. cbn [app] in Hr1, He1.
  pose proof Hs1 as [(L1 & Hl1 & HL1) Hcache1 Hstart1]. destruct (like_fmt L1 L i SECTOR_STORE_USING d _ Hl1 HS) as (its1 & HS1 & E1).
  pose proof (HL1 i) as Hlay. rewrite HS1 in Hlay. pose proof (counted_le its) as Hcl.
  assert (Hcounted : counted its1 = counted its) by (by apply counted_like).
  assert (Eend : ends (base i) its1 = ends (base i) its) by (unfold ends; by rewrite (like_ilen _ _ E1)).
  assert (Hsz : u32 (base i + SECTOR_SIZE) = base i + SECTOR_SIZE) by (by destruct i). rewrite Hsz.
  assert (Hb : 0 <= base i <= 131072) by (destruct (base_cases i); lia).
  unfold ends in Hfit. apply wpc_bind, wpc_continue_ff.
  { rewrite He1. unfold SECTOR_SIZE, EF_ERASE_MIN_SIZE, SECTOR_HDR_DATA_SIZE in *. lia. }
  { unfold SECTOR_SIZE, EF_ERASE_MIN_SIZE. lia. }
  { rewrite He1. unfold SECTOR_SIZE, EF_ERASE_MIN_SIZE, SECTOR_HDR_DATA_SIZE in *. lia. }
  intros f Hf. rewrite He1, <- Hcounted in Hf.
  apply (ff_end (mem s1) (base i) _ d its1 f Hlay) in Hf; [|by apply (tidy_like its)]. rewrite Eend in Hf. subst f.
  set (sector2 := if negb _ then _ else sector1).
  assert (Hv2 : view i SECTOR_STORE_USING d sector2) by (subst sector2; case_match; [exact Hv1 | done]).
  assert (Hr2 : room i SECTOR_STORE_USING its sector2).
  { unfold room. cbn [Z.eqb]. change (SECTOR_STORE_USING =? SECTOR_STORE_FULL) with false. cbv iota. subst sector2.
    destruct (Z.eqb_spec (empty_env sector1) (ends (base i) its)) as [E|E]; cbn [negb remain empty_env set_room].
    - split; [|done]. rewrite Hr1. unfold ends in *. lia.
    - split; [|done]. unfold ends, SECTOR_SIZE, EF_ERASE_MIN_SIZE, SECTOR_HDR_DATA_SIZE in *. rewrite u32_small; lia. }
  clearbody sector2. apply wpc_bind. replace (empty_env sector2) with (ends (base i) its) by (symmetry; by apply Hr2).
  apply (wpc_cache_sector L L).
  - apply Hs1.
  - done.
  - done.
  - intros st' d' its' ?. by exists st', d', its'.
  - intros _. by exists SECTOR_STORE_USING, d, its.
  - intros s2 t Hram2 Hs2. apply wpc_ret. eapply HQ; [done | done | by rewrite Hram2, Hram1 | done].
Qed.

Lemma wpc_read_sector L i st d its sector (Q : EfErrCode * sector_meta_data -> Ef C -> Prop) s :
  store L s -> sec L i = Fmt st d its -> (st = SECTOR_STORE_EMPTY <-> its = []) -> tidy its -> PL P L ->
  (forall sector' s' t, view i st d sector' -> room i st its sector' -> ram s' = put_sec_cache t (ram s) ->
     store L s' -> Q (EF_NO_ERR, sector') s') ->
  wpc P (read_sector_meta_data junk_env (base i) sector true) Q s.
Proof.
  intros Hs HS Hemp Htidy HP HQ. pose proof (store_fits L s i st d its [] Hs) as Hfit.
  rewrite app_nil_r, ilen_nil in Hfit. specialize (Hfit HS).
  pose proof Hs as [(L0 & Hl & HL) Hcache Hstart]. destruct (like_fmt L0 L i st d _ Hl HS) as (its0 & HS0 & Elike).
  pose proof (HL i) as Hlay. rewrite HS0 in Hlay. pose proof Hlay as [[Hst Hd] Hh _ _ _ _].
  unfold read_sector_meta_data. rewrite base_aligned, Z.eqb_refl. cbn [negb].
  apply wpc_bind, wpc_port_read; [destruct (base_cases i); lia | done | by destruct i |].
  rewrite (holds_bytes_eq _ _ _ _ Hh) by (by rewrite sec_hdr_zlen).
  destruct (sec_hdr_fields st d Hst Hd) as (F1 & F2 & F3 & F4).
  apply wpc_bind. eapply wpc_lift_opt; [exact F1|]. rewrite Z.eqb_refl. cbn [negb].
  do 3 (apply wpc_bind; eapply wpc_lift_opt; [eassumption|]).
  assert (Hself : ram s = put_sec_cache (sector_cache_table (ram s)) (ram s)) by (by destruct (ram s)).
  assert (Hfirst : u32 (base i + SECTOR_HDR_DATA_SIZE) = base i + SECTOR_HDR_DATA_SIZE) by (by destruct i).
  rewrite Hfirst. destruct (Z.eqb_spec st SECTOR_STORE_EMPTY) as [Ee|Ee].
  { apply wpc_ret. eapply HQ; [by repeat split | | exact Hself | done]. apply Hemp in Ee as Enil. subst its st.
    unfold room, ends. rewrite ilen_nil. cbn. split; intros; lia. }
  destruct (Z.eqb_spec st SECTOR_STORE_USING) as [Eu|Eu].
  2: { apply wpc_ret. eapply HQ; [by repeat split | | exact Hself | done].
       destruct Hst as [->|[->| ->]]; done. }
  apply wpc_bind, wpc_gets. subst st. destruct (get_sector_from_cache _ _) as [e|] eqn:Eg.
  { apply wpc_ret. eapply HQ; [by repeat split | | exact Hself | done].
    destruct (cached_end L _ _ _ Hcache Eg (base_not_failed i)) as (j & st' & d' & its' & E1 & E2 & ->).
    apply base_inj in E1 as <-. rewrite HS in E2. injection E2 as <- <- <-.
    unfold room. cbn. split; [|done]. rewrite u32_small; [lia|].
    unfold SECTOR_SIZE, EF_ERASE_MIN_SIZE in *. lia. }
  eapply (wpc_sector_miss L i d its); try done. intros E. by apply Hemp in E.
Qed.
End Reads.
