(* ===== verification/EfCache.v ===== *)
(** * The cache of variables

    [update_env_cache] on a cache whose live entries satisfy [V]: afterwards the
    entry of the name, if there is one, is the given one.  Entries are told apart
    by 16 bits of a check sum, so two names can share one. *)

From S2P Require Import Prelude CStr Storage EfEnv EfFlash EfLayout EfRead EfStore.
Open Scope list_scope.

Implicit Types (t : list env_cache_node) (V : Z -> Z -> Prop).

Definition live_node (n : env_cache_node) : Prop := cache_addr n <> FAILED_ADDR.

Record env_cache_ok V t : Prop := {
  node_valid n : n ∈ t -> live_node n -> V (name_crc n) (cache_addr n);
  node_first j n i m : t !! j = Some n -> live_node n -> (i < j)%nat -> t !! i = Some m -> name_crc m <> name_crc n
}.

(** The activity of an entry says nothing about what it holds. *)
Definition same_node (m n : env_cache_node) : Prop := name_crc m = name_crc n /\ cache_addr m = cache_addr n.

Lemma same_nodes_refl t : Forall2 same_node t t.
Proof. induction t; constructor; done. Qed.

Lemma env_cache_same V t t' : Forall2 same_node t' t -> env_cache_ok V t -> env_cache_ok V t'.
Proof.
  intros Hs [Hv Hf]. unfold live_node in *. split.
  - intros n Hn Hl. apply list_elem_of_lookup in Hn as (j & Hj). destruct (Forall2_lookup_l _ _ _ _ _ Hs Hj) as (m & Hm & E1 & E2).
    unfold live_node. rewrite E1, E2 in *. apply Hv; [by apply (list_elem_of_lookup_2 _ j) | congruence].
  - intros j n i m Hj Hl Hij Hi. destruct (Forall2_lookup_l _ _ _ _ _ Hs Hj) as (n' & Hn' & E1 & E2).
    destruct (Forall2_lookup_l _ _ _ _ _ Hs Hi) as (m' & Hm' & E3 & E4). rewrite E1, E3.
    apply (Hf j n' i m'); unfold live_node in *; congruence.
Qed.

Lemma env_cache_weaken V V' t : (forall c x, V c x -> V' c x) -> env_cache_ok V t -> env_cache_ok V' t.
Proof. intros HV [Hv Hf]. split; [|exact Hf]. intros n Hn Hl. by apply HV, Hv. Qed.

(** What the loop finds: the first entry of the check sum, changed, or that
    there is none. *)
Lemma env_cache_loop_spec crc a t : forall i e m act,
  match env_cache_loop crc a t i e m act with
  | (t', None) => exists j n, t !! j = Some n /\ name_crc n = crc
      /\ (forall k x, (k < j)%nat -> t !! k = Some x -> name_crc x <> crc)
      /\ exists ac, Forall2 same_node t' (<[j := mkEnvNode crc ac a]> t)
  | (t', Some r) => (forall n, n ∈ t -> name_crc n <> crc) /\ Forall2 same_node t' t
      /\ (a = FAILED_ADDR -> r = (e, m))
  end.
Proof.
  induction t as [|n t IH]; intros i e m act; [cbn; split; [by intros n ?%not_elem_of_nil | done]|].
  cbn [env_cache_loop].
  assert (Hgo : forall n' e' m' act', same_node n' n -> name_crc n <> crc -> (a = FAILED_ADDR -> (e', m') = (e, m)) ->
    match (let '(t', r) := env_cache_loop crc a t (S i) e' m' act' in (n' :: t', r)) with
    | (t', None) => exists j x, (n :: t) !! j = Some x /\ name_crc x = crc
        /\ (forall k y, (k < j)%nat -> (n :: t) !! k = Some y -> name_crc y <> crc)
        /\ exists ac, Forall2 same_node t' (<[j := mkEnvNode crc ac a]> (n :: t))
    | (t', Some r) => (forall x, x ∈ n :: t -> name_crc x <> crc) /\ Forall2 same_node t' (n :: t)
        /\ (a = FAILED_ADDR -> r = (e, m))
    end).
  { intros n' e' m' act' Hsame Hne Hem. specialize (IH (S i) e' m' act').
    destruct (env_cache_loop crc a t (S i) e' m' act') as [t' [r|]].
    - destruct IH as (H1 & H2 & H3). split; [by intros x [->|?]%elem_of_cons; auto|].
      split; [by constructor|]. intros Ea. rewrite H3 by done. by apply Hem.
    - destruct IH as (j & x & H1 & H2 & H3 & ac & H4). exists (S j), x. split; [done|]. split; [done|]. split.
      + intros [|k] y Hk Hy; [by injection Hy as <-|]. apply (H3 k y); [lia | done].
      + exists ac. cbn. by constructor. }
  assert (Hhit : forall ac, name_crc n = crc ->
    exists j x, (n :: t) !! j = Some x /\ name_crc x = crc
        /\ (forall k y, (k < j)%nat -> (n :: t) !! k = Some y -> name_crc y <> crc)
        /\ exists ac', Forall2 same_node (mkEnvNode (name_crc n) ac a :: t) (<[j := mkEnvNode crc ac' a]> (n :: t))).
  { intros ac E. exists O, n. split; [done|]. split; [done|]. split; [intros; lia|]. exists ac. cbn. rewrite E.
    constructor; [done | apply same_nodes_refl]. }
  destruct (Z.eqb_spec a FAILED_ADDR) as [Ea|Ea]; cbn [negb].
  - destruct (Z.eqb_spec (name_crc n) crc) as [E|E]; [|by apply Hgo]. subst a. exact (Hhit 0 E).
  - destruct (Z.eqb_spec (name_crc n) crc) as [E|E]; [exact (Hhit (active n) E)|].
    destruct ((cache_addr n =? FAILED_ADDR) && bool_decide (e = None)); [by apply Hgo|].
    destruct (negb (cache_addr n =? FAILED_ADDR)); [|by apply Hgo]. cbv zeta.
    destruct ((if 0 <? active n then active n - 1 else active n) <? act); by apply Hgo.
Qed.

Section Update.
Context V V' (name : list Z) (a : Z).
Let crc := name_crc16 name.
Context (HV : forall c x, V c x -> c <> crc -> V' c x) (Ha : a <> FAILED_ADDR -> V' crc a).

(** An entry put where its check sum did not occur, or where it occurs first. *)
Lemma env_cache_insert t j ac :
  env_cache_ok V t -> (forall k x, (k < j)%nat -> t !! k = Some x -> name_crc x <> crc) ->
  (forall k x, (j < k)%nat -> t !! k = Some x -> live_node x -> name_crc x <> crc) ->
  env_cache_ok V' (<[j := mkEnvNode crc ac a]> t).
Proof.
  intros [Hv Hf] Hb Hd. split.
  - intros n Hn Hl. apply insert_elem in Hn as [->|(k & Hk & Hn)]; [by apply Ha|].
    apply HV; [apply Hv; [by apply (list_elem_of_lookup_2 _ k) | done]|].
    destruct (Nat.lt_trichotomy k j) as [?|[?|?]]; [by apply (Hb k) | done | by apply (Hd k)].
  - intros k n i m Hk Hl Hik Hi.
    destruct (decide (i = j)) as [->|Hij], (decide (k = j)) as [->|Hkj]; [lia | | |].
    + pose proof (lookup_lt_Some _ _ _ Hi) as Hlt. rewrite length_insert in Hlt.
      rewrite list_lookup_insert_eq in Hi by done. injection Hi as <-.
      rewrite list_lookup_insert_ne in Hk by done. intros E. by apply (Hd k n).
    + pose proof (lookup_lt_Some _ _ _ Hk) as Hlt. rewrite length_insert in Hlt.
      rewrite list_lookup_insert_eq in Hk by done. injection Hk as <-.
      rewrite list_lookup_insert_ne in Hi by done. by apply (Hb i).
    + rewrite list_lookup_insert_ne in Hi, Hk by done. by apply (Hf k n i m).
Qed.

Lemma env_cache_update t : env_cache_ok V t -> env_cache_ok V' (update_env_cache name a t).
Proof.
  intros Ht. unfold update_env_cache. fold crc. pose proof (env_cache_loop_spec crc a t 0 None None 65535) as Hl.
  destruct (env_cache_loop crc a t 0 None None 65535) as [t' [[e m]|]].
  - destruct Hl as (Hno & Hs & He). pose proof (env_cache_same V t t' Hs Ht) as Ht'.
    assert (Hno' : forall k x, t' !! k = Some x -> name_crc x <> crc).
    { intros k x Hx. destruct (Forall2_lookup_l _ _ _ _ _ Hs Hx) as (y & Hy & -> & _).
      apply Hno. by apply (list_elem_of_lookup_2 _ k). }
    assert (Hplain : env_cache_ok V' t').
    { destruct Ht' as [Hv Hf]. split; [|exact Hf]. intros n Hn Hlv. apply HV; [by apply Hv|].
      apply list_elem_of_lookup in Hn as (k & Hk). by apply (Hno' k). }
    destruct e as [e|]; [|destruct m as [m|]; [|exact Hplain]]; apply env_cache_insert; eauto.
  - destruct Hl as (j & n & Hj & Hn & Hb & ac & Hs). eapply env_cache_same; [exact Hs|].
    apply env_cache_insert; [done | done|]. intros k x Hk Hx Hlv E.
    destruct Ht as [_ Hf]. apply (Hf k x j n Hx Hlv Hk Hj). congruence.
Qed.
End Update.

(** The entries of a start, or after the caches were thrown away. *)
Lemma env_cache_empty V t : (forall n, n ∈ t -> cache_addr n = FAILED_ADDR) -> env_cache_ok V t.
Proof.
  intros Ht. split.
  - intros n Hn []. by apply Ht.
  - intros j n i m Hj Hl. destruct Hl. apply Ht. by apply (list_elem_of_lookup_2 _ j).
Qed.
