(* ===== verification/EfFind.v ===== *)
(** * Finding a variable

    The iterators over records and sectors, [find_env] with and without its
    cache, and the functions that read a variable. *)

From S2P Require Import Prelude CStr Storage EfEnv EfFlash EfLayout EfRead EfStore EfCache.
Open Scope list_scope.

(** ** What the log says *)

Definition items (L : Sec * Sec) (i : bool) : list item :=
  match sec L i with Fmt _ _ its => its | Blank => [] end.

(** The entries whose record is written and not deleted. *)
Definition live_of (it : item) : option (list Z * list Z) :=
  match it with Rec st k v => if st =? ENV_WRITE then Some (k, v) else None | _ => None end.
Definition live (its : list item) : list (list Z * list Z) := omap live_of its.
Definition lives (L : Sec * Sec) : list (list Z * list Z) := live (items L false) ++ live (items L true).

Lemma live_app l1 l2 : live (l1 ++ l2) = live l1 ++ live l2.
Proof. apply omap_app. Qed.

Lemma live_gaps g : forallb is_gap g = true -> live g = [].
Proof. induction g as [|[] g IH]; cbn; try done. Qed.

Definition wf_sec (S : Sec) : Prop :=
  match S with Fmt st _ its => (st = SECTOR_STORE_EMPTY <-> its = []) /\ tidy its | Blank => False end.
Definition wf (L : Sec * Sec) : Prop := forall i, wf_sec (sec L i).

(** [e] is the live record of [key]. *)
Definition found_at (L : Sec * Sec) (key v : list Z) (a : Z) : Prop :=
  exists i st d l1 l2, sec L i = Fmt st d (l1 ++ Rec ENV_WRITE key v :: l2) /\ a = ends (base i) l1.

Lemma found_live L key v a : found_at L key v a -> (key, v) ∈ lives L.
Proof.
  intros (i & st & d & l1 & l2 & HS & _). unfold lives, items.
  assert (Hin : (key, v) ∈ live (l1 ++ Rec ENV_WRITE key v :: l2)) by (rewrite live_app; cbn; set_solver).
  destruct i; cbn [sec] in HS |- *; rewrite HS; set_solver.
Qed.

Lemma text_same k2 key r :
  text k2 -> length k2 = length key -> strncmp_eq (k2 ++ r) (key ++ [0]) (length key) = Some (bool_decide (k2 = key)).
Proof.
  intros Ht. revert key. induction Ht as [|x k2 Hx _ IH]; intros [|y key] E; [by destruct r | discriminate E | discriminate E |]. cbn [app length strncmp_eq].
  destruct (Z.eqb_spec x y) as [->|Hne]; cbn [negb].
  - rewrite (proj2 (Z.eqb_neq y 0)), IH by (cbn in E; lia). f_equal. apply bool_decide_ext.
    split; [by intros -> | by intros [=]].
  - rewrite bool_decide_false by congruence. done.
Qed.

Section Find.
Context {C : Type} `{FlashDoc C} (P : (Z -> Z) -> Prop) (junk_env : env_node_obj) (junk_sector : sector_meta_data).
Implicit Types (s : Ef C).

(** ** The records of a sector

    [I l1 l2 acc s] holds when [l1] has been visited and [l2] is left; a call
    back may change what is left. *)
Definition walkable (i : bool) (l1 l2 : list item) s : Prop :=
  exists L st d, store L s /\ sec L i = Fmt st d (l1 ++ l2) /\ PL P L.

Lemma walkable_room i l1 l2 s :
  walkable i l1 l2 s -> base i + 20 <= ends (base i) l1 /\ ends (base i) l1 + ilen l2 <= base i + SECTOR_SIZE.
Proof. intros (L & st & d & Hs & HS & _). by apply (store_fits L s i st d). Qed.

Lemma wpc_records_loop {A} (I : list item -> list item -> A -> Ef C -> Prop) (R : env_node_obj -> A -> Ef C -> Prop)
    (callback : env_node_obj -> A -> M (Ef C) (bool * A)) i sector (Q : bool * env_node_obj * A -> Ef C -> Prop) n :
  status_store sector <> SECTOR_STORE_EMPTY -> s_addr sector = base i ->
  (forall l1 l2 acc s, I l1 l2 acc s -> walkable i l1 l2 s) ->
  (forall l1 it g l2 acc e s, I l1 (it :: g ++ l2) acc s -> is_gap it = false -> forallb is_gap g = true -> ready l2 ->
     addr_start e = ends (base i) l1 ->
     wpc P (read_env e) (fun r s1 => wpc P (callback (snd r) acc) (fun c s2 =>
          let '(stop, acc') := c in
          if stop : bool then R (snd r) acc' s2
          else exists it' g' l2', I (l1 ++ it' :: g') l2' acc' s2 /\ forallb is_gap g' = true /\ ready l2'
                               /\ located it' (ends (base i) l1) (snd r) /\ 0 < item_len it') s1) s) ->
  (forall e acc s, R e acc s -> Q (true, e, acc) s) ->
  (forall l1 e acc s, I l1 [] acc s -> Q (false, e, acc) s) ->
  forall l1 l2 e acc s, I l1 l2 acc s -> l1 ++ l2 <> [] -> after i l1 e -> ready l2 ->
    base i + SECTOR_SIZE - ends (base i) l1 <= Z.of_nat n ->
    wpc P (records_loop n sector e acc callback) Q s.
Proof.
  intros Hst Hb HI Hstep HR Hend. induction n as [|n IH]; intros l1 l2 e acc s Hi Hne Ha Hr Hn; cbn [records_loop];
    destruct (HI _ _ _ _ Hi) as (L & st & d & Hs & HS & HP); pose proof (walkable_room i l1 l2 s (HI _ _ _ _ Hi)) as Hroom;
    apply wpc_bind; apply (wpc_next P L i st d l1 l2); try done;
    (destruct l2 as [|it l2]; [apply wpc_ret; by apply (Hend l1)|]); cbn [next_addr];
    rewrite (proj2 (Z.eqb_neq _ FAILED_ADDR)) by
      (unfold FAILED_ADDR, SECTOR_SIZE, EF_ERASE_MIN_SIZE in *; pose proof (ilen_nonneg (it :: l2)); destruct (base_cases i); lia).
  - exfalso. pose proof (store_item L s i st d l1 it l2 Hs HS). pose proof (ilen_nonneg l2). rewrite ilen_cons in Hroom. lia.
  - destruct (gaps_split l2) as (g & r2 & -> & Hg & Hr2).
    pose proof (Hstep l1 it g r2 acc (set_start (ends (base i) l1) e) s Hi Hr Hg Hr2 eq_refl) as Hw.
    apply wpc_bind. eapply wpc_conseq; [exact Hw|]. intros r s1 Hc. apply wpc_bind.
    eapply wpc_conseq; [exact Hc|]. intros [[] acc'] s2; [by intros ?; apply wpc_ret, HR|].
    intros (it' & g' & l2' & Hi' & Hg' & Hr' & Hloc & Hpos). apply (IH (l1 ++ it' :: g') l2'); [exact Hi' | | | exact Hr' |].
    + intros E. by apply app_nil in E as [[_ ?]%app_nil _].
    + right. by exists l1, it', g'.
    + pose proof (ilen_nonneg g'). unfold ends in *. rewrite ilen_app, ilen_cons. lia.
Qed.

(** ** The sectors *)

Definition sees (S : Sec) (i : bool) (sector : sector_meta_data) : Prop :=
  match S with
  | Fmt st d _ => view i st d sector
  | Blank => check_ok sector = false /\ s_addr sector = base i /\ combined sector = SECTOR_NOT_COMBINED
  end.

Lemma sees_place S i sector : sees S i sector -> s_addr sector = base i /\ combined sector = SECTOR_NOT_COMBINED.
Proof. destruct S; cbn [sees]; unfold view; tauto. Qed.

(** [sector] is the place before the sector [i]. *)
Definition before (i : bool) (sector : sector_meta_data) : Prop :=
  if i then s_addr sector = base false /\ combined sector = SECTOR_NOT_COMBINED else s_addr sector = FAILED_ADDR.

Lemma wpc_next_sector i sector (Q : Z -> Ef C -> Prop) s :
  env_start_addr (ram s) = 0 -> before i sector -> Q (base i) s -> wpc P (get_next_sector_addr sector) Q s.
Proof.
  intros Hs Hb HQ. unfold get_next_sector_addr. apply wpc_bind, wpc_gets. rewrite Hs. destruct i; cbn [before] in Hb.
  - destruct Hb as [-> ->]. by apply wpc_ret.
  - rewrite Hb, Z.eqb_refl. by apply wpc_ret.
Qed.

Lemma wpc_no_sector sector (Q : Z -> Ef C -> Prop) s :
  env_start_addr (ram s) = 0 -> s_addr sector = base true -> combined sector = SECTOR_NOT_COMBINED -> Q FAILED_ADDR s ->
  wpc P (get_next_sector_addr sector) Q s.
Proof.
  intros Hs Ha Hc HQ. unfold get_next_sector_addr. apply wpc_bind, wpc_gets. rewrite Hs, Ha, Hc. by apply wpc_ret.
Qed.

Lemma wpc_header L i sector (Q : EfErrCode * sector_meta_data -> Ef C -> Prop) s :
  store L s ->
  (forall r sector', sees (sec L i) i sector' -> (no_err r = true <-> sec L i <> Blank) -> Q (r, sector') s) ->
  wpc P (read_sector_meta_data junk_env (base i) sector false) Q s.
Proof.
  intros Hs HQ. destruct (sec L i) as [|st d its] eqn:E.
  - apply (wpc_read_blank P junk_env L); [done | done|]. intros. by apply HQ.
  - apply (wpc_read_hdr P junk_env L i st d its); [done | done|]. intros. by apply HQ.
Qed.

(** The rule for the iterator over records: what holds before the first sector,
    between the two and behind the second, and [R] where the call back stops. *)
Lemma wpc_env_iterator {A} (I0 I1 I2 R : env_node_obj -> A -> Ef C -> Prop)
    (callback : env_node_obj -> A -> M (Ef C) (bool * A)) (Q : env_node_obj * A -> Ef C -> Prop) env acc s :
  (forall (i : bool) e a s', (if i then I1 else I0) e a s' -> exists L st d its,
     store L s' /\ sec L i = Fmt st d its /\ is_level st /\
     (st = SECTOR_STORE_EMPTY -> (if i then I2 else I1) e a s') /\
     (st <> SECTOR_STORE_EMPTY -> forall sector, view i st d sector ->
        wpc P (records_loop SECTOR_FUEL sector (set_start FAILED_ADDR e) a callback)
          (fun r s2 => let '(stop, e2, a2) := r in
             if stop : bool then R e2 a2 s2 else env_start_addr (ram s2) = 0 /\ (if i then I2 else I1) e2 a2 s2) s')) ->
  (forall e a s', I2 e a s' -> Q (e, a) s') -> (forall e a s', R e a s' -> Q (e, a) s') ->
  I0 env acc s -> wpc P (env_iterator junk_env junk_sector env acc callback) Q s.
Proof.
  intros Hphase H2 HR HI. unfold env_iterator.
  assert (Hone : forall (i : bool) k sector e a s', before i sector -> (if i then I1 else I0) e a s' ->
    (forall sector e a s', s_addr sector = base i -> combined sector = SECTOR_NOT_COMBINED ->
       env_start_addr (ram s') = 0 -> (if i then I2 else I1) e a s' ->
       wpc P (env_iterator_loop junk_env k sector e a callback) Q s') ->
    wpc P (env_iterator_loop junk_env (S k) sector e a callback) Q s').
  { intros i k sector e a s' Hb Hi Hnext. destruct (Hphase i e a s' Hi) as (L & st & d & its & Hs & HS & Hlev & He & Hu).
    pose proof (store_start _ _ Hs) as Hst. cbn [env_iterator_loop].
    apply wpc_bind, (wpc_next_sector i); [done | done|]. rewrite (proj2 (Z.eqb_neq _ _)) by apply base_not_failed.
    apply wpc_bind, (wpc_read_hdr P junk_env L i st d its); [done | done|]. intros sector' Hv.
    pose proof Hv as (_ & Est & _ & Ha & Hc). change (no_err EF_NO_ERR) with true. cbn [negb]. rewrite Est.
    destruct Hlev as [->|Hlev]; [change ((1 =? SECTOR_STORE_USING) || (1 =? SECTOR_STORE_FULL)) with false; cbv iota; apply Hnext; [done | done | done | by apply He]|].
    replace ((st =? SECTOR_STORE_USING) || (st =? SECTOR_STORE_FULL)) with true by (by destruct Hlev as [->| ->]).
    apply wpc_bind. eapply wpc_conseq; [apply Hu; [by destruct Hlev as [->| ->] | exact Hv]|].
    intros [[stop e2] a2] s2. destruct stop; [intros ?; by apply wpc_ret, HR|]. intros [? ?]. by apply Hnext. }
  apply (Hone false 1%nat); [done | done|]. intros sector e a s' Ha Hc _ Hi. apply (Hone true 0%nat); [done | done|].
  intros sector' e' a' s'' Ha' Hc' Hst Hi'. cbn [env_iterator_loop]. apply wpc_bind. apply wpc_no_sector; [done..|].
  rewrite Z.eqb_refl. apply wpc_ret. by apply H2.
Qed.

(** The rule for the iterator over sectors. *)
Section Sector_rule.
Context {A : Type} (I0 I1 I2 : A -> Ef C -> Prop) (R : sector_meta_data -> A -> Ef C -> Prop) (status : Z)
  (callback : sector_meta_data -> A -> M (Ef C) (bool * A)) (traversal : bool).

Definition sector_done (i : bool) (sector : sector_meta_data) (c : bool * A) s : Prop :=
  let '(stop, a) := c in
  if stop : bool then R sector a s else env_start_addr (ram s) = 0 /\ (if i then I2 else I1) a s.

Definition sector_phase (i : bool) (L : Sec * Sec) (a : A) s : Prop :=
  match sec L i with
  | Blank => status = SECTOR_STORE_UNUSED /\ traversal = false
             /\ forall sector, sees Blank i sector -> wpc P (callback sector a) (sector_done i sector) s
  | Fmt st d its =>
      if (status =? SECTOR_STORE_UNUSED) || (status =? st) then
        forall sector, view i st d sector ->
          wpc P (if traversal then do r <- read_sector_meta_data junk_env (base i) sector true; ret (snd r) else ret sector)
            (fun sector1 s1 => view i st d sector1 /\ wpc P (callback sector1 a) (sector_done i sector1) s1) s
      else (if i then I2 else I1) a s
  end.

Lemma wpc_sector_iterator sector acc (Q : sector_meta_data * A -> Ef C -> Prop) s :
  (forall (i : bool) a s', (if i then I1 else I0) a s' -> exists L, store L s' /\ sector_phase i L a s') ->
  (forall sector a s', I2 a s' -> Q (sector, a) s') -> (forall sector a s', R sector a s' -> Q (sector, a) s') ->
  I0 acc s -> wpc P (sector_iterator junk_env sector status acc callback traversal) Q s.
Proof.
  intros Hphase H2 HR HI. unfold sector_iterator.
  assert (Hone : forall (i : bool) k sector a s', before i sector -> (if i then I1 else I0) a s' ->
    (forall sector a s', s_addr sector = base i -> combined sector = SECTOR_NOT_COMBINED ->
       env_start_addr (ram s') = 0 -> (if i then I2 else I1) a s' ->
       wpc P (sector_iterator_loop junk_env k sector status a callback traversal) Q s') ->
    wpc P (sector_iterator_loop junk_env (S k) sector status a callback traversal) Q s').
  { intros i k sector0 a s' Hb Hi Hnext. destruct (Hphase i a s' Hi) as (L & Hs & Hp).
    pose proof (store_start _ _ Hs) as Hst. cbn [sector_iterator_loop].
    apply wpc_bind, (wpc_next_sector i); [done | done|]. rewrite (proj2 (Z.eqb_neq _ _)) by apply base_not_failed.
    apply wpc_bind, (wpc_header L); [done|]. intros r sector1 Hv _. cbn [snd].
    pose proof (sees_place _ _ _ Hv) as [Ha Hc].
    assert (Hfin : forall sector2 c s2, s_addr sector2 = base i -> combined sector2 = SECTOR_NOT_COMBINED ->
      sector_done i sector2 c s2 ->
      wpc P (let '(stop, acc) := c in if stop : bool then ret (sector2, acc)
             else sector_iterator_loop junk_env k sector2 status acc callback traversal) Q s2).
    { intros sector2 [[] a2] s2 Ha2 Hc2; cbn [sector_done]; [intros ?; by apply wpc_ret, HR|].
      intros [? ?]. by apply Hnext. }
    unfold sector_phase in Hp. destruct (sec L i) as [|st d its].
    - destruct Hp as (-> & Etr & Hcb). rewrite Etr in *. cbn [Z.eqb orb]. change (SECTOR_STORE_UNUSED =? SECTOR_STORE_UNUSED) with true.
      cbn [orb]. apply wpc_bind, wpc_ret, wpc_bind. eapply wpc_conseq; [by apply Hcb|]. intros c s2 Hd. by apply Hfin.
    - pose proof Hv as (_ & Est & _). rewrite Est. destruct ((status =? SECTOR_STORE_UNUSED) || (status =? st)); [|by apply Hnext].
      apply wpc_bind. specialize (Hp sector1 Hv).
      eapply (wpc_conseq P _ (fun sector2 s2 => view i st d sector2 /\ wpc P (callback sector2 a) (sector_done i sector2) s2)).
      { destruct traversal; exact Hp. }
      intros sector2 s2 [(_ & _ & _ & Ha2 & Hc2) Hcb]. apply wpc_bind. eapply wpc_conseq; [exact Hcb|].
      intros c s3 Hd. by apply Hfin. }
  apply (Hone false 1%nat); [done | done|]. intros sector1 a s' Ha Hc _ Hi. apply (Hone true 0%nat); [done | done|].
  intros sector2 a' s'' Ha' Hc' Hst Hi'. cbn [sector_iterator_loop]. apply wpc_bind. apply wpc_no_sector; [done..|].
  rewrite Z.eqb_refl. apply wpc_ret. by apply H2.
Qed.
End Sector_rule.

(** ** Without the cache *)

Lemma prefix_inv (l p : list Z) n : prefix l n = Some p -> l = p ++ drop (Z.to_nat n) l.
Proof.
  unfold prefix. destruct ((0 <=? n) && (n <=? zlen l)); [|done]. intros [= <-]. by rewrite take_drop.
Qed.

(** The value of [key], where the record is the live one of it. *)
Definition hit (key : list Z) (it : item) : option (list Z) :=
  match live_of it with Some (k, v) => if bool_decide (k = key) then Some v else None | None => None end.

Lemma hit_rec key it v : hit key it = Some v -> it = Rec ENV_WRITE key v.
Proof.
  unfold hit, live_of. destruct it as [st k w| |]; [|done|done].
  destruct (Z.eqb_spec st ENV_WRITE) as [->|]; [|done]. case_bool_decide; [|done]. congruence.
Qed.

Lemma hit_none key it v : hit key it = None -> (key, v) ∉ live [it].
Proof.
  unfold hit, live. cbn. destruct (live_of it) as [[k w]|]; cbn; [|set_solver].
  case_bool_decide; [done|]. intros _. rewrite elem_of_cons. intros [[= <- <-]|Hx]; [done | set_solver].
Qed.

Lemma stat_write st : is_stat st -> (stat st =? ENV_WRITE) = (st =? ENV_WRITE).
Proof. by intros [->|[->|[->|[->|[->| ->]]]]]. Qed.

Lemma find_env_cb_spec key it a e (Q : bool * bool -> Ef C -> Prop) s :
  item_ok it -> seen it a e ->
  (let b := bool_decide (is_Some (hit key it)) in Q (b, b) s) ->
  wpc P (find_env_cb key e false) Q s.
Proof.
  intros Hok (_ & _ & Hs) HQ. unfold find_env_cb.
  destruct it as [st k v|bs|b0 err rest]; [|done|].
  - destruct Hs as (Hc & Hst & Hnl & _ & Hp & _). destruct Hok as [Hstat [Hk _ _ _]]. rewrite Hc, Hst, Hnl, stat_write by done.
    unfold hit in HQ. cbn [live_of] in HQ. cbn [andb].
    destruct (Z.eqb_spec (zlen key) (zlen k)) as [El|El]; cbn [negb].
    + destruct (Z.eqb_spec st ENV_WRITE) as [->|]; [|by apply wpc_ret].
      apply prefix_inv in Hp. apply wpc_bind. eapply wpc_lift_opt.
      { rewrite Hp. apply text_same; [done|]. unfold zlen in El. lia. }
      destruct (decide (k = key)) as [->|Hne].
      * rewrite (bool_decide_true (key = key)) in HQ |- * by done. by apply wpc_ret.
      * rewrite (bool_decide_false (k = key)) in HQ |- * by done. by apply wpc_ret.
    + destruct (st =? ENV_WRITE); [|by apply wpc_ret].
      rewrite (bool_decide_false (k = key)) in HQ by (by intros ->). by apply wpc_ret.
  - destruct Hs as (Hc & _). rewrite Hc. cbn [andb]. by destruct (negb (zlen key =? name_len e)); apply wpc_ret.
Qed.

Lemma store_item_ok L s i st d l1 it l2 :
  store L s -> sec L i = Fmt st d (l1 ++ it :: l2) -> item_ok it /\ is_level st.
Proof.
  intros [(L0 & Hl & HL) _ _] HS. destruct (like_fmt L0 L i st d _ Hl HS) as (its0 & HS0 & E).
  destruct (like_split _ _ _ _ E) as (m1 & jt & m2 & -> & _ & E2 & _).
  destruct (item_place _ L0 i st d m1 jt m2 HL HS0) as (_ & Hok & _).
  pose proof (HL i) as Hlay. rewrite HS0 in Hlay. split; [|apply Hlay].
  destruct it, jt; try done; injection E2; intros; by subst.
Qed.

Lemma store_level L s i st d its : store L s -> sec L i = Fmt st d its -> is_level st /\ is_level d.
Proof.
  intros [(L0 & Hl & HL) _ _] HS. destruct (like_fmt L0 L i st d _ Hl HS) as (its0 & HS0 & E).
  pose proof (HL i) as Hlay. rewrite HS0 in Hlay. apply Hlay.
Qed.

Lemma store_ready L s i st d its : store L s -> sec L i = Fmt st d its -> ready its.
Proof.
  intros [(L0 & Hl & HL) _ _] HS. destruct (like_fmt L0 L i st d _ Hl HS) as (its0 & HS0 & E).
  pose proof (HL i) as Hlay. rewrite HS0 in Hlay. pose proof (fmt_ok _ _ _ _ _ Hlay) as [_ Hh _ _].
  apply (ready_like its0); [by symmetry|]. destruct its0; [done | by apply Hh].
Qed.

Section No_cache.
Context (L : Sec * Sec) (Hwf : wf L) (HP : PL P L) (key : list Z) (r0 : EfRam).

(** Looking for [key]: not in the sectors before [i], nor in [l1] of it. *)
Definition unseen (i : bool) (l1 l2 : list item) (acc : bool) s : Prop :=
  acc = false /\ store L s /\ ram s = r0 /\ (exists st d, sec L i = Fmt st d (l1 ++ l2))
  /\ (forall v, (key, v) ∉ live l1) /\ (i = true -> forall v, (key, v) ∉ live (items L false)).
Definition hit_at (e : env_node_obj) (acc : bool) s : Prop :=
  acc = true /\ store L s /\ ram s = r0
  /\ exists v a, found_at L key v a /\ seen (Rec ENV_WRITE key v) a e.
Definition gone (i : bool) (acc : bool) s : Prop :=
  acc = false /\ store L s /\ ram s = r0 /\ (forall v, (key, v) ∉ live (items L false))
  /\ (i = true -> forall v, (key, v) ∉ live (items L true)).

Lemma find_records i st d its sector e s :
  sec L i = Fmt st d its -> st <> SECTOR_STORE_EMPTY -> view i st d sector -> store L s -> ram s = r0 ->
  (i = true -> forall v, (key, v) ∉ live (items L false)) ->
  wpc P (records_loop SECTOR_FUEL sector (set_start FAILED_ADDR e) false (find_env_cb key))
    (fun r s2 => let '(stop, e2, a2) := r in
       if stop : bool then hit_at e2 a2 s2 else env_start_addr (ram s2) = 0 /\ gone i a2 s2) s.
Proof.
  intros HS Hst (_ & Est & _ & Ha & _) Hs Hr Hbefore.
  assert (Hne : its <> []).
  { specialize (Hwf i). rewrite HS in Hwf. destruct Hwf as [Hx _]. intros E. by apply Hx in E. }
  apply (wpc_records_loop (unseen i) hit_at (find_env_cb key) i) with (l1 := []) (l2 := its).
  - congruence.
  - done.
  - intros l1 l2 acc s' (_ & Hs' & _ & (st' & d' & HS') & _). by exists L, st', d'.
  - intros l1 it g l2 acc e' s' (-> & Hs' & Hr' & (st' & d' & HS') & Hl1 & Hb) Hg Hgs Hl2 Hplace.
    apply (wpc_read P L i st' d' l1 it (g ++ l2)); [done..|]. intros r e2 s2 Hsn Hram Hs2. cbn [snd].
    destruct (store_item_ok L s' i st' d' l1 it _ Hs' HS') as [Hok _].
    apply (find_env_cb_spec key it (ends (base i) l1)); [done | done|]. cbv zeta.
    destruct (hit key it) as [v|] eqn:Eh.
    + rewrite bool_decide_true by (by eexists). apply hit_rec in Eh as ->. split; [done|]. split; [done|].
      split; [congruence|]. exists v, (ends (base i) l1). split; [|done]. by exists i, st', d', l1, (g ++ l2).
    + rewrite bool_decide_false by (by intros [? ?]). exists it, g, l2. split; [|split; [done|]; split; [done|]].
      * unfold unseen. rewrite <- app_assoc. split; [done|]. split; [done|]. split; [congruence|].
        split; [by exists st', d'|]. split; [|done]. intros v. rewrite live_app.
        change (it :: g) with ([it] ++ g). rewrite live_app, (live_gaps g) by done. rewrite app_nil_r, elem_of_app.
        intros [?|?]; [by apply (Hl1 v) | by apply (hit_none key it v)].
      * split; [by apply seen_located|]. by apply (store_item L s' i st' d' l1 it (g ++ l2)).
  - done.
  - intros l1 e' acc s' (-> & Hs' & Hr' & (st' & d' & HS') & Hl1 & Hb). rewrite app_nil_r in HS'.
    split; [by rewrite (store_start _ _ Hs')|]. split; [done|]. split; [done|]. split; [done|].
    assert (El : items L i = l1) by (unfold items; by rewrite HS').
    destruct i; split; try done; [by apply Hb | intros _; by rewrite El | by rewrite El].
  - split; [done|]. split; [done|]. split; [done|]. split; [by exists st, d|]. split; [set_solver | done].
  - done.
  - by left.
  - by apply (store_ready L s i st d its).
  - unfold ends. rewrite ilen_nil, sector_fuel. unfold SECTOR_SIZE, EF_ERASE_MIN_SIZE, SECTOR_HDR_DATA_SIZE. lia.
Qed.

Lemma wpc_find_no_cache e (Q : bool * env_node_obj -> Ef C -> Prop) s :
  store L s -> ram s = r0 ->
  (forall v a e' s', found_at L key v a -> seen (Rec ENV_WRITE key v) a e' -> ram s' = r0 -> store L s' ->
     Q (true, e') s') ->
  ((forall v, (key, v) ∉ lives L) -> forall e' s', ram s' = r0 -> store L s' -> Q (false, e') s') ->
  wpc P (find_env_no_cache junk_env junk_sector key e) Q s.
Proof.
  intros Hs Hr Hyes Hno. unfold find_env_no_cache. apply wpc_bind.
  apply (wpc_env_iterator (fun _ acc s => unseen false [] (items L false) acc s) (fun _ acc s => gone false acc s)
           (fun _ acc s => gone true acc s) hit_at).
  - intros i e' acc s' Hi.
    assert (Hk : acc = false /\ store L s' /\ ram s' = r0 /\ (i = true -> forall v, (key, v) ∉ live (items L false))).
    { destruct i; [destruct Hi as (? & ? & ? & Hb & _) | destruct Hi as (? & ? & ? & _)]; done. }
    destruct Hk as (-> & Hs' & Hr' & Hb). specialize (Hwf i) as Hw. destruct (sec L i) as [|st d its] eqn:HS; [done|].
    exists L, st, d, its. split; [done|]. split; [done|]. split; [by apply (store_level L s' i st d its)|]. split.
    + intros Est. destruct Hw as [Hx _]. apply Hx in Est. subst its.
      assert (El : items L i = []) by (unfold items; by rewrite HS).
      assert (Hn : forall v, (key, v) ∉ live (items L i)) by (rewrite El; intros v; apply not_elem_of_nil).
      destruct i; (split; [done|]; split; [done|]; split; [done|]); (split; [auto | done]).
    + intros Hst sector Hv. eapply wpc_conseq; [by apply (find_records i st d its)|].
      intros [[stop e2] a2] s2. destruct stop; [done|]. intros [? ?]. split; [done|]. by destruct i.
  - intros e' acc s' (-> & Hs' & Hr' & Hg1 & Hg2). apply wpc_ret, Hno; [|done|done].
    intros v. unfold lives. rewrite elem_of_app. intros [?|?]; [by apply (Hg1 v) | by apply (Hg2 eq_refl v)].
  - intros e' acc s' (-> & Hs' & Hr' & v & a & Hf & Hsn). apply wpc_ret. by apply (Hyes v a).
  - split; [done|]. split; [done|]. split; [done|]. split; [|split; [set_solver | done]].
    specialize (Hwf false). unfold items. destruct (sec L false) as [|st d its] eqn:HS; [done|]. by exists st, d.
Qed.
End No_cache.

(** ** With the cache *)

(** A live entry of the cache is the address of a live record with its check sum. *)
Definition cached_in (L : Sec * Sec) (crc a : Z) : Prop :=
  exists k v, found_at L k v a /\ crc = name_crc16 k.

Definition comparable (l m : list Z) : Prop := l `prefix_of` m \/ m `prefix_of` l.

(** No other variable is taken for [key] by its cache entry: one with the same
    16 bits would have to agree with [key] as far as its name and value go. *)
Definition no_clash (L : Sec * Sec) (key : list Z) : Prop :=
  forall k v, (k, v) ∈ lives L -> name_crc16 k = name_crc16 key -> k = key \/ ~ comparable key (k ++ v).

Lemma strncmp_take name saved :
  text name -> (length name <= length saved)%nat ->
  strncmp_eq (name ++ [0]) saved (length name) = Some (bool_decide (take (length name) saved = name)).
Proof.
  intros Ht. revert saved. induction Ht as [|x name Hx _ IH]; intros [|y saved] El; [done | done | cbn in El; lia |].
  cbn [app length strncmp_eq take]. destruct (Z.eqb_spec x y) as [<-|Hne]; cbn [negb].
  - rewrite (proj2 (Z.eqb_neq x 0)), IH by (cbn in El; lia). f_equal. apply bool_decide_ext.
    split; [by intros -> | by intros [=]].
  - rewrite bool_decide_false by congruence. done.
Qed.

Lemma take_comparable mu a l m :
  holds mu a m -> take (length l) (bytes_at mu a 32) = l -> (length l <= 32)%nat -> comparable l m.
Proof.
  intros Hm Hl Hlen. unfold holds in Hm. assert (El : l = bytes_at mu a (zlen l)).
  { rewrite <- Hl at 1. replace 32 with (zlen l + (32 - zlen l)) by lia.
    rewrite bytes_at_app by (unfold zlen; lia). rewrite take_app_length'; [done|].
    unfold bytes_at, zlen. rewrite length_map, length_seqZ. lia. }
  rewrite El, <- Hm. pose proof (zlen_nonneg l). pose proof (zlen_nonneg m).
  destruct (Z.le_gt_cases (zlen l) (zlen m)); [left | right].
  - exists (bytes_at mu (a + zlen l) (zlen m - zlen l)). rewrite <- bytes_at_app by lia. f_equal. lia.
  - exists (bytes_at mu (a + zlen m) (zlen l - zlen m)). rewrite <- bytes_at_app by lia. f_equal. lia.
Qed.

Lemma found_bytes L key v a s :
  store L s -> found_at L key v a ->
  holds (mem s) (a + 28) (key ++ v) /\ entry_ok key v /\ 20 <= a /\ a + node_len key v <= 262144.
Proof.
  intros [(L0 & Hl & HL) _ _] (i & st & d & l1 & l2 & HS & ->).
  destruct (like_fmt L0 L i st d _ Hl HS) as (its0 & HS0 & E).
  destruct (like_split _ _ _ _ E) as (m1 & jt & m2 & -> & E1 & E2 & _).
  apply unmark_not_bad in E2 as ->; [|done].
  destruct (item_place _ L0 i st d m1 _ m2 HL HS0) as (Hh & [_ Hok] & Hlo & _ & Hhi).
  unfold ends. rewrite (like_ilen m1 l1 E1) in *. rewrite rec_bytes_split, holds_app, rec_hdr_zlen in Hh.
  rewrite rec_len in Hhi. split; [apply Hh | done].
Qed.

Lemma insert_same_node t j n ac :
  t !! j = Some n -> Forall2 same_node (<[j := mkEnvNode (name_crc n) ac (cache_addr n)]> t) t.
Proof.
  revert j. induction t as [|m t IH]; intros [|j] Hj; try done; cbn.
  - injection Hj as ->. constructor; [done | apply same_nodes_refl].
  - constructor; [done | by apply IH].
Qed.

Section Cached.
Context (L : Sec * Sec) (Hwf : wf L) (HP : PL P L) (key : list Z).
Context (Hkey : text key) (Hlen : 1 <= zlen key <= 32) (Hclash : no_clash L key).

Lemma wpc_from_cache_loop l : forall j (Q : option Z -> Ef C -> Prop) s,
  store L s -> env_cache_ok (cached_in L) (env_cache_table (ram s)) ->
  drop j (env_cache_table (ram s)) = l ->
  (forall v a s' t, found_at L key v a -> ram s' = put_env_cache t (ram s) -> env_cache_ok (cached_in L) t ->
     chip s' = chip s -> Q (Some a) s') ->
  Q None s -> wpc P (env_from_cache_loop key j l) Q s.
Proof.
  induction l as [|n l IH]; intros j Q s Hs Hc Hl Hyes Hno; cbn [env_from_cache_loop]; [by apply wpc_ret|].
  assert (Hj : env_cache_table (ram s) !! j = Some n).
  { rewrite <- (Nat.add_0_r j), <- lookup_drop, Hl. done. }
  assert (Hl' : drop (S j) (env_cache_table (ram s)) = l).
  { rewrite <- Nat.add_1_r, <- drop_drop, Hl. done. }
  destruct (Z.eqb_spec (cache_addr n) FAILED_ADDR) as [Ef|Ef]; cbn [negb andb]; [by apply IH|].
  destruct (Z.eqb_spec (name_crc n) (name_crc16 key)) as [Ec|Ec]; [|by apply IH].
  destruct (node_valid _ _ Hc n) as (k & v & Hf & Ek); [by apply (list_elem_of_lookup_2 _ j) | done|].
  destruct (found_bytes L k v (cache_addr n) s Hs Hf) as (Hh & Hok & Hlo & Hhi).
  pose proof (entry_len_bound k v Hok). change ENV_HDR_DATA_SIZE with 28. change EF_ENV_NAME_MAX with 32.
  rewrite u32_small by lia. apply wpc_bind, wpc_port_read; [lia..|].
  assert (Hl32 : length (bytes_at (mem s) (cache_addr n + 28) 32) = 32%nat).
  { unfold bytes_at. rewrite length_map, length_seqZ. lia. }
  apply wpc_bind. eapply wpc_lift_opt.
  { apply strncmp_take; [done|]. rewrite Hl32. unfold zlen in Hlen. lia. }
  case_bool_decide as Htake.
  - assert (Heq : k = key).
    { destruct (Hclash k v (found_live _ _ _ _ Hf)) as [?|Hn]; [congruence | done|]. destruct Hn.
      apply (take_comparable (mem s) (cache_addr n + 28)); [done | done|]. unfold zlen in Hlen. lia. }
    subst k. apply wpc_bind, wpc_put, wpc_ret. eapply (Hyes v); [done | reflexivity | | done].
    eapply env_cache_same; [by apply insert_same_node | done].
  - by apply IH.
Qed.

Lemma wpc_find_env e (Q : bool * env_node_obj -> Ef C -> Prop) s :
  store L s -> env_cache_ok (cached_in L) (env_cache_table (ram s)) ->
  (forall v a e' s' t, found_at L key v a -> seen (Rec ENV_WRITE key v) a e' -> ram s' = put_env_cache t (ram s) ->
     env_cache_ok (cached_in L) t -> store L s' -> Q (true, e') s') ->
  ((forall v, (key, v) ∉ lives L) -> forall e' s', ram s' = ram s -> store L s' -> Q (false, e') s') ->
  wpc P (find_env junk_env junk_sector key e) Q s.
Proof.
  intros Hs Hc Hyes Hno. unfold find_env, get_env_from_cache. apply wpc_bind, wpc_bind, wpc_gets.
  apply (wpc_from_cache_loop _ 0); [done | done | done | |].
  - intros v a s1 t Hf Hr1 Ht Hchip. apply wpc_bind. pose proof Hf as (i & st & d & l1 & l2 & HS & ->).
    assert (Hs1 : store L s1).
    { destruct Hs as [Hfl Hca Hst]. split; [unfold mem; by rewrite Hchip | by rewrite Hr1 | by rewrite Hr1]. }
    apply (wpc_read P L i st d l1 (Rec ENV_WRITE key v) l2); [done..|]. intros r e' s2 Hsn Hr2 Hs2. apply wpc_ret.
    apply (Hyes v (ends (base i) l1) _ _ t); try done. congruence.
  - apply wpc_bind. apply (wpc_find_no_cache L Hwf HP key (ram s)); [done | done | |].
    + intros v a e' s1 Hf Hsn Hr1 Hs1. apply wpc_bind, wpc_put, wpc_ret.
      pose proof Hsn as (Ea & _).
      apply (Hyes v a _ _ (update_env_cache key (addr_start e') (env_cache_table (ram s1)))); [done | done | | |].
      * cbn. by rewrite Hr1.
      * rewrite Hr1, Ea. apply (env_cache_update (cached_in L)); [done | | done]. intros _. by exists key, v.
      * destruct Hs1 as [Hfl Hca Hst]. by split.
    + intros Hn e' s1 Hr1 Hs1. apply wpc_bind, wpc_ret, wpc_ret. by apply Hno.
Qed.
End Cached.
End Find.
