(* ===== verification/EfOps.v ===== *)
(** * Changing the log

    The writes of [EfEnv] as changes of the layout: a status byte of a record, the
    status of a sector, the formatting of a sector, a record appended.  Each rule
    asks that the contents passed through on the way satisfy [P]. *)

From S2P Require Import Prelude CStr Storage EfEnv EfFlash EfLayout EfRead EfStore EfCache EfFind.
Open Scope list_scope.

(** ** Status bytes *)

(** The cache of sectors does not see a change of [L] that keeps the lengths. *)
Lemma sec_cache_keep L L' t :
  (forall i st d its, sec L i = Fmt st d its -> exists st' d' its', sec L' i = Fmt st' d' its' /\ ilen its' = ilen its) ->
  sec_cache_ok L t -> sec_cache_ok L' t.
Proof.
  intros Hx [He Ho]. split; [|exact Ho]. intros n Hn Hl. destruct (He n Hn Hl) as (i & st & d & its & E1 & E2 & E3).
  destruct (Hx i st d its E2) as (st' & d' & its' & E4 & E5). exists i, st', d', its'. unfold ends in *. by rewrite E5.
Qed.

Lemma keep_upd L i st d its st' d' its' :
  sec L i = Fmt st d its -> ilen its' = ilen its ->
  forall j st0 d0 its0, sec L j = Fmt st0 d0 its0 ->
    exists st1 d1 its1, sec (upd L i (Fmt st' d' its')) j = Fmt st1 d1 its1 /\ ilen its1 = ilen its0.
Proof.
  intros HS El j st0 d0 its0 Hj. destruct (decide (j = i)) as [->|Hne].
  - rewrite HS in Hj. injection Hj as -> -> ->. exists st', d', its'. by rewrite sec_upd_eq.
  - exists st0, d0, its0. replace j with (negb i) in * by (by destruct i, j). by rewrite sec_upd_ne.
Qed.

(** The status of a record moves on. *)
Definition status_step (r r' idx : Z) : Prop :=
  (r = 1 /\ r' = 2 /\ idx = ENV_WRITE) \/ (r = 2 /\ r' = 3 /\ idx = ENV_PRE_DELETE)
  \/ (r = 3 /\ r' = 4 /\ idx = ENV_DELETED) \/ (r = 2 /\ r' = 6 /\ idx = ENV_DELETED)
  \/ (r = 1 /\ r' = 5 /\ idx = ENV_ERR_HDR).

Lemma status_cleared r r' idx k v : status_step r r' idx -> cleared (Rec r k v) (idx - 1) (Rec r' k v).
Proof.
  intros Hs. split.
  - rewrite rec_len. unfold node_len. pose proof (zlen_nonneg k). pose proof (zlen_nonneg v).
    destruct Hs as [(_ & _ & ->)|[(_ & _ & ->)|[(_ & _ & ->)|[(_ & _ & ->)|(_ & _ & ->)]]]];
      unfold ENV_WRITE, ENV_PRE_DELETE, ENV_DELETED, ENV_ERR_HDR; lia.
  - by destruct Hs as [(-> & -> & ->)|[(-> & -> & ->)|[(-> & -> & ->)|[(-> & -> & ->)|(-> & -> & ->)]]]].
Qed.

Lemma status_step_range r r' idx : status_step r r' idx -> 0 < idx < 6 /\ is_stat r'.
Proof.
  unfold is_stat. intros [(_ & -> & ->)|[(_ & -> & ->)|[(_ & -> & ->)|[(_ & -> & ->)|(_ & -> & ->)]]]]; (split; [done | tauto]).
Qed.

Lemma Flash_rec_status mu nu L i st d l1 l2 k v r r' idx :
  Flash mu L -> sec L i = Fmt st d (l1 ++ Rec r k v :: l2) -> status_step r r' idx ->
  (forall x, nu x = clr mu (ends (base i) l1 + (idx - 1)) x) -> Flash nu (upd L i (Fmt st d (l1 ++ Rec r' k v :: l2))).
Proof.
  intros (L0 & Hl & HL) HS Hstep Hnu. destruct (like_fmt L0 L i st d _ Hl HS) as (its0 & HS0 & E).
  destruct (like_split _ _ _ _ E) as (m1 & jt & m2 & -> & E1 & E2 & E3). apply unmark_not_bad in E2 as ->; [|done].
  exists (upd L0 i (Fmt st d (m1 ++ Rec r' k v :: m2))). split.
  - apply like_upd; [done|]. cbn [unmark_sec]. rewrite !map_app. cbn [map]. by rewrite E1, E3.
  - eapply flash_is_change; [done | done | by apply status_cleared | |].
    + destruct (item_place mu L0 i st d m1 _ m2 HL HS0) as (_ & [_ Hok] & _).
      pose proof (HL i) as Hlay. rewrite HS0 in Hlay.
      apply (items_ok_change m1 (Rec r k v)); [apply Hlay | | by rewrite !rec_len | done | done].
      split; [by apply (status_step_range r r' idx) | done].
    + intros x. rewrite Hnu. unfold ends. by rewrite (like_ilen m1 l1).
Qed.

(** The levels of a sector move on; writing the last one again changes nothing. *)
Lemma Flash_rehead mu nu L i st d its st' d' o :
  Flash mu L -> sec L i = Fmt st d its -> is_level st' -> is_level d' -> 0 <= o < 20 ->
  sec_hdr st' d' = <[Z.to_nat o := 0]> (sec_hdr st d) ->
  (forall x, nu x = clr mu (base i + o) x) -> Flash nu (upd L i (Fmt st' d' its)).
Proof.
  intros (L0 & Hl & HL) HS Hst Hd Ho Eb Hnu. destruct (like_fmt L0 L i st d _ Hl HS) as (its0 & HS0 & E).
  exists (upd L0 i (Fmt st' d' its0)). split; [apply like_upd; [done | cbn [unmark_sec]; by rewrite E]|].
  pose proof (HL i) as Hlay. rewrite HS0 in Hlay. apply (flash_is_upd mu); [done | |].
  - intros x Hx. rewrite Hnu. unfold clr. rewrite (proj2 (Z.eqb_neq x _)); [done|]. intros ->. apply Hx.
    unfold SECTOR_SIZE, EF_ERASE_MIN_SIZE. lia.
  - by eapply fmt_rehead.
Qed.

(** ** Formatting *)

Lemma fresh_hdr : sector_hdr_bytes SECTOR_NOT_COMBINED = sec_hdr SECTOR_STORE_EMPTY SECTOR_DIRTY_FALSE.
Proof. reflexivity. Qed.

Lemma fresh_hdr_ok : bytes_ok (sec_hdr SECTOR_STORE_EMPTY SECTOR_DIRTY_FALSE).
Proof. apply (bool_decide_unpack _). vm_compute. exact I. Qed.

Lemma lay_fresh mu b :
  holds mu b (sec_hdr SECTOR_STORE_EMPTY SECTOR_DIRTY_FALSE) ->
  (forall x, b + 20 <= x < b + SECTOR_SIZE -> mu x = 255) -> lay mu b (Fmt SECTOR_STORE_EMPTY SECTOR_DIRTY_FALSE []).
Proof.
  intros Hh Hff. split; try done.
  - split; by left.
  - unfold ends. rewrite ilen_nil. intros x Hx. apply Hff. unfold SECTOR_HDR_DATA_SIZE in Hx. lia.
  - unfold ends. rewrite ilen_nil. unfold SECTOR_SIZE, EF_ERASE_MIN_SIZE, SECTOR_HDR_DATA_SIZE. lia.
  - split; [constructor | done | constructor|]. intros l1 it l2 E. by destruct l1.
Qed.

(** A sector whose magic word is not complete. *)
Lemma lay_blank mu b x : 8 <= x < 12 -> mu (b + x) = 255 -> lay mu b Blank.
Proof.
  intros Hx Hmu E. cbn [lay] in *. assert (Hh : holds mu (b + 8) (le_bytes SECTOR_MAGIC_WORD)) by exact E.
  assert (Hb : le_bytes SECTOR_MAGIC_WORD !! Z.to_nat (x - 8) = Some (mu (b + x))).
  { unfold holds in Hh. rewrite <- Hh. rewrite bytes_at_lookup by (change (zlen (le_bytes SECTOR_MAGIC_WORD)) with 4; lia).
    do 2 f_equal. lia. }
  rewrite Hmu in Hb. assert (x = 8 \/ x = 9 \/ x = 10 \/ x = 11) as [->|[->|[->| ->]]] by lia; discriminate Hb.
Qed.

Lemma Flash_upd mu nu L i S :
  Flash mu L -> (forall x, ~ (base i <= x < base i + SECTOR_SIZE) -> nu x = mu x) -> lay nu (base i) S ->
  Flash nu (upd L i S).
Proof.
  intros (L0 & Hl & HL) Hx HS. exists (upd L0 i S). split; [by apply like_upd|]. by apply (flash_is_upd mu).
Qed.

Lemma prog_full mu nu a bs n :
  (forall x, nu x = prog mu a (take n bs) x) -> (forall x, a <= x < a + zlen bs -> mu x = 255) ->
  Forall (fun b => b = 255) (drop n bs) -> forall x, nu x = prog mu a bs x.
Proof.
  intros Hnu Hff Hd x. rewrite Hnu. unfold prog. destruct (Z.lt_ge_cases x a); [by rewrite !aget_None by lia|].
  destruct (aget bs (x - a)) as [b|] eqn:E.
  - pose proof (aget_bound _ _ _ E). rewrite aget_lookup in * by lia.
    destruct (decide (Z.to_nat (x - a) < n)%nat) as [Hlt|Hge].
    + by rewrite lookup_take_lt, E by done.
    + rewrite lookup_take_ge by lia. rewrite Forall_forall in Hd.
      rewrite (Hd b), Hff by (lia || apply (list_elem_of_lookup_2 _ (Z.to_nat (x - a) - n));
        rewrite lookup_drop, <- E; f_equal; lia). done.
  - rewrite aget_None; [done|]. right.
    destruct (Z.lt_ge_cases (x - a) (zlen bs)) as [Hlt|?]; [|unfold zlen in *; rewrite length_take; lia].
    destruct (aget_is_Some bs (x - a)) as [? Hs]; [lia | congruence].
Qed.

Section Ops.
Context {C : Type} `{FlashDoc C} (P : (Z -> Z) -> Prop) (junk_env : env_node_obj) (junk_sector : sector_meta_data).
Implicit Types (s : Ef C).

(** A status write as a step between layouts. *)
Lemma wpc_status_step a n idx L L' (Q : EfErrCode -> Ef C -> Prop) s :
  0 <= a -> 0 < idx < n -> a + idx <= 1048576 -> store L s ->
  (forall nu, (forall x, nu x = clr (mem s) (a + (idx - 1)) x) -> Flash nu L') -> PL P L -> PL P L' ->
  (forall i st d its, sec L i = Fmt st d its -> exists st' d' its', sec L' i = Fmt st' d' its' /\ ilen its' = ilen its) ->
  (forall s', ram s' = ram s -> store L' s' -> Q EF_NO_ERR s') ->
  wpc P (write_status a n idx) Q s.
Proof.
  intros Ha Hi Hr [HF Hc Hst] HL' HP HP' Hkeep HQ. apply wpc_write_status; try done.
  - intros mu [Hmu|Hmu]; [by eapply HP, Flash_ext | by apply HP', HL'].
  - intros s' Hram Hm. apply HQ; [done|]. split; rewrite ?Hram; [by apply HL' | | done]. by apply (sec_cache_keep L).
Qed.

Lemma wpc_rec_status L i st d l1 l2 k v r r' idx (Q : EfErrCode -> Ef C -> Prop) s :
  let L' := upd L i (Fmt st d (l1 ++ Rec r' k v :: l2)) in
  store L s -> sec L i = Fmt st d (l1 ++ Rec r k v :: l2) -> status_step r r' idx -> PL P L -> PL P L' ->
  (forall s', ram s' = ram s -> store L' s' -> Q EF_NO_ERR s') ->
  wpc P (write_status (ends (base i) l1) ENV_STATUS_NUM idx) Q s.
Proof.
  intros L' Hs HS Hstep HP HP' HQ. pose proof (store_fits L s i st d l1 _ Hs HS) as Hfit.
  pose proof (ilen_nonneg (Rec r k v :: l2)). unfold SECTOR_SIZE, EF_ERASE_MIN_SIZE in *.
  destruct (status_step_range r r' idx Hstep) as [Hidx _].
  apply (wpc_status_step _ _ _ L L'); [destruct (base_cases i); lia | done | destruct (base_cases i); lia | done | | done | done | | done].
  - intros nu Hnu. apply (Flash_rec_status (mem s) nu L i st d l1 l2 k v r r' idx); [apply Hs | done..].
  - apply (keep_upd L i st d (l1 ++ Rec r k v :: l2)); [done|]. by rewrite !ilen_app, !ilen_cons, !rec_len.
Qed.

Lemma wpc_store_status L i d its st' (Q : EfErrCode -> Ef C -> Prop) s :
  let L' := upd L i (Fmt (st' + 1) d its) in
  store L s -> sec L i = Fmt st' d its -> st' = SECTOR_STORE_EMPTY \/ st' = SECTOR_STORE_USING -> PL P L -> PL P L' ->
  (forall s', ram s' = ram s -> store L' s' -> Q EF_NO_ERR s') ->
  wpc P (write_status (base i) SECTOR_STORE_STATUS_NUM (st' + 1)) Q s.
Proof.
  intros L' Hs HS Hst HP HP' HQ. destruct (store_level L s i _ _ _ Hs HS) as [_ Hd].
  apply (wpc_status_step _ _ _ L L'); [destruct (base_cases i); lia | | | done | | done | done | by eapply keep_upd | done].
  - destruct Hst as [->| ->]; done.
  - destruct (base_cases i), Hst as [->| ->]; unfold SECTOR_STORE_EMPTY, SECTOR_STORE_USING; lia.
  - intros nu Hnu. apply (Flash_rehead (mem s) nu L i st' d its (st' + 1) d (st' + 1 - 1)); try done; [apply Hs | | |].
    + destruct Hst as [->| ->]; [right; by left | by right; right].
    + destruct Hst as [->| ->]; done.
    + destruct Hst as [->| ->], Hd as [->|[->| ->]]; done.
Qed.

Lemma wpc_dirty_status L i st d its d' (Q : EfErrCode -> Ef C -> Prop) s :
  let L' := upd L i (Fmt st d' its) in
  store L s -> sec L i = Fmt st d its -> (d = SECTOR_DIRTY_FALSE /\ d' = SECTOR_DIRTY_TRUE) \/
    ((d = SECTOR_DIRTY_TRUE \/ d = SECTOR_DIRTY_GC) /\ d' = SECTOR_DIRTY_GC) -> PL P L -> PL P L' ->
  (forall s', ram s' = ram s -> store L' s' -> Q EF_NO_ERR s') ->
  wpc P (write_status (u32 (base i + SECTOR_DIRTY_OFFSET)) SECTOR_DIRTY_STATUS_NUM d') Q s.
Proof.
  intros L' Hs HS Hd HP HP' HQ. destruct (store_level L s i _ _ _ Hs HS) as [Hst _].
  assert (Ea : u32 (base i + SECTOR_DIRTY_OFFSET) = base i + 3) by (by destruct i). rewrite Ea.
  assert (Hd' : d' = 2 \/ d' = 3) by (destruct Hd as [[_ ->]|[_ ->]]; [by left | by right]).
  apply (wpc_status_step _ _ _ L L'); [destruct (base_cases i); lia | | | done | | done | done | by eapply keep_upd | done].
  - by destruct Hd' as [->| ->].
  - destruct (base_cases i); lia.
  - intros nu Hnu. apply (Flash_rehead (mem s) nu L i st d its st d' (3 + (d' - 1))); try done; [apply Hs | | lia | |].
    + unfold is_level. tauto.
    + destruct Hst as [->|[->| ->]], Hd as [[-> ->]|[[->| ->] ->]]; done.
    + intros x. rewrite Hnu. f_equal. lia.
Qed.

Lemma wpc_format L i (Q : EfErrCode -> Ef C -> Prop) s :
  let L' := upd L i (Fmt SECTOR_STORE_EMPTY SECTOR_DIRTY_FALSE []) in
  store L s -> PL P L -> PL P (upd L i Blank) -> PL P L' ->
  (forall s' t, ram s' = put_sec_cache t (ram s) -> store L' s' -> Q EF_NO_ERR s') ->
  wpc P (format_sector (base i) SECTOR_NOT_COMBINED) Q s.
Proof.
  intros L' [HF Hc Hst] HP HPb HP' HQ. unfold format_sector. rewrite base_aligned, Z.eqb_refl. cbn [negb].
  assert (Hb : 0 <= base i <= 131072) by (destruct (base_cases i); lia).
  assert (Hout : forall nu, (forall x, ~ (base i <= x < base i + SECTOR_SIZE) -> nu x = mem s x) ->
            forall S, lay nu (base i) S -> Flash nu (upd L i S)) by (intros nu Hnu S; by apply (Flash_upd (mem s))).
  unfold SECTOR_SIZE, EF_ERASE_MIN_SIZE in *.
  apply wpc_bind, wpc_port_erase; [lia | by destruct i | unfold SECTOR_SIZE, EF_ERASE_MIN_SIZE; lia | |].
  { intros mu e He Hem Hmu. unfold SECTOR_SIZE, EF_ERASE_MIN_SIZE, erase_gran in *.
    destruct (Z.eq_dec e (base i)) as [->|Hne].
    - apply HP. eapply Flash_ext; [|exact HF]. intros x. rewrite Hmu. unfold wipe.
      destruct (Z.leb_spec (base i) x), (Z.ltb_spec x (base i)); cbn; try done; exfalso; lia.
    - assert (base i + 4096 <= e).
      { apply Z.div_exact in Hem; [|lia]. destruct (base_cases i) as [E|E]; rewrite E in *; lia. }
      apply HPb, Hout.
      + intros x Hx. rewrite Hmu. unfold wipe.
        destruct (Z.leb_spec (base i) x), (Z.ltb_spec x e); cbn; try done; exfalso; lia.
      + apply (lay_blank _ _ 8); [lia|]. rewrite Hmu. unfold wipe. by rewrite (proj2 (Z.leb_le _ _)), (proj2 (Z.ltb_lt _ _)) by lia. }
  intros s1 Hr1 Hm1. unfold SECTOR_SIZE, EF_ERASE_MIN_SIZE in Hm1. cbn [no_err]. change (no_err EF_NO_ERR) with true. cbv iota.
  assert (Hff : forall x, base i <= x < base i + 131072 -> mem s1 x = 255).
  { intros x Hx. rewrite Hm1. unfold wipe. by rewrite (proj2 (Z.leb_le _ _)), (proj2 (Z.ltb_lt _ _)) by lia. }
  assert (Hsame : forall x, ~ (base i <= x < base i + 131072) -> mem s1 x = mem s x).
  { intros x Hx. rewrite Hm1. unfold wipe. destruct (Z.leb_spec (base i) x), (Z.ltb_spec x (base i + 131072)); cbn; try done; exfalso; lia. }
  set (h := sec_hdr SECTOR_STORE_EMPTY SECTOR_DIRTY_FALSE).
  assert (Hh : zlen h = 20) by apply sec_hdr_zlen.
  assert (Hdone : forall mu, (forall x, mu x = prog (mem s1) (base i) h x) -> Flash mu L').
  { intros mu Hmu. apply Hout.
    - intros x Hx. rewrite Hmu, prog_out by lia. by apply Hsame.
    - apply lay_fresh.
      + apply (prog_fresh (mem s1)); [done | intros x Hx; rewrite sec_hdr_zlen in Hx; apply Hff; lia | apply fresh_hdr_ok].
      + intros x Hx. rewrite Hmu, prog_out by lia. apply Hff. unfold SECTOR_SIZE, EF_ERASE_MIN_SIZE in *. lia. }
  apply wpc_bind. apply (wpc_port_write P _ _ h).
  - lia.
  - rewrite fresh_hdr. fold h. change SECTOR_HDR_DATA_SIZE with 20. rewrite <- Hh. apply prefix_all.
  - change SECTOR_HDR_DATA_SIZE with 20. lia.
  - intros mu n Hn Hmu. destruct (decide (n < 12)%nat) as [Hlt|Hge].
    + apply HPb, Hout.
      * intros x Hx. rewrite Hmu, prog_out; [by apply Hsame|]. unfold zlen in *. rewrite length_take. lia.
      * apply (lay_blank _ _ 11); [lia|]. rewrite Hmu, prog_out; [apply Hff; lia|]. unfold zlen. rewrite length_take. lia.
    + apply HP', Hdone. apply (prog_full (mem s1) mu (base i) h n Hmu); [intros; apply Hff; lia|].
      assert (Hall : Forall (fun b => b = 255) (drop 12 h)) by (apply (bool_decide_unpack _); vm_compute; exact I).
      replace n with (12 + (n - 12))%nat by lia. rewrite <- drop_drop. by apply Forall_drop.
  - intros s2 Hr2 Hm2. apply wpc_bind.
    replace (u32 (base i + 131072)) with (base i + SECTOR_SIZE) by (by destruct i).
    apply (wpc_cache_sector P L L'); [by apply Hdone | by rewrite Hr2, Hr1 | by rewrite Hr2, Hr1 | | lia |].
    + intros st d its E. exists st, d, its. unfold L'. by rewrite sec_upd_ne.
    + intros s3 t Hr3 Hs3. apply wpc_ret. eapply HQ; [|done]. by rewrite Hr3, Hr2, Hr1.
Qed.
End Ops.
