(* ===== verification/EfAlloc.v ===== *)
(** * Where a record goes

    [alloc_env] as a choice between the two sectors, [alloc_spec]: a sector in use
    with room, then an empty one unless it is the last; with the last one the
    collection is requested instead. *)

From S2P Require Import Prelude CStr Storage EfEnv EfFlash EfLayout EfRead EfStore EfCache EfFind EfOps.
Open Scope list_scope.

Definition free (i : bool) (its : list item) : Z := base i + SECTOR_SIZE - ends (base i) its.

Definition avail (L : Sec * Sec) (st sz : Z) (gc i : bool) : bool :=
  match sec L i with
  | Fmt st' d its =>
      (st' =? st) && (sz <? free i its) && ((d =? SECTOR_DIRTY_FALSE) || ((d =? SECTOR_DIRTY_TRUE) && negb gc))
  | Blank => false
  end.
Definition pick (L : Sec * Sec) (st sz : Z) (gc : bool) : option bool :=
  if avail L st sz gc false then Some false else if avail L st sz gc true then Some true else None.

Definition has_level (L : Sec * Sec) (st : Z) (i : bool) : Z :=
  match sec L i with Fmt st' _ _ => if st' =? st then 1 else 0 | Blank => 0 end.
Definition count (L : Sec * Sec) (st : Z) : Z := has_level L st false + has_level L st true.

(** The sector, and whether a collection is requested afterwards. *)
Definition alloc_spec (L : Sec * Sec) (sz : Z) (gc : bool) : option bool * bool :=
  match pick L SECTOR_STORE_USING sz gc with
  | Some i => (Some i, gc)
  | None =>
      if count L SECTOR_STORE_EMPTY =? 0 then (None, gc)
      else if (EF_GC_EMPTY_SEC_THRESHOLD <? count L SECTOR_STORE_EMPTY) || gc
        then (pick L SECTOR_STORE_EMPTY sz gc, gc)
        else (None, true)
  end.

Lemma count_none L st sz gc : count L st = 0 -> pick L st sz gc = None.
Proof.
  unfold count, has_level, pick, avail. intros Hc.
  destruct (sec L false) as [|s1 d1 i1], (sec L true) as [|s2 d2 i2]; try done;
    repeat match goal with |- context[?a =? st] => destruct (Z.eqb_spec a st) end; cbn; try done; lia.
Qed.

Lemma avail_some L st sz gc i :
  avail L st sz gc i = true -> exists d its, sec L i = Fmt st d its /\ sz < free i its
    /\ (d = SECTOR_DIRTY_FALSE \/ (d = SECTOR_DIRTY_TRUE /\ gc = false)).
Proof.
  unfold avail. destruct (sec L i) as [|st' d its]; [done|].
  intros [[->%Z.eqb_eq Hsz%Z.ltb_lt]%andb_true_iff Hd]%andb_true_iff. exists d, its. split; [done|]. split; [done|].
  apply orb_true_iff in Hd as [->%Z.eqb_eq|[->%Z.eqb_eq Hg]%andb_true_iff]; [by left | right; by destruct gc].
Qed.

Lemma pick_some L st sz gc i : pick L st sz gc = Some i -> avail L st sz gc i = true.
Proof.
  unfold pick. destruct (avail L st sz gc false) eqn:E1; [by intros [= <-]|].
  destruct (avail L st sz gc true) eqn:E2; [by intros [= <-] | done].
Qed.

Lemma alloc_some L sz gc i :
  fst (alloc_spec L sz gc) = Some i -> exists st d its, sec L i = Fmt st d its /\ st <> SECTOR_STORE_FULL /\ sz < free i its
    /\ (d = SECTOR_DIRTY_FALSE \/ (d = SECTOR_DIRTY_TRUE /\ gc = false)).
Proof.
  unfold alloc_spec. destruct (pick L SECTOR_STORE_USING sz gc) as [j|] eqn:Ep.
  - intros [= ->]. apply pick_some, avail_some in Ep as (d & its & HS & Hsz & Hd). by exists SECTOR_STORE_USING, d, its.
  - destruct (count L SECTOR_STORE_EMPTY =? 0); [done|].
    destruct ((EF_GC_EMPTY_SEC_THRESHOLD <? count L SECTOR_STORE_EMPTY) || gc); [|done]. cbn [fst]. intros Ep2.
    apply pick_some, avail_some in Ep2 as (d & its & HS & Hsz & Hd). by exists SECTOR_STORE_EMPTY, d, its.
Qed.

Section Alloc.
Context {C : Type} `{FlashDoc C} (P : (Z -> Z) -> Prop) (junk_env : env_node_obj) (junk_sector : sector_meta_data).
Implicit Types (s : Ef C).
Context (L : Sec * Sec) (Hwf : wf L) (HP : PL P L).

Lemma wf_at i : exists st d its, sec L i = Fmt st d its /\ (st = SECTOR_STORE_EMPTY <-> its = []) /\ tidy its.
Proof. specialize (Hwf i). destruct (sec L i) as [|st d its]; [done|]. by exists st, d, its. Qed.

Lemma items_at i st d its : sec L i = Fmt st d its -> items L i = its.
Proof. intros E. unfold items. by rewrite E. Qed.

Lemma wpc_statistics sector (Q : sector_meta_data * (Z * Z) -> Ef C -> Prop) s :
  store L s ->
  (forall sector', Q (sector', (count L SECTOR_STORE_EMPTY, count L SECTOR_STORE_USING)) s) ->
  wpc P (sector_iterator junk_env sector SECTOR_STORE_UNUSED (0, 0) sector_statistics_cb false) Q s.
Proof.
  intros Hs HQ.
  apply (wpc_sector_iterator P junk_env
           (fun a s' => s' = s /\ a = (0, 0))
           (fun a s' => s' = s /\ a = (has_level L SECTOR_STORE_EMPTY false, has_level L SECTOR_STORE_USING false))
           (fun a s' => s' = s /\ a = (count L SECTOR_STORE_EMPTY, count L SECTOR_STORE_USING)) (fun _ _ _ => False)).
  - intros i a s' Hi. assert (Es : s' = s) by (destruct i; tauto). subst s'. exists L. split; [done|].
    destruct (wf_at i) as (st & d & its & HS & _). unfold sector_phase. rewrite HS. cbn [orb].
    change (SECTOR_STORE_UNUSED =? SECTOR_STORE_UNUSED) with true. cbn [orb]. intros sector1 Hv.
    apply wpc_ret. split; [done|]. destruct Hv as (Hc & Est & _). unfold sector_statistics_cb.
    assert (Hst : env_start_addr (ram s) = 0) by apply Hs.
    destruct i; destruct Hi as [_ ->]; rewrite Hc, Est; cbn [andb]; unfold count, has_level; rewrite HS;
      (destruct (Z.eqb_spec st SECTOR_STORE_EMPTY) as [->|]; [|destruct (Z.eqb_spec st SECTOR_STORE_USING) as [->|]]);
      apply wpc_ret; (split; [done|]); split; try done;
      unfold count, has_level; destruct (sec L false) as [|st0 d0 its0];
      repeat match goal with |- context[st0 =? ?b] => destruct (Z.eqb_spec st0 b) end; cbn; try done; lia.
  - intros sector1 a s' [-> ->]. apply HQ.
  - done.
  - done.
Qed.

(** The state after a read that may have filled the cache of sectors. *)
Definition reread s s' : Prop := store L s' /\ exists t, ram s' = put_sec_cache t (ram s).

Lemma wpc_try_alloc sector st sz (Q : sector_meta_data * Z -> Ef C -> Prop) s :
  store L s -> st <> SECTOR_STORE_UNUSED -> st <> SECTOR_STORE_FULL ->
  (forall sector' a s', reread s s' ->
     match pick L st sz (gc_request (ram s)) with
     | Some i => a = ends (base i) (items L i)
                 /\ exists d, sec L i = Fmt st d (items L i) /\ view i st d sector' /\ room i st (items L i) sector'
     | None => a = FAILED_ADDR
     end -> Q (sector', a) s') ->
  wpc P (sector_iterator junk_env sector st FAILED_ADDR (alloc_env_cb sz) true) Q s.
Proof.
  intros Hs Hst0 Hst3 HQ. set (gc := gc_request (ram s)) in *.
  apply (wpc_sector_iterator P junk_env
           (fun a s' => reread s s' /\ a = FAILED_ADDR)
           (fun a s' => reread s s' /\ a = FAILED_ADDR /\ avail L st sz gc false = false)
           (fun a s' => reread s s' /\ a = FAILED_ADDR /\ pick L st sz gc = None)
           (fun sector a s' => reread s s' /\ exists i, pick L st sz gc = Some i /\ a = ends (base i) (items L i)
              /\ exists d, sec L i = Fmt st d (items L i) /\ view i st d sector /\ room i st (items L i) sector)).
  - intros i a s' Hi.
    assert (Hr : reread s s' /\ a = FAILED_ADDR /\ (i = true -> avail L st sz gc false = false)) by (destruct i; [tauto | by destruct Hi]).
    destruct Hr as ((Hs' & t & Hr) & -> & Hbefore). exists L. split; [done|].
    destruct (wf_at i) as (st' & d & its & HS & Hemp & Htidy). unfold sector_phase. rewrite HS.
    rewrite (proj2 (Z.eqb_neq st _)) by done. cbn [orb].
    assert (Hno : avail L st sz gc i = false -> forall s2, reread s s2 ->
              env_start_addr (ram s2) = 0 /\
              (if i then fun a s' => reread s s' /\ a = FAILED_ADDR /\ pick L st sz gc = None
               else fun a s' => reread s s' /\ a = FAILED_ADDR /\ avail L st sz gc false = false) FAILED_ADDR s2).
    { intros Hav s2 [Hs2 Ht2]. split; [apply Hs2|]. destruct i; (split; [done|]); split; try done.
      unfold pick. by rewrite Hbefore, Hav. }
    destruct (Z.eqb_spec st st') as [<-|Hne].
    2: { apply Hno; [|split; [done | by exists t]]. unfold avail. rewrite HS. by rewrite (proj2 (Z.eqb_neq st' st)). }
    intros sector1 Hv1. apply wpc_bind. apply (wpc_read_sector P junk_env L i st d its); [done..|].
    intros sector2 s2 t2 Hv Hroom Hr2 Hs2. apply wpc_ret. split; [done|].
    assert (Hre : reread s s2) by (split; [done|]; exists t2; by rewrite Hr2, Hr).
    unfold alloc_env_cb. apply wpc_bind, wpc_gets. rewrite Hr2, Hr. cbn [gc_request put_sec_cache]. fold gc.
    pose proof Hv as (Hck & _ & Hd & _). destruct Hroom as [Hrem Hempty]. cbn [snd]. rewrite Hck, Hrem, Hd.
    rewrite (proj2 (Z.eqb_neq st SECTOR_STORE_FULL)) by done. cbn [andb].
    assert (Hav : (sz <? base i + SECTOR_SIZE - ends (base i) its)
                  && ((d =? SECTOR_DIRTY_FALSE) || ((d =? SECTOR_DIRTY_TRUE) && negb gc)) = avail L st sz gc i).
    { unfold avail. rewrite HS, Z.eqb_refl. done. }
    rewrite Hav. pose proof (items_at i st d its HS) as Eit. destruct (avail L st sz gc i) eqn:Ea; apply wpc_ret.
    + cbn [sector_done]. split; [done|]. exists i. rewrite Eit. split.
      { unfold pick. destruct i; [by rewrite Hbefore, Ea | by rewrite Ea]. }
      split; [by apply Hempty|]. exists d. split; [done|]. split; [done | by split].
    + cbn [sector_done]. by apply Hno.
  - intros sector1 a s' (Hr & -> & Hp). apply HQ; [done|]. by rewrite Hp.
  - intros sector1 a s' (Hr & i & Hp & Ha & Hrest). apply HQ; [done|]. rewrite Hp. done.
  - split; [|done]. split; [done|]. exists (sector_cache_table (ram s)). by destruct (ram s).
Qed.

Lemma wpc_alloc sector sz (Q : Z * sector_meta_data -> Ef C -> Prop) s :
  store L s ->
  (forall a sector' s' t, ram s' = put_gc_request (snd (alloc_spec L sz (gc_request (ram s)))) (put_sec_cache t (ram s)) ->
     store L s' ->
     match fst (alloc_spec L sz (gc_request (ram s))) with
     | Some i => a = ends (base i) (items L i)
                 /\ exists st d, sec L i = Fmt st d (items L i) /\ view i st d sector' /\ room i st (items L i) sector'
     | None => a = FAILED_ADDR
     end -> Q (a, sector') s') ->
  wpc P (alloc_env junk_env sector sz) Q s.
Proof.
  intros Hs HQ. unfold alloc_env. set (gc := gc_request (ram s)) in *.
  apply wpc_bind, wpc_statistics; [done|]. intros sector1. apply wpc_bind.
  assert (Hcont : forall sector2 a s2, reread s s2 ->
     match pick L SECTOR_STORE_USING sz gc with
     | Some i => a = ends (base i) (items L i)
                 /\ exists d, sec L i = Fmt SECTOR_STORE_USING d (items L i) /\ view i SECTOR_STORE_USING d sector2
                          /\ room i SECTOR_STORE_USING (items L i) sector2
     | None => a = FAILED_ADDR
     end ->
     wpc P (let '(sector, empty) := (sector2, a) in
       if (0 <? count L SECTOR_STORE_EMPTY) && (empty =? FAILED_ADDR) then
         do gc <- ram_gets gc_request;
         if (EF_GC_EMPTY_SEC_THRESHOLD <? count L SECTOR_STORE_EMPTY) || gc then
           do r <- sector_iterator junk_env sector SECTOR_STORE_EMPTY empty (alloc_env_cb sz) true;
           ret (snd r, fst r)
         else run ram_put (put_gc_request true); ret (empty, sector)
       else ret (empty, sector)) Q s2).
  { intros sector2 a s2 [Hs2 (t2 & Hr2)] Ha. unfold alloc_spec in HQ.
    assert (Hgc2 : gc_request (ram s2) = gc) by (by rewrite Hr2).
    assert (Hsame : ram s2 = put_gc_request gc (put_sec_cache t2 (ram s))) by (rewrite Hr2; subst gc; by destruct (ram s)).
    destruct (pick L SECTOR_STORE_USING sz gc) as [i|].
    - destruct Ha as [-> (d & HS & Hv & Hroom)]. rewrite (proj2 (Z.eqb_neq _ FAILED_ADDR)), andb_false_r.
      2: { pose proof (store_fits L s2 i SECTOR_STORE_USING d (items L i) [] Hs2) as Hf. rewrite app_nil_r, ilen_nil in Hf. specialize (Hf HS).
           unfold FAILED_ADDR, SECTOR_SIZE, EF_ERASE_MIN_SIZE in *. destruct (base_cases i); lia. }
      apply wpc_ret. eapply HQ; [exact Hsame | done|]. split; [done|]. by exists SECTOR_STORE_USING, d.
    - subst a. rewrite Z.eqb_refl, andb_true_r.
      assert (Hc : 0 <= count L SECTOR_STORE_EMPTY).
      { unfold count, has_level. repeat case_match; lia. }
      destruct (Z.ltb_spec 0 (count L SECTOR_STORE_EMPTY)) as [Hpos|Hz].
      + rewrite (proj2 (Z.eqb_neq (count L SECTOR_STORE_EMPTY) 0)) in HQ by lia.
        apply wpc_bind, wpc_gets. rewrite Hgc2.
        destruct ((EF_GC_EMPTY_SEC_THRESHOLD <? count L SECTOR_STORE_EMPTY) || gc).
        * apply wpc_bind. apply wpc_try_alloc; [done | done | done|]. rewrite Hgc2. intros sector3 a3 s3 [Hs3 (t3 & Hr3)] Ha.
          apply wpc_ret. apply HQ with (t := t3); [rewrite Hr3, Hsame; reflexivity | done|]. cbn [fst] in *.
          destruct (pick L SECTOR_STORE_EMPTY sz gc) as [i|]; [|done]. destruct Ha as [-> (d & ?)].
          split; [done|]. by exists SECTOR_STORE_EMPTY, d.
        * apply wpc_bind, wpc_put, wpc_ret. eapply HQ; [cbn; rewrite Hsame; reflexivity | | done].
          destruct Hs2 as [Hf Hca Hst]. by split.
      + rewrite (proj2 (Z.eqb_eq _ 0)) in HQ by lia. apply wpc_ret. by eapply HQ. }
  destruct (Z.ltb_spec 0 (count L SECTOR_STORE_USING)) as [Hu|Hu].
  - eapply wpc_try_alloc; [done | done | done|]. intros sector2 a s2 Hr Ha. by apply Hcont.
  - apply wpc_ret. apply Hcont.
    + split; [done|]. exists (sector_cache_table (ram s)). by destruct (ram s).
    + rewrite count_none; [done|]. unfold count, has_level in *. revert Hu. repeat case_match; lia.
Qed.
End Alloc.
