(* ===== verification/EfCreate.v ===== *)
(** * Writing a record

    The bytes of a record are written in order, and its last status byte at the
    end: [building] is the content on the way, [create_env_blob] appends a record
    to the log of its sector. *)

From S2P Require Import Prelude CStr Storage EfEnv EfFlash EfLayout EfRead EfStore EfCache EfFind EfOps EfAlloc.
Open Scope list_scope.

(** ** Appending an item *)

Lemma ends_snoc b its it : ends b (its ++ [it]) = ends b its + item_len it.
Proof. unfold ends. rewrite ilen_app, ilen_cons, ilen_nil. lia. Qed.

Lemma items_ok_snoc its it :
  items_ok its -> item_ok it -> (its = [] -> is_gap it = false) -> (its <> [] -> found it) ->
  (is_gap it = false -> SECTOR_HDR_DATA_SIZE + ilen its + 29 <= SECTOR_SIZE) -> items_ok (its ++ [it]).
Proof.
  intros [Ho Hh Hf Hb] Hok Hg Hfd Hr. split.
  - apply Forall_app. by split; [|constructor].
  - destruct its as [|x its]; [|exact Hh]. intros y [= <-]. by apply Hg.
  - destruct its as [|x its]; [constructor|]. cbn [app tail] in *. apply Forall_app. split; [done|].
    constructor; [by apply Hfd | constructor].
  - intros l1 y l2 E Hy. destruct l2 as [|z l2 _] using rev_ind.
    + apply app_inj_tail in E as [-> ->]. by apply Hr.
    + rewrite app_comm_cons, app_assoc in E. apply app_inj_tail in E as [-> _]. by apply (Hb l1 y l2).
Qed.

Lemma fmt_append mu nu b st d its it :
  fmt_at mu b st d its -> holds nu (ends b its) (item_bytes it) ->
  (forall x, b <= x < ends b its -> nu x = mu x) ->
  (forall x, ends b (its ++ [it]) <= x < b + SECTOR_SIZE -> nu x = 255) ->
  items_ok (its ++ [it]) -> ends b (its ++ [it]) <= b + SECTOR_SIZE -> fmt_at nu b st d (its ++ [it]).
Proof.
  intros [Hl Hh Hi _ _ _] Hit Hlow Hhigh Hok Hfit. pose proof (ilen_nonneg its). unfold ends in Hlow, Hit.
  unfold SECTOR_HDR_DATA_SIZE in *. split; try done.
  - eapply holds_ext; [|done]. intros x. rewrite sec_hdr_zlen. intros. apply Hlow. lia.
  - rewrite items_bytes_app, holds_app. split.
    + eapply holds_ext; [|done]. intros x Hx. fold (ilen its) in Hx; unfold SECTOR_HDR_DATA_SIZE in Hx. apply Hlow. lia.
    + unfold items_bytes. cbn [map concat]. by rewrite app_nil_r.
Qed.

(** ** Programming in pieces *)

Lemma prog_app mu a l1 l2 x : prog (prog mu a l1) (a + zlen l1) l2 x = prog mu a (l1 ++ l2) x.
Proof.
  unfold prog. pose proof (zlen_nonneg l1). destruct (Z.lt_ge_cases (x - a) (zlen l1)) as [Hlt|Hge].
  - rewrite (aget_None l2) by lia. destruct (Z.lt_ge_cases x a); [by rewrite !aget_None by lia|].
    rewrite !aget_lookup by lia. rewrite lookup_app_l; [done|]. unfold zlen in *. lia.
  - rewrite (aget_None l1) by lia. rewrite !(aget_lookup _ (x - a)), (aget_lookup l2) by lia.
    rewrite lookup_app_r by (unfold zlen in *; lia).
    replace (Z.to_nat (x - a) - length l1)%nat with (Z.to_nat (x - (a + zlen l1))) by (unfold zlen in *; lia). done.
Qed.

Lemma prog_nil mu a x : prog mu a [] x = mu x.
Proof. apply prog_out. change (zlen (@nil Z)) with 0. lia. Qed.

Lemma prog_same mu nu a bs x : (forall y, mu y = nu y) -> prog mu a bs x = prog nu a bs x.
Proof. intros E. unfold prog. by rewrite E. Qed.

(** The content when [n] bytes behind the status table of the record at [a] are
    written; its first status byte is. *)
Definition built (m0 : Z -> Z) (a : Z) (body : list Z) (n : nat) (mu : Z -> Z) : Prop :=
  forall x, mu x = prog (clr m0 a) (a + 8) (take n body) x.

Lemma rec_body_ok k v : entry_ok k v -> bytes_ok (rec_body k v).
Proof.
  intros Hok. unfold rec_body, hdr_bytes.
  apply Forall_app; split; [|apply Forall_app; split; apply text_bytes, Hok].
  do 3 (apply Forall_app; split; [apply le_bytes_ok|]). apply name_part_ok.
Qed.

(** What is at [a] when [n] bytes are written. *)
Lemma built_holds m0 a body n mu :
  built m0 a body n mu -> (forall x, a <= x < a + 8 + Z.of_nat n -> m0 x = 255) -> (n <= length body)%nat -> bytes_ok body ->
  holds mu a ([0; 255; 255; 255; 255; 255; 255; 255] ++ take n body)
  /\ forall x, ~ (a <= x < a + 8 + Z.of_nat n) -> mu x = m0 x.
Proof.
  intros Hb Hff Hn Hok. assert (Hz : zlen (take n body) = Z.of_nat n) by (unfold zlen; rewrite length_take; lia).
  assert (Hlow : forall x, x < a + 8 -> mu x = clr m0 a x) by (intros x Hx; by rewrite Hb, prog_out by lia).
  split.
  - apply holds_app. split.
    + rewrite !holds_cons. unfold clr in Hlow.
      repeat split; try (rewrite Hlow by lia; by rewrite ?Z.eqb_refl); try apply holds_nil;
        rewrite Hlow by lia; rewrite (proj2 (Z.eqb_neq _ _)) by lia; apply Hff; lia.
    + change (zlen [0; 255; 255; 255; 255; 255; 255; 255]) with 8.
      apply (prog_fresh (clr m0 a)); [exact Hb | | by apply Forall_take].
      intros x Hx. unfold clr. rewrite (proj2 (Z.eqb_neq _ _)) by lia. apply Hff. lia.
  - intros x Hx. rewrite Hb, prog_out by lia. unfold clr. by rewrite (proj2 (Z.eqb_neq _ _)) by lia.
Qed.

(** A content on the way is the log with an item for what is there. *)
Lemma Flash_append m0 mu L i st d its it n body :
  Flash m0 L -> sec L i = Fmt st d its -> built m0 (ends (base i) its) body n mu -> (n <= length body)%nat -> bytes_ok body ->
  ends (base i) its + 8 + Z.of_nat n <= base i + SECTOR_SIZE ->
  (forall nu, holds nu (ends (base i) its) ([0; 255; 255; 255; 255; 255; 255; 255] ++ take n body) ->
     (forall x, ends (base i) its + 8 + Z.of_nat n <= x < base i + SECTOR_SIZE -> nu x = 255) ->
     holds nu (ends (base i) its) (item_bytes it)
     /\ forall x, ends (base i) (its ++ [it]) <= x < base i + SECTOR_SIZE -> nu x = 255) ->
  item_ok it -> (its = [] -> is_gap it = false) -> (its <> [] -> found it) ->
  (is_gap it = false -> ends (base i) its + 29 <= base i + SECTOR_SIZE) ->
  ends (base i) (its ++ [it]) <= base i + SECTOR_SIZE ->
  Flash mu (upd L i (Fmt st d (its ++ [it]))).
Proof.
  intros (L0 & Hl & HL) HS Hb Hn Hbo Hfit Hit Hok Hg Hfd Hroom Hfit2.
  destruct (like_fmt L0 L i st d _ Hl HS) as (its0 & HS0 & E). pose proof (HL i) as Hlay. rewrite HS0 in Hlay.
  assert (Ee : ends (base i) its0 = ends (base i) its) by (unfold ends; by rewrite (like_ilen its0 its)).
  assert (Ee2 : ends (base i) (its0 ++ [it]) = ends (base i) (its ++ [it])) by (by rewrite !ends_snoc, Ee).
  pose proof (fmt_free _ _ _ _ _ Hlay) as Hff. rewrite Ee in Hff. pose proof (ilen_nonneg its).
  destruct (built_holds m0 (ends (base i) its) body n mu) as [Hh Hout]; [done | intros; apply Hff; lia | done | done|].
  assert (Hfree : forall x, ends (base i) its + 8 + Z.of_nat n <= x < base i + SECTOR_SIZE -> mu x = 255).
  { intros x Hx. rewrite Hout by lia. apply Hff. unfold ends in *. lia. }
  destruct (Hit mu Hh Hfree) as [Hi Hfree2].
  assert (Enil : its0 = [] <-> its = []) by (split; intros ->; [by destruct its | by destruct its0]).
  exists (upd L0 i (Fmt st d (its0 ++ [it]))). split.
  { apply like_upd; [done|]. cbn [unmark_sec]. by rewrite !map_app, E. }
  apply (flash_is_upd m0); [done | |].
  - intros x Hx. apply Hout. unfold ends, SECTOR_HDR_DATA_SIZE in *. lia.
  - apply (fmt_append m0); [done | by rewrite Ee | | by rewrite Ee2 | | by rewrite Ee2].
    + intros x Hx. rewrite Ee in Hx. apply Hout. lia.
    + apply items_ok_snoc; [apply Hlay | done | by rewrite Enil | by rewrite Enil|].
      intros Hx. specialize (Hroom Hx). unfold ends in Hroom. rewrite (like_ilen its0 its) by done. lia.
Qed.

Lemma Flash_record m0 mu L i st d its k v :
  Flash m0 L -> sec L i = Fmt st d its -> entry_ok k v -> node_len k v <= free i its ->
  built m0 (ends (base i) its) (rec_body k v) (length (rec_body k v)) mu ->
  Flash mu (upd L i (Fmt st d (its ++ [Rec ENV_PRE_WRITE k v]))).
Proof.
  intros HF HS Hok Hfit Hb. pose proof (rec_body_zlen k v) as Hz. pose proof (entry_len_bound k v Hok).
  unfold free in Hfit. assert (Hl : Z.of_nat (length (rec_body k v)) = node_len k v - 8) by exact Hz.
  eapply Flash_append; [done | done | done | done | by apply rec_body_ok | lia | | | done | done | lia |].
  - intros nu Hh Hff. rewrite ends_snoc, rec_len. rewrite take_ge in Hh by done. split; [exact Hh|].
    intros x Hx. apply Hff. lia.
  - split; [by left | done].
  - rewrite ends_snoc, rec_len. lia.
Qed.

Section Create.
Context {C : Type} `{FlashDoc C} (P : (Z -> Z) -> Prop) (junk_env : env_node_obj) (junk_sector : sector_meta_data).
Implicit Types (s : Ef C).

Section Build.
Context (m0 : Z -> Z) (a : Z) (body : list Z) (Ha : 0 <= a) (Htop : a + 8 + zlen body <= 1048576).
Context (HT : forall n mu, (n <= length body)%nat -> built m0 a body n mu -> P mu).

Lemma wpc_grow n buf bs size (Q : EfErrCode -> Ef C -> Prop) s :
  built m0 a body n (mem s) -> prefix buf size = Some bs -> (n + length bs <= length body)%nat ->
  take (length bs) (drop n body) = bs ->
  (forall s', ram s' = ram s -> built m0 a body (n + length bs) (mem s') -> Q EF_NO_ERR s') ->
  wpc P (port_write (a + 8 + Z.of_nat n) buf size) Q s.
Proof.
  intros Hb Hp Hn Hbs HQ.
  assert (Hsize : size = zlen bs) by (symmetry; by apply (prefix_zlen buf)).
  assert (Hstep : forall j mu, (j <= length bs)%nat ->
            (forall x, mu x = prog (mem s) (a + 8 + Z.of_nat n) (take j bs) x) -> built m0 a body (n + j) mu).
  { intros j mu Hj Hmu x. rewrite Hmu, (prog_same _ (prog (clr m0 a) (a + 8) (take n body))) by done.
    assert (Hz : zlen (take n body) = Z.of_nat n) by (unfold zlen; rewrite length_take; lia).
    rewrite <- Hz, prog_app. f_equal. rewrite <- take_take_drop. f_equal.
    rewrite <- Hbs, take_take. f_equal. lia. }
  eapply wpc_port_write; [lia | exact Hp | unfold zlen in *; lia | |].
  - intros mu j Hj Hmu. apply (HT (n + j)); [lia|]. by apply Hstep.
  - intros s' Hr Hm. apply HQ; [done|]. apply Hstep; [done|]. intros x. by rewrite take_ge.
Qed.

Lemma wpc_grow_align n buf bs size (Q : EfErrCode -> Ef C -> Prop) s :
  built m0 a body n (mem s) -> prefix buf size = Some bs -> (n + length bs <= length body)%nat ->
  take (length bs) (drop n body) = bs ->
  (forall s', ram s' = ram s -> built m0 a body (n + length bs) (mem s') -> Q EF_NO_ERR s') ->
  wpc P (align_write (a + 8 + Z.of_nat n) buf size) Q s.
Proof.
  intros Hb Hp Hn Hbs HQ. unfold align_write. rewrite EF_WG_ALIGN_DOWN_id. apply wpc_bind.
  apply (wpc_grow n buf bs); [done..|]. intros s' Hr Hb'. rewrite Z.sub_diag, andb_false_r.
  by apply wpc_ret, HQ.
Qed.

(** The status byte that starts a record. *)
Lemma wpc_start_record (Q : EfErrCode -> Ef C -> Prop) s :
  (forall x, mem s x = m0 x) -> (forall mu, (forall x, mu x = m0 x) -> P mu) ->
  (forall s', ram s' = ram s -> built m0 a body 0 (mem s') -> Q EF_NO_ERR s') ->
  wpc P (write_status a ENV_STATUS_NUM ENV_PRE_WRITE) Q s.
Proof.
  intros Hm HP0 HQ. pose proof (zlen_nonneg body).
  assert (Hb : forall mu, (forall x, mu x = clr (mem s) (a + (ENV_PRE_WRITE - 1)) x) -> built m0 a body 0 mu).
  { intros mu Hmu x. rewrite Hmu. cbn [take]. rewrite prog_nil. unfold clr, ENV_PRE_WRITE.
    replace (a + (1 - 1)) with a by lia. by rewrite Hm. }
  apply wpc_write_status; [done | done | unfold ENV_PRE_WRITE; lia | |].
  - intros mu [Hmu|Hmu]; [apply HP0; intros x; by rewrite Hmu | by apply (HT 0%nat); [lia | apply Hb]].
  - intros s' Hr Hm'. apply HQ; [done|]. by apply Hb.
Qed.
End Build.

(** ** The status of the sector *)

(** The record leaves the sector full. *)
Definition fills (i : bool) (its : list item) (sz : Z) : bool :=
  (free i its <? EF_SEC_REMAIN_THRESHOLD) || (free i its - sz <? EF_SEC_REMAIN_THRESHOLD).
Definition next_full (st : Z) (i : bool) (its : list item) (sz : Z) : bool :=
  negb (st =? SECTOR_STORE_EMPTY) && fills i its sz.
Definition next_store (st : Z) (i : bool) (its : list item) (sz : Z) : Z :=
  if next_full st i its sz then SECTOR_STORE_FULL else SECTOR_STORE_USING.

Lemma free_bound L s i st d its : store L s -> sec L i = Fmt st d its -> 0 <= free i its <= 131052.
Proof.
  intros Hs HS. pose proof (store_fits L s i st d its [] Hs) as Hf. rewrite app_nil_r, ilen_nil in Hf. specialize (Hf HS).
  unfold free, SECTOR_SIZE, EF_ERASE_MIN_SIZE in *. lia.
Qed.

Lemma wpc_update_sec L i st d d0 its sector sz (Q : EfErrCode * bool -> Ef C -> Prop) s :
  let L1 := upd L i (Fmt (next_store st i its sz) d its) in
  store L s -> sec L i = Fmt st d its -> view i st d0 sector -> room i st its sector -> st <> SECTOR_STORE_FULL ->
  0 <= sz <= free i its -> PL P L -> PL P L1 ->
  (forall s' t, ram s' = put_sec_cache t (ram s) -> Flash (mem s') L1 ->
     (next_full st i its sz = false -> t = sector_cache_table (ram s)) ->
     (next_full st i its sz = true -> forall S, sec_cache_ok (upd L i S) t) ->
     Q (EF_NO_ERR, next_full st i its sz) s') ->
  wpc P (update_sec_status sector sz false) Q s.
Proof.
  intros L1 Hs HS (Hck & Est & Ed & Ea & _) [Hrem _] Hnf Hsz HP HP1 HQ.
  destruct (store_level L s i st d its Hs HS) as [Hst _]. pose proof (free_bound L s i st d its Hs HS) as Hfb.
  assert (Hself : ram s = put_sec_cache (sector_cache_table (ram s)) (ram s)) by (by destruct (ram s)).
  unfold update_sec_status. rewrite Est, Ea. unfold L1, next_store, next_full in *.
  destruct Hst as [->|[->| ->]]; [| |done].
  - change (1 =? SECTOR_STORE_EMPTY) with true in *. cbn [negb andb] in *. apply wpc_bind.
    apply (wpc_store_status P L i d its SECTOR_STORE_EMPTY); [done | done | by left | done | done|].
    intros s' Hr Hs'. apply wpc_ret. eapply HQ; [by rewrite Hr | apply Hs' | done | done].
  - change (2 =? SECTOR_STORE_EMPTY) with false in *. change (2 =? SECTOR_STORE_USING) with true in *.
    change (2 =? SECTOR_STORE_FULL) with false in Hrem. cbn [negb andb] in *. cbv iota in Hrem.
    fold (free i its) in Hrem. rewrite Hrem, u32_small by lia. fold (fills i its sz).
    destruct (fills i its sz) eqn:Ef.
    + apply wpc_bind. apply (wpc_store_status P L i d its SECTOR_STORE_USING); [done | done | by right | done | done|].
      intros s1 Hr1 Hs1. apply wpc_bind.
      replace (u32 (base i + SECTOR_SIZE)) with (base i + SECTOR_SIZE) by (by destruct i).
      apply wpc_put, wpc_ret. cbn [ram]. eapply HQ; [cbn; by rewrite Hr1 | apply Hs1 | done|].
      intros _ S. apply (cache_update_ok L); [apply Hs | | lia].
      intros st' d' its' E. exists st', d', its'. by rewrite sec_upd_ne.
    + apply wpc_ret. eapply HQ; [exact Hself | | done | done].
      change SECTOR_STORE_USING with 2. rewrite <- HS, upd_same. apply Hs.
Qed.

(** ** [create_env_blob] *)

Definition put_new (k : list Z) (a : Z) (gc : bool) (t : list sector_cache_node) (r : EfRam) : EfRam :=
  put_gc_request gc (put_env_cache (update_env_cache k a (env_cache_table r)) (put_sec_cache t r)).

(** What must be allowed while the record is written. *)
Definition appending (L : Sec * Sec) (i : bool) (st d : Z) (its : list item) (k v : list Z) : Prop :=
  PL P L /\ PL P (upd L i (Fmt st d its)) /\ PL P (upd L i (Fmt st d (its ++ [Rec ENV_PRE_WRITE k v])))
  /\ PL P (upd L i (Fmt st d (its ++ [Rec ENV_WRITE k v])))
  /\ forall m0 n mu, (n <= length (rec_body k v))%nat -> Flash m0 (upd L i (Fmt st d its)) ->
       built m0 (ends (base i) its) (rec_body k v) n mu -> P mu.

Lemma env_size_eq k v : entry_ok k v -> env_size (zlen k) (zlen v) = node_len k v.
Proof.
  intros Hok. pose proof (entry_len_bound k v Hok). unfold env_size, node_len in *. pose proof (zlen_nonneg k). pose proof (zlen_nonneg v).
  rewrite !EF_WG_ALIGN_id by lia. unfold ENV_HDR_DATA_SIZE. rewrite u32_small by lia. done.
Qed.

(** The bytes of a record but for its status: header, name and value. *)
Lemma wpc_write_record {A} (m0 : Z -> Z) a k v full i newend (next : EfErrCode -> M (Ef C) A) (Q : A -> Ef C -> Prop) s :
  entry_ok k v -> 0 <= a -> a + node_len k v <= 262144 -> (forall x, mem s x = m0 x) ->
  (forall mu, (forall x, mu x = m0 x) -> P mu) ->
  (forall n mu, (n <= length (rec_body k v))%nat -> built m0 a (rec_body k v) n mu -> P mu) ->
  (forall s', ram s' = put_env_cache (update_env_cache k a (env_cache_table (ram s)))
       (if full : bool then ram s else put_sec_cache (update_sector_cache (base i) newend (sector_cache_table (ram s))) (ram s)) ->
     built m0 a (rec_body k v) (length (rec_body k v)) (mem s') -> wpc P (next EF_NO_ERR) Q s') ->
  wpc P (do r1 <- write_env_hdr a (hdr_bytes (node_len k v) (env_crc k v) (zlen k) (zlen v));
         do r2 <- (if no_err r1 then
                     do w <- align_write (u32 (a + ENV_HDR_DATA_SIZE)) (k ++ [0]) (zlen k);
                     run (if negb full then cache_sector (base i) newend else ret tt);
                     run cache_env k a; ret w
                   else ret r1);
         do r3 <- (if no_err r2
                   then align_write (u32 (u32 (a + ENV_HDR_DATA_SIZE) + EF_WG_ALIGN (zlen k))) v (zlen v) else ret r2);
         next r3) Q s.
Proof.
  intros Hok Ha Htop Hm HP0 HT HQ. pose proof (rec_body_zlen k v) as Hz. pose proof (entry_len_bound k v Hok).
  pose proof (zlen_nonneg k). pose proof (zlen_nonneg v).
  set (hdr := hdr_bytes (node_len k v) (env_crc k v) (zlen k) (zlen v)) in *. assert (Hh : length hdr = 20%nat) by done.
  assert (Hbody : rec_body k v = hdr ++ k ++ v) by done. assert (Hlen : node_len k v = 28 + zlen k + zlen v) by done.
  assert (Hb8 : a + 8 + zlen (rec_body k v) <= 1048576) by lia.
  rewrite EF_WG_ALIGN_id by lia. unfold ENV_HDR_DATA_SIZE. rewrite !u32_small by lia.
  apply wpc_bind. unfold write_env_hdr. apply wpc_bind.
  apply (wpc_start_record m0 a (rec_body k v) Ha Hb8 HT); [done | done|]. intros s1 Hr1 Hb1.
  change (no_err EF_NO_ERR) with true. cbn [negb]. cbv iota. unfold ENV_MAGIC_OFFSET, ENV_HDR_DATA_SIZE.
  rewrite u32_small by lia. replace (a + 8) with (a + 8 + Z.of_nat 0) by lia. change (28 - 8) with 20.
  apply (wpc_grow m0 a (rec_body k v) Ha Hb8 HT 0 hdr hdr); [done | apply (prefix_all hdr) | | |].
  { rewrite Hbody, length_app. lia. } { rewrite Hbody. by rewrite drop_0, take_app_length. }
  intros s2 Hr2 Hb2. rewrite Hh in Hb2. change (no_err EF_NO_ERR) with true. cbv iota.
  apply wpc_bind, wpc_bind. replace (a + 28) with (a + 8 + Z.of_nat (0 + 20)) by lia.
  apply (wpc_grow_align m0 a (rec_body k v) Ha Hb8 HT (0 + 20) (k ++ [0]) k); [done | apply prefix_app | | |].
  { rewrite Hbody, !length_app. lia. } { rewrite Hbody, drop_app_length' by done. by rewrite take_app_length. }
  intros s3 Hr3 Hb3. apply wpc_bind.
  assert (Hcache : wpc P (if negb full then cache_sector (base i) newend else ret tt)
    (fun _ s4 => chip s4 = chip s3 /\ ram s4 = if full then ram s3 else
        put_sec_cache (update_sector_cache (base i) newend (sector_cache_table (ram s3))) (ram s3)) s3).
  { destruct full; cbn [negb]; [by apply wpc_ret | by apply wpc_put]. }
  eapply wpc_conseq; [exact Hcache|]. intros _ s4 [Hc4 Hr4]. apply wpc_bind, wpc_put, wpc_ret.
  change (no_err EF_NO_ERR) with true. cbv iota. apply wpc_bind.
  replace (a + 8 + Z.of_nat (0 + 20) + zlen k) with (a + 8 + Z.of_nat (0 + 20 + length k)) by (unfold zlen; lia).
  apply (wpc_grow_align m0 a (rec_body k v) Ha Hb8 HT (0 + 20 + length k) v v); [| apply prefix_all | | |].
  { unfold mem in *. cbn [chip]. by rewrite Hc4. } { rewrite Hbody, !length_app. lia. }
  { rewrite Hbody, app_assoc, drop_app_length' by (rewrite length_app; lia). by rewrite take_ge. }
  intros s5 Hr5 Hb5. apply HQ.
  - rewrite Hr5. cbn [ram]. rewrite Hr4. destruct full; cbn; by rewrite Hr3, Hr2, Hr1.
  - replace (length (rec_body k v)) with (0 + 20 + length k + length v)%nat; [done|]. rewrite Hbody, !length_app. lia.
Qed.

Lemma wpc_create L i st d d0 its sector k v (Q : EfErrCode * sector_meta_data -> Ef C -> Prop) s :
  let st' := next_store st i its (node_len k v) in
  let full := next_full st i its (node_len k v) in
  store L s -> sec L i = Fmt st d its -> view i st d0 sector -> room i st its sector -> st <> SECTOR_STORE_FULL ->
  entry_ok k v -> node_len k v <= free i its -> appending L i st' d its k v ->
  (forall s' t, ram s' = put_new k (ends (base i) its) (full || gc_request (ram s)) t (ram s) ->
     store (upd L i (Fmt st' d (its ++ [Rec ENV_WRITE k v]))) s' -> Q (EF_NO_ERR, sector) s') ->
  wpc P (create_env_blob junk_env junk_sector sector k v (zlen v)) Q s.
Proof.
  intros st' full Hs HS Hv Hroom Hnf Hok Hfit (HP & HP1 & HPp & HP2 & HT) HQ.
  pose proof (entry_len_bound k v Hok) as Hlen. pose proof (key_len _ _ Hok) as Hk. pose proof (zlen_nonneg v).
  pose proof Hroom as [_ Hempty]. specialize (Hempty Hnf). pose proof (free_bound L s i st d its Hs HS) as Hfb.
  pose proof (store_fits L s i st d its [] Hs) as Hf. rewrite app_nil_r, ilen_nil in Hf. specialize (Hf HS).
  set (a := ends (base i) its) in *. assert (Ha : 20 <= a /\ a + node_len k v <= 262144).
  { unfold free in Hfit. fold a in Hfit. unfold SECTOR_SIZE, EF_ERASE_MIN_SIZE in *. destruct (base_cases i); lia. }
  unfold create_env_blob. change EF_ENV_NAME_MAX with 32. rewrite (proj2 (Z.ltb_ge 32 _)) by lia.
  rewrite env_size_eq, Hempty by done. unfold SECTOR_SIZE at 1. unfold EF_ERASE_MIN_SIZE, SECTOR_HDR_DATA_SIZE at 1.
  rewrite (proj2 (Z.ltb_ge (131072 - 20) _)) by lia.
  apply wpc_bind. eapply wpc_lift_opt; [apply prefix_all|].
  rewrite (proj2 (Z.eqb_neq a FAILED_ADDR)) by (unfold FAILED_ADDR; lia). apply wpc_bind, wpc_ret. cbv beta iota.
  rewrite (proj2 (Z.eqb_neq a FAILED_ADDR)) by (unfold FAILED_ADDR; lia).
  apply wpc_bind. apply (wpc_update_sec L i st d d0 its); [done | done | done | done | done | lia | done | done |]. fold st' full.
  intros s1 t1 Hr1 HF1 Ht1 Hfull1. cbv beta iota. change (no_err EF_NO_ERR) with true. cbv iota.
  assert (Hkv : zlen k + zlen v <= 131024) by (unfold node_len in Hlen; lia).
  set (newend := u32 (u32 (a + ENV_HDR_DATA_SIZE) + EF_WG_ALIGN (zlen k) + EF_WG_ALIGN (zlen v))).
  assert (Enew : newend = ends (base i) (its ++ [Rec ENV_WRITE k v])).
  { subst newend. rewrite ends_snoc, rec_len. fold a. unfold node_len. rewrite !EF_WG_ALIGN_id by lia.
    unfold ENV_HDR_DATA_SIZE. rewrite (u32_small (a + 28)), u32_small by lia. lia. }
  destruct Hv as (_ & _ & _ & Eaddr & _). rewrite Eaddr.
  assert (HS1 : sec (upd L i (Fmt st' d its)) i = Fmt st' d its) by apply sec_upd_eq.
  apply (wpc_write_record (mem s1) a k v full i newend); [done | lia | lia | done | | |].
  { intros mu Hmu. apply HP1. by apply (Flash_ext (mem s1)). }
  { intros n mu Hn Hb. by apply (HT (mem s1) n). }
  intros s2 Hr2 Hb2. change (no_err EF_NO_ERR) with true. cbv iota.
  set (Lp := upd L i (Fmt st' d (its ++ [Rec ENV_PRE_WRITE k v]))).
  assert (HFp : Flash (mem s2) Lp).
  { pose proof (Flash_record (mem s1) (mem s2) _ i st' d its k v HF1 HS1 Hok Hfit Hb2) as HF2.
    by rewrite upd_upd in HF2. }
  assert (Htable : sector_cache_table (ram s2) = if full then t1 else update_sector_cache (base i) newend (sector_cache_table (ram s))).
  { rewrite Hr2, Hr1. destruct full; cbn; [done|]. by rewrite Ht1. }
  assert (Hsp : store Lp s2).
  { split; [done | | rewrite Hr2, Hr1; destruct full; apply Hs]. rewrite Htable. destruct full; [by apply Hfull1|].
    apply (cache_update_ok L); [apply Hs | |].
    - intros st0 d1 its0 E. exists st0, d1, its0. unfold Lp. by rewrite sec_upd_ne.
    - intros _. eexists st', d, _. split; [apply sec_upd_eq|]. rewrite Enew, !ends_snoc, !rec_len. done. }
  apply wpc_bind. apply (wpc_rec_status P Lp i st' d its [] k v ENV_PRE_WRITE ENV_WRITE ENV_WRITE);
    [done | apply sec_upd_eq | by left | | | ].
  { done. } { unfold Lp. by rewrite upd_upd. }
  intros s3 Hr3 Hs3. unfold Lp in Hs3. rewrite upd_upd in Hs3. change (no_err EF_NO_ERR) with true. cbn [andb].
  assert (Hram : ram s3 = put_new k a (gc_request (ram s)) (if full then t1 else update_sector_cache (base i) newend (sector_cache_table (ram s))) (ram s)).
  { rewrite Hr3, Hr2, Hr1. unfold put_new. destruct full; cbn; [by destruct (ram s) | by rewrite Ht1]. }
  apply wpc_bind. destruct full; cbn [orb] in *.
  - apply wpc_put, wpc_ret. eapply HQ; [cbn [ram]; rewrite Hram; reflexivity|].
    destruct Hs3 as [Hf3 Hc3 Hst3]. by split.
  - apply wpc_ret, wpc_ret. eapply HQ; [exact Hram | done].
Qed.
End Create.
