(* ===== verification/EfMove.v ===== *)
(** * Deleting and moving a record *)

From S2P Require Import Prelude CStr Storage EfEnv EfFlash EfLayout EfRead EfStore EfCache EfFind EfOps EfAlloc EfCreate.
Open Scope list_scope.

Section Move.
Context {C : Type} `{FlashDoc C} (P : (Z -> Z) -> Prop) (junk_env : env_node_obj) (junk_sector : sector_meta_data).
Implicit Types (s : Ef C).

(** ** The mark of a sector with deleted records *)

Definition soil (d : Z) : Z := if d =? SECTOR_DIRTY_FALSE then SECTOR_DIRTY_TRUE else d.

Lemma wpc_read_dirty L i st d its (Q : Z -> Ef C -> Prop) s :
  store L s -> sec L i = Fmt st d its -> Q d s ->
  wpc P (read_status (u32 (base i + SECTOR_DIRTY_OFFSET)) SECTOR_DIRTY_STATUS_NUM) Q s.
Proof.
  intros Hs HS HQ. destruct (store_level L s i st d its Hs HS) as [Hst Hd]. destruct Hs as [(L0 & Hl & HL) _ _].
  destruct (like_fmt L0 L i st d _ Hl HS) as (its0 & HS0 & _). pose proof (HL i) as Hlay. rewrite HS0 in Hlay.
  destruct Hlay as [_ Hh _ _ _ _]. unfold read_status. apply wpc_bind.
  assert (Ea : u32 (base i + SECTOR_DIRTY_OFFSET) = base i + 3) by (by destruct i). rewrite Ea.
  change (STATUS_TABLE_SIZE SECTOR_DIRTY_STATUS_NUM) with 3.
  apply wpc_port_read; [destruct (base_cases i); lia | done | destruct (base_cases i); lia |].
  assert (Eb : bytes_at (mem s) (base i + 3) 3 = tbl3 d).
  { unfold sec_hdr in Hh. rewrite !holds_app, !tbl3_zlen in Hh. destruct Hh as (_ & Hh & _).
    apply holds_bytes_eq; [done|]. by rewrite tbl3_zlen. }
  rewrite Eb. eapply wpc_lift_opt; [|exact HQ]. destruct Hd as [->|[->| ->]]; done.
Qed.

Lemma wpc_soil L i st d its (Q : EfErrCode -> Ef C -> Prop) s :
  let L' := upd L i (Fmt st (soil d) its) in
  store L s -> sec L i = Fmt st d its -> PL P L -> PL P L' ->
  (forall s', ram s' = ram s -> store L' s' -> Q EF_NO_ERR s') ->
  wpc P (do dirty <- read_status (u32 (base i + SECTOR_DIRTY_OFFSET)) SECTOR_DIRTY_STATUS_NUM;
         if dirty =? SECTOR_DIRTY_FALSE
         then write_status (u32 (base i + SECTOR_DIRTY_OFFSET)) SECTOR_DIRTY_STATUS_NUM SECTOR_DIRTY_TRUE
         else ret EF_NO_ERR) Q s.
Proof.
  intros L' Hs HS HP HP' HQ. apply wpc_bind, (wpc_read_dirty L i st d its); [done | done|].
  unfold L', soil in *. destruct (Z.eqb_spec d SECTOR_DIRTY_FALSE) as [->|].
  - apply (wpc_dirty_status P L i st SECTOR_DIRTY_FALSE its); [done | done | by left | done | done | done].
  - apply wpc_ret, HQ; [done|]. by rewrite <- HS, upd_same.
Qed.

(** ** [del_env] *)

Lemma dirty_addr_eq L s i st d l1 it l2 :
  store L s -> sec L i = Fmt st d (l1 ++ it :: l2) ->
  u32 (EF_ALIGN_DOWN (ends (base i) l1) SECTOR_SIZE + SECTOR_DIRTY_OFFSET) = u32 (base i + SECTOR_DIRTY_OFFSET).
Proof.
  intros Hs HS. pose proof (store_fits L s i st d l1 _ Hs HS) as Hf. pose proof (store_item L s i st d l1 it l2 Hs HS).
  pose proof (ilen_nonneg l2). rewrite ilen_cons in Hf. f_equal. f_equal. rewrite EF_ALIGN_DOWN_sector.
  unfold SECTOR_SIZE, EF_ERASE_MIN_SIZE in *.
  destruct (base_cases i) as [E|E]; rewrite E in *.
  - rewrite Z.mod_small by lia. lia.
  - pose proof (Z.mod_unique_pos (ends 131072 l1) 131072 1 (ends 131072 l1 - 131072)). lia.
Qed.

(** [del_env] of the record of [k] at [l1], when the step before was not made
    ([false]) or the record goes. *)
Lemma wpc_del_env L i st d l1 l2 k v r r' key old complete (Q : EfErrCode -> Ef C -> Prop) s :
  let L1 := upd L i (Fmt st d (l1 ++ Rec r' k v :: l2)) in
  let L2 := upd L i (Fmt st (soil d) (l1 ++ Rec r' k v :: l2)) in
  store L s -> sec L i = Fmt st d (l1 ++ Rec r k v :: l2) ->
  status_step r r' (if complete : bool then ENV_DELETED else ENV_PRE_DELETE) ->
  addr_start old = ends (base i) l1 -> prefix (env_name old) (name_len old) = Some k ->
  key = None \/ key = Some k -> PL P L -> PL P L1 -> PL P L2 ->
  (forall s', ram s' = (if complete then
       put_last false (if last_is_complete_del (ram s) then ram s
                       else put_env_cache (update_env_cache k FAILED_ADDR (env_cache_table (ram s))) (ram s))
     else put_last true (ram s)) -> store L2 s' -> Q EF_NO_ERR s') ->
  wpc P (del_env junk_env junk_sector key (Some old) complete) Q s.
Proof.
  intros L1 L2 Hs HS Hstep Ha Hname Hkey HP HP1 HP2 HQ. unfold del_env. apply wpc_bind.
  apply wpc_ret. rewrite Ha. rewrite (dirty_addr_eq L s i st d l1 _ l2 Hs HS).
  assert (HS1 : sec L1 i = Fmt st d (l1 ++ Rec r' k v :: l2)) by apply sec_upd_eq.
  assert (Hfin : forall s1, store L1 s1 -> (forall s', ram s' = ram s1 -> store L2 s' -> Q EF_NO_ERR s') ->
    wpc P (if no_err EF_NO_ERR then
         do dirty <- read_status (u32 (base i + SECTOR_DIRTY_OFFSET)) SECTOR_DIRTY_STATUS_NUM;
         if dirty =? SECTOR_DIRTY_FALSE
         then write_status (u32 (base i + SECTOR_DIRTY_OFFSET)) SECTOR_DIRTY_STATUS_NUM SECTOR_DIRTY_TRUE
         else ret EF_NO_ERR
       else ret EF_NO_ERR) Q s1).
  { intros s1 Hs1 HQ1. change (no_err EF_NO_ERR) with true. cbv iota.
    apply (wpc_soil L1 i st d (l1 ++ Rec r' k v :: l2)); [done | done | done | |]; unfold L1; rewrite upd_upd; done. }
  apply wpc_bind. destruct complete; cbn [negb].
  - apply wpc_bind. apply (wpc_rec_status P L i st d l1 l2 k v r r'); [done | done | done | done | done|].
    intros s1 Hr1 Hs1. apply wpc_bind, wpc_gets. rewrite Hr1. apply wpc_bind.
    change (no_err EF_NO_ERR) with true. rewrite andb_true_r.
    assert (Hcache : wpc P (if negb (last_is_complete_del (ram s)) then
                 match key with
                 | Some k => cache_env k FAILED_ADDR
                 | None => do name <- lift_opt (prefix (env_name old) (name_len old)); cache_env name FAILED_ADDR
                 end
               else ret tt)
        (fun _ s2 => chip s2 = chip s1 /\ ram s2 = if last_is_complete_del (ram s) then ram s
             else put_env_cache (update_env_cache k FAILED_ADDR (env_cache_table (ram s))) (ram s)) s1).
    { destruct (last_is_complete_del (ram s)); cbn [negb]; [by apply wpc_ret|].
      destruct Hkey as [->| ->].
      - apply wpc_bind. eapply wpc_lift_opt; [exact Hname|]. apply wpc_put. cbn. by rewrite Hr1.
      - apply wpc_put. cbn. by rewrite Hr1. }
    eapply wpc_conseq; [exact Hcache|]. intros _ s2 [Hc2 Hr2]. apply wpc_bind, wpc_put, wpc_ret.
    apply Hfin.
    + destruct Hs1 as [Hf1 Hc1 Hst1]. rewrite Hr1 in *. split; unfold mem in *; cbn [chip ram]; rewrite ?Hc2, ?Hr2; [done | |];
        by destruct (last_is_complete_del (ram s)).
    + intros s' Hr' Hs'. apply HQ; [|done]. rewrite Hr'. cbn [ram]. by rewrite Hr2.
  - apply wpc_bind. apply (wpc_rec_status P L i st d l1 l2 k v r r'); [done | done | done | done | done|].
    intros s1 Hr1 Hs1. apply wpc_bind, wpc_put, wpc_ret. apply Hfin.
    + destruct Hs1 as [Hf1 Hc1 Hst1]. by split.
    + intros s' Hr' Hs'. apply HQ; [|done]. rewrite Hr'. cbn [ram]. by rewrite Hr1.
Qed.

(** ** Copying *)

Lemma wpc_copy_loop m0 a body src fuel : forall n (Q : EfErrCode -> Ef C -> Prop) s,
  0 <= a -> a + 8 + zlen body <= 262144 -> 0 <= src -> src + zlen body <= 262144 ->
  src + zlen body <= a \/ a + 8 + zlen body <= src ->
  (forall n mu, (n <= length body)%nat -> built m0 a body n mu -> P mu) ->
  (forall x, a <= x < a + 8 + zlen body -> m0 x = 255) -> bytes_ok body -> holds m0 src body ->
  built m0 a body n (mem s) -> (n <= length body)%nat -> zlen body - Z.of_nat n <= 32 * Z.of_nat fuel ->
  (forall s', ram s' = ram s -> built m0 a body (length body) (mem s') -> Q EF_NO_ERR s') ->
  wpc P (copy_loop fuel src (a + 8) (Z.of_nat n) (zlen body) EF_NO_ERR) Q s.
Proof.
  induction fuel as [|fuel IH]; intros n Q s Ha Htop Hsrc Hst2 Hdis HT Hff Hbo Hh Hb Hn Hf HQ; cbn [copy_loop];
    (destruct (Z.ltb_spec (Z.of_nat n) (zlen body)) as [Hlt|Hge];
     [|apply wpc_ret, HQ; [done | by replace (length body) with n by (unfold zlen in Hge; lia)]]); [lia|].
  set (size := if u32 (Z.of_nat n + 32) <? zlen body then 32 else zlen body - Z.of_nat n).
  assert (Hsz : size = Z.min 32 (zlen body - Z.of_nat n)).
  { unfold size. rewrite u32_small by lia. destruct (Z.ltb_spec (Z.of_nat n + 32) (zlen body)); lia. }
  clearbody size. cbv zeta. rewrite EF_WG_ALIGN_id by lia. rewrite !(u32_small (_ + Z.of_nat n)) by lia.
  apply wpc_bind, wpc_port_read; [lia..|]. apply wpc_bind.
  destruct (built_holds m0 a body n (mem s) Hb) as [_ Hout]; [intros; apply Hff; unfold zlen; lia | done | done|].
  set (bs := bytes_at (mem s) (src + Z.of_nat n) size).
  assert (Hlen : length bs = Z.to_nat size) by (unfold bs, bytes_at; rewrite length_map, length_seqZ; lia).
  assert (Hbs : take (length bs) (drop n body) = bs).
  { rewrite Hlen. unfold bs. rewrite (bytes_at_ext _ m0) by (intros x Hx; apply Hout; unfold zlen in *; lia).
    unfold holds in Hh. rewrite <- Hh. replace (zlen body) with (Z.of_nat n + (size + (zlen body - Z.of_nat n - size))) by lia.
    rewrite !bytes_at_app by lia. rewrite drop_app_length', take_app_length'; [done | |];
      unfold bytes_at; rewrite length_map, length_seqZ; lia. }
  assert (Hb8 : a + 8 + zlen body <= 1048576) by lia.
  apply (wpc_grow P m0 a body Ha Hb8 HT n bs bs size); [done | | unfold zlen in *; lia | done |].
  { rewrite <- (prefix_all bs). f_equal. unfold zlen. lia. }
  intros s1 Hr1 Hb1. rewrite u32_small by lia.
  replace (Z.of_nat n + size) with (Z.of_nat (n + length bs)) by lia.
  apply IH; try done; [unfold zlen in *; lia | lia |]. intros s2 Hr2 Hb2. apply HQ; [by rewrite Hr2 | done].
Qed.

(** The record of [k] in some sector, with its bytes. *)
Definition rec_at (L : Sec * Sec) (r : Z) (k v : list Z) (a : Z) : Prop :=
  exists j st d l1 l2, sec L j = Fmt st d (l1 ++ Rec r k v :: l2) /\ a = ends (base j) l1.

Lemma rec_at_bytes mu L r k v src i st d its :
  Flash mu L -> rec_at L r k v src -> sec L i = Fmt st d its ->
  holds mu (src + 8) (rec_body k v) /\ entry_ok k v /\ 20 <= src /\ src + node_len k v <= 262144
  /\ (src + node_len k v <= ends (base i) its \/ base i + SECTOR_SIZE <= src \/ src + node_len k v <= base i).
Proof.
  intros (L0 & Hl & HL) (j & st' & d' & l1 & l2 & HS & ->) HSi.
  destruct (like_fmt L0 L j st' d' _ Hl HS) as (its0 & HS0 & E).
  destruct (like_split _ _ _ _ E) as (m1 & jt & m2 & -> & E1 & E2 & E3). apply unmark_not_bad in E2 as ->; [|done].
  destruct (item_place mu L0 j st' d' m1 _ m2 HL HS0) as (Hh & [_ Hok] & Hlo & Htop & Hhi).
  unfold ends in *. rewrite (like_ilen m1 l1 E1) in *. rewrite rec_len in *. cbn [item_bytes] in Hh.
  rewrite app_assoc in Hh. apply holds_app in Hh as [_ Hh]. rewrite zlen_app, env_tbl_zlen in Hh. split; [exact Hh|].
  split; [done|]. split; [done|]. split; [done|].
  pose proof (ilen_nonneg l1). unfold SECTOR_HDR_DATA_SIZE, SECTOR_SIZE, EF_ERASE_MIN_SIZE in *.
  destruct (decide (i = j)) as [->|Hne].
  - left. rewrite HS in HSi. injection HSi as <- <- <-. rewrite ilen_app, ilen_cons, rec_len. pose proof (ilen_nonneg l2). lia.
  - right. destruct i, j; try done; cbn [base] in *; unfold SECTOR_SIZE, EF_ERASE_MIN_SIZE in *; lia.
Qed.

Definition put_moved (k : list Z) (a : Z) (t : list sector_cache_node) (r : EfRam) : EfRam :=
  put_env_cache (update_env_cache k a (env_cache_table r)) (put_sec_cache t r).

Lemma align_down_in i x : base i <= x < base i + SECTOR_SIZE -> EF_ALIGN_DOWN x SECTOR_SIZE = base i.
Proof.
  intros Hx. rewrite EF_ALIGN_DOWN_sector. unfold SECTOR_SIZE, EF_ERASE_MIN_SIZE in *.
  destruct (base_cases i) as [E|E]; rewrite E in *.
  - rewrite Z.mod_small by lia. lia.
  - pose proof (Z.mod_unique_pos x 131072 1 (x - 131072)). lia.
Qed.

(** The parts of the proof for a copy. *)
Lemma rec_at_level L i st d its st' r k v src :
  sec L i = Fmt st d its -> rec_at L r k v src -> rec_at (upd L i (Fmt st' d its)) r k v src.
Proof.
  intros HS (j & st0 & d9 & l1 & l2 & HSj & ->). destruct (decide (j = i)) as [->|Hne].
  - rewrite HS in HSj. injection HSj as -> -> ->. exists i, st', d9, l1, l2. by rewrite sec_upd_eq.
  - exists j, st0, d9, l1, l2. replace j with (negb i) in * by (by destruct i, j). by rewrite sec_upd_ne.
Qed.

Lemma Flash_free mu L i st d its x :
  Flash mu L -> sec L i = Fmt st d its -> ends (base i) its <= x < base i + SECTOR_SIZE -> mu x = 255.
Proof.
  intros (L0 & Hl & HL) HS Hx. destruct (like_fmt L0 L i st d its Hl HS) as (its0 & HS0 & E).
  pose proof (HL i) as Hlay. rewrite HS0 in Hlay. apply (fmt_free _ _ _ _ _ Hlay).
  unfold ends in *. by rewrite (like_ilen its0 its E).
Qed.

Lemma copied_ends i its k v :
  0 <= ends (base i) its -> zlen k + zlen v <= 131024 -> ends (base i) its + node_len k v <= 262144 ->
  u32 (ends (base i) its + ENV_HDR_DATA_SIZE + EF_WG_ALIGN (zlen k) + EF_WG_ALIGN (zlen v)) = ends (base i) (its ++ [Rec ENV_WRITE k v]).
Proof.
  intros H0' Hkv Ha. pose proof (zlen_nonneg k). pose proof (zlen_nonneg v). rewrite ends_snoc, rec_len. unfold node_len in *.
  rewrite !EF_WG_ALIGN_id by lia. unfold ENV_HDR_DATA_SIZE. rewrite u32_small by lia. lia.
Qed.

Lemma copied_sector_cache L i st d its k v t1 t :
  let L2 := upd L i (Fmt (next_store st i its (node_len k v)) d (its ++ [Rec ENV_WRITE k v])) in
  sec_cache_ok L t -> (next_full st i its (node_len k v) = false -> t1 = t) ->
  (next_full st i its (node_len k v) = true -> forall S, sec_cache_ok (upd L i S) t1) ->
  sec_cache_ok L2 (update_sector_cache (base i) (ends (base i) (its ++ [Rec ENV_WRITE k v])) t1).
Proof.
  intros L2 Hc Ht1 Hfull1.
  assert (Hin : exists st0 d0 its', sec L2 i = Fmt st0 d0 its' /\ ends (base i) (its ++ [Rec ENV_WRITE k v]) = ends (base i) its').
  { eexists _, d, (its ++ [Rec ENV_WRITE k v]). split; [apply sec_upd_eq | done]. }
  destruct (next_full st i its (node_len k v)).
  - apply (cache_update_ok L2); [by apply Hfull1 | | done]. intros st0 d9 its0 E. by exists st0, d9, its0.
  - rewrite Ht1 by done. apply (cache_update_ok L); [done | | done].
    intros st0 d9 its0 E. exists st0, d9, its0. unfold L2. by rewrite sec_upd_ne.
Qed.

Lemma wpc_copy_record L i st d d0 its sector k v r src env (Q : EfErrCode -> Ef C -> Prop) s :
  let st' := next_store st i its (node_len k v) in
  let a := ends (base i) its in
  store L s -> sec L i = Fmt st d its -> view i st d0 sector -> room i st its sector -> st <> SECTOR_STORE_FULL ->
  rec_at L r k v src -> addr_start env = src -> env_len env = node_len k v -> name_len env = zlen k ->
  value_len env = zlen v -> prefix (env_name env) (name_len env) = Some k ->
  node_len k v <= free i its -> appending P L i st' d its k v ->
  (forall s' t, ram s' = put_moved k a t (ram s) ->
     store (upd L i (Fmt st' d (its ++ [Rec ENV_WRITE k v]))) s' -> Q EF_NO_ERR s') ->
  wpc P (run update_sec_status sector (env_len env) false;
         run write_status a ENV_STATUS_NUM ENV_PRE_WRITE;
         do result <- copy_loop SECTOR_FUEL (u32 (addr_start env + ENV_MAGIC_OFFSET)) (u32 (a + ENV_MAGIC_OFFSET)) 0
                        (u32 (env_len env - ENV_MAGIC_OFFSET)) EF_NO_ERR;
         run write_status a ENV_STATUS_NUM ENV_WRITE;
         run cache_sector (EF_ALIGN_DOWN a SECTOR_SIZE)
               (u32 (a + ENV_HDR_DATA_SIZE + EF_WG_ALIGN (name_len env) + EF_WG_ALIGN (value_len env)));
         do name <- lift_opt (prefix (env_name env) (name_len env));
         run cache_env name a;
         ret result) Q s.
Proof.
  intros st' a Hs HS Hv Hroom Hnf Hrec Ea Elen Enl Evl Hname Hfit (HP & HP1 & HPp & HP2 & HT) HQ.
  pose proof (free_bound L s i st d its Hs HS) as Hfb.
  pose proof (store_fits L s i st d its [] Hs) as Hf. rewrite app_nil_r, ilen_nil in Hf. specialize (Hf HS).
  fold a in Hf.
  destruct (rec_at_bytes (mem s) L r k v src i st d its (store_flash _ _ Hs) Hrec HS) as (_ & Hok & Hsrc & Hsrc2 & _).
  pose proof (entry_len_bound k v Hok) as Hlen. pose proof (key_len _ _ Hok) as Hk. pose proof (zlen_nonneg v).
  pose proof (rec_body_zlen k v) as Hz.
  assert (Ha : 20 <= a /\ a + node_len k v <= base i + SECTOR_SIZE /\ base i + SECTOR_SIZE <= 262144).
  { unfold free in Hfit. fold a in Hfit. unfold SECTOR_SIZE, EF_ERASE_MIN_SIZE in *. destruct (base_cases i); lia. }
  assert (Hkv : zlen k + zlen v <= 131024) by (unfold node_len in Hlen; lia).
  rewrite Elen, Ea, Enl, Evl. unfold ENV_MAGIC_OFFSET. rewrite !(u32_small (_ + 8)), (u32_small (_ - 8)), <- Hz by lia.
  apply wpc_bind. apply (wpc_update_sec P L i st d d0 its); [done | done | done | done | done | lia | done | done |]. fold st'.
  intros s1 t1 Hr1 HF1 Ht1 Hfull1.
  assert (HS1 : sec (upd L i (Fmt st' d its)) i = Fmt st' d its) by apply sec_upd_eq.
  pose proof (rec_at_level L i st d its st' r k v src HS Hrec) as Hrec1.
  destruct (rec_at_bytes (mem s1) _ r k v src i st' d its HF1 Hrec1 HS1) as (Hbytes & _ & _ & _ & Hdis). fold a in Hdis.
  assert (HT1 : forall n mu, (n <= length (rec_body k v))%nat -> built (mem s1) a (rec_body k v) n mu -> P mu).
  { intros n mu Hn Hb. by apply (HT (mem s1) n). }
  assert (Hb8 : a + 8 + zlen (rec_body k v) <= 1048576) by lia.
  apply wpc_bind. apply (wpc_start_record P (mem s1) a (rec_body k v)); [lia | done | done | done | |].
  { intros mu Hmu. apply HP1. by apply (Flash_ext (mem s1)). }
  intros s2 Hr2 Hb2. apply wpc_bind.
  apply (wpc_copy_loop (mem s1) a (rec_body k v) (src + 8) SECTOR_FUEL 0); try done; try lia.
  { intros x Hx. apply (Flash_free (mem s1) _ i st' d its x HF1 HS1). fold a. lia. } { by apply rec_body_ok. } { rewrite sector_fuel. lia. }
  intros s3 Hr3 Hb3. apply wpc_bind.
  pose proof (Flash_record (mem s1) (mem s3) _ i st' d its k v HF1 HS1 Hok Hfit Hb3) as HFp. rewrite upd_upd in HFp.
  set (Lp := upd L i (Fmt st' d (its ++ [Rec ENV_PRE_WRITE k v]))) in *.
  set (L2 := upd L i (Fmt st' d (its ++ [Rec ENV_WRITE k v]))) in *.
  assert (HF2 : forall mu, (forall x, mu x = clr (mem s3) (a + (ENV_WRITE - 1)) x) -> Flash mu L2).
  { intros mu Hmu. pose proof (Flash_rec_status (mem s3) mu Lp i st' d its [] k v 1 2 ENV_WRITE HFp) as HFw.
    unfold Lp in HFw. rewrite sec_upd_eq, upd_upd in HFw. apply HFw; [done | by left | done]. }
  apply wpc_write_status; [lia | done | unfold ENV_WRITE, SECTOR_SIZE, EF_ERASE_MIN_SIZE in *; lia | |].
  { intros mu [Hmu|Hmu]; [apply HPp; by apply (Flash_ext (mem s3)) | by apply HP2, HF2]. }
  intros s4 Hr4 Hm4. specialize (HF2 (mem s4) Hm4).
  rewrite (align_down_in i) by (lia).
  assert (Enew : u32 (a + ENV_HDR_DATA_SIZE + EF_WG_ALIGN (zlen k) + EF_WG_ALIGN (zlen v)) = ends (base i) (its ++ [Rec ENV_WRITE k v]))
    by (apply copied_ends; fold a; lia).
  rewrite Enew. apply wpc_bind.
  pose proof (copied_sector_cache L i st d its k v t1 (sector_cache_table (ram s)) (store_cache _ _ Hs) Ht1 Hfull1) as Hcache. fold L2 in Hcache.
  apply wpc_put. apply wpc_bind. rewrite <- Enl. eapply wpc_lift_opt; [exact Hname|]. apply wpc_bind, wpc_put, wpc_ret.
  cbn [ram]. eapply HQ.
  - cbn [ram]. rewrite Hr4, Hr3, Hr2, Hr1. reflexivity.
  - split; [exact HF2 | cbn; rewrite Hr4, Hr3, Hr2, Hr1; exact Hcache | cbn; rewrite Hr4, Hr3, Hr2, Hr1; apply Hs].
Qed.
End Move.
