(* ===== verification/EfLog.v ===== *)
(** * The variables that a log stands for

    A variable has the value of its written record or, where there is none, of
    the record whose deletion was begun.  [meaning] relates the two lists of such
    records to a finite map; each step of a change of a variable, of a move and of
    a deletion keeps a meaning. *)

From S2P Require Import Prelude CStr Storage EfEnv EfFlash EfLayout EfRead EfStore EfCache EfFind EfOps.
Open Scope list_scope.

Abbreviation entry := (list Z * list Z)%type.
Abbreviation env_map := (gmap (list Z) (list Z)).

(** ** Records in two states *)

Record meaning (A B : list entry) (m : env_map) : Prop := {
  one_live : NoDup A.*1;
  one_pend : NoDup B.*1;
  map_is k v : m !! k = Some v <-> (k, v) ∈ A \/ ((k, v) ∈ B /\ k ∉ A.*1)
}.

Lemma in_keys (k v : list Z) (A : list entry) : (k, v) ∈ A -> k ∈ A.*1.
Proof. intros Hi. apply list_elem_of_fmap. by exists (k, v). Qed.

Lemma keys_in (k : list Z) (A : list entry) : k ∈ A.*1 -> exists v, (k, v) ∈ A.
Proof. intros ([k' v] & -> & Hi)%list_elem_of_fmap. by exists v. Qed.

Lemma meaning_perm A A' B B' m : A ≡ₚ A' -> B ≡ₚ B' -> meaning A B m -> meaning A' B' m.
Proof.
  intros HA HB [H1 H2 H3]. split; [by rewrite <- HA | by rewrite <- HB|].
  intros k v. by rewrite H3, HA, HB.
Qed.

Lemma live_value A B m k v : meaning A B m -> (k, v) ∈ A -> m !! k = Some v.
Proof. intros [_ _ Hm] Hi. apply Hm. by left. Qed.

Lemma meaning_mark A B m k v : meaning ((k, v) :: A) B m -> k ∉ B.*1 -> meaning A ((k, v) :: B) m.
Proof.
  intros [H1 H2 H3] Hk. rewrite fmap_cons in H1. apply NoDup_cons in H1 as [Hn H1]. cbn in Hn. split; [done | |].
  - rewrite fmap_cons. apply NoDup_cons. by split.
  - intros k' v'. rewrite H3, fmap_cons, !elem_of_cons. cbn. split.
    + intros [[[= -> ->]|Hi]|[Hi Hx]]; [by right; split; [left|] | by left | right].
      split; [by right|]. intros Hx'. apply Hx. by right.
    + intros [Hi|[[[= -> ->]|Hi] Hx]]; [by left; right | by left; left | right].
      split; [done|]. intros [->|Hx']; [|by apply Hx]. apply Hk. by eapply in_keys.
Qed.

Lemma meaning_copy A B m k v : meaning A ((k, v) :: B) m -> k ∉ A.*1 -> meaning ((k, v) :: A) ((k, v) :: B) m.
Proof.
  intros [H1 H2 H3] Hk. split; [rewrite fmap_cons; by apply NoDup_cons | done |].
  intros k' v'. rewrite H3, !fmap_cons, !elem_of_cons. cbn. split.
  - intros [Hi|[[[= -> ->]|Hi] Hx]]; [by left; right | by left; left|]. destruct (decide (k' = k)) as [->|Hne].
    + rewrite fmap_cons in H2. apply NoDup_cons in H2 as [H2 _]. destruct H2. by eapply in_keys.
    + right. split; [by right|]. by intros [?|?].
  - intros [[[= -> ->]|Hi]|[[[= -> ->]|Hi] Hx]]; [right; by split; [left|] | by left | |].
    + destruct Hx. by left.
    + right. split; [by right|]. intros ?. apply Hx. by right.
Qed.

Lemma meaning_drop A B m k v : meaning A ((k, v) :: B) m -> k ∈ A.*1 -> meaning A B m.
Proof.
  intros [H1 H2 H3] Hk. rewrite fmap_cons in H2. apply NoDup_cons in H2 as [_ H2]. split; [done | done |].
  intros k' v'. rewrite H3, elem_of_cons. split; [|intros [?|[? ?]]; [by left | right; by split; [right|]]].
  intros [?|[[[= -> ->]|?] Hx]]; [by left | done | by right].
Qed.

Lemma meaning_set A B m k v w : meaning A ((k, v) :: B) m -> k ∉ A.*1 -> meaning ((k, w) :: A) ((k, v) :: B) (<[k := w]> m).
Proof.
  intros [H1 H2 H3] Hk. split; [rewrite fmap_cons; by apply NoDup_cons | done |].
  rewrite fmap_cons in H2. apply NoDup_cons in H2 as [H2 _].
  intros k' v'. rewrite !fmap_cons, !elem_of_cons. cbn. destruct (decide (k' = k)) as [->|Hne].
  - rewrite lookup_insert_eq. split; [intros [= ->]; by left; left|].
    intros [[[= ->]|Hi]|[_ Hx]]; [done | destruct Hk; by eapply in_keys | destruct Hx; by left].
  - rewrite lookup_insert_ne, H3 by done. rewrite !elem_of_cons. split.
    + intros [Hi|[[[= -> ->]|Hi] Hx]]; [by left; right | done |]. right. split; [by right|]. by intros [?|?].
    + intros [[[= -> ->]|Hi]|[[[= -> ->]|Hi] Hx]]; [done | by left | done |]. right. split; [by right|].
      intros ?. apply Hx. by right.
Qed.

Lemma meaning_new A m k w : meaning A [] m -> k ∉ A.*1 -> meaning ((k, w) :: A) [] (<[k := w]> m).
Proof.
  intros [H1 H2 H3] Hk. split; [rewrite fmap_cons; by apply NoDup_cons | done |].
  intros k' v'. rewrite !fmap_cons, !elem_of_cons. cbn. destruct (decide (k' = k)) as [->|Hne].
  - rewrite lookup_insert_eq. split; [intros [= ->]; by left; left|].
    intros [[[= ->]|Hi]|[Hi _]]; [done | destruct Hk; by eapply in_keys | by apply not_elem_of_nil in Hi].
  - rewrite lookup_insert_ne, H3 by done. split.
    + intros [Hi|[Hi _]]; [by left; right | by apply not_elem_of_nil in Hi].
    + intros [[[= -> ->]|Hi]|[Hi _]]; [done | by left | by apply not_elem_of_nil in Hi].
Qed.

(** A deletion of a written record. *)
Lemma meaning_delete A m k v : meaning ((k, v) :: A) [] m -> meaning A [] (delete k m).
Proof.
  intros [H1 H2 H3]. rewrite fmap_cons in H1. apply NoDup_cons in H1 as [Hk H1]. cbn in Hk. split; [done | done |].
  intros k' v'. destruct (decide (k' = k)) as [->|Hne].
  - rewrite lookup_delete_eq. split; [done|]. intros [Hi|[Hi _]]; [destruct Hk; by eapply in_keys | by apply not_elem_of_nil in Hi].
  - rewrite lookup_delete_ne, H3, elem_of_cons by done. split.
    + intros [[[= -> ->]|Hi]|[Hi _]]; [done | by left | by apply not_elem_of_nil in Hi].
    + intros [Hi|[Hi _]]; [by left; right | by apply not_elem_of_nil in Hi].
Qed.

Lemma meaning_map A m : meaning A [] m -> m = list_to_map A /\ NoDup A.*1.
Proof.
  intros [H1 _ H3]. split; [|done]. apply map_eq. intros k. apply option_eq. intros v. rewrite H3.
  rewrite <- elem_of_list_to_map by done. split; [|by left]. intros [?|[Hi _]]; [done | by apply not_elem_of_nil in Hi].
Qed.

(** ** The lists of a layout *)

Definition pend_of (it : item) : option entry :=
  match it with Rec st k v => if st =? ENV_PRE_DELETE then Some (k, v) else None | _ => None end.
Definition pend (its : list item) : list entry := omap pend_of its.
Definition pends (L : Sec * Sec) : list entry := pend (items L false) ++ pend (items L true).

Definition total (l : list entry) : Z := foldr (fun e n => node_len (fst e) (snd e) + n) 0 l.
(** The bytes a collection has to copy, and those it drops although the sector
    is not marked for them. *)
Definition weight (its : list item) : Z := total (live its) + total (pend its).
Definition is_junk (it : item) : bool :=
  match it with Rec st _ _ => (st =? ENV_PRE_WRITE) || (st =? ENV_ERR_HDR) | _ => true end.
Definition junk (its : list item) : Z := ilen (filter (fun it => is_junk it = true) its).
Definition is_dead (it : item) : bool :=
  match it with Rec st _ _ => (st =? ENV_DELETED) || (st =? 6) | _ => false end.

Lemma pend_app l1 l2 : pend (l1 ++ l2) = pend l1 ++ pend l2.
Proof. apply omap_app. Qed.

Lemma total_cons e l : total (e :: l) = node_len (fst e) (snd e) + total l.
Proof. done. Qed.

Lemma total_app l1 l2 : total (l1 ++ l2) = total l1 + total l2.
Proof. unfold total. induction l1 as [|e l1 IH]; cbn in *; lia. Qed.

Lemma total_perm l1 l2 : l1 ≡ₚ l2 -> total l1 = total l2.
Proof. unfold total. induction 1; cbn in *; lia. Qed.

Lemma total_nonneg l : 0 <= total l.
Proof.
  induction l as [|[k v] l IH]; [done|]. rewrite total_cons. cbn [fst snd]. unfold node_len. pose proof (zlen_nonneg k). pose proof (zlen_nonneg v). lia.
Qed.

Lemma total_in e l : e ∈ l -> node_len (fst e) (snd e) <= total l.
Proof.
  intros (l1 & l2 & ->)%list_elem_of_split. rewrite total_app. pose proof (total_nonneg l1). pose proof (total_nonneg l2). rewrite total_cons. lia.
Qed.

Lemma junk_app l1 l2 : junk (l1 ++ l2) = junk l1 + junk l2.
Proof. unfold junk. by rewrite filter_app, ilen_app. Qed.

Lemma weight_app l1 l2 : weight (l1 ++ l2) = weight l1 + weight l2.
Proof. unfold weight. rewrite live_app, pend_app, !total_app. lia. Qed.

Lemma live_rec st k v : live [Rec st k v] = if st =? ENV_WRITE then [(k, v)] else [].
Proof. unfold live. cbn. by destruct (st =? ENV_WRITE). Qed.

Lemma pend_rec st k v : pend [Rec st k v] = if st =? ENV_PRE_DELETE then [(k, v)] else [].
Proof. unfold pend. cbn. by destruct (st =? ENV_PRE_DELETE). Qed.

Lemma junk_one it : junk [it] = if is_junk it then item_len it else 0.
Proof.
  unfold junk. rewrite filter_cons, filter_nil. destruct (decide (is_junk it = true)) as [->|Hn]; [by rewrite ilen_cons, ilen_nil, Z.add_0_r|].
  by destruct (is_junk it).
Qed.

(** A sector that is not marked holds what is live, what is pending, and junk. *)
Lemma ilen_parts its :
  Forall item_ok its -> forallb (fun it => negb (is_dead it)) its = true -> ilen its = weight its + junk its.
Proof.
  induction 1 as [|it its Hok _ IH]; [done|]. cbn [forallb]. intros [Hd Hds]%andb_true_iff. specialize (IH Hds).
  change (it :: its) with ([it] ++ its). rewrite weight_app, junk_app, ilen_app, IH.
  assert (ilen [it] = weight [it] + junk [it]); [|lia]. rewrite junk_one, ilen_cons, ilen_nil. unfold weight.
  destruct it as [st k v| |]; cbn [is_junk is_dead] in *; [|cbn; lia | cbn; lia].
  rewrite rec_len, live_rec, pend_rec. destruct Hok as [Hst _].
  assert (Htot : total [(k, v)] = node_len k v) by (rewrite total_cons; cbn; lia).
  destruct Hst as [->|[->|[->|[->|[->| ->]]]]]; try done; cbn [Z.eqb]; rewrite ?Htot; cbn; lia.
Qed.

Lemma lives_at L i : lives L ≡ₚ live (items L i) ++ live (items L (negb i)).
Proof. unfold lives. destruct i; cbn [negb]; [apply Permutation_app_comm | done]. Qed.

Lemma pends_at L i : pends L ≡ₚ pend (items L i) ++ pend (items L (negb i)).
Proof. unfold pends. destruct i; cbn [negb]; [apply Permutation_app_comm | done]. Qed.

Lemma items_upd L i st d its : items (upd L i (Fmt st d its)) i = its.
Proof. unfold items. by rewrite sec_upd_eq. Qed.

Lemma items_upd_ne L i S : items (upd L i S) (negb i) = items L (negb i).
Proof. unfold items. by rewrite sec_upd_ne. Qed.

(** ** The steps *)

Lemma split_one {A} (l1 l2 : list A) x : l1 ++ x :: l2 = l1 ++ [x] ++ l2.
Proof. done. Qed.

Lemma live_split l1 st k v l2 :
  live (l1 ++ Rec st k v :: l2) = live l1 ++ (if st =? ENV_WRITE then [(k, v)] else []) ++ live l2.
Proof. by rewrite split_one, !live_app, live_rec. Qed.

Lemma pend_split l1 st k v l2 :
  pend (l1 ++ Rec st k v :: l2) = pend l1 ++ (if st =? ENV_PRE_DELETE then [(k, v)] else []) ++ pend l2.
Proof. by rewrite split_one, !pend_app, pend_rec. Qed.

Section Steps.
Context (L : Sec * Sec) (i : bool) (st d : Z).

Lemma lists_upd its its' (A A' B B' : list entry) :
  items L i = its -> live its ++ A' ≡ₚ live its' ++ A -> pend its ++ B' ≡ₚ pend its' ++ B ->
  lives L ++ A' ≡ₚ lives (upd L i (Fmt st d its')) ++ A /\ pends L ++ B' ≡ₚ pends (upd L i (Fmt st d its')) ++ B.
Proof.
  intros E Ha Hb. rewrite (lives_at L i), (pends_at L i), (lives_at (upd L i _) i), (pends_at (upd L i _) i).
  rewrite items_upd, items_upd_ne, E. split.
  - rewrite <- !app_assoc, (Permutation_app_comm _ A'), (Permutation_app_comm _ A), !app_assoc. by rewrite Ha.
  - rewrite <- !app_assoc, (Permutation_app_comm _ B'), (Permutation_app_comm _ B), !app_assoc. by rewrite Hb.
Qed.

Context (k v : list Z).

Lemma mark_lists l1 l2 :
  items L i = l1 ++ Rec ENV_WRITE k v :: l2 ->
  let L' := upd L i (Fmt st d (l1 ++ Rec ENV_PRE_DELETE k v :: l2)) in
  lives L ≡ₚ (k, v) :: lives L' /\ pends L' ≡ₚ (k, v) :: pends L.
Proof.
  intros E L'. destruct (lists_upd _ (l1 ++ Rec ENV_PRE_DELETE k v :: l2) [(k, v)] [] [] [(k, v)] E) as [HA HB].
  - rewrite !live_split. cbn. solve_Permutation.
  - rewrite !pend_split. cbn. solve_Permutation.
  - fold L' in HA, HB. rewrite app_nil_r in HA, HB. split; [rewrite HA | rewrite <- HB]; solve_Permutation.
Qed.

Lemma delete_lists l1 l2 :
  items L i = l1 ++ Rec ENV_PRE_DELETE k v :: l2 ->
  let L' := upd L i (Fmt st d (l1 ++ Rec ENV_DELETED k v :: l2)) in
  lives L' ≡ₚ lives L /\ pends L ≡ₚ (k, v) :: pends L'.
Proof.
  intros E L'. destruct (lists_upd _ (l1 ++ Rec ENV_DELETED k v :: l2) [] [] [(k, v)] [] E) as [HA HB].
  - rewrite !live_split. cbn. solve_Permutation.
  - rewrite !pend_split. cbn. solve_Permutation.
  - fold L' in HA, HB. rewrite !app_nil_r in *. split; [by symmetry | rewrite HB]. solve_Permutation.
Qed.

Lemma delete_live_lists l1 l2 :
  items L i = l1 ++ Rec ENV_WRITE k v :: l2 ->
  let L' := upd L i (Fmt st d (l1 ++ Rec 6 k v :: l2)) in
  lives L ≡ₚ (k, v) :: lives L' /\ pends L' ≡ₚ pends L.
Proof.
  intros E L'. destruct (lists_upd _ (l1 ++ Rec 6 k v :: l2) [(k, v)] [] [] [] E) as [HA HB].
  - rewrite !live_split. cbn. solve_Permutation.
  - rewrite !pend_split. cbn. solve_Permutation.
  - fold L' in HA, HB. rewrite !app_nil_r in *. split; [rewrite HA; solve_Permutation | by symmetry].
Qed.

Lemma append_lists its :
  items L i = its ->
  let L' := upd L i (Fmt st d (its ++ [Rec ENV_WRITE k v])) in
  lives L' ≡ₚ (k, v) :: lives L /\ pends L' ≡ₚ pends L.
Proof.
  intros E L'. destruct (lists_upd _ (its ++ [Rec ENV_WRITE k v]) [] [(k, v)] [] [] E) as [HA HB].
  - rewrite live_app, live_rec. cbn. solve_Permutation.
  - rewrite pend_app, pend_rec. cbn. solve_Permutation.
  - fold L' in HA, HB. rewrite !app_nil_r in *. split; [rewrite <- HA; solve_Permutation | by symmetry].
Qed.

(** Anything else changes neither list. *)
Lemma other_lists its its' :
  items L i = its -> live its' = live its -> pend its' = pend its ->
  let L' := upd L i (Fmt st d its') in lives L' ≡ₚ lives L /\ pends L' ≡ₚ pends L.
Proof.
  intros E Ha Hb L'. destruct (lists_upd _ its' [] [] [] [] E) as [HA HB]; [by rewrite Ha | by rewrite Hb|].
  fold L' in HA, HB. rewrite !app_nil_r in *. by split; symmetry.
Qed.
End Steps.

(** ** Records that stay where they are *)

Lemma found_upd L i st d its st' d' its' k v x :
  sec L i = Fmt st d its ->
  (forall l1 l2, its = l1 ++ Rec ENV_WRITE k v :: l2 ->
     exists l1' l2', its' = l1' ++ Rec ENV_WRITE k v :: l2' /\ ilen l1' = ilen l1) ->
  found_at L k v x -> found_at (upd L i (Fmt st' d' its')) k v x.
Proof.
  intros HS Hk (j & st0 & d0 & l1 & l2 & HSj & ->). destruct (decide (j = i)) as [->|Hne].
  - rewrite HS in HSj. injection HSj as -> -> ->. destruct (Hk l1 l2 eq_refl) as (l1' & l2' & -> & El).
    exists i, st', d', l1', l2'. rewrite sec_upd_eq. split; [done|]. unfold ends. by rewrite El.
  - exists j, st0, d0, l1, l2. replace j with (negb i) in * by (by destruct i, j). by rewrite sec_upd_ne.
Qed.

Lemma found_status L i st d l1 l2 k0 v0 r r' st' d' k v x :
  sec L i = Fmt st d (l1 ++ Rec r k0 v0 :: l2) -> k <> k0 \/ r <> ENV_WRITE ->
  found_at L k v x -> found_at (upd L i (Fmt st' d' (l1 ++ Rec r' k0 v0 :: l2))) k v x.
Proof.
  intros HS Hne. apply (found_upd L i st d _ st' d' _ k v x HS). intros m1 m2 E.
  apply app_eq_app in E as (l & [[E1 E2]|[E1 E2]]); destruct l as [|z l].
  - injection E2; intros; destruct Hne; congruence.
  - injection E2 as <- ->. exists m1, (l ++ Rec r' k0 v0 :: l2). by rewrite E1, <- app_assoc.
  - injection E2; intros; destruct Hne; congruence.
  - injection E2 as <- ->. exists (l1 ++ Rec r' k0 v0 :: l), m2. split; [by rewrite <- app_assoc|].
    by rewrite E1, !ilen_app, !ilen_cons, !rec_len.
Qed.

Lemma found_snoc L i st d its it st' d' k v x :
  sec L i = Fmt st d its -> found_at L k v x -> found_at (upd L i (Fmt st' d' (its ++ [it]))) k v x.
Proof.
  intros HS. apply (found_upd L i st d _ st' d' _ k v x HS). intros l1 l2 ->.
  exists l1, (l2 ++ [it]). by rewrite <- app_assoc.
Qed.

Lemma found_levels L i st d its st' d' k v x :
  sec L i = Fmt st d its -> found_at L k v x -> found_at (upd L i (Fmt st' d' its)) k v x.
Proof. intros HS. apply (found_upd L i st d _ st' d' _ k v x HS). intros l1 l2 ->. by exists l1, l2. Qed.

Lemma found_new L i st d its k v :
  found_at (upd L i (Fmt st d (its ++ [Rec ENV_WRITE k v]))) k v (ends (base i) its).
Proof. exists i, st, d, its, []. by rewrite sec_upd_eq. Qed.

Lemma cached_step L L' k :
  (forall k' v' x, k' <> k -> found_at L k' v' x -> found_at L' k' v' x) ->
  forall c x, cached_in L c x -> c <> name_crc16 k -> cached_in L' c x.
Proof. intros Hf c x (k' & v' & Hk & ->) Hne. exists k', v'. split; [|done]. apply Hf; [by intros -> | done]. Qed.

Lemma cached_all L L' :
  (forall k' v' x, found_at L k' v' x -> found_at L' k' v' x) -> forall c x, cached_in L c x -> cached_in L' c x.
Proof. intros Hf c x (k' & v' & Hk & ->). exists k', v'. split; [by apply Hf | done]. Qed.

Lemma wf_upd L i st d its :
  wf L -> (st = SECTOR_STORE_EMPTY <-> its = []) -> tidy its -> wf (upd L i (Fmt st d its)).
Proof.
  intros Hwf He Ht j. destruct (decide (j = i)) as [->|Hne]; [by rewrite sec_upd_eq|].
  replace j with (negb i) by (by destruct i, j). by rewrite sec_upd_ne.
Qed.

Lemma tidy_snoc its k v r : tidy (its ++ [Rec r k v]).
Proof. right. by rewrite last_snoc. Qed.

Lemma tidy_status l1 l2 k v r r' : tidy (l1 ++ Rec r k v :: l2) -> tidy (l1 ++ Rec r' k v :: l2).
Proof.
  intros [Hn|Ht].
  - left. unfold no_gaps in *. rewrite !forallb_app in *. exact Hn.
  - right. destruct l2 as [|x l2 _] using rev_ind; [by rewrite last_snoc in *|].
    rewrite app_comm_cons, app_assoc, last_snoc in *. exact Ht.
Qed.

Lemma wf_status L i st d l1 l2 k v r r' d' :
  wf L -> sec L i = Fmt st d (l1 ++ Rec r k v :: l2) -> wf (upd L i (Fmt st d' (l1 ++ Rec r' k v :: l2))).
Proof.
  intros Hwf HS. pose proof (Hwf i) as Hw. rewrite HS in Hw. destruct Hw as [He Ht]. apply wf_upd; [done | |].
  - rewrite He. split; intros E; by destruct l1.
  - by eapply tidy_status.
Qed.
