(* ===== verification/EfTorn.v ===== *)
(** * Records torn by a loss of power

    A record of which only the first bytes were written is an item of the log,
    [torn], that is neither live nor pending, as long as no part of it is taken
    for a record of its own and none passes for the whole: [tear_safe]. *)

From S2P Require Import Prelude CStr Storage EfEnv EfFlash EfLayout EfRead EfStore EfCache EfFind EfOps EfAlloc EfCreate EfMove EfLog.
Open Scope list_scope.

(** The bytes behind the status table when [n] of them are written. *)
Definition torn_body (k v : list Z) (n : nat) : list Z :=
  take n (rec_body k v) ++ replicate (length (rec_body k v) - n) 255.

(** No part of the record begins with the magic word but its start, and no
    beginning of it passes the check. *)
Definition tear_safe (k v : list Z) : Prop :=
  forall n, (8 <= n < length (rec_body k v))%nat ->
    magic_free (torn_body k v n) /\ le32 (torn_body k v n) 8 <> Some (ef_calc_crc32 0 (drop 12 (torn_body k v n))).

(** A test for it. *)
Definition magic_free_b (bs : list Z) : bool :=
  forallb (fun j => negb (bool_decide (slice bs j 4 = le_bytes ENV_MAGIC_WORD))) (seqZ 1 (zlen bs - 4)).
Definition tear_safe_b (k v : list Z) : bool :=
  forallb (fun n => magic_free_b (torn_body k v n)
                    && negb (bool_decide (le32 (torn_body k v n) 8 = Some (ef_calc_crc32 0 (drop 12 (torn_body k v n))))))
    (seq 8 (length (rec_body k v) - 8)).

Lemma tear_safe_check k v : tear_safe_b k v = true -> tear_safe k v.
Proof.
  unfold tear_safe_b. rewrite forallb_forall. intros Ht n Hn.
  assert (Hi : In n (seq 8 (length (rec_body k v) - 8))) by (apply in_seq; lia).
  apply Ht in Hi. apply andb_true_iff in Hi as [Hm Hc]. split; [|by apply negb_true_iff, bool_decide_eq_false in Hc].
  intros j Hj Hj4. unfold magic_free_b in Hm. rewrite forallb_forall in Hm.
  assert (Hi : In j (seqZ 1 (zlen (torn_body k v n) - 4))) by (apply list_elem_of_In, elem_of_seqZ; lia).
  by apply Hm, negb_true_iff, bool_decide_eq_false in Hi.
Qed.

Definition short_body (k v : list Z) (n : nat) : list Z := take n (rec_body k v) ++ replicate (20 - n) 255.

Definition torn (k v : list Z) (n : nat) (first : bool) : item :=
  if decide (length (rec_body k v) <= n)%nat then Rec ENV_PRE_WRITE k v
  else if decide (8 <= n)%nat then Bad 0 false (torn_body k v n)
  else if first || bool_decide (4 <= n)%nat then Bad 0 false (short_body k v n)
  else if decide (n = 0)%nat then Gap [0]
  else Gap ([0; 255; 255; 255; 255; 255; 255; 255] ++ take n (rec_body k v)).

Section Torn.
Context (k v : list Z) (Hok : entry_ok k v) (Hsafe : tear_safe k v).

Lemma body_head : exists l0 l1 l2 l3 rest, rec_body k v = 75 :: 86 :: 52 :: 48 :: l0 :: l1 :: l2 :: l3 :: rest
  /\ (20 <= length (rec_body k v))%nat.
Proof.
  unfold rec_body, hdr_bytes. change (le_bytes ENV_MAGIC_WORD) with [75; 86; 52; 48].
  do 5 eexists. split; [reflexivity|]. rewrite !length_app. cbn. lia.
Qed.

Lemma short_body_ok n : (n < 8)%nat -> bad_short (short_body k v n) /\ bytes_ok (short_body k v n) /\ magic_free (short_body k v n).
Proof.
  intros Hn. destruct body_head as (l0 & l1 & l2 & l3 & rest & Eb & Hl). pose proof (rec_body_ok k v Hok) as Hby.
  unfold short_body. rewrite Eb in *.
  assert (Hlen : zlen (take n (75 :: 86 :: 52 :: 48 :: l0 :: l1 :: l2 :: l3 :: rest) ++ replicate (20 - n) 255) = 20).
  { unfold zlen. rewrite length_app, length_take, length_replicate. cbn. lia. }
  split; [split; [exact Hlen|]|split].
  - rewrite !Forall_cons in Hby. destruct Hby as (_ & _ & _ & _ & B0 & B1 & B2 & B3 & _). unfold is_byte in *.
    assert (Hshape : exists x0 x1 x2 x3 a b c r, take n (75 :: 86 :: 52 :: 48 :: l0 :: l1 :: l2 :: l3 :: rest) ++ replicate (20 - n) 255
              = x0 :: x1 :: x2 :: x3 :: a :: b :: c :: 255 :: r /\ is_byte a /\ is_byte b /\ is_byte c).
    { do 8 (destruct n as [|n]; [eexists _, _, _, _, _, _, _, _; split; [reflexivity | unfold is_byte; lia]|]). lia. }
    destruct Hshape as (x0 & x1 & x2 & x3 & a & b & c & r & -> & Ha & Hb & Hc). unfold is_byte in *.
    exists (u32 (a + b * 256 + c * 65536 + 255 * 16777216)). split; [reflexivity|]. left. rewrite u32_small by lia.
    unfold ENV_AREA_SIZE, EF_ERASE_MIN_SIZE. lia.
  - apply Forall_app. split; [by apply Forall_take|]. apply Forall_replicate. done.
  - intros j Hj Hj4 E. rewrite Hlen in Hj4. change (le_bytes ENV_MAGIC_WORD) with [75; 86; 52; 48] in E.
    unfold slice in E. replace (Z.to_nat j) with (S (Z.to_nat (j - 1))) in E by lia. set (p := Z.to_nat (j - 1)) in *.
    assert (Hp : (p <= 15)%nat) by lia.
    assert (E0 : (take n (75 :: 86 :: 52 :: 48 :: l0 :: l1 :: l2 :: l3 :: rest) ++ replicate (20 - n) 255) !! (S p) = Some 75).
    { rewrite <- (Nat.add_0_r (S p)), <- lookup_drop, <- (lookup_take_lt _ (Z.to_nat 4)) by lia. by rewrite E. }
    assert (E3 : (take n (75 :: 86 :: 52 :: 48 :: l0 :: l1 :: l2 :: l3 :: rest) ++ replicate (20 - n) 255) !! (S p + 3)%nat = Some 48).
    { rewrite <- lookup_drop, <- (lookup_take_lt _ (Z.to_nat 4)) by lia. by rewrite E. }
    do 8 (destruct n as [|n]; [do 16 (destruct p as [|p]; [cbn in E0, E3; congruence|]); lia|]). lia.
Qed.

Lemma torn_body_zlen n : (n <= length (rec_body k v))%nat -> zlen (torn_body k v n) = node_len k v - 8.
Proof.
  intros Hn. rewrite <- rec_body_zlen. unfold torn_body, zlen. rewrite length_app, length_take, length_replicate. lia.
Qed.

Lemma short_zlen n : (n < 8)%nat -> zlen (short_body k v n) = 20.
Proof. intros Hn. by destruct (short_body_ok n Hn) as [[? _] _]. Qed.

(** The word of the length is complete. *)
Lemma torn_len n : (8 <= n <= length (rec_body k v))%nat -> le32 (torn_body k v n) 4 = Some (node_len k v).
Proof.
  intros Hn. pose proof (entry_len_bound k v Hok) as Hb. unfold torn_body, rec_body, hdr_bytes.
  change (le_bytes ENV_MAGIC_WORD) with [75; 86; 52; 48]. cbn [app le_bytes].
  do 8 (destruct n as [|n]; [lia|]). cbn [take app].
  etransitivity; [|apply f_equal, le_word]; [reflexivity | lia].
Qed.

Lemma gap_ok n : (n < 4)%nat ->
  item_ok (Gap ([0; 255; 255; 255; 255; 255; 255; 255] ++ take n (rec_body k v))) /\ item_ok (Gap [0]).
Proof.
  intros Hn. destruct body_head as (l0 & l1 & l2 & l3 & rest & -> & _). cbn [item_ok].
  assert (Hgap : forall bs, bytes_ok bs -> (exists t, bs = 0 :: t) -> zlen bs < 12 ->
            (forall j, (j < 12)%nat -> take 4 (drop j bs) <> [75; 86; 52; 48]) ->
            bytes_ok bs /\ (exists t, bs = 0 :: t) /\ zlen bs < 12
            /\ forall j, 0 <= j -> j + 4 <= zlen bs -> slice bs j 4 <> le_bytes ENV_MAGIC_WORD).
  { intros bs H1 H2 H3 H4. repeat split; try done. intros j Hj Hj4. apply (H4 (Z.to_nat j)). lia. }
  split; apply Hgap; try done.
  - do 4 (destruct n as [|n]; [by repeat constructor|]). lia.
  - by eexists.
  - unfold zlen. rewrite length_app, length_take. cbn. lia.
  - intros j Hj. do 4 (destruct n as [|n]; [do 12 (destruct j as [|j]; [discriminate|]); lia|]). lia.
  - by repeat constructor.
  - by eexists.
  - intros j Hj. do 12 (destruct j as [|j]; [discriminate|]). lia.
Qed.

Lemma torn_ok n first :
  (n <= length (rec_body k v))%nat ->
  item_ok (torn k v n first) /\ (first = true -> is_gap (torn k v n first) = false)
  /\ (first = false -> found (torn k v n first)) /\ item_len (torn k v n first) <= node_len k v.
Proof.
  intros Hn. pose proof (entry_len_bound k v Hok) as Hb. pose proof (rec_body_ok k v Hok) as Hby.
  destruct body_head as (l0 & l1 & l2 & l3 & rest & Eb & Hl). unfold torn.
  destruct (decide (length (rec_body k v) <= n)%nat) as [Hfull|Hpart].
  { split; [split; [by left | done]|]. split; [done|]. split; [done|]. rewrite rec_len. lia. }
  destruct (decide (8 <= n)%nat) as [H8|H8].
  { destruct (Hsafe n) as [Hmf Hcrc]; [lia|]. pose proof (torn_body_zlen n Hn) as Hz.
    split; [|split; [done|split]].
    - cbn [item_ok]. split; [apply Forall_app; split; [by apply Forall_take | by apply Forall_replicate]|].
      split; [by left|]. split; [done|]. right. split; [done|]. unfold bad_long.
      rewrite Hz, torn_len by lia. unfold SECTOR_SIZE, EF_ERASE_MIN_SIZE, SECTOR_HDR_DATA_SIZE.
      split; [lia|]. split; [f_equal; lia | done].
    - intros _. cbn [found]. unfold torn_body. rewrite Eb. do 8 (destruct n as [|n]; [lia|]). done.
    - rewrite bad_len, Hz. lia. }
  destruct (first || bool_decide (4 <= n)%nat) eqn:E4.
  { destruct (short_body_ok n) as (Hsh & Hsb & Hmf); [lia|]. pose proof Hsh as [Hz _].
    split; [|split; [done|split]].
    - cbn [item_ok]. split; [done|]. split; [by left|]. split; [done|]. by left.
    - intros ->. cbn [orb] in E4. apply bool_decide_eq_true in E4. cbn [found]. unfold short_body. rewrite Eb.
      do 4 (destruct n as [|n]; [lia|]). done.
    - rewrite bad_len, Hz. lia. }
  apply orb_false_iff in E4 as [-> E4%bool_decide_eq_false]. destruct (gap_ok n) as [Hg Hg0]; [lia|].
  destruct (decide (n = 0%nat)) as [->|Hn0].
  - split; [exact Hg0|]. split; [done|]. split; [done|]. change (item_len (Gap [0])) with 1. lia.
  - split; [exact Hg|]. split; [done|]. split; [done|]. unfold item_len. cbn [item_bytes]. rewrite zlen_app.
    unfold zlen. rewrite length_take. cbn [length]. lia.
Qed.

Lemma torn_lists n first : live [torn k v n first] = [] /\ pend [torn k v n first] = [].
Proof. unfold torn. by repeat case_decide; repeat case_match. Qed.

Lemma torn_tidy its n : no_gaps its -> tidy (its ++ [torn k v n (bool_decide (its = []))]).
Proof.
  intros Hng. unfold torn. destruct body_head as (l0 & l1 & l2 & l3 & rest & Eb & Hl).
  assert (Hbad : forall b0 err r, tidy (its ++ [Bad b0 err r])).
  { intros. left. unfold no_gaps in *. by rewrite forallb_app, Hng. }
  destruct (decide (length (rec_body k v) <= n)%nat); [apply tidy_snoc|].
  destruct (decide (8 <= n)%nat); [apply Hbad|].
  destruct (bool_decide (its = []) || bool_decide (4 <= n)%nat) eqn:E; [apply Hbad|].
  apply orb_false_iff in E as [_ E%bool_decide_eq_false]. right. rewrite last_snoc.
  destruct (decide (n = 0%nat)); [done|]. rewrite Eb.
  do 4 (destruct n as [|n]; [done|]). lia.
Qed.

(** What the flash holds is the item. *)
Lemma torn_holds nu a n first top :
  (n <= length (rec_body k v))%nat -> a + node_len k v <= top ->
  holds nu a ([0; 255; 255; 255; 255; 255; 255; 255] ++ take n (rec_body k v)) ->
  (forall x, a + 8 + Z.of_nat n <= x < top -> nu x = 255) ->
  holds nu a (item_bytes (torn k v n first))
  /\ forall x, a + item_len (torn k v n first) <= x < top -> nu x = 255.
Proof.
  intros Hn Hfit Hh Hff. pose proof (rec_body_zlen k v) as Hz. pose proof (entry_len_bound k v Hok) as Hb.
  assert (Hpad : forall w, a + 8 + Z.of_nat (n + w) <= top ->
            holds nu a ([0; 255; 255; 255; 255; 255; 255; 255] ++ (take n (rec_body k v) ++ replicate w 255))).
  { intros w Hw. rewrite app_assoc, holds_app. split; [done|]. rewrite zlen_app.
    change (zlen [0; 255; 255; 255; 255; 255; 255; 255]) with 8.
    assert (Ht : zlen (take n (rec_body k v)) = Z.of_nat n) by (unfold zlen; rewrite length_take; lia). rewrite Ht.
    apply list_eq. intros p. destruct (decide (p < w)%nat) as [Hp|Hp].
    - rewrite lookup_replicate_2 by done. rewrite bytes_at_lookup by (unfold zlen; rewrite length_replicate; lia).
      f_equal. apply Hff. lia.
    - rewrite !lookup_ge_None_2; [done | rewrite length_replicate; lia |].
      unfold bytes_at, zlen. rewrite length_map, length_seqZ, length_replicate. lia. }
  unfold torn, zlen in *. destruct (decide (length (rec_body k v) <= n)%nat) as [Hfull|Hpart].
  { rewrite rec_len. replace n with (length (rec_body k v)) in * by lia. rewrite firstn_all in Hh.
    split; [exact Hh|]. intros x Hx. apply Hff. lia. }
  destruct (decide (8 <= n)%nat) as [H8|H8].
  { rewrite bad_len, torn_body_zlen by lia. split; [|intros x Hx; apply Hff; lia].
    apply (Hpad (length (rec_body k v) - n)%nat). lia. }
  destruct (first || bool_decide (4 <= n)%nat) eqn:E4.
  { rewrite bad_len, short_zlen by lia. split; [|intros x Hx; apply Hff; lia]. apply (Hpad (20 - n)%nat). lia. }
  destruct (decide (n = 0%nat)) as [->|Hn0].
  - cbn [take] in Hh. rewrite app_nil_r in Hh. change [0; 255; 255; 255; 255; 255; 255; 255] with ([0] ++ replicate 7 255) in Hh.
    apply holds_app in Hh as [Hh0 Hh7]. split; [exact Hh0|]. change (item_len (Gap [0])) with 1. intros x Hx.
    destruct (Z.lt_ge_cases x (a + 8)) as [Hlt|Hge]; [|apply Hff; lia].
    change (zlen [0]) with 1 in Hh7. replace x with (a + 1 + Z.of_nat (Z.to_nat (x - a - 1))) by lia.
    apply (holds_lookup nu (a + 1) (replicate 7 255)); [done|]. apply lookup_replicate_2. lia.
  - split; [exact Hh|]. unfold item_len. cbn [item_bytes]. rewrite zlen_app.
    change (zlen [0; 255; 255; 255; 255; 255; 255; 255]) with 8. unfold zlen. rewrite length_take. intros x Hx. apply Hff. lia.
Qed.

Lemma torn_append m0 mu L i st d its n :
  Flash m0 L -> sec L i = Fmt st d its -> node_len k v <= free i its -> (n <= length (rec_body k v))%nat ->
  built m0 (ends (base i) its) (rec_body k v) n mu ->
  Flash mu (upd L i (Fmt st d (its ++ [torn k v n (bool_decide (its = []))]))).
Proof.
  intros HF HS Hfit Hn Hb. destruct (torn_ok n (bool_decide (its = [])) Hn) as (Hio & Hg & Hfd & Hlen).
  pose proof (rec_body_zlen k v) as Hz. pose proof (entry_len_bound k v Hok). unfold free, zlen in *.
  eapply Flash_append; [done | done | done | done | by apply rec_body_ok | lia | | done | | | lia |].
  - intros nu Hh Hff. rewrite ends_snoc. apply torn_holds; [done | lia | done | done].
  - intros ->. by apply Hg, bool_decide_eq_true.
  - intros Hne. by apply Hfd, bool_decide_eq_false.
  - rewrite ends_snoc. lia.
Qed.
End Torn.

(** A sector in use without a record reads as one with a torn record. *)
Definition phantom : item := Bad 255 false (replicate 20 255).

Lemma phantom_ok : item_ok phantom.
Proof.
  cbn [item_ok phantom]. split; [by apply Forall_replicate|]. split; [by right|]. split.
  - intros j Hj Hj4 E. change (zlen (replicate 20 255)) with 20 in Hj4. unfold slice in E.
    assert (E0 : replicate 20 255 !! Z.to_nat j = Some 75).
    { rewrite <- (Nat.add_0_r (Z.to_nat j)), <- lookup_drop, <- (lookup_take_lt _ (Z.to_nat 4)) by lia. by rewrite E. }
    rewrite lookup_replicate_2 in E0 by lia. done.
  - left. split; [done|]. exists 4294967295. split; [done|]. left. done.
Qed.

Lemma Flash_phantom mu L i st d :
  Flash mu L -> sec L i = Fmt st d [] -> Flash mu (upd L i (Fmt st d [phantom])).
Proof.
  intros (L0 & Hl & HL) HS. destruct (like_fmt L0 L i st d _ Hl HS) as (its0 & HS0 & E). destruct its0; [|done].
  exists (upd L0 i (Fmt st d [phantom])). split; [by apply like_upd|].
  pose proof (HL i) as Hlay. rewrite HS0 in Hlay. pose proof Hlay as [Hlv Hh _ Hff _ _].
  unfold ends in Hff. rewrite ilen_nil in Hff.
  apply (flash_is_upd mu); [done | done|].
  assert (El : ilen [phantom] = 28) by done.
  apply (fmt_append mu mu (base i) st d []); try done.
  - unfold ends. rewrite ilen_nil. apply list_eq. intros p. destruct (decide (p < 28)%nat) as [Hp|Hp].
    + rewrite bytes_at_lookup by (change (zlen (item_bytes phantom)) with 28; lia).
      change (item_bytes phantom) with (replicate 28 255). rewrite lookup_replicate_2 by done. f_equal. apply Hff.
      unfold SECTOR_HDR_DATA_SIZE, SECTOR_SIZE, EF_ERASE_MIN_SIZE. lia.
    + rewrite !lookup_ge_None_2; [done | by apply Nat.nlt_ge|].
      unfold bytes_at. rewrite length_map, length_seqZ. change (zlen (item_bytes phantom)) with 28. lia.
  - unfold ends. cbn [app]. rewrite El. intros x Hx. apply Hff. unfold SECTOR_HDR_DATA_SIZE in *. lia.
  - apply items_ok_snoc; [apply Hlay | apply phantom_ok | done | done|].
    intros _. rewrite ilen_nil. unfold SECTOR_HDR_DATA_SIZE, SECTOR_SIZE, EF_ERASE_MIN_SIZE. lia.
  - unfold ends. cbn [app]. rewrite El. unfold SECTOR_HDR_DATA_SIZE, SECTOR_SIZE, EF_ERASE_MIN_SIZE. lia.
Qed.
