(* ===== verification/EfGc.v ===== *)
(** * Moving records and the collection

    [move_env] copies a record to another place and deletes it; [gc_collect] moves
    what is live out of a marked sector and formats it. *)

From S2P Require Import Prelude CStr Storage EfEnv EfFlash EfLayout EfRead EfStore EfCache EfFind EfOps EfAlloc EfCreate EfMove EfLog.
Open Scope list_scope.

Section Gc.
Context {C : Type} `{FlashDoc C} (P : (Z -> Z) -> Prop) (junk_env : env_node_obj) (junk_sector : sector_meta_data).
Implicit Types (s : Ef C).

(** ** [move_env] *)

Definition marked (L : Sec * Sec) (j : bool) (st d : Z) (l1 l2 : list item) (k v : list Z) (r : Z) : Sec * Sec :=
  if r =? ENV_WRITE then upd L j (Fmt st (soil d) (l1 ++ Rec ENV_PRE_DELETE k v :: l2)) else L.
Definition marked_ram (r : Z) (R : EfRam) : EfRam := if r =? ENV_WRITE then put_last true R else R.

Lemma wpc_mark L j st d l1 l2 k v r env (Q : unit -> Ef C -> Prop) s :
  store L s -> sec L j = Fmt st d (l1 ++ Rec r k v :: l2) -> r = ENV_WRITE \/ r = ENV_PRE_DELETE ->
  seen (Rec r k v) (ends (base j) l1) env -> PL P L ->
  (r = ENV_WRITE -> PL P (upd L j (Fmt st d (l1 ++ Rec ENV_PRE_DELETE k v :: l2)))
                    /\ PL P (upd L j (Fmt st (soil d) (l1 ++ Rec ENV_PRE_DELETE k v :: l2)))) ->
  (forall s', ram s' = marked_ram r (ram s) -> store (marked L j st d l1 l2 k v r) s' -> Q tt s') ->
  wpc P (if env_status env =? ENV_WRITE then run del_env junk_env junk_sector None (Some env) false; ret tt else ret tt) Q s.
Proof.
  intros Hs HS Hr (Ha & _ & _ & Est & Enl & _ & Hname & _) HP HPm HQ. rewrite Est. unfold marked, marked_ram in HQ.
  rewrite <- Enl in Hname. destruct Hr as [->| ->].
  - destruct (HPm eq_refl) as [HP1 HP2]. apply wpc_bind.
    apply (wpc_del_env P junk_env junk_sector L j st d l1 l2 k v 2 3 None env false); try done;
      [right; by left | by left |]. intros s' Hr' Hs'. by apply wpc_ret, HQ.
  - apply wpc_ret. by apply HQ.
Qed.

Lemma wpc_finish L j st d l1 l2 k v env (res : EfErrCode) (Q : EfErrCode -> Ef C -> Prop) s :
  store L s -> sec L j = Fmt st d (l1 ++ Rec ENV_PRE_DELETE k v :: l2) ->
  addr_start env = ends (base j) l1 -> prefix (env_name env) (name_len env) = Some k -> PL P L ->
  PL P (upd L j (Fmt st d (l1 ++ Rec ENV_DELETED k v :: l2))) ->
  PL P (upd L j (Fmt st (soil d) (l1 ++ Rec ENV_DELETED k v :: l2))) ->
  (forall s', ram s' = put_last false (if last_is_complete_del (ram s) then ram s
       else put_env_cache (update_env_cache k FAILED_ADDR (env_cache_table (ram s))) (ram s)) ->
     store (upd L j (Fmt st (soil d) (l1 ++ Rec ENV_DELETED k v :: l2))) s' -> Q res s') ->
  wpc P (run del_env junk_env junk_sector None (Some env) true; ret res) Q s.
Proof.
  intros Hs HS Ha Hname HP HP1 HP2 HQ. apply wpc_bind.
  apply (wpc_del_env P junk_env junk_sector L j st d l1 l2 k v 3 4 None env true); try done;
    [right; right; by left | by left |]. intros s' Hr' Hs'. by apply wpc_ret, HQ.
Qed.

(** The state after a move: the caches and the flag of the deletion differ. *)
Definition moved_ram (R R' : EfRam) : Prop :=
  exists t te, R' = put_last false (put_env_cache te (put_sec_cache t R)).

(** The sectors after the copy to [i] and the deletion of the record at [l1]. *)
Definition copied (L : Sec * Sec) (i : bool) (k v : list Z) : Sec * Sec :=
  match sec L i with
  | Fmt st d its => upd L i (Fmt (next_store st i its (node_len k v)) d (its ++ [Rec ENV_WRITE k v]))
  | Blank => L
  end.
Definition behind (i j : bool) (l2 : list item) (k v : list Z) : list item :=
  if eqb i j then l2 ++ [Rec ENV_WRITE k v] else l2.
Definition level_of (L : Sec * Sec) (j : bool) : Z * Z :=
  match sec L j with Fmt st d _ => (st, d) | Blank => (0, 0) end.
Definition finished (L : Sec * Sec) (j : bool) (l1 l2 : list item) (k v : list Z) : Sec * Sec :=
  let '(st, d) := level_of L j in upd L j (Fmt st (soil d) (l1 ++ Rec ENV_DELETED k v :: l2)).
Definition unsoiled (L : Sec * Sec) (j : bool) (l1 l2 : list item) (k v : list Z) : Sec * Sec :=
  let '(st, d) := level_of L j in upd L j (Fmt st d (l1 ++ Rec ENV_DELETED k v :: l2)).

Lemma copied_at L i j st d l1 l2 k v :
  sec L j = Fmt st d (l1 ++ Rec ENV_PRE_DELETE k v :: l2) -> sec L i <> Blank ->
  exists st', sec (copied L i k v) j = Fmt st' d (l1 ++ Rec ENV_PRE_DELETE k v :: behind i j l2 k v).
Proof.
  intros HS HB. unfold copied, behind. destruct (decide (i = j)) as [->|Hne].
  - rewrite HS, sec_upd_eq, eqb_reflx. rewrite <- app_assoc. cbn [app]. by eexists.
  - destruct (sec L i) as [|sti di its]; [done|]. replace j with (negb i) in * by (by destruct i, j).
    rewrite sec_upd_ne. replace (eqb i (negb i)) with false by (by destruct i). by exists st.
Qed.

(** Whether the record was copied before: asked during the recovery only. *)
Lemma wpc_created La (rec : bool) k env (Q : bool -> Ef C -> Prop) s :
  wf La -> PL P La -> store La s -> text k -> 1 <= zlen k <= 32 -> prefix (env_name env) (name_len env) = Some k ->
  (forall s', ram s' = ram s -> store La s' -> Q (rec && bool_decide (k ∈ (lives La).*1)) s') ->
  wpc P (if rec then
           do name <- lift_opt (name_of env);
           do r <- find_env_no_cache junk_env junk_sector name junk_env; ret (fst r)
         else ret false) Q s.
Proof.
  intros Hwf HP Hs Hk Hl Hname HQ. destruct rec; cbn [andb] in HQ; [|by apply wpc_ret, HQ].
  apply wpc_bind. eapply wpc_lift_opt.
  { unfold name_of. rewrite Hname. apply (c_string_text k []). eapply Forall_impl; [apply Hk|]. cbn. lia. }
  apply wpc_bind. apply (wpc_find_no_cache P junk_env junk_sector La Hwf HP k (ram s)); [done | done | |].
  - intros w a e' s3 Hf _ Hr3 Hs3. apply wpc_ret. cbn [fst]. specialize (HQ s3 Hr3 Hs3).
    rewrite bool_decide_true in HQ; [done|]. eapply in_keys, found_live, Hf.
  - intros Hn e' s3 Hr3 Hs3. apply wpc_ret. cbn [fst]. specialize (HQ s3 Hr3 Hs3).
    rewrite bool_decide_false in HQ; [done|]. intros (w & Hw)%keys_in. by apply (Hn w).
Qed.

(** The deletion at the end of a move that began with the memory [R]. *)
Lemma wpc_move_end L Lc j st d l1 l2 k v r env R te t (Q : EfErrCode -> Ef C -> Prop) s :
  store Lc s -> sec Lc j = Fmt st d (l1 ++ Rec ENV_PRE_DELETE k v :: l2) ->
  addr_start env = ends (base j) l1 -> prefix (env_name env) (name_len env) = Some k ->
  PL P Lc -> PL P (unsoiled Lc j l1 l2 k v) -> PL P (finished Lc j l1 l2 k v) ->
  ram s = put_env_cache te (put_sec_cache t (marked_ram r R)) ->
  (env_cache_ok (cached_in L) (env_cache_table R) -> env_cache_ok (cached_in (finished Lc j l1 l2 k v)) te) ->
  (forall s', moved_ram R (ram s') -> store (finished Lc j l1 l2 k v) s' ->
     (env_cache_ok (cached_in L) (env_cache_table R) ->
      env_cache_ok (cached_in (finished Lc j l1 l2 k v)) (env_cache_table (ram s'))) -> Q EF_NO_ERR s') ->
  wpc P (run del_env junk_env junk_sector None (Some env) true; ret EF_NO_ERR) Q s.
Proof.
  intros Hs HS Ea Hname HP HPu HPf Hr Hte HQ. unfold unsoiled, finished, level_of in *. rewrite HS in HPu, HPf, HQ, Hte.
  apply (wpc_finish Lc j st d l1 l2 k v env); try done. intros s5 Hr5 Hs5. apply HQ; [|done|].
  - rewrite Hr5, Hr. unfold marked_ram, moved_ram. destruct (r =? ENV_WRITE); cbn;
      [eexists t, _; reflexivity|]. destruct (last_is_complete_del R); eexists t, _; reflexivity.
  - intros Hc. specialize (Hte Hc). rewrite Hr5. cbn [env_cache_table put_last]. rewrite Hr.
    destruct (last_is_complete_del (put_env_cache te (put_sec_cache t (marked_ram r R)))); [exact Hte|].
    apply (env_cache_update (cached_in (upd Lc j (Fmt st (soil d) (l1 ++ Rec ENV_DELETED k v :: l2))))); [auto | done | exact Hte].
Qed.

(** The cache after the copy and the deletion. *)
Lemma moved_cache L j st d l1 l2 k v r i sti di t :
  let La := marked L j st d l1 l2 k v r in
  sec L j = Fmt st d (l1 ++ Rec r k v :: l2) -> r = ENV_WRITE \/ r = ENV_PRE_DELETE ->
  sec La j = Fmt st (if r =? ENV_WRITE then soil d else d) (l1 ++ Rec ENV_PRE_DELETE k v :: l2) ->
  sec La i = Fmt sti di (items La i) ->
  env_cache_ok (cached_in L) t ->
  env_cache_ok (cached_in (finished (copied La i k v) j l1 (behind i j l2 k v) k v))
    (update_env_cache k (ends (base i) (items La i)) t).
Proof.
  intros La HS Hr HSa HSi Hc. destruct (copied_at La i j st _ l1 l2 k v HSa) as (st4 & HSc); [by rewrite HSi|].
  assert (Ecopy : copied La i k v = upd La i (Fmt (next_store sti i (items La i) (node_len k v)) di (items La i ++ [Rec ENV_WRITE k v]))).
  { unfold copied at 1. by rewrite HSi. }
  unfold finished, level_of. rewrite HSc. apply (env_cache_update (cached_in L)); [| |done].
  - apply cached_step. intros k' v' x Hne Hf. eapply found_status; [exact HSc | by left|]. rewrite Ecopy.
    eapply found_snoc; [exact HSi|]. unfold La, marked. destruct (r =? ENV_WRITE); [|done].
    eapply found_status; [exact HS | by left | done].
  - intros _. exists k, v. split; [|done]. eapply found_status; [exact HSc | by right|]. rewrite Ecopy. apply found_new.
Qed.

Lemma marked_sec L j st d l1 l2 k v r :
  sec L j = Fmt st d (l1 ++ Rec r k v :: l2) -> r = ENV_WRITE \/ r = ENV_PRE_DELETE -> wf L ->
  sec (marked L j st d l1 l2 k v r) j = Fmt st (if r =? ENV_WRITE then soil d else d) (l1 ++ Rec ENV_PRE_DELETE k v :: l2)
  /\ wf (marked L j st d l1 l2 k v r).
Proof.
  intros HS Hr Hwf. unfold marked. destruct Hr as [->| ->]; [|done]. split; [apply sec_upd_eq | by eapply wf_status].
Qed.

Lemma wpc_move L j st d l1 l2 k v r env i (Q : EfErrCode -> Ef C -> Prop) s :
  let La := marked L j st d l1 l2 k v r in
  store L s -> wf L -> sec L j = Fmt st d (l1 ++ Rec r k v :: l2) -> r = ENV_WRITE \/ r = ENV_PRE_DELETE ->
  seen (Rec r k v) (ends (base j) l1) env ->
  fst (alloc_spec La (node_len k v) (gc_request (ram s))) = Some i ->
  snd (alloc_spec La (node_len k v) (gc_request (ram s))) = gc_request (ram s) ->
  let skip := in_recovery_check (ram s) && bool_decide (k ∈ (lives La).*1) in
  (skip = true -> r = ENV_PRE_DELETE) ->
  let Lc := if skip then La else copied La i k v in
  let l2' := if skip then l2 else behind i j l2 k v in
  PL P L -> PL P (upd L j (Fmt st d (l1 ++ Rec ENV_PRE_DELETE k v :: l2))) -> PL P La ->
  (skip = false -> appending P La i (fst (level_of Lc i)) (snd (level_of La i)) (items La i) k v) ->
  PL P Lc -> PL P (unsoiled Lc j l1 l2' k v) -> PL P (finished Lc j l1 l2' k v) ->
  (forall s', moved_ram (ram s) (ram s') -> store (finished Lc j l1 l2' k v) s' ->
     (env_cache_ok (cached_in L) (env_cache_table (ram s)) ->
      env_cache_ok (cached_in (finished Lc j l1 l2' k v)) (env_cache_table (ram s'))) -> Q EF_NO_ERR s') ->
  wpc P (move_env junk_env junk_sector env) Q s.
Proof.
  intros La Hs Hwf HS Hr Hsn Halloc Hgc skip Hskip Lc l2' HP HPm HPa Happ HPc HPu HPf HQ.
  pose proof Hsn as (Ea & El & _ & _ & Enl & Evl & Hname & _). rewrite <- Enl in Hname. rewrite rec_len in El.
  destruct (marked_sec L j st d l1 l2 k v r HS Hr Hwf) as [HSa Hwfa]. fold La in HSa, Hwfa.
  unfold move_env. apply wpc_bind. apply (wpc_mark L j st d l1 l2 k v r env); try done; [by intros ->|].
  intros s1 Hr1 Hs1. fold La in Hs1.
  assert (Hflags : gc_request (ram s1) = gc_request (ram s) /\ in_recovery_check (ram s1) = in_recovery_check (ram s)).
  { rewrite Hr1. unfold marked_ram. by destruct (r =? ENV_WRITE). }
  destruct Hflags as (Fg & Fr).
  apply wpc_bind. rewrite El. apply (wpc_alloc P junk_env La Hwfa HPa); [done|].
  rewrite Fg, Halloc, Hgc. intros a sector s2 t2 Hr2 Hs2 (-> & sti & di & HSi & Hv & Hroom).
  destruct (alloc_some _ _ _ _ Halloc) as (st0 & d0 & its0 & HSi' & Hnf & Hfree & Hd0). rewrite HSi in HSi'.
  injection HSi' as <- <- <-. pose proof (store_fits La s2 i sti di (items La i) [] Hs2) as Hfit.
  rewrite app_nil_r in Hfit. specialize (Hfit HSi). rewrite ilen_nil in Hfit.
  rewrite (proj2 (Z.eqb_neq (ends (base i) (items La i)) FAILED_ADDR)).
  2: { unfold FAILED_ADDR, SECTOR_SIZE, EF_ERASE_MIN_SIZE in *. destruct (base_cases i); lia. }
  destruct (store_item_ok L s j st d l1 _ l2 Hs HS) as [[_ Hok] _].
  apply wpc_bind, wpc_gets. rewrite Hr2. cbn [in_recovery_check put_gc_request put_sec_cache]. rewrite Fr.
  apply wpc_bind. apply (wpc_created La _ k); [done | done | done | apply Hok | apply Hok | done|]. fold skip. intros s3 Hr3 Hs3.
  unfold Lc, l2' in *. clear Lc l2'. destruct skip.
  - (* the record was created before *)
    apply wpc_bind, wpc_ret. specialize (Hskip eq_refl). subst r.
    apply (wpc_move_end L La j _ _ l1 l2 k v ENV_PRE_DELETE env (ram s) (env_cache_table (ram s)) t2 Q s3 Hs3 HSa); try done.
    + rewrite Hr3, Hr2, Hr1. unfold marked_ram. destruct (ram s); reflexivity.
    + unfold finished, level_of. change La with L in *. rewrite HSa.
      apply env_cache_weaken, cached_all. intros k' v' x. eapply found_status; [exact HSa | by right].
  - specialize (Happ eq_refl).
    assert (Ecopy : copied La i k v = upd La i (Fmt (next_store sti i (items La i) (node_len k v)) di (items La i ++ [Rec ENV_WRITE k v]))).
    { unfold copied at 1. by rewrite HSi. }
    assert (Elvl : fst (level_of (copied La i k v) i) = next_store sti i (items La i) (node_len k v) /\ snd (level_of La i) = di).
    { rewrite Ecopy. unfold level_of. by rewrite sec_upd_eq, HSi. }
    destruct Elvl as [Esti Edi]. rewrite Esti, Edi in Happ.
    apply wpc_bind. rewrite <- !El.
    apply (wpc_copy_record P La i sti di di (items La i) sector k v ENV_PRE_DELETE (ends (base j) l1) env); try done.
    { eexists j, _, _, l1, l2. split; [exact HSa | done]. } { lia. }
    intros s4 t4 Hr4 Hs4. rewrite <- Ecopy in Hs4.
    destruct (copied_at La i j st _ l1 l2 k v HSa) as (st4 & HSc); [by rewrite HSi|].
    apply (wpc_move_end L (copied La i k v) j _ _ l1 (behind i j l2 k v) k v r env (ram s)
             (update_env_cache k (ends (base i) (items La i)) (env_cache_table (ram s))) t4 Q s4 Hs4 HSc); try done.
    + rewrite Hr4, Hr3, Hr2, Hr1. unfold put_moved, marked_ram. destruct (r =? ENV_WRITE), (ram s); reflexivity.
    + by apply moved_cache with (sti := sti) (di := di).
Qed.
End Gc.
