(* ===== verification/EfState.v ===== *)
(** * Layouts from which the store recovers

    [recoverable L m]: the layouts that a loss of power can leave when the
    variables are [m].  One sector holds the records; the other is being formatted,
    is empty, or is the target of a collection that was under way. *)

From S2P Require Import Prelude CStr Storage EfEnv EfFlash EfLayout EfRead EfStore EfCache EfFind EfOps EfAlloc EfCreate EfMove EfLog EfTorn.
Open Scope list_scope.

Definition ROOM : Z := SECTOR_SIZE - SECTOR_HDR_DATA_SIZE.

(** No remains of an interrupted write. *)
Definition whole (it : item) : bool := match it with Rec st _ _ => negb (st =? ENV_PRE_WRITE) | _ => false end.
Definition clean (its : list item) : Prop := forallb whole its = true.

(** Behind a record that was not completed no deletion is under way: the recovery
    goes no further than to such a record. *)
Definition stopper (it : item) : bool := match it with Rec st _ _ => st =? ENV_PRE_WRITE | Bad _ _ _ => true | Gap _ => false end.
Definition ordered (its : list item) : Prop := forall l1 it l2, its = l1 ++ it :: l2 -> stopper it = true -> pend l2 = [].

Lemma clean_app l1 l2 : clean (l1 ++ l2) <-> clean l1 /\ clean l2.
Proof. unfold clean. by rewrite forallb_app, andb_true_iff. Qed.

Lemma clean_status l1 l2 r r' k v : clean (l1 ++ Rec r k v :: l2) -> r' <> ENV_PRE_WRITE -> clean (l1 ++ Rec r' k v :: l2).
Proof.
  rewrite !clean_app. intros [? Hc] Hr. split; [done|]. unfold clean in *. cbn [forallb whole] in *.
  apply andb_true_iff in Hc as [_ ->]. by rewrite (proj2 (Z.eqb_neq _ _) Hr).
Qed.

Lemma clean_no_gaps its : clean its -> no_gaps its.
Proof.
  unfold clean, no_gaps. rewrite !forallb_forall. intros Hc it Hi. specialize (Hc it Hi). by destruct it.
Qed.

Lemma ordered_nil its : pend its = [] -> ordered its.
Proof.
  intros Hp l1 it l2 -> _. change (it :: l2) with ([it] ++ l2) in Hp. rewrite !pend_app in Hp.
  by apply app_nil in Hp as [_ [_ ?]%app_nil].
Qed.

Lemma ordered_clean its x : clean its -> pend [x] = [] -> ordered (its ++ [x]).
Proof.
  intros Hc Hx l1 it l2 E Hs. destruct l2 as [|y l2 _] using rev_ind; [done|].
  rewrite app_comm_cons, app_assoc in E. apply app_inj_tail in E as [-> ->].
  unfold clean in Hc. rewrite forallb_app in Hc. cbn [forallb] in Hc.
  apply andb_true_iff in Hc as [_ Hc]. apply andb_true_iff in Hc as [Hc _]. destruct it; cbn in *; [|done..]. by rewrite Hs in Hc.
Qed.

Lemma ordered_all its : clean its -> ordered its.
Proof.
  intros Hc l1 it l2 -> Hs. apply clean_app in Hc as [_ Hc]. unfold clean in Hc. cbn [forallb] in Hc.
  apply andb_true_iff in Hc as [Hc _]. destruct it; cbn in *; [|done..]. by rewrite Hs in Hc.
Qed.

(** The sector beside the one whose level of deletion is [d] and that has [w] bytes to be
    collected.  At most [J] bytes of a sector that is not marked are wasted. *)
Definition other_ok (J d w : Z) (S : Sec) : Prop :=
  match S with
  | Blank => d <> SECTOR_DIRTY_GC /\ w + EF_SEC_REMAIN_THRESHOLD <= ROOM
  | Fmt st' d' its' =>
      d' = SECTOR_DIRTY_FALSE /\ st' <> SECTOR_STORE_FULL /\ (st' = SECTOR_STORE_EMPTY <-> its' = []) /\ tidy its'
      /\ pend its' = [] /\ (d = SECTOR_DIRTY_GC \/ its' = []) /\ ilen its' + w + EF_SEC_REMAIN_THRESHOLD <= ROOM
      /\ ilen its' <= weight its' + J
  end.

Record recoverable_at (L : Sec * Sec) (m : env_map) (J : Z) (j : bool) (st d : Z) (its : list item) : Prop := {
  rc_sec : sec L j = Fmt st d its;
  rc_wf : (st = SECTOR_STORE_EMPTY <-> its = []) /\ tidy its /\ (its = [] -> d = SECTOR_DIRTY_FALSE);
  rc_meaning : meaning (lives L) (pends L) m;
  rc_other : other_ok J d (weight its) (sec L (negb j));
  rc_clean : d = SECTOR_DIRTY_FALSE -> forall k v, (k, v) ∈ pend its -> st <> SECTOR_STORE_FULL /\ node_len k v < free j its;
  rc_junk : d = SECTOR_DIRTY_FALSE -> ilen its <= weight its + J;
  rc_order : d <> SECTOR_DIRTY_GC -> ordered its;
  rc_full : st = SECTOR_STORE_FULL -> d <> SECTOR_DIRTY_FALSE
}.
Definition recoverable (L : Sec * Sec) (m : env_map) (J : Z) : Prop := exists j st d its, recoverable_at L m J j st d its.

(** A store at rest: one sector is in use, the other is empty. *)
Record idle_at (L : Sec * Sec) (m : env_map) (J : Z) (i : bool) (st d : Z) (its : list item) : Prop := {
  id_sec : sec L i = Fmt st d its;
  id_other : sec L (negb i) = Fmt SECTOR_STORE_EMPTY SECTOR_DIRTY_FALSE [];
  id_wf : (st = SECTOR_STORE_FULL -> d = SECTOR_DIRTY_TRUE) /\ (st = SECTOR_STORE_EMPTY <-> its = []) /\ tidy its /\ (its = [] -> d = SECTOR_DIRTY_FALSE);
  id_level : d <> SECTOR_DIRTY_GC;
  id_pend : pend its = [];
  id_meaning : meaning (lives L) (pends L) m;
  id_room : weight its + EF_SEC_REMAIN_THRESHOLD <= ROOM;
  id_junk : d = SECTOR_DIRTY_FALSE -> ilen its <= weight its + J
}.

(** [P] allows the contents from which [m] is recovered. *)
Definition crash_ok (P : (Z -> Z) -> Prop) (m : env_map) (J : Z) : Prop := forall L, recoverable L m J -> PL P L.

Lemma PL_all P L : (forall mu, P mu) -> PL P L.
Proof. intros HP mu _. apply HP. Qed.

Lemma weight_bound its : Forall item_ok its -> weight its <= ilen its.
Proof.
  induction 1 as [|it its Hok _ IH]; [done|]. change (it :: its) with ([it] ++ its). rewrite weight_app, ilen_app.
  assert (weight [it] <= ilen [it]); [|lia]. rewrite ilen_cons, ilen_nil. unfold weight.
  destruct it as [st k v|bs|]; [|cbn; pose proof (item_len_nonneg (Gap bs)); lia | cbn; pose proof (item_len_nonneg (Bad b0 err rest)); lia].
  rewrite live_rec, pend_rec, rec_len.
  assert (Ht : total [(k, v)] = node_len k v) by (rewrite total_cons; cbn; lia).
  assert (Hn : 0 <= node_len k v) by (unfold node_len; pose proof (zlen_nonneg k); pose proof (zlen_nonneg v); lia).
  unfold ENV_WRITE, ENV_PRE_DELETE. destruct (Z.eqb_spec st 2), (Z.eqb_spec st 3); rewrite ?Ht; change (total []) with 0; lia.
Qed.

(** Marks change neither list. *)
Lemma live_like l l' : map unmark l = map unmark l' -> live l = live l'.
Proof.
  assert (E : forall x, live (map unmark x) = live x).
  { induction x as [|it x IH]; [done|]. change (it :: x) with ([it] ++ x). rewrite map_app, !live_app, IH. by destruct it. }
  intros Hl. by rewrite <- E, Hl, E.
Qed.

Lemma pend_like l l' : map unmark l = map unmark l' -> pend l = pend l'.
Proof.
  assert (E : forall x, pend (map unmark x) = pend x).
  { induction x as [|it x IH]; [done|]. change (it :: x) with ([it] ++ x). rewrite map_app, !pend_app, IH. by destruct it. }
  intros Hl. by rewrite <- E, Hl, E.
Qed.

Lemma store_weight {C} `{FlashDoc C} L (s : Ef C) i st d its : store L s -> sec L i = Fmt st d its -> weight its <= ilen its.
Proof.
  intros Hst Ht. destruct (store_flash _ _ Hst) as (L0 & Hl & HL). destruct (like_fmt L0 L _ _ _ _ Hl Ht) as (t0 & HS0 & E).
  pose proof (HL i) as Hlay. rewrite HS0 in Hlay.
  pose proof (weight_bound t0 (all_ok _ (fmt_ok _ _ _ _ _ Hlay))) as Hwb. rewrite (like_ilen t0 its E) in Hwb.
  unfold weight in *. by rewrite <- (live_like t0 its E), <- (pend_like t0 its E).
Qed.

Lemma weight_nonneg its : 0 <= weight its.
Proof. unfold weight. pose proof (total_nonneg (live its)). pose proof (total_nonneg (pend its)). lia. Qed.

Lemma items_sec L i st d its : sec L i = Fmt st d its -> items L i = its.
Proof. intros E. unfold items. by rewrite E. Qed.

(** Changes that keep both lists keep the meaning. *)
Lemma meaning_other L i st d its its' m :
  items L i = its -> live its' = live its -> pend its' = pend its -> meaning (lives L) (pends L) m ->
  meaning (lives (upd L i (Fmt st d its'))) (pends (upd L i (Fmt st d its'))) m.
Proof.
  intros E Ha Hb Hm. destruct (other_lists L i st d its its' E Ha Hb) as [HA HB].
  by apply (meaning_perm (lives L) _ (pends L)).
Qed.

(** Blanking or emptying a sector without live or pending records. *)
Lemma meaning_emptied L i S m :
  live (items L i) = [] -> pend (items L i) = [] -> (S = Blank \/ S = Fmt SECTOR_STORE_EMPTY SECTOR_DIRTY_FALSE []) ->
  meaning (lives L) (pends L) m -> meaning (lives (upd L i S)) (pends (upd L i S)) m.
Proof.
  intros Hl Hp HS Hm.
  assert (E : items (upd L i S) i = []) by (unfold items; rewrite sec_upd_eq; by destruct HS as [->| ->]).
  eapply meaning_perm; [| |exact Hm].
  - rewrite (lives_at L i), (lives_at (upd L i S) i), items_upd_ne, E, Hl. done.
  - rewrite (pends_at L i), (pends_at (upd L i S) i), items_upd_ne, E, Hp. done.
Qed.

Lemma idle_weaken L m J J' i st d its : J <= J' -> idle_at L m J i st d its -> idle_at L m J' i st d its.
Proof. intros Hle [Hs Ho Hw Hd Hp Hm Hr Hj]. split; [done..|]. intros E. specialize (Hj E). lia. Qed.

Lemma idle_recoverable_at L m J i st d its : 0 <= J -> idle_at L m J i st d its -> recoverable_at L m J i st d its.
Proof.
  intros HJ [Hs Ho (W1 & W2 & W3 & W4) Hd Hp Hm Hr Hj]. split; [done | by split; [|split] | done | | | done | by intros _; apply ordered_nil | by intros ->%W1].
  - rewrite Ho. cbn [other_ok]. change (ilen []) with 0. change (weight []) with 0.
    split; [done|]. split; [done|]. split; [done|]. split; [by left|]. split; [done|]. split; [by right | lia].
  - intros _ k v. rewrite Hp. by intros ?%not_elem_of_nil.
Qed.

Lemma idle_recoverable L m J i st d its : 0 <= J -> idle_at L m J i st d its -> recoverable L m J.
Proof. intros HJ Hid. exists i, st, d, its. by apply idle_recoverable_at. Qed.

(** A record stays where the other sector is emptied. *)
Lemma found_emptied L j S k v x : live (items L j) = [] -> found_at L k v x -> found_at (upd L j S) k v x.
Proof.
  intros Hl (i & st & d & l1 & l2 & HS & ->). destruct (decide (i = j)) as [->|Hne].
  - apply items_sec in HS. rewrite HS, live_split in Hl. by destruct (live l1).
  - exists i, st, d, l1, l2. split; [|done]. replace i with (negb j) in * by (by destruct i, j). by rewrite sec_upd_ne.
Qed.

Section Collecting.
Context (P : (Z -> Z) -> Prop) (m : env_map) (J slack : Z) (rec crash : bool).

(** Either every content is allowed, or what leaves [m] is; then the variables
    leave room for one torn record. *)
Definition mode : Prop :=
  if crash then rec = false /\ crash_ok P m (J + slack)
                /\ forall k v, m !! k = Some v -> tear_safe k v /\ node_len k v <= slack
  else forall mu, P mu.

Context (Hmode : mode) (Hslack : 0 <= slack).

Lemma allow L : (crash = true -> recoverable L m (J + slack)) -> PL P L.
Proof. unfold mode in Hmode. destruct crash; [intros HR; by apply Hmode, HR | intros _; by apply PL_all]. Qed.

(** A collection of the sector [j] that has come behind [l1]. *)
Record collecting (j : bool) (stj : Z) (l1 l2 : list item) (sti : Z) (t : list item) (L : Sec * Sec) : Prop := {
  gs_src : sec L j = Fmt stj SECTOR_DIRTY_GC (l1 ++ l2);
  gs_src_wf : stj <> SECTOR_STORE_EMPTY /\ l1 ++ l2 <> [] /\ tidy (l1 ++ l2);
  gs_done : live l1 = [] /\ pend l1 = [];
  gs_tgt : sec L (negb j) = Fmt sti SECTOR_DIRTY_FALSE t;
  gs_tgt_wf : sti <> SECTOR_STORE_FULL /\ (sti = SECTOR_STORE_EMPTY <-> t = []) /\ tidy t /\ pend t = [];
  gs_meaning : meaning (lives L) (pends L) m;
  gs_room : ilen t + weight l2 + slack + EF_SEC_REMAIN_THRESHOLD <= ROOM;
  gs_pend : rec = false -> pend l2 = [];
  gs_gaps : crash = true -> clean t;
  gs_junk : ilen t <= weight t + J
}.

Lemma collecting_wf j stj l1 l2 sti t L : collecting j stj l1 l2 sti t L -> wf L.
Proof.
  intros [Hs (Hne0 & He & Ht) _ Htg (_ & He2 & Ht2 & _) _ _ _ _ _] i. destruct (decide (i = j)) as [->|Hne].
  - rewrite Hs. split; [|done]. by split.
  - replace i with (negb j) by (by destruct i, j). by rewrite Htg.
Qed.

Lemma collecting_weight j stj l1 l2 sti t L : collecting j stj l1 l2 sti t L -> weight (l1 ++ l2) = weight l2.
Proof. intros Hg. destruct (gs_done _ _ _ _ _ _ _ Hg) as [Hl Hp]. rewrite weight_app. unfold weight at 1. by rewrite Hl, Hp. Qed.

Lemma collecting_recoverable j stj l1 l2 sti t L : collecting j stj l1 l2 sti t L -> recoverable L m (J + slack).
Proof.
  intros Hg. pose proof (collecting_weight _ _ _ _ _ _ _ Hg) as Hw. destruct Hg as [Hs (W1 & W2 & W3) _ Htg (H1 & H2 & H3 & H4) Hm Hr _ _ Hj].
  exists j, stj, SECTOR_DIRTY_GC, (l1 ++ l2). split; [done | by repeat split | done | | done | done | done | done]. rewrite Htg. cbn [other_ok]. rewrite Hw.
  repeat split; try done; try apply H2; [by left | lia..].
Qed.

Lemma collecting_allowed j stj l1 l2 sti t L : collecting j stj l1 l2 sti t L -> PL P L.
Proof. intros Hg. apply allow. intros _. by eapply collecting_recoverable. Qed.
End Collecting.
