(* ===== verification/EfCollect.v ===== *)
(** * The collection

    [gc_collect] leaves the live records of the marked sector in the other one
    and the marked one empty; interrupted anywhere it leaves a layout from which
    the same variables are recovered. *)

From S2P Require Import Prelude CStr Storage EfEnv EfFlash EfLayout EfRead EfStore EfCache EfFind EfOps EfAlloc EfCreate EfMove EfLog EfTorn EfGc EfState.
Open Scope list_scope.

(** In a collection only the other sector is available. *)
Lemma alloc_collect L j stj itsj sti t sz :
  sec L j = Fmt stj SECTOR_DIRTY_GC itsj -> sec L (negb j) = Fmt sti SECTOR_DIRTY_FALSE t ->
  sti = SECTOR_STORE_EMPTY \/ sti = SECTOR_STORE_USING -> sz < free (negb j) t ->
  alloc_spec L sz true = (Some (negb j), true).
Proof.
  intros Hj Ht Hst Hsz.
  assert (Aj : forall st, avail L st sz true j = false).
  { intros st. unfold avail. rewrite Hj. cbn. by rewrite andb_false_r. }
  assert (At : forall st, avail L st sz true (negb j) = (sti =? st)).
  { intros st. unfold avail. rewrite Ht, (proj2 (Z.ltb_lt sz _)) by done. cbn. by rewrite !andb_true_r. }
  assert (Hpick : forall st, pick L st sz true = if sti =? st then Some (negb j) else None).
  { intros st. unfold pick. destruct j; cbn [negb] in *; rewrite Aj, At; by destruct (sti =? st). }
  unfold alloc_spec. rewrite !Hpick. destruct Hst as [->| ->]; [|done]. change (SECTOR_STORE_EMPTY =? SECTOR_STORE_USING) with false. cbv iota.
  assert (Hc : (count L SECTOR_STORE_EMPTY =? 0) = false).
  { unfold count, has_level. apply Z.eqb_neq.
    destruct j; cbn [negb] in *; rewrite Ht, Hj; destruct (stj =? SECTOR_STORE_EMPTY); cbn; lia. }
  by rewrite Hc, orb_true_r.
Qed.

Lemma not_full_room i its sz st : sz + EF_SEC_REMAIN_THRESHOLD <= free i its -> 0 <= sz -> next_store st i its sz = SECTOR_STORE_USING.
Proof.
  intros Hf Hs. unfold next_store, next_full, fills. unfold EF_SEC_REMAIN_THRESHOLD, ENV_HDR_DATA_SIZE, EF_ENV_NAME_MAX in *.
  rewrite (proj2 (Z.ltb_ge (free i its) _)), (proj2 (Z.ltb_ge (free i its - sz) _)) by lia. by rewrite andb_false_r.
Qed.

Lemma free_ilen i its : free i its = ROOM - ilen its.
Proof. unfold free, ends, ROOM. lia. Qed.

Section Collect.
Context {C : Type} `{FlashDoc C} (P : (Z -> Z) -> Prop) (junk_env : env_node_obj) (junk_sector : sector_meta_data).
Context (m : env_map) (J slack : Z) (rec crash : bool) (Hmode : mode P m J slack rec crash) (HJ : 0 <= J) (Hslack : 0 <= slack).
Implicit Types (s : Ef C).

Abbreviation collecting := (collecting m J slack rec crash).

Lemma mode_cases : crash = true \/ forall mu, P mu.
Proof using Hmode. clear Hslack. unfold mode in Hmode. destruct crash; [by left | by right]. Qed.

Section Step.
Context (j : bool) (stj : Z) (l1 l2 : list item) (sti : Z) (t : list item) (L : Sec * Sec).
Context (r : Z) (k v : list Z) (Hr : r = ENV_WRITE \/ r = ENV_PRE_DELETE) (Hok : entry_ok k v).
Context (Hg : collecting j stj l1 (Rec r k v :: l2) sti t L).

Definition La : Sec * Sec := marked L j stj SECTOR_DIRTY_GC l1 l2 k v r.

Lemma La_src : sec La j = Fmt stj SECTOR_DIRTY_GC (l1 ++ Rec ENV_PRE_DELETE k v :: l2).
Proof using Hg Hr. unfold La, marked. destruct Hr as [->| ->]; [apply sec_upd_eq | apply Hg]. Qed.

Lemma La_tgt : sec La (negb j) = Fmt sti SECTOR_DIRTY_FALSE t.
Proof using Hg Hr. unfold La, marked. destruct Hr as [->| ->]; [etransitivity; [apply sec_upd_ne|]|]; apply Hg. Qed.

Lemma step_fits : node_len k v + slack + EF_SEC_REMAIN_THRESHOLD <= free (negb j) t /\ 0 <= node_len k v.
Proof using Hg Hr Hok.
  pose proof (gs_room _ _ _ _ _ _ _ _ _ _ _ _ Hg) as Hroom. pose proof (entry_len_bound k v Hok).
  change (Rec r k v :: l2) with ([Rec r k v] ++ l2) in Hroom. rewrite weight_app in Hroom. rewrite free_ilen.
  assert (Hw : weight [Rec r k v] = node_len k v).
  { unfold weight. rewrite live_rec, pend_rec. destruct Hr as [->| ->]; cbn; lia. }
  pose proof (weight_nonneg l2). lia.
Qed.

(** What happens to the two lists. *)
Lemma La_lists :
  (r = ENV_WRITE -> lives L ≡ₚ (k, v) :: lives La /\ pends La ≡ₚ (k, v) :: pends L)
  /\ (r = ENV_PRE_DELETE -> La = L) /\ exists B, pends La ≡ₚ (k, v) :: B.
Proof using Hg Hr.
  pose proof (gs_src _ _ _ _ _ _ _ _ _ _ _ _ Hg) as HS.
  assert (Hm : r = ENV_WRITE -> lives L ≡ₚ (k, v) :: lives La /\ pends La ≡ₚ (k, v) :: pends L).
  { intros E. unfold La, marked. rewrite E in *. apply (mark_lists L j stj (soil SECTOR_DIRTY_GC) k v l1 l2). by apply items_sec in HS. }
  assert (Hp : r = ENV_PRE_DELETE -> La = L) by (intros E; unfold La, marked; by rewrite E).
  split; [done|]. split; [done|]. destruct Hr as [E|E].
  - exists (pends L). by apply Hm.
  - rewrite (Hp E). rewrite E in HS. apply items_sec in HS.
    destruct (delete_lists L j stj SECTOR_DIRTY_GC k v l1 l2 HS) as [_ HB]. by eexists.
Qed.

(** The record is there again, unless it was copied before. *)
Lemma not_there : r = ENV_WRITE -> k ∉ (lives La).*1.
Proof using Hg Hr.
  intros E. destruct La_lists as [Hm _]. destruct (Hm E) as [HA _].
  pose proof (one_live _ _ _ (gs_meaning _ _ _ _ _ _ _ _ _ _ _ _ Hg)) as Hn. rewrite HA, fmap_cons in Hn.
  by apply NoDup_cons in Hn as [? _].
Qed.

Definition skip : bool := rec && bool_decide (k ∈ (lives La).*1).

Lemma skip_pend : skip = true -> r = ENV_PRE_DELETE.
Proof using Hg Hr.
  unfold skip. intros [_ Hk%bool_decide_eq_true]%andb_true_iff. destruct Hr as [E|E]; [|done].
  by destruct (not_there E).
Qed.

Lemma noskip_gone : skip = false -> k ∉ (lives La).*1.
Proof using Hg Hr.
  unfold skip. intros [Er|Hk%bool_decide_eq_false]%andb_false_iff; [|done].
  destruct Hr as [E|E]; [by apply not_there|].
  pose proof (gs_pend _ _ _ _ _ _ _ _ _ _ _ _ Hg Er) as Hp. rewrite E in Hp. done.
Qed.

(** The target with [x] more. *)
Definition Lx (x : item) : Sec * Sec := upd La (negb j) (Fmt SECTOR_STORE_USING SECTOR_DIRTY_FALSE (t ++ [x])).

Lemma Lx_src x : sec (Lx x) j = Fmt stj SECTOR_DIRTY_GC (l1 ++ Rec ENV_PRE_DELETE k v :: l2).
Proof using Hg Hr. unfold Lx. rewrite <- (negb_involutive j) at 2. rewrite sec_upd_ne, negb_involutive. apply La_src. Qed.

Lemma Lx_tgt x : sec (Lx x) (negb j) = Fmt SECTOR_STORE_USING SECTOR_DIRTY_FALSE (t ++ [x]).
Proof. apply sec_upd_eq. Qed.

Lemma copied_Lx : copied La (negb j) k v = Lx (Rec ENV_WRITE k v).
Proof using Hg Hr Hok Hslack.
  unfold copied. rewrite La_tgt. destruct step_fits as [Hf Hn]. rewrite not_full_room by lia. done.
Qed.

Lemma Lx_lists : lives (Lx (Rec ENV_WRITE k v)) ≡ₚ (k, v) :: lives La /\ pends (Lx (Rec ENV_WRITE k v)) ≡ₚ pends La.
Proof using Hg Hr. apply append_lists. eapply items_sec, La_tgt. Qed.

(** The end of the step. *)
Definition Lend : Sec * Sec :=
  upd (if skip then La else Lx (Rec ENV_WRITE k v)) j (Fmt stj SECTOR_DIRTY_GC (l1 ++ Rec ENV_DELETED k v :: l2)).

Lemma Lend_meaning : meaning (lives Lend) (pends Lend) m.
Proof using Hg Hr Hok Hslack.
  pose proof (gs_meaning _ _ _ _ _ _ _ _ _ _ _ _ Hg) as Hm. destruct La_lists as (Hmark & Hsame & _).
  unfold Lend. destruct skip eqn:Esk.
  - pose proof (skip_pend Esk) as E. assert (Hk : k ∈ (lives La).*1).
    { unfold skip in Esk. apply andb_true_iff in Esk as [_ Hk]. by apply bool_decide_eq_true in Hk. }
    destruct (delete_lists La j stj SECTOR_DIRTY_GC k v l1 l2 ltac:(eapply items_sec, La_src)) as [HA HB].
    rewrite (Hsame E) in *. apply (meaning_perm (lives L) _ (pends (upd L j (Fmt stj SECTOR_DIRTY_GC (l1 ++ Rec ENV_DELETED k v :: l2)))));
      [by symmetry | done|]. apply (meaning_drop _ _ m k v); [|done]. by apply (meaning_perm (lives L) _ (pends L)).
  - pose proof (noskip_gone Esk) as Hk. destruct Lx_lists as [HA HB]. set (M := Lx (Rec ENV_WRITE k v)) in *.
    destruct (delete_lists M j stj SECTOR_DIRTY_GC k v l1 l2 ltac:(eapply items_sec, Lx_src)) as [HA' HB'].
    set (M' := upd M j _) in *. destruct Hr as [E|E].
    + destruct (Hmark E) as [HA0 HB0]. apply (meaning_perm (lives L) _ (pends L)); [by rewrite HA', HA, HA0 | | done].
      apply (Permutation_cons_inv (a := (k, v))). by rewrite <- HB', HB, HB0.
    + rewrite (Hsame E) in *. apply (meaning_perm ((k, v) :: lives L) _ (pends M')); [by rewrite HA', HA | done |].
      apply (meaning_drop _ _ m k v); [|by left]. apply meaning_copy; [|done].
      apply (meaning_perm (lives L) _ (pends L)); [done | by rewrite <- HB', HB | done].
Qed.

Lemma collecting_next :
  collecting j stj (l1 ++ [Rec ENV_DELETED k v]) l2 (if skip then sti else SECTOR_STORE_USING)
    (if skip then t else t ++ [Rec ENV_WRITE k v]) Lend.
Proof using Hg Hr Hok Hslack.
  pose proof Hg as [Hs (Hst & He & Ht) [Hd1 Hd2] Htg (Hf & He2 & Ht2 & Hp2) _ Hroom Hpend Hgaps Hjunk].
  assert (Hw : weight (Rec r k v :: l2) = node_len k v + weight l2).
  { change (Rec r k v :: l2) with ([Rec r k v] ++ l2). rewrite weight_app. f_equal.
    unfold weight. rewrite live_rec, pend_rec. destruct Hr as [->| ->]; cbn; lia. }
  assert (Hnn : 0 <= node_len k v) by (pose proof (entry_len_bound k v Hok); lia).
  split.
  - unfold Lend. rewrite sec_upd_eq. by rewrite <- app_assoc.
  - rewrite <- app_assoc. cbn [app]. split; [done|]. split; [by destruct l1 | by eapply tidy_status].
  - by rewrite live_app, pend_app, Hd1, Hd2, live_rec, pend_rec.
  - unfold Lend. rewrite sec_upd_ne. destruct skip; [apply La_tgt | apply Lx_tgt].
  - destruct skip; [done|]. split; [done|]. split; [split; [done | by destruct t]|]. split; [apply tidy_snoc|].
    by rewrite pend_app, Hp2, pend_rec.
  - apply Lend_meaning.
  - destruct skip; [lia|]. rewrite ilen_app, ilen_cons, ilen_nil, rec_len. lia.
  - intros Er. specialize (Hpend Er). change (Rec r k v :: l2) with ([Rec r k v] ++ l2) in Hpend.
    rewrite pend_app in Hpend. by apply app_nil in Hpend as [_ ?].
  - intros Ec. specialize (Hgaps Ec). destruct skip; [done|]. by apply clean_app.
  - destruct skip; [done|]. rewrite ilen_app, ilen_cons, ilen_nil, rec_len, weight_app. unfold weight at 2.
    rewrite live_rec, pend_rec. change (total (if ENV_WRITE =? ENV_WRITE then [(k, v)] else [])) with (node_len k v + 0).
    change (total (if ENV_WRITE =? ENV_PRE_DELETE then [(k, v)] else [])) with 0. lia.
Qed.

(** *** What the flash holds on the way *)

Lemma crash_facts :
  crash = true -> r = ENV_WRITE /\ pends L = [] /\ (tear_safe k v /\ node_len k v <= slack) /\ clean t.
Proof using Hg Hr Hmode.
  intros Ec. unfold mode in Hmode. rewrite Ec in Hmode. destruct Hmode as (Er & _ & Hkv).
  pose proof Hg as [Hs _ [_ Hd2] Htg (_ & _ & _ & Hp) Hm _ Hpend Hgaps _]. specialize (Hpend Er).
  change (Rec r k v :: l2) with ([Rec r k v] ++ l2) in Hpend. rewrite pend_app, pend_rec in Hpend.
  assert (E : r = ENV_WRITE) by (destruct Hr as [E|E]; [done|]; by rewrite E in Hpend).
  split; [done|]. apply items_sec in Hs, Htg. split; [|split].
  - apply Permutation_nil_r. rewrite (pends_at L j), Hs, Htg, Hp, pend_split, Hd2, E, app_nil_r. apply app_nil in Hpend as [_ ->]. done.
  - apply (Hkv k v), (map_is _ _ _ Hm). left. rewrite (lives_at L j), Hs, live_split, E. cbn.
    rewrite !elem_of_app. left. right. by left.
  - by apply Hgaps.
Qed.

Lemma La_meaning : crash = true -> meaning (lives La) (pends La) m.
Proof using Hg Hr Hmode.
  intros (E & Hp & _)%crash_facts. destruct La_lists as (Hm & _ & _). destruct (Hm E) as [HA HB].
  apply (meaning_perm (lives La) _ ((k, v) :: pends L)); [done | by symmetry|].
  apply meaning_mark; [|by rewrite Hp; apply not_elem_of_nil].
  apply (meaning_perm (lives L) _ (pends L)); [done | done | apply Hg].
Qed.

Lemma rec_weight x : x = ENV_WRITE \/ x = ENV_PRE_DELETE -> weight (l1 ++ Rec x k v :: l2) = node_len k v + weight l2.
Proof using Hg.
  intros Hx. pose proof (gs_done _ _ _ _ _ _ _ _ _ _ _ _ Hg) as [E1 E2].
  rewrite split_one, !weight_app. unfold weight at 1. rewrite E1, E2. unfold weight at 1. rewrite live_rec, pend_rec.
  destruct Hx as [->| ->]; cbn; lia.
Qed.

(** The layouts on the way have a target that fits. *)
Lemma way_recoverable Lw sti' t' :
  sec Lw j = Fmt stj SECTOR_DIRTY_GC (l1 ++ Rec ENV_PRE_DELETE k v :: l2) ->
  sec Lw (negb j) = Fmt sti' SECTOR_DIRTY_FALSE t' -> meaning (lives Lw) (pends Lw) m ->
  sti' <> SECTOR_STORE_FULL -> (sti' = SECTOR_STORE_EMPTY <-> t' = []) -> tidy t' -> pend t' = [] ->
  ilen t' <= ilen t + slack -> ilen t' <= weight t' + (J + slack) -> recoverable Lw m (J + slack).
Proof using Hg Hr Hok.
  intros Hs Ht Hm W1 W2 W3 W4 W5 W6. pose proof (gs_room _ _ _ _ _ _ _ _ _ _ _ _ Hg) as Hroom.
  pose proof (rec_weight r Hr) as Hw. rewrite weight_app in Hw.
  assert (Hw0 : weight l1 = 0).
  { pose proof (gs_done _ _ _ _ _ _ _ _ _ _ _ _ Hg) as [E1 E2]. unfold weight. by rewrite E1, E2. }
  exists j, stj, SECTOR_DIRTY_GC, (l1 ++ Rec ENV_PRE_DELETE k v :: l2). split; [done | | done | | done | done | done | done].
  - pose proof (gs_src_wf _ _ _ _ _ _ _ _ _ _ _ _ Hg) as (V1 & V2 & V3).
    split; [split; [done | by destruct l1]|]. split; [by eapply tidy_status | by destruct l1].
  - rewrite Ht. cbn [other_ok]. rewrite (rec_weight ENV_PRE_DELETE) by (by right).
    repeat split; try done; try apply W2; [by left | lia..].
Qed.

Lemma Lx_recoverable x :
  crash = true -> tidy (t ++ [x]) -> pend [x] = [] -> item_len x <= node_len k v ->
  (live [x] = [] \/ x = Rec ENV_WRITE k v) -> recoverable (Lx x) m (J + slack).
Proof using Hg Hr Hok Hmode.
  intros Ec Ht Hp Hl Hx. destruct (crash_facts Ec) as (E & _ & (_ & Hn) & _). pose proof (La_meaning Ec) as Hm.
  apply (way_recoverable _ SECTOR_STORE_USING (t ++ [x])); [apply Lx_src | apply Lx_tgt | | done | | done | | |].
  - destruct Hx as [Hx| ->].
    + apply (meaning_other La (negb j) _ _ t); [eapply items_sec, La_tgt | by rewrite live_app, Hx, app_nil_r | by rewrite pend_app, Hp, app_nil_r | done].
    + destruct Lx_lists as [HA HB]. destruct La_lists as (Hmark & _ & _). destruct (Hmark E) as [_ HB0].
      apply (meaning_perm ((k, v) :: lives La) _ ((k, v) :: pends L)); [by symmetry | by rewrite HB, HB0|].
      apply meaning_copy; [|by apply not_there]. by apply (meaning_perm (lives La) _ (pends La)).
  - split; [done | by destruct t].
  - rewrite pend_app, Hp, app_nil_r. apply (gs_tgt_wf _ _ _ _ _ _ _ _ _ _ _ _ Hg).
  - rewrite ilen_app, ilen_cons, ilen_nil. lia.
  - pose proof (gs_junk _ _ _ _ _ _ _ _ _ _ _ _ Hg). pose proof (weight_nonneg [x]).
    rewrite weight_app, ilen_app, ilen_cons, ilen_nil. lia.
Qed.

Lemma La_allowed : PL P La.
Proof using Hg Hr Hok Hmode Hslack.
  apply (allow P m J slack rec crash Hmode). intros Ec. pose proof (gs_tgt_wf _ _ _ _ _ _ _ _ _ _ _ _ Hg) as (T1 & T2 & T3 & T4).
  pose proof (gs_junk _ _ _ _ _ _ _ _ _ _ _ _ Hg).
  apply (way_recoverable _ sti t); [apply La_src | apply La_tgt | by apply La_meaning | done.. | lia | lia].
Qed.

Lemma using_allowed : PL P (upd La (negb j) (Fmt SECTOR_STORE_USING SECTOR_DIRTY_FALSE t)).
Proof using Hg Hr Hok Hmode Hslack.
  pose proof (gs_tgt_wf _ _ _ _ _ _ _ _ _ _ _ _ Hg) as (T1 & T2 & T3 & T4).
  pose proof (gs_junk _ _ _ _ _ _ _ _ _ _ _ _ Hg). destruct (decide (t = [])) as [Et|Et].
  - intros mu HF. assert (HA : PL P (Lx phantom)).
    { apply (allow P m J slack rec crash Hmode). intros Ec. apply Lx_recoverable; [done | by rewrite Et; left | done | | by left].
      pose proof (entry_len_bound k v Hok). change (item_len phantom) with 28. lia. }
    apply HA. rewrite Et in HF. unfold Lx. rewrite Et. cbn [app].
    pose proof (Flash_phantom mu _ (negb j) _ _ HF (sec_upd_eq _ _ _)) as Hph. by rewrite upd_upd in Hph.
  - apply (allow P m J slack rec crash Hmode). intros Ec.
    apply (way_recoverable _ SECTOR_STORE_USING t); [| apply sec_upd_eq | | done | done | done | done | lia | lia].
    + rewrite <- (negb_involutive j) at 2. rewrite sec_upd_ne, negb_involutive. apply La_src.
    + apply (meaning_other La (negb j) _ _ t); [eapply items_sec, La_tgt | done | done | by apply La_meaning].
Qed.

Lemma step_appending : appending P La (negb j) SECTOR_STORE_USING SECTOR_DIRTY_FALSE t k v.
Proof using Hg Hr Hok Hmode Hslack.
  split; [apply La_allowed|]. split; [apply using_allowed|].
  assert (HA : forall x, (crash = true -> recoverable (Lx x) m (J + slack)) -> PL P (Lx x)) by (intros x; apply (allow P m J slack rec crash Hmode)).
  split; [|split].
  - apply HA. intros Ec. apply Lx_recoverable; [done | apply tidy_snoc | by rewrite pend_rec | rewrite rec_len; lia|].
    left. by rewrite live_rec.
  - apply HA. intros Ec. apply Lx_recoverable; [done | apply tidy_snoc | by rewrite pend_rec | rewrite rec_len; lia|]. by right.
  - intros m0 n mu Hn HF Hb. destruct mode_cases as [Ec|HP]; [|apply HP].
    destruct (crash_facts Ec) as (E & _ & (Hsafe & Hs) & Hng). destruct step_fits as [Hf Hnn].
    pose proof (torn_append k v Hok Hsafe m0 mu _ (negb j) _ _ t n HF (sec_upd_eq _ _ _)) as HF'.
    specialize (HF' ltac:(unfold EF_SEC_REMAIN_THRESHOLD, ENV_HDR_DATA_SIZE, EF_ENV_NAME_MAX in Hf; lia) Hn Hb).
    rewrite upd_upd in HF'. destruct (torn_lists k v n (bool_decide (t = []))) as [HL HPd].
    destruct (torn_ok k v Hok Hsafe n (bool_decide (t = [])) Hn) as (_ & _ & _ & Hlen).
    refine (HA _ _ mu HF'). intros _. apply Lx_recoverable; [done | by apply torn_tidy, clean_no_gaps | done | done | by left].
Qed.

Lemma Lx_allowed : PL P (Lx (Rec ENV_WRITE k v)).
Proof using Hg Hr Hok Hmode Hslack. apply step_appending. Qed.

Lemma Lend_allowed : PL P Lend.
Proof using Hg Hr Hok Hmode Hslack. eapply collecting_allowed; [exact Hmode | exact Hslack | apply collecting_next]. Qed.
End Step.
End Collect.
