(* ===== verification/EfGather.v ===== *)
(** * The run of a collection

    [gc_records] moves what is live out of the marked sector, [do_gc] formats it
    then, and [gc_collect] does so for the sectors that are marked. *)

From S2P Require Import Prelude CStr Storage EfEnv EfFlash EfLayout EfRead EfStore EfCache EfFind EfOps EfAlloc EfCreate EfMove EfLog EfTorn EfGc EfState EfCollect.
Open Scope list_scope.

(** The state but for the tables of the caches and the flag of the last deletion. *)
Definition tables (R R' : EfRam) : Prop :=
  exists t te b, R' = put_last b (put_env_cache te (put_sec_cache t R)) /\ (b = true -> last_is_complete_del R = true).

Lemma tables_refl R : tables R R.
Proof. exists (sector_cache_table R), (env_cache_table R), (last_is_complete_del R). by destruct R. Qed.

Lemma tables_trans R1 R2 R3 : tables R1 R2 -> tables R2 R3 -> tables R1 R3.
Proof.
  intros (t1 & te1 & b1 & -> & H1) (t2 & te2 & b2 & -> & H2). exists t2, te2, b2. split; [done|].
  intros E. by apply H1, H2.
Qed.

Lemma tables_moved R R' : moved_ram R R' -> tables R R'.
Proof. intros (t & te & ->). by exists t, te, false. Qed.

Lemma tables_cache R t : tables R (put_sec_cache t R).
Proof. exists t, (env_cache_table R), (last_is_complete_del R). by destruct R. Qed.

Lemma tables_env R te : tables R (put_env_cache te R).
Proof. exists (sector_cache_table R), te, (last_is_complete_del R). by destruct R. Qed.

Section Gather.
Context {C : Type} `{FlashDoc C} (P : (Z -> Z) -> Prop) (junk_env : env_node_obj) (junk_sector : sector_meta_data).
Context (m : env_map) (J slack : Z) (rec crash : bool) (Hmode : mode P m J slack rec crash) (HJ : 0 <= J) (Hslack : 0 <= slack).
Implicit Types (s : Ef C).

Abbreviation collecting := (collecting m J slack rec crash).

(** The state of a collection that has come behind [l1]; [R0] is the memory at its start. *)
Record gathering (R0 : EfRam) (j : bool) (stj : Z) (l1 l2 : list item) s : Prop := {
  ga_at : exists sti t L, collecting j stj l1 l2 sti t L /\ store L s
            /\ env_cache_ok (cached_in L) (env_cache_table (ram s));
  ga_ram : tables R0 (ram s)
}.

Lemma marked_same L j stj l1 l2 k v r :
  sec L j = Fmt stj SECTOR_DIRTY_GC (l1 ++ Rec r k v :: l2) -> r = ENV_WRITE \/ r = ENV_PRE_DELETE ->
  upd L j (Fmt stj SECTOR_DIRTY_GC (l1 ++ Rec ENV_PRE_DELETE k v :: l2)) = La j stj l1 l2 L r k v.
Proof.
  intros HS [->| ->]; unfold La, marked; [done|]. change (ENV_PRE_DELETE =? ENV_WRITE) with false. cbv iota.
  by rewrite <- HS, upd_same.
Qed.

(** The layouts of [wpc_move] are those of the step. *)
Section Layouts.
Context (j : bool) (stj : Z) (l1 l2 : list item) (sti : Z) (t : list item) (L : Sec * Sec) (r : Z) (k v : list Z).
Context (Hr : r = ENV_WRITE \/ r = ENV_PRE_DELETE) (Hok : entry_ok k v).
Context (Hg : collecting j stj l1 (Rec r k v :: l2) sti t L).

Definition Lmid : Sec * Sec :=
  if skip rec j stj l1 l2 L r k v then La j stj l1 l2 L r k v else Lx j stj l1 l2 t L r k v (Rec ENV_WRITE k v).

Lemma Lmid_end :
  unsoiled Lmid j l1 l2 k v = Lend rec j stj l1 l2 t L r k v /\ finished Lmid j l1 l2 k v = Lend rec j stj l1 l2 t L r k v.
Proof using Hg Hr.
  assert (HS : sec Lmid j = Fmt stj SECTOR_DIRTY_GC (l1 ++ Rec ENV_PRE_DELETE k v :: l2)).
  { unfold Lmid. destruct skip; [by eapply La_src | by eapply Lx_src]. }
  unfold unsoiled, finished, level_of. by rewrite HS.
Qed.

Lemma Lmid_allowed : PL P Lmid.
Proof using Hmode Hslack Hg Hr Hok. unfold Lmid. destruct skip; [by eapply La_allowed | by eapply Lx_allowed]. Qed.

Lemma Lmid_copied :
  (if skip rec j stj l1 l2 L r k v then La j stj l1 l2 L r k v else copied (La j stj l1 l2 L r k v) (negb j) k v) = Lmid
  /\ (if skip rec j stj l1 l2 L r k v then l2 else behind (negb j) j l2 k v) = l2.
Proof using Hslack Hg Hr Hok.
  unfold Lmid, behind. replace (eqb (negb j) j) with false by (by destruct j).
  rewrite (copied_Lx m J slack rec crash Hslack _ _ _ _ sti t) by done. split; by destruct skip.
Qed.

Lemma Lmid_appending :
  skip rec j stj l1 l2 L r k v = false ->
  appending P (La j stj l1 l2 L r k v) (negb j) (fst (level_of Lmid (negb j))) (snd (level_of (La j stj l1 l2 L r k v) (negb j)))
    (items (La j stj l1 l2 L r k v) (negb j)) k v.
Proof using Hmode Hslack Hg Hr Hok.
  intros Esk. unfold Lmid. rewrite Esk. pose proof (La_tgt _ _ _ _ _ _ _ _ _ _ _ _ _ _ _ Hr Hg) as HT.
  unfold level_of, items. rewrite Lx_tgt, HT. by eapply step_appending.
Qed.
End Layouts.

Lemma wpc_gather_move R0 j stj l1 l2 r k v env (Q : EfErrCode -> Ef C -> Prop) s :
  gc_request R0 = true -> in_recovery_check R0 = rec -> r = ENV_WRITE \/ r = ENV_PRE_DELETE ->
  gathering R0 j stj l1 (Rec r k v :: l2) s -> seen (Rec r k v) (ends (base j) l1) env ->
  (forall s', gathering R0 j stj (l1 ++ [Rec ENV_DELETED k v]) l2 s' -> Q EF_NO_ERR s') ->
  wpc P (move_env junk_env junk_sector env) Q s.
Proof using Hmode HJ Hslack.
  intros Hgc Hrec Hr [(sti & t & L & Hg & Hs & Hc) HR] Hsn HQ.
  pose proof (gs_src _ _ _ _ _ _ _ _ _ _ _ _ Hg) as HS.
  destruct (store_item_ok L s j _ _ l1 _ l2 Hs HS) as [[_ Hok] _].
  assert (Hflags : gc_request (ram s) = true /\ in_recovery_check (ram s) = rec).
  { destruct HR as (t1 & te1 & b1 & -> & _). by destruct R0. }
  destruct Hflags as [Fg Fr].
  destruct (step_fits _ _ _ _ _ _ _ _ _ _ _ _ _ _ _ Hr Hok Hg) as [Hfit Hnn].
  destruct (Lmid_copied j stj l1 l2 sti t L r k v Hr Hok Hg) as [Ecp Ebeh].
  destruct (Lmid_end j stj l1 l2 sti t L r k v Hr Hg) as [Eun Efin].
  assert (Eskip : in_recovery_check (ram s) && bool_decide (k ∈ (lives (La j stj l1 l2 L r k v)).*1) = skip rec j stj l1 l2 L r k v)
    by (by rewrite Fr).
  assert (Halloc : alloc_spec (La j stj l1 l2 L r k v) (node_len k v) (gc_request (ram s)) = (Some (negb j), true)).
  { rewrite Fg. destruct (gs_tgt_wf _ _ _ _ _ _ _ _ _ _ _ _ Hg) as (T1 & _).
    pose proof (gs_tgt _ _ _ _ _ _ _ _ _ _ _ _ Hg) as HT. destruct (store_level L s _ _ _ _ Hs HT) as [Hl _].
    eapply alloc_collect; [by eapply La_src | by eapply La_tgt | | unfold EF_SEC_REMAIN_THRESHOLD, ENV_HDR_DATA_SIZE, EF_ENV_NAME_MAX in Hfit; lia].
    destruct Hl as [->|[->| ->]]; [by left | by right | done]. }
  apply (wpc_move P junk_env junk_sector L j stj SECTOR_DIRTY_GC l1 l2 k v r env (negb j)); try done;
    fold (La j stj l1 l2 L r k v); rewrite ?Eskip, ?Ecp, ?Ebeh, ?Halloc, ?Eun, ?Efin; try done.
  - by eapply collecting_wf.
  - by eapply skip_pend.
  - by eapply collecting_allowed.
  - rewrite (marked_same L j stj l1 l2 k v r HS Hr). by eapply La_allowed.
  - by eapply La_allowed.
  - by apply (Lmid_appending j stj l1 l2 sti).
  - by apply (Lmid_allowed j stj l1 l2 sti).
  - by eapply Lend_allowed.
  - by eapply Lend_allowed.
  - intros s' Hr' Hs' Hc'. apply HQ. split; [|by eapply tables_trans, tables_moved].
    eexists _, _, _. split; [by eapply collecting_next|]. split; [done | by apply Hc'].
Qed.

(** *** The loop *)

Lemma collecting_pass j stj l1 it l2 sti t L :
  live [it] = [] -> pend [it] = [] -> collecting j stj l1 (it :: l2) sti t L -> collecting j stj (l1 ++ [it]) l2 sti t L.
Proof using.
  intros Hl Hp [Hs Hw [Hd1 Hd2] Ht Htw Hm Hroom Hpend Hgaps Hjunk].
  assert (Hw0 : weight [it] = 0) by (unfold weight; by rewrite Hl, Hp).
  split; rewrite <- ?app_assoc; try done.
  - by rewrite live_app, pend_app, Hd1, Hd2, Hl, Hp.
  - change (it :: l2) with ([it] ++ l2) in Hroom. rewrite weight_app, Hw0 in Hroom. lia.
  - intros Er. specialize (Hpend Er). change (it :: l2) with ([it] ++ l2) in Hpend. by rewrite pend_app, Hp in Hpend.
Qed.

Lemma gathering_pass R0 j stj l1 it l2 s :
  live [it] = [] -> pend [it] = [] -> gathering R0 j stj l1 (it :: l2) s -> gathering R0 j stj (l1 ++ [it]) l2 s.
Proof using.
  intros Hl Hp [(sti & t & L & Hg & Hs & Hc) HR]. split; [|done].
  exists sti, t, L. split; [by apply collecting_pass | done].
Qed.

Lemma gathering_gaps R0 j stj g : forall l1 l2 s,
  forallb is_gap g = true -> gathering R0 j stj l1 (g ++ l2) s -> gathering R0 j stj (l1 ++ g) l2 s.
Proof using.
  induction g as [|it g IH]; intros l1 l2 s Hg Hga; [by rewrite app_nil_r|].
  cbn [forallb] in Hg. apply andb_true_iff in Hg as [Hit Hg].
  replace (l1 ++ it :: g) with ((l1 ++ [it]) ++ g) by (by rewrite <- app_assoc). apply IH; [done|].
  by apply gathering_pass; [destruct it.. |].
Qed.

(** What one iteration does to the record [it]. *)
Lemma wpc_gather_item R0 j stj l1 it l2 env (Q : unit -> Ef C -> Prop) s :
  gc_request R0 = true -> in_recovery_check R0 = rec ->
  gathering R0 j stj l1 (it :: l2) s -> seen it (ends (base j) l1) env ->
  (forall it' s', gathering R0 j stj (l1 ++ [it']) l2 s' -> located it' (ends (base j) l1) env -> Q tt s') ->
  wpc P (if crc_is_ok env && ((env_status env =? ENV_WRITE) || (env_status env =? ENV_PRE_DELETE))
         then run move_env junk_env junk_sector env; ret tt else ret tt) Q s.
Proof using Hmode HJ Hslack.
  intros Hgc Hrec Hga Hsn HQ. pose proof (seen_located _ _ _ Hsn) as Hloc.
  assert (Hpass : live [it] = [] -> pend [it] = [] -> wpc P (ret tt) Q s).
  { intros Hl Hp. apply wpc_ret, (HQ it); [by apply gathering_pass | done]. }
  destruct it as [st k v|bs|b0 err rest].
  - assert (Hs6 : is_stat st).
    { destruct Hga as [(sti & t & L & Hg & Hs & _) _].
      by destruct (store_item_ok L s j _ _ l1 _ l2 Hs (gs_src _ _ _ _ _ _ _ _ _ _ _ _ Hg)) as [[? _] _]. }
    pose proof Hsn as (_ & _ & Hcrc & Est & _). rewrite Hcrc, Est. cbn [andb].
    destruct (decide (st = ENV_WRITE \/ st = ENV_PRE_DELETE)) as [Hst|Hst].
    + replace ((stat st =? ENV_WRITE) || (stat st =? ENV_PRE_DELETE)) with true by (by destruct Hst as [->| ->]).
      apply wpc_bind. apply (wpc_gather_move R0 j stj l1 l2 st k v); try done.
      intros s' Hs'. apply wpc_ret, (HQ (Rec ENV_DELETED k v)); [done|].
      destruct Hloc as (_ & Ha & Hl & Hc). split; [done|]. rewrite rec_len in *. done.
    + replace ((stat st =? ENV_WRITE) || (stat st =? ENV_PRE_DELETE)) with false.
      * apply Hpass; [rewrite live_rec | rewrite pend_rec]; (destruct (Z.eqb_spec st ENV_WRITE), (Z.eqb_spec st ENV_PRE_DELETE); tauto).
      * unfold is_stat, ENV_WRITE, ENV_PRE_DELETE in *. destruct Hs6 as [->|[->|[->|[->|[->| ->]]]]]; (done || lia).
  - by destruct Hloc.
  - destruct Hloc as (_ & _ & _ & ->). by apply Hpass.
Qed.

Lemma wpc_gc_records R0 j stj sector (Q : unit -> Ef C -> Prop) :
  gc_request R0 = true -> in_recovery_check R0 = rec -> status_store sector = stj -> s_addr sector = base j ->
  (forall l s, gathering R0 j stj l [] s -> Q tt s) ->
  forall n l1 l2 e s, gathering R0 j stj l1 l2 s -> after j l1 e -> ready l2 ->
    base j + SECTOR_SIZE - ends (base j) l1 <= Z.of_nat n ->
    wpc P (gc_records junk_env junk_sector n sector e) Q s.
Proof using Hmode HJ Hslack.
  intros Hgc Hrec Hst Ha HQ. induction n as [|n IH]; intros l1 l2 e s Hga Haf Hrd Hn.
  all: pose proof Hga as [(sti & t & L & Hg & Hs & Hc) HR];
    pose proof (gs_src _ _ _ _ _ _ _ _ _ _ _ _ Hg) as HS;
    destruct (gs_src_wf _ _ _ _ _ _ _ _ _ _ _ _ Hg) as (W1 & W2 & _);
    cbn [gc_records]; apply wpc_bind;
    apply (wpc_next P L j stj SECTOR_DIRTY_GC l1 l2); try done; [by rewrite Hst|];
    destruct l2 as [|it rest]; [by apply wpc_ret, (HQ l1)|].
  all: pose proof (store_item L s j _ _ l1 it rest Hs HS) as Hpos;
    destruct (store_fits L s j _ _ l1 _ Hs HS) as [F1 F2]; rewrite ilen_cons in F2; pose proof (ilen_nonneg rest);
    cbn [next_addr]; rewrite (proj2 (Z.eqb_neq (ends (base j) l1) FAILED_ADDR))
      by (unfold FAILED_ADDR, SECTOR_SIZE, EF_ERASE_MIN_SIZE in *; destruct (base_cases j); lia).
  - lia.
  - apply wpc_bind. apply (wpc_read P L j stj SECTOR_DIRTY_GC l1 it rest); try done.
    { by eapply collecting_allowed. }
    intros r e' s' Hsn Hr' Hs'. destruct (gaps_split rest) as (g & l2' & -> & Hgap & Hrd').
    apply wpc_bind. apply (wpc_gather_item R0 j stj l1 it (g ++ l2')); try done.
    { split; [|by rewrite Hr']. exists sti, t, L. by rewrite Hr'. }
    intros it' s2 Hga2 Hloc. apply gathering_gaps in Hga2; [|done]. rewrite <- app_assoc in Hga2. cbn [app] in Hga2.
    apply (IH (l1 ++ it' :: g) l2'); try done.
    + right. by exists l1, it', g.
    + assert (El : item_len it' = item_len it).
      { destruct Hloc as (_ & _ & E1 & _), (seen_located _ _ _ Hsn) as (_ & _ & E2 & _). rewrite <- E1, <- E2. done. }
      unfold ends in *. rewrite !ilen_app, !ilen_cons in *. pose proof (ilen_nonneg g). lia.
Qed.

(** *** The end: the sector is formatted *)

(** What a collection of the sector [j] leaves. *)
Record collected (R0 : EfRam) (j : bool) s : Prop := {
  cd_at : exists sti t L, idle_at L m J (negb j) sti SECTOR_DIRTY_FALSE t /\ store L s
            /\ env_cache_ok (cached_in L) (env_cache_table (ram s)) /\ (crash = true -> clean t);
  cd_ram : tables R0 (ram s)
}.

Lemma collecting_blank j stj l sti t L s :
  collecting j stj l [] sti t L -> store L s -> recoverable (upd L j Blank) m (J + slack).
Proof using HJ Hslack.
  intros [Hs Hw [Hd1 Hd2] Ht (T1 & T2 & T3 & T4) Hm Hroom Hpend Hgaps Hjunk] Hst. rewrite app_nil_r in *.
  pose proof (items_sec _ _ _ _ _ Hs) as HI.
  exists (negb j), sti, SECTOR_DIRTY_FALSE, t. split.
  - by rewrite sec_upd_ne.
  - split; [done|]. by split.
  - apply meaning_emptied; [by rewrite HI | by rewrite HI | by left | done].
  - rewrite negb_involutive, sec_upd_eq. cbn [other_ok]. split; [done|].
    pose proof (store_weight L s _ _ _ _ Hst Ht). change (weight []) with 0 in Hroom. lia.
  - intros _ k v. rewrite T4. by intros ?%not_elem_of_nil.
  - intros _. lia.
  - intros _. by apply ordered_nil.
  - done.
Qed.

Lemma collecting_end j stj l sti t L s :
  collecting j stj l [] sti t L -> store L s ->
  idle_at (upd L j (Fmt SECTOR_STORE_EMPTY SECTOR_DIRTY_FALSE [])) m J (negb j) sti SECTOR_DIRTY_FALSE t.
Proof using HJ Hslack.
  intros [Hs Hw [Hd1 Hd2] Ht (T1 & T2 & T3 & T4) Hm Hroom Hpend Hgaps Hjunk] Hst. rewrite app_nil_r in *.
  pose proof (items_sec _ _ _ _ _ Hs) as HI. pose proof (store_weight L s _ _ _ _ Hst Ht). change (weight []) with 0 in Hroom.
  split; [by rewrite sec_upd_ne | by rewrite negb_involutive, sec_upd_eq | | done | done | | lia | done].
  - split; [done|]. split; [done|]. by split.
  - apply meaning_emptied; [by rewrite HI | by rewrite HI | by right | done].
Qed.

(** The marked sector before its collection. *)
Definition to_collect (j : bool) (stj d : Z) (its : list item) (sti : Z) (t : list item) (L : Sec * Sec) : Prop :=
  (d = SECTOR_DIRTY_TRUE \/ d = SECTOR_DIRTY_GC) /\ sec L j = Fmt stj d its
  /\ collecting j stj [] its sti t (upd L j (Fmt stj SECTOR_DIRTY_GC its)).

Lemma wpc_do_gc R0 j stj d its sti t L sector (Q : bool * unit -> Ef C -> Prop) s :
  to_collect j stj d its sti t L -> store L s -> env_cache_ok (cached_in L) (env_cache_table (ram s)) -> PL P L ->
  gc_request R0 = true -> in_recovery_check R0 = rec -> tables R0 (ram s) -> view j stj d sector ->
  (forall s', collected R0 j s' -> Q (false, tt) s') ->
  wpc P (do_gc junk_env junk_sector sector tt) Q s.
Proof using Hmode HJ Hslack.
  intros (Hd & HS & Hg) Hs Hc HP Hgc Hrec HR (V1 & V2 & V3 & V4 & V5) HQ. unfold do_gc. rewrite V1, V3.
  replace ((d =? SECTOR_DIRTY_TRUE) || (d =? SECTOR_DIRTY_GC)) with true by (by destruct Hd as [->| ->]). cbn [andb].
  rewrite V4. apply wpc_bind. set (L1 := upd L j (Fmt stj SECTOR_DIRTY_GC its)) in *.
  assert (HP1 : PL P L1) by (by eapply collecting_allowed).
  apply (wpc_dirty_status P L j stj d its SECTOR_DIRTY_GC); try done; [by right|].
  intros s1 Hr1 Hs1. apply wpc_bind.
  apply (wpc_gc_records R0 j stj sector) with (l1 := []) (l2 := its); try done.
  - intros l s2 [(sti2 & t2 & L2 & Hg2 & Hs2 & Hc2) HR2].
    assert (Hl : live (items L2 j) = []).
    { pose proof (gs_src _ _ _ _ _ _ _ _ _ _ _ _ Hg2) as HS2. rewrite app_nil_r in HS2. rewrite (items_sec _ _ _ _ _ HS2). apply Hg2. }
    pose proof (collecting_end _ _ _ _ _ _ _ Hg2 Hs2) as Hid.
    apply wpc_bind. apply (wpc_format P L2 j); try done.
    + by eapply collecting_allowed.
    + apply (allow P m J slack rec crash Hmode). intros _. by eapply collecting_blank.
    + apply (allow P m J slack rec crash Hmode). intros _. eapply (idle_recoverable _ m (J + slack)); [lia|].
      apply (idle_weaken _ m J); [lia | exact Hid].
    + intros s3 te Hr3 Hs3. apply wpc_ret, HQ. split.
      * exists sti2, t2, (upd L2 j (Fmt SECTOR_STORE_EMPTY SECTOR_DIRTY_FALSE [])). split; [done|]. split; [done|]. split.
        -- rewrite Hr3. cbn [env_cache_table put_sec_cache]. eapply env_cache_weaken; [|exact Hc2].
           apply cached_all. intros k v x. by apply found_emptied.
        -- apply Hg2.
      * rewrite Hr3. by eapply tables_trans, tables_cache.
  - split; [|by rewrite Hr1]. exists sti, t, L1. split; [done|]. split; [done|]. rewrite Hr1.
    eapply env_cache_weaken; [|exact Hc]. apply cached_all. intros k v x. by apply (found_levels L j stj d its).
  - by left.
  - by apply (store_ready L s j stj d its).
  - rewrite sector_fuel. unfold ends. rewrite ilen_nil. unfold SECTOR_HDR_DATA_SIZE, SECTOR_SIZE, EF_ERASE_MIN_SIZE. lia.
Qed.

Lemma wpc_empty_count L sector (Q : sector_meta_data * Z -> Ef C -> Prop) s :
  store L s -> wf L ->
  (forall sector', Q (sector', count L SECTOR_STORE_EMPTY) s) ->
  wpc P (sector_iterator junk_env sector SECTOR_STORE_EMPTY 0 gc_check_cb false) Q s.
Proof using.
  intros Hs Hwf HQ.
  apply (wpc_sector_iterator P junk_env (fun a s' => s' = s /\ a = 0)
           (fun a s' => s' = s /\ a = has_level L SECTOR_STORE_EMPTY false)
           (fun a s' => s' = s /\ a = count L SECTOR_STORE_EMPTY) (fun _ _ _ => False)).
  - intros i a s' Hi. assert (Es : s' = s) by (destruct i; tauto). subst s'. exists L. split; [done|].
    unfold sector_phase. pose proof (Hwf i) as Hw. destruct (sec L i) as [|st d its] eqn:HS; [done|].
    change (SECTOR_STORE_EMPTY =? SECTOR_STORE_UNUSED) with false. cbn [orb].
    assert (Hst : env_start_addr (ram s) = 0) by apply Hs.
    rewrite Z.eqb_sym. destruct (Z.eqb_spec st SECTOR_STORE_EMPTY) as [->|Hne].
    + intros sector1 Hv. apply wpc_ret. split; [done|]. destruct Hv as (Hc & Est & _). unfold gc_check_cb. rewrite Hc.
      apply wpc_ret. split; [done|].
      destruct i; destruct Hi as [_ ->]; split; try done; unfold count, has_level; rewrite HS;
        change (SECTOR_STORE_EMPTY =? SECTOR_STORE_EMPTY) with true; [|done].
      destruct (sec L false) as [|st0 d0 its0]; [done|]. by destruct (st0 =? SECTOR_STORE_EMPTY).
    + destruct i; destruct Hi as [_ ->]; split; try done; unfold count, has_level; rewrite HS; rewrite (proj2 (Z.eqb_neq _ _) Hne); lia.
  - intros sector1 a s' [-> ->]. apply HQ.
  - done.
  - done.
Qed.

(** A sector without deletions is passed over. *)
Lemma wpc_pass_gc sector (Q : bool * unit -> Ef C -> Prop) s :
  status_dirty sector = SECTOR_DIRTY_FALSE -> Q (false, tt) s -> wpc P (do_gc junk_env junk_sector sector tt) Q s.
Proof using. intros Hd HQ. unfold do_gc. rewrite Hd, andb_false_r. by apply wpc_ret. Qed.

Lemma wpc_do_collect R0 j stj d its sti t L sector (Q : sector_meta_data * unit -> Ef C -> Prop) s :
  to_collect j stj d its sti t L -> store L s -> env_cache_ok (cached_in L) (env_cache_table (ram s)) -> PL P L ->
  gc_request R0 = true -> in_recovery_check R0 = rec -> tables R0 (ram s) ->
  (forall sector' s', collected R0 j s' -> Q (sector', tt) s') ->
  wpc P (sector_iterator junk_env sector SECTOR_STORE_UNUSED tt (do_gc junk_env junk_sector) false) Q s.
Proof using Hmode HJ Hslack.
  intros Hto Hs Hc HP Hgc Hrec HR HQ. pose proof Hto as (Hd & HS & Hg).
  pose proof (gs_tgt _ _ _ _ _ _ _ _ _ _ _ _ Hg) as HT. rewrite sec_upd_ne in HT.
  apply (wpc_sector_iterator P junk_env (fun _ s' => s' = s)
           (fun _ s' => if j then s' = s else collected R0 j s') (fun _ s' => collected R0 j s') (fun _ _ _ => False)).
  - intros i [] s' Hi. assert (Hcases : (i = j /\ s' = s) \/ (i = negb j /\ if j then s' = s else collected R0 j s'))
      by (destruct i, j; auto).
    destruct Hcases as [[-> ->]|[-> Hi']].
    + exists L. split; [done|]. unfold sector_phase. rewrite HS. change (SECTOR_STORE_UNUSED =? SECTOR_STORE_UNUSED) with true. cbn [orb].
      intros sector1 Hv. apply wpc_ret. split; [done|]. apply (wpc_do_gc R0 j stj d its sti t L); try done.
      intros s2 Hcd. cbn [sector_done]. pose proof Hcd as [(sti2 & t2 & L2 & _ & Hs2 & _) _].
      split; [apply Hs2 | by destruct j].
    + assert (Hpass : forall L2 sti2 t2, store L2 s' -> sec L2 (negb j) = Fmt sti2 SECTOR_DIRTY_FALSE t2 ->
                (if negb j then collected R0 j s' else if j then s' = s else collected R0 j s') ->
                exists L0, store L0 s' /\ sector_phase P junk_env (fun _ s' => if j then s' = s else collected R0 j s')
                  (fun _ s' => collected R0 j s') (fun _ _ _ => False) SECTOR_STORE_UNUSED (do_gc junk_env junk_sector) false (negb j) L0 tt s').
      { intros L2 sti2 t2 Hs2 HS2 Hnext. exists L2. split; [done|]. unfold sector_phase. rewrite HS2.
        change (SECTOR_STORE_UNUSED =? SECTOR_STORE_UNUSED) with true. cbn [orb].
        intros sector1 Hv. apply wpc_ret. split; [done|]. apply wpc_pass_gc; [apply Hv|]. cbn [sector_done].
        split; [apply Hs2 | by destruct j]. }
      destruct j; cbn [negb] in *.
      * subst s'. by apply (Hpass L sti t).
      * pose proof Hi' as [(sti2 & t2 & L2 & Hid & Hs2 & _) _]. by apply (Hpass L2 sti2 t2); [|apply Hid|].
  - intros sector1 [] s' Hcd. by apply HQ.
  - done.
  - done.
Qed.

Lemma wpc_gc_collect R0 j stj d its sti t L (Q : unit -> Ef C -> Prop) s :
  to_collect j stj d its sti t L -> store L s -> env_cache_ok (cached_in L) (env_cache_table (ram s)) -> PL P L ->
  gc_request R0 = true -> in_recovery_check R0 = rec -> tables R0 (ram s) ->
  (forall s', collected (put_gc_request false R0) j s' -> Q tt s') ->
  wpc P (gc_collect junk_env junk_sector) Q s.
Proof using Hmode HJ Hslack.
  intros Hto Hs Hc HP Hgc Hrec HR HQ. pose proof Hto as (Hd & HS & Hg).
  pose proof (gs_src_wf _ _ _ _ _ _ _ _ _ _ _ _ Hg) as (W1 & W2 & W3).
  assert (Hwf : wf L).
  { pose proof (collecting_wf _ _ _ _ _ _ _ _ _ _ _ _ Hg) as Hw. intros i. destruct (decide (i = j)) as [->|Hne].
    - rewrite HS. split; [by split|done].
    - specialize (Hw i). replace i with (negb j) in * by (by destruct i, j). by rewrite sec_upd_ne in Hw. }
  unfold gc_collect. apply wpc_bind. apply (wpc_empty_count L); try done. intros sector1.
  assert (Hcnt : (count L SECTOR_STORE_EMPTY <=? EF_GC_EMPTY_SEC_THRESHOLD) = true).
  { apply Z.leb_le. assert (H0' : has_level L SECTOR_STORE_EMPTY j = 0).
    { unfold has_level. rewrite HS. by rewrite (proj2 (Z.eqb_neq _ _) W1). }
    assert (H1' : has_level L SECTOR_STORE_EMPTY (negb j) <= 1).
    { unfold has_level. destruct (sec L (negb j)) as [|st0 d0 its0]; [lia|]. destruct (st0 =? SECTOR_STORE_EMPTY); lia. }
    unfold count, EF_GC_EMPTY_SEC_THRESHOLD. destruct j; cbn [negb] in *; lia. }
  rewrite Hcnt. apply wpc_bind, wpc_bind. apply (wpc_do_collect R0 j stj d its sti t L); try done.
  intros sector2 s2 [(sti2 & t2 & L2 & Hid & Hs2 & Hc2 & Hng) HR2]. apply wpc_ret, wpc_put, HQ.
  destruct HR2 as (te & tt' & b & E & Hb). split.
  - exists sti2, t2, L2. split; [done|]. split; [by destruct Hs2; split | done].
  - exists te, tt', b. cbn [ram]. by rewrite E.
Qed.
End Gather.
