(* ===== verification/EfIdle.v ===== *)
(** * The store at rest

    [idle m J pure s]: the store holds the variables [m], between two calls.
    Where a new record goes, and what the collection does when there is no room. *)

From S2P Require Import Prelude CStr Storage EfEnv EfFlash EfLayout EfRead EfStore EfCache EfFind EfOps EfAlloc EfCreate EfMove EfLog EfTorn EfGc EfState EfCollect EfGather.
Open Scope list_scope.

(** The bytes the records of [m] take. *)
Definition used (m : env_map) : Z := total (map_to_list m).

Lemma used_lives L m : meaning (lives L) [] m -> total (lives L) = used m.
Proof.
  intros [-> Hn]%meaning_map. unfold used. apply total_perm. by rewrite map_to_list_to_map.
Qed.

Lemma used_in m k v : m !! k = Some v -> node_len k v <= used m.
Proof. intros Hk. apply (total_in (k, v)). by apply elem_of_map_to_list. Qed.

Lemma used_nonneg m : 0 <= used m.
Proof. apply total_nonneg. Qed.

Lemma used_cons m k v : m !! k = None -> used (<[k := v]> m) = node_len k v + used m.
Proof. intros Hk. unfold used. rewrite (total_perm _ _ (map_to_list_insert m k v Hk)). apply total_cons. Qed.

Lemma used_delete m k v : m !! k = Some v -> used m = node_len k v + used (delete k m).
Proof. intros Hk. rewrite <- (insert_delete_id m k v Hk) at 1. apply used_cons, lookup_delete_eq. Qed.

Lemma used_insert m k v : used (<[k := v]> m) <= used m + node_len k v.
Proof.
  rewrite <- insert_delete_eq, used_cons by apply lookup_delete_eq. destruct (m !! k) as [v0|] eqn:E.
  - rewrite (used_delete m k v0 E). pose proof (zlen_nonneg k). pose proof (zlen_nonneg v0). unfold node_len. lia.
  - rewrite delete_id by done. lia.
Qed.

(** ** The layout *)

Section Layout.
Context (L : Sec * Sec) (m : env_map) (J : Z) (i : bool) (st d : Z) (its : list item) (Hid : idle_at L m J i st d its).

Lemma idle_items : items L i = its /\ items L (negb i) = [].
Proof using Hid. split; [apply (items_sec _ _ _ _ _ (id_sec _ _ _ _ _ _ _ Hid)) | apply (items_sec _ _ _ _ _ (id_other _ _ _ _ _ _ _ Hid))]. Qed.

Lemma idle_lists : lives L ≡ₚ live its /\ pends L = [].
Proof using Hid.
  destruct idle_items as [E1 E2]. split.
  - rewrite (lives_at L i), E1, E2, app_nil_r. done.
  - apply Permutation_nil_r. by rewrite (pends_at L i), E1, E2, (id_pend _ _ _ _ _ _ _ Hid).
Qed.

Lemma idle_weight : weight its = used m.
Proof using Hid.
  destruct idle_lists as [E1 E2]. unfold weight. rewrite (id_pend _ _ _ _ _ _ _ Hid). rewrite <- (total_perm _ _ E1).
  pose proof (id_meaning _ _ _ _ _ _ _ Hid) as Hm. rewrite E2 in Hm. rewrite (used_lives L m Hm). cbn. lia.
Qed.

Lemma idle_wf : wf L.
Proof using Hid.
  destruct (id_wf _ _ _ _ _ _ _ Hid) as (W1 & W2 & W3 & W4). intros j. destruct (decide (j = i)) as [->|Hne].
  - rewrite (id_sec _ _ _ _ _ _ _ Hid). by split.
  - replace j with (negb i) by (by destruct i, j). rewrite (id_other _ _ _ _ _ _ _ Hid). split; [done | by left].
Qed.

(** A variable is where its record is. *)
Lemma idle_found k v x : found_at L k v x -> exists l1 l2, its = l1 ++ Rec ENV_WRITE k v :: l2 /\ x = ends (base i) l1.
Proof using Hid.
  intros (j & st0 & d0 & l1 & l2 & HS & ->). destruct (decide (j = i)) as [->|Hne].
  - rewrite (id_sec _ _ _ _ _ _ _ Hid) in HS. injection HS as <- <- ->. by exists l1, l2.
  - replace j with (negb i) in HS by (by destruct i, j). rewrite (id_other _ _ _ _ _ _ _ Hid) in HS.
    injection HS as _ _ E. by destruct l1.
Qed.

Lemma idle_lookup k v : m !! k = Some v <-> (k, v) ∈ lives L.
Proof using Hid.
  rewrite (map_is _ _ _ (id_meaning _ _ _ _ _ _ _ Hid)). destruct idle_lists as [_ ->].
  split; [intros [?|[Hi _]]; [done | by apply not_elem_of_nil in Hi] | by left].
Qed.

(** Both sectors are empty: each can be the one in use. *)
Lemma idle_swap : its = [] -> idle_at L m J (negb i) SECTOR_STORE_EMPTY SECTOR_DIRTY_FALSE [].
Proof using Hid.
  intros E. pose proof Hid as [Hs Ho (W1 & W2 & W3 & W4) Hd Hp Hm Hr Hj].
  specialize (W4 E). rewrite (proj2 W2 E), W4, E in *. split; try done.
  - by rewrite negb_involutive.
Qed.

(** *** Where a record of [sz] bytes goes *)
Definition fits (sz slack : Z) (i0 : bool) (st0 d0 : Z) (its0 : list item) : Prop :=
  idle_at L m J i0 st0 d0 its0 /\ (st0 <> SECTOR_STORE_FULL /\ sz < free i0 its0)
  /\ (d0 = SECTOR_DIRTY_FALSE -> sz + slack + EF_SEC_REMAIN_THRESHOLD <= free i0 its0).

Lemma alloc_idle sz slack :
  0 <= slack -> 0 <= sz -> used m + J + sz + slack + EF_SEC_REMAIN_THRESHOLD <= ROOM -> is_level st -> is_level d ->
  (exists i0 st0 d0 its0, alloc_spec L sz false = (Some i0, false) /\ fits sz slack i0 st0 d0 its0 /\ (d0 = d /\ (its0 = [] \/ its0 = its)))
  \/ (alloc_spec L sz false = (None, true) /\ d = SECTOR_DIRTY_TRUE).
Proof using Hid.
  intros Hsl Hsz Hroom Hlst Hld. pose proof Hid as [Hs Ho (W1 & W2 & W3 & W4) Hd Hp Hm Hr Hj]. pose proof idle_weight as Hw.
  assert (Hfree : d = SECTOR_DIRTY_FALSE -> sz + slack + EF_SEC_REMAIN_THRESHOLD <= free i its).
  { intros E. specialize (Hj E). rewrite free_ilen. lia. }
  assert (HT : EF_SEC_REMAIN_THRESHOLD = 60) by done.
  destruct (decide (st = SECTOR_STORE_EMPTY)) as [Est|Est].
  - left. assert (Eits : its = []) by (by apply W2). specialize (W4 Eits). specialize (Hfree W4).
    assert (Hboth : forall b, sec L b = Fmt SECTOR_STORE_EMPTY SECTOR_DIRTY_FALSE []).
    { intros b. destruct (decide (b = i)) as [->|Hne]; [by rewrite Hs, Est, W4, Eits|]. by replace b with (negb i) by (by destruct b, i). }
    exists false, SECTOR_STORE_EMPTY, SECTOR_DIRTY_FALSE, []. split; [|split].
    + assert (HA : forall s b, avail L s sz false b = (SECTOR_STORE_EMPTY =? s)).
      { intros s b. unfold avail. rewrite Hboth. rewrite (proj2 (Z.ltb_lt sz (free b []))); [by rewrite !andb_true_r|].
        rewrite Eits in Hfree. rewrite free_ilen in *. lia. }
      unfold alloc_spec, pick, count, has_level. rewrite !HA, !Hboth. done.
    + split; [|rewrite Eits in Hfree; rewrite !free_ilen in *; split; [split; [done | lia] | intros _; lia]].
      pose proof (idle_swap Eits) as Hsw. pose proof Hid as Hid'. rewrite Est, W4, Eits in Hid'. by destruct i.
    + split; [done | by left].
  - destruct (decide (st = SECTOR_STORE_FULL)) as [Ef|Ef].
    { right. specialize (W1 Ef). split; [|done].
      assert (HA : forall s0 b, (s0 =? SECTOR_STORE_FULL) = false -> s0 <> SECTOR_STORE_EMPTY -> avail L s0 sz false b = false).
      { intros s0 b E0 E1. unfold avail. destruct (decide (b = i)) as [->|Hne].
        - by rewrite Hs, Ef, Z.eqb_sym, E0.
        - replace b with (negb i) by (by destruct b, i). rewrite Ho. by rewrite Z.eqb_sym, (proj2 (Z.eqb_neq _ _) E1). }
      assert (Hc : count L SECTOR_STORE_EMPTY = 1).
      { unfold count, has_level. destruct i; cbn [negb] in *; rewrite Hs, Ho, Ef; done. }
      unfold alloc_spec, pick. rewrite !HA, Hc by done. done. }
    assert (Eu : st = SECTOR_STORE_USING) by (destruct Hlst as [->|[->| ->]]; done).
    assert (HAo : avail L SECTOR_STORE_USING sz false (negb i) = false) by (unfold avail; by rewrite Ho).
    assert (HAi : avail L SECTOR_STORE_USING sz false i = (sz <? free i its)).
    { unfold avail. rewrite Hs, Eu. destruct Hld as [->|[->| ->]]; [cbn | cbn | done]; by rewrite andb_true_r. }
    assert (Hpick : pick L SECTOR_STORE_USING sz false = if sz <? free i its then Some i else None).
    { unfold pick. destruct i; cbn [negb] in *; rewrite HAi, HAo; by destruct (sz <? _). }
    unfold alloc_spec. rewrite Hpick. destruct (Z.ltb_spec sz (free i its)) as [Hlt|Hge].
    + left. exists i, st, d, its. split; [done|]. split; [split; [done | by split; [split|]]|]. split; [done | by right].
    + right. assert (Hc : count L SECTOR_STORE_EMPTY = 1).
      { unfold count, has_level. destruct i; cbn [negb] in *; rewrite Hs, Ho, Eu; done. }
      rewrite Hc. split; [done|]. destruct Hld as [E|[E|E]]; [specialize (Hfree E); lia | done | done].
Qed.
End Layout.

(** A marked sector of a store at rest, ready to be collected. *)
Lemma idle_collect L m J slack crash i st its :
  0 <= J -> used m + slack + EF_SEC_REMAIN_THRESHOLD <= ROOM -> idle_at L m J i st SECTOR_DIRTY_TRUE its ->
  to_collect m J slack false crash i st SECTOR_DIRTY_TRUE its SECTOR_STORE_EMPTY [] L.
Proof.
  intros HJ Hroom Hid. pose proof (idle_weight _ _ _ _ _ _ _ Hid) as Hw.
  pose proof Hid as [Hs Ho (W1 & W2 & W3 & W4) Hd Hp Hm Hr Hj].
  assert (Hne : its <> []) by (intros E; by specialize (W4 E)).
  split; [by left|]. split; [done|]. split; try done.
  - apply sec_upd_eq.
  - split; [by intros ?%W2 | done].
  - by rewrite sec_upd_ne.
  - split; [done|]. split; [done|]. split; [by left | done].
  - apply (meaning_other L i st _ its); [by apply (items_sec _ _ st SECTOR_DIRTY_TRUE) | done..].
  - rewrite Hw. change (ilen []) with 0. lia.
Qed.

(** ** The state *)

Definition resting (lock : Z) (R : EfRam) : Prop :=
  init_ok R = true /\ gc_request R = false /\ in_recovery_check R = false /\ last_is_complete_del R = false /\ env_lock R = lock
  /\ default_env_set R = port_default_set.

Lemma resting_tables lock R R' : tables R R' -> resting lock R -> resting lock R'.
Proof.
  intros (t & te & b & -> & Hb) (H1 & H2 & H3 & H4 & H5 & H6). split_and!; try done. cbn [last_is_complete_del put_last].
  destruct b; [|done]. rewrite <- H4. symmetry. by apply Hb.
Qed.

Section State.
Context {C : Type} `{FlashDoc C}.
Implicit Types (s : Ef C).

Record idle (m : env_map) (J : Z) (pure : bool) (lock : Z) s : Prop := {
  idle_layout : exists L i st d its, idle_at L m J i st d its /\ store L s /\ env_cache_ok (cached_in L) (env_cache_table (ram s))
                  /\ (pure = true -> clean its);
  idle_ram : resting lock (ram s)
}.
End State.

Section New_env.
Context {C : Type} `{FlashDoc C} (P : (Z -> Z) -> Prop) (junk_env : env_node_obj) (junk_sector : sector_meta_data).
Context (m : env_map) (J slack : Z) (crash : bool) (Hmode : mode P m J slack false crash) (HJ : 0 <= J) (Hslack : 0 <= slack).
Implicit Types (s : Ef C).

Lemma idle_allowed L i st d its : idle_at L m J i st d its -> PL P L.
Proof using Hmode HJ Hslack.
  intros Hid. apply (allow P m J slack false crash Hmode). intros _. eapply (idle_recoverable _ m (J + slack)); [lia|].
  apply (idle_weaken _ m J); [lia | exact Hid].
Qed.

(** The place of a record of [sz] bytes: [alloc_env], after a collection if need be. *)
Record placed (sz : Z) (R0 : EfRam) (a : Z) (sector : sector_meta_data) s : Prop := {
  pl_at : exists L i st d its, fits L m J sz slack i st d its /\ store L s /\ env_cache_ok (cached_in L) (env_cache_table (ram s))
            /\ (crash = true -> clean its) /\ view i st d sector /\ room i st its sector /\ a = ends (base i) its;
  pl_ram : tables R0 (ram s)
}.

Definition requested (L : Sec * Sec) (s0 : Ef C) (a : Z) s : Prop :=
  a = FAILED_ADDR /\ store L s /\ exists t, ram s = put_gc_request true (put_sec_cache t (ram s0)).

Lemma wpc_alloc_idle R0 L i st d its sz sector (Q : Z * sector_meta_data -> Ef C -> Prop) s :
  idle_at L m J i st d its -> store L s -> env_cache_ok (cached_in L) (env_cache_table (ram s)) ->
  (crash = true -> clean its) -> gc_request (ram s) = false -> tables R0 (ram s) ->
  0 <= sz -> used m + J + sz + slack + EF_SEC_REMAIN_THRESHOLD <= ROOM ->
  (forall a sector' s', placed sz R0 a sector' s' -> gc_request (ram s') = false -> Q (a, sector') s') ->
  (forall a sector' s', requested L s a s' -> d = SECTOR_DIRTY_TRUE -> Q (a, sector') s') ->
  wpc P (alloc_env junk_env sector sz) Q s.
Proof using Hmode HJ Hslack.
  intros Hid Hs Hc Hng Hgc HR Hsz Hroom HQ1 HQ2. pose proof (idle_wf _ _ _ _ _ _ _ Hid) as Hwf.
  destruct (store_level L s _ _ _ _ Hs (id_sec _ _ _ _ _ _ _ Hid)) as [Hl1 Hl2].
  apply (wpc_alloc P junk_env L Hwf (idle_allowed _ _ _ _ _ Hid)); [done|].
  rewrite Hgc. intros a sector1 s1 t1 Hr1 Hs1 Ha.
  destruct (alloc_idle L m J i st d its Hid sz slack Hslack Hsz Hroom Hl1 Hl2)
    as [(i0 & st0 & d0 & its0 & Eal & Hfit & Ed & Eits)|(Eal & Ed)]; rewrite Eal in Hr1, Ha; cbn [fst snd] in *.
  - destruct Ha as [Ea (st1 & d1 & HS1 & Hv & Hrm)]. pose proof Hfit as (Hid0 & _).
    pose proof (id_sec _ _ _ _ _ _ _ Hid0) as HS0. rewrite HS0 in HS1. injection HS1 as <- <- E0.
    apply HQ1; [|by rewrite Hr1]. rewrite <- E0 in *. split.
    + exists L, i0, st0, d0, its0. split; [done|]. split; [done|]. split; [by rewrite Hr1|]. split; [|done].
      intros Ec. destruct Eits as [->| ->]; [done | by apply Hng].
    + eapply tables_trans; [exact HR|]. rewrite Hr1. exists t1, (env_cache_table (ram s)), (last_is_complete_del (ram s)).
      split; [|done]. rewrite <- Hgc. by destruct (ram s).
  - apply HQ2; [|done]. split; [done|]. split; [done|]. by exists t1.
Qed.

Lemma tables_requested s0 s1 R2 t1 :
  gc_request (ram s0) = false -> ram s1 = put_gc_request true (put_sec_cache t1 (ram s0)) ->
  tables (put_gc_request false (ram s1)) R2 -> tables (ram s0) R2.
Proof using.
  intros Hgc -> (t & te & b & -> & Hb). exists t, te, b. split; [|exact Hb]. rewrite <- Hgc. by destruct (ram s0).
Qed.

Lemma wpc_new_env L i st d its sz sector (Q : Z * sector_meta_data -> Ef C -> Prop) s :
  idle_at L m J i st d its -> store L s -> env_cache_ok (cached_in L) (env_cache_table (ram s)) ->
  (crash = true -> clean its) -> gc_request (ram s) = false -> in_recovery_check (ram s) = false ->
  0 <= sz -> used m + J + sz + slack + EF_SEC_REMAIN_THRESHOLD <= ROOM ->
  (forall a sector' s', placed sz (ram s) a sector' s' -> Q (a, sector') s') ->
  wpc P (new_env junk_env junk_sector sector sz) Q s.
Proof using Hmode HJ Hslack.
  intros Hid Hs Hc Hng Hgc Hrec Hsz Hroom HQ.
  unfold new_env. apply wpc_bind. apply (wpc_alloc_idle (ram s) L i st d its); try done; [apply tables_refl | |].
  - intros a sector1 s1 Hpl Hgc1. apply wpc_bind, wpc_gets. rewrite Hgc1, andb_false_r. by apply wpc_ret, HQ.
  - intros a sector1 s1 (-> & Hs1 & t1 & Hr1) ->. apply wpc_bind, wpc_gets. rewrite Hr1. cbn [gc_request put_gc_request].
    rewrite Z.eqb_refl. cbn [andb].
    apply wpc_bind. apply (wpc_gc_collect P junk_env junk_sector m J slack false crash Hmode HJ Hslack (ram s1) i st SECTOR_DIRTY_TRUE its SECTOR_STORE_EMPTY [] L);
      [apply idle_collect; try done; lia | done | by rewrite Hr1 | by eapply idle_allowed | by rewrite Hr1 | by rewrite Hr1 | apply tables_refl |].
    intros s2 [(sti2 & t2 & L2 & Hid2 & Hs2 & Hc2 & Hng2) HR2].
    apply (wpc_alloc_idle (ram s) L2 (negb i) sti2 SECTOR_DIRTY_FALSE t2); try done.
    + destruct HR2 as (t & te & b & -> & _). done.
    + by eapply tables_requested.
    + intros a sector2 s3 Hpl _. by apply HQ.
Qed.
End New_env.
