(* ===== verification/EfSet.v ===== *)
(** * Setting a variable

    [set_env] on a store at rest: the layouts it goes through and their meaning. *)

From S2P Require Import Prelude CStr Storage EfEnv EfFlash EfLayout EfRead EfStore EfCache EfFind EfOps EfAlloc EfCreate EfMove EfLog EfTorn EfGc EfState EfCollect EfGather EfIdle.
Open Scope list_scope.

(** A store on the way from one rest to the next: records may be pending, and
    the sector may have become full. *)
Record rest_at (L : Sec * Sec) (m : env_map) (J : Z) (i : bool) (st d : Z) (its : list item) : Prop := {
  re_sec : sec L i = Fmt st d its;
  re_other : sec L (negb i) = Fmt SECTOR_STORE_EMPTY SECTOR_DIRTY_FALSE [];
  re_wf : (st = SECTOR_STORE_EMPTY <-> its = []) /\ tidy its /\ (its = [] -> d = SECTOR_DIRTY_FALSE);
  re_level : d <> SECTOR_DIRTY_GC;
  re_meaning : meaning (lives L) (pends L) m;
  re_room : weight its + EF_SEC_REMAIN_THRESHOLD <= ROOM;
  re_clean : d = SECTOR_DIRTY_FALSE -> forall k v, (k, v) ∈ pend its -> st <> SECTOR_STORE_FULL /\ node_len k v < free i its;
  re_junk : d = SECTOR_DIRTY_FALSE -> ilen its <= weight its + J;
  re_full : st = SECTOR_STORE_FULL -> d <> SECTOR_DIRTY_FALSE
}.

Lemma rest_recoverable L m J i st d its : 0 <= J -> rest_at L m J i st d its -> ordered its -> recoverable L m J.
Proof.
  intros HJ [Hs Ho Hw Hd Hm Hr Hc Hj Hf] Hord. exists i, st, d, its. split; [done.. | | done | done | done | done].
  rewrite Ho. cbn [other_ok]. change (ilen []) with 0. change (weight []) with 0.
  split; [done|]. split; [done|]. split; [done|]. split; [by left|]. split; [done|]. split; [by right | lia].
Qed.

Lemma rest_weaken L m J J' i st d its : J <= J' -> rest_at L m J i st d its -> rest_at L m J' i st d its.
Proof. intros Hle [Hs Ho Hw Hd Hm Hr Hc Hj Hf]. split; [done..| |done]. intros E. specialize (Hj E). lia. Qed.

Lemma idle_rest L m J i st d its : idle_at L m J i st d its -> rest_at L m J i st d its.
Proof.
  intros [Hs Ho (W1 & W2) Hd Hp Hm Hr Hj]. split; try done.
  - intros _ k v. rewrite Hp. by intros ?%not_elem_of_nil.
  - by intros ->%W1.
Qed.

Lemma rest_idle L m J i st d its : rest_at L m J i st d its -> pend its = [] -> (st = SECTOR_STORE_FULL -> d = SECTOR_DIRTY_TRUE) -> idle_at L m J i st d its.
Proof. by intros [Hs Ho Hw Hd Hm Hr Hc Hj Hf] Hp Hst; split. Qed.

(** A marked sector at rest is ready to be collected, full or not. *)
Lemma rest_collect L m J slack crash i st its :
  0 <= J -> used m + slack + EF_SEC_REMAIN_THRESHOLD <= ROOM -> rest_at L m J i st SECTOR_DIRTY_TRUE its -> pend its = [] ->
  to_collect m J slack false crash i st SECTOR_DIRTY_TRUE its SECTOR_STORE_EMPTY [] L.
Proof.
  intros HJ Hroom [Hs Ho (W2 & W3 & W4) Hd Hm Hr Hc Hj Hf] Hp.
  assert (Hne : its <> []) by (intros E; by specialize (W4 E)). pose proof (items_sec _ _ _ _ _ Hs) as HI. apply items_sec in Ho as HO.
  assert (Hw : weight its = used m).
  { assert (E : lives L ≡ₚ live its) by (rewrite (lives_at L i), HI, HO, app_nil_r; done).
    assert (Ep : pends L = []) by (apply Permutation_nil_r; by rewrite (pends_at L i), HI, HO, Hp).
    rewrite Ep in Hm. unfold weight. rewrite Hp, <- (used_lives L m Hm), (total_perm _ _ E). cbn. lia. }
  split; [by left|]. split; [done|]. split; try done.
  - apply sec_upd_eq.
  - split; [by intros ?%W2 | done].
  - by rewrite sec_upd_ne.
  - split; [done|]. split; [done|]. split; [by left | done].
  - by apply (meaning_other L i st _ its).
  - rewrite Hw. change (ilen []) with 0. lia.
Qed.

Section Set_env.
Context (P : (Z -> Z) -> Prop) (m : env_map) (J slack : Z) (crash : bool) (HJ : 0 <= J) (Hslack : 0 <= slack).
Context (k v : list Z) (Hok : entry_ok k v).

(** Every content is allowed, or those from which the variables before or after
    are recovered; then every record can be torn. *)
Definition set_mode : Prop :=
  if crash then
    (forall L, recoverable L m (J + slack) \/ recoverable L (<[k := v]> m) (J + slack) -> PL P L)
    /\ forall k' v', m !! k' = Some v' \/ (k' = k /\ v' = v) -> tear_safe k' v' /\ node_len k' v' <= slack
  else forall mu, P mu.

Context (Hmode : set_mode) (Hroom : used m + J + node_len k v + slack + EF_SEC_REMAIN_THRESHOLD <= ROOM).

Lemma mode_before : mode P m J slack false crash.
Proof using Hmode.
  unfold mode. unfold set_mode in Hmode. destruct crash; [|done]. destruct Hmode as [H1 H2].
  split; [done|]. split; [intros L HL; apply H1; by left|]. intros k' v' Hk. apply H2. by left.
Qed.

Lemma mode_after : mode P (<[k := v]> m) J slack false crash.
Proof using Hmode.
  unfold mode. unfold set_mode in Hmode. destruct crash; [|done]. destruct Hmode as [H1 H2].
  split; [done|]. split; [intros L HL; apply H1; by right|]. intros k' v' Hk. apply H2.
  apply lookup_insert_Some in Hk as [[<- <-]|[_ Hk]]; [by right | by left].
Qed.

Lemma rest_allowed L m0 i st d its :
  m0 = m \/ m0 = <[k := v]> m -> (crash = true -> rest_at L m0 (J + slack) i st d its /\ ordered its) -> PL P L.
Proof using HJ Hslack Hmode.
  intros Hm0 Hr. destruct (mode_cases P m J slack false crash mode_before) as [Ec|HP]; [|by apply PL_all].
  unfold set_mode in Hmode. rewrite Ec in Hmode. destruct Hmode as [HL _]. apply HL.
  assert (HR : recoverable L m0 (J + slack)) by (destruct (Hr Ec) as [Hr1 Hr2]; by apply (rest_recoverable _ _ _ i st d its); [lia|..]).
  destruct Hm0 as [->| ->]; [by left | by right].
Qed.

(** ** The record is written *)

(** The store ready for the new record; [old] is the value that was there. *)
Record opened (L : Sec * Sec) (i : bool) (st d : Z) (its : list item) (old : option (list Z)) : Prop := {
  op_rest : rest_at L m J i st d its;
  op_level : st <> SECTOR_STORE_FULL;
  op_gone : k ∉ (lives L).*1;
  op_pend : pends L = match old with Some v0 => [(k, v0)] | None => [] end;
  op_pend_its : pend its = match old with Some v0 => [(k, v0)] | None => [] end;
  op_soiled : old <> None -> d = SECTOR_DIRTY_TRUE;
  op_weight : weight its = used m;
  op_free : node_len k v < free i its;
  op_clean : d = SECTOR_DIRTY_FALSE -> node_len k v + slack + EF_SEC_REMAIN_THRESHOLD <= free i its;
  op_gaps : crash = true -> clean its
}.

Section Opened.
Context (L : Sec * Sec) (i : bool) (st d : Z) (its : list item) (old : option (list Z)) (Ho : opened L i st d its old).

Definition grown (x : item) (st' : Z) : Sec * Sec := upd L i (Fmt st' d (its ++ [x])).

Lemma grown_rest x st' m0 J' :
  st' = SECTOR_STORE_USING \/ (st' = SECTOR_STORE_FULL /\ d <> SECTOR_DIRTY_FALSE) -> tidy (its ++ [x]) -> pend [x] = [] ->
  item_len x <= weight [x] + (J' - J) -> weight [x] <= node_len k v ->
  meaning (lives (grown x st')) (pends (grown x st')) m0 -> rest_at (grown x st') m0 J' i st' d (its ++ [x]).
Proof using Ho Hroom HJ Hslack.
  intros Hst Ht Hp Hl Hw Hm. pose proof Ho as [[R1 R2 R3 R4 R5 R6 R7 R8 R9] O2 O3 O4 O5 O6 O7 O8 O9 _].
  split; try done.
  - apply sec_upd_eq.
  - unfold grown. by rewrite sec_upd_ne.
  - split; [split; [by destruct Hst as [->|[-> ?]] | by destruct its]|]. split; [done | by destruct its].
  - rewrite weight_app. lia.
  - intros Ed k0 v0. rewrite pend_app, Hp, app_nil_r, O5. destruct old; [|by intros ?%not_elem_of_nil].
    rewrite O6 in Ed by done. done.
  - intros Ed. specialize (R8 Ed). rewrite weight_app, ilen_app, ilen_cons, ilen_nil. lia.
  - intros ->. by destruct Hst as [?|[_ ?]].
Qed.

Lemma grown_same x st' :
  live [x] = [] -> pend [x] = [] -> meaning (lives (grown x st')) (pends (grown x st')) m.
Proof using Ho.
  intros Hl Hp. pose proof (op_rest _ _ _ _ _ _ Ho) as [R1 _ _ _ R5 _ _ _ _].
  apply (meaning_other L i _ _ its); [by eapply items_sec | by rewrite live_app, Hl, app_nil_r | by rewrite pend_app, Hp, app_nil_r | done].
Qed.

Lemma written_meaning st' :
  meaning (lives (grown (Rec ENV_WRITE k v) st')) (pends (grown (Rec ENV_WRITE k v) st')) (<[k := v]> m).
Proof using Ho.
  pose proof Ho as [[R1 _ _ _ R5 _ _ _ _] _ O3 O4 _ _ _ _ _ _].
  destruct (append_lists L i st' d k v its (items_sec _ _ _ _ _ R1)) as [HA HB].
  rewrite O4 in *. apply (meaning_perm ((k, v) :: lives L) _ (match old with Some v0 => [(k, v0)] | None => [] end)); [by symmetry | by symmetry|].
  destruct old; [by apply meaning_set | by apply meaning_new].
Qed.

Lemma written_rest st' :
  st' = SECTOR_STORE_USING \/ (st' = SECTOR_STORE_FULL /\ d <> SECTOR_DIRTY_FALSE) ->
  rest_at (grown (Rec ENV_WRITE k v) st') (<[k := v]> m) J i st' d (its ++ [Rec ENV_WRITE k v]).
Proof using Ho Hroom HJ Hslack.
  intros Hst. assert (Ew : weight [Rec ENV_WRITE k v] = node_len k v).
  { unfold weight. rewrite live_rec, pend_rec. cbn. lia. }
  apply grown_rest; [done | apply tidy_snoc | by rewrite pend_rec | rewrite rec_len; lia | lia | apply written_meaning].
Qed.

(** Whatever of the record is written, the old variables are there. *)
Lemma grown_allowed x st' :
  st' = SECTOR_STORE_USING \/ (st' = SECTOR_STORE_FULL /\ d <> SECTOR_DIRTY_FALSE) -> (crash = true -> tidy (its ++ [x])) -> live [x] = [] -> pend [x] = [] ->
  item_len x <= node_len k v -> PL P (grown x st').
Proof using Ho Hroom HJ Hslack Hmode Hok.
  intros Hst Ht Hl Hp Hlen. pose proof (entry_len_bound k v Hok).
  apply (rest_allowed _ m i st' d (its ++ [x])); [by left|]. intros Ec.
  assert (Hs : node_len k v <= slack).
  { unfold set_mode in Hmode. rewrite Ec in Hmode. apply Hmode. by right. }
  assert (Ew : weight [x] = 0) by (unfold weight; by rewrite Hl, Hp).
  split; [apply grown_rest; [done | by apply Ht | done | lia | lia | by apply grown_same]|].
  apply ordered_clean; [by apply Ho | done].
Qed.

Lemma open_allowed st' :
  st' = SECTOR_STORE_USING \/ (st' = SECTOR_STORE_FULL /\ d <> SECTOR_DIRTY_FALSE) -> PL P (upd L i (Fmt st' d its)).
Proof using Ho Hroom HJ Hslack Hmode Hok.
  intros Hst. destruct (decide (its = [])) as [E|E].
  - intros mu HF. assert (HA : PL P (grown phantom st')).
    { apply grown_allowed; [done | by rewrite E; left | done | done|].
      pose proof (entry_len_bound k v Hok). change (item_len phantom) with 28. lia. }
    apply HA. rewrite E in HF. unfold grown. rewrite E. cbn [app].
    pose proof (Flash_phantom mu _ i _ _ HF (sec_upd_eq _ _ _)) as Hph. by rewrite upd_upd in Hph.
  - pose proof Ho as [[R1 R2 R3 R4 R5 R6 R7 R8 R9] O2 O3 O4 O5 O6 O7 O8 O9 O10].
    apply (rest_allowed _ m i st' d its); [by left|]. intros Ec. split; [|by apply ordered_all, O10]. split; try done.
    + apply sec_upd_eq.
    + by rewrite sec_upd_ne.
    + split; [split; [by destruct Hst as [->|[-> ?]] | done]|]. split; [apply R3 | done].
    + by apply (meaning_other L i _ _ its); [eapply items_sec|..].
    + intros Ed k0 v0. rewrite O5. destruct old; [|by intros ?%not_elem_of_nil]. by rewrite O6 in Ed.
    + intros Ed. specialize (R8 Ed). lia.
    + intros ->. by destruct Hst as [?|[_ ?]].
Qed.

Lemma open_appending st' :
  st' = SECTOR_STORE_USING \/ (st' = SECTOR_STORE_FULL /\ d <> SECTOR_DIRTY_FALSE) -> appending P L i st' d its k v.
Proof using Ho Hroom HJ Hslack Hmode Hok.
  intros Hst. pose proof Ho as [Hrest O2 O3 O4 O5 O6 O7 O8 O9 O10].
  split; [|split; [by apply open_allowed|split; [|split]]].
  - apply (rest_allowed _ m i st d its); [by left|]. intros Ec. split; [by apply (rest_weaken _ _ J); [lia|] | by apply ordered_all, O10].
  - apply grown_allowed; [done | intros _; apply tidy_snoc | by rewrite live_rec | by rewrite pend_rec | rewrite rec_len; lia].
  - apply (rest_allowed _ (<[k := v]> m) i st' d (its ++ [Rec ENV_WRITE k v])); [by right|]. intros Ec.
    split; [by apply (rest_weaken _ _ J); [lia | apply written_rest]|].
    apply ordered_clean; [by apply O10 | by rewrite pend_rec].
  - intros m0 n mu Hn HF Hb. destruct (mode_cases P m J slack false crash mode_before) as [Ec|HP]; [|apply HP].
    assert (Hsafe : tear_safe k v) by (unfold set_mode in Hmode; rewrite Ec in Hmode; apply Hmode; by right).
    pose proof (torn_append k v Hok Hsafe m0 mu _ i _ _ its n HF (sec_upd_eq _ _ _) ltac:(lia) Hn Hb) as HF'.
    rewrite upd_upd in HF'. destruct (torn_lists k v n (bool_decide (its = []))) as [HL HPd].
    destruct (torn_ok k v Hok Hsafe n (bool_decide (its = [])) Hn) as (_ & _ & _ & Hlen).
    refine (grown_allowed _ st' Hst _ HL HPd Hlen mu HF'). intros _. by apply torn_tidy, clean_no_gaps, O10.
Qed.
End Opened.

(** ** The old record *)

Section Placed.
Context (L : Sec * Sec) (i : bool) (st d : Z) (its : list item).
Context (Hfits : fits L m J (node_len k v) slack i st d its) (Hng : crash = true -> clean its).

Lemma opened_new : (forall w, (k, w) ∉ lives L) -> opened L i st d its None.
Proof using Hfits Hng.
  intros Hno. destruct Hfits as (Hid & (Hnf & Hfree) & Hclean). destruct (idle_lists _ _ _ _ _ _ _ Hid) as [_ Hp].
  split; try done.
  - by apply idle_rest.
  - intros (w & Hw)%keys_in. by apply (Hno w).
  - apply (id_pend _ _ _ _ _ _ _ Hid).
  - by apply idle_weight in Hid.
Qed.

Context (l1 l2 : list item) (v0 : list Z) (Eits : its = l1 ++ Rec ENV_WRITE k v0 :: l2) (Hlvl : is_level d).
Let its1 := l1 ++ Rec ENV_PRE_DELETE k v0 :: l2.

Lemma old_lists d' :
  lives L ≡ₚ (k, v0) :: lives (upd L i (Fmt st d' its1)) /\ pends (upd L i (Fmt st d' its1)) = [(k, v0)]
  /\ pend its1 = [(k, v0)] /\ weight its1 = used m /\ ilen its1 = ilen its /\ (k ∉ (lives (upd L i (Fmt st d' its1))).*1)
  /\ meaning (lives (upd L i (Fmt st d' its1))) (pends (upd L i (Fmt st d' its1))) m.
Proof using Hfits Eits.
  destruct Hfits as (Hid & _). pose proof Hid as [Hs Ho (W1 & W2 & W3 & W4) Hd Hp Hm Hr Hj].
  destruct (idle_items _ _ _ _ _ _ _ Hid) as [HI _]. destruct (idle_lists _ _ _ _ _ _ _ Hid) as [_ Hp0].
  rewrite Eits in HI. destruct (mark_lists L i st d' k v0 l1 l2 HI) as [HA HB]. rewrite Hp0 in HB, Hm.
  apply Permutation_singleton_r in HB. fold its1 in HA, HB.
  assert (Hn : k ∉ (lives (upd L i (Fmt st d' its1))).*1).
  { pose proof (one_live _ _ _ Hm) as Hn. rewrite HA, fmap_cons in Hn. by apply NoDup_cons in Hn as [? _]. }
  split; [done|]. split; [done|]. split; [|split; [|split; [|split; [done|]]]].
  - rewrite Eits, pend_split in Hp. apply app_nil in Hp as [E1 [_ E2]%app_nil]. unfold its1. rewrite pend_split, E1, E2. done.
  - rewrite <- (idle_weight _ _ _ _ _ _ _ Hid), Eits. unfold its1, weight. rewrite !live_split, !pend_split, !total_app.
    change (ENV_PRE_DELETE =? ENV_WRITE) with false. change (ENV_PRE_DELETE =? ENV_PRE_DELETE) with true.
    change (ENV_WRITE =? ENV_WRITE) with true. change (ENV_WRITE =? ENV_PRE_DELETE) with false. cbn [total foldr fst snd]. unfold total. cbn. lia.
  - rewrite Eits. unfold its1. rewrite !ilen_app, !ilen_cons, !rec_len. done.
  - rewrite HB. apply meaning_mark; [|by apply not_elem_of_nil].
    apply (meaning_perm (lives L) _ []); [done | done | done].
Qed.

Lemma old_rest d' :
  (d' = d \/ d' = soil d) -> node_len k v0 <= slack \/ d' = SECTOR_DIRTY_TRUE -> rest_at (upd L i (Fmt st d' its1)) m J i st d' its1.
Proof using Hfits Eits Hlvl Hslack Hok Hroom HJ.
  intros Hd' Hsl. destruct (old_lists d') as (HA & HB & HC & HD & HE & HF & HG).
  destruct Hfits as (Hid & (Hnf & Hfree) & Hclean). pose proof Hid as [Hs Ho (W1 & W2 & W3 & W4) Hd Hp Hm Hr Hj].
  pose proof (idle_weight _ _ _ _ _ _ _ Hid) as Hw. pose proof (entry_len_bound k v Hok).
  assert (Ed : d' = SECTOR_DIRTY_FALSE -> d = SECTOR_DIRTY_FALSE).
  { destruct Hd' as [->| ->]; [done|]. unfold soil. by destruct (Z.eqb_spec d SECTOR_DIRTY_FALSE). }
  assert (Hne : its1 <> []) by (by destruct l1). assert (Hne0 : its <> []) by (rewrite Eits; by destruct l1).
  split; try done.
  - apply sec_upd_eq.
  - by rewrite sec_upd_ne.
  - split; [split; [by intros ?%W2 | done]|]. split; [|done]. rewrite Eits in W3. by eapply tidy_status.
  - destruct Hd' as [->| ->]; [done|]. unfold soil. by destruct (Z.eqb_spec d SECTOR_DIRTY_FALSE).
  - lia.
  - intros E k1 v1. rewrite HC. intros [[= -> ->]|Hi%not_elem_of_nil]%elem_of_cons; [|done]. split; [done|].
    specialize (Hclean (Ed E)). rewrite free_ilen in *. rewrite HE. destruct Hsl as [?|E2]; [|by rewrite E2 in E].
    unfold EF_SEC_REMAIN_THRESHOLD, ENV_HDR_DATA_SIZE, EF_ENV_NAME_MAX in *. lia.
  - intros E. specialize (Hj (Ed E)). lia.
Qed.
End Placed.

Lemma opened_old L i st d its l1 l2 v0 :
  fits L m J (node_len k v) slack i st d its -> (crash = true -> clean its) -> its = l1 ++ Rec ENV_WRITE k v0 :: l2 -> is_level d ->
  opened (upd L i (Fmt st (soil d) (l1 ++ Rec ENV_PRE_DELETE k v0 :: l2))) i st (soil d) (l1 ++ Rec ENV_PRE_DELETE k v0 :: l2) (Some v0).
Proof using Hslack Hok Hroom HJ.
  intros Hfits Hng Eits Hlvl. destruct (old_lists L i st d its Hfits l1 l2 v0 Eits (soil d)) as (HA & HB & HC & HD & HE & HF & HG).
  assert (Esoil : soil d = SECTOR_DIRTY_TRUE).
  { destruct Hfits as (Hid & _). pose proof (id_level _ _ _ _ _ _ _ Hid) as Hd. unfold soil.
    destruct (Z.eqb_spec d SECTOR_DIRTY_FALSE); [done|]. by destruct Hlvl as [->|[->| ->]]. }
  pose proof Hfits as (Hid & (Hnf & Hfree) & Hclean). split; try done.
  - apply (old_rest L i st d its Hfits l1 l2 v0 Eits Hlvl); by right.
  - rewrite free_ilen in *. lia.
  - by rewrite Esoil.
  - intros Ec. specialize (Hng Ec). rewrite Eits in Hng. by apply (clean_status _ _ ENV_WRITE).
Qed.

Lemma closed_old L i st st' d l1 l2 v0 :
  let its1 := l1 ++ Rec ENV_PRE_DELETE k v0 :: l2 in
  let itsf := l1 ++ Rec ENV_DELETED k v0 :: l2 ++ [Rec ENV_WRITE k v] in
  opened L i st d its1 (Some v0) -> st' = SECTOR_STORE_USING \/ (st' = SECTOR_STORE_FULL /\ d <> SECTOR_DIRTY_FALSE) ->
  rest_at (upd L i (Fmt st' d itsf)) (<[k := v]> m) J i st' d itsf /\ pend itsf = [].
Proof using Hslack Hok Hroom HJ.
  intros its1 itsf Ho Hst. pose proof (written_rest L i st d its1 (Some v0) Ho st' Hst) as [R1 R2 (R3 & R4 & R5) R6 R7 R8 R9 R10 R11].
  unfold grown in *. rewrite sec_upd_ne in R2.
  assert (Ed : d = SECTOR_DIRTY_TRUE) by (by apply Ho).
  assert (E1 : its1 ++ [Rec ENV_WRITE k v] = l1 ++ Rec ENV_PRE_DELETE k v0 :: l2 ++ [Rec ENV_WRITE k v]) by (unfold its1; by rewrite <- app_assoc).
  rewrite E1 in *. clear R1. destruct (delete_lists _ i st' d k v0 l1 (l2 ++ [Rec ENV_WRITE k v]) (items_upd L i st' d _)) as [HA HB]. rewrite upd_upd in HA, HB. fold itsf in HA, HB.
  assert (Hp : pend itsf = []).
  { pose proof (op_pend_its _ _ _ _ _ _ Ho) as Hp. unfold its1 in Hp. rewrite pend_split in Hp. unfold itsf. rewrite pend_split, pend_app, pend_rec.
    change (ENV_DELETED =? ENV_PRE_DELETE) with false. change (ENV_WRITE =? ENV_PRE_DELETE) with false.
    change (ENV_PRE_DELETE =? ENV_PRE_DELETE) with true in Hp. cbn [app] in *.
    destruct (pend l1) as [|x y]; [|by destruct y]. cbn in Hp. injection Hp as ->. done. }
  split; [|done]. split.
  - apply sec_upd_eq.
  - by rewrite sec_upd_ne.
  - split; [split; [by destruct Hst as [->|[-> ?]] | by unfold itsf; destruct l1]|]. split; [by eapply tidy_status | by rewrite Ed; unfold itsf; destruct l1].
  - done.
  - apply (meaning_drop _ _ _ k v0).
    + eapply meaning_perm; [symmetry; exact HA | exact HB | exact R7].
    + rewrite HA. destruct (append_lists L i st' d k v its1 (items_sec _ _ _ _ _ (re_sec _ _ _ _ _ _ _ (op_rest _ _ _ _ _ _ Ho)))) as [HL _].
      rewrite E1 in HL. rewrite HL. by left.
  - assert (Hw : weight itsf <= weight (l1 ++ Rec ENV_PRE_DELETE k v0 :: l2 ++ [Rec ENV_WRITE k v])); [|lia].
    unfold itsf, weight. rewrite !live_split, !pend_split, !total_app. pose proof (total_nonneg (if ENV_PRE_DELETE =? ENV_PRE_DELETE then [(k, v0)] else [])).
    change (ENV_DELETED =? ENV_WRITE) with false. change (ENV_PRE_DELETE =? ENV_WRITE) with false. change (ENV_DELETED =? ENV_PRE_DELETE) with false. cbn [total foldr]. unfold total in *. lia.
  - by rewrite Ed.
  - by rewrite Ed.
  - by rewrite Ed.
Qed.
End Set_env.
