(* ===== verification/EfUse.v ===== *)
(** * The operations on a store at rest

    [ef_get_env_blob], [ef_set_env_blob] and [ef_del_env] read, insert and delete in
    the map of the variables. *)

From S2P Require Import Prelude CStr Storage EfEnv EfFlash EfLayout EfRead EfStore EfCache EfFind EfOps EfAlloc EfCreate EfMove EfLog EfTorn EfGc EfState EfCollect EfGather EfIdle EfSet.
Open Scope list_scope.

(** No other variable is taken for [key] by the cache. *)
Definition clash_free (m : env_map) (key : list Z) : Prop :=
  forall k v, m !! k = Some v -> name_crc16 k = name_crc16 key -> k = key \/ ~ comparable key (k ++ v).

Lemma room_len i st its its' sector : ilen its' = ilen its -> room i st its sector -> room i st its' sector.
Proof. unfold room, ends. by intros ->. Qed.

Section Use.
Context {C : Type} `{FlashDoc C} (P : (Z -> Z) -> Prop) (junk_env : env_node_obj) (junk_sector : sector_meta_data).
Implicit Types (s : Ef C).

Lemma store_ram L s R :
  store L s -> sector_cache_table R = sector_cache_table (ram s) -> env_start_addr R = env_start_addr (ram s) ->
  store L (mkEf (chip s) R).
Proof. intros [Hf Hc Hs] E1 E2. split; [done | cbn; by rewrite E1 | cbn; by rewrite E2]. Qed.

Lemma idle_clash L m J i st d its key : idle_at L m J i st d its -> clash_free m key -> no_clash L key.
Proof. intros Hid Hc k v Hi. apply Hc. by eapply idle_lookup. Qed.

Section Set_env.
Context (m : env_map) (J slack : Z) (crash : bool) (HJ : 0 <= J) (Hslack : 0 <= slack).
Context (k v : list Z) (Hok : entry_ok k v) (Hmode : set_mode P m J slack crash k v).
Context (Hroom : used m + J + node_len k v + slack + EF_SEC_REMAIN_THRESHOLD <= ROOM) (Hclash : clash_free m k).

(** A sector becomes full only when it is marked. *)
Lemma set_levels L i st d its old :
  opened m J slack crash k v L i st d its old ->
  (next_store st i its (node_len k v) = SECTOR_STORE_USING
   \/ (next_store st i its (node_len k v) = SECTOR_STORE_FULL /\ d <> SECTOR_DIRTY_FALSE))
  /\ (next_full st i its (node_len k v) = true -> d <> SECTOR_DIRTY_FALSE).
Proof using Hok Hslack.
  intros [_ _ _ _ _ _ _ _ O9 _].
  assert (Hf : next_full st i its (node_len k v) = true -> d <> SECTOR_DIRTY_FALSE).
  { unfold next_full, fills. intros [_ [Hx%Z.ltb_lt|Hx%Z.ltb_lt]%orb_true_iff]%andb_true_iff Ed; specialize (O9 Ed);
      pose proof (entry_len_bound k v Hok); unfold EF_SEC_REMAIN_THRESHOLD, ENV_HDR_DATA_SIZE, EF_ENV_NAME_MAX in *; lia. }
  split; [|done]. unfold next_store. destruct next_full; [right; split; [done | by apply Hf] | by left].
Qed.

(** The record is written; the cache has its place. *)
Lemma wpc_set_create L0 L i st d d0 its old sector (Q : EfErrCode * sector_meta_data -> Ef C -> Prop) s :
  opened m J slack crash k v L i st d its old -> store L s -> view i st d0 sector -> room i st its sector ->
  env_cache_ok (cached_in L0) (env_cache_table (ram s)) ->
  (forall k' v' x, k' <> k -> found_at L0 k' v' x -> found_at L k' v' x) ->
  let full := next_full st i its (node_len k v) in
  (forall s' t, ram s' = put_new k (ends (base i) its) (full || gc_request (ram s)) t (ram s) ->
     store (grown L i d its (Rec ENV_WRITE k v) (next_store st i its (node_len k v))) s' ->
     env_cache_ok (cached_in (grown L i d its (Rec ENV_WRITE k v) (next_store st i its (node_len k v)))) (env_cache_table (ram s')) ->
     (full = true -> d <> SECTOR_DIRTY_FALSE) -> Q (EF_NO_ERR, sector) s') ->
  wpc P (create_env_blob junk_env junk_sector sector k v (zlen v)) Q s.
Proof using Hok Hroom HJ Hslack Hmode.
  intros Ho Hs Hv Hrm Hc Hfound full HQ. pose proof Ho as [[R1 R2 R3 R4 R5 R6 R7 R8 R9] O2 O3 O4 O5 O6 O7 O8 O9 O10].
  pose proof (set_levels L i st d its old Ho) as [Hst Hfull].
  apply (wpc_create P junk_env junk_sector L i st d d0 its); try done; [lia | exact (open_appending P m J slack crash HJ Hslack k v Hok Hmode Hroom L i st d its old Ho _ Hst) |].
  intros s' t Hr' Hs'. apply (HQ s' t); [done | done | |].
  - rewrite Hr'. unfold put_new. cbn [env_cache_table put_gc_request put_env_cache].
    apply (env_cache_update (cached_in L0)); [| |done].
    + apply cached_step. intros k' v' x Hne Hf. unfold grown. by eapply found_snoc, Hfound.
    + intros _. exists k, v. split; [apply found_new | done].
  - exact Hfull.
Qed.

(** The end of [set_env]: a collection when the sector has become full. *)
Lemma wpc_set_close L i st d its lock (res : EfErrCode) (Q : EfErrCode -> Ef C -> Prop) s :
  rest_at L (<[k := v]> m) J i st d its -> pend its = [] -> store L s -> env_cache_ok (cached_in L) (env_cache_table (ram s)) ->
  (crash = true -> clean its) -> resting lock (put_gc_request false (ram s)) ->
  (gc_request (ram s) = true -> d <> SECTOR_DIRTY_FALSE) -> (gc_request (ram s) = false -> st <> SECTOR_STORE_FULL) ->
  (forall s', idle (<[k := v]> m) J crash lock s' -> Q res s') ->
  wpc P (do gc <- ram_gets gc_request; run (if gc : bool then gc_collect junk_env junk_sector else ret tt); ret res) Q s.
Proof using HJ Hslack Hmode Hroom.
  intros Hrest Hp Hs Hc Hng HR Hgc Hst HQ. apply wpc_bind, wpc_gets, wpc_bind. destruct (gc_request (ram s)) eqn:Eg.
  - assert (Ed : d = SECTOR_DIRTY_TRUE).
    { destruct (store_level L s _ _ _ _ Hs (re_sec _ _ _ _ _ _ _ Hrest)) as [_ [->|[->| ->]]]; [by destruct Hgc | done|].
      by destruct (re_level _ _ _ _ _ _ _ Hrest). }
    subst d. pose proof (used_insert m k v) as Hu.
    assert (HP : PL P L).
    { apply (rest_allowed P m J slack crash HJ Hslack k v Hmode L (<[k := v]> m) i st SECTOR_DIRTY_TRUE its); [by right|].
      intros _. split; [by apply (rest_weaken _ _ J); [lia|] | by apply ordered_nil]. }
    apply (wpc_gc_collect P junk_env junk_sector (<[k := v]> m) J slack false crash (mode_after P m J slack crash k v Hmode) HJ Hslack
             (ram s) i st SECTOR_DIRTY_TRUE its SECTOR_STORE_EMPTY [] L); try done.
    + apply rest_collect; try done. lia.
    + by destruct HR as (_ & _ & ? & _).
    + apply tables_refl.
    + intros s' [(sti & t & L' & Hid & Hs' & Hc' & Hng') HR']. apply wpc_ret, HQ. split; [|by eapply resting_tables].
      by exists L', (negb i), sti, SECTOR_DIRTY_FALSE, t.
  - apply wpc_ret, wpc_ret, HQ. split.
    + exists L, i, st, d, its. split; [|done]. apply rest_idle; [done | done | intros E; by destruct (Hst eq_refl)].
    + destruct HR as (R1 & R2 & R3 & R4 & R5 & R6). by repeat split.
Qed.

Definition live_cached (L : Sec * Sec) s : Prop := env_cache_ok (cached_in L) (env_cache_table (ram s)).

(** There is no such variable yet. *)
Lemma wpc_set_new lock L i st d its sector (Q : EfErrCode -> Ef C -> Prop) s :
  fits L m J (node_len k v) slack i st d its -> (crash = true -> clean its) -> (forall w, (k, w) ∉ lives L) ->
  store L s -> live_cached L s -> view i st d sector -> room i st its sector -> resting lock (ram s) ->
  (forall s', idle (<[k := v]> m) J crash lock s' -> Q EF_NO_ERR s') ->
  wpc P (do result <- (do r <- create_env_blob junk_env junk_sector sector k v (zlen v);
                       run ram_put (put_sector (snd r)); ret (fst r));
         do result <- ret result;
         do gc <- ram_gets gc_request;
         run (if gc : bool then gc_collect junk_env junk_sector else ret tt);
         ret result) Q s.
Proof using Hok Hroom HJ Hslack Hmode.
  intros Hfits Hng Hno Hs Hc Hv Hrm HR HQ.
  pose proof (opened_new m J slack crash k v L i st d its Hfits Hng Hno) as Ho.
  apply wpc_bind, wpc_bind. apply (wpc_set_create L L i st d d its None sector); try done.
  intros s1 t Hr1 Hs1 Hc1 Hfull. apply wpc_bind, wpc_put, wpc_ret, wpc_bind, wpc_ret. cbn [fst snd].
  destruct (set_levels L i st d its None Ho) as [Hst _]. set (st' := next_store st i its (node_len k v)) in *.
  destruct HR as (R1 & R2 & R3 & R4 & R5 & R6). assert (Egc : gc_request (ram s1) = next_full st i its (node_len k v)).
  { rewrite Hr1. unfold put_new. cbn [gc_request put_gc_request]. by rewrite R2, orb_false_r. }
  apply (wpc_set_close (grown L i d its (Rec ENV_WRITE k v) st') i st' d (its ++ [Rec ENV_WRITE k v]) lock); try done.
  - by apply (written_rest m J slack crash HJ Hslack k v Hroom L i st d its None Ho).
  - by rewrite pend_app, (op_pend_its _ _ _ _ _ _ _ _ _ _ _ _ Ho), pend_rec.
  - by apply store_ram.
  - intros Ec. apply clean_app. split; [by apply Hng | done].
  - cbn [ram]. rewrite Hr1. by repeat split.
  - cbn [ram gc_request put_sector]. rewrite Egc. exact Hfull.
  - cbn [ram gc_request put_sector]. rewrite Egc. unfold st', next_store. by intros ->.
Qed.

(** The variable has a value: its record goes when the new one is written. *)
Section Old.
Context (L : Sec * Sec) (i : bool) (st d : Z) (l1 l2 : list item) (v0 : list Z).
Let its := l1 ++ Rec ENV_WRITE k v0 :: l2.
Let its1 := l1 ++ Rec ENV_PRE_DELETE k v0 :: l2.
Let L1 := upd L i (Fmt st (soil d) its1).
Context (Hfits : fits L m J (node_len k v) slack i st d its) (Hng : crash = true -> clean its) (Hlvl : is_level d).

Lemma set_opened : opened m J slack crash k v L1 i st (soil d) its1 (Some v0).
Proof using Hfits Hng Hlvl Hslack Hok Hroom HJ.
  exact (opened_old m J slack crash HJ Hslack k v Hok Hroom L i st d its l1 l2 v0 Hfits Hng eq_refl Hlvl).
Qed.

Lemma set_soiled : soil d = SECTOR_DIRTY_TRUE.
Proof using Hfits Hng Hlvl Hslack Hok Hroom HJ. by apply (op_soiled _ _ _ _ _ _ _ _ _ _ _ _ set_opened). Qed.

Lemma wpc_set_first env (Q : EfErrCode -> Ef C -> Prop) s :
  store L s -> seen (Rec ENV_WRITE k v0) (ends (base i) l1) env ->
  (forall s', ram s' = put_last true (ram s) -> store L1 s' -> Q EF_NO_ERR s') ->
  wpc P (del_env junk_env junk_sector (Some k) (Some env) false) Q s.
Proof using Hfits Hng Hlvl Hslack Hok Hroom HJ Hmode.
  intros Hs (Ea & _ & _ & _ & Enl & _ & Hname & _) HQ. rewrite <- Enl in Hname. pose proof Hfits as (Hid & _ & _).
  pose proof (id_sec _ _ _ _ _ _ _ Hid) as HS.
  assert (Hold : crash = true -> node_len k v0 <= slack).
  { intros Ec. unfold set_mode in Hmode. rewrite Ec in Hmode. apply Hmode. left. eapply idle_lookup; [exact Hid|].
    eapply found_live. exists i, st, d, l1, l2. by split. }
  assert (HP1 : forall d', d' = d \/ d' = soil d -> PL P (upd L i (Fmt st d' its1))).
  { intros d' Hd'. apply (rest_allowed P m J slack crash HJ Hslack k v Hmode _ m i st d' its1); [by left|]. intros Ec.
    split; [|apply ordered_all, (clean_status _ _ ENV_WRITE); [by apply Hng | done]].
    apply (rest_weaken _ _ J); [lia|]. apply (old_rest m J slack HJ Hslack k v Hok Hroom L i st d its Hfits l1 l2 v0 eq_refl Hlvl); [done|].
    left. by apply Hold. }
  apply (wpc_del_env P junk_env junk_sector L i st d l1 l2 k v0 2 3 (Some k) env false); try done;
    [right; by left | by right | | by apply HP1; left | by apply HP1; right].
  eapply idle_allowed; [by eapply mode_before | done | done | exact Hid].
Qed.

Lemma set_keeps k' v' x : k' <> k -> found_at L k' v' x -> found_at L1 k' v' x.
Proof using Hfits.
  intros Hne Hf. destruct Hfits as (Hid & _ & _). eapply found_status; [apply Hid | by left | done].
Qed.

Lemma wpc_set_last st' lock env (Q : EfErrCode -> Ef C -> Prop) s :
  st' = SECTOR_STORE_USING \/ (st' = SECTOR_STORE_FULL /\ soil d <> SECTOR_DIRTY_FALSE) ->
  let L2 := grown L1 i (soil d) its1 (Rec ENV_WRITE k v) st' in
  store L2 s -> live_cached L2 s -> seen (Rec ENV_WRITE k v0) (ends (base i) l1) env ->
  resting lock (put_gc_request false (put_last false (ram s))) -> last_is_complete_del (ram s) = true ->
  (gc_request (ram s) = false -> st' <> SECTOR_STORE_FULL) ->
  (forall s', idle (<[k := v]> m) J crash lock s' -> Q EF_NO_ERR s') ->
  wpc P (do result <- del_env junk_env junk_sector (Some k) (Some env) true;
         do gc <- ram_gets gc_request;
         run (if gc : bool then gc_collect junk_env junk_sector else ret tt);
         ret result) Q s.
Proof using Hfits Hng Hlvl Hslack Hok Hroom HJ Hmode.
  intros Hst L2 Hs Hc (Ea & _ & _ & _ & Enl & _ & Hname & _) HR Hlast Hfull HQ. rewrite <- Enl in Hname.
  pose proof set_opened as Ho. pose proof set_soiled as Ed.
  pose proof (written_rest m J slack crash HJ Hslack k v Hroom L1 i st (soil d) its1 (Some v0) Ho st' Hst) as Hw.
  destruct (closed_old m J slack crash HJ Hslack k v Hok Hroom L1 i st st' (soil d) l1 l2 v0 Ho Hst) as [Hcl Hp].
  set (itsf := l1 ++ Rec ENV_DELETED k v0 :: l2 ++ [Rec ENV_WRITE k v]) in *. fold L2 in Hw.
  assert (Eapp : its1 ++ [Rec ENV_WRITE k v] = l1 ++ Rec ENV_PRE_DELETE k v0 :: l2 ++ [Rec ENV_WRITE k v]) by (unfold its1; by rewrite <- app_assoc).
  assert (HS2 : sec L2 i = Fmt st' (soil d) (l1 ++ Rec ENV_PRE_DELETE k v0 :: l2 ++ [Rec ENV_WRITE k v])) by (unfold L2, grown; by rewrite sec_upd_eq, Eapp).
  assert (Esame : upd L2 i (Fmt st' (soil d) itsf) = upd L1 i (Fmt st' (soil d) itsf)) by (unfold L2, grown; by rewrite upd_upd).
  assert (Esoil : soil (soil d) = soil d) by (by rewrite Ed).
  assert (Hallow : forall L' m0 its', m0 = m \/ m0 = <[k := v]> m -> rest_at L' m0 J i st' (soil d) its' -> (crash = true -> ordered its') -> PL P L').
  { intros L' m0 its' Hm0 HR' Hord. apply (rest_allowed P m J slack crash HJ Hslack k v Hmode L' m0 i st' (soil d) its' Hm0).
    intros Ec. split; [by apply (rest_weaken _ _ J); [lia|] | by apply Hord]. }
  assert (HPf : PL P (upd L2 i (Fmt st' (soil d) itsf))) by (rewrite Esame; eapply Hallow; [by right | exact Hcl | intros _; by apply ordered_nil]).
  apply wpc_bind.
  apply (wpc_del_env P junk_env junk_sector L2 i st' (soil d) l1 (l2 ++ [Rec ENV_WRITE k v]) k v0 3 4 (Some k) env true); try done;
    [right; right; by left | by right | eapply Hallow; [by right | exact Hw | intros Ec; apply ordered_clean; [by apply (op_gaps _ _ _ _ _ _ _ _ _ _ _ _ Ho) | by rewrite pend_rec]] | by rewrite Esoil |].
  intros s1 Hr1 Hs1. rewrite Hlast in Hr1. fold itsf in Hs1. rewrite Esoil in Hs1.
  destruct HR as (R1 & R2 & R3 & R4 & R5 & R6).
  apply (wpc_set_close (upd L2 i (Fmt st' (soil d) itsf)) i st' (soil d) itsf lock); try done.
  - by rewrite Esame.
  - rewrite Hr1. cbn [env_cache_table put_last]. eapply env_cache_weaken; [|exact Hc]. apply cached_all.
    intros k' v' x. eapply found_status; [exact HS2 | by right].
  - intros Ec. replace itsf with ((l1 ++ Rec ENV_DELETED k v0 :: l2) ++ [Rec ENV_WRITE k v]) by (unfold itsf; by rewrite <- app_assoc).
    apply clean_app. split; [apply (clean_status _ _ ENV_WRITE); [by apply Hng | done] | done].
  - rewrite Hr1. by repeat split.
  - by rewrite Ed.
  - by rewrite Hr1.
Qed.

Lemma wpc_set_old lock sector env (Q : EfErrCode -> Ef C -> Prop) s :
  store L s -> live_cached L s -> view i st d sector -> room i st its sector -> resting lock (ram s) ->
  seen (Rec ENV_WRITE k v0) (ends (base i) l1) env ->
  (forall s', idle (<[k := v]> m) J crash lock s' -> Q EF_NO_ERR s') ->
  wpc P (do result <- del_env junk_env junk_sector (Some k) (Some env) false;
         do result <- (if no_err result then
                         do r <- create_env_blob junk_env junk_sector sector k v (zlen v);
                         run ram_put (put_sector (snd r)); ret (fst r)
                       else ret result);
         do result <- (if true && no_err result then del_env junk_env junk_sector (Some k) (Some env) true else ret result);
         do gc <- ram_gets gc_request;
         run (if gc : bool then gc_collect junk_env junk_sector else ret tt);
         ret result) Q s.
Proof using Hfits Hng Hlvl Hslack Hok Hroom HJ Hmode.
  intros Hs Hc Hv Hrm HR Hsn HQ. pose proof set_opened as Ho. apply wpc_bind.
  apply (wpc_set_first env); try done. intros s1 Hr1 Hs1. change (no_err EF_NO_ERR) with true. cbv iota.
  apply wpc_bind, wpc_bind. apply (wpc_set_create L L1 i st (soil d) d its1 (Some v0) sector); try done.
  { eapply room_len; [|exact Hrm]. unfold its1, its. by rewrite !ilen_app, !ilen_cons, !rec_len. }
  { by rewrite Hr1. }
  { intros k' v' x. apply set_keeps. }
  intros s2 t Hr2 Hs2 Hc2 Hfull. apply wpc_bind, wpc_put, wpc_ret. cbn [fst snd]. change (no_err EF_NO_ERR) with true. cbn [andb]. cbv iota.
  destruct (set_levels L1 i st (soil d) its1 (Some v0) Ho) as [Hst _]. set (st' := next_store st i its1 (node_len k v)) in *.
  destruct HR as (R1 & R2 & R3 & R4 & R5 & R6).
  apply (wpc_set_last st' lock env); try done.
  - by apply store_ram.
  - cbn [ram]. rewrite Hr2, Hr1. by repeat split.
  - cbn [ram]. rewrite Hr2, Hr1. done.
  - cbn [ram gc_request put_sector]. rewrite Hr2, Hr1. unfold put_new. cbn [gc_request put_gc_request put_last]. rewrite R2, orb_false_r.
    unfold st', next_store. by intros ->.
Qed.
End Old.

Lemma wpc_set_env lock (Q : EfErrCode -> Ef C -> Prop) s :
  idle m J crash lock s -> (forall s', idle (<[k := v]> m) J crash lock s' -> Q EF_NO_ERR s') ->
  wpc P (set_env junk_env junk_sector k (Some v) (zlen v)) Q s.
Proof using Hslack Hok Hroom HJ Hmode Hclash.
  intros [(L & i & st & d & its & Hid & Hs & Hc & Hng) HR] HQ. pose proof HR as (R1 & R2 & R3 & R4 & R5 & R6).
  pose proof (entry_len_bound k v Hok) as Hlen. destruct Hok as [Hk1 Hk2 Hk3 Hk4].
  unfold set_env. apply wpc_bind, wpc_gets, wpc_bind. unfold new_env_by_kv. rewrite env_size_eq by done.
  apply (wpc_new_env P junk_env junk_sector m J slack crash (mode_before P m J slack crash k v Hmode) HJ Hslack L i st d its); try done; [lia|].
  intros a sector s1 [(L1 & i1 & st1 & d1 & its1 & Hfits & Hs1 & Hc1 & Hng1 & Hv & Hrm & Ea) HR1].
  apply wpc_bind, wpc_put. pose proof Hfits as (Hid1 & _).
  assert (Ha : (a =? FAILED_ADDR) = false).
  { apply Z.eqb_neq. rewrite Ea. pose proof (store_fits L1 s1 i1 st1 d1 its1 [] Hs1) as Hf. rewrite app_nil_r in Hf.
    destruct (Hf (id_sec _ _ _ _ _ _ _ Hid1)) as [F1 F2]. rewrite ilen_nil in F2.
    unfold FAILED_ADDR, SECTOR_SIZE, EF_ERASE_MIN_SIZE in *. destruct (base_cases i1); lia. }
  rewrite Ha. apply wpc_bind, wpc_gets, wpc_bind.
  pose proof (idle_allowed P m J slack crash (mode_before P m J slack crash k v Hmode) HJ Hslack L1 _ _ _ _ Hid1) as HP1.
  pose proof (resting_tables lock _ _ HR1 HR) as HR1'.
  apply (wpc_find_env P junk_env junk_sector L1 (idle_wf _ _ _ _ _ _ _ Hid1) HP1 k Hk1 Hk2 (idle_clash _ _ _ _ _ _ _ k Hid1 Hclash));
    [by apply store_ram | done | |].
  - intros v0 x env s2 t Hf Hsn Hr2 Hc2 Hs2. apply wpc_bind, wpc_put. destruct (idle_found _ _ _ _ _ _ _ Hid1 k v0 x Hf) as (l1 & l2 & -> & ->).
    destruct (store_level L1 s1 _ _ _ _ Hs1 (id_sec _ _ _ _ _ _ _ Hid1)) as [_ Hlvl].
    apply (wpc_set_old L1 i1 st1 d1 l1 l2 v0 Hfits Hng1 Hlvl lock sector env); try done.
    + by apply store_ram.
    + unfold live_cached. cbn. by rewrite Hr2.
    + cbn [ram]. rewrite Hr2. destruct HR1' as (X1 & X2 & X3 & X4 & X5 & X6). by repeat split.
  - intros Hno env s2 Hr2 Hs2. apply wpc_bind, wpc_put, wpc_bind, wpc_ret. change (no_err EF_NO_ERR) with true. cbn [andb]. cbv iota.
    apply (wpc_set_new lock L1 i1 st1 d1 its1 sector); try done.
    + by apply store_ram.
    + unfold live_cached. cbn. by rewrite Hr2.
    + cbn [ram]. rewrite Hr2. destruct HR1' as (X1 & X2 & X3 & X4 & X5 & X6). by repeat split.
Qed.
End Set_env.
End Use.
