(* ===== verification/EfApi.v ===== *)
(** * The interface of the store

    [ef_get_env_blob], [ef_set_env_blob] and [ef_del_env] are lookup, insert and
    delete in the map of the variables; interrupted, they leave a layout from which
    the map before or the map after is recovered. *)

From S2P Require Import Prelude CStr Storage EfEnv EfFlash EfLayout EfRead EfStore EfCache EfFind EfOps EfAlloc EfCreate EfMove EfLog EfTorn EfGc EfState EfCollect EfGather EfIdle EfSet EfUse.
Open Scope list_scope.

Section Api.
Context {C : Type} `{FlashDoc C} (P : (Z -> Z) -> Prop) (junk_env : env_node_obj) (junk_sector : sector_meta_data).
Implicit Types (s : Ef C).

(** ** The lock *)

Lemma wpc_lock n (Q : unit -> Ef C -> Prop) s :
  env_lock (ram s) = n -> 0 < n -> Q tt (mkEf (chip s) (put_lock (n - 1) (ram s))) -> wpc P ef_port_env_lock Q s.
Proof.
  intros <- Hn HQ. unfold ef_port_env_lock. apply wpc_bind, wpc_gets. rewrite (proj2 (Z.ltb_lt 0 _) Hn). by apply wpc_put.
Qed.

Lemma wpc_unlock (Q : unit -> Ef C -> Prop) s :
  Q tt (mkEf (chip s) (put_lock (env_lock (ram s) + 1) (ram s))) -> wpc P ef_port_env_unlock Q s.
Proof. intros HQ. by apply wpc_bind, wpc_gets, wpc_put. Qed.

Lemma idle_lock m J pure n n' s : idle m J pure n s -> idle m J pure n' (mkEf (chip s) (put_lock n' (ram s))).
Proof.
  intros [(L & i & st & d & its & Hid & Hs & Hc & Hng) (R1 & R2 & R3 & R4 & R5 & R6)]. split; [|by repeat split].
  exists L, i, st, d, its. split; [done|]. split; [by apply store_ram | done].
Qed.

(** A call between the two. *)
Lemma wpc_locked {A} m J pure (body : M (Ef C) A) (Q : A -> Ef C -> Prop) s :
  idle m J pure 1 s ->
  (forall s', idle m J pure 0 s' -> wpc P body (fun a s2 => env_lock (ram s2) = 0 /\ Q a (mkEf (chip s2) (put_lock 1 (ram s2)))) s') ->
  wpc P (run ef_port_env_lock; do r <- body; run ef_port_env_unlock; ret r) Q s.
Proof.
  intros Hi Hb. pose proof Hi as [_ (R1 & R2 & R3 & R4 & R5 & R6)].
  apply wpc_bind, (wpc_lock 1); [done | lia|]. apply wpc_bind. eapply wpc_conseq; [apply Hb; by apply (idle_lock m J pure 1)|].
  intros a s2 [Hl HQ]. apply wpc_bind, wpc_unlock, wpc_ret. by rewrite Hl.
Qed.

(** ** Reading *)

Section Get.
Context (m : env_map) (J slack : Z) (crash : bool) (HJ : 0 <= J) (Hslack : 0 <= slack) (Hmode : mode P m J slack false crash).
Context (k : list Z) (Hk : text k) (Hlen : 1 <= zlen k <= 32) (Hclash : clash_free m k).

Definition read_of (buf_len : Z) : option (list Z * Z) :=
  match m !! k with Some v => Some (take (Z.to_nat buf_len) v, zlen v) | None => None end.

Lemma wpc_idle_find lock env (Q : bool * env_node_obj -> Ef C -> Prop) s pure :
  idle m J pure lock s ->
  (forall v env' s', m !! k = Some v -> idle m J pure lock s' -> value_len env' = zlen v -> crc_is_ok env' = true ->
     bytes_at (mem s') (addr_value env') (zlen v) = v -> 0 <= addr_value env' /\ addr_value env' + zlen v <= 262144 ->
     Q (true, env') s') ->
  (forall env' s', m !! k = None -> idle m J pure lock s' -> Q (false, env') s') ->
  wpc P (find_env junk_env junk_sector k env) Q s.
Proof using Hmode HJ Hslack Hk Hlen Hclash.
  intros [(L & i & st & d & its & Hid & Hs & Hc & Hng) (R1 & R2 & R3 & R4 & R5 & R6)] HQ1 HQ2.
  apply (wpc_find_env P junk_env junk_sector L (idle_wf _ _ _ _ _ _ _ Hid) (idle_allowed P m J slack crash Hmode HJ Hslack L _ _ _ _ Hid) k Hk Hlen (idle_clash _ _ _ _ _ _ _ k Hid Hclash)); [done | done | |].
  - intros v a env' s' t Hf Hsn Hr Hc' Hs'. destruct (found_bytes L k v a s' Hs' Hf) as (Hh & Hok & Ha1 & Ha2).
    destruct Hsn as (_ & _ & Hcrc & _ & _ & Evl & _ & Eav). unfold node_len in Ha2. apply holds_app in Hh as [_ Hv].
    pose proof (zlen_nonneg k). pose proof (zlen_nonneg v).
    apply (HQ1 v env' s'); [| | done | done | by rewrite Eav | rewrite Eav; lia].
    + eapply idle_lookup; [exact Hid | by eapply found_live].
    + split; [|rewrite Hr; by repeat split]. exists L, i, st, d, its. by rewrite Hr.
  - intros Hno env' s' Hr Hs'. apply HQ2.
    + apply eq_None_not_Some. intros (v & Hv). apply (Hno v). by eapply idle_lookup.
    + split; [|rewrite Hr; by repeat split]. exists L, i, st, d, its. by rewrite Hr.
Qed.

Lemma wpc_get buf_len (Q : option (list Z * Z) -> Ef C -> Prop) s pure :
  0 <= buf_len -> idle m J pure 1 s -> (forall s', idle m J pure 1 s' -> Q (read_of buf_len) s') ->
  wpc P (ef_get_env_blob junk_env junk_sector k buf_len) Q s.
Proof using Hmode HJ Hslack Hk Hlen Hclash.
  intros Hb Hi HQ. pose proof Hi as [_ (R1 & _)]. unfold ef_get_env_blob. apply wpc_bind, wpc_gets. rewrite R1. cbn [negb].
  apply (wpc_locked m J pure); [done|]. intros s1 Hi1. unfold get_env, read_of in *. apply wpc_bind.
  apply (wpc_idle_find 0 junk_env) with (pure := pure); [done | |].
  - intros v env' s2 Ev Hi2 Evl _ Hv [Ha1 Ha2]. rewrite Ev in HQ. apply wpc_bind. rewrite Evl.
    set (n := if zlen v <? buf_len then zlen v else buf_len).
    assert (Hn : 0 <= n <= zlen v /\ take (Z.to_nat buf_len) v = take (Z.to_nat n) v).
    { unfold n. pose proof (zlen_nonneg v). destruct (Z.ltb_spec (zlen v) buf_len); [|split; [lia | done]].
      split; [lia|]. rewrite !take_ge; [done | unfold zlen; lia | unfold zlen in *; lia]. }
    destruct Hn as [Hn1 Hn2]. apply wpc_port_read; [lia | lia | lia|]. apply wpc_ret. split; [apply Hi2|].
    replace (bytes_at (mem s2) (addr_value env') n) with (take (Z.to_nat buf_len) v); [apply HQ; by apply (idle_lock m J pure 0)|].
    rewrite Hn2, <- Hv at 1. replace (zlen v) with (n + (zlen v - n)) by lia. rewrite bytes_at_app by lia.
    rewrite take_app_le, take_ge; [done | |]; pose proof (bytes_at_zlen (mem s2) (addr_value env') n); unfold zlen in *; lia.
  - intros env' s2 Ev Hi2. rewrite Ev in HQ. apply wpc_ret. split; [apply Hi2|]. apply HQ. by apply (idle_lock m J pure 0).
Qed.
End Get.

(** ** Setting *)

Lemma wpc_set m J slack crash k v (Q : EfErrCode -> Ef C -> Prop) s :
  0 <= J -> 0 <= slack -> entry_ok k v -> set_mode P m J slack crash k v ->
  used m + J + node_len k v + slack + EF_SEC_REMAIN_THRESHOLD <= ROOM -> clash_free m k ->
  idle m J crash 1 s -> (forall s', idle (<[k := v]> m) J crash 1 s' -> Q EF_NO_ERR s') ->
  wpc P (ef_set_env_blob junk_env junk_sector k (Some v) (zlen v)) Q s.
Proof.
  intros HJ Hslack Hok Hmode Hroom Hclash Hi HQ. pose proof Hi as [_ (R1 & _)].
  unfold ef_set_env_blob. apply wpc_bind, wpc_gets. rewrite R1. cbn [negb].
  apply (wpc_locked m J crash); [done|]. intros s1 Hi1.
  apply (wpc_set_env P junk_env junk_sector m J slack crash HJ Hslack k v Hok Hmode Hroom Hclash 0); [done|].
  intros s2 Hi2. split; [apply Hi2|]. apply HQ. by apply (idle_lock _ J crash 0).
Qed.

(** ** Deleting *)

Section Delete.
Context (m : env_map) (J slack : Z) (crash : bool) (HJ : 0 <= J) (Hslack : 0 <= slack).
Context (k : list Z) (Hk : text k) (Hlen : 1 <= zlen k <= 32) (Hclash : clash_free m k).

Definition del_mode : Prop :=
  if crash then
    (forall L, recoverable L m (J + slack) \/ recoverable L (delete k m) (J + slack) -> PL P L)
    /\ forall k' v', m !! k' = Some v' -> tear_safe k' v' /\ node_len k' v' <= slack
  else forall mu, P mu.
Context (Hmode : del_mode).

Lemma del_mode_before : mode P m J slack false crash.
Proof using Hmode.
  unfold mode. unfold del_mode in Hmode. destruct crash; [|done]. destruct Hmode as [Ha Hb].
  split; [done|]. split; [intros L HL; apply Ha; by left|]. exact Hb.
Qed.

(** The record goes: the variables after. *)
Lemma deleted_rest L i st d l1 l2 v d' :
  idle_at L m J i st d (l1 ++ Rec ENV_WRITE k v :: l2) -> is_level d -> d' = d \/ d' = soil d ->
  rest_at (upd L i (Fmt st d' (l1 ++ Rec 6 k v :: l2))) (delete k m) (J + node_len k v) i st d' (l1 ++ Rec 6 k v :: l2)
  /\ pend (l1 ++ Rec 6 k v :: l2) = [].
Proof using HJ Hlen.
  intros Hid Hl Hd'. pose proof (idle_weight _ _ _ _ _ _ _ Hid) as Hw. pose proof Hid as [Hs Ho (W1 & W2 & W3 & W4) Hd Hp Hm Hr Hj].
  destruct (idle_lists _ _ _ _ _ _ _ Hid) as [_ Hpends].
  destruct (delete_live_lists L i st d' k v l1 l2 (items_sec _ _ _ _ _ Hs)) as [HA HB]. rewrite Hpends in HB, Hm.
  apply Permutation_nil_r in HB.
  assert (Hne : l1 ++ Rec 6 k v :: l2 <> []) by (by destruct l1).
  assert (Ed : d' = SECTOR_DIRTY_FALSE -> d = SECTOR_DIRTY_FALSE).
  { destruct Hd' as [->| ->]; [done|]. unfold soil. by destruct (Z.eqb_spec d SECTOR_DIRTY_FALSE). }
  assert (Hp6 : pend (l1 ++ Rec 6 k v :: l2) = []).
  { rewrite pend_split in *. exact Hp. }
  assert (Hw6 : weight (l1 ++ Rec ENV_WRITE k v :: l2) = node_len k v + weight (l1 ++ Rec 6 k v :: l2)).
  { unfold weight. rewrite !live_split, !pend_split, !total_app. change (ENV_WRITE =? ENV_WRITE) with true.
    change (6 =? ENV_WRITE) with false. change (ENV_WRITE =? ENV_PRE_DELETE) with false. change (6 =? ENV_PRE_DELETE) with false.
    unfold total. cbn. lia. }
  assert (Hl6 : ilen (l1 ++ Rec 6 k v :: l2) = ilen (l1 ++ Rec ENV_WRITE k v :: l2)) by (by rewrite !ilen_app, !ilen_cons, !rec_len).
  assert (Hnn : 0 <= node_len k v) by (unfold node_len; pose proof (zlen_nonneg k); pose proof (zlen_nonneg v); lia).
  split; [|done]. split.
  - apply sec_upd_eq.
  - by rewrite sec_upd_ne.
  - split; [split; [intros ?%W2; by destruct l1 | done]|]. split; [by eapply tidy_status | done].
  - destruct Hd' as [->| ->]; [done|]. unfold soil. by destruct (Z.eqb_spec d SECTOR_DIRTY_FALSE).
  - rewrite HB. apply meaning_delete with (v := v). by apply (meaning_perm (lives L) _ []).
  - lia.
  - intros _ k1 v1. rewrite Hp6. by intros ?%not_elem_of_nil.
  - intros E. specialize (Hj (Ed E)). lia.
  - intros Ef E. specialize (Ed E). by rewrite W1 in Ed.
Qed.

Lemma deleted_allowed L i st d its v :
  m !! k = Some v -> rest_at L (delete k m) (J + node_len k v) i st d its -> pend its = [] -> PL P L.
Proof using HJ Hslack Hmode Hlen.
  intros Ev Hr Hp. destruct (mode_cases P m J slack false crash del_mode_before) as [Ec|HP]; [|by apply PL_all].
  unfold del_mode in Hmode. rewrite Ec in Hmode. destruct Hmode as [HL Hs]. destruct (Hs k v Ev) as [_ Hsl].
  apply HL. right. apply (rest_recoverable _ _ (J + slack) i st d its); [lia | | by apply ordered_nil].
  apply (rest_weaken _ _ (J + node_len k v)); [lia | exact Hr].
Qed.

Lemma wpc_delete_at lock L i st d l1 l2 v env (Q : EfErrCode -> Ef C -> Prop) s :
  idle_at L m J i st d (l1 ++ Rec ENV_WRITE k v :: l2) -> store L s -> live_cached L s ->
  (crash = true -> clean (l1 ++ Rec ENV_WRITE k v :: l2)) -> resting lock (ram s) ->
  seen (Rec ENV_WRITE k v) (ends (base i) l1) env -> m !! k = Some v ->
  (forall s', idle (delete k m) J crash lock s' -> Q EF_NO_ERR s') ->
  wpc P (del_env junk_env junk_sector (Some k) (Some env) true) Q s.
Proof using HJ Hslack Hmode Hlen.
  intros Hid Hs Hc Hng HR (Ea & _ & _ & _ & Enl & _ & Hname & _) Ev HQ. rewrite <- Enl in Hname.
  pose proof (id_sec _ _ _ _ _ _ _ Hid) as HS. destruct (store_level L s _ _ _ _ Hs HS) as [_ Hlvl].
  destruct (deleted_rest L i st d l1 l2 v d Hid Hlvl ltac:(by left)) as [Hr1 Hp1].
  destruct (deleted_rest L i st d l1 l2 v (soil d) Hid Hlvl ltac:(by right)) as [Hr2 Hp2].
  assert (Esoil : soil d = SECTOR_DIRTY_TRUE).
  { pose proof (id_level _ _ _ _ _ _ _ Hid) as Hd. unfold soil.
    destruct (Z.eqb_spec d SECTOR_DIRTY_FALSE); [done|]. by destruct Hlvl as [->|[->| ->]]. }
  destruct HR as (R1 & R2 & R3 & R4 & R5 & R6).
  apply (wpc_del_env P junk_env junk_sector L i st d l1 l2 k v 2 6 (Some k) env true); try done;
    [right; right; right; by left | by right | by apply (idle_allowed P m J slack crash del_mode_before HJ Hslack L _ _ _ _ Hid)
     | by eapply deleted_allowed | by eapply deleted_allowed|].
  intros s' Hr' Hs'. apply HQ. split.
  - exists (upd L i (Fmt st (soil d) (l1 ++ Rec 6 k v :: l2))), i, st, (soil d), (l1 ++ Rec 6 k v :: l2).
    split; [|split; [done|split]].
    + destruct Hr2 as [X1 X2 X3 X4 X5 X6 X7 X8 X9]. split; try done.
      * by rewrite Esoil.
    + rewrite Hr', R4. cbn [env_cache_table put_last put_env_cache].
      apply (env_cache_update (cached_in L)); [| |done].
      * apply cached_step. intros k' v' x Hne Hf. eapply found_status; [exact HS | by left | done].
      * done.
    + intros Ec. specialize (Hng Ec). by apply (clean_status _ _ ENV_WRITE).
  - rewrite Hr', R4. by repeat split.
Qed.

(** The found record as a place in the log. *)
Lemma wpc_del lock (Q : EfErrCode -> Ef C -> Prop) s :
  idle m J crash lock s ->
  (forall s', m !! k <> None -> idle (delete k m) J crash lock s' -> Q EF_NO_ERR s') ->
  (forall s', m !! k = None -> idle m J crash lock s' -> Q EF_ENV_NAME_ERR s') ->
  wpc P (del_env junk_env junk_sector (Some k) None true) Q s.
Proof using HJ Hslack Hmode Hlen Hk Hclash.
  intros [(L & i & st & d & its & Hid & Hs & Hc & Hng) HR] HQ1 HQ2.
  unfold del_env, del_target. apply wpc_bind, wpc_bind.
  apply (wpc_find_env P junk_env junk_sector L (idle_wf _ _ _ _ _ _ _ Hid)
           (idle_allowed P m J slack crash del_mode_before HJ Hslack L _ _ _ _ Hid) k Hk Hlen (idle_clash _ _ _ _ _ _ _ k Hid Hclash)); [done | done | |].
  - intros v a env s1 t Hf Hsn Hr1 Hc1 Hs1. apply wpc_ret.
    assert (Ev : m !! k = Some v) by (eapply idle_lookup; [exact Hid | by eapply found_live]).
    destruct (idle_found _ _ _ _ _ _ _ Hid k v a Hf) as (l1 & l2 & -> & ->).
    change (wpc P (del_env junk_env junk_sector (Some k) (Some env) true) Q s1).
    apply (wpc_delete_at lock L i st d l1 l2 v env); try done.
    + unfold live_cached. by rewrite Hr1.
    + rewrite Hr1. destruct HR as (X1 & X2 & X3 & X4 & X5 & X6). by repeat split.
    + intros s2 Hi2. apply HQ1; [by rewrite Ev | done].
  - intros Hno env s1 Hr1 Hs1. apply wpc_ret, wpc_ret, HQ2.
    + apply eq_None_not_Some. intros (v & Hv). apply (Hno v). by eapply idle_lookup.
    + split; [|by rewrite Hr1]. exists L, i, st, d, its. by rewrite Hr1.
Qed.

Lemma wpc_delete (Q : EfErrCode -> Ef C -> Prop) s :
  idle m J crash 1 s ->
  (forall s', idle (delete k m) J crash 1 s' -> Q (match m !! k with Some _ => EF_NO_ERR | None => EF_ENV_NAME_ERR end) s') ->
  wpc P (ef_del_env junk_env junk_sector k) Q s.
Proof using HJ Hslack Hmode Hlen Hk Hclash.
  intros Hi HQ. pose proof Hi as [_ (R1 & _)]. unfold ef_del_env. apply wpc_bind, wpc_gets. rewrite R1. cbn [negb].
  apply (wpc_locked m J crash); [done|]. intros s1 Hi1. apply (wpc_del 0); [done | |].
  - intros s2 Hk2 Hi2. split; [apply Hi2|]. destruct (m !! k) eqn:E; [|done]. apply HQ. by apply (idle_lock _ J crash 0).
  - intros s2 Hk2 Hi2. split; [apply Hi2|]. rewrite Hk2 in HQ. rewrite delete_id in HQ by done. apply HQ. by apply (idle_lock _ J crash 0).
Qed.
End Delete.
End Api.
