(* ===== verification/EfBoot.v ===== *)
(** * The start of the store

    [ef_load_env] on a layout from which [m] is recovered ends with the store at
    rest and the variables [m]: blank sectors are formatted, a collection that was
    under way is completed, deletions that were begun are completed or undone. *)

From S2P Require Import Prelude CStr Storage EfEnv EfFlash EfLayout EfRead EfStore EfCache EfFind EfOps EfAlloc EfCreate EfMove EfLog EfTorn EfGc EfState EfCollect EfGather EfIdle EfSet EfUse EfApi.
Open Scope list_scope.

Lemma put_same_cache R : put_sec_cache (sector_cache_table R) R = R.
Proof. by destruct R. Qed.

Section Boot.
Context {C : Type} `{FlashDoc C} (junk_env : env_node_obj) (junk_sector : sector_meta_data).
Context (m : env_map) (J : Z) (HJ : 0 <= J).
Implicit Types (s : Ef C).

Abbreviation P := (fun _ : Z -> Z => True).

Lemma any_layout L : PL P L.
Proof using. by intros mu _. Qed.

Lemma any_mode : mode P m J 0 true false.
Proof using. by intros mu. Qed.

(** ** Headers *)

Section Headers.
Context (L : Sec * Sec) (j : bool) (st d : Z) (its : list item) (Hrc : recoverable_at L m J j st d its).

Definition fixed : Sec * Sec :=
  match sec L (negb j) with Blank => upd L (negb j) (Fmt SECTOR_STORE_EMPTY SECTOR_DIRTY_FALSE []) | _ => L end.

Lemma fixed_recoverable : recoverable_at fixed m J j st d its /\ sec fixed (negb j) <> Blank.
Proof using Hrc HJ.
  unfold fixed. pose proof Hrc as [X1 X2 X3 X4 X5 X6 X7 X8]. destruct (sec L (negb j)) as [|st' d' its'] eqn:Eo; [|by rewrite Eo].
  split; [|by rewrite sec_upd_eq]. destruct X4 as [Hd Hroom].
  assert (Ei : items L (negb j) = []) by (unfold items; by rewrite Eo). split; try done.
  - rewrite <- (negb_involutive j) at 2. rewrite sec_upd_ne, negb_involutive. done.
  - apply meaning_emptied; [by rewrite Ei | by rewrite Ei | by right | done].
  - rewrite sec_upd_eq. cbn [other_ok]. change (ilen []) with 0. change (weight []) with 0.
    split; [done|]. split; [done|]. split; [done|]. split; [by left|]. split; [done|]. split; [by right | lia].
Qed.

Definition checked (R0 : EfRam) (v : bool) (acc : Z) s : Prop :=
  store (if v then fixed else L) s /\ (exists t, ram s = put_sec_cache t R0) /\ 0 <= acc <= (if v then 1 else 0).

Lemma wpc_check_headers sector (Q : sector_meta_data * Z -> Ef C -> Prop) s :
  store L s -> (forall sector' acc s', checked (ram s) true acc s' -> Q (sector', acc) s') ->
  wpc P (sector_iterator junk_env sector SECTOR_STORE_UNUSED 0 (check_sec_hdr_cb) false) Q s.
Proof using Hrc.
  intros Hs HQ. set (R0 := ram s) in *. pose proof (rc_sec _ _ _ _ _ _ _ Hrc) as HS.
  assert (HSf : sec fixed j = Fmt st d its).
  { unfold fixed. destruct (sec L (negb j)); [|done]. rewrite <- (negb_involutive j) at 2. by rewrite sec_upd_ne, negb_involutive. }
  apply (wpc_sector_iterator P junk_env (checked R0 false) (checked R0 j) (checked R0 true) (fun _ _ _ => False)).
  - intros i acc s' Hi. assert (Hv : checked R0 (i && j) acc s') by (by destruct i). clear Hi.
    assert (Hpost : forall a2 s2, checked R0 (i || j) a2 s2 -> (if i then checked R0 true else checked R0 j) a2 s2) by (by destruct i).
    pose proof Hv as (Hs' & HR & Hacc). eexists. split; [exact Hs'|]. unfold sector_phase.
    change (SECTOR_STORE_UNUSED =? SECTOR_STORE_UNUSED) with true. cbn [orb].
    destruct (decide (i = j)) as [->|Hne].
    + assert (HSj : sec (if j && j then fixed else L) j = Fmt st d its) by (by destruct (j && j)). rewrite HSj.
      intros sector1 Hvw. apply wpc_ret. split; [done|]. unfold check_sec_hdr_cb. destruct Hvw as (-> & _).
      apply wpc_ret. cbn [sector_done]. split; [apply Hs'|]. apply Hpost. by destruct j.
    + assert (Ei : i = negb j) by (by destruct i, j). subst i. assert (Ev : negb j && j = false) by (by destruct j). rewrite Ev in *.
      assert (Eo : negb j || j = true) by (by destruct j). rewrite Eo in Hpost.
      destruct (sec L (negb j)) as [|st' d' its'] eqn:Eob.
      * split; [done|]. split; [done|]. intros sector1 (Hck & Ha & _). unfold check_sec_hdr_cb. rewrite Hck, Ha. cbn [negb].
        apply wpc_bind. apply (wpc_format P L (negb j)); [done | apply any_layout.. |].
        intros s2 t Hr2 Hs2. apply wpc_ret. cbn [sector_done]. split; [apply Hs2|]. apply Hpost. split.
        -- unfold fixed. by rewrite Eob.
        -- split; [rewrite Hr2; destruct HR as (t0 & ->); by exists t|].
           assert (E : acc = 0) by lia. subst acc. done.
      * intros sector1 Hvw. apply wpc_ret. split; [done|]. unfold check_sec_hdr_cb. destruct Hvw as (-> & _).
        apply wpc_ret. cbn [sector_done]. split; [apply Hs'|]. apply Hpost.
        split; [unfold fixed; by rewrite Eob|]. split; [done | lia].
  - intros sector1 acc s' Hv. by apply HQ.
  - done.
  - split; [done|]. split; [|done]. exists (sector_cache_table R0). symmetry. apply put_same_cache.
Qed.
End Headers.

(** ** A collection that was under way *)

(** The store when every sector has a header and no collection is under way. *)
Record restored (R0 : EfRam) (pure : bool) s : Prop := {
  rs_at : exists L i st d its, rest_at L m J i st d its /\ ordered its /\ store L s /\ env_cache_ok (cached_in L) (env_cache_table (ram s))
            /\ (pure = true -> clean its /\ pend its = []);
  rs_ram : tables R0 (ram s)
}.

Lemma rec_rest L j st d its :
  recoverable_at L m J j st d its -> sec L (negb j) <> Blank -> d <> SECTOR_DIRTY_GC -> rest_at L m J j st d its.
Proof using.
  intros [X1 X2 X3 X4 X5 X6 X7 X8] Hb Hd. destruct (sec L (negb j)) as [|st' d' its'] eqn:Eo; [done|].
  destruct X4 as (-> & Y2 & Y3 & Y4 & Y5 & [?|Y6] & Y7 & Y8); [done|].
  split; try done.
  - rewrite Eo, Y6. by rewrite (proj2 Y3 Y6).
  - rewrite Y6 in Y7. change (ilen []) with 0 in Y7. lia.
Qed.

Lemma rec_collect L j st its :
  recoverable_at L m J j st SECTOR_DIRTY_GC its -> sec L (negb j) <> Blank ->
  exists st' its', to_collect m J 0 true false j st SECTOR_DIRTY_GC its st' its' L /\ sec L (negb j) = Fmt st' SECTOR_DIRTY_FALSE its'.
Proof using.
  intros [X1 (X2 & X2' & X2'') X3 X4 X5 X6 X7 X8] Hb. destruct (sec L (negb j)) as [|st' d' its'] eqn:Eo; [done|].
  destruct X4 as (-> & Y2 & Y3 & Y4 & Y5 & Y6 & Y7 & Y8). exists st', its'. split; [|done].
  split; [by right|]. split; [done|].
  assert (E : upd L j (Fmt st SECTOR_DIRTY_GC its) = L) by (by rewrite <- X1, upd_same). rewrite E.
  assert (Hne : its <> []) by (intros ?%X2''; done).
  split; try done; [|lia]. split; [by intros ?%X2 | done].
Qed.

(** In the loop over the sectors nothing happens to a sector that is not being collected. *)
Lemma wpc_gc_pass sector (Q : bool * unit -> Ef C -> Prop) s :
  status_dirty sector <> SECTOR_DIRTY_GC -> Q (false, tt) s ->
  wpc P (check_and_recovery_gc_cb junk_env junk_sector sector tt) Q s.
Proof using.
  intros Hd HQ. unfold check_and_recovery_gc_cb. rewrite (proj2 (Z.eqb_neq _ _) Hd), andb_false_r. by apply wpc_ret.
Qed.

Lemma idle_restored R0 L i st d its s :
  idle_at L m J i st d its -> store L s -> env_cache_ok (cached_in L) (env_cache_table (ram s)) -> tables R0 (ram s) -> restored R0 false s.
Proof using.
  intros Hid Hs Hc HR. split; [|done]. exists L, i, st, d, its. split; [by apply idle_rest|].
  split; [by apply ordered_nil, Hid | done].
Qed.

Lemma tables_asked R0 R1 :
  gc_request R0 = false -> tables (put_gc_request false (put_gc_request true R0)) R1 -> tables R0 R1.
Proof using.
  intros Hgc (t & te & b & -> & Hb). exists t, te, b. split; [|exact Hb]. rewrite <- Hgc. by destruct R0.
Qed.

Lemma wpc_check_idle L j st d its sector (Q : sector_meta_data * unit -> Ef C -> Prop) s :
  recoverable_at L m J j st d its -> sec L (negb j) <> Blank -> store L s -> d <> SECTOR_DIRTY_GC ->
  (forall sector', Q (sector', tt) s) ->
  wpc P (sector_iterator junk_env sector SECTOR_STORE_UNUSED tt (check_and_recovery_gc_cb junk_env junk_sector) false) Q s.
Proof using.
  intros Hrc Hb Hs Hd HQ. pose proof (rec_rest _ _ _ _ _ Hrc Hb Hd) as [HS HO _ _ _ _ _ _ _].
  apply (wpc_sector_iterator P junk_env (fun _ s' => s' = s) (fun _ s' => s' = s) (fun _ s' => s' = s) (fun _ _ _ => False)).
  - intros i [] s' Hi. assert (Es : s' = s) by (by destruct i). subst s'. exists L. split; [done|]. unfold sector_phase.
    assert (HSi : exists sti di itsi, sec L i = Fmt sti di itsi /\ di <> SECTOR_DIRTY_GC).
    { destruct (decide (i = j)) as [->|Hne]; [by exists st, d, its|]. replace i with (negb j) by (by destruct i, j). by eexists _, _, _. }
    destruct HSi as (sti & di & itsi & -> & Hdi). change (SECTOR_STORE_UNUSED =? SECTOR_STORE_UNUSED) with true. cbn [orb].
    intros sector1 Hv. apply wpc_ret. split; [done|]. apply wpc_gc_pass; [by destruct Hv as (_ & _ & -> & _)|].
    split; [apply Hs | by destruct i].
  - intros sector1 [] s' ->. apply HQ.
  - done.
  - done.
Qed.

Lemma wpc_check_marked L j st its sector (Q : sector_meta_data * unit -> Ef C -> Prop) s :
  recoverable_at L m J j st SECTOR_DIRTY_GC its -> sec L (negb j) <> Blank -> store L s ->
  env_cache_ok (cached_in L) (env_cache_table (ram s)) -> gc_request (ram s) = false -> in_recovery_check (ram s) = true ->
  (forall sector' s', collected m J false (ram s) j s' -> Q (sector', tt) s') ->
  wpc P (sector_iterator junk_env sector SECTOR_STORE_UNUSED tt (check_and_recovery_gc_cb junk_env junk_sector) false) Q s.
Proof using HJ.
  intros Hrc Hb Hs Hc Hgc Hrec HQ. pose proof (rc_sec _ _ _ _ _ _ _ Hrc) as HS.
  destruct (rec_collect _ _ _ _ Hrc Hb) as (st' & its' & Hto & HO). set (R0 := ram s) in *.
  apply (wpc_sector_iterator P junk_env (fun _ s' => s' = s) (fun _ s' => if j then s' = s else collected m J false R0 j s')
           (fun _ s' => collected m J false R0 j s') (fun _ _ _ => False)).
  - intros i [] s' Hi. assert (Hcases : (i = j /\ s' = s) \/ (i = negb j /\ if j then s' = s else collected m J false R0 j s'))
      by (destruct i, j; auto).
    destruct Hcases as [[-> ->]|[-> Hi']].
    + exists L. split; [done|]. unfold sector_phase. rewrite HS. change (SECTOR_STORE_UNUSED =? SECTOR_STORE_UNUSED) with true. cbn [orb].
      intros sector1 (V1 & V2 & V3 & V4 & V5). apply wpc_ret. split; [by repeat split|]. unfold check_and_recovery_gc_cb.
      rewrite V1, V3. change (SECTOR_DIRTY_GC =? SECTOR_DIRTY_GC) with true. cbn [andb]. apply wpc_bind, wpc_put, wpc_bind.
      apply (wpc_gc_collect P junk_env junk_sector m J 0 true false any_mode HJ (Z.le_refl 0) (put_gc_request true R0) j st SECTOR_DIRTY_GC its st' its' L);
        try done; [by apply store_ram | apply tables_refl |].
      intros s2 Hcd. apply wpc_ret. assert (Hcd' : collected m J false R0 j s2) by (split; [apply Hcd | apply tables_asked; [done | apply Hcd]]).
      cbn [sector_done]. pose proof Hcd' as [(sti2 & t2 & L2 & _ & Hs2 & _) _]. split; [apply Hs2 | by destruct j].
    + assert (Hpass : forall L2 sti2 t2, store L2 s' -> sec L2 (negb j) = Fmt sti2 SECTOR_DIRTY_FALSE t2 ->
                exists L0, store L0 s' /\ sector_phase P junk_env (fun _ s' => if j then s' = s else collected m J false R0 j s')
                  (fun _ s' => collected m J false R0 j s') (fun _ _ _ => False) SECTOR_STORE_UNUSED (check_and_recovery_gc_cb junk_env junk_sector) false (negb j) L0 tt s').
      { intros L2 sti2 t2 Hs2 HS2. exists L2. split; [done|]. unfold sector_phase. rewrite HS2.
        change (SECTOR_STORE_UNUSED =? SECTOR_STORE_UNUSED) with true. cbn [orb].
        intros sector1 Hv. apply wpc_ret. split; [done|]. apply wpc_gc_pass; [by destruct Hv as (_ & _ & -> & _)|]. cbn [sector_done].
        split; [apply Hs2 | by destruct j]. }
      destruct j; cbn [negb] in *.
      * subst s'. by apply (Hpass L st' its').
      * pose proof Hi' as [(sti2 & t2 & L2 & Hid & Hs2 & _) _]. by apply (Hpass L2 sti2 t2); [|apply Hid].
  - intros sector1 [] s' Hcd. by apply HQ.
  - done.
  - done.
Qed.

Lemma wpc_check_gc pure L j st d its sector (Q : sector_meta_data * unit -> Ef C -> Prop) s :
  recoverable_at L m J j st d its -> sec L (negb j) <> Blank -> store L s ->
  env_cache_ok (cached_in L) (env_cache_table (ram s)) -> gc_request (ram s) = false -> in_recovery_check (ram s) = true ->
  (pure = true -> d <> SECTOR_DIRTY_GC /\ clean its /\ pend its = []) ->
  (forall sector' s', restored (ram s) pure s' -> Q (sector', tt) s') ->
  wpc P (sector_iterator junk_env sector SECTOR_STORE_UNUSED tt (check_and_recovery_gc_cb junk_env junk_sector) false) Q s.
Proof using HJ.
  intros Hrc Hb Hs Hc Hgc Hrec Hpure HQ. destruct (decide (d = SECTOR_DIRTY_GC)) as [->|Hd].
  - apply (wpc_check_marked L j st its); try done. intros sector' s' [(sti & t & L' & Hid & Hs' & Hc' & _) HR].
    apply HQ. assert (E : pure = false) by (destruct pure; [by destruct Hpure|done]). rewrite E. by eapply idle_restored.
  - apply (wpc_check_idle L j st d its); try done. intros sector'. apply HQ. split; [|apply tables_refl].
    exists L, j, st, d, its. split; [by apply rec_rest|]. split; [by apply Hrc|]. split; [done|]. split; [done|]. intros E. by apply Hpure.
Qed.
End Boot.
