(* ===== verification/EfRecover.v ===== *)
(** * The recovery of the records

    [check_and_recovery_env_cb] over the log: a record whose deletion was begun is
    moved, one that was not completed is given up. *)

From S2P Require Import Prelude CStr Storage EfEnv EfFlash EfLayout EfRead EfStore EfCache EfFind EfOps EfAlloc EfCreate EfMove EfLog EfTorn EfGc EfState EfCollect EfGather EfIdle EfSet EfUse EfApi EfBoot.
Open Scope list_scope.

(** Where a record goes that is moved during the recovery. *)
Lemma alloc_rest L m J j st d its k v :
  rest_at L m J j st d its -> (k, v) ∈ pend its -> is_level st -> is_level d -> 0 <= node_len k v ->
  (alloc_spec L (node_len k v) false = (Some j, false) /\ st = SECTOR_STORE_USING)
  \/ (alloc_spec L (node_len k v) false = (None, true) /\ d = SECTOR_DIRTY_TRUE).
Proof.
  intros [Hs Ho (W2 & W3 & W4) Hd Hm Hr Hc Hj Hf] Hin Hlst Hld Hn.
  assert (Hne : st <> SECTOR_STORE_EMPTY).
  { intros E%W2. subst its. by apply not_elem_of_nil in Hin. }
  assert (HAo : forall s0, s0 <> SECTOR_STORE_EMPTY -> avail L s0 (node_len k v) false (negb j) = false).
  { intros s0 E. unfold avail. rewrite Ho. by rewrite Z.eqb_sym, (proj2 (Z.eqb_neq _ _) E). }
  assert (HAj : avail L SECTOR_STORE_USING (node_len k v) false j = (st =? SECTOR_STORE_USING) && (node_len k v <? free j its)).
  { unfold avail. rewrite Hs. destruct Hld as [->|[->| ->]]; [cbn | cbn | done]; by rewrite andb_true_r. }
  assert (Hpick : pick L SECTOR_STORE_USING (node_len k v) false = if (st =? SECTOR_STORE_USING) && (node_len k v <? free j its) then Some j else None).
  { unfold pick. destruct j; cbn [negb] in *; rewrite HAj, HAo by done; by destruct (_ && _). }
  assert (Hcnt : count L SECTOR_STORE_EMPTY = 1).
  { unfold count, has_level. destruct j; cbn [negb] in *; rewrite Hs, Ho, (proj2 (Z.eqb_neq _ _) Hne); done. }
  unfold alloc_spec. rewrite Hpick, Hcnt. destruct (Z.eqb_spec st SECTOR_STORE_USING) as [Eu|Eu]; cbn [andb].
  - destruct (Z.ltb_spec (node_len k v) (free j its)) as [Hlt|Hge]; [by left|]. right. split; [done|].
    destruct Hld as [E|[E|E]]; [|done..]. destruct (Hc E k v Hin). lia.
  - right. split; [done|]. destruct Hlst as [E|[E|E]]; [done.. |]. destruct Hld as [E'|[E'|E']]; [by destruct (Hf E) | done..].
Qed.

(** Marking a torn record changes nothing that matters. *)
Lemma Flash_mark mu nu L i st d l1 b0 err rest l2 :
  Flash mu L -> sec L i = Fmt st d (l1 ++ Bad b0 err rest :: l2) ->
  (forall x, nu x = clr mu (ends (base i) l1 + 4) x) -> Flash nu L.
Proof.
  intros (L0 & Hl & HL) HS Hnu. destruct (like_fmt L0 L i st d _ Hl HS) as (its0 & HS0 & E).
  destruct (like_split _ _ _ _ E) as (m1 & jt & m2 & -> & E1 & E2 & E3). destruct jt as [| |b1 err0 rest0]; try done.
  injection E2 as -> ->. destruct (item_place mu L0 i st d m1 _ m2 HL HS0) as (Hh & Hok & Hlo & _ & Hhi).
  assert (Ea : ends (base i) l1 = base i + SECTOR_HDR_DATA_SIZE + ilen m1) by (unfold ends; by rewrite (like_ilen m1 l1)).
  rewrite Ea in Hnu. apply (Flash_like nu (upd L0 i (Fmt st d (m1 ++ Bad b0 true rest :: m2)))).
  { rewrite <- (upd_same L i). apply like_upd; [done|]. rewrite HS. cbn [unmark_sec]. by rewrite !map_app, !map_cons, E1, E3. }
  apply Flash_of. destruct err0.
  - pose proof (upd_same L0 i) as Eu. rewrite HS0 in Eu. rewrite Eu. apply (flash_is_ext mu); [|done].
    intros x. rewrite Hnu. unfold clr. destruct (Z.eqb_spec x (base i + SECTOR_HDR_DATA_SIZE + ilen m1 + 4)) as [->|]; [|done].
    symmetry. by apply (holds_lookup _ _ _ 4 _ Hh).
  - eapply flash_is_change; [done | exact HS0 | apply cleared_bad | | done].
    pose proof (HL i) as Hlay. rewrite HS0 in Hlay.
    eapply items_ok_change; [apply Hlay | | by rewrite !bad_len | done | done].
    exact Hok.
Qed.

Section Recover.
Context {C : Type} `{FlashDoc C} (junk_env : env_node_obj) (junk_sector : sector_meta_data).
Context (m : env_map) (J : Z) (HJ : 0 <= J).
Implicit Types (s : Ef C).

Abbreviation P := (fun _ : Z -> Z => True).

(** No room: the collection is requested. *)
Lemma wpc_move_full L j st d l1 l2 k v env (Q : EfErrCode -> Ef C -> Prop) s :
  store L s -> wf L -> sec L j = Fmt st d (l1 ++ Rec ENV_PRE_DELETE k v :: l2) ->
  seen (Rec ENV_PRE_DELETE k v) (ends (base j) l1) env -> gc_request (ram s) = false ->
  alloc_spec L (node_len k v) false = (None, true) ->
  (forall s' t, ram s' = put_gc_request true (put_sec_cache t (ram s)) -> store L s' -> Q EF_ENV_FULL s') ->
  wpc P (move_env junk_env junk_sector env) Q s.
Proof using.
  intros Hs Hwf HS Hsn Hgc Hal HQ. destruct Hsn as (Ea & El & _ & Est & _). unfold move_env. apply wpc_bind. rewrite Est.
  apply wpc_ret, wpc_bind. rewrite El, rec_len. apply (wpc_alloc P junk_env L Hwf (any_layout L)); [done|].
  rewrite Hgc, Hal. intros a sector s1 t Hr1 Hs1 ->. rewrite Z.eqb_refl. by apply wpc_ret, (HQ s1 t).
Qed.

(** The layout after a move within the sector. *)
Section Moved.
Context (L : Sec * Sec) (j : bool) (st d : Z) (l1 l2 : list item) (k v : list Z).
Let its := l1 ++ Rec ENV_PRE_DELETE k v :: l2.
Context (Hrest : rest_at L m J j st d its) (Hlvl : is_level d) (Hu : st = SECTOR_STORE_USING).

Definition there : bool := bool_decide (k ∈ (lives L).*1).
Definition Lcopy : Sec * Sec := if there then L else copied L j k v.
Definition left_behind : list item := if there then l2 else behind j j l2 k v.
Definition st_after : Z := if there then st else next_store st j its (node_len k v).

Lemma Lcopy_sec : sec Lcopy j = Fmt st_after d (l1 ++ Rec ENV_PRE_DELETE k v :: left_behind).
Proof using Hrest.
  pose proof (re_sec _ _ _ _ _ _ _ Hrest) as HS. unfold Lcopy, left_behind, st_after. destruct there; [done|].
  unfold copied. rewrite HS, sec_upd_eq. unfold behind, its. rewrite eqb_reflx, <- app_assoc. done.
Qed.

Lemma Lcopy_finished : finished Lcopy j l1 left_behind k v = upd L j (Fmt st_after (soil d) (l1 ++ Rec ENV_DELETED k v :: left_behind)).
Proof using Hrest.
  unfold finished, level_of. rewrite Lcopy_sec. unfold Lcopy. destruct there; [done|].
  unfold copied. by rewrite (re_sec _ _ _ _ _ _ _ Hrest), upd_upd.
Qed.

Lemma moved_soil : soil d = SECTOR_DIRTY_TRUE.
Proof using Hrest Hlvl.
  pose proof (re_level _ _ _ _ _ _ _ Hrest) as Hd. unfold soil.
  destruct (Z.eqb_spec d SECTOR_DIRTY_FALSE); [done|]. by destruct Hlvl as [->|[->| ->]].
Qed.

Lemma moved_meaning :
  let L' := upd L j (Fmt st_after (soil d) (l1 ++ Rec ENV_DELETED k v :: left_behind)) in meaning (lives L') (pends L') m.
Proof using Hrest.
  intros L'. pose proof Lcopy_sec as HSc. pose proof (re_meaning _ _ _ _ _ _ _ Hrest) as Hm.
  pose proof (items_sec _ _ _ _ _ (re_sec _ _ _ _ _ _ _ Hrest)) as HI.
  destruct (delete_lists Lcopy j st_after (soil d) k v l1 left_behind (items_sec _ _ _ _ _ HSc)) as [HA HB].
  assert (E : upd Lcopy j (Fmt st_after (soil d) (l1 ++ Rec ENV_DELETED k v :: left_behind)) = L').
  { unfold L', Lcopy. destruct there; [done|]. unfold copied. by rewrite (re_sec _ _ _ _ _ _ _ Hrest), upd_upd. }
  rewrite E in HA, HB. unfold Lcopy in *. destruct there eqn:Et.
  - apply bool_decide_eq_true in Et. apply (meaning_perm (lives L) _ (pends L')); [by symmetry | done|].
    apply (meaning_drop _ _ m k v); [|done]. by apply (meaning_perm (lives L) _ (pends L)).
  - apply bool_decide_eq_false in Et. unfold copied in *. rewrite (re_sec _ _ _ _ _ _ _ Hrest) in *.
    destruct (append_lists L j (next_store st j its (node_len k v)) d k v its HI) as [HA1 HB1].
    assert (HB2 : pends L ≡ₚ (k, v) :: pends L') by (by rewrite <- HB1).
    apply (meaning_perm ((k, v) :: lives L) _ (pends L')); [by rewrite HA, HA1 | done|].
    apply (meaning_drop _ _ m k v); [|by left]. apply meaning_copy; [|done].
    by apply (meaning_perm (lives L) _ (pends L)).
Qed.

Lemma moved_rest :
  let its' := l1 ++ Rec ENV_DELETED k v :: left_behind in
  rest_at (upd L j (Fmt st_after (soil d) its')) m J j st_after (soil d) its'.
Proof using Hrest Hlvl Hu.
  intros its'. pose proof Hrest as [Hs Ho (W2 & W3 & W4) Hd Hm Hr Hc Hj Hf]. pose proof moved_soil as Ed.
  assert (Hst : st_after <> SECTOR_STORE_EMPTY) by (unfold st_after, next_store; rewrite Hu; by destruct there, next_full).
  assert (Hne : its' <> []) by (intros [_ ?]%app_nil; done).
  assert (Hw : weight its' <= weight its).
  { assert (E1 : weight [Rec ENV_PRE_DELETE k v] = node_len k v) by (unfold weight; rewrite live_rec, pend_rec; cbn; lia).
    assert (E2 : weight [Rec ENV_DELETED k v] = 0) by (unfold weight; rewrite live_rec, pend_rec; done).
    assert (E3 : weight [Rec ENV_WRITE k v] = node_len k v) by (unfold weight; rewrite live_rec, pend_rec; cbn; lia).
    assert (E4 : weight left_behind <= weight l2 + node_len k v).
    { unfold left_behind, behind. rewrite eqb_reflx. destruct there; [|rewrite weight_app; lia].
      unfold node_len. pose proof (zlen_nonneg k). pose proof (zlen_nonneg v). lia. }
    unfold its', its. rewrite (split_one l1 l2), (split_one l1 left_behind), !weight_app. lia. }
  split; try done.
  - apply sec_upd_eq.
  - by rewrite sec_upd_ne.
  - split; [by split|]. split; [|done]. unfold its', left_behind, behind. rewrite eqb_reflx. destruct there; [by eapply tidy_status|].
    rewrite app_comm_cons, app_assoc. apply tidy_snoc.
  - by rewrite Ed.
  - apply moved_meaning.
  - lia.
  - by rewrite Ed.
  - by rewrite Ed.
  - by rewrite Ed.
Qed.
End Moved.

Lemma wpc_move_here L j st d l1 l2 k v env (Q : EfErrCode -> Ef C -> Prop) s :
  let its' := l1 ++ Rec ENV_DELETED k v :: left_behind L j l2 k v in
  let L' := upd L j (Fmt (st_after L j st l1 l2 k v) (soil d) its') in
  rest_at L m J j st d (l1 ++ Rec ENV_PRE_DELETE k v :: l2) -> store L s -> env_cache_ok (cached_in L) (env_cache_table (ram s)) ->
  seen (Rec ENV_PRE_DELETE k v) (ends (base j) l1) env -> gc_request (ram s) = false -> in_recovery_check (ram s) = true ->
  wf L -> alloc_spec L (node_len k v) false = (Some j, false) ->
  (forall s', tables (ram s) (ram s') -> store L' s' -> env_cache_ok (cached_in L') (env_cache_table (ram s')) -> Q EF_NO_ERR s') ->
  wpc P (move_env junk_env junk_sector env) Q s.
Proof using.
  intros its' L' Hrest Hs Hc Hsn Hgc Hrec Hwf Hal HQ. pose proof (re_sec _ _ _ _ _ _ _ Hrest) as HS.
  assert (EL : marked L j st d l1 l2 k v ENV_PRE_DELETE = L) by done.
  pose proof (Lcopy_finished L j st d l1 l2 k v Hrest) as Efin. fold its' in Efin. fold L' in Efin.
  assert (Eskip : in_recovery_check (ram s) && bool_decide (k ∈ (lives L).*1) = there L k) by (by rewrite Hrec).
  assert (Elc : (if there L k then L else copied L j k v) = Lcopy L j k v) by done.
  assert (Elb : (if there L k then l2 else behind j j l2 k v) = left_behind L j l2 k v) by done.
  apply (wpc_move P junk_env junk_sector L j st d l1 l2 k v ENV_PRE_DELETE env j); rewrite ?EL, ?Eskip, ?Elc, ?Elb, ?Hgc, ?Hal; try done.
  - by right.
  - intros s' Hr' Hs' Hc'. rewrite Efin in Hs', Hc'. apply HQ; [by apply tables_moved | done | by apply Hc'].
Qed.

(** ** The loop over the records *)

Definition rested (R0 : EfRam) (pure i : bool) s : Prop :=
  exists L st d its, idle_at L m J i st d its /\ store L s /\ env_cache_ok (cached_in L) (env_cache_table (ram s)) /\ tables R0 (ram s)
    /\ (pure = true -> clean its).
Definition asked (R0 : EfRam) s : Prop :=
  exists L i st its, rest_at L m J i st SECTOR_DIRTY_TRUE its /\ store L s /\ env_cache_ok (cached_in L) (env_cache_table (ram s))
    /\ tables (put_gc_request true R0) (ram s).

Section Records.
Context (R0 : EfRam) (Hgc : gc_request R0 = false) (Hrec : in_recovery_check R0 = true) (j : bool) (none pure : bool).

Record recovering (l1 l2 : list item) s : Prop := {
  rv_at : exists L st d, rest_at L m J j st d (l1 ++ l2) /\ store L s /\ env_cache_ok (cached_in L) (env_cache_table (ram s));
  rv_pend : pend l1 = [];
  rv_order : ordered l2;
  rv_none : none = true -> pend l2 = [];
  rv_pure : pure = true -> clean (l1 ++ l2) /\ pend l2 = [];
  rv_ram : tables R0 (ram s)
}.

Lemma rest_done L st d its : rest_at L m J j st d its -> pend its = [] -> is_level d -> idle_at L m J j st d its.
Proof using.
  intros Hrest Hp Hl. apply rest_idle; [done | done|]. intros Ef. pose proof (re_full _ _ _ _ _ _ _ Hrest Ef).
  pose proof (re_level _ _ _ _ _ _ _ Hrest). by destruct Hl as [->|[->| ->]].
Qed.

Lemma rest_wf L st d its : rest_at L m J j st d its -> wf L.
Proof using.
  intros [Hs Ho (W2 & W3 & W4) _ _ _ _ _ _] i. destruct (decide (i = j)) as [->|Hne]; [by rewrite Hs|].
  replace i with (negb j) by (by destruct i, j). rewrite Ho. split; [done | by left].
Qed.

Lemma ordered_tail l1 l2 : ordered (l1 ++ l2) -> ordered l2.
Proof using. intros Ho m1 it m2 -> Hs. apply (Ho (l1 ++ m1) it m2); [by rewrite <- app_assoc | done]. Qed.

Lemma ordered_snoc l x : ordered l -> pend [x] = [] -> ordered (l ++ [x]).
Proof using.
  intros Ho Hx l1 it l2 E Hs. destruct l2 as [|y l2 _] using rev_ind; [done|].
  rewrite app_comm_cons, app_assoc in E. apply app_inj_tail in E as [E ->]. rewrite pend_app, Hx, app_nil_r. by apply (Ho l1 it l2).
Qed.

(** The first half of the call back. *)
Lemma wpc_recover_pending l1 g l2 k v env (Q : bool * unit -> Ef C -> Prop) s :
  recovering l1 (Rec ENV_PRE_DELETE k v :: g ++ l2) s -> seen (Rec ENV_PRE_DELETE k v) (ends (base j) l1) env ->
  forallb is_gap g = true -> ready l2 ->
  (forall s', none = false -> pure = false -> asked R0 s' -> Q (true, tt) s') ->
  (forall l2' s', recovering (l1 ++ Rec ENV_DELETED k v :: g) l2' s' -> ready l2' -> Q (false, tt) s') ->
  wpc P (do r <- move_env junk_env junk_sector env; ret (negb (no_err r), tt)) Q s.
Proof using HJ Hgc Hrec.
  intros [(L & st & d & Hrest & Hs & Hc) Hp Hord Hnone Hpure HR] Hsn Hg Hrd HQ1 HQ2.
  assert (En : none = false).
  { destruct none; [|done]. specialize (Hnone eq_refl). change (Rec ENV_PRE_DELETE k v :: g ++ l2) with ([Rec ENV_PRE_DELETE k v] ++ g ++ l2) in Hnone.
    by rewrite pend_app, pend_rec in Hnone. }
  assert (Epu : pure = false).
  { destruct pure; [|done]. destruct (Hpure eq_refl) as [_ Hx]. change (Rec ENV_PRE_DELETE k v :: g ++ l2) with ([Rec ENV_PRE_DELETE k v] ++ g ++ l2) in Hx.
    by rewrite pend_app, pend_rec in Hx. } pose proof (re_sec _ _ _ _ _ _ _ Hrest) as HS.
  destruct (store_level L s _ _ _ _ Hs HS) as [Hlst Hld]. destruct (store_item_ok L s j st d l1 _ _ Hs HS) as [[_ Hok] _].
  assert (Hin : (k, v) ∈ pend (l1 ++ Rec ENV_PRE_DELETE k v :: g ++ l2)) by (rewrite pend_split, !elem_of_app; right; left; by left).
  assert (Hflags : gc_request (ram s) = false /\ in_recovery_check (ram s) = true).
  { destruct HR as (t1 & te1 & b1 & -> & _). by destruct R0. }
  destruct Hflags as [Fg Fr]. pose proof (entry_len_bound k v Hok) as Hlen.
  destruct (alloc_rest L m J j st d _ k v Hrest Hin Hlst Hld ltac:(lia)) as [[Hal Hu]|[Hal Ed]].
  - apply wpc_bind. apply (wpc_move_here L j st d l1 (g ++ l2) k v env); try done; [by eapply rest_wf|].
    intros s' HR' Hs' Hc'. apply wpc_ret. change (negb (no_err EF_NO_ERR)) with false.
    pose proof (moved_rest L j st d l1 (g ++ l2) k v Hrest Hld Hu) as Hrest'.
    set (l2' := if there L k then l2 else l2 ++ [Rec ENV_WRITE k v]).
    assert (Elb : left_behind L j (g ++ l2) k v = g ++ l2').
    { unfold left_behind, l2', behind. rewrite eqb_reflx. destruct (there L k); [done | by rewrite app_assoc]. }
    rewrite Elb in *. apply (HQ2 l2'); [|unfold l2'; destruct (there L k), l2; done]. split.
    + eexists _, _, _. rewrite <- app_assoc. cbn [app]. split; [exact Hrest' | done].
    + rewrite split_one, !pend_app, Hp, pend_rec. change (ENV_DELETED =? ENV_PRE_DELETE) with false. cbn [app].
      clear -Hg. induction g as [|it g IH]; [done|]. cbn [forallb] in Hg. apply andb_true_iff in Hg as [Hit Hg].
      change (it :: g) with ([it] ++ g). rewrite pend_app, IH by done. by destruct it.
    + assert (Ho2 : ordered l2) by (apply (ordered_tail (Rec ENV_PRE_DELETE k v :: g)); exact Hord).
      unfold l2'. destruct (there L k); [done|]. apply ordered_snoc; [done | by rewrite pend_rec].
    + by rewrite En.
    + by rewrite Epu.
    + by eapply tables_trans.
  - subst d. apply wpc_bind. apply (wpc_move_full L j st SECTOR_DIRTY_TRUE l1 (g ++ l2) k v env); try done; [by eapply rest_wf|].
    intros s' t Hr' Hs'. apply wpc_ret. change (negb (no_err EF_ENV_FULL)) with true. apply HQ1; [done | done|].
    exists L, j, st, (l1 ++ Rec ENV_PRE_DELETE k v :: g ++ l2). split; [done|]. split; [done|]. split; [by rewrite Hr'|].
    rewrite Hr'. destruct HR as (t1 & te1 & b1 & -> & Hb). exists t, te1, b1. split; [|exact Hb]. by destruct R0.
Qed.

(** The second half: a record that was not completed. *)
Lemma wpc_recover_stop l1 it g l2 env (Q : bool * unit -> Ef C -> Prop) s :
  recovering l1 (it :: g ++ l2) s -> seen it (ends (base j) l1) env -> stopper it = true ->
  (forall s', rested R0 pure j s' -> Q (true, tt) s') ->
  wpc P (run write_status (addr_start env) ENV_STATUS_NUM ENV_ERR_HDR; ret (true, tt)) Q s.
Proof using HJ.
  intros [(L & st & d & Hrest & Hs & Hc) Hp Hord _ Hpure HR] Hsn Hst HQ.
  assert (Epu : pure = false).
  { destruct pure; [|done]. destruct (Hpure eq_refl) as [[_ Hx]%clean_app _]. unfold clean in Hx. cbn [forallb] in Hx.
    apply andb_true_iff in Hx as [Hx _]. destruct it; cbn in *; [|done..]. by rewrite Hst in Hx. } pose proof (re_sec _ _ _ _ _ _ _ Hrest) as HS.
  destruct (store_level L s _ _ _ _ Hs HS) as [Hlst Hld].
  assert (Hp2 : pend (g ++ l2) = []) by (by apply (Hord [] it (g ++ l2))).
  apply wpc_bind. destruct Hsn as (Ea & _ & Hsn). rewrite Ea. destruct it as [r k v|bs|b0 err rest].
  - cbn [stopper] in Hst. apply Z.eqb_eq in Hst. subst r.
    apply (wpc_rec_status P L j st d l1 (g ++ l2) k v 1 5 ENV_ERR_HDR); try done; [by right; right; right; right|].
    intros s' Hr' Hs'. apply wpc_ret, HQ. exists (upd L j (Fmt st d (l1 ++ Rec 5 k v :: g ++ l2))), st, d, (l1 ++ Rec 5 k v :: g ++ l2).
    pose proof Hrest as [X1 X2 (X3 & X4 & X5) X6 X7 X8 X9 X10 X11].
    assert (Elive : live (l1 ++ Rec 5 k v :: g ++ l2) = live (l1 ++ Rec ENV_PRE_WRITE k v :: g ++ l2)) by (by rewrite !live_split).
    assert (Epend : pend (l1 ++ Rec 5 k v :: g ++ l2) = pend (l1 ++ Rec ENV_PRE_WRITE k v :: g ++ l2)) by (by rewrite !pend_split).
    assert (Elen : ilen (l1 ++ Rec 5 k v :: g ++ l2) = ilen (l1 ++ Rec ENV_PRE_WRITE k v :: g ++ l2)) by (by rewrite !ilen_app, !ilen_cons, !rec_len).
    assert (Ew : weight (l1 ++ Rec 5 k v :: g ++ l2) = weight (l1 ++ Rec ENV_PRE_WRITE k v :: g ++ l2)) by (unfold weight; by rewrite Elive, Epend).
    split; [|split; [done|split]].
    + apply rest_done; [|by rewrite pend_split, Hp, Hp2|done]. split; try done.
      * apply sec_upd_eq.
      * by rewrite sec_upd_ne.
      * split; [rewrite X3; split; by intros [_ ?]%app_nil|]. split; [by eapply tidy_status|]. by intros [_ ?]%app_nil.
      * by apply (meaning_other L j _ _ (l1 ++ Rec ENV_PRE_WRITE k v :: g ++ l2)); [eapply items_sec|..].
      * by rewrite Ew.
      * intros E k1 v1. rewrite Epend. unfold free, ends. rewrite Elen. by apply X9.
      * intros E. rewrite Elen, Ew. by apply X10.
    + rewrite Hr'. eapply env_cache_weaken; [|exact Hc]. apply cached_all. intros k' v' x. eapply found_status; [exact HS | by right].
    + rewrite Hr'. split; [done | by rewrite Epu].
  - done.
  - apply (wpc_write_status P (ends (base j) l1) ENV_STATUS_NUM ENV_ERR_HDR); try done.
    + pose proof (store_fits L s j st d l1 _ Hs HS). destruct (base_cases j); lia.
    + destruct (store_fits L s j st d l1 _ Hs HS) as [F1 F2]. pose proof (ilen_nonneg (Bad b0 err rest :: g ++ l2)).
      unfold ENV_ERR_HDR, SECTOR_SIZE, EF_ERASE_MIN_SIZE in *. destruct (base_cases j); lia.
    + intros s' Hr' Hm'. apply wpc_ret, HQ. exists L, st, d, (l1 ++ Bad b0 err rest :: g ++ l2).
      split; [|split; [|split; [by rewrite Hr'|split; [by rewrite Hr' | by rewrite Epu]]]].
      * apply rest_done; [done | | done]. rewrite split_one, !pend_app, Hp. by rewrite pend_app in Hp2.
      * destruct Hs as [Hf Hsc Hst']. split; [|by rewrite Hr' | by rewrite Hr'].
        eapply Flash_mark; [exact Hf | exact HS | exact Hm'].
Qed.

Lemma recovering_pass l1 it g l2 s :
  pend [it] = [] -> forallb is_gap g = true -> recovering l1 (it :: g ++ l2) s -> recovering (l1 ++ it :: g) l2 s.
Proof using.
  intros Hp Hg [(L & st & d & Hrest & Hs & Hc) Hp1 Hord Hnone Hpure HR]. split.
  - exists L, st, d. rewrite <- app_assoc. cbn [app]. done.
  - rewrite (split_one l1 g), !pend_app, Hp1, Hp. cbn [app]. clear -Hg.
    induction g as [|x g IH]; [done|]. cbn [forallb] in Hg. apply andb_true_iff in Hg as [Hx Hg].
    change (x :: g) with ([x] ++ g). rewrite pend_app, IH by done. by destruct x.
  - by apply (ordered_tail (it :: g)).
  - intros E. specialize (Hnone E). change (it :: g ++ l2) with ([it] ++ g ++ l2) in Hnone. rewrite !pend_app in Hnone.
    by apply app_nil in Hnone as [_ [_ ?]%app_nil].
  - intros E. destruct (Hpure E) as [Hcl Hx]. change (it :: g ++ l2) with ([it] ++ g ++ l2) in Hx. rewrite !pend_app in Hx.
    apply app_nil in Hx as [_ [_ ?]%app_nil]. by rewrite <- app_assoc.
  - done.
Qed.

Definition stopped s : Prop := rested R0 pure j s \/ (none = false /\ pure = false /\ asked R0 s).

Lemma wpc_recover_item l1 it g l2 e s :
  recovering l1 (it :: g ++ l2) s -> is_gap it = false -> forallb is_gap g = true -> ready l2 -> addr_start e = ends (base j) l1 ->
  wpc P (read_env e) (fun r s1 => wpc P (check_and_recovery_env_cb junk_env junk_sector (snd r) tt) (fun c s2 =>
    let '(stop, acc') := c in
    if stop : bool then stopped s2
    else exists it' g' l2', recovering (l1 ++ it' :: g') l2' s2 /\ forallb is_gap g' = true /\ ready l2'
           /\ located it' (ends (base j) l1) (snd r) /\ 0 < item_len it') s1) s.
Proof using HJ Hgc Hrec.
  intros Hrv Hit Hg Hrd Ha. pose proof Hrv as [(L & st & d & Hrest & Hs & Hc) Hp Hord Hnone Hpure HR].
  pose proof (re_sec _ _ _ _ _ _ _ Hrest) as HS. pose proof (store_item L s j st d l1 it _ Hs HS) as Hpos.
  destruct (store_item_ok L s j st d l1 it _ Hs HS) as [Hio _].
  apply (wpc_read P L j st d l1 it (g ++ l2)); [done | done | done | done | apply any_layout|].
  intros r e' s' Hsn Hr' Hs'. pose proof (seen_located _ _ _ Hsn) as Hloc. cbn [snd].
  assert (Hrv' : recovering l1 (it :: g ++ l2) s').
  { split; try done; [|by rewrite Hr']. exists L, st, d. by rewrite Hr'. }
  assert (Hpass : pend [it] = [] -> exists it' g' l2', recovering (l1 ++ it' :: g') l2' s' /\ forallb is_gap g' = true /\ ready l2'
           /\ located it' (ends (base j) l1) e' /\ 0 < item_len it').
  { intros Hpi. exists it, g, l2. split; [by apply recovering_pass | done]. }
  unfold check_and_recovery_env_cb. destruct it as [x k v|bs|b0 err rest].
  - pose proof Hsn as (_ & _ & Hcrc & Est & _). rewrite Hcrc, Est. cbn [andb]. destruct Hio as [Hx _].
    destruct (decide (x = ENV_PRE_DELETE)) as [->|Hne3].
    + change (stat ENV_PRE_DELETE =? ENV_PRE_DELETE) with true. cbv iota.
      apply (wpc_recover_pending l1 g l2 k v); try done.
      * intros s2 En Ep Has. right. by split; [|split].
      * intros l2' s2 Hrv2 Hrd2. exists (Rec ENV_DELETED k v), g, l2'. split; [done|]. split; [done|]. split; [done|].
        destruct Hloc as (_ & E1 & E2 & E3). split; [|by rewrite rec_len in *]. split; [done|]. split; [done|]. by rewrite rec_len in *.
    + assert (E3 : (stat x =? ENV_PRE_DELETE) = false).
      { apply Z.eqb_neq. unfold is_stat, ENV_PRE_DELETE in *. destruct Hx as [->|[->|[->|[->|[->| ->]]]]]; done. }
      rewrite E3. destruct (decide (x = ENV_PRE_WRITE)) as [->|Hne1].
      * change (stat ENV_PRE_WRITE =? ENV_PRE_WRITE) with true. cbv iota.
        apply (wpc_recover_stop l1 (Rec ENV_PRE_WRITE k v) g l2); try done. intros s2 Hre. by left.
      * assert (E1 : (stat x =? ENV_PRE_WRITE) = false).
        { apply Z.eqb_neq. unfold is_stat, ENV_PRE_WRITE in *. destruct Hx as [->|[->|[->|[->|[->| ->]]]]]; done. }
        rewrite E1. apply wpc_ret, Hpass. rewrite pend_rec. by rewrite (proj2 (Z.eqb_neq _ _) Hne3).
  - done.
  - pose proof Hsn as (_ & _ & Hcrc & Hst). rewrite Hcrc. cbn [andb]. destruct Hst as [->| ->].
    + change (ENV_ERR_HDR =? ENV_PRE_WRITE) with false. cbv iota. by apply wpc_ret, Hpass.
    + change (ENV_PRE_WRITE =? ENV_PRE_WRITE) with true. cbv iota.
      apply (wpc_recover_stop l1 (Bad b0 err rest) g l2); try done. intros s2 Hre. by left.
Qed.

Lemma recovering_end l1 s : recovering l1 [] s -> rested R0 pure j s /\ env_start_addr (ram s) = 0.
Proof using.
  intros [(L & st & d & Hrest & Hs & Hc) Hp _ _ Hpure HR]. rewrite app_nil_r in *. split; [|apply Hs].
  destruct (store_level L s _ _ _ _ Hs (re_sec _ _ _ _ _ _ _ Hrest)) as [_ Hl].
  exists L, st, d, l1. split; [by apply rest_done|]. split; [done|]. split; [done|]. split; [done|]. intros E. by apply Hpure.
Qed.

Lemma wpc_recover_records L st d its sector e s :
  rest_at L m J j st d its -> ordered its -> (none = true -> pend its = []) -> (pure = true -> clean its /\ pend its = []) -> store L s -> env_cache_ok (cached_in L) (env_cache_table (ram s)) ->
  tables R0 (ram s) -> st <> SECTOR_STORE_EMPTY -> view j st d sector ->
  wpc P (records_loop SECTOR_FUEL sector (set_start FAILED_ADDR e) tt (check_and_recovery_env_cb junk_env junk_sector))
    (fun r s2 => let '(stop, _, _) := r in if stop : bool then stopped s2 else env_start_addr (ram s2) = 0 /\ rested R0 pure j s2) s.
Proof using HJ Hgc Hrec.
  intros Hrest Hord Hnone Hpure Hs Hc HR Hst (_ & Est & _ & Ha & _). pose proof (re_sec _ _ _ _ _ _ _ Hrest) as HS.
  assert (Hne : its <> []).
  { destruct (re_wf _ _ _ _ _ _ _ Hrest) as [Hx _]. intros E. by apply Hx in E. }
  apply (wpc_records_loop P (fun l1 l2 _ s' => recovering l1 l2 s') (fun _ _ s' => stopped s') (check_and_recovery_env_cb junk_env junk_sector) j) with (l1 := []) (l2 := its).
  - congruence.
  - done.
  - intros l1 l2 _ s' [(L' & st' & d' & Hrest' & Hs' & _) _ _ _ _ _]. exists L', st', d'.
    split; [done|]. split; [apply Hrest' | apply any_layout].
  - intros l1 it g l2 [] e' s' Hrv Hg Hgs Hl2 Hplace. by apply (wpc_recover_item l1 it g l2).
  - done.
  - intros l1 e' _ s' Hrv. destruct (recovering_end l1 s' Hrv). done.
  - split; [by exists L, st, d | done..].
  - done.
  - by left.
  - by apply (store_ready L s j st d its).
  - unfold ends. rewrite ilen_nil, sector_fuel. unfold SECTOR_SIZE, EF_ERASE_MIN_SIZE, SECTOR_HDR_DATA_SIZE. lia.
Qed.

(** One pass over the log. *)
Lemma wpc_recover_pass L st d its e (Q : env_node_obj * unit -> Ef C -> Prop) s :
  rest_at L m J j st d its -> ordered its -> (none = true -> pend its = []) -> (pure = true -> clean its /\ pend its = []) -> store L s -> env_cache_ok (cached_in L) (env_cache_table (ram s)) ->
  tables R0 (ram s) -> (forall e' s', stopped s' -> Q (e', tt) s') ->
  wpc P (env_iterator junk_env junk_sector e tt (check_and_recovery_env_cb junk_env junk_sector)) Q s.
Proof using HJ Hgc Hrec.
  intros Hrest Hord Hnone Hpure Hs Hc HR HQ. pose proof (re_sec _ _ _ _ _ _ _ Hrest) as HS. pose proof (re_other _ _ _ _ _ _ _ Hrest) as HO.
  destruct (store_level L s _ _ _ _ Hs HS) as [Hlst Hld].
  assert (Hempty : st = SECTOR_STORE_EMPTY -> rested R0 pure j s).
  { intros E. apply (proj1 (re_wf _ _ _ _ _ _ _ Hrest)) in E as Ei. exists L, st, d, its. split; [apply rest_done; [done | by rewrite Ei | done]|].
    split; [done|]. split; [done|]. split; [done|]. intros E2. by apply Hpure. }
  apply (wpc_env_iterator P junk_env junk_sector (fun _ _ s' => s' = s) (fun _ _ s' => if j then s' = s else rested R0 pure j s')
           (fun _ _ s' => rested R0 pure j s') (fun _ _ s' => stopped s')).
  - intros i e' [] s' Hi. assert (Hcases : (i = j /\ s' = s) \/ (i = negb j /\ if j then s' = s else rested R0 pure j s'))
      by (destruct i, j; auto).
    destruct Hcases as [[-> ->]|[-> Hi']].
    + exists L, st, d, its. split; [done|]. split; [done|]. split; [done|]. split; [intros E; by destruct j; apply Hempty|].
      intros Hne sector Hv. eapply wpc_conseq; [by apply (wpc_recover_records L st d its)|].
      intros [[stop e2] []] s2. destruct stop; [done|]. intros [? ?]. split; [done|]. by destruct j.
    + destruct j; cbn [negb] in *.
      * subst s'. exists L, SECTOR_STORE_EMPTY, SECTOR_DIRTY_FALSE, []. split; [done|]. split; [done|]. split; [by left|]. by split.
      * pose proof Hi' as (L2 & st2 & d2 & its2 & Hid2 & Hs2 & _). exists L2, SECTOR_STORE_EMPTY, SECTOR_DIRTY_FALSE, [].
        split; [done|]. split; [apply Hid2|]. split; [by left|]. by split.
  - intros e' [] s' Hr. apply HQ. by left.
  - intros e' [] s' Hst. by apply HQ.
  - done.
Qed.
End Records.

(** *** The loop *)

Lemma rest_asked L i st its :
  rest_at L m J i st SECTOR_DIRTY_TRUE its -> to_collect m J 0 true false i st SECTOR_DIRTY_TRUE its SECTOR_STORE_EMPTY [] L.
Proof using HJ.
  intros [Hs Ho (W2 & W3 & W4) Hd Hm Hr Hc Hj Hf]. assert (Hne : its <> []) by (intros E; by specialize (W4 E)).
  split; [by left|]. split; [done|]. split; try done.
  - apply sec_upd_eq.
  - split; [by intros ?%W2 | done].
  - by rewrite sec_upd_ne.
  - split; [done|]. split; [done|]. split; [by left | done].
  - by apply (meaning_other L i st _ its); [eapply items_sec|..].
  - change (ilen []) with 0. lia.
Qed.

(** Two passes are enough. *)
Lemma wpc_recovery_loop fuel R0 pure e (Q : unit -> Ef C -> Prop) s :
  (2 <= fuel)%nat -> gc_request R0 = false -> in_recovery_check R0 = true -> restored m J R0 pure s ->
  (forall i s', rested R0 pure i s' -> Q tt s') -> wpc P (recovery_loop junk_env junk_sector fuel e) Q s.
Proof using HJ.
  intros Hf Hgc Hrec [(L & j & st & d & its & Hrest & Hord & Hs & Hc & Hpure) HR] HQ. destruct fuel as [|[|n]]; [lia..|].
  assert (Hdone : forall X i s', rested R0 pure i s' -> wpc P (do gc <- ram_gets gc_request; if gc : bool then X else ret tt) Q s').
  { intros X i s' Hre. apply wpc_bind, wpc_gets. assert (E : gc_request (ram s') = false).
    { destruct Hre as (_ & _ & _ & _ & _ & _ & _ & (t & te & b & -> & _) & _). done. }
    rewrite E. by eapply wpc_ret, HQ. }
  cbn [recovery_loop]. apply wpc_bind. apply (wpc_recover_pass R0 Hgc Hrec j false pure L st d its); try done.
  intros e1 s1 [Hre|(_ & Ep & Has)]; [by eapply Hdone|].
  destruct Has as (L1 & i1 & st1 & its1 & Hrest1 & Hs1 & Hc1 & HR1). apply wpc_bind, wpc_gets.
  assert (E1 : gc_request (ram s1) = true) by (destruct HR1 as (t & te & b & -> & _); done). rewrite E1. apply wpc_bind.
  apply (wpc_gc_collect P junk_env junk_sector m J 0 true false (any_mode m J) HJ (Z.le_refl 0) (put_gc_request true R0) i1 st1 SECTOR_DIRTY_TRUE its1 SECTOR_STORE_EMPTY [] L1);
    try done; [by apply rest_asked|].
  intros s2 [(sti & t & L2 & Hid2 & Hs2 & Hc2 & _) HR2]. cbn [recovery_loop]. apply wpc_bind.
  apply (wpc_recover_pass R0 Hgc Hrec (negb i1) true pure L2 sti SECTOR_DIRTY_FALSE t); try done.
  - by apply idle_rest.
  - by apply ordered_nil, Hid2.
  - intros _. apply Hid2.
  - by rewrite Ep.
  - by apply tables_asked.
  - intros e3 s3 [Hre|[? _]]; [by eapply Hdone | done].
Qed.
End Recover.
