(* ===== verification/EfStart.v ===== *)
(** * Starting

    [easyflash_init] on a flash from which the variables [m] are recovered, and on
    one without a store: there the defaults of the port are created. *)

From S2P Require Import Prelude CStr Storage EfEnv EfFlash EfLayout EfRead EfStore EfCache EfFind EfOps EfAlloc EfCreate EfMove EfLog EfTorn EfGc EfState EfCollect EfGather EfIdle EfSet EfUse EfApi EfBoot EfRecover.
Open Scope list_scope.

(** No entry of the caches is in use. *)
Definition uncached (R : EfRam) : Prop :=
  (forall n, n ∈ env_cache_table R -> cache_addr n = FAILED_ADDR) /\ (forall n, n ∈ sector_cache_table R -> sec_addr n = FAILED_ADDR).

Lemma invalid_uncached R : uncached (invalid_caches R).
Proof.
  split; intros n (x & -> & _)%list_elem_of_fmap; done.
Qed.

Lemma uncached_sectors L R : uncached R -> sec_cache_ok L (sector_cache_table R).
Proof.
  intros [_ Hc]. split.
  - intros n Hn Hf. by rewrite Hc in Hf.
  - intros j k x n Hx _ _ Hf. rewrite Hc in Hf; [done | by eapply list_elem_of_lookup_2].
Qed.

Section Start.
Context {C : Type} `{FlashDoc C} (junk_env : env_node_obj) (junk_sector : sector_meta_data).
Context (m : env_map) (J : Z) (HJ : 0 <= J).
Implicit Types (s : Ef C).

Abbreviation P := (fun _ : Z -> Z => True).

(** The memory at the start of the loading. *)
Record starting (R : EfRam) : Prop := {
  sg_cache : uncached R;
  sg_start : env_start_addr R = 0;
  sg_lock : env_lock R = 1;
  sg_flags : gc_request R = false /\ last_is_complete_del R = false;
  sg_defaults : default_env_set R = port_default_set
}.

Lemma starting_store L s : Flash (mem s) L -> starting (ram s) -> store L s.
Proof using. intros HF [Hc Hs _ _ _]. split; [done | by apply uncached_sectors | done]. Qed.

(** Where [pure], nothing was under way when the power went. *)
Definition left_by (pure : bool) (L : Sec * Sec) : Prop :=
  exists j st d its, recoverable_at L m J j st d its /\ (pure = true -> d <> SECTOR_DIRTY_GC /\ clean its /\ pend its = []).

(** The second half of [ef_load_env]. *)
Lemma wpc_load_records pure fuel L j st d its sector (Q : EfErrCode -> Ef C -> Prop) s :
  (2 <= fuel)%nat -> recoverable_at L m J j st d its -> sec L (negb j) <> Blank -> store L s ->
  env_cache_ok (cached_in L) (env_cache_table (ram s)) -> gc_request (ram s) = false -> in_recovery_check (ram s) = true ->
  env_lock (ram s) = 1 -> last_is_complete_del (ram s) = false -> default_env_set (ram s) = port_default_set ->
  (pure = true -> d <> SECTOR_DIRTY_GC /\ clean its /\ pend its = []) ->
  (forall s', idle m J pure 1 (mkEf (chip s') (put_init_ok true (ram s'))) -> Q EF_NO_ERR s') ->
  wpc P (run ef_port_env_lock;
         run sector_iterator junk_env sector SECTOR_STORE_UNUSED tt (check_and_recovery_gc_cb junk_env junk_sector) false;
         run recovery_loop junk_env junk_sector fuel junk_env;
         run ram_put (put_recovery false);
         run ef_port_env_unlock;
         ret EF_NO_ERR) Q s.
Proof using HJ.
  intros Hf Hrc Hb Hs Hc Hgc Hrec Hlock Hlast Hdef Hpure HQ. apply wpc_bind, (wpc_lock P 1); [done | lia|].
  set (R0 := put_lock 0 (ram s)). change (put_lock (1 - 1) (ram s)) with R0.
  apply wpc_bind. apply (wpc_check_gc junk_env junk_sector m J HJ pure L j st d its); try done; [by apply store_ram|].
  intros sector' s1 Hre. cbn [ram] in Hre. apply wpc_bind.
  apply (wpc_recovery_loop junk_env junk_sector m J HJ fuel R0 pure); try done.
  intros i s2 (L2 & st2 & d2 & its2 & Hid2 & Hs2 & Hc2 & HR2 & Hcl2). apply wpc_bind, wpc_put, wpc_bind, wpc_unlock, wpc_ret, HQ.
  cbn [chip ram]. split.
  - exists L2, i, st2, d2, its2. split; [done|]. split; [by apply store_ram | done].
  - destruct HR2 as (t & te & b & -> & Hb2). cbn. repeat split; [done | | done]. destruct b; [|done].
    specialize (Hb2 eq_refl). cbn in Hb2. by rewrite Hlast in Hb2.
Qed.

Lemma wpc_load pure fuel L (Q : EfErrCode -> Ef C -> Prop) s :
  (2 <= fuel)%nat -> Flash (mem s) L -> left_by pure L -> starting (ram s) ->
  (forall s', idle m J pure 1 (mkEf (chip s') (put_init_ok true (ram s'))) -> Q EF_NO_ERR s') ->
  wpc P (ef_load_env junk_env junk_sector fuel) Q s.
Proof using HJ.
  intros Hf HF (j & st & d & its & Hrc & Hpure) Hst HQ. pose proof (starting_store L s HF Hst) as Hs. pose proof Hst as [Hca Hsa Hlk [Hgc Hlast] Hdef].
  unfold ef_load_env. apply wpc_bind, wpc_put, wpc_bind.
  apply (wpc_check_headers junk_env m J L j st d its Hrc); [by apply store_ram|].
  intros sector acc s1 (Hs1 & HR1 & Hacc). cbn [ram] in HR1.
  destruct (fixed_recoverable m J HJ L j st d its Hrc) as [Hrc1 Hb1].
  rewrite (proj2 (Z.eqb_neq acc SECTOR_NUM)) by (change SECTOR_NUM with 2; lia). apply wpc_bind, wpc_ret.
  destruct HR1 as (t & HR1). apply (wpc_load_records pure fuel (fixed L j) j st d its sector); rewrite ?HR1; try done.
  apply env_cache_empty. apply Hca.
Qed.

(** ** [easyflash_init] *)

Lemma wpc_init pure fuel L (Q : EfErrCode -> Ef C -> Prop) s :
  (2 <= fuel)%nat -> Flash (mem s) L -> left_by pure L ->
  init_ok (ram s) = false -> gc_request (ram s) = false -> last_is_complete_del (ram s) = false ->
  (forall s', idle m J pure 1 s' -> Q EF_NO_ERR s') ->
  wpc P (easyflash_init junk_env junk_sector fuel) Q s.
Proof using HJ.
  intros Hf HF Hrc Hi Hgc Hlast HQ. unfold easyflash_init. apply wpc_bind. unfold ef_port_init. apply wpc_bind, wpc_put.
  rewrite ef_part_easyflash. apply wpc_ret. change (no_err EF_NO_ERR) with true. cbv iota. unfold ef_env_init.
  apply wpc_bind, wpc_gets. cbn [ram init_ok put_lock]. rewrite Hi. apply wpc_bind, wpc_put, wpc_bind, wpc_put, wpc_bind, wpc_put, wpc_bind.
  apply (wpc_load pure fuel L); try done.
  - split; try done. apply invalid_uncached.
  - intros s' Hid. change (no_err EF_NO_ERR) with true. cbv iota. apply wpc_bind, wpc_put, wpc_ret. by apply HQ.
Qed.
End Start.
