(* ===== verification/EfFresh.v ===== *)
(** * The first start

    On a flash without a store [easyflash_init] formats both sectors and creates the
    defaults of the port. *)

From Stdlib Require Import String.
From S2P Require Import Prelude CStr Storage EfEnv EfFlash EfLayout EfRead EfStore EfCache EfFind EfOps EfAlloc EfCreate EfMove EfLog EfTorn EfGc EfState EfCollect EfGather EfIdle EfSet EfUse EfApi EfBoot EfRecover EfStart.
Open Scope list_scope.

Definition key_boot_times : list Z := [98; 111; 111; 116; 95; 116; 105; 109; 101; 115].
Definition value_zero : list Z := [48].
Definition default_map : env_map := {[ key_boot_times := value_zero ]}.

Lemma boot_entry_ok : entry_ok key_boot_times value_zero.
Proof. split; [by repeat constructor | done | by repeat constructor | done]. Qed.

Section Fresh.
Context {C : Type} `{FlashDoc C} (junk_env : env_node_obj) (junk_sector : sector_meta_data).
Implicit Types (s : Ef C).

Abbreviation P := (fun _ : Z -> Z => True).
Abbreviation E := (Fmt SECTOR_STORE_EMPTY SECTOR_DIRTY_FALSE []).

(** A record whose place is not known yet. *)
Lemma wpc_create_new sector k v (Q : EfErrCode * sector_meta_data -> Ef C -> Prop) s :
  entry_ok k v -> empty_env sector = FAILED_ADDR ->
  wpc P (new_env junk_env junk_sector sector (node_len k v)) (fun r s1 =>
    fst r <> FAILED_ADDR /\ empty_env (snd r) = fst r /\ wpc P (create_env_blob junk_env junk_sector (snd r) k v (zlen v)) Q s1) s ->
  wpc P (create_env_blob junk_env junk_sector sector k v (zlen v)) Q s.
Proof.
  intros Hok He Hn. pose proof (entry_len_bound k v Hok) as Hlen. pose proof (key_len _ _ Hok) as Hk.
  assert (Hsplit : forall sec0 s0, wpc P (create_env_blob junk_env junk_sector sec0 k v (zlen v)) Q s0
    <-> wpc P (do r <- (if empty_env sec0 =? FAILED_ADDR then new_env junk_env junk_sector sec0 (node_len k v) else ret (empty_env sec0, sec0));
       let '(env_addr, sector) := r in
       if env_addr =? FAILED_ADDR then ret (EF_ENV_FULL, sector) else
       do r <- update_sec_status sector (node_len k v) false;
       let '(r0, is_full) := r in
       do r1 <- (if no_err r0
                 then write_env_hdr env_addr (hdr_bytes (node_len k v) (env_crc k v) (zlen k) (zlen v)) else ret r0);
       let name_addr := u32 (env_addr + ENV_HDR_DATA_SIZE) in
       do r2 <- (if no_err r1 then
                   do w <- align_write name_addr (k ++ [0]) (zlen k);
                   run (if negb is_full then cache_sector (s_addr sector)
                          (u32 (name_addr + EF_WG_ALIGN (zlen k) + EF_WG_ALIGN (zlen v))) else ret tt);
                   run cache_env k env_addr; ret w
                 else ret r1);
       do r3 <- (if no_err r2 then align_write (u32 (name_addr + EF_WG_ALIGN (zlen k))) v (zlen v) else ret r2);
       do r4 <- (if no_err r3 then write_status env_addr ENV_STATUS_NUM ENV_WRITE else ret r3);
       run (if no_err r4 && is_full then ram_put (put_gc_request true) else ret tt);
       ret (r4, sector)) Q s0).
  { intros sec0 s0. unfold create_env_blob. change EF_ENV_NAME_MAX with 32. rewrite (proj2 (Z.ltb_ge 32 _)) by lia.
    rewrite env_size_eq by done. unfold SECTOR_SIZE at 1. unfold EF_ERASE_MIN_SIZE, SECTOR_HDR_DATA_SIZE at 1.
    rewrite (proj2 (Z.ltb_ge (131072 - 20) _)) by lia. by rewrite prefix_all. }
  apply Hsplit. rewrite He, Z.eqb_refl. apply wpc_bind. eapply wpc_conseq; [exact Hn|].
  intros [a sec1] s1 (Ha & Hea & Hc). cbn [fst snd] in *. apply Hsplit in Hc. rewrite Hea, (proj2 (Z.eqb_neq _ _) Ha) in Hc. exact Hc.
Qed.

Lemma idle_empty : idle_at (E, E) ∅ 0 false SECTOR_STORE_EMPTY SECTOR_DIRTY_FALSE [].
Proof.
  split; try done.
  - split; [done|]. split; [done|]. split; [by left | done].
  - split; [constructor | constructor |]. intros k v. change (lives (E, E)) with (@nil entry). change (pends (E, E)) with (@nil entry).
    rewrite lookup_empty. split; [done|]. by intros [?%not_elem_of_nil|[?%not_elem_of_nil _]].
Qed.

Lemma wpc_check_blank sector (Q : sector_meta_data * Z -> Ef C -> Prop) s :
  store (Blank, Blank) s ->
  (forall sector' s' t, ram s' = put_sec_cache t (ram s) -> store (E, E) s' -> Q (sector', 2) s') ->
  wpc P (sector_iterator junk_env sector SECTOR_STORE_UNUSED 0 check_sec_hdr_cb false) Q s.
Proof.
  intros Hs HQ. set (R0 := ram s) in *.
  set (at_ := fun (L : Sec * Sec) (n : Z) (acc : Z) s' => store L s' /\ (exists t, ram s' = put_sec_cache t R0) /\ acc = n).
  apply (wpc_sector_iterator P junk_env (at_ (Blank, Blank) 0) (at_ (E, Blank) 1) (at_ (E, E) 2) (fun _ _ _ => False)).
  - intros i acc s' Hi. set (L := if i then (E, Blank) else (Blank, Blank)).
    assert (Hi' : at_ L (if i then 1 else 0) acc s') by (by destruct i). destruct Hi' as (Hs' & (t & Ht) & ->).
    exists L. split; [done|]. unfold sector_phase. assert (HB : sec L i = Blank) by (by destruct i). rewrite HB.
    split; [done|]. split; [done|]. intros sector1 (Hck & Ha & _). unfold check_sec_hdr_cb. rewrite Hck, Ha. cbn [negb].
    apply wpc_bind. apply (wpc_format P L i); [done | apply any_layout.. |].
    intros s2 t2 Hr2 Hs2. apply wpc_ret. split; [apply Hs2|].
    destruct i; (split; [exact Hs2|]; split; [|done]); rewrite Hr2, Ht; by exists t2.
  - intros sector1 acc s' (Hs' & (t & Ht) & ->). by eapply HQ.
  - done.
  - split; [done|]. split; [|done]. exists (sector_cache_table R0). symmetry. apply put_same_cache.
Qed.

Lemma wpc_format_all L (Q : EfErrCode -> Ef C -> Prop) s :
  store L s ->
  (forall s' t, ram s' = put_sec_cache t (ram s) -> store (E, E) s' -> Q EF_NO_ERR s') ->
  wpc P (format_all SECTORS_FUEL 0) Q s.
Proof.
  intros Hs HQ. change SECTORS_FUEL with 2%nat. cbn [format_all]. apply wpc_bind, wpc_gets. rewrite (store_start _ _ Hs).
  change (0 <? u32 (0 + ENV_AREA_SIZE)) with true. cbv iota. apply wpc_bind.
  apply (wpc_format P L false); [done | apply any_layout.. |]. intros s1 t1 Hr1 Hs1. change (no_err EF_NO_ERR) with true. cbv iota.
  change (u32 (0 + SECTOR_SIZE)) with (base true).
  apply wpc_bind, wpc_gets. rewrite (store_start _ _ Hs1).
  change (base true <? u32 (0 + ENV_AREA_SIZE)) with true. cbv iota. apply wpc_bind.
  apply (wpc_format P (upd L false E) true); [exact Hs1 | apply any_layout.. |]. intros s2 t2 Hr2 Hs2. change (no_err EF_NO_ERR) with true. cbv iota.
  change (upd (upd L false E) true E) with (E, E) in Hs2.
  apply wpc_bind, wpc_gets. rewrite (store_start _ _ Hs2). change (u32 (base true + SECTOR_SIZE) <? u32 (0 + ENV_AREA_SIZE)) with false.
  cbv iota. apply wpc_ret. apply (HQ s2 t2); [|done]. by rewrite Hr2, Hr1.
Qed.

(** The default of the port. *)
Lemma wpc_create_default (Q : unit -> Ef C -> Prop) s :
  let its := [Rec ENV_WRITE key_boot_times value_zero] in
  let L := (Fmt SECTOR_STORE_USING SECTOR_DIRTY_FALSE its, E) in
  store (E, E) s -> gc_request (ram s) = false ->
  (forall s' t, store L s' ->
     ram s' = put_env_cache (update_env_cache key_boot_times 20 (env_cache_table (ram s))) (put_sec_cache t (ram s)) -> Q tt s') ->
  wpc P (create_defaults junk_env junk_sector port_default_set junk_sector) Q s.
Proof.
  intros its L Hs Hgc HQ. unfold port_default_set. cbn [create_defaults def_key def_value]. apply wpc_bind.
  change (str "boot_times"%string) with key_boot_times. change (str "0"%string) with value_zero.
  change (default_len (mkDefault key_boot_times value_zero 0)) with (zlen value_zero).
  pose proof boot_entry_ok as Hok. pose proof (idle_wf _ _ _ _ _ _ _ idle_empty) as Hwf.
  assert (Hal : alloc_spec (E, E) (node_len key_boot_times value_zero) false = (Some false, false)) by (vm_compute; reflexivity).
  apply wpc_create_new; [done | done|]. unfold new_env. apply wpc_bind.
  apply (wpc_alloc P junk_env (E, E) Hwf (any_layout _)); [done|]. rewrite Hgc, Hal. cbn [fst snd].
  intros a sector1 s1 t1 Hr1 Hs1 [Ea (st & d & HS & Hv & Hrm)]. cbn in HS. injection HS as <- <-.
  change (a = 20) in Ea. apply wpc_bind, wpc_gets. rewrite Hr1. cbn [gc_request put_gc_request]. rewrite andb_false_r. apply wpc_ret.
  cbn [fst snd]. split; [by rewrite Ea|]. split; [destruct Hrm as [_ Hrm]; rewrite Hrm by done; by rewrite Ea|].
  apply (wpc_create P junk_env junk_sector (E, E) false SECTOR_STORE_EMPTY SECTOR_DIRTY_FALSE SECTOR_DIRTY_FALSE []); try done.
  intros s2 t2 Hr2 Hs2. cbn [snd create_defaults]. apply wpc_ret.
  apply (HQ s2 t2); [exact Hs2|]. rewrite Hr2, Hr1. unfold put_new. destruct (ram s); cbn in *. by rewrite Hgc.
Qed.

(** [ef_env_set_default], whatever the flash held.  The cache of the variables stays
    as it is but for the new one. *)
Definition default_layout : Sec * Sec := (Fmt SECTOR_STORE_USING SECTOR_DIRTY_FALSE [Rec ENV_WRITE key_boot_times value_zero], E).

Lemma wpc_set_default L (Q : EfErrCode -> Ef C -> Prop) s :
  store L s -> gc_request (ram s) = false -> env_lock (ram s) = 1 -> default_env_set (ram s) = port_default_set ->
  (forall s' t, store default_layout s' ->
     ram s' = put_env_cache (update_env_cache key_boot_times 20 (env_cache_table (ram s))) (put_sec_cache t (ram s)) -> Q EF_NO_ERR s') ->
  wpc P (ef_env_set_default junk_env junk_sector) Q s.
Proof.
  intros Hs Hgc Hlk Hdef HQ. unfold ef_env_set_default. apply wpc_bind, wpc_gets. rewrite Hdef.
  apply wpc_bind, (wpc_lock P 1); [done | lia|]. apply wpc_bind, wpc_gets. cbn [ram].
  change (env_start_addr (put_lock (1 - 1) (ram s))) with (env_start_addr (ram s)). rewrite (store_start _ _ Hs).
  apply wpc_bind. apply (wpc_format_all L); [by apply store_ram|]. intros s2 t2 Hr2 Hs2. change (no_err EF_NO_ERR) with true. cbv iota.
  apply wpc_bind. apply wpc_create_default; [done | by rewrite Hr2|].
  intros s3 t3 Hs3 Hr3. apply wpc_bind, wpc_unlock, wpc_ret. apply (HQ _ t3); [by apply store_ram|].
  cbn [ram]. rewrite Hr3, Hr2. cbn. destruct (ram s); cbn in *. by rewrite Hlk.
Qed.

Lemma default_cache t :
  env_cache_ok (cached_in (E, E)) t -> env_cache_ok (cached_in default_layout) (update_env_cache key_boot_times 20 t).
Proof.
  apply (env_cache_update (cached_in (E, E))).
  - apply cached_step. intros k v x _ (i & st & d & l1 & l2 & HS & _). destruct i, l1; discriminate HS.
  - intros _. exists key_boot_times, value_zero. split; [|done]. by exists false, SECTOR_STORE_USING, SECTOR_DIRTY_FALSE, [], [].
Qed.

Lemma default_idle :
  idle_at default_layout default_map 0 false SECTOR_STORE_USING SECTOR_DIRTY_FALSE [Rec ENV_WRITE key_boot_times value_zero].
Proof.
  split; try done.
  - split; [done|]. split; [done|]. split; [by left | done].
  - change (lives _) with [(key_boot_times, value_zero)]. change (pends _) with (@nil entry).
    apply (meaning_new [] ∅); [|by apply not_elem_of_nil].
    split; [constructor | constructor |]. intros k v. rewrite lookup_empty. split; [done|].
    by intros [?%not_elem_of_nil|[?%not_elem_of_nil _]].
Qed.

Lemma wpc_load_blank fuel (Q : EfErrCode -> Ef C -> Prop) s :
  (2 <= fuel)%nat -> Flash (mem s) (Blank, Blank) -> starting (ram s) ->
  (forall s', idle default_map 0 true 1 (mkEf (chip s') (put_init_ok true (ram s'))) -> Q EF_NO_ERR s') ->
  wpc P (ef_load_env junk_env junk_sector fuel) Q s.
Proof.
  intros Hf HF Hst HQ. pose proof (starting_store _ s HF Hst) as Hs. pose proof Hst as [Hca Hsa Hlk [Hgc Hlast] Hdef].
  unfold ef_load_env. apply wpc_bind, wpc_put, wpc_bind. apply wpc_check_blank; [by apply store_ram|].
  intros sector s1 t1 Hr1 Hs1. change (2 =? SECTOR_NUM) with true. cbv iota. apply wpc_bind, wpc_bind.
  apply (wpc_set_default (E, E)); [done | by rewrite Hr1..|]. intros s3 t3 Hs3 Hr3. apply wpc_ret.
  pose proof default_idle as Hid. pose proof (idle_recoverable_at _ _ _ _ _ _ _ (Z.le_refl 0) Hid) as Hrc.
  apply (wpc_load_records junk_env junk_sector default_map 0 (Z.le_refl 0) true fuel default_layout
           false SECTOR_STORE_USING SECTOR_DIRTY_FALSE [Rec ENV_WRITE key_boot_times value_zero] sector); try done; try by rewrite Hr3, Hr1.
  rewrite Hr3, Hr1. apply default_cache, env_cache_empty, Hca.
Qed.

Lemma wpc_first_start fuel (Q : EfErrCode -> Ef C -> Prop) s :
  (2 <= fuel)%nat -> Flash (mem s) (Blank, Blank) ->
  init_ok (ram s) = false -> gc_request (ram s) = false -> last_is_complete_del (ram s) = false ->
  (forall s', idle default_map 0 true 1 s' -> Q EF_NO_ERR s') ->
  wpc P (easyflash_init junk_env junk_sector fuel) Q s.
Proof.
  intros Hf HF Hi Hgc Hlast HQ. unfold easyflash_init. apply wpc_bind. unfold ef_port_init. apply wpc_bind, wpc_put.
  rewrite ef_part_easyflash. apply wpc_ret. change (no_err EF_NO_ERR) with true. cbv iota. unfold ef_env_init.
  apply wpc_bind, wpc_gets. cbn [ram init_ok put_lock]. rewrite Hi. apply wpc_bind, wpc_put, wpc_bind, wpc_put, wpc_bind, wpc_put, wpc_bind.
  apply (wpc_load_blank fuel); try done.
  - split; try done. apply invalid_uncached.
  - intros s' Hid. change (no_err EF_NO_ERR) with true. cbv iota. apply wpc_bind, wpc_put, wpc_ret. by apply HQ.
Qed.
End Fresh.
