(* ===== verification/EfSession.v ===== *)
(** * The store as a map

    What a user of the store relies on, as a specification over finite maps: the
    calls of the store, starts, and the return to the defaults.  [run_op] and
    [run_act] are the program; the lemmas relate the two. *)

From S2P Require Import Prelude CStr Storage EfEnv EfFlash EfLayout EfRead EfChip EfStore EfCache EfFind EfOps EfAlloc EfCreate EfMove EfLog EfTorn EfGc EfState EfCollect EfGather EfIdle EfSet EfUse EfApi EfBoot EfRecover EfStart EfFresh.
Open Scope list_scope.

(** ** The specification *)

(** [ef_get_env_blob], [ef_get_env], [ef_set_env_blob] and [ef_del_env]. *)
Inductive op := Get (key : list Z) (buf_len : Z) | Get_text (key : list Z) | Set_ (key value : list Z) | Del (key : list Z).
Inductive answer := Value (r : option (list Z * Z)) | Text (r : option (list Z)) | Code (e : EfErrCode).

(** What [ef_get_env] makes of a value: its beginning if all of it can be printed. *)
Definition as_text (v : list Z) : option (list Z) :=
  let bs := take (Z.to_nat EF_STR_ENV_VALUE_MAX_SIZE) v in if (0 <? zlen bs) && ef_is_str bs then Some bs else None.

Definition spec_step (m : env_map) (o : op) : answer * env_map :=
  match o with
  | Get k n => (Value (match m !! k with Some v => Some (take (Z.to_nat n) v, zlen v) | None => None end), m)
  | Get_text k => (Text (m !! k ≫= as_text), m)
  | Set_ k v => (Code EF_NO_ERR, <[k := v]> m)
  | Del k => (Code (match m !! k with Some _ => EF_NO_ERR | None => EF_ENV_NAME_ERR end), delete k m)
  end.

(** A call, a start of the processor, or the return to the defaults with the start
    that follows it. *)
Inductive act := Do (o : op) | Restart | Reset.

Definition spec_act (m : env_map) (a : act) : answer * env_map :=
  match a with Do o => spec_step m o | Restart => (Code EF_NO_ERR, m) | Reset => (Code EF_NO_ERR, default_map) end.

Fixpoint spec_run (m : env_map) (l : list act) : list answer * env_map :=
  match l with
  | [] => ([], m)
  | x :: l' => let '(a, m') := spec_act m x in let '(r, m'') := spec_run m' l' in (a :: r, m'')
  end.

(** What an operation asks for: names are texts of 1 to 32 characters that the
    cache does not take for one another, and there is room for what is set. *)
Definition admissible (J slack : Z) (m : env_map) (o : op) : Prop :=
  match o with
  | Get k n => (text k /\ 1 <= zlen k <= 32) /\ clash_free m k /\ 0 <= n
  | Get_text k => (text k /\ 1 <= zlen k <= 32) /\ clash_free m k
  | Set_ k v => entry_ok k v /\ clash_free m k /\ used m + J + node_len k v + slack + EF_SEC_REMAIN_THRESHOLD <= ROOM
  | Del k => (text k /\ 1 <= zlen k <= 32) /\ clash_free m k
  end.

Fixpoint all_admissible (J slack : Z) (m : env_map) (l : list act) : Prop :=
  match l with
  | [] => True
  | x :: l' => match x with Do o => admissible J slack m o | _ => True end /\ all_admissible J slack (snd (spec_act m x)) l'
  end.

(** Tests for both. *)
Definition name_b (k : list Z) : bool := bool_decide (text k) && (1 <=? zlen k) && (zlen k <=? 32).
Definition clash_free_b (m : env_map) (key : list Z) : bool :=
  forallb (fun e => bool_decide (e.1 = key) || negb (name_crc16 e.1 =? name_crc16 key)) (map_to_list m).
Definition admissible_b (J slack : Z) (m : env_map) (o : op) : bool :=
  match o with
  | Get k n => name_b k && clash_free_b m k && (0 <=? n)
  | Get_text k => name_b k && clash_free_b m k
  | Set_ k v => name_b k && bool_decide (text v) && (node_len k v <=? ROOM) && clash_free_b m k
                && (used m + J + node_len k v + slack + EF_SEC_REMAIN_THRESHOLD <=? ROOM)
  | Del k => name_b k && clash_free_b m k
  end.
Fixpoint all_admissible_b (J slack : Z) (m : env_map) (l : list act) : bool :=
  match l with
  | [] => true
  | x :: l' => (match x with Do o => admissible_b J slack m o | _ => true end) && all_admissible_b J slack (snd (spec_act m x)) l'
  end.

Lemma name_check k : name_b k = true -> text k /\ 1 <= zlen k <= 32.
Proof. unfold name_b. rewrite !andb_true_iff, bool_decide_eq_true, !Z.leb_le. tauto. Qed.

Lemma clash_check m key : clash_free_b m key = true -> clash_free m key.
Proof.
  unfold clash_free_b. rewrite forallb_forall. intros Hc k v Hk E. left.
  assert (Hi : In (k, v) (map_to_list m)) by (by apply list_elem_of_In, elem_of_map_to_list).
  apply Hc, orb_true_iff in Hi as [Hi|Hi]; [by apply bool_decide_eq_true in Hi|].
  apply negb_true_iff, Z.eqb_neq in Hi. done.
Qed.

Lemma admissible_check J slack m o : admissible_b J slack m o = true -> admissible J slack m o.
Proof.
  destruct o as [k n|k|k v|k]; cbn [admissible_b admissible]; rewrite !andb_true_iff, ?Z.leb_le, ?bool_decide_eq_true.
  - intros [[Hn%name_check Hc%clash_check] ?]. done.
  - intros [Hn%name_check Hc%clash_check]. done.
  - intros [[[[Hn%name_check Hv] Hf] Hc%clash_check] Hr]. split; [|done]. split; [apply Hn | apply Hn | done | exact Hf].
  - intros [Hn%name_check Hc%clash_check]. done.
Qed.

Lemma all_admissible_check J slack l : forall m, all_admissible_b J slack m l = true -> all_admissible J slack m l.
Proof.
  induction l as [|x l IH]; intros m; cbn [all_admissible_b all_admissible]; [done|].
  rewrite andb_true_iff. intros [Hx Hl]. split; [|by apply IH]. destruct x; [by apply admissible_check | done..].
Qed.

(** The calls of [l], and the variables behind them. *)
Definition calls (l : list op) : list act := map Do l.
Definition steps (m : env_map) (l : list op) : env_map := snd (spec_run m (calls l)).

(** Whatever is stored in between can be torn without harm. *)
Definition tearable (slack : Z) (m : env_map) (l : list op) : Prop :=
  forall n k v, steps m (take n l) !! k = Some v -> tear_safe k v /\ node_len k v <= slack.

Definition tearable_b (slack : Z) (m : env_map) (l : list op) : bool :=
  forallb (fun n => forallb (fun e => tear_safe_b e.1 e.2 && (node_len e.1 e.2 <=? slack)) (map_to_list (steps m (take n l))))
    (seq 0 (S (length l))).

Lemma tearable_check slack m l : tearable_b slack m l = true -> tearable slack m l.
Proof.
  unfold tearable_b. rewrite forallb_forall. intros Ht n k v Hk.
  assert (Hn : exists n', (n' <= length l)%nat /\ take n l = take n' l).
  { destruct (Nat.le_gt_cases n (length l)); [by exists n|]. exists (length l). by rewrite !take_ge by lia. }
  destruct Hn as (n' & Hn' & E). rewrite E in Hk.
  assert (Hi : In n' (seq 0 (S (length l)))) by (apply in_seq; lia).
  apply Ht in Hi. rewrite forallb_forall in Hi.
  assert (Hk' : In (k, v) (map_to_list (steps m (take n' l)))) by (by apply list_elem_of_In, elem_of_map_to_list).
  apply Hi, andb_true_iff in Hk' as [H1 H2]. cbn [fst snd] in *. split; [by apply tear_safe_check | by apply Z.leb_le].
Qed.

Lemma steps_cons m o l : steps m (o :: l) = steps (snd (spec_step m o)) l.
Proof.
  unfold steps. cbn [calls map spec_run spec_act]. destruct (spec_step m o) as [a m']. cbn [snd].
  fold (calls l). by destruct (spec_run m' (calls l)).
Qed.

Lemma steps_snoc m l o : steps m (l ++ [o]) = snd (spec_step (steps m l) o).
Proof.
  revert m. induction l as [|o' l IH]; intros m; [apply (steps_cons m o [])|]. cbn [app]. by rewrite !steps_cons, IH.
Qed.

Lemma tearable_tail slack m o l : tearable slack m (o :: l) -> tearable slack (snd (spec_step m o)) l.
Proof. intros Ht n k v Hk. apply (Ht (S n)). cbn [take]. by rewrite steps_cons. Qed.

Lemma tearable_head slack m o l k v :
  tearable slack m (o :: l) -> m !! k = Some v \/ snd (spec_step m o) !! k = Some v -> tear_safe k v /\ node_len k v <= slack.
Proof.
  intros Ht [Hk|Hk]; [by apply (Ht 0%nat) | apply (Ht 1%nat)]. cbn [take]. by rewrite steps_cons.
Qed.

(** ** The program *)

Section Program.
Context {C : Type} `{Chips C} (junk_env : env_node_obj) (junk_sector : sector_meta_data).

Definition run_op (o : op) : M (Ef C) answer :=
  match o with
  | Get k n => do r <- ef_get_env_blob junk_env junk_sector k n; ret (Value r)
  | Get_text k => do r <- ef_get_env junk_env junk_sector k; ret (Text r)
  | Set_ k v => do r <- ef_set_env_blob junk_env junk_sector k (Some v) (zlen v); ret (Code r)
  | Del k => do r <- ef_del_env junk_env junk_sector k; ret (Code r)
  end.

(** The memory is cleared, the flash is not. *)
Definition restart (fuel : nat) : M (Ef C) EfErrCode :=
  run modify (fun s => mkEf (chip s) ram0); easyflash_init junk_env junk_sector fuel.

Definition reset (fuel : nat) : M (Ef C) EfErrCode :=
  run ef_env_set_default junk_env junk_sector; restart fuel.

Definition run_act (fuel : nat) (x : act) : M (Ef C) answer :=
  match x with
  | Do o => run_op o
  | Restart => do r <- restart fuel; ret (Code r)
  | Reset => do r <- reset fuel; ret (Code r)
  end.

Fixpoint run_acts (fuel : nat) (l : list act) : M (Ef C) (list answer) :=
  match l with
  | [] => ret []
  | x :: l' => do a <- run_act fuel x; do r <- run_acts fuel l'; ret (a :: r)
  end.
End Program.

Section Runs.
Context {C : Type} `{FlashDoc C} (junk_env : env_node_obj) (junk_sector : sector_meta_data).
Implicit Types (s : Ef C).

Lemma wpc_run_op P m J slack crash o (Q : answer -> Ef C -> Prop) s :
  0 <= J -> 0 <= slack -> admissible J slack m o ->
  match o with
  | Get _ _ | Get_text _ => mode P m J slack false crash
  | Set_ k v => set_mode P m J slack crash k v
  | Del k => del_mode P m J slack crash k
  end ->
  idle m J crash 1 s -> (forall s', idle (snd (spec_step m o)) J crash 1 s' -> Q (fst (spec_step m o)) s') ->
  wpc P (run_op junk_env junk_sector o) Q s.
Proof.
  intros HJ Hsl Ha Hm Hi HQ. destruct o as [k n|k|k v|k]; cbn [run_op spec_step admissible fst snd] in *; apply wpc_bind.
  - destruct Ha as ([Hk Hl] & Hc & Hn). apply (wpc_get P junk_env junk_sector m J slack crash HJ Hsl Hm k Hk Hl Hc n) with (pure := crash); [done | done|].
    intros s' Hi'. by apply wpc_ret, HQ.
  - destruct Ha as ([Hk Hl] & Hc). unfold ef_get_env. apply wpc_bind.
    apply (wpc_get P junk_env junk_sector m J slack crash HJ Hsl Hm k Hk Hl Hc EF_STR_ENV_VALUE_MAX_SIZE) with (pure := crash); [done | done|].
    intros s' Hi'. unfold read_of. destruct (m !! k) as [v|]; [|by apply wpc_ret, wpc_ret, HQ].
    cbn [mbind option_bind] in HQ. unfold as_text in HQ. apply wpc_ret, wpc_ret. by apply HQ.
  - destruct Ha as (Hok & Hc & Hr). apply (wpc_set P junk_env junk_sector m J slack crash k v); try done.
    intros s' Hi'. by apply wpc_ret, HQ.
  - destruct Ha as ([Hk Hl] & Hc). apply (wpc_delete P junk_env junk_sector m J slack crash HJ Hsl k Hk Hl Hc Hm); [done|].
    intros s' Hi'. by apply wpc_ret, HQ.
Qed.

Lemma any_op m J slack o :
  match o with
  | Get _ _ | Get_text _ => mode (fun _ => True) m J slack false false
  | Set_ k v => set_mode (fun _ => True) m J slack false k v
  | Del k => del_mode (fun _ => True) m J slack false k
  end.
Proof. destruct o; by intros mu. Qed.

(** The flash holds [m]: nothing was stored yet, or it is one from which [m] is
    recovered.  With [pure] nothing was under way. *)
Definition holds (m : env_map) (J : Z) (pure : bool) (c : C) : Prop :=
  (Flash (nor c) (Blank, Blank) /\ m = default_map) \/ (exists L, Flash (nor c) L /\ left_by m J pure L).

Lemma idle_forget m J J' (pure : bool) lock s : J <= J' -> idle m J pure lock s -> idle m J' false lock s.
Proof.
  intros HJ [(L & i & st & d & its & Hid & Hs & Hc & _) HR]. split; [|done].
  exists L, i, st, d, its. split; [by eapply idle_weaken | done].
Qed.

Lemma idle_more m J J' (pure : bool) lock s : J <= J' -> idle m J pure lock s -> idle m J' pure lock s.
Proof.
  intros HJ [(L & i & st & d & its & Hid & Hs & Hc & Hp) HR]. split; [|done].
  exists L, i, st, d, its. split; [by eapply idle_weaken | done].
Qed.

Lemma idle_holds m J pure lock s : 0 <= J -> idle m J pure lock s -> holds m J pure (chip s).
Proof.
  intros HJ [(L & i & st & d & its & Hid & Hs & _ & Hp) _]. right. exists L. split; [apply Hs|].
  exists i, st, d, its. split; [by apply idle_recoverable_at|]. intros E. split; [apply Hid|]. split; [by apply Hp | apply Hid].
Qed.

Lemma wpc_restart m J pure fuel (Q : EfErrCode -> Ef C -> Prop) s :
  (2 <= fuel)%nat -> 0 <= J -> holds m J pure (chip s) -> (forall s', idle m J pure 1 s' -> Q EF_NO_ERR s') ->
  wpc (fun _ => True) (restart junk_env junk_sector fuel) Q s.
Proof.
  intros Hf HJ Hh HQ. unfold restart. apply wpc_bind.
  assert (Hput : forall Q' : unit -> Ef C -> Prop, Q' tt (mkEf (chip s) ram0) -> wpc (fun _ => True) (modify (fun s => mkEf (chip s) ram0)) Q' s).
  { intros Q' HQ'. apply wp_modify. split; [by left | done]. }
  apply Hput. destruct Hh as [[HF ->]|(L & HF & Hl)].
  - apply (wpc_first_start junk_env junk_sector fuel); try done. intros s' Hi. apply HQ.
    destruct pure; [by apply (idle_more _ 0) | by apply (idle_forget _ 0 J true)].
  - by apply (wpc_init junk_env junk_sector m J HJ pure fuel L).
Qed.

Lemma wpc_reset m J pure lock fuel (Q : EfErrCode -> Ef C -> Prop) s :
  (2 <= fuel)%nat -> 0 <= J -> lock = 1 -> idle m J pure lock s -> (forall s', idle default_map J true 1 s' -> Q EF_NO_ERR s') ->
  wpc (fun _ => True) (reset junk_env junk_sector fuel) Q s.
Proof.
  intros Hf HJ -> [(L & i & st & d & its & _ & Hs & _) (_ & Hgc & _ & _ & Hlk & Hdef)] HQ. unfold reset. apply wpc_bind.
  apply (wpc_set_default junk_env junk_sector L); try done. intros s1 t1 Hs1 _.
  apply (wpc_restart default_map J true fuel); [done | done | | exact HQ].
  right. exists default_layout. split; [apply Hs1|].
  exists false, SECTOR_STORE_USING, SECTOR_DIRTY_FALSE, [Rec ENV_WRITE key_boot_times value_zero]. split; [|done].
  eapply idle_recoverable_at; [done|]. eapply idle_weaken; [exact HJ | exact default_idle].
Qed.

Lemma wpc_run_acts fuel J l : forall m (Q : list answer -> Ef C -> Prop) s,
  (2 <= fuel)%nat -> 0 <= J -> all_admissible J 0 m l -> idle m J false 1 s ->
  (forall s', idle (snd (spec_run m l)) J false 1 s' -> Q (fst (spec_run m l)) s') ->
  wpc (fun _ => True) (run_acts junk_env junk_sector fuel l) Q s.
Proof.
  induction l as [|x l IH]; intros m Q s Hf HJ Ha Hi HQ; cbn [run_acts spec_run] in *; [by apply wpc_ret, HQ|].
  destruct Ha as [Ha1 Ha2]. apply wpc_bind.
  assert (Hnext : forall s1, idle (snd (spec_act m x)) J false 1 s1 ->
    wpc (fun _ => True) (do r <- run_acts junk_env junk_sector fuel l; ret (fst (spec_act m x) :: r)) Q s1).
  { intros s1 Hi1. destruct (spec_act m x) as [a m'] eqn:E1. cbn [fst snd] in *. apply wpc_bind.
    apply (IH m'); [done.. |]. intros s2 Hi2. apply wpc_ret. destruct (spec_run m' l) as [r m''] eqn:E2. by apply HQ. }
  destruct x as [o| |]; cbn [run_act].
  - apply (wpc_run_op _ m J 0 false o); [done | done | done | apply any_op | done | exact Hnext].
  - apply wpc_bind. apply (wpc_restart m J false fuel); [done | done | by eapply idle_holds|].
    intros s1 Hi1. by apply wpc_ret, Hnext.
  - apply wpc_bind. apply (wpc_reset m J false 1 fuel); [done..|]. intros s1 Hi1. apply wpc_ret, Hnext. by apply (idle_forget _ J J true).
Qed.

Lemma wpc_run {A} P (mm : M (Ef C) A) (Q : A -> Ef C -> Prop) s :
  wpc P mm Q s -> exists a s', mm s = Some (a, s') /\ Q a s' /\ forall mu, passed (chip s') mu -> passed (chip s) mu \/ P mu.
Proof. unfold wpc, wp. destruct (mm s) as [[a s']|]; [|done]. intros [Hp HQ]. by exists a, s'. Qed.
End Runs.
