(* ===== verification/EfSafe.v ===== *)
(** * What the store promises

    The theorems of the key-value store: sessions are sessions with a finite map,
    a loss of power during an operation leaves it done or not done, and the
    collection of the deleted records loses nothing. *)

From S2P Require Import Prelude CStr Storage EfEnv EfFlash EfLayout EfRead EfChip EfStore EfCache EfFind EfOps EfAlloc EfCreate EfMove EfLog EfTorn EfGc EfState EfCollect EfGather EfIdle EfSet EfUse EfApi EfBoot EfRecover EfStart EfFresh EfSession.
Open Scope list_scope.

(** ** A power cut *)

Section Cut.
Context {C : Type} `{FlashDoc C} (junk_env : env_node_obj) (junk_sector : sector_meta_data).
Implicit Types (s : Ef C).

(** The contents from which the variables behind some of the calls are recovered. *)
Definition on_the_way (m : env_map) (l : list op) (J : Z) (mu : Z -> Z) : Prop :=
  exists L n, (n <= length l)%nat /\ Flash mu L /\ recoverable L (steps m (take n l)) J.

Lemma on_the_way_holds m l J mu c :
  on_the_way m l J mu -> (forall x, nor c x = mu x) ->
  exists n, (n <= length l)%nat /\ holds (steps m (take n l)) J false c.
Proof.
  intros (L & n & Hn & HF & (j & st & d & its & Hr)) Hc. exists n. split; [done|]. right. exists L.
  split; [by apply (Flash_ext mu)|]. by exists j, st, d, its.
Qed.

Lemma cut_mode (P : (Z -> Z) -> Prop) m J slack o l :
  tearable slack m (o :: l) ->
  (forall L, recoverable L m (J + slack) \/ recoverable L (snd (spec_step m o)) (J + slack) -> PL P L) ->
  match o with
  | Get _ _ | Get_text _ => mode P m J slack false true
  | Set_ k v => set_mode P m J slack true k v
  | Del k => del_mode P m J slack true k
  end.
Proof.
  intros Ht HP. pose proof (fun k v => tearable_head slack m o l k v Ht) as Hh.
  destruct o as [k n|k|k v|k]; cbn [spec_step snd] in *; unfold mode, set_mode, del_mode, crash_ok; split_and?; try done;
    try (intros L HL; apply HP; tauto); intros k' v' Hk; apply Hh; [by left.. | | by left].
  destruct Hk as [Hk|[-> ->]]; [by left | right; apply lookup_insert_eq].
Qed.

(** Calls under a loss of power at any moment. *)
Lemma wpc_cut_calls (P : (Z -> Z) -> Prop) J slack fuel l : forall m (Q : list answer -> Ef C -> Prop) s,
  0 <= J -> 0 <= slack -> idle m J true 1 s -> all_admissible J slack m (calls l) -> tearable slack m l ->
  (forall L n, (n <= length l)%nat -> recoverable L (steps m (take n l)) (J + slack) -> PL P L) ->
  (forall s', idle (steps m l) J true 1 s' -> Q (fst (spec_run m (calls l))) s') ->
  wpc P (run_acts junk_env junk_sector fuel (calls l)) Q s.
Proof.
  induction l as [|o l IH]; intros m Q s HJ Hsl Hi Ha Ht HP HQ; [by apply wpc_ret, HQ|].
  cbn [calls map] in *. destruct Ha as [Ha1 Ha2]. cbn [run_acts run_act]. apply wpc_bind.
  apply (wpc_run_op _ _ P m J slack true o); [done | done | done | | done|].
  - apply (cut_mode _ _ _ _ _ l); [done|]. intros L [Hr|Hr]; [apply (HP L 0%nat); [lia | exact Hr]|].
    apply (HP L 1%nat); [cbn; lia|]. cbn [take]. by rewrite steps_cons.
  - intros s1 Hi1. apply wpc_bind. apply (IH (snd (spec_step m o))); try done.
    + by apply tearable_tail in Ht.
    + intros L n Hn Hr. apply (HP L (S n)); [cbn; lia|]. cbn [take]. by rewrite steps_cons.
    + intros s2 Hi2. apply wpc_ret. rewrite steps_cons in HQ. specialize (HQ s2 Hi2). cbn [spec_run spec_act] in HQ.
      destruct (spec_step m o) as [a m']. cbn [fst snd] in *. unfold calls in *. by destruct (spec_run m' (map Do l)).
Qed.

Lemma run_session m J fuel l c R :
  (2 <= fuel)%nat -> 0 <= J -> holds m J false c -> all_admissible J 0 m l ->
  exists s', run_acts junk_env junk_sector fuel (Restart :: l) (mkEf c R) = Some (fst (spec_run m (Restart :: l)), s')
    /\ idle (snd (spec_run m (Restart :: l))) J false 1 s'.
Proof.
  intros Hf HJ Hh Ha.
  assert (Hw : wpc (fun _ => True) (run_acts junk_env junk_sector fuel (Restart :: l))
                 (fun a s' => a = fst (spec_run m (Restart :: l)) /\ idle (snd (spec_run m (Restart :: l))) J false 1 s') (mkEf c R)).
  { cbn [run_acts run_act]. apply wpc_bind, wpc_bind. apply (wpc_restart _ _ m J false fuel); [done.. |].
    intros s1 Hi1. apply wpc_ret, wpc_bind. apply (wpc_run_acts _ _ fuel J l m); [done.. |].
    intros s2 Hi2. apply wpc_ret. cbn [spec_run spec_act]. by destruct (spec_run m l). }
  apply wpc_run in Hw as (a & s' & E & [-> Hi] & _). by exists s'.
Qed.
End Cut.

(** C2: the store survives a loss of power.  From a store at rest that holds [m], the
    calls [l] end with the answers and the variables of the specification; and on a
    chip with any content the flash went through in between - a write stopped after
    any byte, an erasure after any block, within a collection or not - the next start
    ends, and every session that follows is one with the variables as they were behind
    the first [n] calls, for some [n]. *)
Theorem power_cut_safe {C : Type} `{FlashDoc C} (junk_env : env_node_obj) (junk_sector : sector_meta_data)
    (m : env_map) (J slack : Z) (l : list op) (s : Ef C) :
  0 <= J -> 0 <= slack -> idle m J true 1 s -> all_admissible J slack m (calls l) -> tearable slack m l ->
  exists s', run_acts junk_env junk_sector 2 (calls l) s = Some (fst (spec_run m (calls l)), s') /\ idle (steps m l) J true 1 s'
    /\ forall mu (c : C), passed (chip s') mu -> ~ passed (chip s) mu -> (forall x, nor c x = mu x) ->
       exists n, (n <= length l)%nat
         /\ forall fuel l' R, (2 <= fuel)%nat -> all_admissible (J + slack) 0 (steps m (take n l)) l' ->
              exists s2, run_acts junk_env junk_sector fuel (Restart :: l') (mkEf c R)
                         = Some (fst (spec_run (steps m (take n l)) (Restart :: l')), s2).
Proof.
  intros HJ Hsl Hi Ha Ht. set (P := on_the_way m l (J + slack)).
  assert (Hw : wpc P (run_acts junk_env junk_sector 2 (calls l))
                 (fun a s' => a = fst (spec_run m (calls l)) /\ idle (steps m l) J true 1 s') s).
  { apply (wpc_cut_calls _ _ P J slack 2 l m); try done. intros L n Hn Hr mu HF. by exists L, n. }
  apply wpc_run in Hw as (a & s' & E & [-> Hi'] & Hp). exists s'. split; [done|]. split; [done|].
  intros mu c Hmu Hno Hc. destruct (Hp mu Hmu) as [?|HP]; [done|].
  destruct (on_the_way_holds _ _ _ mu c HP Hc) as (n & Hn & Hh). exists n. split; [done|].
  intros fuel l' R Hf Hl. destruct (run_session junk_env junk_sector (steps m (take n l)) (J + slack) fuel l' c R) as (s2 & E2 & _);
    [done | lia | done.. |].
  by exists s2.
Qed.

(** A store as it is after the first start. *)
Lemma first_store : exists s : Ef log_chip, idle default_map 0 true 1 s.
Proof.
  assert (Hw := wpc_restart env0 sector0 default_map 0 true 2 (fun _ s => idle default_map 0 true 1 s) (mkEf erased_chip ram0)).
  apply wpc_run in Hw as (a & s & _ & Hi & _); [by exists s | lia | done | | done].
  left. split; [apply (erased_blank ram0) | done].
Qed.

(** The key a is set to b and the counter of the starts to 1. *)
Lemma power_cut_safe_witness : exists s s' : Ef log_chip,
  idle default_map 0 true 1 s
  /\ run_acts env0 sector0 2 [Do (Set_ [97] [98]); Do (Set_ key_boot_times [49])] s = Some ([Code EF_NO_ERR; Code EF_NO_ERR], s')
  /\ forall mu (c : log_chip), passed (chip s') mu -> ~ passed (chip s) mu -> (forall x, nor c x = mu x) ->
     exists r s2, (r = [Value None; Text (Some [48])] \/ r = [Value (Some ([98], 1)); Text (Some [48])]
                   \/ r = [Value (Some ([98], 1)); Text (Some [49])])
       /\ run_acts env0 sector0 2 [Restart; Do (Get [97] 64); Do (Get_text key_boot_times)] (mkEf c ram0)
          = Some (Code EF_NO_ERR :: r, s2).
Proof.
  destruct first_store as [s Hs]. exists s. set (l := [Set_ [97] [98]; Set_ key_boot_times [49]]).
  destruct (power_cut_safe env0 sector0 default_map 0 60 l s) as (s' & E & _ & Hcut); [done | done | done | | |].
  - apply all_admissible_check. vm_compute. reflexivity.
  - apply tearable_check. vm_compute. reflexivity.
  - exists s'. split; [done|]. split; [exact E|]. intros mu c H1 H2 H3.
    destruct (Hcut mu c H1 H2 H3) as (n & Hn & Hrun).
    assert (Hcases : n = 0%nat \/ n = 1%nat \/ n = 2%nat) by (cbn in Hn; lia).
    assert (Hb : all_admissible 60 0 (steps default_map (take n l)) [Do (Get [97] 64); Do (Get_text key_boot_times)]).
    { apply all_admissible_check. destruct Hcases as [->|[->| ->]]; vm_compute; reflexivity. }
    destruct (Hrun 2%nat _ ram0 (le_n 2) Hb) as [s2 E2].
    destruct Hcases as [->|[->| ->]]; (eexists _, s2; split; [|rewrite E2; vm_compute; reflexivity]); auto.
Defined.

(** C3: a session with the store is a session with a finite map.  On a chip that
    holds [m] (or nothing yet: then the defaults), a start and any sequence of
    calls, starts and returns to the defaults ends with the answers of the
    specification, collections of deleted records included. *)
Theorem session_refines {C : Type} `{FlashDoc C} (junk_env : env_node_obj) (junk_sector : sector_meta_data)
    (m : env_map) (J : Z) (fuel : nat) (l : list act) (c : C) (R : EfRam) :
  (2 <= fuel)%nat -> 0 <= J -> holds m J false c -> all_admissible J 0 m l ->
  exists s', run_acts junk_env junk_sector fuel (Restart :: l) (mkEf c R) = Some (fst (spec_run m (Restart :: l)), s')
    /\ idle (snd (spec_run m (Restart :: l))) J false 1 s'.
Proof. apply run_session. Qed.

(** From a chip as it is delivered. *)
Lemma session_refines_witness : exists s : Ef log_chip,
  run_acts env0 sector0 2 [Restart; Do (Set_ [97] [98]); Do (Set_ [97] [99; 100]); Restart; Do (Get [97] 1); Do (Del [97]);
                           Do (Del [97]); Do (Set_ [97] [98]); Reset; Do (Get [97] 64); Do (Get_text key_boot_times)]
    (mkEf erased_chip ram0)
  = Some ([Code EF_NO_ERR; Code EF_NO_ERR; Code EF_NO_ERR; Code EF_NO_ERR; Value (Some ([99], 2)); Code EF_NO_ERR;
           Code EF_ENV_NAME_ERR; Code EF_NO_ERR; Code EF_NO_ERR; Value None; Text (Some [48])], s).
Proof.
  destruct (session_refines env0 sector0 default_map 0 2
    [Do (Set_ [97] [98]); Do (Set_ [97] [99; 100]); Restart; Do (Get [97] 1); Do (Del [97]);
     Do (Del [97]); Do (Set_ [97] [98]); Reset; Do (Get [97] 64); Do (Get_text key_boot_times)] erased_chip ram0)
    as (s & E & _); [lia | done | left; split; [apply (erased_blank ram0) | done] | apply all_admissible_check; vm_compute; reflexivity|].
  exists s. rewrite E. vm_compute. reflexivity.
Defined.

(** ** The collection *)

Section Collection.
Context {C : Type} `{FlashDoc C} (junk_env : env_node_obj) (junk_sector : sector_meta_data).
Implicit Types (s : Ef C).

Abbreviation P := (fun _ : Z -> Z => True).

(** Where nothing is marked nothing is done. *)
Lemma wpc_gc_nothing L m J i st its (Q : unit -> Ef C -> Prop) s :
  idle_at L m J i st SECTOR_DIRTY_FALSE its -> store L s ->
  Q tt (mkEf (chip s) (put_gc_request false (ram s))) -> wpc P (gc_collect junk_env junk_sector) Q s.
Proof.
  intros Hid Hs HQ. unfold gc_collect. apply wpc_bind. apply (wpc_empty_count P junk_env L); [done | by eapply idle_wf|].
  intros sector1. apply wpc_bind.
  assert (Hend : forall Q' : unit -> Ef C -> Prop, Q' tt s -> wpc P
    (if count L SECTOR_STORE_EMPTY <=? EF_GC_EMPTY_SEC_THRESHOLD
     then do _ <- sector_iterator junk_env sector1 SECTOR_STORE_UNUSED tt (do_gc junk_env junk_sector) false; ret tt
     else ret tt) Q' s).
  2: { apply Hend. by apply wpc_put. }
  intros Q' HQ'. destruct (_ <=? _); [|by apply wpc_ret]. apply wpc_bind.
  apply (wpc_sector_iterator P junk_env (fun _ s' => s' = s) (fun _ s' => s' = s) (fun _ s' => s' = s) (fun _ _ _ => False)).
  - intros j [] s' Hj. assert (Es : s' = s) by (destruct j; done). subst s'. exists L. split; [done|].
    assert (HD : exists st' its', sec L j = Fmt st' SECTOR_DIRTY_FALSE its').
    { destruct (decide (j = i)) as [->|Hne]; [exists st, its; apply Hid|].
      replace j with (negb i) by (by destruct j, i). exists SECTOR_STORE_EMPTY, []. apply Hid. }
    destruct HD as (st' & its' & HS). unfold sector_phase. rewrite HS.
    change (SECTOR_STORE_UNUSED =? SECTOR_STORE_UNUSED) with true. cbn [orb].
    intros sector2 Hv. apply wpc_ret. split; [done|]. apply wpc_pass_gc; [apply Hv|]. split; [apply Hs | by destruct j].
  - intros sector2 [] s' ->. by apply wpc_ret.
  - done.
  - done.
Qed.
End Collection.

(** C15: the collection of the deleted records loses nothing: it ends, the variables
    are the same, and no sector is marked any more. *)
Theorem collection_keeps {C : Type} `{FlashDoc C} (junk_env : env_node_obj) (junk_sector : sector_meta_data)
    (m : env_map) (J lock : Z) (s : Ef C) :
  0 <= J -> used m + EF_SEC_REMAIN_THRESHOLD <= ROOM -> idle m J false lock s ->
  exists s' L i st its, gc_collect junk_env junk_sector (mkEf (chip s) (put_gc_request true (ram s))) = Some (tt, s')
    /\ idle m J false lock s' /\ store L s' /\ idle_at L m J i st SECTOR_DIRTY_FALSE its.
Proof.
  intros HJ Hroom [(L & i & st & d & its & Hid & Hs & Hc & _) HR].
  set (s0 := mkEf (chip s) (put_gc_request true (ram s))).
  assert (Hs0 : store L s0) by (by apply store_ram).
  assert (Hw : wpc (fun _ => True) (gc_collect junk_env junk_sector) (fun _ s' => idle m J false lock s'
            /\ exists L i st its, store L s' /\ idle_at L m J i st SECTOR_DIRTY_FALSE its) s0).
  { destruct (store_level L s _ _ _ _ Hs (id_sec _ _ _ _ _ _ _ Hid)) as [_ Hl].
    destruct (decide (d = SECTOR_DIRTY_FALSE)) as [->|Hd].
    - apply (wpc_gc_nothing junk_env junk_sector L m J i st its); [done | done|].
      assert (Hs1 : store L (mkEf (chip s0) (put_gc_request false (ram s0)))) by (by apply store_ram).
      split; [|by exists L, i, st, its]. split; [exists L, i, st, SECTOR_DIRTY_FALSE, its; by split; [|split; [|split]]|].
      destruct HR as (R1 & R2 & R3 & R4 & R5 & R6). by repeat split.
    - assert (Ed : d = SECTOR_DIRTY_TRUE).
      { pose proof (id_level _ _ _ _ _ _ _ Hid). by destruct Hl as [->|[->| ->]]. }
      subst d. apply (wpc_gc_collect (fun _ => True) junk_env junk_sector m J 0 false false (fun _ => I) HJ (Z.le_refl 0)
               (ram s0) i st SECTOR_DIRTY_TRUE its SECTOR_STORE_EMPTY [] L); try done.
      + apply idle_collect; [done | lia | done].
      + by destruct HR as (_ & _ & ? & _).
      + apply tables_refl.
      + intros s' [(sti & t & L' & Hid' & Hs' & Hc' & _) HR']. split.
        * split; [exists L', (negb i), sti, SECTOR_DIRTY_FALSE, t; by split; [|split; [|split]]|].
          eapply resting_tables; [exact HR'|]. destruct HR as (R1 & R2 & R3 & R4 & R5 & R6). by repeat split.
        * by exists L', (negb i), sti, t. }
  apply wpc_run in Hw as ([] & s' & E & [Hi (L' & i' & st' & its' & Hs' & Hid')] & _). by exists s', L', i', st', its'.
Qed.

Lemma collection_keeps_witness : exists s s' : Ef log_chip,
  idle {[ key_boot_times := [49] ]} 0 false 1 s
  /\ gc_collect env0 sector0 (mkEf (chip s) (put_gc_request true (ram s))) = Some (tt, s') /\ idle {[ key_boot_times := [49] ]} 0 false 1 s'.
Proof.
  destruct (run_session env0 sector0 default_map 0 2 [Do (Set_ key_boot_times [49])] erased_chip ram0) as (s & _ & Hi);
    [lia | done | left; split; [apply (erased_blank ram0) | done] | apply all_admissible_check; vm_compute; reflexivity|].
  assert (Em : snd (spec_run default_map [Restart; Do (Set_ key_boot_times [49])]) = {[ key_boot_times := [49] ]}) by (vm_compute; reflexivity).
  rewrite Em in Hi. exists s.
  destruct (collection_keeps env0 sector0 {[ key_boot_times := [49] ]} 0 1 s) as (s' & L & i & st & its & E & Hi' & _);
    [done | vm_compute; discriminate | done|].
  by exists s'.
Defined.
