(* ===== verification/Saved.v ===== *)
(** * The device table on the real store

    Flashwork sees the store through the class [Env].  Here the writes of its
    functions are kept as a list ([ledger]) and given to EasyFlash: after a restart
    the store holds what the class promises, so the table comes back. *)

From Stdlib Require Import String.
From S2P Require Import Prelude CStr Flashwork Storage EfEnv EfFlash EfLayout EfRead EfChip EfStore EfCache EfFind EfOps EfAlloc EfCreate EfMove EfLog EfTorn EfGc EfState EfCollect EfGather EfIdle EfSet EfUse EfApi EfBoot EfRecover EfStart EfFresh EfSession EfSafe.
Open Scope list_scope.

(** ** The writes as a list *)

Definition is_set (o : op) : Prop := match o with Set_ _ _ => True | _ => False end.

(** The variables, and the calls that made them from [m]. *)
Record ledger (m : env_map) := mkLedger {
  vars : env_map; sets : list op;
  agree : vars = steps m sets; only_sets : Forall is_set sets
}.
Arguments mkLedger {m}.
Arguments vars {m}.
Arguments sets {m}.
Arguments agree {m}.
Arguments only_sets {m}.

Lemma agree_set m (e : ledger m) k v : <[k := v]> (vars e) = steps m (sets e ++ [Set_ k v]).
Proof. by rewrite steps_snoc, <- agree. Qed.

Lemma only_snoc m (e : ledger m) k v : Forall is_set (sets e ++ [Set_ k v]).
Proof. apply Forall_app. split; [apply only_sets | by repeat constructor]. Qed.

Definition blank_ledger (m : env_map) : ledger m := mkLedger m [] eq_refl (Forall_nil_2 _).

#[export] Instance ledger_env m : Env (ledger m).
Proof.
  refine {| env_get (e : ledger m) k := vars e !! k;
            env_set (e : ledger m) k v := mkLedger (<[k := v]> (vars e)) (sets e ++ [Set_ k v]) (agree_set m e k v) (only_snoc m e k v) |}.
  - intros. apply lookup_insert_eq.
  - intros. by apply lookup_insert_ne.
Defined.

(** Setting succeeds. *)
Lemma set_answers m l : Forall is_set l -> fst (spec_run m (calls l)) = map (fun _ => Code EF_NO_ERR) l.
Proof.
  intros Hl. revert m. induction Hl as [|o l Ho Hl IH]; intros m; [done|]. destruct o as [| |k v|]; try done.
  cbn [calls map spec_run spec_act spec_step]. specialize (IH (<[k := v]> m)). unfold calls in IH.
  destruct (spec_run (<[k := v]> m) (map Do l)) as [r m']. cbn [fst] in *. by rewrite IH.
Qed.

Section Reading.
Context {C : Type} `{FlashDoc C} (junk_env : env_node_obj) (junk_sector : sector_meta_data).
Implicit Types (s : Ef C).

(** The body the readers of [flashwork.c] share. *)
Definition stored_value (keybuf : list Z) : M (Ef C) Z :=
  do r <- ef_get_env_blob junk_env junk_sector keybuf 64;
  ret (match r with
       | Some (bs, _) => if 0 <? u8 (zlen bs) then u32 (atol bs) else 0
       | None => 0
       end).

Lemma wpc_stored_value m J k (Q : Z -> Ef C -> Prop) s :
  0 <= J -> idle m J false 1 s -> text k /\ 1 <= zlen k <= 32 -> clash_free m k ->
  (forall s', idle m J false 1 s' -> Q (read_value (E := gmap (list Z) (list Z)) m k) s') ->
  wpc (fun _ => True) (stored_value k) Q s.
Proof.
  intros HJ Hi [Hk Hl] Hc HQ. apply wpc_bind.
  apply (wpc_get _ junk_env junk_sector m J 0 false HJ (Z.le_refl 0) (fun _ => I) k Hk Hl Hc 64 _ s false); [done | done|].
  intros s' Hi'. apply wpc_ret. specialize (HQ s' Hi'). unfold read_value, read_of in *. cbn [env_get gmap_env] in HQ.
  destruct (m !! k) as [v|]; [|done]. change (Z.to_nat 64) with 64%nat.
  replace (zlen (take 64 v)) with (Z.min 64 (zlen v)) by (unfold zlen; rewrite length_take; lia). exact HQ.
Qed.

(** A run of writes and the start that follows. *)
Lemma run_saved m J fuel (e : ledger m) s :
  (2 <= fuel)%nat -> 0 <= J -> idle m J false 1 s -> all_admissible J 0 m (calls (sets e)) ->
  exists s', run_acts junk_env junk_sector fuel (calls (sets e) ++ [Restart]) s
             = Some (map (fun _ => Code EF_NO_ERR) (sets e) ++ [Code EF_NO_ERR], s') /\ idle (vars e) J false 1 s'.
Proof.
  intros Hf HJ Hi Ha.
  assert (Happ : forall l1 l2 m0, spec_run m0 (l1 ++ l2)
            = (fst (spec_run m0 l1) ++ fst (spec_run (snd (spec_run m0 l1)) l2), snd (spec_run (snd (spec_run m0 l1)) l2))).
  { induction l1 as [|x l1 IH]; intros l2 m0; cbn [app spec_run]; [by apply surjective_pairing|].
    destruct (spec_act m0 x) as [a m1]. rewrite IH. destruct (spec_run m1 l1). reflexivity. }
  assert (Had : forall l m0, all_admissible J 0 m0 l -> all_admissible J 0 m0 (l ++ [Restart])).
  { induction l as [|x l IH]; intros m0; cbn [app all_admissible]; [done|]. intros [Hx Hl]. split; [done | by apply IH]. }
  assert (Hw : wpc (fun _ => True) (run_acts junk_env junk_sector fuel (calls (sets e) ++ [Restart]))
     (fun a s' => a = map (fun _ => Code EF_NO_ERR) (sets e) ++ [Code EF_NO_ERR] /\ idle (vars e) J false 1 s') s).
  { apply (wpc_run_acts _ _ fuel J _ m); [done.. | by apply Had | done|]. intros s' Hi'. rewrite Happ in *. cbn [fst snd] in *.
    rewrite set_answers by apply only_sets. split; [done|]. rewrite (agree e). exact Hi'. }
  apply wpc_run in Hw as (a & s' & E & [-> Hi'] & _). by exists s'.
Qed.
End Reading.

(** C33: the device table survives on the real store.  The writes of any run of the
    table's functions, given to EasyFlash and followed by a restart, succeed; then
    every variable reads as the class [Env] promises, and loading from these values
    gives the same devices, each bound to the same device. *)
Theorem table_survives {C : Type} `{FlashDoc C} (junk_env : env_node_obj) (junk_sector : sector_meta_data)
    (m : env_map) (J : Z) (fuel : nat) (f : Flashwork.Flash (ledger m)) (d0 : Device_Info) (s : Ef C) :
  (2 <= fuel)%nat -> 0 <= J -> idle m J false 1 s -> flash_ok f -> all_admissible J 0 m (calls (sets (env f))) ->
  exists s', run_acts junk_env junk_sector fuel (calls (sets (env f)) ++ [Restart]) s
             = Some (map (fun _ => Code EF_NO_ERR) (sets (env f)) ++ [Code EF_NO_ERR], s')
    /\ (forall k, text k -> 1 <= zlen k <= 32 -> clash_free (vars (env f)) k ->
          exists s2, stored_value junk_env junk_sector k s' = Some (read_value (env f) k, s2))
    /\ exists d, LoadDevice2Memory (mkFlash d0 (env f)) = Some (tt, mkFlash d (env f))
         /\ bindings d = bindings (Global_Device f).
Proof.
  intros Hf HJ Hi [Ht Hs] Ha. destruct (run_saved junk_env junk_sector m J fuel (env f) s Hf HJ Hi Ha) as (s' & E & Hi').
  exists s'. split; [done|]. split.
  - intros k Hk Hl Hc.
    assert (Hw : wpc (fun _ => True) (stored_value junk_env junk_sector k) (fun r _ => r = read_value (env f) k) s').
    { by apply (wpc_stored_value junk_env junk_sector (vars (env f)) J k). }
    apply wpc_run in Hw as (a & s2 & E2 & -> & _). by exists s2.
  - pose proof (reload_ok (Global_Device f) (env f) (mkFlash d0 (env f)) Ht Hs eq_refl) as Hl. unfold wp in Hl.
    destruct (LoadDevice2Memory _) as [[[] [d e]]|] eqn:El; [|done]. destruct Hl as (_ & He & Hb). cbn in He, Hb. subst e. by exists d.
Qed.

(** The first main unit, and a water sensor bound to it. *)
Definition first_table : Flashwork.Flash (ledger default_map) := mkFlash dev0 (blank_ledger default_map).

Lemma first_table_ok : flash_ok first_table.
Proof.
  split; [apply table_ok_dev0|]. split.
  - vm_compute. reflexivity.
  - vm_compute. reflexivity.
  - intros i s Hi. cbn in Hi. lia.
  - intros i s Hs Hne. apply lookup_replicate in Hs as [-> _]. done.
  - intros i s Hs Hne. apply lookup_replicate in Hs as [-> _]. done.
Qed.

(** A main unit is added to an empty table. *)
Definition one_main : Flashwork.Flash (ledger default_map) :=
  match MainAdd_Flash 10000001 first_table with Some (_, f) => f | None => first_table end.

Lemma one_main_ok : flash_ok one_main /\ bindings (Global_Device one_main) = {[ 10000001 := 0 ]}.
Proof.
  assert (Hw : wp (MainAdd_Flash 10000001) (add_post 10000001 0 true first_table) first_table).
  { apply (add_main_spec first_table 10000001 0 first_table_ok); [lia | lia | reflexivity | reflexivity]. }
  unfold wp in Hw. unfold one_main.
  assert (Hr : match MainAdd_Flash 10000001 first_table with Some (r, _) => r | None => 9 end = RT_EOK) by (vm_compute; reflexivity).
  destruct (MainAdd_Flash 10000001 first_table) as [[r f]|]; [|done]. subst r.
  destruct Hw as [(_ & [=] & _)|(_ & Hok & Hb & _)]. split; [done|]. by rewrite Hb.
Qed.

Lemma table_survives_witness : exists s s' : Ef log_chip,
  run_acts env0 sector0 2
    [Do (Set_ (str "Learn_Nums") (str "1")); Do (Set_ (str "1") (str "10000001")); Do (Set_ (str "bind:10000001") (str "0"));
     Do (Set_ (str "heart:10000001") (str "1")); Do (Set_ (str "Main_Nums") (str "1")); Restart] s
    = Some (replicate 6 (Code EF_NO_ERR), s')
  /\ (exists s2, stored_value env0 sector0 (str "1") s' = Some (10000001, s2))
  /\ exists d, LoadDevice2Memory one_main = Some (tt, mkFlash d (env one_main)) /\ bindings d = {[ 10000001 := 0 ]}.
Proof.
  destruct first_store as [s Hs]. pose proof (idle_forget _ _ _ _ _ _ (Z.le_refl 0) Hs) as Hi.
  destruct one_main_ok as [Hok Hb].
  destruct (table_survives env0 sector0 default_map 0 2 one_main (Global_Device one_main) s) as (s' & E & Hread & d & El & Hd);
    [done | done | done | done | apply all_admissible_check; vm_compute; reflexivity|].
  exists s, s'. split; [|split].
  - etransitivity; [exact E | vm_compute; reflexivity].
  - destruct (Hread (str "1")) as [s2 E2]; [by repeat constructor | vm_compute; split; discriminate | apply clash_check; vm_compute; reflexivity|].
    exists s2. rewrite E2. vm_compute. reflexivity.
  - exists d. rewrite <- Hb, <- Hd. split; [|done]. etransitivity; [|exact El]. by destruct one_main.
Defined.
