(* ===== verification/Ota.v ===== *)
(** * Firmware download

    [src/ota/wifi_ota.c] (packets from the WiFi module) and the callbacks of
    [src/ota/ymodem_ota.c] (from the console): a new image is written to the
    partition [download], piece by piece. *)

From Stdlib Require Import String.
From S2P Require Import Prelude CStr Storage.
Open Scope list_scope.

(** The static variables of one of the two files, and the chips. *)
Record Ota (C : Type) := mkOta {
  chips : C; update_file_total_size : Z; update_file_cur_size : Z; dl_part : option fal_partition
}.
Arguments mkOta {C}. Arguments chips {C}. Arguments update_file_total_size {C}.
Arguments update_file_cur_size {C}. Arguments dl_part {C}.

Section Operations.
Context {C : Type} `{Chips C}.
Implicit Types (o : Ota C).

Definition set_chips (c : C) o : Ota C := mkOta c (update_file_total_size o) (update_file_cur_size o) (dl_part o).
Definition set_total (n : Z) o : Ota C := mkOta (chips o) n (update_file_cur_size o) (dl_part o).
Definition set_cur (n : Z) o : Ota C := mkOta (chips o) (update_file_total_size o) n (dl_part o).
Definition set_dl (p : option fal_partition) o : Ota C := mkOta (chips o) (update_file_total_size o) (update_file_cur_size o) p.

Definition on_chips {A} (m : M C A) : M (Ota C) A := zoom chips set_chips m.

(** *** From the WiFi module *)

Definition wifi_ota_begin (file_size : Z) : M (Ota C) unit :=
  run modify (set_total (u32 file_size));
  run modify (set_dl (fal_partition_find "download"));
  do o <- get;
  match dl_part o with
  | None => ret tt
  | Some p =>
      if len p <? update_file_total_size o then ret tt else
      run on_chips (fal_partition_erase (Some p) 0 (update_file_total_size o));
      ret tt
  end.

Definition wifi_ota_receive (buf : list Z) (offset len : Z) : M (Ota C) unit :=
  do o <- get;
  if negb (update_file_cur_size o =? offset) then ret tt else
  do r <- on_chips (fal_partition_write (dl_part o) (update_file_cur_size o) buf len);
  if r <? 0 then ret tt else
  modify (set_cur (u32 (update_file_cur_size o + len))).

(** *** From the console *)

Inductive rym_code := RYM_CODE_ACK | RYM_CODE_CAN.

(** The first packet holds the file's name and, after its zero, the size. *)
Definition ymodem_on_begin (recv_partition : string) (buf : list Z) : M (Ota C) rym_code :=
  do name <- lift_opt (c_string buf);
  do size <- lift_opt (c_string (drop (length name + 1) buf));
  run modify (set_total (u32 (atol size)));
  run modify (set_cur 0);
  run modify (set_dl (fal_partition_find recv_partition));
  do o <- get;
  match dl_part o with
  | None => ret RYM_CODE_CAN
  | Some p =>
      if len p <? update_file_total_size o then ret RYM_CODE_CAN else
      do r <- on_chips (fal_partition_erase (Some p) 0 (update_file_total_size o));
      ret (if r <? 0 then RYM_CODE_CAN else RYM_CODE_ACK)
  end.

Definition ymodem_on_data (buf : list Z) (len : Z) : M (Ota C) rym_code :=
  do o <- get;
  do r <- on_chips (fal_partition_write (dl_part o) (update_file_cur_size o) buf len);
  if r <? 0 then ret RYM_CODE_CAN else
  run modify (set_cur (u32 (update_file_cur_size o + len)));
  ret RYM_CODE_ACK.

(** The packets of a transfer, each its offset and its bytes. *)
Fixpoint receive_all (ps : list (Z * list Z)) : M (Ota C) unit :=
  match ps with
  | [] => ret tt
  | p :: ps' => run wifi_ota_receive (snd p) (fst p) (zlen (snd p)); receive_all ps'
  end.

Fixpoint data_all (bs : list (list Z)) : M (Ota C) bool :=
  match bs with
  | [] => ret true
  | b :: bs' =>
      do r <- ymodem_on_data b (zlen b);
      match r with RYM_CODE_ACK => data_all bs' | RYM_CODE_CAN => ret false end
  end.
End Operations.

(** ** The image *)

(** The packets that fit are appended, in the order they come. *)
Definition accept (img : list Z) (p : Z * list Z) : list Z :=
  if zlen img =? fst p then img ++ snd p else img.
Definition image (ps : list (Z * list Z)) : list Z := fold_left accept ps [].

Section Image.
Context {C : Type} `{ChipLaws C}.
Implicit Types (o : Ota C).

(** No operation of the chip fails. *)
Definition chip_works : Prop :=
  (forall (c : C) a bs, fst (sfud_write c a bs) = true) /\ (forall (c : C) a n, fst (sfud_erase c a n) = true).

(** The partition holds [img] from its start on, and is blank behind it up to [n]. *)
Definition holds (c : C) (img : list Z) (n : Z) : Prop :=
  (forall i b, img !! i = Some b -> nor c (offset download_part + Z.of_nat i) = b)
  /\ (forall x, zlen img <= x < n -> nor c (offset download_part + x) = 255).

Definition downloading (img : list Z) (n : Z) o : Prop :=
  dl_part o = Some download_part /\ update_file_cur_size o = zlen img /\ holds (chips o) img n.

Lemma download_is_part : is_part download_part.
Proof using. unfold is_part, FAL_PART_TABLE, download_part. set_solver. Qed.

Lemma download_len : len download_part = 524288.
Proof using. reflexivity. Qed.
Lemma download_offset : offset download_part = 1572864.
Proof using. reflexivity. Qed.

Lemma write_extends c img n bs :
  chip_works -> holds c img n -> bytes_ok bs -> zlen img + zlen bs <= n -> n <= len download_part ->
  exists c', fal_partition_write (Some download_part) (zlen img) bs (zlen bs) c = Some (zlen bs, c')
    /\ holds c' (img ++ bs) n.
Proof.
  intros [Hw _] [Himg Hblank] Hbs Hfit Hn. pose proof (zlen_nonneg img). pose proof (zlen_nonneg bs).
  rewrite part_write_spec; [|apply download_is_part | done | done | done | rewrite ?download_offset in *; rewrite ?download_len in *; lia].
  rewrite (proj2 (Z.ltb_ge _ _)) by lia. unfold nor_write, bind, lift_opt.
  rewrite prefix_all, u32_small by (rewrite ?download_offset in *; rewrite ?download_len in *; lia).
  pose proof (sfud_write_ok c (offset download_part + zlen img) bs) as Hok.
  pose proof (sfud_write_frame c (offset download_part + zlen img) bs) as Hfr.
  rewrite Hw in Hok. specialize (Hw c (offset download_part + zlen img) bs).
  destruct (sfud_write c (offset download_part + zlen img) bs) as [ok c']. cbn [fst snd] in *. subst ok.
  exists c'. split; [done|]. split.
  - intros i b Hi. apply lookup_app_Some in Hi as [Hi|[Hge Hi]].
    + rewrite Hfr; [by apply Himg|]. apply lookup_lt_Some in Hi. unfold zlen. lia.
    + replace (offset download_part + Z.of_nat i)
        with (offset download_part + zlen img + Z.of_nat (i - length img)) by (unfold zlen; lia).
      rewrite (Hok _ b) by done.
      replace (offset download_part + zlen img + Z.of_nat (i - length img))
        with (offset download_part + (zlen img + Z.of_nat (i - length img))) by lia.
      pose proof (lookup_lt_Some _ _ _ Hi). rewrite Hblank by (unfold zlen in *; lia).
      apply land_255. by eapply Forall_lookup_1 in Hbs.
  - intros x Hx. rewrite zlen_app in Hx. rewrite Hfr by lia. apply Hblank. lia.
Qed.

Lemma erase_blanks c n :
  chip_works -> 0 <= n <= len download_part ->
  exists c', fal_partition_erase (Some download_part) 0 n c = Some (n, c') /\ holds c' [] n.
Proof.
  intros [_ He] Hn.
  rewrite part_erase_spec; [|apply download_is_part | done | lia | lia | rewrite ?download_offset in *; rewrite ?download_len in *; lia].
  rewrite (proj2 (Z.ltb_ge _ _)) by lia. unfold nor_erase.
  rewrite u32_small by (rewrite ?download_offset in *; rewrite ?download_len in *; lia).
  pose proof (sfud_erase_ok c (offset download_part + 0) n) as Hok. rewrite He in Hok.
  specialize (He c (offset download_part + 0) n).
  destruct (sfud_erase c (offset download_part + 0) n) as [ok c']. cbn [fst snd] in *. subst ok.
  exists c'. split; [done|]. split; [done|]. intros x Hx. rewrite zlen_nil in Hx. apply Hok; [done|]. lia.
Qed.

Lemma begin_spec o n :
  chip_works -> 0 <= n <= len download_part ->
  exists c', wifi_ota_begin n o
    = Some (tt, mkOta c' n (update_file_cur_size o) (Some download_part)) /\ holds c' [] n.
Proof.
  intros Hw Hn. unfold wifi_ota_begin. rewrite u32_small by (rewrite download_len in Hn; lia).
  change (fal_partition_find "download") with (Some download_part).
  unfold bind, modify, get, on_chips, zoom. cbn [dl_part set_dl set_total update_file_total_size chips].
  rewrite (proj2 (Z.ltb_ge _ _)) by lia. cbn [chips].
  destruct (erase_blanks (chips o) n Hw Hn) as (c' & E & Hh). cbn [chips set_dl set_total]. rewrite E. by exists c'.
Qed.

Lemma receive_spec o img n p :
  chip_works -> downloading img n o -> bytes_ok (snd p) -> zlen (accept img p) <= n -> n <= len download_part ->
  exists o', wifi_ota_receive (snd p) (fst p) (zlen (snd p)) o = Some (tt, o') /\ downloading (accept img p) n o'.
Proof.
  intros Hw (Hd & Hc & Hh) Hb Hfit Hn. unfold wifi_ota_receive, accept in *. unfold bind at 1, get. rewrite Hc.
  destruct (Z.eqb_spec (zlen img) (fst p)) as [Heq|Hne]; cbn [negb].
  - rewrite zlen_app in Hfit. pose proof (zlen_nonneg img). pose proof (zlen_nonneg (snd p)).
    destruct (write_extends (chips o) img n (snd p)) as (c' & E & Hh'); [done..|].
    unfold bind, on_chips, zoom. rewrite Hd, E. rewrite (proj2 (Z.ltb_ge _ _)) by lia.
    eexists. split; [reflexivity|]. split; [done|]. cbn. split; [|done].
    rewrite zlen_app. apply u32_small. rewrite download_len in Hn. lia.
  - by exists o.
Qed.

Lemma accept_grows ps img : zlen img <= zlen (fold_left accept ps img).
Proof using.
  revert img. induction ps as [|p ps IH]; intros img; [done|]. cbn [fold_left].
  assert (zlen img <= zlen (accept img p)).
  { unfold accept. pose proof (zlen_nonneg (snd p)). destruct (zlen img =? fst p); rewrite ?zlen_app; lia. }
  specialize (IH (accept img p)). lia.
Qed.

Lemma receive_all_spec ps img o n :
  chip_works -> downloading img n o -> Forall (fun p => bytes_ok (snd p)) ps ->
  zlen (fold_left accept ps img) <= n -> n <= len download_part ->
  exists o', receive_all ps o = Some (tt, o') /\ downloading (fold_left accept ps img) n o'.
Proof.
  intros Hw. revert img o. induction ps as [|p ps IH]; intros img o Hd Hb Hfit Hn; [by exists o|].
  apply Forall_cons_1 in Hb as [Hb Hbs]. cbn [fold_left receive_all] in *.
  destruct (receive_spec o img n p) as (o1 & E1 & Hd1); [done..| |done|].
  { pose proof (accept_grows ps (accept img p)). lia. }
  destruct (IH (accept img p) o1 Hd1 Hbs Hfit Hn) as (o2 & E2 & Hd2). exists o2.
  unfold bind. by rewrite E1.
Qed.

Lemma ignored o off bs n :
  update_file_cur_size o <> off -> wifi_ota_receive bs off n o = Some (tt, o).
Proof using. intros Hne. unfold wifi_ota_receive, bind, get. by rewrite (proj2 (Z.eqb_neq _ _) Hne). Qed.

Lemma receive_all_ignored ps o :
  Forall (fun p => fst p <> update_file_cur_size o) ps -> receive_all ps o = Some (tt, o).
Proof using.
  induction 1 as [|p ps Hp _ IH]; [done|]. cbn [receive_all]. unfold bind. by rewrite ignored.
Qed.
End Image.

(** C24: a download that starts from the beginning writes the image the packets
    spell: repeated and misplaced packets are dropped, those that continue it are
    appended, and behind them the declared size is blank. *)
Theorem download_assembles {C} `{ChipLaws C} (o : Ota C) (n : Z) (ps : list (Z * list Z)) :
  chip_works (C := C) -> update_file_cur_size o = 0 -> 0 <= n <= len download_part ->
  Forall (fun p => bytes_ok (snd p)) ps -> zlen (image ps) <= n ->
  exists o', (run wifi_ota_begin n; receive_all ps) o = Some (tt, o')
    /\ holds (chips o') (image ps) n /\ update_file_cur_size o' = zlen (image ps).
Proof.
  intros Hw Hc Hn Hb Hfit. destruct (begin_spec o n Hw Hn) as (c' & E & Hh).
  destruct (receive_all_spec ps [] (mkOta c' n 0 (Some download_part)) n) as (o' & E' & _ & Hc' & Hh');
    [done | by split_and! | done | done | lia |].
  exists o'. unfold bind. by rewrite E, Hc.
Qed.

(** [wifi_ota_begin] leaves the position where an earlier transfer stopped:
    after an interruption at [k] bytes no packet of a new transfer is written
    until one happens to start at [k]; the partition stays blank. *)
Theorem interrupted_download_stuck {C} `{ChipLaws C} (o : Ota C) (n : Z) (ps : list (Z * list Z)) :
  chip_works (C := C) -> 0 <= n <= len download_part ->
  Forall (fun p => fst p <> update_file_cur_size o) ps ->
  exists o', (run wifi_ota_begin n; receive_all ps) o = Some (tt, o')
    /\ holds (chips o') [] n /\ update_file_cur_size o' = update_file_cur_size o.
Proof.
  intros Hw Hn Hps. destruct (begin_spec o n Hw Hn) as (c' & E & Hh). eexists.
  unfold bind at 1. rewrite E, receive_all_ignored by done. by split_and!.
Qed.

Section Total.
Context {C : Type} `{ChipLaws C}.
Implicit Types (o : Ota C).

(** The position never leaves the partition. *)
Definition placed (c0 : C) o : Prop :=
  dl_part o = Some download_part /\ 0 <= update_file_cur_size o <= len download_part
  /\ forall x, ~ in_part download_part x -> nor (chips o) x = nor c0 x.

Lemma receive_placed c0 o bs off n :
  placed c0 o -> 0 <= n <= zlen bs -> n <= 65536 ->
  wp (wifi_ota_receive bs off n) (fun _ o' => placed c0 o') o.
Proof.
  intros (Hd & Hc & Hx) Hbs Hb. unfold wifi_ota_receive.
  apply wp_bind. unfold wp at 1, get. destruct (negb _); [by apply wp_ret|].
  apply wp_bind. unfold on_chips. apply wp_zoom. rewrite Hd.
  pose proof (part_write_stays download_part (update_file_cur_size o) bs n download_is_part eq_refl
    (proj1 Hc) Hbs) as Hs. rewrite download_len in Hc. specialize (Hs ltac:(lia) (chips o)).
  pose proof (part_write_spec download_part (update_file_cur_size o) bs n (chips o) download_is_part eq_refl
    (proj1 Hc) (proj1 Hbs) ltac:(lia)) as E.
  unfold wp in *. destruct (fal_partition_write _ _ _ _ _) as [[r c']|]; [|done].
  assert (Hx' : forall x, ~ in_part download_part x -> nor c' x = nor c0 x) by (intros; by rewrite Hs, Hx by done).
  destruct (Z.ltb_spec r 0) as [|Hr].
  - split_and!; cbn [ret set_chips update_file_cur_size chips dl_part]; rewrite ?download_len; (done || lia).
  - destruct (Z.ltb_spec (len download_part) (update_file_cur_size o + n)) as [Hlt|Hle].
    + injection E as -> ->. lia.
    + rewrite download_len in *. cbn [modify]. split_and!; [done | | | done];
        cbn [set_cur update_file_cur_size set_chips]; rewrite ?download_len, u32_small by lia; lia.
Qed.

Lemma receive_all_placed c0 ps o :
  placed c0 o -> Forall (fun p => zlen (snd p) <= 65536) ps ->
  wp (receive_all ps) (fun _ o' => placed c0 o') o.
Proof.
  intros Ho Hps. revert o Ho. induction Hps as [|p ps Hp _ IH]; intros o Ho; [by apply wp_ret|].
  cbn [receive_all]. apply wp_bind. eapply wp_conseq; [apply receive_placed; [done | pose proof (zlen_nonneg (snd p)); lia | done]|]. intros u o' Ho'. by apply IH.
Qed.

Lemma begin_placed n o :
  0 <= update_file_cur_size o <= len download_part ->
  wp (wifi_ota_begin n) (fun _ o' => placed (chips o) o') o.
Proof.
  intros Hc. unfold wifi_ota_begin. change (fal_partition_find "download") with (Some download_part).
  apply wp_bind, wp_modify, wp_bind, wp_modify, wp_bind. unfold wp at 1, get.
  cbn [dl_part set_dl set_total update_file_total_size]. pose proof (u32_range n).
  destruct (len download_part <? u32 n); [by apply wp_ret|].
  apply wp_bind. unfold on_chips. apply wp_zoom. cbn [chips set_dl set_total].
  eapply wp_conseq; [apply (part_erase_stays download_part 0 (u32 n) download_is_part eq_refl); lia|].
  intros r c' Hx. apply wp_ret. split_and!; [done | apply Hc.. | exact Hx].
Qed.
End Total.

(** Whatever size is announced and whatever packets follow, working chip or
    not, the download ends without touching the rest of the serial flash: the
    settings partition survives it. *)
Theorem download_isolated {C} `{ChipLaws C} (o : Ota C) (n : Z) (ps : list (Z * list Z)) :
  0 <= update_file_cur_size o <= len download_part -> Forall (fun p => zlen (snd p) <= 65536) ps ->
  exists o', (run wifi_ota_begin n; receive_all ps) o = Some (tt, o')
    /\ 0 <= update_file_cur_size o' <= len download_part
    /\ forall x, ~ in_part download_part x -> nor (chips o') x = nor (chips o) x.
Proof.
  intros Hc Hps.
  assert (Hwp : wp (run wifi_ota_begin n; receive_all ps) (fun _ o' => placed (chips o) o') o).
  { apply wp_bind. eapply wp_conseq; [by apply begin_placed|]. intros u o' Ho'. by apply receive_all_placed. }
  apply wp_Some in Hwp as ([] & o' & E & _ & Hp). by exists o'.
Qed.

(** ** From the console *)

Section Ymodem.
Context {C : Type} `{ChipLaws C}.
Implicit Types (o : Ota C).

Lemma data_spec o img n bs :
  chip_works -> downloading img n o -> bytes_ok bs -> zlen (img ++ bs) <= n -> n <= len download_part ->
  exists o', ymodem_on_data bs (zlen bs) o = Some (RYM_CODE_ACK, o') /\ downloading (img ++ bs) n o'.
Proof.
  intros Hw (Hd & Hc & Hh) Hb Hfit Hn. unfold ymodem_on_data, bind at 1, get. rewrite Hc.
  rewrite zlen_app in Hfit. pose proof (zlen_nonneg img). pose proof (zlen_nonneg bs).
  destruct (write_extends (chips o) img n bs) as (c' & E & Hh'); [done..|].
  unfold bind, on_chips, zoom. rewrite Hd, E. rewrite (proj2 (Z.ltb_ge _ _)) by lia.
  eexists. split; [reflexivity|]. split; [done|]. cbn. split; [|done].
  rewrite zlen_app. apply u32_small. rewrite download_len in Hn. lia.
Qed.

Lemma data_all_spec bs img o n :
  chip_works -> downloading img n o -> Forall bytes_ok bs ->
  zlen (img ++ concat bs) <= n -> n <= len download_part ->
  exists o', data_all bs o = Some (true, o') /\ downloading (img ++ concat bs) n o'.
Proof.
  intros Hw. revert img o. induction bs as [|b bs IH]; intros img o Hd Hb Hfit Hn.
  { exists o. cbn. by rewrite app_nil_r. }
  apply Forall_cons_1 in Hb as [Hb Hbs]. cbn [concat data_all] in *. rewrite app_assoc in *.
  destruct (data_spec o img n b) as (o1 & E1 & Hd1); [done..| |done|].
  { rewrite zlen_app in Hfit. pose proof (zlen_nonneg (concat bs)). lia. }
  destruct (IH (img ++ b) o1 Hd1 Hbs Hfit Hn) as (o2 & E2 & Hd2). exists o2.
  unfold bind. by rewrite E1.
Qed.
End Ymodem.

(** The first packet of a transfer of [n] bytes. *)
Definition ymodem_header (name : list Z) (n : Z) (rest : list Z) : list Z := name ++ 0 :: fmt_ld n ++ 0 :: rest.

Lemma console_begins {C} `{ChipLaws C} (o : Ota C) name n :
  chip_works (C := C) -> Forall (fun b => b <> 0) name -> 0 <= n <= len download_part ->
  exists c', (forall rest, ymodem_on_begin "download" (ymodem_header name n rest) o
                = Some (RYM_CODE_ACK, mkOta c' n 0 (Some download_part))) /\ holds c' [] n.
Proof.
  intros Hw Hname Hn. pose proof download_len as Hlen.
  destruct (erase_blanks (chips o) n Hw Hn) as (c' & E1 & Hh). exists c'. split; [|done]. intros rest.
  unfold ymodem_on_begin, ymodem_header. change (fal_partition_find "download") with (Some download_part).
  unfold bind at 1, lift_opt. rewrite c_string_text by done. unfold bind at 1.
  assert (Ed : drop (length name + 1) (name ++ 0 :: fmt_ld n ++ 0 :: rest) = fmt_ld n ++ 0 :: rest).
  { rewrite <- drop_drop, drop_app_length. done. }
  rewrite Ed, c_string_text; [|unfold fmt_ld; rewrite fmt_d_0d; apply fmt_0d_nonzero].
  rewrite u32_atol_fmt_ld by lia. unfold bind at 1 2 3 4, modify, get.
  cbn [dl_part set_dl set_cur set_total update_file_total_size]. rewrite (proj2 (Z.ltb_ge _ _)) by lia.
  unfold bind, on_chips, zoom. cbn [chips set_total set_cur set_dl]. rewrite E1. by rewrite (proj2 (Z.ltb_ge _ _)) by lia.
Qed.

(** A transfer from the console starts afresh wherever an earlier one
    stopped, is acknowledged packet by packet, and leaves the packets' bytes in
    the partition. *)
Theorem console_download_assembles {C} `{ChipLaws C} (o : Ota C) name n rest (bs : list (list Z)) :
  chip_works (C := C) -> Forall (fun b => b <> 0) name -> 0 <= n <= len download_part ->
  Forall bytes_ok bs -> zlen (concat bs) <= n ->
  exists o1 o2, ymodem_on_begin "download" (ymodem_header name n rest) o = Some (RYM_CODE_ACK, o1)
    /\ data_all bs o1 = Some (true, o2)
    /\ holds (chips o2) (concat bs) n /\ update_file_cur_size o2 = zlen (concat bs).
Proof.
  intros Hw Hname Hn Hb Hfit. destruct (console_begins o name n Hw Hname Hn) as (c' & E & Hh).
  destruct (data_all_spec bs [] (mkOta c' n 0 (Some download_part)) n) as (o2 & E2 & _ & Hc2 & Hh2);
    [done | by split_and! | done | done | lia |].
  by exists (mkOta c' n 0 (Some download_part)), o2.
Qed.

(** ** On the chip in memory *)

Lemma mem_chip_works : chip_works (C := mem_chip).
Proof. split; reflexivity. Qed.

Definition ota0 : Ota mem_chip := mkOta chip0 0 0 None.
Definition ota_stopped : Ota mem_chip := mkOta chip0 6 2 (Some download_part).
Definition demo_packets : list (Z * list Z) := [(0, [7; 8]); (0, [7; 8]); (4, [1]); (2, [9])].

Lemma demo_packets_ok : Forall (fun p => bytes_ok (snd p)) demo_packets.
Proof. repeat constructor; unfold is_byte; cbn; lia. Qed.

Lemma download_assembles_witness :
  exists o', (run wifi_ota_begin 6; receive_all demo_packets) ota0 = Some (tt, o')
    /\ holds (chips o') [7; 8; 9] 6.
Proof.
  destruct (download_assembles ota0 6 demo_packets mem_chip_works eq_refl) as (o' & E & Hh & _).
  - rewrite download_len. lia.
  - exact demo_packets_ok.
  - vm_compute. discriminate.
  - exists o'. split; [exact E | exact Hh].
Defined.

Lemma interrupted_download_stuck_witness :
  exists o', (run wifi_ota_begin 6; receive_all [(0, [7; 8; 9]); (3, [1])]) ota_stopped = Some (tt, o')
    /\ holds (chips o') [] 6.
Proof.
  destruct (interrupted_download_stuck ota_stopped 6 [(0, [7; 8; 9]); (3, [1])] mem_chip_works)
    as (o' & E & Hh & _).
  - rewrite download_len. lia.
  - repeat constructor; discriminate.
  - exists o'. split; [exact E | exact Hh].
Defined.

Lemma download_isolated_witness :
  exists o', (run wifi_ota_begin 900000; receive_all demo_packets) ota_stopped = Some (tt, o')
    /\ nor (chips o') 5 = nor chip0 5.
Proof.
  destruct (download_isolated ota_stopped 900000 demo_packets) as (o' & E & _ & Hx).
  - rewrite download_len. cbn. lia.
  - repeat constructor; vm_compute; discriminate.
  - exists o'. split; [exact E|]. apply (Hx 5). unfold in_part. rewrite download_offset. lia.
Defined.

Lemma console_download_assembles_witness :
  exists o1 o2, ymodem_on_begin "download" (ymodem_header (str "rt.bin") 6 []) ota_stopped = Some (RYM_CODE_ACK, o1)
    /\ data_all [[7; 8]; [9]] o1 = Some (true, o2) /\ holds (chips o2) [7; 8; 9] 6.
Proof.
  destruct (console_download_assembles ota_stopped (str "rt.bin") 6 [] [[7; 8]; [9]] mem_chip_works)
    as (o1 & o2 & E1 & E2 & Hh & _).
  - repeat constructor; discriminate.
  - rewrite download_len. lia.
  - repeat constructor; unfold is_byte; lia.
  - vm_compute. discriminate.
  - exists o1, o2. split; [exact E1|]. split; [exact E2 | exact Hh].
Defined.
