(* ===== verification/Ymodem.v ===== *)
(** * The ymodem receiver

    The receiving half of [src/rt-thread/components/utilities/ymodem/ymodem.c]: the
    three stages of a transfer, over a line on which bytes arrive in time.  The
    callbacks of the user are functions on a state of their own.  The line: each
    event is the time that passes since the last one and the bytes that then come
    in; the serial driver queues them and releases the semaphore. *)

From Stdlib Require Import String.
From S2P Require Import Prelude.
Open Scope list_scope.

Definition RYM_CODE_NONE : Z := 0.
Definition RYM_CODE_SOH : Z := 1.
Definition RYM_CODE_STX : Z := 2.
Definition RYM_CODE_EOT : Z := 4.
Definition RYM_CODE_ACK : Z := 6.
Definition RYM_CODE_NAK : Z := 21.
Definition RYM_CODE_CAN : Z := 24.
Definition RYM_CODE_C : Z := 67.

Definition RYM_ERR_TMO : Z := 112.
Definition RYM_ERR_CODE : Z := 113.
Definition RYM_ERR_SEQ : Z := 114.
Definition RYM_ERR_CRC : Z := 115.
Definition RYM_ERR_DSZ : Z := 116.
Definition RYM_ERR_CAN : Z := 117.

Definition RYM_WAIT_CHR_TICK : Z := 1000 * 3.
Definition RYM_WAIT_PKG_TICK : Z := 1000 * 3.
Definition RYM_CHD_INTV_TICK : Z := 1000 * 3.
Definition RYM_END_SESSION_SEND_CAN_NUM : nat := 7.

Definition _RYM_SOH_PKG_SZ : Z := 1 + 2 + 128 + 2.
Definition _RYM_STX_PKG_SZ : Z := 1 + 2 + 1024 + 2.

Definition RT_ENOMEM : Z := 5.
Definition RT_SEM_VALUE_MAX : Z := 65535.

(** ** The check sum *)

Fixpoint crc_bits (i : nat) (crc : Z) : Z :=
  match i with
  | O => crc
  | S k => crc_bits k (if Z.land crc 32768 =? 0 then u16 (Z.shiftl crc 1) else u16 (Z.lxor (Z.shiftl crc 1) 4129))
  end.

Definition CRC16 (q : list Z) : Z := fold_left (fun crc b => crc_bits 8 (u16 (Z.lxor crc (Z.shiftl b 8)))) q 0.

(** ** State *)

Inductive rym_stage :=
| RYM_STAGE_NONE | RYM_STAGE_ESTABLISHING | RYM_STAGE_ESTABLISHED
| RYM_STAGE_TRANSMITTING | RYM_STAGE_FINISHING | RYM_STAGE_FINISHED.

#[export] Instance rym_stage_eq_dec : EqDecision rym_stage.
Proof. solve_decision. Defined.

(** [time] counts all ticks since the start, [rt_tick_get] its last 32 bits. *)
Record Rym (W : Type) := mkRym {
  stage : rym_stage; buf : list Z; sem : Z; rxq : list Z; future : list (Z * list Z); time : Z; out : list Z; app : W
}.
Arguments mkRym {W}. Arguments stage {W}. Arguments buf {W}. Arguments sem {W}. Arguments rxq {W}.
Arguments future {W}. Arguments time {W}. Arguments out {W}. Arguments app {W}.

Section Ymodem.
Context {W : Type}.
Implicit Types (s : Rym W).

Definition put_stage v s := mkRym v (buf s) (sem s) (rxq s) (future s) (time s) (out s) (app s).
Definition put_buf v s := mkRym (stage s) v (sem s) (rxq s) (future s) (time s) (out s) (app s).
Definition put_out v s := mkRym (stage s) (buf s) (sem s) (rxq s) (future s) (time s) v (app s).
Definition put_app (v : W) s := mkRym (stage s) (buf s) (sem s) (rxq s) (future s) (time s) (out s) v.
Definition put_line v q f t s := mkRym (stage s) (buf s) v q f t (out s) (app s).

Abbreviation RM := (M (Rym W)).

(** ** The line *)

(** What comes in within [t] ticks: the events, the bytes, what is still to come. *)
Fixpoint arrive (t : Z) (f : list (Z * list Z)) : Z * list Z * list (Z * list Z) :=
  match f with
  | [] => (0, [], [])
  | (d, bs) :: f' =>
      if d <=? t then let '(k, q, r) := arrive (t - d) f' in (1 + k, bs ++ q, r)
      else (0, [], (d - t, bs) :: f')
  end.

Definition elapse (t : Z) : RM unit :=
  modify (fun s => let '(k, q, r) := arrive t (future s) in
                   put_line (Z.min RT_SEM_VALUE_MAX (sem s + k)) (rxq s ++ q) r (time s + t) s).

Definition rt_tick_get : RM Z := gets (fun s => u32 (time s)).
Definition rt_thread_mdelay (ms : Z) : RM unit := elapse ms.

(** Taking the semaphore, or [false] when the time is over. *)
Definition rt_sem_take (timeout : Z) : RM bool :=
  do s <- get;
  if 0 <? sem s then run modify (put_line (sem s - 1) (rxq s) (future s) (time s)); ret true else
  match future s with
  | (d, bs) :: f =>
      if d <=? timeout then run modify (put_line 0 (rxq s ++ bs) f (time s + d)); ret true
      else run elapse timeout; ret false
  | [] => run elapse timeout; ret false
  end.

(** Reading up to [n] bytes to index [i] of the buffer, as many as are there. *)
Definition rt_device_read (i n : Z) : RM Z :=
  do s <- get;
  let q := take (Z.to_nat n) (rxq s) in
  if (0 <=? i) && (i + zlen q <=? zlen (buf s)) then
    run modify (put_line (sem s) (drop (Z.to_nat n) (rxq s)) (future s) (time s));
    run modify (put_buf (take (Z.to_nat i) (buf s) ++ q ++ drop (Z.to_nat (i + zlen q)) (buf s)));
    ret (zlen q)
  else fault.

Definition _rym_putchar (code : Z) : RM unit := modify (fun s => put_out (out s ++ [u8 code]) s).

Definition at_buf (i : Z) : RM Z := rd buf i.

(** The waits that can bring something: the semaphore's count and the events. *)
Definition waits s : nat := S (Z.to_nat (sem s) + length (future s)).

Fixpoint code_loop (fuel : nat) (timeout : Z) : RM Z :=
  match fuel with
  | O => fault
  | S k =>
      do ok <- rt_sem_take timeout;
      if negb ok then ret RYM_CODE_NONE else
      do rsz <- rt_device_read 0 1;
      if rsz =? 1 then at_buf 0 else code_loop k timeout
  end.

Definition _rym_read_code (timeout : Z) : RM Z :=
  do rsz <- rt_device_read 0 1;
  if rsz =? 1 then at_buf 0 else
  do n <- gets waits; code_loop n timeout.

Fixpoint data_loop (fuel : nat) (len readlen : Z) : RM Z :=
  match fuel with
  | O => fault
  | S k =>
      do n <- rt_device_read (1 + readlen) (len - readlen);
      let readlen := readlen + n in
      if len <=? readlen then ret readlen else
      do ok <- rt_sem_take RYM_WAIT_CHR_TICK;
      if ok then data_loop k len readlen else ret readlen
  end.

Definition _rym_read_data (len : Z) : RM Z := do n <- gets waits; data_loop n len 0.

(** ** The stages *)

(** The check sum in the two bytes at [i], high byte first. *)
Definition crc_at (i : Z) : RM Z :=
  do h <- at_buf i; do l <- at_buf (i + 1); ret (Z.lor (u16 (Z.shiftl h 8)) l).

Definition data_of (n : Z) s : option (list Z) :=
  if 3 + n <=? zlen (buf s) then Some (take (Z.to_nat n) (drop 3 (buf s))) else None.

Definition CRC16_buf (n : Z) : RM Z := do s <- get; do d <- lift_opt (data_of n s); ret (CRC16 d).

(** A callback gets the buffer from the data on, and the length of the data. *)
Definition rym_callback : Type := list Z -> Z -> M W Z.
Definition on_app {A} (m : M W A) : RM A := zoom app put_app m.
Definition call_back (cb : rym_callback) (len : Z) : RM Z := do s <- get; on_app (cb (drop 3 (buf s)) len).

Context (on_begin on_data on_end : option rym_callback).

(** Calling C until a packet begins: the size of the packet. *)
Fixpoint handshake_loop (n : nat) : RM (option Z) :=
  match n with
  | O => ret None
  | S k =>
      run _rym_putchar RYM_CODE_C;
      do code <- _rym_read_code RYM_CHD_INTV_TICK;
      if code =? RYM_CODE_SOH then ret (Some _RYM_SOH_PKG_SZ)
      else if code =? RYM_CODE_STX then ret (Some _RYM_STX_PKG_SZ)
      else handshake_loop k
  end.

(** The first packet, until it is complete or 100 ms are over. *)
Fixpoint first_loop (fuel : nat) (tick data_sz i : Z) : RM Z :=
  do now <- rt_tick_get;
  if (now <=? u32 (tick + 100)) && (i <? data_sz - 1) then
    match fuel with
    | O => fault
    | S k =>
        do n <- _rym_read_data (data_sz - 1);
        run rt_thread_mdelay 5;
        first_loop k tick data_sz (i + n)
    end
  else ret i.

Definition FIRST_FUEL : nat := 2.

Definition _rym_do_handshake (tm_sec : Z) : RM Z :=
  run modify (put_stage RYM_STAGE_ESTABLISHING);
  do r <- handshake_loop (Z.to_nat tm_sec);
  match r with
  | None => ret (- RYM_ERR_TMO)
  | Some data_sz =>
      do tick <- rt_tick_get;
      do i <- first_loop FIRST_FUEL tick data_sz 0;
      if negb (i =? data_sz - 1) then ret (- RYM_ERR_DSZ) else
      do b1 <- at_buf 1; do b2 <- at_buf 2;
      if negb (b1 =? 0) || negb (b2 =? 255) then ret (- RYM_ERR_SEQ) else
      do recv_crc <- crc_at (data_sz - 2);
      do cal_crc <- CRC16_buf (data_sz - 5);
      if negb (recv_crc =? cal_crc) then ret (- RYM_ERR_CRC) else
      match on_begin with
      | Some cb => do c <- call_back cb (data_sz - 5); ret (if c =? RYM_CODE_ACK then 0 else - RYM_ERR_CAN)
      | None => ret 0
      end
  end.

(** The error and the code. *)
Definition _rym_trans_data (data_sz code : Z) : RM (Z * Z) :=
  let tsz := 2 + data_sz + 2 in
  do i <- _rym_read_data tsz;
  if negb (i =? tsz) then ret (- RYM_ERR_DSZ, code) else
  do b1 <- at_buf 1; do b2 <- at_buf 2;
  if negb (b1 + b2 =? 255) then ret (- RYM_ERR_SEQ, code) else
  do st <- gets stage;
  if bool_decide (st = RYM_STAGE_ESTABLISHED) && (b1 =? 0) then ret (0, RYM_CODE_NONE) else
  run modify (put_stage RYM_STAGE_TRANSMITTING);
  do recv_crc <- crc_at (tsz - 1);
  do cal_crc <- CRC16_buf data_sz;
  if negb (recv_crc =? cal_crc) then ret (- RYM_ERR_CRC, code) else
  match on_data with
  | Some cb => do c <- call_back cb data_sz; ret (0, c)
  | None => ret (0, RYM_CODE_ACK)
  end.

Fixpoint cancel (n : nat) : RM unit :=
  match n with O => ret tt | S k => run _rym_putchar RYM_CODE_CAN; cancel k end.

(** The bytes that can still be read. *)
Definition bytes_left s : nat := length (rxq s) + length (concat (map snd (future s))).

Fixpoint trans_loop (fuel : nat) : RM Z :=
  match fuel with
  | O => fault
  | S k =>
      do code <- _rym_read_code RYM_WAIT_PKG_TICK;
      if code =? RYM_CODE_EOT then ret 0 else
      if negb ((code =? RYM_CODE_SOH) || (code =? RYM_CODE_STX)) then ret (- RYM_ERR_CODE) else
      do r <- _rym_trans_data (if code =? RYM_CODE_SOH then 128 else 1024) code;
      let '(err, code) := r in
      if negb (err =? 0) then ret err else
      if code =? RYM_CODE_CAN then run cancel RYM_END_SESSION_SEND_CAN_NUM; ret (- RYM_ERR_CAN) else
      run (if code =? RYM_CODE_ACK then _rym_putchar RYM_CODE_ACK else ret tt);
      trans_loop k
  end.

Definition _rym_do_trans : RM Z :=
  run _rym_putchar RYM_CODE_ACK;
  run _rym_putchar RYM_CODE_C;
  run modify (put_stage RYM_STAGE_ESTABLISHED);
  do n <- gets bytes_left; trans_loop (S n).

(** The second EOT and the packet behind it. *)
Definition fin_packet : RM Z :=
  run _rym_putchar RYM_CODE_NAK;
  do code <- _rym_read_code RYM_WAIT_PKG_TICK;
  if negb (code =? RYM_CODE_EOT) then ret (- RYM_ERR_CODE) else
  run _rym_putchar RYM_CODE_ACK;
  run _rym_putchar RYM_CODE_C;
  do code <- _rym_read_code RYM_WAIT_PKG_TICK;
  if negb ((code =? RYM_CODE_SOH) || (code =? RYM_CODE_STX)) then ret (- RYM_ERR_CODE) else
  let data_sz := if code =? RYM_CODE_SOH then _RYM_SOH_PKG_SZ else _RYM_STX_PKG_SZ in
  do i <- _rym_read_data (_RYM_SOH_PKG_SZ - 1);
  if negb (i =? _RYM_SOH_PKG_SZ - 1) then ret (- RYM_ERR_DSZ) else
  do b1 <- at_buf 1; do b2 <- at_buf 2;
  if negb (b1 =? 0) || negb (b2 =? 255) then ret (- RYM_ERR_SEQ) else
  do recv_crc <- crc_at (_RYM_SOH_PKG_SZ - 2);
  do cal_crc <- CRC16_buf (_RYM_SOH_PKG_SZ - 5);
  if negb (recv_crc =? cal_crc) then ret (- RYM_ERR_CRC) else
  do b3 <- at_buf 3;
  if negb (b3 =? 0) then
    match on_begin with
    | Some cb => do c <- call_back cb (data_sz - 5); ret (if c =? RYM_CODE_ACK then 0 else - RYM_ERR_CAN)
    | None => ret 0
    end
  else
    run modify (put_stage RYM_STAGE_FINISHED);
    run _rym_putchar RYM_CODE_ACK;
    ret 0.

Definition _rym_do_fin : RM Z :=
  run modify (put_stage RYM_STAGE_FINISHING);
  run (match on_end with Some cb => run call_back cb 128; ret tt | None => ret tt end);
  fin_packet.

(** File after file. *)
Fixpoint files_loop (fuel : nat) : RM Z :=
  match fuel with
  | O => fault
  | S k =>
      do err <- _rym_do_trans;
      if negb (err =? 0) then ret err else
      do err <- _rym_do_fin;
      if negb (err =? 0) then ret err else
      do st <- gets stage;
      if bool_decide (st = RYM_STAGE_FINISHED) then ret err else files_loop k
  end.

(** [mem] is what [rt_malloc] returns, its content undefined. *)
Definition _rym_do_recv (mem : option (list Z)) (handshake_timeout : Z) : RM Z :=
  run modify (put_stage RYM_STAGE_NONE);
  match mem with
  | None => ret (- RT_ENOMEM)
  | Some junk =>
      run modify (put_buf junk);
      do err <- _rym_do_handshake handshake_timeout;
      if negb (err =? 0) then ret err else
      do n <- gets bytes_left; files_loop (S n)
  end.

(** [open] is the result of opening the device, whose queue is then [rxq]. *)
Definition rym_recv_on_device (open : Z) (mem : option (list Z)) (handshake_timeout : Z) : RM Z :=
  run modify (fun s => put_line 0 (rxq s) (future s) (time s) s);
  if negb (open =? 0) then ret open else _rym_do_recv mem handshake_timeout.
End Ymodem.
