(* ===== verification/YmodemSpec.v ===== *)
(** * A transfer by ymodem

    The receiver against the bytes a sender puts on the line: whatever comes in it
    ends, and a whole transfer, however its bytes arrive, gives the user the header
    and the blocks in their order. *)

From Stdlib Require Import String.
From S2P Require Import Prelude Ymodem.
Open Scope list_scope.

(** ** The line *)

Definition gaps (f : list (Z * list Z)) : Z := foldr (fun e t => fst e + t) 0 f.

Lemma arrive_spec f : forall t k q r, 0 <= t -> Forall (fun e => 0 <= fst e) f -> arrive t f = (k, q, r) ->
  concat (map snd f) = q ++ concat (map snd r) /\ 0 <= k /\ k + zlen r = zlen f /\ Forall (fun e => 0 <= fst e) r
  /\ t + gaps r <= t + gaps f /\ (forall b, Forall (fun e => fst e <= b) f -> Forall (fun e => fst e <= b) r) /\ (r = [] \/ t + gaps r = gaps f).
Proof.
  induction f as [|[d bs] f IH]; intros t k q r Ht Hf E; cbn [arrive] in E.
  - injection E as <- <- <-. cbn. split_and!; try done; lia || by left.
  - apply Forall_cons in Hf as [Hd Hf]. cbn [fst] in Hd. destruct (Z.leb_spec d t).
    + destruct (arrive (t - d) f) as [[k1 q1] r1] eqn:E1. injection E as <- <- <-.
      destruct (IH (t - d) k1 q1 r1 ltac:(lia) Hf E1) as (H1 & H2 & H3 & H4 & H5 & H6 & H7). cbn [map concat gaps foldr fst snd].
      fold (gaps f). rewrite !zlen_cons, <- app_assoc, H1. split_and!; try done; try lia.
      * intros b [_ Hb]%Forall_cons. by apply H6.
      * destruct H7 as [|H7]; [by left | right; lia].
    + injection E as <- <- <-. cbn [map concat gaps foldr fst snd]. fold (gaps f). rewrite !zlen_cons.
      split; [done|]. split; [lia|]. split; [lia|]. split; [apply Forall_cons; split; [cbn; lia | done]|]. split; [lia|].
      split; [|right; lia]. intros b [Hb Hbs]%Forall_cons. apply Forall_cons. cbn in *. split; [lia | done].
Qed.

Lemma gaps_cons d bs f : gaps ((d, bs) :: f) = d + gaps f.
Proof. done. Qed.
Arguments gaps : simpl never.

Section Line.
Context {W : Type}.
Implicit Types (s : Rym W) (bs : list Z).

(** The bytes that are there or will come are [bs]. *)
Record line s bs : Prop := {
  ln_bytes : rxq s ++ concat (map snd (future s)) = bs;
  ln_gaps : Forall (fun e => 0 <= fst e) (future s);
  ln_buf : zlen (buf s) = 1029;
  ln_sem : 0 <= sem s
}.

(** No gap is longer than the receiver waits. *)
Definition brisk s : Prop := Forall (fun e => fst e <= 3000) (future s).

(** The time of the last event. *)
Definition horizon s : Z := time s + gaps (future s).

(** Only the line, the buffer and the time, by at most [t] behind the last event. *)
Record kept (t : Z) s s' : Prop := {
  kp_stage : stage s' = stage s; kp_out : out s' = out s; kp_app : app s' = app s;
  kp_time : time s <= time s'; kp_horizon : horizon s' <= horizon s + t; kp_brisk : brisk s -> brisk s'
}.

Lemma gaps_nonneg f : Forall (fun e => 0 <= fst e) f -> 0 <= gaps f.
Proof using. induction 1 as [|[d b] f He _ IH]; [done|]. rewrite gaps_cons. cbn in He. lia. Qed.

Lemma kept_trans t1 t2 s1 s2 s3 : kept t1 s1 s2 -> kept t2 s2 s3 -> kept (t1 + t2) s1 s3.
Proof. intros [A1 A2 A3 A4 A5 A6] [B1 B2 B3 B4 B5 B6]. split; try congruence; try lia. auto. Qed.

Lemma kept_more t1 t2 s1 s2 : t1 <= t2 -> kept t1 s1 s2 -> kept t2 s1 s2.
Proof. intros Ht [A1 A2 A3 A4 A5 A6]. split; try done. lia. Qed.

Lemma kept_refl s : kept 0 s s.
Proof. split; try done; lia. Qed.

Lemma wp_elapse t s bs (Q : unit -> Rym W -> Prop) :
  0 <= t -> line s bs ->
  (forall s', line s' bs -> kept t s s' -> time s' = time s + t -> buf s' = buf s -> Q tt s') -> wp (elapse t) Q s.
Proof.
  intros Ht [L1 L2 L3 L4] HQ. apply wp_modify. destruct (arrive t (future s)) as [[k q] r] eqn:E.
  destruct (arrive_spec _ _ _ _ _ Ht L2 E) as (H1 & H2 & H3 & H4 & H5 & H6 & H7). apply HQ; try done.
  - split; cbn; [by rewrite <- app_assoc, <- H1 | done | done | unfold RT_SEM_VALUE_MAX; lia].
  - split; try done; cbn; [lia | unfold horizon; cbn; lia |]. unfold brisk. cbn. apply H6.
Qed.

Lemma wp_take_sem s bs (Q : bool -> Rym W -> Prop) :
  line s bs ->
  (forall s', line s' bs -> kept 0 s s' -> (waits s' < waits s)%nat -> buf s' = buf s -> Q true s') ->
  (forall s', line s' bs -> kept 3000 s s' -> time s' = time s + 3000 -> buf s' = buf s -> ~ (brisk s /\ future s <> []) -> Q false s') ->
  wp (rt_sem_take RYM_WAIT_CHR_TICK) Q s.
Proof.
  intros L HQ1 HQ2. apply wp_bind. unfold wp at 1, get. destruct L as [L1 L2 L3 L4]. destruct (Z.ltb_spec 0 (sem s)) as [Hs|Hs].
  - apply wp_bind, wp_modify, wp_ret, HQ1; [split; try done; cbn; lia | | unfold waits; cbn; lia | done].
    split; try done; cbn; try lia. unfold horizon. cbn. lia.
  - destruct (future s) as [|[d b] f] eqn:Ef.
    + apply wp_bind, (wp_elapse _ s bs); [done | by split; rewrite ?Ef |]. intros s' L' K' T' B'. apply wp_ret, HQ2; try done. tauto.
    + apply Forall_cons in L2 as [Hd Hf]. cbn in Hd. unfold RYM_WAIT_CHR_TICK. destruct (Z.leb_spec d (1000 * 3)) as [Hle|Hgt].
      * apply wp_bind, wp_modify, wp_ret, HQ1; [| | unfold waits; rewrite Ef; cbn; lia | done].
        -- split; cbn; try done. rewrite <- L1. cbn. by rewrite app_assoc.
        -- split; try done; cbn; try lia; [unfold horizon; rewrite Ef; cbn; rewrite gaps_cons; lia|]. unfold brisk. rewrite Ef. cbn. by intros [_ ?]%Forall_cons.
      * apply wp_bind, (wp_elapse _ s bs); [done | split; rewrite ?Ef; try done; by apply Forall_cons |]. intros s' L' K' T' B'. apply wp_ret, HQ2; try done.
        intros [Hb _]. unfold brisk in Hb. rewrite Ef in Hb. apply Forall_cons in Hb as [Hb _]. cbn in Hb. lia.
Qed.

(** Reading into the buffer. *)
Lemma wp_read i n s bs (Q : Z -> Rym W -> Prop) :
  line s bs -> 0 <= i -> 0 <= n -> i + n <= 1029 ->
  (forall d bs' s', bs = d ++ bs' -> zlen d <= n -> (zlen d < n -> rxq s' = []) -> line s' bs' -> kept 0 s s' -> waits s' = waits s ->
     buf s' = take (Z.to_nat i) (buf s) ++ d ++ drop (Z.to_nat (i + zlen d)) (buf s) -> Q (zlen d) s') ->
  wp (rt_device_read i n) Q s.
Proof.
  intros [L1 L2 L3 L4] Hi Hn Hfit HQ. apply wp_bind. unfold wp at 1, get. cbv zeta.
  set (d := take (Z.to_nat n) (rxq s)). assert (Hd : zlen d <= n) by (unfold d, zlen; rewrite length_take; lia).
  pose proof (zlen_nonneg d) as Hd0. rewrite (proj2 (Z.leb_le 0 i)), (proj2 (Z.leb_le (i + zlen d) (zlen (buf s)))) by lia. cbn [andb].
  apply wp_bind, wp_modify, wp_bind, wp_modify, wp_ret. eapply (HQ d (drop (Z.to_nat n) (rxq s) ++ concat (map snd (future s)))); try done.
  - unfold d. by rewrite <- L1, app_assoc, take_drop.
  - cbn. intros Hlt. apply nil_length_inv. unfold d, zlen in Hlt. rewrite length_take in Hlt. rewrite length_drop. lia.
  - split; try done. cbn. unfold zlen in *. rewrite !length_app, length_take, length_drop. lia.
  - split; try done; cbn; try lia. unfold horizon. cbn. lia.
Qed.
(** *** A code *)

Lemma at_buf_0 b r s (Q : Z -> Rym W -> Prop) : buf s = b :: r -> Q b s -> wp (at_buf 0) Q s.
Proof using. intros E HQ. unfold wp, at_buf, rd. by rewrite E. Qed.

(** One byte, or none is there. *)
Lemma wp_read_code1 s bs (k : M (Rym W) Z) (Q : Z -> Rym W -> Prop) :
  line s bs ->
  (forall b bs' s', bs = b :: bs' -> line s' bs' -> kept 0 s s' -> buf s' = b :: drop 1 (buf s) -> Q b s') ->
  (forall s', line s' bs -> kept 0 s s' -> waits s' = waits s -> rxq s' = [] -> buf s' = buf s -> wp k Q s') ->
  wp (do rsz <- rt_device_read 0 1; if rsz =? 1 then at_buf 0 else k) Q s.
Proof.
  intros L HQ1 HQ2. apply wp_bind, (wp_read 0 1 s bs); [done | lia.. |]. intros d bs' s' E Hd Hr L' K' Hw B.
  destruct d as [|b [|c d]]; rewrite ?zlen_nil, ?zlen_cons in *.
  - change (0 =? 1) with false. cbv iota. apply HQ2; try done; [by subst | apply Hr; lia].
  - change (1 + 0 =? 1) with true. cbv iota. eapply at_buf_0; [exact B|]. by apply (HQ1 b bs').
  - pose proof (zlen_nonneg d). lia.
Qed.

Lemma wp_code_loop fuel : forall s bs (Q : Z -> Rym W -> Prop),
  line s bs -> rxq s = [] -> (waits s <= fuel)%nat ->
  (forall b bs' s', bs = b :: bs' -> line s' bs' -> kept 0 s s' -> buf s' = b :: drop 1 (buf s) -> Q b s') ->
  (forall s', line s' bs -> kept 3000 s s' -> buf s' = buf s -> ~ (brisk s /\ bs <> []) -> Q RYM_CODE_NONE s') ->
  wp (code_loop fuel RYM_WAIT_PKG_TICK) Q s.
Proof.
  induction fuel as [|fuel IH]; intros s bs Q L Hr Hf HQ1 HQ2; [unfold waits in Hf; lia|]. cbn [code_loop].
  apply wp_bind, (wp_take_sem s bs); [done | |].
  - intros s1 L1 K1 Hw1 B1. cbn [negb]. apply (wp_read_code1 s1 bs); [done | |].
    + intros b bs' s2 E L2 K2 B2. apply (HQ1 b bs'); [done | done | exact (kept_trans 0 0 _ _ _ K1 K2) | by rewrite B2, B1].
    + intros s2 L2 K2 Hw2 Hr2 B2. pose proof (kept_trans 0 0 _ _ _ K1 K2) as K. apply (IH s2 bs); [done | done | lia | |].
      * intros b bs' s3 E L3 K3 B3. apply (HQ1 b bs'); [done | done | exact (kept_trans 0 0 _ _ _ K K3) | by rewrite B3, B2, B1].
      * intros s3 L3 K3 B3 Hb. apply HQ2; [done | exact (kept_trans 0 3000 _ _ _ K K3) | by rewrite B3, B2, B1 |].
        intros [H1 H2]. apply Hb. split; [by apply (kp_brisk _ _ _ K) | done].
  - intros s1 L1 K1 Ht B1 Hb. cbn [negb]. apply wp_ret, HQ2; [done.. |]. intros [H1 H2]. apply Hb. split; [done|].
    intros Hf0. apply H2. rewrite <- (ln_bytes _ _ L), Hr, Hf0. done.
Qed.

(** A code comes, or the time is over. *)
Lemma wp_code s bs (Q : Z -> Rym W -> Prop) :
  line s bs ->
  (forall b bs' s', bs = b :: bs' -> line s' bs' -> kept 0 s s' -> buf s' = b :: drop 1 (buf s) -> Q b s') ->
  (forall s', line s' bs -> kept 3000 s s' -> buf s' = buf s -> ~ (brisk s /\ bs <> []) -> Q RYM_CODE_NONE s') ->
  wp (_rym_read_code RYM_WAIT_PKG_TICK) Q s.
Proof.
  intros L HQ1 HQ2. apply (wp_read_code1 s bs); [done | exact HQ1 |]. intros s1 L1 K1 Hw1 Hr1 B1.
  apply wp_bind, wp_gets, (wp_code_loop _ s1 bs); [done | done | done | |].
  - intros b bs' s2 E L2 K2 B2. apply (HQ1 b bs'); [done | done | exact (kept_trans 0 0 _ _ _ K1 K2) | by rewrite B2, B1].
  - intros s2 L2 K2 B2 Hb. apply HQ2; [done | exact (kept_trans 0 3000 _ _ _ K1 K2) | by rewrite B2 |].
    intros [H1 H2]. apply Hb. split; [by apply (kp_brisk _ _ _ K1) | done].
Qed.

(** *** Data *)

Lemma wp_data_loop fuel len b0 : forall s d1 bs rest (Q : Z -> Rym W -> Prop),
  line s bs -> buf s = b0 :: d1 ++ rest -> 0 <= zlen d1 <= len -> len <= 1028 -> (waits s <= fuel)%nat ->
  (forall d bs' s' t, bs = d ++ bs' -> zlen d1 + zlen d <= len -> line s' bs' -> kept t s s' -> (t = 0 \/ t = 3000) ->
     buf s' = b0 :: d1 ++ d ++ drop (length d) rest ->
     (zlen d1 + zlen d < len -> t = 3000 /\ time s + 3000 <= time s' /\ ~ (brisk s /\ len <= zlen d1 + zlen bs)) ->
     (zlen d1 + zlen d = len -> t = 0) -> Q (zlen d1 + zlen d) s') ->
  wp (data_loop fuel len (zlen d1)) Q s.
Proof.
  induction fuel as [|fuel IH]; intros s d1 bs rest Q L B Hd1 Hlen Hf HQ; [unfold waits in Hf; lia|]. cbn [data_loop].
  apply wp_bind, (wp_read _ _ s bs); [done | lia | lia | lia |]. intros d bs' s1 E Hd Hr L1 K1 Hw1 B1. cbv zeta.
  assert (B1' : buf s1 = b0 :: (d1 ++ d) ++ drop (length d) rest).
  { rewrite B1, B. replace (Z.to_nat (1 + zlen d1)) with (S (length d1)) by (unfold zlen; lia).
    replace (Z.to_nat (1 + zlen d1 + zlen d)) with (S (length d1 + length d)) by (unfold zlen; lia). cbn [take drop app].
    rewrite take_app_length, <- drop_drop, drop_app_length, <- !app_assoc. done. }
  destruct (Z.leb_spec len (zlen d1 + zlen d)) as [Hle|Hgt].
  - apply wp_ret, (HQ d bs' s1 0); [done | lia | done | done | by left | rewrite B1'; by rewrite <- app_assoc | lia | done].
  - apply wp_bind, (wp_take_sem s1 bs'); [done | |].
    + intros s2 L2 K2 Hw2 B2. pose proof (kept_trans 0 0 _ _ _ K1 K2) as K. rewrite <- zlen_app.
      apply (IH s2 (d1 ++ d) bs' (drop (length d) rest)); [done | by rewrite B2 | rewrite zlen_app; pose proof (zlen_nonneg d); lia | done | lia |].
      intros d' bs2 s3 t E3 Hl3 L3 K3 Ht B3 Hs3 Hz3. rewrite zlen_app in *.
      replace (zlen d1 + zlen d + zlen d') with (zlen d1 + zlen (d ++ d')) in * by (rewrite zlen_app; lia).
      apply (HQ (d ++ d') bs2 s3 t); [by rewrite <- app_assoc, <- E3 | done | done | exact (kept_trans 0 t _ _ _ K K3) | done | | | done].
      * rewrite B3, drop_drop, length_app, <- !app_assoc. done.
      * intros Hlt. destruct (Hs3 Hlt) as (-> & H2 & H3). pose proof (kp_time _ _ _ K). split; [done|]. split; [lia|].
        intros [Hb1 Hb2]. apply H3. split; [by apply (kp_brisk _ _ _ K)|]. rewrite E, zlen_app in Hb2. lia.
    + intros s2 L2 K2 Ht B2 Hb. pose proof (kept_trans 0 3000 _ _ _ K1 K2) as K. pose proof (kp_time _ _ _ K1).
      apply wp_ret, (HQ d bs' s2 3000); [done | lia | done | done | by right | by rewrite B2, B1', <- app_assoc | | lia].
      intros _. split; [done|]. split; [lia|]. intros [Hb1 Hb2]. apply Hb. split; [by apply (kp_brisk _ _ _ K1)|].
      intros Hf0. pose proof (ln_bytes _ _ L1) as Hl. rewrite Hr, Hf0 in Hl by lia. cbn in Hl. subst bs'.
      rewrite E, app_nil_r in Hb2. lia.
Qed.

(** What was read is in the buffer; it is less only when the time is over. *)
Lemma wp_data len s bs (Q : Z -> Rym W -> Prop) :
  line s bs -> 0 <= len <= 1028 ->
  (forall d bs' s' t, bs = d ++ bs' -> zlen d <= len -> line s' bs' -> kept t s s' -> (t = 0 \/ t = 3000) ->
     drop 1 (buf s') = d ++ drop (1 + length d) (buf s) ->
     (zlen d < len -> time s + 3000 <= time s' /\ ~ (brisk s /\ len <= zlen bs)) -> (zlen d = len -> t = 0) -> Q (zlen d) s') ->
  wp (_rym_read_data len) Q s.
Proof.
  intros L Hlen HQ. pose proof (ln_buf _ _ L) as Hb. destruct (buf s) as [|b0 rest] eqn:E; [done|].
  apply wp_bind, wp_gets. change 0 with (zlen (@nil Z)). apply (wp_data_loop _ len b0 s [] bs rest); [done | done | split; [done | apply Hlen] | lia | done |].
  intros d bs' s' t E1 Hd L' K' Ht B' Hs Hz. change (zlen (@nil Z) + zlen d) with (zlen d) in *.
  apply (HQ d bs' s' t); try done; [rewrite B'; done |]. intros Hlt. by destruct (Hs Hlt) as (_ & H2 & H3).
Qed.
(** *** In time *)

Lemma wp_code_ok s b bs (Q : Z -> Rym W -> Prop) :
  line s (b :: bs) -> brisk s ->
  (forall s', line s' bs -> kept 0 s s' -> buf s' = b :: drop 1 (buf s) -> Q b s') -> wp (_rym_read_code RYM_WAIT_PKG_TICK) Q s.
Proof.
  intros L Hb HQ. apply (wp_code s (b :: bs)); [done | |].
  - intros b' bs' s' [= <- <-] L' K' B'. by apply HQ.
  - intros s' _ _ _ H. exfalso. by apply H.
Qed.

Lemma wp_data_ok len s d bs (Q : Z -> Rym W -> Prop) :
  line s (d ++ bs) -> brisk s -> zlen d = len -> 0 <= len <= 1028 ->
  (forall s', line s' bs -> kept 0 s s' -> drop 1 (buf s') = d ++ drop (1 + length d) (buf s) -> Q len s') -> wp (_rym_read_data len) Q s.
Proof.
  intros L Hb Hd Hlen HQ. apply (wp_data len s (d ++ bs)); [done | done |].
  intros d' bs' s' t E Hd' L' K' Ht B' Hs Hz. destruct (Z.lt_trichotomy (zlen d') len) as [Hlt|[Heq|Hgt]]; [|clear Hs|lia].
  - destruct (Hs Hlt) as [_ H]. exfalso. apply H. split; [done|]. rewrite zlen_app. pose proof (zlen_nonneg bs). lia.
  - assert (d' = d /\ bs' = bs) as [-> ->].
    { apply app_inj_1; [|done]. unfold zlen in *. lia. }
    rewrite (Hz Heq) in K'. rewrite Heq. by apply HQ.
Qed.
End Line.

(** ** Packets *)

Definition crc_bytes (p : list Z) : list Z := [Z.shiftr (CRC16 p) 8; Z.land (CRC16 p) 255].
Definition packet (code seq : Z) (p : list Z) : list Z := code :: seq :: 255 - seq :: p ++ crc_bytes p.

Lemma crc_bits_range i : forall c, 0 <= c < 65536 -> 0 <= crc_bits i c < 65536.
Proof.
  induction i as [|i IH]; intros c Hc; [done|]. cbn [crc_bits]. apply IH. destruct (_ =? 0); apply u16_range.
Qed.

Lemma CRC16_range p : 0 <= CRC16 p < 65536.
Proof.
  unfold CRC16. enough (H : forall c, 0 <= c < 65536 -> 0 <= fold_left (fun crc b => crc_bits 8 (u16 (Z.lxor crc (Z.shiftl b 8)))) p c < 65536) by (apply H; lia).
  induction p as [|b p IH]; intros c Hc; [done|]. apply IH, crc_bits_range, u16_range.
Qed.

Lemma crc_joins c : 0 <= c < 65536 -> Z.lor (u16 (Z.shiftl (Z.shiftr c 8) 8)) (Z.land c 255) = c.
Proof.
  intros Hc. rewrite u16_small.
  - change 255 with (Z.ones 8). rewrite <- Z.ldiff_ones_r by lia. apply Z.bits_inj'. intros n Hn.
    rewrite Z.lor_spec, Z.ldiff_spec, Z.land_spec. destruct (Z.testbit c n), (Z.testbit (Z.ones 8) n); done.
  - rewrite <- Z.ldiff_ones_r by lia. rewrite Z.ldiff_ones_r, Z.shiftl_mul_pow2, Z.shiftr_div_pow2 by lia.
    pose proof (Z.mul_div_le c (2 ^ 8)). assert (0 <= c / 2 ^ 8) by (apply Z.div_pos; lia). lia.
Qed.

Lemma lookup_behind {A} (l r : list A) k : (l ++ r) !! (length l + k)%nat = r !! k.
Proof. rewrite lookup_app_r by lia. f_equal. lia. Qed.

Section Packets.
Context {W : Type}.
Implicit Types (s : Rym W) (p : list Z).

(** The packet is in the buffer. *)
Definition holds_packet (seq : Z) p s : Prop := exists code rest, buf s = packet code seq p ++ rest.

Lemma packet_read seq p s bs rest :
  line s bs -> drop 1 (buf s) = (seq :: 255 - seq :: p ++ crc_bytes p) ++ rest -> holds_packet seq p s.
Proof. intros L B. pose proof (ln_buf _ _ L) as Hb. destruct (buf s) as [|c r] eqn:E; [done|]. change (r = (seq :: 255 - seq :: p ++ crc_bytes p) ++ rest) in B.
  exists c, rest. rewrite E, B. done.
Qed.

Context (seq : Z) (p : list Z).
Implicit Types (Q : Z -> Rym W -> Prop).

Lemma wp_at1 Q s : holds_packet seq p s -> Q seq s -> wp (at_buf 1) Q s.
Proof using. intros (code & r & E) HQ. unfold wp, at_buf, rd. by rewrite E. Qed.
Lemma wp_at2 Q s : holds_packet seq p s -> Q (255 - seq) s -> wp (at_buf 2) Q s.
Proof using. intros (code & r & E) HQ. unfold wp, at_buf, rd. by rewrite E. Qed.

Lemma wp_crc_at n Q s : holds_packet seq p s -> n = zlen p + 3 -> Q (CRC16 p) s -> wp (crc_at n) Q s.
Proof.
  intros (code & r & E) -> HQ. pose proof (zlen_nonneg p). unfold crc_at.
  assert (E1 : aget (buf s) (zlen p + 3) = Some (Z.shiftr (CRC16 p) 8)).
  { rewrite aget_lookup by lia. rewrite E. unfold packet, zlen. replace (Z.to_nat _) with (S (S (S (length p + 0)))) by lia.
    cbn [lookup list_lookup app]. change (((p ++ crc_bytes p) ++ r) !! (length p + 0)%nat = Some (Z.shiftr (CRC16 p) 8)). rewrite <- app_assoc. by rewrite lookup_behind. }
  assert (E2 : aget (buf s) (zlen p + 3 + 1) = Some (Z.land (CRC16 p) 255)).
  { rewrite aget_lookup by lia. rewrite E. unfold packet, zlen. replace (Z.to_nat _) with (S (S (S (length p + 1)))) by lia.
    change (((p ++ crc_bytes p) ++ r) !! (length p + 1)%nat = Some (Z.land (CRC16 p) 255)). rewrite <- app_assoc. by rewrite lookup_behind. }
  apply wp_bind. unfold wp at 1, at_buf, rd. rewrite E1. apply wp_bind. unfold wp at 1. rewrite E2.
  apply wp_ret. rewrite crc_joins by apply CRC16_range. exact HQ.
Qed.

Lemma wp_crc_buf n Q s : holds_packet seq p s -> n = zlen p -> Q (CRC16 p) s -> wp (CRC16_buf n) Q s.
Proof.
  intros (code & r & E) -> HQ. apply wp_bind. unfold wp at 1, get. apply wp_bind. eapply wp_lift_opt; [|by apply wp_ret].
  unfold data_of. rewrite E. rewrite zlen_app. unfold packet. rewrite !zlen_cons, zlen_app. change (zlen (crc_bytes p)) with 2.
  pose proof (zlen_nonneg r). rewrite (proj2 (Z.leb_le _ _)) by lia. f_equal. unfold zlen. rewrite Nat2Z.id.
  change (take (length p) ((p ++ crc_bytes p) ++ r) = p). by rewrite <- app_assoc, take_app_length.
Qed.

Lemma packet_data s : holds_packet seq p s -> exists tail, drop 3 (buf s) = p ++ tail.
Proof using. intros (code & r & E). exists (crc_bytes p ++ r). rewrite E. change ((p ++ crc_bytes p) ++ r = p ++ crc_bytes p ++ r). by rewrite <- app_assoc. Qed.
End Packets.
