(* ===== verification/YmodemRecv.v ===== *)
(** * The receiver's stages

    Handshake, transfer and end on a line that carries a whole transfer; and on any
    line. *)

From Stdlib Require Import String.
From S2P Require Import Prelude Ymodem YmodemSpec.
Open Scope list_scope.

(** ** The sender's side *)

Definition data_code (b : list Z) : Z := if zlen b =? 128 then RYM_CODE_SOH else RYM_CODE_STX.
Definition data_packets (ps : list (Z * list Z)) : list Z := concat (map (fun e => packet (data_code (snd e)) (u8 (fst e)) (snd e)) ps).

(** The numbers a sender gives its blocks. *)
Fixpoint numbered (k : Z) (blocks : list (list Z)) : list (Z * list Z) :=
  match blocks with [] => [] | b :: bs => (k, b) :: numbered (k + 1) bs end.

(** A transfer: the header, sent again [m] times, the blocks, the end. *)
Definition again (m : nat) (header : list Z) : list Z := concat (replicate m (packet RYM_CODE_SOH 0 header)).
Definition final : list Z := RYM_CODE_EOT :: RYM_CODE_EOT :: packet RYM_CODE_SOH 0 (replicate 128 0).
Definition transfer (m : nat) (header : list Z) (ps : list (Z * list Z)) : list Z :=
  packet RYM_CODE_SOH 0 header ++ again m header ++ data_packets ps ++ final.

(** The first block is not numbered 0. *)
Definition first_ok (ps : list (Z * list Z)) : Prop := match ps with e :: _ => u8 (fst e) <> 0 | [] => True end.

Lemma numbered_blocks k blocks : map snd (numbered k blocks) = blocks.
Proof. revert k. induction blocks as [|b bs IH]; intros k; [done|]. cbn. by rewrite IH. Qed.

Definition block_ok (b : list Z) : Prop := zlen b = 128 \/ zlen b = 1024.

(** ** States on the way *)

Section Stages.
Context {W : Type}.
Implicit Types (s : Rym W) (bs : list Z).

Record stands (bs : list Z) (st : rym_stage) (o : list Z) (w : W) (h : Z) s : Prop := {
  sd_line : line s bs; sd_brisk : brisk s; sd_stage : stage s = st; sd_out : out s = o; sd_app : app s = w;
  sd_horizon : horizon s <= h; sd_time : 0 <= time s
}.

Lemma stands_kept bs bs' st o w h s s' : stands bs st o w h s -> line s' bs' -> kept 0 s s' -> stands bs' st o w h s'.
Proof.
  intros [S1 S2 S3 S4 S5 S6 S7] L [K1 K2 K3 K4 K5 K6]. split; try done; try congruence; [auto | lia | lia].
Qed.

(** A change of a field that is not of the line. *)
Lemma line_same s s' bs : line s bs -> rxq s' = rxq s -> future s' = future s -> buf s' = buf s -> sem s' = sem s -> line s' bs.
Proof. intros [L1 L2 L3 L4] E1 E2 E3 E4. split; by rewrite ?E1, ?E2, ?E3, ?E4. Qed.

Section Rules.
Context (st : rym_stage) (o : list Z) (w : W) (h : Z).
Implicit Types (Q : Z -> Rym W -> Prop).

Lemma st_putchar c bs s (Q : unit -> Rym W -> Prop) :
  stands bs st o w h s -> (forall s', stands bs st (o ++ [u8 c]) w h s' -> buf s' = buf s -> Q tt s') -> wp (_rym_putchar c) Q s.
Proof.
  intros [S1 S2 S3 S4 S5 S6 S7] HQ. apply wp_modify, HQ; [|done]. split; try done; [by apply (line_same s) | cbn; by rewrite S4].
Qed.

Lemma st_stage st' bs s (Q : unit -> Rym W -> Prop) :
  stands bs st o w h s -> (forall s', stands bs st' o w h s' -> buf s' = buf s -> Q tt s') -> wp (modify (put_stage st')) Q s.
Proof. intros [S1 S2 S3 S4 S5 S6 S7] HQ. apply wp_modify, HQ; [|done]. split; try done. by apply (line_same s). Qed.

Lemma st_code b bs s Q :
  stands (b :: bs) st o w h s -> (forall s', stands bs st o w h s' -> Q b s') -> wp (_rym_read_code RYM_WAIT_PKG_TICK) Q s.
Proof.
  intros S HQ. apply (wp_code_ok s b bs); [apply S | apply S |]. intros s' L K _. by apply HQ, (stands_kept _ _ _ _ _ _ _ _ S).
Qed.

Lemma st_data n seq p bs s Q :
  stands ((seq :: 255 - seq :: p ++ crc_bytes p) ++ bs) st o w h s -> n = zlen p + 4 -> zlen p <= 1024 ->
  (forall s', stands bs st o w h s' -> holds_packet seq p s' -> Q n s') -> wp (_rym_read_data n) Q s.
Proof.
  intros S -> Hp HQ. pose proof (zlen_nonneg p). eapply wp_data_ok; [apply S | apply S | | lia |].
  - rewrite !zlen_cons, zlen_app. change (zlen (crc_bytes p)) with 2. lia.
  - intros s' L K B. apply HQ; [by apply (stands_kept _ _ _ _ _ _ _ _ S) | by eapply packet_read].
Qed.

Lemma st_call cb seq p bs w' c s Q :
  stands bs st o w h s -> holds_packet seq p s -> (forall tail, cb (p ++ tail) (zlen p) w = Some (c, w')) ->
  (forall s', stands bs st o w' h s' -> Q c s') -> wp (call_back cb (zlen p)) Q s.
Proof.
  intros [S1 S2 S3 S4 S5 S6 S7] Hp Hcb HQ. destruct (packet_data seq p s Hp) as [tail E]. apply wp_bind. unfold wp at 1, get. rewrite E.
  apply wp_zoom. unfold wp. rewrite S5, Hcb. apply HQ. split; try done. by apply (line_same s).
Qed.
End Rules.

(** ** A whole transfer *)

Context (cb_begin cb_data : rym_callback (W := W)).

(** The blocks are taken one after the other. *)
Inductive takes : list (list Z) -> W -> W -> Prop :=
| takes_nil w : takes [] w w
| takes_cons b blocks w w1 w2 :
    (forall tail, cb_data (b ++ tail) (zlen b) w = Some (RYM_CODE_ACK, w1)) -> takes blocks w1 w2 -> takes (b :: blocks) w w2.

Lemma split_packet code seq p bs : packet code seq p ++ bs = code :: (seq :: 255 - seq :: p ++ crc_bytes p) ++ bs.
Proof. done. Qed.

Lemma is_soh b : block_ok b ->
  (data_code b =? RYM_CODE_EOT) = false /\ (data_code b =? RYM_CODE_SOH) || (data_code b =? RYM_CODE_STX) = true
  /\ (if data_code b =? RYM_CODE_SOH then 128 else 1024) = zlen b.
Proof. unfold data_code. intros [-> | ->]; done. Qed.

(** A block. *)
Lemma trans_block b k bs st o w w1 h s (Q : Z * Z -> Rym W -> Prop) :
  block_ok b -> stands ((u8 k :: 255 - u8 k :: b ++ crc_bytes b) ++ bs) st o w h s -> (st = RYM_STAGE_TRANSMITTING \/ u8 k <> 0) ->
  (forall tail, cb_data (b ++ tail) (zlen b) w = Some (RYM_CODE_ACK, w1)) ->
  (forall s', stands bs RYM_STAGE_TRANSMITTING o w1 h s' -> Q (0, RYM_CODE_ACK) s') ->
  wp (_rym_trans_data (Some cb_data) (zlen b) (data_code b)) Q s.
Proof.
  intros Hb S Hst Hcb HQ. assert (Hz : zlen b <= 1024) by (destruct Hb; lia).
  apply wp_bind. eapply st_data; [exact S | lia | done |]. intros s1 S1 P1. rewrite Z.eqb_refl. cbn [negb].
  apply wp_bind. eapply wp_at1; [exact P1|]. apply wp_bind. eapply wp_at2; [exact P1|]. replace (u8 k + (255 - u8 k)) with 255 by lia.
  rewrite Z.eqb_refl. cbn [negb]. apply wp_bind, wp_gets. rewrite (sd_stage _ _ _ _ _ _ S1).
  assert (E : bool_decide (st = RYM_STAGE_ESTABLISHED) && (u8 k =? 0) = false).
  { destruct Hst as [-> | Hk]; [done|]. rewrite (proj2 (Z.eqb_neq _ _) Hk). by rewrite andb_false_r. }
  rewrite E. apply wp_bind. eapply st_stage; [exact S1|]. intros s2 S2 B2.
  assert (P2 : holds_packet (u8 k) b s2) by (destruct P1 as (c & r & E1); exists c, r; by rewrite B2).
  apply wp_bind. eapply wp_crc_at; [exact P2 | lia |]. apply wp_bind. eapply wp_crc_buf; [exact P2 | done |]. rewrite Z.eqb_refl. cbn [negb].
  apply wp_bind. eapply st_call; [exact S2 | exact P2 | exact Hcb |]. intros s3 S3. by apply wp_ret, HQ.
Qed.

(** The header sent again is passed over. *)
Lemma trans_again header bs o w h s (Q : Z * Z -> Rym W -> Prop) :
  zlen header = 128 -> stands ((0 :: 255 - 0 :: header ++ crc_bytes header) ++ bs) RYM_STAGE_ESTABLISHED o w h s ->
  (forall s', stands bs RYM_STAGE_ESTABLISHED o w h s' -> Q (0, RYM_CODE_NONE) s') ->
  wp (_rym_trans_data (Some cb_data) 128 RYM_CODE_SOH) Q s.
Proof.
  intros Hb S HQ. apply wp_bind. eapply st_data; [exact S | lia | lia |]. intros s1 S1 P1. rewrite Z.eqb_refl. cbn [negb].
  apply wp_bind. eapply wp_at1; [exact P1|]. apply wp_bind. eapply wp_at2; [exact P1|]. cbn [negb Z.eqb Z.add Z.sub Z.opp Z.pos_sub].
  apply wp_bind, wp_gets. rewrite (sd_stage _ _ _ _ _ _ S1). rewrite bool_decide_true by done. by apply wp_ret, HQ.
Qed.

Lemma trans_blocks ps : forall fuel st o w w1 bs h s (Q : Z -> Rym W -> Prop),
  Forall (fun e => block_ok (snd e)) ps -> stands (data_packets ps ++ RYM_CODE_EOT :: bs) st o w h s ->
  (st = RYM_STAGE_TRANSMITTING \/ first_ok ps) -> takes (map snd ps) w w1 -> (length ps < fuel)%nat ->
  (forall s' st', stands bs st' (o ++ replicate (length ps) RYM_CODE_ACK) w1 h s' -> Q 0 s') ->
  wp (trans_loop (Some cb_data) fuel) Q s.
Proof.
  induction ps as [|[k b] ps IH]; intros [|fuel] st o w w1 bs h s Q Hok S Hst Ht Hf HQ; cbn [length] in Hf; try lia; cbn [trans_loop].
  - inversion Ht; subst. apply wp_bind. eapply st_code; [exact S|]. intros s1 S1. cbn. apply wp_ret. eapply (HQ s1 st). by rewrite app_nil_r.
  - apply Forall_cons in Hok as [Hb Hok]. cbn [snd map] in Hb, Ht. inversion Ht as [|? ? ? wb ? Hcb Ht']; subst.
    unfold data_packets in S. cbn [map concat fst snd] in S. rewrite <- app_assoc, split_packet in S. destruct (is_soh b Hb) as (E1 & E2 & E3).
    apply wp_bind. eapply st_code; [exact S|]. intros s1 S1. rewrite E1, E2, E3. cbn [negb].
    apply wp_bind. eapply trans_block; [exact Hb | exact S1 | exact Hst | exact Hcb |].
    intros s2 S2. cbn [negb Z.eqb]. change (RYM_CODE_ACK =? RYM_CODE_CAN) with false. change (RYM_CODE_ACK =? RYM_CODE_ACK) with true. cbv iota.
    apply wp_bind. eapply st_putchar; [exact S2|]. intros s3 S3 _.
    apply (IH fuel RYM_STAGE_TRANSMITTING (o ++ [RYM_CODE_ACK]) wb w1 bs h s3); [done | exact S3 | by left | done | lia |].
    intros s' st' S'. apply (HQ s' st'). cbn [replicate length]. by rewrite <- app_assoc in S'.
Qed.

Lemma trans_all m : forall fuel header ps o w w1 bs h s (Q : Z -> Rym W -> Prop),
  zlen header = 128 -> Forall (fun e => block_ok (snd e)) ps -> first_ok ps ->
  stands (again m header ++ data_packets ps ++ RYM_CODE_EOT :: bs) RYM_STAGE_ESTABLISHED o w h s ->
  takes (map snd ps) w w1 -> (m + length ps < fuel)%nat ->
  (forall s' st', stands bs st' (o ++ replicate (length ps) RYM_CODE_ACK) w1 h s' -> Q 0 s') ->
  wp (trans_loop (Some cb_data) fuel) Q s.
Proof.
  induction m as [|m IH]; intros fuel header ps o w w1 bs h s Q Hh Hok Hfst S Ht Hf HQ.
  - eapply trans_blocks; [exact Hok | exact S | by right | exact Ht | lia | exact HQ].
  - destruct fuel as [|fuel]; [lia|]. cbn [trans_loop]. unfold again in S. cbn [replicate concat] in S. rewrite <- app_assoc, split_packet in S.
    apply wp_bind. eapply st_code; [exact S|]. intros s1 S1. cbn [Z.eqb negb orb]. change (RYM_CODE_SOH =? RYM_CODE_EOT) with false.
    change ((RYM_CODE_SOH =? RYM_CODE_SOH) || (RYM_CODE_SOH =? RYM_CODE_STX)) with true. change (RYM_CODE_SOH =? RYM_CODE_SOH) with true. cbn [negb].
    apply wp_bind. eapply trans_again; [exact Hh | exact S1 |]. intros s2 S2. cbn [negb Z.eqb].
    change (RYM_CODE_NONE =? RYM_CODE_CAN) with false. change (RYM_CODE_NONE =? RYM_CODE_ACK) with false. cbv iota.
    apply wp_bind, wp_ret. eapply (IH fuel header ps o w w1 bs h s2); [done | done | done | exact S2 | done | lia | done].
Qed.

Lemma length_packet code seq p : (1 <= length (packet code seq p))%nat.
Proof using. unfold packet. cbn [length]. lia. Qed.

Lemma length_again m header : (m <= length (again m header))%nat.
Proof using. induction m as [|m IH]; [lia|]. unfold again in *. cbn [replicate concat]. rewrite length_app. pose proof (length_packet RYM_CODE_SOH 0 header). lia. Qed.

Lemma length_data_packets ps : (length ps <= length (data_packets ps))%nat.
Proof using.
  induction ps as [|[k b] ps IH]; [done|]. unfold data_packets in *. cbn [map concat fst snd]. rewrite length_app.
  pose proof (length_packet (data_code b) (u8 k) b). cbn [length]. lia.
Qed.

Lemma bytes_line s bs : line s bs -> bytes_left s = length bs.
Proof using. intros [L1 _ _ _]. unfold bytes_left. by rewrite <- L1, length_app. Qed.

Lemma trans_ok m header ps st o w w1 bs h s (Q : Z -> Rym W -> Prop) :
  zlen header = 128 -> Forall (fun e => block_ok (snd e)) ps -> first_ok ps ->
  stands (again m header ++ data_packets ps ++ RYM_CODE_EOT :: bs) st o w h s -> takes (map snd ps) w w1 ->
  (forall s' st', stands bs st' (o ++ [RYM_CODE_ACK; RYM_CODE_C] ++ replicate (length ps) RYM_CODE_ACK) w1 h s' -> Q 0 s') ->
  wp (_rym_do_trans (Some cb_data)) Q s.
Proof.
  intros Hh Hok Hfst S Ht HQ. apply wp_bind. eapply st_putchar; [exact S|]. intros s1 S1 _. apply wp_bind. eapply st_putchar; [exact S1|]. intros s2 S2 _.
  apply wp_bind. eapply st_stage; [exact S2|]. intros s3 S3 _. apply wp_bind, wp_gets.
  rewrite (bytes_line s3 _ (sd_line _ _ _ _ _ _ S3)), !length_app. pose proof (length_again m header). pose proof (length_data_packets ps).
  eapply (trans_all m); [exact Hh | exact Hok | exact Hfst | exact S3 | exact Ht | lia |]. intros s' st' S'. apply (HQ s' st'). by rewrite <- !app_assoc in S'.
Qed.

(** The end. *)
Context (cb_end : option (rym_callback (W := W))).
Definition ends (w w' : W) : Prop :=
  match cb_end with Some cb => forall d, exists c, cb d 128 w = Some (c, w') | None => w' = w end.

Lemma fin_ok st o w w1 bs h s (Q : Z -> Rym W -> Prop) :
  stands (RYM_CODE_EOT :: packet RYM_CODE_SOH 0 (replicate 128 0) ++ bs) st o w h s -> ends w w1 ->
  (forall s', stands bs RYM_STAGE_FINISHED (o ++ [RYM_CODE_NAK; RYM_CODE_ACK; RYM_CODE_C; RYM_CODE_ACK]) w1 h s' -> Q 0 s') ->
  wp (_rym_do_fin (Some cb_begin) cb_end) Q s.
Proof.
  intros S He HQ. apply wp_bind. eapply st_stage; [exact S|]. intros s1 S1 _. apply wp_bind.
  assert (H1 : forall s2 (R : unit -> Rym W -> Prop), (forall s3, stands (RYM_CODE_EOT :: packet RYM_CODE_SOH 0 (replicate 128 0) ++ bs) RYM_STAGE_FINISHING o w1 h s3 -> R tt s3) ->
    stands (RYM_CODE_EOT :: packet RYM_CODE_SOH 0 (replicate 128 0) ++ bs) RYM_STAGE_FINISHING o w h s2 ->
    wp (match cb_end with Some cb => run call_back cb 128; ret tt | None => ret tt end) R s2).
  { intros s2 R HR [A1 A2 A3 A4 A5 A6 A7]. unfold ends in He. destruct cb_end as [cb|]; [|apply wp_ret, HR; by subst].
    apply wp_bind, wp_bind. unfold wp at 1, get. apply wp_zoom. destruct (He (drop 3 (buf s2))) as [c E]. unfold wp. rewrite A5, E.
    apply wp_ret, HR. split; try done. by apply (line_same s2). }
  apply H1; [|exact S1]. clear s1 S1 H1. intros s1 S1. unfold fin_packet. apply wp_bind. eapply st_putchar; [exact S1|]. intros s2 S2 _.
  apply wp_bind. eapply st_code; [exact S2|]. intros s3 S3. change (negb (RYM_CODE_EOT =? RYM_CODE_EOT)) with false. cbv iota.
  apply wp_bind. eapply st_putchar; [exact S3|]. intros s4 S4 _. apply wp_bind. eapply st_putchar; [exact S4|]. intros s5 S5 _.
  rewrite split_packet in S5. apply wp_bind. eapply st_code; [exact S5|]. intros s6 S6.
  change (negb ((RYM_CODE_SOH =? RYM_CODE_SOH) || (RYM_CODE_SOH =? RYM_CODE_STX))) with false. cbv iota zeta.
  apply wp_bind. eapply (st_data _ _ _ _ _ 0 (replicate 128 0)); [exact S6 | done | done |]. intros s7 S7 P7. change (negb (_RYM_SOH_PKG_SZ - 1 =? _RYM_SOH_PKG_SZ - 1)) with false. cbv iota.
  apply wp_bind. eapply wp_at1; [exact P7|]. apply wp_bind. eapply wp_at2; [exact P7|]. change (negb (0 =? 0) || negb (255 - 0 =? 255)) with false. cbv iota.
  apply wp_bind. eapply wp_crc_at; [exact P7 | done |]. apply wp_bind. eapply wp_crc_buf; [exact P7 | done |]. rewrite Z.eqb_refl. cbn [negb].
  apply wp_bind. destruct P7 as (c & r & E). assert (E3 : aget (buf s7) 3 = Some 0) by (by rewrite E).
  unfold wp at 1, at_buf, rd. rewrite E3. change (negb (0 =? 0)) with false. cbv iota.
  apply wp_bind. eapply st_stage; [exact S7|]. intros s8 S8 _. apply wp_bind. eapply st_putchar; [exact S8|]. intros s9 S9 _.
  apply wp_ret, HQ. by rewrite <- !app_assoc in S9.
Qed.

(** The beginning. *)
Lemma handshake_ok header bs st o w w1 h tm s (Q : Z -> Rym W -> Prop) :
  zlen header = 128 -> stands (packet RYM_CODE_SOH 0 header ++ bs) st o w h s -> 0 < tm -> h + 100 < 2 ^ 32 ->
  (forall tail, cb_begin (header ++ tail) 128 w = Some (RYM_CODE_ACK, w1)) ->
  (forall s', stands bs RYM_STAGE_ESTABLISHING (o ++ [RYM_CODE_C]) w1 (h + 5) s' -> Q 0 s') ->
  wp (_rym_do_handshake (Some cb_begin) tm) Q s.
Proof.
  intros Hh S Htm Hw Hcb HQ. apply wp_bind. eapply st_stage; [exact S|]. intros s1 S1 _.
  apply wp_bind. replace (Z.to_nat tm) with (Datatypes.S (Z.to_nat (tm - 1))) by lia. cbn [handshake_loop].
  apply wp_bind. eapply st_putchar; [exact S1|]. intros s2 S2 _. rewrite split_packet in S2.
  apply wp_bind. eapply st_code; [exact S2|]. intros s3 S3. change (RYM_CODE_SOH =? RYM_CODE_SOH) with true. cbv iota. apply wp_ret.
  apply wp_bind, wp_gets, wp_bind. unfold FIRST_FUEL. cbn [first_loop]. apply wp_bind, wp_gets.
  pose proof (sd_horizon _ _ _ _ _ _ S3) as Hh3. pose proof (gaps_nonneg _ (ln_gaps _ _ (sd_line _ _ _ _ _ _ S3))) as Hg3.
  pose proof (sd_time _ _ _ _ _ _ S3) as Ht3. unfold horizon in Hh3.
  assert (E : (u32 (time s3) <=? u32 (u32 (time s3) + 100)) && (0 <? _RYM_SOH_PKG_SZ - 1) = true).
  { rewrite (u32_small (time s3)), u32_small by lia. rewrite (proj2 (Z.leb_le _ _)) by lia. done. }
  rewrite E. apply wp_bind. eapply (st_data _ _ _ _ _ 0 header); [exact S3 | rewrite Hh; done | lia |]. intros s4 S4 P4.
  apply wp_bind. eapply wp_elapse; [lia | apply S4 |]. intros s5 L5 [K1 K2 K3 K4 K5 K6] _ B5.
  assert (S5 : stands bs RYM_STAGE_ESTABLISHING (o ++ [RYM_CODE_C]) w (h + 5) s5).
  { destruct S4 as [A1 A2 A3 A4 A5 A6 A7]. split; try done; try congruence; [auto | rewrite K2; exact A4 | lia | lia]. }
  assert (P5 : holds_packet 0 header s5) by (destruct P4 as (c & r & E4); exists c, r; by rewrite B5).
  change (0 + (_RYM_SOH_PKG_SZ - 1)) with (_RYM_SOH_PKG_SZ - 1). apply wp_bind, wp_gets. rewrite Z.ltb_irrefl, andb_false_r. apply wp_ret.
  rewrite Z.eqb_refl. cbn [negb]. apply wp_bind. eapply wp_at1; [exact P5|]. apply wp_bind. eapply wp_at2; [exact P5|].
  change (negb (0 =? 0) || negb (255 - 0 =? 255)) with false. cbv iota.
  apply wp_bind. eapply wp_crc_at; [exact P5 | rewrite Hh; done |]. apply wp_bind. eapply wp_crc_buf; [exact P5 | by rewrite Hh |]. rewrite Z.eqb_refl. cbn [negb].
  apply wp_bind. change (_RYM_SOH_PKG_SZ - 5) with 128. rewrite <- Hh. eapply st_call; [exact S5 | exact P5 | rewrite Hh; exact Hcb |].
  intros s6 S6. apply wp_ret. change (RYM_CODE_ACK =? RYM_CODE_ACK) with true. by apply HQ.
Qed.

(** All of it. *)
Lemma recv_ok m header ps junk tm bs o w w1 w2 w3 h s (Q : Z -> Rym W -> Prop) :
  zlen header = 128 -> Forall (fun e => block_ok (snd e)) ps -> first_ok ps -> zlen junk = 1029 -> 0 < tm -> h + 100 < 2 ^ 32 ->
  rxq s ++ concat (map snd (future s)) = transfer m header ps ++ bs -> Forall (fun e => 0 <= fst e <= 3000) (future s) ->
  0 <= sem s -> 0 <= time s -> horizon s <= h -> out s = o -> app s = w ->
  (forall tail, cb_begin (header ++ tail) 128 w = Some (RYM_CODE_ACK, w1)) -> takes (map snd ps) w1 w2 -> ends w2 w3 ->
  (forall s', stands bs RYM_STAGE_FINISHED
       (o ++ [RYM_CODE_C; RYM_CODE_ACK; RYM_CODE_C] ++ replicate (length ps) RYM_CODE_ACK ++ [RYM_CODE_NAK; RYM_CODE_ACK; RYM_CODE_C; RYM_CODE_ACK]) w3 (h + 5) s' -> Q 0 s') ->
  wp (_rym_do_recv (Some cb_begin) (Some cb_data) cb_end (Some junk) tm) Q s.
Proof.
  intros Hh Hok Hfst Hj Htm Hw Hb Hg Hs Ht Hz Ho Ha Hbegin Htakes Hends HQ. apply wp_bind, wp_modify, wp_bind, wp_modify.
  unfold transfer, final in Hb. rewrite <- !app_assoc in Hb.
  apply wp_bind. eapply (handshake_ok header (again m header ++ data_packets ps ++ RYM_CODE_EOT :: (RYM_CODE_EOT :: packet RYM_CODE_SOH 0 (replicate 128 0) ++ bs)) RYM_STAGE_NONE o w w1 h tm); [done | | done | done | done |].
  { split; try done; [split; try done|]; eapply Forall_impl; try exact Hg; cbn; lia. }
  intros s1 S1. cbn [negb Z.eqb]. apply wp_bind, wp_gets. cbn [files_loop].
  apply wp_bind. eapply trans_ok; [done | done | done | exact S1 | done |]. intros s2 st2 S2. cbn [negb Z.eqb].
  apply wp_bind. eapply fin_ok; [exact S2 | exact Hends |]. intros s3 S3. cbn [negb Z.eqb].
  apply wp_bind, wp_gets. rewrite (sd_stage _ _ _ _ _ _ S3), bool_decide_true by done. apply wp_ret, HQ. rewrite <- !app_assoc in S3. exact S3.
Qed.
End Stages.
