(* ===== verification/YmodemTotal.v ===== *)
(** * The receiver on any line

    Whatever arrives, and whenever: the receiver ends, and reads and writes inside its
    buffer only. *)

From Stdlib Require Import String.
From S2P Require Import Prelude Ymodem YmodemSpec YmodemRecv.
Open Scope list_scope.

Section Total.
Context {W : Type} (I : W -> Prop).
Implicit Types (s : Rym W).

(** A callback that keeps [I] given any data. *)
Definition callback_ok (cb : rym_callback (W := W)) : Prop :=
  forall d n w, I w -> (n = 128 \/ n = 1024) -> n <= zlen d -> wp (cb d n) (fun _ w' => I w') w.
Definition maybe_ok (cb : option (rym_callback (W := W))) : Prop := match cb with Some cb => callback_ok cb | None => True end.

Record calm s : Prop := { cm_line : exists bs, line s bs; cm_app : I (app s) }.

(** Before the clock can wrap. *)
Record early (H : Z) s : Prop := { ea_calm : calm s; ea_time : 0 <= time s; ea_horizon : horizon s <= H }.

Lemma calm_kept t s s' bs : calm s -> kept t s s' -> line s' bs -> calm s'.
Proof. intros [_ C2] K L. split; [by exists bs | by rewrite (kp_app _ _ _ K)]. Qed.

Lemma early_kept H t s s' bs : early H s -> kept t s s' -> line s' bs -> early (H + t) s'.
Proof.
  intros [E1 E2 E3] K L. split; [by eapply calm_kept | pose proof (kp_time _ _ _ K); lia | pose proof (kp_horizon _ _ _ K); lia].
Qed.

Implicit Types (Q : Z -> Rym W -> Prop).

Lemma any_code s Q :
  calm s ->
  (forall b s', calm s' -> kept 0 s s' -> (bytes_left s' < bytes_left s)%nat -> Q b s') ->
  (forall s', calm s' -> kept 3000 s s' -> bytes_left s' = bytes_left s -> Q RYM_CODE_NONE s') -> wp (_rym_read_code RYM_WAIT_PKG_TICK) Q s.
Proof.
  intros C HQ1 HQ2. destruct (cm_line _ C) as [bs L]. apply (wp_code s bs); [done | |].
  - intros b bs' s' E L' K _. apply HQ1; [by eapply calm_kept | done |]. rewrite (bytes_line _ _ L), (bytes_line _ _ L'), E. cbn [length]. lia.
  - intros s' L' K _ _. apply HQ2; [by eapply calm_kept | done |]. by rewrite (bytes_line _ _ L), (bytes_line _ _ L').
Qed.

Lemma any_data len s Q :
  calm s -> 0 <= len <= 1028 ->
  (forall n s' t, 0 <= n <= len -> calm s' -> kept t s s' -> (t = 0 \/ t = 3000) -> (bytes_left s' <= bytes_left s)%nat ->
     (n < len -> time s + 3000 <= time s') -> Q n s') -> wp (_rym_read_data len) Q s.
Proof.
  intros C Hlen HQ. destruct (cm_line _ C) as [bs L]. apply (wp_data len s bs); [done | done |].
  intros d bs' s' t E Hd L' K Ht _ Hs _. apply (HQ _ _ t); [pose proof (zlen_nonneg d); lia | by eapply calm_kept | done | done | |].
  - rewrite (bytes_line _ _ L), (bytes_line _ _ L'), E, length_app. lia.
  - intros Hlt. by apply Hs.
Qed.

Lemma any_at i s Q : calm s -> 0 <= i < 1029 -> (forall b, Q b s) -> wp (at_buf i) Q s.
Proof.
  intros C Hi HQ. destruct (cm_line _ C) as [bs L]. destruct (aget_is_Some (buf s) i) as [b E]; [by rewrite (ln_buf _ _ L)|].
  unfold wp, at_buf, rd. rewrite E. apply HQ.
Qed.

Lemma any_crc_at i s Q : calm s -> 0 <= i < 1028 -> (forall c, Q c s) -> wp (crc_at i) Q s.
Proof.
  intros C Hi HQ. apply wp_bind, any_at; [done | lia |]. intros h. apply wp_bind, any_at; [done | lia |]. intros l. by apply wp_ret.
Qed.

Lemma any_crc n s Q : calm s -> n <= 1026 -> (forall c, Q c s) -> wp (CRC16_buf n) Q s.
Proof.
  intros C Hn HQ. destruct (cm_line _ C) as [bs L]. apply wp_bind. unfold wp at 1, get. apply wp_bind.
  eapply wp_lift_opt; [|by apply wp_ret]. unfold data_of. by rewrite (proj2 (Z.leb_le _ _)) by (rewrite (ln_buf _ _ L); lia).
Qed.

Lemma any_put c s (Q : unit -> Rym W -> Prop) : calm s -> (forall s', calm s' -> bytes_left s' = bytes_left s -> time s' = time s -> horizon s' = horizon s -> Q tt s') -> wp (_rym_putchar c) Q s.
Proof.
  intros [[bs L] C2] HQ. apply wp_modify, HQ; try done. split; [|done]. exists bs. by apply (line_same s).
Qed.

Lemma any_stage st s (Q : unit -> Rym W -> Prop) :
  calm s -> (forall s', calm s' -> bytes_left s' = bytes_left s -> stage s' = st -> time s' = time s -> horizon s' = horizon s -> Q tt s') -> wp (modify (put_stage st)) Q s.
Proof. intros [[bs L] C2] HQ. apply wp_modify, HQ; try done. split; [|done]. exists bs. by apply (line_same s). Qed.

Lemma any_call cb n s Q :
  calm s -> callback_ok cb -> (n = 128 \/ n = 1024) -> (forall c s', calm s' -> bytes_left s' = bytes_left s -> stage s' = stage s -> Q c s') -> wp (call_back cb n) Q s.
Proof.
  intros [[bs L] C2] Hcb Hn HQ. apply wp_bind. unfold wp at 1, get. apply wp_zoom.
  eapply wp_conseq; [apply (Hcb (drop 3 (buf s)) n (app s) C2 Hn)|].
  - pose proof (ln_buf _ _ L) as Hb. unfold zlen in *. rewrite length_drop. lia.
  - intros c w' Hw'. apply HQ; try done. split; [|done]. exists bs. by apply (line_same s).
Qed.

(** ** The handshake *)

Lemma any_handshake_loop n : forall H s (Q : option Z -> Rym W -> Prop),
  early H s -> (forall r s', early (H + 3000 * Z.of_nat n) s' -> (r = None \/ r = Some 133 \/ r = Some 1029) -> Q r s') -> wp (handshake_loop n) Q s.
Proof.
  induction n as [|n IH]; intros H s Q E HQ; cbn [handshake_loop]; [apply wp_ret, HQ; [by rewrite Z.add_0_r | by left]|].
  apply wp_bind, any_put; [apply E|]. intros s1 C1 _ T1 H1. assert (E1 : early H s1) by (split; [done | rewrite T1 | rewrite H1]; apply E).
  assert (Hgo : forall b t s2, calm s2 -> kept t s1 s2 -> 0 <= t <= 3000 ->
    wp (if b =? RYM_CODE_SOH then ret (Some _RYM_SOH_PKG_SZ) else if b =? RYM_CODE_STX then ret (Some _RYM_STX_PKG_SZ) else handshake_loop n) Q s2).
  { intros b t s2 C2 K2 Ht. destruct (cm_line _ C2) as [bs L2]. pose proof (early_kept H t _ _ _ E1 K2 L2) as E2.
    assert (E3 : early (H + 3000) s2) by (destruct E2; split; [done..|lia]).
    destruct (b =? RYM_CODE_SOH); [|destruct (b =? RYM_CODE_STX)].
    - apply wp_ret, HQ; [destruct E2; split; [done..|lia] | by right; left].
    - apply wp_ret, HQ; [destruct E2; split; [done..|lia] | by right; right].
    - apply (IH (H + 3000)); [done|]. intros r s' E' Hr. apply HQ; [|done]. by replace (H + 3000 * Z.of_nat (S n)) with (H + 3000 + 3000 * Z.of_nat n) by lia. }
  apply wp_bind, any_code; [done | |].
  - intros b s2 C2 K2 _. by apply (Hgo b 0).
  - intros s2 C2 K2 _. by apply (Hgo RYM_CODE_NONE 3000).
Qed.

Lemma any_first_loop H sz s Q :
  early H s -> H + 3105 < 2 ^ 32 -> (sz = 133 \/ sz = 1029) -> (forall i s', calm s' -> Q i s') ->
  wp (first_loop FIRST_FUEL (u32 (time s)) sz 0) Q s.
Proof.
  intros E Hw Hsz HQ. destruct E as [C Ht Hh]. destruct (cm_line _ C) as [bs L]. pose proof (gaps_nonneg _ (ln_gaps _ _ L)) as Hg.
  unfold horizon in Hh. unfold FIRST_FUEL. cbn [first_loop]. apply wp_bind, wp_gets.
  rewrite (u32_small (time s)), u32_small by lia. rewrite (proj2 (Z.leb_le (time s) _)) by lia. rewrite (proj2 (Z.ltb_lt 0 (sz - 1))) by lia. cbn [andb].
  apply wp_bind, any_data; [done | lia |]. intros n s1 t Hn C1 K1 Ht1 _ Hs1. destruct (cm_line _ C1) as [bs1 L1].
  apply wp_bind. eapply wp_elapse; [lia | exact L1 |]. intros s2 L2 K2 T2 _. pose proof (calm_kept _ _ _ _ C1 K2 L2) as C2.
  apply wp_bind, wp_gets. pose proof (gaps_nonneg _ (ln_gaps _ _ L2)) as Hg2.
  pose proof (kp_time _ _ _ K1). pose proof (kp_horizon _ _ _ K1) as Hk1. pose proof (kp_horizon _ _ _ K2) as Hk2. unfold horizon in *.
  destruct (Z.ltb_spec (0 + n) (sz - 1)) as [Hlt|Hge]; [|rewrite andb_false_r; by apply wp_ret, HQ].
  specialize (Hs1 ltac:(lia)). rewrite (u32_small (time s2)) by lia. rewrite (proj2 (Z.leb_gt (time s2) _)) by lia. by apply wp_ret, HQ.
Qed.

Context (on_begin on_data on_end : option (rym_callback (W := W))).
Context (Hbegin : maybe_ok on_begin) (Hdata : maybe_ok on_data) (Hend : maybe_ok on_end).

(** What follows a check that may fail. *)
Lemma any_if (c : bool) (a b : M (Rym W) Z) Q s : (c = true -> wp a Q s) -> (c = false -> wp b Q s) -> wp (if c then a else b) Q s.
Proof using. destruct c; auto. Qed.

Lemma any_begin n s Q :
  calm s -> (n = 128 \/ n = 1024) -> (forall r s', calm s' -> bytes_left s' = bytes_left s -> Q r s') ->
  wp (match on_begin with Some cb => do c <- call_back cb n; ret (if c =? RYM_CODE_ACK then 0 else - RYM_ERR_CAN) | None => ret 0 end) Q s.
Proof using Hbegin.
  intros C Hn HQ. destruct on_begin as [cb|]; [|by apply wp_ret, HQ]. apply wp_bind. eapply any_call; [done | exact Hbegin | done |].
  intros c s' C' B' _. by apply wp_ret, HQ.
Qed.

Lemma any_handshake H tm s Q :
  early H s -> 0 <= tm -> H + 3000 * tm + 3105 < 2 ^ 32 -> (forall r s', calm s' -> Q r s') -> wp (_rym_do_handshake on_begin tm) Q s.
Proof using Hbegin.
  intros E Htm Hw HQ. apply wp_bind, any_stage; [apply E|]. intros s1 C1 _ _ T1 H1.
  assert (E1 : early H s1) by (split; [done | rewrite T1 | rewrite H1]; apply E).
  apply wp_bind. eapply (any_handshake_loop _ H); [exact E1|]. intros r s2 E2 Hr. rewrite Z2Nat.id in E2 by done.
  destruct r as [sz|]; [|by apply wp_ret, HQ, E2]. assert (Hsz : sz = 133 \/ sz = 1029) by (destruct Hr as [|[[= ->]|[= ->]]]; [done | by left | by right]).
  apply wp_bind, wp_gets, wp_bind. eapply any_first_loop; [exact E2 | lia | done |]. intros i s3 C3.
  apply any_if; intros _; [by apply wp_ret, HQ|]. apply wp_bind, any_at; [done | lia |]. intros b1. apply wp_bind, any_at; [done | lia |]. intros b2.
  apply any_if; intros _; [by apply wp_ret, HQ|]. apply wp_bind, any_crc_at; [done | lia |]. intros c1. apply wp_bind, any_crc; [done | lia |]. intros c2.
  apply any_if; intros _; [by apply wp_ret, HQ|]. apply any_begin; [done | lia |]. intros r' s' C' _. by apply HQ.
Qed.

(** ** The transfer *)

Lemma any_trans_data n code s (Q : Z * Z -> Rym W -> Prop) :
  calm s -> (n = 128 \/ n = 1024) -> (forall r s', calm s' -> (bytes_left s' <= bytes_left s)%nat -> Q r s') -> wp (_rym_trans_data on_data n code) Q s.
Proof using Hdata.
  intros C Hn HQ. apply wp_bind, any_data; [done | lia |]. intros i s1 t _ C1 _ _ B1 _.
  destruct (negb _); [by apply wp_ret, HQ|]. apply wp_bind, any_at; [done | lia |]. intros b1. apply wp_bind, any_at; [done | lia |]. intros b2.
  destruct (negb _); [by apply wp_ret, HQ|]. apply wp_bind, wp_gets. destruct (_ && _); [by apply wp_ret, HQ|].
  apply wp_bind, any_stage; [done|]. intros s2 C2 B2 _ _ _. apply wp_bind, any_crc_at; [done | lia |]. intros c1. apply wp_bind, any_crc; [done | lia |]. intros c2.
  destruct (negb _); [apply wp_ret, HQ; [done | lia]|]. destruct on_data as [cb|]; [|apply wp_ret, HQ; [done | lia]].
  apply wp_bind. eapply any_call; [done | exact Hdata | done |]. intros c s3 C3 B3 _. apply wp_ret, HQ; [done | lia].
Qed.

Lemma any_cancel n : forall s (Q : unit -> Rym W -> Prop), calm s -> (forall s', calm s' -> Q tt s') -> wp (cancel n) Q s.
Proof.
  induction n as [|n IH]; intros s Q C HQ; [by apply wp_ret, HQ|]. apply wp_bind, any_put; [done|]. intros s1 C1 _ _ _. by apply IH.
Qed.

Lemma any_trans_loop fuel : forall s Q, calm s -> (bytes_left s < fuel)%nat ->
  (forall r s', calm s' -> (r = 0 -> (bytes_left s' < bytes_left s)%nat) -> Q r s') -> wp (trans_loop on_data fuel) Q s.
Proof using Hdata.
  induction fuel as [|fuel IH]; intros s Q C Hf HQ; [lia|]. cbn [trans_loop]. apply wp_bind, any_code; [done | |].
  - intros b s1 C1 _ B1. apply any_if; intros _; [by apply wp_ret, HQ|]. apply any_if; intros _; [by apply wp_ret, HQ|].
    apply wp_bind, any_trans_data; [done | destruct (b =? RYM_CODE_SOH); [by left | by right] |]. intros [err c] s2 C2 B2.
    destruct (Z.eqb_spec err 0) as [->|Herr]; cbn [negb]; [|by apply wp_ret, HQ].
    apply any_if; intros _; [apply wp_bind, any_cancel; [done|]; intros s3 C3; by apply wp_ret, HQ|].
    apply wp_bind. assert (Hrest : forall s3, calm s3 -> bytes_left s3 = bytes_left s2 -> wp (trans_loop on_data fuel) Q s3).
    { intros s3 C3 B3. apply IH; [done | lia |]. intros r s' C' Hr. apply HQ; [done|]. intros H0. specialize (Hr H0). lia. }
    destruct (c =? RYM_CODE_ACK); [apply any_put; [done|]; intros s3 C3 B3 _ _ | apply wp_ret]; by apply Hrest.
  - intros s1 C1 _ _. change (RYM_CODE_NONE =? RYM_CODE_EOT) with false. change (negb ((RYM_CODE_NONE =? RYM_CODE_SOH) || (RYM_CODE_NONE =? RYM_CODE_STX))) with true.
    cbv iota. by apply wp_ret, HQ.
Qed.

Lemma any_trans s Q : calm s -> (forall r s', calm s' -> (r = 0 -> (bytes_left s' < bytes_left s)%nat) -> Q r s') -> wp (_rym_do_trans on_data) Q s.
Proof using Hdata.
  intros C HQ. apply wp_bind, any_put; [done|]. intros s1 C1 B1 _ _. apply wp_bind, any_put; [done|]. intros s2 C2 B2 _ _.
  apply wp_bind, any_stage; [done|]. intros s3 C3 B3 _ _ _. apply wp_bind, wp_gets, any_trans_loop; [done | lia |].
  intros r s' C' Hr. apply HQ; [done|]. intros H0. specialize (Hr H0). lia.
Qed.

Lemma any_code_then (k : Z -> M (Rym W) Z) s Q :
  calm s -> (forall b s', calm s' -> (bytes_left s' <= bytes_left s)%nat -> wp (k b) Q s') -> wp (do c <- _rym_read_code RYM_WAIT_PKG_TICK; k c) Q s.
Proof using. intros C Hk. apply wp_bind, any_code; [done | |]; intros; apply Hk; try done; lia. Qed.

Lemma any_fin_packet s Q : calm s -> (forall r s', calm s' -> (bytes_left s' <= bytes_left s)%nat -> Q r s') -> wp (fin_packet on_begin) Q s.
Proof using Hbegin.
  intros C HQ. apply wp_bind, any_put; [done|]. intros s1 C1 B1 _ _.
  apply any_code_then; [done|]. intros b s2 C2 B2. apply any_if; intros _; [apply wp_ret, HQ; [done | lia]|].
  apply wp_bind, any_put; [done|]. intros s3 C3 B3 _ _. apply wp_bind, any_put; [done|]. intros s4 C4 B4 _ _.
  apply any_code_then; [done|]. intros b' s5 C5 B5. apply any_if; intros _; [apply wp_ret, HQ; [done | lia]|]. cbv zeta.
  apply wp_bind, any_data; [done | done |]. intros i s6 t _ C6 _ _ B6 _. apply any_if; intros _; [apply wp_ret, HQ; [done | lia]|].
  apply wp_bind, any_at; [done | lia |]. intros b1. apply wp_bind, any_at; [done | lia |]. intros b2. apply any_if; intros _; [apply wp_ret, HQ; [done | lia]|].
  apply wp_bind, any_crc_at; [done | done |]. intros c1. apply wp_bind, any_crc; [done | done |]. intros c2. apply any_if; intros _; [apply wp_ret, HQ; [done | lia]|].
  apply wp_bind, any_at; [done | lia |]. intros b3. apply any_if; intros _.
  - apply any_begin; [done | destruct (b' =? RYM_CODE_SOH); [by left | by right] |]. intros r s7 C7 B7. apply HQ; [done | lia].
  - apply wp_bind, any_stage; [done|]. intros s7 C7 B7 _ _ _. apply wp_bind, any_put; [done|]. intros s8 C8 B8 _ _. apply wp_ret, HQ; [done | lia].
Qed.

Lemma any_fin s Q : calm s -> (forall r s', calm s' -> (bytes_left s' <= bytes_left s)%nat -> Q r s') -> wp (_rym_do_fin on_begin on_end) Q s.
Proof using Hbegin Hend.
  intros C HQ. apply wp_bind, any_stage; [done|]. intros s1 C1 B1 _ _ _. apply wp_bind.
  assert (Hgo : forall s2, calm s2 -> bytes_left s2 = bytes_left s1 -> wp (fin_packet on_begin) Q s2).
  { intros s2 C2 B2. apply any_fin_packet; [done|]. intros r s' C' B'. apply HQ; [done | lia]. }
  destruct on_end as [cb|]; [|apply wp_ret; by apply Hgo]. apply wp_bind. eapply any_call; [done | exact Hend | by left |].
  intros c s2 C2 B2 _. apply wp_ret. by apply Hgo.
Qed.

Lemma any_files fuel : forall s Q, calm s -> (bytes_left s < fuel)%nat -> (forall r s', calm s' -> Q r s') ->
  wp (files_loop on_begin on_data on_end fuel) Q s.
Proof using Hbegin Hdata Hend.
  induction fuel as [|fuel IH]; intros s Q C Hf HQ; [lia|]. cbn [files_loop]. apply wp_bind, any_trans; [done|]. intros r s1 C1 B1.
  destruct (Z.eqb_spec r 0) as [->|Hr]; cbn [negb]; [|by apply wp_ret, HQ]. specialize (B1 eq_refl).
  apply wp_bind, any_fin; [done|]. intros r s2 C2 B2. destruct (Z.eqb_spec r 0) as [->|Hr]; cbn [negb]; [|by apply wp_ret, HQ].
  apply wp_bind, wp_gets. case_bool_decide; [by apply wp_ret, HQ|]. apply IH; [done | lia | done].
Qed.

Lemma any_recv mem tm H s Q :
  match mem with Some junk => zlen junk = 1029 | None => True end ->
  Forall (fun e => 0 <= fst e) (future s) -> 0 <= sem s -> 0 <= time s -> horizon s <= H -> I (app s) -> 0 <= tm -> H + 3000 * tm + 3105 < 2 ^ 32 ->
  (forall r s', I (app s') -> Q r s') -> wp (_rym_do_recv on_begin on_data on_end mem tm) Q s.
Proof using Hbegin Hdata Hend.
  intros Hm Hg Hs Ht Hh HI Htm Hw HQ. apply wp_bind, wp_modify. destruct mem as [junk|]; [|by apply wp_ret, HQ]. apply wp_bind, wp_modify.
  apply wp_bind. eapply (any_handshake H); [|done | done |].
  { split; [split; [|done] | done | done]. eexists. by split. }
  intros r s1 C1. apply any_if; intros _; [by apply wp_ret, HQ, C1|]. apply wp_bind, wp_gets, any_files; [done | lia |].
  intros r' s' C'. by apply HQ, C'.
Qed.
End Total.

(** C39: the receiver ends on any line: whatever bytes come, whenever they come or stop to
    come, with callbacks that keep [I] given any data, it returns, has read and
    written inside its buffer only, and [I] holds.  The clock must not wrap before
    the last byte and the end of the handshake. *)
Theorem receiver_total {W} (I : W -> Prop) (on_begin on_data on_end : option rym_callback) (open : Z) (mem : option (list Z)) (tm : Z) (s : Rym W) :
  maybe_ok I on_begin -> maybe_ok I on_data -> maybe_ok I on_end ->
  match mem with Some junk => zlen junk = 1029 | None => True end ->
  Forall (fun e => 0 <= fst e) (future s) -> 0 <= time s -> 0 <= tm -> horizon s + 3000 * tm + 3105 < 2 ^ 32 -> I (app s) ->
  exists r s', rym_recv_on_device on_begin on_data on_end open mem tm s = Some (r, s') /\ I (app s').
Proof.
  intros Hb Hd He Hm Hg Ht Htm Hw HI.
  assert (H : wp (rym_recv_on_device on_begin on_data on_end open mem tm) (fun _ s' => I (app s')) s).
  { apply wp_bind, wp_modify. apply any_if; intros _; [by apply wp_ret|].
    by apply (any_recv I on_begin on_data on_end Hb Hd He mem tm (horizon s)). }
  apply wp_Some in H as (r & s' & E & H'). by exists r, s'.
Qed.

(** A user that counts the bytes of its blocks, and a line with a header, half a block
    and silence. *)
Definition count_bytes : rym_callback (W := Z) := fun _ n => run modify (Z.add n); ret RYM_CODE_ACK.
Definition broken_line : Rym Z :=
  mkRym RYM_STAGE_NONE [] 0 [9; 0] [(4000, packet RYM_CODE_SOH 0 (replicate 128 65)); (2000, [RYM_CODE_SOH; 1; 254; 7])] 5 [] 0.

Lemma receiver_total_witness :
  exists r s', rym_recv_on_device None (Some count_bytes) None 0 (Some (replicate 1029 0)) 1000 broken_line = Some (r, s') /\ 0 <= app s'.
Proof.
  apply (receiver_total (fun n => 0 <= n)).
  - exact I.
  - intros d n w Hw [-> | ->] _; cbn; lia.
  - exact I.
  - vm_compute. reflexivity.
  - repeat (apply Forall_cons; split; [cbn; lia|]). by apply Forall_nil.
  - cbn. lia.
  - lia.
  - vm_compute. reflexivity.
  - cbn. lia.
Defined.
