(* ===== verification/Console.v ===== *)
(** * An update from the console

    [ymodem_ota] of [src/ota/ymodem_ota.c]: the ymodem receiver with the callbacks of
    Ota, on the console's line. *)

From Stdlib Require Import String.
From S2P Require Import Prelude CStr Storage Ota Ymodem YmodemSpec YmodemRecv YmodemTotal.
Open Scope list_scope.

(** ** The command *)

Definition DEFAULT_DOWNLOAD_PART : string := "download".

Definition rym_code_value (c : rym_code) : Z := match c with Ota.RYM_CODE_ACK => 6 | Ota.RYM_CODE_CAN => 24 end.

Section Command.
Context {C : Type} `{Chips C}.

Definition begin_callback (recv_partition : string) : rym_callback (W := Ota C) := fun buf len =>
  do c <- ymodem_on_begin recv_partition buf; ret (rym_code_value c).
Definition data_callback : rym_callback (W := Ota C) := fun buf len =>
  do c <- ymodem_on_data buf len; ret (rym_code_value c).

(** [argv] after the name of the command.  The results: [recv_partition], and whether
    the system is restarted. *)
Definition ymodem_ota (open : Z) (mem : option (list Z)) (argv : list string) (recv_partition : string) : M (Rym (Ota C)) (string * bool) :=
  let receive (p : string) :=
    do r <- rym_recv_on_device (Some (begin_callback p)) (Some data_callback) None open mem 1000;
    ret (p, r =? 0) in
  match argv with
  | [] => receive DEFAULT_DOWNLOAD_PART
  | operator :: rest =>
      if String.eqb operator "-p" then
        match rest with [] => ret (recv_partition, false) | p :: _ => receive p end
      else ret (recv_partition, false)
  end.
End Command.

(** ** Blocks behind the end of the file

    The last block is filled up: only its first bytes belong to the file. *)

Section Blocks.
Context {C : Type} `{ChipLaws C}.
Implicit Types (o : Ota C).

Lemma write_pads c img n bs :
  chip_works (C := C) -> holds c (take (Z.to_nat n) img) n -> bytes_ok bs -> 0 <= n -> zlen img + zlen bs <= len download_part ->
  exists c', nor_write (offset download_part + zlen img) bs (zlen bs) c = Some (zlen bs, c') /\ holds c' (take (Z.to_nat n) (img ++ bs)) n.
Proof.
  intros [Hw _] [Himg Hblank] Hbs Hn Hfit. pose proof (zlen_nonneg img). pose proof (zlen_nonneg bs). rewrite download_len in Hfit.
  unfold nor_write, bind, lift_opt. rewrite prefix_all, u32_small by (rewrite download_offset; lia).
  pose proof (sfud_write_ok c (offset download_part + zlen img) bs) as Hok. pose proof (sfud_write_frame c (offset download_part + zlen img) bs) as Hfr.
  rewrite Hw in Hok. specialize (Hw c (offset download_part + zlen img) bs).
  destruct (sfud_write c (offset download_part + zlen img) bs) as [ok c']. cbn [fst snd] in *. subst ok. exists c'. split; [done|]. split.
  - intros i b Hi. apply lookup_take_Some in Hi as [Hi Hin]. apply lookup_app_Some in Hi as [Hi|[Hge Hi]].
    + rewrite Hfr; [by apply Himg; apply lookup_take_Some|]. apply lookup_lt_Some in Hi. unfold zlen. lia.
    + replace (offset download_part + Z.of_nat i) with (offset download_part + zlen img + Z.of_nat (i - length img)) by (unfold zlen; lia).
      rewrite (Hok _ b) by done.
      replace (offset download_part + zlen img + Z.of_nat (i - length img)) with (offset download_part + (zlen img + Z.of_nat (i - length img))) by lia.
      pose proof (lookup_lt_Some _ _ _ Hi). rewrite Hblank; [apply land_255; by eapply Forall_lookup_1 in Hbs|].
      unfold zlen in *. rewrite length_take. lia.
  - intros x Hx. unfold zlen in *. rewrite length_take, length_app in Hx. rewrite Hfr by (unfold zlen; lia). apply Hblank. unfold zlen. rewrite length_take. lia.
Qed.

(** On the way through a transfer of [n] bytes. *)
Definition receiving (img : list Z) (n : Z) o : Prop :=
  dl_part o = Some download_part /\ update_file_cur_size o = zlen img /\ holds (chips o) (take (Z.to_nat n) img) n.

Lemma block_taken o img n b :
  chip_works (C := C) -> receiving img n o -> bytes_ok b -> 0 <= n -> zlen (img ++ b) <= len download_part ->
  exists o', receiving (img ++ b) n o' /\ forall tail, data_callback (b ++ tail) (zlen b) o = Some (RYM_CODE_ACK, o').
Proof.
  intros Hw (Hd & Hc & Hh) Hb Hn Hfit. rewrite zlen_app in Hfit. pose proof (zlen_nonneg img). pose proof (zlen_nonneg b).
  destruct (write_pads (chips o) img n b) as (c' & E & Hh'); [done..|]. pose proof download_len as Hlen.
  exists (set_cur (u32 (update_file_cur_size o + zlen b)) (set_chips c' o)). split.
  - split; [done|]. cbn. split; [|done]. rewrite Hc, zlen_app. apply u32_small. lia.
  - intros tail. unfold data_callback, ymodem_on_data. unfold bind at 1 2, get. unfold bind at 1, on_chips, zoom. rewrite Hd, Hc.
    rewrite part_write_spec by (done || apply download_is_part || lia). rewrite (proj2 (Z.ltb_ge _ _)) by lia.
    assert (Et : nor_write (offset download_part + zlen img) (b ++ tail) (zlen b) (chips o) = Some (zlen b, c')).
    { rewrite <- E. unfold nor_write. by rewrite prefix_app, prefix_all. }
    rewrite Et. by rewrite (proj2 (Z.ltb_ge _ _)) by lia.
Qed.

Lemma blocks_taken n blocks : forall o img,
  chip_works (C := C) -> receiving img n o -> Forall bytes_ok blocks -> 0 <= n -> zlen (img ++ concat blocks) <= len download_part ->
  exists o', takes data_callback blocks o o' /\ receiving (img ++ concat blocks) n o'.
Proof.
  induction blocks as [|b blocks IH]; intros o img Hw Hr Hb Hn Hfit.
  - exists o. cbn. rewrite app_nil_r. split; [constructor | done].
  - apply Forall_cons in Hb as [Hb Hbs]. cbn [concat] in *. rewrite app_assoc in *.
    destruct (block_taken o img n b) as (o1 & Hr1 & E1); [done..| |].
    { rewrite zlen_app in Hfit. pose proof (zlen_nonneg (concat blocks)). lia. }
    destruct (IH o1 (img ++ b)) as (o2 & Ht & Hr2); [done..|]. exists o2. split; [by eapply takes_cons | done].
Qed.

Lemma header_taken o name n rest :
  chip_works (C := C) -> Forall (fun b => b <> 0) name -> 0 <= n <= len download_part ->
  exists o', receiving [] n o' /\ forall tail k, begin_callback "download" (ymodem_header name n rest ++ tail) k o = Some (Ymodem.RYM_CODE_ACK, o').
Proof.
  intros Hw Hname Hn. destruct (console_begins o name n Hw Hname Hn) as (c' & E & Hh).
  exists (mkOta c' n 0 (Some download_part)). split; [split; [done | split; [done | by rewrite take_nil]]|]. intros tail k.
  unfold begin_callback, bind.
  replace (ymodem_header name n rest ++ tail) with (ymodem_header name n (rest ++ tail)) by (unfold ymodem_header; by rewrite <- app_assoc, <- app_comm_cons, <- app_assoc).
  by rewrite E.
Qed.
End Blocks.

(** ** A whole update *)

Definition answers (n : nat) : list Z :=
  [Ymodem.RYM_CODE_C; Ymodem.RYM_CODE_ACK; Ymodem.RYM_CODE_C] ++ replicate n Ymodem.RYM_CODE_ACK
  ++ [Ymodem.RYM_CODE_NAK; Ymodem.RYM_CODE_ACK; Ymodem.RYM_CODE_C; Ymodem.RYM_CODE_ACK].

(** A line, with time left before the clock wraps, and gaps the receiver waits for. *)
Record comes {C} (s : Rym (Ota C)) (bs : list Z) : Prop := {
  cs_bytes : rxq s ++ concat (map snd (future s)) = bs;
  cs_gaps : Forall (fun e => 0 <= fst e <= 3000) (future s);
  cs_time : 0 <= time s;
  cs_clock : horizon s + 100 < 2 ^ 32
}.

(** Blocks with any numbers. *)
Lemma console_receives {C} `{ChipLaws C} (s : Rym (Ota C)) name rest n (ps : list (Z * list Z)) m junk part :
  chip_works (C := C) -> Forall (fun b => b <> 0) name -> zlen (ymodem_header name n rest) = 128 -> 0 <= n <= len download_part ->
  Forall (fun e => block_ok (snd e) /\ bytes_ok (snd e)) ps -> first_ok ps -> zlen (concat (map snd ps)) <= len download_part ->
  comes s (transfer m (ymodem_header name n rest) ps) -> zlen junk = 1029 ->
  exists s', ymodem_ota 0 (Some junk) [] part s = Some (("download"%string, true), s')
    /\ holds (chips (app s')) (take (Z.to_nat n) (concat (map snd ps))) n /\ out s' = out s ++ answers (length ps).
Proof.
  intros Hw Hname Hh Hn Hps Hfst Hfit [Hs Hg Ht Hz] Hj. apply Forall_and in Hps as [Hok Hb].
  destruct (header_taken (app s) name n rest Hw Hname Hn) as (o1 & Hr1 & E1).
  destruct (blocks_taken n (map snd ps) o1 [] Hw Hr1 ltac:(by apply Forall_map) (proj1 Hn) Hfit) as (o2 & Htk & _ & _ & Hh2).
  assert (H1 : wp (ymodem_ota 0 (Some junk) [] part) (fun r s' => r = ("download"%string, true) /\ app s' = o2 /\ out s' = out s ++ answers (length ps)) s).
  { apply wp_bind, wp_bind, wp_modify.
    eapply (recv_ok _ _ None m (ymodem_header name n rest) ps junk 1000 [] (out s) (app s) o1 o2 o2 (horizon s)); try done.
    - by rewrite app_nil_r.
    - intros s' S'. apply wp_ret. split; [done|]. split; [apply S' | apply S']. }
  apply wp_Some in H1 as ([p b] & s' & E & [= -> ->] & Ha & Ho). exists s'. rewrite Ha. split; [done|]. split; [exact Hh2 | exact Ho].
Qed.

(** C19: an update from the console.  However the bytes of a transfer arrive on the line,
    in whatever pieces and with whatever gaps the receiver waits for, the header sent
    again or not, the last block filled up: every block is acknowledged, the
    partition [download] then holds the file, and the system is restarted. *)
Theorem console_update {C} `{ChipLaws C} (s : Rym (Ota C)) (name rest : list Z) (n : Z) (blocks : list (list Z)) (m : nat) (junk : list Z) (part : string) :
  chip_works (C := C) -> Forall (fun b => b <> 0) name -> zlen (ymodem_header name n rest) = 128 -> 0 <= n <= len download_part ->
  Forall (fun b => block_ok b /\ bytes_ok b) blocks -> zlen (concat blocks) <= len download_part ->
  comes s (transfer m (ymodem_header name n rest) (numbered 1 blocks)) -> zlen junk = 1029 ->
  exists s', ymodem_ota 0 (Some junk) [] part s = Some (("download"%string, true), s')
    /\ holds (chips (app s')) (take (Z.to_nat n) (concat blocks)) n /\ out s' = out s ++ answers (length blocks).
Proof.
  intros Hw Hname Hh Hn Hb Hfit Hs Hj. rewrite <- (numbered_blocks 1 blocks) in Hb, Hfit |- *. rewrite length_map.
  apply (console_receives s name rest n _ m junk part); try done; [by apply Forall_map in Hb | by destruct blocks].
Qed.

(** The numbers of the blocks are not compared: a block that is sent again, because
    its acknowledgement was lost, is written again. *)
Theorem repeated_block_doubles {C} `{ChipLaws C} (s : Rym (Ota C)) (name rest b : list Z) (junk : list Z) (part : string) :
  chip_works (C := C) -> Forall (fun b => b <> 0) name -> zlen (ymodem_header name 256 rest) = 128 -> zlen b = 128 -> bytes_ok b ->
  comes s (transfer 0 (ymodem_header name 256 rest) [(1, b); (1, b)]) -> zlen junk = 1029 ->
  exists s', ymodem_ota 0 (Some junk) [] part s = Some (("download"%string, true), s') /\ holds (chips (app s')) (b ++ b) 256.
Proof.
  intros Hw Hname Hh Hlb Hb Hs Hj. pose proof download_len as Hlen.
  destruct (console_receives s name rest 256 [(1, b); (1, b)] 0 junk part) as (s' & E & Hh' & _); try done.
  - repeat (apply Forall_cons; split; [by split; [left|]|]). by apply Forall_nil.
  - cbn [map snd concat]. rewrite !zlen_app, zlen_nil. lia.
  - exists s'. split; [done|]. cbn [map snd concat] in Hh'. rewrite app_nil_r in Hh'. rewrite take_ge in Hh'; [done|].
    rewrite length_app. unfold zlen in Hlb. lia.
Qed.

(** ** On the chip in memory *)

Definition demo_header : list Z := ymodem_header (str "rt.bin") 200 (replicate 117 0).
Definition demo_blocks : list (list Z) := [replicate 128 7; replicate 72 8 ++ replicate 56 26].

(** Every byte comes alone, two ticks after the last. *)
Definition dripping (bs : list Z) : Rym (Ota mem_chip) :=
  mkRym RYM_STAGE_NONE [] 0 [] (map (fun b => (2, [b])) bs) 1000 [] ota_stopped.
Definition demo_junk : list Z := replicate 1029 165.

Lemma dripping_bytes bs : concat (map snd (map (fun b : Z => (2, [b])) bs)) = bs.
Proof. induction bs as [|b bs IH]; [done|]. cbn. by rewrite IH. Qed.
Lemma dripping_gaps bs : gaps (map (fun b : Z => (2, [b])) bs) = 2 * zlen bs.
Proof. induction bs as [|b bs IH]; [done|]. cbn [map]. rewrite gaps_cons, IH, zlen_cons. lia. Qed.

Lemma dripping_comes bs : zlen bs < 1000000 -> comes (dripping bs) bs.
Proof.
  intros Hl. split.
  - apply dripping_bytes.
  - apply Forall_map, Forall_forall. intros b _. cbn. lia.
  - done.
  - unfold horizon. cbn [time future dripping]. rewrite dripping_gaps. lia.
Qed.

Lemma name_ok : Forall (fun b => b <> 0) (str "rt.bin").
Proof. repeat (apply Forall_cons; split; [discriminate|]). by apply Forall_nil. Qed.

Lemma replicate_bytes k b : is_byte b -> bytes_ok (replicate k b).
Proof. intros Hb. by apply Forall_replicate. Qed.

Lemma demo_blocks_ok : Forall (fun b => block_ok b /\ bytes_ok b) demo_blocks.
Proof.
  apply Forall_cons. split; [split; [by left | apply replicate_bytes; unfold is_byte; lia]|].
  apply Forall_cons. split; [|by apply Forall_nil]. split; [by left|].
  apply Forall_app. split; apply replicate_bytes; unfold is_byte; lia.
Qed.

Lemma console_update_witness :
  exists s', ymodem_ota 0 (Some demo_junk) [] "app" (dripping (transfer 1 demo_header (numbered 1 demo_blocks))) = Some (("download"%string, true), s')
    /\ holds (chips (app s')) (replicate 128 7 ++ replicate 72 8) 200.
Proof.
  destruct (console_update (dripping (transfer 1 demo_header (numbered 1 demo_blocks))) (str "rt.bin") (replicate 117 0) 200 demo_blocks 1 demo_junk "app") as (s' & E & Hh & _).
  - exact mem_chip_works.
  - exact name_ok.
  - vm_compute. reflexivity.
  - rewrite download_len. lia.
  - exact demo_blocks_ok.
  - rewrite download_len. vm_compute. discriminate.
  - apply dripping_comes. vm_compute. reflexivity.
  - vm_compute. reflexivity.
  - exists s'. split; [exact E | exact Hh].
Defined.

Lemma repeated_block_doubles_witness :
  exists s', ymodem_ota 0 (Some demo_junk) [] "app" (dripping (transfer 0 (ymodem_header (str "rt.bin") 256 (replicate 117 0)) [(1, replicate 128 7); (1, replicate 128 7)]))
    = Some (("download"%string, true), s') /\ holds (chips (app s')) (replicate 128 7 ++ replicate 128 7) 256.
Proof.
  apply (repeated_block_doubles _ (str "rt.bin") (replicate 117 0) (replicate 128 7) demo_junk "app").
  - exact mem_chip_works.
  - exact name_ok.
  - vm_compute. reflexivity.
  - vm_compute. reflexivity.
  - apply replicate_bytes. unfold is_byte. lia.
  - apply dripping_comes. vm_compute. reflexivity.
  - vm_compute. reflexivity.
Defined.

(** The name in the header is not bounded: without a zero [rt_strlen] runs past the
    buffer. *)
Lemma unterminated_header_overruns :
  ymodem_ota 0 (Some demo_junk) [] "app" (dripping (packet Ymodem.RYM_CODE_STX 0 (replicate 1024 65))) = None.
Proof. vm_compute. reflexivity. Qed.
