(* ===== verification/Protocol.v ===== *)
(** * The commands of the WiFi module

    [data_handle] of [src/wifi/system.c] and the handlers of [src/wifi/protocol.c]
    it calls, in the configuration of [src/wifi/protocol.h].  A frame is what lies
    in the process buffer from its first byte on.

    The state adds to [World] the firmware download and the variables of
    [data_handle]; a reset of the processor ends everything, [halted].  Whether an
    allocation succeeds ([malloc_ok]), [pow(10.0, _)] of the mathematical library,
    and the value of an uninitialised variable ([junk]) are parameters. *)

From Stdlib Require Import String.
From S2P Require Import Prelude CStr McuTx McuRx Json JsonParse Cloud Flashwork RadioQueue Led World WifiApi Safe Decoder Link Button Storage Ota.
Open Scope list_scope.

Definition PRODUCT_INFO_CMD := 1.
Definition WORK_MODE_CMD := 2.
Definition WIFI_STATE_CMD := 3.
Definition PERMIT_SUBDEVICE_NETIN_CMD := 6.
Definition CLOSE_SUBDEVICE_NETIN_CMD := 7.
Definition STATE_QUERY_CMD := 11.
Definition DATA_ISSUED_CMD := 12.
Definition INFORM_DEV_DEV_DEL_CMD := 24.
Definition UPDATE_START_CMD := 29.
Definition UPDATE_TRANS_CMD := 30.
Definition SUBDEV_START_UPGRADE_CMD := 31.
Definition SUBDEV_TRANS_CMD := 32.
Definition QUR_SUBDEV_VER_CMD := 33.
Definition EXPAND_FUNC_CMD := 51.

Definition SUCCESS := 1.
Definition ERROR := 0.
Definition ENABLE := 1.
Definition DISABLE := 0.
Definition BUF_SIZE := 50.
Definition PACKAGE_SIZE := 2.
Definition MCU_VER : list Z := str "2.1.2".
Definition CONFIG_MODE := 0.
Definition CONFIG_MODE_CHOOSE := 1.
Definition GW_PRODUCT_KEY : list Z := str "rbptoajhwdfsdmbu".
Definition MAIN_PRODUCT_KEY : list Z := str "q3xnn9yqt55ifaxm".
(** The bits of [sub_ability], the third one set. *)
Definition sub_ability : Z := 4.
Definition DPID_DELAY_TIME := 110.
Definition DPID_NORMAL_STATA := 111.

Definition download_cmd : list (Z * Z) := [
  (DPID_DEVICE_STATE, DP_TYPE_BOOL); (DPID_VALVE1_CHECK_FAIL, DP_TYPE_BOOL); (DPID_DEVICE_ALARM, DP_TYPE_BOOL);
  (DPID_CONTROL_STATE, DP_TYPE_BOOL); (DPID_SIGN_STATE, DP_TYPE_ENUM); (DPID_DELAY_STATE, DP_TYPE_BOOL);
  (DPID_TEMP_STATE, DP_TYPE_BOOL); (DPID_DOOR_ID, DP_TYPE_VALUE); (DPID_LINE_STATE, DP_TYPE_BOOL);
  (DPID_DELAY_TIME, DP_TYPE_ENUM); (DPID_NORMAL_STATA, DP_TYPE_BOOL); (DPID_SELF_ID, DP_TYPE_VALUE);
  (DPID_VALVE2_CHECK_FAIL, DP_TYPE_BOOL); (DPID_VALVE1_CHECK_SUCCESS, DP_TYPE_BOOL);
  (DPID_VALVE2_CHECK_SUCCESS, DP_TYPE_BOOL)].

(** [atol] at a pointer: reading stops at the character after the number, which
    must be there. *)
Definition atol_at (mem : list Z) : option Z :=
  match skip_spaces mem with
  | [] => None
  | c :: r =>
      let l := if (c =? 45) || (c =? 43) then r else c :: r in
      match snd (scan_digits l 0) with [] => None | _ => Some (atol mem) end
  end.

(** ** State *)

Record Firm := mkFirm { firm_length : Z; firm_update_flag : Z; firm_size : Z }.

Record Sys (E C : Type) := mkSys {
  s_world : World E; s_ota : Ota C; s_firm : Firm; halted : bool
}.
Arguments mkSys {E C}. Arguments s_world {E C}. Arguments s_ota {E C}. Arguments s_firm {E C}. Arguments halted {E C}.

Section Lenses.
Context {E C : Type}.
Definition set_world (w : World E) (s : Sys E C) : Sys E C := mkSys w (s_ota s) (s_firm s) (halted s).
Definition set_ota (o : Ota C) (s : Sys E C) : Sys E C := mkSys (s_world s) o (s_firm s) (halted s).
Definition set_firm (f : Firm) (s : Sys E C) : Sys E C := mkSys (s_world s) (s_ota s) f (halted s).
Definition set_halted (b : bool) (s : Sys E C) : Sys E C := mkSys (s_world s) (s_ota s) (s_firm s) b.

#[global] Instance lens_world : Lens (Sys E C) (World E).
Proof. refine {| view := s_world; over := set_world |}; by (intros; repeat match goal with s : Sys _ _ |- _ => destruct s end). Defined.
#[global] Instance lens_ota : Lens (Sys E C) (Ota C).
Proof. refine {| view := s_ota; over := set_ota |}; by (intros; repeat match goal with s : Sys _ _ |- _ => destruct s end). Defined.
#[global] Instance lens_firm : Lens (Sys E C) Firm.
Proof. refine {| view := s_firm; over := set_firm |}; by (intros; repeat match goal with s : Sys _ _ |- _ => destruct s end). Defined.
End Lenses.

(** ** Handlers that act on [World] *)

Section Handlers.
Context {E : Type} `{Env E} (pow10 : double -> double) (malloc_ok : Z -> bool) (junk : Z).
Abbreviation WM := (M (World E)).

(** [product_info_update]: [length] has eight bits. *)
Definition product_info_update (pid_flag : Z) : WM unit :=
  on (let root := cJSON_CreateObject in
      do root <- AddString (str "v") MCU_VER root;
      do root <- AddNumber (str "m") CONFIG_MODE root;
      do root <- AddNumber (str "cap") sub_ability root;
      do root <- (if pid_flag =? 1 then AddString (str "p") GW_PRODUCT_KEY root else ret root);
      do root <- (if pid_flag =? 2 then AddString (str "p") MAIN_PRODUCT_KEY root else ret root);
      do root <- AddNumber (str "n") CONFIG_MODE_CHOOSE root;
      do root <- AddNumber (str "s") 0 root;
      send_json u8 PRODUCT_INFO_CMD root).

Definition get_mcu_wifi_mode : WM unit := on (wifi_uart_write_frame WORK_MODE_CMD MCU_TX_VER 0).

(** *** Data points *)

Definition get_download_cmd_total : Z := zlen download_cmd.

Fixpoint dpid_index (dpid : Z) (l : list (Z * Z)) (index : Z) : Z :=
  match l with
  | [] => index
  | d :: l' => if fst d =? dpid then index else dpid_index dpid l' (index + 1)
  end.
Definition get_dowmload_dpid_index (dpid : Z) : Z := dpid_index dpid download_cmd 0.

Definition mcu_get_dp_download_bool (value : list Z) : WM Z := lift_opt (aget value 0).

Definition dp_download_control_state_handle (value : list Z) (sub_id_buf : list Z) (sub_id_len : Z) : WM Z :=
  do device_id <- lift_opt (option_map u32 (atol_at sub_id_buf));
  do control_state <- mcu_get_dp_download_bool value;
  run (if control_state =? 0 then Moto_CloseRemote device_id else Moto_OpenRemote device_id);
  do r <- on (mcu_dp_bool_update DPID_CONTROL_STATE control_state (Some sub_id_buf) sub_id_len);
  ret (if r =? SUCCESS then SUCCESS else ERROR).

(** For the other data points the result is never set. *)
Definition dp_download_handle (dpid : Z) (value : list Z) (sub_id_buf : list Z) (sub_id_len : Z) : WM Z :=
  if dpid =? DPID_CONTROL_STATE then dp_download_control_state_handle value sub_id_buf sub_id_len
  else ret junk.

Definition data_point_handle (value : list Z) (sub_id_buf : list Z) (sub_id_len : Z) : WM Z :=
  do dp_id <- lift_opt (aget value 0);
  do dp_type <- lift_opt (aget value 1);
  run (lift_opt (aget value 2) : WM Z);
  run (lift_opt (aget value 3) : WM Z);
  let index := get_dowmload_dpid_index dp_id in
  do entry <- lift_opt (aget download_cmd index);
  if negb (dp_type =? snd entry) then ret 0
  else dp_download_handle dp_id (drop 4 value) sub_id_buf sub_id_len.

(** The array of [BUF_SIZE] bytes on the stack, after [my_memset] and [my_memcpy]. *)
Definition sub_id_of (src : list Z) (sub_id_len : Z) : option (list Z) :=
  blit (replicate (Z.to_nat BUF_SIZE) 0) 0 src sub_id_len.

(** [for (i = 1 + sub_id_len; i < total_len; )]; [data] is the frame's data. *)
Fixpoint issued_loop (fuel : nat) (data : list Z) (i total_len : Z) (sub_id_buf : list Z) (sub_id_len : Z) : WM unit :=
  match fuel with
  | O => fault
  | S k =>
      if i <? total_len then
        do lh <- lift_opt (aget data (i + 2));
        do ll <- lift_opt (aget data (i + 3));
        let dp_len := Z.lor (Z.shiftl lh 8) ll in
        run data_point_handle (drop (Z.to_nat i) data) sub_id_buf sub_id_len;
        issued_loop k data (u16 (i + (dp_len + 4))) total_len sub_id_buf sub_id_len
      else ret tt
  end.

(** Every data point has four bytes before its value. *)
Definition ISSUED_FUEL (total_len : Z) : nat := S (Z.to_nat total_len).

Definition data_issued (data : list Z) (total_len : Z) : WM unit :=
  do sub_id_len <- lift_opt (aget data 0);
  do sub_id_buf <- lift_opt (sub_id_of (drop 1 data) sub_id_len);
  issued_loop (ISSUED_FUEL total_len) data (1 + sub_id_len) total_len sub_id_buf sub_id_len.

(** *** Messages in JSON *)

(** The text is copied and closed with a zero; a parse error ends the handler. *)
Definition with_json (data : list Z) (data_len : Z) (k : cJSON -> WM unit) : WM unit :=
  do text <- lift_opt (prefix data data_len);
  match cJSON_Parse pow10 (text ++ [0]) with
  | Fault => fault
  | Null => ret tt
  | Got root => k root
  end.

Definition member (root : cJSON) (name : string) (k : cJSON -> WM unit) : WM unit :=
  match cJSON_GetObjectItem root (str name) with
  | None => ret tt
  | Some item => k item
  end.

(** [atol(NULL)] reads through the null pointer. *)
Definition subdevice_delete (data : list Z) (data_len : Z) : WM unit :=
  with_json data data_len (fun root =>
    member root "sub_id" (fun item =>
      let sub_id := valuestring item in
      member root "tp" (fun _ =>
        do s <- lift_opt sub_id;
        Remote_Delete (u32 (atol s))))).

Definition heart_beat_check (data : list Z) (data_len : Z) : WM unit :=
  with_json data data_len (fun root =>
    member root "sub_id" (fun item =>
      do s <- lift_opt (valuestring item);
      Heart_Request s)).

Definition qur_subdev_ver_get (data : list Z) (data_len : Z) : WM unit :=
  with_json data data_len (fun root => member root "sub_id" (fun _ => ret tt)).

Definition qur_subdev_ver_report (sub_id mcu_ver : list Z) : WM unit :=
  on (let root := cJSON_CreateObject in
      do root <- AddString (str "sub_id") sub_id root;
      do root <- AddString (str "ver") mcu_ver root;
      send_json u16 QUR_SUBDEV_VER_CMD root).

(** *** The list of devices the cloud knows *)

(** [sizeof(tSUB_NODE)]: a length and 32 characters. *)
Definition NODE : Z := 33.

(** [offset] has eight bits; [block] is the array of nodes. *)
Fixpoint list_loop (n : nat) (i offset : Z) (buf block : list Z) : WM unit :=
  match n with
  | O => ret tt
  | S k =>
      do l <- lift_opt (aget buf offset);
      do block <- lift_opt (blit block (NODE * i) (drop (Z.to_nat offset) buf) (l + 1));
      do id <- lift_opt (atol_at (drop (Z.to_nat (NODE * i + 1)) block));
      run Remote_Device_Add (u32 id);
      list_loop k (i + 1) (u8 (offset + (l + 1))) buf block
  end.

Definition local_subdev_list (buf : list Z) : WM unit :=
  do b0 <- lift_opt (aget buf 0);
  let next_package_flag := Z.land (Z.shiftr b0 7) 1 in
  do sub_node_num <- lift_opt (aget buf 1);
  if negb (malloc_ok (NODE * sub_node_num)) then Sync_Request else
  run list_loop (Z.to_nat sub_node_num) 0 2 buf (replicate (Z.to_nat (NODE * sub_node_num)) 0);
  if next_package_flag =? 0 then Sync_Request else ret tt.

Definition upgrade_package_choose (package_sz : Z) : WM unit :=
  on (do length <- set_wifi_uart_byte 0 package_sz;
      wifi_uart_write_frame UPDATE_START_CMD MCU_TX_VER length).

Definition subdev_upgrade_package_choose (package_sz : Z) : WM unit :=
  on (do length <- set_wifi_uart_byte 0 package_sz;
      wifi_uart_write_frame SUBDEV_START_UPGRADE_CMD MCU_TX_VER length).

Definition subdev_firm_update_handle : WM Z := ret SUCCESS.
End Handlers.

(** ** The dispatcher *)

Section Dispatch.
Context {E C : Type} `{EnvDefault E} `{Chips C}.
Context (pow10 : double -> double) (malloc_ok : Z -> bool) (junk : Z).
Abbreviation SM := (M (Sys E C)).

Definition in_world {A} (m : M (World E) A) : SM A := on m.
Definition in_ota {A} (m : M (Ota C) A) : SM A := on m.
Definition firm {A} (f : Firm -> A) : SM A := on (gets f).
Definition set_length (n : Z) : SM unit := on (modify (fun f => mkFirm n (firm_update_flag f) (firm_size f))).
Definition set_flag (n : Z) : SM unit := on (modify (fun f => mkFirm (firm_length f) n (firm_size f))).
Definition set_size (n : Z) : SM unit := on (modify (fun f => mkFirm (firm_length f) (firm_update_flag f) n)).
Definition set_stop (n : Z) : SM unit := in_world (on (modify (set_stop_update_flag n))).

Definition rt_hw_cpu_reset : SM unit := modify (set_halted true).

Definition inform_dev_del_status (result : Z) : SM unit :=
  if result =? 0 then rt_hw_cpu_reset
  else if result =? 3 then run in_world ef_env_set_default; rt_hw_cpu_reset
  else ret tt.

(** No result: the processor was reset. *)
Definition mcu_firm_update_handle (value : list Z) (position length : Z) : SM (option Z) :=
  let length := u16 length in
  if length =? 0 then run rt_hw_cpu_reset; ret None
  else run in_ota (wifi_ota_receive value position length); ret (Some SUCCESS).

(** The two bytes of a length, the four bytes of a position. *)
Definition byte_at (buf : list Z) (i : Z) : SM Z := lift_opt (aget buf i).
Definition length_at (buf : list Z) : SM Z :=
  do h <- byte_at buf LENGTH_HIGH;
  do l <- byte_at buf LENGTH_LOW;
  ret (Z.lor (Z.shiftl h 8) l).
Definition word_at (buf : list Z) (i : Z) : SM Z :=
  do a <- byte_at buf i;
  do b <- byte_at buf (i + 1);
  do c <- byte_at buf (i + 2);
  do d <- byte_at buf (i + 3);
  ret (u32 (Z.lor (Z.shiftl (u32 (Z.lor (Z.shiftl (u32 (Z.lor (Z.shiftl a 8) b)) 8) c)) 8) d)).
Definition frame_data (buf : list Z) : list Z := drop (Z.to_nat DATA_START) buf.

Definition choose_size : SM unit :=
  let firm_flag := PACKAGE_SIZE in
  if firm_flag =? 0 then set_size 256
  else if firm_flag =? 1 then set_size 512
  else if firm_flag =? 2 then set_size 1024
  else ret tt.

Definition update_start (buf : list Z) : SM unit :=
  run choose_size;
  do n <- word_at buf DATA_START;
  run set_length n;
  run in_world (upgrade_package_choose PACKAGE_SIZE);
  run set_flag UPDATE_START_CMD;
  in_ota (wifi_ota_begin n).

Definition update_trans (buf : list Z) : SM unit :=
  do flag <- firm firm_update_flag;
  if negb (flag =? UPDATE_START_CMD) then ret tt else
  run set_stop ENABLE;
  do total_len <- length_at buf;
  do dp_len_up <- word_at buf DATA_START;
  let firmware_addr := drop (Z.to_nat (DATA_START + 4)) buf in
  do n <- firm firm_length;
  do size <- firm firm_size;
  do r <- (if (total_len =? 4) && (dp_len_up =? n) then
             do r <- mcu_firm_update_handle firmware_addr dp_len_up 0;
             match r with
             | None => ret None
             | Some v => run set_flag 0; ret (Some v)
             end
           else if total_len - 4 <=? size then mcu_firm_update_handle firmware_addr dp_len_up (total_len - 4)
           else run set_flag 0; ret (Some ERROR));
  match r with
  | None => ret tt
  | Some v =>
      run (if v =? SUCCESS then in_world (on (wifi_uart_write_frame UPDATE_TRANS_CMD MCU_TX_VER 0)) else ret tt);
      set_stop DISABLE
  end.

Definition subdev_start (buf : list Z) : SM unit :=
  run choose_size;
  do sub_id_len <- byte_at buf DATA_START;
  run (lift_opt (sub_id_of (drop (Z.to_nat (DATA_START + 1)) buf) sub_id_len) : SM (list Z));
  do n <- word_at buf (DATA_START + 1 + sub_id_len);
  run set_length n;
  run in_world (subdev_upgrade_package_choose PACKAGE_SIZE);
  set_flag SUBDEV_START_UPGRADE_CMD.

Definition subdev_trans (buf : list Z) : SM unit :=
  do flag <- firm firm_update_flag;
  if negb (flag =? SUBDEV_START_UPGRADE_CMD) then ret tt else
  run set_stop ENABLE;
  do total_len <- length_at buf;
  do sub_id_len <- byte_at buf DATA_START;
  run (lift_opt (sub_id_of (drop (Z.to_nat (DATA_START + 1)) buf) sub_id_len) : SM (list Z));
  do dp_len_up <- word_at buf (DATA_START + 1 + sub_id_len);
  do n <- firm firm_length;
  do size <- firm firm_size;
  do r <- (if (total_len =? 4 + 1 + sub_id_len) && (dp_len_up =? n) then
             do r <- in_world subdev_firm_update_handle;
             run set_flag 0;
             ret r
           else if total_len - 4 - sub_id_len - 1 <=? size then in_world subdev_firm_update_handle
           else run set_flag 0; ret ERROR);
  run (if r =? SUCCESS then in_world (on (wifi_uart_write_frame SUBDEV_TRANS_CMD MCU_TX_VER 0)) else ret tt);
  set_stop DISABLE.

Definition wifi_state (buf : list Z) : SM unit :=
  do state <- byte_at buf DATA_START;
  run in_world (link_set (fun w => put_work_state w state));
  run in_world (on (wifi_uart_write_frame WIFI_STATE_CMD MCU_TX_VER 0));
  in_world (wifi_status_change state).

Definition subdevice_delete_cmd (buf : list Z) : SM unit :=
  do total_len <- length_at buf;
  run in_world (subdevice_delete pow10 (frame_data buf) total_len);
  in_world (on (wifi_uart_write_frame SUBDEVICE_DELETTE_CMD MCU_TX_VER 0)).

(** The [switch] on the command. *)
Definition command (cmd_type : Z) (buf : list Z) : SM unit :=
  let result (k : Z -> SM unit) := bind (byte_at buf DATA_START) k in
  if cmd_type =? PRODUCT_INFO_CMD then
    do v <- byte_at buf PROTOCOL_VERSION; in_world (product_info_update v)
  else if cmd_type =? WORK_MODE_CMD then in_world get_mcu_wifi_mode
  else if cmd_type =? WIFI_STATE_CMD then wifi_state buf
  else if cmd_type =? WIFI_RESET_CMD then in_world (link_set (fun w => put_reset_flag w RESET_WIFI_SUCCESS))
  else if cmd_type =? WIFI_MODE_CMD then in_world (link_set (fun w => put_mode_flag w SET_WIFICONFIG_SUCCESS))
  else if cmd_type =? PERMIT_SUBDEVICE_NETIN_CMD then
    run in_world (link_set (fun w => put_net_in w 1));
    in_world (on (wifi_uart_write_frame PERMIT_SUBDEVICE_NETIN_CMD MCU_TX_VER 0))
  else if cmd_type =? CLOSE_SUBDEVICE_NETIN_CMD then
    run in_world (link_set (fun w => put_net_in w 0));
    in_world (on (wifi_uart_write_frame CLOSE_SUBDEVICE_NETIN_CMD MCU_TX_VER 0))
  else if cmd_type =? SUBDEVICE_ADD_CMD then result (fun _ => ret tt)
  else if cmd_type =? SUBDEVICE_DELETTE_CMD then subdevice_delete_cmd buf
  else if cmd_type =? HEART_CHECK_CMD then
    do total_len <- length_at buf; in_world (heart_beat_check pow10 (frame_data buf) total_len)
  else if cmd_type =? STATE_QUERY_CMD then ret tt
  else if cmd_type =? DATA_ISSUED_CMD then
    do total_len <- length_at buf; in_world (data_issued junk (frame_data buf) total_len)
  else if cmd_type =? WIFI_TEST_CMD then
    do rssi <- byte_at buf (DATA_START + 1); result (fun r => in_world (wifi_test_result r rssi))
  else if cmd_type =? GET_WIFI_STATUS_CMD then result (fun _ => ret tt)
  else if cmd_type =? INFORM_DEV_DEV_DEL_CMD then result inform_dev_del_status
  else if cmd_type =? LOCAL_SUBDEV_DEL_CMD then result (fun _ => ret tt)
  else if cmd_type =? LOCAL_ADD_SUBDEV_LIMIT_CMD then result (fun _ => ret tt)
  else if cmd_type =? QUR_SUBDEV_LIST_CMD then in_world (local_subdev_list malloc_ok (frame_data buf))
  else if cmd_type =? UPDATE_START_CMD then update_start buf
  else if cmd_type =? UPDATE_TRANS_CMD then update_trans buf
  else if cmd_type =? SUBDEV_START_UPGRADE_CMD then subdev_start buf
  else if cmd_type =? SUBDEV_TRANS_CMD then subdev_trans buf
  else if cmd_type =? QUR_SUBDEV_VER_CMD then
    do total_len <- length_at buf; in_world (qur_subdev_ver_get pow10 (frame_data buf) total_len)
  else if cmd_type =? UPDATA_SUBDEV_ONLINE_STATE_CMD then result (fun _ => ret tt)
  else if cmd_type =? EXPAND_FUNC_CMD then result (fun _ => ret tt)
  else ret tt.

(** After a reset there is no program left to run. *)
Definition data_handle (buf : list Z) : SM unit :=
  do s <- get;
  if halted s then ret tt else
  do cmd_type <- byte_at buf FRAME_TYPE;
  command cmd_type buf.

(** The start of the program after a reset: the store is all that is left. *)
Definition boot (s : Sys E C) : option (Flash E) :=
  match LoadDevice2Memory (mkFlash dev0 (env (w_flash (s_world s)))) with
  | Some (_, f) => Some f
  | None => None
  end.
End Dispatch.
