(* ===== verification/ProtoSpec.v ===== *)
(** * What the commands of the WiFi module do

    The handlers of [Protocol], frame by frame: a control command, the list of
    devices, the removal of a device, the query of a device's state, the removal
    of the gateway, and the download of new firmware.  [carries] says that a
    buffer begins with the frame of a command. *)

From Stdlib Require Import String.
From S2P Require Import Prelude CStr McuTx McuRx Json JsonParse Cloud Flashwork RadioQueue Led World WifiApi WifiSpec Safe Decoder Link Button Storage Ota Protocol.
Open Scope list_scope.

(** ** Frames *)

Definition carries (cmd : Z) (p buf : list Z) : Prop :=
  zlen p < 65536 /\ exists ver rest, buf = frame cmd ver p ++ rest.

Lemma lor_bytes h l : 0 <= h -> is_byte l -> Z.lor (Z.shiftl h 8) l = h * 256 + l.
Proof.
  intros Hh [Hl0 Hl]. rewrite Z.shiftl_mul_pow2 by lia. change (2 ^ 8) with 256.
  rewrite <- Z.add_lor_land, (Z.land_comm (h * 256)).
  enough (Z.land l (h * 256) = 0) as -> by lia.
  apply Z.bits_inj_iff'. intros n Hn. rewrite Z.land_spec, Z.bits_0.
  destruct (Z.ltb_spec n 8).
  - change 256 with (2 ^ 8). rewrite Z.mul_pow2_bits_low by lia. by rewrite andb_false_r.
  - rewrite (Z.bits_above_log2 l); [done | lia|].
    destruct (Z.eq_dec l 0) as [->|]; [cbn; lia|].
    enough (Z.log2 l < 8) by lia. apply Z.log2_lt_pow2; lia.
Qed.

Section Frames.
Context {E C : Type} `{EnvDefault E} `{Chips C}.
Implicit Types (s : Sys E C).

Lemma carries_split cmd p buf :
  carries cmd p buf ->
  exists ver rest, buf = [FRAME_FIRST; FRAME_SECOND; ver; cmd; zlen p / 256; zlen p mod 256] ++ p ++ rest.
Proof.
  intros (_ & ver & rest & ->). exists ver, ([sum8 (frame_body cmd ver p)] ++ rest).
  unfold frame, frame_body. by rewrite <- !app_assoc.
Qed.

Lemma carries_type cmd p buf : carries cmd p buf -> aget buf FRAME_TYPE = Some cmd.
Proof. intros (ver & rest & ->)%carries_split. done. Qed.

Lemma carries_length cmd p buf s : carries cmd p buf -> length_at (E := E) (C := C) buf s = Some (zlen p, s).
Proof.
  intros Hc. pose proof (zlen_nonneg p). destruct Hc as [Hl Hc].
  destruct (carries_split cmd p buf (conj Hl Hc)) as (ver & rest & ->).
  unfold length_at, byte_at, bind, lift_opt, ret. cbn [aget].
  change (aget _ LENGTH_HIGH) with (Some (zlen p / 256)). change (aget _ LENGTH_LOW) with (Some (zlen p mod 256)).
  cbn [bind]. rewrite lor_bytes; [|by apply Z.div_pos | by apply Z.mod_pos_bound].
  do 2 f_equal. rewrite Z.mul_comm. symmetry. by apply Z.div_mod.
Qed.

Lemma carries_data cmd p buf : carries cmd p buf -> exists rest, frame_data buf = p ++ rest.
Proof. intros (ver & rest & ->)%carries_split. by exists rest. Qed.

Lemma carries_at cmd p buf i x :
  carries cmd p buf -> 0 <= i -> aget p i = Some x -> aget buf (DATA_START + i) = Some x.
Proof.
  intros (ver & rest & ->)%carries_split Hi Hx. rewrite aget_lookup in Hx |- * by (unfold DATA_START; lia).
  rewrite lookup_app_r by (unfold DATA_START; cbn; lia).
  replace (Z.to_nat (DATA_START + i) - _)%nat with (Z.to_nat i) by (unfold DATA_START; cbn; lia).
  by apply lookup_app_l_Some.
Qed.

Lemma wp_command pow10 malloc_ok junk cmd p buf (Q : unit -> Sys E C -> Prop) s :
  halted s = false -> carries cmd p buf ->
  wp (command pow10 malloc_ok junk cmd buf) Q s -> wp (data_handle pow10 malloc_ok junk buf) Q s.
Proof.
  intros Hh Hc HQ. unfold data_handle, wp, bind, get, byte_at, lift_opt.
  by rewrite Hh, (carries_type _ _ _ Hc).
Qed.

Lemma wp_in_world {A} (m : M (World E) A) (Q : A -> Sys E C -> Prop) s :
  wp m (fun a w => Q a (set_world w s)) (s_world s) -> wp (in_world m) Q s.
Proof. intros HQ. unfold in_world. by apply wp_on. Qed.

Lemma wp_byte buf i x (Q : Z -> Sys E C -> Prop) s :
  aget buf i = Some x -> Q x s -> wp (byte_at buf i) Q s.
Proof. intros Hx HQ. unfold byte_at, wp, lift_opt. by rewrite Hx. Qed.

Lemma wp_length cmd p buf (Q : Z -> Sys E C -> Prop) s :
  carries cmd p buf -> Q (zlen p) s -> wp (length_at buf) Q s.
Proof. intros Hc HQ. unfold wp. by rewrite (carries_length cmd p). Qed.
End Frames.

(** ** Control *)

Definition control_point (b : Z) : list Z := [DPID_CONTROL_STATE; DP_TYPE_BOOL; 0; 1; b].

(** A control command for one device, with the values for its valve. *)
Definition control_payload (id : Z) (bs : list Z) : list Z :=
  zlen (fmt_ld id) :: fmt_ld id ++ concat (map control_point bs).

Definition control_entry (id b : Z) : Entry := mkEntry 1 id 0 0 2 (if b =? 0 then 0 else 1).

Lemma control_entry_ok id b : 0 <= id < 2 ^ 32 -> entry_ok (control_entry id b).
Proof.
  intros Hid. split; [by right|]. cbn [control_entry Taget_Id Device_Id Counter Command Data].
  split_and!; try lia; try done. by destruct (b =? 0).
Qed.

(** The queue takes what there is room for. *)
Definition queued (es : list Entry) (r r' : Radio) : Prop :=
  radio_ok r' /\ air r' = air r /\ Self_Id r' = Self_Id r
  /\ RadioQueue.waiting r' = RadioQueue.waiting r ++ take (Z.to_nat (30 - TargetNum r)) es.

Lemma queued_nil r : radio_ok r -> queued [] r r.
Proof. intros Hr. split_and!; try done. by rewrite take_nil, app_nil_r. Qed.

Lemma queued_cons e r (Q : Radio -> Prop) :
  radio_ok r -> entry_ok e ->
  (forall r1, radio_ok r1 -> (forall es r', queued es r1 r' -> queued (e :: es) r r') -> Q r1) ->
  wp (enqueue e) (fun _ r1 => Q r1) r.
Proof.
  intros Hr He HQ. apply wp_enqueue_ok; [done | done | intros Hf | intros Hlt r1 H1 Hw Ha Hs _ Ht].
  - apply HQ; [done|]. intros es r' (? & ? & ? & E). split_and!; try done. revert E.
    by replace (Z.to_nat (30 - TargetNum r)) with 0%nat by lia.
  - apply HQ; [done|]. intros es r' (? & E1 & E2 & E). split_and!; [done | congruence | congruence |].
    rewrite E, Hw, Ht. replace (Z.to_nat (30 - TargetNum r)) with (S (Z.to_nat (30 - (TargetNum r + 1)))) by lia.
    by rewrite <- app_assoc.
Qed.

Lemma blit_src_app mem dest l z n :
  0 <= n <= zlen l -> blit mem dest (l ++ z) n = blit mem dest l n.
Proof.
  intros Hn. unfold blit. pose proof (zlen_nonneg z). rewrite zlen_app.
  rewrite (proj2 (Z.leb_le n (zlen l + zlen z))), (proj2 (Z.leb_le n (zlen l))) by lia.
  by rewrite take_app_le by (unfold zlen in *; lia).
Qed.

Lemma bool_update_padded dpid v l z n s :
  n = zlen l -> zlen l < 256 ->
  mcu_dp_bool_update dpid v (Some (l ++ z)) n s = mcu_dp_bool_update dpid v (Some l) n s.
Proof.
  intros -> Hl. pose proof (zlen_nonneg l).
  assert (Hb : forall d x, set_wifi_uart_buffer d (Some (l ++ z)) (u8 (zlen l)) x
                           = set_wifi_uart_buffer d (Some l) (u8 (zlen l)) x).
  { intros d x. unfold set_wifi_uart_buffer, bind, gets, lift_opt.
    rewrite (u8_small (zlen l)) by (unfold is_byte; lia). rewrite (u16_small (zlen l)) by lia.
    by rewrite blit_src_app by lia. }
  unfold mcu_dp_bool_update. cbv zeta. apply bind_ext. intros stop s1. case_match; [done|].
  apply bind_ext. intros d s2. unfold bind at 1. rewrite Hb. done.
Qed.

(** A zero byte ends the number. *)
Lemma atol_at_stops l r : atol_at (l ++ 0 :: r) = Some (atol (l ++ 0 :: r)).
Proof.
  assert (Hdig : forall l a, snd (scan_digits (l ++ 0 :: r) a) <> []).
  { clear l. intros l. induction l as [|x l IH]; intros a; cbn [app scan_digits]; [done|].
    by destruct (is_digit x). }
  assert (Hsk : exists l', skip_spaces (l ++ 0 :: r) = l' ++ 0 :: r).
  { clear Hdig. induction l as [|x l IH]; cbn [app skip_spaces]; [by exists []|].
    destruct (is_space x); [done | by exists (x :: l)]. }
  unfold atol_at. destruct Hsk as (l' & ->). destruct l' as [|x l']; cbn [app]; [done|].
  pose proof (Hdig l' 0). pose proof (Hdig (x :: l') 0). cbn [app] in *.
  destruct ((x =? 45) || (x =? 43)); by case_match.
Qed.

(** Nor does the zero matter to the number. *)
Lemma atol_zero l r : atol (l ++ 0 :: r) = atol l.
Proof.
  assert (Hdig : forall l a, fst (scan_digits (l ++ 0 :: r) a) = fst (scan_digits l a)).
  { clear l. intros l. induction l as [|x l IH]; intros a; cbn [app scan_digits]; [done|]. by destruct (is_digit x). }
  assert (Hsk : skip_spaces (l ++ 0 :: r) = skip_spaces l ++ 0 :: r).
  { clear Hdig. induction l as [|x l IH]; cbn [app skip_spaces]; [done|]. by destruct (is_space x). }
  unfold atol, scan_int. rewrite Hsk. destruct (skip_spaces l) as [|x m]; [done|]. clear Hsk l. cbn [app].
  assert (Hn : forall neg : bool, forall l1,
    match (match l1 ++ 0 :: r with
           | c :: _ => if is_digit c then let '(v, q) := scan_digits (l1 ++ 0 :: r) 0 in
                         Some (clamp32 (if neg then - v else v), q) else None
           | [] => None end) with Some (v, _) => v | None => 0 end
    = match (match l1 with
           | c :: _ => if is_digit c then let '(v, q) := scan_digits l1 0 in
                         Some (clamp32 (if neg then - v else v), q) else None
           | [] => None end) with Some (v, _) => v | None => 0 end).
  { intros neg l1. destruct l1 as [|c l1]; [done|]. cbn [app]. destruct (is_digit c); [|done].
    specialize (Hdig (c :: l1) 0). cbn [app] in Hdig.
    destruct (scan_digits (c :: l1 ++ 0 :: r) 0), (scan_digits (c :: l1) 0). cbn [fst] in Hdig. by subst. }
  unfold scan_number. destruct (x =? 45); [apply (Hn true m)|].
  destruct (x =? 43); [apply (Hn false m) | apply (Hn false (x :: m))].
Qed.

Lemma atol_at_id id r : atol_at (fmt_ld id ++ 0 :: r) = Some (s32 id).
Proof. by rewrite atol_at_stops, atol_fmt_ld_app. Qed.

Section Control.
Context {E C : Type} `{EnvDefault E} `{Chips C}.
Context (junk id : Z) (Hid : 0 <= id < 2 ^ 32).
Implicit Types (w : World E).

Let sub := fmt_ld id.
Definition padded (sub : list Z) : list Z := sub ++ replicate (50 - length sub) 0.

Lemma padded_id : padded sub = sub ++ 0 :: replicate (49 - length sub) 0.
Proof using.
  unfold padded. destruct (fmt_ld_shape id) as (_ & Hl & _). fold sub in Hl. unfold zlen in Hl.
  by replace (50 - length sub)%nat with (S (49 - length sub)) by lia.
Qed.

Lemma sub_id_of_id rest : sub_id_of (sub ++ rest) (zlen sub) = Some (padded sub).
Proof using.
  destruct (fmt_ld_shape id) as (_ & Hl & _). fold sub in Hl. pose proof (zlen_nonneg sub).
  unfold sub_id_of. rewrite blit_ok.
  - unfold padded, zlen, BUF_SIZE. rewrite Z.add_0_l, Nat2Z.id, take_app_length. cbn [take app Z.to_nat].
    by rewrite drop_replicate.
  - rewrite zlen_app. pose proof (zlen_nonneg rest). lia.
  - done.
  - rewrite zlen_replicate. unfold BUF_SIZE. lia.
Qed.

Definition control_sent (bs : list Z) w w' : Prop :=
  exists r t, w' = set_tx t (set_radio r w)
    /\ queued (map (control_entry id) bs) (w_radio w) r
    /\ emits (map (fun b => bool_msg DPID_CONTROL_STATE b id) bs) (w_tx w) t.

Lemma wp_control_point b rest w (Q : Z -> World E -> Prop) :
  tx_ok (w_tx w) -> radio_ok (w_radio w) ->
  (forall r w1, tx_ok (w_tx w1) -> radio_ok (w_radio w1) ->
     (forall bs w', control_sent bs w1 w' -> control_sent (b :: bs) w w') -> Q r w1) ->
  wp (data_point_handle junk (control_point b ++ rest) (padded sub) (zlen sub)) Q w.
Proof using Hid.
  intros Ht Hr HQ. destruct (fmt_ld_shape id) as (Hne & Hl & _). fold sub in Hl, Hne.
  unfold data_point_handle.
  apply wp_bind, (wp_lift_opt _ DPID_CONTROL_STATE); [done|].
  apply wp_bind, (wp_lift_opt _ DP_TYPE_BOOL); [done|].
  apply wp_bind, (wp_lift_opt _ 0); [done|].
  apply wp_bind, (wp_lift_opt _ 1); [done|].
  apply wp_bind, (wp_lift_opt _ (DPID_CONTROL_STATE, DP_TYPE_BOOL)); [done|].
  change (wp (dp_download_control_state_handle (b :: rest) (padded sub) (zlen sub)) Q w).
  unfold dp_download_control_state_handle.
  apply wp_bind, (wp_lift_opt _ id).
  { rewrite padded_id. unfold sub. rewrite atol_at_id. cbn [option_map]. by rewrite u32_s32, u32_small. }
  apply wp_bind, (wp_lift_opt _ b); [done|]. apply wp_bind.
  assert (Hm : (if b =? 0 then Moto_CloseRemote id else Moto_OpenRemote id : M (World E) unit)
               = on (enqueue (control_entry id b))).
  { unfold Moto_CloseRemote, Moto_OpenRemote, GatewayDataEnqueue, control_entry.
    rewrite (u32_small id) by done. by destruct (b =? 0). }
  rewrite Hm. apply wp_on. apply queued_cons; [done | by apply control_entry_ok|]. intros r1 Hr1 Hq. cbv beta. apply wp_bind, wp_on.
  unfold wp, padded. rewrite bool_update_padded by (done || lia).
  apply wp_bool; [done | | done |].
  { apply fmt_ld_id. }
  intros r t He. apply wp_ret, HQ; [apply He | done|].
  intros bs w' (r' & t' & -> & Hq' & He'). exists r', t'. split; [done|]. split; [by apply Hq|].
  by eapply (emits_app [_]).
Qed.

Lemma control_sent_nil w : tx_ok (w_tx w) -> radio_ok (w_radio w) -> control_sent [] w w.
Proof using.
  intros. exists (w_radio w), (w_tx w). split; [by destruct w|]. split; [by apply queued_nil | by apply emits_nil].
Qed.

Lemma wp_issued_loop bs : forall fuel pre rest w (Q : unit -> World E -> Prop),
  (length bs < fuel)%nat -> zlen pre + 5 * zlen bs < 65536 ->
  tx_ok (w_tx w) -> radio_ok (w_radio w) ->
  (forall w', control_sent bs w w' -> Q tt w') ->
  wp (issued_loop junk fuel (pre ++ concat (map control_point bs) ++ rest) (zlen pre)
        (zlen pre + 5 * zlen bs) (padded sub) (zlen sub)) Q w.
Proof using Hid.
  induction bs as [|b bs IH]; intros [|fuel] pre rest w Q Hf Hlen Ht Hr HQ; cbn [length] in Hf; try lia; cbn [issued_loop].
  - rewrite (@zlen_nil Z), Z.mul_0_r, Z.add_0_r, Z.ltb_irrefl. apply wp_ret, HQ. by apply control_sent_nil.
  - rewrite zlen_cons in *. pose proof (zlen_nonneg bs). pose proof (zlen_nonneg pre).
    rewrite (proj2 (Z.ltb_lt _ _)) by lia. cbn [map concat]. rewrite <- app_assoc.
    assert (Hget : forall j x, 0 <= j -> control_point b !! Z.to_nat j = Some x ->
      aget (pre ++ control_point b ++ concat (map control_point bs) ++ rest) (zlen pre + j) = Some x).
    { intros j x Hj Hx. rewrite aget_lookup by lia. rewrite lookup_app_r by (unfold zlen; lia).
      replace (Z.to_nat (zlen pre + j) - length pre)%nat with (Z.to_nat j) by (unfold zlen; lia).
      by apply lookup_app_l_Some. }
    apply wp_bind, (wp_lift_opt _ 0); [by apply Hget|].
    apply wp_bind, (wp_lift_opt _ 1); [by apply Hget|]. apply wp_bind.
    unfold zlen at 1. rewrite Nat2Z.id, drop_app_length.
    apply wp_control_point; [done | done|]. intros r w1 Ht1 Hr1 Hsent.
    change (Z.lor (Z.shiftl 0 8) 1) with 1. rewrite u16_small by lia.
    replace (zlen pre + (1 + 4)) with (zlen (pre ++ control_point b)) by (by rewrite zlen_app).
    replace (zlen pre + 5 * (1 + zlen bs)) with (zlen (pre ++ control_point b) + 5 * zlen bs)
      by (rewrite zlen_app; change (zlen (control_point b)) with 5; lia).
    rewrite (app_assoc pre). apply IH; [lia | | done | done |].
    { rewrite zlen_app. change (zlen (control_point b)) with 5. lia. }
    intros w' Hw'. by apply HQ, Hsent.
Qed.
End Control.

(** A running program, for the witnesses. *)
Definition sys0 : Sys (gmap (list Z) (list Z)) mem_chip := mkSys demo ota0 (mkFirm 0 0 0) false.
Definition sys_run (buf : list Z) := data_handle pow_one (fun _ => true) 0 buf sys0.

(** C17: a control command of the cloud for a device, with any number of values
    for its valve, is executed in order: for every value one request to the
    device is queued for the radio, as long as the queue has room, and one upload
    that echoes the value goes out; nothing else changes. *)
Theorem control_issued {E C} `{EnvDefault E} `{Chips C} pow10 malloc_ok junk (s : Sys E C) id bs buf :
  halted s = false -> world_ok (s_world s) -> 0 <= id < 2 ^ 32 ->
  carries DATA_ISSUED_CMD (control_payload id bs) buf ->
  exists w', data_handle pow10 malloc_ok junk buf s = Some (tt, set_world w' s)
    /\ control_sent id bs (s_world s) w'.
Proof.
  intros Hh Hw Hid Hc.
  assert (Hwp : wp (data_handle pow10 malloc_ok junk buf)
    (fun _ s' => exists w', s' = set_world w' s /\ control_sent id bs (s_world s) w') s).
  2: { apply wp_Some in Hwp as ([] & s' & Hrun & w' & -> & Hs). by exists w'. }
  apply (wp_command _ _ _ _ _ _ _ _ Hh Hc). apply wp_bind, (wp_length _ _ _ _ _ Hc), wp_in_world.
  destruct (carries_data _ _ _ Hc) as (rest & ->). unfold data_issued, control_payload.
  assert (Hz : zlen (zlen (fmt_ld id) :: fmt_ld id ++ concat (map control_point bs))
               = zlen ([zlen (fmt_ld id)] ++ fmt_ld id) + 5 * zlen bs).
  { rewrite zlen_cons, !zlen_app. change (zlen [zlen (fmt_ld id)]) with 1.
    enough (zlen (concat (map control_point bs)) = 5 * zlen bs) by lia. clear. induction bs as [|b bs IH]; [done|].
    cbn [map concat]. rewrite zlen_app, zlen_cons, IH. change (zlen (control_point b)) with 5. lia. }
  apply wp_bind, (wp_lift_opt _ (zlen (fmt_ld id))); [done|]. cbn [drop].
  apply wp_bind, (wp_lift_opt _ (padded (fmt_ld id))).
  { cbn [app]. change (drop 1 (?a :: ?l)) with l. rewrite <- app_assoc. apply sub_id_of_id. }
  pose proof (zlen_nonneg (fmt_ld id)). destruct Hc as [Hlen _].
  unfold control_payload in Hlen. rewrite Hz in *.
  replace (1 + zlen (fmt_ld id)) with (zlen ([zlen (fmt_ld id)] ++ fmt_ld id)) by (by rewrite zlen_app).
  replace ((zlen (fmt_ld id) :: fmt_ld id ++ concat (map control_point bs)) ++ rest)
    with (([zlen (fmt_ld id)] ++ fmt_ld id) ++ concat (map control_point bs) ++ rest) by (cbn [app]; by rewrite <- app_assoc).
  apply wp_issued_loop; [done | | done | apply Hw | apply Hw |].
  - unfold ISSUED_FUEL, zlen in *. lia.
  - intros w' Hs. by exists w'.
Qed.

Lemma control_issued_witness :
  exists w', sys_run (frame DATA_ISSUED_CMD 0 (control_payload 20000001 [1; 0])) = Some (tt, set_world w' sys0)
    /\ control_sent 20000001 [1; 0] demo w'.
Proof.
  apply (control_issued pow_one (fun _ => true) 0 sys0 20000001 [1; 0]).
  - reflexivity.
  - exact demo_ok.
  - split; [discriminate | reflexivity].
  - split; [reflexivity|]. exists 0, []. rewrite app_nil_r. reflexivity.
Defined.

(** ** Data points that are not the valve *)

Section Points.
Context {E C : Type} `{EnvDefault E} `{Chips C}.
Implicit Types (w : World E).

Lemma dpid_index_range d l i : i <= dpid_index d l i <= i + zlen l.
Proof.
  revert i. induction l as [|x l IH]; intros i; cbn [dpid_index].
  { unfold zlen. cbn. lia. }
  rewrite zlen_cons. pose proof (zlen_nonneg l). case_match; [lia|]. specialize (IH (i + 1)). lia.
Qed.

Lemma index_found d : 101 <= d <= 115 -> get_dowmload_dpid_index d = d - 101.
Proof.
  intros Hd. assert (E1 : d = 101 + Z.of_nat (Z.to_nat (d - 101))) by lia.
  assert (Hn : (Z.to_nat (d - 101) < 15)%nat) by lia. revert E1 Hn. generalize (Z.to_nat (d - 101)).
  intros n -> Hn. do 15 (destruct n as [|n]; [reflexivity|]). lia.
Qed.

Lemma index_not_found d : d < 101 \/ 115 < d -> get_dowmload_dpid_index d = 15.
Proof.
  intros Hd. unfold get_dowmload_dpid_index, download_cmd. cbn [dpid_index fst].
  repeat (rewrite (proj2 (Z.eqb_neq _ d)); [|unfold DPID_DEVICE_STATE, DPID_VALVE1_CHECK_FAIL, DPID_DEVICE_ALARM,
    DPID_CONTROL_STATE, DPID_SIGN_STATE, DPID_DELAY_STATE, DPID_TEMP_STATE, DPID_DOOR_ID, DPID_LINE_STATE,
    DPID_DELAY_TIME, DPID_NORMAL_STATA, DPID_SELF_ID, DPID_VALVE2_CHECK_FAIL, DPID_VALVE1_CHECK_SUCCESS,
    DPID_VALVE2_CHECK_SUCCESS; lia]). done.
Qed.

(** The type the table [download_cmd] gives a data point. *)
Definition listed_type (d : Z) : option Z :=
  option_map snd (aget download_cmd (d - 101)).

Lemma point_handled junk d ty h l v sub n w :
  d <> DPID_CONTROL_STATE ->
  data_point_handle junk (d :: ty :: h :: l :: v) sub n w
  = match listed_type d with
    | None => None
    | Some t => Some (if ty =? t then junk else 0, w)
    end.
Proof.
  intros Hd. unfold data_point_handle, listed_type.
  change (bind (lift_opt _) ?k w) with (k d w). cbv beta.
  change (bind (lift_opt (aget (d :: ty :: h :: l :: v) 1)) ?k w) with (k ty w). cbv beta.
  change (bind (lift_opt (aget (d :: ty :: h :: l :: v) 2)) ?k w) with (k h w). cbv beta.
  change (bind (lift_opt (aget (d :: ty :: h :: l :: v) 3)) ?k w) with (k l w). cbv beta zeta.
  unfold bind, lift_opt.
  destruct (decide (101 <= d <= 115)) as [Hin|Hout].
  - rewrite index_found by done. destruct (aget download_cmd (d - 101)) as [e|]; [|done]. cbn [option_map].
    destruct (ty =? snd e); cbn [negb]; [|done].
    unfold dp_download_handle. by rewrite (proj2 (Z.eqb_neq d _) Hd).
  - rewrite index_not_found, !aget_None by (change (zlen download_cmd) with 15; lia). done.
Qed.

(** The first point of the data, after [i] bytes. *)
Lemma issued_step junk k pre d ty h l v total sub n w :
  d <> DPID_CONTROL_STATE -> zlen pre < total ->
  issued_loop junk (S k) (pre ++ d :: ty :: h :: l :: v) (zlen pre) total sub n w
  = match listed_type d with
    | None => None
    | Some _ => issued_loop junk k (pre ++ d :: ty :: h :: l :: v)
                  (u16 (zlen pre + (Z.lor (Z.shiftl h 8) l + 4))) total sub n w
    end.
Proof.
  intros Hd Ht. cbn [issued_loop]. rewrite (proj2 (Z.ltb_lt _ _) Ht). pose proof (zlen_nonneg pre).
  assert (Hget : forall j x, 0 <= j -> (d :: ty :: h :: l :: v) !! Z.to_nat j = Some x ->
    aget (pre ++ d :: ty :: h :: l :: v) (zlen pre + j) = Some x).
  { intros j x Hj Hx. rewrite aget_lookup by lia. rewrite lookup_app_r by (unfold zlen; lia).
    by replace (Z.to_nat (zlen pre + j) - length pre)%nat with (Z.to_nat j) by (unfold zlen; lia). }
  unfold bind, lift_opt. rewrite (Hget 2 h), (Hget 3 l) by done.
  unfold zlen at 1. rewrite Nat2Z.id, drop_app_length, point_handled by done.
  by destruct (listed_type d).
Qed.
End Points.

(** A command for a data point other than the valve is ignored: nothing is
    sent to the device or answered, whatever the type and the value; but when the
    table does not list the data point the entry behind its last one is read. *)
Theorem other_points {E C} `{EnvDefault E} `{Chips C} pow10 malloc_ok junk (s : Sys E C) sub d ty v buf :
  halted s = false -> d <> DPID_CONTROL_STATE -> zlen sub <= 50 -> zlen v < 60000 ->
  carries DATA_ISSUED_CMD (zlen sub :: sub ++ d :: ty :: zlen v / 256 :: zlen v mod 256 :: v) buf ->
  data_handle pow10 malloc_ok junk buf s
  = match listed_type d with Some _ => Some (tt, s) | None => None end.
Proof.
  intros Hh Hd Hsub Hv Hc. unfold data_handle, bind, get, byte_at, lift_opt at 1.
  rewrite Hh, (carries_type _ _ _ Hc).
  change (command pow10 malloc_ok junk DATA_ISSUED_CMD buf s)
    with ((do total_len <- length_at buf; in_world (data_issued junk (frame_data buf) total_len)) s).
  rewrite (bind_Some _ _ _ _ _ (carries_length _ _ _ _ Hc)).
  destruct (carries_data _ _ _ Hc) as (rest & ->). pose proof (zlen_nonneg sub). pose proof (zlen_nonneg v).
  set (pre := zlen sub :: sub).
  set (data := (zlen sub :: sub ++ d :: ty :: zlen v / 256 :: zlen v mod 256 :: v) ++ rest).
  assert (Hdata : data = pre ++ d :: ty :: zlen v / 256 :: zlen v mod 256 :: v ++ rest)
    by (unfold data, pre; cbn [app]; by rewrite <- app_assoc).
  assert (Hpre : zlen pre = 1 + zlen sub) by apply zlen_cons.
  assert (Hsb : exists b, sub_id_of (drop 1 data) (zlen sub) = Some b).
  { eexists. unfold sub_id_of. apply blit_ok; [|done|].
    - rewrite Hdata. change (drop 1 (pre ++ ?r)) with (sub ++ r). rewrite zlen_app. pose proof (zlen_nonneg (d :: ty :: zlen v / 256 :: zlen v mod 256 :: v ++ rest)). lia.
    - rewrite zlen_replicate. unfold BUF_SIZE. lia. }
  destruct Hsb as (b & Hsb).
  assert (Hrun : data_issued junk data (zlen (zlen sub :: sub ++ d :: ty :: zlen v / 256 :: zlen v mod 256 :: v)) (s_world s)
                 = match listed_type d with Some _ => Some (tt, s_world s) | None => None end).
  { unfold data_issued. rewrite (bind_Some _ _ _ (zlen sub) (s_world s)) by done.
    rewrite (bind_Some _ _ _ b (s_world s)) by (unfold lift_opt; by rewrite Hsb).
    rewrite zlen_cons, zlen_app, !zlen_cons. unfold ISSUED_FUEL. rewrite <- Hpre, Hdata.
    rewrite issued_step by (done || lia). destruct (listed_type d); [|done].
    rewrite lor_bytes by (first [apply Z.div_pos; lia | apply Z.mod_pos_bound; lia]).
    replace (zlen v / 256 * 256 + zlen v mod 256) with (zlen v) by (rewrite Z.mul_comm; apply Z.div_mod; lia).
    rewrite u16_small by lia.
    replace (Z.to_nat _) with (S (Z.to_nat (zlen sub + (zlen v + 4)))) by lia. cbn [issued_loop].
    by rewrite (proj2 (Z.ltb_ge _ _)) by lia. }
  unfold in_world, on, zoom. cbn [view lens_world]. rewrite Hrun.
  destruct (listed_type d); [|done]. by destruct s.
Qed.

Lemma other_points_witness :
  sys_run (frame DATA_ISSUED_CMD 0 (8 :: fmt_ld 20000001 ++ [DPID_DEVICE_STATE; DP_TYPE_BOOL; 0; 1; 1])) = Some (tt, sys0).
Proof.
  apply (other_points pow_one (fun _ => true) 0 sys0 (fmt_ld 20000001) DPID_DEVICE_STATE DP_TYPE_BOOL [1]
    (frame DATA_ISSUED_CMD 0 (8 :: fmt_ld 20000001 ++ [DPID_DEVICE_STATE; DP_TYPE_BOOL; 0; 1; 1]))).
  - reflexivity.
  - discriminate.
  - vm_compute. intros Hx. discriminate Hx.
  - reflexivity.
  - split; [reflexivity|]. exists 0, []. rewrite app_nil_r. reflexivity.
Defined.

(** A length of 0xFFFC brings the 16-bit index back to the same data point: no
    number of iterations is enough. *)
Lemma issued_length_hangs {E} `{EnvDefault E} junk fuel pre d ty v total sub n (w : World E) :
  d <> DPID_CONTROL_STATE -> zlen pre < total < 65536 ->
  issued_loop junk fuel (pre ++ d :: ty :: 255 :: 252 :: v) (zlen pre) total sub n w = None.
Proof.
  intros Hd Ht. pose proof (zlen_nonneg pre). induction fuel as [|k IH]; [done|].
  rewrite issued_step by (done || lia). destruct (listed_type d); [|done].
  change (Z.lor (Z.shiftl 255 8) 252 + 4) with 65536.
  replace (u16 (zlen pre + 65536)) with (zlen pre); [done|].
  unfold u16. change (2 ^ 16) with 65536. rewrite <- (Z.mul_1_l 65536) at 1. rewrite Z.mod_add by lia.
  by rewrite Z.mod_small by lia.
Qed.

(** ** The list of devices *)

Definition node (id : list Z) : list Z := zlen id :: id.

(** A package of the list, each id a string; the first bit says whether another
    package follows. *)
Definition list_package (more : bool) (ids : list (list Z)) : list Z :=
  [if more then 128 else 0; zlen ids] ++ concat (map node ids).

(** The number an id stands for. *)
Definition id_number (s : list Z) : Z := u32 (atol s).

Definition listed (ids : list Z) (r : Remote_Info) : Remote_Info :=
  mkRemote (remote_Num r + zlen ids) (list_inserts (S (Z.to_nat (remote_Num r))) ids (remote_ID r)).

Section DeviceList.
Context {E C : Type} `{EnvDefault E} `{Chips C}.
Implicit Types (w : World E).

Lemma wp_remote_add id ids w (Q : unit -> World E -> Prop) :
  remote_ok (w_remote w) -> remote_Num (w_remote w) < 49 ->
  (forall r, remote_ok r -> remote_Num r = remote_Num (w_remote w) + 1 ->
     listed ids r = listed (id :: ids) (w_remote w) -> Q tt (set_remote r w)) ->
  wp (Remote_Device_Add id) Q w.
Proof.
  intros [Hl Hn] Hlt HQ. unfold Remote_Device_Add. apply wp_on. unfold wp, bind, get, lift_opt, modify.
  cbn [view lens_remote]. rewrite u8_small by (unfold is_byte; lia).
  rewrite aset_ok by (unfold zlen; lia). apply HQ.
  - split; cbn [remote_ID remote_Num]; [by rewrite length_insert | lia].
  - done.
  - unfold listed. cbn [remote_ID remote_Num]. rewrite zlen_cons. f_equal; [lia|].
    replace (Z.to_nat (remote_Num (w_remote w) + 1)) with (S (Z.to_nat (remote_Num (w_remote w)))) by lia.
    cbn [list_inserts]. by rewrite list_insert_inserts_lt by lia.
Qed.

Lemma wp_list_loop ids : forall i off pre rest block w (Q : unit -> World E -> Prop),
  Forall (fun id => zlen id <= 31) ids ->
  off = u8 (zlen pre) -> zlen pre + zlen (concat (map node ids)) <= 256 ->
  zlen block = NODE * i -> remote_ok (w_remote w) -> remote_Num (w_remote w) + zlen ids < 50 ->
  (forall r, remote_ok r -> r = listed (map id_number ids) (w_remote w) -> Q tt (set_remote r w)) ->
  wp (list_loop (length ids) i off (pre ++ concat (map node ids) ++ rest)
        (block ++ replicate (33 * length ids) 0)) Q w.
Proof.
  induction ids as [|id ids IH]; intros i off pre rest block w Q Hids -> Hfit Hb Hr Hroom HQ; cbn [length list_loop].
  - apply wp_ret. replace w with (set_remote (w_remote w) w) by (by destruct w). apply HQ; [done|].
    unfold listed. destruct (w_remote w). change (zlen (map id_number [])) with 0. by rewrite Z.add_0_r.
  - apply Forall_cons in Hids as [Hid Hids]. cbn [map concat] in *. rewrite zlen_app in Hfit. rewrite zlen_cons in Hroom.
    assert (Hnode : zlen (node id) = zlen id + 1) by (unfold node; rewrite zlen_cons; lia).
    pose proof (zlen_nonneg id). pose proof (zlen_nonneg pre). pose proof (zlen_nonneg ids).
    pose proof (zlen_nonneg (concat (map node ids))). pose proof (zlen_nonneg block).
    rewrite (u8_small (zlen pre)) by (unfold is_byte; lia). rewrite <- app_assoc.
    assert (Hdrop : drop (Z.to_nat (zlen pre)) (pre ++ node id ++ concat (map node ids) ++ rest)
                    = node id ++ concat (map node ids) ++ rest)
      by (unfold zlen; by rewrite Nat2Z.id, drop_app_length).
    apply wp_bind, (wp_lift_opt _ (zlen id)).
    { rewrite aget_lookup by lia. rewrite lookup_app_r by (unfold zlen; lia).
      by replace (Z.to_nat (zlen pre) - length pre)%nat with 0%nat by (unfold zlen; lia). }
    rewrite Hdrop. apply wp_bind, (wp_lift_opt _ (block ++ node id ++ replicate (33 * S (length ids) - length (node id)) 0)).
    { rewrite <- Hnode, blit_src_app by lia. rewrite blit_ok.
      - rewrite <- Hb at 1. unfold zlen at 1 2. rewrite !Nat2Z.id, take_app_length, firstn_all. do 2 f_equal. f_equal.
        rewrite drop_app_ge by (unfold zlen in *; lia). rewrite drop_replicate. f_equal. unfold zlen in *. lia.
      - lia.
      - unfold NODE in *. lia.
      - rewrite zlen_app, zlen_replicate. unfold NODE in *. lia. }
    assert (Hl : (length (node id) <= 32)%nat) by (unfold zlen, node in *; cbn [length] in *; lia).
    apply wp_bind, (wp_lift_opt _ (atol id)).
    { replace (Z.to_nat (NODE * i + 1)) with (length block + 1)%nat by (unfold zlen in *; lia).
      rewrite <- drop_drop, drop_app_length. change (drop 1 (node id ++ ?r)) with (id ++ r).
      replace (33 * S (length ids) - length (node id))%nat with (S (32 - length (node id) + 33 * length ids)) by lia.
      change (replicate (S ?n) 0) with (0 :: replicate n 0). by rewrite atol_at_stops, atol_zero. }
    apply wp_bind. apply (wp_remote_add (id_number id) (map id_number ids)); [done | lia|].
    intros r Hr' Hrn Hrl.
    replace (33 * S (length ids) - length (node id))%nat with ((33 - length (node id)) + 33 * length ids)%nat by lia.
    rewrite replicate_add, (app_assoc (node id) (replicate _ _)), (app_assoc block), (app_assoc pre (node id)).
    apply IH; [done | | | | done | |].
    + f_equal. rewrite zlen_app. lia.
    + rewrite zlen_app. lia.
    + rewrite !zlen_app, zlen_replicate. unfold NODE, zlen in *. lia.
    + cbn [w_remote set_remote]. lia.
    + intros r' Hr2 ->. apply HQ; [done|]. cbn [w_remote set_remote]. by rewrite Hrl.
Qed.
End DeviceList.

Lemma wp_local_list {E} `{EnvDefault E} malloc_ok more ids rest (w : World E) (Q : unit -> World E -> Prop) :
  world_ok w -> Forall (fun id => zlen id <= 31) ids -> zlen (list_package more ids) <= 256 ->
  malloc_ok (NODE * zlen ids) = true -> remote_Num (w_remote w) + zlen ids < 50 ->
  (remote_ok (listed (map id_number ids) (w_remote w)) ->
     wp (if more then ret tt else Sync_Request) Q (set_remote (listed (map id_number ids) (w_remote w)) w)) ->
  wp (local_subdev_list malloc_ok (list_package more ids ++ rest)) Q w.
Proof.
  intros Hw Hids Hfit Hm Hroom HQ. unfold local_subdev_list, list_package in *. rewrite zlen_app in Hfit.
  change (zlen [if more then 128 else 0; zlen ids]) with 2 in Hfit.
  apply wp_bind, (wp_lift_opt _ (if more then 128 else 0)); [done|].
  apply wp_bind, (wp_lift_opt _ (zlen ids)); [done|]. rewrite Hm. cbn [negb].
  apply wp_bind. rewrite <- app_assoc. replace (Z.to_nat (zlen ids)) with (length ids) by (unfold zlen; lia).
  replace (Z.to_nat (NODE * zlen ids)) with (33 * length ids)%nat by (unfold NODE, zlen; lia).
  rewrite <- (app_nil_l (replicate _ _)). apply wp_list_loop; [done | done | | done | apply Hw | done |].
  { change (zlen [if more then 128 else 0; zlen ids]) with 2. lia. }
  intros r Hr ->. destruct more; by apply HQ.
Qed.

Lemma found_listed ids r id :
  remote_ok r -> remote_ok (listed ids r) -> id ∈ ids ->
  wp (remote_find id) (fun k r' => k <> 0 /\ r' = listed ids r) (listed ids r).
Proof.
  intros [Hl Hn] Hok [j Hj]%list_elem_of_lookup. destruct (Hok) as [_ Hn'].
  apply wp_remote_find; [done|]. intros k _ _ Hno. split; [|done]. intros Hk.
  apply (Hno ltac:(lia) (S (Z.to_nat (remote_Num r)) + j)%nat).
  - apply lookup_lt_Some in Hj. unfold listed in *. cbn [remote_Num] in *. unfold zlen in *. lia.
  - cbn [listed remote_ID]. rewrite list_lookup_inserts.
    + by replace (_ + j - _)%nat with j by lia.
    + apply lookup_lt_Some in Hj. lia.
    + apply lookup_lt_Some in Hj. unfold listed in Hn'. cbn [remote_Num] in Hn'. unfold zlen in *. lia.
Qed.

(** C18: a package of the cloud's list of devices, at most 256 bytes long, is added
    to the devices known so far in its order, and all of them are found from then
    on; the last package starts the synchronisation. *)
Theorem device_list_recorded {E C} `{EnvDefault E} `{Chips C} pow10 malloc_ok junk (s : Sys E C) more names buf :
  let w := s_world s in
  halted s = false -> world_ok w -> Forall (fun id => zlen id <= 31) names ->
  zlen (list_package more names) <= 256 -> known w + zlen names < 50 -> malloc_ok (NODE * zlen names) = true ->
  carries QUR_SUBDEV_LIST_CMD (list_package more names) buf ->
  let ids := map id_number names in
  let w1 := set_remote (listed ids (w_remote w)) w in
  remote_ok (w_remote w1)
  /\ (forall id, id ∈ ids -> Remote_Get_Key_Valid id w1 = Some (RT_EOK, w1))
  /\ exists w', (if more then ret tt else Sync_Request) w1 = Some (tt, w')
       /\ data_handle pow10 malloc_ok junk buf s = Some (tt, set_world w' s).
Proof.
  intros w Hh Hw Hids Hfit Hroom Hm Hc ids w1.
  assert (Hgo : wp (data_handle pow10 malloc_ok junk buf) (fun _ s' => remote_ok (w_remote w1) /\
    exists w', (if more then ret tt else Sync_Request) w1 = Some (tt, w') /\ s' = set_world w' s) s).
  { apply (wp_command _ _ _ _ _ _ _ _ Hh Hc), wp_in_world.
    destruct (carries_data _ _ _ Hc) as (rest & ->). apply wp_local_list; [done..|]. intros Hr.
    assert (Hw1 : world_ok w1) by (destruct Hw; by split).
    assert (Hrun : wp (if more then ret tt else Sync_Request : M (World E) unit) (fun _ w' => True) w1).
    { destruct more; [done|]. eapply wp_conseq; [by apply safe_Sync_Request | done]. }
    apply wp_Some in Hrun as ([] & w' & Hrun & _). fold w ids. fold w1. unfold wp. rewrite Hrun.
    split; [done|]. by exists w'. }
  apply wp_Some in Hgo as ([] & s' & Hrun & Hr & w' & Hw' & ->). split; [done|].
  split; [|by exists w']. intros id Hin.
  pose proof (found_listed ids (w_remote w) id ltac:(apply Hw) Hr Hin) as Hf.
  apply wp_Some in Hf as (k & r & Hf & Hk & ->).
  unfold Remote_Get_Key_Valid, bind, on, zoom. cbn [view lens_remote w1 w_remote set_remote].
  rewrite Hf. by rewrite (proj2 (Z.eqb_neq _ _) Hk).
Qed.

Lemma device_list_recorded_witness :
  exists w', Sync_Request (set_remote (listed [10000001; 20000001] (w_remote demo)) demo) = Some (tt, w')
    /\ sys_run (frame QUR_SUBDEV_LIST_CMD 0 (list_package false (map fmt_ld [10000001; 20000001]))) = Some (tt, set_world w' sys0).
Proof.
  apply (device_list_recorded pow_one (fun _ => true) 0 sys0 false (map fmt_ld [10000001; 20000001])).
  - reflexivity.
  - exact demo_ok.
  - repeat constructor; vm_compute; intros Hx; discriminate Hx.
  - vm_compute; discriminate.
  - vm_compute; reflexivity.
  - reflexivity.
  - split; [vm_compute; reflexivity|]. exists 0, []. rewrite app_nil_r. reflexivity.
Defined.

(** Thirty ids of eight digits take 272 bytes: the eight-bit offset starts over
    and a node is read from the middle of an id, with more bytes than the block
    has room for. *)
Lemma long_list_overruns :
  sys_run (frame QUR_SUBDEV_LIST_CMD 0 (list_package false (map (fun n => fmt_ld (10000001 + n)) (seqZ 0 30)))) = None.
Proof. by vm_compute. Qed.

(** ** Messages about a device *)

(** The id a message names. *)
Definition message_id (l : list (list Z * jv)) : option (list Z) :=
  match cJSON_GetObjectItem (item_of (JObj l)) (str "sub_id") with
  | Some item => valuestring item
  | None => None
  end.

(** A device that is in the table and was last heard of. *)
Definition online (d : Device_Info) (id : Z) : bool :=
  existsb (fun s => (ID s =? id) && negb (Heart s =? 0)) (slots d).

Definition state_msgs (d : Device_Info) (id : Z) : list msg :=
  if online d id then [heart_msg (fmt_ld id) 0; online_msg 0 (fmt_ld id) 1] else [online_msg 0 (fmt_ld id) 0].

(** A sub device is reported only while its main unit is heard. *)
Definition query_msgs (d : Device_Info) (id main : Z) : list msg :=
  if (20000000 <=? id) && (id <? 40000000)
  then (if online d main then state_msgs d id else []) else state_msgs d id.

Section Messages.
Context {E C : Type} `{EnvDefault E} `{Chips C}.
Context (pow10 : double -> double) (pow10_0 : pow10 (d_of_int 0) = d_of_int 1).
Implicit Types (w : World E).

Lemma wp_with_json l rest k (Q : unit -> World E -> Prop) w :
  jv_plain (JObj l) -> wp (k (item_of (JObj l))) Q w ->
  wp (with_json pow10 (render (JObj l) ++ rest) (zlen (render (JObj l))) k) Q w.
Proof using pow10_0.
  intros Hl HQ. unfold with_json. apply wp_bind, (wp_lift_opt _ (render (JObj l))).
  { apply prefix_app. }
  by rewrite parse_rendered.
Qed.

Lemma wp_bound id w (Q : Z -> World E -> Prop) :
  flash_ok (w_flash w) -> id <> 0 ->
  Q (default 0 (bindings (Global_Device (w_flash w)) !! id)) w -> wp (on (GetBindID id)) Q w.
Proof.
  intros [Ht Hs] Hid HQ. apply wp_on. unfold GetBindID. apply wp_bind, wp_find_id; [done | done | |].
  - intros Hb. cbn [view lens_flash] in Hb. rewrite Hb in HQ. apply wp_ret. by rewrite over_view.
  - intros k s Hi Hb. cbn [view lens_flash] in Hb. rewrite Hb in HQ. destruct Hi as (Hk & _ & Hr).
    rewrite (proj2 (Z.eqb_neq _ 0)) by lia. apply wp_bind, (wp_slot_at k s); [done|]. apply wp_ret. by rewrite over_view.
Qed.

Lemma wp_field field id w (Q : Z -> World E -> Prop) :
  flash_ok (w_flash w) -> id <> 0 ->
  (bindings (Global_Device (w_flash w)) !! id = None -> Q 0 w) ->
  (forall k s, index_of (Global_Device (w_flash w)) id k s -> Q (field s) w) ->
  wp (on (get_field field id)) Q w.
Proof.
  intros [Ht Hs] Hid HN HQ. apply wp_on. unfold get_field. apply wp_bind, wp_find_id; [done | done | |].
  - intros Hb. apply wp_ret. rewrite over_view. by apply HN.
  - intros k s Hi _. pose proof Hi as (Hk & _ & Hr).
    rewrite (proj2 (Z.eqb_neq _ 0)) by lia. apply wp_bind, (wp_slot_at k s); [done|]. apply wp_ret.
    rewrite over_view. by apply (HQ k).
Qed.

Lemma online_at d id k s :
  table_ok d -> id <> 0 -> index_of d id k s -> online d id = negb (Heart s =? 0).
Proof.
  intros Ht Hid (Hk & Hs & _). unfold online. destruct (negb (Heart s =? 0)) eqn:Eh.
  - apply existsb_exists. exists s. split; [by apply list_elem_of_In, list_elem_of_lookup_2 with k|].
    by rewrite Hs, Z.eqb_refl.
  - apply not_true_is_false. intros (t & Hin & Ht')%existsb_exists. apply andb_true_iff in Ht' as [Ei Eh'].
    apply Z.eqb_eq in Ei. apply list_elem_of_In, list_elem_of_lookup in Hin as [j Hj].
    rewrite (table_unique d Ht k j s t) in Hk by (done || congruence). congruence.
Qed.

Lemma offline_unknown d id : table_ok d -> id <> 0 -> bindings d !! id = None -> online d id = false.
Proof.
  intros Ht Hid Hb. apply not_true_is_false. intros (t & Hin & Ht')%existsb_exists.
  apply andb_true_iff in Ht' as [Ei%Z.eqb_eq _]. apply list_elem_of_In, list_elem_of_lookup in Hin as [j Hj].
  enough (bindings d !! id = Some (Bind_ID t)) by congruence. apply bindings_lookup; [done|].
  exists j, t. split_and!; (done || congruence).
Qed.

(** Asking whether a device was heard of. *)
Lemma wp_heart_of id w (Q : Z -> World E -> Prop) :
  world_ok w -> id <> 0 ->
  (forall h, negb (h =? 0) = online (table w) id -> Q h w) -> wp (on (Flash_Get_Heart id)) Q w.
Proof.
  intros Hw Hid HQ. pose proof (world_flash w Hw) as Hf. apply wp_field; [done | done | |].
  - intros Hb. apply HQ. by rewrite offline_unknown by (done || apply Hf).
  - intros k s Hi. apply HQ. by rewrite (online_at _ _ k s) by (done || apply Hf).
Qed.

Lemma says_state id w (Q : unit -> World E -> Prop) :
  world_ok w -> id <> 0 ->
  (forall t, emits (state_msgs (table w) id) (w_tx w) t -> Q tt (set_tx t w)) ->
  wp (do h <- on (Flash_Get_Heart id); if negb (h =? 0) then Device_Up id else Device_Down id) Q w.
Proof.
  intros Hw Hid HQ. apply wp_bind, wp_heart_of; [done | done|]. intros h Hh. unfold state_msgs in HQ. rewrite <- Hh in HQ.
  destruct (negb (h =? 0)); (eapply wp_says; [|apply Hw | exact HQ]); [apply says_up | apply says_down].
Qed.

Lemma wp_Heart_Request id k s w (Q : unit -> World E -> Prop) :
  world_ok w -> 0 < id < 2 ^ 32 -> index_of (table w) id k s -> UploadFlag s <> 0 ->
  (20000000 <= id < 40000000 -> Bind_ID s <> 0) ->
  (forall t, emits (query_msgs (table w) id (Bind_ID s)) (w_tx w) t -> Q tt (set_tx t w)) ->
  wp (Heart_Request (fmt_ld id)) Q w.
Proof.
  intros Hw Hid Hi Hu Hm HQ. pose proof (world_flash w Hw) as Hf. unfold Heart_Request.
  rewrite u32_atol_fmt_ld by lia. cbv zeta. apply wp_bind. unfold Self_Bind_Upload. apply wp_bind.
  assert (Hb : bindings (table w) !! id = Some (Bind_ID s)).
  { apply bindings_lookup; [apply Hf|]. destruct Hi as (Hk & <- & _). exists k, s. split_and!; (done || lia). }
  apply wp_field; [done | lia | unfold table in Hb; by rewrite Hb|]. intros k' s' Hi'.
  assert (s' = s) as ->.
  { destruct Hi as (Hk & E1 & _), Hi' as (Hk' & E2 & _).
    rewrite (table_unique (table w) (proj1 Hf) k k' s s') in Hk by (done || lia). unfold table in *. congruence. }
  rewrite (proj2 (Z.eqb_neq _ _) Hu). apply wp_ret. unfold query_msgs in HQ.
  destruct ((20000000 <=? id) && (id <? 40000000)) eqn:Er.
  - apply andb_true_iff in Er as [E1%Z.leb_le E2%Z.ltb_lt].
    apply wp_bind, wp_bound; [done | lia|]. fold (table w). rewrite Hb. change (default 0 (Some (Bind_ID s))) with (Bind_ID s).
    apply wp_bind, wp_heart_of; [done | by apply Hm; lia|]. intros h Hh. rewrite <- Hh in HQ.
    destruct (negb (h =? 0)); [by apply says_state; [|lia|]|]. eapply wp_says; [apply says_ret | apply Hw | exact HQ].
  - by apply says_state; [|lia|].
Qed.

Definition door_msgs (id main : Z) : list msg :=
  if 30000000 <=? id then [value_msg DPID_DOOR_ID 0 main] else [].

(** A device is gone, and its main unit is asked to forget it. *)
Definition removed (id : Z) w w' : Prop :=
  world_ok w' /\ bindings (table w') = delete id (bindings (table w))
  /\ queued [mkEntry 1 (default 0 (bindings (table w) !! id)) id 0 6 0] (w_radio w) (w_radio w').

Lemma bound_range w id : world_ok w -> 0 <= default 0 (bindings (table w) !! id) < 2 ^ 32.
Proof.
  intros Hw. destruct (bindings (table w) !! id) as [b|] eqn:Eb; [|done].
  apply bindings_lookup in Eb as (k & x & Hk & _ & _ & <-); [|apply (world_flash w Hw)].
  apply (table_range _ (proj1 (world_flash w Hw)) k x Hk).
Qed.

Lemma wp_Remote_Delete id w (Q : unit -> World E -> Prop) :
  world_ok w -> 0 < id < 2 ^ 32 ->
  (forall w', removed id w w' ->
     emits (door_msgs id (default 0 (bindings (table w) !! id))) (w_tx w) (w_tx w') -> Q tt w') ->
  wp (Remote_Delete id) Q w.
Proof.
  intros Hw Hid HQ. pose proof (bound_range w id Hw) as Hb. unfold Remote_Delete.
  apply wp_bind, wp_bound; [apply Hw | lia |]. fold (table w).
  set (main := default 0 (bindings (table w) !! id)) in *.
  apply wp_bind, wp_on. unfold GatewayDataEnqueue. rewrite (u32_small main), (u32_small id) by lia.
  apply (queued_cons (mkEntry 1 main id 0 6 0)); [apply Hw | |].
  { split; [by right|]. cbn [Taget_Id Device_Id Counter Command Data]. by split_and!; try lia. }
  intros r Hr Hq. cbv beta.
  specialize (Hq [] r (queued_nil r Hr)). set (w1 := over r w).
  assert (Hw1 : world_ok w1) by (destruct Hw; by split). apply wp_bind.
  assert (Hend : forall w2, world_ok w2 -> w_tx w2 = w_tx w -> w_radio w2 = r ->
    bindings (table w2) = delete id (bindings (table w)) ->
    wp (if 30000000 <=? id then dp_value DPID_DOOR_ID 0 main else ret tt) Q w2).
  { intros w2 Hw2 Et Er Eb. apply (wp_says (door_msgs id main)); [|apply Hw2|].
    - unfold door_msgs. by destruct (_ <=? _); [apply says_value | apply says_ret].
    - intros t He. rewrite Et in He. apply HQ; [|done]. split; [apply world_ok_tx; [done | apply He]|].
      split; [done|]. by rewrite <- Er in Hq. }
  apply wp_Del_Device; [done | done | |].
  - intros Hn. apply Hend; [done..|]. by rewrite delete_id.
  - intros f rem Hf Hrem _ Hdel _. apply Hend; [|done..]. destruct Hw1; by split.
Qed.
End Messages.

(** Asked for the state of a device of the table, already announced to the
    cloud, the program answers from what it last heard: online with a heart beat,
    or offline, and for a sub device only when its main unit is heard. *)
Theorem heart_query_answered {E C} `{EnvDefault E} `{Chips C} pow10 malloc_ok junk (s : Sys E C) l id k slot buf :
  pow10 (d_of_int 0) = d_of_int 1 -> halted s = false -> world_ok (s_world s) ->
  jv_plain (JObj l) -> message_id l = Some (fmt_ld id) -> 0 < id < 2 ^ 32 ->
  index_of (table (s_world s)) id k slot -> UploadFlag slot <> 0 ->
  (20000000 <= id < 40000000 -> Bind_ID slot <> 0) ->
  carries HEART_CHECK_CMD (render (JObj l)) buf ->
  exists t, data_handle pow10 malloc_ok junk buf s = Some (tt, set_world (set_tx t (s_world s)) s)
    /\ emits (query_msgs (table (s_world s)) id (Bind_ID slot)) (w_tx (s_world s)) t.
Proof.
  intros Hp0 Hh Hw Hl Hm Hid Hi Hu Hb Hc.
  assert (Hwp : wp (data_handle pow10 malloc_ok junk buf) (fun _ s' => exists t, s' = set_world (set_tx t (s_world s)) s
    /\ emits (query_msgs (table (s_world s)) id (Bind_ID slot)) (w_tx (s_world s)) t) s).
  2: { apply wp_Some in Hwp as ([] & s' & Hrun & t & -> & He). by exists t. }
  apply (wp_command _ _ _ _ _ _ _ _ Hh Hc), wp_bind, (wp_length _ _ _ _ _ Hc), wp_in_world.
  destruct (carries_data _ _ _ Hc) as (rest & ->). apply wp_with_json; [done..|].
  unfold message_id in Hm. unfold member. destruct (cJSON_GetObjectItem _ _) as [item|]; [|done].
  apply wp_bind, (wp_lift_opt _ (fmt_ld id)); [done|].
  apply (wp_Heart_Request id k slot); [done..|]. intros t He. by exists t.
Qed.

(** C20: told that a device was removed, the program asks its main unit to forget
    it, deletes exactly this device from the table and its stored copy, clears the
    main unit's door sensor for a door sensor, and acknowledges. *)
Theorem delete_command {E C} `{EnvDefault E} `{Chips C} pow10 malloc_ok junk (s : Sys E C) l id buf :
  let w := s_world s in
  pow10 (d_of_int 0) = d_of_int 1 -> halted s = false -> world_ok w ->
  jv_plain (JObj l) -> message_id l = Some (fmt_ld id) -> 0 < id < 2 ^ 32 ->
  cJSON_GetObjectItem (item_of (JObj l)) (str "tp") <> None ->
  carries SUBDEVICE_DELETTE_CMD (render (JObj l)) buf ->
  exists w', data_handle pow10 malloc_ok junk buf s = Some (tt, set_world w' s)
    /\ removed id w w'
    /\ emits (door_msgs id (default 0 (bindings (table w) !! id)) ++ [MCmd SUBDEVICE_DELETTE_CMD []])
         (w_tx w) (w_tx w').
Proof.
  intros w Hp0 Hh Hw Hl Hm Hid Htp Hc.
  set (ms := door_msgs id (default 0 (bindings (table w) !! id)) ++ [MCmd SUBDEVICE_DELETTE_CMD []]).
  assert (Hwp : wp (data_handle pow10 malloc_ok junk buf) (fun _ s' => exists w', s' = set_world w' s
    /\ removed id w w' /\ emits ms (w_tx w) (w_tx w')) s).
  2: { apply wp_Some in Hwp as ([] & s' & Hrun & w' & -> & He). by exists w'. }
  apply (wp_command _ _ _ _ _ _ _ _ Hh Hc).
  apply (wp_bind (S := Sys E C)), (wp_length _ _ _ _ _ Hc), wp_bind, wp_in_world.
  destruct (carries_data _ _ _ Hc) as (rest & ->). apply wp_with_json; [done..|].
  unfold message_id in Hm. unfold member.
  destruct (cJSON_GetObjectItem _ (str "sub_id")) as [item|]; [|done].
  destruct (cJSON_GetObjectItem _ (str "tp")) as [item'|]; [|done].
  apply wp_bind, (wp_lift_opt _ (fmt_ld id)); [done|]. rewrite u32_atol_fmt_ld by lia.
  apply wp_Remote_Delete; [done | done|]. intros w1 (Hw1 & Hb & Hq) He. apply wp_in_world.
  eapply wp_says; [by apply says_empty | apply He|]. intros t He'.
  exists (set_tx t w1). split; [by destruct s|]. split; [|by eapply emits_app].
  split; [by apply world_ok_tx; [|apply He'] | done].
Qed.

(** The main unit of the example, announced to the cloud. *)
Definition announced : World (gmap (list Z) (list Z)) := state_of demo (on (Flash_Set_UploadFlag 10000001 1) demo).

Lemma announced_ok : world_ok announced.
Proof.
  apply (wp_state_of (on (Flash_Set_UploadFlag 10000001 1)) world_ok). eapply wp_conseq.
  - apply safe_Set_UploadFlag; [by split | apply demo_ok].
  - by intros r w [Hw _].
Qed.

Definition message (id : Z) : list (list Z * jv) :=
  [(str "cid", JStr (str "x")); (str "sub_id", JStr (fmt_ld id)); (str "tp", JNum 0)].

Lemma plain_text l :
  forallb (fun c => (0 <? c) && (c <? 256) && negb (c =? 123) && negb (c =? 125)) l = true -> Forall text_char l.
Proof.
  intros Hl. apply Forall_forall. intros c Hc. apply list_elem_of_In in Hc.
  pose proof (proj1 (forallb_forall _ l) Hl c Hc) as Hb. cbv beta in Hb.
  unfold text_char, char_ok. rewrite !andb_true_iff, !negb_true_iff, !Z.ltb_lt, !Z.eqb_neq in Hb. lia.
Qed.

Lemma message_plain id : jv_plain (JObj (message id)).
Proof.
  destruct (fmt_ld_shape id) as (_ & _ & Hf).
  assert (Ht : Forall text_char (fmt_ld id)).
  { eapply Forall_impl; [exact Hf|]. intros c Hc. cbv beta in Hc. unfold text_char, char_ok. lia. }
  cbn [jv_plain fold_right message fst snd]. split_and!; first [done | by apply plain_text].
Qed.

Lemma heart_query_answered_witness :
  exists t, data_handle pow_one (fun _ => true) 0 (frame HEART_CHECK_CMD 0 (render (JObj (message 10000001)))) (set_world announced sys0)
      = Some (tt, set_world (set_tx t announced) (set_world announced sys0))
    /\ emits [heart_msg (fmt_ld 10000001) 0; online_msg 0 (fmt_ld 10000001) 1] (w_tx announced) t.
Proof.
  apply (heart_query_answered pow_one (fun _ => true) 0 (set_world announced sys0) (message 10000001) 10000001 1
    (default slot0 (slots (table announced) !! 1%nat))).
  - reflexivity.
  - reflexivity.
  - exact announced_ok.
  - apply message_plain.
  - reflexivity.
  - split; [reflexivity | reflexivity].
  - split; [vm_compute; reflexivity | split; [vm_compute; reflexivity | vm_compute; split; intros Hx; discriminate Hx]].
  - vm_compute. intros Hx. discriminate Hx.
  - intros [Hx _]. vm_compute in Hx. contradiction (Hx eq_refl).
  - split; [vm_compute; reflexivity|]. exists 0, []. rewrite app_nil_r. reflexivity.
Defined.

Lemma delete_command_witness :
  exists w', sys_run (frame SUBDEVICE_DELETTE_CMD 0 (render (JObj (message 10000001)))) = Some (tt, set_world w' sys0)
    /\ bindings (table w') !! 10000001 = None.
Proof.
  destruct (delete_command pow_one (fun _ => true) 0 sys0 (message 10000001) 10000001
    (frame SUBDEVICE_DELETTE_CMD 0 (render (JObj (message 10000001))))) as (w' & Hrun & (_ & Hb & _) & _).
  - reflexivity.
  - reflexivity.
  - exact demo_ok.
  - apply message_plain.
  - reflexivity.
  - split; [reflexivity | reflexivity].
  - vm_compute. intros Hx. discriminate Hx.
  - split; [vm_compute; reflexivity|]. exists 0, []. rewrite app_nil_r. reflexivity.
  - exists w'. split; [exact Hrun|]. rewrite Hb. apply lookup_delete_eq.
Defined.
