(* ===== verification/Update.v ===== *)
(** * Firmware updates through the WiFi module

    A whole update: the frame that starts it, the frames with the parts of the
    image, the frame that ends it, through [data_handle] of [Protocol] down to the
    flash chip of [Ota] and [Storage]. *)

From Stdlib Require Import String.
From S2P Require Import Prelude CStr McuTx McuRx Json JsonParse Cloud Flashwork RadioQueue Led World WifiApi WifiSpec Safe Decoder Link Button Storage Ota Protocol ProtoSpec.
Open Scope list_scope.

(** ** The frames *)

(** The offset of a part and the part. *)
Definition part_payload (p : Z * list Z) : list Z := int_to_byte (fst p) ++ snd p.

Definition update_session (n : Z) (ps : list (Z * list Z)) : list (Z * list Z) :=
  (UPDATE_START_CMD, int_to_byte n)
  :: map (fun p => (UPDATE_TRANS_CMD, part_payload p)) ps ++ [(UPDATE_TRANS_CMD, part_payload (n, []))].

(** One answer per frame, except for the last, which resets the processor. *)
Definition update_answers (ps : list (Z * list Z)) : list msg :=
  MCmd UPDATE_START_CMD [PACKAGE_SIZE] :: map (fun _ => MCmd UPDATE_TRANS_CMD []) ps.

Definition part_ok (p : Z * list Z) : Prop :=
  0 <= fst p < 2 ^ 32 /\ bytes_ok (snd p) /\ 1 <= zlen (snd p) <= 1024.

Lemma int_bytes n :
  0 <= n < 2 ^ 32 ->
  int_to_byte n = [n / 16777216; n / 65536 mod 256; n / 256 mod 256; n mod 256].
Proof.
  intros Hn. unfold int_to_byte, u8. rewrite !Z.shiftr_div_pow2, land255_mod by lia.
  change (2 ^ 24) with 16777216. change (2 ^ 16) with 65536. change (2 ^ 8) with 256.
  assert (H1 : 0 <= n / 16777216 < 256)
    by (split; [apply Z.div_pos; lia | apply Z.div_lt_upper_bound; lia]).
  by rewrite Zmod_mod, (Z.mod_small (n / 16777216)).
Qed.

Section Words.
Context {E C : Type} `{EnvDefault E} `{Chips C}.
Implicit Types (s : Sys E C).

Lemma word_of_bytes n :
  0 <= n < 2 ^ 32 ->
  u32 (Z.lor (Z.shiftl (u32 (Z.lor (Z.shiftl (u32 (Z.lor (Z.shiftl (n / 16777216) 8) (n / 65536 mod 256))) 8)
    (n / 256 mod 256))) 8) (n mod 256)) = n.
Proof using.
  intros Hn.
  assert (Hb : forall x, is_byte (x mod 256)) by (intros x; apply Z.mod_pos_bound; lia).
  assert (B1 : 0 <= n / 16777216 < 256)
    by (split; [apply Z.div_pos; lia | apply Z.div_lt_upper_bound; lia]).
  pose proof (Hb (n / 65536)) as B2. pose proof (Hb (n / 256)) as B3. pose proof (Hb n) as B4. unfold is_byte in *.
  rewrite (lor_bytes (n / 16777216)) by (done || lia).
  rewrite (u32_small (n / 16777216 * 256 + _)) by lia.
  rewrite (lor_bytes (n / 16777216 * 256 + _)) by (done || lia).
  rewrite (u32_small (_ + n / 256 mod 256)) by lia.
  rewrite lor_bytes by (done || lia).
  replace (((n / 16777216 * 256 + n / 65536 mod 256) * 256 + n / 256 mod 256) * 256 + n mod 256) with n.
  { by apply u32_small. }
  pose proof (Z.div_mod n 256). pose proof (Z.div_mod (n / 256) 256). pose proof (Z.div_mod (n / 65536) 256).
  rewrite !Z.div_div in * by lia. change (256 * 256) with 65536 in *. change (65536 * 256) with 16777216 in *. lia.
Qed.

Lemma wp_word cmd p rest n buf (Q : Z -> Sys E C -> Prop) s :
  carries cmd p buf -> p = int_to_byte n ++ rest -> 0 <= n < 2 ^ 32 -> Q n s -> wp (word_at buf DATA_START) Q s.
Proof.
  intros Hc Ep Hn HQ. rewrite int_bytes in Ep by done.
  assert (Hat : forall i x, 0 <= i -> p !! Z.to_nat i = Some x -> aget buf (DATA_START + i) = Some x).
  { intros i x Hi Hx. apply (carries_at cmd p); [done..|]. by rewrite aget_lookup. }
  unfold word_at. replace DATA_START with (DATA_START + 0) at 1 by done.
  apply wp_bind, (wp_byte _ _ (n / 16777216)); [by apply Hat; rewrite ?Ep|].
  apply wp_bind, (wp_byte _ _ (n / 65536 mod 256)); [by apply Hat; rewrite ?Ep|].
  apply wp_bind, (wp_byte _ _ (n / 256 mod 256)); [by apply Hat; rewrite ?Ep|].
  apply wp_bind, (wp_byte _ _ (n mod 256)); [by apply Hat; rewrite ?Ep|].
  apply wp_ret. by rewrite word_of_bytes.
Qed.
End Words.

Section Update.
Context {E C : Type} `{EnvDefault E} `{ChipLaws C}.
Context (pow10 : double -> double) (malloc_ok : Z -> bool) (junk : Z).
Context (Hworks : chip_works (C := C)).
Implicit Types (s : Sys E C) (o : Ota C).

Abbreviation handle := (data_handle pow10 malloc_ok junk).

(** Only messages were sent. *)
Definition progress (ms : list msg) s s' : Prop :=
  exists t, s_world s' = set_tx t (s_world s) /\ emits ms (w_tx (s_world s)) t.

Lemma progress_app ms ms' s s1 s2 : progress ms s s1 -> progress ms' s1 s2 -> progress (ms ++ ms') s s2.
Proof using.
  intros (t & E1 & He) (t' & E2 & He'). exists t'. rewrite E2, E1 in *. split; [done|]. by eapply emits_app.
Qed.

(** A program that can be updated. *)
Definition ready s : Prop :=
  halted s = false /\ tx_ok (w_tx (s_world s)) /\ stop_update_flag (w_tx (s_world s)) = DISABLE.

(** The state between two parts. *)
Definition updating (img : list Z) (n : Z) s : Prop :=
  ready s /\ s_firm s = mkFirm n UPDATE_START_CMD 1024 /\ downloading img n (s_ota s).

Lemma wp_in_ota {A} (m : M (Ota C) A) (Q : A -> Sys E C -> Prop) s :
  wp m (fun a o => Q a (set_ota o s)) (s_ota s) -> wp (in_ota m) Q s.
Proof using. intros HQ. unfold in_ota. by apply wp_on. Qed.

Lemma wp_firm {A} (f : Firm -> A) (Q : A -> Sys E C -> Prop) s : Q (f (s_firm s)) s -> wp (firm f) Q s.
Proof using. intros HQ. apply wp_on, wp_gets. by rewrite over_view. Qed.

Lemma wp_stop v (Q : unit -> Sys E C -> Prop) s :
  Q tt (set_world (set_tx (set_stop_update_flag v (w_tx (s_world s))) (s_world s)) s) -> wp (set_stop v) Q s.
Proof using. intros HQ. by apply wp_in_world, wp_on, wp_modify. Qed.

Lemma wp_choose (Q : unit -> Sys E C -> Prop) s :
  Q tt (set_firm (mkFirm (firm_length (s_firm s)) (firm_update_flag (s_firm s)) 1024) s) -> wp choose_size Q s.
Proof using. intros HQ. by apply wp_on, wp_modify. Qed.

Lemma wp_package_choose sz w (Q : unit -> World E -> Prop) :
  tx_ok (w_tx w) -> is_byte sz ->
  (forall t, emits [MCmd UPDATE_START_CMD [sz]] (w_tx w) t -> Q tt (set_tx t w)) ->
  wp (upgrade_package_choose sz) Q w.
Proof using.
  intros Ht Hsz HQ. apply wp_on. cbn [view lens_tx]. tx_step; intros s1 Hs1 Hs2 Hs3. cbn [app] in *.
  apply wp_write_frame; [done.. |]. intros t Hsent. apply HQ. rewrite (u8_small sz) in Hsent by done.
  apply emits_sent. eapply sent_trans_eq; [..|exact Hsent]; done.
Qed.

Lemma wp_start n buf s :
  carries UPDATE_START_CMD (int_to_byte n) buf -> ready s -> update_file_cur_size (s_ota s) = 0 ->
  0 <= n <= len download_part ->
  wp (handle buf) (fun _ s' => updating [] n s' /\ progress [MCmd UPDATE_START_CMD [PACKAGE_SIZE]] s s') s.
Proof using Hworks.
  intros Hc (Hh & Ht & Hstop) Hcur Hn. rewrite download_len in Hn.
  apply (wp_command _ _ _ _ _ _ _ _ Hh Hc). change (wp (update_start buf) ?Q s) with (wp (update_start buf) Q s).
  apply (wp_bind (S := Sys E C)), wp_choose, wp_bind.
  apply (wp_word _ _ [] n _ _ _ Hc); [by rewrite app_nil_r | lia|].
  apply wp_bind, wp_on, wp_modify, wp_bind, wp_in_world.
  apply wp_package_choose; [done | done|]. intros t He.
  apply wp_bind, wp_on, wp_modify, wp_in_ota.
  destruct (begin_spec (s_ota s) n Hworks) as (c' & Eb & Hb); [rewrite download_len; lia|].
  unfold wp. change (s_ota _) with (s_ota s). rewrite Eb, Hcur. split.
  - split; [split_and!; [done | apply He |]|].
    + destruct He as (_ & Es & _). by rewrite <- Hstop.
    + split; [done|]. by split_and!.
  - by exists t.
Qed.

(** Only the bytes of the part are read from the buffer. *)
Lemma receive_padded bs rest off o :
  wifi_ota_receive (bs ++ rest) off (zlen bs) o = wifi_ota_receive bs off (zlen bs) o.
Proof using.
  assert (Hw : forall a c, fal_partition_write (dl_part o) a (bs ++ rest) (zlen bs) c
                           = fal_partition_write (dl_part o) a bs (zlen bs) c).
  { intros a c. unfold fal_partition_write. repeat case_match; try done;
      unfold ops_write, onchip_write, nor_write; rewrite prefix_app, prefix_all; by case_match. }
  unfold wifi_ota_receive, bind, get, on_chips, zoom. cbv beta iota. case_match; [done|]. by rewrite Hw.
Qed.

(** A frame with a part, up to the choice of what to do with it. *)
Lemma wp_trans p buf s (Q : unit -> Sys E C -> Prop) :
  carries UPDATE_TRANS_CMD (part_payload p) buf -> halted s = false ->
  firm_update_flag (s_firm s) = UPDATE_START_CMD -> 0 <= fst p < 2 ^ 32 ->
  (forall rest, drop (Z.to_nat (DATA_START + 4)) buf = snd p ++ rest ->
   wp (do r <- (if (4 + zlen (snd p) =? 4) && (fst p =? firm_length (s_firm s)) then
                  do r <- mcu_firm_update_handle (snd p ++ rest) (fst p) 0;
                  match r with
                  | None => ret None
                  | Some v => run set_flag 0; ret (Some v)
                  end
                else if 4 + zlen (snd p) - 4 <=? firm_size (s_firm s)
                then mcu_firm_update_handle (snd p ++ rest) (fst p) (4 + zlen (snd p) - 4)
                else run set_flag 0; ret (Some ERROR));
       match r with
       | None => ret tt
       | Some v =>
           run (if v =? SUCCESS then in_world (on (wifi_uart_write_frame UPDATE_TRANS_CMD MCU_TX_VER 0)) else ret tt);
           set_stop DISABLE
       end) Q
     (set_world (set_tx (set_stop_update_flag ENABLE (w_tx (s_world s))) (s_world s)) s)) ->
  wp (handle buf) Q s.
Proof using.
  intros Hc Hh Hf Hp HQ. apply (wp_command _ _ _ _ _ _ _ _ Hh Hc).
  change (wp (update_trans buf) Q s). apply wp_bind, wp_firm. rewrite Hf. cbn [Z.eqb negb].
  apply wp_bind, wp_stop, wp_bind, (wp_length _ _ _ _ _ Hc), wp_bind.
  apply (wp_word _ _ (snd p) (fst p) _ _ _ Hc); [done | done|].
  apply wp_bind, wp_firm, wp_bind, wp_firm.
  destruct (carries_split _ _ _ Hc) as (ver & rest & Eb). specialize (HQ rest).
  assert (Ed : drop (Z.to_nat (DATA_START + 4)) buf = snd p ++ rest).
  { rewrite Eb. unfold part_payload. by rewrite <- app_assoc, int_bytes. }
  assert (Ez : zlen (part_payload p) = 4 + zlen (snd p)).
  { unfold part_payload. rewrite zlen_app, int_bytes by done. done. }
  rewrite Ez, Ed. by apply HQ.
Qed.

Lemma wp_part img n p buf s :
  carries UPDATE_TRANS_CMD (part_payload p) buf -> updating img n s -> part_ok p ->
  zlen (accept img p) <= n -> n <= len download_part ->
  wp (handle buf) (fun _ s' => updating (accept img p) n s' /\ progress [MCmd UPDATE_TRANS_CMD []] s s') s.
Proof using Hworks.
  intros Hc ((Hh & Ht & Hstop) & Hfirm & Hd) (Hp & Hb & Hl) Hfit Hn.
  apply (wp_trans p); [done | done | by rewrite Hfirm | done|]. intros rest _. rewrite Hfirm. cbn [firm_length firm_size].
  rewrite (proj2 (Z.eqb_neq (4 + _) 4)), (proj2 (Z.leb_le (4 + _ - 4) 1024)) by lia. cbn [andb].
  apply wp_bind. unfold mcu_firm_update_handle. replace (4 + zlen (snd p) - 4) with (zlen (snd p)) by lia.
  rewrite u16_small, (proj2 (Z.eqb_neq (zlen _) 0)) by lia.
  apply wp_bind, wp_in_ota. destruct (receive_spec (s_ota s) img n p) as (o' & Eo & Hd'); [done..|].
  change (s_ota (set_world _ s)) with (s_ota s). unfold wp at 1. rewrite receive_padded, Eo.
  apply wp_ret. cbn [Z.eqb Pos.eqb SUCCESS]. apply wp_bind, wp_in_world.
  eapply wp_says; [by apply says_empty | exact Ht|]. intros t (He1 & He2 & He3). apply wp_stop.
  assert (He : emits [MCmd UPDATE_TRANS_CMD []] (w_tx (s_world s)) (set_stop_update_flag DISABLE t)).
  { split; [done|]. split; [by rewrite Hstop|]. cbn [uart_out set_stop_update_flag]. by rewrite He3. }
  split.
  - split; [split_and!; [done | apply He | done]|]. split; [done | done].
  - by exists (set_stop_update_flag DISABLE t).
Qed.

(** The last frame, and any other without a part: the processor is reset. *)
Lemma wp_end off buf s :
  carries UPDATE_TRANS_CMD (part_payload (off, [])) buf -> halted s = false ->
  firm_update_flag (s_firm s) = UPDATE_START_CMD -> 0 <= firm_size (s_firm s) -> 0 <= off < 2 ^ 32 ->
  wp (handle buf) (fun _ s' => halted s' = true /\ s_ota s' = s_ota s
    /\ s_world s' = set_tx (set_stop_update_flag ENABLE (w_tx (s_world s))) (s_world s)) s.
Proof using.
  intros Hc Hh Hf Hsz Hoff. apply (wp_trans (off, [])); [done..|]. intros rest _. cbn [fst snd]. rewrite zlen_nil.
  change (4 + 0 =? 4) with true. change (4 + 0 - 4) with 0. rewrite (proj2 (Z.leb_le 0 _)) by done. cbn [andb].
  by destruct (off =? _).
Qed.

Lemma handle_all_cons b bufs s s1 :
  handle b s = Some (tt, s1) -> handle_all handle (b :: bufs) s = handle_all handle bufs s1.
Proof using. intros Hb. cbn [handle_all]. by rewrite Hb. Qed.

Lemma parts_spec ps : forall img n bufs s more,
  Forall2 (fun p => carries UPDATE_TRANS_CMD (part_payload p)) ps bufs -> Forall part_ok ps -> updating img n s ->
  zlen (fold_left accept ps img) <= n -> n <= len download_part ->
  exists s', handle_all handle (bufs ++ more) s = handle_all handle more s' /\ updating (fold_left accept ps img) n s'
    /\ progress (map (fun _ => MCmd UPDATE_TRANS_CMD []) ps) s s'.
Proof using Hworks.
  induction ps as [|p ps IH]; intros img n bufs s more Hc Hps Hu Hfit Hn.
  - apply Forall2_nil_inv_l in Hc as ->. exists s. split; [done|]. split; [done|].
    exists (w_tx (s_world s)). split; [by destruct (s_world s)|]. apply emits_nil, Hu.
  - apply Forall2_cons_inv_l in Hc as (b & bufs' & Hb & Hc & ->). apply Forall_cons_1 in Hps as [Hp Hps].
    cbn [fold_left] in *.
    assert (Hfit1 : zlen (accept img p) <= n) by (pose proof (accept_grows ps (accept img p)); lia).
    pose proof (wp_part img n p b s Hb Hu Hp Hfit1 Hn) as Hw. apply wp_Some in Hw as ([] & s1 & E1 & Hu1 & Hg1).
    destruct (IH (accept img p) n bufs' s1 more Hc Hps Hu1 Hfit Hn) as (s' & E' & Hu' & Hg').
    exists s'. cbn [app]. rewrite (handle_all_cons b _ s s1 E1). split; [done|]. split; [done|].
    by apply (progress_app [_] _ s s1).
Qed.
End Update.

(** C14: a whole update through the WiFi module: every frame of the session is
    handled, each but the last is answered with one frame, no data point is
    touched; at the end the partition [download] holds the image the parts spell,
    blank behind it, and the processor is reset. *)
Theorem module_update {E C} `{EnvDefault E} `{ChipLaws C} pow10 malloc_ok junk (s : Sys E C) n ps bufs :
  chip_works (C := C) -> ready s -> update_file_cur_size (s_ota s) = 0 ->
  Forall part_ok ps -> zlen (image ps) <= n -> n <= len download_part ->
  Forall2 (fun f => carries (fst f) (snd f)) (update_session n ps) bufs ->
  exists s' t, handle_all (data_handle pow10 malloc_ok junk) bufs s = Some s'
    /\ halted s' = true /\ holds (chips (s_ota s')) (image ps) n
    /\ emits (update_answers ps) (w_tx (s_world s)) t
    /\ s_world s' = set_tx (set_stop_update_flag ENABLE t) (s_world s).
Proof.
  intros Hworks Hr Hcur Hps Hfit Hn Hc. pose proof (zlen_nonneg (image ps)) as Hz.
  apply Forall2_cons_inv_l in Hc as (b & rest & Hb & Hc & ->). cbn [fst snd] in Hb.
  apply Forall2_app_inv_l in Hc as (parts & last & Hparts & Hlast & ->). rewrite Forall2_fmap_l in Hparts.
  apply Forall2_cons_inv_l in Hlast as (e & nil & He & Hnil & ->). apply Forall2_nil_inv_l in Hnil as ->.
  pose proof (wp_start pow10 malloc_ok junk Hworks n b s Hb Hr Hcur ltac:(lia)) as Hw.
  apply wp_Some in Hw as ([] & s1 & E1 & Hu1 & Hg1). rewrite (handle_all_cons _ _ _ b _ s s1 E1).
  destruct (parts_spec pow10 malloc_ok junk Hworks ps [] n parts s1 [e]) as (s2 & E2 & Hu2 & Hg2); [done..|].
  rewrite E2. destruct (progress_app [_] _ s s1 s2 Hg1 Hg2) as (t & Ew & Ht).
  destruct Hu2 as ((Hh2 & _ & _) & Hf2 & Hd2). rewrite download_len in Hn.
  assert (Hend : wp (data_handle pow10 malloc_ok junk e) (fun _ s' => halted s' = true /\ s_ota s' = s_ota s2
    /\ s_world s' = set_tx (set_stop_update_flag ENABLE (w_tx (s_world s2))) (s_world s2)) s2).
  { apply (wp_end pow10 malloc_ok junk n); [done | done | by rewrite Hf2 | by rewrite Hf2 | lia]. }
  apply wp_Some in Hend as ([] & s' & E3 & Hh3 & Ho3 & Hw3). exists s', t.
  split; [cbn [handle_all]; by rewrite E3|]. split; [done|]. split; [rewrite Ho3; apply Hd2|].
  split; [exact Ht|]. by rewrite Hw3, Ew.
Qed.

Definition update_parts : list (Z * list Z) := [(0, [7; 8]); (0, [7; 8]); (4, [1]); (2, [9])].

Lemma module_update_witness :
  exists s' t, handle_all (data_handle pow_one (fun _ => true) 0)
      (map (fun f => frame (fst f) 0 (snd f)) (update_session 6 update_parts)) sys0 = Some s'
    /\ holds (chips (s_ota s')) [7; 8; 9] 6 /\ emits (update_answers update_parts) (w_tx demo) t.
Proof.
  destruct (module_update pow_one (fun _ => true) 0 sys0 6 update_parts
    (map (fun f => frame (fst f) 0 (snd f)) (update_session 6 update_parts))) as (s' & t & Hrun & _ & Hh & He & _).
  - exact mem_chip_works.
  - split; [reflexivity|]. split; [exact (world_tx demo demo_ok) | reflexivity].
  - reflexivity.
  - repeat constructor; try (intros Hx; discriminate Hx).
  - vm_compute. discriminate.
  - vm_compute. discriminate.
  - repeat constructor; exists 0, []; rewrite app_nil_r; reflexivity.
  - exists s', t. split; [exact Hrun|]. split; [exact Hh | exact He].
Defined.

(** A frame without a part resets the processor in the middle of an update,
    whatever its offset. *)
Lemma empty_part_resets :
  match handle_all (data_handle pow_one (fun _ => true) 0)
    (map (fun f => frame (fst f) 0 (snd f))
       [(UPDATE_START_CMD, int_to_byte 6); (UPDATE_TRANS_CMD, part_payload (0, [7; 8])); (UPDATE_TRANS_CMD, part_payload (2, []))]) sys0 with
  | Some s' => halted s' = true
  | None => False
  end.
Proof. vm_compute. reflexivity. Qed.
