(* ===== verification/ProtoSafe.v ===== *)
(** * No well-formed command goes wrong

    [acceptable] says which commands of the module the program can take in a
    state; on those [data_handle] makes no access outside an object, ends, and
    keeps the invariant [sys_ok].  The commands it leaves out are the ones the
    findings are about. *)

From Stdlib Require Import String.
From S2P Require Import Prelude CStr McuTx McuRx Json JsonParse Cloud Flashwork RadioQueue Led World WifiApi WifiSpec Safe Decoder Link Button Storage Ota Protocol ProtoSpec Update.
Open Scope list_scope.

(** ** Messages of one kind *)

Definition product_msg (flag : Z) : msg :=
  MJson PRODUCT_INFO_CMD
    (JObj ([(str "v", JStr MCU_VER); (str "m", JNum CONFIG_MODE); (str "cap", JNum sub_ability)]
           ++ (if flag =? 1 then [(str "p", JStr GW_PRODUCT_KEY)] else [])
           ++ (if flag =? 2 then [(str "p", JStr MAIN_PRODUCT_KEY)] else [])
           ++ [(str "n", JNum CONFIG_MODE_CHOOSE); (str "s", JNum 0)])).

Section Answers.
Context {E : Type} `{EnvDefault E}.

Lemma says_json width cmd v :
  jv_ok v -> zlen (render v) <= 4096 -> width (zlen (render v)) = zlen (render v) -> is_byte cmd ->
  says (E := E) [MJson cmd v] (on (send_json width cmd (item_of v))).
Proof. intros Hv Hl Hw Hc. apply says_tx. intros s Q Hs HQ. by apply wp_send_json. Qed.

Lemma says_product flag : says (E := E) [product_msg flag] (product_info_update flag).
Proof.
  unfold product_msg. set (v := JObj _).
  assert (Hv : jv_ok v /\ zlen (render v) <= 255).
  { unfold v. destruct (flag =? 1), (flag =? 2); (split; [cbn [jv_ok fold_right fst snd app]; repeat split; try done;
      first [by apply char_ok_str; vm_compute | unfold is_byte; cbn; lia] | vm_compute; discriminate]). }
  destruct Hv as [Hv Hl]. pose proof (zlen_nonneg (render v)).
  eapply says_eq; [|reflexivity].
  assert (Hm : forall w, product_info_update (E := E) flag w = on (send_json u8 PRODUCT_INFO_CMD (item_of v)) w).
  { intros w. unfold product_info_update, v. by destruct (flag =? 1), (flag =? 2). }
  intros w Q Hw HQ. unfold wp. rewrite Hm. fold (wp (on (send_json u8 PRODUCT_INFO_CMD (item_of v))) Q w).
  apply (says_json u8 PRODUCT_INFO_CMD v); [done | lia | | done | done | done].
  apply u8_small. unfold is_byte. lia.
Qed.
End Answers.

(** ** Data points *)

(** A data point as the module sends it: its number, its type, its value. *)
Definition point_bytes (p : Z * Z * list Z) : list Z :=
  let '(d, ty, v) := p in d :: ty :: zlen v / 256 :: zlen v mod 256 :: v.

Definition point_ok (p : Z * Z * list Z) : Prop :=
  let '(d, ty, v) := p in is_Some (listed_type d) /\ (d = DPID_CONTROL_STATE -> v <> []).

Section SafePoints.
Context {E : Type} `{EnvDefault E}.
Context (junk : Z) (sub : list Z) (Hsub : zlen sub <= 49).
Implicit Types (w : World E).

Lemma padded_zero : exists r, padded sub = sub ++ 0 :: r.
Proof using Hsub.
  exists (replicate (49 - length sub) 0). unfold padded.
  by replace (50 - length sub)%nat with (S (49 - length sub)) by (unfold zlen in *; lia).
Qed.

Lemma safe_echo v : safe (E := E) any (on (mcu_dp_bool_update DPID_CONTROL_STATE v (Some (padded sub)) (zlen sub))).
Proof using Hsub.
  intros w Hw. apply wp_on. unfold wp. cbn [view lens_tx]. unfold padded.
  rewrite bool_update_padded by (done || lia).
  assert (Hu : wp (mcu_dp_bool_update DPID_CONTROL_STATE v (Some sub) (zlen sub))
                 (fun _ t => world_ok (over t w) /\ any (tt)) (w_tx w)).
  { eapply wp_conseq; [apply bool_update_spec; [apply Hw | lia | done | done]|].
    intros r t [_ Hu]. split; [|done]. apply world_ok_tx; [done|]. unfold uploads in Hu.
    destruct (stop_update_flag (w_tx w) =? 1); [subst; apply Hw | apply Hu]. }
  unfold wp in Hu. destruct (mcu_dp_bool_update _ _ _ _ _) as [[r t]|]; [|done]. by destruct Hu.
Qed.

Lemma safe_point d ty h l v rest :
  is_Some (listed_type d) -> (d = DPID_CONTROL_STATE -> v <> []) ->
  safe (E := E) any (data_point_handle junk (d :: ty :: h :: l :: v ++ rest) (padded sub) (zlen sub)).
Proof using Hsub.
  intros [t Ht] Hv. destruct (decide (d = DPID_CONTROL_STATE)) as [->|Hd].
  2: { intros w Hw. unfold wp. rewrite point_handled by done. by rewrite Ht. }
  destruct v as [|b v]; [by destruct (Hv eq_refl)|]. destruct padded_zero as (z & Hz).
  intros w Hw. unfold data_point_handle.
  apply wp_bind, (wp_lift_opt _ DPID_CONTROL_STATE); [done|].
  apply wp_bind, (wp_lift_opt _ ty); [done|].
  apply wp_bind, (wp_lift_opt _ h); [done|].
  apply wp_bind, (wp_lift_opt _ l); [done|].
  apply wp_bind, (wp_lift_opt _ (DPID_CONTROL_STATE, DP_TYPE_BOOL)); [done|].
  destruct (negb (ty =? snd (DPID_CONTROL_STATE, DP_TYPE_BOOL))); [by apply wp_ret|].
  change (wp (dp_download_control_state_handle (b :: v ++ rest) (padded sub) (zlen sub)) ?Q w)
    with (wp (dp_download_control_state_handle (b :: v ++ rest) (padded sub) (zlen sub)) Q w).
  unfold dp_download_control_state_handle.
  apply wp_bind, (wp_lift_opt _ (u32 (atol sub))); [by rewrite Hz, atol_at_stops, atol_zero|].
  apply wp_bind, (wp_lift_opt _ b); [done|]. revert w Hw. fold (safe (E := E) any (
    run (if b =? 0 then Moto_CloseRemote (u32 (atol sub)) else Moto_OpenRemote (u32 (atol sub)) : M (World E) unit);
    do r <- on (mcu_dp_bool_update DPID_CONTROL_STATE b (Some (padded sub)) (zlen sub));
    ret (if r =? SUCCESS then SUCCESS else ERROR))).
  apply safe_run; [unfold Moto_CloseRemote, Moto_OpenRemote; apply safe_if; intros _; apply safe_gateway|].
  apply (safe_bind any); [apply safe_echo|]. intros r _. by apply safe_ret.
Qed.

Lemma safe_issued_loop ps : forall fuel pre rest w,
  (length ps < fuel)%nat -> zlen pre + zlen (concat (map point_bytes ps)) < 65536 -> Forall point_ok ps -> world_ok w ->
  wp (issued_loop junk fuel (pre ++ concat (map point_bytes ps) ++ rest) (zlen pre)
        (zlen pre + zlen (concat (map point_bytes ps))) (padded sub) (zlen sub)) (fun _ w' => world_ok w') w.
Proof using Hsub.
  induction ps as [|[[d ty] v] ps IH]; intros [|fuel] pre rest w Hf Hlen Hps Hw; cbn [length] in Hf; try lia; cbn [issued_loop].
  - change (zlen (concat (map point_bytes []))) with 0. by rewrite Z.add_0_r, Z.ltb_irrefl.
  - apply Forall_cons in Hps as [[Hd Hv] Hps]. cbn [map concat point_bytes] in *.
    rewrite !zlen_app, !zlen_cons in *. pose proof (zlen_nonneg v). pose proof (zlen_nonneg pre).
    pose proof (zlen_nonneg (concat (map point_bytes ps))). rewrite (proj2 (Z.ltb_lt _ _)) by lia.
    set (q := d :: ty :: zlen v / 256 :: zlen v mod 256 :: v).
    set (buf := pre ++ (q ++ concat (map point_bytes ps)) ++ rest).
    assert (Hbuf : buf = (pre ++ q) ++ concat (map point_bytes ps) ++ rest) by (unfold buf; by rewrite <- !app_assoc).
    assert (Hget : forall j x, 0 <= j -> q !! Z.to_nat j = Some x -> aget buf (zlen pre + j) = Some x).
    { intros j x Hj Hx. unfold buf. rewrite aget_lookup by lia. rewrite lookup_app_r by (unfold zlen; lia).
      replace (Z.to_nat (zlen pre + j) - length pre)%nat with (Z.to_nat j) by (unfold zlen; lia).
      by do 2 apply lookup_app_l_Some. }
    apply wp_bind, (wp_lift_opt _ (zlen v / 256)); [by apply Hget|].
    apply wp_bind, (wp_lift_opt _ (zlen v mod 256)); [by apply Hget|]. apply wp_bind.
    assert (Hdrop : drop (Z.to_nat (zlen pre)) buf = d :: ty :: zlen v / 256 :: zlen v mod 256 :: v ++ concat (map point_bytes ps) ++ rest).
    { unfold zlen at 1, buf. rewrite Nat2Z.id, drop_app_length. unfold q. cbn [app]. by rewrite <- app_assoc. }
    rewrite Hdrop. eapply wp_conseq; [by apply safe_point|]. intros r w1 [Hw1 _].
    rewrite lor_bytes by (first [apply Z.div_pos; lia | apply Z.mod_pos_bound; lia]).
    replace (zlen v / 256 * 256 + zlen v mod 256) with (zlen v) by (rewrite Z.mul_comm; apply Z.div_mod; lia).
    rewrite u16_small by lia. assert (Hq : zlen q = 4 + zlen v) by (unfold q; rewrite !zlen_cons; lia).
    rewrite Hbuf. replace (zlen pre + (zlen v + 4)) with (zlen (pre ++ q)) by (rewrite zlen_app; lia).
    replace (zlen pre + _) with (zlen (pre ++ q) + zlen (concat (map point_bytes ps))) by (rewrite zlen_app; lia).
    apply IH; [lia | rewrite zlen_app; lia | done | done].
Qed.

Lemma safe_data_issued ps rest :
  zlen sub + zlen (concat (map point_bytes ps)) < 65000 -> Forall point_ok ps ->
  let data := zlen sub :: sub ++ concat (map point_bytes ps) in
  safe (E := E) any (data_issued junk (data ++ rest) (zlen data)).
Proof using Hsub.
  intros Hlen Hps data w Hw. pose proof (zlen_nonneg sub). pose proof (zlen_nonneg (concat (map point_bytes ps))).
  unfold data_issued. apply wp_bind, (wp_lift_opt _ (zlen sub)); [done|].
  assert (Hd : drop 1 (data ++ rest) = sub ++ concat (map point_bytes ps) ++ rest)
    by (unfold data; change (drop 1 ((?a :: ?l) ++ ?r)) with (l ++ r); by rewrite <- app_assoc).
  apply wp_bind, (wp_lift_opt _ (padded sub)).
  { rewrite Hd. unfold sub_id_of, padded. rewrite blit_ok.
    - unfold zlen, BUF_SIZE. rewrite Z.add_0_l, Nat2Z.id, take_app_length. cbn [take app Z.to_nat]. by rewrite drop_replicate.
    - rewrite zlen_app. pose proof (zlen_nonneg (concat (map point_bytes ps) ++ rest)). lia.
    - done.
    - rewrite zlen_replicate. unfold BUF_SIZE. lia. }
  assert (Hz : zlen data = zlen (zlen sub :: sub) + zlen (concat (map point_bytes ps)))
    by (unfold data; rewrite !zlen_cons, zlen_app; lia).
  replace (data ++ rest) with ((zlen sub :: sub) ++ concat (map point_bytes ps) ++ rest)
    by (unfold data; cbn [app]; by rewrite <- app_assoc).
  rewrite Hz. replace (1 + zlen sub) with (zlen (zlen sub :: sub)) by apply zlen_cons.
  eapply wp_conseq; [apply safe_issued_loop; [| | done | done]|done].
  - unfold ISSUED_FUEL. assert (length ps <= length (concat (map point_bytes ps)))%nat; [|unfold zlen in *; lia].
    clear. induction ps as [|[[d ty] v] ps IH]; [done|]. cbn [map concat point_bytes]. rewrite length_app. cbn [length]. lia.
  - rewrite zlen_cons. lia.
Qed.
End SafePoints.

(** ** The other handlers *)

Section SafeHandlers.
Context {E : Type} `{EnvDefault E}.
Implicit Types (w : World E).

Lemma safe_link {A} (f : Wifi -> A) : safe (E := E) any (link f).
Proof. intros w Hw. by apply wp_link. Qed.

Lemma safe_link_set f : safe (E := E) any (link_set f).
Proof. apply safe_wifi. Qed.

Lemma safe_empty cmd : is_byte cmd -> safe (E := E) any (on (wifi_uart_write_frame cmd MCU_TX_VER 0)).
Proof. intros Hc. by eapply safe_says, says_empty. Qed.

Lemma safe_Remote_Device_Clear : safe (E := E) any Remote_Device_Clear.
Proof. intros w Hw. apply wp_on, wp_modify. split; [|done]. destruct Hw. by split. Qed.

Lemma safe_list_query : safe (E := E) any (on qur_subdev_list).
Proof. by apply (safe_empty QUR_SUBDEV_LIST_CMD). Qed.

#[local] Hint Resolve safe_link safe_link_set safe_empty safe_Remote_Device_Clear safe_list_query safe_wifi_led : gw.

Lemma safe_status_change r : safe (E := E) any (wifi_status_change r).
Proof. unfold wifi_status_change. safe_tac. Qed.

Lemma safe_led_factory t : safe (E := E) any (on (wifi_led_factory t)).
Proof. unfold wifi_led_factory. repeat case_match; first [apply safe_led_all | by apply safe_leds]. Qed.

Lemma safe_test_result r x : safe (E := E) any (wifi_test_result r x).
Proof. unfold wifi_test_result. pose proof safe_led_factory. safe_tac. Qed.

(** A text on which the parser goes through, with the id as a string. *)
Definition json_ok (pow10 : double -> double) (p : list Z) : Prop :=
  match cJSON_Parse pow10 (p ++ [0]) with
  | Fault => False
  | Null => True
  | Got root => forall item, cJSON_GetObjectItem root (str "sub_id") = Some item -> is_Some (valuestring item)
  end.

Lemma safe_with_json pow10 p rest k :
  json_ok pow10 p ->
  (forall root, (forall item, cJSON_GetObjectItem root (str "sub_id") = Some item -> is_Some (valuestring item)) ->
     safe (E := E) any (k root)) ->
  safe (E := E) any (with_json pow10 (p ++ rest) (zlen p) k).
Proof.
  unfold json_ok. intros Hp Hk w Hw. unfold with_json. apply wp_bind, (wp_lift_opt _ p); [by apply prefix_app|].
  destruct (cJSON_Parse pow10 (p ++ [0])); [done | by apply safe_ret | by apply Hk].
Qed.

Lemma safe_subdevice_delete pow10 p rest :
  json_ok pow10 p -> safe (E := E) any (subdevice_delete pow10 (p ++ rest) (zlen p)).
Proof.
  intros Hp. apply safe_with_json; [done|]. intros root Hid. unfold member.
  destruct (cJSON_GetObjectItem root (str "sub_id")) as [item|]; [|by apply safe_ret].
  destruct (Hid item eq_refl) as [s Hs].
  destruct (cJSON_GetObjectItem root (str "tp")); [|by apply safe_ret].
  intros w Hw. apply wp_bind, (wp_lift_opt _ s); [done|]. apply safe_Remote_Delete; [apply u32_ok | done].
Qed.

Lemma safe_heart_beat_check pow10 p rest :
  json_ok pow10 p -> safe (E := E) any (heart_beat_check pow10 (p ++ rest) (zlen p)).
Proof.
  intros Hp. apply safe_with_json; [done|]. intros root Hid. unfold member.
  destruct (cJSON_GetObjectItem root (str "sub_id")) as [item|]; [|by apply safe_ret].
  destruct (Hid item eq_refl) as [s Hs]. intros w Hw. apply wp_bind, (wp_lift_opt _ s); [done|].
  by apply safe_Heart_Request.
Qed.

Lemma safe_ver_get pow10 p rest :
  json_ok pow10 p -> safe (E := E) any (qur_subdev_ver_get pow10 (p ++ rest) (zlen p)).
Proof.
  intros Hp. apply safe_with_json; [done|]. intros root _. unfold member.
  case_match; by apply safe_ret.
Qed.
End SafeHandlers.

(** ** The dispatcher *)

(** What the frames of an update rely on. *)
Definition run_ok {E C} `{EnvDefault E} (s : Sys E C) : Prop :=
  world_ok (s_world s)
  /\ (firm_update_flag (s_firm s) = UPDATE_START_CMD -> dl_part (s_ota s) = Some download_part).

(** The store holds some well formed table. *)
Definition bootable {E C} `{EnvDefault E} (s : Sys E C) : Prop :=
  exists d, table_ok d /\ synced d (env (w_flash (s_world s))).

Lemma run_bootable {E C} `{EnvDefault E} (s : Sys E C) : run_ok s -> bootable s.
Proof. intros [Hw _]. exists (Global_Device (w_flash (s_world s))). apply (world_flash _ Hw). Qed.

Lemma default_synced {E} `{EnvDefault E} (e : E) : synced dev0 (env_default e).
Proof.
  assert (Hz : forall k, str "boot_times" <> k -> read_value (env_default e) k = 0).
  { intros k Hk. unfold read_value. rewrite env_get_default. unfold default_env_set, default_value.
    by rewrite decide_False. }
  split; [by apply Hz | by apply Hz | | |].
  - intros i s Hi. cbn in Hi. lia.
  - intros i s Hs Hne. apply lookup_replicate in Hs as [-> _]. done.
  - intros i s Hs Hne. apply lookup_replicate in Hs as [-> _]. done.
Qed.

(** A reset ends everything but the store. *)
Definition sys_ok {E C} `{EnvDefault E} (s : Sys E C) : Prop :=
  (halted s = true /\ bootable s) \/ run_ok s.

Definition json_cmd (cmd : Z) : Prop :=
  cmd = SUBDEVICE_DELETTE_CMD \/ cmd = HEART_CHECK_CMD \/ cmd = QUR_SUBDEV_VER_CMD.

(** The commands with a structure the program relies on. *)
Definition structured : list Z :=
  [SUBDEVICE_DELETTE_CMD; HEART_CHECK_CMD; QUR_SUBDEV_VER_CMD; DATA_ISSUED_CMD; QUR_SUBDEV_LIST_CMD;
   UPDATE_START_CMD; UPDATE_TRANS_CMD; SUBDEV_START_UPGRADE_CMD; SUBDEV_TRANS_CMD].

Inductive acceptable {E C} (pow10 : double -> double) (s : Sys E C) : Z -> list Z -> Prop :=
| acc_json cmd p : json_cmd cmd -> json_ok pow10 p -> acceptable pow10 s cmd p
| acc_issued sub ps :
    zlen sub <= 49 -> Forall point_ok ps -> zlen sub + zlen (concat (map point_bytes ps)) < 65000 ->
    acceptable pow10 s DATA_ISSUED_CMD (zlen sub :: sub ++ concat (map point_bytes ps))
| acc_list more names :
    Forall (fun id => zlen id <= 31) names -> zlen (list_package more names) <= 256 ->
    known (s_world s) + zlen names < 50 ->
    acceptable pow10 s QUR_SUBDEV_LIST_CMD (list_package more names)
| acc_start n rest : 0 <= n < 2 ^ 32 -> acceptable pow10 s UPDATE_START_CMD (int_to_byte n ++ rest)
| acc_trans p : 0 <= fst p < 2 ^ 32 -> zlen (snd p) < 65000 -> acceptable pow10 s UPDATE_TRANS_CMD (part_payload p)
| acc_sub cmd sub n rest :
    cmd = SUBDEV_START_UPGRADE_CMD \/ cmd = SUBDEV_TRANS_CMD -> zlen sub <= 50 -> 0 <= n < 2 ^ 32 ->
    acceptable pow10 s cmd (zlen sub :: sub ++ int_to_byte n ++ rest)
| acc_plain cmd p : cmd ∉ structured -> (cmd = WIFI_TEST_CMD -> p <> []) -> acceptable pow10 s cmd p.

Section SafeCommands.
Context {E C : Type} `{EnvDefault E} `{Chips C}.
Context (pow10 : double -> double) (malloc_ok : Z -> bool) (junk : Z).
Implicit Types (s : Sys E C).

Abbreviation ends := (fun (_ : unit) (s' : Sys E C) => sys_ok s').

Lemma run_ok_world s w : run_ok s -> world_ok w -> run_ok (set_world w s).
Proof using. intros [_ Hd] Hw. by split. Qed.

Lemma wp_safe {A} (m : M (World E) A) (Q : A -> Sys E C -> Prop) s :
  run_ok s -> safe any m -> (forall a w, world_ok w -> Q a (set_world w s)) -> wp (in_world m) Q s.
Proof using.
  intros [Hw _] Hm HQ. apply wp_in_world. eapply wp_conseq; [by apply Hm|]. intros a w [Hw' _]. by apply HQ.
Qed.

Lemma ends_safe (m : M (World E) unit) s : run_ok s -> safe any m -> wp (in_world m) ends s.
Proof using. intros Hr Hm. apply wp_safe; [done..|]. intros u w Hw. right. by apply run_ok_world. Qed.

Lemma carries_some cmd p buf i :
  carries cmd p buf -> 0 <= i <= zlen p -> exists x, aget buf (DATA_START + i) = Some x.
Proof using.
  intros [_ (ver & rest & ->)] Hi. apply aget_is_Some. rewrite zlen_app, zlen_frame.
  unfold DATA_START. pose proof (zlen_nonneg rest). lia.
Qed.

(** A command that reads one byte of the data. *)
Lemma wp_result cmd p buf (k : Z -> M (Sys E C) unit) Q s :
  carries cmd p buf -> (forall x, wp (k x) Q s) -> wp (do x <- byte_at buf DATA_START; k x) Q s.
Proof using.
  intros Hc Hk. destruct (carries_some cmd p buf 0 Hc) as [x Hx]; [pose proof (zlen_nonneg p); lia|].
  apply wp_bind, (wp_byte _ _ x); [exact Hx | apply Hk].
Qed.

Lemma safe_inform r s : run_ok s -> wp (inform_dev_del_status r) ends s.
Proof using.
  intros Hr. unfold inform_dev_del_status. destruct (r =? 0).
  { left. split; [done | by apply run_bootable]. }
  destruct (r =? 3); [|by right].
  apply wp_bind, wp_in_world, wp_on, wp_modify. left. split; [done|]. exists dev0.
  split; [apply table_ok_dev0 | apply default_synced].
Qed.

Lemma wp_plain cmd p buf s :
  carries cmd p buf -> cmd ∉ structured -> (cmd = WIFI_TEST_CMD -> p <> []) -> run_ok s ->
  wp (command pow10 malloc_ok junk cmd buf) ends s.
Proof using.
  intros Hc Hs Ht Hr. unfold command. cbv zeta.
  assert (Hres : forall k, (forall x s, run_ok s -> wp (k x) ends s) -> wp (do x <- byte_at buf DATA_START; k x) ends s).
  { intros k Hk. eapply wp_result; [exact Hc|]. intros x. by apply Hk. }
  assert (Hret : forall s, run_ok s -> wp (ret tt : M (Sys E C) unit) ends s) by (intros; by right).
  repeat lazymatch goal with
  | |- wp (if cmd =? ?x then ?m else _) _ _ =>
      destruct (Z.eqb_spec cmd x) as [->|?];
      [first [ exfalso; apply Hs; unfold structured; solve [repeat first [apply list_elem_of_here | apply list_elem_of_further]]
             | lazymatch m with
               | ret _ => by apply Hret
               | bind (byte_at buf DATA_START) (fun _ => ret _) => apply Hres; intros; by apply Hret
               | bind (byte_at buf DATA_START) inform_dev_del_status => apply Hres; intros; by apply safe_inform
               | in_world (link_set _) => apply ends_safe; [exact Hr | apply safe_link_set]
               | in_world get_mcu_wifi_mode => apply ends_safe; [exact Hr | by apply safe_empty]
               | _ => idtac
               end ] |]
  end.
  - destruct Hc as [_ (ver & rest & ->)]. apply wp_bind, (wp_byte _ _ ver); [done|].
    apply ends_safe; [done|]. eapply safe_says, says_product.
  - unfold wifi_state. eapply wp_result; [exact Hc|]. intros x.
    apply wp_bind, wp_safe; [done | apply safe_link_set|]. intros _ w Hw. assert (Hr1 := run_ok_world s w Hr Hw).
    apply wp_bind, wp_safe; [done | by apply safe_empty|]. intros _ w1 Hw1.
    apply ends_safe; [by apply run_ok_world | apply safe_status_change].
  - apply wp_bind, wp_safe; [done | apply safe_link_set|]. intros _ w Hw.
    apply ends_safe; [by apply run_ok_world | by apply safe_empty].
  - apply wp_bind, wp_safe; [done | apply safe_link_set|]. intros _ w Hw.
    apply ends_safe; [by apply run_ok_world | by apply safe_empty].
  - destruct (carries_some _ p buf 1 Hc) as [x Hx].
    { destruct p as [|y p]; [by specialize (Ht eq_refl)|]. rewrite zlen_cons. pose proof (zlen_nonneg p). lia. }
    apply wp_bind, (wp_byte _ _ x); [exact Hx|]. eapply wp_result; [exact Hc|]. intros r.
    apply ends_safe; [done | apply safe_test_result].
  - by right.
Qed.

Lemma wp_json_cmd cmd p buf s :
  carries cmd p buf -> json_cmd cmd -> json_ok pow10 p -> run_ok s -> wp (command pow10 malloc_ok junk cmd buf) ends s.
Proof using.
  intros Hc Hj Hp Hr. destruct (carries_data _ _ _ Hc) as (rest & Ed).
  destruct Hj as [->|[->| ->]].
  - change (wp (subdevice_delete_cmd pow10 buf) ends s).
    apply wp_bind, (wp_length _ _ _ _ _ Hc). rewrite Ed.
    apply wp_bind, wp_safe; [done | by apply safe_subdevice_delete|]. intros _ w Hw.
    apply ends_safe; [by apply run_ok_world | by apply safe_empty].
  - change (wp (do n <- length_at buf; in_world (heart_beat_check pow10 (frame_data buf) n)) ends s).
    apply wp_bind, (wp_length _ _ _ _ _ Hc). rewrite Ed. apply ends_safe; [done | by apply safe_heart_beat_check].
  - change (wp (do n <- length_at buf; in_world (qur_subdev_ver_get pow10 (frame_data buf) n)) ends s).
    apply wp_bind, (wp_length _ _ _ _ _ Hc). rewrite Ed. apply ends_safe; [done | by apply safe_ver_get].
Qed.

Lemma wp_list_cmd more names buf s :
  carries QUR_SUBDEV_LIST_CMD (list_package more names) buf ->
  Forall (fun id => zlen id <= 31) names -> zlen (list_package more names) <= 256 ->
  known (s_world s) + zlen names < 50 -> run_ok s ->
  wp (command pow10 malloc_ok junk QUR_SUBDEV_LIST_CMD buf) ends s.
Proof using.
  intros Hc Hn Hz Hk Hr. pose proof Hr as [Hw _]. destruct (carries_data _ _ _ Hc) as (rest & Ed).
  change (wp (in_world (local_subdev_list malloc_ok (frame_data buf))) ends s). rewrite Ed. apply wp_in_world.
  apply wp_conseq with (fun _ w => world_ok w); [|intros _ w Hw'; right; by apply run_ok_world].
  destruct (malloc_ok (NODE * zlen names)) eqn:Em.
  - apply wp_local_list; [done..|]. intros Hrem. set (w1 := set_remote _ _).
    assert (Hw1 : world_ok w1) by (destruct Hw; by split).
    destruct more; [done|]. eapply wp_conseq; [by apply safe_Sync_Request|]. by intros u w [? _].
  - unfold local_subdev_list, list_package. cbn [app].
    apply wp_bind, (wp_lift_opt _ (if more then 128 else 0)); [done|].
    apply wp_bind, (wp_lift_opt _ (zlen names)); [done|]. rewrite Em. cbn [negb].
    eapply wp_conseq; [by apply safe_Sync_Request|]. by intros u w [? _].
Qed.

Lemma wp_begin n (Q : unit -> Ota C -> Prop) o :
  (forall c, Q tt (mkOta c (u32 n) (update_file_cur_size o) (Some download_part))) -> wp (wifi_ota_begin n) Q o.
Proof using.
  intros HQ. unfold wifi_ota_begin. change (fal_partition_find "download") with (Some download_part).
  unfold wp, bind, modify, get, on_chips, zoom. cbn [dl_part set_dl set_total update_file_total_size chips].
  destruct (Z.ltb_spec (len download_part) (u32 n)) as [Hlt|Hle]; [apply HQ|].
  assert (He : exists r c, fal_partition_erase (Some download_part) 0 (u32 n) (chips o) = Some (r, c)).
  { unfold fal_partition_erase. case_match; [by eexists _, _|].
    change (fal_flash_device_find (flash_name download_part)) with (Some nor_flash0). cbn [ops_erase]. unfold nor_erase.
    destruct (sfud_erase _ _ _) as [ok c]. by eexists _, _. }
  destruct He as (r & c & Ec). cbn [chips set_dl set_total]. rewrite Ec. apply HQ.
Qed.

Lemma wp_ota_receive bs rest off (Q : unit -> Ota C -> Prop) o :
  dl_part o = Some download_part ->
  (forall o', dl_part o' = Some download_part -> Q tt o') -> wp (wifi_ota_receive (bs ++ rest) off (zlen bs)) Q o.
Proof using.
  intros Hd HQ. unfold wifi_ota_receive, wp, bind, get, on_chips, zoom. rewrite Hd.
  destruct (update_file_cur_size o =? off); cbn [negb]; [|by apply HQ].
  assert (He : exists r c, fal_partition_write (Some download_part) (update_file_cur_size o) (bs ++ rest) (zlen bs) (chips o) = Some (r, c)).
  { unfold fal_partition_write. case_match; [by eexists _, _|].
    change (fal_flash_device_find (flash_name download_part)) with (Some nor_flash0). cbn [ops_write].
    unfold nor_write, bind, lift_opt. rewrite prefix_app. destruct (sfud_write _ _ _) as [ok c]. by eexists _, _. }
  destruct He as (r & c & Ec). rewrite Ec. destruct (r <? 0); by apply HQ.
Qed.

Lemma wp_start_cmd n rest buf s :
  carries UPDATE_START_CMD (int_to_byte n ++ rest) buf -> 0 <= n < 2 ^ 32 -> run_ok s ->
  wp (command pow10 malloc_ok junk UPDATE_START_CMD buf) ends s.
Proof using.
  intros Hc Hn [Hw Hd]. change (wp (update_start buf) ends s).
  apply (wp_bind (S := Sys E C)), wp_choose, wp_bind, (wp_word _ _ rest n _ _ _ Hc); [done | done|].
  apply wp_bind, wp_on, wp_modify, wp_bind, wp_in_world.
  apply wp_package_choose; [apply Hw | done|]. intros t He.
  apply wp_bind, wp_on, wp_modify, wp_in_ota, wp_begin. intros c. right. split; [|done].
  by apply world_ok_tx; [|apply He].
Qed.

Lemma ends_stop v s : run_ok s -> wp (set_stop v) ends s.
Proof using. intros [Hw Hd]. apply wp_stop. right. split; [|done]. apply world_ok_tx; [done | apply Hw]. Qed.

(** The answer to a part, then uploads are allowed again. *)
Lemma ends_answer v cmd s :
  run_ok s -> is_byte cmd ->
  wp (run (if v =? SUCCESS then in_world (on (wifi_uart_write_frame cmd MCU_TX_VER 0)) else ret tt);
      set_stop DISABLE) ends s.
Proof using.
  intros Hr Hc. apply wp_bind. destruct (v =? SUCCESS); [|by apply ends_stop].
  apply wp_safe; [done | by apply safe_empty|]. intros u w Hw. apply ends_stop. by apply run_ok_world.
Qed.

Lemma wp_set_flag v (Q : unit -> Sys E C -> Prop) s :
  Q tt (set_firm (mkFirm (firm_length (s_firm s)) v (firm_size (s_firm s))) s) -> wp (set_flag v) Q s.
Proof using. intros HQ. by apply wp_on, wp_modify. Qed.

Lemma wp_update_handle bs rest off s (Q : option Z -> Sys E C -> Prop) :
  run_ok s -> firm_update_flag (s_firm s) = UPDATE_START_CMD -> zlen bs < 65536 ->
  (forall s', halted s' = true -> bootable s' -> Q None s') -> (forall s' v, run_ok s' -> Q (Some v) s') ->
  wp (mcu_firm_update_handle (bs ++ rest) off (zlen bs)) Q s.
Proof using.
  intros Hr Hf Hl HN HS. pose proof (run_bootable s Hr) as Hb. destruct Hr as [Hw Hd]. unfold mcu_firm_update_handle. pose proof (zlen_nonneg bs). rewrite u16_small by lia.
  destruct (zlen bs =? 0); [by apply HN|].
  apply wp_bind, wp_in_ota, wp_ota_receive; [by apply Hd|]. intros o' Ho. apply HS. by split.
Qed.

Lemma wp_trans_cmd p buf s :
  carries UPDATE_TRANS_CMD (part_payload p) buf -> 0 <= fst p < 2 ^ 32 -> zlen (snd p) < 65000 ->
  halted s = false -> run_ok s -> wp (data_handle pow10 malloc_ok junk buf) ends s.
Proof using.
  intros Hc Hp Hl Hh Hr. destruct (decide (firm_update_flag (s_firm s) = UPDATE_START_CMD)) as [Hf|Hf].
  2: { apply (wp_command _ _ _ _ _ _ _ _ Hh Hc). change (wp (update_trans buf) ends s). apply wp_bind, wp_firm.
       rewrite (proj2 (Z.eqb_neq _ _) Hf). by right. }
  apply (wp_trans pow10 malloc_ok junk p); [done..|]. intros rest _.
  set (s1 := set_world _ s). pose proof (zlen_nonneg (snd p)).
  assert (Hr1 : run_ok s1) by (destruct Hr as [Hw Hd]; split; [by apply world_ok_tx; [|apply Hw] | done]).
  replace (4 + zlen (snd p) - 4) with (zlen (snd p)) by lia.
  assert (Hend : forall s' v, run_ok s' -> wp (run (if v =? SUCCESS then in_world (on (wifi_uart_write_frame UPDATE_TRANS_CMD MCU_TX_VER 0)) else ret tt);
      set_stop DISABLE) ends s') by (intros; by apply ends_answer).
  assert (Hoff : forall (v : Z) s', run_ok s' ->
    wp (run set_flag 0; ret (Some v) : M (Sys E C) (option Z)) (fun r s2 => r = Some v /\ run_ok s2) s').
  { intros v s' [Hw' _]. by apply wp_bind, wp_set_flag. }
  apply wp_bind. destruct (Z.eqb_spec (4 + zlen (snd p)) 4) as [Ez|Ez]; cbn [andb].
  1: assert (zlen (snd p) = 0) as Ez' by lia; rewrite Ez'.
  1: destruct (fst p =? firm_length (s_firm s)).
  1: { apply wp_bind. left. split; [done | by apply run_bootable]. }
  all: destruct (_ <=? firm_size (s_firm s)).
  - rewrite <- Ez' at 1. by apply wp_update_handle; [done | done | lia | by left | intros; apply Hend].
  - eapply wp_conseq; [by apply Hoff|]. intros r s' [-> Hr']. by apply Hend.
  - by apply wp_update_handle; [done | done | lia | by left | intros; apply Hend].
  - eapply wp_conseq; [by apply Hoff|]. intros r s' [-> Hr']. by apply Hend.
Qed.

(** The words behind the id of a device. *)
Lemma wp_sub_word cmd sub n rest buf (Q : Z -> Sys E C -> Prop) s :
  carries cmd (zlen sub :: sub ++ int_to_byte n ++ rest) buf -> 0 <= n < 2 ^ 32 ->
  Q n s -> wp (word_at buf (DATA_START + 1 + zlen sub)) Q s.
Proof using.
  intros Hc Hn HQ. pose proof (zlen_nonneg sub). rewrite int_bytes in Hc by done.
  assert (Hat : forall i x, 0 <= i -> [n / 16777216; n / 65536 mod 256; n / 256 mod 256; n mod 256] !! Z.to_nat i = Some x ->
    aget buf (DATA_START + 1 + zlen sub + i) = Some x).
  { intros i x Hi Hx. replace (DATA_START + 1 + zlen sub + i) with (DATA_START + (1 + zlen sub + i)) by lia.
    eapply carries_at; [done | lia|]. rewrite aget_lookup by lia.
    change (zlen sub :: sub ++ ?l) with ((zlen sub :: sub) ++ l). rewrite lookup_app_r by (cbn [length]; unfold zlen; lia).
    replace (_ - _)%nat with (Z.to_nat i) by (cbn [length]; unfold zlen; lia). by apply lookup_app_l_Some. }
  unfold word_at. replace (DATA_START + 1 + zlen sub) with (DATA_START + 1 + zlen sub + 0) at 1 by lia.
  apply wp_bind, (wp_byte _ _ (n / 16777216)); [by apply Hat|].
  apply wp_bind, (wp_byte _ _ (n / 65536 mod 256)); [by apply Hat|].
  apply wp_bind, (wp_byte _ _ (n / 256 mod 256)); [by apply Hat|].
  apply wp_bind, (wp_byte _ _ (n mod 256)); [by apply Hat|].
  apply wp_ret. by rewrite word_of_bytes.
Qed.

Lemma sub_id_copied cmd sub r buf :
  carries cmd (zlen sub :: sub ++ r) buf -> zlen sub <= 50 ->
  exists b, sub_id_of (drop (Z.to_nat (DATA_START + 1)) buf) (zlen sub) = Some b.
Proof using.
  intros (ver & rest & ->)%carries_split Hl. change (Z.to_nat (DATA_START + 1)) with 7%nat.
  change (drop 7 (?h ++ (?x :: ?l ++ ?q) ++ ?t)) with ((l ++ q) ++ t). eexists. unfold sub_id_of. apply blit_ok.
  - rewrite !zlen_app. pose proof (zlen_nonneg sub). pose proof (zlen_nonneg r). pose proof (zlen_nonneg rest). lia.
  - done.
  - rewrite zlen_replicate. unfold BUF_SIZE. lia.
Qed.

Lemma wp_sub_package sz w (Q : unit -> World E -> Prop) :
  world_ok w -> is_byte sz -> (forall w', world_ok w' -> Q tt w') -> wp (subdev_upgrade_package_choose sz) Q w.
Proof using.
  intros Hw Hsz HQ. pose proof (world_tx w Hw) as Ht. apply wp_on. cbn [view lens_tx]. tx_step; intros s1 Hs1 Hs2 Hs3. cbn [app] in *.
  apply wp_write_frame; [done.. |]. intros t Hsent. apply HQ, world_ok_tx; [done | apply Hsent].
Qed.

Lemma wp_sub_cmd cmd sub n rest buf s :
  carries cmd (zlen sub :: sub ++ int_to_byte n ++ rest) buf ->
  cmd = SUBDEV_START_UPGRADE_CMD \/ cmd = SUBDEV_TRANS_CMD -> zlen sub <= 50 -> 0 <= n < 2 ^ 32 -> run_ok s ->
  wp (command pow10 malloc_ok junk cmd buf) ends s.
Proof using.
  intros Hc Hcmd Hl Hn Hr. destruct (sub_id_copied _ _ _ _ Hc Hl) as (b & Hb).
  assert (Hlen : aget buf DATA_START = Some (zlen sub)) by (by eapply (carries_at _ _ _ 0)).
  destruct Hcmd as [->| ->].
  - change (wp (subdev_start buf) ends s).
    apply (wp_bind (S := Sys E C)), wp_choose, wp_bind, (wp_byte _ _ (zlen sub)); [done|].
    apply wp_bind, (wp_lift_opt _ b); [done|]. apply wp_bind. eapply wp_sub_word; [done | done|].
    apply wp_bind, wp_on, wp_modify, wp_bind, wp_in_world.
    apply wp_sub_package; [apply Hr | done|]. intros w Hw. apply wp_set_flag. right. by split.
  - change (wp (subdev_trans buf) ends s). apply wp_bind, wp_firm.
    destruct (negb _); [by right|]. apply wp_bind, wp_stop, wp_bind, (wp_length _ _ _ _ _ Hc).
    apply wp_bind, (wp_byte _ _ (zlen sub)); [done|]. apply wp_bind, (wp_lift_opt _ b); [done|].
    apply wp_bind. eapply wp_sub_word; [done | done|]. apply wp_bind, wp_firm, wp_bind, wp_firm.
    set (s1 := set_world _ s).
    assert (Hr1 : run_ok s1) by (destruct Hr as [Hw Hd]; split; [by apply world_ok_tx; [|apply Hw] | done]).
    assert (Hend : forall s' v, run_ok s' -> wp (run (if v =? SUCCESS then in_world (on (wifi_uart_write_frame SUBDEV_TRANS_CMD MCU_TX_VER 0)) else ret tt);
      set_stop DISABLE) ends s') by (intros; by apply ends_answer).
    apply wp_bind. destruct (_ && _); [|destruct (_ <=? _)].
    + apply wp_bind, wp_in_world, wp_ret, wp_bind, wp_set_flag, wp_ret, Hend. by split; [apply Hr1|].
    + apply wp_in_world, wp_ret, Hend. by destruct s1.
    + apply wp_bind, wp_set_flag, wp_ret, Hend. by split; [apply Hr1|].
Qed.

Lemma wp_acceptable cmd p buf s :
  halted s = false -> run_ok s -> acceptable pow10 s cmd p -> carries cmd p buf ->
  wp (data_handle pow10 malloc_ok junk buf) ends s.
Proof using.
  intros Hh Hr Ha Hc. destruct Ha; [| | | | by eapply wp_trans_cmd | |]; apply (wp_command _ _ _ _ _ _ _ _ Hh Hc).
  - by eapply wp_json_cmd.
  - change (wp (do n <- length_at buf; in_world (data_issued junk (frame_data buf) n)) ends s).
    apply wp_bind, (wp_length _ _ _ _ _ Hc). destruct (carries_data _ _ _ Hc) as (r & ->).
    apply ends_safe; [done | by apply safe_data_issued].
  - by eapply wp_list_cmd.
  - by eapply wp_start_cmd.
  - by eapply wp_sub_cmd.
  - by eapply wp_plain.
Qed.
End SafeCommands.

(** C6: no acceptable command of the module, whatever it is and however the
    allocation it may need goes, makes the program access memory outside an
    object, loop for ever or break its invariant. *)
Theorem command_safe {E C} `{EnvDefault E} `{Chips C} pow10 malloc_ok junk (s : Sys E C) cmd p buf :
  sys_ok s -> acceptable pow10 s cmd p -> carries cmd p buf ->
  exists s', data_handle pow10 malloc_ok junk buf s = Some (tt, s') /\ sys_ok s'.
Proof.
  intros Hok Ha Hc. destruct (halted s) eqn:Hh.
  - exists s. split; [|done]. unfold data_handle, bind, get. by rewrite Hh.
  - destruct Hok as [[Hx _]|Hr]; [congruence|].
    pose proof (wp_acceptable pow10 malloc_ok junk cmd p buf s Hh Hr Ha Hc) as Hw.
    apply wp_Some in Hw as ([] & s' & Hrun & Hs). by exists s'.
Qed.

Lemma sys0_ok : sys_ok sys0.
Proof. right. split; [exact demo_ok | intros Hx; discriminate Hx]. Qed.

Lemma command_safe_witness :
  exists s', sys_run (frame DATA_ISSUED_CMD 0 (8 :: fmt_ld 20000001 ++ [DPID_CONTROL_STATE; DP_TYPE_BOOL; 0; 1; 1])) = Some (tt, s')
    /\ sys_ok s'.
Proof.
  apply (command_safe pow_one (fun _ => true) 0 sys0 DATA_ISSUED_CMD
    (8 :: fmt_ld 20000001 ++ [DPID_CONTROL_STATE; DP_TYPE_BOOL; 0; 1; 1])).
  - exact sys0_ok.
  - apply (acc_issued pow_one sys0 (fmt_ld 20000001) [(DPID_CONTROL_STATE, DP_TYPE_BOOL, [1])]).
    + vm_compute. intros Hx. discriminate Hx.
    + constructor; [|constructor]. split; [by vm_compute; eexists | discriminate].
    + vm_compute. reflexivity.
  - split; [reflexivity|]. exists 0, []. rewrite app_nil_r. reflexivity.
Defined.
