(* ===== verification/Ax5043.v ===== *)
(** * The radio chip

    [src/radio/Radio_Drv.c] and [src/radio/Radio_Common.c]: the registers of the
    AX5043 over SPI, its configuration, receiving, transmitting and restarting.
    The chip behind the SPI transfers is the class [Spi]; what its data sheet
    says of it is [ChipDoc]. *)

From Stdlib Require Import String.
From S2P Require Import Prelude CStr RadioQueue World Storage.
Open Scope list_scope.

(** A transfer that sends, and one that sends and then receives so many bytes. *)
Class Spi (B : Type) := {
  spi_send : list Z -> B -> B;
  spi_recv : list Z -> Z -> B -> list Z * B
}.

(** ** Data *)

Definition trxstate_off := 0x00.
Definition trxstate_rx := 0x01.
Definition trxstate_wait_xtal := 0x03.
Definition trxstate_xtal_ready := 0x04.
Definition trxstate_pll_ranging := 0x05.
Definition trxstate_pll_ranging_done := 0x06.
Definition trxstate_pll_settling := 0x07.
Definition trxstate_pll_settled := 0x08.
Definition trxstate_tx_xtalwait := 0x09.
Definition trxstate_tx_longpreamble := 0x0A.
Definition trxstate_tx_shortpreamble := 0x0B.
Definition trxstate_tx_packet := 0x0C.
Definition trxstate_tx_waitdone := 0x0D.

Definition REG_AX5043_SCRATCH := 0x01.
Definition REG_AX5043_PWRMODE := 0x02.
Definition REG_AX5043_POWSTICKYSTAT := 0x04.
Definition REG_AX5043_IRQMASK1 := 0x06.
Definition REG_AX5043_IRQMASK0 := 0x07.
Definition REG_AX5043_RADIOEVENTMASK0 := 0x09.
Definition REG_AX5043_IRQREQUEST0 := 0x0D.
Definition REG_AX5043_RADIOEVENTREQ0 := 0x0F.
Definition REG_AX5043_MODULATION := 0x10.
Definition REG_AX5043_FRAMING := 0x12.
Definition REG_AX5043_RADIOSTATE := 0x1C.
Definition REG_AX5043_PINFUNCIRQ := 0x24.
Definition REG_AX5043_FIFOSTAT := 0x28.
Definition REG_AX5043_FIFODATA := 0x29.
Definition REG_AX5043_FIFOFREE1 := 0x2C.
Definition REG_AX5043_FIFOFREE0 := 0x2D.
Definition REG_AX5043_FIFOTHRESH1 := 0x2E.
Definition REG_AX5043_FIFOTHRESH0 := 0x2F.
Definition REG_AX5043_PLLLOOP := 0x30.
Definition REG_AX5043_PLLCPI := 0x31.
Definition REG_AX5043_PLLRANGINGA := 0x33.
Definition REG_AX5043_FREQA3 := 0x34.
Definition REG_AX5043_FREQA2 := 0x35.
Definition REG_AX5043_FREQA1 := 0x36.
Definition REG_AX5043_FREQA0 := 0x37.
Definition REG_AX5043_PLLRANGINGB := 0x3B.
Definition REG_AX5043_FSKDEV2 := 0x161.
Definition REG_AX5043_FSKDEV1 := 0x162.
Definition REG_AX5043_FSKDEV0 := 0x163.
Definition REG_AX5043_TXPWRCOEFFB1 := 0x16A.
Definition REG_AX5043_TXPWRCOEFFB0 := 0x16B.
Definition REG_AX5043_PLLVCOI := 0x180.
Definition REG_AX5043_PKTADDRCFG := 0x200.
Definition REG_AX5043_PKTLENOFFSET := 0x202.
Definition REG_AX5043_TMGRXAGC := 0x227.
Definition REG_AX5043_TMGRXPREAMBLE1 := 0x229.
Definition REG_AX5043_RSSIREFERENCE := 0x22C.
Definition REG_AX5043_PKTMISCFLAGS := 0x231.
Definition REG_AX5043_PKTSTOREFLAGS := 0x232.
Definition REG_AX5043_GPADCCTRL := 0x300.
Definition REG_AX5043_GPADC13VALUE1 := 0x308.
Definition REG_AX5043_GPADC13VALUE0 := 0x309.
Definition REG_AX5043_LPOSCCONFIG := 0x310.
Definition REG_AX5043_0xF35 := 0xF35.

Definition AXRADIO_ERR_NOERROR := 0x00.
Definition AXRADIO_ERR_RANGING := 0x06.

Definition AX5043_PWRSTATE_POWERDOWN := 0x0.
Definition AX5043_PWRSTATE_XTAL_ON := 0x5.
Definition AX5043_PWRSTATE_FIFO_ON := 0x7.
Definition AX5043_PWRSTATE_FULL_RX := 0x9.
Definition AX5043_PWRSTATE_SYNTH_TX := 0xc.
Definition AX5043_PWRSTATE_FULL_TX := 0xd.

Definition AX5043_FIFOCMD_DATA := 0x01.
Definition AX5043_FIFOCMD_REPEATDATA := 0x02.
Definition AX5043_FIFOCMD_TIMER := 0x10.
Definition AX5043_FIFOCMD_RSSI := 0x11.
Definition AX5043_FIFOCMD_RFFREQOFFS := 0x13.
Definition AX5043_FIFOCMD_ANTRSSI := 0x15.

(** The tables of [src/radio/Config_433.h]: an address and a value each. *)
Definition set_registers_433 : list (Z * Z) :=
  [(0x10, 0x8); (0x11, 0x0); (0x12, 0x26); (0x21, 0x1); (0x22, 0x1); (0x23, 0x1);
   (0x25, 0x4); (0x26, 0x0); (0x6e, 0x1); (0x100, 0x1); (0x101, 0xe4); (0x102, 0x16);
   (0x103, 0x0); (0x104, 0x3d); (0x105, 0x8d); (0x106, 0x0); (0x107, 0x0); (0x108, 0x0);
   (0x109, 0x80); (0x10a, 0x2); (0x10b, 0x31); (0x10c, 0x0); (0x10d, 0xa6); (0x10e, 0xff);
   (0x10f, 0x5a); (0x115, 0x0); (0x117, 0xf4); (0x120, 0xc5); (0x121, 0x84); (0x124, 0xf8);
   (0x125, 0xf2); (0x126, 0xc3); (0x127, 0xf); (0x128, 0x1f); (0x129, 0x8); (0x12a, 0x8);
   (0x12b, 0x6); (0x12c, 0x0); (0x12d, 0x0); (0x12f, 0x0); (0x130, 0xc5); (0x131, 0x84);
   (0x132, 0x0); (0x133, 0x0); (0x134, 0xf6); (0x135, 0xf1); (0x136, 0xc3); (0x137, 0xf);
   (0x138, 0x1f); (0x139, 0x8); (0x13a, 0x8); (0x13b, 0x6); (0x13c, 0x0); (0x13d, 0x3e);
   (0x13e, 0x16); (0x13f, 0x0); (0x150, 0xff); (0x151, 0x84); (0x152, 0x0); (0x153, 0x0);
   (0x154, 0xf5); (0x155, 0xf0); (0x156, 0xc3); (0x157, 0xf); (0x158, 0x1f); (0x159, 0xc);
   (0x15a, 0xc); (0x15b, 0x6); (0x15c, 0x0); (0x15d, 0x3e); (0x15e, 0x16); (0x15f, 0x0);
   (0x160, 0x0); (0x161, 0x0); (0x162, 0x4); (0x163, 0x2f); (0x164, 0x5); (0x165, 0x0);
   (0x166, 0xc); (0x167, 0x19); (0x16a, 0x7); (0x16b, 0x0); (0x180, 0x99); (0x183, 0x4);
   (0x188, 0xf); (0x189, 0x77); (0x200, 0x0); (0x201, 0x80); (0x202, 0x0); (0x203, 0xc8);
   (0x210, 0xaa); (0x211, 0xcc); (0x212, 0xaa); (0x213, 0xcc); (0x214, 0x9f); (0x216, 0x1f);
   (0x218, 0x55); (0x219, 0x55); (0x21c, 0x8a); (0x21e, 0xa); (0x220, 0x3e); (0x221, 0x31);
   (0x223, 0x3e); (0x224, 0x31); (0x225, 0x0); (0x226, 0x7f); (0x228, 0x3); (0x22a, 0x35);
   (0x22d, 0xe0); (0x22f, 0x0); (0x230, 0xd); (0x233, 0x20); (0x330, 0x0); (0x331, 0x0);
   (0x332, 0x0); (0xf0d, 0x3); (0xf10, 0x4); (0xf11, 0x0); (0xf1c, 0x7); (0xf21, 0x68);
   (0xf22, 0xff); (0xf23, 0x84); (0xf26, 0x98); (0xf34, 0x28); (0xf35, 0x11); (0xf44, 0x25)].

Definition set_registers_tx_433 : list (Z * Z) :=
  [(0x30, 0xb); (0x31, 0x10); (0x32, 0x24); (0x184, 0x0); (0xf00, 0xf); (0xf18, 0x6)].

Definition set_registers_rx_433 : list (Z * Z) :=
  [(0x30, 0xb); (0x31, 0x10); (0x32, 0x24); (0x184, 0x0); (0xf00, 0xf); (0xf18, 0x2)].

(** [struct ax5043_config]. *)
Record Config := mkConfig {
  axradio_phy_vcocalib : Z; axradio_phy_preamble_len : Z; axradio_framing_synclen : Z;
  axradio_phy_preamble_flags : Z; axradio_phy_preamble_byte : Z;
  axradio_phy_preamble_appendbits : Z; axradio_phy_preamble_appendpattern : Z;
  axradio_phy_chanfreq : Z; axradio_phy_chanvcoiinit : Z; axradio_phy_chanpllrnginit : Z;
  axradio_phy_rssioffset : Z; axradio_phy_rssireference : Z;
  axradio_framing_syncflags : Z; axradio_framing_syncword : list Z
}.

Definition rf_433_config_init : Config :=
  mkConfig 0 32 32 0x38 0x55 0 0 0x10b81f83 0x99 0x0a 64 0x3A 0x38 [0xcc; 0xaa; 0xcc; 0xaa].

(** [struct ax5043], without the configuration and the register tables, which do
    not change; the arrays of one element are the element. *)
Record Ax := mkAx {
  ubRssi : Z; ubRFState : Z; TXBuff : list Z; TxLen : Z; RXBuff : list Z; RxLen : Z;
  chanpllrng : Z; chanvcoi : Z; power_now : Z; txbuffer_cnt : Z
}.

Definition put_rssi v a := mkAx v (ubRFState a) (TXBuff a) (TxLen a) (RXBuff a) (RxLen a) (chanpllrng a) (chanvcoi a) (power_now a) (txbuffer_cnt a).
Definition put_state v a := mkAx (ubRssi a) v (TXBuff a) (TxLen a) (RXBuff a) (RxLen a) (chanpllrng a) (chanvcoi a) (power_now a) (txbuffer_cnt a).
Definition put_TXBuff v a := mkAx (ubRssi a) (ubRFState a) v (TxLen a) (RXBuff a) (RxLen a) (chanpllrng a) (chanvcoi a) (power_now a) (txbuffer_cnt a).
Definition put_TxLen v a := mkAx (ubRssi a) (ubRFState a) (TXBuff a) v (RXBuff a) (RxLen a) (chanpllrng a) (chanvcoi a) (power_now a) (txbuffer_cnt a).
Definition put_RXBuff v a := mkAx (ubRssi a) (ubRFState a) (TXBuff a) (TxLen a) v (RxLen a) (chanpllrng a) (chanvcoi a) (power_now a) (txbuffer_cnt a).
Definition put_RxLen v a := mkAx (ubRssi a) (ubRFState a) (TXBuff a) (TxLen a) (RXBuff a) v (chanpllrng a) (chanvcoi a) (power_now a) (txbuffer_cnt a).
Definition put_rng v a := mkAx (ubRssi a) (ubRFState a) (TXBuff a) (TxLen a) (RXBuff a) (RxLen a) v (chanvcoi a) (power_now a) (txbuffer_cnt a).
Definition put_vcoi v a := mkAx (ubRssi a) (ubRFState a) (TXBuff a) (TxLen a) (RXBuff a) (RxLen a) (chanpllrng a) v (power_now a) (txbuffer_cnt a).
Definition put_power_now v a := mkAx (ubRssi a) (ubRFState a) (TXBuff a) (TxLen a) (RXBuff a) (RxLen a) (chanpllrng a) (chanvcoi a) v (txbuffer_cnt a).
Definition put_cnt v a := mkAx (ubRssi a) (ubRFState a) (TXBuff a) (TxLen a) (RXBuff a) (RxLen a) (chanpllrng a) (chanvcoi a) (power_now a) v.

(** The driver's variables and the chip. *)
Record Drv (B : Type) := mkDrv { ax : Ax; bus : B }.
Arguments mkDrv {B}. Arguments ax {B}. Arguments bus {B}.

(** ** The registers *)

Section Driver.
Context {B : Type} `{Spi B} (cfg : Config).
Abbreviation DM := (M (Drv B)).

Definition dev {A} (f : Ax -> A) : DM A := gets (fun d => f (ax d)).
Definition dev_set (f : Ax -> Ax) : DM unit := modify (fun d => mkDrv (f (ax d)) (bus d)).

Definition rt_spi_send (bs : list Z) : DM unit := modify (fun d => mkDrv (ax d) (spi_send bs (bus d))).
Definition rt_spi_send_then_recv (bs : list Z) (n : Z) : DM (list Z) :=
  fun d => let '(r, s) := spi_recv bs n (bus d) in Some (r, mkDrv (ax d) s).

Definition Ax5043_Spi_Reset : DM unit :=
  run rt_spi_send [Z.lor REG_AX5043_PWRMODE 0x80; 0x80];
  rt_spi_send [Z.lor REG_AX5043_PWRMODE 0x80; 0x00].

Definition SpiWriteSingleAddressRegister (Addr Data : Z) : DM unit :=
  rt_spi_send [u8 (Z.lor Addr 0x80); u8 Data].

Definition SpiWriteLongAddressRegister (Addr Data : Z) : DM unit :=
  let ubAddr := Z.lor Addr 0xF000 in
  rt_spi_send [Z.shiftr (Z.land ubAddr 0xFF00) 8; Z.land ubAddr 0x00FF; u8 Data].

(** From [pBuf], which must have [Length] bytes. *)
Definition SpiWriteData (pBuf : list Z) (Length : Z) : DM unit :=
  do bs <- lift_opt (prefix pBuf Length);
  rt_spi_send (Z.lor REG_AX5043_FIFODATA 0x80 :: bs).

Definition byte_of (bs : list Z) : DM Z := lift_opt (aget bs 0).

Definition SpiReadSingleAddressRegister (Addr : Z) : DM Z :=
  do r <- rt_spi_send_then_recv [Z.land Addr 0x7F] 1; byte_of r.

Definition SpiReadLongAddressRegister (Addr : Z) : DM Z :=
  let ubAddr := Z.lor Addr 0x7000 in
  do r <- rt_spi_send_then_recv [Z.shiftr (Z.land ubAddr 0xFF00) 8; Z.land ubAddr 0x00FF] 1; byte_of r.

(** Into the array [pBuf]. *)
Definition SpiReadData (pBuf : list Z) (Length : Z) : DM (list Z) :=
  do r <- rt_spi_send_then_recv [Z.land REG_AX5043_FIFODATA 0x7F] Length;
  lift_opt (blit pBuf 0 r Length).

Abbreviation wrs := SpiWriteSingleAddressRegister.
Abbreviation wrl := SpiWriteLongAddressRegister.
Abbreviation rds := SpiReadSingleAddressRegister.
Abbreviation rdl := SpiReadLongAddressRegister.

(** ** Configuration *)

Definition axradio_get_pllvcoi : DM Z :=
  do x <- dev chanvcoi;
  if negb (axradio_phy_vcocalib cfg =? 0) && negb (Z.land x 0x80 =? 0) then ret x else
  let x := axradio_phy_chanvcoiinit cfg in
  if negb (Z.land x 0x80 =? 0) then
    if Z.land (axradio_phy_chanpllrnginit cfg) 0xF0 =? 0 then
      do rng <- dev chanpllrng;
      let x := u8 (x + (Z.land rng 0x0F - Z.land (axradio_phy_chanpllrnginit cfg) 0x0F)) in
      ret (Z.lor (Z.land x 0x3f) 0x80)
    else ret x
  else rdl REG_AX5043_PLLVCOI.

(** The log shows the two values. *)
Definition vcoi_rng_get : DM unit :=
  run axradio_get_pllvcoi;
  ret tt.

(** [for (i = 0; i < n; i++)] over a table. *)
Fixpoint write_table (rows : list (Z * Z)) : DM unit :=
  match rows with
  | [] => ret tt
  | (a, v) :: rows => run wrl a v; write_table rows
  end.

Definition InitAx5043REG : DM unit :=
  run write_table (take 125 set_registers_433);
  do o <- rdl REG_AX5043_PKTLENOFFSET;
  run wrl REG_AX5043_PKTLENOFFSET o;
  run wrs REG_AX5043_PINFUNCIRQ 0x03;
  wrl REG_AX5043_PKTSTOREFLAGS 0x15.

Definition ax5043_init_registers_common : DM Z :=
  do rng <- dev chanpllrng;
  if negb (Z.land rng 0x20 =? 0) then ret AXRADIO_ERR_RANGING else
  do l <- rds REG_AX5043_PLLLOOP;
  run (if negb (Z.land l 0x80 =? 0) then wrs REG_AX5043_PLLRANGINGB (Z.land rng 0x0F)
       else wrs REG_AX5043_PLLRANGINGA (Z.land rng 0x0F));
  do rng <- axradio_get_pllvcoi;
  run (if negb (Z.land rng 0x80 =? 0) then wrl REG_AX5043_PLLVCOI rng else ret tt);
  ret AXRADIO_ERR_NOERROR.

Definition Ax5043SetRegisters_TX : DM Z :=
  run write_table set_registers_tx_433; ax5043_init_registers_common.

Definition Ax5043SetRegisters_RX : DM Z :=
  run write_table set_registers_rx_433; ax5043_init_registers_common.

(** [do ... while (ubAddres != 0x55)]: the fuel bounds the attempts. *)
Fixpoint scratch_loop (fuel : nat) : DM unit :=
  match fuel with
  | O => fault
  | S n =>
      do a <- rds REG_AX5043_SCRATCH;
      if negb (a =? 0x55) then scratch_loop n else ret tt
  end.

Definition Ax5043_Reset (fuel : nat) : DM unit :=
  run Ax5043_Spi_Reset;
  run wrs REG_AX5043_PWRMODE 0x00;
  run wrs REG_AX5043_SCRATCH 0x55;
  run scratch_loop fuel;
  run wrs REG_AX5043_PINFUNCIRQ 0x01;
  run wrs REG_AX5043_PINFUNCIRQ 0x00;
  wrs REG_AX5043_PINFUNCIRQ 0x03.

Definition AX5043ReceiverON : DM unit :=
  run wrl REG_AX5043_RSSIREFERENCE (axradio_phy_rssireference cfg);
  run wrl REG_AX5043_TMGRXPREAMBLE1 0x00;
  run wrl REG_AX5043_PKTSTOREFLAGS 0x50;
  run wrs REG_AX5043_FIFOSTAT 0x03;
  run wrs REG_AX5043_PWRMODE AX5043_PWRSTATE_FULL_RX;
  run dev_set (put_state trxstate_rx);
  run wrs REG_AX5043_IRQMASK0 0x01;
  wrs REG_AX5043_IRQMASK1 0x00.

Definition AX5043Receiver_Continuous : DM unit :=
  run wrs REG_AX5043_RADIOEVENTMASK0 0x04;
  run wrl REG_AX5043_RSSIREFERENCE (axradio_phy_rssireference cfg);
  run wrl REG_AX5043_TMGRXAGC 0;
  run wrl REG_AX5043_TMGRXPREAMBLE1 0;
  run wrl REG_AX5043_PKTMISCFLAGS 0;
  do t <- rdl REG_AX5043_PKTSTOREFLAGS;
  run wrl REG_AX5043_PKTSTOREFLAGS (Z.land t (Z.lnot 0x40));
  run wrs REG_AX5043_IRQMASK0 0x01;
  run wrs REG_AX5043_FIFOSTAT 0x03;
  run wrs REG_AX5043_PWRMODE AX5043_PWRSTATE_FULL_RX;
  run dev_set (put_state trxstate_rx);
  wrs REG_AX5043_IRQMASK1 0x00.

Definition Ax5043_OFF : DM unit :=
  run wrs REG_AX5043_IRQMASK0 0x00;
  run wrs REG_AX5043_IRQMASK1 0x00;
  run wrs REG_AX5043_PWRMODE AX5043_PWRSTATE_XTAL_ON;
  run wrl REG_AX5043_LPOSCCONFIG 0x00;
  run dev_set (put_state trxstate_off);
  wrs REG_AX5043_PWRMODE AX5043_PWRSTATE_POWERDOWN.

Definition set_frequency : DM unit :=
  let f := axradio_phy_chanfreq cfg in
  run wrs REG_AX5043_FREQA0 f;
  run wrs REG_AX5043_FREQA1 (Z.shiftr f 8);
  run wrs REG_AX5043_FREQA2 (Z.shiftr f 16);
  wrs REG_AX5043_FREQA3 (Z.shiftr f 24).

Definition rf_restart : DM Z :=
  run Ax5043_OFF;
  run Ax5043_Spi_Reset;
  run wrs REG_AX5043_PWRMODE 0x00;
  run wrs REG_AX5043_PINFUNCIRQ 0x01;
  run wrs REG_AX5043_PINFUNCIRQ 0x00;
  run wrs REG_AX5043_PINFUNCIRQ 0x03;
  run InitAx5043REG;
  do rng <- dev chanpllrng;
  run wrs REG_AX5043_PLLRANGINGA (Z.land rng 0x0F);
  run set_frequency;
  run dev_set (put_state trxstate_rx);
  ret AXRADIO_ERR_NOERROR.

Definition ChangeMaxPower : DM unit :=
  do p <- dev power_now;
  if p =? 0 then
    run dev_set (put_power_now 1);
    run wrl REG_AX5043_TXPWRCOEFFB1 0x0C;
    wrl REG_AX5043_TXPWRCOEFFB0 0x00
  else ret tt.

Definition BackNormalPower : DM unit :=
  do p <- dev power_now;
  if negb (p =? 0) then
    run dev_set (put_power_now 0);
    run wrl REG_AX5043_TXPWRCOEFFB1 0x07;
    wrl REG_AX5043_TXPWRCOEFFB0 0x00
  else ret tt.

(** ** Receiving *)

(** [do { ... } while (--n)] over a chunk that is dropped. *)
Fixpoint drop_bytes (n : nat) : DM unit :=
  match n with
  | O => ret tt
  | S n => run rds REG_AX5043_FIFODATA; drop_bytes n
  end.

(** [dropchunk]. *)
Definition dropchunk (ubDataLen : Z) : DM unit := drop_bytes (Z.to_nat ubDataLen).

(** The [switch] on the command of a chunk. *)
Definition chunk (ubTemCom ubDataLen : Z) : DM unit :=
  if ubTemCom =? AX5043_FIFOCMD_DATA then
    if ubDataLen =? 0 then ret tt else
    run rds REG_AX5043_FIFODATA;
    let ubDataLen := u8 (ubDataLen - 1) in
    do buf <- dev RXBuff;
    do buf <- SpiReadData buf ubDataLen;
    run dev_set (put_RXBuff buf);
    run dev_set (put_RxLen ubDataLen);
    do m <- rds REG_AX5043_IRQMASK0;
    wrs REG_AX5043_IRQMASK0 (Z.land m 0xFE)
  else if ubTemCom =? AX5043_FIFOCMD_RFFREQOFFS then
    if negb (ubDataLen =? 3) then dropchunk ubDataLen else
    run rds REG_AX5043_FIFODATA;
    run rds REG_AX5043_FIFODATA;
    run rds REG_AX5043_FIFODATA;
    ret tt
  else if ubTemCom =? AX5043_FIFOCMD_RSSI then
    if negb (ubDataLen =? 1) then dropchunk ubDataLen else
    do r <- rds REG_AX5043_FIFODATA;
    dev_set (put_rssi (s8 r - axradio_phy_rssioffset cfg))
  else if ubTemCom =? AX5043_FIFOCMD_TIMER then
    if negb (ubDataLen =? 3) then dropchunk ubDataLen else
    run rds REG_AX5043_FIFODATA;
    run rds REG_AX5043_FIFODATA;
    run rds REG_AX5043_FIFODATA;
    ret tt
  else if ubTemCom =? AX5043_FIFOCMD_ANTRSSI then
    if ubDataLen =? 0 then ret tt else
    run rds REG_AX5043_FIFODATA;
    dropchunk (u8 (ubDataLen - 1))
  else dropchunk ubDataLen.

(** [while (SpiReadSingleAddressRegister(dev,REG_AX5043_IRQREQUEST0) & 0x01)] *)
Fixpoint receive_loop (fuel : nat) : DM unit :=
  do irq <- rds REG_AX5043_IRQREQUEST0;
  if Z.land irq 0x01 =? 0 then ret tt else
  match fuel with
  | O => fault
  | S n =>
      do c <- rds REG_AX5043_FIFODATA;
      let ubDataLen := Z.shiftr (Z.land c 0xE0) 5 in
      do ubDataLen <- (if ubDataLen =? 0x07 then rds REG_AX5043_FIFODATA else ret ubDataLen);
      run chunk (Z.land c 0x1F) ubDataLen;
      receive_loop n
  end.

Definition ReceiveData (fuel : nat) : DM unit :=
  run dev_set (put_rssi 0);
  run dev_set (put_RxLen 0);
  run dev_set (put_RXBuff (replicate 64 0));
  run rds REG_AX5043_RADIOEVENTREQ0;
  receive_loop fuel.

(** ** Transmitting *)

Definition transmit_packet_task (Buf : list Z) (Length : Z) : DM unit :=
  run wrs REG_AX5043_PWRMODE AX5043_PWRSTATE_XTAL_ON;
  run wrs REG_AX5043_PWRMODE AX5043_PWRSTATE_FIFO_ON;
  run Ax5043SetRegisters_TX;
  run dev_set (put_TxLen Length);
  do n <- dev TxLen;
  run dev_set (put_TxLen (u8 (n + 1)));
  do buf <- dev TXBuff;
  do n <- dev TxLen;
  do buf <- lift_opt (aset buf 0 n);
  do buf <- lift_opt (blit buf 1 Buf Length);
  run dev_set (put_TXBuff buf);
  run wrs REG_AX5043_FIFOTHRESH1 0x00;
  run wrs REG_AX5043_FIFOTHRESH0 0x80;
  run dev_set (put_state trxstate_tx_xtalwait);
  run wrs REG_AX5043_IRQMASK0 0x00;
  run wrs REG_AX5043_IRQMASK1 0x01;
  run rds REG_AX5043_POWSTICKYSTAT;
  ret tt.

Definition Normal_send (Buf : list Z) (Length : Z) : DM unit :=
  run dev_set (put_cnt 0);
  transmit_packet_task Buf Length.

(** How an iteration of the loop of [TransmitData] ends: [break], [return], or
    [goto] one of the two labels behind the loop. *)
Inductive flow := Break | Return | Fifocommit | Pktend.

(** A preamble byte of which only the first [bits] bits count, with a stop bit. *)
Definition partial_byte (byte bits : Z) : DM Z :=
  do a <- rdl REG_AX5043_PKTADDRCFG;
  if negb (Z.land a 0x80 =? 0) then
    let byte := Z.land byte (u8 (Z.shiftl 0xFF (8 - bits))) in
    ret (u8 (Z.lor byte (Z.shiftr 0x80 bits)))
  else
    let byte := Z.land byte (Z.shiftr 0xFF (8 - bits)) in
    ret (u8 (Z.lor byte (Z.shiftl 0x01 bits))).

Fixpoint write_sync (words : list Z) : DM unit :=
  match words with
  | [] => ret tt
  | b :: words => run wrs REG_AX5043_FIFODATA b; write_sync words
  end.

Definition shortpreamble (ubFreeCnt : Z) : DM flow :=
  let rest : DM flow :=
    if ubFreeCnt <? 4 then ret Fifocommit else
    do cnt <- dev txbuffer_cnt;
    let free := if cnt <? 255 * 8 then u8 (Z.shiftr cnt 3) else 255 in
    if negb (free =? 0) then
      run dev_set (put_cnt (u32 (cnt - Z.shiftl free 3)));
      run wrs REG_AX5043_FIFODATA (Z.lor AX5043_FIFOCMD_REPEATDATA (Z.shiftl 3 5));
      run wrs REG_AX5043_FIFODATA (axradio_phy_preamble_flags cfg);
      run wrs REG_AX5043_FIFODATA free;
      run wrs REG_AX5043_FIFODATA (axradio_phy_preamble_byte cfg);
      ret Break
    else
      let free := u8 cnt in
      run dev_set (put_cnt 0);
      run wrs REG_AX5043_FIFODATA (Z.lor AX5043_FIFOCMD_DATA (Z.shiftl 2 5));
      run wrs REG_AX5043_FIFODATA 0x1C;
      do byte <- partial_byte (axradio_phy_preamble_byte cfg) free;
      run wrs REG_AX5043_FIFODATA byte;
      ret Break in
  do cnt <- dev txbuffer_cnt;
  if cnt =? 0 then
    if ubFreeCnt <? 15 then ret Fifocommit else
    run (if negb (axradio_phy_preamble_appendbits cfg =? 0) then
           run wrs REG_AX5043_FIFODATA (Z.lor AX5043_FIFOCMD_DATA (Z.shiftl 2 5));
           run wrs REG_AX5043_FIFODATA 0x1C;
           do byte <- partial_byte (axradio_phy_preamble_appendpattern cfg) (axradio_phy_preamble_appendbits cfg);
           wrs REG_AX5043_FIFODATA byte
         else ret tt);
    do framing <- rds REG_AX5043_FRAMING;
    if (Z.land framing 0x0E =? 0x06) && negb (axradio_framing_synclen cfg =? 0) then
      let len_byte := axradio_framing_synclen cfg in
      let i := if negb (Z.land len_byte 0x07 =? 0) then 0x04 else 0 in
      let len_byte := Z.shiftr (u8 (len_byte + 7)) 3 in
      run wrs REG_AX5043_FIFODATA (Z.lor 0x01 (Z.shiftl (len_byte + 1) 5));
      run wrs REG_AX5043_FIFODATA (Z.lor (axradio_framing_syncflags cfg) i);
      do words <- lift_opt (prefix (axradio_framing_syncword cfg) len_byte);
      run write_sync words;
      run dev_set (put_state trxstate_tx_packet);
      ret Break
    else rest
  else rest.

Definition longpreamble (ubFreeCnt : Z) : DM flow :=
  do cnt <- dev txbuffer_cnt;
  if cnt =? 0 then
    run dev_set (put_state trxstate_tx_shortpreamble);
    run dev_set (put_cnt (axradio_phy_preamble_len cfg));
    shortpreamble ubFreeCnt
  else if ubFreeCnt <? 4 then ret Fifocommit
  else
    let free := if cnt <? 7 then cnt else 7 in
    run dev_set (put_cnt (u32 (cnt - free)));
    run wrs REG_AX5043_FIFODATA (Z.lor 0x02 (Z.shiftl 3 5));
    run wrs REG_AX5043_FIFODATA 0x38;
    run wrs REG_AX5043_FIFODATA (u8 (Z.shiftl free 5));
    run wrs REG_AX5043_FIFODATA 0x55;
    ret Break.

Definition tx_packet : DM flow :=
  do n <- dev TxLen;
  if n <? 11 then ret Fifocommit else
  run wrs REG_AX5043_FIFODATA (Z.lor AX5043_FIFOCMD_DATA (Z.shiftl 7 5));
  run wrs REG_AX5043_FIFODATA (1 + n);
  run wrs REG_AX5043_FIFODATA 3;
  do buf <- dev TXBuff;
  run SpiWriteData buf n;
  ret Pktend.

(** One iteration of [while(1)]: the [switch], and the room it is given. *)
Definition transmit_state (ubFreeCnt : Z) : DM flow :=
  do st <- dev ubRFState;
  if st =? trxstate_tx_longpreamble then longpreamble ubFreeCnt
  else if st =? trxstate_tx_shortpreamble then shortpreamble ubFreeCnt
  else if st =? trxstate_tx_packet then tx_packet
  else ret Return.

Definition transmit_turn : DM flow :=
  do f0 <- rds REG_AX5043_FIFOFREE0;
  do f1 <- rds REG_AX5043_FIFOFREE1;
  transmit_state (if negb (f1 =? 0) then 0xff else f0).

Fixpoint transmit_loop (fuel : nat) : DM flow :=
  match fuel with
  | O => fault
  | S n =>
      do f <- transmit_turn;
      match f with Break => transmit_loop n | _ => ret f end
  end.

Definition pktend : DM unit :=
  run wrs REG_AX5043_FIFOSTAT 4;
  run dev_set (put_state trxstate_tx_waitdone);
  run wrs REG_AX5043_RADIOEVENTMASK0 0x01;
  wrs REG_AX5043_IRQMASK0 0x40.

Definition TransmitData (fuel : nat) : DM unit :=
  do f <- transmit_loop fuel;
  match f with
  | Fifocommit => run wrs REG_AX5043_FIFOSTAT 4; pktend
  | Pktend => pktend
  | _ => ret tt
  end.

(** ** Starting *)

(** [rt_thread_mdelay(10)] lets the other threads run. *)
Context (others : DM unit).

Fixpoint wait_while (fuel : nat) (st : Z) : DM unit :=
  match fuel with
  | O => fault
  | S n =>
      run others;
      do s <- dev ubRFState;
      if s =? st then wait_while n st else ret tt
  end.

Definition RadioXtalON (fuel : nat) : DM unit :=
  run dev_set (put_state trxstate_wait_xtal);
  do t <- rds REG_AX5043_IRQMASK1;
  run wrs REG_AX5043_IRQMASK1 (Z.lor t 0x01);
  run wrs REG_AX5043_PWRMODE AX5043_PWRSTATE_XTAL_ON;
  wait_while fuel trxstate_wait_xtal.

(** [do {} while (... & 0x80)] *)
Fixpoint adc_wait (fuel : nat) : DM unit :=
  match fuel with
  | O => fault
  | S n =>
      do x <- rdl REG_AX5043_GPADCCTRL;
      if negb (Z.land x 0x80 =? 0) then adc_wait n else ret tt
  end.

Fixpoint adc_settle (fuel cnt : nat) : DM unit :=
  match cnt with
  | O => ret tt
  | S k => run wrl REG_AX5043_GPADCCTRL 0x84; run adc_wait fuel; adc_settle fuel k
  end.

Fixpoint adc_sum (fuel cnt : nat) (r : Z) : DM Z :=
  match cnt with
  | O => ret r
  | S k =>
      run wrl REG_AX5043_GPADCCTRL 0x84;
      run adc_wait fuel;
      do h <- rdl REG_AX5043_GPADC13VALUE1;
      do l <- rdl REG_AX5043_GPADC13VALUE0;
      adc_sum fuel k (s16 (r + Z.lor (Z.shiftl (Z.land h 0x03) 8) l))
  end.

Definition axradio_tunevoltage (fuel : nat) : DM Z :=
  run adc_settle fuel 64; adc_sum fuel 32 0.

(** A candidate of [axradio_adjustvcoi]; the best value and its setting. *)
Definition try_vcoi (fuel : nat) (x : Z) (best : Z * Z) : DM (Z * Z) :=
  if Z.land (u8 x) 0xC0 =? 0 then
    run wrl REG_AX5043_PLLVCOI (Z.lor 0x80 x);
    do val <- axradio_tunevoltage fuel;
    let val := u16 val in
    ret (if val <? fst best then (val, u8 x) else best)
  else ret best.

Fixpoint adjust_loop (fuel : nat) (rng : Z) (offs : list Z) (best : Z * Z) : DM (Z * Z) :=
  match offs with
  | [] => ret best
  | o :: offs =>
      do best <- try_vcoi fuel (rng + o) best;
      do best <- (if o =? 0 then ret best else try_vcoi fuel (rng - o) best);
      adjust_loop fuel rng offs best
  end.

Definition axradio_adjustvcoi (fuel : nat) (rng : Z) : DM Z :=
  let rng := Z.land rng 0x7F in
  do best <- adjust_loop fuel rng (seqZ 0 16) (0xFFFF, rng);
  ret (if fst best <=? 0x0010 then Z.lor rng 0x80 else Z.lor (snd best) 0x80).

(** [for (i = 0x40; i != 0;)]: [i] is decremented first. *)
Fixpoint cal_loop (fuel i : nat) (r vmin vmax : Z) : DM (Z * Z * Z) :=
  match i with
  | O => ret (r, vmin, vmax)
  | S i =>
      run wrl REG_AX5043_PLLVCOI (Z.lor 0x80 (Z.of_nat i));
      run rds REG_AX5043_PLLRANGINGA;
      do t <- axradio_tunevoltage fuel;
      let curtune := u16 t in
      run rds REG_AX5043_PLLRANGINGA;
      let vmax := if vmax <? curtune then curtune else vmax in
      if curtune <? vmin then
        do l <- rds REG_AX5043_PLLRANGINGA;
        let r := if Z.land 0xC0 (u8 (Z.lnot l)) =? 0 then Z.lor (Z.of_nat i) 0x80 else r in
        cal_loop fuel i r curtune vmax
      else cal_loop fuel i r vmin vmax
  end.

Definition axradio_calvcoi (fuel : nat) : DM Z :=
  do x <- cal_loop fuel 64 0 0xffff 0;
  let '(r, vmin, vmax) := x in
  ret (if (Z.land r 0x80 =? 0) || (0xFF00 <=? vmax) || (vmin <? 0x0100) || (vmax - vmin <? 0x4000)
       then 0 else r).

Definition fsk_off : DM unit :=
  run wrs REG_AX5043_MODULATION 0x08;
  run wrl REG_AX5043_FSKDEV2 0x00;
  run wrl REG_AX5043_FSKDEV1 0x00;
  wrl REG_AX5043_FSKDEV0 0x00.

(** The [do ... while (--j)] of the calibration, with [j] from 2. *)
Fixpoint vcoi_rounds (fuel : nat) (j : nat) : DM unit :=
  match j with
  | O => ret tt
  | S j =>
      do v <- (if negb (axradio_phy_chanvcoiinit cfg =? 0) then
                 do rng <- dev chanpllrng;
                 let x := axradio_phy_chanvcoiinit cfg in
                 let x := if Z.land (axradio_phy_chanpllrnginit cfg) 0xF0 =? 0
                          then u8 (x + (Z.land rng 0x0F - Z.land (axradio_phy_chanpllrnginit cfg) 0x0F)) else x in
                 axradio_adjustvcoi fuel x
               else axradio_calvcoi fuel);
      run dev_set (put_vcoi v);
      vcoi_rounds fuel j
  end.

Definition calibrate (fuel : nat) : DM unit :=
  run Ax5043SetRegisters_TX;
  run fsk_off;
  do l <- rds REG_AX5043_PLLLOOP;
  run wrs REG_AX5043_PLLLOOP (Z.lor l 0x04);
  do x <- rdl REG_AX5043_0xF35;
  let x := Z.lor x 0x80 in
  let x := if negb (Z.land 2 (u8 (Z.lnot x)) =? 0) then u8 (x + 1) else x in
  run wrl REG_AX5043_0xF35 x;
  run wrs REG_AX5043_PWRMODE AX5043_PWRSTATE_SYNTH_TX;
  do vcoisave <- rdl REG_AX5043_PLLVCOI;
  run dev_set (put_vcoi 0);
  do rng <- dev chanpllrng;
  run (if negb (Z.land rng 0x20 =? 0) then ret tt else
       run wrs REG_AX5043_PLLRANGINGA (Z.land rng 0x0F);
       run set_frequency;
       vcoi_rounds fuel 2);
  wrl REG_AX5043_PLLVCOI vcoisave.

(** The iteration for the one channel. *)
Definition autorange (fuel : nat) : DM unit :=
  run set_frequency;
  run dev_set (put_state trxstate_pll_ranging);
  run wrs REG_AX5043_IRQMASK1 0x10;
  run wrs REG_AX5043_PLLRANGINGA
    (if Z.land (axradio_phy_chanpllrnginit cfg) 0xF0 =? 0 then Z.lor (axradio_phy_chanpllrnginit cfg) 0x10 else 0x18);
  run wait_while fuel trxstate_pll_ranging;
  run dev_set (put_state trxstate_off);
  run wrs REG_AX5043_IRQMASK1 0x00;
  do r <- rds REG_AX5043_PLLRANGINGA;
  dev_set (put_rng r).

Definition rf_startup (fuel : nat) : DM Z :=
  run Ax5043_OFF;
  run Ax5043_Reset fuel;
  run InitAx5043REG;
  run Ax5043SetRegisters_TX;
  run wrs REG_AX5043_PLLLOOP 0x09;
  run wrs REG_AX5043_PLLCPI 0x08;
  run wrs REG_AX5043_PWRMODE AX5043_PWRSTATE_XTAL_ON;
  run fsk_off;
  run RadioXtalON fuel;
  run autorange fuel;
  run (if negb (axradio_phy_vcocalib cfg =? 0) then calibrate fuel else ret tt);
  run wrs REG_AX5043_PWRMODE AX5043_PWRSTATE_POWERDOWN;
  run InitAx5043REG;
  run Ax5043SetRegisters_RX;
  do rng <- dev chanpllrng;
  run wrs REG_AX5043_PLLRANGINGA (Z.land rng 0x0F);
  run set_frequency;
  run dev_set (put_state trxstate_rx);
  do rng <- dev chanpllrng;
  ret (if negb (Z.land rng 0x20 =? 0) then AXRADIO_ERR_RANGING else AXRADIO_ERR_NOERROR).
End Driver.

(** ** What the data sheet says *)

(** Registers that only hold what was written to them. *)
Definition status_registers : list Z :=
  [0x02; 0x03; 0x04; 0x0C; 0x0D; 0x0E; 0x0F; 0x1A; 0x1C; 0x1D; 0x20; 0x28; 0x29; 0x2A; 0x2B; 0x2C; 0x2D;
   0x33; 0x3B; 0x40; 0x300; 0x308; 0x309; 0x311].
Definition plain (a : Z) : bool := (0 <=? a) && (a <? 0x1000) && negb (existsb (Z.eqb a) status_registers).

(** What is known of a chip: the plain registers, the power mode, the bytes that
    wait to be read, those written since the FIFO was last cleared or handed to
    the transmitter, and those that were handed to it. *)
Record View := mkView {
  v_reg : Z -> Z; v_pwr : Z; v_rx : list Z; v_tx : list Z; v_sent : list Z
}.

Definition upd (a v : Z) (f : Z -> Z) : Z -> Z := fun x => if x =? a then v else f x.

(** How the first byte of a transfer names a register: the others take two. *)
Definition short_write (a v : Z) : list Z := [Z.lor a 0x80; v].
Definition long_write (a v : Z) : list Z := [0xF0 + a / 256; a mod 256; v].
Definition long_read (a : Z) : list Z := [0x70 + a / 256; a mod 256].

Class ChipDoc (B : Type) `{Spi B} := {
  reg : B -> Z -> Z;
  pwr : B -> Z;
  rx_fifo : B -> list Z;
  tx_fifo : B -> list Z;
  sent : B -> list Z;
  por : Z -> Z;
  (* every transfer answers with bytes; reading leaves everything but the FIFO as it was *)
  recv_bytes h n b : 0 <= n -> zlen (fst (spi_recv h n b)) = n /\ Forall is_byte (fst (spi_recv h n b));
  recv_short a b : plain a = true -> a < 0x70 -> fst (spi_recv [a] 1 b) = [reg b a];
  recv_long a b : plain a = true -> fst (spi_recv (long_read a) 1 b) = [reg b a];
  recv_reg h n b a : plain a = true -> reg (snd (spi_recv h n b)) a = reg b a;
  recv_pwr h n b : pwr (snd (spi_recv h n b)) = pwr b;
  recv_tx h n b : tx_fifo (snd (spi_recv h n b)) = tx_fifo b;
  recv_sent h n b : sent (snd (spi_recv h n b)) = sent b;
  recv_rx h n b : h <> [REG_AX5043_FIFODATA] -> rx_fifo (snd (spi_recv h n b)) = rx_fifo b;
  recv_fifo l r b : rx_fifo b = l ++ r ->
    fst (spi_recv [REG_AX5043_FIFODATA] (zlen l) b) = l
    /\ rx_fifo (snd (spi_recv [REG_AX5043_FIFODATA] (zlen l) b)) = r;
  recv_irq b x : fst (spi_recv [REG_AX5043_IRQREQUEST0] 1 b) = [x] -> Z.land x 1 = if decide (rx_fifo b = []) then 0 else 1;
  recv_free0 b f : sent b = [] -> zlen (tx_fifo b) <= 256 ->
    fst (spi_recv [REG_AX5043_FIFOFREE0] 1 b) = [f] -> f = (256 - zlen (tx_fifo b)) mod 256;
  recv_free1 b f : sent b = [] -> zlen (tx_fifo b) <= 256 ->
    fst (spi_recv [REG_AX5043_FIFOFREE1] 1 b) = [f] -> f = (256 - zlen (tx_fifo b)) / 256;
  (* a plain register takes the value and nothing else changes *)
  send_plain a v b h x : plain a = true -> is_byte v ->
    (a < 0x70 /\ h = short_write a v \/ h = long_write a v) -> plain x = true ->
    reg (spi_send h b) x = upd a v (reg b) x;
  send_plain_rest a v b h : plain a = true -> is_byte v ->
    (a < 0x70 /\ h = short_write a v \/ h = long_write a v) ->
    pwr (spi_send h b) = pwr b /\ rx_fifo (spi_send h b) = rx_fifo b
    /\ tx_fifo (spi_send h b) = tx_fifo b /\ sent (spi_send h b) = sent b;
  (* a status register leaves the plain ones, and the FIFO unless it is its own *)
  send_status a v b x : 0 <= a < 0x70 -> plain a = false -> is_byte v ->
    (a = REG_AX5043_PWRMODE -> v < 0x80) -> plain x = true -> reg (spi_send (short_write a v) b) x = reg b x;
  send_status_rest a v b : 0 <= a < 0x70 -> plain a = false -> is_byte v ->
    a <> REG_AX5043_PWRMODE -> a <> REG_AX5043_FIFODATA -> a <> REG_AX5043_FIFOSTAT ->
    let b' := spi_send (short_write a v) b in
    pwr b' = pwr b /\ rx_fifo b' = rx_fifo b /\ tx_fifo b' = tx_fifo b /\ sent b' = sent b;
  (* the power mode; the FIFO keeps its bytes while it stays powered; bit 7 resets *)
  send_mode v b : 0 <= v < 0x80 -> pwr (spi_send (short_write REG_AX5043_PWRMODE v) b) = v;
  send_mode_fifo v b : AX5043_PWRSTATE_FIFO_ON <= v < 0x80 -> AX5043_PWRSTATE_FIFO_ON <= pwr b ->
    let b' := spi_send (short_write REG_AX5043_PWRMODE v) b in
    rx_fifo b' = rx_fifo b /\ tx_fifo b' = tx_fifo b /\ sent b' = sent b;
  send_reset b x : plain x = true -> reg (spi_send (short_write REG_AX5043_PWRMODE 0x80) b) x = por x;
  send_reset_fifo b : let b' := spi_send (short_write REG_AX5043_PWRMODE 0x80) b in
    rx_fifo b' = [] /\ tx_fifo b' = [] /\ sent b' = [];
  send_off_fifo v b : 0 <= v < AX5043_PWRSTATE_FIFO_ON ->
    let b' := spi_send (short_write REG_AX5043_PWRMODE v) b in
    rx_fifo b' = [] /\ tx_fifo b' = [] /\ sent b' = [];
  (* the FIFO: bytes are appended, command 3 clears, command 4 hands over *)
  send_fifo bs b x : plain x = true -> reg (spi_send (Z.lor REG_AX5043_FIFODATA 0x80 :: bs) b) x = reg b x;
  send_fifo_rest bs b : let b' := spi_send (Z.lor REG_AX5043_FIFODATA 0x80 :: bs) b in
    pwr b' = pwr b /\ rx_fifo b' = rx_fifo b /\ tx_fifo b' = tx_fifo b ++ bs /\ sent b' = sent b;
  send_clear b : let b' := spi_send (short_write REG_AX5043_FIFOSTAT 3) b in
    pwr b' = pwr b /\ rx_fifo b' = [] /\ tx_fifo b' = [] /\ sent b' = [];
  send_commit b : let b' := spi_send (short_write REG_AX5043_FIFOSTAT 4) b in
    pwr b' = pwr b /\ rx_fifo b' = rx_fifo b /\ tx_fifo b' = [] /\ sent b' = sent b ++ tx_fifo b
}.

(** ** Rules *)

Lemma long_header a : 0 <= a < 0x1000 ->
  Z.shiftr (Z.land (Z.lor a 0xF000) 0xFF00) 8 = 0xF0 + a / 256 /\ Z.land (Z.lor a 0xF000) 0x00FF = a mod 256
  /\ Z.shiftr (Z.land (Z.lor a 0x7000) 0xFF00) 8 = 0x70 + a / 256 /\ Z.land (Z.lor a 0x7000) 0x00FF = a mod 256
  /\ (a < 0x70 -> u8 (Z.lor a 0x80) = Z.lor a 0x80 /\ Z.land a 0x7F = a).
Proof.
  intros Ha. set (p := fun a : Z =>
    (Z.shiftr (Z.land (Z.lor a 0xF000) 0xFF00) 8 =? 0xF0 + a / 256) && (Z.land (Z.lor a 0xF000) 0x00FF =? a mod 256)
    && (Z.shiftr (Z.land (Z.lor a 0x7000) 0xFF00) 8 =? 0x70 + a / 256) && (Z.land (Z.lor a 0x7000) 0x00FF =? a mod 256)
    && ((0x70 <=? a) || (u8 (Z.lor a 0x80) =? Z.lor a 0x80) && (Z.land a 0x7F =? a))).
  assert (Hall : forallb p (seqZ 0 4096) = true) by (vm_compute; reflexivity).
  pose proof (proj1 (forallb_forall _ _) Hall a) as Hp. rewrite <- list_elem_of_In, elem_of_seqZ in Hp.
  specialize (Hp ltac:(lia)). unfold p in Hp. rewrite !andb_true_iff, orb_true_iff, andb_true_iff, !Z.eqb_eq, Z.leb_le in Hp.
  destruct Hp as ((((E1 & E2) & E3) & E4) & Hs). do 4 (split; [assumption|]).
  intros Hlt. destruct Hs as [?|Hs]; [lia | exact Hs].
Qed.

Lemma plain_range a : plain a = true -> 0 <= a < 0x1000.
Proof. unfold plain. rewrite !andb_true_iff, Z.leb_le, Z.ltb_lt. tauto. Qed.

Section Rules.
Context {B : Type} `{ChipDoc B} (cfg : Config).
Implicit Types (b : B) (x : Ax) (w : View).

Record shows (w : View) (b : B) : Prop := {
  shows_reg a : plain a = true -> reg b a = v_reg w a;
  shows_pwr : pwr b = v_pwr w;
  shows_rx : rx_fifo b = v_rx w;
  shows_tx : tx_fifo b = v_tx w;
  shows_sent : sent b = v_sent w
}.

Definition view_of b : View := mkView (reg b) (pwr b) (rx_fifo b) (tx_fifo b) (sent b).

Lemma shows_view b : shows (view_of b) b.
Proof. by split. Qed.

Definition with_reg (a v : Z) (w : View) : View := mkView (upd a v (v_reg w)) (v_pwr w) (v_rx w) (v_tx w) (v_sent w).
Definition with_rx (l : list Z) (w : View) : View := mkView (v_reg w) (v_pwr w) l (v_tx w) (v_sent w).
Definition with_tx (l : list Z) (w : View) : View := mkView (v_reg w) (v_pwr w) (v_rx w) l (v_sent w).

Lemma wp_send bs (Q : unit -> Drv B -> Prop) x b :
  Q tt (mkDrv x (spi_send bs b)) -> wp (rt_spi_send bs) Q (mkDrv x b).
Proof. done. Qed.

(** Writing a plain register, by either way. *)
Lemma shows_written a v h w b :
  plain a = true -> is_byte v -> (a < 0x70 /\ h = short_write a v \/ h = long_write a v) ->
  shows w b -> shows (with_reg a v w) (spi_send h b).
Proof.
  intros Ha Hv Hh [Hr Hp Hx Ht Hs]. destruct (send_plain_rest a v b h Ha Hv Hh) as (E1 & E2 & E3 & E4).
  split; cbn; [|congruence..]. intros y Hy. rewrite (send_plain a v b h y Ha Hv Hh Hy).
  unfold upd. destruct (y =? a); [done | by apply Hr].
Qed.

Lemma wp_wrs_plain a v w (Q : unit -> Drv B -> Prop) x b :
  shows w b -> plain a = true -> a < 0x70 ->
  (forall b', shows (with_reg a (u8 v) w) b' -> Q tt (mkDrv x b')) ->
  wp (SpiWriteSingleAddressRegister a v) Q (mkDrv x b).
Proof.
  intros Hs Ha Hlt HQ. apply wp_send, HQ. pose proof (plain_range a Ha) as Hr.
  destruct (long_header a Hr) as (_ & _ & _ & _ & Hh). destruct (Hh Hlt) as [-> _].
  apply (shows_written a); [done | apply u8_byte | by left | done].
Qed.

Lemma wp_wrl a v w (Q : unit -> Drv B -> Prop) x b :
  shows w b -> plain a = true ->
  (forall b', shows (with_reg a (u8 v) w) b' -> Q tt (mkDrv x b')) ->
  wp (SpiWriteLongAddressRegister a v) Q (mkDrv x b).
Proof.
  intros Hs Ha HQ. apply wp_send, HQ. pose proof (plain_range a Ha) as Hr.
  destruct (long_header a Hr) as (-> & -> & _). apply (shows_written a); [done | apply u8_byte | by right | done].
Qed.

(** A status register that is neither the power mode nor of the FIFO. *)
Lemma wp_wrs_status a v w (Q : unit -> Drv B -> Prop) x b :
  shows w b -> plain a = false -> 0 <= a < 0x70 ->
  a <> REG_AX5043_PWRMODE -> a <> REG_AX5043_FIFODATA -> a <> REG_AX5043_FIFOSTAT ->
  (forall b', shows w b' -> Q tt (mkDrv x b')) ->
  wp (SpiWriteSingleAddressRegister a v) Q (mkDrv x b).
Proof.
  intros [Hr Hp Hx Ht Hs] Ha Hlt N1 N2 N3 HQ. apply wp_send, HQ.
  destruct (long_header a) as (_ & _ & _ & _ & Hh); [lia|]. destruct Hh as [-> _]; [lia|].
  destruct (send_status_rest a (u8 v) b) as (E1 & E2 & E3 & E4); [done | done | apply u8_byte | done..|].
  change [Z.lor a 128; u8 v] with (short_write a (u8 v)).
  split; [|congruence..]. intros y Hy. rewrite <- (Hr y Hy).
  apply send_status; [done | done | apply u8_byte | done | done].
Qed.

(** The power mode: what becomes of the FIFO depends on the modes. *)
Lemma wp_mode v w (Q : unit -> Drv B -> Prop) x b :
  shows w b -> 0 <= v < 0x80 ->
  (forall b' w', shows w' b' -> v_reg w' = v_reg w -> v_pwr w' = v ->
     (v < 7 -> v_rx w' = [] /\ v_tx w' = [] /\ v_sent w' = []) ->
     (7 <= v -> 7 <= v_pwr w -> v_rx w' = v_rx w /\ v_tx w' = v_tx w /\ v_sent w' = v_sent w) -> Q tt (mkDrv x b')) ->
  wp (SpiWriteSingleAddressRegister REG_AX5043_PWRMODE v) Q (mkDrv x b).
Proof.
  intros [Hr Hp Hx Ht Hs] Hv HQ. apply wp_send. change (u8 (Z.lor REG_AX5043_PWRMODE 128)) with (Z.lor REG_AX5043_PWRMODE 128).
  rewrite u8_small by (unfold is_byte; lia). set (b' := spi_send _ b).
  apply (HQ b' (mkView (v_reg w) v (rx_fifo b') (tx_fifo b') (sent b'))); try done.
  - split; cbn [v_reg v_pwr v_rx v_tx v_sent]; [|by apply (send_mode v)|reflexivity..]. intros y Hy. rewrite <- (Hr y Hy).
    apply send_status; [by split | reflexivity | unfold is_byte; lia | intros _; lia | exact Hy].
  - intros Hlt. apply (send_off_fifo v b). unfold AX5043_PWRSTATE_FIFO_ON. lia.
  - intros Hv7 Hp7. destruct (send_mode_fifo v b) as (E1 & E2 & E3); [split; [exact Hv7 | lia] | rewrite Hp; exact Hp7|].
    rewrite <- Hx, <- Ht, <- Hs. split; [exact E1|]. split; [exact E2 | exact E3].
Qed.

(** Writing to the FIFO. *)
Lemma shows_fifo bs w b :
  shows w b -> shows (with_tx (v_tx w ++ bs) w) (spi_send (Z.lor REG_AX5043_FIFODATA 0x80 :: bs) b).
Proof.
  intros [Hr Hp Hx Ht Hs]. destruct (send_fifo_rest bs b) as (E1 & E2 & E3 & E4). split; cbn; [|congruence..].
  intros y Hy. by rewrite send_fifo, Hr by done.
Qed.

Lemma wp_fifo v w (Q : unit -> Drv B -> Prop) x b :
  shows w b ->
  (forall b', shows (with_tx (v_tx w ++ [u8 v]) w) b' -> Q tt (mkDrv x b')) ->
  wp (SpiWriteSingleAddressRegister REG_AX5043_FIFODATA v) Q (mkDrv x b).
Proof. intros Hs HQ. apply wp_send, HQ. by apply (shows_fifo [u8 v]). Qed.

(** Clearing the FIFO and handing it over. *)
Lemma wp_fifostat v w (Q : unit -> Drv B -> Prop) x b :
  shows w b -> v = 3 \/ v = 4 ->
  (forall b', shows (if v =? 3 then mkView (v_reg w) (v_pwr w) [] [] []
                     else mkView (v_reg w) (v_pwr w) (v_rx w) [] (v_sent w ++ v_tx w)) b' -> Q tt (mkDrv x b')) ->
  wp (SpiWriteSingleAddressRegister REG_AX5043_FIFOSTAT v) Q (mkDrv x b).
Proof.
  intros [Hr Hp Hx Ht Hs] Hv HQ. apply wp_send, HQ.
  assert (Hreg : forall y, plain y = true -> reg (spi_send (short_write REG_AX5043_FIFOSTAT v) b) y = v_reg w y).
  { intros y Hy. rewrite <- (Hr y Hy).
    apply send_status; [by split | reflexivity | unfold is_byte; lia | discriminate | exact Hy]. }
  destruct Hv as [->| ->].
  - change [u8 (Z.lor REG_AX5043_FIFOSTAT 128); u8 3] with (short_write REG_AX5043_FIFOSTAT 3).
    destruct (send_clear b) as (E1 & E2 & E3 & E4). split; cbn [Z.eqb Pos.eqb v_reg v_pwr v_rx v_tx v_sent]; [exact Hreg | congruence..].
  - change [u8 (Z.lor REG_AX5043_FIFOSTAT 128); u8 4] with (short_write REG_AX5043_FIFOSTAT 4).
    destruct (send_commit b) as (E1 & E2 & E3 & E4). split; cbn [Z.eqb Pos.eqb v_reg v_pwr v_rx v_tx v_sent]; [exact Hreg | congruence..].
Qed.

(** Reading. *)
Lemma shows_read h n w b :
  shows w b -> h <> [REG_AX5043_FIFODATA] -> shows w (snd (spi_recv h n b)).
Proof.
  intros [Hr Hp Hx Ht Hs] Hh. split.
  - intros y Hy. by rewrite recv_reg, Hr.
  - by rewrite recv_pwr.
  - by rewrite recv_rx.
  - by rewrite recv_tx.
  - by rewrite recv_sent.
Qed.

Lemma wp_recv h w (Q : Z -> Drv B -> Prop) x b :
  shows w b -> h <> [REG_AX5043_FIFODATA] ->
  (forall v b', is_byte v -> shows w b' -> fst (spi_recv h 1 b) = [v] -> Q v (mkDrv x b')) ->
  wp (do r <- rt_spi_send_then_recv h 1; byte_of r) Q (mkDrv x b).
Proof.
  intros Hs Hh HQ. destruct (recv_bytes h 1 b ltac:(lia)) as [Hl Hb]. pose proof (shows_read h 1 w b Hs Hh) as Hs'.
  unfold wp, bind, rt_spi_send_then_recv, byte_of, lift_opt. cbn [bus ax].
  destruct (spi_recv h 1 b) as [r b']. cbn [fst snd] in *.
  destruct r as [|v [|y r]]; [done | |by (rewrite !zlen_cons in Hl; pose proof (zlen_nonneg r); lia)].
  cbn. apply HQ; [by apply Forall_cons_1 in Hb as [? _] | done | done].
Qed.

Lemma wp_rds a w (Q : Z -> Drv B -> Prop) x b :
  shows w b -> 0 <= a < 0x70 -> a <> REG_AX5043_FIFODATA ->
  (forall v b', is_byte v -> shows w b' -> fst (spi_recv [a] 1 b) = [v] -> Q v (mkDrv x b')) ->
  wp (SpiReadSingleAddressRegister a) Q (mkDrv x b).
Proof.
  intros Hs Ha Hne HQ. destruct (long_header a) as (_ & _ & _ & _ & Hh); [lia|]. destruct Hh as [_ Hh]; [lia|].
  unfold SpiReadSingleAddressRegister. rewrite Hh. apply (wp_recv _ w); [done | congruence | done].
Qed.

(** The value read when it is known. *)
Lemma wp_rds_exact a v w (Q : Z -> Drv B -> Prop) x b :
  shows w b -> 0 <= a < 0x70 -> a <> REG_AX5043_FIFODATA -> fst (spi_recv [a] 1 b) = [v] ->
  (shows w (snd (spi_recv [a] 1 b)) -> Q v (mkDrv x (snd (spi_recv [a] 1 b)))) ->
  wp (SpiReadSingleAddressRegister a) Q (mkDrv x b).
Proof.
  intros Hs Ha Hne Hv HQ. destruct (long_header a) as (_ & _ & _ & _ & Hh); [lia|]. destruct Hh as [_ Hh]; [lia|].
  unfold SpiReadSingleAddressRegister. rewrite Hh. pose proof (shows_read [a] 1 w b Hs ltac:(congruence)) as Hs'.
  unfold wp, bind, rt_spi_send_then_recv, byte_of, lift_opt. cbn [bus ax].
  destruct (spi_recv [a] 1 b) as [r b']. cbn [fst snd] in *. subst r. cbn. by apply HQ.
Qed.

(** Any value, in the state the transfer leaves. *)
Lemma wp_rds_next a w (Q : Z -> Drv B -> Prop) x b :
  shows w b -> 0 <= a < 0x70 -> a <> REG_AX5043_FIFODATA ->
  (forall v, shows w (snd (spi_recv [a] 1 b)) -> Q v (mkDrv x (snd (spi_recv [a] 1 b)))) ->
  wp (SpiReadSingleAddressRegister a) Q (mkDrv x b).
Proof.
  intros Hs Ha Hne HQ. destruct (recv_bytes [a] 1 b ltac:(lia)) as [Hl _].
  destruct (fst (spi_recv [a] 1 b)) as [|v [|? l]] eqn:Hv; rewrite ?zlen_cons, ?zlen_nil in Hl;
    [done | | pose proof (zlen_nonneg l); lia].
  apply (wp_rds_exact a v w); [done.. | apply HQ].
Qed.

Lemma wp_rds_plain a w (Q : Z -> Drv B -> Prop) x b :
  shows w b -> plain a = true -> a < 0x70 ->
  (forall b', is_byte (v_reg w a) -> shows w b' -> Q (v_reg w a) (mkDrv x b')) ->
  wp (SpiReadSingleAddressRegister a) Q (mkDrv x b).
Proof.
  intros Hs Ha Hlt HQ. pose proof (plain_range a Ha). apply (wp_rds a w); [done | lia | by intros -> |].
  intros v b' Hv Hs' Hr. rewrite recv_short in Hr by done. injection Hr as <-.
  rewrite (shows_reg w b Hs a Ha) in *. by apply HQ.
Qed.

Lemma wp_rdl a w (Q : Z -> Drv B -> Prop) x b :
  shows w b -> plain a = true ->
  (forall b', is_byte (v_reg w a) -> shows w b' -> Q (v_reg w a) (mkDrv x b')) ->
  wp (SpiReadLongAddressRegister a) Q (mkDrv x b).
Proof.
  intros Hs Ha HQ. unfold SpiReadLongAddressRegister. cbv zeta.
  destruct (long_header a (plain_range a Ha)) as (_ & _ & -> & -> & _).
  apply (wp_recv _ w); [done | discriminate|]. intros v b' Hv Hs' Hr.
  change [112 + a / 256; a mod 256] with (long_read a) in Hr. rewrite recv_long in Hr by done. injection Hr as <-.
  rewrite (shows_reg w b Hs a Ha) in *. by apply HQ.
Qed.

(** A status register over the long way: some byte. *)
Lemma wp_rdl_any a w (Q : Z -> Drv B -> Prop) x b :
  shows w b -> (forall v b', is_byte v -> shows w b' -> Q v (mkDrv x b')) ->
  wp (SpiReadLongAddressRegister a) Q (mkDrv x b).
Proof. intros Hs HQ. apply (wp_recv _ w); [done | discriminate|]. intros v b' Hv Hs' _. by apply HQ. Qed.

Lemma shows_popped l r w b :
  shows w b -> v_rx w = l ++ r ->
  fst (spi_recv [REG_AX5043_FIFODATA] (zlen l) b) = l
  /\ shows (with_rx r w) (snd (spi_recv [REG_AX5043_FIFODATA] (zlen l) b)).
Proof.
  intros [Hr Hp Hx Ht Hs] Hl. destruct (recv_fifo l r b) as [E1 E2]; [congruence|]. split; [exact E1|].
  split; cbn [with_rx v_reg v_pwr v_rx v_tx v_sent].
  - intros y Hy. by rewrite recv_reg, Hr.
  - by rewrite recv_pwr.
  - exact E2.
  - by rewrite recv_tx.
  - by rewrite recv_sent.
Qed.

Lemma wp_pop c r w (Q : Z -> Drv B -> Prop) x b :
  shows w b -> v_rx w = c :: r -> (forall b', shows (with_rx r w) b' -> Q c (mkDrv x b')) ->
  wp (SpiReadSingleAddressRegister REG_AX5043_FIFODATA) Q (mkDrv x b).
Proof.
  intros Hs Hc HQ. destruct (shows_popped [c] r w b Hs Hc) as [E1 E2]. change (zlen [c]) with 1 in *.
  unfold SpiReadSingleAddressRegister. change (Z.land REG_AX5043_FIFODATA 127) with REG_AX5043_FIFODATA.
  unfold wp, bind, rt_spi_send_then_recv, byte_of, lift_opt. cbn [bus ax].
  destruct (spi_recv [REG_AX5043_FIFODATA] 1 b) as [r' b']. cbn [fst snd] in *. subst r'. cbn. by apply HQ.
Qed.

Lemma wp_irq w (Q : Z -> Drv B -> Prop) x b :
  shows w b ->
  (forall v b', shows w b' -> (Z.land v 1 =? 0) = bool_decide (v_rx w = []) -> Q v (mkDrv x b')) ->
  wp (SpiReadSingleAddressRegister REG_AX5043_IRQREQUEST0) Q (mkDrv x b).
Proof.
  intros Hs HQ. apply (wp_rds _ w); [done | by unfold REG_AX5043_IRQREQUEST0 | discriminate|].
  intros v b' _ Hs' Hr. apply HQ; [done|]. rewrite (recv_irq b v Hr), <- (shows_rx w b Hs).
  destruct (decide (rx_fifo b = [])); [by rewrite bool_decide_true | by rewrite bool_decide_false].
Qed.

Lemma wp_dev {A} (f : Ax -> A) (Q : A -> Drv B -> Prop) x b : Q (f x) (mkDrv x b) -> wp (dev f) Q (mkDrv x b).
Proof. done. Qed.

Lemma wp_dev_set f (Q : unit -> Drv B -> Prop) x b : Q tt (mkDrv (f x) b) -> wp (dev_set f) Q (mkDrv x b).
Proof. done. Qed.
End Rules.

(** ** Receiving: a FIFO of chunks *)

(** A chunk: its command, whether its length has a byte of its own, its payload. *)
Record Chunk := mkChunk { c_cmd : Z; c_long : bool; c_body : list Z }.

Definition chunk_bytes (c : Chunk) : list Z :=
  if c_long c then Z.lor (c_cmd c) 0xE0 :: zlen (c_body c) :: c_body c
  else Z.lor (c_cmd c) (Z.shiftl (zlen (c_body c)) 5) :: c_body c.

(** A data chunk begins with a byte of flags; what follows must fit [RXBuff]. *)
Definition chunk_ok (c : Chunk) : Prop :=
  0 <= c_cmd c < 32 /\ zlen (c_body c) <= (if c_long c then 255 else 6)
  /\ (c_cmd c = AX5043_FIFOCMD_DATA -> zlen (c_body c) <= 65).

(** What a chunk does to the driver's variables. *)
Definition chunk_effect (cfg : Config) (x : Ax) (c : Chunk) : Ax :=
  if c_cmd c =? AX5043_FIFOCMD_DATA then
    match c_body c with
    | [] => x
    | _ :: p => put_RxLen (zlen p) (put_RXBuff (p ++ drop (length p) (RXBuff x)) x)
    end
  else match c_cmd c =? AX5043_FIFOCMD_RSSI, c_body c with
       | true, [r] => put_rssi (s8 r - axradio_phy_rssioffset cfg) x
       | _, _ => x
       end.

Lemma header_split c n : 0 <= c < 32 -> 0 <= n < 8 ->
  Z.shiftr (Z.land (Z.lor c (Z.shiftl n 5)) 0xE0) 5 = n /\ Z.land (Z.lor c (Z.shiftl n 5)) 0x1F = c.
Proof.
  intros Hc Hn. set (p := fun c n : Z =>
    (Z.shiftr (Z.land (Z.lor c (Z.shiftl n 5)) 0xE0) 5 =? n) && (Z.land (Z.lor c (Z.shiftl n 5)) 0x1F =? c)).
  assert (Hall : forallb (fun n => forallb (fun c => p c n) (seqZ 0 32)) (seqZ 0 8) = true) by (vm_compute; reflexivity).
  pose proof (proj1 (forallb_forall _ _) Hall n) as Hp. rewrite <- list_elem_of_In, elem_of_seqZ in Hp.
  specialize (Hp ltac:(lia)). pose proof (proj1 (forallb_forall _ _) Hp c) as Hq.
  rewrite <- list_elem_of_In, elem_of_seqZ in Hq. specialize (Hq ltac:(lia)). unfold p in Hq.
  rewrite andb_true_iff, !Z.eqb_eq in Hq. exact Hq.
Qed.

Section Receiving.
Context {B : Type} `{ChipDoc B} (cfg : Config).
Implicit Types (b : B) (x : Ax) (w : View).

(** All that reading chunks changes of the chip. *)
Definition drained_to (r : list Z) w w' : Prop :=
  v_rx w' = r /\ v_pwr w' = v_pwr w /\ v_tx w' = v_tx w /\ v_sent w' = v_sent w
  /\ forall a, a <> REG_AX5043_IRQMASK0 -> v_reg w' a = v_reg w a.

Lemma drained_refl r w : v_rx w = r -> drained_to r w w.
Proof. by intros <-. Qed.

Lemma drained_pop r w w' : drained_to r (with_rx (v_rx w) w) w' -> drained_to r w w'.
Proof. done. Qed.

Lemma wp_drop_bytes body r w (Q : unit -> Drv B -> Prop) x b :
  shows w b -> v_rx w = body ++ r -> (forall b', shows (with_rx r w) b' -> Q tt (mkDrv x b')) ->
  wp (drop_bytes (length body)) Q (mkDrv x b).
Proof.
  revert w b. induction body as [|c body IH]; intros w b Hs Hr HQ; cbn [length drop_bytes].
  { apply wp_ret, HQ. cbn in Hr. destruct w. cbn in *. by subst. }
  apply wp_bind, (wp_pop c (body ++ r) w); [done | done|]. intros b' Hs'.
  by apply (IH (with_rx (body ++ r) w)).
Qed.

Lemma wp_dropchunk body r w (Q : unit -> Drv B -> Prop) x b :
  shows w b -> v_rx w = body ++ r -> (forall b', shows (with_rx r w) b' -> Q tt (mkDrv x b')) ->
  wp (dropchunk (zlen body)) Q (mkDrv x b).
Proof. intros Hs Hr HQ. unfold dropchunk, zlen. rewrite Nat2Z.id. by apply (wp_drop_bytes body r w). Qed.

(** Reading exactly three bytes. *)
Lemma wp_three (y1 y2 y3 : Z) r w (Q : unit -> Drv B -> Prop) x b :
  shows w b -> v_rx w = y1 :: y2 :: y3 :: r -> (forall b', shows (with_rx r w) b' -> Q tt (mkDrv x b')) ->
  wp (run SpiReadSingleAddressRegister REG_AX5043_FIFODATA;
      run SpiReadSingleAddressRegister REG_AX5043_FIFODATA;
      run SpiReadSingleAddressRegister REG_AX5043_FIFODATA; ret tt) Q (mkDrv x b).
Proof.
  intros Hs Hr HQ. apply wp_bind, (wp_pop y1 (y2 :: y3 :: r) w); [done | done|]. intros b' Hs'.
  apply wp_bind, (wp_pop y2 (y3 :: r) (with_rx (y2 :: y3 :: r) w)); [done | done|]. intros b'' Hs''.
  apply wp_bind, (wp_pop y3 r (with_rx (y3 :: r) (with_rx (y2 :: y3 :: r) w))); [done | done|]. intros b3' Hs3.
  by apply wp_ret, HQ.
Qed.

Lemma zlen_three (l : list Z) : zlen l = 3 -> exists y1 y2 y3, l = [y1; y2; y3].
Proof.
  destruct l as [|y1 [|y2 [|y3 [|y4 l]]]]; rewrite ?zlen_cons, ?zlen_nil; intros Hl; try lia.
  - by exists y1, y2, y3.
  - pose proof (zlen_nonneg l). lia.
Qed.

Lemma wp_SpiReadData pBuf p r w (Q : list Z -> Drv B -> Prop) x b :
  shows w b -> v_rx w = p ++ r -> zlen p <= zlen pBuf ->
  (forall b', shows (with_rx r w) b' -> Q (p ++ drop (length p) pBuf) (mkDrv x b')) ->
  wp (SpiReadData pBuf (zlen p)) Q (mkDrv x b).
Proof.
  intros Hs Hr Hl HQ. destruct (shows_popped p r w b Hs Hr) as [E1 Hs2]. pose proof (zlen_nonneg p).
  unfold wp, SpiReadData, bind, rt_spi_send_then_recv, lift_opt. cbn [bus ax].
  change (Z.land REG_AX5043_FIFODATA 127) with REG_AX5043_FIFODATA.
  destruct (spi_recv [REG_AX5043_FIFODATA] (zlen p) b) as [l b2]. cbn [fst snd] in *. subst l.
  rewrite blit_ok by lia. rewrite Z.add_0_l. change (Z.to_nat 0) with 0%nat. cbn [take app].
  replace (Z.to_nat (zlen p)) with (length p) by (unfold zlen; lia). rewrite firstn_all. by apply HQ.
Qed.

(** Dropped or not, a chunk without effect leaves the variables. *)
Lemma wp_data_chunk body r w (Q : unit -> Drv B -> Prop) x b :
  shows w b -> v_rx w = body ++ r -> zlen body <= 65 -> length (RXBuff x) = 64%nat ->
  (forall b' w', shows w' b' -> drained_to r w w' -> Q tt (mkDrv (chunk_effect cfg x (mkChunk AX5043_FIFOCMD_DATA false body)) b')) ->
  wp (chunk cfg AX5043_FIFOCMD_DATA (zlen body)) Q (mkDrv x b).
Proof.
  intros Hs Hr Hl Hb HQ. change (chunk cfg AX5043_FIFOCMD_DATA (zlen body)) with
    (if zlen body =? 0 then ret tt : M (Drv B) unit else
      run SpiReadSingleAddressRegister REG_AX5043_FIFODATA;
      let ubDataLen := u8 (zlen body - 1) in
      do buf <- dev RXBuff; do buf <- SpiReadData buf ubDataLen;
      run dev_set (put_RXBuff buf); run dev_set (put_RxLen ubDataLen);
      do m <- SpiReadSingleAddressRegister REG_AX5043_IRQMASK0;
      SpiWriteSingleAddressRegister REG_AX5043_IRQMASK0 (Z.land m 0xFE)).
  unfold chunk_effect in HQ. cbn [c_cmd c_body Z.eqb Pos.eqb AX5043_FIFOCMD_DATA] in HQ.
  destruct body as [|f p].
  { apply wp_ret, (HQ b w); [done | by apply drained_refl]. }
  rewrite zlen_cons in *. pose proof (zlen_nonneg p). rewrite (proj2 (Z.eqb_neq _ 0)) by lia.
  apply wp_bind, (wp_pop f (p ++ r) w); [done | done|]. intros b1 Hs1. cbv zeta.
  replace (1 + zlen p - 1) with (zlen p) by lia. rewrite u8_small by (unfold is_byte; lia).
  apply wp_bind, wp_dev, wp_bind, (wp_SpiReadData _ p r (with_rx (p ++ r) w)); [done | done | unfold zlen in *; lia|].
  intros b2 Hs2.
  apply wp_bind, wp_dev_set, wp_bind, wp_dev_set, wp_bind.
  apply (wp_rds_plain REG_AX5043_IRQMASK0 _ _ _ _ Hs2); [done | done|]. intros b3 _ Hs3.
  apply (wp_wrs_plain REG_AX5043_IRQMASK0 _ _ _ _ _ Hs3); [done | done|]. intros b4 Hs4.
  eapply HQ; [exact Hs4|]. split_and!; try done. intros a Ha. cbn. unfold upd. by rewrite (proj2 (Z.eqb_neq _ _)).
Qed.

Lemma wp_chunk c r w (Q : unit -> Drv B -> Prop) x b :
  shows w b -> chunk_ok c -> v_rx w = c_body c ++ r -> length (RXBuff x) = 64%nat ->
  (forall b' w', shows w' b' -> drained_to r w w' -> Q tt (mkDrv (chunk_effect cfg x c) b')) ->
  wp (chunk cfg (c_cmd c) (zlen (c_body c))) Q (mkDrv x b).
Proof.
  intros Hs (Hc & Hl & Hd) Hr Hb HQ. destruct c as [cmd lg body]. cbn [c_cmd c_body c_long] in *.
  assert (Hpop : forall b', shows (with_rx r w) b' -> chunk_effect cfg x (mkChunk cmd lg body) = x -> Q tt (mkDrv x b')).
  { intros b' Hs' E. rewrite <- E. by apply (HQ b' (with_rx r w)). }
  assert (Hdrop : chunk_effect cfg x (mkChunk cmd lg body) = x -> wp (dropchunk (zlen body)) Q (mkDrv x b)).
  { intros E. apply (wp_dropchunk body r w); auto. }
  destruct (Z.eqb_spec cmd AX5043_FIFOCMD_DATA) as [->|N1].
  { apply (wp_data_chunk body r w); auto. }
  unfold chunk_effect in HQ, Hpop, Hdrop. cbn [c_cmd c_body] in HQ, Hpop, Hdrop.
  rewrite (proj2 (Z.eqb_neq _ _) N1) in HQ, Hpop, Hdrop. unfold chunk. rewrite (proj2 (Z.eqb_neq _ _) N1).
  destruct (Z.eqb_spec cmd AX5043_FIFOCMD_RFFREQOFFS) as [->|N2].
  { destruct (Z.eqb_spec (zlen body) 3) as [E3|N3]; cbn [negb]; [|by apply Hdrop].
    destruct (zlen_three body E3) as (y1 & y2 & y3 & ->). apply (wp_three y1 y2 y3 r w); [done | done|].
    intros b' Hs'. by apply Hpop. }
  destruct (Z.eqb_spec cmd AX5043_FIFOCMD_RSSI) as [->|N3].
  { destruct (Z.eqb_spec (zlen body) 1) as [E1|N4]; cbn [negb].
    - destruct body as [|v [|? l]]; rewrite ?zlen_cons, ?zlen_nil in E1; [done | | pose proof (zlen_nonneg l); lia].
      apply wp_bind, (wp_pop v r w); [done | done|]. intros b' Hs'. apply wp_dev_set. by apply (HQ b' (with_rx r w)).
    - apply Hdrop. destruct body as [|v [|? l]]; [done | done | done]. }
  destruct (Z.eqb_spec cmd AX5043_FIFOCMD_TIMER) as [->|N4].
  { destruct (Z.eqb_spec (zlen body) 3) as [E3|N5]; cbn [negb]; [|by apply Hdrop].
    destruct (zlen_three body E3) as (y1 & y2 & y3 & ->). apply (wp_three y1 y2 y3 r w); [done | done|].
    intros b' Hs'. by apply Hpop. }
  destruct (Z.eqb_spec cmd AX5043_FIFOCMD_ANTRSSI) as [->|N5]; [|by apply Hdrop].
  destruct body as [|v body]; [apply wp_ret; cbn in Hr; apply Hpop; [destruct w; cbn in *; by subst | done]|].
  rewrite zlen_cons in *. pose proof (zlen_nonneg body). rewrite (proj2 (Z.eqb_neq _ 0)) by lia.
  apply wp_bind, (wp_pop v (body ++ r) w); [done | done|]. intros b1 Hs1.
  replace (1 + zlen body - 1) with (zlen body) by lia.
  assert (zlen body < 256) by (destruct lg; lia). rewrite u8_small by (unfold is_byte; lia).
  apply (wp_dropchunk body r (with_rx (body ++ r) w)); [done | done|]. intros b' Hs'. by apply Hpop.
Qed.

(** A data chunk of more than 64 bytes is read past the end of [RXBuff]. *)
Lemma oversized_chunk_overruns body x b :
  rx_fifo b = body -> 66 <= zlen body <= 255 -> length (RXBuff x) = 64%nat ->
  chunk cfg AX5043_FIFOCMD_DATA (zlen body) (mkDrv x b) = None.
Proof.
  intros Hr Hl Hb. destruct body as [|f p]; [rewrite (@zlen_nil Z) in Hl; lia|]. rewrite zlen_cons in *. unfold chunk.
  rewrite Z.eqb_refl, (proj2 (Z.eqb_neq _ 0)) by lia.
  assert (Hpop : exists b1, SpiReadSingleAddressRegister REG_AX5043_FIFODATA (mkDrv x b) = Some (f, mkDrv x b1)
    /\ rx_fifo b1 = p).
  { assert (Hw : wp (SpiReadSingleAddressRegister REG_AX5043_FIFODATA) (fun v d => v = f /\ ax d = x /\ rx_fifo (bus d) = p) (mkDrv x b)).
    { apply (wp_pop f p (view_of b)); [apply shows_view | done|]. intros b1 Hs. split_and!; try done. apply (shows_rx _ _ Hs). }
    apply wp_Some in Hw as (v & [x1 b1] & Hrun & -> & <- & Hrx). by exists b1. }
  destruct Hpop as (b1 & E1 & Hrx). rewrite (bind_Some _ _ _ _ _ E1). cbv zeta.
  replace (1 + zlen p - 1) with (zlen p) by lia. rewrite u8_small by (unfold is_byte; lia).
  destruct (recv_fifo p [] b1) as [E2 _]; [by rewrite app_nil_r|].
  unfold dev, gets, SpiReadData, rt_spi_send_then_recv, lift_opt, bind. cbn [ax bus].
  change (Z.land REG_AX5043_FIFODATA 127) with REG_AX5043_FIFODATA.
  destruct (spi_recv [REG_AX5043_FIFODATA] (zlen p) b1) as [l b2]. cbn [fst] in E2. subst l.
  unfold blit. rewrite (proj2 (Z.leb_gt (0 + zlen p) (zlen (RXBuff x)))) by (unfold zlen in *; lia).
  by rewrite andb_false_r.
Qed.

Lemma chunk_effect_length x c : chunk_ok c -> length (RXBuff x) = 64%nat -> length (RXBuff (chunk_effect cfg x c)) = 64%nat.
Proof.
  intros (_ & _ & Hd) Hl. unfold chunk_effect. destruct (Z.eqb_spec (c_cmd c) AX5043_FIFOCMD_DATA) as [E|E].
  - specialize (Hd E). destruct (c_body c) as [|f p]; [done|]. rewrite zlen_cons in Hd.
    cbn [put_RxLen put_RXBuff RXBuff]. rewrite length_app, length_drop. unfold zlen in Hd. lia.
  - destruct (_ =? _); [|done]. by destruct (c_body c) as [|v [|? ?]].
Qed.

(** An iteration of the loop takes one chunk. *)
Lemma wp_receive_loop cs : forall fuel x w b (Q : unit -> Drv B -> Prop),
  (length cs <= fuel)%nat -> Forall chunk_ok cs -> shows w b -> v_rx w = concat (map chunk_bytes cs) ->
  length (RXBuff x) = 64%nat ->
  (forall b' w', shows w' b' -> drained_to [] w w' -> Q tt (mkDrv (fold_left (chunk_effect cfg) cs x) b')) ->
  wp (receive_loop cfg fuel) Q (mkDrv x b).
Proof.
  induction cs as [|c cs IH]; intros fuel x w b Q Hf Hok Hs Hr Hb HQ.
  - cbn [map concat] in Hr. destruct fuel; cbn [receive_loop]; apply wp_bind, (wp_irq w); try done;
      intros v b' Hs' Hv; rewrite Hr, bool_decide_true in Hv by done; rewrite Hv;
      apply wp_ret, (HQ b' w); try done; by apply drained_refl.
  - apply Forall_cons_1 in Hok as [Hc Hok]. cbn [length] in Hf. destruct fuel as [|fuel]; [lia|].
    cbn [map concat] in Hr. cbn [receive_loop]. apply wp_bind, (wp_irq w); [done|].
    intros v b1 Hs1 Hv. assert (Hne : v_rx w <> []) by (rewrite Hr; unfold chunk_bytes; by destruct (c_long c)).
    rewrite bool_decide_false in Hv by done. rewrite Hv. pose proof Hc as (Hcmd & Hl & _).
    set (r := concat (map chunk_bytes cs)) in *.
    assert (Hgo : forall b2 w2, shows w2 b2 -> v_rx w2 = c_body c ++ r -> drained_to (c_body c ++ r) w w2 ->
      wp (run chunk cfg (c_cmd c) (zlen (c_body c)); receive_loop cfg fuel) Q (mkDrv x b2)).
    { intros b2 w2 Hs2 Hr2 (_ & P1 & P2 & P3 & P4). apply wp_bind, (wp_chunk c r w2); [done..|].
      intros b3 w3 Hs3 (Q0 & Q1 & Q2 & Q3 & Q4).
      apply (IH fuel (chunk_effect cfg x c) w3); [lia | done | done | done | by apply chunk_effect_length|].
      intros b4 w4 Hs4 (R0 & R1 & R2 & R3 & R4). cbn [fold_left] in HQ. apply (HQ b4 w4); [done|].
      split_and!; [done | congruence | congruence | congruence |].
      intros a Ha. by rewrite R4, Q4, P4. }
    unfold chunk_bytes in Hr. destruct (c_long c).
    + destruct (header_split (c_cmd c) 7) as [Hh1 Hh2]; [done | done|]. change (Z.shiftl 7 5) with 0xE0 in *.
      apply wp_bind, (wp_pop (Z.lor (c_cmd c) 224) (zlen (c_body c) :: c_body c ++ r) w); [done | done|].
      intros b2 Hs2. cbv zeta. rewrite Hh1, Hh2. cbn [Z.eqb Pos.eqb].
      apply wp_bind, (wp_pop (zlen (c_body c)) (c_body c ++ r) _ _ _ _ Hs2); [done|]. intros b3 Hs3.
      by apply (Hgo b3 _ Hs3).
    + pose proof (zlen_nonneg (c_body c)). destruct (header_split (c_cmd c) (zlen (c_body c))) as [Hh1 Hh2]; [done | lia|].
      apply wp_bind, (wp_pop (Z.lor (c_cmd c) (Z.shiftl (zlen (c_body c)) 5)) (c_body c ++ r) w); [done | done|].
      intros b2 Hs2. cbv zeta. rewrite Hh1, Hh2, (proj2 (Z.eqb_neq _ 7)) by lia. apply wp_bind, wp_ret.
      by apply (Hgo b2 _ Hs2).
Qed.

(** [ReceiveData] clears the variables first. *)
Definition cleared x : Ax := put_RXBuff (replicate 64 0) (put_RxLen 0 (put_rssi 0 x)).

Lemma wp_ReceiveData cs fuel x w b (Q : unit -> Drv B -> Prop) :
  (length cs <= fuel)%nat -> Forall chunk_ok cs -> shows w b -> v_rx w = concat (map chunk_bytes cs) ->
  (forall b' w', shows w' b' -> drained_to [] w w' -> Q tt (mkDrv (fold_left (chunk_effect cfg) cs (cleared x)) b')) ->
  wp (ReceiveData cfg fuel) Q (mkDrv x b).
Proof.
  intros Hf Hok Hs Hr HQ. apply wp_bind, wp_dev_set, wp_bind, wp_dev_set, wp_bind, wp_dev_set, wp_bind.
  apply (wp_rds REG_AX5043_RADIOEVENTREQ0 w); [done | by unfold REG_AX5043_RADIOEVENTREQ0 | discriminate|].
  intros v b' _ Hs' _. by apply (wp_receive_loop cs fuel (cleared x) w).
Qed.
End Receiving.
