(* ===== verification/RadioChip.v ===== *)
(** * A chip that does what the data sheet says

    An executable [ChipDoc]: registers in memory, the FIFO as lists.  The radio's
    theorems hold of every chip of the class; their witnesses run on this one. *)

From S2P Require Import Prelude CStr Storage Ax5043.
Open Scope list_scope.

Record Chip := mkChip { m_reg : Z -> Z; m_pwr : Z; m_rx : list Z; m_tx : list Z; m_sent : list Z }.

Definition set_reg (a v : Z) (b : Chip) : Chip := mkChip (upd a v (m_reg b)) (m_pwr b) (m_rx b) (m_tx b) (m_sent b).

(** The bytes of the receive FIFO. *)
Definition waiting_bytes (b : Chip) : list Z := map u8 (m_rx b).

(** [n] bytes, zeros when there are no more. *)
Definition exactly (n : Z) (l : list Z) : list Z := take (Z.to_nat n) l ++ replicate (Z.to_nat n - length l) 0.

Definition answer (h : list Z) (b : Chip) : list Z :=
  match h with
  | [c] => if c =? REG_AX5043_IRQREQUEST0 then [if decide (waiting_bytes b = []) then 0 else 1]
           else if c =? REG_AX5043_FIFODATA then waiting_bytes b
           else if c =? REG_AX5043_FIFOFREE0 then [u8 ((256 - zlen (m_tx b)) mod 256)]
           else if c =? REG_AX5043_FIFOFREE1 then [u8 ((256 - zlen (m_tx b)) / 256)]
           else [u8 (m_reg b c)]
  | [c; a] => [u8 (m_reg b ((c - 0x70) * 256 + a))]
  | _ => []
  end.

Definition chip_recv (h : list Z) (n : Z) (b : Chip) : list Z * Chip :=
  (exactly n (answer h b),
   if decide (h = [REG_AX5043_FIFODATA]) then
     mkChip (m_reg b) (m_pwr b) (drop (Z.to_nat n) (m_rx b)) (m_tx b) (m_sent b)
   else b).

Definition chip_mode (v : Z) (b : Chip) : Chip :=
  if v =? 0x80 then mkChip (fun _ => 0) 0 [] [] []
  else if v <? AX5043_PWRSTATE_FIFO_ON then mkChip (m_reg b) v [] [] []
  else mkChip (m_reg b) v (m_rx b) (m_tx b) (m_sent b).

Definition chip_write (c v : Z) (b : Chip) : Chip :=
  if c =? Z.lor REG_AX5043_PWRMODE 0x80 then chip_mode v b
  else if c =? Z.lor REG_AX5043_FIFOSTAT 0x80 then
    if v =? 3 then mkChip (m_reg b) (m_pwr b) [] [] []
    else if v =? 4 then mkChip (m_reg b) (m_pwr b) (m_rx b) [] (m_sent b ++ m_tx b)
    else b
  else set_reg (c - 0x80) v b.

Definition chip_send (h : list Z) (b : Chip) : Chip :=
  match h with
  | [] => b
  | c :: bs => if c =? Z.lor REG_AX5043_FIFODATA 0x80 then mkChip (m_reg b) (m_pwr b) (m_rx b) (m_tx b ++ bs) (m_sent b)
               else match bs with
                    | [v] => chip_write c v b
                    | [a; v] => set_reg ((c - 0xF0) * 256 + a) v b
                    | _ => b
                    end
  end.

#[export] Instance chip_spi : Spi Chip := {| spi_send := chip_send; spi_recv := chip_recv |}.

Lemma exactly_length n l : 0 <= n -> zlen (exactly n l) = n.
Proof. intros Hn. unfold zlen, exactly. rewrite length_app, length_take, length_replicate. lia. Qed.

Lemma exactly_bytes n l : Forall is_byte l -> Forall is_byte (exactly n l).
Proof.
  intros Hl. unfold exactly. apply Forall_app. split; [by apply Forall_take|]. apply Forall_replicate. by unfold is_byte.
Qed.

Lemma exactly_app l r : exactly (zlen l) (l ++ r) = l.
Proof.
  unfold exactly, zlen. rewrite Nat2Z.id, take_app_length, length_app.
  replace (length l - _)%nat with 0%nat by lia. apply app_nil_r.
Qed.

Lemma exactly_one v : exactly 1 [v] = [v].
Proof. done. Qed.

Lemma answer_bytes h b : Forall is_byte (answer h b).
Proof.
  assert (Hu : forall v, Forall is_byte [u8 v]) by (intros v; apply Forall_singleton, u8_byte).
  destruct h as [|c [|a [|? ?]]]; cbn [answer]; [done | | apply Hu | done].
  destruct (c =? _).
  { destruct (decide _); by apply Forall_singleton. }
  destruct (c =? _).
  { unfold waiting_bytes. apply Forall_map, Forall_forall. intros v _. apply u8_byte. }
  do 2 (destruct (c =? _); [apply Hu|]). apply Hu.
Qed.

Lemma short_header a : 0 <= a < 0x70 -> Z.lor a 0x80 = a + 0x80.
Proof.
  intros Ha. assert (Hall : forallb (fun a => Z.lor a 0x80 =? a + 0x80) (seqZ 0 0x70) = true) by (vm_compute; reflexivity).
  apply Z.eqb_eq, (proj1 (forallb_forall _ _) Hall a). rewrite <- list_elem_of_In, elem_of_seqZ. lia.
Qed.

Lemma plain_other a s : plain a = true -> existsb (Z.eqb s) status_registers = true -> a <> s.
Proof. unfold plain. rewrite !andb_true_iff, negb_true_iff. intros [_ Ha] Hs ->. congruence. Qed.

(** What a write to a plain register does. *)
Lemma chip_send_plain a v h b :
  plain a = true -> (a < 0x70 /\ h = short_write a v \/ h = long_write a v) -> chip_send h b = set_reg a v b.
Proof.
  intros Ha Hh. pose proof (plain_range a Ha) as Hr.
  assert (N1 : a <> 0x02) by (by apply plain_other). assert (N2 : a <> 0x28) by (by apply plain_other).
  assert (N3 : a <> 0x29) by (by apply plain_other).
  destruct Hh as [[Hlt ->]| ->]; cbn [chip_send short_write long_write].
  - rewrite short_header by lia. change (Z.lor REG_AX5043_FIFODATA 0x80) with 0xA9.
    rewrite (proj2 (Z.eqb_neq _ _)) by lia. unfold chip_write.
    change (Z.lor REG_AX5043_PWRMODE 0x80) with 0x82. change (Z.lor REG_AX5043_FIFOSTAT 0x80) with 0xA8.
    rewrite (proj2 (Z.eqb_neq _ _)), (proj2 (Z.eqb_neq _ _)) by lia. f_equal. lia.
  - change (Z.lor REG_AX5043_FIFODATA 0x80) with 0xA9. pose proof (Z.div_mod a 256).
    assert (0 <= a / 256) by (apply Z.div_pos; lia).
    rewrite (proj2 (Z.eqb_neq _ _)) by lia. f_equal. lia.
Qed.

(** And to a status register that is not the FIFO's. *)
Lemma chip_send_status a v b :
  0 <= a < 0x70 -> a <> REG_AX5043_FIFODATA ->
  chip_send (short_write a v) b = if a =? REG_AX5043_PWRMODE then chip_mode v b else
    if a =? REG_AX5043_FIFOSTAT then
      if v =? 3 then mkChip (m_reg b) (m_pwr b) [] [] []
      else if v =? 4 then mkChip (m_reg b) (m_pwr b) (m_rx b) [] (m_sent b ++ m_tx b) else b
    else set_reg a v b.
Proof.
  intros Ha Hne. cbn [chip_send short_write]. rewrite short_header by lia.
  change (Z.lor REG_AX5043_FIFODATA 0x80) with 0xA9. unfold REG_AX5043_FIFODATA in Hne.
  rewrite (proj2 (Z.eqb_neq _ _)) by lia. unfold chip_write.
  change (Z.lor REG_AX5043_PWRMODE 0x80) with 0x82. change (Z.lor REG_AX5043_FIFOSTAT 0x80) with 0xA8.
  unfold REG_AX5043_PWRMODE, REG_AX5043_FIFOSTAT. replace (a + 0x80 =? 0x82) with (a =? 0x02) by (destruct (Z.eqb_spec a 2), (Z.eqb_spec (a + 128) 130); lia).
  replace (a + 0x80 =? 0xA8) with (a =? 0x28) by (destruct (Z.eqb_spec a 0x28), (Z.eqb_spec (a + 128) 0xA8); lia).
  destruct (a =? 2); [done|]. destruct (a =? 0x28); [done|]. f_equal. lia.
Qed.

Lemma set_reg_plain_ne a v b x : a <> x -> u8 (m_reg (set_reg a v b) x) = u8 (m_reg b x).
Proof. intros Hne. cbn. unfold upd. by rewrite (proj2 (Z.eqb_neq x a)). Qed.

Lemma answer_reg a b : plain a = true -> answer [a] b = [u8 (m_reg b a)].
Proof. intros Ha. cbn [answer]. by repeat rewrite (proj2 (Z.eqb_neq _ _)) by (by apply plain_other). Qed.

Lemma chip_mode_pwr v b : 0 <= v < 0x80 -> m_pwr (chip_mode v b) = v.
Proof. intros Hv. unfold chip_mode. rewrite (proj2 (Z.eqb_neq _ _)) by lia. by destruct (_ <? _). Qed.

Lemma chip_mode_reg v b : v < 0x80 -> m_reg (chip_mode v b) = m_reg b.
Proof. intros Hv. unfold chip_mode. rewrite (proj2 (Z.eqb_neq _ _)) by lia. by destruct (_ <? _). Qed.

#[export] Instance chip_doc : ChipDoc Chip.
Proof.
  refine {| reg b a := u8 (m_reg b a); pwr := m_pwr; rx_fifo := waiting_bytes; tx_fifo := m_tx; sent := m_sent; por _ := 0 |}.
  - intros h n b Hn. split; [by apply exactly_length | apply exactly_bytes, answer_bytes].
  - intros a b Ha _. cbn [spi_recv chip_spi chip_recv fst]. rewrite answer_reg by done. apply exactly_one.
  - intros a b Ha. cbn [spi_recv chip_spi chip_recv fst long_read answer]. rewrite exactly_one.
    do 2 f_equal. pose proof (Z.div_mod a 256). f_equal. lia.
  - intros h n b a _. cbn [spi_recv chip_spi chip_recv snd]. by destruct (decide _).
  - intros h n b. cbn [spi_recv chip_spi chip_recv snd]. by destruct (decide _).
  - intros h n b. cbn [spi_recv chip_spi chip_recv snd]. by destruct (decide _).
  - intros h n b. cbn [spi_recv chip_spi chip_recv snd]. by destruct (decide _).
  - intros h n b Hh. cbn [spi_recv chip_spi chip_recv snd]. by destruct (decide _).
  - intros l r b Hr. cbn [spi_recv chip_spi chip_recv fst snd].
    change (answer [REG_AX5043_FIFODATA] b) with (waiting_bytes b). rewrite Hr. split; [apply exactly_app|].
    rewrite decide_True by done. unfold waiting_bytes in *. cbn [m_rx].
    change (map u8 (drop (Z.to_nat (zlen l)) (m_rx b))) with (u8 <$> drop (Z.to_nat (zlen l)) (m_rx b)). rewrite fmap_drop. change (u8 <$> m_rx b) with (map u8 (m_rx b)). rewrite Hr. unfold zlen. rewrite Nat2Z.id. apply drop_app_length.
  - intros b x Hx. cbn [spi_recv chip_spi chip_recv fst] in Hx.
    change (answer [REG_AX5043_IRQREQUEST0] b) with [if decide (waiting_bytes b = []) then 0 else 1] in Hx.
    rewrite exactly_one in Hx. injection Hx as <-. by destruct (decide _).
  - intros b f _ _ Hf. change (exactly 1 [u8 ((256 - zlen (m_tx b)) mod 256)] = [f]) in Hf. rewrite exactly_one in Hf.
    injection Hf as <-. apply u8_small. unfold is_byte. apply Z.mod_pos_bound. lia.
  - intros b f _ Hl Hf. change (exactly 1 [u8 ((256 - zlen (m_tx b)) / 256)] = [f]) in Hf. rewrite exactly_one in Hf.
    injection Hf as <-. pose proof (zlen_nonneg (m_tx b)). apply u8_small. unfold is_byte. split; [apply Z.div_pos; lia|].
    apply Z.div_lt_upper_bound; lia.
  - intros a v b h x Ha Hv Hh _. cbn [spi_send chip_spi]. rewrite (chip_send_plain a v) by done. cbn. unfold upd.
    destruct (x =? a); [by apply u8_small | done].
  - intros a v b h Ha _ Hh. cbn [spi_send chip_spi]. by rewrite (chip_send_plain a v).
  - intros a v b x Ha Hp _ Hm Hx. cbn [spi_send chip_spi]. destruct (Z.eqb_spec a REG_AX5043_FIFODATA) as [->|Hne]; [done|].
    assert (Hax : a <> x) by (intros ->; congruence). rewrite chip_send_status by done.
    destruct (Z.eqb_spec a REG_AX5043_PWRMODE) as [E|_]; [by rewrite chip_mode_reg by auto|].
    destruct (a =? _); [destruct (v =? 3), (v =? 4); done|]. by apply set_reg_plain_ne.
  - intros a v b Ha Hp _ N1 N2 N3. cbn [spi_send chip_spi]. rewrite chip_send_status by done.
    by rewrite (proj2 (Z.eqb_neq _ _) N1), (proj2 (Z.eqb_neq _ _) N3).
  - intros v b Hv. by apply (chip_mode_pwr v b).
  - intros v b Hv _. cbn [spi_send chip_spi]. rewrite chip_send_status by done. cbn [Z.eqb Pos.eqb REG_AX5043_PWRMODE]. unfold chip_mode.
    unfold AX5043_PWRSTATE_FIFO_ON in *. by rewrite (proj2 (Z.eqb_neq _ _)), (proj2 (Z.ltb_ge _ _)) by lia.
  - done.
  - done.
  - intros v b Hv. cbn [spi_send chip_spi]. rewrite chip_send_status by done. cbn [Z.eqb Pos.eqb REG_AX5043_PWRMODE]. unfold chip_mode.
    unfold AX5043_PWRSTATE_FIFO_ON in *. by rewrite (proj2 (Z.eqb_neq _ _)), (proj2 (Z.ltb_lt _ _)) by lia.
  - done.
  - done.
  - done.
  - done.
Defined.

(** A chip that is configured to frame packets, with these bytes waiting. *)
Definition listening (l : list Z) : Chip :=
  mkChip (upd REG_AX5043_MODULATION 0x08 (upd REG_AX5043_FRAMING 0x26 (fun _ => 0))) AX5043_PWRSTATE_FULL_RX l [] [].
