(* ===== verification/Radio433.v ===== *)
(** * The radio thread

    [src/radio/Radio_433.c]: what the thread [rf_433_task] does at an interrupt of
    the chip, in each state of the driver, and the time-out of a transmission.
    Received packets go to [rf433_rx_callback]. *)

From Stdlib Require Import String.
From S2P Require Import Prelude CStr McuTx Flashwork RadioQueue Led World WifiApi WifiSpec Safe Decoder Storage Ax5043 RadioChip.
Open Scope list_scope.

(** The driver, the timer of a transmission, the rest of the program. *)
Record Radio433 (B E : Type) := mk433 { drv : Drv B; send_timer : bool; rest : World E }.
Arguments mk433 {B E}. Arguments drv {B E}. Arguments send_timer {B E}. Arguments rest {B E}.

Section Task.
Context {B E : Type} `{Spi B} `{Env E} (cfg : Config) (junk : Message) (fuel : nat).
Abbreviation TM := (M (Radio433 B E)).

Definition on_drv {A} (m : M (Drv B) A) : TM A := zoom drv (fun d s => mk433 d (send_timer s) (rest s)) m.
Definition on_rest {A} (m : M (World E) A) : TM A := zoom rest (fun w s => mk433 (drv s) (send_timer s) w) m.
Definition set_send_timer (b : bool) : TM unit := modify (fun s => mk433 (drv s) b (rest s)).
Definition rf {A} (f : Ax -> A) : TM A := on_drv (dev f).

Abbreviation wrs a v := (on_drv (SpiWriteSingleAddressRegister a v)).
Abbreviation rds a := (on_drv (SpiReadSingleAddressRegister a)).

Definition rf_433_send_timer_start : TM unit := set_send_timer true.

(** The one-shot timer has expired. *)
Definition rf_433_send_timer_callback : TM unit :=
  run set_send_timer false;
  do st <- rf ubRFState;
  if negb (st =? trxstate_rx) then
    run wrs REG_AX5043_RADIOEVENTMASK0 0x00;
    run on_drv (rf_restart cfg);
    ret tt
  else ret tt.

(** Handing a packet to the chip, as [RadioSend] and [GatewayDataSend] do. *)
Definition radio_transmit (buf : list Z) (len : Z) : TM unit :=
  run on_drv (Ax5043.Normal_send cfg buf len);
  rf_433_send_timer_start.

Definition received_packet : TM unit :=
  run on_drv (ReceiveData cfg fuel);
  run on_drv (Ax5043SetRegisters_RX cfg);
  run on_drv (AX5043Receiver_Continuous cfg);
  do n <- rf RxLen;
  if negb (n =? 0) then
    do rssi <- rf ubRssi;
    do buf <- rf RXBuff;
    on_rest (rf433_rx_callback junk rssi buf (n - 1))
  else ret tt.

Definition start_transmission : TM unit :=
  run rds REG_AX5043_RADIOEVENTREQ0;
  run wrs REG_AX5043_FIFOSTAT 0x03;
  run wrs REG_AX5043_IRQMASK1 0x00;
  run wrs REG_AX5043_IRQMASK0 0x08;
  run on_drv (dev_set (put_state trxstate_tx_longpreamble));
  do m <- rds REG_AX5043_MODULATION;
  run (if Z.land m 0x0F =? 9 then
         run wrs REG_AX5043_FIFODATA (Z.lor AX5043_FIFOCMD_DATA (Z.shiftl 7 5));
         run wrs REG_AX5043_FIFODATA 2;
         run wrs REG_AX5043_FIFODATA 0x01;
         wrs REG_AX5043_FIFODATA 0x11
       else ret tt);
  run on_drv (TransmitData cfg fuel);
  wrs REG_AX5043_PWRMODE AX5043_PWRSTATE_FULL_TX.

Definition finish_transmission : TM unit :=
  run set_send_timer false;
  run rds REG_AX5043_RADIOEVENTREQ0;
  do st <- rds REG_AX5043_RADIOSTATE;
  if negb (st =? 0) then ret tt else
  run wrs REG_AX5043_RADIOEVENTMASK0 0x00;
  run on_drv (rf_restart cfg);
  ret tt.

(** The [switch] of [rf_433_task_callback], after the semaphore was taken. *)
Definition rf_433_task_turn : TM unit :=
  do st <- rf ubRFState;
  if st =? trxstate_rx then received_packet
  else if st =? trxstate_wait_xtal then
    run wrs REG_AX5043_IRQMASK1 0x00;
    on_drv (dev_set (put_state trxstate_xtal_ready))
  else if st =? trxstate_pll_ranging then
    run wrs REG_AX5043_IRQMASK1 0x00;
    on_drv (dev_set (put_state trxstate_pll_ranging_done))
  else if st =? trxstate_pll_settling then
    run wrs REG_AX5043_RADIOEVENTMASK0 0x00;
    on_drv (dev_set (put_state trxstate_pll_settled))
  else if st =? trxstate_tx_xtalwait then start_transmission
  else if (st =? trxstate_tx_longpreamble) || (st =? trxstate_tx_shortpreamble) || (st =? trxstate_tx_packet)
    then on_drv (TransmitData cfg fuel)
  else if st =? trxstate_tx_waitdone then finish_transmission
  else
    run wrs REG_AX5043_IRQMASK1 0x00;
    wrs REG_AX5043_IRQMASK0 0x00.
End Task.

(** ** The configuration *)

Section Tables.
Implicit Types (rows : list (Z * Z)) (f : Z -> Z).

(** The plain registers after a table was written. *)
Definition tabled rows f : Z -> Z := fold_left (fun f r => upd (fst r) (u8 (snd r)) f) rows f.

Lemma tabled_other rows f a : a ∉ map fst rows -> tabled rows f a = f a.
Proof.
  revert f. induction rows as [|[x v] rows IH]; intros f Ha; [done|]. cbn [map fst] in Ha.
  apply not_elem_of_cons in Ha as [Hx Ha]. unfold tabled. cbn [fold_left fst snd]. fold (tabled rows (upd x (u8 v) f)).
  rewrite IH by done. unfold upd. by rewrite (proj2 (Z.eqb_neq _ _)).
Qed.

Lemma tabled_row rows f a v : NoDup (map fst rows) -> (a, v) ∈ rows -> tabled rows f a = u8 v.
Proof.
  revert f. induction rows as [|[x y] rows IH]; intros f Hn Hin; [by apply elem_of_nil in Hin|].
  cbn [map fst] in Hn. apply NoDup_cons in Hn as [Hx Hn]. unfold tabled. cbn [fold_left fst snd].
  fold (tabled rows (upd x (u8 y) f)). apply elem_of_cons in Hin as [E|Hin]; [|by apply IH].
  injection E as -> ->. rewrite tabled_other by done. unfold upd. by rewrite Z.eqb_refl.
Qed.

Definition plain_rows rows : bool := forallb (fun r => plain (fst r)) rows.
End Tables.

(** A register that is none of some others. *)
Ltac not_in := let E := fresh in intros E; apply list_elem_of_In in E; cbn in E;
  repeat destruct E as [E|E]; (discriminate || contradiction).

Section Configuration.
Context {B : Type} `{ChipDoc B} (cfg : Config).
Implicit Types (b : B) (x : Ax) (w : View).

(** Of the chip, only some plain registers differ. *)
Definition tuned_by (l : list Z) w w' : Prop :=
  v_pwr w' = v_pwr w /\ v_rx w' = v_rx w /\ v_tx w' = v_tx w /\ v_sent w' = v_sent w
  /\ forall a, a ∉ l -> v_reg w' a = v_reg w a.

Lemma wp_write_table rows w (Q : unit -> Drv B -> Prop) x b :
  plain_rows rows = true -> shows w b ->
  (forall b', shows (mkView (tabled rows (v_reg w)) (v_pwr w) (v_rx w) (v_tx w) (v_sent w)) b' -> Q tt (mkDrv x b')) ->
  wp (write_table rows) Q (mkDrv x b).
Proof.
  revert w b. induction rows as [|[a v] rows IH]; intros w b Hp Hs HQ; cbn [write_table].
  { apply wp_ret, HQ. by destruct w. }
  unfold plain_rows in Hp. cbn [forallb fst] in Hp. apply andb_true_iff in Hp as [Ha Hp].
  apply wp_bind, (wp_wrl a v w); [done | done|]. intros b' Hs'. by apply (IH (with_reg a (u8 v) w)).
Qed.

Lemma wp_pllvcoi w (Q : Z -> Drv B -> Prop) x b :
  shows w b -> (forall v b', shows w b' -> Q v (mkDrv x b')) -> wp (axradio_get_pllvcoi cfg) Q (mkDrv x b).
Proof.
  intros Hs HQ. apply wp_bind, wp_dev. destruct (_ && _); [by apply wp_ret, HQ|]. cbv zeta.
  destruct (negb _).
  - destruct (_ =? 0); [|by apply wp_ret, HQ]. apply wp_bind, wp_dev, wp_ret. by apply HQ.
  - apply (wp_rdl REG_AX5043_PLLVCOI w); [done | done|]. intros b' _ Hs'. by apply HQ.
Qed.

Lemma wp_common w (Q : Z -> Drv B -> Prop) x b :
  shows w b -> (forall r b' w', shows w' b' -> tuned_by [REG_AX5043_PLLVCOI] w w' -> Q r (mkDrv x b')) ->
  wp (ax5043_init_registers_common cfg) Q (mkDrv x b).
Proof.
  intros Hs HQ. assert (Hrefl : tuned_by [REG_AX5043_PLLVCOI] w w) by (by split_and!).
  apply wp_bind, wp_dev. destruct (negb _); [by apply wp_ret, (HQ _ b w)|].
  apply wp_bind, (wp_rds_plain REG_AX5043_PLLLOOP w); [done | done | done|]. intros b1 _ Hs1.
  assert (Hgo : forall b2, shows w b2 ->
    wp (do rng <- axradio_get_pllvcoi cfg;
        run (if negb (Z.land rng 0x80 =? 0) then SpiWriteLongAddressRegister REG_AX5043_PLLVCOI rng else ret tt);
        ret AXRADIO_ERR_NOERROR) Q (mkDrv x b2)).
  { intros b2 Hs2. apply wp_bind, (wp_pllvcoi w); [done|]. intros v b3 Hs3. apply wp_bind.
    destruct (negb _); [|by apply wp_ret, wp_ret, (HQ _ b3 w)].
    apply (wp_wrl REG_AX5043_PLLVCOI v w); [done | done|]. intros b4 Hs4. eapply wp_ret, HQ; [exact Hs4|].
    split_and!; try done. intros a Ha. cbn. unfold upd.
    rewrite (proj2 (Z.eqb_neq _ _)); [done|]. intros ->. apply Ha, list_elem_of_here. }
  apply wp_bind. destruct (negb _).
  - apply (wp_wrs_status REG_AX5043_PLLRANGINGB _ w); [done | done | by unfold REG_AX5043_PLLRANGINGB | done.. | exact Hgo].
  - apply (wp_wrs_status REG_AX5043_PLLRANGINGA _ w); [done | done | by unfold REG_AX5043_PLLRANGINGA | done.. | exact Hgo].
Qed.

(** The registers of the two small tables. *)
Definition small_table : list Z := [0x30; 0x31; 0x32; 0x184; 0xf00; 0xf18; REG_AX5043_PLLVCOI].

Lemma wp_SetRegisters rows w (Q : Z -> Drv B -> Prop) x b :
  rows = set_registers_tx_433 \/ rows = set_registers_rx_433 -> shows w b ->
  (forall r b' w', shows w' b' -> tuned_by small_table w w' -> (forall a v, (a, v) ∈ rows -> v_reg w' a = v) -> Q r (mkDrv x b')) ->
  wp (run write_table rows; ax5043_init_registers_common cfg) Q (mkDrv x b).
Proof.
  intros Hrows Hs HQ.
  assert (Hp : plain_rows rows = true /\ map fst rows = take 6 small_table /\ forall a v, (a, v) ∈ rows -> u8 v = v).
  { destruct Hrows as [->| ->]; (split; [done|]); (split; [done|]); intros a v Hin; apply list_elem_of_In in Hin; cbn in Hin;
      repeat destruct Hin as [Hin|Hin]; try (by injection Hin as <- <-); contradiction. }
  assert (Hn : NoDup (take 6 small_table)) by (apply (bool_decide_unpack _); vm_compute; exact I).
  destruct Hp as (Hp & Hm & Hu). apply wp_bind, (wp_write_table rows w); [done | done|]. intros b1 Hs1.
  eapply wp_common; [exact Hs1|]. intros r b2 w2 Hs2 (E1 & E2 & E3 & E4 & E5). apply (HQ r b2 w2); [done | |].
  2: { intros a v Hin. rewrite E5.
       - cbn [v_reg]. rewrite (tabled_row rows _ a v); [by apply Hu with a | by rewrite Hm | done].
       - intros Ha. apply list_elem_of_singleton in Ha as ->. apply (list_elem_of_fmap_2 fst) in Hin.
         change (fst <$> rows) with (map fst rows) in Hin. rewrite Hm in Hin. revert Hin. not_in. }
  split_and!; [exact E1 | exact E2 | exact E3 | exact E4 |]. intros a Ha. rewrite E5.
  - cbn [v_reg]. apply tabled_other. rewrite Hm. intros Hin. apply Ha, list_elem_of_In. apply list_elem_of_In in Hin. cbn in *. tauto.
  - intros Hin. apply Ha, list_elem_of_In. apply list_elem_of_In in Hin. cbn in *. tauto.
Qed.
End Configuration.

(** An address outside a list is none of its members. *)
Ltac outside := let E := fresh in intros E; subst; match goal with Ha : ?a ∉ _ |- _ =>
  apply Ha, list_elem_of_In; cbn; tauto end.
Ltac other_regs := intros a Ha; cbn [v_reg with_reg]; unfold upd;
  repeat (rewrite (proj2 (Z.eqb_neq a _)) by outside).

Section Listening.
Context {B : Type} `{ChipDoc B} (cfg : Config).
Implicit Types (b : B) (x : Ax) (w : View).

(** The chip receives and reports what arrives. *)
Definition listens w : Prop :=
  v_pwr w = AX5043_PWRSTATE_FULL_RX /\ v_reg w REG_AX5043_IRQMASK0 = 0x01 /\ v_reg w REG_AX5043_IRQMASK1 = 0x00.

Definition receiver_registers : list Z :=
  [REG_AX5043_RADIOEVENTMASK0; REG_AX5043_RSSIREFERENCE; REG_AX5043_TMGRXAGC; REG_AX5043_TMGRXPREAMBLE1;
   REG_AX5043_PKTMISCFLAGS; REG_AX5043_PKTSTOREFLAGS; REG_AX5043_IRQMASK0; REG_AX5043_IRQMASK1].

Lemma wp_Receiver_Continuous w (Q : unit -> Drv B -> Prop) x b :
  shows w b ->
  (forall b' w', shows w' b' -> listens w' -> (forall a, a ∉ receiver_registers -> v_reg w' a = v_reg w a) ->
     Q tt (mkDrv (put_state trxstate_rx x) b')) ->
  wp (AX5043Receiver_Continuous cfg) Q (mkDrv x b).
Proof.
  intros Hs HQ. unfold AX5043Receiver_Continuous.
  apply wp_bind; eapply wp_wrs_plain; [exact Hs | done | done |]; intros b1 Hs1.
  apply wp_bind; eapply wp_wrl; [exact Hs1 | done |]; intros b2 Hs2.
  apply wp_bind; eapply wp_wrl; [exact Hs2 | done |]; intros b3 Hs3.
  apply wp_bind; eapply wp_wrl; [exact Hs3 | done |]; intros b4 Hs4.
  apply wp_bind; eapply wp_wrl; [exact Hs4 | done |]; intros b5 Hs5.
  apply wp_bind; eapply wp_rdl; [exact Hs5 | done |]; intros b6 _ Hs6.
  apply wp_bind; eapply wp_wrl; [exact Hs6 | done |]; intros b7 Hs7.
  apply wp_bind; eapply wp_wrs_plain; [exact Hs7 | done | done |]; intros b8 Hs8.
  apply wp_bind; eapply wp_fifostat; [exact Hs8 | by left |]; intros b9 Hs9.
  apply wp_bind; eapply wp_mode; [exact Hs9 | done |]; intros b10 w10 Hs10 Er Ep _ _.
  apply wp_bind, wp_dev_set; eapply wp_wrs_plain; [exact Hs10 | done | done |]; intros b11 Hs11.
  eapply HQ; [exact Hs11 | |].
  - split_and!; [exact Ep | cbn [v_reg with_reg]; rewrite Er; reflexivity | reflexivity].
  - intros a Ha. cbn [v_reg with_reg]. rewrite Er. cbn [Z.eqb Pos.eqb v_reg with_reg]. unfold upd.
    repeat (rewrite (proj2 (Z.eqb_neq a _)) by outside). done.
Qed.
End Listening.

(** ** Transmitting *)

Section Transmitting.
Context {B : Type} `{ChipDoc B} (cfg : Config).
Implicit Types (b : B) (x : Ax) (w : View).

(** The registers that say how packets are framed. *)
Definition framed w : Prop := v_reg w REG_AX5043_MODULATION = 0x08 /\ v_reg w REG_AX5043_FRAMING = 0x26.

Definition preamble_chunk : list Z := [0x62; 0x38; 4; 0x55].
Definition sync_chunk : list Z := [0xA1; 0x38; 0xcc; 0xaa; 0xcc; 0xaa].
Definition packet_chunk (p : list Z) : list Z := 0xE1 :: 1 + zlen p :: 3 :: p.
Definition transmission (p : list Z) : list Z := preamble_chunk ++ sync_chunk ++ packet_chunk p.

(** The room the loop sees. *)
Lemma wp_free w (Q : flow -> Drv B -> Prop) (k : Z -> M (Drv B) flow) x b :
  shows w b -> v_sent w = [] -> zlen (v_tx w) <= 200 ->
  (forall f b', 15 <= f -> shows w b' -> wp (k f) Q (mkDrv x b')) ->
  wp (do f0 <- SpiReadSingleAddressRegister REG_AX5043_FIFOFREE0;
      do f1 <- SpiReadSingleAddressRegister REG_AX5043_FIFOFREE1;
      k (if negb (f1 =? 0) then 0xff else f0)) Q (mkDrv x b).
Proof.
  intros Hs He Ht HQ. pose proof (zlen_nonneg (v_tx w)) as H0'.
  apply wp_bind, (wp_rds _ w); [done | by unfold REG_AX5043_FIFOFREE0 | discriminate|]. intros f0 b1 Hf0 Hs1 E0.
  apply wp_bind, (wp_rds _ w); [done | by unfold REG_AX5043_FIFOFREE1 | discriminate|]. intros f1 b2 Hf1 Hs2 E1.
  assert (He1 : sent b = []) by (by rewrite (shows_sent _ _ Hs)).
  assert (He2 : sent b1 = []) by (by rewrite (shows_sent _ _ Hs1)).
  apply recv_free0 in E0; [|done|rewrite (shows_tx _ _ Hs); lia]. rewrite (shows_tx _ _ Hs) in E0.
  apply recv_free1 in E1; [|done|rewrite (shows_tx _ _ Hs1); lia]. rewrite (shows_tx _ _ Hs1) in E1.
  apply HQ; [|done]. destruct (Z.eqb_spec f1 0) as [Hz|Hne]; cbn [negb]; [|lia].
  rewrite E0, Z.mod_small; [lia|]. split; [lia|]. rewrite E1 in Hz. apply Z.div_small_iff in Hz; lia.
Qed.

Lemma wp_fifo_then v w (m : M (Drv B) flow) (Q : flow -> Drv B -> Prop) x b :
  shows w b -> (forall b', shows (with_tx (v_tx w ++ [u8 v]) w) b' -> wp m Q (mkDrv x b')) ->
  wp (run SpiWriteSingleAddressRegister REG_AX5043_FIFODATA v; m) Q (mkDrv x b).
Proof. intros Hs Hm. by apply wp_bind, (wp_fifo _ w). Qed.

(** The first iteration: the preamble of the configuration. *)
Lemma wp_turn_preamble w (Q : flow -> Drv B -> Prop) x b :
  shows w b -> v_sent w = [] -> v_tx w = [] -> ubRFState x = trxstate_tx_longpreamble -> txbuffer_cnt x = 0 ->
  (forall b', shows (with_tx preamble_chunk w) b' ->
     Q Break (mkDrv (put_cnt 0 (put_cnt 32 (put_state trxstate_tx_shortpreamble x))) b')) ->
  wp (transmit_turn rf_433_config_init) Q (mkDrv x b).
Proof.
  intros Hs He Ht Hst Hc HQ. unfold transmit_turn. apply (wp_free w); [done | done | by rewrite Ht|].
  intros f b1 Hf Hs1. apply wp_bind, wp_dev. rewrite Hst, Z.eqb_refl. unfold longpreamble.
  apply wp_bind, wp_dev. rewrite Hc, Z.eqb_refl. apply wp_bind, wp_dev_set, wp_bind, wp_dev_set.
  unfold shortpreamble. apply wp_bind, wp_dev. cbn [put_cnt put_state txbuffer_cnt axradio_phy_preamble_len rf_433_config_init Z.eqb].
  rewrite (proj2 (Z.ltb_ge f 4)) by lia. apply wp_bind, wp_dev. cbn [put_cnt put_state txbuffer_cnt].
  change (32 <? 255 * 8) with true. change (u8 (Z.shiftr 32 3)) with 4. cbn [Z.eqb negb].
  apply wp_bind, wp_dev_set. change (u32 (32 - Z.shiftl 4 3)) with 0.
  eapply wp_fifo_then; [exact Hs1|]. intros b2 Hs2.
  eapply wp_fifo_then; [exact Hs2|]. intros b3 Hs3.
  eapply wp_fifo_then; [exact Hs3|]. intros b4 Hs4.
  eapply wp_fifo_then; [exact Hs4|]. intros b5 Hs5.
  apply wp_ret, HQ. cbn [with_tx v_tx] in Hs5. rewrite Ht in Hs5. exact Hs5.
Qed.

(** The second: the sync word. *)
Lemma wp_turn_sync w (Q : flow -> Drv B -> Prop) x b :
  shows w b -> v_sent w = [] -> v_tx w = preamble_chunk -> framed w ->
  ubRFState x = trxstate_tx_shortpreamble -> txbuffer_cnt x = 0 ->
  (forall b', shows (with_tx (preamble_chunk ++ sync_chunk) w) b' ->
     Q Break (mkDrv (put_state trxstate_tx_packet x) b')) ->
  wp (transmit_turn rf_433_config_init) Q (mkDrv x b).
Proof.
  intros Hs He Ht [_ Hfr] Hst Hc HQ. unfold transmit_turn. apply (wp_free w); [done | done | by rewrite Ht|].
  intros f b1 Hf Hs1. apply wp_bind, wp_dev. rewrite Hst. cbn [Z.eqb Pos.eqb trxstate_tx_shortpreamble trxstate_tx_longpreamble].
  unfold shortpreamble. apply wp_bind, wp_dev. rewrite Hc, Z.eqb_refl, (proj2 (Z.ltb_ge f 15)) by lia.
  apply wp_bind, wp_ret, wp_bind, (wp_rds_plain REG_AX5043_FRAMING w); [done | done | done|]. intros b2 _ Hs2.
  rewrite Hfr. cbn [Z.land Pos.land N.succ_double N.double Z.of_N Z.eqb Pos.eqb axradio_framing_synclen rf_433_config_init negb andb].
  change (Z.shiftr (u8 (32 + 7)) 3) with 4.
  eapply wp_fifo_then; [exact Hs2|]. intros b3 Hs3.
  eapply wp_fifo_then; [exact Hs3|]. intros b4 Hs4.
  apply wp_bind, (wp_lift_opt _ [0xcc; 0xaa; 0xcc; 0xaa]); [done|]. apply wp_bind. cbn [write_sync].
  apply wp_bind; eapply wp_fifo; [exact Hs4|]. intros b5 Hs5.
  apply wp_bind; eapply wp_fifo; [exact Hs5|]. intros b6 Hs6.
  apply wp_bind; eapply wp_fifo; [exact Hs6|]. intros b7 Hs7.
  apply wp_bind; eapply wp_fifo; [exact Hs7|]. intros b8 Hs8.
  apply wp_ret, wp_bind, wp_dev_set, wp_ret, HQ. cbn [with_tx v_tx] in Hs8. rewrite Ht in Hs8. exact Hs8.
Qed.

(** The third: the packet. *)
Lemma wp_turn_packet w (Q : flow -> Drv B -> Prop) x b p rest :
  shows w b -> v_sent w = [] -> v_tx w = preamble_chunk ++ sync_chunk ->
  ubRFState x = trxstate_tx_packet -> TxLen x = zlen p -> TXBuff x = p ++ rest -> 11 <= zlen p < 255 ->
  (forall b', shows (with_tx (transmission p) w) b' -> Q Pktend (mkDrv x b')) ->
  wp (transmit_turn rf_433_config_init) Q (mkDrv x b).
Proof.
  intros Hs He Ht Hst Hn Hb Hp HQ. unfold transmit_turn. apply (wp_free w); [done | done | by rewrite Ht|].
  intros f b1 Hf Hs1. apply wp_bind, wp_dev. rewrite Hst.
  cbn [Z.eqb Pos.eqb trxstate_tx_packet trxstate_tx_shortpreamble trxstate_tx_longpreamble].
  apply wp_bind, wp_dev. rewrite Hn, (proj2 (Z.ltb_ge _ 11)) by lia.
  eapply wp_fifo_then; [exact Hs1|]. intros b2 Hs2.
  eapply wp_fifo_then; [exact Hs2|]. intros b3 Hs3.
  eapply wp_fifo_then; [exact Hs3|]. intros b4 Hs4.
  apply wp_bind, wp_dev. apply wp_bind. unfold SpiWriteData.
  apply wp_bind, (wp_lift_opt _ p); [rewrite Hb; apply prefix_app|]. apply wp_send, wp_ret, HQ.
  cbn [with_tx v_tx] in Hs4. rewrite Ht in Hs4. rewrite (u8_small (1 + zlen p)) in Hs4 by (unfold is_byte; lia).
  pose proof (shows_fifo p _ _ Hs4) as Hs5. cbn [with_tx v_tx] in Hs5. unfold transmission.
  rewrite <- !app_assoc in Hs5. exact Hs5.
Qed.

(** What is left when the packet is in the FIFO. *)
Definition handed_over p w w' : Prop :=
  v_sent w' = transmission p /\ v_tx w' = [] /\ v_pwr w' = v_pwr w
  /\ forall a, a ∉ [REG_AX5043_RADIOEVENTMASK0; REG_AX5043_IRQMASK0] -> v_reg w' a = v_reg w a.

Lemma wp_TransmitData fuel w (Q : unit -> Drv B -> Prop) x b p rest :
  (3 <= fuel)%nat -> shows w b -> v_sent w = [] -> v_tx w = [] -> framed w ->
  ubRFState x = trxstate_tx_longpreamble -> txbuffer_cnt x = 0 ->
  TxLen x = zlen p -> TXBuff x = p ++ rest -> 11 <= zlen p < 255 ->
  (forall b' w' x', shows w' b' -> handed_over p w w' -> ubRFState x' = trxstate_tx_waitdone ->
     chanpllrng x' = chanpllrng x -> Q tt (mkDrv x' b')) ->
  wp (TransmitData rf_433_config_init fuel) Q (mkDrv x b).
Proof.
  intros Hf Hs He Ht Hfr Hst Hc Hn Hb Hp HQ. destruct fuel as [|[|[|fuel]]]; [lia..|].
  unfold TransmitData. cbn [transmit_loop]. apply wp_bind, wp_bind, (wp_turn_preamble w); [done..|].
  intros b1 Hs1. apply wp_bind. eapply wp_turn_sync; [exact Hs1 | done | done | exact Hfr | done | done |].
  intros b2 Hs2. apply wp_bind. eapply (wp_turn_packet _ _ _ _ p rest); [exact Hs2 | done | done | done | exact Hn | exact Hb | exact Hp |].
  intros b3 Hs3. apply wp_ret. unfold pktend.
  apply wp_bind; eapply wp_fifostat; [exact Hs3 | by right|]. intros b4 Hs4. cbn [Z.eqb Pos.eqb] in Hs4.
  apply wp_bind, wp_dev_set, wp_bind; eapply wp_wrs_plain; [exact Hs4 | done | done |]. intros b5 Hs5.
  eapply wp_wrs_plain; [exact Hs5 | done | done |]. intros b6 Hs6. eapply HQ; [exact Hs6 | | done | done].
  split_and!; [cbn [v_sent v_tx with_tx with_reg]; by rewrite He | done | done |].
  intros a Ha. cbn [v_reg with_reg with_tx]. unfold upd. repeat (rewrite (proj2 (Z.eqb_neq a _)) by outside). done.
Qed.
End Transmitting.

(** ** Restarting *)

Section Restarting.
Context {B : Type} `{ChipDoc B} (cfg : Config).
Implicit Types (b : B) (x : Ax) (w : View).

Lemma wp_reset w (Q : unit -> Drv B -> Prop) x b :
  shows w b ->
  (forall b' w', shows w' b' -> v_reg w' = por -> v_pwr w' = 0 -> v_rx w' = [] -> v_tx w' = [] -> v_sent w' = [] ->
     Q tt (mkDrv x b')) ->
  wp Ax5043_Spi_Reset Q (mkDrv x b).
Proof.
  intros Hs HQ. unfold Ax5043_Spi_Reset. apply wp_bind, wp_send. set (b1 := spi_send _ b).
  assert (Hs1 : shows (mkView por (pwr b1) (rx_fifo b1) (tx_fifo b1) (sent b1)) b1).
  { split; try done. intros a Ha. by apply (send_reset b). }
  change (wp (SpiWriteSingleAddressRegister REG_AX5043_PWRMODE 0x00) Q (mkDrv x b1)).
  eapply wp_mode; [exact Hs1 | done|]. intros b2 w2 Hs2 Er Ep Hf _. destruct Hf as (E1 & E2 & E3); [done|].
  by apply (HQ b2 w2).
Qed.

Lemma table_plain : plain_rows (take 125 set_registers_433) = true.
Proof. vm_compute. reflexivity. Qed.

(** The registers [InitAx5043REG] and what follows it in [rf_restart] write. *)
Definition frequency_registers : list Z := [REG_AX5043_FREQA0; REG_AX5043_FREQA1; REG_AX5043_FREQA2; REG_AX5043_FREQA3].

(** The rows of the table that are written. *)
Definition in_table (f : Z -> Z) : Prop := forall a v, (a, v) ∈ take 125 set_registers_433 -> f a = v.

Definition configured (f : Z -> Z) : Prop :=
  in_table f
  /\ f REG_AX5043_FREQA0 = u8 (axradio_phy_chanfreq cfg)
  /\ f REG_AX5043_FREQA1 = u8 (Z.shiftr (axradio_phy_chanfreq cfg) 8)
  /\ f REG_AX5043_FREQA2 = u8 (Z.shiftr (axradio_phy_chanfreq cfg) 16)
  /\ f REG_AX5043_FREQA3 = u8 (Z.shiftr (axradio_phy_chanfreq cfg) 24)
  /\ f REG_AX5043_PINFUNCIRQ = 0x03.

Lemma wp_set_frequency w (Q : unit -> Drv B -> Prop) x b :
  shows w b ->
  (forall b' w', shows w' b' -> v_pwr w' = v_pwr w -> v_rx w' = v_rx w ->
     v_reg w' REG_AX5043_FREQA0 = u8 (axradio_phy_chanfreq cfg) ->
     v_reg w' REG_AX5043_FREQA1 = u8 (Z.shiftr (axradio_phy_chanfreq cfg) 8) ->
     v_reg w' REG_AX5043_FREQA2 = u8 (Z.shiftr (axradio_phy_chanfreq cfg) 16) ->
     v_reg w' REG_AX5043_FREQA3 = u8 (Z.shiftr (axradio_phy_chanfreq cfg) 24) ->
     (forall a, a ∉ frequency_registers -> v_reg w' a = v_reg w a) -> Q tt (mkDrv x b')) ->
  wp (set_frequency cfg) Q (mkDrv x b).
Proof.
  intros Hs HQ. unfold set_frequency. cbv zeta.
  apply wp_bind; eapply wp_wrs_plain; [exact Hs | done | done |]; intros b1 Hs1.
  apply wp_bind; eapply wp_wrs_plain; [exact Hs1 | done | done |]; intros b2 Hs2.
  apply wp_bind; eapply wp_wrs_plain; [exact Hs2 | done | done |]; intros b3 Hs3.
  eapply wp_wrs_plain; [exact Hs3 | done | done |]; intros b4 Hs4.
  eapply HQ; [exact Hs4 | done | done | done | done | done | done |].
  intros a Ha. cbn [v_reg with_reg]. unfold upd. repeat (rewrite (proj2 (Z.eqb_neq a _)) by outside). done.
Qed.

Lemma table_bytes a v : (a, v) ∈ take 125 set_registers_433 -> u8 v = v /\ (a ∉ frequency_registers)
  /\ a <> REG_AX5043_PINFUNCIRQ /\ a <> REG_AX5043_PKTSTOREFLAGS.
Proof.
  intros Hin. set (p := fun r : Z * Z => (u8 (snd r) =? snd r) && negb (existsb (Z.eqb (fst r)) frequency_registers)
    && negb (fst r =? REG_AX5043_PINFUNCIRQ) && negb (fst r =? REG_AX5043_PKTSTOREFLAGS)).
  assert (Hall : forallb p (take 125 set_registers_433) = true) by (vm_compute; reflexivity).
  apply list_elem_of_In in Hin. pose proof (proj1 (forallb_forall _ _) Hall _ Hin) as Hp. unfold p in Hp. cbn [fst snd] in Hp.
  rewrite !andb_true_iff, !negb_true_iff, Z.eqb_eq, !Z.eqb_neq in Hp. destruct Hp as (((E & Hf) & ?) & ?).
  split_and!; try done. intros Hq. enough (existsb (Z.eqb a) frequency_registers = true) by congruence.
  apply existsb_exists. exists a. split; [by apply list_elem_of_In | apply Z.eqb_refl].
Qed.

Lemma table_nodup : NoDup (map fst (take 125 set_registers_433)).
Proof. apply (bool_decide_unpack _). vm_compute. exact I. Qed.

(** [InitAx5043REG]: the rows of the table hold, and all else but three registers
    is as it was. *)
Definition init_registers : list Z :=
  map fst (take 125 set_registers_433) ++ [REG_AX5043_PKTLENOFFSET; REG_AX5043_PINFUNCIRQ; REG_AX5043_PKTSTOREFLAGS].

Lemma wp_InitREG w (Q : unit -> Drv B -> Prop) x b :
  shows w b ->
  (forall b' w', shows w' b' -> v_pwr w' = v_pwr w -> v_rx w' = v_rx w -> v_tx w' = v_tx w -> v_sent w' = v_sent w ->
     in_table (v_reg w') -> v_reg w' REG_AX5043_PINFUNCIRQ = 0x03 ->
     (forall a, a ∉ init_registers -> v_reg w' a = v_reg w a) -> Q tt (mkDrv x b')) ->
  wp InitAx5043REG Q (mkDrv x b).
Proof.
  intros Hs HQ. unfold InitAx5043REG. apply wp_bind; eapply wp_write_table; [exact table_plain | exact Hs|]; intros b1 Hs1.
  apply wp_bind; eapply wp_rdl; [exact Hs1 | done |]; intros b2 Hpk Hs2.
  apply wp_bind; eapply wp_wrl; [exact Hs2 | done |]; intros b3 Hs3.
  apply wp_bind; eapply wp_wrs_plain; [exact Hs3 | done | done |]; intros b4 Hs4.
  eapply wp_wrl; [exact Hs4 | done |]; intros b5 Hs5.
  eapply HQ; [exact Hs5 | done | done | done | done | | done |]; cbn [v_reg with_reg].
  - intros a v Hin. destruct (table_bytes a v Hin) as (Eb & _ & N1 & N2).
    unfold upd at 1 2. rewrite (proj2 (Z.eqb_neq a _)), (proj2 (Z.eqb_neq a _)) by done.
    pose proof (fun f => tabled_row _ f a v table_nodup Hin) as Htab.
    unfold upd at 1. destruct (Z.eqb_spec a REG_AX5043_PKTLENOFFSET) as [<-|_]; by rewrite Htab, ?Eb.
  - intros a Ha. unfold init_registers in Ha. rewrite elem_of_app in Ha. apply Decidable.not_or in Ha as [Ht Ha].
    unfold upd. repeat (rewrite (proj2 (Z.eqb_neq a _)) by outside). by apply tabled_other.
Qed.

Lemma wp_restart w (Q : Z -> Drv B -> Prop) x b :
  shows w b ->
  (forall b' w', shows w' b' -> v_pwr w' = AX5043_PWRSTATE_POWERDOWN -> v_rx w' = [] -> configured (v_reg w') ->
     v_reg w' 0xF44 = por 0xF44 -> Q AXRADIO_ERR_NOERROR (mkDrv (put_state trxstate_rx (put_state trxstate_off x)) b')) ->
  wp (rf_restart cfg) Q (mkDrv x b).
Proof.
  intros Hs HQ. unfold rf_restart, Ax5043_OFF. apply wp_bind.
  apply wp_bind; eapply wp_wrs_plain; [exact Hs | done | done |]; intros b1 Hs1.
  apply wp_bind; eapply wp_wrs_plain; [exact Hs1 | done | done |]; intros b2 Hs2.
  apply wp_bind; eapply wp_mode; [exact Hs2 | done |]; intros b3 w3 Hs3 _ _ _ _.
  apply wp_bind; eapply wp_wrl; [exact Hs3 | done |]; intros b4 Hs4. apply wp_bind, wp_dev_set.
  eapply wp_mode; [exact Hs4 | done |]; intros b5 w5 Hs5 _ _ _ _.
  apply wp_bind; eapply wp_reset; [exact Hs5|]; intros b6 w6 Hs6 Er6 Ep6 _ _ _.
  apply wp_bind; eapply wp_mode; [exact Hs6 | done |]; intros b7 w7 Hs7 Er7 Ep7 Ef7 _.
  apply wp_bind; eapply wp_wrs_plain; [exact Hs7 | done | done |]; intros b8 Hs8.
  apply wp_bind; eapply wp_wrs_plain; [exact Hs8 | done | done |]; intros b9 Hs9.
  apply wp_bind; eapply wp_wrs_plain; [exact Hs9 | done | done |]; intros b10 Hs10.
  apply wp_bind; eapply wp_InitREG; [exact Hs10|]; intros b15 w15 Hs15 Ep15 Ef15 _ _ Et15 Ei15 Er15.
  apply wp_bind, wp_dev, wp_bind; eapply wp_wrs_status; [exact Hs15 | done | by unfold REG_AX5043_PLLRANGINGA | done..|]; intros b16 Hs16.
  apply wp_bind; eapply wp_set_frequency; [exact Hs16|]; intros b17 w17 Hs17 Ep17 Ex17 F0 F1 F2 F3 Hrest.
  apply wp_bind, wp_dev_set, wp_ret. apply (HQ b17 w17); [exact Hs17 | | | |].
  - by rewrite Ep17, Ep15.
  - rewrite Ex17, Ef15. by apply Ef7.
  - split; [|do 4 (split; [assumption|]); by rewrite Hrest by not_in].
    intros a v Hin. destruct (table_bytes a v Hin) as (_ & Hf & _). rewrite Hrest by done. by apply Et15.
  - rewrite Hrest by not_in. rewrite Er15 by (apply (bool_decide_unpack _); vm_compute; exact I).
    cbn. by rewrite Er7, Er6.
Qed.
End Restarting.

(** ** The thread *)

Section Turns.
Context {B E : Type} `{ChipDoc B} `{Env E} (junk : Message).
Implicit Types (b : B) (x : Ax) (w : View) (s : Radio433 B E).

Abbreviation cfg := rf_433_config_init.

Lemma wp_on_drv {A} (m : M (Drv B) A) (Q : A -> Radio433 B E -> Prop) d t r :
  wp m (fun a d' => Q a (mk433 d' t r)) d -> wp (on_drv m) Q (mk433 d t r).
Proof. intros Hm. unfold on_drv. by apply wp_zoom. Qed.

Lemma wp_on_rest {A} (m : M (World E) A) (Q : A -> Radio433 B E -> Prop) d t r :
  wp m (fun a r' => Q a (mk433 d t r')) r -> wp (on_rest m) Q (mk433 d t r).
Proof. intros Hm. unfold on_rest. by apply wp_zoom. Qed.

Lemma wp_rf {A} (f : Ax -> A) (Q : A -> Radio433 B E -> Prop) x b t r :
  Q (f x) (mk433 (mkDrv x b) t r) -> wp (rf f) Q (mk433 (mkDrv x b) t r).
Proof. intros HQ. by apply wp_on_drv, wp_dev. Qed.

Lemma wp_timer v (Q : unit -> Radio433 B E -> Prop) d t r :
  Q tt (mk433 d v r) -> wp (set_send_timer v) Q (mk433 d t r).
Proof. done. Qed.

(** What a turn does with the packet the chip delivered. *)
Definition deliver x (r : World E) : option (World E) :=
  if RxLen x =? 0 then Some r
  else match rf433_rx_callback junk (ubRssi x) (RXBuff x) (RxLen x - 1) r with
       | Some (_, r') => Some r'
       | None => None
       end.

Lemma wp_received cs fuel x w b t r r' (Q : unit -> Radio433 B E -> Prop) :
  (length cs <= fuel)%nat -> Forall chunk_ok cs -> shows w b -> v_rx w = concat (map chunk_bytes cs) ->
  deliver (fold_left (chunk_effect cfg) cs (cleared x)) r = Some r' ->
  (forall x' b' w', shows w' b' -> listens w' -> ubRFState x' = trxstate_rx ->
     (framed w -> framed w') -> Q tt (mk433 (mkDrv x' b') t r')) ->
  wp (received_packet cfg junk fuel) Q (mk433 (mkDrv x b) t r).
Proof.
  intros Hf Hok Hs Hr Hd HQ. unfold received_packet.
  apply wp_bind, wp_on_drv; eapply wp_ReceiveData; [exact Hf | exact Hok | exact Hs | exact Hr|].
  set (x1 := fold_left _ _ _) in *. intros b1 w1 Hs1 (_ & _ & _ & _ & D1).
  apply wp_bind, wp_on_drv. eapply (wp_SetRegisters cfg set_registers_rx_433); [by right | exact Hs1|].
  intros rc b2 w2 Hs2 (_ & _ & _ & _ & D2) _. apply wp_bind, wp_on_drv.
  eapply wp_Receiver_Continuous; [exact Hs2|]. intros b3 w3 Hs3 Hlis D3.
  assert (Hfr : framed w -> framed w3).
  { intros [F1 F2]. split; (rewrite D3 by not_in; rewrite D2 by not_in; rewrite D1 by discriminate); assumption. }
  unfold deliver in Hd. apply wp_bind, wp_rf. change (RxLen (put_state trxstate_rx x1)) with (RxLen x1).
  destruct (RxLen x1 =? 0); cbn [negb].
  { apply wp_ret. injection Hd as ->. by apply (HQ _ b3 w3). }
  apply wp_bind, wp_rf, wp_bind, wp_rf, wp_on_rest. change (ubRssi (put_state trxstate_rx x1)) with (ubRssi x1).
  change (RXBuff (put_state trxstate_rx x1)) with (RXBuff x1). unfold wp.
  destruct (rf433_rx_callback _ _ _ _ _) as [[[] r1]|]; [|done]. injection Hd as ->. by apply (HQ _ b3 w3).
Qed.

(** A turn in a known state. *)
Ltac turn Hst := unfold rf_433_task_turn; apply wp_bind, wp_rf; rewrite Hst;
  cbn [Z.eqb Pos.eqb orb trxstate_rx trxstate_wait_xtal trxstate_pll_ranging trxstate_pll_settling
       trxstate_tx_xtalwait trxstate_tx_longpreamble trxstate_tx_shortpreamble trxstate_tx_packet trxstate_tx_waitdone].

(** *** Receiving is safe *)

(** A data chunk with at most 63 bytes of a packet. *)
Definition short_packet (c : Chunk) : Prop := c_cmd c = AX5043_FIFOCMD_DATA -> zlen (c_body c) <= 64.

Definition reception_inv x : Prop :=
  zlen (RXBuff x) = 64 /\ 0 <= RxLen x < 64 /\ RXBuff x !! 63%nat = Some 0.

Lemma reception_step x c : short_packet c -> reception_inv x -> reception_inv (chunk_effect cfg x c).
Proof.
  intros Hc (Hl & Hn & Hz). unfold chunk_effect.
  destruct (Z.eqb_spec (c_cmd c) AX5043_FIFOCMD_DATA) as [E1|_].
  2: { destruct (_ =? _); [|done]. by destruct (c_body c) as [|v [|? ?]]. }
  specialize (Hc E1) as Hlen. destruct (c_body c) as [|f p] eqn:Eb; [done|]. rewrite zlen_cons in Hlen.
  pose proof (zlen_nonneg p). unfold reception_inv. cbn [put_RxLen put_RXBuff RXBuff RxLen].
  unfold zlen in *. rewrite length_app, length_drop. split_and!; [lia | lia | lia |].
  rewrite lookup_app_r, lookup_drop by lia. rewrite <- Hz. f_equal. lia.
Qed.

Lemma reception_kept cs x : Forall short_packet cs -> reception_inv x -> reception_inv (fold_left (chunk_effect cfg) cs x).
Proof.
  revert x. induction cs as [|c cs IH]; intros x Hc Hx; [done|]. apply Forall_cons_1 in Hc as [Hc Hcs].
  apply IH; [done | by apply reception_step].
Qed.

Lemma deliver_safe x (r : World E) : reception_inv x -> lone_feed (RXBuff x) (RxLen x - 1) = false -> world_ok r -> exists r', deliver x r = Some r' /\ world_ok r'.
Proof.
  intros (Hl & Hn & Hz) H1' Hr. unfold deliver. destruct (Z.eqb_spec (RxLen x) 0) as [|Hne]; [by exists r|].
  pose proof (safe_packet (E := E) junk (ubRssi x) (RXBuff x) (RxLen x - 1) 63 Hl ltac:(lia) Hz ltac:(lia) H1' r Hr) as Hw.
  apply wp_Some in Hw as ([] & r' & -> & Hr' & _). by exists r'.
Qed.

(** *** Transmitting *)

Lemma wp_Normal_send p q w (Q : unit -> Drv B -> Prop) x b :
  shows w b -> zlen p <= 63 -> length (TXBuff x) = 64%nat ->
  (forall b' w' x', shows w' b' -> v_pwr w' = AX5043_PWRSTATE_FIFO_ON -> (framed w -> framed w') ->
     ubRFState x' = trxstate_tx_xtalwait -> txbuffer_cnt x' = 0 -> TxLen x' = zlen (1 + zlen p :: p) ->
     (exists q, TXBuff x' = (1 + zlen p :: p) ++ q) -> Q tt (mkDrv x' b')) ->
  wp (Ax5043.Normal_send cfg (p ++ q) (zlen p)) Q (mkDrv x b).
Proof.
  intros Hs Hp Hb HQ. pose proof (zlen_nonneg p). unfold Ax5043.Normal_send, transmit_packet_task.
  apply wp_bind, wp_dev_set.
  apply wp_bind; eapply wp_mode; [exact Hs | done |]; intros b1 w1 Hs1 Er1 _ _ _.
  apply wp_bind; eapply wp_mode; [exact Hs1 | done |]; intros b2 w2 Hs2 Er2 Ep2 _ _.
  apply wp_bind. eapply (wp_SetRegisters cfg set_registers_tx_433); [by left | exact Hs2|].
  intros rc b3 w3 Hs3 (Ep3 & _ & _ & _ & Er3) _.
  apply wp_bind, wp_dev_set, wp_bind, wp_dev, wp_bind, wp_dev_set, wp_bind, wp_dev, wp_bind, wp_dev.
  cbn [put_TxLen put_cnt TXBuff TxLen]. rewrite u8_small by (unfold is_byte; lia).
  destruct (TXBuff x) as [|y buf] eqn:Eb; [done|]. cbn [length] in Hb.
  apply wp_bind, (wp_lift_opt _ (zlen p + 1 :: buf)).
  { rewrite aset_ok by (rewrite zlen_cons; pose proof (zlen_nonneg buf); lia). done. }
  apply wp_bind. eapply wp_lift_opt.
  { apply blit_ok; [rewrite zlen_app; pose proof (zlen_nonneg q); lia | done |]. rewrite zlen_cons. unfold zlen in *. lia. }
  apply wp_bind, wp_dev_set.
  apply wp_bind; eapply wp_wrs_plain; [exact Hs3 | done | done |]; intros b4 Hs4.
  apply wp_bind; eapply wp_wrs_plain; [exact Hs4 | done | done |]; intros b5 Hs5.
  apply wp_bind, wp_dev_set.
  apply wp_bind; eapply wp_wrs_plain; [exact Hs5 | done | done |]; intros b6 Hs6.
  apply wp_bind; eapply wp_wrs_plain; [exact Hs6 | done | done |]; intros b7 Hs7.
  apply wp_bind; eapply wp_rds; [exact Hs7 | by unfold REG_AX5043_POWSTICKYSTAT | discriminate |]; intros v b8 _ Hs8 _.
  apply wp_ret. eapply HQ; [exact Hs8 | | | done | done | |].
  - cbn [v_pwr with_reg]. by rewrite Ep3.
  - intros [F1 F2]. split; (cbn [v_reg with_reg]; unfold upd; cbn [Z.eqb Pos.eqb];
      rewrite Er3 by not_in; rewrite Er2, Er1; assumption).
  - cbn [TxLen put_state put_TXBuff put_TxLen]. rewrite zlen_cons. lia.
  - eexists. cbn [TXBuff put_state put_TXBuff]. rewrite Z.add_comm. change (Z.to_nat 1) with 1%nat. cbn [take app].
    f_equal. unfold zlen. rewrite Nat2Z.id, take_app_length. reflexivity.
Qed.

Lemma wp_start_transmission fuel w (Q : unit -> Radio433 B E -> Prop) x b t r p rest :
  (3 <= fuel)%nat -> shows w b -> framed w -> AX5043_PWRSTATE_FIFO_ON <= v_pwr w -> txbuffer_cnt x = 0 ->
  TxLen x = zlen p -> TXBuff x = p ++ rest -> 11 <= zlen p < 255 ->
  (forall x' b' w', shows w' b' -> v_sent w' = transmission p -> v_pwr w' = AX5043_PWRSTATE_FULL_TX ->
     framed w' -> ubRFState x' = trxstate_tx_waitdone -> Q tt (mk433 (mkDrv x' b') t r)) ->
  wp (start_transmission cfg fuel) Q (mk433 (mkDrv x b) t r).
Proof.
  intros Hf Hs [F1 F2] Hpw Hc Hn Hb Hp HQ. unfold start_transmission.
  apply wp_bind, wp_on_drv; eapply wp_rds; [exact Hs | by unfold REG_AX5043_RADIOEVENTREQ0 | discriminate |]; intros v b1 _ Hs1 _.
  apply wp_bind, wp_on_drv; eapply wp_fifostat; [exact Hs1 | by left |]; intros b2 Hs2. cbn [Z.eqb Pos.eqb] in Hs2.
  apply wp_bind, wp_on_drv; eapply wp_wrs_plain; [exact Hs2 | done | done |]; intros b3 Hs3.
  apply wp_bind, wp_on_drv; eapply wp_wrs_plain; [exact Hs3 | done | done |]; intros b4 Hs4.
  apply wp_bind, wp_on_drv, wp_dev_set.
  apply wp_bind, wp_on_drv; eapply wp_rds_plain; [exact Hs4 | done | done |]; intros b5 _ Hs5.
  cbn [v_reg with_reg]. unfold upd at 1 2. cbn [Z.eqb Pos.eqb REG_AX5043_MODULATION REG_AX5043_IRQMASK0 REG_AX5043_IRQMASK1].
  change 16 with REG_AX5043_MODULATION. rewrite F1. apply wp_bind, wp_ret, wp_bind, wp_on_drv.
  eapply (wp_TransmitData fuel _ _ _ _ p rest); [exact Hf | exact Hs5 | done | done | split; [exact F1 | exact F2] | done | exact Hc | exact Hn | exact Hb | exact Hp |].
  intros b6 w6 x6 Hs6 (E1 & E2 & E3 & E4) Hst _. apply wp_on_drv; eapply wp_mode; [exact Hs6 | done |].
  intros b7 w7 Hs7 Er7 Ep7 _ Hkeep. destruct Hkeep as (_ & _ & K3); [done | by rewrite E3 |].
  apply (HQ x6 b7 w7); [done | by rewrite K3 | done | | done].
  split; (rewrite Er7, E4 by not_in; assumption).
Qed.

(** *** What a chip shows of itself *)

Lemma listens_shown w b : shows w b -> listens w -> listens (view_of b).
Proof. intros Hs (E1 & E2 & E3). split_and!; cbn [view_of v_pwr v_reg]; [by rewrite (shows_pwr w b Hs) | by rewrite (shows_reg w b Hs)..]. Qed.

Lemma framed_shown w b : shows w b -> framed w -> framed (view_of b).
Proof. intros Hs (E1 & E2). split; cbn [view_of v_reg]; by rewrite (shows_reg w b Hs). Qed.

Lemma configured_shown w b : shows w b -> configured cfg (v_reg w) -> configured cfg (reg b).
Proof.
  intros Hs (Ht & Hrest). split; [|by rewrite !(shows_reg w b Hs)].
  intros a v Hin. rewrite (shows_reg w b Hs); [by apply Ht|].
  apply list_elem_of_In in Hin. apply (proj1 (forallb_forall _ _) table_plain _ Hin).
Qed.

Lemma configured_framed f w : configured cfg f -> v_reg w = f -> framed w.
Proof.
  intros [Ht _] Hf. split; rewrite Hf; apply Ht, (bool_decide_unpack _); vm_compute; exact I.
Qed.

Lemma wp_restarted (x : Ax) b t r (Q : Z -> Radio433 B E -> Prop) :
  (forall x' b', configured cfg (reg b') -> pwr b' = AX5043_PWRSTATE_POWERDOWN -> rx_fifo b' = [] ->
     ubRFState x' = trxstate_rx -> Q AXRADIO_ERR_NOERROR (mk433 (mkDrv x' b') t r)) ->
  wp (on_drv (rf_restart cfg)) Q (mk433 (mkDrv x b) t r).
Proof.
  intros HQ. apply wp_on_drv. eapply wp_restart; [apply shows_view|]. intros b' w' Hs Hp Hr Hc _.
  apply HQ; [by apply (configured_shown w') | by rewrite (shows_pwr w' b' Hs) | by rewrite (shows_rx w' b' Hs) | done].
Qed.

(** The turn in the receiving state, whatever waits in the FIFO. *)
Lemma received_turn cs fuel (s : Radio433 B E) r' :
  (length cs <= fuel)%nat -> Forall chunk_ok cs -> ubRFState (ax (drv s)) = trxstate_rx ->
  rx_fifo (bus (drv s)) = concat (map chunk_bytes cs) ->
  deliver (fold_left (chunk_effect cfg) cs (cleared (ax (drv s)))) (rest s) = Some r' ->
  exists s', rf_433_task_turn cfg junk fuel s = Some (tt, s') /\ rest s' = r' /\ send_timer s' = send_timer s
    /\ ubRFState (ax (drv s')) = trxstate_rx /\ listens (view_of (bus (drv s')))
    /\ (framed (view_of (bus (drv s))) -> framed (view_of (bus (drv s')))).
Proof.
  intros Hf Hok Hst Hr Hd. destruct s as [[x b] t r]. cbn [drv rest send_timer ax bus] in *.
  enough (Hw : wp (rf_433_task_turn cfg junk fuel) (fun _ s' => rest s' = r' /\ send_timer s' = t
    /\ ubRFState (ax (drv s')) = trxstate_rx /\ listens (view_of (bus (drv s')))
    /\ (framed (view_of b) -> framed (view_of (bus (drv s'))))) (mk433 (mkDrv x b) t r)).
  { apply wp_Some in Hw as ([] & s' & Hrun & Hs'). by exists s'. }
  turn Hst. eapply wp_received; [exact Hf | exact Hok | apply shows_view | exact Hr | exact Hd |].
  intros x' b' w' Hs' Hl Hx' Hfr. cbn [rest send_timer drv ax bus].
  split_and!; [done | done | exact Hx' | by apply (listens_shown w') |]. intros Hb. by apply (framed_shown w'), Hfr.
Qed.

(** *** The theorems *)

(** C7: whatever chunks the chip delivers - data with at most 63 bytes of a packet
    each, signal strengths, times, frequencies, in any number and order - the turn of
    the thread ends with the decoder's state good and the receiver on again, unless what
    the chunks leave in the buffer is a [lone_feed]. *)
Theorem reception_safe fuel cs (s : Radio433 B E) :
  (length cs <= fuel)%nat -> Forall chunk_ok cs -> Forall short_packet cs ->
  ubRFState (ax (drv s)) = trxstate_rx -> rx_fifo (bus (drv s)) = concat (map chunk_bytes cs) -> world_ok (rest s) ->
  let x := fold_left (chunk_effect cfg) cs (cleared (ax (drv s))) in lone_feed (RXBuff x) (RxLen x - 1) = false ->
  exists s', rf_433_task_turn cfg junk fuel s = Some (tt, s') /\ world_ok (rest s')
    /\ ubRFState (ax (drv s')) = trxstate_rx /\ listens (view_of (bus (drv s'))).
Proof.
  intros Hf Hok Hsh Hst Hr Hw x Hlone.
  destruct (deliver_safe x (rest s)) as (r' & Hd & Hr'); [|exact Hlone | exact Hw|].
  { apply reception_kept; [exact Hsh|]. by split_and!. }
  destruct (received_turn cs fuel s r' Hf Hok Hst Hr Hd) as (s' & Hrun & <- & _ & Hx & Hl & _). by exists s'.
Qed.

(** C8: the packet given to [Normal_send] leaves the FIFO, at the next turn, as the
    preamble, the sync word and a chunk with the text behind its length; and a
    gateway that receives that chunk, and the chip's reading [v] of the signal,
    passes the same text to the decoder, and listens again. *)
Theorem radio_link fuel p q (s : Radio433 B E) :
  (3 <= fuel)%nat -> 10 <= zlen p <= 63 -> length (TXBuff (ax (drv s))) = 64%nat ->
  framed (view_of (bus (drv s))) ->
  exists s', (run radio_transmit cfg (p ++ q) (zlen p); rf_433_task_turn cfg junk fuel) s = Some (tt, s')
    /\ sent (bus (drv s')) = preamble_chunk ++ sync_chunk ++ packet_chunk (1 + zlen p :: p)
    /\ pwr (bus (drv s')) = AX5043_PWRSTATE_FULL_TX
    /\ send_timer s' = true /\ rest s' = rest s
    /\ forall (r : Radio433 B E) v u,
         ubRFState (ax (drv r)) = trxstate_rx ->
         rx_fifo (bus (drv r)) = packet_chunk (1 + zlen p :: p) ++ [0x31; v] ->
         rf433_rx_callback junk (s8 v - 64) (packet p) (zlen p) (rest r) = Some (tt, u) ->
         exists r', rf_433_task_turn cfg junk fuel r = Some (tt, r') /\ rest r' = u
           /\ listens (view_of (bus (drv r'))).
Proof.
  intros Hf Hp Hb Hfr. set (frame := 1 + zlen p :: p).
  assert (Hlen : zlen frame = 1 + zlen p) by apply zlen_cons.
  assert (Hw : wp (run radio_transmit cfg (p ++ q) (zlen p); rf_433_task_turn cfg junk fuel) (fun _ s' =>
    sent (bus (drv s')) = transmission frame /\ pwr (bus (drv s')) = AX5043_PWRSTATE_FULL_TX
    /\ send_timer s' = true /\ rest s' = rest s) s).
  { destruct s as [[x b] t r]. cbn [drv ax bus rest] in *. unfold radio_transmit. apply wp_bind, wp_bind, wp_on_drv.
    eapply wp_Normal_send; [apply shows_view | lia | exact Hb |]. intros b1 w1 x1 Hs1 Hp1 Hfr1 Hst Hc Hn [q' Hbuf].
    apply wp_timer. turn Hst. eapply (wp_start_transmission fuel w1 _ _ _ _ _ frame q');
      [exact Hf | exact Hs1 | exact (Hfr1 Hfr) | by rewrite Hp1 | exact Hc | exact Hn | exact Hbuf | lia |].
    intros x2 b2 w2 Hs2 E1 E2 _ _. cbn [drv bus send_timer rest].
    rewrite (shows_sent w2 b2 Hs2), (shows_pwr w2 b2 Hs2). by rewrite E1, E2. }
  apply wp_Some in Hw as ([] & s' & Hrun & E1 & E2 & E3 & E4). exists s'.
  do 5 (split; [assumption|]). intros r v u Hst Hr Hcall.
  set (cs := [mkChunk AX5043_FIFOCMD_DATA true (3 :: frame); mkChunk AX5043_FIFOCMD_RSSI false [v]]).
  assert (Hn : 1 + zlen frame = zlen (3 :: frame)) by (rewrite (zlen_cons 3); lia).
  destruct (received_turn cs fuel r u) as (r' & Hrun' & Er & _ & _ & Hl & _); [cbn; lia | | exact Hst | | | by exists r'].
  - unfold cs. apply Forall_cons_2; [|apply Forall_singleton]; (split; [split; discriminate || done|]); split;
      cbn [c_long c_body]; [rewrite <- Hn; lia | intros _; rewrite <- Hn; lia | discriminate | discriminate].
  - rewrite Hr. unfold packet_chunk. rewrite Hn. cbn [map concat cs]. by rewrite app_nil_r.
  - cbn [cs fold_left]. unfold chunk_effect. cbn [c_cmd c_body Z.eqb Pos.eqb AX5043_FIFOCMD_DATA AX5043_FIFOCMD_RSSI].
    unfold deliver. cbn [put_rssi put_RxLen put_RXBuff RxLen RXBuff ubRssi cleared]. rewrite Hlen, (proj2 (Z.eqb_neq _ _)) by lia.
    replace (1 + zlen p - 1) with (zlen p) by lia. change (axradio_phy_rssioffset cfg) with 64.
    replace (frame ++ drop (length frame) (replicate 64 0)) with (packet p); [by rewrite Hcall|].
    unfold frame, packet. cbn [app length]. rewrite drop_replicate. do 3 f_equal.
Qed.

(** The two ways a transmission ends: the chip interrupts and reports that its
    transmitter is off, or the timer expires first. *)
Definition reports_off b : Prop :=
  fst (spi_recv [REG_AX5043_RADIOSTATE] 1 (snd (spi_recv [REG_AX5043_RADIOEVENTREQ0] 1 b))) = [0].

Inductive sending_end fuel (s : Radio433 B E) : M (Radio433 B E) unit -> Prop :=
  | end_sent : ubRFState (ax (drv s)) = trxstate_tx_waitdone -> reports_off (bus (drv s)) ->
      sending_end fuel s (rf_433_task_turn cfg junk fuel)
  | end_late : ubRFState (ax (drv s)) <> trxstate_rx -> sending_end fuel s (rf_433_send_timer_callback cfg).

Lemma sending_end_restarts fuel (s : Radio433 B E) m :
  sending_end fuel s m ->
  exists s', m s = Some (tt, s') /\ send_timer s' = false /\ rest s' = rest s
    /\ ubRFState (ax (drv s')) = trxstate_rx /\ configured cfg (reg (bus (drv s')))
    /\ pwr (bus (drv s')) = AX5043_PWRSTATE_POWERDOWN /\ rx_fifo (bus (drv s')) = [].
Proof.
  intros Hend. enough (Hw : wp m (fun _ s' => send_timer s' = false /\ rest s' = rest s
    /\ ubRFState (ax (drv s')) = trxstate_rx /\ configured cfg (reg (bus (drv s')))
    /\ pwr (bus (drv s')) = AX5043_PWRSTATE_POWERDOWN /\ rx_fifo (bus (drv s')) = []) s).
  { apply wp_Some in Hw as ([] & s' & Hrun & Hs'). by exists s'. }
  destruct s as [[x b] t r]. destruct Hend as [Hst Hoff|Hst]; cbn [drv ax bus rest] in *.
  - turn Hst. unfold finish_transmission. apply wp_bind, wp_timer.
    apply wp_bind, wp_on_drv. unfold reports_off in Hoff.
    eapply (wp_rds_next REG_AX5043_RADIOEVENTREQ0 (view_of b)); [apply shows_view | by unfold REG_AX5043_RADIOEVENTREQ0 | discriminate |].
    intros v Hs1. apply wp_bind, wp_on_drv.
    eapply wp_rds_exact; [exact Hs1 | by unfold REG_AX5043_RADIOSTATE | discriminate | exact Hoff |]. intros Hs2. cbn [Z.eqb negb].
    apply wp_bind, wp_on_drv. eapply wp_wrs_plain; [exact Hs2 | done | done |]. intros b3 _.
    apply wp_bind, wp_restarted. intros x' b' Hc Hp Hr Hx. by apply wp_ret.
  - unfold rf_433_send_timer_callback. apply wp_bind, wp_timer, wp_bind, wp_rf.
    rewrite (proj2 (Z.eqb_neq _ _) Hst). cbn [negb].
    apply wp_bind, wp_on_drv. eapply wp_wrs_plain; [apply shows_view | done | done |]. intros b3 _.
    apply wp_bind, wp_restarted. intros x' b' Hc Hp Hr Hx. by apply wp_ret.
Qed.

(** C23: a transmission that the chip ends, or that its timer gives up, leaves the
    chip reset, configured again as the tables say, powered down and with the
    time-out disarmed; the interrupt that the restart itself raises then turns
    the receiver on. *)
Theorem sending_ends fuel (s : Radio433 B E) m :
  sending_end fuel s m ->
  exists s' s'', m s = Some (tt, s') /\ configured cfg (reg (bus (drv s'))) /\ send_timer s' = false
    /\ rf_433_task_turn cfg junk fuel s' = Some (tt, s'')
    /\ ubRFState (ax (drv s'')) = trxstate_rx /\ listens (view_of (bus (drv s''))) /\ framed (view_of (bus (drv s'')))
    /\ send_timer s'' = false /\ rest s'' = rest s.
Proof.
  intros Hend. destruct (sending_end_restarts fuel s m Hend) as (s' & Hrun & Ht & Hr & Hx & Hc & _ & Hrx).
  destruct (received_turn [] fuel s' (rest s')) as (s'' & Hrun' & Hr' & Ht' & Hx' & Hl & Hfr); [cbn; lia | done | exact Hx | exact Hrx | done |].
  exists s', s''. do 6 (split; [assumption|]). split; [|by rewrite Ht', Hr', Ht, Hr].
  apply Hfr. by apply (configured_framed (reg (bus (drv s')))).
Qed.

(** The timer is stopped before the chip is asked: a transmitter that is still on
    leaves the driver waiting with no time-out armed. *)
Lemma busy_transmitter_disarms fuel (s : Radio433 B E) v :
  ubRFState (ax (drv s)) = trxstate_tx_waitdone -> v <> 0 ->
  fst (spi_recv [REG_AX5043_RADIOSTATE] 1 (snd (spi_recv [REG_AX5043_RADIOEVENTREQ0] 1 (bus (drv s))))) = [v] ->
  exists s', rf_433_task_turn cfg junk fuel s = Some (tt, s') /\ send_timer s' = false
    /\ ubRFState (ax (drv s')) = trxstate_tx_waitdone.
Proof.
  intros Hst Hv Hr. enough (Hw : wp (rf_433_task_turn cfg junk fuel) (fun _ s' => send_timer s' = false
    /\ ubRFState (ax (drv s')) = trxstate_tx_waitdone) s).
  { apply wp_Some in Hw as ([] & s' & Hrun & Hs'). by exists s'. }
  destruct s as [[x b] t r]. cbn [drv ax bus] in *. turn Hst. unfold finish_transmission.
  apply wp_bind, wp_timer, wp_bind, wp_on_drv.
  eapply (wp_rds_next REG_AX5043_RADIOEVENTREQ0 (view_of b)); [apply shows_view | by unfold REG_AX5043_RADIOEVENTREQ0 | discriminate |].
  intros v0 Hs1. apply wp_bind, wp_on_drv.
  eapply wp_rds_exact; [exact Hs1 | by unfold REG_AX5043_RADIOSTATE | discriminate | exact Hr |]. intros Hs2.
  rewrite (proj2 (Z.eqb_neq _ _) Hv). by apply wp_ret.
Qed.

(** The loop of [InitAx5043REG] stops one row short: the last register of the
    table keeps its value of the reset. *)
Lemma last_row_unwritten x b :
  exists x' b', rf_restart cfg (mkDrv x b) = Some (AXRADIO_ERR_NOERROR, mkDrv x' b')
    /\ last set_registers_433 = Some (0xF44, 0x25) /\ reg b' 0xF44 = por 0xF44.
Proof.
  assert (Hw : wp (rf_restart cfg) (fun a d => a = AXRADIO_ERR_NOERROR /\ reg (bus d) 0xF44 = por 0xF44) (mkDrv x b)).
  { eapply wp_restart; [apply shows_view|]. intros b' w' Hs _ _ _ E1. split; [done|]. cbn [bus].
    by rewrite (shows_reg w' b' Hs). }
  apply wp_Some in Hw as (a & [x' b'] & Hrun & -> & Hr). exists x', b'. split; [exact Hrun|]. split; [reflexivity | exact Hr].
Qed.
End Turns.

(** ** On a chip *)

Definition gateway433 (x : Ax) (l : list Z) : Radio433 Chip (gmap (list Z) (list Z)) :=
  mk433 (mkDrv x (listening l)) false demo.

Definition driver0 : Ax :=
  {| ubRFState := trxstate_rx; txbuffer_cnt := 0; TXBuff := replicate 64 0; RXBuff := replicate 64 0;
     TxLen := 0; RxLen := 0; ubRssi := 0; chanpllrng := 0x0A; chanvcoi := 0; power_now := 0 |}.

(** The sensor's packet, its signal strength and a timer stamp. *)
Definition demo_chunks : list Chunk :=
  [mkChunk AX5043_FIFOCMD_DATA true (3 :: 39 :: str "A{1,1,00000000,10000001,20000001,80,1}A");
   mkChunk AX5043_FIFOCMD_RSSI false [0xC4]; mkChunk AX5043_FIFOCMD_TIMER false [0; 1; 2]].

Lemma reception_safe_witness :
  exists s', rf_433_task_turn rf_433_config_init no_message 3 (gateway433 driver0 (concat (map chunk_bytes demo_chunks))) = Some (tt, s')
    /\ world_ok (rest s') /\ listens (view_of (bus (drv s'))).
Proof.
  destruct (reception_safe no_message 3 demo_chunks (gateway433 driver0 (concat (map chunk_bytes demo_chunks))))
    as (s' & Hrun & Hw & _ & Hl).
  - apply Nat.leb_le. reflexivity.
  - repeat (apply Forall_cons_2; [repeat split; try discriminate; intros _; discriminate|]). apply Forall_nil_2.
  - apply Forall_cons_2; [|apply Forall_cons_2; [|apply Forall_singleton]]; intros Hc; try (vm_compute in Hc; discriminate Hc).
    discriminate.
  - reflexivity.
  - vm_compute. reflexivity.
  - exact demo_ok.
  - vm_compute. reflexivity.
  - exists s'. split; [exact Hrun|]. split; [exact Hw | exact Hl].
Defined.

Definition demo_text : list Z := str "A{1,1,00000000,10000001,20000001,80,1}A".

Lemma demo_heard : exists w', rf433_rx_callback no_message (s8 0xC4 - 64) (packet demo_text) (zlen demo_text) demo = Some (tt, w').
Proof.
  pose proof (safe_packet (E := gmap (list Z) (list Z)) no_message (s8 0xC4 - 64) (packet demo_text) (zlen demo_text) 63
    ltac:(reflexivity) ltac:(split; [discriminate | reflexivity]) ltac:(vm_compute; reflexivity) ltac:(lia)
    ltac:(reflexivity) demo demo_ok) as Hw.
  apply wp_Some in Hw as ([] & w' & Hrun & _). by exists w'.
Qed.

Lemma radio_link_witness :
  exists s', (run radio_transmit rf_433_config_init (demo_text ++ [0]) (zlen demo_text);
              rf_433_task_turn rf_433_config_init no_message 3) (gateway433 driver0 []) = Some (tt, s')
    /\ exists r', rf_433_task_turn rf_433_config_init no_message 3
         (gateway433 driver0 (packet_chunk (1 + zlen demo_text :: demo_text) ++ [0x31; 0xC4])) = Some (tt, r')
       /\ listens (view_of (bus (drv r'))).
Proof.
  destruct (radio_link no_message 3 demo_text [0] (gateway433 driver0 [])) as (s' & Hrun & _ & _ & _ & _ & Hr).
  - apply Nat.leb_le. reflexivity.
  - split; [discriminate | discriminate].
  - reflexivity.
  - split; vm_compute; reflexivity.
  - exists s'. split; [exact Hrun|]. destruct demo_heard as (w' & Hw).
    destruct (Hr (gateway433 driver0 (packet_chunk (1 + zlen demo_text :: demo_text) ++ [0x31; 0xC4])) 0xC4 w') as (r' & Hrun' & _ & Hl).
    + reflexivity.
    + vm_compute. reflexivity.
    + exact Hw.
    + exists r'. split; [exact Hrun' | exact Hl].
Defined.

Lemma sending_ends_witness :
  exists s' s'', rf_433_task_turn rf_433_config_init no_message 3
      (gateway433 (put_state trxstate_tx_waitdone driver0) []) = Some (tt, s')
    /\ rf_433_task_turn rf_433_config_init no_message 3 s' = Some (tt, s'') /\ listens (view_of (bus (drv s''))).
Proof.
  destruct (sending_ends no_message 3 (gateway433 (put_state trxstate_tx_waitdone driver0) [])
    (rf_433_task_turn rf_433_config_init no_message 3)) as (s' & s'' & Hrun & _ & _ & Hrun' & _ & Hl & _).
  - apply end_sent; reflexivity.
  - exists s', s''. split; [exact Hrun|]. split; [exact Hrun' | exact Hl].
Defined.
