(* ===== verification/RadioStart.v ===== *)
(** * Starting the radio

    [rf_433_driver_init] ([src/radio/Radio_433.c]) while the radio thread already
    runs: [rf_startup] waits for the crystal and for the ranging of the oscillator
    by sleeping until a turn of the thread moves the driver's state on. *)

From Stdlib Require Import String.
From S2P Require Import Prelude CStr Flashwork World WifiSpec Decoder Storage Ax5043 RadioChip Radio433.
Open Scope list_scope.

Section Start.
Context {B : Type} `{Spi B}.

(** [rf_433_driver_init] without the creation of objects of the operating system;
    [others] is what runs while it sleeps. *)
Definition rf_433_driver_init (others : M (Drv B) unit) (fuel : nat) : M (Drv B) unit :=
  let cfg := rf_433_config_init in
  run rf_startup cfg others fuel;
  run vcoi_rng_get cfg;
  run Ax5043SetRegisters_RX cfg;
  AX5043ReceiverON cfg.
End Start.

Section Started.
Context {B E : Type} `{ChipDoc B} `{Env E} (junk : Message) (t : bool) (rest : World E).
Implicit Types (b : B) (x : Ax) (w : View).
Abbreviation cfg := rf_433_config_init.

(** One turn of the thread, as the sleeping starter sees it. *)
Definition interrupt : M (Drv B) unit := fun d =>
  match rf_433_task_turn cfg junk 0 (mk433 d t rest) with
  | Some (_, s) => Some (tt, drv s)
  | None => None
  end.

Definition next_state (st : Z) : Z := if st =? trxstate_wait_xtal then trxstate_xtal_ready else trxstate_pll_ranging_done.

Lemma wp_interrupt w (Q : unit -> Drv B -> Prop) x b :
  shows w b -> ubRFState x = trxstate_wait_xtal \/ ubRFState x = trxstate_pll_ranging ->
  (forall b', shows (with_reg REG_AX5043_IRQMASK1 0x00 w) b' -> Q tt (mkDrv (put_state (next_state (ubRFState x)) x) b')) ->
  wp interrupt Q (mkDrv x b).
Proof.
  intros Hs Hst HQ.
  assert (Hw : wp (rf_433_task_turn cfg junk 0) (fun a s => Q a (drv s)) (mk433 (mkDrv x b) t rest)).
  { unfold rf_433_task_turn. apply wp_bind, wp_rf. unfold next_state in HQ. destruct Hst as [Hst|Hst]; rewrite Hst in *;
      cbn [Z.eqb Pos.eqb trxstate_rx trxstate_wait_xtal trxstate_pll_ranging] in *;
      apply wp_bind, wp_on_drv; (eapply wp_wrs_plain; [exact Hs | done | done |]; intros b1 Hs1);
      apply wp_on_drv, wp_dev_set, HQ, Hs1. }
  apply wp_Some in Hw as ([] & s & Hrun & HQs). unfold interrupt, wp. by rewrite Hrun.
Qed.

(** The starter wakes up after one turn. *)
Lemma wp_wait fuel st w (Q : unit -> Drv B -> Prop) x b :
  (1 <= fuel)%nat -> shows w b -> ubRFState x = st -> st = trxstate_wait_xtal \/ st = trxstate_pll_ranging ->
  (forall b', shows (with_reg REG_AX5043_IRQMASK1 0x00 w) b' -> Q tt (mkDrv (put_state (next_state st) x) b')) ->
  wp (wait_while interrupt fuel st) Q (mkDrv x b).
Proof.
  intros Hf Hs <- Hst HQ. destruct fuel as [|fuel]; [lia|]. cbn [wait_while].
  apply wp_bind; eapply wp_interrupt; [exact Hs | exact Hst |]. intros b1 Hs1. apply wp_bind, wp_dev.
  cbn [ubRFState put_state]. rewrite (proj2 (Z.eqb_neq _ _)); [by apply wp_ret, HQ|].
  unfold next_state. by destruct Hst as [->| ->].
Qed.

(** Transfers whose effect on the chip does not matter. *)
Lemma wrs_any a v (Q : unit -> Drv B -> Prop) x b :
  (forall b', Q tt (mkDrv x b')) -> wp (SpiWriteSingleAddressRegister a v) Q (mkDrv x b).
Proof. intros HQ. apply wp_send, HQ. Qed.

Lemma wrl_any a v (Q : unit -> Drv B -> Prop) x b :
  (forall b', Q tt (mkDrv x b')) -> wp (SpiWriteLongAddressRegister a v) Q (mkDrv x b).
Proof. intros HQ. apply wp_send, HQ. Qed.

Lemma rds_any a (Q : Z -> Drv B -> Prop) x b :
  0 <= a < 0x70 -> a <> REG_AX5043_FIFODATA -> (forall v b', is_byte v -> Q v (mkDrv x b')) ->
  wp (SpiReadSingleAddressRegister a) Q (mkDrv x b).
Proof. intros Ha Hne HQ. apply (wp_rds a (view_of b)); [apply shows_view | done | done |]. intros v b' Hv _ _. by apply HQ. Qed.

Lemma off_any (Q : unit -> Drv B -> Prop) x b :
  (forall b', Q tt (mkDrv (put_state trxstate_off x) b')) -> wp Ax5043_OFF Q (mkDrv x b).
Proof.
  intros HQ. unfold Ax5043_OFF. apply wp_bind, wrs_any. intros b1. apply wp_bind, wrs_any. intros b2.
  apply wp_bind, wrs_any. intros b3. apply wp_bind, wrl_any. intros b4. apply wp_bind, wp_dev_set, wrs_any, HQ.
Qed.

(** The loop that tries the chip ends: the register holds what was written. *)
Lemma reset_ends fuel (Q : unit -> Drv B -> Prop) x b :
  (1 <= fuel)%nat -> (forall b', Q tt (mkDrv x b')) -> wp (Ax5043_Reset fuel) Q (mkDrv x b).
Proof.
  intros Hf HQ. destruct fuel as [|fuel]; [lia|]. unfold Ax5043_Reset.
  apply wp_bind; eapply wp_reset; [apply shows_view|]. intros b1 w1 Hs1 _ _ _ _ _.
  apply wp_bind; eapply wp_mode; [exact Hs1 | done |]. intros b2 w2 Hs2 _ _ _ _.
  apply wp_bind; eapply wp_wrs_plain; [exact Hs2 | done | done |]. intros b3 Hs3.
  apply wp_bind. cbn [scratch_loop]. apply wp_bind; eapply wp_rds_plain; [exact Hs3 | done | done |]. intros b4 _ _.
  cbn [v_reg with_reg]. unfold upd at 1. cbn [Z.eqb Pos.eqb REG_AX5043_SCRATCH negb].
  apply wp_ret, wp_bind, wrs_any. intros b5. apply wp_bind, wrs_any. intros b6. apply wrs_any, HQ.
Qed.

Lemma xtal_ends fuel (Q : unit -> Drv B -> Prop) x b :
  (1 <= fuel)%nat -> (forall x' b', Q tt (mkDrv x' b')) -> wp (RadioXtalON interrupt fuel) Q (mkDrv x b).
Proof.
  intros Hf HQ. unfold RadioXtalON. apply wp_bind, wp_dev_set, wp_bind, rds_any; [by unfold REG_AX5043_IRQMASK1 | discriminate |].
  intros v b1 _. apply wp_bind, wrs_any. intros b2. apply wp_bind, wrs_any. intros b3.
  eapply (wp_wait fuel _ (view_of b3)); [exact Hf | apply shows_view | done | by left |]. intros b4 _. apply HQ.
Qed.

Lemma ranging_ends fuel (Q : unit -> Drv B -> Prop) x b :
  (1 <= fuel)%nat -> (forall x' b', Q tt (mkDrv x' b')) -> wp (autorange cfg interrupt fuel) Q (mkDrv x b).
Proof.
  intros Hf HQ. unfold autorange. apply wp_bind; eapply wp_set_frequency; [apply shows_view|]. intros b1 w1 _ _ _ _ _ _ _ _.
  apply wp_bind, wp_dev_set, wp_bind, wrs_any. intros b2. apply wp_bind, wrs_any. intros b3. apply wp_bind.
  eapply (wp_wait fuel _ (view_of b3)); [exact Hf | apply shows_view | done | by right |]. intros b4 _.
  apply wp_bind, wp_dev_set, wp_bind, wrs_any. intros b5.
  apply wp_bind, rds_any; [by unfold REG_AX5043_PLLRANGINGA | discriminate |]. intros v b6 _. apply wp_dev_set, HQ.
Qed.

(** The radio works: every row of the table but the one the receiver's calibration
    replaces, the rows for receiving, the frequency. *)
Definition tuned (f : Z -> Z) : Prop :=
  (forall a v, (a, v) ∈ take 125 set_registers_433 -> a <> REG_AX5043_PLLVCOI -> f a = v)
  /\ (forall a v, (a, v) ∈ set_registers_rx_433 -> f a = v)
  /\ f REG_AX5043_FREQA0 = u8 (axradio_phy_chanfreq cfg)
  /\ f REG_AX5043_FREQA1 = u8 (Z.shiftr (axradio_phy_chanfreq cfg) 8)
  /\ f REG_AX5043_FREQA2 = u8 (Z.shiftr (axradio_phy_chanfreq cfg) 16)
  /\ f REG_AX5043_FREQA3 = u8 (Z.shiftr (axradio_phy_chanfreq cfg) 24).

Lemma tuned_shown w b : shows w b -> tuned (v_reg w) -> tuned (reg b).
Proof.
  intros Hs (Ht & Hrx & Hrest). split; [|split; [|by rewrite !(shows_reg w b Hs)]].
  - intros a v Hin Hv. rewrite (shows_reg w b Hs); [by apply Ht|].
    apply list_elem_of_In in Hin. apply (proj1 (forallb_forall _ _) table_plain _ Hin).
  - intros a v Hin. rewrite (shows_reg w b Hs); [by apply Hrx|]. apply list_elem_of_In in Hin.
    assert (Hp : plain_rows set_registers_rx_433 = true) by done. apply (proj1 (forallb_forall _ _) Hp _ Hin).
Qed.

(** The registers the last calls write, the receiver's table apart. *)
Definition on_registers : list Z :=
  [REG_AX5043_TMGRXPREAMBLE1; REG_AX5043_RSSIREFERENCE; REG_AX5043_PKTSTOREFLAGS; REG_AX5043_IRQMASK0; REG_AX5043_IRQMASK1].

Lemma wp_ReceiverON w (Q : unit -> Drv B -> Prop) x b :
  shows w b ->
  (forall b' w', shows w' b' -> listens w' -> (forall a, a ∉ on_registers -> v_reg w' a = v_reg w a) ->
     Q tt (mkDrv (put_state trxstate_rx x) b')) ->
  wp (AX5043ReceiverON cfg) Q (mkDrv x b).
Proof.
  intros Hs HQ. unfold AX5043ReceiverON.
  apply wp_bind; eapply wp_wrl; [exact Hs | done |]; intros b1 Hs1.
  apply wp_bind; eapply wp_wrl; [exact Hs1 | done |]; intros b2 Hs2.
  apply wp_bind; eapply wp_wrl; [exact Hs2 | done |]; intros b3 Hs3.
  apply wp_bind; eapply wp_fifostat; [exact Hs3 | by left |]; intros b4 Hs4.
  apply wp_bind; eapply wp_mode; [exact Hs4 | done |]; intros b5 w5 Hs5 Er Ep _ _.
  apply wp_bind, wp_dev_set, wp_bind; eapply wp_wrs_plain; [exact Hs5 | done | done |]; intros b6 Hs6.
  eapply wp_wrs_plain; [exact Hs6 | done | done |]; intros b7 Hs7.
  eapply HQ; [exact Hs7 | |].
  - split_and!; [exact Ep | reflexivity | reflexivity].
  - intros a Ha. cbn [v_reg with_reg]. rewrite Er. cbn [Z.eqb Pos.eqb v_reg with_reg]. unfold upd.
    repeat (rewrite (proj2 (Z.eqb_neq a _)) by outside). done.
Qed.

(** The tables do not overlap. *)
Lemma rx_outside a v l : (a, v) ∈ set_registers_rx_433 -> forallb (fun y => negb (existsb (Z.eqb y) l)) (map fst set_registers_rx_433) = true -> a ∉ l.
Proof.
  intros Hin Hall Hl. apply list_elem_of_In, (in_map fst) in Hin.
  pose proof (proj1 (forallb_forall _ _) Hall _ Hin) as Hp. cbn [fst] in Hp. apply negb_true_iff in Hp.
  enough (existsb (Z.eqb a) l = true) by congruence.
  apply existsb_exists. exists a. split; [by apply list_elem_of_In | apply Z.eqb_refl].
Qed.

Lemma table_outside a v l : (a, v) ∈ take 125 set_registers_433 -> a <> REG_AX5043_PLLVCOI ->
  forallb (fun r => (fst r =? REG_AX5043_PLLVCOI) || negb (existsb (Z.eqb (fst r)) l)) (take 125 set_registers_433) = true -> a ∉ l.
Proof.
  intros Hin Hv Hall Hl. apply list_elem_of_In in Hin. pose proof (proj1 (forallb_forall _ _) Hall _ Hin) as Hp. cbn [fst] in Hp.
  rewrite (proj2 (Z.eqb_neq _ _) Hv) in Hp. apply negb_true_iff in Hp.
  enough (existsb (Z.eqb a) l = true) by congruence.
  apply existsb_exists. exists a. split; [by apply list_elem_of_In | apply Z.eqb_refl].
Qed.

(** [rf_startup] ends with the chip configured. *)
Lemma startup_ends fuel (Q : Z -> Drv B -> Prop) x b :
  (1 <= fuel)%nat ->
  (forall x' b' w', shows w' b' -> tuned (v_reg w') -> Q (if negb (Z.land (chanpllrng x') 0x20 =? 0) then AXRADIO_ERR_RANGING else AXRADIO_ERR_NOERROR) (mkDrv x' b')) ->
  wp (rf_startup cfg interrupt fuel) Q (mkDrv x b).
Proof.
  intros Hf HQ. unfold rf_startup. apply wp_bind, off_any. intros b1. apply wp_bind, reset_ends; [exact Hf|]. intros b2.
  apply wp_bind; eapply wp_InitREG; [apply shows_view|]. intros b3 w3 _ _ _ _ _ _ _ _.
  apply wp_bind; eapply (wp_SetRegisters cfg set_registers_tx_433); [by left | apply shows_view |]. intros r b4 w4 _ _ _.
  apply wp_bind, wrs_any. intros b5. apply wp_bind, wrs_any. intros b6. apply wp_bind, wrs_any. intros b7.
  apply wp_bind. unfold fsk_off. apply wp_bind, wrs_any. intros b8. apply wp_bind, wrl_any. intros b9.
  apply wp_bind, wrl_any. intros b10. apply wrl_any. intros b11.
  apply wp_bind, xtal_ends; [exact Hf|]. intros x12 b12. apply wp_bind, ranging_ends; [exact Hf|]. intros x13 b13.
  apply wp_bind, wp_ret. apply wp_bind, wrs_any. intros b14.
  apply wp_bind; eapply wp_InitREG; [apply shows_view|]. intros b15 w15 Hs15 _ _ _ _ Ht15 _ _.
  apply wp_bind; eapply (wp_SetRegisters cfg set_registers_rx_433); [by right | exact Hs15 |].
  intros r2 b16 w16 Hs16 (_ & _ & _ & _ & Hr16) Hrx.
  apply wp_bind, wp_dev, wp_bind; eapply wp_wrs_status; [exact Hs16 | done | by unfold REG_AX5043_PLLRANGINGA | done..|]. intros b17 Hs17.
  apply wp_bind; eapply wp_set_frequency; [exact Hs17|]. intros b18 w18 Hs18 _ _ F0 F1 F2 F3 Hr18.
  apply wp_bind, wp_dev_set, wp_bind, wp_dev, wp_ret. eapply (HQ _ _ w18); [exact Hs18|].
  split; [|split; [|by split_and!]]; intros a v Hin.
  - intros Hv. destruct (table_bytes a v Hin) as (_ & Hfr & _). rewrite Hr18, Hr16; [by apply Ht15 | | done].
    apply (table_outside a v); [done | done | vm_compute; reflexivity].
  - rewrite Hr18; [by apply Hrx|]. apply (rx_outside a v); [done | vm_compute; reflexivity].
Qed.

(** C22: the start of the radio ends, whatever state chip and driver are in: the
    scratch register answers, each sleep lasts until the thread has had its turn;
    and it leaves the tables and the frequency in the chip, the receiver on, and
    packets framed as the transmitter frames them. *)
Theorem radio_starts fuel (d : Drv B) :
  (1 <= fuel)%nat ->
  exists d', rf_433_driver_init interrupt fuel d = Some (tt, d')
    /\ ubRFState (ax d') = trxstate_rx /\ listens (view_of (bus d')) /\ framed (view_of (bus d')) /\ tuned (reg (bus d')).
Proof.
  intros Hf. enough (Hw : wp (rf_433_driver_init interrupt fuel) (fun _ d' => ubRFState (ax d') = trxstate_rx
    /\ listens (view_of (bus d')) /\ framed (view_of (bus d')) /\ tuned (reg (bus d'))) d).
  { apply wp_Some in Hw as ([] & d' & Hrun & Hd'). by exists d'. }
  destruct d as [x b]. unfold rf_433_driver_init. cbv zeta. apply wp_bind, startup_ends; [exact Hf|].
  intros x1 b1 w1 Hs1 (Ht & _ & F0 & F1 & F2 & F3).
  apply wp_bind. unfold vcoi_rng_get. apply wp_bind; eapply wp_pllvcoi; [exact Hs1|]. intros v b2 Hs2. apply wp_ret.
  apply wp_bind; eapply (wp_SetRegisters cfg set_registers_rx_433); [by right | exact Hs2 |].
  intros r b3 w3 Hs3 (_ & _ & _ & _ & Hr3) Hrx3. eapply wp_ReceiverON; [exact Hs3|]. intros b4 w4 Hs4 Hl Hr4.
  assert (Htab : forall a v, (a, v) ∈ take 125 set_registers_433 -> a <> REG_AX5043_PLLVCOI -> v_reg w4 a = v).
  { intros a y Hin Hv. rewrite Hr4, Hr3; [by apply Ht | |];
      (apply (table_outside a y); [done | done | vm_compute; reflexivity]). }
  cbn [ax bus]. split; [done|]. split; [by apply (listens_shown w4)|]. split.
  - apply (framed_shown w4); [done|]. split; (apply Htab; [apply (bool_decide_unpack _); vm_compute; exact I | done]).
  - apply (tuned_shown w4); [done|]. split; [exact Htab|]. split; [|by rewrite !Hr4, !Hr3 by not_in].
    intros a y Hin. rewrite Hr4; [by apply Hrx3|]. apply (rx_outside a y); [done | vm_compute; reflexivity].
Qed.
End Started.

Lemma radio_starts_witness :
  exists d', rf_433_driver_init (interrupt no_message false demo) 1 (mkDrv driver0 (listening [])) = Some (tt, d')
    /\ listens (view_of (bus d')).
Proof.
  destruct (radio_starts no_message false demo 1 (mkDrv driver0 (listening []))) as (d' & Hrun & _ & Hl & _).
  - apply Nat.leb_le. reflexivity.
  - exists d'. split; [exact Hrun | exact Hl].
Defined.
