(* ===== verification/Syswatch.v ===== *)
(** * The thread watch

    [src/packages/syswatch-latest/src/syswatch.c] in mode 2: a thread that keeps the
    processor from the idle thread is stopped and later started anew.  The hook runs at
    each change of the running thread, the state machine once a second in the
    thread of the watch.  The kernel is the threads' objects by address: alive,
    closed, or freed by the idle thread, which is when their memory can no longer be
    read. *)

From Stdlib Require Import String.
From S2P Require Import Prelude.
Open Scope list_scope.

Definition SYSWATCH_EXCEPT_TIMEOUT : Z := 60.
Definition SYSWATCH_EXCEPT_CONFIRM_TMO : Z := 15.
Definition SYSWATCH_EXCEPT_RESUME_DLY : Z := 15.
Definition SYSWATCH_WDT_TIMEOUT : Z := 5.
Definition RT_THREAD_PRIORITY_MAX : Z := 32.
Definition RT_THREAD_READY : Z := 1.
Definition RT_THREAD_RUNNING : Z := 3.
Definition RT_THREAD_CLOSE : Z := 4.
Definition RT_THREAD_STAT_MASK : Z := 7.

(** ** State *)

(** What a thread is made from, and its object. *)
Record recipe := mkRecipe { name : list Z; entry : Z; parameter : Z; stack_size : Z; init_priority : Z; init_tick : Z }.
Record rt_thread := mkThread { made : recipe; stack_addr : Z; current_priority : Z; stat : Z; static : bool }.

Inductive object := Live (t : rt_thread) | Closed (t : rt_thread) | Freed.

Record thread_msg := mkMsg { msg_thread : Z; msg_made : recipe; msg_stack_addr : Z }.

Inductive syswatch_event := SYSWATCH_EVENT_THREAD_KILL | SYSWATCH_EVENT_THREAD_RESUMED.

(** What the watchdog device is told. *)
Inductive wdt_call := WdtInit | WdtTimeout (seconds : Z) | WdtStart | WdtKeepalive.

(** [sw_data] first; then the kernel: the objects, the running thread, the results of the
    coming allocations and thread creations, the calls of the event hook and of the
    watchdog, the threads it was asked to delete, and the freed objects that were read. *)
Record Watch := mkWatch {
  sec_cnt : Z; op_step : Z; lowest_thread : option Z; wait_resume_slist : list thread_msg; event_hook : bool; init_ok : bool;
  objects : Z -> object; running : Z; room : list bool; fresh : list (option Z);
  hook_calls : list (syswatch_event * Z); wdt_calls : list wdt_call; deleted : list Z; freed_reads : list Z
}.

Definition set_sec_cnt v w := mkWatch v (op_step w) (lowest_thread w) (wait_resume_slist w) (event_hook w) (init_ok w) (objects w) (running w) (room w) (fresh w) (hook_calls w) (wdt_calls w) (deleted w) (freed_reads w).
Definition set_op_step v w := mkWatch (sec_cnt w) v (lowest_thread w) (wait_resume_slist w) (event_hook w) (init_ok w) (objects w) (running w) (room w) (fresh w) (hook_calls w) (wdt_calls w) (deleted w) (freed_reads w).
Definition set_lowest v w := mkWatch (sec_cnt w) (op_step w) v (wait_resume_slist w) (event_hook w) (init_ok w) (objects w) (running w) (room w) (fresh w) (hook_calls w) (wdt_calls w) (deleted w) (freed_reads w).
Definition set_waiting v w := mkWatch (sec_cnt w) (op_step w) (lowest_thread w) v (event_hook w) (init_ok w) (objects w) (running w) (room w) (fresh w) (hook_calls w) (wdt_calls w) (deleted w) (freed_reads w).
Definition set_event_hook v w := mkWatch (sec_cnt w) (op_step w) (lowest_thread w) (wait_resume_slist w) v (init_ok w) (objects w) (running w) (room w) (fresh w) (hook_calls w) (wdt_calls w) (deleted w) (freed_reads w).
Definition set_init_ok v w := mkWatch (sec_cnt w) (op_step w) (lowest_thread w) (wait_resume_slist w) (event_hook w) v (objects w) (running w) (room w) (fresh w) (hook_calls w) (wdt_calls w) (deleted w) (freed_reads w).
Definition set_object (a : Z) (o : object) w := mkWatch (sec_cnt w) (op_step w) (lowest_thread w) (wait_resume_slist w) (event_hook w) (init_ok w) (fun x => if x =? a then o else objects w x) (running w) (room w) (fresh w) (hook_calls w) (wdt_calls w) (deleted w) (freed_reads w).
Definition set_running v w := mkWatch (sec_cnt w) (op_step w) (lowest_thread w) (wait_resume_slist w) (event_hook w) (init_ok w) (objects w) v (room w) (fresh w) (hook_calls w) (wdt_calls w) (deleted w) (freed_reads w).
Definition set_room v w := mkWatch (sec_cnt w) (op_step w) (lowest_thread w) (wait_resume_slist w) (event_hook w) (init_ok w) (objects w) (running w) v (fresh w) (hook_calls w) (wdt_calls w) (deleted w) (freed_reads w).
Definition set_fresh v w := mkWatch (sec_cnt w) (op_step w) (lowest_thread w) (wait_resume_slist w) (event_hook w) (init_ok w) (objects w) (running w) (room w) v (hook_calls w) (wdt_calls w) (deleted w) (freed_reads w).
Definition set_calls v w := mkWatch (sec_cnt w) (op_step w) (lowest_thread w) (wait_resume_slist w) (event_hook w) (init_ok w) (objects w) (running w) (room w) (fresh w) v (wdt_calls w) (deleted w) (freed_reads w).
Definition set_wdt_calls v w := mkWatch (sec_cnt w) (op_step w) (lowest_thread w) (wait_resume_slist w) (event_hook w) (init_ok w) (objects w) (running w) (room w) (fresh w) (hook_calls w) v (deleted w) (freed_reads w).
Definition set_deleted v w := mkWatch (sec_cnt w) (op_step w) (lowest_thread w) (wait_resume_slist w) (event_hook w) (init_ok w) (objects w) (running w) (room w) (fresh w) (hook_calls w) (wdt_calls w) v (freed_reads w).
Definition set_freed_reads v w := mkWatch (sec_cnt w) (op_step w) (lowest_thread w) (wait_resume_slist w) (event_hook w) (init_ok w) (objects w) (running w) (room w) (fresh w) (hook_calls w) (wdt_calls w) (deleted w) v.

Abbreviation WM := (M Watch).

Section Syswatch.
(** The thread of the watch, the idle thread, and whether the type word of a freed
    block reads as that of a static object. *)
Context (self idle : Z) (reads_static : Z -> bool).

(** ** The kernel *)

Definition thread_at (a : Z) : WM rt_thread :=
  do w <- get; match objects w a with Live t | Closed t => ret t | Freed => fault end.

(** A static object loses its type when it is detached, a dynamic one when it is freed.
    Of a freed object whatever is there is read, and the reading is recorded. *)
Definition rt_object_is_systemobject (a : Z) : WM bool :=
  do w <- get;
  match objects w a with
  | Live t => ret (static t)
  | Closed _ => ret false
  | Freed => run modify (set_freed_reads (freed_reads w ++ [a])); ret (reads_static a)
  end.

Definition touched (t : rt_thread) (s p : Z) : rt_thread := mkThread (made t) (stack_addr t) p s (static t).
Definition closed (t : rt_thread) : rt_thread := touched t RT_THREAD_CLOSE (current_priority t).

Definition asked_to_delete (a : Z) : WM unit := modify (fun w => set_deleted (deleted w ++ [a]) w).

(** The assertions are on the type, which a detached object has lost. *)
Definition rt_thread_detach (a : Z) : WM unit :=
  run asked_to_delete a;
  do w <- get;
  match objects w a with
  | Live t => if static t then modify (set_object a (Closed (closed t))) else fault
  | _ => fault
  end.

Definition rt_thread_delete (a : Z) : WM unit :=
  run asked_to_delete a;
  do w <- get;
  match objects w a with
  | Live t => if static t then fault else modify (set_object a (Closed (closed t)))
  | Closed t => if static t then fault else ret tt
  | Freed => fault
  end.

Definition rt_thread_exit : WM unit :=
  do w <- get;
  match objects w (running w) with Live t => modify (set_object (running w) (Closed (closed t))) | _ => fault end.

Definition new_thread (r : recipe) (stack : Z) (is_static : bool) : rt_thread := mkThread r stack (init_priority r) RT_THREAD_READY is_static.

(** Only an object that is neither in use nor freed can be made anew. *)
Definition rt_thread_init (a : Z) (r : recipe) (stack : Z) : WM unit :=
  do w <- get;
  match objects w a with Closed _ => modify (set_object a (Live (new_thread r stack true))) | _ => fault end.

Definition rt_thread_create (r : recipe) : WM (option Z) :=
  do w <- get;
  match fresh w with
  | Some a :: f => run modify (set_fresh f); run modify (set_object a (Live (new_thread r 0 false))); ret (Some a)
  | None :: f => run modify (set_fresh f); ret None
  | [] => ret None
  end.

Definition rt_malloc : WM bool :=
  do w <- get;
  match room w with b :: r => run modify (set_room r); ret b | [] => ret false end.

(** ** The watch *)

Definition told (w : Watch) (e : syswatch_event) (a : Z) : list (syswatch_event * Z) := if event_hook w then [(e, a)] else [].

Definition syswatch_event_hook_call (e : syswatch_event) (a : Z) : WM unit :=
  modify (fun w => set_calls (hook_calls w ++ told w e a) w).

Definition syswatch_thread_except_resolve_kill (a : Z) : WM unit :=
  run syswatch_event_hook_call SYSWATCH_EVENT_THREAD_KILL a;
  do b <- rt_object_is_systemobject a;
  if b : bool then rt_thread_detach a else rt_thread_delete a.

Definition syswatch_thread_except_resolve_resume_save_msg (a : Z) : WM unit :=
  do ok <- rt_malloc;
  if negb ok then ret tt else
  do t <- thread_at a;
  modify (fun w => set_waiting (wait_resume_slist w ++ [mkMsg a (made t) (stack_addr t)]) w).

Definition syswatch_thread_except_resolve_resume_from_msg (m : thread_msg) : WM unit :=
  do b <- rt_object_is_systemobject (msg_thread m);
  if b : bool then
    run rt_thread_init (msg_thread m) (msg_made m) (msg_stack_addr m);
    syswatch_event_hook_call SYSWATCH_EVENT_THREAD_RESUMED (msg_thread m)
  else
    do r <- rt_thread_create (msg_made m);
    match r with Some a => syswatch_event_hook_call SYSWATCH_EVENT_THREAD_RESUMED a | None => ret tt end.

Fixpoint resume_loop (fuel : nat) : WM unit :=
  do w <- get;
  match wait_resume_slist w with
  | [] => ret tt
  | m :: _ =>
      match fuel with
      | O => fault
      | S k =>
          run syswatch_thread_except_resolve_resume_from_msg m;
          run modify (fun w => set_waiting (tail (wait_resume_slist w)) w);
          resume_loop k
      end
  end.

Definition syswatch_thread_except_resolve_resume_all : WM unit := do w <- get; resume_loop (length (wait_resume_slist w)).

Definition syswatch_thread_except_resolve (thread : option Z) : WM unit :=
  match thread with
  | None => ret tt
  | Some a =>
      if a =? self then ret tt else
      run syswatch_thread_except_resolve_resume_save_msg a;
      syswatch_thread_except_resolve_kill a
  end.

Definition syswatch_thread_switch_hook (from to : Z) : WM unit :=
  do f <- thread_at from;
  do t <- thread_at to;
  if current_priority t <? current_priority f then ret tt else
  if current_priority t =? RT_THREAD_PRIORITY_MAX - 1 then
    do w <- get;
    if op_step w =? 0 then modify (set_sec_cnt 0)
    else if op_step w =? 1 then
      run modify (set_sec_cnt 0);
      modify (set_op_step (match wait_resume_slist w with [] => 0 | _ => 2 end))
    else ret tt
  else
    do w <- get;
    if negb (op_step w =? 1) then ret tt else
    match lowest_thread w with
    | None => modify (set_lowest (Some to))
    | Some a =>
        do l <- thread_at a;
        if current_priority l <? current_priority t then modify (set_lowest (Some to))
        else if current_priority t <? current_priority l then ret tt
        else if current_priority t =? current_priority f then
          if Z.land (stat f) RT_THREAD_STAT_MASK =? RT_THREAD_RUNNING then modify (set_lowest (Some from)) else ret tt
        else ret tt
    end.

Definition syswatch_check_timeout (tmo_s : Z) : WM bool :=
  run modify (fun w => set_sec_cnt (u16 (sec_cnt w + 1)) w);
  do n <- gets sec_cnt;
  if n <? tmo_s then ret false else run modify (set_sec_cnt 0); ret true.

Definition syswatch_fsm : WM unit :=
  do w <- get;
  if op_step w =? 0 then
    do over <- syswatch_check_timeout SYSWATCH_EXCEPT_TIMEOUT;
    if over : bool then run modify (set_op_step 1); modify (set_lowest None) else ret tt
  else if op_step w =? 1 then
    do over <- syswatch_check_timeout SYSWATCH_EXCEPT_CONFIRM_TMO;
    if over : bool then
      do a <- gets lowest_thread;
      run syswatch_thread_except_resolve a;
      modify (set_lowest None)
    else ret tt
  else if op_step w =? 2 then
    do over <- syswatch_check_timeout SYSWATCH_EXCEPT_RESUME_DLY;
    if over : bool then run syswatch_thread_except_resolve_resume_all; modify (set_op_step 0) else ret tt
  else run modify (set_op_step 0); modify (set_sec_cnt 0).

Definition wdt_control (c : wdt_call) : WM unit := modify (fun w => set_wdt_calls (wdt_calls w ++ [c]) w).

(** [found] is whether there is a watchdog device. *)
Definition syswatch_wdt_startup (found : bool) : WM bool :=
  if negb found then ret false else
  run wdt_control WdtInit;
  run wdt_control (WdtTimeout SYSWATCH_WDT_TIMEOUT);
  run wdt_control WdtStart;
  ret true.

Definition syswatch_wdt_feed : WM unit := wdt_control WdtKeepalive.

(** [syswatch_thread_entry] up to its loop, and a round of it. *)
Definition syswatch_start (found : bool) : WM bool :=
  do ok <- syswatch_wdt_startup found;
  if negb ok then ret false else run modify (set_waiting []); ret true.

Definition syswatch_second : WM unit := run syswatch_wdt_feed; syswatch_fsm.

Definition syswatch_set_event_hook (hook : bool) : WM unit := modify (set_event_hook hook).

Definition SYSWATCH_THREAD_NAME : list Z := [115; 121; 115; 119; 97; 116; 99; 104].
Definition SYSWATCH_THREAD_STK_SIZE : Z := 512.
Definition SYSWATCH_THREAD_PRIO : Z := 0.

Definition syswatch_init (thread_entry : Z) : WM Z :=
  do done <- gets init_ok;
  if done : bool then ret 0 else
  do tid <- rt_thread_create (mkRecipe SYSWATCH_THREAD_NAME thread_entry 0 SYSWATCH_THREAD_STK_SIZE SYSWATCH_THREAD_PRIO 20);
  match tid with None => ret (-1) | Some _ => run modify (set_init_ok true); ret 0 end.

(** ** The system *)

(** A change of the running thread, a second, the end of the running thread, the idle
    thread freeing an object, the kernel changing a thread's state (it suspends, is
    ready, runs) or priority (it holds a mutex others wait for). *)
Inductive happening := Switch (to : Z) | Second | Exit | Reclaim (a : Z) | Touch (a s p : Z).

Definition happens (h : happening) : WM unit :=
  match h with
  | Switch to => do from <- gets running; run syswatch_thread_switch_hook from to; modify (set_running to)
  | Second => syswatch_second
  | Exit => rt_thread_exit
  | Reclaim a => modify (set_object a Freed)
  | Touch a s p => do w <- get; match objects w a with Live t => modify (set_object a (Live (touched t s p))) | _ => fault end
  end.

Fixpoint happen (hs : list happening) : WM unit :=
  match hs with [] => ret tt | h :: hs' => run happens h; happen hs' end.
End Syswatch.
