(* ===== verification/SyswatchSpec.v ===== *)
(** * What the thread watch does

    The invariant of the watch and of the kernel's objects, and that whatever happens
    keeps it: no freed object is read but the type word of a thread the watch has
    stopped, and no assertion fails. *)

From Stdlib Require Import String.
From S2P Require Import Prelude Syswatch.
Open Scope list_scope.

Section Watch.
Context (self idle : Z) (reads_static : Z -> bool) (Hread : forall a, reads_static a = false).
Implicit Types (w : Watch) (t : rt_thread).
Abbreviation happens := (happens self reads_static).
Abbreviation happen := (happen self reads_static).

(** ** The invariant *)

Definition readable w (a : Z) : Prop := objects w a <> Freed.
(** No assertion fails when it is stopped. *)
Definition usable w (a : Z) : Prop := match objects w a with Live _ => True | Closed t => static t = false | Freed => False end.
Definition holds_thread (o : object) t : Prop := o = Live t \/ o = Closed t.
Definition prio_ok t : Prop := current_priority t <= 31 /\ init_priority (made t) <= 31.
Definition coming w : list Z := omap id (fresh w).

Record watch_ok w : Prop := {
  wo_step : op_step w = 0 \/ op_step w = 1 \/ op_step w = 2;
  wo_sec : 0 <= sec_cnt w < 60;
  wo_self : exists t, objects w self = Live t;
  wo_idle : exists t, objects w idle = Live t /\ current_priority t = 31;
  wo_running : readable w (running w);
  wo_busy : running w = idle -> op_step w <> 1;
  wo_lowest a : op_step w = 1 -> lowest_thread w = Some a -> usable w a /\ a <> idle;
  wo_closed a t : objects w a = Closed t -> stat t = RT_THREAD_CLOSE;
  wo_prio a t : holds_thread (objects w a) t -> prio_ok t;
  wo_rest : op_step w = 0 -> wait_resume_slist w = [];
  wo_msgs m : m ∈ wait_resume_slist w -> init_priority (msg_made m) <= 31 /\ (forall t, objects w (msg_thread m) = Live t -> static t = false) /\ msg_thread m ∈ deleted w;
  wo_reads a : a ∈ freed_reads w -> a ∈ deleted w;
  wo_fresh : NoDup (coming w) /\ forall a, a ∈ coming w -> objects w a = Freed
}.

(** What can happen. *)
Definition admissible (h : happening) w : Prop :=
  match h with
  | Switch to => exists t, objects w to = Live t
  | Second => running w = self
  | Exit => running w <> self /\ running w <> idle /\ exists t, objects w (running w) = Live t /\ (static t = true -> op_step w = 1 -> lowest_thread w <> Some (running w))
  | Reclaim a => running w = idle /\ exists t, objects w a = Closed t /\ static t = false
  | Touch a s p => (exists t, objects w a = Live t) /\ p <= 31 /\ (a = idle -> p = 31)
  end.

Lemma wp_thread_at a w (Q : rt_thread -> Watch -> Prop) :
  readable w a -> (forall t, holds_thread (objects w a) t -> Q t w) -> wp (thread_at a) Q w.
Proof using.
  intros Hr HQ. unfold readable in Hr. apply wp_bind. unfold wp at 1, get. destruct (objects w a) as [t|t|] eqn:E; [| |done]; apply wp_ret, HQ; [by left | by right].
Qed.

Lemma usable_readable w a : usable w a -> readable w a.
Proof using. unfold usable, readable. by destruct (objects w a). Qed.

Lemma live_usable w a t : objects w a = Live t -> usable w a.
Proof using. unfold usable. by intros ->. Qed.

Lemma live_readable w a t : objects w a = Live t -> readable w a.
Proof using. unfold readable. by intros ->. Qed.

Lemma ok_sec w v : watch_ok w -> 0 <= v < 60 -> watch_ok (set_sec_cnt v w).
Proof using. intros [] ?. by split. Qed.

Lemma ok_calls w v : watch_ok w -> watch_ok (set_calls v w).
Proof using. intros []. by split. Qed.

Lemma ok_wdt w v : watch_ok w -> watch_ok (set_wdt_calls v w).
Proof using. intros []. by split. Qed.

Lemma ok_room w v : watch_ok w -> watch_ok (set_room v w).
Proof using. intros []. by split. Qed.

Lemma ok_lowest w a : watch_ok w -> usable w a -> a <> idle -> watch_ok (set_lowest (Some a) w).
Proof using. intros [] Hr Ha. split; try done. cbn. by intros x _ [= <-]. Qed.

Lemma ok_no_lowest w : watch_ok w -> watch_ok (set_lowest None w).
Proof using. intros []. by split. Qed.

Lemma ok_to_0 w : watch_ok w -> wait_resume_slist w = [] -> watch_ok (set_op_step 0 w).
Proof using. intros [] Hr. split; try done. cbn. by left. Qed.

Lemma ok_to_2 w : watch_ok w -> watch_ok (set_op_step 2 w).
Proof using. intros []. split; try done. cbn. by right; right. Qed.

(** Confirming begins, with no suspect. *)
Lemma ok_to_1 w : watch_ok w -> running w <> idle -> watch_ok (set_lowest None (set_op_step 1 w)).
Proof using. intros [] Hr. split; try done. cbn. by right; left. Qed.

(** An object that is closed: a static one is not the suspect. *)
Lemma ok_close w a t :
  watch_ok w -> objects w a = Live t -> a <> self -> a <> idle -> (static t = true -> op_step w = 1 -> lowest_thread w <> Some a) ->
  watch_ok (set_object a (Closed (closed t)) w).
Proof using.
  intros [A1 A2 A3 A4 A5 A6 A7 A8 A9 A10 A11 A12 [A13 A14]] Ho Hs Hi Ht. split; try done; cbn.
  - by rewrite (proj2 (Z.eqb_neq self a)) by done.
  - by rewrite (proj2 (Z.eqb_neq idle a)) by done.
  - unfold readable in *. cbn. by destruct (_ =? a).
  - intros x H1 H2. destruct (A7 x H1 H2). split; [|done]. unfold usable in *. cbn. destruct (Z.eqb_spec x a) as [->|]; [|done].
    cbn. destruct (static t); [|done]. by destruct Ht.
  - intros x u. destruct (x =? a); [by intros [= <-] | apply A8].
  - intros x u. destruct (x =? a); [|apply A9]. intros [[=]|[= <-]]. apply (A9 a t). by left.
  - intros m Hm. destruct (A11 m Hm) as (H1 & H2 & H3). split; [done|]. split; [|done]. intros u. destruct (msg_thread m =? a); [done | apply H2].
  - split; [done|]. intros x Hx. destruct (Z.eqb_spec x a) as [->|]; [|by apply A14]. specialize (A14 a Hx). congruence.
Qed.

(** What the kernel records. *)
Lemma ok_deleted w a : watch_ok w -> watch_ok (set_deleted (deleted w ++ [a]) w).
Proof using.
  intros [A1 A2 A3 A4 A5 A6 A7 A8 A9 A10 A11 A12 A13]. split; try done; cbn.
  - intros m Hm. destruct (A11 m Hm) as (H1 & H2 & H3). do 2 (split; [done|]). apply elem_of_app. by left.
  - intros x Hx. apply elem_of_app. left. by apply A12.
Qed.

Lemma ok_read w a : watch_ok w -> a ∈ deleted w -> watch_ok (set_freed_reads (freed_reads w ++ [a]) w).
Proof using.
  intros [] Ha. split; try done. cbn. intros x [Hx|Hx]%elem_of_app; [auto|]. by apply list_elem_of_singleton in Hx as ->.
Qed.

Lemma set_object_other w a o x : x <> a -> objects (set_object a o w) x = objects w x.
Proof using. intros Hx. cbn. by rewrite (proj2 (Z.eqb_neq x a)). Qed.

Lemma set_object_same w a o : objects (set_object a o w) a = o.
Proof using. cbn. by rewrite Z.eqb_refl. Qed.

(** ** The hook *)

(** A thread that yields is alive: the state of a closed one says so. *)
Lemma yields_usable w f :
  watch_ok w -> holds_thread (objects w (running w)) f -> Z.land (stat f) RT_THREAD_STAT_MASK = RT_THREAD_RUNNING -> usable w (running w).
Proof using.
  intros Hok [Hf|Hf] Hs; [by eapply live_usable|]. pose proof (wo_closed _ Hok _ f Hf) as Hc. by rewrite Hc in Hs.
Qed.

(** What the hook changes: the counter and the step at the idle thread, the suspect. *)
Lemma wp_hook from to w (Q : unit -> Watch -> Prop) tt0 :
  watch_ok w -> from = running w -> objects w to = Live tt0 ->
  (forall w', watch_ok w' -> objects w' = objects w -> running w' = running w -> fresh w' = fresh w -> hook_calls w' = hook_calls w -> room w' = room w ->
     wait_resume_slist w' = wait_resume_slist w -> (to = idle -> op_step w' <> 1) -> Q tt w') ->
  wp (syswatch_thread_switch_hook from to) Q w.
Proof using.
  intros Hok -> Hto HQ. apply wp_bind, wp_thread_at; [apply Hok|]. intros f Hf. apply wp_bind, wp_thread_at; [by eapply live_readable|]. intros t Ht.
  assert (t = tt0) as -> by (rewrite Hto in Ht; destruct Ht as [[=]|[=]]; done).
  pose proof (wo_prio _ Hok (running w) f Hf) as [Hpf _].
  assert (Hidle : to = idle -> current_priority tt0 = 31).
  { intros ->. destruct (wo_idle _ Hok) as (ti & Ei & Hp). rewrite Hto in Ei. by injection Ei as ->. }
  destruct (Z.ltb_spec (current_priority tt0) (current_priority f)) as [Hlt|Hge].
  { apply wp_ret, HQ; try done. intros Hti. specialize (Hidle Hti). lia. }
  change (RT_THREAD_PRIORITY_MAX - 1) with 31. destruct (Z.eqb_spec (current_priority tt0) 31) as [Hp31|Hp31].
  - apply wp_bind. unfold wp at 1, get. destruct (Z.eqb_spec (op_step w) 0) as [H0|H0].
    + apply wp_modify, HQ; try done; [by apply ok_sec | cbn; lia].
    + destruct (Z.eqb_spec (op_step w) 1) as [H1|H1]; [|by apply wp_ret, HQ].
      apply wp_bind, wp_modify, wp_modify, HQ; try done; [|cbn; by destruct (wait_resume_slist w)].
      destruct (wait_resume_slist w) eqn:Ew; [by apply ok_to_0; [apply ok_sec|] | by apply ok_to_2, ok_sec].
  - assert (Hni : to <> idle) by (intros Hti; by apply Hp31, Hidle).
    apply wp_bind. unfold wp at 1, get. destruct (Z.eqb_spec (op_step w) 1) as [H1|H1]; cbn [negb]; [|by apply wp_ret, HQ].
    destruct (lowest_thread w) as [a|] eqn:El.
    + destruct (wo_lowest _ Hok a H1 El) as [Hra Hai]. apply wp_bind, wp_thread_at; [by apply usable_readable|]. intros l _.
      destruct (current_priority l <? current_priority tt0); [apply wp_modify, HQ; try done; apply ok_lowest; [done | by eapply live_usable | done]|].
      destruct (current_priority tt0 <? current_priority l); [by apply wp_ret, HQ|].
      destruct (Z.eqb_spec (current_priority tt0) (current_priority f)) as [Heq|]; [|by apply wp_ret, HQ].
      destruct (Z.eqb_spec (Z.land (stat f) RT_THREAD_STAT_MASK) RT_THREAD_RUNNING) as [Hst|]; [|by apply wp_ret, HQ].
      apply wp_modify, HQ; try done. apply ok_lowest; [done | by apply (yields_usable w f) |].
      intros Hri. by apply (wo_busy _ Hok Hri).
    + apply wp_modify, HQ; try done. apply ok_lowest; [done | by eapply live_usable | done].
Qed.
(** ** The state machine *)

Lemma wp_check tmo w (Q : bool -> Watch -> Prop) :
  watch_ok w -> 0 < tmo <= 60 ->
  (sec_cnt w + 1 < tmo -> watch_ok (set_sec_cnt (sec_cnt w + 1) w) -> Q false (set_sec_cnt (sec_cnt w + 1) w)) ->
  (tmo <= sec_cnt w + 1 -> watch_ok (set_sec_cnt 0 w) -> Q true (set_sec_cnt 0 w)) -> wp (syswatch_check_timeout tmo) Q w.
Proof using.
  intros Hok Ht HQ1 HQ2. pose proof (wo_sec _ Hok). apply wp_bind, wp_modify, wp_bind, wp_gets. cbn [sec_cnt set_sec_cnt].
  rewrite u16_small by lia. destruct (Z.ltb_spec (sec_cnt w + 1) tmo).
  - apply wp_ret, HQ1; [done|]. apply ok_sec; [done | lia].
  - apply wp_bind, wp_modify, wp_ret, HQ2; [done|]. apply ok_sec; [done | lia].
Qed.

Definition saved w (a : Z) t : list thread_msg := match room w with true :: _ => [mkMsg a (made t) (stack_addr t)] | _ => [] end.

Lemma ok_waiting w m :
  watch_ok w -> op_step w <> 0 -> init_priority (msg_made m) <= 31 -> (forall t, objects w (msg_thread m) = Live t -> static t = false) -> msg_thread m ∈ deleted w ->
  watch_ok (set_waiting (wait_resume_slist w ++ [m]) w).
Proof using.
  intros [A1 A2 A3 A4 A5 A6 A7 A8 A9 A10 A11 A12 A13] Hs Hm Hl. split; try done.
  cbn. intros x [Hx|Hx]%elem_of_app; [by apply A11 | apply list_elem_of_singleton in Hx as ->; done].
Qed.

(** The kernel stops a thread. *)
Definition stops (a : Z) w w' : Prop :=
  let w1 := set_deleted (deleted w ++ [a]) w in
  w' = w1 /\ (exists t, objects w a = Closed t) \/ exists t, objects w a = Live t /\ w' = set_object a (Closed (closed t)) w1.

Lemma wp_kill a w (Q : unit -> Watch -> Prop) :
  usable w a -> (forall w', stops a (set_calls (hook_calls w ++ told w SYSWATCH_EVENT_THREAD_KILL a) w) w' -> Q tt w') ->
  wp (syswatch_thread_except_resolve_kill reads_static a) Q w.
Proof using.
  intros Hu HQ. apply wp_bind, wp_modify, wp_bind.
  set (w1 := set_calls _ w) in *. assert (Hu1 : usable w1 a) by exact Hu. unfold usable in Hu1. apply wp_bind. unfold wp at 1, get.
  destruct (objects w1 a) as [t|t|] eqn:E; [| |done]; apply wp_ret.
  - destruct (static t) eqn:Es; apply wp_bind, wp_modify, wp_bind; unfold wp at 1, get; change (objects (set_deleted _ w1) a) with (objects w1 a);
      rewrite E, Es; apply wp_modify, HQ; right; by exists t.
  - apply wp_bind, wp_modify, wp_bind. unfold wp at 1, get. change (objects (set_deleted _ w1) a) with (objects w1 a).
    rewrite E, Hu1. apply wp_ret, HQ. left. split; [done|]. by exists t.
Qed.

(** A suspect is stopped. *)
Lemma wp_resolve a w (Q : unit -> Watch -> Prop) :
  watch_ok w -> op_step w = 1 -> running w = self -> usable w a -> a <> idle -> a <> self ->
  (forall w' t, watch_ok (set_lowest None w') -> holds_thread (objects w a) t -> op_step w' = op_step w -> running w' = running w -> sec_cnt w' = sec_cnt w ->
     hook_calls w' = hook_calls w ++ told w SYSWATCH_EVENT_THREAD_KILL a -> wait_resume_slist w' = wait_resume_slist w ++ saved w a t ->
     (exists t', objects w' a = Closed t') -> Q tt w') -> wp (syswatch_thread_except_resolve self reads_static (Some a)) Q w.
Proof using.
  intros Hok H1 Hrun Hu Hi Hs HQ. unfold syswatch_thread_except_resolve. rewrite (proj2 (Z.eqb_neq a self)) by done.
  assert (Hh : exists t, holds_thread (objects w a) t).
  { unfold usable in Hu. destruct (objects w a) as [t|t|]; [| |done]; exists t; [by left | by right]. }
  (* from any state that differs in the list and the room *)
  assert (Hkill : forall t rm, holds_thread (objects w a) t ->
    wp (syswatch_thread_except_resolve_kill reads_static a) Q (set_waiting (wait_resume_slist w ++ saved w a t) (set_room rm w))).
  { intros t rm Ht. apply wp_kill; [exact Hu|]. intros w' Hw'.
    assert (Hmsg : forall o, watch_ok o -> op_step o = 1 -> wait_resume_slist o = wait_resume_slist w -> (forall u, objects o a = Live u -> static u = false) -> a ∈ deleted o ->
        watch_ok (set_waiting (wait_resume_slist w ++ saved w a t) o)).
    { intros o Ho Ho1 Ho2 Ho3 Ho4. unfold saved. rewrite <- Ho2. destruct (room w) as [|[] rr]; try (rewrite app_nil_r; by destruct o).
      apply ok_waiting; [done | lia | apply (wo_prio _ Hok a t Ht) | exact Ho3 | exact Ho4]. }
    set (cs := hook_calls w ++ told w SYSWATCH_EVENT_THREAD_KILL a).
    pose proof (ok_deleted _ a (ok_room _ rm (ok_calls _ cs (ok_no_lowest _ Hok)))) as Hok1.
    assert (Hin : a ∈ deleted w ++ [a]) by (apply elem_of_app; right; left).
    destruct Hw' as [[-> [u Eu]]|(u & Eu & ->)]; apply (HQ _ t); try done.
    - apply (Hmsg _ Hok1); try done. intros x Hx. cbn in Eu, Hx. congruence.
    - by exists u.
    - refine (Hmsg _ (ok_close _ a u Hok1 Eu Hs Hi _) H1 eq_refl _ Hin); [done|]. intros x. by rewrite set_object_same.
    - exists (closed u). apply set_object_same. }
  apply wp_bind. unfold syswatch_thread_except_resolve_resume_save_msg, rt_malloc. apply wp_bind, wp_bind. unfold wp at 1, get.
  assert (Hnone : forall rm, (forall t, saved w a t = []) -> wp (syswatch_thread_except_resolve_kill reads_static a) Q (set_room rm w)).
  { intros rm Hsv. destruct Hh as [t Ht]. pose proof (Hkill t rm Ht) as H. rewrite Hsv, app_nil_r in H. exact H. }
  destruct (room w) as [|[] rr] eqn:Er.
  - apply wp_ret. cbn [negb]. apply wp_ret. replace w with (set_room (room w) w) by (by destruct w). apply Hnone. intros t. unfold saved. by rewrite Er.
  - apply wp_bind, wp_modify, wp_ret. cbn [negb]. apply wp_bind, wp_thread_at; [by apply usable_readable|]. intros t Ht. apply wp_modify.
    pose proof (Hkill t rr Ht) as H. unfold saved in H. by rewrite Er in H.
  - apply wp_bind, wp_modify, wp_ret. cbn [negb]. apply wp_ret. apply Hnone. intros t. unfold saved. by rewrite Er.
Qed.

(** *** Starting anew *)

Lemma ok_create w a f r :
  watch_ok w -> fresh w = Some a :: f -> init_priority r <= 31 -> watch_ok (set_object a (Live (new_thread r 0 false)) (set_fresh f w)).
Proof using.
  intros [A1 A2 A3 A4 A5 A6 A7 A8 A9 A10 A11 A12 [A13 A14]] Hf Hr. unfold coming in A13, A14. rewrite Hf in A13, A14. cbn in A13, A14.
  apply NoDup_cons in A13 as [Hna Hnd]. assert (Ha : objects w a = Freed) by (apply A14; left).
  assert (Hne : forall x, objects w x <> Freed -> (x =? a) = false) by (intros x Hx; apply Z.eqb_neq; by intros ->).
  split; try done; cbn.
  - destruct A3 as [t E]. exists t. by rewrite Hne by (rewrite E; done).
  - destruct A4 as (t & E & Hp). exists t. by rewrite Hne by (rewrite E; done).
  - unfold readable in *. cbn. by destruct (_ =? a).
  - intros x H1 H2. destruct (A7 x H1 H2) as [H3 H4]. split; [|done]. unfold usable in *. cbn. by destruct (x =? a).
  - intros x t. destruct (x =? a); [done | apply A8].
  - intros x t. destruct (x =? a); [|apply A9]. intros [[= <-]|[=]]. by split.
  - intros m Hm. destruct (A11 m Hm) as (H1 & H2 & H3). split; [done|]. split; [|done]. intros t. destruct (msg_thread m =? a); [by intros [= <-] | apply H2].
  - unfold coming. cbn. split; [done|]. intros x Hx. destruct (Z.eqb_spec x a) as [->|]; [done|]. apply A14. by right.
Qed.

Lemma ok_fresh_none w f : watch_ok w -> fresh w = None :: f -> watch_ok (set_fresh f w).
Proof using. intros [A1 A2 A3 A4 A5 A6 A7 A8 A9 A10 A11 A12 [A13 A14]] Hf. split; try done. unfold coming in *. rewrite Hf in A13, A14. by split. Qed.

(** The type of the thread of a message is read, be it freed or not. *)
Definition type_read w (m : thread_msg) : Watch :=
  match objects w (msg_thread m) with Freed => set_freed_reads (freed_reads w ++ [msg_thread m]) w | _ => w end.

Lemma type_read_same w m :
  fresh (type_read w m) = fresh w /\ hook_calls (type_read w m) = hook_calls w /\ event_hook (type_read w m) = event_hook w /\
  objects (type_read w m) = objects w /\ wait_resume_slist (type_read w m) = wait_resume_slist w /\ op_step (type_read w m) = op_step w /\
  running (type_read w m) = running w.
Proof using. unfold type_read. by destruct (objects w (msg_thread m)). Qed.

Lemma ok_type_read w m : watch_ok w -> m ∈ wait_resume_slist w -> watch_ok (type_read w m).
Proof using. intros Hok Hm. unfold type_read. destruct (objects w (msg_thread m)); [done | done|]. apply ok_read; [done|]. by apply (wo_msgs _ Hok). Qed.

(** What becomes of a message. *)
Inductive restarted w (m : thread_msg) : Watch -> Prop :=
| rs_new a f : fresh w = Some a :: f ->
    restarted w m (set_calls (hook_calls w ++ told w SYSWATCH_EVENT_THREAD_RESUMED a) (set_object a (Live (new_thread (msg_made m) 0 false)) (set_fresh f w)))
| rs_none f : fresh w = None :: f -> restarted w m (set_fresh f w)
| rs_end : fresh w = [] -> restarted w m w.

Lemma wp_from_msg m w (Q : unit -> Watch -> Prop) :
  watch_ok w -> m ∈ wait_resume_slist w -> (forall w', watch_ok w' -> restarted (type_read w m) m w' -> Q tt w') ->
  wp (syswatch_thread_except_resolve_resume_from_msg reads_static m) Q w.
Proof using Hread.
  intros Hok Hm HQ. destruct (wo_msgs _ Hok m Hm) as (Hp & Hl & _). pose proof (ok_type_read w m Hok Hm) as Hok1.
  assert (Hread1 : rt_object_is_systemobject reads_static (msg_thread m) w = Some (false, type_read w m)).
  { unfold rt_object_is_systemobject, type_read, bind, get. destruct (objects w (msg_thread m)) as [t|t|] eqn:Eo; [by rewrite (Hl t) | done |].
    cbn. by rewrite Hread. }
  apply wp_bind. unfold wp at 1. rewrite Hread1. set (w1 := type_read w m) in *. apply wp_bind, wp_bind. unfold wp at 1, get. destruct (fresh w1) as [|[a|] f] eqn:Ef.
  - apply wp_ret, wp_ret, HQ; [done | by apply rs_end].
  - apply wp_bind, wp_modify, wp_bind, wp_modify, wp_ret, wp_modify, HQ; [|exact (rs_new w1 m a f Ef)].
    exact (ok_calls _ _ (ok_create w1 a f (msg_made m) Hok1 Ef Hp)).
  - apply wp_bind, wp_modify, wp_ret, wp_ret, HQ; [by apply ok_fresh_none | by apply rs_none].
Qed.

Lemma restarted_waiting w m w' : restarted (type_read w m) m w' -> wait_resume_slist w' = wait_resume_slist w /\ op_step w' = op_step w /\ running w' = running w.
Proof using. destruct (type_read_same w m) as (_ & _ & _ & _ & <- & <- & <-). by intros [a f _|f _|_]. Qed.

Lemma ok_tail w m ms : watch_ok w -> wait_resume_slist w = m :: ms -> op_step w <> 0 -> watch_ok (set_waiting ms w).
Proof using.
  intros [A1 A2 A3 A4 A5 A6 A7 A8 A9 A10 A11 A12 A13] E Hs. split; try done. cbn. intros x Hx. apply A11. rewrite E. by right.
Qed.

(** All of them. *)
Inductive restarts : Watch -> list thread_msg -> Watch -> Prop :=
| rss_nil w : restarts w [] w
| rss_cons w m ms w1 w2 : restarted (type_read w m) m w1 -> restarts (set_waiting ms w1) ms w2 -> restarts w (m :: ms) w2.

Lemma wp_resume_loop ms : forall fuel w (Q : unit -> Watch -> Prop),
  watch_ok w -> op_step w = 2 -> wait_resume_slist w = ms -> (length ms <= fuel)%nat ->
  (forall w', watch_ok w' -> restarts w ms w' -> wait_resume_slist w' = [] -> op_step w' = 2 -> running w' = running w -> Q tt w') ->
  wp (resume_loop reads_static fuel) Q w.
Proof using Hread.
  induction ms as [|m ms IH]; intros [|fuel] w Q Hok Hs Hw Hf HQ; cbn [length resume_loop] in *; try lia;
    apply wp_bind; unfold wp at 1, get; rewrite Hw; try (apply wp_ret, HQ; try done; constructor).
  apply wp_bind, wp_from_msg; [done | rewrite Hw; left |]. intros w1 Hok1 Hr1. destruct (restarted_waiting _ _ _ Hr1) as (E1 & E2 & E3).
  apply wp_bind, wp_modify. rewrite E1, Hw. cbn [tail]. apply IH; [eapply ok_tail; [done | by rewrite E1 | by rewrite E2, Hs] | cbn; congruence | done | lia |].
  intros w' Hok' Hr' Hw' Hs' Hrun'. apply HQ; try done; [by eapply rss_cons|]. rewrite Hrun'. cbn. congruence.
Qed.

(** *** A second *)

Lemma wp_second w (Q : unit -> Watch -> Prop) :
  watch_ok w -> running w = self -> self <> idle ->
  (forall w', watch_ok w' -> running w' = running w -> Q tt w') -> wp (syswatch_second self reads_static) Q w.
Proof using Hread.
  intros Hok Hrun Hsi HQ. apply wp_bind, wp_modify. set (w1 := set_wdt_calls (wdt_calls w ++ [WdtKeepalive]) w). assert (Hok1 : watch_ok w1) by (by apply ok_wdt).
  apply wp_bind. unfold wp at 1, get. destruct (Z.eqb_spec (op_step w1) 0) as [H0|H0].
  - apply wp_bind, wp_check; [done | done | intros _ Hk; by apply wp_ret, HQ |]. intros _ Hk. apply wp_bind, wp_modify, wp_modify, HQ; [|done].
    apply ok_to_1; [done|]. cbn. by rewrite Hrun.
  - destruct (Z.eqb_spec (op_step w1) 1) as [H1|H1].
    + apply wp_bind, wp_check; [done | done | intros _ Hk; by apply wp_ret, HQ |]. intros _ Hk. apply wp_bind, wp_gets. cbn [lowest_thread set_sec_cnt].
      apply wp_bind. destruct (lowest_thread w1) as [a|] eqn:El; [|apply wp_ret, wp_modify, HQ; [by apply ok_no_lowest | done]].
      destruct (wo_lowest _ Hk a H1 El) as [Hra Hai]. destruct (Z.eq_dec a self) as [->|Has].
      * unfold syswatch_thread_except_resolve. rewrite Z.eqb_refl. apply wp_ret, wp_modify, HQ; [by apply ok_no_lowest | done].
      * apply wp_resolve; [done | done | done | done | done | done |]. intros w' t Hok' _ _ Hrun' _ _ _ _. apply wp_modify, HQ; [exact Hok' | exact Hrun'].
    + destruct (wo_step _ Hok1) as [H2|[H2|H2]]; try done. rewrite H2. change (2 =? 2) with true. cbv iota.
      apply wp_bind, wp_check; [done | done | intros _ Hk; by apply wp_ret, HQ |]. intros _ Hk. apply wp_bind, wp_bind. unfold wp at 1, get.
      eapply wp_resume_loop; [done | done | reflexivity | done |]. intros w' Hok' _ Hw' _ Hrun'. apply wp_modify, HQ; [by apply ok_to_0 | exact Hrun'].
Qed.

(** *** Anything *)

Lemma ok_running w a t : watch_ok w -> objects w a = Live t -> (a = idle -> op_step w <> 1) -> watch_ok (set_running a w).
Proof using. intros [] Ho Hi. split; try done. unfold readable. cbn. by rewrite Ho. Qed.

Lemma ok_reclaim w a t : watch_ok w -> objects w a = Closed t -> running w = idle -> watch_ok (set_object a Freed w).
Proof using.
  intros [A1 A2 A3 A4 A5 A6 A7 A8 A9 A10 A11 A12 [A13 A14]] Ho Hrun.
  assert (Hne : forall x u, objects w x = Live u -> (x =? a) = false) by (intros x u Hx; apply Z.eqb_neq; intros ->; congruence).
  split; try done; cbn.
  - destruct A3 as [u E]. exists u. by rewrite (Hne _ u).
  - destruct A4 as (u & E & Hp). exists u. by rewrite (Hne _ u).
  - rewrite Hrun. unfold readable. cbn. destruct A4 as (u & E & Hp). by rewrite (Hne _ u), E.
  - intros x H1. by apply A6 in Hrun.
  - intros x u. destruct (x =? a); [done | apply A8].
  - intros x u. destruct (x =? a); [intros [[=]|[=]] | apply A9].
  - intros m Hm. destruct (A11 m Hm) as (H1 & H2 & H3). split; [done|]. split; [|done]. intros u. destruct (msg_thread m =? a); [done | apply H2].
  - split; [done|]. intros x Hx. destruct (x =? a); [done | by apply A14].
Qed.

Lemma ok_touch w a t s p : watch_ok w -> objects w a = Live t -> p <= 31 -> (a = idle -> p = 31) -> watch_ok (set_object a (Live (touched t s p)) w).
Proof using.
  intros [A1 A2 A3 A4 A5 A6 A7 A8 A9 A10 A11 A12 [A13 A14]] Ho Hp Hi. destruct (A9 a t) as [_ Hm]; [by left|].
  assert (Hu : forall x, usable w x -> usable (set_object a (Live (touched t s p)) w) x) by (unfold usable; cbn; intros x; by destruct (x =? a)).
  split; try done; cbn.
  - destruct (self =? a); [by eexists | exact A3].
  - destruct (Z.eqb_spec idle a) as [->|]; [|exact A4]. eexists. split; [done|]. by apply Hi.
  - unfold readable in *. cbn. by destruct (_ =? a).
  - intros x H1 H2. destruct (A7 x H1 H2). split; [by apply Hu | done].
  - intros x u. destruct (x =? a); [done | apply A8].
  - intros x u. destruct (x =? a); [|apply A9]. intros [[= <-]|[=]]. by split.
  - intros m Hm'. destruct (A11 m Hm') as (H1 & H2 & H3). split; [done|]. split; [|done]. intros u. destruct (Z.eqb_spec (msg_thread m) a) as [E|]; [|apply H2]. intros [= <-]. apply (H2 t). by rewrite E.
  - split; [done|]. intros x Hx. destruct (Z.eqb_spec x a) as [->|]; [|by apply A14]. specialize (A14 a Hx). congruence.
Qed.

Lemma wp_touch a s p w t (Q : unit -> Watch -> Prop) : objects w a = Live t -> Q tt (set_object a (Live (touched t s p)) w) -> wp (happens (Touch a s p)) Q w.
Proof using. intros E HQ. apply wp_bind. unfold wp at 1, get. rewrite E. by apply wp_modify. Qed.

Lemma wp_happens h w (Q : unit -> Watch -> Prop) :
  watch_ok w -> self <> idle -> admissible h w -> (forall w', watch_ok w' -> Q tt w') -> wp (happens h) Q w.
Proof using Hread.
  intros Hok Hsi Ha HQ. destruct h as [to| | |a|a s p]; cbn [admissible Syswatch.happens] in *.
  - destruct Ha as [t Ht]. apply wp_bind, wp_gets, wp_bind. eapply wp_hook; [done | done | exact Ht |]. intros w' Hok' Eo _ _ _ _ _ Hi.
    apply wp_modify, HQ. eapply ok_running; [done | by rewrite Eo | done].
  - apply wp_second; [done..|]. intros w' Hok' _. by apply HQ.
  - destruct Ha as (H1 & H2 & t & Ht & Hst). apply wp_bind. unfold wp at 1, get. rewrite Ht. apply wp_modify, HQ. by apply ok_close.
  - destruct Ha as (Hrun & t & Ho & _). apply wp_modify, HQ. by eapply ok_reclaim.
  - destruct Ha as ([t Ht] & Hp & Hi). eapply wp_touch; [exact Ht|]. by apply HQ, ok_touch.
Qed.
End Watch.
