(* ===== verification/SyswatchRun.v ===== *)
(** * Runs of the thread watch

    The healthy system, the thread that keeps the processor, the threads that start
    anew. *)

From Stdlib Require Import String.
From S2P Require Import Prelude Syswatch SyswatchSpec.
Open Scope list_scope.

Section Runs.
Context (self idle : Z) (reads_static : Z -> bool) (Hread : forall a, reads_static a = false) (Hsi : self <> idle).
Implicit Types (w : Watch) (t : rt_thread).
Abbreviation happens := (Syswatch.happens self reads_static).
Abbreviation happen := (Syswatch.happen self reads_static).
Abbreviation watch_ok := (watch_ok self idle).
Abbreviation admissible := (admissible self idle).

(** [P] allows each step of the run. *)
Fixpoint allowed (P : happening -> Watch -> Prop) (w : Watch) (hs : list happening) : Prop :=
  match hs with
  | [] => True
  | h :: hs' => P h w /\ forall w', happens h w = Some (tt, w') -> allowed P w' hs'
  end.

Fixpoint seconds (hs : list happening) : Z :=
  match hs with [] => 0 | Second :: hs' => 1 + seconds hs' | _ :: hs' => seconds hs' end.

Lemma seconds_nonneg hs : 0 <= seconds hs.
Proof using. induction hs as [|[] hs IH]; cbn; lia. Qed.

(** A run keeps [I] when each step does. *)
Lemma wp_happen (P : happening -> Watch -> Prop) (I : list happening -> Watch -> Prop) hs : forall w (Q : unit -> Watch -> Prop),
  (forall h hs w, P h w -> I (h :: hs) w -> wp (happens h) (fun _ w' => I hs w') w) ->
  allowed P w hs -> I hs w -> (forall w', I [] w' -> Q tt w') -> wp (happen hs) Q w.
Proof.
  induction hs as [|h hs IH]; intros w Q Hstep Ha Hi HQ; [by apply wp_ret, HQ|]. destruct Ha as [Hh Ha].
  apply wp_bind. pose proof (Hstep h hs w Hh Hi) as H. apply wp_Some in H as ([] & w1 & E & H1). unfold wp at 1. rewrite E. by apply IH; auto.
Qed.

Lemma happen_app hs1 hs2 w : happen (hs1 ++ hs2) w = bind (happen hs1) (fun _ => happen hs2) w.
Proof.
  revert w. induction hs1 as [|h hs1 IH]; intros w; [done|]. cbn [app Syswatch.happen]. rewrite bind_assoc.
  apply bind_ext. intros _ w'. apply IH.
Qed.

Lemma allowed_app P hs1 hs2 : forall w, allowed P w (hs1 ++ hs2) ->
  allowed P w hs1 /\ forall w', happen hs1 w = Some (tt, w') -> allowed P w' hs2.
Proof.
  induction hs1 as [|h hs1 IH]; intros w Ha; [split; [done|]; intros w' [= <-]; done|]. destruct Ha as [Hh Ha]. split.
  - split; [done|]. intros w' E. by apply (IH w'), Ha.
  - cbn [Syswatch.happen]. intros w' E. apply bind_inv in E as ([] & w1 & E1 & E2). by apply (IH w1); [apply Ha|].
Qed.

Lemma wp_happen_app hs1 hs2 w (Q : unit -> Watch -> Prop) : wp (happen hs1) (fun _ w' => wp (happen hs2) Q w') w -> wp (happen (hs1 ++ hs2)) Q w.
Proof. intros H. unfold wp at 1. rewrite happen_app. apply wp_bind in H. exact H. Qed.

Lemma wp_exit w t (Q : unit -> Watch -> Prop) : objects w (running w) = Live t -> Q tt (set_object (running w) (Closed (closed t)) w) -> wp (happens Exit) Q w.
Proof using. intros E HQ. apply wp_bind. unfold wp at 1, get. rewrite E. by apply wp_modify. Qed.

Lemma ok_exit w t : watch_ok w -> admissible Exit w -> objects w (running w) = Live t -> watch_ok (set_object (running w) (Closed (closed t)) w).
Proof using. intros Hok (H1 & H2 & u & Hu & Hst) E. apply ok_close; try done. rewrite E in Hu. by injection Hu as ->. Qed.

(** ** A healthy system *)

(** Fewer than sixty seconds without the idle thread, [k] of them behind us. *)
Fixpoint prompt (k : Z) (hs : list happening) : Prop :=
  match hs with
  | [] => True
  | Second :: hs' => k + 1 < SYSWATCH_EXCEPT_TIMEOUT /\ prompt (k + 1) hs'
  | Switch to :: hs' => prompt (if to =? idle then 0 else k) hs'
  | _ :: hs' => prompt k hs'
  end.

Lemma prompt_less hs : forall j k, j <= k -> prompt k hs -> prompt j hs.
Proof.
  induction hs as [|h hs IH]; intros j k Hj Hp; [done|]. destruct h; cbn [prompt] in *.
  - destruct (to =? idle); [done | by eapply IH].
  - destruct Hp as [H1 H2]. split; [lia|]. eapply IH; [|exact H2]. lia.
  - by eapply IH.
  - by eapply IH.
  - by eapply IH.
Qed.

(** The hook while nothing is suspected. *)
Lemma wp_hook_waiting w to t (Q : unit -> Watch -> Prop) :
  watch_ok w -> op_step w = 0 -> objects w to = Live t ->
  (to <> idle -> Q tt w) -> (current_priority t = 31 -> watch_ok (set_sec_cnt 0 w) -> Q tt (set_sec_cnt 0 w)) -> wp (syswatch_thread_switch_hook (running w) to) Q w.
Proof using.
  intros Hok H0 Hto HQ1 HQ2. apply wp_bind, wp_thread_at; [apply Hok|]. intros f Hf. apply wp_bind, wp_thread_at; [by eapply live_readable|]. intros t' Ht.
  assert (t' = t) as -> by (rewrite Hto in Ht; destruct Ht as [[=]|[=]]; done).
  pose proof (wo_prio _ _ _ Hok (running w) f Hf) as [Hpf _].
  assert (Hid : to = idle -> current_priority t = 31).
  { intros ->. destruct (wo_idle _ _ _ Hok) as (ti & Ei & Hp). rewrite Hto in Ei. by injection Ei as ->. }
  destruct (Z.ltb_spec (current_priority t) (current_priority f)) as [Hlt|Hge]; [apply wp_ret, HQ1; intros E; specialize (Hid E); lia|].
  change (RT_THREAD_PRIORITY_MAX - 1) with 31. destruct (Z.eqb_spec (current_priority t) 31) as [H31|H31].
  - apply wp_bind. unfold wp at 1, get. rewrite H0. change (0 =? 0) with true. cbv iota. apply wp_modify, HQ2; [done|]. by apply ok_sec.
  - apply wp_bind. unfold wp at 1, get. rewrite H0. change (negb (0 =? 1)) with true. cbv iota. apply wp_ret, HQ1. intros E. by apply H31, Hid.
Qed.

(** [quiet] promises that no thread ends by itself; [threads] are then still there. *)
Record healthy (hc : list (syswatch_event * Z)) (quiet : Prop) (threads : Z -> Prop) (hs : list happening) w : Prop := {
  hl_ok : watch_ok w; hl_step : op_step w = 0; hl_calls : hook_calls w = hc; hl_prompt : prompt (sec_cnt w) hs;
  hl_quiet : quiet -> Exit ∉ hs; hl_alive : quiet -> forall a, threads a -> exists t, objects w a = Live t
}.

Lemma healthy_step hc quiet threads h hs w : admissible h w -> healthy hc quiet threads (h :: hs) w -> wp (happens h) (fun _ w' => healthy hc quiet threads hs w') w.
Proof.
  intros Ha [Hok H0 Hc Hp Hq Hl]. assert (Hq' : quiet -> Exit ∉ hs) by (intros q E; apply (Hq q); by right).
  destruct h as [to| | |a|a s p]; cbn [SyswatchSpec.admissible Syswatch.happens prompt] in *.
  - destruct Ha as [t Ht]. apply wp_bind, wp_gets, wp_bind. pose proof (wo_sec _ _ _ Hok). eapply wp_hook_waiting; [done | done | exact Ht | |].
    + intros Hti. apply wp_modify. rewrite (proj2 (Z.eqb_neq to idle) Hti) in Hp. split; try done. eapply ok_running; [done | exact Ht | by intros].
    + intros _ Hok'. apply wp_modify. split; try done; [eapply ok_running; [done | exact Ht | cbn; by rewrite H0]|].
      cbn. eapply prompt_less; [|exact Hp]. destruct (to =? idle); lia.
  - destruct Hp as [Hk Hp]. apply wp_bind, wp_modify, wp_bind. unfold wp at 1, get. cbn [op_step set_wdt_calls]. rewrite H0. change (0 =? 0) with true. cbv iota.
    apply wp_bind. eapply (wp_check self idle); [by apply ok_wdt | done | |].
    + intros _ Hok'. apply wp_ret. by split.
    + cbn. unfold SYSWATCH_EXCEPT_TIMEOUT in *. intros. lia.
  - pose proof Ha as (_ & _ & t & Et & _). eapply wp_exit; [exact Et|]. split; try done; [by apply ok_exit|]. intros q. exfalso. apply (Hq q). left.
  - destruct Ha as (Hrun & t & Ho & _). apply wp_modify. split; try done; [by eapply ok_reclaim|]. intros q x Hx.
    destruct (Hl q x Hx) as [u Hu]. exists u. rewrite set_object_other; [done | congruence].
  - destruct Ha as ([t Ht] & Hp' & Hi). eapply (wp_touch self reads_static); [exact Ht|]. split; try done; [by apply ok_touch|]. intros q x Hx.
    destruct (Z.eq_dec x a) as [->|]; [rewrite set_object_same; by eexists | rewrite set_object_other by done; by apply Hl].
Qed.

(** ** A thread that keeps the processor *)

Definition heard w : bool * list (syswatch_event * Z) := (event_hook w, hook_calls w).

Section Hog.
Context (a p : Z) (ta : rt_thread) (Hp : p < 31) (Has : a <> self).

(** Only threads of a higher priority interrupt it. *)
Definition below w (x : Z) : Prop := exists t, holds_thread (objects w x) t /\ current_priority t <= p /\ (current_priority t = p -> x = a).

Definition busy (h : happening) w : Prop :=
  match h with
  | Switch to => (exists t, objects w to = Live t) /\ below w to /\ running w <> to
  | Second => running w = self
  | Exit => admissible Exit w /\ running w <> a
  | Reclaim _ => False
  | Touch x s q => exists t, objects w x = Live t /\ q = current_priority t
  end.

Record hogged (st k : Z) (susp : option Z -> Prop) w : Prop := {
  hg_ok : watch_ok w; hg_step : op_step w = st; hg_sec : sec_cnt w = k;
  hg_live : exists s, objects w a = Live (touched ta s p); hg_run : below w (running w);
  hg_susp : susp (lowest_thread w); hg_below x : st = 1 -> lowest_thread w = Some x -> below w x
}.

Definition switched (h : happening) : bool := match h with Switch to => to =? a | _ => false end.

Lemma hog_not_idle st k susp w : hogged st k susp w -> a <> idle.
Proof. intros [Hok _ _ [s Hl] _ _ _] ->. destruct (wo_idle _ _ _ Hok) as (ti & E & H31). rewrite Hl in E. injection E as <-. cbn in H31. lia. Qed.

Lemma below_close w w' x y t : holds_thread (objects w y) t -> (forall z, z <> y -> objects w' z = objects w z) -> (exists t', objects w' y = Closed t' /\ current_priority t' = current_priority t) -> below w x -> below w' x.
Proof using.
  intros Hy Ho (t' & E' & Hc) (u & Hu & H1 & H2). destruct (Z.eq_dec x y) as [->|Hxy]; [|by exists u; rewrite Ho].
  exists t'. rewrite E'. split; [by right|]. assert (t = u) as -> by (unfold holds_thread in *; destruct Hy as [Hy|Hy], Hu as [Hu|Hu]; congruence). by rewrite Hc.
Qed.

(** The end of another thread. *)
Lemma hog_exit st k susp w (Q : unit -> Watch -> Prop) :
  hogged st k susp w -> busy Exit w -> (forall w', hogged st k susp w' -> room w' = room w -> wait_resume_slist w' = wait_resume_slist w -> heard w' = heard w -> Q tt w') ->
  wp (happens Exit) Q w.
Proof.
  intros [Hok H1 H2 [s H3] H5 H6 H7] (Hae & Ha) HQ. pose proof Hae as (Hs & Hi & t & Et & Hst). eapply wp_exit; [exact Et|].
  assert (Hb : forall x, below w x -> below (set_object (running w) (Closed (closed t)) w) x).
  { intros x. apply (below_close w _ x (running w) t); [by left | intros z Hz; by apply set_object_other |].
    exists (closed t). by rewrite set_object_same. }
  apply HQ; try done. split; try done.
  - by apply ok_exit.
  - exists s. rewrite set_object_other; [exact H3 | congruence].
  - by apply Hb.
  - intros x Hx Hlx. by apply Hb, H7.
Qed.

(** A change of state. *)
Lemma hog_touch st k susp x s q w (Q : unit -> Watch -> Prop) :
  hogged st k susp w -> busy (Touch x s q) w -> (forall w', hogged st k susp w' -> room w' = room w -> wait_resume_slist w' = wait_resume_slist w -> heard w' = heard w -> Q tt w') ->
  wp (happens (Touch x s q)) Q w.
Proof.
  intros [Hok H1 H2 [s0 H3] H5 H6 H7] (t & Et & ->) HQ. eapply (wp_touch self reads_static); [exact Et|]. set (w' := set_object _ _ w).
  assert (Hb : forall y, below w y -> below w' y).
  { intros y (u & Hu & Hu1). destruct (Z.eq_dec y x) as [->|Hy]; [|exists u; unfold w'; by rewrite set_object_other].
    exists (touched t s (current_priority t)). unfold w'. rewrite set_object_same. split; [by left|]. rewrite Et in Hu. destruct Hu as [[= <-]|[=]]. exact Hu1. }
  apply HQ; try done. split; try done.
  - apply ok_touch; try done; [apply (wo_prio _ _ _ Hok x t); by left|]. intros ->. destruct (wo_idle _ _ _ Hok) as (ti & Ei & Hi). congruence.
  - destruct (Z.eq_dec a x) as [->|Hx]; [exists s | exists s0; unfold w'; by rewrite set_object_other]. unfold w'. rewrite set_object_same.
    rewrite Et in H3. by injection H3 as ->.
  - by apply Hb.
  - intros y Hy Hly. by apply Hb, H7.
Qed.

(** *** Nobody suspected yet *)

Lemma hog_waiting h k w (Q : unit -> Watch -> Prop) :
  hogged 0 k (fun _ => True) w -> busy h w -> seconds [h] + k < 60 ->
  (forall w', hogged 0 (k + seconds [h]) (fun _ => True) w' -> room w' = room w -> wait_resume_slist w' = wait_resume_slist w -> heard w' = heard w -> Q tt w') ->
  wp (happens h) Q w.
Proof.
  intros Hh Hb Hk HQ. pose proof Hh as [Hok H1 H2 [s H3] H5 H6 H7]. destruct h as [to| | |x|x r q]; cbn [busy seconds Z.add] in *.
  - destruct Hb as ([t Ht] & Hbe & Hne). rewrite Z.add_0_r in HQ. apply wp_bind, wp_gets, wp_bind. eapply wp_hook_waiting; [done | done | exact Ht | |].
    + intros Hti. apply wp_modify, HQ; try done. split; try done; [by eapply ok_running | by exists s].
    + intros H31 _. exfalso. destruct Hbe as (u & Hu & Hu1 & _). rewrite Ht in Hu. destruct Hu as [[= <-]|[=]]. lia.
  - apply wp_bind, wp_modify, wp_bind. unfold wp at 1, get. cbn [op_step set_wdt_calls]. rewrite H1. change (0 =? 0) with true. cbv iota.
    apply wp_bind. eapply (wp_check self idle); [by apply ok_wdt | done | |].
    + intros _ Hok'. apply wp_ret, HQ; try done. split; try done; [cbn; lia | by exists s].
    + cbn. unfold SYSWATCH_EXCEPT_TIMEOUT in *. intros. lia.
  - rewrite Z.add_0_r in HQ. by eapply hog_exit.
  - done.
  - rewrite Z.add_0_r in HQ. by eapply hog_touch.
Qed.

(** The minute is over. *)
Lemma hog_minute w (Q : unit -> Watch -> Prop) :
  hogged 0 59 (fun _ => True) w -> running w = self ->
  (forall w', hogged 1 0 (fun _ => True) w' -> room w' = room w -> wait_resume_slist w' = wait_resume_slist w -> heard w' = heard w -> Q tt w') ->
  wp (happens Second) Q w.
Proof.
  intros [Hok H1 H2 [s H3] H5 H6 H7] Hrun HQ. apply wp_bind, wp_modify, wp_bind. unfold wp at 1, get. cbn [op_step set_wdt_calls]. rewrite H1. change (0 =? 0) with true. cbv iota.
  apply wp_bind. eapply (wp_check self idle); [by apply ok_wdt | done | |].
  - cbn. unfold SYSWATCH_EXCEPT_TIMEOUT. intros. lia.
  - intros _ Hok'. apply wp_bind, wp_modify, wp_modify, HQ; try done. split; try done; [|by exists s]. apply ok_to_1; [done|]. cbn. by rewrite Hrun.
Qed.

(** *** Confirming *)

(** The hook: the suspect stays among the threads of the system, and once the hog was
    switched to it is the suspect. *)
Lemma hog_switch to k (seen : bool) w (Q : unit -> Watch -> Prop) :
  hogged 1 k (fun l => seen = true -> l = Some a) w -> busy (Switch to) w ->
  (forall w', hogged 1 k (fun l => seen || (to =? a) = true -> l = Some a) w' -> room w' = room w -> wait_resume_slist w' = wait_resume_slist w -> heard w' = heard w -> Q tt w') ->
  wp (happens (Switch to)) Q w.
Proof.
  intros Hh ([t Ht] & Hbe & Hne) HQ. pose proof Hh as [Hok H1 H2 [s H3] H5 H6 H7]. apply wp_bind, wp_gets, wp_bind.
  assert (Hpt : current_priority t <= p /\ (current_priority t = p -> to = a)).
  { destruct Hbe as (u & Hu & Hu1). rewrite Ht in Hu. destruct Hu as [[= <-]|[=]]. done. }
  assert (Hta : to = a -> current_priority t = p) by (intros ->; rewrite Ht in H3; by injection H3 as ->).
  assert (Hni : to <> idle).
  { intros ->. destruct (wo_idle _ _ _ Hok) as (ti & Ei & H31). rewrite Ht in Ei. injection Ei as <-. lia. }
  (* the cases end in a suspect *)
  assert (Hend : forall l, (forall x, l = Some x -> below w x /\ usable w x /\ x <> idle) -> (seen || (to =? a) = true -> l = Some a) ->
    wp (modify (set_running to)) Q (set_lowest l w)).
  { intros l Hl Hs. apply wp_modify, HQ; try done. split; try done; [|by exists s|by intros x _ Hx; destruct (Hl x Hx)].
    eapply ok_running; [|exact Ht | done]. destruct l as [x|]; [destruct (Hl x eq_refl) as (_ & L2 & L3); by apply ok_lowest | by apply ok_no_lowest]. }
  assert (Hsame : (seen || (to =? a) = true -> lowest_thread w = Some a) -> wp (modify (set_running to)) Q w).
  { intros Hs. replace w with (set_lowest (lowest_thread w) w) by (by destruct w). apply Hend; [|done].
    intros x Hx. destruct (wo_lowest _ _ _ Hok x H1 Hx). split; [by apply H7 | done]. }
  assert (Hto : wp (modify (set_running to)) Q (set_lowest (Some to) w) \/ (seen = true /\ to <> a)).
  { destruct (Z.eq_dec to a) as [->|Hta']; [left | destruct seen; [by right | left]]; apply Hend; try (by intros x [= <-]; split; [|split; [eapply live_usable|]]); try done.
    cbn. by rewrite (proj2 (Z.eqb_neq to a)). }
  apply wp_bind, wp_thread_at; [apply Hok|]. intros f Hf. apply wp_bind, wp_thread_at; [by eapply live_readable|]. intros t' Ht'.
  assert (t' = t) as -> by (rewrite Ht in Ht'; destruct Ht' as [[=]|[=]]; done). clear Ht'.
  assert (Hpf : current_priority f <= p /\ (current_priority f = p -> running w = a)).
  { destruct H5 as (u & Hu & Hu1). assert (f = u) as -> by (unfold holds_thread in *; destruct Hf as [E|E], Hu as [E'|E']; congruence). done. }
  destruct (Z.ltb_spec (current_priority t) (current_priority f)) as [Hlt|Hge].
  { apply wp_ret, Hsame. destruct (Z.eqb_spec to a) as [E|E]; [specialize (Hta E); lia | by rewrite orb_false_r]. }
  change (RT_THREAD_PRIORITY_MAX - 1) with 31. rewrite (proj2 (Z.eqb_neq (current_priority t) 31)) by lia.
  apply wp_bind. unfold wp at 1, get. rewrite H1. change (negb (1 =? 1)) with false. cbv iota. destruct (lowest_thread w) as [x|] eqn:El.
  - destruct (wo_lowest _ _ _ Hok x H1 El) as [Hrx Hxi]. apply wp_bind, wp_thread_at; [by apply usable_readable|]. intros l Hl.
    assert (Hpl : current_priority l <= p /\ (current_priority l = p -> x = a)).
    { destruct (H7 x eq_refl eq_refl) as (u & Hu & Hu1). assert (l = u) as -> by (unfold holds_thread in *; destruct Hl as [E|E], Hu as [E'|E']; congruence). done. }
    assert (Hxa : x = a -> current_priority l = p).
    { intros ->. rewrite H3 in Hl. destruct Hl as [[= <-]|[=]]. done. }
    destruct (Z.ltb_spec (current_priority l) (current_priority t)) as [Hlt|Hle].
    { apply wp_modify. destruct Hto as [Hto|[Hs Hn]]; [exact Hto|]. exfalso. specialize (H6 Hs). injection H6 as ->. specialize (Hxa eq_refl). lia. }
    assert (Hkeep : seen || (to =? a) = true -> Some x = Some a).
    { destruct (Z.eqb_spec to a) as [E|E]; [|rewrite orb_false_r; exact H6]. intros _. f_equal. apply Hpl. specialize (Hta E). lia. }
    destruct (Z.ltb_spec (current_priority t) (current_priority l)); [by apply wp_ret, Hsame|].
    destruct (Z.eqb_spec (current_priority t) (current_priority f)) as [Heq|]; [|by apply wp_ret, Hsame].
    destruct (Z.eqb_spec (Z.land (stat f) RT_THREAD_STAT_MASK) RT_THREAD_RUNNING) as [Hst|]; [|by apply wp_ret, Hsame]. apply wp_modify, Hend.
    + intros y [= <-]. split; [done|]. split; [by apply (yields_usable self idle w f)|]. intros Hri. by apply (wo_busy _ _ _ Hok Hri).
    + intros Hs. specialize (Hkeep Hs). injection Hkeep as ->. specialize (Hxa eq_refl). f_equal. apply Hpf. lia.
  - apply wp_modify. destruct Hto as [Hto|[Hs Hn]]; [exact Hto|]. by specialize (H6 Hs).
Qed.

Lemma hog_confirming h k seen w (Q : unit -> Watch -> Prop) :
  hogged 1 k (fun l => seen = true -> l = Some a) w -> busy h w -> seconds [h] + k < 15 ->
  (forall w', hogged 1 (k + seconds [h]) (fun l => seen || switched h = true -> l = Some a) w' -> room w' = room w -> wait_resume_slist w' = wait_resume_slist w -> heard w' = heard w -> Q tt w') ->
  wp (happens h) Q w.
Proof.
  intros Hh Hb Hk HQ. destruct h as [to| | |x|x r q]; cbn [seconds switched Z.add] in *; rewrite ?Z.add_0_r, ?orb_false_r in HQ.
  - by eapply hog_switch.
  - destruct Hh as [Hok H1 H2 [s H3] H5 H6 H7].
    apply wp_bind, wp_modify, wp_bind. unfold wp at 1, get. cbn [op_step set_wdt_calls]. rewrite H1. change (1 =? 0) with false. change (1 =? 1) with true. cbv iota.
    apply wp_bind. eapply (wp_check self idle); [by apply ok_wdt | done | |].
    + intros _ Hok'. apply wp_ret, HQ; try done. split; try done; [cbn; lia | by exists s].
    + cbn. unfold SYSWATCH_EXCEPT_CONFIRM_TMO in *. intros. lia.
  - by eapply hog_exit.
  - done.
  - by eapply hog_touch.
Qed.
(** *** The two phases *)

Definition like w0 w : Prop := room w = room w0 /\ wait_resume_slist w = wait_resume_slist w0 /\ heard w = heard w0.

Lemma like_next w0 w w' : like w0 w -> room w' = room w -> wait_resume_slist w' = wait_resume_slist w -> heard w' = heard w -> like w0 w'.
Proof using. intros (L1 & L2 & L3) E1 E2 E3. split; [congruence|]. split; congruence. Qed.

Lemma like_trans w0 w1 w2 : like w0 w1 -> like w1 w2 -> like w0 w2.
Proof using. intros (L1 & L2 & L3) (M1 & M2 & M3). split; [congruence|]. split; congruence. Qed.

Lemma seconds_cons h hs : seconds (h :: hs) = seconds [h] + seconds hs.
Proof using. destruct h; cbn [seconds]; lia. Qed.

Lemma wp_waiting hs k w (Q : unit -> Watch -> Prop) :
  hogged 0 k (fun _ => True) w -> allowed busy w hs -> seconds hs + k = 59 ->
  (forall w', hogged 0 59 (fun _ => True) w' -> like w w' -> Q tt w') -> wp (happen hs) Q w.
Proof.
  intros Hh Ha Hk HQ. apply (wp_happen busy (fun hs w' => exists j, hogged 0 j (fun _ => True) w' /\ seconds hs + j = 59 /\ like w w')); [|exact Ha | by exists k|].
  - intros h hs' w1 Hb (j & Hj & Hs & Hl). rewrite seconds_cons in Hs. pose proof (seconds_nonneg hs'). eapply hog_waiting; [exact Hj | exact Hb | lia |].
    intros w2 H2 E1 E2 E3. exists (j + seconds [h]). split; [exact H2|]. split; [lia | by eapply like_next].
  - intros w' (j & Hj & Hs & Hl). cbn [seconds] in Hs. replace j with 59 in Hj by lia. by apply HQ.
Qed.

Lemma wp_confirming hs w (Q : unit -> Watch -> Prop) :
  hogged 1 0 (fun _ => True) w -> allowed busy w hs -> seconds hs = 14 -> existsb switched hs = true ->
  (forall w', hogged 1 14 (fun l => l = Some a) w' -> like w w' -> Q tt w') -> wp (happen hs) Q w.
Proof.
  intros Hh Ha Hk He HQ.
  apply (wp_happen busy (fun hs w' => exists j seen, hogged 1 j (fun l => seen = true -> l = Some a) w' /\ seconds hs + j = 14 /\ seen || existsb switched hs = true /\ like w w')); [|exact Ha| |].
  - intros h hs' w1 Hb (j & seen & Hj & Hs & Hsn & Hl). rewrite seconds_cons in Hs. pose proof (seconds_nonneg hs'). eapply hog_confirming; [exact Hj | exact Hb | lia |].
    intros w2 H2 E1 E2 E3. exists (j + seconds [h]), (seen || switched h). split; [exact H2|]. split; [lia|]. split; [|by eapply like_next].
    cbn [existsb] in Hsn. by rewrite orb_assoc in Hsn.
  - exists 0, false. destruct Hh. split; [by split|]. by split; [lia|].
  - intros w' (j & seen & Hj & Hs & Hsn & Hl). cbn [seconds existsb] in *. rewrite orb_false_r in Hsn. replace j with 14 in Hj by lia. apply HQ; [|done].
    destruct Hj. split; auto.
Qed.

(** The last second. *)
Lemma wp_stop_hog w (Q : unit -> Watch -> Prop) :
  hogged 1 14 (fun l => l = Some a) w -> running w = self ->
  (forall w' t, watch_ok w' -> objects w' a = Closed t -> hook_calls w' = hook_calls w ++ told w SYSWATCH_EVENT_THREAD_KILL a ->
     wait_resume_slist w' = wait_resume_slist w ++ saved w a ta -> op_step w' = 1 -> sec_cnt w' = 0 -> lowest_thread w' = None -> Q tt w') -> wp (happens Second) Q w.
Proof.
  intros Hh Hrun HQ. pose proof (hog_not_idle _ _ _ _ Hh) as Hni. destruct Hh as [Hok H1 H2 [s H3] H5 H6 H7].
  apply wp_bind, wp_modify, wp_bind. unfold wp at 1, get. cbn [op_step set_wdt_calls]. rewrite H1. change (1 =? 0) with false. change (1 =? 1) with true. cbv iota.
  apply wp_bind. eapply (wp_check self idle); [by apply ok_wdt | done | cbn; unfold SYSWATCH_EXCEPT_CONFIRM_TMO; intros; lia |]. intros _ Hok'.
  apply wp_bind, wp_gets. cbn [lowest_thread set_sec_cnt set_wdt_calls]. rewrite H6. apply wp_bind.
  eapply wp_resolve; [exact Hok' | exact H1 | exact Hrun | eapply live_usable; exact H3 | done | done |].
  intros w' t Hw Ht E1 E2 E4 E5 E6 [t' E7]. cbn in Ht. rewrite H3 in Ht. destruct Ht as [[= <-]|[=]].
  apply wp_modify. apply (HQ _ t'); [exact Hw | exact E7 | exact E5 | exact E6 | cbn; by rewrite E1 | exact E4 | done].
Qed.
End Hog.

(** ** Starting anew *)

(** What the second step keeps. *)
Record resuming (ms : list thread_msg) (k : Z) w0 w : Prop := {
  rm_ok : watch_ok w; rm_step : op_step w = 2; rm_sec : sec_cnt w = k; rm_waiting : wait_resume_slist w = ms;
  rm_hook : event_hook w = event_hook w0; rm_calls : hook_calls w = hook_calls w0; rm_fresh : fresh w = fresh w0
}.

Lemma wp_hook_resuming w to t (Q : unit -> Watch -> Prop) :
  watch_ok w -> op_step w = 2 -> objects w to = Live t -> Q tt w -> wp (syswatch_thread_switch_hook (running w) to) Q w.
Proof using.
  intros Hok H2 Hto HQ. apply wp_bind, wp_thread_at; [apply Hok|]. intros f Hf. apply wp_bind, wp_thread_at; [by eapply live_readable|]. intros t' _.
  destruct (current_priority t' <? current_priority f); [by apply wp_ret|].
  destruct (current_priority t' =? _); apply wp_bind; unfold wp at 1, get; rewrite H2; by apply wp_ret.
Qed.

(** The idle thread runs while threads are stopped. *)
Lemma wp_to_idle w : watch_ok w -> op_step w = 1 -> wait_resume_slist w <> [] -> wp (happens (Switch idle)) (fun _ w' => resuming (wait_resume_slist w) 0 w w') w.
Proof using.
  intros Hok H1 Hw. destruct (wo_idle _ _ _ Hok) as (ti & Ei & H31). apply wp_bind, wp_gets, wp_bind.
  apply wp_bind, wp_thread_at; [apply Hok|]. intros f Hf. apply wp_bind, wp_thread_at; [by eapply live_readable|]. intros t Ht.
  assert (t = ti) as -> by (rewrite Ei in Ht; destruct Ht as [[=]|[=]]; done). destruct (wo_prio _ _ _ Hok (running w) f Hf) as [Hpf _].
  rewrite H31, (proj2 (Z.ltb_ge 31 (current_priority f))) by lia. change (31 =? RT_THREAD_PRIORITY_MAX - 1) with true. cbv iota.
  apply wp_bind. unfold wp at 1, get. rewrite H1. change (1 =? 0) with false. change (1 =? 1) with true. cbv iota. apply wp_bind, wp_modify, wp_modify, wp_modify.
  destruct (wait_resume_slist w) as [|m ms] eqn:E; [done|].
  split; try done. eapply ok_running; [apply ok_to_2, ok_sec; done | exact Ei | done].
Qed.

Lemma resuming_step ms k w0 h w : resuming ms k w0 w -> admissible h w -> seconds [h] + k < 15 -> wp (happens h) (fun _ w' => resuming ms (k + seconds [h]) w0 w') w.
Proof.
  intros [Hok H2 Hk Hw Hh Hc Hf] Ha Hs. destruct h as [to| | |a|a s p]; cbn [SyswatchSpec.admissible Syswatch.happens seconds Z.add] in *; rewrite ?Z.add_0_r.
  - destruct Ha as [t Ht]. apply wp_bind, wp_gets, wp_bind. eapply wp_hook_resuming; [done | done | exact Ht|]. apply wp_modify. split; try done.
    eapply ok_running; [done | exact Ht | by rewrite H2].
  - apply wp_bind, wp_modify, wp_bind. unfold wp at 1, get. cbn [op_step set_wdt_calls]. rewrite H2. change (2 =? 0) with false. change (2 =? 1) with false. change (2 =? 2) with true. cbv iota.
    apply wp_bind. eapply (wp_check self idle); [by apply ok_wdt | done | |].
    + intros _ Hok'. apply wp_ret. split; try done. cbn. lia.
    + cbn. unfold SYSWATCH_EXCEPT_RESUME_DLY. intros. lia.
  - pose proof Ha as (_ & _ & t & Et & _). eapply wp_exit; [exact Et|]. split; try done. by apply ok_exit.
  - destruct Ha as (Hrun & t & Ho & _). apply wp_modify. split; try done. by eapply ok_reclaim.
  - destruct Ha as ([t Ht] & Hp' & Hi). eapply (wp_touch self reads_static); [exact Ht|]. split; try done. by apply ok_touch.
Qed.

Lemma wp_resuming ms hs k w0 w (Q : unit -> Watch -> Prop) :
  resuming ms k w0 w -> allowed admissible w hs -> seconds hs + k = 14 -> (forall w', resuming ms 14 w0 w' -> Q tt w') -> wp (happen hs) Q w.
Proof.
  intros Hr Ha Hk HQ. apply (wp_happen admissible (fun hs w' => exists j, resuming ms j w0 w' /\ seconds hs + j = 14)); [|exact Ha | by exists k|].
  - intros h hs' w1 Hh (j & Hj & Hs). rewrite (seconds_cons h hs') in Hs. pose proof (seconds_nonneg hs'). pose proof (resuming_step ms j w0 h w1 Hj Hh ltac:(lia)) as H1.
    apply wp_Some in H1 as ([] & w2 & E & H2). unfold wp. rewrite E. exists (j + seconds [h]). split; [done | lia].
  - intros w' (j & Hj & Hs). cbn [seconds] in Hs. replace j with 14 in Hj by lia. by apply HQ.
Qed.

(** The messages become threads, in order. *)
Lemma restarts_all ms : forall w w' new f,
  restarts w ms w' -> fresh w = map Some new ++ f -> length new = length ms -> NoDup new ->
  hook_calls w' = hook_calls w ++ flat_map (told w SYSWATCH_EVENT_THREAD_RESUMED) new /\
  (forall x, x ∉ new -> objects w' x = objects w x) /\ Forall2 (fun m a => objects w' a = Live (new_thread (msg_made m) 0 false)) ms new.
Proof using.
  induction ms as [|m ms IH]; intros w w' [|a new] f Hr Hf Hl Hn; try discriminate Hl; inversion Hr; subst.
  - by rewrite app_nil_r.
  - cbn [map app] in Hf. apply NoDup_cons in Hn as [Hna Hn]. destruct (type_read_same w m) as (Y1 & Y2 & Y3 & Y4 & _).
    match goal with H : restarted _ _ _ |- _ => destruct H as [a' f' E|f' E|E]; rewrite Y1, Hf in E; try discriminate E; injection E as <- <- end.
    match goal with H : restarts _ _ _ |- _ => eapply IH in H as (H1 & H2 & H3); [|reflexivity | by injection Hl | exact Hn] end.
    split; [|split].
    + rewrite H1. cbn [hook_calls set_waiting set_calls set_object set_fresh]. unfold told. cbn [event_hook set_waiting set_calls set_object set_fresh].
      rewrite Y2, Y3. by rewrite <- app_assoc.
    + intros x Hx. rewrite H2; [|intros E; apply Hx; by right]. cbn. rewrite (proj2 (Z.eqb_neq x a)); [by rewrite Y4|]. intros ->. apply Hx. left.
    + constructor; [|exact H3]. rewrite H2 by done. cbn. by rewrite Z.eqb_refl.
Qed.

(** The last second. *)
Lemma wp_start_anew ms w0 w new f (Q : unit -> Watch -> Prop) :
  resuming ms 14 w0 w -> running w = self -> fresh w0 = map Some new ++ f -> length new = length ms ->
  (forall w', watch_ok w' -> op_step w' = 0 -> wait_resume_slist w' = [] -> hook_calls w' = hook_calls w0 ++ flat_map (told w0 SYSWATCH_EVENT_THREAD_RESUMED) new ->
     Forall2 (fun m a => objects w' a = Live (new_thread (msg_made m) 0 false)) ms new -> Q tt w') -> wp (happens Second) Q w.
Proof.
  intros [Hok H2 Hk Hw Hh Hc Hf] Hrun Hnew Hlen HQ.
  apply wp_bind, wp_modify, wp_bind. unfold wp at 1, get. cbn [op_step set_wdt_calls]. rewrite H2. change (2 =? 0) with false. change (2 =? 1) with false. change (2 =? 2) with true. cbv iota.
  apply wp_bind. eapply (wp_check self idle); [by apply ok_wdt | done | cbn; unfold SYSWATCH_EXCEPT_RESUME_DLY; intros; lia |]. intros _ Hok'.
  apply wp_bind, wp_bind. unfold wp at 1, get. eapply (wp_resume_loop self idle); [exact Hread | exact Hok' | exact H2 | reflexivity | done |].
  intros w' Hok2 Hr Hw' _ Hrun'. cbn [wait_resume_slist set_sec_cnt set_wdt_calls] in Hr. rewrite Hw in Hr.
  assert (Hnd : NoDup new).
  { destruct (wo_fresh _ _ _ Hok) as [H _]. unfold coming in H. rewrite Hf, Hnew, omap_app in H. apply NoDup_app in H as [H _].
    replace (omap id (map Some new)) with new in H; [done|]. clear. induction new as [|a new IH]; [done|]. cbn. by rewrite <- IH. }
  destruct (restarts_all ms _ _ new f Hr) as (E1 & _ & E3); [cbn; congruence | done | done |].
  apply wp_modify, HQ; [by apply ok_to_0 | done | exact Hw' | | exact E3]. cbn in E1 |- *. rewrite E1, Hc. f_equal. unfold told. cbn. by rewrite Hh.
Qed.
End Runs.
