(* ===== verification/SyswatchPlay.v ===== *)
(** * What the thread watch promises

    No assertion fails, and of freed objects only the type word of a stopped thread is
    read; a system whose idle thread runs within a minute is left alone; a thread that
    keeps the processor is stopped; the stopped threads start anew. *)

From Stdlib Require Import String.
From S2P Require Import Prelude Syswatch SyswatchSpec SyswatchRun.
Open Scope list_scope.

Section Checks.
Context (self idle : Z) (reads_static : Z -> bool).

Definition liveb (w : Watch) (x : Z) (P : rt_thread -> bool) : bool := match objects w x with Live t => P t | _ => false end.

Definition admissibleb (h : happening) (w : Watch) : bool :=
  match h with
  | Switch to => liveb w to (fun _ => true)
  | Second => running w =? self
  | Exit => negb (running w =? self) && negb (running w =? idle) && liveb w (running w) (fun t => negb (static t) || negb (op_step w =? 1))
  | Reclaim a => (running w =? idle) && match objects w a with Closed t => negb (static t) | _ => false end
  | Touch a s p => liveb w a (fun _ => true) && (p <=? 31) && (negb (a =? idle) || (p =? 31))
  end.

Lemma liveb_live w x P : liveb w x P = true -> exists t, objects w x = Live t /\ P t = true.
Proof. unfold liveb. destruct (objects w x) as [t| |]; intros H; try discriminate H. by exists t. Qed.

Lemma admissibleb_ok h w : admissibleb h w = true -> admissible self idle h w.
Proof.
  destruct h as [to| | |a|a s p]; cbn.
  - intros (t & Ht & _)%liveb_live. by exists t.
  - by intros ->%Z.eqb_eq.
  - intros [[H1 H2]%andb_prop (t & Ht & Hs)%liveb_live]%andb_prop. apply negb_true_iff, Z.eqb_neq in H1. apply negb_true_iff, Z.eqb_neq in H2.
    split; [done|]. split; [done|]. exists t. split; [done|]. intros E1 E2. by rewrite E1, E2 in Hs.
  - intros [H1%Z.eqb_eq H2]%andb_prop. split; [done|]. destruct (objects w a) as [|t|]; try discriminate H2. exists t. split; [done|]. by apply negb_true_iff.
  - intros [[(t & Ht & _)%liveb_live H1]%andb_prop H2]%andb_prop. split; [by exists t|]. split; [lia|]. intros ->. rewrite Z.eqb_refl in H2. cbn in H2. lia.
Qed.

Definition busyb (a p : Z) (h : happening) (w : Watch) : bool :=
  match h with
  | Switch to => liveb w to (fun t => (current_priority t <? p) || (current_priority t =? p) && (to =? a)) && negb (running w =? to)
  | Second => running w =? self
  | Exit => admissibleb Exit w && negb (running w =? a)
  | Reclaim _ => false
  | Touch x s q => liveb w x (fun t => q =? current_priority t)
  end.

Lemma busyb_ok a p h w : busyb a p h w = true -> busy self idle a p h w.
Proof.
  destruct h as [to| | |x|x s q]; cbn [busyb busy].
  - intros [(t & Ht & Hp)%liveb_live Hr]%andb_prop. apply negb_true_iff, Z.eqb_neq in Hr. split; [by exists t|]. split; [|done].
    exists t. split; [by left|]. apply orb_prop in Hp as [Hp|[Hp Ha]%andb_prop]; [split; lia | split; [lia|]; intros _; by apply Z.eqb_eq].
  - by intros ->%Z.eqb_eq.
  - intros [H1 H2]%andb_prop. apply negb_true_iff, Z.eqb_neq in H2. split; [by apply admissibleb_ok | done].
  - done.
  - intros (t & Ht & Hq)%liveb_live. exists t. split; [done | lia].
Qed.

Fixpoint check (P : happening -> Watch -> bool) (w : Watch) (hs : list happening) : bool :=
  match hs with
  | [] => true
  | h :: hs' => P h w && match happens self reads_static h w with Some (_, w') => check P w' hs' | None => false end
  end.

Lemma check_allowed (P : happening -> Watch -> bool) (R : happening -> Watch -> Prop) hs : forall w,
  (forall h w, P h w = true -> R h w) -> check P w hs = true -> allowed self reads_static R w hs.
Proof.
  induction hs as [|h hs IH]; intros w HP H; [done|]. cbn [check] in H. apply andb_prop in H as [H1 H2]. split; [by apply HP|].
  intros w' E. rewrite E in H2. by apply IH.
Qed.
End Checks.

(** ** The promises *)

Lemma wp_elim (m : WM unit) (Q : Watch -> Prop) w : wp m (fun _ w' => Q w') w -> exists w', m w = Some (tt, w') /\ Q w'.
Proof. intros H. apply wp_Some in H as ([] & w' & E & H). by exists w'. Qed.

(** C26: whatever threads start, wait, end, are freed or switched to, and however the
    kernel lends them priorities, the hook and the state machine go on and fail no
    assertion of the kernel, and the invariant stays: the suspect can still be stopped,
    it is not the idle thread, and nothing waits to start anew unless a thread was
    stopped.  Of the freed objects they read one word, the type, of threads the watch
    has itself stopped; it must not read as that of a static object.  What is left out
    is a static thread that ends by itself while it is the suspect. *)
Theorem watch_safe self idle reads_static hs w :
  (forall a, reads_static a = false) -> self <> idle -> watch_ok self idle w -> allowed self reads_static (admissible self idle) w hs ->
  exists w', happen self reads_static hs w = Some (tt, w') /\ watch_ok self idle w' /\ forall a, a ∈ freed_reads w' -> a ∈ deleted w'.
Proof.
  intros Hread Hsi Hok Ha. apply wp_elim. apply (wp_happen self reads_static (admissible self idle) (fun _ => watch_ok self idle)); try done.
  - intros h hs' w1 Hh Hok1. by apply (wp_happens self idle).
  - intros w' Hok'. split; [done | apply Hok'].
Qed.

(** A system whose idle thread runs at least once a minute is left alone: nobody is
    stopped, suspected or started anew, and when no thread ends by itself all of them are
    still there. *)
Theorem healthy_untouched self idle reads_static hs w :
  self <> idle -> watch_ok self idle w -> op_step w = 0 -> prompt idle (sec_cnt w) hs -> allowed self reads_static (admissible self idle) w hs ->
  exists w', happen self reads_static hs w = Some (tt, w') /\ op_step w' = 0 /\ wait_resume_slist w' = [] /\ hook_calls w' = hook_calls w /\
    (Exit ∉ hs -> forall a t, objects w a = Live t -> exists t', objects w' a = Live t').
Proof.
  intros Hsi Hok H0 Hp Ha.
  cut (wp (happen self reads_static hs) (fun _ w' => healthy self idle (hook_calls w) (Exit ∉ hs) (fun a => exists t, objects w a = Live t) [] w') w).
  { intros H. apply wp_Some in H as ([] & w' & E & [Hok' H0' Hc _ _ Hl]). exists w'. split; [done|]. split; [done|]. split; [by apply (wo_rest _ _ _ Hok')|].
    split; [done|]. intros Hq a t Ht. apply (Hl Hq). by exists t. }
  apply (wp_happen self reads_static (admissible self idle) (fun hs' w' => healthy self idle (hook_calls w) (Exit ∉ hs) (fun a => exists t, objects w a = Live t) hs' w')); try done.
  intros h hs' w1. by apply healthy_step.
Qed.

(** C28: a thread that keeps the processor is stopped: when for sixty and another
    fifteen seconds nothing below its priority runs, whatever else starts, waits or ends
    above it, and it is switched to in the last fifteen, then it is closed, the hook is
    told, and, memory permitting, what it was made from is kept. *)
Theorem hog_stopped self idle reads_static a ta hs1 hs2 w :
  self <> idle -> a <> self -> watch_ok self idle w -> op_step w = 0 ->
  objects w a = Live ta -> current_priority ta < 31 -> below a (current_priority ta) w (running w) ->
  seconds hs1 + sec_cnt w = 59 -> seconds hs2 = 14 -> existsb (switched a) hs2 = true ->
  allowed self reads_static (busy self idle a (current_priority ta)) w (hs1 ++ Second :: hs2 ++ [Second]) ->
  exists w' t', happen self reads_static (hs1 ++ Second :: hs2 ++ [Second]) w = Some (tt, w') /\ watch_ok self idle w' /\ op_step w' = 1 /\
    objects w' a = Closed t' /\ hook_calls w' = hook_calls w ++ told w SYSWATCH_EVENT_THREAD_KILL a /\ wait_resume_slist w' = saved w a ta.
Proof.
  intros Hsi Has Hok H0 Hl Hp Hrun Hs1 Hs2 Hsw Ha. set (p := current_priority ta) in *.
  apply allowed_app in Ha as [Ha1 Ha2].
  assert (Hh : hogged self idle a p ta 0 (sec_cnt w) (fun _ => True) w).
  { split; try done. exists (stat ta). rewrite Hl. unfold p. by destruct ta. }
  assert (Hw1 : wp (happen self reads_static hs1) (fun _ w' => hogged self idle a p ta 0 59 (fun _ => True) w' /\ like w w') w).
  { eapply wp_waiting; [exact Hp | exact Has | exact Hh | exact Ha1 | exact Hs1 |]. intros w' H' Hlk. by split. }
  apply wp_Some in Hw1 as ([] & w1 & E1 & Hh1 & Hl1). specialize (Ha2 w1 E1) as [Hb Ha2].
  assert (Hw2 : wp (happens self reads_static Second) (fun _ w' => hogged self idle a p ta 1 0 (fun _ => True) w' /\ like w1 w') w1).
  { eapply hog_minute; [exact Hsi | exact Hh1 | exact Hb |]. by intros w' H ? ? ?. }
  apply wp_Some in Hw2 as ([] & w2 & E2 & Hh2 & Hl2). specialize (Ha2 w2 E2). apply allowed_app in Ha2 as [Ha3 Ha4].
  assert (Hw3 : wp (happen self reads_static hs2) (fun _ w' => hogged self idle a p ta 1 14 (fun l => l = Some a) w' /\ like w2 w') w2).
  { eapply wp_confirming; [exact Hsi | exact Hp | exact Has | exact Hh2 | exact Ha3 | exact Hs2 | exact Hsw |]. intros w' H' Hlk. by split. }
  apply wp_Some in Hw3 as ([] & w3 & E3 & Hh3 & Hl3). specialize (Ha4 w3 E3) as [Hb4 _].
  pose proof (like_trans w w1 w3 Hl1 (like_trans w1 w2 w3 Hl2 Hl3)) as (L1 & L2 & [= L3 L4]).
  cut (wp (happen self reads_static (hs1 ++ Second :: hs2 ++ [Second])) (fun _ w' => watch_ok self idle w' /\ op_step w' = 1 /\ (exists t', objects w' a = Closed t') /\
    hook_calls w' = hook_calls w ++ told w SYSWATCH_EVENT_THREAD_KILL a /\ wait_resume_slist w' = saved w a ta) w).
  { intros H. apply wp_Some in H as ([] & w' & E & G1 & G2 & (t' & G3) & G4 & G5). by exists w', t'. }
  apply wp_happen_app. unfold wp at 1. rewrite E1. apply wp_bind. unfold wp at 1. rewrite E2. apply wp_happen_app. unfold wp at 1. rewrite E3. apply wp_bind.
  eapply wp_stop_hog; [exact Hsi | exact Hp | exact Has | exact Hh3 | exact Hb4 |]. intros w' t G1 G2 G3 G4 G5 _ _. apply wp_ret.
  split; [exact G1|]. split; [exact G5|]. split; [by exists t|]. split; [rewrite G3, L4; unfold told; by rewrite L3|].
  rewrite G4, L2, (wo_rest _ _ _ Hok H0). unfold saved. by rewrite L1.
Qed.

(** The stopped threads start anew: once the idle thread runs, fifteen seconds
    later, whatever happens in between, each of them is created from what it was made
    of, in the order they were stopped, the hook is told, and the watch is back where
    it began. *)
Theorem stopped_restarted self idle reads_static hs new f w :
  (forall x, reads_static x = false) -> self <> idle -> watch_ok self idle w -> op_step w = 1 -> wait_resume_slist w <> [] ->
  fresh w = map Some new ++ f -> length new = length (wait_resume_slist w) -> seconds hs = 14 ->
  allowed self reads_static (admissible self idle) w (Switch idle :: hs ++ [Second]) ->
  exists w', happen self reads_static (Switch idle :: hs ++ [Second]) w = Some (tt, w') /\ watch_ok self idle w' /\ op_step w' = 0 /\ wait_resume_slist w' = [] /\
    hook_calls w' = hook_calls w ++ flat_map (told w SYSWATCH_EVENT_THREAD_RESUMED) new /\
    Forall2 (fun m a => objects w' a = Live (new_thread (msg_made m) 0 false)) (wait_resume_slist w) new.
Proof.
  intros Hread Hsi Hok H1 Hw Hf Hl Hs [_ Ha].
  assert (H0 : wp (happens self reads_static (Switch idle)) (fun _ w' => resuming self idle (wait_resume_slist w) 0 w w') w) by (by apply wp_to_idle).
  apply wp_Some in H0 as ([] & w1 & E1 & Hr1). specialize (Ha w1 E1). apply allowed_app in Ha as [Ha1 Ha2].
  assert (H2 : wp (happen self reads_static hs) (fun _ w' => resuming self idle (wait_resume_slist w) 14 w w') w1).
  { eapply wp_resuming; [exact Hr1 | exact Ha1 | lia | done]. }
  apply wp_Some in H2 as ([] & w2 & E2 & Hr2). destruct (Ha2 w2 E2) as [Hb _].
  apply (wp_elim (happen self reads_static (Switch idle :: hs ++ [Second]))).
  apply wp_bind. unfold wp at 1. rewrite E1. apply wp_happen_app. unfold wp at 1. rewrite E2. apply wp_bind.
  eapply wp_start_anew; [exact Hread | exact Hr2 | exact Hb | exact Hf | exact Hl |]. intros w' G1 G2 G3 G4 G5. by apply wp_ret.
Qed.

(** ** A system with a watch, an idle thread, a worker and a thread that loops *)

Definition demo_thread (e prio : Z) (st : bool) : rt_thread := mkThread (mkRecipe [120] e 7 512 prio 20) 4096 prio RT_THREAD_READY st.

Definition demo_objects (x : Z) : object :=
  if x =? 1 then Live (demo_thread 11 0 false) else if x =? 2 then Live (demo_thread 12 31 true) else
  if x =? 3 then Live (demo_thread 13 20 false) else if x =? 4 then Live (demo_thread 14 10 true) else Freed.

Definition demo : Watch := mkWatch 0 0 None [] true true demo_objects 3 [true; true] [Some 5; None] [] [] [] [].

Definition never : Z -> bool := fun _ => false.

(** What the demonstration's states have in common. *)
Lemma watched_ok w :
  objects w = demo_objects -> op_step w = 0 -> 0 <= sec_cnt w < 60 -> wait_resume_slist w = [] -> coming w = [5] -> freed_reads w = [] -> running w = 2 \/ running w = 3 -> watch_ok 1 2 w.
Proof.
  intros Ho H0 Hs Hw Hf Hfr Hr. split; rewrite ?Ho, ?H0; try done; [by left | by eexists | by eexists | | | | | |].
  - unfold readable. rewrite Ho. by destruct Hr as [-> | ->].
  - intros x t. unfold demo_objects. by destruct (x =? 1), (x =? 2), (x =? 3), (x =? 4).
  - intros x t Hx. assert (Hd : holds_thread (demo_objects x) t -> prio_ok t).
    { unfold demo_objects, holds_thread. destruct (x =? 1), (x =? 2), (x =? 3), (x =? 4); intros [[=]|[=]]; subst; by split. }
    by apply Hd.
  - rewrite Hw. by intros m Hm%elem_of_nil.
  - rewrite Hfr. by intros x Hx%elem_of_nil.
  - rewrite Hf. split; [apply NoDup_singleton|]. by intros x ->%list_elem_of_singleton.
Qed.

(** A second in which the loop runs, and one in which the idle thread does. *)
Definition looping : list happening := [Switch 1; Second; Switch 3; Touch 3 3 20; Switch 4; Switch 3].
Definition idling : list happening := [Switch 1; Second; Switch 4; Touch 4 2 15; Switch 2].
Definition times (n : nat) (hs : list happening) : list happening := concat (repeat hs n).

Definition demo_run1 : list happening := times 59 looping ++ [Switch 1].
Definition demo_run2 : list happening := Switch 3 :: times 14 looping ++ [Switch 1].
Definition demo_stopped : Watch := match happen 1 never (demo_run1 ++ Second :: demo_run2 ++ [Second]) demo with Some (_, w) => w | None => demo end.
Definition demo_run3 : list happening := Reclaim 3 :: times 14 idling ++ [Switch 1].

(** The loop is stopped, freed and made anew, which reads what was freed; then a static
    thread ends. *)
Definition demo_run : list happening :=
  demo_run1 ++ Second :: demo_run2 ++ Second :: Switch 2 :: demo_run3 ++ [Second; Switch 4; Exit; Switch 2].

Lemma watch_safe_witness : exists w', happen 1 never demo_run demo = Some (tt, w') /\ watch_ok 1 2 w' /\ forall a, a ∈ freed_reads w' -> a ∈ deleted w'.
Proof.
  apply watch_safe; [done | done | by apply watched_ok; try done; right |].
  apply (check_allowed 1 never (admissibleb 1 2)); [apply admissibleb_ok | by vm_compute].
Defined.

Lemma demo_reads : match happen 1 never demo_run demo with Some (_, w) => freed_reads w = [3] /\ deleted w = [3] | None => False end.
Proof. by vm_compute. Qed.

Lemma healthy_untouched_witness : exists w', happen 1 never (times 100 idling) demo = Some (tt, w') /\ op_step w' = 0 /\ wait_resume_slist w' = [] /\ hook_calls w' = [] /\
  (Exit ∉ times 100 idling -> forall a t, demo_objects a = Live t -> exists t', objects w' a = Live t').
Proof.
  apply (healthy_untouched 1 2 never (times 100 idling) demo); [done | by apply watched_ok; try done; right | done | vm_compute; intuition discriminate |].
  apply (check_allowed 1 never (admissibleb 1 2)); [apply admissibleb_ok | by vm_compute].
Defined.

Lemma hog_stopped_witness : exists w' t', happen 1 never (demo_run1 ++ Second :: demo_run2 ++ [Second]) demo = Some (tt, w') /\ watch_ok 1 2 w' /\ op_step w' = 1 /\
  objects w' 3 = Closed t' /\ hook_calls w' = [(SYSWATCH_EVENT_THREAD_KILL, 3)] /\ wait_resume_slist w' = [mkMsg 3 (mkRecipe [120] 13 7 512 20 20) 4096].
Proof.
  apply (hog_stopped 1 2 never 3 (demo_thread 13 20 false) demo_run1 demo_run2 demo); [done | done | by apply watched_ok; try done; right | done | done | done | | by vm_compute.. |].
  - exists (demo_thread 13 20 false). split; [by left|]. cbn. lia.
  - apply (check_allowed 1 never (busyb 1 2 3 20)); [apply busyb_ok | by vm_compute].
Defined.

Lemma stopped_restarted_witness : exists w', happen 1 never (Switch 2 :: demo_run3 ++ [Second]) demo_stopped = Some (tt, w') /\ watch_ok 1 2 w' /\ op_step w' = 0 /\
  wait_resume_slist w' = [] /\ hook_calls w' = hook_calls demo_stopped ++ flat_map (told demo_stopped SYSWATCH_EVENT_THREAD_RESUMED) [5] /\
  Forall2 (fun m a => objects w' a = Live (new_thread (msg_made m) 0 false)) (wait_resume_slist demo_stopped) [5].
Proof.
  apply (stopped_restarted 1 2 never demo_run3 [5] [None] demo_stopped); [done | done | | by vm_compute.. | ].
  - destruct hog_stopped_witness as (w' & t' & E & H & _). unfold demo_stopped. by rewrite E.
  - apply (check_allowed 1 never (admissibleb 1 2)); [apply admissibleb_ok | by vm_compute].
Defined.

(** ** What it does not promise *)

(** A static thread that ends by itself while it is the suspect has lost its type, so
    the kernel's assertion fails when it is stopped. *)
Lemma ended_suspect_asserts :
  let w := set_lowest (Some 4) (set_op_step 1 (set_sec_cnt 14 (set_object 4 (Closed (closed (demo_thread 14 10 true))) (set_running 1 demo)))) in
  happens 1 never Second w = None.
Proof. reflexivity. Qed.

(** Out of memory, the stopped thread never starts again. *)
Lemma forgotten_without_memory :
  let w := set_room [false] (set_lowest (Some 3) (set_op_step 1 (set_sec_cnt 14 (set_running 1 demo)))) in
  match happens 1 never Second w with Some (_, w') => wait_resume_slist w' = [] /\ hook_calls w' = [(SYSWATCH_EVENT_THREAD_KILL, 3)] | None => False end.
Proof. by vm_compute. Qed.

(** A stopped static thread comes back as a created one. *)
Lemma static_comes_back_dynamic :
  let w := set_waiting [mkMsg 4 (made (demo_thread 14 10 true)) 4096] (set_op_step 2 (set_sec_cnt 14 (set_object 4 (Closed (closed (demo_thread 14 10 true))) (set_running 1 demo)))) in
  match happens 1 never Second w with Some (_, w') => exists t, objects w' 5 = Live t /\ static t = false | None => False end.
Proof. vm_compute. by eexists. Qed.
