(* ===== verification/System.v ===== *)
(** * The running program

    The start of [main] ([src/applications/main.c]) and the threads, interrupts
    and timers it leaves running, one [event] for each stretch of code between
    two points where a thread waits; [step] runs the code of an event on the
    state of the whole program.  [reachable] is what any sequence of admissible
    events leads to. *)

From Stdlib Require Import String.
From S2P Require Import Prelude CStr McuTx McuRx Json JsonParse Cloud Flashwork RadioQueue Led World WifiApi WifiSpec Safe Register Decoder Heart Link Button Storage Ota Protocol ProtoSpec Update ProtoSafe.
Open Scope list_scope.

(** Where the supervisor waits: between two cycles; before the device at an
    index; for its answer.  Where the synchronisation waits: for the semaphore;
    in its first delay; in its second. *)
Inductive heart_place := Resting | Asking (num : Z) | Judging (num : Z).
Inductive sync_place := Idle | Delay1 | Delay2.

Record Gateway (E C : Type) := mkGateway {
  g_rx : Rx; g_keys : Keys; g_heart : heart_place; g_sync : sync_place; g_sys : Sys E C
}.
Arguments mkGateway {E C}. Arguments g_rx {E C}. Arguments g_keys {E C}. Arguments g_heart {E C}.
Arguments g_sync {E C}. Arguments g_sys {E C}.

Section Lenses.
Context {E C : Type}.
Definition put_heart (h : heart_place) (g : Gateway E C) := mkGateway (g_rx g) (g_keys g) h (g_sync g) (g_sys g).
Definition put_sync (y : sync_place) (g : Gateway E C) := mkGateway (g_rx g) (g_keys g) (g_heart g) y (g_sys g).
Definition put_line (x : Rx * Sys E C) (g : Gateway E C) := mkGateway (fst x) (g_keys g) (g_heart g) (g_sync g) (snd x).
Definition put_rx (r : Rx) (g : Gateway E C) := mkGateway r (g_keys g) (g_heart g) (g_sync g) (g_sys g).
Definition put_keys (x : Keys * World E) (g : Gateway E C) :=
  mkGateway (g_rx g) (fst x) (g_heart g) (g_sync g) (set_world (snd x) (g_sys g)).
Definition put_world (w : World E) (g : Gateway E C) :=
  mkGateway (g_rx g) (g_keys g) (g_heart g) (g_sync g) (set_world w (g_sys g)).
Definition g_world (g : Gateway E C) : World E := s_world (g_sys g).

#[global] Instance lens_rx : Lens (Gateway E C) Rx.
Proof. refine {| view := g_rx; over := put_rx |}; by (intros; repeat match goal with g : Gateway _ _ |- _ => destruct g end). Defined.
#[global] Instance lens_line : Lens (Gateway E C) (Rx * Sys E C).
Proof. refine {| view g := (g_rx g, g_sys g); over := put_line |}; by (intros; repeat match goal with g : Gateway _ _ |- _ => destruct g | x : Rx * _ |- _ => destruct x end). Defined.
#[global] Instance lens_g_world : Lens (Gateway E C) (World E).
Proof. refine {| view := g_world; over := put_world |}; by (intros; repeat match goal with g : Gateway _ _ |- _ => destruct g as [? ? ? ? [? ? ? ?]] end). Defined.
#[global] Instance lens_keys : Lens (Gateway E C) (Keys * World E).
Proof. refine {| view g := (g_keys g, g_world g); over := put_keys |}; by (intros; repeat match goal with g : Gateway _ _ |- _ => destruct g as [? ? ? ? [? ? ? ?]] | x : Keys * _ |- _ => destruct x end). Defined.
End Lenses.

(** ** The start *)

Section Start.
Context {E C : Type} `{EnvDefault E} `{Chips C}.

(** [main], when the two buttons are not both held; [word] is the id in flash. *)
Definition main_init (word : Z) : M (Rx * World E) unit :=
  run on_world (on led_Init);
  run on_world (on LoadDevice2Memory);
  run on_world (on (load_Self_Id word));
  WiFi_Init.

(** The variables as the C start-up code leaves them: all but the store and the
    chips begins anew. *)
Definition cold (e : E) : World E :=
  mkWorld tx0 (mkFlash dev0 e) radio0 [] remote0 sync0 wifi0.

Definition power_on (word : Z) (e : E) (c : C) : option (Gateway E C) :=
  match main_init word (rx0, cold e) with
  | Some (_, (r, w)) =>
      Some (mkGateway r keys0 Resting Idle (mkSys w (mkOta c 0 0 None) (mkFirm 0 0 0) false))
  | None => None
  end.
End Start.

(** ** The events *)

Inductive event :=
| UartByte (v : Z)
| UartService (malloc_ok : Z -> bool) (junk : Z)
| RadioPacket (junk : Message) (rssi : Z) (buffer : list Z) (len : Z)
| RadioTurn
| HeartTurn
| SyncTurn
| SyncExpires
| ResetExpires
| TestExpires
| Button (e : press)
| KeysTurn
| PowerCycle (word : Z).

Section Events.
Context {E C : Type} `{EnvDefault E} `{Chips C} (pow10 : double -> double).
Abbreviation GM := (M (Gateway E C)).

(** [heart_callback]: the thread runs to its next delay. *)
Definition heart_step : GM unit :=
  do h <- gets g_heart;
  match h with
  | Resting => modify (put_heart (Asking 1))
  | Asking num =>
      do n <- on (dev_num (E := E));
      if num <=? n then
        do asked <- on (heart_ask (E := E) num);
        modify (put_heart (if asked : bool then Judging num else Asking (u8 (num + 1))))
      else modify (put_heart Resting)
  | Judging num =>
      do num' <- on (heart_judge (E := E) num);
      modify (put_heart (Asking num'))
  end.

(** [Sync_t_Callback]. *)
Definition sync_step : GM unit :=
  do p <- gets g_sync;
  match p with
  | Idle =>
      do y <- gets (fun g => w_sync (g_world g));
      if 0 <? Sync_sem y then run on (Sync_taken (E := E)); modify (put_sync Delay1) else ret tt
  | Delay1 =>
      do b <- on (Sync_send (E := E));
      modify (put_sync (if b : bool then Delay2 else Idle))
  | Delay2 => run on (Sync_check (E := E)); modify (put_sync Idle)
  end.

(** A timer's callback is called only while the timer runs. *)
Definition expire (running : World E -> bool) (callback : M (World E) unit) : GM unit :=
  do b <- gets (fun g => running (g_world g));
  if b : bool then on callback else ret tt.

Definition live_step (e : event) : GM unit :=
  match e with
  | UartByte v => on (uart_receive_input v)
  | UartService malloc_ok junk => on (wifi_uart_service (data_handle (E := E) (C := C) pow10 malloc_ok junk))
  | RadioPacket junk rssi buffer len => on (rf433_rx_callback (E := E) junk rssi buffer len)
  | RadioTurn => on (on (W := World E) RadioDequeue_step)
  | HeartTurn => heart_step
  | SyncTurn => sync_step
  | SyncExpires => expire (fun w => Sync_timer (w_sync w)) Sync_Timeout_Callback
  | ResetExpires => expire (fun w => wifi_rst_timer (w_wifi w)) Reset_WiFi_Callback
  | TestExpires => expire (fun w => wifi_test_timer (w_wifi w)) wifi_test_callback
  | Button p => modify (fun g => put_keys (on_press p (g_keys g), g_world g) g)
  | KeysTurn => on (Key_Reponse_turn (E := E))
  | PowerCycle _ => ret tt
  end.

(** Between a reset and the next start nothing runs. *)
Definition step (e : event) (g : Gateway E C) : option (Gateway E C) :=
  match e with
  | PowerCycle word => power_on word (env (w_flash (g_world g))) (chips (s_ota (g_sys g)))
  | _ => if halted (g_sys g) then Some g
         else match live_step e g with Some (_, g') => Some g' | None => None end
  end.
End Events.

(** ** What an event may be *)

Section Admissible.
Context {E C : Type} `{EnvDefault E} `{Chips C} (pow10 : double -> double).

(** Frames the program can take one after the other. *)
Inductive served (malloc_ok : Z -> bool) (junk : Z) : Sys E C -> list (list Z) -> Prop :=
| served_nil s : served malloc_ok junk s []
| served_cons s cmd ver p fs :
    (halted s = false -> acceptable pow10 s cmd p) -> zlen p < 65536 ->
    (forall buf s', carries cmd p buf -> data_handle pow10 malloc_ok junk buf s = Some (tt, s') ->
       served malloc_ok junk s' fs) ->
    served malloc_ok junk s (frame cmd ver p :: fs).

Definition admissible (e : event) (g : Gateway E C) : Prop :=
  match e with
  | UartService malloc_ok junk =>
      exists fs rest, parse (take (Z.to_nat BUFSZ) (pending (g_rx g) ++ queue (g_rx g))) = Some (fs, rest)
        /\ served malloc_ok junk (g_sys g) fs
  | RadioPacket _ _ buffer len =>
      zlen buffer = 64 /\ 0 <= len < 64 /\ (exists j, buffer !! j = Some 0 /\ (2 <= j)%nat)
      /\ lone_feed buffer len = false
  | KeysTurn => acted (g_keys g) <> Some FactoryGesture
  | _ => True
  end.

Inductive reachable : Gateway E C -> Prop :=
| reach_start word e c g : synced dev0 e -> power_on word e c = Some g -> reachable g
| reach_step e g g' : reachable g -> admissible e g -> step pow10 e g = Some g' -> reachable g'.
End Admissible.

(** ** The invariant *)

Definition heart_ok (h : heart_place) : Prop :=
  match h with Resting => True | Asking num => 1 <= num <= MaxSupport | Judging num => 1 <= num < MaxSupport end.

Record gateway_ok {E C} `{EnvDefault E} (g : Gateway E C) : Prop := {
  gateway_rx : rx_ok (g_rx g);
  gateway_heart : heart_ok (g_heart g);
  gateway_sys : sys_ok (g_sys g)
}.

Section Kept.
Context {E C : Type} `{EnvDefault E} `{Chips C} (pow10 : double -> double).
Implicit Types (g : Gateway E C) (w : World E).

Abbreviation keeps := (fun (_ : unit) (g' : Gateway E C) => gateway_ok g').

(** The parts a running program is made of. *)
Definition live g : Prop := rx_ok (g_rx g) /\ heart_ok (g_heart g) /\ run_ok (g_sys g).

Lemma live_ok g : live g -> gateway_ok g.
Proof. intros (? & ? & ?). split; [done | done | by right]. Qed.

Lemma live_world g w : live g -> world_ok w -> live (put_world w g).
Proof. intros (? & ? & Hr) Hw. split_and!; [done | done | by apply run_ok_world]. Qed.

Lemma live_heart g h : live g -> heart_ok h -> live (put_heart h g).
Proof. by intros (? & ? & ?) ?. Qed.

Lemma live_sync g y : live g -> live (put_sync y g).
Proof. done. Qed.

(** An operation on [World], then the rest. *)
Lemma wp_live {A} (R : A -> Prop) (m : M (World E) A) (Q : A -> Gateway E C -> Prop) g :
  safe R m -> live g -> (forall a g', live g' -> R a -> Q a g') -> wp (on m) Q g.
Proof.
  intros Hm Hg HQ. apply wp_on. eapply wp_conseq; [apply Hm, Hg|].
  intros a w [Hw Ha]. apply HQ; [by apply live_world | done].
Qed.

Lemma wp_live_end (m : M (World E) unit) g : safe any m -> live g -> wp (on m) keeps g.
Proof. intros Hm Hg. apply (wp_live any); [done | done|]. intros a g' Hg' _. by apply live_ok. Qed.

(** *** The serial line *)

Lemma keeps_byte v g : live g -> wp (on (uart_receive_input v)) keeps g.
Proof.
  intros (Hr & Hh & Hs). apply wp_on, McuRx.wp_receive; [apply Hr|]. intros r' Hr' [E1 E2] _.
  apply live_ok. split_and!; [|done..]. split; [done|]. cbn. rewrite E1, E2. apply Hr.
Qed.

Lemma served_handled malloc_ok junk fs bufs : forall s,
  Forall2 list.prefix fs bufs -> sys_ok s -> served pow10 malloc_ok junk s fs ->
  exists s', handle_all (data_handle pow10 malloc_ok junk) bufs s = Some s' /\ sys_ok s'.
Proof.
  revert bufs. induction fs as [|f fs IH]; intros bufs s Hf Hs Hd.
  { apply Forall2_nil_inv_l in Hf as ->. by exists s. }
  apply Forall2_cons_inv_l in Hf as (b & bufs' & [k Hb] & Hf & ->).
  inversion Hd as [|? cmd ver p ? Ha Hp Hrest]; subst.
  assert (Hc : carries cmd p (frame cmd ver p ++ k)) by (split; [done | by exists ver, k]).
  assert (Hrun : wp (data_handle pow10 malloc_ok junk (frame cmd ver p ++ k)) (fun _ s' => sys_ok s') s).
  { destruct (halted s) eqn:Hh.
    - unfold data_handle. apply wp_bind. unfold wp, get. by rewrite Hh.
    - destruct Hs as [[Hx _]|Hr]; [congruence|]. by apply (wp_acceptable _ _ _ cmd p); [| |apply Ha|]. }
  apply wp_Some in Hrun as ([] & s' & Hrun & Hs'). cbn [handle_all]. rewrite Hrun.
  apply IH; [done | done | by apply (Hrest _ _ Hc)].
Qed.

Lemma keeps_service malloc_ok junk g :
  admissible pow10 (UartService malloc_ok junk) g -> live g ->
  wp (on (wifi_uart_service (data_handle pow10 malloc_ok junk))) keeps g.
Proof.
  intros (fs & rest & Hp & Hs) (Hr & Hh & Hk). apply wp_on. apply parses_iff in Hp.
  destruct (service_spec (data_handle pow10 malloc_ok junk) (g_rx g) fs rest Hr Hp) as (bufs & r' & Hf & Hr' & _ & _ & Hrun).
  destruct (served_handled malloc_ok junk fs bufs (g_sys g) Hf (or_intror Hk) Hs) as (s' & Hall & Hs').
  unfold wp. cbn [view lens_line]. rewrite (Hrun _ _ Hall). by split.
Qed.

(** *** The radio *)

Lemma keeps_packet junk rssi buffer len g :
  admissible pow10 (RadioPacket junk rssi buffer len) g -> live g ->
  wp (on (rf433_rx_callback junk rssi buffer len)) keeps g.
Proof.
  intros (Hb & Hl & (j & Hj & Hj') & Hz) Hg. apply wp_live_end; [|done].
  by apply (safe_packet junk rssi buffer len j).
Qed.

Lemma safe_dequeue : safe (E := E) any (on RadioDequeue_step).
Proof. apply safe_radio, dequeue_ok. Qed.

(** *** The supervisor and the synchronisation *)

Lemma safe_heart_ask num : index num -> safe (E := E) any (heart_ask num).
Proof.
  intros Hn. unfold heart_ask. apply (safe_bind slot_ok); [by apply safe_dev_slot|]. intros s _.
  apply safe_if; intros _; [|by apply safe_ret].
  apply safe_run; [by apply safe_set_slot|]. apply safe_run; [apply safe_radio, max_power_ok|].
  apply safe_run; [apply safe_gateway | by apply safe_ret].
Qed.

Lemma safe_heart_judge num :
  1 <= num < MaxSupport -> safe (E := E) (fun n => 1 <= n <= MaxSupport) (heart_judge num).
Proof.
  unfold MaxSupport. intros Hn. assert (Hi : index num) by (unfold index, MaxSupport; lia). unfold heart_judge.
  assert (Hnext : 1 <= u8 (num + 1) <= 50) by (rewrite u8_small; unfold is_byte; lia).
  pose proof (safe_set_slot (E := E)) as Hset.
  apply safe_run; [apply safe_radio, normal_power_ok|].
  apply (safe_bind slot_ok); [by apply safe_dev_slot|]. intros s _.
  apply safe_if; intros _; [|apply safe_if; intros _].
  - apply safe_run; [by apply Hset|]. apply safe_run; [by apply Hset|].
    apply safe_run; [apply safe_Heart_Upload | by apply safe_ret].
  - apply safe_run; [by apply Hset|]. apply safe_ret. lia.
  - apply safe_run; [|apply safe_run; [by apply Hset | by apply safe_ret]].
    apply safe_if; intros _; [by apply Hset|]. apply safe_run; [by apply Hset|].
    apply safe_void, safe_Flash_Set_Heart.
Qed.

Lemma keeps_heart g : live g -> wp heart_step keeps g.
Proof.
  intros Hg. unfold heart_step. apply wp_bind, wp_gets. pose proof Hg as (_ & Hh & _).
  destruct (g_heart g) as [|num|num] eqn:Eh; cbn [heart_ok] in Hh.
  - apply wp_modify, live_ok, live_heart; [done|]. by cbn.
  - apply wp_bind, (wp_live (fun n => 0 <= n < MaxSupport)); [apply safe_dev_num | done|].
    intros n g1 Hg1 Hn. destruct (Z.leb_spec num n) as [Hle|Hgt].
    2: { by apply wp_modify, live_ok, live_heart. }
    apply wp_bind, (wp_live any); [apply safe_heart_ask; unfold index; lia | done|].
    intros b g2 Hg2 _. apply wp_modify, live_ok, live_heart; [done|].
    destruct b; cbn; [lia|]. unfold MaxSupport in *. rewrite u8_small by (unfold is_byte; lia). lia.
  - apply wp_bind. eapply wp_live; [by apply safe_heart_judge | done|].
    intros num' g1 Hg1 Hn. by apply wp_modify, live_ok, live_heart.
Qed.

Lemma keeps_sync g : live g -> wp sync_step keeps g.
Proof.
  intros Hg. unfold sync_step. apply wp_bind, wp_gets. destruct (g_sync g).
  - apply wp_bind, wp_gets. destruct (0 <? _); [|by apply wp_ret, live_ok].
    apply wp_bind, (wp_live any); [by apply safe_sync | done|].
    intros u g1 Hg1 _. by apply wp_modify, live_ok, live_sync.
  - apply wp_bind, (wp_live any); [apply safe_Sync_send | done|].
    intros b g1 Hg1 _. by apply wp_modify, live_ok, live_sync.
  - apply wp_bind, (wp_live any); [apply safe_Sync_check | done|].
    intros u g1 Hg1 _. by apply wp_modify, live_ok, live_sync.
Qed.

(** *** The timers and the buttons *)

Lemma safe_mcu_reset : safe (E := E) any mcu_reset_wifi.
Proof. apply safe_run; [apply safe_link_set | by apply (safe_empty WIFI_RESET_CMD)]. Qed.

#[local] Hint Resolve safe_link safe_link_set safe_mcu_reset safe_rf_led_factory safe_radio_enqueue safe_led_all : gw.

Lemma safe_Reset_Callback : safe (E := E) any Reset_WiFi_Callback.
Proof. unfold Reset_WiFi_Callback, mcu_get_reset_wifi_flag. safe_tac. Qed.

Lemma safe_test_callback : safe (E := E) any wifi_test_callback.
Proof.
  unfold wifi_test_callback, factory_refresh. pose proof (safe_empty (E := E) WIFI_TEST_CMD).
  apply (safe_bind any); [apply safe_link|]. intros f _. apply safe_run; [apply safe_if; intros _; safe_tac|].
  apply safe_run; [apply safe_radio_enqueue|]. apply safe_run; [apply safe_link_set|].
  by apply (safe_empty WIFI_TEST_CMD).
Qed.

Lemma keeps_expire running m g : safe (E := E) any m -> live g -> wp (expire running m) keeps g.
Proof.
  intros Hm Hg. unfold expire. apply wp_bind, wp_gets.
  destruct (running _); [by apply wp_live_end | by apply wp_ret, live_ok].
Qed.

Lemma safe_learn : safe (E := E) any (on Start_Learn).
Proof.
  apply safe_radio. intros r Hr. unfold wp. change Start_Learn with (send_entry learn_entry).
  rewrite send_entry_spec; [|unfold entry_ok, learn_entry, is_byte; cbn; lia]. exact Hr.
Qed.

Lemma safe_key_action k0 l0 k1 l1 l01 :
  (k0 = false -> k1 = false -> l01 = true -> False) -> safe (E := E) any (key_action (k0, l0, k1, l1, l01)).
Proof.
  intros Hf. unfold key_action. destruct k0; [by apply safe_ret|]. destruct k1; [by apply safe_ret|].
  destruct l01; [by destruct Hf|]. destruct l0; [apply safe_learn|]. destruct l1; [|by apply safe_ret].
  apply safe_run; [|apply safe_led_all]. unfold Reset_WiFi.
  apply safe_run; [apply safe_mcu_reset|]. apply safe_run; apply safe_link_set.
Qed.

Lemma keeps_keys g : acted (g_keys g) <> Some FactoryGesture -> live g -> wp (on Key_Reponse_turn) keeps g.
Proof.
  intros Ha Hg. apply wp_on. unfold Key_Reponse_turn. apply wp_bind. unfold wp at 1, get. cbn [view lens_keys fst].
  rewrite take_all_spec. apply wp_bind, wp_modify, wp_zoom. cbn [fst snd].
  eapply wp_conseq; [apply safe_key_action; [|apply Hg]|].
  - intros E1 E2 E3. apply Ha. unfold acted. by rewrite E1, E2, E3.
  - intros u w [Hw _]. apply live_ok. cbn [over lens_keys]. destruct Hg as (? & ? & Hr).
    split_and!; [done | done | by apply run_ok_world].
Qed.
End Kept.

(** ** Starting *)

Section Starting.
Context {E C : Type} `{EnvDefault E} `{Chips C}.
Implicit Types (w : World E).

(** What every store the program can leave behind is loaded as. *)
Definition started (d : Device_Info) (e : E) (g : Gateway E C) : Prop :=
  live g /\ halted (g_sys g) = false /\ env (w_flash (g_world g)) = e
  /\ bindings (table (g_world g)) = bindings d.

Lemma wp_on_world {A} (m : M (World E) A) (Q : A -> Rx * World E -> Prop) x :
  wp m (fun a w => Q a (fst x, w)) (snd x) -> wp (on_world m) Q x.
Proof. intros HQ. unfold on_world. by apply wp_zoom. Qed.

Lemma wp_on_rx (f : Rx -> Rx) (Q : unit -> Rx * World E -> Prop) x :
  Q tt (f (fst x), snd x) -> wp (on_rx (modify f)) Q x.
Proof. intros HQ. unfold on_rx. by apply wp_zoom, wp_modify. Qed.

Lemma wp_set (f : Wifi -> Wifi) (Q : unit -> Rx * World E -> Prop) x :
  Q tt (fst x, set_wifi (f (w_wifi (snd x))) (snd x)) -> wp (on_world (link_set f)) Q x.
Proof. intros HQ. by apply wp_on_world, wp_link_set. Qed.

Lemma wp_WiFi_Init (Q : unit -> Rx * World E -> Prop) r w :
  rx_ok r -> rx_in r = 0 -> world_ok w ->
  (forall r' w', rx_ok r' -> world_ok w' -> w_flash w' = w_flash w -> Q tt (r', w')) ->
  wp WiFi_Init Q (r, w).
Proof.
  intros Hr Hi Hw HQ. unfold WiFi_Init, wifi_power_off, wifi_protocol_init, wifi_service_init.
  apply wp_bind, wp_set, wp_bind, wp_bind, wp_on_rx, wp_bind, wp_on_rx, wp_bind.
  apply wp_on_world, wp_on, wp_modify, wp_set, wp_on_world, wp_bind, wp_link_set, wp_link_set.
  apply HQ; [|destruct Hw; by split | done]. destruct Hr as ((Hl & _) & Hp & Hx).
  split; [|done]. split_and!; cbn; (done || lia).
Qed.

Lemma power_on_ok word d e c :
  table_ok d -> synced d e -> exists g, power_on word e c = Some g /\ started d e g.
Proof.
  intros Ht Hs. unfold power_on.
  assert (Hrun : wp (main_init word) (fun _ x => rx_ok (fst x) /\ world_ok (snd x)
    /\ env (w_flash (snd x)) = e /\ bindings (table (snd x)) = bindings d) (rx0, cold e)).
  { apply wp_bind, wp_on_world, wp_leds; [apply led_all_appends|]. intros l.
    apply wp_bind, wp_on_world, wp_on. eapply wp_conseq; [by apply (reload_ok d e)|].
    intros u f (Hf & He & Hb). apply wp_bind, wp_on_world, wp_on, wp_modify.
    apply wp_WiFi_Init.
    - split; [split_and!; [done | done..] | split; done].
    - done.
    - split; [done | exact Hf | | |]; [|split; done | done].
      destruct radio0_empty as [(? & ? & ?) ?]. by repeat split.
    - intros r' w' Hr' Hw' E1. cbn [fst snd]. unfold table. rewrite E1. by split_and!. }
  apply wp_Some in Hrun as ([] & [r w] & -> & Hr & Hw & He & Hb). eexists. split; [reflexivity|].
  split_and!; [|done..]. split_and!; [done | done | split; [done | by intros Hx]].
Qed.
End Starting.

(** ** Reachable states *)

Section Invariant.
Context {E C : Type} `{EnvDefault E} `{Chips C} (pow10 : double -> double).
Implicit Types (g : Gateway E C).

Lemma keeps_live e g :
  admissible pow10 e g -> live g -> wp (live_step pow10 e) (fun _ g' => gateway_ok g') g.
Proof.
  intros Ha Hg. destruct e; cbn [live_step].
  - by apply keeps_byte.
  - by apply keeps_service.
  - by apply (keeps_packet pow10).
  - apply wp_live_end; [apply safe_dequeue | done].
  - by apply keeps_heart.
  - by apply keeps_sync.
  - apply keeps_expire; [apply safe_Sync_Timeout | done].
  - apply keeps_expire; [apply safe_Reset_Callback | done].
  - apply keeps_expire; [apply safe_test_callback | done].
  - by apply wp_modify, live_ok, live_world; [|apply Hg].
  - by apply keeps_keys.
  - by apply wp_ret, live_ok.
Qed.

Lemma ok_bootable g : gateway_ok g -> exists d, table_ok d /\ synced d (env (w_flash (g_world g))).
Proof. intros [_ _ [[_ Hb]|Hr]]; [exact Hb | by apply run_bootable]. Qed.

Lemma step_live e g :
  halted (g_sys g) = false -> (forall word, e <> PowerCycle word) ->
  step pow10 e g = match live_step pow10 e g with Some (_, g') => Some g' | None => None end.
Proof. intros Hh Hne. unfold step. rewrite Hh. destruct e; try done. by destruct (Hne word). Qed.

Lemma step_ok e g : gateway_ok g -> admissible pow10 e g -> exists g', step pow10 e g = Some g' /\ gateway_ok g'.
Proof.
  intros Hg Ha. assert (Hc : (exists word, e = PowerCycle word) \/ forall word, e <> PowerCycle word).
  { destruct e; try (right; discriminate). left. by exists word. }
  destruct Hc as [[word ->]|Hne].
  - destruct (ok_bootable g Hg) as (d & Ht & Hs).
    destruct (power_on_ok word d _ (chips (s_ota (g_sys g))) Ht Hs) as (g' & Hrun & Hl & _).
    exists g'. split; [exact Hrun | by apply live_ok].
  - destruct (halted (g_sys g)) eqn:Hh.
    + exists g. split; [|done]. unfold step. rewrite Hh. destruct e; try done. by destruct (Hne word).
    + rewrite step_live by done. destruct Hg as [Hr Hp [[Hx _]|Hs]]; [congruence|].
      pose proof (keeps_live e g Ha ltac:(by split_and!)) as Hw.
      apply wp_Some in Hw as ([] & g' & -> & Hg'). by exists g'.
Qed.

Lemma reachable_ok g : reachable pow10 g -> gateway_ok g.
Proof.
  induction 1 as [word e c g Hs Hrun | e g g' _ IH Ha Hrun].
  - destruct (power_on_ok word dev0 e c table_ok_dev0 Hs) as (g' & Hrun' & Hl & _).
    assert (g' = g) as -> by congruence. by apply live_ok.
  - destruct (step_ok e g IH Ha) as (g1 & Hrun' & Hg'). congruence.
Qed.
End Invariant.

(** ** Properties *)

(** C1: from the first start on an empty store, whatever the radio, the module, the
    buttons and the timers do within [admissible], in whatever order the threads
    run and however often the power fails, the program is in a good state, and the
    next admissible event ends without an access outside an object: the device
    table stays well formed and in step with its stored copy, the queues and buffers
    stay within their bounds.  Left out by [admissible] are calls of the serial service
    on a header whose length wraps ([service_total] shows that these read outside the
    buffer) or on a command that is not [acceptable] to its handler, radio packets that
    do not fit their zero-terminated buffer or are a [lone_feed], and the gesture of
    the factory reset. *)
Theorem gateway_invariant {E C} `{EnvDefault E} `{Chips C} pow10 (g : Gateway E C) e :
  reachable pow10 g -> admissible pow10 e g ->
  gateway_ok g /\ exists g', step pow10 e g = Some g' /\ gateway_ok g'.
Proof.
  intros Hg Ha. pose proof (reachable_ok pow10 g Hg) as Hok. split; [done|]. by apply step_ok.
Qed.

(** C21: when the power fails between two events of a running program, the next
    start finds the same devices, each bound to the same main unit. *)
Theorem power_cycle_restores {E C} `{EnvDefault E} `{Chips C} pow10 (g : Gateway E C) word :
  reachable pow10 g -> halted (g_sys g) = false ->
  exists g', step pow10 (PowerCycle word) g = Some g' /\ reachable pow10 g'
    /\ bindings (table (g_world g')) = bindings (table (g_world g)).
Proof.
  intros Hg Hh. destruct (reachable_ok pow10 g Hg) as [_ _ [[Hx _]|[Hw _]]]; [congruence|].
  destruct (world_flash _ Hw) as [Ht Hs].
  destruct (power_on_ok word _ _ (chips (s_ota (g_sys g))) Ht Hs) as (g' & Hrun & _ & _ & _ & Hb).
  exists g'. split; [exact Hrun|]. split; [|exact Hb].
  by apply (reach_step pow10 (PowerCycle word) g).
Qed.

Lemma bindings_dev0 : bindings dev0 = ∅.
Proof. by vm_compute. Qed.

(** Told by the module that the gateway was taken out of the account, the
    program stops and starts again: with the devices it had when it was only
    unbound, with none when its data are to be cleared; what else the module says
    in this command has no effect. *)
Theorem account_removal_restarts {E C} `{EnvDefault E} `{Chips C} pow10 malloc_ok junk (s : Sys E C) r rest buf word :
  halted s = false -> world_ok (s_world s) -> carries INFORM_DEV_DEV_DEL_CMD (r :: rest) buf ->
  exists s', data_handle pow10 malloc_ok junk buf s = Some (tt, s')
    /\ (r <> 0 -> r <> 3 -> s' = s)
    /\ (r = 0 \/ r = 3 -> halted s' = true
       /\ exists g, power_on word (env (w_flash (s_world s'))) (chips (s_ota s')) = Some g
          /\ bindings (table (g_world g)) = if r =? 3 then ∅ else bindings (table (s_world s))).
Proof.
  intros Hh Hw Hc. destruct (world_flash _ Hw) as [Ht Hs].
  assert (Hwp : wp (data_handle pow10 malloc_ok junk buf) (fun _ s' =>
    (r <> 0 -> r <> 3 -> s' = s) /\ (r = 0 \/ r = 3 -> halted s' = true
       /\ exists d, table_ok d /\ synced d (env (w_flash (s_world s')))
          /\ bindings d = if r =? 3 then ∅ else bindings (table (s_world s)))) s).
  { apply (wp_command _ _ _ _ _ _ _ _ Hh Hc).
    change (wp (do x <- byte_at buf DATA_START; inform_dev_del_status x) (fun _ s' =>
      (r <> 0 -> r <> 3 -> s' = s) /\ (r = 0 \/ r = 3 -> halted s' = true
       /\ exists d, table_ok d /\ synced d (env (w_flash (s_world s')))
          /\ bindings d = if r =? 3 then ∅ else bindings (table (s_world s)))) s).
    apply wp_bind, (wp_byte _ _ r); [by apply (carries_at _ _ _ 0 r Hc)|]. unfold inform_dev_del_status.
    destruct (Z.eqb_spec r 0) as [->|Hr0]; [|destruct (Z.eqb_spec r 3) as [->|Hr3]].
    - apply wp_modify. split; [done|]. intros _. split; [done|]. by exists (Global_Device (w_flash (s_world s))).
    - apply wp_bind, wp_in_world, wp_on, wp_modify, wp_modify. split; [done|]. intros _. split; [done|].
      exists dev0. split_and!; [apply table_ok_dev0 | apply default_synced | apply bindings_dev0].
    - apply wp_ret. split; [done | by intros []]. }
  apply wp_Some in Hwp as ([] & s' & Hrun & Hother & Hreset). exists s'. split; [done|]. split; [done|].
  intros Hr. destruct (Hreset Hr) as (Hx & d & Hd & Hsy & Hb). split; [done|].
  destruct (power_on_ok word d _ (chips (s_ota s')) Hd Hsy) as (g & Hon & _ & _ & _ & Hg).
  exists g. split; [exact Hon|]. by rewrite Hg.
Qed.

(** *** Examples *)

Lemma empty_synced : synced dev0 (∅ : gmap (list Z) (list Z)).
Proof. apply flash0_ok. Qed.

(** A gateway fresh from the factory hears the sensor of the example. *)
Lemma gateway_invariant_witness :
  exists g, power_on 0 (∅ : gmap (list Z) (list Z)) chip0 = Some g /\ gateway_ok g
    /\ exists g', step pow_one (RadioPacket no_message (-60) demo_packet 38) g = Some g' /\ gateway_ok g'.
Proof.
  destruct (power_on_ok 0 dev0 ∅ chip0 table_ok_dev0 empty_synced) as (g & Hrun & _).
  exists g. split; [exact Hrun|].
  apply (gateway_invariant pow_one g (RadioPacket no_message (-60) demo_packet 38)).
  - exact (reach_start pow_one 0 ∅ chip0 g empty_synced Hrun).
  - split; [vm_compute; reflexivity|]. split; [split; [intros Hc; discriminate Hc | reflexivity]|].
    split; [|reflexivity]. exists 63%nat. split; [vm_compute; reflexivity|].
    apply Nat.leb_le. vm_compute. reflexivity.
Defined.

Lemma power_cycle_restores_witness :
  exists g g', power_on 0 (∅ : gmap (list Z) (list Z)) chip0 = Some g
    /\ step pow_one (PowerCycle 7) g = Some g' /\ bindings (table (g_world g')) = bindings (table (g_world g)).
Proof.
  destruct (power_on_ok 0 dev0 ∅ chip0 table_ok_dev0 empty_synced) as (g & Hrun & _ & Hh & _).
  destruct (power_cycle_restores pow_one g 7) as (g' & Hstep & _ & Hb).
  - exact (reach_start pow_one 0 ∅ chip0 g empty_synced Hrun).
  - exact Hh.
  - exists g, g'. split; [exact Hrun|]. split; [exact Hstep | exact Hb].
Defined.

Lemma account_removal_restarts_witness :
  exists s', sys_run (frame INFORM_DEV_DEV_DEL_CMD 0 [3]) = Some (tt, s') /\ halted s' = true
    /\ exists g, power_on 0 (env (w_flash (s_world s'))) (chips (s_ota s')) = Some g
       /\ bindings (table (g_world g)) = ∅.
Proof.
  destruct (account_removal_restarts pow_one (fun _ => true) 0 sys0 3 []
    (frame INFORM_DEV_DEV_DEL_CMD 0 [3]) 0) as (s' & Hrun & _ & Hr).
  - reflexivity.
  - exact demo_ok.
  - split; [reflexivity|]. exists 0, []. rewrite app_nil_r. reflexivity.
  - exists s'. split; [exact Hrun|]. apply Hr. right. reflexivity.
Defined.
